(* ===== verification/_CoqProject ===== *)
-Q . S2P
Prelude.v
Threads.v
GoStd.v
GoTime.v
Ticker.v
GoFormat.v
Cron.v
Model.v
Json.v
Telemetry.v
Crypto.v
Labels.v
Graph.v
Engine.v
RateLimit.v
Float.v
Leader.v
Config.v
Migrate.v
Bootstrap.v
Redis.v
Repo.v
TestStore.v
Metrics.v
Gorm.v
Mysql.v
MemDB.v
World.v
Alert.v
Sample.v
Cache.v
Http.v
Records.v
Dispatch.v
Router.v
Lifecycle.v
Balance.v
Runtime.v
Trigger.v
Retry.v
Settle.v
OnTrigger.v
Events.v
TaskService.v
Auth.v
WorkerService.v
Race.v
Alive.v
Wire.v
InstanceService.v
Adapter.v
Tools.v
TaskRows.v
Gateway.v
Analysis.v
Memory.v
Upkeep.v
Agent.v
Stream.v
ChatGate.v
AIService.v
AIClient.v
Worker.v
WorkerProcess.v
EndToEnd.v
System.v
Process.v
Deployment.v
Production.v
