(* ===== verification/Prelude.v ===== *)
(** * A verification of the go-ai-scheduler task scheduler

    The program is a distributed task scheduler written in Go. A scheduler process keeps
    tasks, task instances and workers in repositories; several loops decide what to run
    (a polling trigger loop, a retry loop, a timing wheel with a heap); a router picks a
    worker and reserves a slot; a dispatch client sends the task over HTTP or gRPC; worker
    processes run tasks and report back, and the runtime service records results, frees
    slots, plans retries and makes downstream tasks due. An API process edits tasks on
    behalf of tenants, behind tokens and roles, and forwards to the other processes. An
    AI process analyses failures and gives advice with a language model, and runs a chat
    agent with tools over the same repositories. The repositories are MySQL tables;
    Redis holds a cache; one scheduler leads, by a lock in MySQL or in etcd.

    ** Files and what they model (paths under src/)

    Foundations
    - [Prelude]: results, the handler monad [prog], the relation [moves] with its hint
      database, wrap-around integers, list lemmas. [GoStd], [GoTime], [GoFormat]: what
      the code uses of Go's strings, strconv, errors, time with its calendar and RFC 3339.
      [Json]: encoding/json, with the round trip of encoding and decoding. [Crypto]:
      SHA-256, HMAC, base64url. [Float]: float64 with strconv's and fmt's conversions.
    - [Threads]: goroutines over a shared state, what holds in every interleaving, and how a
      goroutine is compared with the handler it models. [Ticker]: loops on a time.Ticker.
    - [Gorm]: a table as a class of operations with the laws GORM and MySQL document.
      [MemDB]: tables in memory that keep these laws.

    Data and algorithms
    - [Model]: internal/model's structs. [Labels], [Graph]: model/labels.go and
      dependency.go. [Cron]: internal/pkg/cronexpr. [Engine]: scheduler/engine (modules
      [Wheel], [Heap], [Hybrid]). [RateLimit]: scheduler/ratelimit. [Leader]:
      scheduler/leader. [Metrics]: internal/pkg/metrics. [Telemetry]: internal/pkg/tracing,
      service/audit.go, the cgroup limits of internal/worker.

    Repositories and start
    - [Repo]: internal/repo/repository.go as classes. [TestStore]: repo/teststore.
      [Mysql]: repo/mysql. [Records]: the stores of analyses and load samples.
      [Config]: internal/config. [Migrate]: xmysql/migrate.go. [Redis]: internal/pkg/xredis.
      [Cache]: scheduler/cache. [Bootstrap]: internal/app, repo/factory.go, cmd/migrate.
      [Alert]: internal/alert.

    The scheduler and the API
    - [World]: the state all handlers share (the three stores, the router's counter, the
      rate limiter, the backpressure controller, the log of messages, alerts, pending
      goroutines) and the parameters [Env]: clock, time zone, network, cache, AI service.
      [Sample]: a concrete setting for evaluation. [Http]: handler/common.go.
    - [Dispatch]: dispatch/client.go. [Router]: route/router.go. [Runtime]:
      service/task_runtime_service.go. [Trigger]: trigger/loop.go. [Retry]: retry/loop.go.
      [OnTrigger]: the engine's callback in cmd/scheduler/main.go. [Events]:
      handler/event_handler.go. [TaskService], [InstanceService], [WorkerService]: the
      services with their handlers, the tenants, scheduler/grpcserver and scheduler/health.
    - [Auth]: api/middleware and handler/auth_handler.go. [Gateway]: handler/router.go.

    The worker and the AI process
    - [Worker]: internal/worker, as goroutines interleaved at every shared access.
      [Wire]: heartbeat_client.go and report_client.go, connected to the scheduler.
    - [Adapter], [Tools], [Analysis], [Memory], [Agent], [Stream], [AIService]: the
      packages of internal/ai. [AIClient]: service/ai_client.go, connected to [AIService].
    - [Upkeep]: the daily summary of cmd/scheduler, the clean-up of cmd/ai-service.

    Compositions
    - [Lifecycle] and [Balance]: the two invariants that cut across the handlers, with a
      preservation lemma per repository operation and tactics that walk along a handler.
    - [Race], [Settle], [TaskRows]: the handlers that write rows of workers, of instances
      and of tasks, interleaved at every access to them. [Alive]: heartbeats against the
      health checker, interleaved likewise. [System]: the loops and handlers of
      the scheduler together, as a transition system. [Process], [WorkerProcess]: what
      cmd/scheduler and cmd/worker start, in which order, and their loops on their tickers.
      [Deployment]: the servers of all four processes together.
      [Production]: the scheduler over the MySQL repositories. [EndToEnd]: one task from the
      trigger loop through the worker and back. [ChatGate]: a chat from the API's gate
      through the proxy and the limiter to the agent and its tools.

    ** How code becomes definitions

    A Go function that returns (T, error) is a [res]; one that touches shared state is a
    [prog] over its state, so that the state at an early return or an error is part of
    the model. Loops over slices are structural recursions; the loops with another
    measure carry fuel: the cron search 5 years of minutes (the source's own limit), string
    scanners the length of the string, the JSON reader its input's length and
    encoding/json's nesting limit, the agent its ten rounds. Theorems about them say that a
    result is found, not only what it is when it is. Go's random map order is an arbitrary
    permutation ([MapRange]). int64 arithmetic wraps where it can overflow; time is
    nanoseconds since 1970. Every time.Now() takes the next reading of an arbitrary clock
    and every network call the next answer of an arbitrary network, so statements hold for
    all of them. Sleeping and logging have no effect on the state and are left out; when a
    loop runs is the subject of [Ticker].

    What is not the program's own code is a class or an argument with laws. The three
    repositories come in three strengths: [BackendContract] is what both implementations
    keep, also when statements fail; [BackendSpec] is what a store does that keeps every
    field; [BackendReliable] adds that it does not fail by itself. [TestStore] has all
    three, [Mysql] the contract, over [TableLaws]: a statement that fails changes nothing,
    comparisons of text are binary, columns round times as [Columns] says. [SQLLaws],
    [LockLaws] and [RedisLaws] are the statements, locks and commands as documented, with
    lost answers: a statement, a commit, a lock or a command whose answer is lost may or may
    not have happened.

    ** What is proved

    - [EndToEnd]: a due task runs once, from the scan to the freed slot, behind the rate
      limiter, when nothing fails on the way. [System]: over every serial execution, one
      handler run after another, an instance is never lost, never changes identity, and
      its terminal outcome is final; along the scheduling loops no worker is over- or
      under-booked and the total load matches the accepted dispatches. [Production]: in
      serial executions over MySQL the instances change by the steps of an append-only ledger.
    - [Runtime], [Retry], [Trigger], [OnTrigger], [Events]: which instances appear, what is
      sent to whom, what a report changes, the run of a due task, the gates.
    - [Worker]: in every interleaving a schedule id runs at most once until it is evicted,
      a final report is delivered or stored as long as no id runs twice, the running
      counter is right. [Wire],
      [AIClient], [Gateway]: a call through the client, the texts on the wire and the
      server does what the service does, and says so.
    - [Router], [RateLimit], [Dispatch], [Engine], [Cron], [Graph], [Labels], [Leader],
      [Redis], [Cache], [Migrate], [Metrics], [Bootstrap], [Telemetry], [Alert]: each component
      against a direct description, also under failures and interleavings.
    - [TaskService], [WorkerService], [InstanceService], [Auth]: tenant isolation, create
      and read back, dependency reconciliation, heartbeat and eviction, paging, tokens.
    - [Mysql], [Json], [Stream], [Crypto], [Wire], [AIClient]: round trips.
    - [Adapter], [Agent], [Tools], [Analysis], [AIService]: a stream means its chunks, the
      agent ends, after ten rounds at most, and speaks a well-formed conversation, tools and
      endpoints touch only what they may, figures are what they say (up to 2000 durations).
      [Upkeep]: what is kept how long.
    - [Race], [Settle], [TaskRows], [Alive]: under every interleaving of single accesses loads
      stay within their limits, an instance keeps its identity and its final outcome is in one
      piece, so is the definition of a task, which one authorised request wrote, and a worker
      stays online while its heartbeats count. [ChatGate]: what a chat may do, and for whom.
    - [Ticker], [Process], [WorkerProcess]: a loop never runs ahead of its ticker and loses no
      tick it comes back for; the lifecycle of instances holds for the process with its
      loops at any speed; of the processes that elect by MySQL one works; a worker that gets
      back to its ticker sends its heartbeats within the scheduler's timeout.
    - Where the code does something else than it means to, the theorem says what it does
      ([two_upstreams_never_start], [retryDelay_overflow], [cancel_keeps_slot],
      [eviction_readmits], [mysql_events_ignored], [lost_session_second_leader],
      [GetHistory_oldest], [lost_history_fails], [picks_overbook], [pause_lost],
      [heartbeat_lost], [missing_upstream], [viewer_deletes], [default_events_go_astray], ...).

    ** Bounds of the model

    In [System], [Process], [Production] and [EndToEnd] handlers of the scheduler run one at
    a time (the steps are called [serial_step] for that): single repository operations are atomic
    in the source, whole handlers are not, so races between handlers are outside the
    theorems of [System], [Process], [Production] and [EndToEnd]. [Race], [Settle] and
    [TaskRows] take handlers apart, access by access (in [TaskRows] the run of one task by
    the trigger loop is one step), and prove that left alone the pieces do what the
    handler does. What remains true then is said there; the accounting and the finality of
    [System] do not hold ([picks_overbook], [eviction_undone], [reports_both_count],
    [finished_runs_again], [cancel_overwrites], [pause_lost], [update_lost]), and a heartbeat
    may be lost ([heartbeat_lost]). The worker, the limiter, the counters, the leaders and
    the lock holders are interleaved. The body of a loop in [Process] and [WorkerProcess] is
    one step, at one time. The counters that give rows of the stores in memory their ids are
    not bounded (the source's int64 would take 2^63 creations to wrap). A worker's file is
    written in one step, under the store's mutex. [EndToEnd], [TaskRows], [Alive] and the
    functional theorems of the handlers use [BackendSpec].

    Not modelled: the copying of bytes through an open WebSocket tunnel, gin's matching of
    path parameters, the bodies of requests that only one handler decodes (they come
    decoded), the assembling of services in the main functions, the exit of a process whose
    server fails while it runs, generated protocol code. *)
From stdpp Require Export prelude gmap strings list sorting pretty.

#[global] Open Scope Z_scope.

(** ** Results and effects *)

(** A Go [(T, error)] return: either a value or a non-nil error. *)
Inductive res (E A : Type) : Type :=
| Ok (a : A)
| Err (e : E).
Arguments Ok {E A} a.
Arguments Err {E A} e.

(** A handler: it runs on a world, always leaves a world behind (also when it
    returns an error) and yields a value or an error. *)
Definition prog (W E A : Type) : Type := W -> W * res E A.

Section Prog.
Context {W E : Type}.

Definition ret {A} (a : A) : prog W E A := fun w => (w, Ok a).
Definition fail {A} (e : E) : prog W E A := fun w => (w, Err e).

(** [x, err := m; if err != nil { return err }; k x] *)
Definition bind {A B} (m : prog W E A) (k : A -> prog W E B) : prog W E B :=
  fun w => match m w with
           | (w', Ok a) => k a w'
           | (w', Err e) => (w', Err e)
           end.

(** [x, err := m; k x err]: the caller looks at the error itself. *)
Definition attempt {A B} (m : prog W E A) (k : res E A -> prog W E B) : prog W E B :=
  fun w => let '(w', r) := m w in k r w'.

(** A pure read of the world. *)
Definition reads {A} (f : W -> A) : prog W E A := fun w => (w, Ok (f w)).

(** A pure read that may itself fail. *)
Definition reads_res {A} (f : W -> res E A) : prog W E A := fun w => (w, f w).

Definition modify (f : W -> W) : prog W E unit := fun w => (f w, Ok tt).

(** [for _, x := range xs { if err := f x; err != nil { return err } }] *)
Fixpoint for_each {A} (f : A -> prog W E unit) (xs : list A) : prog W E unit :=
  match xs with
  | [] => ret tt
  | x :: xs' => bind (f x) (fun _ => for_each f xs')
  end.
End Prog.

Declare Scope prog_scope.
Delimit Scope prog_scope with prog.
Notation "x <- m ;; k" := (bind m (fun x => k))
  (at level 100, m at next level, right associativity, only parsing) : prog_scope.
Notation "m ;; k" := (bind m (fun _ => k))
  (at level 100, right associativity, only parsing) : prog_scope.
Notation "x <-? m ;; k" := (attempt m (fun x => k))
  (at level 100, m at next level, right associativity, only parsing) : prog_scope.
Notation "'_ignore' m ;; k" := (attempt m (fun _ => k))
  (at level 100, m at next level, right associativity, only parsing) : prog_scope.

(** A run is known from its result. *)
Lemma run_eq {W R} (p : W * R) (r : R) : p.2 = r -> p = (p.1, r).
Proof. intros <-. by destruct p. Qed.

(** A successful sequence went through a successful first step. *)
Lemma bind_inv {W E A B} (m : prog W E A) (k : A -> prog W E B) w w' b :
  bind m k w = (w', Ok b) -> exists w1 a, m w = (w1, Ok a) /\ k a w1 = (w', Ok b).
Proof. unfold bind. destruct (m w) as [w1 [a|e]]; intros Hb; [by exists w1, a|done]. Qed.

Lemma bind_ext {W E A B} (m : prog W E A) (k k' : A -> prog W E B) w :
  (forall a w', k a w' = k' a w') -> bind m k w = bind m k' w.
Proof. intros Hk. unfold bind. destruct (m w) as [w' [a|e]]; [apply Hk|done]. Qed.

(** ** Relations between the world before and after a handler *)

(** [moves R m]: every run of [m] moves the world along [R], whether it
    returns a value or an error. Invariants are the case
    [R w w' := I w -> I w']. *)
Definition moves {W E A} (R : W -> W -> Prop) (m : prog W E A) : Prop :=
  forall w, R w (m w).1.

Create HintDb moves discriminated.

Section Moves.
Context {W E : Type} (R : W -> W -> Prop) `{!PreOrder R}.

Lemma moves_ret {A} (a : A) : moves R (ret (E:=E) a).
Proof. intros w. reflexivity. Qed.

Lemma moves_fail {A} (e : E) : moves R (fail (A:=A) e).
Proof. intros w. reflexivity. Qed.

Lemma moves_reads {A} (f : W -> A) : moves R (reads (E:=E) f).
Proof. intros w. reflexivity. Qed.

Lemma moves_reads_res {A} (f : W -> res E A) : moves R (reads_res f).
Proof. intros w. reflexivity. Qed.

Lemma moves_bind {A B} (m : prog W E A) (k : A -> prog W E B) :
  moves R m -> (forall a, moves R (k a)) -> moves R (bind m k).
Proof.
  intros Hm Hk w. unfold bind. specialize (Hm w).
  destruct (m w) as [w' [a|e]]; simpl in *; [|done].
  etrans; [exact Hm|apply Hk].
Qed.

Lemma moves_attempt {A B} (m : prog W E A) (k : res E A -> prog W E B) :
  moves R m -> (forall r, moves R (k r)) -> moves R (attempt m k).
Proof.
  intros Hm Hk w. unfold attempt. specialize (Hm w).
  destruct (m w) as [w' r]; simpl in *. etrans; [exact Hm|apply Hk].
Qed.

Lemma moves_for_each {A} (f : A -> prog W E unit) xs :
  (forall x, x ∈ xs -> moves R (f x)) -> moves R (for_each f xs).
Proof.
  induction xs as [|x xs IH]; intros H; simpl; [apply moves_ret|].
  apply moves_bind; [apply H; set_solver|].
  intros _. apply IH. intros y Hy. apply H. set_solver.
Qed.
End Moves.

(** A step that moves along [R], then the rest: what holds at the end. *)
Lemma run_bind {W E A B} (R : W -> W -> Prop) (Q : W -> Prop) (m : prog W E A) (k : A -> prog W E B) w :
  moves R m -> (forall w1, R w w1 -> Q w1) -> (forall a w1, R w w1 -> Q (k a w1).1) -> Q (bind m k w).1.
Proof.
  intros Hm He Hk. unfold bind. specialize (Hm w). destruct (m w) as [w1 [a|e]]; simpl in *; auto.
Qed.

#[export] Hint Resolve moves_ret moves_fail moves_reads moves_reads_res : moves.
#[export] Hint Extern 1 (PreOrder _) => typeclasses eauto : moves.

(** Splits a handler along its sequencing and branching, leaving one goal per
    primitive operation. *)
Ltac moves_step :=
  lazymatch goal with
  | |- moves ?R (bind ?m ?k) => refine (moves_bind R m k _ _); [| intros ?]
  | |- moves ?R (attempt ?m ?k) => refine (moves_attempt R m k _ _); [| intros ?]
  | |- moves ?R (for_each ?f ?xs) => refine (moves_for_each R f xs _); intros ? ?
  | |- moves _ (match ?x with _ => _ end) => destruct x
  | |- moves _ (let '(_, _) := ?x in _) => destruct x
  end.
Ltac solve_moves := repeat (cbv beta; moves_step); eauto with moves.

(** ** Machine integers *)

(** A Go [int], [int64] or [time.Duration] (amd64): two's complement wrap. *)
Definition wrap64 (z : Z) : Z := (z + 2 ^ 63) mod 2 ^ 64 - 2 ^ 63.

Definition int64 (z : Z) : Prop := - 2 ^ 63 <= z < 2 ^ 63.

#[export] Instance int64_dec z : Decision (int64 z).
Proof. unfold int64. apply _. Defined.

Lemma wrap64_range z : int64 (wrap64 z).
Proof.
  unfold int64, wrap64.
  pose proof (Z.mod_pos_bound (z + 2 ^ 63) (2 ^ 64) ltac:(lia)). lia.
Qed.

Lemma wrap64_id z : int64 z -> wrap64 z = z.
Proof. unfold int64, wrap64. intros H. rewrite Z.mod_small; lia. Qed.

(** Linear arithmetic with divisions by constants. *)
Ltac zdiv_lia := Z.to_euclidean_division_equations; lia.

(** [x % y] of Go truncates towards zero. *)
Definition go_div (x y : Z) : Z := Z.quot x y.
Definition go_mod (x y : Z) : Z := Z.rem x y.

(** ** Lists *)

(** [xs[:limit]] guarded by [limit > 0 && len(xs) > limit]. *)
Definition limit_to {A} (limit : Z) (xs : list A) : list A :=
  if (0 <? limit) && (limit <? Z.of_nat (length xs)) then take (Z.to_nat limit) xs else xs.

Lemma limit_to_prefix {A} limit (xs : list A) : limit_to limit xs `prefix_of` xs.
Proof.
  unfold limit_to. destruct (_ && _); [|done].
  exists (drop (Z.to_nat limit) xs). by rewrite take_drop.
Qed.

Lemma limit_to_elem {A} limit (xs : list A) x : x ∈ limit_to limit xs -> x ∈ xs.
Proof.
  intros H. destruct (limit_to_prefix limit xs) as [ys Hys].
  rewrite Hys. set_solver.
Qed.

Lemma limit_to_length {A} limit (xs : list A) :
  0 < limit -> Z.of_nat (length (limit_to limit xs)) <= limit.
Proof.
  intros Hl. unfold limit_to.
  destruct (0 <? limit) eqn:?; [|lia].
  destruct (limit <? Z.of_nat (length xs)) eqn:?; simpl; [rewrite length_take; lia|lia].
Qed.

Lemma limit_to_nonempty {A} limit (xs : list A) : xs <> [] -> limit_to limit xs <> [].
Proof.
  unfold limit_to. intros Hne. destruct (0 <? limit) eqn:Hl; simpl; [|done].
  destruct (limit <? _) eqn:?; [|done].
  destruct xs; [done|]. destruct (Z.to_nat limit) eqn:Hn; [lia|done].
Qed.

(** A list of consecutive integers [lo..hi]. *)
Fixpoint zseq (lo : Z) (n : nat) : list Z :=
  match n with O => [] | S n' => lo :: zseq (lo + 1) n' end.
Definition zrange (lo hi : Z) : list Z := zseq lo (Z.to_nat (hi - lo + 1)).

Lemma elem_of_zseq lo n x : x ∈ zseq lo n <-> lo <= x < lo + Z.of_nat n.
Proof.
  revert lo. induction n as [|n IH]; intros lo; simpl.
  - rewrite elem_of_nil. lia.
  - rewrite elem_of_cons, IH. lia.
Qed.

Lemma elem_of_zrange lo hi x : x ∈ zrange lo hi <-> lo <= x <= hi.
Proof. unfold zrange. rewrite elem_of_zseq. lia. Qed.

(** Decides a bounded universal statement by evaluation. *)
Lemma forallb_zrange (f : Z -> bool) lo hi :
  forallb f (zrange lo hi) = true -> forall x, lo <= x <= hi -> f x = true.
Proof.
  intros H x Hx. rewrite forallb_forall in H. apply H.
  apply list_elem_of_In, elem_of_zrange, Hx.
Qed.

Lemma filter_all {A} (P : A -> Prop) `{!forall x, Decision (P x)} (l : list A) : Forall P l -> filter P l = l.
Proof. induction 1 as [|x l Hx _ IH]; [done|]. by rewrite filter_cons_True, IH. Qed.
