(* ===== verification/Threads.v ===== *)
(** Goroutines over a shared state, as step functions of threads that are interleaved at
    every step: what one thread does when nobody disturbs it, what all of them keep in every
    interleaving, and how the code of a thread is compared with the handler it models. *)
From S2P Require Import Prelude.

#[local] Open Scope prog_scope.

(** ** Threads and their interleavings *)

(** Where a thread stands after its next step, and the state then. *)
Class Threads (W T : Type) := thread_step : T -> W -> W * T.

(** The state and the threads, by their names. *)
Record conf (W T : Type) := mkConf { c_world : W; c_threads : gmap nat T }.
Arguments mkConf {W T} _ _.
Arguments c_world {W T} _.
Arguments c_threads {W T} _.

Section Threads.
Context `{Threads W T}.

(** [n] steps with nobody in between. *)
Fixpoint alone (n : nat) (g : T) (w : W) : W * T :=
  match n with O => (w, g) | S n => let '(w', g') := thread_step g w in alone n g' w' end.

Section Interleaving.
(** The threads there may be, each as it starts, what else may happen to the state, and
    when a thread is said to take its next step. *)
Variable starts : T -> Prop.
Variable other : W -> W -> Prop.
Variable allowed : W -> T -> Prop.

Inductive guarded : conf W T -> conf W T -> Prop :=
| TSpawn id g c : c_threads c !! id = None -> starts g -> guarded c (mkConf (c_world c) (<[id := g]> (c_threads c)))
| TRun id g w' g' c : c_threads c !! id = Some g -> allowed (c_world c) g -> thread_step g (c_world c) = (w', g') ->
    guarded c (mkConf w' (<[id := g']> (c_threads c)))
| TOther w' c : other (c_world c) w' -> guarded c (mkConf w' (c_threads c)).

(** What every step keeps holds in every interleaving; what is known of a thread may
    depend on the state, when no other step undoes it. *)
Lemma guarded_relates_step (I : W -> Prop) (D : W -> T -> Prop) c c' :
  (forall w g, I w -> starts g -> D w g) ->
  (forall w w', I w -> other w w' -> I w' /\ forall h, D w h -> D w' h) ->
  (forall g w w' g', I w -> D w g -> allowed w g -> thread_step g w = (w', g') -> I w' /\ D w' g' /\ forall h, D w h -> D w' h) ->
  guarded c c' -> I (c_world c) -> map_Forall (fun _ => D (c_world c)) (c_threads c) ->
  I (c_world c') /\ map_Forall (fun _ => D (c_world c')) (c_threads c').
Proof.
  intros Hst Hot Hrun Hs Hi Hd. destruct Hs as [id g c Hn Hg|id g w' g' c Hg Ha Hx|w' c Hx]; simpl.
  - split; [done|]. apply map_Forall_insert_2; auto.
  - destruct (Hrun _ _ _ _ Hi (Hd _ _ Hg) Ha Hx) as (Hi' & Hg' & Ho). split; [done|]. apply map_Forall_insert_2; [done|].
    intros k h Hh. by eapply Ho, Hd.
  - destruct (Hot _ _ Hi Hx) as [Hi' Ho]. split; [done|]. intros k h Hh. by eapply Ho, Hd.
Qed.

Theorem guarded_relates (I : W -> Prop) (D : W -> T -> Prop) c c' :
  (forall w g, I w -> starts g -> D w g) ->
  (forall w w', I w -> other w w' -> I w' /\ forall h, D w h -> D w' h) ->
  (forall g w w' g', I w -> D w g -> allowed w g -> thread_step g w = (w', g') -> I w' /\ D w' g' /\ forall h, D w h -> D w' h) ->
  rtc guarded c c' -> I (c_world c) -> map_Forall (fun _ => D (c_world c)) (c_threads c) ->
  I (c_world c') /\ map_Forall (fun _ => D (c_world c')) (c_threads c').
Proof.
  intros Hst Hot Hrun. induction 1 as [|c c1 c' Hs _ IH]; intros Hi Hd; [done|].
  destruct (guarded_relates_step I D c c1 Hst Hot Hrun Hs Hi Hd). by apply IH.
Qed.

Corollary guarded_keeps (I : W -> Prop) (D : T -> Prop) c c' :
  (forall g, starts g -> D g) -> (forall w w', I w -> other w w' -> I w') ->
  (forall g w w' g', I w -> D g -> allowed w g -> thread_step g w = (w', g') -> I w' /\ D g') ->
  rtc guarded c c' -> I (c_world c) -> map_Forall (fun _ => D) (c_threads c) ->
  I (c_world c') /\ map_Forall (fun _ => D) (c_threads c').
Proof.
  intros Hst Hot Hrun. apply (guarded_relates I (fun _ => D)); [auto|by eauto|].
  intros g w w' g' Hi Hd Ha Hx. by destruct (Hrun _ _ _ _ Hi Hd Ha Hx).
Qed.
End Interleaving.

(** Whenever they like. *)
Definition interleaved (starts : T -> Prop) (other : W -> W -> Prop) : conf W T -> conf W T -> Prop :=
  guarded starts other (fun _ _ => True).

Corollary interleaved_relates starts other (I : W -> Prop) (D : W -> T -> Prop) c c' :
  (forall w g, I w -> starts g -> D w g) ->
  (forall w w', I w -> other w w' -> I w' /\ forall h, D w h -> D w' h) ->
  (forall g w w' g', I w -> D w g -> thread_step g w = (w', g') -> I w' /\ D w' g' /\ forall h, D w h -> D w' h) ->
  rtc (interleaved starts other) c c' -> I (c_world c) -> map_Forall (fun _ => D (c_world c)) (c_threads c) ->
  I (c_world c') /\ map_Forall (fun _ => D (c_world c')) (c_threads c').
Proof. intros Hst Hot Hrun. apply guarded_relates; [done..|]. intros g w w' g' Hi Hd _. by apply Hrun. Qed.

Corollary interleaved_keeps starts other (I : W -> Prop) (D : T -> Prop) c c' :
  (forall g, starts g -> D g) -> (forall w w', I w -> other w w' -> I w') ->
  (forall g w w' g', I w -> D g -> thread_step g w = (w', g') -> I w' /\ D g') ->
  rtc (interleaved starts other) c c' -> I (c_world c) -> map_Forall (fun _ => D) (c_threads c) ->
  I (c_world c') /\ map_Forall (fun _ => D) (c_threads c').
Proof. intros Hst Hot Hrun. apply guarded_keeps; [done..|]. intros g w w' g' Hi Hd _. by apply Hrun. Qed.

(** Threads 0, 1, ... *)
Definition start_all (w : W) (gs : list T) : conf W T := mkConf w (list_to_map (zip (seq 0 (length gs)) gs)).

(** The threads take their steps in this order. *)
Definition scheduled (ids : list nat) (c : conf W T) : conf W T :=
  foldl (fun c id => match c_threads c !! id with
    | Some g => let '(w', g') := thread_step g (c_world c) in mkConf w' (<[id := g']> (c_threads c))
    | None => c end) c ids.

Lemma scheduled_guarded starts other allowed (P : T -> Prop) ids c :
  (forall g w, P g -> allowed w g /\ P (thread_step g w).2) -> map_Forall (fun _ => P) (c_threads c) ->
  rtc (guarded starts other allowed) c (scheduled ids c).
Proof.
  intros HP. revert c. induction ids as [|id ids IH]; intros c Hc; [constructor|]. cbn [scheduled foldl].
  destruct (c_threads c !! id) as [g|] eqn:Hg; [|by apply IH].
  destruct (HP g (c_world c) (Hc _ _ Hg)) as [Ha Hn]. destruct (thread_step g (c_world c)) as [w' g'] eqn:E.
  eapply rtc_l; [by eapply TRun|]. apply IH. by apply map_Forall_insert_2.
Qed.

Lemma scheduled_steps starts other ids c : rtc (interleaved starts other) c (scheduled ids c).
Proof. by apply (scheduled_guarded starts other _ (fun _ => True)). Qed.

Lemma start_all_Forall (P : T -> Prop) w gs : Forall P gs -> map_Forall (fun _ => P) (c_threads (start_all w gs)).
Proof.
  intros Hgs id g Hg. apply elem_of_list_to_map_2, elem_of_zip_r in Hg. rewrite Forall_forall in Hgs. by apply Hgs.
Qed.
End Threads.

(** ** Threads whose steps are programs *)

(** A step that fails ends the thread. *)
Class Goroutines (W E T : Type) := {
  thread_code : T -> prog W E T;
  halted : T;
  code_halted : thread_code halted = ret halted
}.

#[export] Instance goroutine_threads `{Goroutines W E T} : Threads W T := fun g w =>
  match thread_code g w with (w', Ok g') => (w', g') | (w', Err _) => (w', halted) end.

Section Follows.
Context `{Goroutines W E T}.

Lemma alone_halted n w : alone n halted w = (w, halted).
Proof. induction n as [|n IH]; [done|]. cbn [alone]. unfold thread_step, goroutine_threads. by rewrite code_halted. Qed.

(** Left alone for [n] steps, a thread does to the state what [h] does; and the same for one
    that first runs [p]. *)
Definition runs {B} (n : nat) (g : T) (h : prog W E B) : Prop := forall w, (alone n g w).1 = (h w).1.
Definition follows {B} (n : nat) (p : prog W E T) (h : prog W E B) : Prop :=
  forall w, match p w with (w', Ok g) => (alone n g w').1 | (w', Err _) => w' end = (h w).1.

Lemma runs_S {B} n g (h : prog W E B) : follows n (thread_code g) h -> runs (S n) g h.
Proof.
  intros Hf w. rewrite <- Hf. cbn [alone]. unfold thread_step, goroutine_threads.
  destruct (thread_code g w) as [w' [g'|e]]; [done|]. by rewrite alone_halted.
Qed.

Lemma follows_ret {B} n g (h : prog W E B) : runs n g h -> follows n (ret g) h.
Proof. intros Hr w. apply Hr. Qed.

Lemma follows_bind {A B} n (m : prog W E A) k (h : A -> prog W E B) :
  (forall a, follows n (k a) (h a)) -> follows n (bind m k) (bind m h).
Proof. intros Hk w. unfold bind. destruct (m w) as [w' [a|e]]; [apply Hk|done]. Qed.

Lemma follows_attempt {A B} n (m : prog W E A) k (h : res E A -> prog W E B) :
  (forall r, follows n (k r) (h r)) -> follows n (attempt m k) (attempt m h).
Proof. intros Hk w. unfold attempt. destruct (m w) as [w' r]. apply Hk. Qed.

Lemma runs_halted {B} n (h : prog W E B) : (forall w, (h w).1 = w) -> runs n halted h.
Proof. intros Hh w. by rewrite alone_halted, Hh. Qed.

Lemma follows_fail {B} n e (h : prog W E B) : (forall w, (h w).1 = w) -> follows n (fail e) h.
Proof. intros Hh w. by rewrite Hh. Qed.

Lemma follows_end {A} n (m : prog W E A) : follows n (bind m (fun _ => ret halted)) m.
Proof. intros w. unfold bind, ret. destruct (m w) as [w' [a|e]]; [|done]. by rewrite alone_halted. Qed.

Lemma follows_end_attempt {A} n (m : prog W E A) : follows n (attempt m (fun _ => ret halted)) m.
Proof. intros w. unfold attempt, ret. destruct (m w) as [w' r]. by rewrite alone_halted. Qed.

Lemma runs_eq {A B} n g (h : prog W E A) (h' : prog W E B) : runs n g h -> (forall w, (h' w).1 = (h w).1) -> runs n g h'.
Proof. intros Hr He w. by rewrite He. Qed.

(** The number of steps may depend on the state. *)
Definition comes_to {B} (g : T) (h : prog W E B) : Prop := forall w, exists n, (alone n g w).1 = (h w).1.

Lemma comes_to_bind {A B} g (m : prog W E A) (k : A -> T) (h : A -> prog W E B) :
  thread_code g = bind m (fun a => ret (k a)) -> (forall a, comes_to (k a) (h a)) -> comes_to g (bind m h).
Proof.
  intros Hg Hk w. unfold bind at 1. destruct (m w) as [w' [a|e]] eqn:Hm.
  - destruct (Hk a w') as [n Hn]. exists (S n). rewrite <- Hn. cbn [alone]. unfold thread_step, goroutine_threads.
    rewrite Hg. unfold bind. by rewrite Hm.
  - exists 1%nat. cbn [alone]. unfold thread_step, goroutine_threads. rewrite Hg. unfold bind. by rewrite Hm.
Qed.

Lemma comes_to_eq {A B} g (h : prog W E A) (h' : prog W E B) : comes_to g h -> (forall w, (h' w).1 = (h w).1) -> comes_to g h'.
Proof. intros Hr He w. rewrite He. apply Hr. Qed.

(** A handler that runs another one first. *)
Lemma follows_in_bind {A B C} n p (m : prog W E A) (f : A -> prog W E B) (k : B -> prog W E C) :
  follows n p (bind m (fun a => bind (f a) k)) -> follows n p (bind (bind m f) k).
Proof. intros Hf w. rewrite Hf. unfold bind. by destruct (m w) as [w' [a|e]]. Qed.

Lemma follows_in_attempt {A B C} n p (m : prog W E A) (f : res E A -> prog W E B) (k : B -> prog W E C) :
  follows n p (attempt m (fun r => bind (f r) k)) -> follows n p (bind (attempt m f) k).
Proof. intros Hf w. rewrite Hf. unfold bind, attempt. by destruct (m w) as [w' r]. Qed.

Lemma follows_in_ret {A B} n p (a : A) (k : A -> prog W E B) : follows n p (k a) -> follows n p (bind (ret a) k).
Proof. intros Hf w. apply Hf. Qed.
End Follows.

Ltac follow_inside := lazymatch goal with
  | |- follows _ _ (bind (bind _ _) _) => apply follows_in_bind
  | |- follows _ _ (bind (attempt _ _) _) => apply follows_in_attempt
  | |- follows _ _ (bind (ret _) _) => apply follows_in_ret
  | |- follows _ _ (bind (match ?x with _ => _ end) _) => destruct x
  end.

(** A walk along a thread and its handler together, up to what is known already; [code]
    shows the code of a thread. *)
Ltac follow_with code := repeat first
  [ progress intros
  | match goal with Hr : _ |- runs _ _ _ => solve [apply Hr; lia] end
  | lazymatch goal with
    | |- runs (S _) _ _ => first [refine (runs_halted _ _ _); done | apply runs_S; code]
    | |- runs _ _ _ => refine (runs_halted _ _ _); done
    | |- follows _ (bind _ _) (bind _ _) => first [apply follows_bind | follow_inside]
    | |- follows _ (attempt _ _) (attempt _ _) => apply follows_attempt
    | |- follows _ (bind _ _) _ => refine (follows_end _ _)
    | |- follows _ (attempt _ _) _ => first [refine (follows_end_attempt _ _) | follow_inside]
    | |- follows _ (fail _) _ => apply follows_fail; done
    | |- follows _ (match ?x with _ => _ end) _ => destruct x
    | |- follows _ (ret (match ?x with _ => _ end)) _ => destruct x
    | |- follows _ (ret _) _ => apply follows_ret
    | |- follows _ _ (bind _ _) => follow_inside
    end ].

(** ** What a program keeps and gives *)

(** From a state with [I] to a state with [I], and a result with [Q]. *)
Definition gives {W E A} (I : W -> Prop) (Q : A -> Prop) (m : prog W E A) : Prop :=
  forall w, I w -> I (m w).1 /\ forall a, (m w).2 = Ok a -> Q a.

Section Gives.
Context {W E : Type} (I : W -> Prop).

Lemma gives_ret {A} (Q : A -> Prop) a : Q a -> gives (E:=E) I Q (ret a).
Proof. intros Ha w Hw. split; [done|]. by intros b [= <-]. Qed.

Lemma gives_fail {A} (Q : A -> Prop) (e : E) : gives I Q (fail e).
Proof. intros w Hw. by split. Qed.

Lemma gives_bind {A B} (Q : A -> Prop) (Q' : B -> Prop) (m : prog W E A) k :
  gives I Q m -> (forall a, Q a -> gives I Q' (k a)) -> gives I Q' (bind m k).
Proof.
  intros Hm Hk w Hw. unfold bind. destruct (Hm w Hw) as [Hi Hq]. destruct (m w) as [w' [a|e]]; [|done].
  apply Hk; [by apply Hq|done].
Qed.

Lemma gives_attempt {A B} (Q : A -> Prop) (Q' : B -> Prop) (m : prog W E A) k :
  gives I Q m -> (forall r, (forall a, r = Ok a -> Q a) -> gives I Q' (k r)) -> gives I Q' (attempt m k).
Proof.
  intros Hm Hk w Hw. unfold attempt. destruct (Hm w Hw) as [Hi Hq]. destruct (m w) as [w' r]. by apply Hk.
Qed.

Lemma gives_read {A} (Q : A -> Prop) (f : W -> res E A) : (forall w a, I w -> f w = Ok a -> Q a) -> gives I Q (reads_res f).
Proof. intros Hf w Hw. split; [done|]. intros a. by apply Hf. Qed.

(** A program that keeps [I], whatever it returns. *)
Lemma gives_any {A} (m : prog W E A) : (forall w, I w -> I (m w).1) -> gives I (fun _ => True) m.
Proof. intros Hm w Hw. split; [by apply Hm|done]. Qed.

Lemma gives_step `{!Goroutines W E T} (D : T -> Prop) g w w' g' :
  D halted -> gives I D (thread_code g) -> I w -> thread_step g w = (w', g') -> I w' /\ D g'.
Proof.
  intros Hh Hg Hw. unfold thread_step, goroutine_threads. destruct (Hg w Hw) as [Hi Hd].
  destruct (thread_code g w) as [w1 [g1|e]]; intros [= <- <-]; split; try done. by apply Hd.
Qed.

Lemma alone_keeps `{!Goroutines W E T} (D : T -> Prop) n g w :
  D halted -> (forall g, D g -> gives I D (thread_code g)) -> D g -> I w -> I (alone n g w).1.
Proof.
  intros Hh Hg. revert g w. induction n as [|n IH]; intros g w Hd Hw; [done|]. cbn [alone].
  destruct (thread_step g w) as [w' g'] eqn:Hx. destruct (gives_step D g w w' g' Hh (Hg g Hd) Hw Hx). by apply IH.
Qed.
End Gives.

(** A program that moves the state along [R], from the states [R] leads to. *)
Lemma gives_moves {W E A} (R : W -> W -> Prop) `{!PreOrder R} w0 (m : prog W E A) : moves R m -> gives (R w0) (fun _ => True) m.
Proof. intros Hm. apply gives_any. intros w Hw. by etrans. Qed.

(** A walk along the code of a thread, with a tactic for its effects. *)
Ltac carry_with effect := repeat first
  [ progress intros
  | lazymatch goal with
    | |- gives _ _ (bind _ _) => eapply gives_bind; [solve [effect]|]
    | |- gives _ _ (attempt _ _) => eapply gives_attempt; [solve [effect]|]
    | |- gives _ _ (fail _) => apply gives_fail
    | |- gives _ _ (match ?x with _ => _ end) => destruct x
    | |- gives _ _ (ret (match ?x with _ => _ end)) => destruct x
    | |- gives _ _ (ret _) => apply gives_ret; try done
    end ].
