(* ===== verification/GoStd.v ===== *)
(** The part of Go's standard library the modelled code relies on: [error]
    values and [errors.Is], the [strings] functions on byte strings, [strconv]
    and the decimal verb of [fmt]. A Go string is a sequence of bytes, here
    [string] with one [ascii] per byte. *)
From S2P Require Import Prelude.
From Stdlib Require Export Ascii.

#[global] Open Scope string_scope.
#[global] Open Scope list_scope.
#[global] Open Scope Z_scope.

(** ** Errors *)

(** An [error] value: a package-level sentinel made by [errors.New] (identified
    by its message, which is unique in the code), a fresh [fmt.Errorf] with its
    format and arguments, or one that wraps another with [%w], final or with text
    after it. *)
Inductive gerror :=
| Sentinel (msg : string)
| Errorf (format : string) (args : list string)
| Wrap (prefix : string) (inner : gerror)
| Wrapf (prefix : string) (inner : gerror) (suffix : string).

#[export] Instance gerror_eq_dec : EqDecision gerror.
Proof. solve_decision. Defined.

Abbreviation result := (res gerror).

(** [strconv.Quote] on printable text. *)
Fixpoint quote_body (s : string) : string :=
  match s with
  | EmptyString => EmptyString
  | String c s' =>
      if bool_decide (c = "\"%char \/ c = Ascii.ascii_of_nat 34)
      then String "\" (String c (quote_body s')) else String c (quote_body s')
  end.
Definition Quote (s : string) : string :=
  let q := String (Ascii.ascii_of_nat 34) EmptyString in q +:+ quote_body s +:+ q.

(** [fmt.Sprintf] for the verbs [%s], [%d], [%v] (arguments already rendered)
    and [%q]. *)
Fixpoint Sprintf (format : string) (args : list string) : string :=
  match format with
  | EmptyString => EmptyString
  | String "%" (String v f') =>
      match args with
      | [] => String "%" (String v (Sprintf f' []))
      | a :: args' =>
          (if bool_decide (v = "q"%char) then Quote a else a) +:+ Sprintf f' args'
      end
  | String c f' => String c (Sprintf f' args)
  end.

(** [err.Error()] *)
Fixpoint error_text (e : gerror) : string :=
  match e with
  | Sentinel m => m
  | Errorf f args => Sprintf f args
  | Wrap p i => p +:+ ": " +:+ error_text i
  | Wrapf p i suffix => p +:+ ": " +:+ error_text i +:+ suffix
  end.

(** [errors.Is(err, target)] for a sentinel target. *)
Fixpoint errors_is (e target : gerror) : bool :=
  bool_decide (e = target) ||
  match e with Wrap _ i | Wrapf _ i _ => errors_is i target | _ => false end.

(** ** Bytes and byte classes *)

Definition byte_val (c : ascii) : Z := Z.of_N (N_of_ascii c).

Definition is_digit (c : ascii) : bool := (48 <=? byte_val c) && (byte_val c <=? 57).
Definition digit_val (c : ascii) : Z := byte_val c - 48.

(** Lower-case an ASCII letter, other bytes unchanged. *)
Definition lower_byte (c : ascii) : ascii :=
  if (65 <=? byte_val c) && (byte_val c <=? 90)
  then ascii_of_N (Z.to_N (byte_val c + 32)) else c.

Fixpoint map_bytes (f : ascii -> ascii) (s : string) : string :=
  match s with
  | EmptyString => EmptyString
  | String c s' => String (f c) (map_bytes f s')
  end.

(** [strings.EqualFold] against an ASCII word whose letters have no non-ASCII
    case variant (the code compares with "grpc" only). *)
Definition equal_fold (s t : string) : bool :=
  bool_decide (map_bytes lower_byte s = map_bytes lower_byte t).

(** ** White space *)

Definition bytes_of (l : list Z) : string :=
  foldr (fun z s => String (ascii_of_N (Z.to_N z)) s) EmptyString l.

(** The UTF-8 encodings of the runes for which [unicode.IsSpace] holds. *)
Definition space_runes : list string :=
  map bytes_of
    ([[9]; [10]; [11]; [12]; [13]; [32]; [194; 133]; [194; 160]; [225; 154; 128]]
     ++ map (fun k => [226; 128; 128 + k]) (zrange 0 10)
     ++ [[226; 128; 168]; [226; 128; 169]; [226; 128; 175]; [226; 129; 159]; [227; 128; 128]]).

(** [strip_prefix p s]: the rest of [s] after [p]. *)
Fixpoint strip_prefix (p s : string) : option string :=
  match p, s with
  | EmptyString, _ => Some s
  | String a p', String b s' => if Ascii.eqb a b then strip_prefix p' s' else None
  | _, EmptyString => None
  end.

Fixpoint strip_any (ps : list string) (s : string) : option string :=
  match ps with
  | [] => None
  | p :: ps' => match strip_prefix p s with Some r => Some r | None => strip_any ps' s end
  end.

(** [fuel] is the length of the string: every step removes at least a byte. *)
Fixpoint trim_left_with (ps : list string) (fuel : nat) (s : string) : string :=
  match fuel with
  | O => s
  | S n => match strip_any ps s with Some r => trim_left_with ps n r | None => s end
  end.

Definition trim_left (s : string) : string := trim_left_with space_runes (String.length s) s.
Definition trim_right (s : string) : string :=
  String.rev (trim_left_with (map String.rev space_runes) (String.length s) (String.rev s)).

(** [strings.TrimSpace] *)
Definition TrimSpace (s : string) : string := trim_right (trim_left s).

(** [strings.Fields]: [cur] holds the bytes of the current field, reversed. *)
Fixpoint fields_with (fuel : nat) (cur : string) (s : string) : list string :=
  let flush := if bool_decide (cur = "") then [] else [String.rev cur] in
  match fuel with
  | O => flush
  | S n =>
      match strip_any space_runes s with
      | Some r => flush ++ fields_with n EmptyString r
      | None => match s with
                | EmptyString => flush
                | String c s' => fields_with n (String c cur) s'
                end
      end
  end.
Definition Fields (s : string) : list string := fields_with (S (String.length s)) EmptyString s.

(** ** Searching and splitting *)

Fixpoint contains_byte (c : ascii) (s : string) : bool :=
  match s with
  | EmptyString => false
  | String d s' => Ascii.eqb d c || contains_byte c s'
  end.

(** [strings.HasPrefix] *)
Definition HasPrefix (s p : string) : bool :=
  match strip_prefix p s with Some _ => true | None => false end.

(** [strings.TrimPrefix] *)
Definition TrimPrefix (s p : string) : string :=
  match strip_prefix p s with Some r => r | None => s end.

(** [strings.Contains] *)
Fixpoint Contains (s sub : string) : bool :=
  HasPrefix s sub || match s with EmptyString => false | String _ s' => Contains s' sub end.

(** [strings.ReplaceAll] for a non-empty [old]; the fuel is the length of [s]. *)
Fixpoint replace_from (fuel : nat) (old new s : string) : string :=
  match fuel with
  | O => s
  | S n =>
      match strip_prefix old s with
      | Some rest => new +:+ replace_from n old new rest
      | None => match s with EmptyString => EmptyString | String c s' => String c (replace_from n old new s') end
      end
  end.
Definition ReplaceAll (s old new : string) : string := replace_from (String.length s) old new s.

(** [strings.Split(s, sep)] for a one-byte separator: always one piece more
    than there are separators. *)
Fixpoint Split (c : ascii) (s : string) : list string :=
  match s with
  | EmptyString => [EmptyString]
  | String d s' =>
      if Ascii.eqb d c then EmptyString :: Split c s'
      else match Split c s' with
           | [] => [String d EmptyString]
           | p :: ps => String d p :: ps
           end
  end.

Fixpoint Join (c : ascii) (ps : list string) : string :=
  match ps with
  | [] => EmptyString
  | [p] => p
  | p :: ps' => p +:+ String c (Join c ps')
  end.

(** ** Decimal integers *)

Fixpoint parse_digits (acc : Z) (s : string) : option Z :=
  match s with
  | EmptyString => Some acc
  | String c s' => if is_digit c then parse_digits (acc * 10 + digit_val c) s' else None
  end.

(** [strconv.Atoi] and [strconv.ParseInt(s, 10, 64)]: [None] for a syntax or a
    range error. *)
Definition Atoi (s : string) : option Z :=
  let unsigned u := match u with EmptyString => None | _ => parse_digits 0 u end in
  let signed :=
    match s with
    | String "-" u => Z.opp <$> unsigned u
    | String "+" u => unsigned u
    | _ => unsigned s
    end in
  z ← signed; if bool_decide (int64 z) then Some z else None.

(** [fmt.Sprintf("%d", z)] *)
Definition fmt_d (z : Z) : string := pretty z.

(** ** Lemmas *)

Lemma strip_prefix_app a b s : strip_prefix a s = None -> strip_prefix (a +:+ b) s = None.
Proof.
  revert s. induction a as [|c a IH]; intros s; [done|]. change (String c a +:+ b) with (String c (a +:+ b)).
  destruct s as [|d s]; [done|]. cbn. destruct (Ascii.eqb c d); [apply IH|done].
Qed.

(** Nothing is replaced where nothing starts like the pattern. *)
Lemma ReplaceAll_absent s a b new : Contains s a = false -> ReplaceAll s (a +:+ b) new = s.
Proof.
  unfold ReplaceAll. induction s as [|c s IH]; [done|]. cbn [Contains String.length replace_from].
  unfold HasPrefix. destruct (strip_prefix a (String c s)) eqn:E; [done|]. simpl. intros Hc.
  rewrite (strip_prefix_app a b _ E). by rewrite IH.
Qed.

Lemma append_assoc (a b c : string) : (a +:+ b) +:+ c = a +:+ (b +:+ c).
Proof. induction a as [|x a IH]; [done|]. change (String x ((a +:+ b) +:+ c) = String x (a +:+ (b +:+ c))). by f_equal. Qed.

Lemma append_empty s : s +:+ "" = s.
Proof. induction s as [|c s IH]; [done|]. change (String c (s +:+ "") = String c s). by f_equal. Qed.

Lemma Split_app c a b : contains_byte c a = false -> Split c (a +:+ String c b) = a :: Split c b.
Proof.
  induction a as [|d a IH]; cbn [contains_byte].
  - intros _. change (EmptyString +:+ String c b) with (String c b). cbn [Split]. by rewrite Ascii.eqb_refl.
  - destruct (Ascii.eqb d c) eqn:E; [done|]. intros Ha. change (String d a +:+ String c b) with (String d (a +:+ String c b)).
    cbn [Split]. by rewrite E, IH.
Qed.

Lemma Split_none c a : contains_byte c a = false -> Split c a = [a].
Proof.
  induction a as [|d a IH]; [done|]. cbn [contains_byte Split]. destruct (Ascii.eqb d c); [done|]. intros Ha. by rewrite IH.
Qed.

Lemma Split_not_nil c s : Split c s <> [].
Proof. destruct s as [|d s]; simpl; [done|]. destruct (Ascii.eqb d c), (Split c s); done. Qed.

Lemma Split_Join c s : Join c (Split c s) = s.
Proof.
  induction s as [|d s IH]; simpl; [done|].
  destruct (Ascii.eqb d c) eqn:E.
  - apply Ascii.eqb_eq in E as ->.
    destruct (Split c s) as [|p ps] eqn:Hs; [by destruct (Split_not_nil c s)|].
    simpl in *. by rewrite IH.
  - destruct (Split c s) as [|p [|q ps]]; simpl in *; [by rewrite IH..|].
    by rewrite <- IH.
Qed.

Lemma Split_pieces c s p : p ∈ Split c s -> contains_byte c p = false.
Proof.
  revert p. induction s as [|d s IH]; simpl; intros p Hp.
  - apply list_elem_of_singleton in Hp as ->. done.
  - destruct (Ascii.eqb d c) eqn:E.
    + apply elem_of_cons in Hp as [->|Hp]; [done|auto].
    + destruct (Split c s) as [|q qs].
      * apply list_elem_of_singleton in Hp as ->. simpl. by rewrite E.
      * apply elem_of_cons in Hp as [->|Hp]; [|apply IH; set_solver].
        simpl. rewrite E. apply IH. set_solver.
Qed.

Lemma Atoi_range s z : Atoi s = Some z -> int64 z.
Proof.
  unfold Atoi. intros H. apply bind_Some in H as (v & _ & H).
  case_bool_decide; by simplify_eq.
Qed.

#[export] Instance fmt_d_inj : Inj (=) (=) fmt_d.
Proof. unfold fmt_d. apply _. Qed.
