(* ===== verification/GoTime.v ===== *)
(** Go's [time] package as the code uses it. An instant is the number of
    nanoseconds since the Unix epoch; a [time.Location] is the function giving
    the offset (seconds east of UTC) in force at a Unix second. The civil
    calendar is the proleptic Gregorian one of [Time.Date] and [Time.Weekday];
    [civil_succ] pins it down day by day. *)
From S2P Require Import Prelude.

Abbreviation Time := Z (only parsing).
Abbreviation Duration := Z (only parsing).

Definition Nanosecond : Duration := 1.
Definition Millisecond : Duration := 1000000.
Definition Second : Duration := 1000000000.
Definition Minute : Duration := 60 * Second.
Definition Hour : Duration := 60 * Minute.

(** The zero [time.Time]: January 1, year 1, 00:00 UTC. *)
Definition zero_time : Time := - 62135596800 * Second.
Definition IsZero (t : Time) : bool := t =? zero_time.
Definition Before (t u : Time) : bool := t <? u.
Definition After (t u : Time) : bool := u <? t.

(** [t.UnixNano()], an int64. *)
Definition UnixNano (t : Time) : Z := wrap64 t.

(** [t.Truncate(d)]: round down to a multiple of [d] since the zero time. *)
Definition Truncate (t : Time) (d : Duration) : Time :=
  if d <=? 0 then t else t - (t - zero_time) mod d.

(** ** Civil time *)

Definition Location := Z -> Z.
Definition UTC : Location := fun _ => 0.

(** Seconds since the epoch on the wall clock of [loc]. *)
Definition wall_seconds (loc : Location) (t : Time) : Z :=
  let s := t / Second in s + loc s.

Definition leap_year (y : Z) : bool :=
  (y mod 4 =? 0) && (negb (y mod 100 =? 0) || (y mod 400 =? 0)).

Definition days_in_month (y m : Z) : Z :=
  if m =? 2 then (if leap_year y then 29 else 28)
  else if (m =? 4) || (m =? 6) || (m =? 9) || (m =? 11) then 30 else 31.

(** Within a 400-year era that starts on March 1, years start in March: the
    year of a day, the first day of a year, and month and day of a day of the
    year. *)
Definition era_year (doe : Z) : Z := (doe - doe / 1460 + doe / 36524 - doe / 146096) / 365.
Definition year_start (y : Z) : Z := 365 * y + y / 4 - y / 100.
Definition month_day (doy : Z) : Z * Z :=
  let mp := (5 * doy + 2) / 153 in
  (if mp <? 10 then mp + 3 else mp - 9, doy - (153 * mp + 2) / 5 + 1).

Definition civil_of_era (doe : Z) : Z * Z * Z :=
  let y := era_year doe in
  let '(m, d) := month_day (doe - year_start y) in
  (if m <=? 2 then y + 1 else y, m, d).

(** Date of the day number [days] (0 is 1970-01-01). *)
Definition civil_of_days (days : Z) : Z * Z * Z :=
  let z := days + 719468 in
  let '(y, m, d) := civil_of_era (z mod 146097) in
  (y + 400 * (z / 146097), m, d).

(** The day after a date. *)
Definition next_date (date : Z * Z * Z) : Z * Z * Z :=
  let '(y, m, d) := date in
  if d <? days_in_month y m then (y, m, d + 1)
  else if m <? 12 then (y, m + 1, 1) else (y + 1, 1, 1).

Definition t_minute (loc : Location) (t : Time) : Z := (wall_seconds loc t mod 3600) / 60.
Definition t_hour (loc : Location) (t : Time) : Z := (wall_seconds loc t mod 86400) / 3600.
Definition t_days (loc : Location) (t : Time) : Z := wall_seconds loc t / 86400.
Definition t_weekday (loc : Location) (t : Time) : Z := (t_days loc t + 4) mod 7.
Definition t_month (loc : Location) (t : Time) : Z := (civil_of_days (t_days loc t)).1.2.
Definition t_day (loc : Location) (t : Time) : Z := (civil_of_days (t_days loc t)).2.
Definition t_year (loc : Location) (t : Time) : Z := (civil_of_days (t_days loc t)).1.1.

(** ** The calendar is the Gregorian one *)

Definition date_valid (date : Z * Z * Z) : bool :=
  let '(y, m, d) := date in
  (1 <=? m) && (m <=? 12) && (1 <=? d) && (d <=? days_in_month y m).

Definition shift_year (k : Z) (date : Z * Z * Z) : Z * Z * Z :=
  let '(y, m, d) := date in (y + 400 * k, m, d).

Lemma leap_year_shift y k : leap_year (y + 400 * k) = leap_year y.
Proof.
  unfold leap_year.
  replace (y + 400 * k) with (y + (100 * k) * 4) at 1 by lia.
  rewrite Z_mod_plus_full.
  replace (y + 400 * k) with (y + (4 * k) * 100) at 1 by lia.
  rewrite Z_mod_plus_full.
  replace (y + 400 * k) with (y + k * 400) by lia.
  by rewrite Z_mod_plus_full.
Qed.

Lemma days_in_month_shift y m k : days_in_month (y + 400 * k) m = days_in_month y m.
Proof. unfold days_in_month. by rewrite leap_year_shift. Qed.

Lemma next_date_shift date k : next_date (shift_year k date) = shift_year k (next_date date).
Proof.
  destruct date as [[y m] d]. unfold next_date, shift_year.
  rewrite days_in_month_shift. repeat case_match; f_equal; f_equal; lia.
Qed.

Lemma civil_of_days_shift days :
  civil_of_days days =
  shift_year ((days + 719468) / 146097) (civil_of_era ((days + 719468) mod 146097)).
Proof. unfold civil_of_days, shift_year. by destruct (civil_of_era _) as [[??]?]. Qed.

(** The last day of an era year; the era's last year ends with its leap day. *)
Definition year_end (y : Z) : Z := if y =? 399 then 146096 else year_start (y + 1) - 1.

Lemma era_year_mono a b : 0 <= a <= b -> era_year a <= era_year b.
Proof.
  intros H. unfold era_year.
  change 146096 with (36524 * 4). rewrite <- !Z.div_div by lia.
  apply Z.div_le_mono; [lia|].
  assert (b / 1460 - a / 1460 <= b - a) by (clear -H; zdiv_lia).
  assert (a / 36524 <= b / 36524) by (apply Z.div_le_mono; lia).
  generalize dependent (a / 36524). generalize dependent (b / 36524).
  intros p q Hpq. zdiv_lia.
Qed.

Lemma era_year_ends y : 0 <= y <= 399 ->
  era_year (year_start y) = y /\ era_year (year_end y) = y /\
  year_end y - year_start y = (if leap_year (y + 1) then 365 else 364).
Proof.
  intros H. enough (forall z, 0 <= z <= 399 ->
    (era_year (year_start z) =? z) && (era_year (year_end z) =? z) &&
    (year_end z - year_start z =? (if leap_year (z + 1) then 365 else 364)) = true) as Hf.
  { specialize (Hf y H). repeat (apply andb_prop in Hf as [Hf ?]). lia. }
  apply forallb_zrange. by vm_compute.
Qed.

Lemma year_end_start y : 0 <= y < 399 -> year_end y + 1 = year_start (y + 1).
Proof. unfold year_end. destruct (Z.eqb_spec y 399); lia. Qed.

Lemma year_end_bounds y : 0 <= y <= 399 ->
  year_end y <= 146096 /\ (y <> 399 -> year_end y <> 146096).
Proof. unfold year_end, year_start. intros H. destruct (Z.eqb_spec y 399); zdiv_lia. Qed.

(** A day of the era falls between the first and the last day of its year. *)
Lemma era_year_spec doe : 0 <= doe <= 146096 ->
  0 <= era_year doe <= 399 /\
  year_start (era_year doe) <= doe <= year_end (era_year doe).
Proof.
  intros H.
  pose proof (era_year_mono 0 doe ltac:(lia)) as Hlo.
  pose proof (era_year_mono doe 146096 ltac:(lia)) as Hhi.
  change (era_year 0) with 0 in Hlo. change (era_year 146096) with 399 in Hhi.
  split; [lia|]. set (y := era_year doe) in *. split.
  - destruct (Z.le_gt_cases (year_start y) doe) as [|Hlt]; [done|].
    destruct (decide (y = 0)) as [E|]; [rewrite E in Hlt; change (year_start 0) with 0 in Hlt; lia|].
    pose proof (year_end_start (y - 1) ltac:(lia)) as He.
    replace (y - 1 + 1) with y in He by lia.
    pose proof (era_year_mono doe (year_end (y - 1)) ltac:(lia)).
    destruct (era_year_ends (y - 1) ltac:(lia)) as (_ & ? & _). lia.
  - destruct (Z.le_gt_cases doe (year_end y)) as [|Hgt]; [done|].
    destruct (decide (y = 399)) as [E|]; [rewrite E in Hgt; change (year_end 399) with 146096 in Hgt; lia|].
    pose proof (year_end_start y ltac:(lia)) as He.
    assert (0 <= year_start (y + 1)) by (unfold year_start; zdiv_lia).
    pose proof (era_year_mono (year_start (y + 1)) doe ltac:(lia)).
    destruct (era_year_ends (y + 1) ltac:(lia)) as (? & _ & _). lia.
Qed.

Lemma era_year_unique doe y : 0 <= y <= 399 ->
  year_start y <= doe <= year_end y -> era_year doe = y.
Proof.
  intros Hy H. destruct (era_year_ends y Hy) as (Hs & He & _).
  assert (0 <= year_start y) by (unfold year_start; zdiv_lia).
  pose proof (era_year_mono (year_start y) doe ltac:(lia)).
  pose proof (era_year_mono doe (year_end y) ltac:(lia)). lia.
Qed.

(** Day-of-year arithmetic, checked on every day for both kinds of year. *)
Definition month_day_ok (leap : bool) (doy : Z) : bool :=
  let dim (m : Z) : Z := if m =? 2 then (if leap then 29 else 28) else days_in_month 1 m in
  let '(m, d) := month_day doy in
  let '(m', d') := month_day (doy + 1) in
  (1 <=? m) && (m <=? 12) && (1 <=? d) && (d <=? dim m) &&
  (if doy <? (if leap then 365 else 364)
   then if d <? dim m then (m' =? m) && (d' =? d + 1)
        else (m' =? (if m =? 12 then 1 else m + 1)) && (d' =? 1) && negb (m =? 2)
   else (m =? 2) && (d =? dim 2)).

Lemma month_day_all (leap : bool) (doy : Z) : 0 <= doy <= (if leap then 365 else 364) ->
  month_day_ok leap doy = true.
Proof. revert doy. destruct leap; apply forallb_zrange; by vm_compute. Qed.

Lemma days_in_month_leap y m :
  days_in_month y m = if m =? 2 then (if leap_year y then 29 else 28) else days_in_month 1 m.
Proof. unfold days_in_month. by destruct (m =? 2). Qed.

(** The date of a day of the era is valid, and the next day has the next date;
    after the last day of the era comes the first day of the next one. *)
Lemma era_day doe : 0 <= doe <= 146096 ->
  date_valid (civil_of_era doe) = true /\
  next_date (civil_of_era doe) =
    (if doe =? 146096 then (400, 3, 1) else civil_of_era (doe + 1)).
Proof.
  intros H. destruct (era_year_spec doe H) as (Hy & Hs & He).
  unfold civil_of_era at 1 2. set (y := era_year doe) in *. clearbody y.
  destruct (era_year_ends y Hy) as (_ & _ & Hlen).
  pose proof (month_day_all (leap_year (y + 1)) (doe - year_start y)) as Hok.
  specialize (Hok ltac:(destruct (leap_year (y + 1)); lia)).
  unfold month_day_ok in Hok.
  destruct (month_day (doe - year_start y)) as [m d] eqn:Hmd.
  destruct (month_day (doe - year_start y + 1)) as [m' d'] eqn:Hmd'.
  apply andb_prop in Hok as [Hv Hnext].
  assert (forall yy, m <= 2 -> yy = y + 1 -> days_in_month yy m =
    if m =? 2 then (if leap_year (y + 1) then 29 else 28) else days_in_month 1 m) as Hd1
    by (intros ? ? ->; apply days_in_month_leap).
  assert (2 < m -> days_in_month y m =
    if m =? 2 then (if leap_year (y + 1) then 29 else 28) else days_in_month 1 m) as Hd2.
  { intros ?. rewrite days_in_month_leap. by destruct (Z.eqb_spec m 2); [lia|]. }
  set (dim := if m =? 2 then _ else _) in *.
  assert (days_in_month (if m <=? 2 then y + 1 else y) m = dim) as Hdim.
  { destruct (Z.leb_spec m 2); auto. }
  repeat (apply andb_prop in Hv as [Hv ?]). split.
  { unfold date_valid. rewrite Hdim. repeat (apply andb_true_intro; split); lia. }
  unfold next_date. rewrite Hdim.
  destruct (Z.ltb_spec (doe - year_start y) (if leap_year (y + 1) then 365 else 364)).
  - assert (doe < year_end y) by lia.
    destruct (year_end_bounds y Hy) as [? _].
    destruct (Z.eqb_spec doe 146096); [lia|].
    unfold civil_of_era. rewrite (era_year_unique (doe + 1) y) by lia.
    replace (doe + 1 - year_start y) with (doe - year_start y + 1) by lia. rewrite Hmd'.
    destruct (Z.ltb_spec d dim); repeat (apply andb_prop in Hnext as [Hnext ?]).
    + assert (m' = m) as -> by lia. assert (d' = d + 1) as -> by lia. done.
    + destruct (Z.eqb_spec m 12); assert (d' = 1) as -> by lia.
      * assert (m' = 1) as -> by lia. subst m. done.
      * assert (m' = m + 1) as -> by lia. destruct (Z.ltb_spec m 12); [|lia].
        repeat f_equal. destruct (Z.leb_spec m 2), (Z.leb_spec (m + 1) 2); lia.
  - apply andb_prop in Hnext as [Hm2 Hd].
    assert (m = 2) as -> by lia. simpl in Hd, dim |- *.
    assert (d = dim) as -> by (subst dim; simpl; lia).
    rewrite Z.ltb_irrefl. assert (doe = year_end y) as -> by lia.
    destruct (decide (y = 399)) as [E|E]; [by rewrite E|].
    destruct (year_end_bounds y Hy) as [_ Hne]. specialize (Hne E).
    destruct (Z.eqb_spec (year_end y) 146096); [done|].
    rewrite year_end_start by lia. unfold civil_of_era.
    destruct (era_year_ends (y + 1) ltac:(lia)) as (-> & _ & _).
    by rewrite Z.sub_diag.
Qed.

Lemma civil_valid days : date_valid (civil_of_days days) = true.
Proof.
  rewrite civil_of_days_shift.
  pose proof (Z.mod_pos_bound (days + 719468) 146097 ltac:(lia)).
  destruct (era_day ((days + 719468) mod 146097) ltac:(lia)) as [Hv _].
  destruct (civil_of_era _) as [[y m] d]. unfold shift_year, date_valid in *.
  by rewrite days_in_month_shift.
Qed.

(** 1970-01-01 is day 0 and each day's date is the successor of the previous. *)
Lemma civil_succ days :
  civil_of_days 0 = (1970, 1, 1) /\
  civil_of_days (days + 1) = next_date (civil_of_days days).
Proof.
  split; [done|]. rewrite !civil_of_days_shift.
  set (z := days + 719468). replace (days + 1 + 719468) with (z + 1) by lia.
  pose proof (Z.mod_pos_bound z 146097 ltac:(lia)).
  pose proof (Z.div_mod z 146097 ltac:(lia)) as Hz.
  rewrite next_date_shift.
  destruct (era_day (z mod 146097) ltac:(lia)) as [_ ->].
  destruct (Z.eqb_spec (z mod 146097) 146096) as [E|E].
  - replace (z + 1) with ((z / 146097 + 1) * 146097) by lia.
    rewrite Z.div_mul, Z.mod_mul by lia.
    change (civil_of_era 0) with (0, 3, 1). unfold shift_year.
    f_equal. f_equal. lia.
  - replace ((z + 1) / 146097) with (z / 146097).
    2: { apply (Z.div_unique _ _ _ (z mod 146097 + 1)); lia. }
    replace ((z + 1) mod 146097) with (z mod 146097 + 1); [done|].
    apply (Z.mod_unique _ _ (z / 146097)); lia.
Qed.

Lemma t_minute_range loc t : 0 <= t_minute loc t <= 59.
Proof.
  unfold t_minute. pose proof (Z.mod_pos_bound (wall_seconds loc t) 3600 ltac:(lia)).
  split; [apply Z.div_pos; lia|apply Z.lt_succ_r, Z.div_lt_upper_bound; lia].
Qed.

Lemma t_hour_range loc t : 0 <= t_hour loc t <= 23.
Proof.
  unfold t_hour. pose proof (Z.mod_pos_bound (wall_seconds loc t) 86400 ltac:(lia)).
  split; [apply Z.div_pos; lia|apply Z.lt_succ_r, Z.div_lt_upper_bound; lia].
Qed.

Lemma t_weekday_range loc t : 0 <= t_weekday loc t <= 6.
Proof. unfold t_weekday. pose proof (Z.mod_pos_bound (t_days loc t + 4) 7). lia. Qed.

Lemma t_date_range loc t :
  1 <= t_month loc t <= 12 /\
  1 <= t_day loc t <= days_in_month (t_year loc t) (t_month loc t).
Proof.
  unfold t_month, t_day, t_year. pose proof (civil_valid (t_days loc t)) as H.
  destruct (civil_of_days _) as [[y m] d]. simpl. unfold date_valid in H.
  repeat (apply andb_prop in H as [H ?]). lia.
Qed.

Lemma days_in_month_le y m : days_in_month y m <= 31.
Proof. unfold days_in_month. repeat case_match; lia. Qed.

Lemma Truncate_minute t : Truncate t Minute = (t / Minute) * Minute.
Proof.
  unfold Truncate. change (Minute <=? 0) with false. cbn iota.
  replace (t - zero_time) with (t + 1035593280 * Minute) by (unfold zero_time, Minute, Second; lia).
  rewrite Z_mod_plus_full. rewrite Z.mod_eq by (unfold Minute, Second; lia).
  lia.
Qed.

Lemma Truncate_minute_bounds t : Truncate t Minute <= t < Truncate t Minute + Minute.
Proof.
  rewrite Truncate_minute.
  pose proof (Z.mod_pos_bound t Minute ltac:(unfold Minute, Second; lia)).
  pose proof (Z.div_mod t Minute ltac:(unfold Minute, Second; lia)). lia.
Qed.
