(* ===== verification/Ticker.v ===== *)
(** The loops on a ticker: [for { select { case <-ctx.Done(): return; case <-ticker.C: ... } }],
    as trigger/loop.go, retry/loop.go, engine.go, cache/manager.go, health/checker.go,
    worker/local_store.go and worker/handler.go have them, with the [time.Ticker] of the
    standard library: it fires every interval into a channel that holds one tick. The
    contexts they get are never cancelled (the main functions pass [context.Background()]). *)
From S2P Require Import Prelude Threads GoStd GoTime.

(** ** [time.Ticker] *)

Record Ticker := mkTicker { tk_next : Time; tk_interval : Duration; tk_full : bool }.

(** It panics on an interval that is not positive. *)
Definition NewTicker (now : Time) (d : Duration) : option Ticker :=
  if 0 <? d then Some (mkTicker (now + d) d false) else None.

(** At [now] the ticks up to then have fired; what does not fit the channel is dropped. *)
Definition elapse (now : Time) (t : Ticker) : Ticker :=
  if tk_next t <=? now
  then mkTicker (tk_next t + tk_interval t * ((now - tk_next t) / tk_interval t + 1)) (tk_interval t) true else t.

(** [if interval <= 0 { interval = ... }] *)
Definition or_interval (interval default : Duration) : Duration := if interval <=? 0 then default else interval.

Lemma elapse_next now t : 0 < tk_interval t -> now < tk_next (elapse now t) /\ tk_next t <= tk_next (elapse now t).
Proof.
  intros Hd. unfold elapse. destruct (Z.leb_spec (tk_next t) now); simpl; [|lia].
  pose proof (Z.mul_succ_div_gt (now - tk_next t) (tk_interval t) Hd).
  pose proof (Z.div_pos (now - tk_next t) (tk_interval t) ltac:(lia) Hd). nia.
Qed.

(** Looking at a ticker in between makes no difference. *)
Lemma elapse_elapse a b t : 0 < tk_interval t -> a <= b -> elapse b (elapse a t) = elapse b t.
Proof.
  intros Hd Hab. unfold elapse at 2. destruct (Z.leb_spec (tk_next t) a) as [Ha|Ha]; [|done].
  set (d := tk_interval t) in *. set (k := (a - tk_next t) / d). unfold elapse. cbn [tk_next tk_interval].
  destruct (Z.leb_spec (tk_next t) b) as [Hb|]; [|lia]. fold d.
  pose proof (Z.div_mod (a - tk_next t) d ltac:(lia)) as Hk. pose proof (Z.mod_pos_bound (a - tk_next t) d Hd). fold k in Hk.
  destruct (Z.leb_spec (tk_next t + d * (k + 1)) b) as [Hn|Hn].
  - f_equal. replace (b - (tk_next t + d * (k + 1))) with ((b - tk_next t) + (- (k + 1)) * d) by ring. rewrite Z.div_add by lia. nia.
  - do 2 f_equal. replace k with ((b - tk_next t) / d); [done|]. symmetry. apply (Z.div_unique_pos _ _ _ (b - tk_next t - d * k)); nia.
Qed.

(** ** A loop *)

(** The body runs at a time; [None] is a panic, which ends the process. *)
Record loop (W : Type) := mkLoop { lp_interval : Duration; lp_first : bool; lp_body : Time -> W -> option W }.
Arguments mkLoop {W} _ _ _.
Arguments lp_interval {W} _.
Arguments lp_first {W} _.
Arguments lp_body {W} _ _ _.

(** Before its first statement; waiting at the [select], with when it began, when it last
    looked at the channel and how often a tick has run its body; or dead by a panic. *)
Inductive loop_phase := Begins | Waits (tk : Ticker) (began seen : Time) (runs : Z) | Panicked.

(** A goroutine is a loop and where it stands; the state is the time with it. *)
Definition loop_step {W} (g : loop W * loop_phase) (s : W * Time) : (W * Time) * (loop W * loop_phase) :=
  let '(l, p) := g in let '(w, now) := s in
  match p with
  | Begins =>
      match NewTicker now (lp_interval l) with
      | None => (s, (l, Panicked))
      | Some tk =>
          if lp_first l then
            match lp_body l now w with Some w' => ((w', now), (l, Waits tk now now 0)) | None => (s, (l, Panicked)) end
          else (s, (l, Waits tk now now 0))
      end
  | Waits tk began seen runs =>
      let tk := elapse now tk in
      if tk_full tk then
        match lp_body l now w with
        | Some w' => ((w', now), (l, Waits (mkTicker (tk_next tk) (tk_interval tk) false) began now (runs + 1)))
        | None => (s, (l, Panicked))
        end
      else (s, (l, Waits tk began now runs))
  | Panicked => (s, g)
  end.
#[export] Instance loop_threads W : Threads (W * Time) (loop W * loop_phase) := loop_step.

(** ** How often a loop runs *)

(** The ticks run so far, and the one in the channel, fit the time since the start. *)
Definition on_time {W} (g : loop W * loop_phase) : Prop :=
  match g.2 with
  | Waits tk began seen runs =>
      tk_interval tk = lp_interval g.1 /\ 0 < lp_interval g.1 /\ 0 <= runs /\ tk_next tk <= seen + tk_interval tk /\
      (runs + (if tk_full tk then 1 else 0) + 1) * tk_interval tk <= tk_next tk - began
  | _ => True
  end.

Lemma on_time_step {W} (g : loop W * loop_phase) (s : W * Time) : on_time g ->
  match g.2 with Waits _ _ seen _ => seen <= s.2 | _ => True end -> on_time (loop_step g s).2.
Proof.
  destruct g as [l p], s as [w now]. unfold on_time, loop_step. cbn [fst snd]. destruct p as [|tk began seen runs|]; intros Hg Hn; [| |done].
  - unfold NewTicker. destruct (Z.ltb_spec 0 (lp_interval l)) as [Hd|]; [|done].
    destruct (lp_first l); [destruct (lp_body l now w); [|done]|]; cbn [fst snd tk_next tk_interval tk_full]; lia.
  - destruct Hg as (Hi & Hd & Hr & Hs & Hc). rewrite <- Hi in Hd.
    assert (tk_interval (elapse now tk) = tk_interval tk /\ tk_next (elapse now tk) <= now + tk_interval tk /\
      (runs + (if tk_full (elapse now tk) then 1 else 0) + 1) * tk_interval tk <= tk_next (elapse now tk) - began) as (Hi' & Hn' & Hc').
    { unfold elapse. destruct (Z.leb_spec (tk_next tk) now) as [Hle|]; cbn [tk_next tk_interval tk_full]; [|lia].
      split; [done|]. pose proof (Z.mul_div_le (now - tk_next tk) (tk_interval tk) Hd).
      pose proof (Z.div_pos (now - tk_next tk) (tk_interval tk) ltac:(lia) Hd). destruct (tk_full tk); nia. }
    destruct (tk_full (elapse now tk)) eqn:Hf; [destruct (lp_body l now w); [|done]|];
      cbn [fst snd tk_next tk_interval tk_full]; rewrite Hi'; split_and!; try lia; rewrite ?Hf; lia.
Qed.

Section Loops.
Context {W : Type}.
Abbreviation goroutine := (loop W * loop_phase)%type.

(** Time passes, and others work on the state meanwhile. *)
Definition meanwhile (other : W -> W -> Prop) (s s' : W * Time) : Prop :=
  s.1 = s'.1 /\ s.2 <= s'.2 \/ other s.1 s'.1 /\ s.2 = s'.2.
Definition loops_step (L : loop W -> Prop) (other : W -> W -> Prop) : conf (W * Time) goroutine -> conf (W * Time) goroutine -> Prop :=
  interleaved (fun g => g.2 = Begins /\ L g.1) (meanwhile other).

(** Since [t0]. *)
Definition loop_times (t0 : Time) (s : W * Time) (g : goroutine) : Prop :=
  on_time g /\ match g.2 with Waits _ began seen _ => t0 <= began /\ seen <= s.2 | _ => True end.

Lemma loop_times_later t0 s s' g : s.2 <= s'.2 -> loop_times t0 s g -> loop_times t0 s' g.
Proof. intros Hs [Hg Hp]. split; [done|]. destruct g.2; naive_solver lia. Qed.

Lemma loop_step_time (g : goroutine) s : (loop_step g s).1.2 = s.2.
Proof. destruct g as [l [|tk b n r|]], s as [w now]; simpl; repeat case_match; done. Qed.

Lemma loop_times_step t0 s g : t0 <= s.2 -> loop_times t0 s g -> loop_times t0 (loop_step g s).1 (loop_step g s).2.
Proof.
  intros Ht [Hg Hp]. split; [apply on_time_step; [done|destruct g.2; naive_solver]|].
  destruct g as [l [|tk b n r|]], s as [w now]; simpl in *; repeat case_match; simpl; simplify_eq/=; lia || done.
Qed.

(** A loop is never ahead of its ticker: whatever the other goroutines do, however long
    the bodies take, a loop that got to its [select] at the time [seen] has run its body
    for at most one tick per interval since it began. *)
Theorem loops_in_time L other c c' id l tk began seen runs :
  map_Forall (fun _ g => g.2 = Begins) (c_threads c) -> rtc (loops_step L other) c c' ->
  c_threads c' !! id = Some (l, Waits tk began seen runs) ->
  (c_world c).2 <= began /\ seen <= (c_world c').2 /\ 0 <= runs /\ runs * lp_interval l <= seen - began.
Proof.
  intros Ht Hs Hid.
  destruct (interleaved_relates (fun g : goroutine => g.2 = Begins /\ L g.1) (meanwhile other) (fun s => (c_world c).2 <= s.2)
    (loop_times (c_world c).2) c c') as [Hnow Hall]; [| | |exact Hs|lia| |].
  - intros s g _ [Hg _]. unfold loop_times, on_time. by rewrite Hg.
  - intros s s' Hi Ho. assert (s.2 <= s'.2) as Hle by (destruct Ho as [[_ ?]|[_ ->]]; lia). split; [lia|]. intros h. by apply loop_times_later.
  - intros g s s' g' Hi Hg Hx. pose proof (loop_step_time g s) as Hst. pose proof (loop_times_step _ s g Hi Hg) as Hg'.
    change (loop_step g s = (s', g')) in Hx. rewrite Hx in Hst, Hg'. cbn [fst snd] in *. split; [lia|]. split; [done|].
    intros h. apply loop_times_later. lia.
  - intros k g Hg. unfold loop_times, on_time. by rewrite (Ht _ _ Hg).
  - destruct (Hall _ _ Hid) as [(Hi & Hd & Hr & Hn & Hc) [Hb Hsn]]. cbn [fst snd] in *. split_and!; try done.
    rewrite Hi in *. destruct (tk_full tk); nia.
Qed.

(** The states in which the loop looks at its channel, and the times; what happens in
    between is up to the others. *)
Definition looks (g : goroutine) (visits : list (W * Time)) : goroutine := foldl (fun g s => (loop_step g s).2) g visits.

(** At each of them it runs its body. *)
Fixpoint runs_each (g : goroutine) (visits : list (W * Time)) : Prop :=
  match visits with
  | [] => True
  | s :: rest => lp_body g.1 s.2 s.1 = Some (loop_step g s).1.1 /\ runs_each (loop_step g s).2 rest
  end.

(** [times] has one entry in each interval after the [i]-th. *)
Fixpoint one_each (began : Time) (d : Duration) (i : Z) (times : list Time) : Prop :=
  match times with
  | [] => True
  | t :: times' => began + i * d <= t < began + (i + 1) * d /\ one_each began d (i + 1) times'
  end.

Lemma waiting_keeps_up l visits tk began seen runs : 0 < lp_interval l -> tk_interval tk = lp_interval l ->
  (forall t w, is_Some (lp_body l t w)) -> tk_full tk = false -> tk_next tk = began + (runs + 1) * lp_interval l ->
  one_each began (lp_interval l) (runs + 1) visits.*2 -> runs_each (l, Waits tk began seen runs) visits.
Proof.
  intros Hd Hi Hb. revert tk seen runs Hi. induction visits as [|[w t] visits IH]; intros tk seen runs Hi Hf Hn Ho; [done|].
  destruct Ho as [Ht Ho]. cbn [snd] in Ht. cbn [runs_each]. unfold loop_step. cbv beta iota zeta. cbn [fst snd].
  assert (elapse t tk = mkTicker (began + (runs + 1 + 1) * lp_interval l) (lp_interval l) true) as ->.
  { unfold elapse. rewrite Hn, Hi. destruct (Z.leb_spec (began + (runs + 1) * lp_interval l) t); [|lia].
    rewrite Z.div_small by nia. f_equal. ring. }
  cbn [tk_full tk_next tk_interval]. destruct (Hb t w) as [w' Hw]. rewrite Hw. split; [done|]. by apply IH.
Qed.

(** No tick is lost on a loop that gets back to its channel in every interval. *)
Theorem loop_keeps_up l w began visits : 0 < lp_interval l -> (forall t w, is_Some (lp_body l t w)) ->
  one_each began (lp_interval l) 1 visits.*2 -> runs_each (loop_step (l, Begins) (w, began)).2 visits.
Proof.
  intros Hd Hb Ho. unfold loop_step, NewTicker. destruct (Z.ltb_spec 0 (lp_interval l)); [|lia].
  destruct (Hb began w) as [w' Hw].
  destruct (lp_first l); [rewrite Hw|]; (apply waiting_keeps_up; try done; cbn [tk_next]; ring).
Qed.

(** Then there is a run less than two intervals before any moment. *)
Lemma one_each_recent began d i times prev t : 0 < d -> 0 <= i -> one_each began d i times ->
  began + (i - 1) * d <= prev < began + i * d -> prev <= t < began + (i + Z.of_nat (length times)) * d ->
  exists t', t' ∈ prev :: times /\ t' <= t < t' + 2 * d.
Proof.
  intros Hd. revert i prev. induction times as [|t1 times IH]; intros i prev Hi Ho Hp Ht; cbn [length] in Ht.
  - exists prev. split; [by left|]. rewrite Z.add_0_r in Ht. nia.
  - destruct Ho as [Ht1 Ho]. destruct (Z.le_gt_cases t1 t).
    + replace (i + Z.of_nat (S (length times))) with (i + 1 + Z.of_nat (length times)) in Ht by lia.
      destruct (IH (i + 1) t1) as (t' & Hin & Hr); [lia|done|by replace (i + 1 - 1) with i by lia|lia|].
      exists t'. split; [by right|done].
    + exists prev. split; [by left|]. nia.
Qed.
End Loops.

(** A body that takes four intervals costs the ticks in between: of those at 5, 10, 15 and
    20 seconds the loop runs two. *)
Example slow_body_drops_ticks :
  (looks (mkLoop 5 true (fun _ n => Some (n + 1)), Waits (mkTicker 5 5 false) 0 0 0) [(1, 5); (2, 22); (3, 22); (3, 22)]).2 =
  Waits (mkTicker 25 5 false) 0 22 2.
Proof. reflexivity. Qed.
