(* ===== verification/GoFormat.v ===== *)
(** Rendering and reading of Go's time values: [Duration.String], and
    [Time.Format] / [time.Parse] with the layout [time.RFC3339Nano] that the
    scheduler and its workers exchange. [Parse_Format] is the round trip the
    dispatch timestamps rely on. *)
From S2P Require Import Prelude GoStd GoTime.

(** ** Digits *)

Definition digit_char (d : Z) : ascii := ascii_of_N (Z.to_N (48 + d)).

(** [v] in decimal with exactly [n] digits. *)
Fixpoint pad (n : nat) (v : Z) : string :=
  match n with
  | O => EmptyString
  | S n' => pad n' (v / 10) +:+ String (digit_char (v mod 10)) EmptyString
  end.

(** Drop trailing zeros. *)
Fixpoint drop_zeros (s : string) : string :=
  match s with
  | EmptyString => EmptyString
  | String c s' =>
      match drop_zeros s' with
      | EmptyString => if Ascii.eqb c "0" then EmptyString else String c EmptyString
      | r => String c r
      end
  end.

(** A decimal fraction of [prec] digits without its trailing zeros, and without
    the point when it is zero. *)
Definition frac (prec : nat) (v : Z) : string :=
  match drop_zeros (pad prec v) with
  | EmptyString => EmptyString
  | r => String "." r
  end.

(** ** [Duration.String] *)

Definition micro_sign : string := bytes_of [194; 181].

Definition duration_abs (u : Z) : string :=
  if u =? 0 then "0s"
  else if u <? 1000 then fmt_d u +:+ "ns"
  else if u <? Millisecond then fmt_d (u / 1000) +:+ frac 3 (u mod 1000) +:+ micro_sign +:+ "s"
  else if u <? Second then fmt_d (u / Millisecond) +:+ frac 6 (u mod Millisecond) +:+ "ms"
  else
    let s := u / Second in
    let seconds := fmt_d (s mod 60) +:+ frac 9 (u mod Second) +:+ "s" in
    let m := s / 60 in
    if m =? 0 then seconds
    else if m <? 60 then fmt_d m +:+ "m" +:+ seconds
    else fmt_d (m / 60) +:+ "h" +:+ fmt_d (m mod 60) +:+ "m" +:+ seconds.

(** [d.String()] *)
Definition duration_string (d : Duration) : string :=
  if d <? 0 then "-" +:+ duration_abs (- d) else duration_abs d.

(** ** [t.Format(time.RFC3339Nano)] *)

Definition pad_year (y : Z) : string :=
  if y <? 0 then String "-" (if y <? -9999 then fmt_d (- y) else pad 4 (- y))
  else if 9999 <? y then fmt_d y else pad 4 y.

Definition format_zone (offset : Z) : string :=
  if offset =? 0 then "Z"
  else
    let zone := go_div offset 60 in
    (if zone <? 0 then "-" else "+") +:+ pad 2 (Z.abs zone / 60) +:+ ":" +:+ pad 2 (Z.abs zone mod 60).

Definition FormatRFC3339Nano (loc : Location) (t : Time) : string :=
  let w := wall_seconds loc t in
  pad_year (t_year loc t) +:+ "-" +:+ pad 2 (t_month loc t) +:+ "-" +:+ pad 2 (t_day loc t)
  +:+ "T" +:+ pad 2 (t_hour loc t) +:+ ":" +:+ pad 2 (t_minute loc t) +:+ ":" +:+ pad 2 (w mod 60)
  +:+ frac 9 (t mod Second) +:+ format_zone (loc (t / Second)).

(** ** [time.Parse(time.RFC3339Nano, value)] *)

Definition digit_of (c : ascii) : option Z := if is_digit c then Some (digit_val c) else None.

(** [getnum]: a two-digit number; a single digit is allowed unless [fixed]. *)
Definition getnum (fixed : bool) (s : string) : option (Z * string) :=
  match s with
  | String a s1 =>
      x ← digit_of a;
      match s1 with
      | String b s2 =>
          match digit_of b with
          | Some y => Some (10 * x + y, s2)
          | None => if fixed then None else Some (x, s1)
          end
      | EmptyString => if fixed then None else Some (x, s1)
      end
  | EmptyString => None
  end.

(** The four-digit year. *)
Definition getyear (s : string) : option (Z * string) :=
  '(hi, s) ← getnum true s; '(lo, s) ← getnum true s; Some (100 * hi + lo, s).

Definition skip (c : ascii) (s : string) : option string :=
  match s with String d s' => if Ascii.eqb d c then Some s' else None | EmptyString => None end.

(** A run of digits: the value of the first [n], scaled to [n] digits, and the
    rest after the whole run. *)
Fixpoint fraction (n : nat) (s : string) : Z * string :=
  match s with
  | String c s' =>
      match digit_of c with
      | Some d =>
          match n with
          | O => fraction O s'
          | S n' => let '(v, r) := fraction n' s' in (d * 10 ^ Z.of_nat n' + v, r)
          end
      | None => (0, s)
      end
  | EmptyString => (0, s)
  end.

Definition getnanos (s : string) : Z * string :=
  match s with
  | String p ((String d _) as s') =>
      if (Ascii.eqb p "." || Ascii.eqb p ",") && is_digit d then fraction 9 s' else (0, s)
  | _ => (0, s)
  end.

(** The zone: [Z], or a sign, two digits, a colon and two digits; the offset in
    seconds. *)
Definition getzone (s : string) : option (Z * string) :=
  match s with
  | String "Z" s' => Some (0, s')
  | String sg s1 =>
      '(hr, s2) ← getnum true s1; s3 ← skip ":" s2; '(mm, s4) ← getnum true s3;
      if (24 <? hr) || (60 <? mm) then None
      else if Ascii.eqb sg "+" then Some ((hr * 60 + mm) * 60, s4)
      else if Ascii.eqb sg "-" then Some (- ((hr * 60 + mm) * 60), s4)
      else None
  | EmptyString => None
  end.

(** Day number of a date (0 is 1970-01-01). *)
Definition days_of_civil (y m d : Z) : Z :=
  let y' := if m <=? 2 then y - 1 else y in
  let mp := if m <=? 2 then m + 9 else m - 3 in
  146097 * (y' / 400) + year_start (y' mod 400) + (153 * mp + 2) / 5 + d - 1 - 719468.

Definition ParseRFC3339Nano (value : string) : option Time :=
  '(year, v) ← getyear value; v ← skip "-" v;
  '(month, v) ← getnum true v; v ← skip "-" v;
  '(day, v) ← getnum true v; v ← skip "T" v;
  '(hour, v) ← getnum false v; v ← skip ":" v;
  '(mi, v) ← getnum true v; v ← skip ":" v;
  '(sec, v) ← getnum true v;
  let '(nanos, v) := getnanos v in
  '(offset, v) ← getzone v;
  if bool_decide (v = EmptyString) && (1 <=? month) && (month <=? 12)
     && (1 <=? day) && (day <=? days_in_month year month)
     && (hour <? 24) && (mi <? 60) && (sec <? 60)
  then Some ((days_of_civil year month day * 86400 + hour * 3600 + mi * 60 + sec - offset) * Second + nanos)
  else None.

Example format_sample :
  FormatRFC3339Nano (fun _ => 28800) (1714557600 * Second + 120000000) = "2024-05-01T18:00:00.12+08:00".
Proof. vm_compute. reflexivity. Qed.

Example parse_sample :
  ParseRFC3339Nano "2024-05-01T18:00:00.12+08:00" = Some (1714557600 * Second + 120000000).
Proof. vm_compute. reflexivity. Qed.

Example duration_sample : duration_string (3723 * Second + 500 * Millisecond) = "1h2m3.5s".
Proof. vm_compute. reflexivity. Qed.

(** ** The date round trip *)

Lemma days_of_civil_days days :
  let '(y, m, d) := civil_of_days days in days_of_civil y m d = days.
Proof.
  unfold civil_of_days. set (z := days + 719468).
  pose proof (Z.mod_pos_bound z 146097 ltac:(lia)) as Hm.
  pose proof (Z.div_mod z 146097 ltac:(lia)) as Hz.
  set (doe := z mod 146097) in *. set (k := z / 146097) in *.
  destruct (era_year_spec doe ltac:(lia)) as (Hy & Hs & He).
  unfold civil_of_era, month_day. set (y := era_year doe) in *. clearbody y doe k.
  destruct (era_year_ends y Hy) as (_ & _ & Hlen).
  assert (0 <= doe - year_start y <= 365) as Hdoy by (destruct (leap_year (y + 1)); lia).
  set (doy := doe - year_start y) in *. set (mp := (5 * doy + 2) / 153).
  assert (0 <= mp <= 11) as Hmp by (subst mp; clear -Hdoy; zdiv_lia).
  unfold days_of_civil. clearbody mp.
  assert (forall q, (y + 400 * q) / 400 = q /\ (y + 400 * q) mod 400 = y) as Hq.
  { intros q. split; [symmetry; apply (Z.div_unique _ _ _ y)|symmetry; apply (Z.mod_unique _ _ q)]; lia. }
  destruct (Hq k) as [Hq1 Hq2].
  destruct (Z.ltb_spec mp 10).
  - assert ((mp + 3 <=? 2) = false) as -> by lia. cbv beta iota zeta.
    rewrite Hq1, Hq2. replace (mp + 3 - 3) with mp by lia. lia.
  - assert ((mp - 9 <=? 2) = true) as -> by lia. cbv beta iota zeta.
    replace (y + 1 + 400 * k - 1) with (y + 400 * k) by lia.
    rewrite Hq1, Hq2. replace (mp - 9 + 9) with mp by lia. lia.
Qed.

(** ** The text round trip *)

(** Expose the first byte of a literal that starts a concatenation. *)
Ltac app_head :=
  repeat match goal with
         | |- context [String ?c EmptyString +:+ ?x] =>
             change (String c EmptyString +:+ x) with (String c x)
         end.

Lemma digit_of_char d : 0 <= d <= 9 -> digit_of (digit_char d) = Some d.
Proof.
  intros H. enough (forall x, 0 <= x <= 9 -> bool_decide (digit_of (digit_char x) = Some x) = true) as Hf
    by (by apply (bool_decide_eq_true_1 _), Hf).
  apply forallb_zrange. by vm_compute.
Qed.

Lemma getnum_digits fixed a b s : 0 <= a <= 9 -> 0 <= b <= 9 ->
  getnum fixed (String (digit_char a) (String (digit_char b) s)) = Some (10 * a + b, s).
Proof. intros Ha Hb. unfold getnum. rewrite (digit_of_char a), (digit_of_char b) by done. done. Qed.

Lemma getnum_pad fixed v s : 0 <= v <= 99 -> getnum fixed (pad 2 v +:+ s) = Some (v, s).
Proof.
  intros H. cbn [pad]. change (getnum fixed (String (digit_char (v / 10 mod 10))
    (String (digit_char (v mod 10)) s)) = Some (v, s)).
  rewrite getnum_digits by zdiv_lia. do 2 f_equal. zdiv_lia.
Qed.

Lemma getyear_pad v s : 0 <= v <= 9999 -> getyear (pad 4 v +:+ s) = Some (v, s).
Proof.
  intros H. unfold getyear.
  change (pad 4 v +:+ s) with
    (String (digit_char (v / 10 / 10 / 10 mod 10)) (String (digit_char (v / 10 / 10 mod 10))
      (String (digit_char (v / 10 mod 10)) (String (digit_char (v mod 10)) s)))).
  rewrite getnum_digits by zdiv_lia. cbn [mbind option_bind].
  rewrite getnum_digits by zdiv_lia. cbn [mbind option_bind]. do 2 f_equal.
  replace (v / 10 / 10 / 10) with (v / 1000) by zdiv_lia.
  replace (v / 10 / 10) with (v / 100) by zdiv_lia. zdiv_lia.
Qed.

(** Strings of digits and the value [fraction] gives them. *)
Fixpoint all_digits (s : string) : Prop :=
  match s with EmptyString => True | String c s' => (exists d, 0 <= d <= 9 /\ c = digit_char d) /\ all_digits s' end.

Fixpoint scaled (n : nat) (s : string) : Z :=
  match s, n with
  | String c s', S n' => digit_val c * 10 ^ Z.of_nat n' + scaled n' s'
  | _, _ => 0
  end.

Definition no_digit_head (s : string) : Prop :=
  match s with EmptyString => True | String c _ => is_digit c = false end.

Lemma digit_val_char d : 0 <= d <= 9 -> digit_val (digit_char d) = d.
Proof. intros H. pose proof (digit_of_char d H) as E. unfold digit_of in E. case_match; congruence. Qed.

Lemma fraction_digits n s rest : all_digits s -> no_digit_head rest ->
  (String.length s <= n)%nat -> fraction n (s +:+ rest) = (scaled n s, rest).
Proof.
  revert n. induction s as [|c s IH]; intros n Hs Hr Hn; simpl in *.
  - destruct rest as [|c r]; [by destruct n|]. destruct n; simpl; unfold digit_of; by rewrite Hr.
  - destruct Hs as [(d & Hd & ->) Hs]. destruct n as [|n]; [lia|]. cbn [fraction].
    rewrite digit_of_char, IH by (done || lia). cbn [scaled]. by rewrite digit_val_char.
Qed.

Lemma drop_zeros_spec n s : all_digits s ->
  all_digits (drop_zeros s) /\ scaled n (drop_zeros s) = scaled n s /\
  (String.length (drop_zeros s) <= String.length s)%nat.
Proof.
  revert n. induction s as [|c s IH]; intros n Hs; simpl in *; [done|].
  destruct Hs as [Hd Hs]. destruct n as [|n].
  - destruct (IH 0%nat Hs) as (H1 & _ & H3). destruct (drop_zeros s) as [|c' s'].
    + destruct (Ascii.eqb c "0"); simpl; split_and!; try done; lia.
    + simpl in *. destruct H1. split_and!; try done; lia.
  - destruct (IH n Hs) as (H1 & H2 & H3). destruct (drop_zeros s) as [|c' s'].
    + destruct (Ascii.eqb_spec c "0") as [->|]; simpl in *; rewrite <- H2.
      * split_and!; try done; try lia; by destruct n.
      * split_and!; try done; try lia; by destruct n.
    + simpl in *. destruct H1. rewrite <- H2. split_and!; try done; lia.
Qed.

Lemma scaled_snoc n s d : all_digits s -> String.length s = n -> 0 <= d <= 9 ->
  scaled (S n) (s +:+ String (digit_char d) EmptyString) = 10 * scaled n s + d.
Proof.
  intros Hs Hn Hd. revert n Hn. induction s as [|c s IH]; intros n Hn; simpl in *.
  - subst n. cbn [scaled Z.of_nat]. rewrite digit_val_char by done. lia.
  - destruct Hs as [_ Hs]. destruct n as [|n]; [done|]. cbn [scaled].
    rewrite IH by (done || lia). rewrite Nat2Z.inj_succ, Z.pow_succ_r by lia. lia.
Qed.

Lemma all_digits_app s t : all_digits s -> all_digits t -> all_digits (s +:+ t).
Proof. induction s as [|c s IH]; simpl; [done|]. intros [? ?] ?. split; auto. Qed.

Lemma length_append (s t : string) : String.length (s +:+ t) = (String.length s + String.length t)%nat.
Proof. induction s as [|c s IH]; simpl; [done|]. by f_equal. Qed.

Lemma pad_spec n v : 0 <= v < 10 ^ Z.of_nat n ->
  all_digits (pad n v) /\ String.length (pad n v) = n /\ scaled n (pad n v) = v.
Proof.
  revert v. induction n as [|n IH]; intros v Hv; [change (10 ^ Z.of_nat 0) with 1 in Hv; simpl; lia|].
  rewrite Nat2Z.inj_succ, Z.pow_succ_r in Hv by lia.
  pose proof (Z.mod_pos_bound v 10 ltac:(lia)). pose proof (Z.div_mod v 10 ltac:(lia)).
  destruct (IH (v / 10)) as (H1 & H2 & H3); [lia|].
  cbn [pad]. split_and!.
  - apply all_digits_app; [done|]. simpl. split; [|done]. exists (v mod 10). split; [lia|done].
  - rewrite length_append. simpl. lia.
  - rewrite scaled_snoc by (done || lia). lia.
Qed.

Lemma getnanos_frac v rest : 0 <= v < Second -> no_digit_head rest ->
  match rest with String c _ => c <> "."%char /\ c <> ","%char | _ => True end ->
  getnanos (frac 9 v +:+ rest) = (v, rest).
Proof.
  intros Hv Hr Hp. destruct (pad_spec 9 v Hv) as (H1 & H2 & H3).
  destruct (drop_zeros_spec 9 _ H1) as (D1 & D2 & D3). unfold frac.
  rewrite H3 in D2. destruct (drop_zeros (pad 9 v)) as [|c s].
  - simpl in D2. subst v. destruct rest as [|c [|d r]]; [done..|]. simpl.
    destruct Hp as [Hp1 Hp2]. apply Ascii.eqb_neq in Hp1, Hp2. by rewrite Hp1, Hp2.
  - pose proof D1 as ((d & Hd & ->) & _).
    change (getnanos _) with
      (if is_digit (digit_char d) then fraction 9 (String (digit_char d) (s +:+ rest))
       else (0, String "." (String (digit_char d) (s +:+ rest)))).
    assert (is_digit (digit_char d) = true) as ->.
    { pose proof (digit_of_char d Hd) as E. unfold digit_of in E. by case_match. }
    change (String (digit_char d) (s +:+ rest)) with (String (digit_char d) s +:+ rest).
    rewrite fraction_digits by (done || lia). by rewrite D2.
Qed.

(** Offsets that RFC 3339 can write: whole minutes below a day. *)
Definition zone_ok (offset : Z) : Prop := offset mod 60 = 0 /\ -86400 < offset < 86400.

Lemma getzone_format offset : zone_ok offset ->
  getzone (format_zone offset) = Some (offset, EmptyString) /\
  no_digit_head (format_zone offset) /\
  match format_zone offset with String c _ => c <> "."%char /\ c <> ","%char | _ => True end.
Proof.
  intros [Hm Hb]. unfold format_zone, go_div.
  destruct (Z.eqb_spec offset 0) as [->|Hne]; [done|].
  assert (exists q, offset = q * 60) as [q ->] by (exists (offset / 60); zdiv_lia).
  rewrite Z.quot_mul by lia.
  assert (0 <= Z.abs q / 60 <= 23 /\ 0 <= Z.abs q mod 60 <= 59 /\
          (Z.abs q / 60) * 60 + Z.abs q mod 60 = Z.abs q) as (H1 & H2 & H3) by zdiv_lia.
  destruct (Z.ltb_spec q 0); (split; [|done]); app_head; cbn [getzone];
    rewrite getnum_pad by lia; cbn [mbind option_bind skip];
    change (Ascii.eqb ":" ":") with true; cbn [mbind option_bind];
    change (pad 2 (Z.abs q mod 60)) with (pad 2 (Z.abs q mod 60) +:+ EmptyString);
    rewrite getnum_pad by lia; cbn [mbind option_bind];
    (destruct (Z.ltb_spec 24 (Z.abs q / 60)); [lia|]);
    (destruct (Z.ltb_spec 60 (Z.abs q mod 60)); [lia|]);
    cbn [orb]; simpl; do 2 f_equal; lia.
Qed.

(** Reading a formatted instant gives the instant back, in any location whose
    offset is whole minutes, for the years RFC 3339 can write. *)
Lemma Parse_Format loc t : 0 <= t_year loc t <= 9999 -> zone_ok (loc (t / Second)) ->
  ParseRFC3339Nano (FormatRFC3339Nano loc t) = Some t.
Proof.
  intros Hy Hz. unfold FormatRFC3339Nano, ParseRFC3339Nano, pad_year.
  pose proof (t_hour_range loc t) as Hh. pose proof (t_minute_range loc t) as Hmi.
  pose proof (t_date_range loc t) as [Hmo Hd]. pose proof (days_in_month_le (t_year loc t) (t_month loc t)).
  destruct (getzone_format _ Hz) as (Hz1 & Hz2 & Hz3).
  pose proof (Z.mod_pos_bound t Second ltac:(unfold Second; lia)) as Hns.
  set (w := wall_seconds loc t).
  pose proof (Z.mod_pos_bound w 60 ltac:(lia)) as Hsec.
  destruct (Z.ltb_spec (t_year loc t) 0); [lia|]. destruct (Z.ltb_spec 9999 (t_year loc t)); [lia|].
  rewrite getyear_pad by lia. app_head; cbn [mbind option_bind skip Ascii.eqb Bool.eqb].
  rewrite getnum_pad by lia. app_head; cbn [mbind option_bind skip Ascii.eqb Bool.eqb].
  rewrite getnum_pad by lia. app_head; cbn [mbind option_bind skip Ascii.eqb Bool.eqb].
  rewrite getnum_pad by lia. app_head; cbn [mbind option_bind skip Ascii.eqb Bool.eqb].
  rewrite getnum_pad by lia. app_head; cbn [mbind option_bind skip Ascii.eqb Bool.eqb].
  rewrite getnum_pad by lia. cbn [mbind option_bind].
  rewrite getnanos_frac by done. rewrite Hz1. cbn [mbind option_bind].
  rewrite bool_decide_true by done.
  repeat (match goal with |- context [?a <=? ?b] => destruct (Z.leb_spec a b); [|lia] end).
  repeat (match goal with |- context [?a <? ?b] => destruct (Z.ltb_spec a b); [|lia] end).
  cbn [andb]. f_equal.
  pose proof (days_of_civil_days (t_days loc t)) as Hdays.
  unfold t_year, t_month, t_day. destruct (civil_of_days (t_days loc t)) as [[y m] d]. cbn [fst snd].
  rewrite Hdays. unfold t_days, t_hour, t_minute. fold w.
  assert (w / 86400 * 86400 + w mod 86400 / 3600 * 3600 + w mod 3600 / 60 * 60 + w mod 60 = w) as ->
    by (clearbody w; clear; zdiv_lia).
  pose proof (Z.div_mod t Second ltac:(unfold Second; lia)).
  subst w. unfold wall_seconds. lia.
Qed.
