(* ===== verification/Cron.v ===== *)
(** The cron expressions of internal/pkg/cronexpr: the five-field parser and the
    minute-by-minute search for the next matching time. *)
From S2P Require Import Prelude GoStd GoTime.

(** ** Data *)

(** [field]: the set of admitted values, or [any] for a bare star. *)
Record field := mkField { values : gset Z; any : bool }.

Record schedule := mkSchedule {
  s_minute : field;
  s_hour : field;
  s_day : field;
  s_month : field;
  s_week : field
}.

Definition searchLimitMinutes : Z := 5 * 366 * 24 * 60.

(** ** Matching *)

Definition contains (f : field) (value : Z) : bool :=
  if any f then true else bool_decide (value ∈ values f).

Definition matches (s : schedule) (loc : Location) (t : Time) : bool :=
  if negb (contains (s_minute s) (t_minute loc t))
     || negb (contains (s_hour s) (t_hour loc t))
     || negb (contains (s_month s) (t_month loc t))
  then false
  else
    let dayMatch := contains (s_day s) (t_day loc t) in
    let weekMatch := contains (s_week s) (t_weekday loc t) in
    if any (s_day s) && any (s_week s) then true
    else if any (s_day s) then weekMatch
    else if any (s_week s) then dayMatch
    else dayMatch || weekMatch.

(** ** Parsing *)

Definition normalizeValue (value : Z) (allowSevenSunday : bool) : Z :=
  if allowSevenSunday && (value =? 7) then 0 else value.

Definition parseValue (text : string) (min max : Z) (allowSevenSunday : bool) : result Z :=
  match Atoi text with
  | None => Err (Errorf "invalid integer %q" [text])
  | Some value =>
      let normalized := normalizeValue value allowSevenSunday in
      if (normalized <? min) || (max <? normalized)
      then Err (Errorf "value %d out of range [%d,%d]" [fmt_d value; fmt_d min; fmt_d max])
      else Ok value
  end.

Definition parseRange (base : string) (min max : Z) (allowSevenSunday : bool) : result (Z * Z) :=
  if bool_decide (base = "*") then Ok (min, max)
  else if contains_byte "-"%char base then
    match Split "-"%char base with
    | [p0; p1] =>
        match parseValue p0 min max allowSevenSunday with
        | Err e => Err e
        | Ok start =>
            match parseValue p1 min max allowSevenSunday with
            | Err e => Err e
            | Ok end_ =>
                if end_ <? start
                then Err (Errorf "range start greater than end in %q" [base])
                else Ok (start, end_)
            end
        end
    | _ => Err (Errorf "invalid range %q" [base])
    end
  else
    match parseValue base min max allowSevenSunday with
    | Err e => Err e
    | Ok value => Ok (value, value)
    end.

(** [for value := start; value <= end; value += step]: the addition wraps like
    a Go int. [None] is running out of fuel, which [segment_loop_total] rules
    out for the fuel [addSegment] gives. *)
Fixpoint segment_loop (fuel : nat) (value end_ step min max : Z) (seven : bool)
    (vals : gset Z) : option (result (gset Z)) :=
  match fuel with
  | O => None
  | S n =>
      if value <=? end_ then
        let normalized := normalizeValue value seven in
        if (normalized <? min) || (max <? normalized)
        then Some (Err (Errorf "value %d out of range" [fmt_d value]))
        else segment_loop n (wrap64 (value + step)) end_ step min max seven ({[normalized]} ∪ vals)
      else Some (Ok vals)
  end.

Definition segment_fuel : nat := 64.

Definition addSegment (vals : gset Z) (segment : string) (min max : Z)
    (allowSevenSunday : bool) : result (gset Z) :=
  let base_step : result (string * Z) :=
    if contains_byte "/"%char segment then
      match Split "/"%char segment with
      | [p0; p1] =>
          match Atoi p1 with
          | Some parsedStep =>
              if parsedStep <=? 0 then Err (Errorf "invalid step value in %q" [segment])
              else Ok (p0, parsedStep)
          | None => Err (Errorf "invalid step value in %q" [segment])
          end
      | _ => Err (Errorf "invalid step segment %q" [segment])
      end
    else Ok (segment, 1) in
  match base_step with
  | Err e => Err e
  | Ok (base, step) =>
      match parseRange base min max allowSevenSunday with
      | Err e => Err e
      | Ok (start, end_) =>
          match segment_loop segment_fuel start end_ step min max allowSevenSunday vals with
          | Some r => r
          | None => Err (Errorf "segment loop out of fuel" [])
          end
      end
  end.

Fixpoint add_segments (vals : gset Z) (parts : list string) (min max : Z)
    (allowSevenSunday : bool) : result (gset Z) :=
  match parts with
  | [] => Ok vals
  | part :: rest =>
      let part := TrimSpace part in
      if bool_decide (part = "") then Err (Errorf "empty list segment" [])
      else match addSegment vals part min max allowSevenSunday with
           | Err e => Err e
           | Ok vals' => add_segments vals' rest min max allowSevenSunday
           end
  end.

Definition parseField (token : string) (min max : Z) (allowSevenSunday : bool) : result field :=
  let token := TrimSpace token in
  if bool_decide (token = "") then Err (Errorf "empty field" [])
  else if bool_decide (token = "*") then Ok (mkField ∅ true)
  else match add_segments ∅ (Split ","%char token) min max allowSevenSunday with
       | Err e => Err e
       | Ok vals => Ok (mkField vals false)
       end.

Definition wrap_field (name : string) (r : result field) : result field :=
  match r with Ok f => Ok f | Err e => Err (Wrap ("parse " +:+ name +:+ " field") e) end.

Definition parse (expr : string) : result schedule :=
  match Fields (TrimSpace expr) with
  | [p0; p1; p2; p3; p4] =>
      match wrap_field "minute" (parseField p0 0 59 false) with
      | Err e => Err e
      | Ok minute =>
      match wrap_field "hour" (parseField p1 0 23 false) with
      | Err e => Err e
      | Ok hour =>
      match wrap_field "day-of-month" (parseField p2 1 31 false) with
      | Err e => Err e
      | Ok day =>
      match wrap_field "month" (parseField p3 1 12 false) with
      | Err e => Err e
      | Ok month =>
      match wrap_field "day-of-week" (parseField p4 0 6 true) with
      | Err e => Err e
      | Ok week => Ok (mkSchedule minute hour day month week)
      end end end end end
  | _ => Err (Errorf "cron expression must contain 5 fields" [])
  end.

Definition Validate (expr : string) : option gerror :=
  match parse expr with Ok _ => None | Err e => Some e end.

(** ** Searching *)

(** The body of the search loop: [fuel] candidates, a minute apart. *)
Fixpoint search (fuel : nat) (s : schedule) (loc : Location) (candidate : Time) : option Time :=
  match fuel with
  | O => None
  | S n => if matches s loc candidate then Some candidate
           else search n s loc (candidate + Minute)
  end.

Definition NextAfter (loc : Location) (now : Time) (expr : string) : result Time :=
  match parse expr with
  | Err e => Err e
  | Ok s =>
      match search (Z.to_nat searchLimitMinutes) s loc (Truncate now Minute + Minute) with
      | Some t => Ok t
      | None => Err (Errorf "no matching time found for cron expression %q" [expr])
      end
  end.

(** ** The segment loop *)

Lemma normalizeValue_neg v seven : v < 0 -> normalizeValue v seven = v.
Proof. unfold normalizeValue. intros. destruct seven, (Z.eqb_spec v 7); simpl; lia. Qed.

Lemma wrap64_add_pos a b :
  0 <= a < 2 ^ 63 -> 0 <= b < 2 ^ 63 ->
  (wrap64 (a + b) = a + b /\ a + b < 2 ^ 63) \/ wrap64 (a + b) < 0.
Proof.
  intros Ha Hb. destruct (Z.lt_ge_cases (a + b) (2 ^ 63)).
  - left. split; [apply wrap64_id; unfold int64; lia|lia].
  - right. unfold wrap64.
    rewrite <- (Z.mod_unique (a + b + 2 ^ 63) (2 ^ 64) 1 (a + b - 2 ^ 63)); lia.
Qed.

(** The loop ends within the given fuel: values only grow until they pass the
    end or wrap to a negative value, which is out of range. *)
Lemma segment_loop_total fuel value end_ step min max seven vals :
  0 <= min -> 0 <= value -> end_ < 2 ^ 63 -> 1 <= step < 2 ^ 63 -> value < 2 ^ 63 ->
  Z.max 0 (end_ - value + 1) + 1 < Z.of_nat fuel ->
  is_Some (segment_loop fuel value end_ step min max seven vals).
Proof.
  intros Hmin. revert value vals.
  induction fuel as [|n IH]; intros value vals Hv He Hs Hv' Hf; [lia|]. simpl.
  destruct (Z.leb_spec value end_); [|done].
  destruct ((_ <? _) || (_ <? _)); [done|].
  destruct (wrap64_add_pos value step ltac:(lia) ltac:(lia)) as [[-> ?]|Hneg].
  - apply IH; lia.
  - destruct n as [|n]; [lia|]. simpl.
    rewrite normalizeValue_neg by done.
    destruct (Z.leb_spec (wrap64 (value + step)) end_); [|done].
    destruct (Z.ltb_spec (wrap64 (value + step)) min); [done|lia].
Qed.

Lemma segment_loop_sound fuel value end_ step min max seven vals vals' :
  segment_loop fuel value end_ step min max seven vals = Some (Ok vals') ->
  vals ⊆ vals' /\ (forall x, x ∈ vals' -> x ∈ vals \/ min <= x <= max) /\
  (value <= end_ -> vals' <> ∅).
Proof.
  revert value vals. induction fuel as [|n IH]; intros value vals H; [done|]. simpl in H.
  destruct (Z.leb_spec value end_); [|simplify_eq; split_and!; [done|auto|lia]].
  destruct ((_ <? _) || (_ <? _)) eqn:E; [done|].
  apply IH in H as (Hsub & Hin & _). clear IH. split_and!; [set_solver| |set_solver].
  intros x Hx. apply Hin in Hx as [Hx|]; [|auto].
  apply elem_of_union in Hx as [Hx|]; [|auto].
  apply elem_of_singleton in Hx as ->. right. lia.
Qed.

(** Without overflow the loop adds exactly the values [value + k * step] up to
    the end, normalised. *)
Lemma segment_loop_progression fuel value end_ step min max seven vals :
  0 <= min -> 0 <= value -> 1 <= step -> end_ + step < 2 ^ 63 ->
  (forall v, value <= v <= end_ -> min <= normalizeValue v seven <= max) ->
  Z.max 0 (end_ - value + 1) < Z.of_nat fuel ->
  exists vals', segment_loop fuel value end_ step min max seven vals = Some (Ok vals') /\
  forall x, x ∈ vals' <-> x ∈ vals \/
    exists k, 0 <= k /\ value + k * step <= end_ /\ x = normalizeValue (value + k * step) seven.
Proof.
  intros Hmin. revert value vals.
  induction fuel as [|n IH]; intros value vals Hv Hs He Hr Hf; [lia|]. simpl.
  destruct (Z.leb_spec value end_).
  - pose proof (Hr value ltac:(lia)).
    destruct (Z.ltb_spec (normalizeValue value seven) min); [lia|].
    destruct (Z.ltb_spec max (normalizeValue value seven)); [lia|]. simpl.
    rewrite wrap64_id by (unfold int64; lia).
    edestruct (IH (value + step)) as (vals' & -> & Hx); [lia|lia|lia| |lia|].
    { intros v ?. apply Hr. lia. }
    exists vals'. split; [done|]. intros x. rewrite Hx, elem_of_union, elem_of_singleton.
    split.
    + intros [[->|?]|(k & ? & ? & ->)]; [|by left|].
      * right. exists 0. rewrite Z.mul_0_l, Z.add_0_r. split_and!; [lia|lia|done].
      * right. exists (k + 1). split_and!; [lia|lia|f_equal; lia].
    + intros [?|(k & ? & ? & ->)]; [auto|].
      destruct (decide (k = 0)) as [->|]; [left; left; f_equal; lia|].
      right. exists (k - 1). split_and!; [lia|lia|f_equal; lia].
  - exists vals. split; [done|]. intros x. split; [auto|].
    intros [?|(k & ? & ? & _)]; [done|]. nia.
Qed.

(** ** Parsed fields *)

(** What [parse] promises of a field: unrestricted, or a non-empty set of
    values of the field's range. *)
Definition field_wf (min max : Z) (f : field) : Prop :=
  any f = true \/ (values f <> ∅ /\ forall v, v ∈ values f -> min <= v <= max).

Definition schedule_wf (s : schedule) : Prop :=
  field_wf 0 59 (s_minute s) /\ field_wf 0 23 (s_hour s) /\ field_wf 1 31 (s_day s) /\
  field_wf 1 12 (s_month s) /\ field_wf 0 6 (s_week s).

Lemma parseValue_range text min max seven v :
  parseValue text min max seven = Ok v ->
  int64 v /\ min <= normalizeValue v seven <= max.
Proof.
  unfold parseValue. destruct (Atoi text) eqn:E; [|done].
  destruct ((_ <? _) || (_ <? _)) eqn:E2; intros; simplify_eq.
  split; [by eapply Atoi_range|lia].
Qed.

Lemma parseRange_ordered base min max seven start end_ :
  min <= max -> parseRange base min max seven = Ok (start, end_) -> start <= end_.
Proof.
  intros Hm. unfold parseRange. intros H.
  repeat case_match; simplify_eq; lia.
Qed.

Lemma addSegment_sound vals seg min max seven vals' :
  min <= max -> addSegment vals seg min max seven = Ok vals' ->
  vals' <> ∅ /\ (forall x, x ∈ vals' -> x ∈ vals \/ min <= x <= max).
Proof.
  intros Hm. unfold addSegment. intros H.
  destruct (if contains_byte _ _ then _ else _) as [[base step]|]; [|done].
  destruct (parseRange _ _ _ _) as [[start end_]|] eqn:Hr; [|done].
  destruct (segment_loop _ _ _ _ _ _ _ _) as [r|] eqn:Hl; [subst r|done].
  apply segment_loop_sound in Hl as (_ & ? & Hne).
  eauto using parseRange_ordered.
Qed.

Lemma add_segments_sound parts vals min max seven vals' :
  min <= max -> add_segments vals parts min max seven = Ok vals' ->
  (parts <> [] -> vals' <> ∅) /\ (forall x, x ∈ vals' -> x ∈ vals \/ min <= x <= max) /\
  (vals <> ∅ -> vals' <> ∅).
Proof.
  intros Hm. revert vals. induction parts as [|p ps IH]; intros vals H; simpl in H.
  { simplify_eq. split_and!; [done|auto|done]. }
  case_bool_decide; [done|].
  destruct (addSegment _ _ _ _ _) as [v1|] eqn:Ha; [|done].
  apply addSegment_sound in Ha as [Hne Hin]; [|done].
  apply IH in H as (_ & Hin' & Hne'). split_and!; [auto| |auto].
  intros x Hx. destruct (Hin' x Hx) as [?|?]; auto.
Qed.

Lemma parseField_wf token min max seven f :
  min <= max -> parseField token min max seven = Ok f -> field_wf min max f.
Proof.
  intros Hm. unfold parseField. do 2 (case_bool_decide; [intros; simplify_eq; by left|]).
  destruct (add_segments _ _ _ _ _) as [vals|] eqn:E; intros; simplify_eq.
  apply add_segments_sound in E as (Hne & Hin & _); [|done].
  right. simpl. split; [apply Hne, Split_not_nil|].
  intros v Hv. destruct (Hin v Hv); [set_solver|done].
Qed.

Lemma parse_wf expr s : parse expr = Ok s -> schedule_wf s.
Proof.
  unfold parse, wrap_field. intros H. repeat case_match; simplify_eq.
  unfold schedule_wf; simpl; split_and!; (eapply parseField_wf; [|eassumption]; lia).
Qed.

(** ** The search *)

Lemma search_Some n s loc c t :
  search n s loc c = Some t <->
  exists k, 0 <= k < Z.of_nat n /\ t = c + k * Minute /\ matches s loc t = true /\
    forall j, 0 <= j < k -> matches s loc (c + j * Minute) = false.
Proof.
  revert c. induction n as [|n IH]; intros c; simpl.
  { split; [done|]. intros (k & ? & _). lia. }
  destruct (matches s loc c) eqn:Hm.
  - split.
    + intros [= <-]. exists 0. split; [lia|split; [lia|split; [done|intros; lia]]].
    + intros (k & Hk & -> & _ & Hn). f_equal.
      destruct (decide (k = 0)) as [->|]; [lia|].
      specialize (Hn 0 ltac:(lia)). rewrite Z.mul_0_l, Z.add_0_r in Hn. congruence.
  - rewrite IH. split.
    + intros (k & Hk & -> & Ht & Hn). exists (k + 1). split; [lia|split; [lia|split; [done|]]].
      intros j Hj. destruct (decide (j = 0)) as [->|].
      * by rewrite Z.mul_0_l, Z.add_0_r.
      * replace (c + j * Minute) with (c + Minute + (j - 1) * Minute) by lia.
        apply Hn. lia.
    + intros (k & Hk & -> & Ht & Hn).
      destruct (decide (k = 0)) as [->|].
      { rewrite Z.mul_0_l, Z.add_0_r in Ht. congruence. }
      exists (k - 1). split; [lia|split; [lia|split; [done|]]]. intros j Hj.
      replace (c + Minute + j * Minute) with (c + (j + 1) * Minute) by lia.
      apply Hn. lia.
Qed.

Lemma search_None n s loc c :
  search n s loc c = None <->
  forall k, 0 <= k < Z.of_nat n -> matches s loc (c + k * Minute) = false.
Proof.
  revert c. induction n as [|n IH]; intros c; simpl.
  { split; [intros _ k Hk; lia|reflexivity]. }
  destruct (matches s loc c) eqn:Hm.
  - split; [done|]. intros H. specialize (H 0 ltac:(lia)).
    rewrite Z.mul_0_l, Z.add_0_r in H. congruence.
  - rewrite IH. split; intros H k Hk.
    + destruct (decide (k = 0)) as [->|]; [by rewrite Z.mul_0_l, Z.add_0_r|].
      replace (c + k * Minute) with (c + Minute + (k - 1) * Minute) by lia. apply H. lia.
    + replace (c + Minute + k * Minute) with (c + (k + 1) * Minute) by lia. apply H. lia.
Qed.

Lemma NextAfter_search loc now expr t :
  NextAfter loc now expr = Ok t ->
  exists s, parse expr = Ok s /\ matches s loc t = true.
Proof.
  unfold NextAfter. destruct (parse expr) as [s|]; [|done].
  destruct (search _ _ _ _) eqn:Hs; intros; simplify_eq.
  apply search_Some in Hs as (k & _ & -> & Hm & _). eauto.
Qed.

(** ** Properties *)

(** When [NextAfter] returns a time, that time is strictly after [now], on
    a minute boundary, matches the parsed schedule, and no earlier minute after
    [now] matches: it is the next run. *)
Theorem NextAfter_next loc now expr t :
  NextAfter loc now expr = Ok t ->
  exists s, parse expr = Ok s /\ matches s loc t = true /\ now < t /\ t mod Minute = 0 /\
    forall u, now < u < t -> u mod Minute = 0 -> matches s loc u = false.
Proof.
  unfold NextAfter. destruct (parse expr) as [s|]; [|done].
  destruct (search _ _ _ _) as [t'|] eqn:Hs; intros; simplify_eq.
  apply search_Some in Hs as (k & Hk & -> & Hm & Hn).
  pose proof (Truncate_minute_bounds now) as Hb. rewrite Truncate_minute in *.
  assert (Minute <> 0) by (unfold Minute, Second; lia).
  exists s. split; [done|]. split; [done|].
  split; [unfold Minute, Second in *; lia|]. split.
  { rewrite <- Z.mul_succ_l, <- Z.mul_add_distr_r. by apply Z.mod_mul. }
  intros u Hu Hmod. apply Z.mod_divide in Hmod as [q ->]; [|done].
  specialize (Hn (q - now / Minute - 1)).
  replace (now / Minute * Minute + Minute + (q - now / Minute - 1) * Minute)
    with (q * Minute) in Hn by lia.
  apply Hn. unfold Minute, Second in *. nia.
Qed.

(** On a parseable expression [NextAfter] finds a time exactly when one of
    the next [searchLimitMinutes] minutes matches; otherwise it returns an
    error. *)
Theorem NextAfter_finds loc now expr s :
  parse expr = Ok s ->
  (exists t, NextAfter loc now expr = Ok t) <->
  exists k, 1 <= k <= searchLimitMinutes /\
    matches s loc (Truncate now Minute + k * Minute) = true.
Proof.
  intros Hp. unfold NextAfter. rewrite Hp.
  destruct (search _ _ _ _) as [t|] eqn:Hs; split.
  - intros _. apply search_Some in Hs as (k & Hk & -> & Hm & _).
    exists (k + 1). split; [lia|]. rewrite <- Hm. f_equal. lia.
  - eauto.
  - intros [? [=]].
  - intros (k & Hk & Hm). rewrite search_None in Hs.
    specialize (Hs (k - 1) ltac:(lia)).
    replace (Truncate now Minute + Minute + (k - 1) * Minute)
      with (Truncate now Minute + k * Minute) in Hs by lia. congruence.
Qed.

(** C20. The next run, exactly. On an expression that parses, [NextAfter] returns [t] if and
    only if [t] is the first minute after [now] whose civil fields match the expression and
    it lies within the search limit; in every other case it returns an error. *)
Theorem NextAfter_correct loc now expr s : parse expr = Ok s -> forall t,
  NextAfter loc now expr = Ok t <->
  (now < t <= Truncate now Minute + searchLimitMinutes * Minute /\ t mod Minute = 0 /\ matches s loc t = true /\
   forall u, now < u < t -> u mod Minute = 0 -> matches s loc u = false).
Proof.
  intros Hp t. split.
  - intros E. destruct (NextAfter_next _ _ _ _ E) as (s' & Hp' & Hm & Hlt & Hmod & Hn). rewrite Hp in Hp'. injection Hp' as <-.
    split; [split; [done|]|done]. unfold NextAfter in E. rewrite Hp in E.
    destruct (search _ _ _ _) as [t'|] eqn:Hs; [|done]. injection E as <-. apply search_Some in Hs as (k & Hk & -> & _).
    unfold Minute, Second in *. nia.
  - intros ([Hlt Hle] & Hmod & Hm & Hn). pose proof (Truncate_minute_bounds now) as Hb.
    assert (Minute <> 0) by (unfold Minute, Second; lia).
    destruct (proj2 (NextAfter_finds loc now expr s Hp)) as [t' Ht'].
    { rewrite Truncate_minute in *. apply Z.mod_divide in Hmod as [q ->]; [|done]. exists (q - now / Minute).
      replace (now / Minute * Minute + (q - now / Minute) * Minute) with (q * Minute) by lia. split; [|done].
      unfold Minute, Second in *. nia. }
    destruct (NextAfter_next _ _ _ _ Ht') as (s' & Hp' & Hm' & Hlt' & Hmod' & Hn'). rewrite Hp in Hp'. injection Hp' as <-.
    rewrite Ht'. f_equal. destruct (Z.lt_trichotomy t t') as [Hc|[Hc|Hc]]; [|done|].
    + by rewrite (Hn' t) in Hm.
    + by rewrite (Hn t') in Hm'.
Qed.

Lemma NextAfter_correct_witness : exists s, parse "*/5 * * * *" = Ok s /\
  NextAfter UTC (1777298604 * Second) "*/5 * * * *" = Ok (1777298700 * Second) /\ matches s UTC (1777298700 * Second) = true.
Proof.
  destruct (parse "*/5 * * * *") as [s|] eqn:Hp; [|discriminate Hp]. exists s. split; [done|].
  assert (NextAfter UTC (1777298604 * Second) "*/5 * * * *" = Ok (1777298700 * Second)) as E by (vm_compute; reflexivity).
  split; [exact E|]. by destruct (proj1 (NextAfter_correct UTC (1777298604 * Second) "*/5 * * * *" s Hp (1777298700 * Second)) E) as (_ & _ & Hm & _).
Defined.

(** Every field of a parsed expression is the unrestricted star or a
    non-empty set of values inside the range of that field (minutes 0-59, hours
    0-23, days 1-31, months 1-12, weekdays 0-6 with 7 folded to 0). *)
Theorem parse_fields_in_range expr s : parse expr = Ok s -> schedule_wf s.
Proof. apply parse_wf. Qed.

Lemma parse_fields_in_range_witness :
  exists s, parse "1-9/2,30 */6 1 1-12 5-7" = Ok s /\ schedule_wf s.
Proof.
  eexists. split; [vm_compute; reflexivity|].
  apply (parse_fields_in_range "1-9/2,30 */6 1 1-12 5-7"). vm_compute. reflexivity.
Defined.

(** A segment [start-end/step] admits exactly the values
    [start + k * step <= end], with 7 read as 0 in the weekday field. *)
Theorem segment_values start end_ step min max seven vals :
  0 <= min -> 0 <= start -> 1 <= step -> end_ + step < 2 ^ 63 -> end_ - start <= 60 ->
  (forall v, start <= v <= end_ -> min <= normalizeValue v seven <= max) ->
  exists vals', segment_loop segment_fuel start end_ step min max seven vals = Some (Ok vals') /\
  forall x, x ∈ vals' <-> x ∈ vals \/
    exists k, 0 <= k /\ start + k * step <= end_ /\ x = normalizeValue (start + k * step) seven.
Proof.
  intros. apply segment_loop_progression; try done.
  change (Z.of_nat segment_fuel) with 64. lia.
Qed.

Lemma segment_values_witness :
  exists vals', segment_loop segment_fuel 5 7 1 0 6 true ∅ = Some (Ok vals') /\
  forall x, x ∈ vals' <-> x ∈ (∅ : gset Z) \/
    exists k, 0 <= k /\ 5 + k * 1 <= 7 /\ x = normalizeValue (5 + k * 1) true.
Proof.
  apply (segment_values 5 7 1 0 6 true ∅); try lia.
  intros v Hv. unfold normalizeValue. destruct (Z.eqb_spec v 7); simpl; lia.
Defined.

(** A date that does not exist has no next run: for "0 0 30 2 *" (February
    30) the search fails at every instant and in every time zone. *)
Theorem NextAfter_february_30 loc now : exists e, NextAfter loc now "0 0 30 2 *" = Err e.
Proof.
  destruct (NextAfter loc now "0 0 30 2 *") as [t|e] eqn:H; [exfalso|eauto].
  destruct (NextAfter_search loc now "0 0 30 2 *" t H) as (s & Hp & Hm). clear H.
  assert (parse "0 0 30 2 *" = Ok (mkSchedule (mkField {[0]} false) (mkField {[0]} false)
    (mkField {[30]} false) (mkField {[2]} false) (mkField ∅ true))) as Hp'
    by (vm_compute; reflexivity).
  rewrite Hp' in Hp. injection Hp as <-. revert Hm. unfold matches, contains. simpl.
  destruct (t_date_range loc t) as [_ Hd].
  do 2 (case_bool_decide; [|done]). case_bool_decide as Hmon; [|done]. simpl.
  case_bool_decide as Hday; [|done].
  apply elem_of_singleton in Hmon, Hday. rewrite Hmon in Hd. unfold days_in_month in Hd. simpl in Hd.
  destruct (leap_year _); lia.
Qed.
