(* ===== verification/Model.v ===== *)
(** The data of internal/model: tasks, their instances, worker nodes, dependency
    edges and the dispatch request, one record per struct with the struct's
    fields, and the field updates the handlers make. *)
From S2P Require Import Prelude GoStd GoTime.

(** [model.Task]: the static configuration of a schedulable task. *)
Record Task := mkTask {
  task_ID : Z;
  task_Name : string;
  task_Type : string;
  task_CronExpr : string;
  task_Payload : string;
  task_Image : string;
  task_Status : string;
  task_TimeoutSeconds : Z;
  task_MaxRetry : Z;
  task_RetryPolicy : string;
  task_RetryOnErrors : string;
  task_RetryIntervalSeconds : Z;
  task_RetryWindowSeconds : Z;
  task_RouteStrategy : string;
  task_Labels : string;
  task_NextTriggerTime : Time;
  task_TenantID : Z;
  task_Version : Z;
  task_TotalShards : Z;
  task_IdempotencyKey : string;
  task_TriggerType : string;
  task_EventName : string;
  task_CreatedAt : Time;
  task_UpdatedAt : Time
}.

(** [model.TaskInstance]: one execution attempt. *)
Record TaskInstance := mkTaskInstance {
  inst_ID : Z;
  inst_TaskID : Z;
  inst_ScheduleInstanceID : string;
  inst_ShardNo : Z;
  inst_ShardTotal : Z;
  inst_TriggerTime : Time;
  inst_DispatchTime : Time;
  inst_StartedAt : Time;
  inst_FinishedAt : Time;
  inst_WorkerID : string;
  inst_Status : string;
  inst_RetryCount : Z;
  inst_ErrorCode : string;
  inst_ErrorMessage : string;
  inst_AnalysisJSON : string;
  inst_NextRetryTime : Time;
  inst_TraceID : string;
  inst_CreatedAt : Time;
  inst_UpdatedAt : Time
}.

(** [model.WorkerNode]: the latest state of a worker process. *)
Record WorkerNode := mkWorkerNode {
  worker_ID : string;
  worker_Hostname : string;
  worker_IP : string;
  worker_CallbackURL : string;
  worker_GRPCAddr : string;
  worker_Protocol : string;
  worker_Status : string;
  worker_Labels : string;
  worker_MaxConcurrency : Z;
  worker_CurrentLoad : Z;
  worker_LastHeartbeatAt : Time
}.

(** [model.TaskDependency]: [TaskID] depends on [DependsOnTaskID] (the row id is
    not read by any code). *)
Record TaskDependency := mkTaskDependency {
  dep_TaskID : Z;
  dep_DependsOnTaskID : Z
}.

(** [model.ExecuteTaskRequest]: the dispatch payload. *)
Record ExecuteTaskRequest := mkExecuteTaskRequest {
  req_ScheduleInstanceID : string;
  req_TaskID : Z;
  req_TaskType : string;
  req_Payload : string;
  req_Image : string;
  req_TimeoutSeconds : Z;
  req_RetryCount : Z;
  req_ShardNo : Z;
  req_ShardTotal : Z;
  req_IdempotencyKey : string;
  req_SchedulerURL : string
}.

(** [model.WorkerLoadSnapshot]: a point-in-time load sample. *)
Record WorkerLoadSnapshot := mkWorkerLoadSnapshot {
  snap_ID : Z;
  snap_WorkerID : string;
  snap_CurrentLoad : Z;
  snap_MaxConcurrency : Z;
  snap_Status : string;
  snap_RecordedAt : Time
}.

#[export] Instance Task_eq_dec : EqDecision Task.
Proof. solve_decision. Defined.
#[export] Instance TaskInstance_eq_dec : EqDecision TaskInstance.
Proof. solve_decision. Defined.
#[export] Instance WorkerNode_eq_dec : EqDecision WorkerNode.
Proof. solve_decision. Defined.
#[export] Instance TaskDependency_eq_dec : EqDecision TaskDependency.
Proof. solve_decision. Defined.

(** ** Field updates *)

Definition set_task_ID (v : Z) (r : Task) : Task :=
  {| task_ID := v; task_Name := task_Name r; task_Type := task_Type r;
     task_CronExpr := task_CronExpr r; task_Payload := task_Payload r;
     task_Image := task_Image r; task_Status := task_Status r;
     task_TimeoutSeconds := task_TimeoutSeconds r; task_MaxRetry := task_MaxRetry r;
     task_RetryPolicy := task_RetryPolicy r; task_RetryOnErrors := task_RetryOnErrors r;
     task_RetryIntervalSeconds := task_RetryIntervalSeconds r;
     task_RetryWindowSeconds := task_RetryWindowSeconds r;
     task_RouteStrategy := task_RouteStrategy r; task_Labels := task_Labels r;
     task_NextTriggerTime := task_NextTriggerTime r; task_TenantID := task_TenantID r;
     task_Version := task_Version r; task_TotalShards := task_TotalShards r;
     task_IdempotencyKey := task_IdempotencyKey r; task_TriggerType := task_TriggerType r;
     task_EventName := task_EventName r; task_CreatedAt := task_CreatedAt r;
     task_UpdatedAt := task_UpdatedAt r |}.

Definition set_task_Status (v : string) (r : Task) : Task :=
  {| task_ID := task_ID r; task_Name := task_Name r; task_Type := task_Type r;
     task_CronExpr := task_CronExpr r; task_Payload := task_Payload r;
     task_Image := task_Image r; task_Status := v;
     task_TimeoutSeconds := task_TimeoutSeconds r; task_MaxRetry := task_MaxRetry r;
     task_RetryPolicy := task_RetryPolicy r; task_RetryOnErrors := task_RetryOnErrors r;
     task_RetryIntervalSeconds := task_RetryIntervalSeconds r;
     task_RetryWindowSeconds := task_RetryWindowSeconds r;
     task_RouteStrategy := task_RouteStrategy r; task_Labels := task_Labels r;
     task_NextTriggerTime := task_NextTriggerTime r; task_TenantID := task_TenantID r;
     task_Version := task_Version r; task_TotalShards := task_TotalShards r;
     task_IdempotencyKey := task_IdempotencyKey r; task_TriggerType := task_TriggerType r;
     task_EventName := task_EventName r; task_CreatedAt := task_CreatedAt r;
     task_UpdatedAt := task_UpdatedAt r |}.

Definition set_task_NextTriggerTime (v : Time) (r : Task) : Task :=
  {| task_ID := task_ID r; task_Name := task_Name r; task_Type := task_Type r;
     task_CronExpr := task_CronExpr r; task_Payload := task_Payload r;
     task_Image := task_Image r; task_Status := task_Status r;
     task_TimeoutSeconds := task_TimeoutSeconds r; task_MaxRetry := task_MaxRetry r;
     task_RetryPolicy := task_RetryPolicy r; task_RetryOnErrors := task_RetryOnErrors r;
     task_RetryIntervalSeconds := task_RetryIntervalSeconds r;
     task_RetryWindowSeconds := task_RetryWindowSeconds r;
     task_RouteStrategy := task_RouteStrategy r; task_Labels := task_Labels r;
     task_NextTriggerTime := v; task_TenantID := task_TenantID r;
     task_Version := task_Version r; task_TotalShards := task_TotalShards r;
     task_IdempotencyKey := task_IdempotencyKey r; task_TriggerType := task_TriggerType r;
     task_EventName := task_EventName r; task_CreatedAt := task_CreatedAt r;
     task_UpdatedAt := task_UpdatedAt r |}.

Definition set_task_TenantID (v : Z) (r : Task) : Task :=
  {| task_ID := task_ID r; task_Name := task_Name r; task_Type := task_Type r;
     task_CronExpr := task_CronExpr r; task_Payload := task_Payload r;
     task_Image := task_Image r; task_Status := task_Status r;
     task_TimeoutSeconds := task_TimeoutSeconds r; task_MaxRetry := task_MaxRetry r;
     task_RetryPolicy := task_RetryPolicy r; task_RetryOnErrors := task_RetryOnErrors r;
     task_RetryIntervalSeconds := task_RetryIntervalSeconds r;
     task_RetryWindowSeconds := task_RetryWindowSeconds r;
     task_RouteStrategy := task_RouteStrategy r; task_Labels := task_Labels r;
     task_NextTriggerTime := task_NextTriggerTime r; task_TenantID := v;
     task_Version := task_Version r; task_TotalShards := task_TotalShards r;
     task_IdempotencyKey := task_IdempotencyKey r; task_TriggerType := task_TriggerType r;
     task_EventName := task_EventName r; task_CreatedAt := task_CreatedAt r;
     task_UpdatedAt := task_UpdatedAt r |}.

Definition set_task_Version (v : Z) (r : Task) : Task :=
  {| task_ID := task_ID r; task_Name := task_Name r; task_Type := task_Type r;
     task_CronExpr := task_CronExpr r; task_Payload := task_Payload r;
     task_Image := task_Image r; task_Status := task_Status r;
     task_TimeoutSeconds := task_TimeoutSeconds r; task_MaxRetry := task_MaxRetry r;
     task_RetryPolicy := task_RetryPolicy r; task_RetryOnErrors := task_RetryOnErrors r;
     task_RetryIntervalSeconds := task_RetryIntervalSeconds r;
     task_RetryWindowSeconds := task_RetryWindowSeconds r;
     task_RouteStrategy := task_RouteStrategy r; task_Labels := task_Labels r;
     task_NextTriggerTime := task_NextTriggerTime r; task_TenantID := task_TenantID r;
     task_Version := v; task_TotalShards := task_TotalShards r;
     task_IdempotencyKey := task_IdempotencyKey r; task_TriggerType := task_TriggerType r;
     task_EventName := task_EventName r; task_CreatedAt := task_CreatedAt r;
     task_UpdatedAt := task_UpdatedAt r |}.

Definition set_task_CreatedAt (v : Time) (r : Task) : Task :=
  {| task_ID := task_ID r; task_Name := task_Name r; task_Type := task_Type r;
     task_CronExpr := task_CronExpr r; task_Payload := task_Payload r;
     task_Image := task_Image r; task_Status := task_Status r;
     task_TimeoutSeconds := task_TimeoutSeconds r; task_MaxRetry := task_MaxRetry r;
     task_RetryPolicy := task_RetryPolicy r; task_RetryOnErrors := task_RetryOnErrors r;
     task_RetryIntervalSeconds := task_RetryIntervalSeconds r;
     task_RetryWindowSeconds := task_RetryWindowSeconds r;
     task_RouteStrategy := task_RouteStrategy r; task_Labels := task_Labels r;
     task_NextTriggerTime := task_NextTriggerTime r; task_TenantID := task_TenantID r;
     task_Version := task_Version r; task_TotalShards := task_TotalShards r;
     task_IdempotencyKey := task_IdempotencyKey r; task_TriggerType := task_TriggerType r;
     task_EventName := task_EventName r; task_CreatedAt := v;
     task_UpdatedAt := task_UpdatedAt r |}.

Definition set_task_UpdatedAt (v : Time) (r : Task) : Task :=
  {| task_ID := task_ID r; task_Name := task_Name r; task_Type := task_Type r;
     task_CronExpr := task_CronExpr r; task_Payload := task_Payload r;
     task_Image := task_Image r; task_Status := task_Status r;
     task_TimeoutSeconds := task_TimeoutSeconds r; task_MaxRetry := task_MaxRetry r;
     task_RetryPolicy := task_RetryPolicy r; task_RetryOnErrors := task_RetryOnErrors r;
     task_RetryIntervalSeconds := task_RetryIntervalSeconds r;
     task_RetryWindowSeconds := task_RetryWindowSeconds r;
     task_RouteStrategy := task_RouteStrategy r; task_Labels := task_Labels r;
     task_NextTriggerTime := task_NextTriggerTime r; task_TenantID := task_TenantID r;
     task_Version := task_Version r; task_TotalShards := task_TotalShards r;
     task_IdempotencyKey := task_IdempotencyKey r; task_TriggerType := task_TriggerType r;
     task_EventName := task_EventName r; task_CreatedAt := task_CreatedAt r;
     task_UpdatedAt := v |}.

Definition set_inst_ID (v : Z) (r : TaskInstance) : TaskInstance :=
  {| inst_ID := v; inst_TaskID := inst_TaskID r;
     inst_ScheduleInstanceID := inst_ScheduleInstanceID r; inst_ShardNo := inst_ShardNo r;
     inst_ShardTotal := inst_ShardTotal r; inst_TriggerTime := inst_TriggerTime r;
     inst_DispatchTime := inst_DispatchTime r; inst_StartedAt := inst_StartedAt r;
     inst_FinishedAt := inst_FinishedAt r; inst_WorkerID := inst_WorkerID r;
     inst_Status := inst_Status r; inst_RetryCount := inst_RetryCount r;
     inst_ErrorCode := inst_ErrorCode r; inst_ErrorMessage := inst_ErrorMessage r;
     inst_AnalysisJSON := inst_AnalysisJSON r; inst_NextRetryTime := inst_NextRetryTime r;
     inst_TraceID := inst_TraceID r; inst_CreatedAt := inst_CreatedAt r;
     inst_UpdatedAt := inst_UpdatedAt r |}.

Definition set_inst_Status (v : string) (r : TaskInstance) : TaskInstance :=
  {| inst_ID := inst_ID r; inst_TaskID := inst_TaskID r;
     inst_ScheduleInstanceID := inst_ScheduleInstanceID r; inst_ShardNo := inst_ShardNo r;
     inst_ShardTotal := inst_ShardTotal r; inst_TriggerTime := inst_TriggerTime r;
     inst_DispatchTime := inst_DispatchTime r; inst_StartedAt := inst_StartedAt r;
     inst_FinishedAt := inst_FinishedAt r; inst_WorkerID := inst_WorkerID r;
     inst_Status := v; inst_RetryCount := inst_RetryCount r;
     inst_ErrorCode := inst_ErrorCode r; inst_ErrorMessage := inst_ErrorMessage r;
     inst_AnalysisJSON := inst_AnalysisJSON r; inst_NextRetryTime := inst_NextRetryTime r;
     inst_TraceID := inst_TraceID r; inst_CreatedAt := inst_CreatedAt r;
     inst_UpdatedAt := inst_UpdatedAt r |}.

Definition set_inst_WorkerID (v : string) (r : TaskInstance) : TaskInstance :=
  {| inst_ID := inst_ID r; inst_TaskID := inst_TaskID r;
     inst_ScheduleInstanceID := inst_ScheduleInstanceID r; inst_ShardNo := inst_ShardNo r;
     inst_ShardTotal := inst_ShardTotal r; inst_TriggerTime := inst_TriggerTime r;
     inst_DispatchTime := inst_DispatchTime r; inst_StartedAt := inst_StartedAt r;
     inst_FinishedAt := inst_FinishedAt r; inst_WorkerID := v;
     inst_Status := inst_Status r; inst_RetryCount := inst_RetryCount r;
     inst_ErrorCode := inst_ErrorCode r; inst_ErrorMessage := inst_ErrorMessage r;
     inst_AnalysisJSON := inst_AnalysisJSON r; inst_NextRetryTime := inst_NextRetryTime r;
     inst_TraceID := inst_TraceID r; inst_CreatedAt := inst_CreatedAt r;
     inst_UpdatedAt := inst_UpdatedAt r |}.

Definition set_inst_DispatchTime (v : Time) (r : TaskInstance) : TaskInstance :=
  {| inst_ID := inst_ID r; inst_TaskID := inst_TaskID r;
     inst_ScheduleInstanceID := inst_ScheduleInstanceID r; inst_ShardNo := inst_ShardNo r;
     inst_ShardTotal := inst_ShardTotal r; inst_TriggerTime := inst_TriggerTime r;
     inst_DispatchTime := v; inst_StartedAt := inst_StartedAt r;
     inst_FinishedAt := inst_FinishedAt r; inst_WorkerID := inst_WorkerID r;
     inst_Status := inst_Status r; inst_RetryCount := inst_RetryCount r;
     inst_ErrorCode := inst_ErrorCode r; inst_ErrorMessage := inst_ErrorMessage r;
     inst_AnalysisJSON := inst_AnalysisJSON r; inst_NextRetryTime := inst_NextRetryTime r;
     inst_TraceID := inst_TraceID r; inst_CreatedAt := inst_CreatedAt r;
     inst_UpdatedAt := inst_UpdatedAt r |}.

Definition set_inst_StartedAt (v : Time) (r : TaskInstance) : TaskInstance :=
  {| inst_ID := inst_ID r; inst_TaskID := inst_TaskID r;
     inst_ScheduleInstanceID := inst_ScheduleInstanceID r; inst_ShardNo := inst_ShardNo r;
     inst_ShardTotal := inst_ShardTotal r; inst_TriggerTime := inst_TriggerTime r;
     inst_DispatchTime := inst_DispatchTime r; inst_StartedAt := v;
     inst_FinishedAt := inst_FinishedAt r; inst_WorkerID := inst_WorkerID r;
     inst_Status := inst_Status r; inst_RetryCount := inst_RetryCount r;
     inst_ErrorCode := inst_ErrorCode r; inst_ErrorMessage := inst_ErrorMessage r;
     inst_AnalysisJSON := inst_AnalysisJSON r; inst_NextRetryTime := inst_NextRetryTime r;
     inst_TraceID := inst_TraceID r; inst_CreatedAt := inst_CreatedAt r;
     inst_UpdatedAt := inst_UpdatedAt r |}.

Definition set_inst_FinishedAt (v : Time) (r : TaskInstance) : TaskInstance :=
  {| inst_ID := inst_ID r; inst_TaskID := inst_TaskID r;
     inst_ScheduleInstanceID := inst_ScheduleInstanceID r; inst_ShardNo := inst_ShardNo r;
     inst_ShardTotal := inst_ShardTotal r; inst_TriggerTime := inst_TriggerTime r;
     inst_DispatchTime := inst_DispatchTime r; inst_StartedAt := inst_StartedAt r;
     inst_FinishedAt := v; inst_WorkerID := inst_WorkerID r; inst_Status := inst_Status r;
     inst_RetryCount := inst_RetryCount r; inst_ErrorCode := inst_ErrorCode r;
     inst_ErrorMessage := inst_ErrorMessage r; inst_AnalysisJSON := inst_AnalysisJSON r;
     inst_NextRetryTime := inst_NextRetryTime r; inst_TraceID := inst_TraceID r;
     inst_CreatedAt := inst_CreatedAt r; inst_UpdatedAt := inst_UpdatedAt r |}.

Definition set_inst_ErrorCode (v : string) (r : TaskInstance) : TaskInstance :=
  {| inst_ID := inst_ID r; inst_TaskID := inst_TaskID r;
     inst_ScheduleInstanceID := inst_ScheduleInstanceID r; inst_ShardNo := inst_ShardNo r;
     inst_ShardTotal := inst_ShardTotal r; inst_TriggerTime := inst_TriggerTime r;
     inst_DispatchTime := inst_DispatchTime r; inst_StartedAt := inst_StartedAt r;
     inst_FinishedAt := inst_FinishedAt r; inst_WorkerID := inst_WorkerID r;
     inst_Status := inst_Status r; inst_RetryCount := inst_RetryCount r;
     inst_ErrorCode := v; inst_ErrorMessage := inst_ErrorMessage r;
     inst_AnalysisJSON := inst_AnalysisJSON r; inst_NextRetryTime := inst_NextRetryTime r;
     inst_TraceID := inst_TraceID r; inst_CreatedAt := inst_CreatedAt r;
     inst_UpdatedAt := inst_UpdatedAt r |}.

Definition set_inst_ErrorMessage (v : string) (r : TaskInstance) : TaskInstance :=
  {| inst_ID := inst_ID r; inst_TaskID := inst_TaskID r;
     inst_ScheduleInstanceID := inst_ScheduleInstanceID r; inst_ShardNo := inst_ShardNo r;
     inst_ShardTotal := inst_ShardTotal r; inst_TriggerTime := inst_TriggerTime r;
     inst_DispatchTime := inst_DispatchTime r; inst_StartedAt := inst_StartedAt r;
     inst_FinishedAt := inst_FinishedAt r; inst_WorkerID := inst_WorkerID r;
     inst_Status := inst_Status r; inst_RetryCount := inst_RetryCount r;
     inst_ErrorCode := inst_ErrorCode r; inst_ErrorMessage := v;
     inst_AnalysisJSON := inst_AnalysisJSON r; inst_NextRetryTime := inst_NextRetryTime r;
     inst_TraceID := inst_TraceID r; inst_CreatedAt := inst_CreatedAt r;
     inst_UpdatedAt := inst_UpdatedAt r |}.

Definition set_inst_AnalysisJSON (v : string) (r : TaskInstance) : TaskInstance :=
  {| inst_ID := inst_ID r; inst_TaskID := inst_TaskID r;
     inst_ScheduleInstanceID := inst_ScheduleInstanceID r; inst_ShardNo := inst_ShardNo r;
     inst_ShardTotal := inst_ShardTotal r; inst_TriggerTime := inst_TriggerTime r;
     inst_DispatchTime := inst_DispatchTime r; inst_StartedAt := inst_StartedAt r;
     inst_FinishedAt := inst_FinishedAt r; inst_WorkerID := inst_WorkerID r;
     inst_Status := inst_Status r; inst_RetryCount := inst_RetryCount r;
     inst_ErrorCode := inst_ErrorCode r; inst_ErrorMessage := inst_ErrorMessage r;
     inst_AnalysisJSON := v; inst_NextRetryTime := inst_NextRetryTime r;
     inst_TraceID := inst_TraceID r; inst_CreatedAt := inst_CreatedAt r;
     inst_UpdatedAt := inst_UpdatedAt r |}.

Definition set_inst_NextRetryTime (v : Time) (r : TaskInstance) : TaskInstance :=
  {| inst_ID := inst_ID r; inst_TaskID := inst_TaskID r;
     inst_ScheduleInstanceID := inst_ScheduleInstanceID r; inst_ShardNo := inst_ShardNo r;
     inst_ShardTotal := inst_ShardTotal r; inst_TriggerTime := inst_TriggerTime r;
     inst_DispatchTime := inst_DispatchTime r; inst_StartedAt := inst_StartedAt r;
     inst_FinishedAt := inst_FinishedAt r; inst_WorkerID := inst_WorkerID r;
     inst_Status := inst_Status r; inst_RetryCount := inst_RetryCount r;
     inst_ErrorCode := inst_ErrorCode r; inst_ErrorMessage := inst_ErrorMessage r;
     inst_AnalysisJSON := inst_AnalysisJSON r; inst_NextRetryTime := v;
     inst_TraceID := inst_TraceID r; inst_CreatedAt := inst_CreatedAt r;
     inst_UpdatedAt := inst_UpdatedAt r |}.

Definition set_inst_CreatedAt (v : Time) (r : TaskInstance) : TaskInstance :=
  {| inst_ID := inst_ID r; inst_TaskID := inst_TaskID r;
     inst_ScheduleInstanceID := inst_ScheduleInstanceID r; inst_ShardNo := inst_ShardNo r;
     inst_ShardTotal := inst_ShardTotal r; inst_TriggerTime := inst_TriggerTime r;
     inst_DispatchTime := inst_DispatchTime r; inst_StartedAt := inst_StartedAt r;
     inst_FinishedAt := inst_FinishedAt r; inst_WorkerID := inst_WorkerID r;
     inst_Status := inst_Status r; inst_RetryCount := inst_RetryCount r;
     inst_ErrorCode := inst_ErrorCode r; inst_ErrorMessage := inst_ErrorMessage r;
     inst_AnalysisJSON := inst_AnalysisJSON r; inst_NextRetryTime := inst_NextRetryTime r;
     inst_TraceID := inst_TraceID r; inst_CreatedAt := v;
     inst_UpdatedAt := inst_UpdatedAt r |}.

Definition set_inst_UpdatedAt (v : Time) (r : TaskInstance) : TaskInstance :=
  {| inst_ID := inst_ID r; inst_TaskID := inst_TaskID r;
     inst_ScheduleInstanceID := inst_ScheduleInstanceID r; inst_ShardNo := inst_ShardNo r;
     inst_ShardTotal := inst_ShardTotal r; inst_TriggerTime := inst_TriggerTime r;
     inst_DispatchTime := inst_DispatchTime r; inst_StartedAt := inst_StartedAt r;
     inst_FinishedAt := inst_FinishedAt r; inst_WorkerID := inst_WorkerID r;
     inst_Status := inst_Status r; inst_RetryCount := inst_RetryCount r;
     inst_ErrorCode := inst_ErrorCode r; inst_ErrorMessage := inst_ErrorMessage r;
     inst_AnalysisJSON := inst_AnalysisJSON r; inst_NextRetryTime := inst_NextRetryTime r;
     inst_TraceID := inst_TraceID r; inst_CreatedAt := inst_CreatedAt r;
     inst_UpdatedAt := v |}.

Definition set_worker_Status (v : string) (r : WorkerNode) : WorkerNode :=
  {| worker_ID := worker_ID r; worker_Hostname := worker_Hostname r;
     worker_IP := worker_IP r; worker_CallbackURL := worker_CallbackURL r;
     worker_GRPCAddr := worker_GRPCAddr r; worker_Protocol := worker_Protocol r;
     worker_Status := v; worker_Labels := worker_Labels r;
     worker_MaxConcurrency := worker_MaxConcurrency r;
     worker_CurrentLoad := worker_CurrentLoad r;
     worker_LastHeartbeatAt := worker_LastHeartbeatAt r |}.

Definition set_worker_CurrentLoad (v : Z) (r : WorkerNode) : WorkerNode :=
  {| worker_ID := worker_ID r; worker_Hostname := worker_Hostname r;
     worker_IP := worker_IP r; worker_CallbackURL := worker_CallbackURL r;
     worker_GRPCAddr := worker_GRPCAddr r; worker_Protocol := worker_Protocol r;
     worker_Status := worker_Status r; worker_Labels := worker_Labels r;
     worker_MaxConcurrency := worker_MaxConcurrency r; worker_CurrentLoad := v;
     worker_LastHeartbeatAt := worker_LastHeartbeatAt r |}.

Definition set_worker_LastHeartbeatAt (v : Time) (r : WorkerNode) : WorkerNode :=
  {| worker_ID := worker_ID r; worker_Hostname := worker_Hostname r;
     worker_IP := worker_IP r; worker_CallbackURL := worker_CallbackURL r;
     worker_GRPCAddr := worker_GRPCAddr r; worker_Protocol := worker_Protocol r;
     worker_Status := worker_Status r; worker_Labels := worker_Labels r;
     worker_MaxConcurrency := worker_MaxConcurrency r;
     worker_CurrentLoad := worker_CurrentLoad r; worker_LastHeartbeatAt := v |}.

(** ** Statuses *)

(** [isTerminalStatus] of the runtime service. *)
Definition isTerminalStatus (status : string) : bool :=
  bool_decide (status ∈ ["success"; "failed"; "timeout"; "cancelled"]).

(** [isRetryableStatus] of the runtime service. *)
Definition isRetryableStatus (status : string) : bool :=
  bool_decide (status ∈ ["failed"; "timeout"]).

Lemma retryable_terminal st : isRetryableStatus st = true -> isTerminalStatus st = true.
Proof. unfold isRetryableStatus, isTerminalStatus. rewrite !bool_decide_eq_true. set_solver. Qed.
