(* ===== verification/Json.v ===== *)
(** encoding/json of the Go standard library: the encoder with its escapes and the
    decoder on arbitrary text, over a tree of values. Encoding and decoding are
    inverse on well-formed values ([Unmarshal_Marshal]). *)
From S2P Require Import Prelude GoStd.

Definition dquote : ascii := ascii_of_nat 34.
Definition byte (z : Z) : ascii := ascii_of_N (Z.to_N z).
Definition is_byte (c : ascii) (z : Z) : bool := byte_val c =? z.

(** ** UTF-8 *)

Definition between (lo hi : Z) (c : ascii) : bool := (lo <=? byte_val c) && (byte_val c <=? hi).
Definition cont : ascii -> bool := between 128 191.

(** Does a valid sequence of two, three or four bytes start with these? *)
Definition utf8_2 (a b : ascii) : bool := between 194 223 a && cont b.
Definition utf8_3 (a b c : ascii) : bool :=
  cont c && ((is_byte a 224 && between 160 191 b) || (between 225 236 a && cont b)
             || (is_byte a 237 && between 128 159 b) || (between 238 239 a && cont b)).
Definition utf8_4 (a b c d : ascii) : bool :=
  cont c && cont d && ((is_byte a 240 && between 144 191 b) || (between 241 243 a && cont b)
                       || (is_byte a 244 && between 128 143 b)).

(** U+FFFD, the replacement character. *)
Definition fffd (rest : string) : string :=
  String (byte 239) (String (byte 191) (String (byte 189) rest)).

(** [strings.ToValidUTF8(s, "\uFFFD")] byte by byte. *)
Fixpoint coerce (s : string) : string :=
  match s with
  | EmptyString => EmptyString
  | String a s1 =>
      if byte_val a <? 128 then String a (coerce s1)
      else match s1 with
           | String b s2 =>
               if utf8_2 a b then String a (String b (coerce s2))
               else match s2 with
                    | String c s3 =>
                        if utf8_3 a b c then String a (String b (String c (coerce s3)))
                        else match s3 with
                             | String d s4 =>
                                 if utf8_4 a b c d
                                 then String a (String b (String c (String d (coerce s4))))
                                 else fffd (coerce s1)
                             | EmptyString => fffd (coerce s1)
                             end
                    | EmptyString => fffd (coerce s1)
                    end
           | EmptyString => fffd (coerce s1)
           end
  end.

Definition valid_utf8 (s : string) : Prop := coerce s = s.
#[export] Instance valid_utf8_dec s : Decision (valid_utf8 s).
Proof. unfold valid_utf8. apply _. Defined.

(** The UTF-8 encoding of a rune. *)
Definition utf8 (r : Z) (rest : string) : string :=
  if r <? 128 then String (byte r) rest
  else if r <? 2048 then String (byte (192 + r / 64)) (String (byte (128 + r mod 64)) rest)
  else if r <? 65536
  then String (byte (224 + r / 4096))
         (String (byte (128 + r / 64 mod 64)) (String (byte (128 + r mod 64)) rest))
  else String (byte (240 + r / 262144)) (String (byte (128 + r / 4096 mod 64))
         (String (byte (128 + r / 64 mod 64)) (String (byte (128 + r mod 64)) rest))).

(** ** Encoding a string *)

Definition hex_char (d : Z) : ascii := if d <? 10 then byte (48 + d) else byte (87 + d).

Definition escape_u (z : Z) (rest : string) : string :=
  String "\" (String "u" (String (hex_char (z / 4096 mod 16)) (String (hex_char (z / 256 mod 16))
    (String (hex_char (z / 16 mod 16)) (String (hex_char (z mod 16)) rest))))).

(** One ASCII byte of a JSON string, HTML characters escaped. *)
Definition encode_ascii (c : ascii) (rest : string) : string :=
  let z := byte_val c in
  let esc e := String "\" (String e rest) in
  if (z =? 34) || (z =? 92) then esc c
  else if z =? 8 then esc "b"%char else if z =? 12 then esc "f"%char
  else if z =? 10 then esc "n"%char else if z =? 13 then esc "r"%char
  else if z =? 9 then esc "t"%char
  else if (z <? 32) || (z =? 60) || (z =? 62) || (z =? 38) then escape_u z rest
  else String c rest.

(** U+2028 and U+2029 are escaped. *)
Definition encode_3 (a b c : ascii) (rest : string) : string :=
  if is_byte a 226 && is_byte b 128 && (is_byte c 168 || is_byte c 169)
  then escape_u (8232 + (byte_val c - 168)) rest
  else String a (String b (String c rest)).

(** The bytes between the quotes, followed by [rest]. *)
Fixpoint encode_body (s : string) (rest : string) : string :=
  match s with
  | EmptyString => rest
  | String a s1 =>
      if byte_val a <? 128 then encode_ascii a (encode_body s1 rest)
      else match s1 with
           | String b s2 =>
               if utf8_2 a b then String a (String b (encode_body s2 rest))
               else match s2 with
                    | String c s3 =>
                        if utf8_3 a b c then encode_3 a b c (encode_body s3 rest)
                        else match s3 with
                             | String d s4 =>
                                 if utf8_4 a b c d
                                 then String a (String b (String c (String d (encode_body s4 rest))))
                                 else escape_u 65533 (encode_body s1 rest)
                             | EmptyString => escape_u 65533 (encode_body s1 rest)
                             end
                    | EmptyString => escape_u 65533 (encode_body s1 rest)
                    end
           | EmptyString => escape_u 65533 (encode_body s1 rest)
           end
  end.

Definition encode_string (s rest : string) : string :=
  String dquote (encode_body s (String dquote rest)).

(** ** Decoding *)

Definition hex_val (c : ascii) : option Z :=
  if between 48 57 c then Some (byte_val c - 48)
  else if between 97 102 c then Some (byte_val c - 87)
  else if between 65 70 c then Some (byte_val c - 55) else None.

Definition hex4 (a b c d : ascii) : option Z :=
  x ← hex_val a; y ← hex_val b; z ← hex_val c; w ← hex_val d;
  Some (x * 4096 + y * 256 + z * 16 + w).

Definition surrogate (r : Z) : bool := (55296 <=? r) && (r <=? 57343).

(** [utf16.DecodeRune]: the rune of a surrogate pair, if it is one. *)
Definition decode_pair (r1 r2 : Z) : option Z :=
  if (55296 <=? r1) && (r1 <? 56320) && (56320 <=? r2) && (r2 <? 57344)
  then Some ((r1 - 55296) * 1024 + (r2 - 56320) + 65536) else None.

Definition simple_escape (e : ascii) : option ascii :=
  let z := byte_val e in
  if (z =? 34) || (z =? 92) || (z =? 47) then Some e
  else if z =? 98 then Some (byte 8) else if z =? 102 then Some (byte 12)
  else if z =? 110 then Some (byte 10) else if z =? 114 then Some (byte 13)
  else if z =? 116 then Some (byte 9) else None.

Definition prepend {B} (f : string -> string) (r : option (string * B)) : option (string * B) :=
  match r with Some (s, b) => Some (f s, b) | None => None end.

(** A string body up to its closing quote: its value and the text after it. *)
Fixpoint unquote (s : string) : option (string * string) :=
  match s with
  | EmptyString => None
  | String a s1 =>
      if is_byte a 34 then Some (EmptyString, s1)
      else if is_byte a 92 then
        match s1 with
        | EmptyString => None
        | String e s2 =>
            if is_byte e 117 then
              match s2 with
              | String h1 (String h2 (String h3 (String h4 s3))) =>
                  match hex4 h1 h2 h3 h4 with
                  | None => None
                  | Some r =>
                      if surrogate r then
                        match s3 with
                        | String p (String q (String g1 (String g2 (String g3 (String g4 s4))))) =>
                            match (if is_byte p 92 && is_byte q 117
                                   then r2 ← hex4 g1 g2 g3 g4; decode_pair r r2 else None) with
                            | Some rr => prepend (utf8 rr) (unquote s4)
                            | None => prepend fffd (unquote s3)
                            end
                        | _ => prepend fffd (unquote s3)
                        end
                      else prepend (utf8 r) (unquote s3)
                  end
              | _ => None
              end
            else match simple_escape e with
                 | Some x => prepend (String x) (unquote s2)
                 | None => None
                 end
        end
      else if byte_val a <? 32 then None
      else if byte_val a <? 128 then prepend (String a) (unquote s1)
      else match s1 with
           | String b s2 =>
               if utf8_2 a b then prepend (fun r => String a (String b r)) (unquote s2)
               else match s2 with
                    | String c s3 =>
                        if utf8_3 a b c
                        then prepend (fun r => String a (String b (String c r))) (unquote s3)
                        else match s3 with
                             | String d s4 =>
                                 if utf8_4 a b c d
                                 then prepend (fun r => String a (String b (String c (String d r)))) (unquote s4)
                                 else prepend fffd (unquote s1)
                             | EmptyString => prepend fffd (unquote s1)
                             end
                    | EmptyString => prepend fffd (unquote s1)
                    end
           | EmptyString => prepend fffd (unquote s1)
           end
  end.

Fixpoint skip_ws (s : string) : string :=
  match s with
  | String c s' =>
      if is_byte c 32 || is_byte c 9 || is_byte c 13 || is_byte c 10 then skip_ws s' else s
  | EmptyString => s
  end.

Fixpoint skip_digits (s : string) : string :=
  match s with String c s' => if is_digit c then skip_digits s' else s | EmptyString => s end.

Definition digits1 (s : string) : option string :=
  match s with String c s' => if is_digit c then Some (skip_digits s') else None | EmptyString => None end.

Definition eat (z : Z) (s : string) : option string :=
  match s with String c s' => if is_byte c z then Some s' else None | EmptyString => None end.

(** [-? (0 | 1-9 digits) (. digits)? ((e|E) (+|-)? digits)?] *)
Definition number (s : string) : option string :=
  let s := default s (eat 45 s) in
  s ← match eat 48 s with Some s' => Some s' | None => digits1 s end;
  s ← match eat 46 s with Some s' => digits1 s' | None => Some s end;
  match (match eat 101 s with Some s' => Some s' | None => eat 69 s end) with
  | Some s' => digits1 (match eat 43 s' with Some s'' => s'' | None => default s' (eat 45 s') end)
  | None => Some s
  end.

#[local] Set Warnings "-register-all".

(** A JSON value; a number is kept as its literal, an object as its members in
    the order of the text. *)
Inductive jvalue :=
| JString (s : string)
| JNull
| JBool (b : bool)
| JNumber (lit : string)
| JArray (vs : list jvalue)
| JObject (ms : list (string * jvalue)).

(** [maxNestingDepth] of the scanner. *)
Definition max_nesting : nat := 100 * 100.

(** [s] without its tail [r]. *)
Definition before (s r : string) : string := String.substring 0 (String.length s - String.length r) s.

(** A JSON value. Any two nested calls consume input, so twice the length of the
    text is enough [fuel]. *)
Fixpoint value (fuel depth : nat) (s : string) {struct fuel} : option (jvalue * string) :=
  match fuel with
  | O => None
  | S n =>
      match s with
      | EmptyString => None
      | String c s1 =>
          if is_byte c 34 then '(x, r) ← unquote s1; Some (JString x, r)
          else if is_byte c 123 then '(ms, r) ← object n depth s1; Some (JObject ms, r)
          else if is_byte c 91 then
            match depth with
            | O => None
            | S d =>
                match eat 93 (skip_ws s1) with
                | Some r => Some (JArray [], r)
                | None => '(vs, r) ← elements n d s1; Some (JArray vs, r)
                end
            end
          else match strip_prefix "null" s with
               | Some r => Some (JNull, r)
               | None =>
                   match strip_prefix "true" s with
                   | Some r => Some (JBool true, r)
                   | None =>
                       match strip_prefix "false" s with
                       | Some r => Some (JBool false, r)
                       | None => r ← number s; Some (JNumber (before s r), r)
                       end
                   end
               end
      end
  end

(** After [{]: the members in order and the text after [}]. *)
with object (fuel depth : nat) (s : string) {struct fuel} : option (list (string * jvalue) * string) :=
  match fuel with
  | O => None
  | S n =>
      match depth with
      | O => None
      | S d =>
          match eat 125 (skip_ws s) with
          | Some r => Some ([], r)
          | None => members n d s
          end
      end
  end

with members (fuel depth : nat) (s : string) {struct fuel} : option (list (string * jvalue) * string) :=
  match fuel with
  | O => None
  | S n =>
      s ← eat 34 (skip_ws s); '(k, s) ← unquote s; s ← eat 58 (skip_ws s);
      '(v, s) ← value n depth (skip_ws s);
      match eat 44 (skip_ws s) with
      | Some s => '(ms, r) ← members n depth s; Some ((k, v) :: ms, r)
      | None => r ← eat 125 (skip_ws s); Some ([(k, v)], r)
      end
  end

(** After [[] that is not followed by []]: the elements. *)
with elements (fuel depth : nat) (s : string) {struct fuel} : option (list jvalue * string) :=
  match fuel with
  | O => None
  | S n =>
      '(v, s) ← value n depth (skip_ws s);
      match eat 44 (skip_ws s) with
      | Some s => '(vs, r) ← elements n depth s; Some (v :: vs, r)
      | None => r ← eat 93 (skip_ws s); Some ([v], r)
      end
  end.

(** The value of a whole text, as [json.Unmarshal] reads it. *)
Definition Unmarshal (s : string) : option jvalue :=
  '(v, r) ← value (4 + 2 * String.length s) max_nesting (skip_ws s);
  if bool_decide (skip_ws r = EmptyString) then Some v else None.

(** ** Decoding into Go values *)

(** The case folding of field names: ASCII letters, and the two other characters
    that fold to one. *)
Fixpoint foldName (s : string) : string :=
  match s with
  | EmptyString => EmptyString
  | String a s1 =>
      match s1 with
      | String b s2 =>
          if is_byte a 197 && is_byte b 191 then String "s" (foldName s2)
          else match s2 with
               | String c s3 =>
                   if is_byte a 226 && is_byte b 132 && is_byte c 170 then String "k" (foldName s3)
                   else String (lower_byte a) (foldName s1)
               | EmptyString => String (lower_byte a) (foldName s1)
               end
      | EmptyString => String (lower_byte a) EmptyString
      end
  end.

Definition into_string (v : jvalue) (old : string) : option string :=
  match v with JString s => Some s | JNull => Some old | _ => None end.
Definition into_int (v : jvalue) (old : Z) : option Z :=
  match v with JNumber lit => Atoi lit | JNull => Some old | _ => None end.

(** A slice, an object whose members [set] stores, and the same when the error is
    ignored: a member of the wrong type leaves its field as it was. A [None] is the
    [UnmarshalTypeError] that is reported at the end. *)
Definition into_slice {A} (dec : jvalue -> option A) (v : jvalue) : option (list A) :=
  match v with JArray vs => mapM dec vs | JNull => Some [] | _ => None end.
Definition into_struct {A} (set : A -> string * jvalue -> option A) (v : jvalue) (old : A) : option A :=
  match v with
  | JObject ms => foldl (fun a kv => a ← a; set a kv) (Some old) ms
  | JNull => Some old
  | _ => None
  end.
Definition into_struct_lenient {A} (set : A -> string * jvalue -> option A) (v : jvalue) (old : A) : A :=
  match v with JObject ms => foldl (fun a kv => default a (set a kv)) old ms | _ => old end.

(** ** Encoding a value *)

(** [xs] one after the other, separated by commas, and [last] at the end. *)
Fixpoint separated {A} (enc : A -> string -> string) (xs : list A) (last : string) : string :=
  match xs with
  | [] => last
  | [x] => enc x last
  | x :: xs' => enc x (String "," (separated enc xs' last))
  end.

Fixpoint encode (v : jvalue) (rest : string) {struct v} : string :=
  match v with
  | JString s => encode_string s rest
  | JNull => "null" +:+ rest
  | JBool b => (if b then "true" else "false") +:+ rest
  | JNumber lit => lit +:+ rest
  | JArray vs => String "[" (separated encode vs (String "]" rest))
  | JObject ms =>
      String "{" (separated (fun kv r => encode_string kv.1 (String ":" (encode kv.2 r))) ms (String "}" rest))
  end.

Definition Marshal (v : jvalue) : string := encode v EmptyString.

(** ** Round trip of a string *)

Lemma byte_val_byte c z : is_byte c z = true -> c = byte z.
Proof.
  unfold is_byte, byte, byte_val. intros H%Z.eqb_eq. subst z.
  by rewrite N2Z.id, ascii_N_embedding.
Qed.

(** Reduction equations of [unquote], so that proofs need not unfold it. *)
Lemma unquote_ascii a R : byte_val a < 128 ->
  unquote (encode_ascii a R) = prepend (String a) (unquote R).
Proof.
  intros H. destruct a as [[] [] [] [] [] [] [] []]; try (vm_compute in H; discriminate H); reflexivity.
Qed.

Lemma unquote_fffd R : unquote (escape_u 65533 R) = prepend fffd (unquote R).
Proof. reflexivity. Qed.

Lemma high_byte a : 128 <= byte_val a ->
  is_byte a 34 = false /\ is_byte a 92 = false /\ (byte_val a <? 32) = false /\ (byte_val a <? 128) = false.
Proof. unfold is_byte. lia. Qed.

Lemma unquote_2 a b R : 128 <= byte_val a -> utf8_2 a b = true ->
  unquote (String a (String b R)) = prepend (fun r => String a (String b r)) (unquote R).
Proof. intros H H2. cbn [unquote]. destruct (high_byte a H) as (-> & -> & -> & ->). by rewrite H2. Qed.

Lemma unquote_3 a b c R : 128 <= byte_val a -> utf8_2 a b = false -> utf8_3 a b c = true ->
  unquote (encode_3 a b c R) = prepend (fun r => String a (String b (String c r))) (unquote R).
Proof.
  intros H H2 H3. unfold encode_3.
  destruct (is_byte a 226 && is_byte b 128 && (is_byte c 168 || is_byte c 169)) eqn:E.
  - apply andb_prop in E as [[->%byte_val_byte ->%byte_val_byte]%andb_prop Hc].
    apply orb_prop in Hc as [->%byte_val_byte | ->%byte_val_byte]; reflexivity.
  - cbn [unquote]. destruct (high_byte a H) as (-> & -> & -> & ->). by rewrite H2, H3.
Qed.

Lemma unquote_4 a b c d R : 128 <= byte_val a -> utf8_2 a b = false -> utf8_3 a b c = false ->
  utf8_4 a b c d = true ->
  unquote (String a (String b (String c (String d R)))) =
  prepend (fun r => String a (String b (String c (String d r)))) (unquote R).
Proof. intros H H2 H3 H4. cbn [unquote]. destruct (high_byte a H) as (-> & -> & -> & ->). by rewrite H2, H3, H4. Qed.

Lemma unquote_encode s rest :
  unquote (encode_body s (String dquote rest)) = Some (coerce s, rest).
Proof.
  remember (String.length s) as n eqn:Hn. revert s Hn.
  induction n as [n IH] using lt_wf_ind. intros s ->.
  destruct s as [|a s1]; [reflexivity|]. cbn [encode_body coerce].
  destruct (Z.ltb_spec (byte_val a) 128) as [Ha|Ha].
  { rewrite unquote_ascii by done. by rewrite (IH (String.length s1)) by (simpl; lia). }
  assert (unquote (escape_u 65533 (encode_body s1 (String dquote rest))) = Some (fffd (coerce s1), rest)) as Hbad.
  { rewrite unquote_fffd. by rewrite (IH (String.length s1)) by (simpl; lia). }
  destruct s1 as [|b s2]; [done|].
  destruct (utf8_2 a b) eqn:E2.
  { rewrite unquote_2 by done. by rewrite (IH (String.length s2)) by (simpl; lia). }
  destruct s2 as [|c s3]; [done|].
  destruct (utf8_3 a b c) eqn:E3.
  { rewrite unquote_3 by done. by rewrite (IH (String.length s3)) by (simpl; lia). }
  destruct s3 as [|d s4]; [done|].
  destruct (utf8_4 a b c d) eqn:E4; [|done].
  rewrite unquote_4 by done. by rewrite (IH (String.length s4)) by (simpl; lia).
Qed.

(** ** Round trip of a value *)

(** What may follow a number. *)
Definition stops (r : string) : Prop :=
  match r with
  | EmptyString => True
  | String c _ => is_digit c = false /\ forallb (fun z => negb (is_byte c z)) [43; 45; 46; 69; 101] = true
  end.

Abbreviation followed r := (fmap (M:=option) (fun t : string => t +:+ r)).

Lemma skip_digits_app s r : stops r -> skip_digits (s +:+ r) = skip_digits s +:+ r.
Proof.
  intros Hr. induction s as [|c s IH]; simpl.
  - destruct r as [|c r]; [done|]. simpl. by rewrite (proj1 Hr).
  - by destruct (is_digit c).
Qed.

Lemma digits1_app s r : stops r -> digits1 (s +:+ r) = followed r (digits1 s).
Proof.
  intros Hr. destruct s as [|c s]; simpl.
  - destruct r as [|c r]; [done|]. simpl. by rewrite (proj1 Hr).
  - destruct (is_digit c); simpl; [by rewrite skip_digits_app|done].
Qed.

Lemma eat_app z s r : z ∈ [43; 45; 46; 48; 69; 101] -> stops r -> eat z (s +:+ r) = followed r (eat z s).
Proof.
  intros Hz Hr. destruct s as [|c s]; simpl; [|by destruct (is_byte c z)]. destruct r as [|c r]; [done|].
  destruct Hr as [Hd Hf]. simpl in *. assert (is_byte c z = false) as ->; [|done].
  rewrite !andb_true_iff in Hf. unfold is_byte, is_digit in *. set_unfold. lia.
Qed.

Lemma number_app s r : stops r -> number (s +:+ r) = followed r (number s).
Proof.
  intros Hr. unfold number.
  rewrite (eat_app 45) by (done || set_solver).
  assert (default (s +:+ r) (followed r (eat 45 s)) = default s (eat 45 s) +:+ r) as -> by by destruct (eat 45 s).
  generalize (default s (eat 45 s)). clear s. intros s. rewrite (eat_app 48) by (done || set_solver).
  assert (match followed r (eat 48 s) with Some s' => Some s' | None => digits1 (s +:+ r) end =
          followed r (match eat 48 s with Some s' => Some s' | None => digits1 s end)) as ->
    by (destruct (eat 48 s); [done|by apply digits1_app]).
  destruct (match eat 48 s with Some s' => Some s' | None => digits1 s end) as [t|]; [|done]. simpl. clear s.
  rewrite (eat_app 46) by (done || set_solver).
  assert (match followed r (eat 46 t) with Some s' => digits1 s' | None => Some (t +:+ r) end =
          followed r (match eat 46 t with Some s' => digits1 s' | None => Some t end)) as ->
    by (destruct (eat 46 t); [by apply digits1_app|done]).
  destruct (match eat 46 t with Some s' => digits1 s' | None => Some t end) as [s|]; [|done]. simpl. clear t.
  rewrite (eat_app 101), (eat_app 69) by (done || set_solver).
  assert (match followed r (eat 101 s) with Some s' => Some s' | None => followed r (eat 69 s) end =
          followed r (match eat 101 s with Some s' => Some s' | None => eat 69 s end)) as -> by by destruct (eat 101 s).
  destruct (match eat 101 s with Some s' => Some s' | None => eat 69 s end) as [u|]; [|done]. simpl.
  rewrite (eat_app 43), (eat_app 45) by (done || set_solver).
  destruct (eat 43 u); simpl; [by apply digits1_app|]. destruct (eat 45 u); by apply digits1_app.
Qed.

Lemma app_length_string s r : String.length (s +:+ r) = (String.length s + String.length r)%nat.
Proof. induction s as [|c s IH]; [done|]. change (String c s +:+ r) with (String c (s +:+ r)). simpl. by rewrite IH. Qed.

Lemma before_app s r : before (s +:+ r) r = s.
Proof.
  unfold before. rewrite app_length_string. replace (String.length s + String.length r - String.length r)%nat with (String.length s) by lia.
  induction s as [|c s IH]; [by destruct r|]. change (String c s +:+ r) with (String c (s +:+ r)). simpl. by f_equal.
Qed.

(** A number literal on its own. *)
Definition valid_number (lit : string) : Prop := number lit = Some EmptyString.

Lemma number_head c s r : number (String c s) = Some r -> is_digit c = true \/ is_byte c 45 = true.
Proof.
  unfold number. cbn [eat]. destruct (is_byte c 45); [by right|]. cbn [default eat].
  destruct (is_byte c 48) eqn:H48; [left; unfold is_byte, is_digit in *; lia|].
  cbn [digits1]. by destruct (is_digit c); [left|].
Qed.

Lemma value_number n d lit r : valid_number lit -> stops r -> value (S n) d (lit +:+ r) = Some (JNumber lit, r).
Proof.
  intros Hv Hr. pose proof (number_app lit r Hr) as Hn. unfold valid_number in Hv. rewrite Hv in Hn. simpl in Hn.
  assert (number (lit +:+ r) = Some r) as Hn' by done. pose proof (before_app lit r) as Hb.
  destruct lit as [|c s]; [by destruct r|]. pose proof (number_head c s EmptyString Hv) as Hc.
  change (String c s +:+ r) with (String c (s +:+ r)) in *. cbn [value].
  assert (is_byte c 34 = false /\ is_byte c 123 = false /\ is_byte c 91 = false /\
    (forall z, 90 <= z -> is_byte c z = false)) as (-> & -> & -> & Hhi)
    by (unfold is_byte, is_digit in *; split_and!; intros; lia).
  assert (forall a t, 90 <= byte_val a -> strip_prefix (String a t) (String c (s +:+ r)) = None) as Hs.
  { intros a t Ha. cbn [strip_prefix]. destruct (Ascii.eqb_spec a c) as [->|Hne]; [|done].
    exfalso. specialize (Hhi (byte_val c) Ha). unfold is_byte in Hhi. lia. }
  rewrite !Hs by done. rewrite Hn'. simpl. by rewrite Hb.
Qed.

(** A value that text can carry: strings of valid UTF-8, number literals, nesting
    within the scanner's limit. *)
Fixpoint wf_value (v : jvalue) : Prop :=
  match v with
  | JString s => valid_utf8 s
  | JNull | JBool _ => True
  | JNumber lit => valid_number lit
  | JArray vs => foldr (fun v P => wf_value v /\ P) True vs
  | JObject ms => foldr (fun kv P => (valid_utf8 kv.1 /\ wf_value kv.2) /\ P) True ms
  end.

Fixpoint nesting (v : jvalue) : nat :=
  match v with
  | JArray vs => S (foldr (fun v n => Nat.max (nesting v) n) 0%nat vs)
  | JObject ms => S (foldr (fun kv n => Nat.max (nesting kv.2) n) 0%nat ms)
  | _ => 0%nat
  end.

(** Induction over a value and the values inside it. *)
Lemma jvalue_nested_ind (P : jvalue -> Prop) :
  (forall s, P (JString s)) -> P JNull -> (forall b, P (JBool b)) -> (forall lit, P (JNumber lit)) ->
  (forall vs, Forall P vs -> P (JArray vs)) -> (forall ms, Forall (fun kv => P kv.2) ms -> P (JObject ms)) ->
  forall v, P v.
Proof.
  intros Hs Hn Hb Hl Ha Ho. fix IH 1. intros [s| |b|lit|vs|ms]; [apply Hs|apply Hn|apply Hb|apply Hl| |].
  - apply Ha. induction vs as [|v vs IHvs]; constructor; [apply IH|apply IHvs].
  - apply Ho. induction ms as [|[k v] ms IHms]; constructor; [apply IH|apply IHms].
Qed.

Lemma encode_body_length s r : (String.length r <= String.length (encode_body s r))%nat.
Proof.
  remember (String.length s) as n eqn:Hn. revert s Hn.
  induction n as [n IH] using lt_wf_ind. intros [|a s1] ->; [simpl; lia|].
  assert (forall c q, (String.length q <= String.length (encode_ascii c q))%nat) as Hc
    by (intros; unfold encode_ascii, escape_u; repeat case_match; simpl; lia).
  assert (forall u q, (String.length q <= String.length (escape_u u q))%nat) as Hu
    by (intros; unfold escape_u; simpl; lia).
  cbn [encode_body]. destruct (_ <? 128).
  { etrans; [|apply Hc]. eapply IH; [|done]. simpl; lia. }
  assert (String.length r <= String.length (escape_u 65533 (encode_body s1 r)))%nat as Hbad.
  { etrans; [|apply Hu]. eapply IH; [|done]. simpl; lia. }
  destruct s1 as [|b s2]; [done|]. destruct (utf8_2 a b).
  { simpl. pose proof (IH (String.length s2) ltac:(simpl; lia) s2 eq_refl). lia. }
  destruct s2 as [|c s3]; [done|]. destruct (utf8_3 a b c).
  { unfold encode_3. pose proof (IH (String.length s3) ltac:(simpl; lia) s3 eq_refl).
    destruct (_ && _); [etrans; [|apply Hu]; done|simpl; lia]. }
  destruct s3 as [|d s4]; [done|]. destruct (utf8_4 a b c d); [|done].
  simpl. pose proof (IH (String.length s4) ltac:(simpl; lia) s4 eq_refl). lia.
Qed.

Lemma encode_string_length s r : (2 + String.length r <= String.length (encode_string s r))%nat.
Proof. unfold encode_string. pose proof (encode_body_length s (String dquote r)). simpl in *. lia. Qed.

Lemma separated_length {A} (enc : A -> string -> string) xs last :
  Forall (fun x => forall r, (String.length r <= String.length (enc x r))%nat) xs ->
  (String.length last <= String.length (separated enc xs last))%nat.
Proof.
  induction 1 as [|x xs Hx _ IH]; [done|]. cbn [separated]. destruct xs as [|y xs]; [apply Hx|].
  etrans; [|apply Hx]. simpl in *. lia.
Qed.

Abbreviation member := (fun (kv : string * jvalue) r => encode_string kv.1 (String ":" (encode kv.2 r))).

Lemma encode_length v r : (String.length r <= String.length (encode v r))%nat.
Proof.
  revert r. induction v as [s| |b|lit|vs IH|ms IH] using jvalue_nested_ind; intros r; cbn [encode].
  - pose proof (encode_string_length s r). lia.
  - rewrite app_length_string. lia.
  - destruct b; rewrite app_length_string; lia.
  - rewrite app_length_string. lia.
  - pose proof (separated_length encode vs (String "]" r) IH). simpl in *. lia.
  - assert (Forall (fun kv => forall q, (String.length q <= String.length (member kv q))%nat) ms) as Hf.
    { eapply Forall_impl; [exact IH|]. intros [k v] Hv q. simpl in *.
      pose proof (encode_string_length k (String ":" (encode v q))). specialize (Hv q). simpl in *. lia. }
    pose proof (separated_length member ms (String "}" r) Hf). simpl in *. lia.
Qed.

(** The first byte of a value is none of the bytes that end one. *)
Lemma encode_head v r : wf_value v -> exists c s, encode v r = String c s /\
  forallb (fun z => negb (is_byte c z)) [9; 10; 13; 32; 44; 93; 125] = true.
Proof.
  intros Hw. destruct v as [s| |[]|lit|vs|ms]; try (by do 2 eexists).
  simpl in Hw. destruct lit as [|c s]; [done|]. exists c, (s +:+ r). split; [done|].
  pose proof (number_head c s _ Hw). simpl. unfold is_byte, is_digit in *. lia.
Qed.

Lemma skip_ws_head c s : forallb (fun z => negb (is_byte c z)) [9; 10; 13; 32; 44; 93; 125] = true ->
  skip_ws (String c s) = String c s /\ eat 93 (String c s) = None /\ eat 125 (String c s) = None.
Proof.
  intros Hc. simpl in Hc. rewrite !andb_true_iff, !negb_true_iff in Hc.
  destruct Hc as (H9 & H10 & H13 & H32 & H44 & H93 & H125 & _). cbn [skip_ws eat]. by rewrite H9, H10, H13, H32, H93, H125.
Qed.

Lemma stops_after c s : is_byte c 44 || is_byte c 93 || is_byte c 125 = true -> stops (String c s).
Proof. unfold stops, is_byte, is_digit. simpl. unfold is_byte. lia. Qed.

(** What [value] does on an encoded value, with enough fuel. *)
Definition decodes (v : jvalue) : Prop := forall n d r, wf_value v -> (nesting v <= d)%nat -> stops r ->
  (2 * String.length (encode v r) <= n + 2 * String.length r)%nat -> value n d (encode v r) = Some (v, r).

Lemma elements_encode vs : Forall decodes vs -> vs <> [] -> forall n d r,
  foldr (fun v P => wf_value v /\ P) True vs -> (foldr (fun v n => Nat.max (nesting v) n) 0 vs <= d)%nat ->
  (2 * String.length (separated encode vs (String "]" r)) <= n + 2 * String.length r)%nat ->
  elements n d (separated encode vs (String "]" r)) = Some (vs, r).
Proof.
  induction 1 as [|v vs Hv Hvs IH]; intros Hne n d r Hw Hd Hn; [done|]. cbn [foldr] in *. destruct Hw as [Hwv Hw].
  destruct (encode_head v (match vs with [] => String "]" r | _ => String "," (separated encode vs (String "]" r)) end) Hwv)
    as (c & s & Hc & Hhead). destruct (skip_ws_head c s Hhead) as (Hskip & _ & _).
  assert (forall x, separated encode (v :: vs) x = encode v (match vs with [] => x | _ => String "," (separated encode vs x) end))
    as Hsep by (by intros; destruct vs).
  rewrite Hsep in *. pose proof (encode_length v (match vs with [] => String "]" r | _ => String "," (separated encode vs (String "]" r)) end)) as Hl.
  assert (String.length r < String.length (separated encode vs (String "]" r)))%nat as Hl2.
  { pose proof (separated_length encode vs (String "]" r)) as Hs. simpl in Hs. apply Hs.
    apply Forall_forall. intros x _. apply encode_length. }
  destruct n as [|n]; [exfalso; destruct vs; simpl in *; lia|]. cbn [elements].
  rewrite Hc at 1. rewrite Hskip, <- Hc.
  rewrite Hv; [|done|lia|destruct vs; by apply stops_after|destruct vs; simpl in *; lia].
  cbn [mbind option_bind]. destruct vs as [|w vs]; [reflexivity|].
  change (skip_ws (String "," ?x)) with (String ","%char x). cbn [eat]. change (is_byte "," 44) with true. cbv iota.
  rewrite IH; [reflexivity|done|done|lia|simpl in *; lia].
Qed.

Lemma members_encode ms : Forall (fun kv => decodes kv.2) ms -> ms <> [] -> forall n d r,
  foldr (fun kv P => (valid_utf8 kv.1 /\ wf_value kv.2) /\ P) True ms ->
  (foldr (fun kv n => Nat.max (nesting kv.2) n) 0 ms <= d)%nat ->
  (2 * String.length (separated member ms (String "}" r)) <= n + 2 * String.length r)%nat ->
  members n d (separated member ms (String "}" r)) = Some (ms, r).
Proof.
  induction 1 as [|[k v] ms Hv Hms IH]; intros Hne n d r Hw Hd Hn; [done|]. cbn [foldr fst snd] in *.
  destruct Hw as [[Hk Hwv] Hw].
  set (tail := match ms with [] => String "}" r | _ => String "," (separated member ms (String "}" r)) end).
  assert (separated member ((k, v) :: ms) (String "}" r) = encode_string k (String ":" (encode v tail))) as Hsep
    by (by unfold tail; destruct ms).
  rewrite Hsep in *. pose proof (encode_string_length k (String ":" (encode v tail))) as Hl1.
  pose proof (encode_length v tail) as Hl2.
  assert (String.length r < String.length (separated member ms (String "}" r)))%nat as Hl3.
  { pose proof (separated_length member ms (String "}" r)) as Hs. simpl in Hs. apply Hs. apply Forall_forall.
    intros [k' v'] _ q. simpl. pose proof (encode_string_length k' (String ":" (encode v' q))).
    pose proof (encode_length v' q). simpl in *. lia. }
  destruct (encode_head v tail Hwv) as (c & s & Hc & Hhead). destruct (skip_ws_head c s Hhead) as (Hskip & _ & _).
  destruct n as [|n]; [exfalso; unfold tail in *; destruct ms; simpl in *; lia|]. cbn [members].
  unfold encode_string at 1. change (skip_ws (String dquote ?x)) with (String dquote x). cbn [eat].
  change (is_byte dquote 34) with true. cbn [mbind option_bind]. rewrite unquote_encode, Hk. cbn [mbind option_bind].
  change (skip_ws (String ":" ?x)) with (String ":"%char x). cbn [eat].
  change (is_byte ":" 58) with true. cbn [mbind option_bind]. rewrite Hc at 1. rewrite Hskip, <- Hc.
  rewrite Hv; [|done|simpl in *; lia|unfold tail; destruct ms; by apply stops_after|unfold tail in *; destruct ms; simpl in *; lia].
  cbn [mbind option_bind]. unfold tail. destruct ms as [|w ms]; [reflexivity|].
  change (skip_ws (String "," ?x)) with (String ","%char x). cbn [eat]. change (is_byte "," 44) with true. cbv iota.
  rewrite IH; [reflexivity|done|done|lia|unfold tail in *; simpl in *; lia].
Qed.

Lemma encode_longer v r : wf_value v -> (String.length r < String.length (encode v r))%nat.
Proof.
  intros Hw. destruct v as [s| |b|lit|vs|ms]; cbn [encode].
  - pose proof (encode_string_length s r). lia.
  - rewrite app_length_string. simpl. lia.
  - destruct b; rewrite app_length_string; simpl; lia.
  - rewrite app_length_string. destruct lit; [done|]. simpl. lia.
  - pose proof (encode_length (JArray vs) r). pose proof (separated_length encode vs (String "]" r)) as Hs. simpl in *.
    assert (S (String.length r) <= String.length (separated encode vs (String "]" r)))%nat; [|lia].
    apply Hs, Forall_forall. intros x _. apply encode_length.
  - pose proof (separated_length member ms (String "}" r)) as Hs. simpl in *.
    assert (S (String.length r) <= String.length (separated member ms (String "}" r)))%nat; [|lia].
    apply Hs, Forall_forall. intros [k v] _ q. simpl. pose proof (encode_string_length k (String ":" (encode v q))).
    pose proof (encode_length v q). simpl in *. lia.
Qed.

Lemma value_encode v : decodes v.
Proof.
  induction v as [s| |b|lit|vs IH|ms IH] using jvalue_nested_ind; intros n d r Hw Hd Hr Hn;
    pose proof (encode_longer _ r Hw); (destruct n as [|[|n]]; [lia..|]).
  - cbn [value encode]. unfold encode_string. change (is_byte dquote 34) with true. cbv iota.
    by rewrite unquote_encode, Hw.
  - reflexivity.
  - by destruct b.
  - by apply value_number.
  - cbn [encode nesting] in *. cbn [value]. change (is_byte "[" 34) with false. change (is_byte "[" 123) with false.
    change (is_byte "[" 91) with true. cbv iota. destruct d as [|d]; [lia|]. destruct vs as [|v vs]; [reflexivity|].
    destruct (encode_head v (match vs with [] => String "]" r | _ => String "," (separated encode vs (String "]" r)) end) (proj1 Hw))
      as (c & s & Hc & Hhead). destruct (skip_ws_head c s Hhead) as (Hskip & H93 & _).
    assert (separated encode (v :: vs) (String "]" r) = String c s) as Hsep by (by rewrite <- Hc; destruct vs).
    rewrite Hsep, Hskip, H93, <- Hsep. rewrite (elements_encode _ IH); [done|done|done|lia|simpl in *; lia].
  - cbn [encode nesting] in *. cbn [value]. change (is_byte "{" 34) with false. change (is_byte "{" 123) with true.
    cbv iota. cbn [object]. destruct d as [|d]; [lia|]. destruct ms as [|kv ms]; [reflexivity|].
    assert (exists s, separated member (kv :: ms) (String "}" r) = String dquote s) as [s Hsep]
      by (destruct ms; eexists; reflexivity).
    rewrite Hsep. change (eat 125 (skip_ws (String dquote s))) with (@None string). cbv iota. rewrite <- Hsep.
    rewrite (members_encode _ IH); [done|done|done|lia|simpl in *; lia].
Qed.

(** Decoding what was encoded gives the value back. *)
Lemma Unmarshal_Marshal v : wf_value v -> (nesting v <= max_nesting)%nat -> Unmarshal (Marshal v) = Some v.
Proof.
  intros Hw Hd. unfold Unmarshal, Marshal.
  destruct (encode_head v EmptyString Hw) as (c & s & Hc & Hhead). destruct (skip_ws_head c s Hhead) as (Hskip & _ & _).
  rewrite Hc, Hskip, <- Hc. rewrite value_encode; [done|done|done|done|simpl; lia].
Qed.

(** ** Integers *)

Lemma digit_char x : (x < 10)%N -> is_digit (pretty_N_char x) = true /\ digit_val (pretty_N_char x) = Z.of_N x.
Proof.
  intros Hx. assert (x = 0 \/ x = 1 \/ x = 2 \/ x = 3 \/ x = 4 \/ x = 5 \/ x = 6 \/ x = 7 \/ x = 8 \/ x = 9)%N as H by lia.
  by repeat destruct H as [->|H]; subst.
Qed.

Lemma N_mod_10 x : (x mod 10 < 10)%N.
Proof. by apply N.mod_lt. Qed.

Lemma parse_pretty_N x s : parse_digits 0 (pretty_N_go x s) = parse_digits (Z.of_N x) s.
Proof.
  revert s. induction (N.lt_wf_0 x) as [x _ IH]. intros s. destruct (decide (x = 0)%N) as [->|Hx].
  { by rewrite pretty_N_go_0. }
  rewrite pretty_N_go_step by lia. rewrite IH by (apply N.div_lt; lia). simpl.
  destruct (digit_char (x mod 10) (N_mod_10 x)) as [-> ->]. f_equal.
  rewrite N2Z.inj_div, N2Z.inj_mod. pose proof (Z.div_mod (Z.of_N x) (Z.of_N 10) ltac:(lia)). lia.
Qed.

Lemma pretty_N_head x s : (0 < x)%N -> exists c t, pretty_N_go x s = String c t /\ is_digit c = true /\
  is_byte c 48 = false /\ skip_digits t = skip_digits s.
Proof.
  revert s. induction (N.lt_wf_0 x) as [x _ IH]. intros s Hx. rewrite pretty_N_go_step by lia.
  destruct (digit_char (x mod 10) (N_mod_10 x)) as [Hd Hv].
  destruct (decide (x / 10 = 0)%N) as [Hq|Hq].
  - rewrite Hq, pretty_N_go_0. eexists _, _. split; [done|]. split; [done|]. split; [|done].
    assert (x mod 10 = x)%N as Hm by (apply N.mod_small; apply N.div_small_iff in Hq; lia).
    rewrite Hm in *. unfold is_byte, digit_val in *. lia.
  - destruct (IH (x / 10)%N ltac:(apply N.div_lt; lia) (String (pretty_N_char (x mod 10)) s) (proj1 (N.neq_0_lt_0 _) Hq)) as (c & t & -> & ? & ? & Ht).
    exists c, t. split_and!; [done..|]. rewrite Ht. simpl. by rewrite Hd.
Qed.

Lemma pretty_pos p : pretty (Zpos p) = pretty_N_go (Npos p) EmptyString.
Proof. done. Qed.

Lemma number_digits c t : is_digit c = true -> is_byte c 48 = false -> skip_digits t = EmptyString ->
  number (String c t) = Some EmptyString /\ number (String "-" (String c t)) = Some EmptyString.
Proof.
  intros Hd H0 Ht. assert (is_byte c 45 = false) as H45 by (unfold is_byte, is_digit in *; lia).
  unfold number. change (eat 45 (String "-" ?x)) with (Some x).
  cbn [eat from_option]. rewrite H45. cbn [from_option id eat]. rewrite H0. cbn [digits1]. by rewrite Hd, Ht.
Qed.

Lemma fmt_d_number z : valid_number (fmt_d z).
Proof.
  unfold fmt_d, valid_number. destruct z as [|p|p]; [done|..].
  - rewrite pretty_pos. destruct (pretty_N_head (Npos p) EmptyString ltac:(lia)) as (c & t & -> & Hd & H0 & Ht).
    by apply number_digits.
  - change (pretty (Zneg p)) with (String "-" (pretty (Zpos p))). rewrite pretty_pos.
    destruct (pretty_N_head (Npos p) EmptyString ltac:(lia)) as (c & t & -> & Hd & H0 & Ht). by apply number_digits.
Qed.

(** [strconv] reads back what [%d] wrote. *)
Lemma Atoi_fmt_d z : int64 z -> Atoi (fmt_d z) = Some z.
Proof.
  intros Hz. unfold fmt_d. assert (forall p, match pretty (Zpos p) with EmptyString => None | _ => parse_digits 0 (pretty (Zpos p)) end = Some (Zpos p)) as Hp.
  { intros p. rewrite pretty_pos. pose proof (parse_pretty_N (Npos p) EmptyString) as E.
    destruct (pretty_N_head (Npos p) EmptyString ltac:(lia)) as (c & t & Hc & _). rewrite Hc in *. exact E. }
  unfold Atoi. destruct z as [|p|p].
  - done.
  - specialize (Hp p). rewrite pretty_pos in *. destruct (pretty_N_head (Npos p) EmptyString ltac:(lia)) as (c & t & Hc & Hd & _).
    rewrite Hc in *. assert (c <> "-"%char /\ c <> "+"%char) as [H1 H2] by (split; intros ->; done).
    assert (match String c t with
      | String "-" u => Z.opp <$> match u with EmptyString => None | _ => parse_digits 0 u end
      | String "+" u => match u with EmptyString => None | _ => parse_digits 0 u end
      | _ => match String c t with EmptyString => None | _ => parse_digits 0 (String c t) end
      end = Some (Zpos p)) as ->.
    { rewrite <- Hp. clear -H1 H2. destruct c as [[] [] [] [] [] [] [] []]; done. }
    simpl. by rewrite bool_decide_true.
  - specialize (Hp p). change (pretty (Zneg p)) with (String "-" (pretty (Zpos p))).
    destruct (pretty (Zpos p)) as [|c t]; [done|]. cbv beta iota zeta. rewrite Hp. simpl. by rewrite bool_decide_true.
Qed.
