(* ===== verification/Telemetry.v ===== *)
(** internal/pkg/tracing/tracing.go: trace and span ids and their way through requests;
    internal/api/service/audit.go with the log levels the processes are started with
    (cmd/*/main.go); and the cgroup limits of internal/worker/sandbox_resource_linux.go. *)
From S2P Require Import Prelude GoStd GoTime GoFormat Json.

(** ** Trace ids *)

Section Ids.
(** What [rand.Read] leaves in a buffer of this length, at the n-th call; its error is
    not looked at. *)
Variable random : nat -> nat -> list Z.

(** [hex.EncodeToString] and [hex.DecodeString] *)
Fixpoint EncodeToString (bs : list Z) : string :=
  match bs with [] => "" | b :: bs => String (hex_char (b / 16)) (String (hex_char (b mod 16)) (EncodeToString bs)) end.
Fixpoint DecodeString (s : string) : option (list Z) :=
  match s with
  | EmptyString => Some []
  | String a (String b s) => x ← hex_val a; y ← hex_val b; bs ← DecodeString s; Some (16 * x + y :: bs)
  | _ => None
  end.

Definition TraceIDLength : nat := 16.
Definition GenerateTraceID (n : nat) : string := EncodeToString (random n TraceIDLength).
Definition generateSpanID (n : nat) : string := EncodeToString (random n 8).
Definition NewTraceID (n : nat) : string := "trace-" +:+ String.substring 0 8 (GenerateTraceID n).

(** The values of a context under the two keys of the package. *)
Inductive ctxKey := traceIDKey | spanIDKey.
Definition context : Type := ctxKey -> option string.
Definition WithValue (ctx : context) (k : ctxKey) (v : string) : context := fun k' =>
  match k, k' with traceIDKey, traceIDKey | spanIDKey, spanIDKey => Some v | _, _ => ctx k' end.
Definition WithTraceID (ctx : context) (traceID : string) : context := WithValue ctx traceIDKey traceID.
Definition TraceIDFromContext (ctx : context) : string := default "" (ctx traceIDKey).
Definition StartSpan (n : nat) (ctx : context) : context := WithValue ctx spanIDKey (generateSpanID n).

(** The middleware: the context of the handler and the X-Trace-ID of the answer. *)
Definition Middleware (n : nat) (header : string) (ctx : context) : context * string :=
  let traceID := if bool_decide (header = "") then GenerateTraceID n else header in
  (WithTraceID ctx traceID, traceID).
Definition DispatchWithTrace (n : nat) (ctx : context) : string :=
  let traceID := TraceIDFromContext ctx in if bool_decide (traceID = "") then GenerateTraceID n else traceID.

Lemma hex_back z : 0 <= z < 16 -> hex_val (hex_char z) = Some z.
Proof.
  intros Hz. assert (forallb (fun z => bool_decide (hex_val (hex_char z) = Some z)) (zseq 0 16) = true) as Hall by (vm_compute; reflexivity).
  rewrite forallb_forall in Hall. apply (proj1 (bool_decide_eq_true _)), Hall, list_elem_of_In, elem_of_zseq. lia.
Qed.

(** Hexadecimal text says the bytes. *)
Lemma hex_roundtrip bs : Forall (fun b => 0 <= b < 256) bs -> DecodeString (EncodeToString bs) = Some bs.
Proof.
  induction 1 as [|b bs Hb _ IH]; [done|]. simpl. rewrite !hex_back by (Z.to_euclidean_division_equations; lia). simpl. rewrite IH. simpl.
  do 2 f_equal. Z.to_euclidean_division_equations; lia.
Qed.

Lemma EncodeToString_length bs : String.length (EncodeToString bs) = (2 * length bs)%nat.
Proof. induction bs; simpl; lia. Qed.

(** A trace id that came with a request is the one the handler sees, the one the answer
    carries and the one a dispatch sends, through any number of spans; a request without
    one gets 32 hexadecimal digits, and two such requests share an id only when the
    source of randomness repeats itself. *)
Theorem trace_propagates n m header ctx spans :
  (forall k l, length (random k l) = l /\ Forall (fun b => 0 <= b < 256) (random k l)) ->
  let '(ctx', out) := Middleware n header ctx in
  let inner := foldl (fun c k => StartSpan k c) ctx' spans in
  TraceIDFromContext inner = out /\ DispatchWithTrace m inner = out /\
  (header <> "" -> out = header) /\
  (header = "" -> String.length out = 32%nat /\
    forall n', (Middleware n' "" ctx).2 = out -> random n' TraceIDLength = random n TraceIDLength).
Proof.
  intros Hr. unfold Middleware. set (out := if bool_decide (header = "") then _ else _).
  assert (out <> "" /\ (header = "" -> String.length out = 32%nat)) as [Hne Hlen].
  { subst out. assert (String.length (GenerateTraceID n) = 32%nat) as Hg by (unfold GenerateTraceID; rewrite EncodeToString_length, (proj1 (Hr _ _)); done).
    case_bool_decide; [|done]. split; [|done]. intros E. by rewrite E in Hg. }
  assert (forall c, TraceIDFromContext (foldl (fun c k => StartSpan k c) c spans) = TraceIDFromContext c) as Hspans
    by (induction spans as [|k ks IH]; intros c; [done|]; simpl; by rewrite IH).
  assert (TraceIDFromContext (foldl (fun c k => StartSpan k c) (WithTraceID ctx out) spans) = out) as Hin by (by rewrite Hspans).
  split; [done|]. split; [unfold DispatchWithTrace; by rewrite Hin, bool_decide_false|].
  split; [intros Hh; subst out; by rewrite bool_decide_false|]. intros ->. split; [by apply Hlen|]. intros n' E.
  subst out. change (GenerateTraceID n' = GenerateTraceID n) in E. apply (f_equal DecodeString) in E. unfold GenerateTraceID in E.
  rewrite !hex_roundtrip in E by apply Hr. by injection E.
Qed.
End Ids.

(** ** The audit log *)

Record AuditEntry := mkAuditEntry {
  ae_Timestamp : Time; ae_Action : string; ae_ResourceType : string; ae_ResourceID : string; ae_TenantID : Z;
  ae_Operator : string; ae_Detail : string; ae_Result : string
}.

Definition entry_json (local : Location) (e : AuditEntry) : jvalue :=
  JObject [("timestamp", JString (FormatRFC3339Nano local (ae_Timestamp e))); ("action", JString (ae_Action e));
    ("resource_type", JString (ae_ResourceType e)); ("resource_id", JString (ae_ResourceID e));
    ("tenant_id", JNumber (fmt_d (ae_TenantID e))); ("operator", JString (ae_Operator e)); ("detail", JString (ae_Detail e));
    ("result", JString (ae_Result e))].

(** [slog]: the levels, and a logger with a least level. *)
Definition LevelDebug : Z := -4.
Definition LevelInfo : Z := 0.
Definition LevelWarn : Z := 4.
Definition LevelError : Z := 8.
Definition log_line : Type := Z * string * string.
Definition emit (least level : Z) (msg data : string) : list log_line := if level <? least then [] else [(level, msg, data)].

(** [Auditor.Record]: the lines written. A time outside the years 0 to 9999 has no JSON. *)
Definition audit_Record (local : Location) (least : Z) (now : Time) (entry : AuditEntry) : list log_line :=
  let entry := mkAuditEntry now (ae_Action entry) (ae_ResourceType entry) (ae_ResourceID entry) (ae_TenantID entry) (ae_Operator entry)
                 (ae_Detail entry) (if bool_decide (ae_Result entry = "") then "success" else ae_Result entry) in
  let year := t_year local now in
  if (year <? 0) || (9999 <? year) then emit least LevelError "audit marshal error" "Time.MarshalJSON: year outside of range [0,9999]"
  else emit least LevelDebug "AUDIT" (Marshal (entry_json local entry)).

(** [TaskService.audit] and [auditErr]: neither names a tenant or an operator. *)
Definition audit_entry (action : string) (id : Z) (detail : string) : AuditEntry :=
  mkAuditEntry zero_time action "task" (fmt_d id) 0 "" detail "".
Definition auditErr_entry (action : string) (id : Z) (err : gerror) : AuditEntry :=
  mkAuditEntry zero_time action "task" (fmt_d id) 0 "" (error_text err) "error".

(** The level the API's logger is made with. *)
Definition api_log_level : Z := LevelInfo.

(** No audit entry is ever written by the API: entries are debug lines, and its logger
    drops these. *)
Theorem audit_silent local now entry : 0 <= t_year local now <= 9999 -> audit_Record local api_log_level now entry = [].
Proof.
  intros Hy. unfold audit_Record. destruct (Z.ltb_spec (t_year local now) 0); [lia|]. destruct (Z.ltb_spec 9999 (t_year local now)); [lia|]. done.
Qed.

(** ** Limits of the worker's tasks *)

Record SandboxConfig := mkSandboxConfig { WorkDir : string; MaxMemoryBytes : Z; MaxCPUPercent : Z; Timeout : Duration }.

(** [applyResourceLimits]: the files that are written, with their contents. *)
Definition applyResourceLimits (mkdir_ok : bool) (pid : Z) (cfg : SandboxConfig) : list (string * string) :=
  if negb mkdir_ok then [] else
  let cgPath := "/sys/fs/cgroup/go-ai-scheduler" in
  (if 0 <? MaxMemoryBytes cfg
   then [(cgPath +:+ "/memory.max", fmt_d (MaxMemoryBytes cfg)); (cgPath +:+ "/cgroup.procs", fmt_d pid)] else [])
  ++ (if (0 <? MaxCPUPercent cfg) && (MaxCPUPercent cfg <? 100)
      then [(cgPath +:+ "/cpu.max", fmt_d (go_div (100000 * MaxCPUPercent cfg) 100) +:+ " " +:+ fmt_d 100000)] else []).

(** A CPU limit alone joins no process to the group, so it limits nothing. *)
Theorem cpu_limit_alone mkdir_ok pid dir pct timeout : forall f, f ∈ (applyResourceLimits mkdir_ok pid (mkSandboxConfig dir 0 pct timeout)).*1 ->
  f <> "/sys/fs/cgroup/go-ai-scheduler/cgroup.procs".
Proof. unfold applyResourceLimits. destruct mkdir_ok; simpl; [|set_solver]. destruct (_ && _); set_solver. Qed.

Lemma trace_propagates_witness : exists out, (Middleware (fun n l => replicate l (Z.of_nat n mod 256)) 3 "" (fun _ => None)).2 = out /\
  String.length out = 32%nat.
Proof.
  pose proof (trace_propagates (fun n l => replicate l (Z.of_nat n mod 256)) 3 4 "" (fun _ => None) [5%nat]) as Hp.
  destruct (Middleware _ 3 "" _) as [ctx' out]. exists out. split; [done|]. apply Hp; [|done].
  intros k l. split; [apply length_replicate|]. apply Forall_replicate. apply Z.mod_pos_bound. lia.
Defined.
