(* ===== verification/Crypto.v ===== *)
(** What internal/api/middleware/jwt.go uses of Go's standard library: SHA-256
    (crypto/sha256), HMAC (crypto/hmac) and unpadded URL-safe base64
    (encoding/base64), over lists of bytes, with the round trip of base64. *)
From S2P Require Import Prelude GoStd.

Definition string_bytes (s : string) : list Z := byte_val <$> String.list_ascii_of_string s.

Definition is_bytes (bs : list Z) : Prop := Forall (fun b => 0 <= b < 256) bs.

(** ** SHA-256 *)

Module Sha256.
Definition w32 (z : Z) : Z := Z.land z 4294967295.
Definition rotr (n x : Z) : Z := w32 (Z.lor (Z.shiftr x n) (Z.shiftl x (32 - n))).

Definition k_table : list Z :=
  [1116352408; 1899447441; 3049323471; 3921009573; 961987163; 1508970993; 2453635748; 2870763221;
   3624381080; 310598401; 607225278; 1426881987; 1925078388; 2162078206; 2614888103; 3248222580;
   3835390401; 4022224774; 264347078; 604807628; 770255983; 1249150122; 1555081692; 1996064986;
   2554220882; 2821834349; 2952996808; 3210313671; 3336571891; 3584528711; 113926993; 338241895;
   666307205; 773529912; 1294757372; 1396182291; 1695183700; 1986661051; 2177026350; 2456956037;
   2730485921; 2820302411; 3259730800; 3345764771; 3516065817; 3600352804; 4094571909; 275423344;
   430227734; 506948616; 659060556; 883997877; 958139571; 1322822218; 1537002063; 1747873779;
   1955562222; 2024104815; 2227730452; 2361852424; 2428436474; 2756734187; 3204031479; 3329325298].

Definition init : list Z :=
  [1779033703; 3144134277; 1013904242; 2773480762; 1359893119; 2600822924; 528734635; 1541459225].

(** Big-endian words. *)
Fixpoint words (bs : list Z) : list Z :=
  match bs with
  | a :: b :: c :: d :: r => (a * 16777216 + b * 65536 + c * 256 + d) :: words r
  | _ => []
  end.

Definition word_bytes (w : Z) : list Z :=
  [Z.shiftr w 24 mod 256; Z.shiftr w 16 mod 256; Z.shiftr w 8 mod 256; w mod 256].

(** The message schedule, newest word first. *)
Fixpoint schedule (n : nat) (rev_w : list Z) : list Z :=
  match n with
  | O => rev_w
  | S n' =>
      let w i := nth i rev_w 0 in
      let s0 := Z.lxor (Z.lxor (rotr 7 (w 14%nat)) (rotr 18 (w 14%nat))) (Z.shiftr (w 14%nat) 3) in
      let s1 := Z.lxor (Z.lxor (rotr 17 (w 1%nat)) (rotr 19 (w 1%nat))) (Z.shiftr (w 1%nat) 10) in
      schedule n' (w32 (w 15%nat + s0 + w 6%nat + s1) :: rev_w)
  end.

Definition round (h : list Z) (kw : Z * Z) : list Z :=
  match h with
  | [a; b; c; d; e; f; g; hh] =>
      let s1 := Z.lxor (Z.lxor (rotr 6 e) (rotr 11 e)) (rotr 25 e) in
      let ch := Z.lxor (Z.land e f) (Z.land (Z.lxor e 4294967295) g) in
      let t1 := w32 (hh + s1 + ch + kw.1 + kw.2) in
      let s0 := Z.lxor (Z.lxor (rotr 2 a) (rotr 13 a)) (rotr 22 a) in
      let maj := Z.lxor (Z.lxor (Z.land a b) (Z.land a c)) (Z.land b c) in
      [w32 (t1 + w32 (s0 + maj)); a; b; c; w32 (d + t1); e; f; g]
  | _ => h
  end.

Definition block (h : list Z) (bs : list Z) : list Z :=
  let ws := rev (schedule 48 (rev (words bs))) in
  zip_with (fun x y => w32 (x + y)) h (foldl round h (zip k_table ws)).

(** 0x80, zeros, and the length in bits as eight bytes. *)
Definition padding (len : Z) : list Z :=
  128 :: replicate (Z.to_nat ((55 - len) mod 64)) 0
  ++ word_bytes (Z.shiftr (len * 8) 32 mod 4294967296) ++ word_bytes (len * 8 mod 4294967296).

Fixpoint blocks (n : nat) (h : list Z) (bs : list Z) : list Z :=
  match n with O => h | S n' => blocks n' (block h (take 64 bs)) (drop 64 bs) end.

Definition Sum256 (bs : list Z) : list Z :=
  let msg := bs ++ padding (Z.of_nat (length bs)) in
  mjoin (word_bytes <$> blocks (length msg / 64) init msg).
End Sha256.

(** [hmac.New(sha256.New, key)], [Write(msg)], [Sum(nil)] *)
Definition hmac_sha256 (key msg : list Z) : list Z :=
  let key := if (64 <? Z.of_nat (length key)) then Sha256.Sum256 key else key in
  let pad b := (fun k => Z.lxor k b) <$> (key ++ replicate (64 - length key) 0) in
  Sha256.Sum256 (pad 92 ++ Sha256.Sum256 (pad 54 ++ msg)).

(** ** Base64 *)

Module Base64.
Definition alphabet : string := "ABCDEFGHIJKLMNOPQRSTUVWXYZabcdefghijklmnopqrstuvwxyz0123456789-_".

Definition enc6 (x : Z) : ascii := default "A"%char (String.get (Z.to_nat x) alphabet).

(** The decode map. *)
Definition dec6 (c : ascii) : option Z :=
  let z := byte_val c in
  if (65 <=? z) && (z <=? 90) then Some (z - 65)
  else if (97 <=? z) && (z <=? 122) then Some (z - 71)
  else if (48 <=? z) && (z <=? 57) then Some (z + 4)
  else if z =? 45 then Some 62 else if z =? 95 then Some 63 else None.

(** [base64.RawURLEncoding.EncodeToString] *)
Fixpoint Encode (bs : list Z) : string :=
  match bs with
  | [] => EmptyString
  | [a] =>
      let v := a * 65536 in String (enc6 (v / 262144)) (String (enc6 (v / 4096 mod 64)) EmptyString)
  | [a; b] =>
      let v := a * 65536 + b * 256 in
      String (enc6 (v / 262144)) (String (enc6 (v / 4096 mod 64)) (String (enc6 (v / 64 mod 64)) EmptyString))
  | a :: b :: c :: r =>
      let v := a * 65536 + b * 256 + c in
      String (enc6 (v / 262144)) (String (enc6 (v / 4096 mod 64)) (String (enc6 (v / 64 mod 64))
        (String (enc6 (v mod 64)) (Encode r))))
  end.

(** Sextets to bytes; a single left-over sextet is an error, left-over bits are not. *)
Fixpoint groups (xs : list Z) : option (list Z) :=
  match xs with
  | [] => Some []
  | [_] => None
  | [x; y] => Some [(x * 262144 + y * 4096) / 65536]
  | [x; y; z] => let v := x * 262144 + y * 4096 + z * 64 in Some [v / 65536; v / 256 mod 256]
  | x :: y :: z :: u :: r =>
      let v := x * 262144 + y * 4096 + z * 64 + u in
      bs ← groups r; Some (v / 65536 :: v / 256 mod 256 :: v mod 256 :: bs)
  end.

(** [base64.RawURLEncoding.DecodeString]: line breaks are skipped. *)
Definition Decode (s : string) : option (list Z) :=
  xs ← mapM dec6 (filter (fun c => byte_val c <> 10 /\ byte_val c <> 13) (String.list_ascii_of_string s)); groups xs.

Lemma enc6_spec x : 0 <= x < 64 ->
  dec6 (enc6 x) = Some x /\ byte_val (enc6 x) <> 10 /\ byte_val (enc6 x) <> 13 /\ enc6 x <> "."%char.
Proof.
  intros Hx. assert (forallb (fun x => bool_decide (dec6 (enc6 x) = Some x /\ byte_val (enc6 x) <> 10 /\
    byte_val (enc6 x) <> 13 /\ enc6 x <> "."%char)) (zrange 0 63) = true) as H by (vm_compute; reflexivity).
  apply (bool_decide_eq_true _), (forallb_zrange _ _ _ H). lia.
Qed.

Lemma dec6_enc6 x : 0 <= x < 64 -> dec6 (enc6 x) = Some x.
Proof. apply enc6_spec. Qed.

(** Three bytes or fewer at a time. *)
Lemma bytes3_ind (P : list Z -> Prop) : P [] -> (forall a, P [a]) -> (forall a b, P [a; b]) ->
  (forall a b c r, P r -> P (a :: b :: c :: r)) -> forall bs, P bs.
Proof.
  intros H0 H1 H2 H3. fix IH 1. intros [|a [|b [|c r]]]; [apply H0|apply H1|apply H2|apply H3, IH].
Qed.

(** The characters of an encoding are those of the alphabet. *)
Lemma Encode_chars bs : is_bytes bs ->
  Forall (fun c => byte_val c <> 10 /\ byte_val c <> 13 /\ c <> "."%char) (String.list_ascii_of_string (Encode bs)).
Proof.
  induction bs as [|a|a b|a b c r IH] using bytes3_ind; intros Hb; cbn [Encode String.list_ascii_of_string];
    unfold is_bytes in Hb; rewrite ?Forall_cons in Hb; repeat apply Forall_cons_2; try apply Forall_nil_2;
    try (apply enc6_spec; zdiv_lia).
  apply IH, Hb.
Qed.

Lemma Encode_sextets bs : is_bytes bs -> exists xs, mapM dec6 (String.list_ascii_of_string (Encode bs)) = Some xs /\ groups xs = Some bs.
Proof.
  induction bs as [|a|a b|a b c r IH] using bytes3_ind; intros Hb; unfold is_bytes in Hb; rewrite ?Forall_cons in Hb.
  - by exists [].
  - eexists. cbn [Encode String.list_ascii_of_string mapM].
    rewrite !dec6_enc6 by zdiv_lia. simpl. split; [done|]. cbn [groups]. repeat f_equal. zdiv_lia.
  - eexists. cbn [Encode String.list_ascii_of_string mapM].
    rewrite !dec6_enc6 by zdiv_lia. simpl. split; [done|]. cbn [groups]. repeat f_equal; zdiv_lia.
  - destruct IH as (xs & Hxs & Hg); [apply Hb|]. eexists. cbn [Encode String.list_ascii_of_string mapM].
    rewrite !dec6_enc6 by zdiv_lia. rewrite Hxs. simpl. split; [done|]. cbn [groups]. rewrite Hg. simpl.
    repeat f_equal; zdiv_lia.
Qed.

(** Decoding an encoding gives the bytes back. *)
Lemma Decode_Encode bs : is_bytes bs -> Decode (Encode bs) = Some bs.
Proof.
  intros Hb. destruct (Encode_sextets bs Hb) as (xs & Hx & Hg). unfold Decode.
  rewrite filter_all; [by rewrite Hx|]. eapply Forall_impl; [by apply Encode_chars|]. naive_solver.
Qed.
End Base64.

(** ** Bytes *)

Lemma string_bytes_range s : is_bytes (string_bytes s).
Proof.
  unfold string_bytes, is_bytes, byte_val. induction s as [|c s IH]; constructor; [|exact IH].
  pose proof (N_ascii_bounded c). lia.
Qed.

Lemma bytes_of_string_bytes s : bytes_of (string_bytes s) = s.
Proof.
  unfold bytes_of, string_bytes, byte_val. induction s as [|c s IH]; [done|]. simpl. rewrite N2Z.id, ascii_N_embedding. by f_equal.
Qed.

Lemma Sum256_range bs : is_bytes (Sha256.Sum256 bs).
Proof.
  unfold Sha256.Sum256, is_bytes. apply Forall_join, Forall_fmap, Forall_forall. intros w _. simpl.
  unfold Sha256.word_bytes. repeat constructor; apply Z.mod_pos_bound; lia.
Qed.

Lemma hmac_range key msg : is_bytes (hmac_sha256 key msg).
Proof. apply Sum256_range. Qed.

Example sha256_abc : Sha256.Sum256 (string_bytes "abc") =
  [186; 120; 22; 191; 143; 1; 207; 234; 65; 65; 64; 222; 93; 174; 34; 35;
   176; 3; 97; 163; 150; 23; 122; 156; 180; 16; 255; 97; 242; 0; 21; 173].
Proof. vm_compute. reflexivity. Qed.

(** RFC 4231, test case 2. *)
Example hmac_jefe : hmac_sha256 (string_bytes "Jefe") (string_bytes "what do ya want for nothing?") =
  [91; 220; 193; 70; 191; 96; 117; 78; 106; 4; 36; 38; 8; 149; 117; 199;
   90; 0; 63; 8; 157; 39; 57; 131; 157; 236; 88; 185; 100; 236; 56; 67].
Proof. vm_compute. reflexivity. Qed.

Example base64_hello : Base64.Encode (string_bytes "hello") = "aGVsbG8".
Proof. vm_compute. reflexivity. Qed.
