(* ===== verification/Labels.v ===== *)
(** internal/model/labels.go: worker and task labels, stored as the JSON text of
    a [map[string]string]. A text that is not an object of strings decodes to no
    labels. *)
From S2P Require Import Prelude GoStd Json.

(** [json.Unmarshal] into a [map[string]string]: a later member replaces an
    earlier one, [null] gives the zero string, any other type is an error. *)
Fixpoint fill (ms : list (string * jvalue)) (m : gmap string string) : option (gmap string string) :=
  match ms with
  | [] => Some m
  | (k, JString v) :: ms' => fill ms' (<[k := v]> m)
  | (k, JNull) :: ms' => fill ms' (<[k := EmptyString]> m)
  | (_, _) :: _ => None
  end.

Definition unmarshal (s : string) : option (gmap string string) :=
  match Unmarshal s with Some (JObject ms) => fill ms ∅ | Some JNull => Some ∅ | _ => None end.

(** ** The source's functions *)

(** [json.Marshal] writes the keys in increasing order. *)
Definition key_le (x y : string * string) : Prop := is_true (String.leb x.1 y.1).
#[export] Instance key_le_dec x y : Decision (key_le x y).
Proof. unfold key_le. apply _. Defined.

Definition sorted_items (m : gmap string string) : list (string * string) :=
  merge_sort key_le (map_to_list m).

Definition labels_json (m : gmap string string) : jvalue := JObject (prod_map id JString <$> sorted_items m).

Definition EncodeLabels (labels : gmap string string) : string :=
  if bool_decide (labels = ∅) then "{}" else Marshal (labels_json labels).

(** No caller tells a nil map from an empty one. *)
Definition DecodeLabels (raw : string) : gmap string string :=
  if bool_decide (raw = "") || bool_decide (raw = "{}") then ∅
  else default ∅ (unmarshal raw).

Definition MatchLabels (workerLabels selectorLabels : gmap string string) : bool :=
  forallb (fun '(k, v) => match workerLabels !! k with
                          | Some wv => bool_decide (wv = v)
                          | None => false
                          end) (map_to_list selectorLabels).

(** ** Round trip of a map *)

Definition valid_item (kv : string * string) : Prop := valid_utf8 kv.1 /\ valid_utf8 kv.2.

Lemma flat_depth (kvs : list (string * string)) : nesting (JObject (prod_map id JString <$> kvs)) = 1%nat.
Proof. simpl. f_equal. induction kvs as [|kv kvs IH]; [done|]. by simpl. Qed.

Lemma flat_nesting (kvs : list (string * string)) :
  (nesting (JObject (prod_map id JString <$> kvs)) <= max_nesting)%nat.
Proof.
  rewrite flat_depth. assert (exists d, max_nesting = S d) as [d ->] by (by eexists). lia.
Qed.

Lemma flat_wf (kvs : list (string * string)) :
  Forall valid_item kvs -> wf_value (JObject (prod_map id JString <$> kvs)).
Proof. simpl. induction 1 as [|kv kvs Hv _ IH]; [done|]. by simpl. Qed.

Lemma fill_items kvs m : fill (prod_map id JString <$> kvs) m = Some (foldl (fun m kv => <[kv.1 := kv.2]> m) m kvs).
Proof. revert m. induction kvs as [|[k v] kvs IH]; intros m; simpl; [done|]. apply IH. Qed.

Lemma foldl_insert_map (kvs : list (string * string)) (m : gmap string string) : NoDup kvs.*1 ->
  foldl (fun m kv => <[kv.1 := kv.2]> m) m kvs = list_to_map kvs ∪ m.
Proof.
  revert m. induction kvs as [|[k v] kvs IH]; intros m Hnd; simpl.
  - by rewrite map_empty_union.
  - apply NoDup_cons in Hnd as [Hk Hnd]. rewrite IH by done.
    rewrite <- insert_union_r; [by rewrite insert_union_l|]. by apply not_elem_of_list_to_map_1.
Qed.

Lemma labels_fill (m : gmap string string) : fill (prod_map id JString <$> sorted_items m) ∅ = Some m.
Proof.
  assert (sorted_items m ≡ₚ map_to_list m) as Hp by apply merge_sort_Permutation.
  assert (NoDup (sorted_items m).*1) as Hn by (rewrite Hp; apply NoDup_fst_map_to_list). revert Hp Hn. generalize (sorted_items m). intros kvs Hp Hn.
  rewrite fill_items, foldl_insert_map by done. rewrite map_union_empty. f_equal.
  rewrite <- (list_to_map_to_list m). exact (list_to_map_proper _ _ Hn Hp).
Qed.

Lemma labels_wf (m : gmap string string) : map_Forall (fun k v => valid_item (k, v)) m -> wf_value (labels_json m).
Proof.
  intros Hv. apply flat_wf. unfold sorted_items. rewrite merge_sort_Permutation.
  apply Forall_forall. intros [k v] Hin%elem_of_map_to_list. by apply Hv in Hin.
Qed.

Lemma unmarshal_encode (m : gmap string string) : map_Forall (fun k v => valid_item (k, v)) m ->
  unmarshal (Marshal (labels_json m)) = Some m.
Proof.
  intros Hv. unfold unmarshal. rewrite Unmarshal_Marshal; [apply labels_fill|by apply labels_wf|apply flat_nesting].
Qed.

(** ** Properties *)

(** C23. Labels survive storage: decoding the stored text of a map of valid UTF-8
    strings gives the map back, whatever characters the keys and values contain. *)
Theorem DecodeLabels_EncodeLabels (m : gmap string string) :
  map_Forall (fun k v => valid_utf8 k /\ valid_utf8 v) m -> DecodeLabels (EncodeLabels m) = m.
Proof.
  intros Hv. unfold EncodeLabels. case_bool_decide as E; [by subst|].
  pose proof (unmarshal_encode m Hv) as Hu. unfold DecodeLabels.
  case_bool_decide as E1; [by rewrite E1 in Hu|]. case_bool_decide as E2; simpl; [|by rewrite Hu].
  rewrite E2 in Hu. by injection Hu.
Qed.

Definition region_labels : gmap string string := {["region" := "eu<west>"; "gpu" := "a100"]}.

Lemma DecodeLabels_EncodeLabels_witness : DecodeLabels (EncodeLabels region_labels) = region_labels.
Proof. apply DecodeLabels_EncodeLabels. apply (bool_decide_unpack _). vm_compute. exact I. Defined.

(** [MatchLabels] holds exactly when the worker has every selector label with the
    selector's value. *)
Theorem MatchLabels_spec worker selector :
  MatchLabels worker selector = true <-> selector ⊆ worker.
Proof.
  unfold MatchLabels. rewrite forallb_forall, map_subseteq_spec. split.
  - intros H k v Hk. specialize (H (k, v)). simpl in H.
    rewrite <- list_elem_of_In, elem_of_map_to_list in H. specialize (H Hk).
    destruct (worker !! k); [|done]. apply bool_decide_eq_true in H. by subst.
  - intros H [k v] Hin. rewrite <- list_elem_of_In, elem_of_map_to_list in Hin.
    apply H in Hin as ->. by apply bool_decide_eq_true.
Qed.
