(* ===== verification/Graph.v ===== *)
(** The task dependency graph of internal/model/dependency.go: its adjacency
    lists, the three-colour depth-first cycle test and the dependency check,
    with the proof that the cycle test decides cyclicity for every order in
    which Go may range over the map. *)
From S2P Require Import Prelude Model.

Abbreviation graph := (gmap Z (list Z)).

(** [graph[node]]: the nil slice for an absent key. *)
Definition deps_of (g : graph) (node : Z) : list Z := default [] (g !! node).

Definition Graph (edges : list TaskDependency) : graph :=
  foldl (fun g e => <[dep_TaskID e := deps_of g (dep_TaskID e) ++ [dep_DependsOnTaskID e]]> g)
        ∅ edges.

(** [visited[node]]: 0 unvisited, 1 in progress, 2 done. *)
Definition color (visited : gmap Z Z) (node : Z) : Z := default 0 (visited !! node).

(** The loop of the closure [dfs] over the remaining dependencies of [node];
    [rec] is the recursive call. *)
Fixpoint dfs_loop (rec : gmap Z Z -> Z -> option (gmap Z Z * bool)) (node : Z)
    (deps : list Z) (visited : gmap Z Z) : option (gmap Z Z * bool) :=
  match deps with
  | [] => Some (<[node := 2]> visited, false)
  | dep :: rest =>
      if color visited dep =? 1 then Some (visited, true)
      else if color visited dep =? 0 then
        match rec visited dep with
        | None => None
        | Some (visited', true) => Some (visited', true)
        | Some (visited', false) => dfs_loop rec node rest visited'
        end
      else dfs_loop rec node rest visited
  end.

(** The closure [dfs]; [None] is running out of fuel, which [dfs_correct] rules
    out when the fuel is at least the number of unvisited nodes. *)
Fixpoint dfs (fuel : nat) (g : graph) (visited : gmap Z Z) (node : Z)
    : option (gmap Z Z * bool) :=
  match fuel with
  | O => None
  | S n => dfs_loop (dfs n g) node (deps_of g node) (<[node := 1]> visited)
  end.

(** All nodes of the graph, as sources or as targets of an edge. *)
Definition nodes (g : graph) : gset Z :=
  dom g ∪ list_to_set (concat (snd <$> map_to_list g)).

(** The outer loop of [DetectCycle], ranging over the keys in some order. *)
Fixpoint detect_from (fuel : nat) (g : graph) (order : list Z) (visited : gmap Z Z)
    : option bool :=
  match order with
  | [] => Some false
  | node :: rest =>
      if color visited node =? 0 then
        match dfs fuel g visited node with
        | None => None
        | Some (_, true) => Some true
        | Some (visited', false) => detect_from fuel g rest visited'
        end
      else detect_from fuel g rest visited
  end.

Definition DetectCycle (order : list Z) (g : graph) : option bool :=
  detect_from (S (size (nodes g))) g order ∅.

Definition AllDependenciesSatisfied (g : graph) (taskID : Z) (successfulInstances : gmap Z bool)
    : bool :=
  let deps := deps_of g taskID in
  if bool_decide (deps = []) then true
  else forallb (fun dep => default false (successfulInstances !! dep)) deps.

(** ** The edges of a graph *)

(** [edge g x y]: [x] depends on [y]. *)
Definition edge (g : graph) (x y : Z) : Prop := y ∈ deps_of g x.

(** Some task depends on itself, directly or through other tasks. *)
Definition cyclic (g : graph) : Prop := exists x, tc (edge g) x x.

Lemma deps_of_insert g k l x :
  deps_of (<[k := l]> g) x = if decide (k = x) then l else deps_of g x.
Proof. unfold deps_of. rewrite lookup_insert. by case_decide. Qed.

Lemma Graph_fold_edge edges g x y :
  edge (foldl (fun g e => <[dep_TaskID e := deps_of g (dep_TaskID e) ++ [dep_DependsOnTaskID e]]> g)
              g edges) x y <->
  edge g x y \/ mkTaskDependency x y ∈ edges.
Proof.
  revert g. induction edges as [|[a b] es IH]; intros g; simpl.
  - rewrite elem_of_nil. tauto.
  - rewrite IH, elem_of_cons. unfold edge. rewrite deps_of_insert.
    case_decide; subst.
    + rewrite elem_of_app, list_elem_of_singleton. naive_solver.
    + naive_solver.
Qed.

Lemma edge_nodes g x y : edge g x y -> x ∈ dom g /\ y ∈ nodes g.
Proof.
  unfold edge, deps_of, nodes. destruct (g !! x) as [l|] eqn:E; simpl; [|set_solver].
  intros Hy. split; [by apply elem_of_dom|].
  apply elem_of_union_r, elem_of_list_to_set, list_elem_of_In, in_concat.
  exists l. split; [|by apply list_elem_of_In].
  apply list_elem_of_In, list_elem_of_fmap. exists (x, l). split; [done|].
  by apply elem_of_map_to_list.
Qed.

Lemma color_empty x : color ∅ x = 0.
Proof. unfold color. by rewrite lookup_empty. Qed.

(** ** Correctness of the depth-first search *)

Section Dfs.
Context (g : graph).

(** Between two steps of the search: colours are 0, 1 or 2; a done node has
    only done dependencies and lies on no cycle. *)
Definition search_inv (vis : gmap Z Z) : Prop :=
  (forall x, color vis x = 0 \/ color vis x = 1 \/ color vis x = 2) /\
  (forall x y, color vis x = 2 -> edge g x y -> color vis y = 2) /\
  (forall x, color vis x = 2 -> ~ tc (edge g) x x).

Definition white (vis : gmap Z Z) : gset Z := filter (fun x => color vis x = 0) (nodes g).

Lemma color_insert vis k c x :
  color (<[k := c]> vis) x = if decide (k = x) then c else color vis x.
Proof. unfold color. rewrite lookup_insert. by case_decide. Qed.

Lemma done_closed vis x y :
  search_inv vis -> color vis x = 2 -> rtc (edge g) x y -> color vis y = 2.
Proof. intros (_ & Hc & _) Hx Hr. induction Hr; eauto. Qed.

(** What a search from [node] leaves: unchanged in-progress nodes, at least
    the done nodes of before, and [node] done. *)
Definition extends (vis vis' : gmap Z Z) : Prop :=
  (forall x, color vis' x = 1 <-> color vis x = 1) /\
  (forall x, color vis x = 2 -> color vis' x = 2).

Lemma extends_refl vis : extends vis vis.
Proof. split; auto. Qed.

Lemma extends_trans v1 v2 v3 : extends v1 v2 -> extends v2 v3 -> extends v1 v3.
Proof. unfold extends. intros [A B] [C D]. split; [|auto]. intros x. by rewrite C, A. Qed.

Lemma white_extends vis vis' : search_inv vis -> extends vis vis' -> white vis' ⊆ white vis.
Proof.
  intros (Hc & _) [H1 H2] x. unfold white. rewrite !elem_of_filter. intros [Hx Hn].
  split; [|done]. destruct (Hc x) as [|[E|E]]; [done|..].
  - apply H1 in E. lia.
  - apply H2 in E. lia.
Qed.

Lemma white_mark vis node :
  node ∈ nodes g -> color vis node = 0 -> S (size (white (<[node := 1]> vis))) = size (white vis).
Proof.
  intros Hn Hw.
  assert (white vis = {[node]} ∪ white (<[node := 1]> vis)) as ->.
  { apply set_eq. intros x. unfold white.
    rewrite elem_of_union, elem_of_singleton, !elem_of_filter, color_insert.
    case_decide; subst; naive_solver. }
  rewrite size_union, size_singleton; [done|].
  unfold white. intros x Hx%elem_of_singleton. rewrite elem_of_filter, color_insert, Hx.
  rewrite decide_True by done. lia.
Qed.

Definition dfs_post (vis : gmap Z Z) (node : Z) (r : option (gmap Z Z * bool)) : Prop :=
  exists vis' b, r = Some (vis', b) /\
  if b then cyclic g else search_inv vis' /\ extends vis vis' /\ color vis' node = 2.

(** Marking [node] done after all its dependencies. *)
Lemma finish_node vis vis0 node :
  search_inv vis -> color vis0 node = 0 ->
  extends (<[node := 1]> vis0) vis ->
  (forall y, edge g node y -> color vis y = 2) ->
  search_inv (<[node := 2]> vis) /\ extends vis0 (<[node := 2]> vis).
Proof.
  intros Hinv Hw [He1 He2] Hdeps.
  assert (color vis node = 1) as Hnode by (apply He1; by rewrite color_insert, decide_True).
  pose proof Hinv as (Hc & Hcl & Hac). split; [split_and!|split].
  - intros x. rewrite color_insert. case_decide; auto.
  - intros x y. rewrite !color_insert. repeat case_decide; subst; eauto.
  - intros x. rewrite color_insert. case_decide; [subst x|auto]. intros _ Hcyc.
    inversion Hcyc as [? ? He|? y ? He Ht]; subst.
    + specialize (Hdeps node He). lia.
    + specialize (Hdeps y He). apply tc_rtc in Ht.
      pose proof (done_closed vis y node Hinv Hdeps Ht). lia.
  - intros x. rewrite color_insert. case_decide; subst; [lia|].
    rewrite He1, color_insert, decide_False by done. done.
  - intros x Hx. rewrite color_insert. case_decide; [done|].
    apply He2. by rewrite color_insert, decide_False.
Qed.

(** [rec] searches correctly from any unvisited node while fewer than
    [bound] nodes are unvisited. *)
Definition rec_ok (bound : nat) (rec : gmap Z Z -> Z -> option (gmap Z Z * bool)) : Prop :=
  forall vis node, search_inv vis -> color vis node = 0 -> node ∈ nodes g ->
    (forall x, color vis x = 1 -> tc (edge g) x node) ->
    (size (white vis) <= bound)%nat -> dfs_post vis node (rec vis node).

Lemma mark_inv vis node : search_inv vis -> color vis node = 0 -> search_inv (<[node := 1]> vis).
Proof.
  intros (Hc & Hcl & Hac) Hw. split_and!.
  - intros x. rewrite color_insert. case_decide; auto.
  - intros x y. rewrite !color_insert. case_decide; [lia|].
    intros Hx He. case_decide; [subst|eauto]. specialize (Hcl x y Hx He). lia.
  - intros x. rewrite color_insert. case_decide; [lia|auto].
Qed.

(** While the loop of [node] runs, strictly fewer nodes are unvisited than
    before [node] was marked. *)
Lemma white_loop vis vis0 node :
  search_inv vis0 -> color vis0 node = 0 -> node ∈ nodes g ->
  extends (<[node := 1]> vis0) vis -> (S (size (white vis)) <= size (white vis0))%nat.
Proof.
  intros Hinv Hw Hn He. rewrite <- (white_mark vis0 node) by done.
  apply le_n_S, subseteq_size, white_extends; [by apply mark_inv|done].
Qed.

Lemma dfs_loop_correct rec bound vis0 node deps vis :
  rec_ok bound rec -> search_inv vis0 -> color vis0 node = 0 -> node ∈ nodes g ->
  (forall x, color vis0 x = 1 -> tc (edge g) x node) ->
  (size (white vis0) <= S bound)%nat ->
  (forall y, edge g node y -> y ∈ deps \/ color vis y = 2) ->
  (forall y, y ∈ deps -> edge g node y) ->
  search_inv vis -> extends (<[node := 1]> vis0) vis ->
  dfs_post vis0 node (dfs_loop rec node deps vis).
Proof.
  intros Hrec Hinv Hw Hn Hgray Hb. revert vis.
  induction deps as [|dep rest IHr]; intros vis Hdone Hdeps Hi He; simpl.
  { destruct (finish_node vis vis0 node Hi Hw He) as [? ?].
    { intros y Hy. destruct (Hdone y Hy); [set_solver|done]. }
    exists (<[node := 2]> vis), false. split_and!; [done..|].
    by rewrite color_insert, decide_True. }
  assert (edge g node dep) as Hedge by (apply Hdeps; set_solver).
  assert (forall x, color vis x = 1 -> tc (edge g) x dep) as Hgray'.
  { intros x Hx. apply He in Hx. rewrite color_insert in Hx. case_decide; subst.
    - by apply tc_once.
    - eapply tc_r; [by apply Hgray|done]. }
  assert (forall y, y ∈ rest -> edge g node y) by (intros; apply Hdeps; set_solver).
  destruct (Z.eqb_spec (color vis dep) 1) as [E1|E1].
  { exists vis, true. split; [done|]. exists dep. auto. }
  destruct (Z.eqb_spec (color vis dep) 0) as [E0|E0].
  - destruct (Hrec vis dep) as (vis' & b & -> & Hr); [done|done| |done| |].
    { by apply (edge_nodes g node dep). }
    { pose proof (white_loop vis vis0 node Hinv Hw Hn He). lia. }
    destruct b; [by exists vis', true|]. destruct Hr as (Hi' & He' & Hd).
    apply IHr; [|done|done|by eapply extends_trans].
    intros y Hy. destruct (Hdone y Hy) as [Hy'|Hy']; [|right; by apply He'].
    apply elem_of_cons in Hy' as [->|]; auto.
  - apply IHr; [|done|done|done].
    intros y Hy. destruct (Hdone y Hy) as [Hy'|]; [|auto].
    apply elem_of_cons in Hy' as [->|]; [|auto]. right.
    destruct Hi as (Hc & _). destruct (Hc dep) as [|[|]]; done.
Qed.

Lemma dfs_correct fuel : rec_ok fuel (dfs fuel g).
Proof.
  induction fuel as [|n IH]; intros vis node Hinv Hw Hn Hgray Hf.
  { pose proof (white_mark vis node Hn Hw). lia. }
  apply (dfs_loop_correct _ n); [done..|by left|done|by apply mark_inv|apply extends_refl].
Qed.

Lemma detect_from_correct fuel order vis :
  search_inv vis -> (forall x, color vis x <> 1) ->
  (forall x, x ∈ order -> x ∈ nodes g) -> (size (nodes g) <= fuel)%nat ->
  (forall x, x ∈ dom g -> x ∈ order \/ color vis x = 2) ->
  exists b, detect_from fuel g order vis = Some b /\ (b = true <-> cyclic g).
Proof.
  revert vis. induction order as [|node rest IH]; intros vis Hi Hng Hord Hf Hall; simpl.
  { exists false. split; [done|]. split; [done|]. intros [x Hx]. exfalso.
    destruct Hi as (_ & _ & Hac). apply (Hac x); [|done].
    assert (x ∈ dom g) as Hd.
    { inversion Hx; subst; by eapply edge_nodes. }
    destruct (Hall x Hd); [set_solver|done]. }
  destruct (Z.eqb_spec (color vis node) 0) as [E|E].
  - destruct (dfs_correct fuel vis node) as (vis' & b & -> & Hr); [done|done| | | |].
    { apply Hord; set_solver. }
    { intros x Hx. by destruct (Hng x). }
    { etrans; [|exact Hf]. apply subseteq_size. intros x. unfold white.
      rewrite elem_of_filter. tauto. }
    destruct b; [by exists true|]. destruct Hr as (Hi' & [He1 He2] & Hd). apply IH; [done| | |done|].
    + intros x Hx. apply He1 in Hx. by destruct (Hng x).
    + intros x Hx. apply Hord. set_solver.
    + intros x Hx. destruct (Hall x Hx) as [Hx'|]; [|auto].
      apply elem_of_cons in Hx' as [->|]; auto.
  - apply IH; [done|done| |done|].
    + intros x Hx. apply Hord. set_solver.
    + intros x Hx. destruct (Hall x Hx) as [Hx'|]; [|auto].
      apply elem_of_cons in Hx' as [->|]; [|auto]. right.
      destruct Hi as (Hc & _). destruct (Hc node) as [|[Hk|]]; [done|by destruct (Hng node)|done].
Qed.
End Dfs.

(** ** Properties *)

(** C21. [DetectCycle] always answers, and answers [true] exactly when some task
    transitively depends on itself, whatever the order in which Go ranges over
    the keys of the map. *)
Theorem DetectCycle_correct g order :
  order ≡ₚ (map_to_list g).*1 ->
  exists b, DetectCycle order g = Some b /\ (b = true <-> cyclic g).
Proof.
  intros Hperm. assert (forall x, x ∈ order <-> x ∈ dom g) as Hord.
  { intros x. rewrite Hperm, list_elem_of_fmap, elem_of_dom. split.
    - intros ([k l] & -> & Hk). apply elem_of_map_to_list in Hk. eauto.
    - intros [l Hl]. exists (x, l). split; [done|]. by apply elem_of_map_to_list. }
  apply detect_from_correct.
  - unfold search_inv. setoid_rewrite color_empty. split_and!; [auto|lia|lia].
  - intros x. rewrite color_empty. lia.
  - intros x Hx%Hord. unfold nodes. set_solver.
  - lia.
  - intros x Hx. left. by apply Hord.
Qed.

Lemma DetectCycle_correct_witness :
  let g := Graph [mkTaskDependency 1 2; mkTaskDependency 2 3; mkTaskDependency 3 1] in
  exists b, DetectCycle [3; 1; 2] g = Some b /\ (b = true <-> cyclic g).
Proof.
  apply DetectCycle_correct.
  rewrite <- (bool_decide_eq_true ([3; 1; 2] ≡ₚ _)). vm_compute. reflexivity.
Defined.

(** [Graph] has exactly the given edges: [x] depends on [y] in the adjacency
    lists iff the edge [(x, y)] is in the input. *)
Theorem Graph_edges edges x y :
  edge (Graph edges) x y <-> mkTaskDependency x y ∈ edges.
Proof.
  unfold Graph. rewrite Graph_fold_edge. unfold edge at 1, deps_of.
  rewrite lookup_empty. set_solver.
Qed.

(** [AllDependenciesSatisfied] holds iff every dependency of the task is
    recorded as successful. *)
Theorem AllDependenciesSatisfied_spec g taskID succ :
  AllDependenciesSatisfied g taskID succ = true <->
  forall dep, edge g taskID dep -> succ !! dep = Some true.
Proof.
  unfold AllDependenciesSatisfied, edge. case_bool_decide as E; [rewrite E; set_solver|].
  rewrite forallb_forall. setoid_rewrite <- list_elem_of_In.
  split; intros H dep Hd; specialize (H dep Hd); destruct (succ !! dep) as [[]|]; naive_solver.
Qed.
