(* ===== verification/Engine.v ===== *)
(** internal/scheduler/engine: the timing wheel, the trigger heap (with
    [container/heap]'s [Push]) and the hybrid engine that owns both. *)
From S2P Require Import Prelude GoStd GoTime Model.

(** * Timing wheel *)
Module Wheel.

Definition defaultTickDuration : Duration := 100 * Millisecond.
Definition defaultWheelSize : Z := 600.

(** [TimingWheel]; a slot is the key set of its map. *)
Record TimingWheel := mkWheel {
  slots : list (gset Z);
  tickDuration : Duration;
  wheelSize : Z;
  currentPos : Z
}.

Definition NewTimingWheel (tickDur : Duration) (size : Z) : TimingWheel :=
  let tickDur := if tickDur <=? 0 then defaultTickDuration else tickDur in
  let size := if size <=? 0 then defaultWheelSize else size in
  mkWheel (replicate (Z.to_nat size) ∅) tickDur size 0.

Definition set_slots (s : list (gset Z)) (tw : TimingWheel) : TimingWheel :=
  mkWheel s (tickDuration tw) (wheelSize tw) (currentPos tw).

(** The slot index [Add] computes: negative for a trigger time before 1970. *)
Definition slot_index (tw : TimingWheel) (triggerTime : Time) : Z :=
  go_mod (go_div (UnixNano triggerTime) (tickDuration tw)) (wheelSize tw).

(** [None] is the index-out-of-range panic of [tw.slots[pos]]. *)
Definition Add (tw : TimingWheel) (taskID : Z) (triggerTime : Time) : option TimingWheel :=
  let pos := slot_index tw triggerTime in
  if pos <? 0 then None
  else cur ← slots tw !! Z.to_nat pos;
       Some (set_slots (<[Z.to_nat pos := {[taskID]} ∪ cur]> (slots tw)) tw).

Definition Remove (tw : TimingWheel) (taskID : Z) : TimingWheel :=
  set_slots ((fun s => s ∖ {[taskID]}) <$> slots tw) tw.

(** Advances the wheel and empties the slot it arrives at; the ids come out in
    map iteration order, here the order of [elements]. *)
Definition Tick (tw : TimingWheel) : TimingWheel * list Z :=
  let pos := go_mod (currentPos tw + 1) (wheelSize tw) in
  let cur := default ∅ (slots tw !! Z.to_nat pos) in
  (mkWheel (<[Z.to_nat pos := ∅]> (slots tw)) (tickDuration tw) (wheelSize tw) pos, elements cur).

Definition SlotSpan (tw : TimingWheel) : Duration := wrap64 (tickDuration tw * wheelSize tw).

(** The outputs of [n] consecutive ticks. *)
Fixpoint ticks (n : nat) (tw : TimingWheel) : TimingWheel * list (list Z) :=
  match n with
  | O => (tw, [])
  | S n' => let '(tw1, out) := Tick tw in
            let '(tw2, outs) := ticks n' tw1 in (tw2, out :: outs)
  end.

(** ** Invariant *)

Definition wheel_wf (tw : TimingWheel) : Prop :=
  0 < wheelSize tw /\ Z.of_nat (length (slots tw)) = wheelSize tw /\
  0 <= currentPos tw < wheelSize tw /\ 0 < tickDuration tw.

Lemma New_wf d n : wheel_wf (NewTimingWheel d n).
Proof.
  unfold wheel_wf, NewTimingWheel. simpl. rewrite length_replicate.
  destruct (Z.leb_spec d 0), (Z.leb_spec n 0);
    unfold defaultWheelSize, defaultTickDuration, Millisecond; lia.
Qed.

Lemma Add_wf tw id t tw' : wheel_wf tw -> Add tw id t = Some tw' -> wheel_wf tw'.
Proof.
  unfold Add, wheel_wf. intros Hwf. destruct (_ <? 0); [done|].
  intros (cur & Hc & Heq)%bind_Some. simplify_eq. simpl. by rewrite length_insert.
Qed.

Lemma Remove_wf tw id : wheel_wf tw -> wheel_wf (Remove tw id).
Proof. unfold Remove, wheel_wf. simpl. by rewrite length_fmap. Qed.

Lemma next_pos tw : wheel_wf tw -> go_mod (currentPos tw + 1) (wheelSize tw) =
  (currentPos tw + 1) mod wheelSize tw.
Proof. intros (? & ? & ? & ?). apply Z.rem_mod_nonneg; lia. Qed.

Lemma Tick_wf tw : wheel_wf tw -> wheel_wf (Tick tw).1.
Proof.
  intros Hwf. unfold Tick, wheel_wf. simpl. rewrite next_pos by done.
  destruct Hwf as (? & ? & ? & ?). rewrite length_insert.
  pose proof (Z.mod_pos_bound (currentPos tw + 1) (wheelSize tw)). lia.
Qed.

(** The slot a position holds. *)
Definition slot_at (tw : TimingWheel) (pos : Z) : gset Z := default ∅ (slots tw !! Z.to_nat pos).

Lemma Tick_out tw : wheel_wf tw ->
  (Tick tw).2 = elements (slot_at tw ((currentPos tw + 1) mod wheelSize tw)).
Proof. intros Hwf. unfold Tick, slot_at. simpl. by rewrite next_pos. Qed.

Lemma Tick_slot tw pos : wheel_wf tw -> 0 <= pos < wheelSize tw ->
  slot_at (Tick tw).1 pos =
  if decide (pos = (currentPos tw + 1) mod wheelSize tw) then ∅ else slot_at tw pos.
Proof.
  intros Hwf Hpos. unfold Tick, slot_at. simpl. rewrite next_pos by done.
  destruct Hwf as (? & Hlen & ? & ?).
  pose proof (Z.mod_pos_bound (currentPos tw + 1) (wheelSize tw) ltac:(lia)).
  case_decide; subst.
  - rewrite list_lookup_insert_eq by lia. done.
  - rewrite list_lookup_insert_ne by lia. done.
Qed.

Lemma New_slot d n pos : slot_at (NewTimingWheel d n) pos = ∅.
Proof.
  unfold slot_at, NewTimingWheel. cbn [slots].
  destruct (_ !! _) eqn:E; [|done]. by apply lookup_replicate in E as [-> _].
Qed.

(** [k] ticks ahead of the current position. *)
Definition ahead (tw : TimingWheel) (k : Z) : Z := (currentPos tw + k) mod wheelSize tw.

Lemma ahead_Tick tw k : wheel_wf tw -> ahead (Tick tw).1 k = ahead tw (k + 1).
Proof.
  intros Hwf. unfold ahead. simpl. rewrite next_pos by done.
  destruct Hwf as (? & _). rewrite Z.add_mod_idemp_l by lia. f_equal. lia.
Qed.

Lemma ahead_range tw k : wheel_wf tw -> 0 <= ahead tw k < wheelSize tw.
Proof. intros (? & _). apply Z.mod_pos_bound. lia. Qed.

Lemma ahead_inj tw j k : wheel_wf tw -> ahead tw j = ahead tw k ->
  1 <= j <= wheelSize tw -> 1 <= k <= wheelSize tw -> j = k.
Proof.
  unfold ahead. intros (? & _ & ? & _) Heq Hj Hk.
  assert ((j - k) mod wheelSize tw = 0) as Hmod.
  { replace (j - k) with ((currentPos tw + j) - (currentPos tw + k)) by lia.
    rewrite Zminus_mod, Heq, Z.sub_diag. by apply Z.mod_0_l; lia. }
  apply Z.mod_divide in Hmod as [q Hq]; [|lia].
  destruct (decide (q = 0)); [lia|nia].
Qed.

(** The ids a wheel puts out within one turn: those of the slot [k] ahead. *)
Lemma ticks_out n tw k : wheel_wf tw -> 1 <= k <= Z.of_nat n -> Z.of_nat n <= wheelSize tw ->
  (ticks n tw).2 !! Z.to_nat (k - 1) = Some (elements (slot_at tw (ahead tw k))).
Proof.
  revert tw k. induction n as [|n IH]; intros tw k Hwf Hk Hn; [lia|].
  cbn [ticks]. pose proof (Tick_out tw Hwf) as Hout.
  pose proof (ahead_Tick tw (k - 1) Hwf) as Ha. pose proof (Tick_wf tw Hwf) as Hwf'.
  pose proof (Tick_slot tw (ahead tw k) Hwf (ahead_range tw k Hwf)) as Hs.
  destruct (Tick tw) as [tw1 out] eqn:Ht. simpl in *.
  assert (wheelSize tw1 = wheelSize tw) as Hsz by (unfold Tick in Ht; by simplify_eq).
  pose proof (IH tw1) as IH1. destruct (ticks n tw1) as [tw2 outs]. simpl in *.
  destruct (decide (k = 1)) as [->|].
  { simpl. by rewrite Hout. }
  replace (Z.to_nat (k - 1)) with (S (Z.to_nat (k - 1 - 1))) by lia. simpl.
  rewrite IH1 by (done || lia). rewrite Ha.
  replace (k - 1 + 1) with k by lia. rewrite Hs, decide_False; [done|].
  intros Heq. apply (ahead_inj tw k 1) in Heq; [lia|done|lia|lia].
Qed.

Lemma Add_slot tw id t tw' : wheel_wf tw -> Add tw id t = Some tw' ->
  0 <= slot_index tw t < wheelSize tw /\
  forall pos, 0 <= pos < wheelSize tw -> slot_at tw' pos =
    if decide (pos = slot_index tw t) then {[id]} ∪ slot_at tw pos else slot_at tw pos.
Proof.
  unfold Add. intros (? & Hlen & _). destruct (Z.ltb_spec (slot_index tw t) 0); [done|].
  intros (cur & Hc & Heq)%bind_Some. simplify_eq.
  pose proof (lookup_lt_Some _ _ _ Hc). split; [lia|].
  intros pos Hpos. unfold slot_at. simpl. case_decide; subst.
  - rewrite list_lookup_insert_eq by lia. by rewrite Hc.
  - rewrite list_lookup_insert_ne by lia. done.
Qed.

Lemma Add_nonneg tw id t : wheel_wf tw -> 0 <= t < 2 ^ 63 -> is_Some (Add tw id t).
Proof.
  intros (? & Hlen & _ & ?) Ht. unfold Add.
  assert (0 <= slot_index tw t < wheelSize tw) as Hr.
  { unfold slot_index, go_mod, go_div, UnixNano. rewrite wrap64_id by (unfold int64; lia).
    apply Z.rem_bound_pos; [apply Z.quot_pos; lia|lia]. }
  destruct (Z.ltb_spec (slot_index tw t) 0); [lia|].
  destruct (slots tw !! Z.to_nat (slot_index tw t)) eqn:E; [by eexists|].
  apply lookup_ge_None in E. lia.
Qed.

Lemma slot_index_div tw t : wheel_wf tw -> 0 <= t < 2 ^ 63 -> slot_index tw t = (t / tickDuration tw) mod wheelSize tw.
Proof.
  intros (? & _ & _ & ?) Ht. unfold slot_index, go_mod, go_div, UnixNano. rewrite wrap64_id by (unfold int64; lia).
  rewrite Z.quot_div_nonneg by lia. apply Z.rem_mod_nonneg; [apply Z.div_pos|]; lia.
Qed.

End Wheel.

(** * Trigger heap *)
Module Heap.

Record heapItem := mkItem { TaskID : Z; TriggerTime : Time }.

#[export] Instance heapItem_eq_dec : EqDecision heapItem.
Proof. solve_decision. Defined.

(** [taskHeap] *)
Abbreviation taskHeap := (list heapItem).

Definition time_at (h : taskHeap) (i : nat) : Time :=
  match h !! i with Some x => TriggerTime x | None => 0 end.

(** [Less]: only called with indices in range. *)
Definition Less (h : taskHeap) (i j : nat) : bool := Before (time_at h i) (time_at h j).

Definition Swap (h : taskHeap) (i j : nat) : taskHeap :=
  match h !! i, h !! j with
  | Some x, Some y => <[i := y]> (<[j := x]> h)
  | _, _ => h
  end.

Definition parent (j : nat) : nat := ((j - 1) / 2)%nat.

(** [container/heap]'s sift-up; the index halves, so [j] steps are enough. *)
Fixpoint up (fuel : nat) (h : taskHeap) (j : nat) : taskHeap :=
  match fuel with
  | O => h
  | S n =>
      let i := parent j in
      if (i =? j)%nat || negb (Less h j i) then h else up n (Swap h i j) i
  end.

(** [heap.Push(h, x)]: the interface's [Push] appends, then sift up. *)
Definition Push (h : taskHeap) (x : heapItem) : taskHeap :=
  up (S (length h)) (h ++ [x]) (length h).

Definition Peek (h : taskHeap) : option heapItem := h !! 0%nat.

(** [Pop] of the [heap.Interface]: removes the last element of the slice. *)
Definition Pop (h : taskHeap) : option (heapItem * taskHeap) :=
  x ← last h; Some (x, take (length h - 1) h).

(** [PopUntil] filters in place: [remaining] is a prefix of the slice being
    ranged over, so the write index [w] chases the read index [r] in the same
    backing array [arr]. *)
Fixpoint pop_loop (todo : nat) (arr : taskHeap) (cutoff : Time) (r w : nat)
    (result : list heapItem) : taskHeap * nat * list heapItem :=
  match todo with
  | O => (arr, w, result)
  | S n =>
      match arr !! r with
      | None => (arr, w, result)
      | Some item =>
          if After (TriggerTime item) cutoff
          then pop_loop n (<[w := item]> arr) cutoff (S r) (S w) result
          else pop_loop n arr cutoff (S r) w (result ++ [item])
      end
  end.

Definition PopUntil (h : taskHeap) (cutoff : Time) : taskHeap * list heapItem :=
  let '(arr, w, result) := pop_loop (length h) h cutoff 0 0 [] in (take w arr, result).

(** ** The in-place filter *)

Lemma pop_loop_spec todo arr cutoff r w result :
  (w <= r)%nat -> (r + todo)%nat = length arr ->
  exists arr' w' result',
    pop_loop todo arr cutoff r w result = (arr', w', result') /\
    take w' arr' = take w arr ++ filter (fun x => cutoff < TriggerTime x) (drop r arr) /\
    result' = result ++ filter (fun x => TriggerTime x <= cutoff) (drop r arr).
Proof.
  revert arr r w result. induction todo as [|n IH]; intros arr r w result Hw Hlen; simpl.
  { exists arr, w, result. rewrite drop_ge by lia. by rewrite !app_nil_r. }
  destruct (arr !! r) as [item|] eqn:Hr; [|apply lookup_ge_None in Hr; lia].
  rewrite (drop_S arr item r) by done. rewrite !filter_cons.
  unfold After. destruct (Z.ltb_spec cutoff (TriggerTime item)).
  - destruct (IH (<[w := item]> arr) (S r) (S w) result) as (a & w' & out & -> & Ht & ->);
      [lia|by rewrite length_insert; lia|].
    eexists a, w', _. split; [done|].
    rewrite (drop_insert_lt _ (S r) w) in * by lia.
    rewrite decide_True, decide_False by lia. split; [|done].
    rewrite Ht, (take_S_r _ w item) by (apply list_lookup_insert_eq; lia).
    rewrite take_insert_ge by lia. by rewrite <- app_assoc.
  - destruct (IH arr (S r) w (result ++ [item])) as (a & w' & out & -> & Ht & ->); [lia|lia|].
    eexists a, w', _. split; [done|]. rewrite decide_False, decide_True by lia.
    split; [done|]. by rewrite <- app_assoc.
Qed.

(** ** The heap order *)

(** Every element but the first is at or after its parent. *)
Definition heap_ordered (h : taskHeap) : Prop :=
  forall i, (0 < i < length h)%nat -> time_at h (parent i) <= time_at h i.

Lemma parent_lt j : (0 < j)%nat -> (parent j < j)%nat.
Proof. intros. unfold parent. apply Nat.Div0.div_lt_upper_bound. lia. Qed.

Lemma heap_root_min h i : heap_ordered h -> (i < length h)%nat -> time_at h 0 <= time_at h i.
Proof.
  intros Hh. induction i as [i IH] using (well_founded_induction lt_wf). intros Hi.
  destruct i as [|i]; [lia|]. etrans; [|apply Hh; lia].
  pose proof (parent_lt (S i)). apply IH; lia.
Qed.

Lemma Swap_perm h i j : Swap h i j ≡ₚ h.
Proof.
  unfold Swap. destruct (h !! i) as [x|] eqn:Hi; [|done].
  destruct (h !! j) as [y|] eqn:Hj; [|done]. by apply Permutation_insert_swap.
Qed.

Lemma up_perm fuel h j : up fuel h j ≡ₚ h.
Proof.
  revert h j. induction fuel as [|n IH]; intros h j; simpl; [done|].
  destruct (_ || _); [done|]. by rewrite IH, Swap_perm.
Qed.

Lemma time_at_Swap h i j k : (i < length h)%nat -> (j < length h)%nat ->
  time_at (Swap h i j) k =
  if decide (k = i) then time_at h j else if decide (k = j) then time_at h i else time_at h k.
Proof.
  intros [x Hx]%lookup_lt_is_Some [y Hy]%lookup_lt_is_Some.
  unfold Swap, time_at. rewrite Hx, Hy.
  pose proof (lookup_lt_Some _ _ _ Hx). pose proof (lookup_lt_Some _ _ _ Hy).
  repeat case_decide; subst.
  - by rewrite list_lookup_insert_eq by (rewrite length_insert; done).
  - by rewrite list_lookup_insert_ne, list_lookup_insert_eq by done.
  - by rewrite !list_lookup_insert_ne by done.
Qed.

(** Heap order everywhere but between [j] and its parent. *)
Definition almost_ordered (h : taskHeap) (j : nat) : Prop :=
  (forall i, (0 < i < length h)%nat -> i <> j -> time_at h (parent i) <= time_at h i) /\
  (forall c, (0 < c < length h)%nat -> (0 < j)%nat -> parent c = j ->
     time_at h (parent j) <= time_at h c).

Lemma up_ordered fuel h j :
  (j < length h)%nat -> (j < fuel)%nat -> almost_ordered h j -> heap_ordered (up fuel h j).
Proof.
  revert h j. induction fuel as [|n IH]; intros h j Hj Hf [H1 H2]; simpl; [lia|].
  destruct (Nat.eqb_spec (parent j) j) as [E|E]; simpl.
  { intros i Hi. apply H1; [done|]. intros ->. pose proof (parent_lt j). lia. }
  assert (0 < j)%nat as Hpos by (destruct j; [done|lia]).
  pose proof (parent_lt j Hpos) as Hp.
  unfold Less, Before. destruct (Z.ltb_spec (time_at h j) (time_at h (parent j))) as [Hlt|Hge]; simpl.
  2: { intros i Hi. destruct (decide (i = j)) as [->|]; auto. }
  assert (length (Swap h (parent j) j) = length h) as Hlen
    by (apply Permutation_length, Swap_perm).
  apply IH; [lia|lia|]. split; rewrite Hlen.
  - intros i Hi Hne. pose proof (parent_lt i). rewrite !time_at_Swap by lia.
    rewrite (decide_False (P := i = parent j)) by done.
    destruct (decide (i = j)) as [->|Hij].
    { rewrite decide_True by done. lia. }
    specialize (H1 i Hi Hij). destruct (decide (parent i = parent j)) as [Hpp|]; [rewrite Hpp in H1; lia|].
    destruct (decide (parent i = j)) as [Hpi|]; [by apply H2|done].
  - intros c Hc Hpp Hpar. rewrite !time_at_Swap by lia.
    pose proof (H1 c Hc). pose proof (parent_lt c). pose proof (parent_lt (parent j) Hpp).
    pose proof (H1 (parent j) ltac:(lia) ltac:(lia)).
    rewrite Hpar in *. repeat case_decide; subst; try lia.
Qed.

Lemma Push_ordered h x : heap_ordered h -> heap_ordered (Push h x).
Proof.
  intros Hh. unfold Push. assert (length (h ++ [x]) = S (length h)) as Hl
    by (rewrite length_app; simpl; lia).
  assert (forall i, (i < length h)%nat -> time_at (h ++ [x]) i = time_at h i) as Ht.
  { intros i Hi. unfold time_at. by rewrite lookup_app_l. }
  apply up_ordered; [lia|lia|]. split; rewrite Hl.
  - intros i Hi Hne. pose proof (parent_lt i). rewrite !Ht by lia. apply Hh. lia.
  - intros c Hc Hj Hpar. pose proof (parent_lt c). lia.
Qed.

Lemma Push_perm h x : Push h x ≡ₚ x :: h.
Proof. unfold Push. rewrite up_perm. by rewrite Permutation_app_comm. Qed.

End Heap.

(** * The hybrid engine *)
Module Hybrid.

Record Engine := mkEngine { wheel : Wheel.TimingWheel; heap : Heap.taskHeap }.

Definition New : Engine := mkEngine (Wheel.NewTimingWheel (100 * Millisecond) 600) [].

(** [None] propagates the wheel's index panic. *)
Definition AddToWheel (e : Engine) (taskID : Z) (triggerTime : Time) : option Engine :=
  tw ← Wheel.Add (wheel e) taskID triggerTime; Some (mkEngine tw (heap e)).

Definition RemoveFromWheel (e : Engine) (taskID : Z) : Engine :=
  mkEngine (Wheel.Remove (wheel e) taskID) (heap e).

Definition AddToHeap (e : Engine) (taskID : Z) (triggerTime : Time) : Engine :=
  mkEngine (wheel e) (Heap.Push (heap e) (Heap.mkItem taskID triggerTime)).

(** The ids passed to [OnTrigger], in order. *)
Definition processWheelTick (e : Engine) : Engine * list Z :=
  let '(tw, ids) := Wheel.Tick (wheel e) in (mkEngine tw (heap e), ids).

Definition processHeapTick (e : Engine) (now : Time) : Engine * list Z :=
  let '(h, items) := Heap.PopUntil (heap e) now in
  (mkEngine (wheel e) h, Heap.TaskID <$> items).

(** One iteration of the [select] loop of [Start]. *)
Inductive tick := WheelTick | HeapTick (now : Time).
Definition step (e : Engine) (t : tick) : Engine * list Z :=
  match t with WheelTick => processWheelTick e | HeapTick now => processHeapTick e now end.

Fixpoint warm_wheel (e : Engine) (cutoff : Time) (tasks : list Task) : option Engine :=
  match tasks with
  | [] => Some e
  | t :: ts =>
      if Before (task_NextTriggerTime t) cutoff
      then e' ← AddToWheel e (task_ID t) (task_NextTriggerTime t); warm_wheel e' cutoff ts
      else warm_wheel e cutoff ts
  end.

Definition warm_heap (e : Engine) (cutoff : Time) (insts : list TaskInstance) : Engine :=
  foldl (fun e inst =>
    if negb (IsZero (inst_NextRetryTime inst)) && Before (inst_NextRetryTime inst) cutoff
    then AddToHeap e (inst_TaskID inst) (inst_NextRetryTime inst) else e) e insts.

(** [Warm]: [tasks] is what [ListDueTasks(500)] answers and [retries cutoff]
    what [ListDueRetryInstances(cutoff, 500)] answers. *)
Definition Warm (e : Engine) (now : Time) (tasks : result (list Task))
    (retries : Time -> result (list TaskInstance)) : option (Engine * option gerror) :=
  let cutoff := now + Wheel.SlotSpan (wheel e) in
  match tasks with
  | Err err => Some (e, Some err)
  | Ok ts =>
      e1 ← warm_wheel e cutoff ts;
      match retries cutoff with
      | Err _ => Some (e1, None)
      | Ok insts => Some (warm_heap e1 cutoff insts, None)
      end
  end.

(** [n] rounds of [WarmPeriodically] while the repositories answer the same. *)
Fixpoint warm_times (n : nat) (e : Engine) (now : Time) (tasks : result (list Task))
    (retries : Time -> result (list TaskInstance)) : option Engine :=
  match n with
  | O => Some e
  | S n' => p ← Warm e now tasks retries; warm_times n' p.1 now tasks retries
  end.

(** ** Lemmas *)

Lemma warm_wheel_heap e cutoff ts e' : warm_wheel e cutoff ts = Some e' -> heap e' = heap e.
Proof.
  revert e. induction ts as [|t ts IH]; intros e; simpl; [by intros [= ->]|].
  destruct (Before _ _); [|by apply IH].
  intros (e1 & H1 & H2)%bind_Some. rewrite (IH _ H2).
  unfold AddToWheel in H1. apply bind_Some in H1 as (tw & _ & [= <-]). done.
Qed.

(** The retries [Warm] pushes. *)
Definition due_items (cutoff : Time) (insts : list TaskInstance) : list Heap.heapItem :=
  (fun inst => Heap.mkItem (inst_TaskID inst) (inst_NextRetryTime inst)) <$>
  filter (fun inst => inst_NextRetryTime inst <> zero_time /\ inst_NextRetryTime inst < cutoff) insts.

Lemma due_cond t cutoff :
  negb (IsZero t) && Before t cutoff = bool_decide (t <> zero_time /\ t < cutoff).
Proof.
  unfold IsZero, Before. symmetry.
  destruct (Z.eqb_spec t zero_time), (Z.ltb_spec t cutoff); simpl;
    (apply bool_decide_eq_true_2 || apply bool_decide_eq_false_2); lia.
Qed.

Lemma warm_heap_perm e cutoff insts :
  wheel (warm_heap e cutoff insts) = wheel e /\
  heap (warm_heap e cutoff insts) ≡ₚ due_items cutoff insts ++ heap e.
Proof.
  revert e. unfold warm_heap, due_items.
  induction insts as [|i insts IH]; intros e; [done|]. cbn [foldl]. rewrite filter_cons.
  rewrite (due_cond (inst_NextRetryTime i)). case_bool_decide as Hd.
  - rewrite decide_True by done. destruct (IH (AddToHeap e (inst_TaskID i) (inst_NextRetryTime i)))
      as [-> ->]. simpl. split; [done|]. rewrite Heap.Push_perm. by rewrite <- Permutation_middle.
  - rewrite decide_False by done. apply IH.
Qed.

Lemma warm_heap_ordered e cutoff insts :
  Heap.heap_ordered (heap e) -> Heap.heap_ordered (heap (warm_heap e cutoff insts)).
Proof.
  unfold warm_heap. revert e. induction insts as [|i insts IH]; intros e He; [done|].
  cbn [foldl]. apply IH. destruct (_ && _); [|done]. by apply Heap.Push_ordered.
Qed.

End Hybrid.

(** * Properties *)

(** C36. A task added to the wheel (and not in it before), for a time in the years 1970 to
    2262, comes out of exactly one of the next [wheelSize] ticks, the one that brings the
    wheel to the slot of its trigger time; every other task comes out when it would have
    without it. Where the wheel stands at the slot of the present time and the trigger
    time is within a turn, this is the tick of the trigger time. *)
Theorem wheel_fires_once tw id t :
  Wheel.wheel_wf tw -> 0 <= t < 2 ^ 63 -> (forall pos, 0 <= pos < Wheel.wheelSize tw -> id ∉ Wheel.slot_at tw pos) ->
  let n := Wheel.wheelSize tw in
  let k := (t / Wheel.tickDuration tw - Wheel.currentPos tw - 1) mod n + 1 in
  exists tw', Wheel.Add tw id t = Some tw' /\
    (forall j, 1 <= j <= n -> exists out out',
      (Wheel.ticks (Z.to_nat n) tw).2 !! Z.to_nat (j - 1) = Some out /\
      (Wheel.ticks (Z.to_nat n) tw').2 !! Z.to_nat (j - 1) = Some out' /\
      (id ∈ out' <-> j = k) /\ forall x, x <> id -> x ∈ out' <-> x ∈ out) /\
    (forall now, Wheel.currentPos tw = (now / Wheel.tickDuration tw) mod n ->
      now / Wheel.tickDuration tw < t / Wheel.tickDuration tw <= now / Wheel.tickDuration tw + n ->
      k = t / Wheel.tickDuration tw - now / Wheel.tickDuration tw).
Proof.
  intros Hwf Ht Hfresh n k. destruct (Wheel.Add_nonneg tw id t Hwf Ht) as [tw' Hadd]. exists tw'. split; [done|].
  pose proof (Wheel.Add_wf _ _ _ _ Hwf Hadd) as Hwf'. destruct (Wheel.Add_slot _ _ _ _ Hwf Hadd) as [_ Hslot].
  pose proof Hwf as (Hn & _ & Hpos & Hd). fold n in Hn, Hpos, Hslot, Hfresh.
  assert (Wheel.wheelSize tw' = n /\ Wheel.currentPos tw' = Wheel.currentPos tw) as [Hsz Hcur].
  { unfold Wheel.Add in Hadd. destruct (_ <? 0); [done|]. by apply bind_Some in Hadd as (? & _ & [= <-]). }
  pose proof (Wheel.slot_index_div tw t Hwf Ht) as Hidx. pose proof (Z.mod_pos_bound (t / Wheel.tickDuration tw - Wheel.currentPos tw - 1) n Hn) as Hk.
  assert (Wheel.ahead tw k = Wheel.slot_index tw t) as Hak.
  { rewrite Hidx. unfold Wheel.ahead, k. fold n. rewrite (Z.add_comm _ 1), Z.add_assoc, Z.add_mod_idemp_r by lia. f_equal. lia. }
  split.
  - intros j Hj. eexists _, _. rewrite (Wheel.ticks_out _ tw) by (done || (fold n; lia)).
    rewrite (Wheel.ticks_out _ tw') by (done || lia). split; [done|]. split; [done|]. rewrite !elem_of_elements.
    assert (Wheel.ahead tw' j = Wheel.ahead tw j) as -> by (unfold Wheel.ahead; by rewrite Hsz, Hcur).
    pose proof (Wheel.ahead_range tw j Hwf) as Hr. fold n in Hr. rewrite (Hslot _ Hr). specialize (Hfresh _ Hr).
    rewrite <- Hak. case_decide as Hjk.
    + apply (Wheel.ahead_inj tw) in Hjk; [|done|fold n; lia|fold n; lia]. set_solver.
    + split; [|done]. split; [done|]. by intros ->.
  - intros now Hnow Hin. unfold k. rewrite Hnow.
    replace (t / Wheel.tickDuration tw - (now / Wheel.tickDuration tw) mod n - 1) with
      ((t / Wheel.tickDuration tw - 1) - (now / Wheel.tickDuration tw) mod n) by lia.
    rewrite Zminus_mod_idemp_r. replace (t / Wheel.tickDuration tw - 1 - now / Wheel.tickDuration tw) with
      (t / Wheel.tickDuration tw - now / Wheel.tickDuration tw - 1) by lia. rewrite Z.mod_small by lia. lia.
Qed.

Lemma wheel_fires_once_witness :
  exists tw', Wheel.Add (Wheel.NewTimingWheel (10 * Millisecond) 10) 42 1777298604020000000 = Some tw' /\
  exists out, (Wheel.ticks 10 tw').2 !! 1%nat = Some out /\ 42 ∈ out.
Proof.
  destruct (wheel_fires_once (Wheel.NewTimingWheel (10 * Millisecond) 10) 42 1777298604020000000) as (tw' & Hadd & Hout & _).
  - apply Wheel.New_wf.
  - split; [vm_compute; congruence|reflexivity].
  - intros pos _. rewrite Wheel.New_slot. set_solver.
  - exists tw'. split; [exact Hadd|]. destruct (Hout 2) as (_ & out & _ & Ho & Hin & _); [vm_compute; split; congruence|].
    exists out. split; [exact Ho|]. apply Hin. vm_compute. reflexivity.
Defined.

(** After [Remove] the task comes out of none of the ticks of the next
    turn, and every other task still comes out of the same tick. *)
Theorem wheel_remove tw id other k :
  Wheel.wheel_wf tw -> other <> id -> 1 <= k <= Wheel.wheelSize tw ->
  exists out out',
    (Wheel.ticks (Z.to_nat (Wheel.wheelSize tw)) tw).2 !! Z.to_nat (k - 1) = Some out /\
    (Wheel.ticks (Z.to_nat (Wheel.wheelSize tw)) (Wheel.Remove tw id)).2 !! Z.to_nat (k - 1) = Some out' /\
    (id ∉ out') /\ (other ∈ out' <-> other ∈ out).
Proof.
  intros Hwf Hne Hk. pose proof (Wheel.Remove_wf tw id Hwf) as Hwf'.
  do 2 eexists. rewrite !Wheel.ticks_out by (done || simpl; lia).
  split; [done|]. split; [done|]. rewrite !elem_of_elements.
  unfold Wheel.slot_at, Wheel.Remove, Wheel.ahead. simpl. rewrite list_lookup_fmap.
  destruct (_ !! _); set_solver.
Qed.

Lemma wheel_remove_witness :
  exists out out',
    (Wheel.ticks (Z.to_nat 600) (Wheel.NewTimingWheel 0 0)).2 !! Z.to_nat (1 - 1) = Some out /\
    (Wheel.ticks (Z.to_nat 600) (Wheel.Remove (Wheel.NewTimingWheel 0 0) 7)).2 !! Z.to_nat (1 - 1) = Some out' /\
    (7 ∉ out') /\ (8 ∈ out' <-> 8 ∈ out).
Proof.
  apply (wheel_remove (Wheel.NewTimingWheel 0 0) 7 8 1); [apply Wheel.New_wf|lia|simpl; unfold Wheel.defaultWheelSize; lia].
Defined.

(** The wheel is not aligned with the clock: it starts at position 0
    whenever it is created, so the tick that puts out a task is fixed by its
    trigger time modulo one minute alone. A task due [d] after the creation of
    the wheel is put out after that many ticks, not after [d]. *)
Theorem wheel_not_aligned id t :
  0 <= t < 2 ^ 63 ->
  let p := (t / (100 * Millisecond)) mod 600 in
  let k := if p =? 0 then 600 else p in
  exists tw, Wheel.Add (Wheel.NewTimingWheel (100 * Millisecond) 600) id t = Some tw /\
    (Wheel.ticks (Z.to_nat 600) tw).2 !! Z.to_nat (k - 1) = Some [id].
Proof.
  intros Ht p k. set (tw0 := Wheel.NewTimingWheel (100 * Millisecond) 600).
  pose proof (Wheel.New_wf (100 * Millisecond) 600) as Hwf. fold tw0 in Hwf.
  destruct (Wheel.Add_nonneg tw0 id t Hwf Ht) as [tw Hadd]. exists tw. split; [done|].
  destruct (Wheel.Add_slot _ _ _ _ Hwf Hadd) as [Hpos Hslot].
  pose proof (Wheel.Add_wf _ _ _ _ Hwf Hadd) as Hwf'.
  assert (Wheel.wheelSize tw = 600 /\ Wheel.currentPos tw = 0) as [Hsz Hcp].
  { unfold Wheel.Add in Hadd. destruct (_ <? 0); [done|].
    apply bind_Some in Hadd as (? & _ & [= <-]). done. }
  assert (Wheel.slot_index tw0 t = p) as Hidx.
  { unfold Wheel.slot_index, go_mod, go_div, UnixNano. rewrite wrap64_id by (unfold int64; lia).
    subst p. change (Wheel.tickDuration tw0) with 100000000.
    change (Wheel.wheelSize tw0) with 600. change (100 * Millisecond) with 100000000.
    rewrite Z.quot_div_nonneg by lia. apply Z.rem_mod_nonneg; [apply Z.div_pos; lia|lia]. }
  pose proof (Z.mod_pos_bound (t / (100 * Millisecond)) 600 ltac:(lia)) as Hp. fold p in Hp.
  assert (1 <= k <= 600) as Hk by (subst k; destruct (Z.eqb_spec p 0); lia).
  rewrite Wheel.ticks_out by (done || lia).
  assert (Wheel.ahead tw k = p) as ->.
  { unfold Wheel.ahead. rewrite Hsz, Hcp. subst k. destruct (Z.eqb_spec p 0) as [->|]; [done|].
    apply Z.mod_small. lia. }
  rewrite Hslot by (change (Wheel.wheelSize tw0) with 600; lia).
  rewrite Hidx, decide_True by done. unfold tw0. rewrite Wheel.New_slot, union_empty_r_L.
  by rewrite elements_singleton.
Qed.

Lemma wheel_not_aligned_witness :
  exists tw, Wheel.Add (Wheel.NewTimingWheel (100 * Millisecond) 600) 1
               (1777298639 * Second + 100 * Millisecond) = Some tw /\
    (Wheel.ticks (Z.to_nat 600) tw).2 !! Z.to_nat (591 - 1) = Some [1].
Proof. apply (wheel_not_aligned 1 (1777298639 * Second + 100 * Millisecond)). unfold Second, Millisecond. lia. Defined.

(** Pushing items one by one onto an empty heap keeps exactly those items,
    and [Peek] returns one with the earliest trigger time. *)
Theorem heap_push_peek xs :
  foldl Heap.Push [] xs ≡ₚ xs /\
  match Heap.Peek (foldl Heap.Push [] xs) with
  | None => xs = []
  | Some x => x ∈ xs /\ forall y, y ∈ xs -> Heap.TriggerTime x <= Heap.TriggerTime y
  end.
Proof.
  assert (forall h, Heap.heap_ordered h ->
    Heap.heap_ordered (foldl Heap.Push h xs) /\ foldl Heap.Push h xs ≡ₚ xs ++ h) as Hall.
  { induction xs as [|x xs IH]; intros h Hh; simpl; [done|].
    destruct (IH (Heap.Push h x) (Heap.Push_ordered h x Hh)) as [? Hp].
    split; [done|]. rewrite Hp, Heap.Push_perm. by rewrite <- Permutation_middle. }
  destruct (Hall []) as [Hord Hperm]; [intros i Hi; simpl in Hi; lia|].
  rewrite app_nil_r in Hperm. split; [done|].
  set (h := foldl Heap.Push [] xs) in *. unfold Heap.Peek.
  destruct h as [|x h'] eqn:Eh; simpl; [by apply Permutation_nil_l in Hperm|].
  split; [rewrite <- Hperm; set_solver|]. intros y Hy. rewrite <- Hperm in Hy.
  apply list_elem_of_lookup in Hy as [i Hi].
  pose proof (Heap.heap_root_min (x :: h') i Hord (lookup_lt_Some _ _ _ Hi)) as Hmin.
  unfold Heap.time_at in Hmin. by rewrite Hi in Hmin.
Qed.

(** [PopUntil], although it filters the slice in place while ranging over
    it, returns exactly the items due at the cutoff and keeps exactly the
    others, both in slice order. *)
Theorem PopUntil_partition h cutoff :
  Heap.PopUntil h cutoff =
  (filter (fun x => cutoff < Heap.TriggerTime x) h,
   filter (fun x => Heap.TriggerTime x <= cutoff) h).
Proof.
  unfold Heap.PopUntil.
  destruct (Heap.pop_loop_spec (length h) h cutoff 0 0 []) as (arr & w & out & -> & -> & ->); [lia..|].
  done.
Qed.

(** [PopUntil] does not re-establish the heap order: from an ordered heap
    it can leave a slice whose [Peek] is not the earliest item. *)
Theorem PopUntil_breaks_order :
  exists h cutoff x y, Heap.heap_ordered h /\
    Heap.Peek (Heap.PopUntil h cutoff).1 = Some x /\
    y ∈ (Heap.PopUntil h cutoff).1 /\ Heap.TriggerTime y < Heap.TriggerTime x.
Proof.
  set (it i := Heap.mkItem i i).
  exists [it 1; it 10; it 2; it 20; it 21; it 3; it 4], 2, (it 10), (it 3).
  split_and!; [|done| |simpl; lia].
  - intros i Hi. simpl in Hi. do 7 (destruct i as [|i]; [cbv; by (done || lia)|]). lia.
  - vm_compute. set_solver.
Qed.

(** [Warm] pushes a waiting retry again every time it runs: after [n]
    warm-ups with the same due retry the heap holds it [n] times, so one retry
    fires [n] executions. *)
Theorem Warm_repeats_retry n e now inst :
  inst_NextRetryTime inst <> zero_time ->
  inst_NextRetryTime inst < now + Wheel.SlotSpan (Hybrid.wheel e) ->
  exists e', Hybrid.warm_times n e now (Ok []) (fun _ => Ok [inst]) = Some e' /\
    Hybrid.wheel e' = Hybrid.wheel e /\
    Hybrid.heap e' ≡ₚ replicate n (Heap.mkItem (inst_TaskID inst) (inst_NextRetryTime inst)) ++ Hybrid.heap e.
Proof.
  intros Hz. revert e. induction n as [|n IH]; intros e Hlt; [by exists e|].
  cbn [Hybrid.warm_times]. unfold Hybrid.Warm. cbn [Hybrid.warm_wheel mbind option_bind fst].
  set (cutoff := now + Wheel.SlotSpan (Hybrid.wheel e)) in *.
  destruct (Hybrid.warm_heap_perm e cutoff [inst]) as [Hw Hp].
  unfold Hybrid.due_items in Hp. rewrite filter_cons, decide_True in Hp by done. simpl in Hp.
  destruct (IH (Hybrid.warm_heap e cutoff [inst])) as (e' & -> & Hw' & Hp'); [by rewrite Hw|].
  exists e'. rewrite Hw', Hw. split_and!; [done..|].
  rewrite Hp', Hp. by rewrite <- Permutation_middle.
Qed.

Lemma Warm_repeats_retry_witness :
  let inst := mkTaskInstance 1 7 "s" 0 0 0 zero_time zero_time zero_time "" "retry_waiting" 1 "" "" ""
                (20 * Second) "" 0 0 in
  exists e', Hybrid.warm_times 3 Hybrid.New 0 (Ok []) (fun _ => Ok [inst]) = Some e' /\
    Hybrid.wheel e' = Hybrid.wheel Hybrid.New /\
    Hybrid.heap e' ≡ₚ replicate 3 (Heap.mkItem 7 (20 * Second)) ++ [].
Proof.
  intros inst. apply (Warm_repeats_retry 3 Hybrid.New 0 inst).
  - vm_compute. discriminate.
  - vm_compute. reflexivity.
Defined.
