(* ===== verification/RateLimit.v ===== *)
(** internal/scheduler/ratelimit: the token bucket of the dispatch client, the
    concurrency limiter and the backpressure controller of the trigger loop.
    Go's [float64] is IEEE binary64, evaluated with [SpecFloat]. *)
From S2P Require Import Prelude GoStd GoTime.
From Stdlib Require Import Floats.SpecFloat.

(** ** float64 *)

Abbreviation float64 := spec_float.

(** [float64(z)] *)
Definition of_int (z : Z) : float64 := binary_normalize 53 1024 z 0 false.
Definition fadd : float64 -> float64 -> float64 := SFadd 53 1024.
Definition fsub : float64 -> float64 -> float64 := SFsub 53 1024.
Definition fmul : float64 -> float64 -> float64 := SFmul 53 1024.
Definition fdiv : float64 -> float64 -> float64 := SFdiv 53 1024.
Definition fle (x y : float64) : bool := SFleb x y.
Definition flt (x y : float64) : bool := SFltb x y.

(** The constant [n/d] rounded to nearest. *)
Definition lit (n d : Z) : float64 := fdiv (of_int n) (of_int d).

(** [int64(f)]: truncation towards zero of a finite value. *)
Definition to_int (f : float64) : Z :=
  match f with
  | S754_finite s m e =>
      let v := if 0 <=? e then Z.pos m * 2 ^ e else Z.pos m / 2 ^ (- e) in
      wrap64 (if s then - v else v)
  | _ => 0
  end.

(** [t.Sub(u)], saturating. *)
Definition Sub (t u : Time) : Duration := Z.max (- 2 ^ 63) (Z.min (2 ^ 63 - 1) (t - u)).

(** [d.Seconds()] *)
Definition Seconds (d : Duration) : float64 :=
  fadd (of_int (go_div d Second)) (fdiv (of_int (go_mod d Second)) (of_int Second)).

(** ** TokenBucket *)

Record TokenBucket := mkTokenBucket {
  rate : float64;
  capacity : float64;
  tokens : float64;
  lastRefill : Time
}.

Definition NewTokenBucket (now : Time) (ratePerSec cap : Z) : TokenBucket :=
  let ratePerSec := if ratePerSec <=? 0 then 1000 else ratePerSec in
  let cap := if cap <=? 0 then wrap64 (ratePerSec * 2) else cap in
  {| rate := of_int ratePerSec; capacity := of_int cap; tokens := of_int cap; lastRefill := now |}.

Definition refill (now : Time) (tb : TokenBucket) : TokenBucket :=
  let elapsed := Seconds (Sub now (lastRefill tb)) in
  let t := fadd (tokens tb) (fmul elapsed (rate tb)) in
  {| rate := rate tb; capacity := capacity tb;
     tokens := if flt (capacity tb) t then capacity tb else t; lastRefill := now |}.

Definition take_tokens (n : Z) (tb : TokenBucket) : TokenBucket :=
  {| rate := rate tb; capacity := capacity tb; tokens := fsub (tokens tb) (of_int n);
     lastRefill := lastRefill tb |}.

Definition AllowN (now : Time) (n : Z) (tb : TokenBucket) : TokenBucket * bool :=
  let tb := refill now tb in
  if fle (of_int n) (tokens tb) then (take_tokens n tb, true) else (tb, false).

Definition Allow (now : Time) (tb : TokenBucket) : TokenBucket * bool := AllowN now 1 tb.

Definition WaitTime (now : Time) (n : Z) (tb : TokenBucket) : TokenBucket * Duration :=
  let tb := refill now tb in
  if fle (of_int n) (tokens tb) then (tb, 0)
  else (tb, to_int (fmul (fdiv (fsub (of_int n) (tokens tb)) (rate tb)) (of_int Second))).

(** [n] calls of [Allow] at one instant: the number that were granted. *)
Fixpoint burst (n : nat) (now : Time) (tb : TokenBucket) : TokenBucket * nat :=
  match n with
  | O => (tb, O)
  | S n' =>
      let '(tb, ok) := Allow now tb in
      let '(tb, k) := burst n' now tb in
      (tb, if ok then S k else k)
  end.

Definition is_finite (f : float64) : bool :=
  match f with S754_zero _ | S754_finite _ _ _ => true | _ => false end.

(** ** ConcurrencyLimiter *)

(** The counter, and the goroutines inside [Acquire]: [blocked] ones are parked
    in [cond.Wait], [woken] ones have been signalled and not yet looked at the
    counter again. *)
Record ConcurrencyLimiter := mkLimiter {
  limit : Z;
  current : Z;
  blocked : Z;
  woken : Z
}.

Definition NewConcurrencyLimiter (lim : Z) : ConcurrencyLimiter :=
  {| limit := if lim <=? 0 then 100 else lim; current := 0; blocked := 0; woken := 0 |}.

(** A goroutine calls [Acquire]: it takes a slot or parks. *)
Definition acquire (cl : ConcurrencyLimiter) : ConcurrencyLimiter :=
  if limit cl <=? current cl
  then {| limit := limit cl; current := current cl; blocked := blocked cl + 1; woken := woken cl |}
  else {| limit := limit cl; current := current cl + 1; blocked := blocked cl; woken := woken cl |}.

(** A signalled goroutine runs again: the loop condition is tested once more. *)
Definition resume (cl : ConcurrencyLimiter) : ConcurrencyLimiter :=
  acquire {| limit := limit cl; current := current cl; blocked := blocked cl; woken := woken cl - 1 |}.

Definition release (cl : ConcurrencyLimiter) : ConcurrencyLimiter :=
  {| limit := limit cl;
     current := if 0 <? current cl then current cl - 1 else current cl;
     blocked := if 0 <? blocked cl then blocked cl - 1 else blocked cl;
     woken := if 0 <? blocked cl then woken cl + 1 else woken cl |}.

Inductive limiter_step : ConcurrencyLimiter -> ConcurrencyLimiter -> Prop :=
| step_acquire cl : limiter_step cl (acquire cl)
| step_resume cl : 0 < woken cl -> limiter_step cl (resume cl)
| step_release cl : limiter_step cl (release cl).

(** Slots stay within the limit, and whenever somebody is parked every free
    slot has a woken goroutine coming for it. *)
Definition limiter_inv (cl : ConcurrencyLimiter) : Prop :=
  0 < limit cl /\ 0 <= current cl <= limit cl /\ 0 <= blocked cl /\ 0 <= woken cl /\
  (0 < blocked cl -> limit cl - current cl <= woken cl).

(** ** BackpressureController *)

Inductive PressureState := PressureGreen | PressureYellow | PressureRed.

#[export] Instance PressureState_eq_dec : EqDecision PressureState.
Proof. solve_decision. Defined.

(** The integer behind the constant. *)
Definition pressure_rank (s : PressureState) : Z :=
  match s with PressureGreen => 0 | PressureYellow => 1 | PressureRed => 2 end.

Definition pressure_string (s : PressureState) : string :=
  match s with PressureGreen => "green" | PressureYellow => "yellow" | PressureRed => "red" end.

Record BackpressureConfig := mkBackpressureConfig {
  MaxPending : Z; YellowRatio : float64; RedRatio : float64; MaxWorkerLoad : float64
}.

Record BackpressureController := mkController {
  maxPending : Z;
  yellowRatio : float64;
  redRatio : float64;
  maxWorkerLoad : float64;
  state : PressureState;
  pendingCount : Z;
  workerLoads : gmap string Z;
  lastUpdate : Time
}.

Definition DefaultBackpressureConfig : BackpressureConfig :=
  {| MaxPending := 1000; YellowRatio := lit 7 10; RedRatio := lit 9 10; MaxWorkerLoad := lit 85 100 |}.

Definition NewBackpressureController (now : Time) (cfg : BackpressureConfig) : BackpressureController :=
  let nonpos f := fle f (of_int 0) in
  {| maxPending := if MaxPending cfg <=? 0 then 1000 else MaxPending cfg;
     yellowRatio := if nonpos (YellowRatio cfg) then lit 7 10 else YellowRatio cfg;
     redRatio := if nonpos (RedRatio cfg) then lit 9 10 else RedRatio cfg;
     maxWorkerLoad := if nonpos (MaxWorkerLoad cfg) then lit 85 100 else MaxWorkerLoad cfg;
     state := PressureGreen; pendingCount := 0; workerLoads := ∅; lastUpdate := now |}.

Definition set_state (s : PressureState) (b : BackpressureController) : BackpressureController :=
  {| maxPending := maxPending b; yellowRatio := yellowRatio b; redRatio := redRatio b;
     maxWorkerLoad := maxWorkerLoad b; state := s; pendingCount := pendingCount b;
     workerLoads := workerLoads b; lastUpdate := lastUpdate b |}.

Definition UpdatePending (now : Time) (count : Z) (b : BackpressureController) : BackpressureController :=
  let ratio := fdiv (of_int count) (of_int (maxPending b)) in
  {| maxPending := maxPending b; yellowRatio := yellowRatio b; redRatio := redRatio b;
     maxWorkerLoad := maxWorkerLoad b;
     state := if fle (redRatio b) ratio then PressureRed
              else if fle (yellowRatio b) ratio then PressureYellow else PressureGreen;
     pendingCount := count; workerLoads := workerLoads b; lastUpdate := now |}.

(** [order] is the order in which the map of loads is ranged over. *)
Definition UpdateWorkerLoad (now : Time) (loads : gmap string Z) (order : list (string * Z))
    (maxConcurrency : Z) (b : BackpressureController) : BackpressureController :=
  let b := {| maxPending := maxPending b; yellowRatio := yellowRatio b; redRatio := redRatio b;
              maxWorkerLoad := maxWorkerLoad b; state := state b; pendingCount := pendingCount b;
              workerLoads := loads; lastUpdate := now |} in
  if maxConcurrency <=? 0 then b else
  let totalLoad := foldl (fun acc kl => fadd acc (of_int kl.2)) (of_int 0) order in
  if Z.of_nat (size loads) =? 0 then b else
  let avgLoad := fdiv totalLoad (of_int (Z.of_nat (size loads))) in
  let avgRatio := fdiv avgLoad (of_int maxConcurrency) in
  if fle (maxWorkerLoad b) avgRatio then set_state PressureRed b
  else if fle (fmul (maxWorkerLoad b) (lit 8 10)) avgRatio
       then if pressure_rank (state b) <? pressure_rank PressureYellow then set_state PressureYellow b else b
       else b.

Definition AllowDispatch (b : BackpressureController) : bool :=
  negb (bool_decide (state b = PressureRed)).

Definition ShouldThrottle (b : BackpressureController) : bool :=
  bool_decide (state b = PressureYellow) || bool_decide (state b = PressureRed).

Definition ThrottleDelay (b : BackpressureController) : Duration :=
  match state b with
  | PressureYellow => 500 * Millisecond
  | PressureRed => 2 * Second
  | PressureGreen => 0
  end.

(** ** Properties *)

Lemma SFcompare_refl x : SFcompare x x = Some Eq \/ SFcompare x x = None.
Proof.
  destruct x as [s|s| |s m e]; simpl; [by left|destruct s; by left|by right|left].
  rewrite Z.compare_refl. destruct s; by rewrite ?Pos.compare_cont_refl.
Qed.

Lemma flt_irrefl x : flt x x = false.
Proof. unfold flt, SFltb. by destruct (SFcompare_refl x) as [-> | ->]. Qed.

Lemma refill_capped now tb : flt (capacity tb) (tokens (refill now tb)) = false.
Proof. unfold refill. simpl. destruct (flt _ (fadd _ _)) eqn:E; [apply flt_irrefl|done]. Qed.

(** Without elapsed time a refill adds nothing. *)
Lemma refill_same_instant now r c k :
  0 < r -> is_finite (of_int r) = true -> flt (of_int c) (of_int k) = false ->
  is_finite (of_int k) = true -> (0 < k -> exists s m e, of_int k = S754_finite s m e) -> 0 <= k ->
  let tb := {| rate := of_int r; capacity := of_int c; tokens := of_int k; lastRefill := now |} in
  refill now tb = tb.
Proof.
  intros Hr Hfr Hlt Hk Hpos Hk0. unfold refill, Sub. simpl.
  rewrite Z.sub_diag. change (Z.max (-2 ^ 63) (Z.min (2 ^ 63 - 1) 0)) with 0.
  change (Seconds 0) with (S754_zero false).
  assert (fmul (S754_zero false) (of_int r) = S754_zero false \/
          fmul (S754_zero false) (of_int r) = S754_zero true) as Hm.
  { unfold fmul, SFmul. destruct (of_int r) as [s|s| |s m e]; try done; destruct s; auto. }
  assert (fadd (of_int k) (fmul (S754_zero false) (of_int r)) = of_int k) as ->.
  { destruct (decide (k = 0)) as [->|].
    - change (of_int 0) with (S754_zero false). by destruct Hm as [-> | ->].
    - destruct Hpos as (s & m & e & ->); [lia|]. by destruct Hm as [-> | ->]. }
  by rewrite Hlt.
Qed.

(** The bucket of the scheduler's dispatch client. *)
Definition dispatch_bucket (now : Time) : TokenBucket := NewTokenBucket now 3000 (3000 * 2).

Definition at_level (now : Time) (k : Z) : TokenBucket :=
  {| rate := of_int 3000; capacity := of_int 6000; tokens := of_int k; lastRefill := now |}.

(** Down to zero, one token is one unit of binary64. *)
Definition level_ok (k : Z) : bool :=
  match of_int k with S754_finite _ _ _ => true | _ => false end &&
  negb (flt (of_int 6000) (of_int k)) && fle (of_int 1) (of_int k) &&
  match fsub (of_int k) (of_int 1), of_int (k - 1) with
  | S754_finite s m e, S754_finite s' m' e' => Bool.eqb s s' && Pos.eqb m m' && Z.eqb e e'
  | S754_zero s, S754_zero s' => Bool.eqb s s'
  | _, _ => false
  end.

Lemma level_ok_all : forall k, 1 <= k <= 6000 -> level_ok k = true.
Proof. apply forallb_zrange. by vm_compute. Qed.

Lemma level_step now k : 1 <= k <= 6000 -> Allow now (at_level now k) = (at_level now (k - 1), true).
Proof.
  intros Hk. pose proof (level_ok_all k Hk) as H. unfold level_ok in H.
  apply andb_prop in H as [H H4]. apply andb_prop in H as [H H3]. apply andb_prop in H as [H1 H2].
  assert (fsub (of_int k) (of_int 1) = of_int (k - 1)) as Hs.
  { destruct (fsub (of_int k) (of_int 1)) as [s|s| |s m e], (of_int (k - 1)) as [s'|s'| |s' m' e']; try done.
    - by apply eqb_prop in H4 as ->.
    - apply andb_prop in H4 as [H4 ->%Z.eqb_eq]. by apply andb_prop in H4 as [->%eqb_prop ->%Pos.eqb_eq]. }
  unfold Allow, AllowN, at_level.
  rewrite refill_same_instant; try done; try lia.
  - cbn [tokens]. rewrite H3. unfold take_tokens. cbn [rate capacity tokens lastRefill]. by rewrite Hs.
  - by apply negb_true_iff in H2.
  - by destruct (of_int k).
  - intros _. destruct (of_int k); try done. eauto.
Qed.

Lemma level_empty now : Allow now (at_level now 0) = (at_level now 0, false).
Proof. unfold Allow, AllowN, at_level. rewrite refill_same_instant; done || lia. Qed.

Lemma burst_level n now k : 0 <= k <= 6000 ->
  burst n now (at_level now k) = (at_level now (Z.max 0 (k - Z.of_nat n)), Nat.min n (Z.to_nat k)).
Proof.
  revert k. induction n as [|n IH]; intros k Hk; cbn [burst].
  - by rewrite Z.max_r, Z.sub_0_r by lia.
  - destruct (decide (k = 0)) as [->|].
    + rewrite level_empty, IH by lia. f_equal; [f_equal; lia|lia].
    + rewrite level_step, IH by lia. f_equal; [f_equal; lia|].
      lia.
Qed.

(** A burst through the dispatch client's bucket (rate 3000, capacity 6000): of
    [n] dispatches attempted at one instant exactly the first
    [min n 6000] are let through, and the rest find the bucket empty. *)
Theorem dispatch_burst n now :
  burst n now (dispatch_bucket now) =
  (at_level now (Z.max 0 (6000 - Z.of_nat n)), Nat.min n (Z.to_nat 6000)).
Proof. apply (burst_level n now 6000). lia. Qed.

(** Every decision of the bucket: the refill leaves no more than the capacity, the
    request is granted exactly when that many tokens are there, and only a
    granted request takes tokens. *)
Theorem AllowN_spec now n tb :
  let tb1 := refill now tb in
  let '(tb2, ok) := AllowN now n tb in
  flt (capacity tb) (tokens tb1) = false /\
  ok = fle (of_int n) (tokens tb1) /\
  rate tb2 = rate tb /\ capacity tb2 = capacity tb /\ lastRefill tb2 = now /\
  tokens tb2 = (if ok then fsub (tokens tb1) (of_int n) else tokens tb1).
Proof.
  pose proof (refill_capped now tb) as H. unfold AllowN. cbv zeta.
  destruct (fle (of_int n) (tokens (refill now tb))); by rewrite H.
Qed.

Lemma limiter_inv_acquire cl : limiter_inv cl -> limiter_inv (acquire cl).
Proof.
  intros (? & ? & ? & ? & Hb). unfold acquire, limiter_inv.
  destruct (Z.leb_spec (limit cl) (current cl)); simpl; lia.
Qed.

Lemma limiter_inv_step cl cl' : limiter_inv cl -> limiter_step cl cl' -> limiter_inv cl'.
Proof.
  intros Hi Hs. destruct Hs as [cl|cl Hw|cl].
  - by apply limiter_inv_acquire.
  - destruct Hi as (? & ? & ? & ? & Hb). unfold resume, acquire, limiter_inv. simpl.
    destruct (Z.leb_spec (limit cl) (current cl)); simpl; lia.
  - destruct Hi as (? & ? & ? & ? & Hb). unfold release, limiter_inv. simpl.
    destruct (Z.ltb_spec 0 (current cl)), (Z.ltb_spec 0 (blocked cl)); lia.
Qed.

(** C35. The concurrency limiter, under every interleaving of callers: the count stays
    between 0 and the limit, and no wake-up is lost: when a goroutine is parked
    and nobody has been signalled, all slots are taken. *)
Theorem limiter_safe lim cl :
  rtc limiter_step (NewConcurrencyLimiter lim) cl ->
  0 <= current cl <= limit cl /\ (0 < blocked cl -> woken cl = 0 -> current cl = limit cl).
Proof.
  intros Hr. enough (limiter_inv cl) as (? & ? & ? & ? & Hb) by (split; [lia|intros; lia]).
  assert (limiter_inv (NewConcurrencyLimiter lim)) as Hi.
  { unfold limiter_inv, NewConcurrencyLimiter. simpl. destruct (Z.leb_spec lim 0); lia. }
  induction Hr as [|x y z Hxy _ IH]; [done|]. eauto using limiter_inv_step.
Qed.

Lemma limiter_safe_witness :
  0 <= current (acquire (acquire (NewConcurrencyLimiter 1))) <= limit (acquire (acquire (NewConcurrencyLimiter 1))) /\
  (0 < blocked (acquire (acquire (NewConcurrencyLimiter 1))) ->
   woken (acquire (acquire (NewConcurrencyLimiter 1))) = 0 ->
   current (acquire (acquire (NewConcurrencyLimiter 1))) = limit (acquire (acquire (NewConcurrencyLimiter 1)))).
Proof.
  apply (limiter_safe 1). eapply rtc_l; [apply step_acquire|]. eapply rtc_l; [apply step_acquire|]. apply rtc_refl.
Defined.

(** Thresholds of the default controller: for every pending count up to twice the
    maximum, the state is red from 900 on, yellow from 700 on and green below;
    dispatching stops exactly at red. *)
Theorem default_thresholds now t count :
  0 <= count <= 2000 ->
  let b := UpdatePending t count (NewBackpressureController now DefaultBackpressureConfig) in
  state b = (if 900 <=? count then PressureRed else if 700 <=? count then PressureYellow else PressureGreen) /\
  AllowDispatch b = (count <? 900) /\
  (ThrottleDelay b = 0 <-> count < 700).
Proof.
  intros Hc.
  assert (forall c, 0 <= c <= 2000 -> bool_decide (state (UpdatePending 0 c (NewBackpressureController 0 DefaultBackpressureConfig))
    = (if 900 <=? c then PressureRed else if 700 <=? c then PressureYellow else PressureGreen)) = true) as Hall
    by (apply forallb_zrange; by vm_compute).
  specialize (Hall count Hc). apply bool_decide_eq_true_1 in Hall.
  change (state (UpdatePending 0 count _)) with
    (state (UpdatePending t count (NewBackpressureController now DefaultBackpressureConfig))) in Hall.
  cbv zeta. unfold AllowDispatch, ThrottleDelay. rewrite Hall. split; [done|].
  destruct (Z.leb_spec 900 count); [|destruct (Z.leb_spec 700 count)]; (split; [simpl; lia|]);
    unfold Second, Millisecond; lia.
Qed.

Lemma default_thresholds_witness :
  let b := UpdatePending 0 750 (NewBackpressureController 0 DefaultBackpressureConfig) in
  state b = PressureYellow /\ AllowDispatch b = true /\ (ThrottleDelay b = 0 <-> 750 < 700).
Proof. apply (default_thresholds 0 0 750). lia. Defined.

(** Worker load only ever raises the pressure: whatever the loads and the order in
    which they are summed, [UpdateWorkerLoad] leaves the state at least as high
    as it was. *)
Theorem UpdateWorkerLoad_raises now loads order maxConcurrency b :
  pressure_rank (state b) <= pressure_rank (state (UpdateWorkerLoad now loads order maxConcurrency b)).
Proof.
  unfold UpdateWorkerLoad. simpl.
  repeat case_match; simpl; try lia; destruct (state b); simpl in *; lia.
Qed.

(** [UpdatePending] decides from the pending count alone: pressure raised by worker
    load is forgotten at the next update. *)
Theorem UpdatePending_forgets_load t t' count loads order maxConcurrency b :
  state (UpdatePending t count (UpdateWorkerLoad t' loads order maxConcurrency b)) = state (UpdatePending t count b).
Proof.
  unfold UpdateWorkerLoad. cbv zeta.
  destruct (maxConcurrency <=? 0); [done|]. destruct (_ =? 0); [done|].
  destruct (fle _ _); [done|]. destruct (fle _ _); [|done]. by destruct (_ <? _).
Qed.
