(* ===== verification/Float.v ===== *)
(** [strconv.ParseFloat], the shortest decimal of a float64 as encoding/json writes it,
    and the verb [%.nf], by exact integer arithmetic on the rational value. *)
From S2P Require Import Prelude GoStd GoFormat Json RateLimit.
From Stdlib Require Import Floats.SpecFloat.

(** ** Decimal to binary *)

(** A number literal as sign, digits and power of ten. *)
Fixpoint decimal_digits (s : string) (m : Z) (frac : bool) (e : Z) : Z * Z * string :=
  match s with
  | String c s' =>
      if is_digit c then decimal_digits s' (10 * m + digit_val c) frac (if frac then e - 1 else e)
      else if is_byte c 46 && negb frac then decimal_digits s' m true e
      else (m, e, s)
  | EmptyString => (m, e, s)
  end.

Definition parse_decimal (lit : string) : bool * Z * Z :=
  let '(neg, s) := match eat 45 lit with Some s => (true, s) | None => (false, lit) end in
  let '(m, e, rest) := decimal_digits s 0 false 0 in
  let x := match rest with
           | String _ s' =>
               match eat 45 s' with
               | Some t => - default 0 (parse_digits 0 t)
               | None => default 0 (parse_digits 0 (default s' (eat 43 s')))
               end
           | EmptyString => 0
           end in
  (neg, m, e + x).

Fixpoint count_digits (fuel : nat) (z : Z) : Z :=
  match fuel with O => 0 | S n => if z <=? 0 then 0 else 1 + count_digits n (z / 10) end.
Definition digits10 (z : Z) : Z := count_digits (Z.to_nat (Z.log2 z) + 2) z.

(** The float64 nearest to [m * 10^e], ties to even. *)
Definition dec_to_float (neg : bool) (m e : Z) : float64 :=
  if m =? 0 then S754_zero neg
  else if 310 <? digits10 m + e then S754_infinity neg
  else if digits10 m + e <? -330 then S754_zero neg
  else if 0 <=? e then
    match m * 10 ^ e with Zpos p => binary_round 53 1024 neg p 0 | _ => S754_zero neg end
  else
    let d := 10 ^ (- e) in
    let s := Z.max 0 (66 + Z.log2 d - Z.log2 m) in
    let n := m * 2 ^ s in
    let q := n / d in let r := n mod d in
    binary_round_aux 53 1024 neg q (- s) (if r =? 0 then loc_Exact else loc_Inexact (Z.compare (2 * r) d)).

(** [strconv.ParseFloat] on a literal of a JSON number; [None] out of range. *)
Definition ParseFloat (lit : string) : option float64 :=
  let '(neg, m, e) := parse_decimal lit in
  match dec_to_float neg m e with S754_infinity _ | S754_nan => None | f => Some f end.

(** [json.Unmarshal] into a float64. *)
Definition into_float (v : jvalue) (old : float64) : option float64 :=
  match v with JNumber lit => ParseFloat lit | JNull => Some old | _ => None end.

Definition fzero : float64 := S754_zero false.

(** ** Binary to decimal *)

(** The quotient rounded to the nearest integer, ties to even. *)
Definition div_even (n d : Z) : Z :=
  let q := n / d in let r := 2 * (n mod d) in
  if (d <? r) || ((r =? d) && Z.odd q) then q + 1 else q.

(** [m * 2^e] as a fraction. *)
Definition fraction (m : positive) (e : Z) : Z * Z :=
  if 0 <=? e then (Zpos m * 2 ^ e, 1) else (Zpos m, 2 ^ (- e)).

(** [fmt.Sprintf("%.nf", x)] *)
Definition fmt_fixed (n : Z) (x : float64) : string :=
  let point := if n =? 0 then "" else "." in
  match x with
  | S754_nan => "NaN"
  | S754_infinity s => if s then "-Inf" else "+Inf"
  | S754_zero s => (if s then "-0" else "0") +:+ point +:+ pad (Z.to_nat n) 0
  | S754_finite s m e =>
      let '(a, b) := fraction m e in
      let u := div_even (a * 10 ^ n) b in
      (if s then "-" else "") +:+ fmt_d (u / 10 ^ n) +:+ point +:+ (if n =? 0 then "" else pad (Z.to_nat n) (u mod 10 ^ n))
  end.

(** The power of ten of the first digit of [a / b]. *)
Fixpoint below_one (fuel : nat) (a b k : Z) : Z :=
  match fuel with O => k | S f => if b <=? a then k else below_one f (10 * a) b (k - 1) end.
Definition exponent10 (a b : Z) : Z := if b <=? a then digits10 (a / b) - 1 else below_one 400 a b 0.

(** The shortest decimal [c * 10^k] that is read back as the same number. *)
Fixpoint shortest (fuel : nat) (n : Z) (x : float64) (a b ex : Z) : Z * Z :=
  let k := ex - n + 1 in
  let c := if 0 <=? k then div_even a (b * 10 ^ k) else div_even (a * 10 ^ (- k)) b in
  match fuel with
  | O => (c, k)
  | S f => if SFeqb (dec_to_float false c k) x then (c, k) else shortest f (n + 1) x a b ex
  end.

(** Without trailing zeros. *)
Fixpoint stripped (fuel : nat) (c k : Z) : Z * Z :=
  match fuel with O => (c, k) | S f => if (0 <? c) && (c mod 10 =? 0) then stripped f (c / 10) (k + 1) else (c, k) end.

Definition zeros (n : Z) : string := String.string_of_list_ascii (replicate (Z.to_nat n) "0"%char).

(** How encoding/json writes a float64: the format [f], or [e] for very small and very
    large numbers, where an exponent has no leading zero. *)
Definition json_float (x : float64) : string :=
  match x with
  | S754_zero s => if s then "-0" else "0"
  | S754_finite s m e =>
      let '(a, b) := fraction m e in
      let '(c, k) := shortest 16 1 (S754_finite false m e) a b (exponent10 a b) in
      let '(c, k) := stripped 400 c k in
      let ds := fmt_d c in
      let n := Z.of_nat (String.length ds) in
      let ex := n + k - 1 in
      (if s then "-" else "") +:+
      if (ex <? -6) || (21 <=? ex) then
        String.substring 0 1 ds +:+ (if n =? 1 then "" else "." +:+ String.substring 1 (String.length ds - 1) ds)
        +:+ "e" +:+ (if ex <? 0 then "-" else "+") +:+ fmt_d (Z.abs ex)
      else if 0 <=? k then ds +:+ zeros k
      else if 0 <? n + k then
        String.substring 0 (Z.to_nat (n + k)) ds +:+ "." +:+ String.substring (Z.to_nat (n + k)) (Z.to_nat (- k)) ds
      else "0." +:+ zeros (- (n + k)) +:+ ds
  | _ => "null"
  end.

Example floats_read : ParseFloat "0.1" = Some (lit 1 10) /\ ParseFloat "-2.5e3" = Some (of_int (-2500)) /\ ParseFloat "1e999" = None.
Proof. by vm_compute. Qed.
Example floats_written :
  (json_float (lit 1 10), json_float (fdiv (of_int 2) (of_int 3)), json_float (of_int 1500), json_float (lit 1 (10 ^ 7)),
   fmt_fixed 2 (lit 995 1000), fmt_fixed 2 (of_int 3)) = ("0.1", "0.6666666666666666", "1500", "1e-7", "0.99", "3.00").
Proof. by vm_compute. Qed.
