(* ===== verification/Leader.v ===== *)
(** internal/scheduler/leader/elector.go: which scheduler process may run the loops.
    Several processes try to become the leader through a named MySQL lock or an etcd
    election; both services are a class of exclusive locks with their documented
    behaviour. A cluster is the lock and the role each process is in. *)
From S2P Require Import Prelude GoStd.

(** ** The lock services *)

(** [GET_LOCK(name, 0)] answers 1 (acquired) or 0 (held by another session); etcd's
    [Campaign] is the same question asked until it is answered 1. [session_end]: the
    server gives up the session of a process, and with it the lock. *)
Class LockService (L : Type) := {
  holder : L -> option nat;
  GET_LOCK : nat -> L -> L * result Z;
  RELEASE_LOCK : nat -> L -> L;
  session_end : nat -> L -> L
}.

(** A query that fails may have been carried out: the lock may have been granted though the
    answer was lost, and a release may not arrive. *)
Class LockLaws (L : Type) `{LockService L} := {
  GET_LOCK_law i l l' r : GET_LOCK i l = (l', r) ->
    match r with
    | Ok 1 => (holder l = None \/ holder l = Some i) /\ holder l' = Some i
    | Ok _ => holder l' = holder l
    | Err _ => holder l' = holder l \/ (holder l = None \/ holder l = Some i) /\ holder l' = Some i
    end;
  RELEASE_LOCK_law i l : holder (RELEASE_LOCK i l) = holder l \/ holder l = Some i /\ holder (RELEASE_LOCK i l) = None;
  session_end_law i l : holder (session_end i l) = if decide (holder l = Some i) then None else holder l
}.

(** ** Electors *)

Inductive Elector := localElector | mysqlElector | etcdElector.

(** [client] is the failure of [clientv3.New]. *)
Definition newEtcdElector (client : option gerror) : Elector :=
  match client with Some _ => localElector | None => etcdElector end.

Definition New (has_db : bool) (etcdAddrs : list string) (client : option gerror) : Elector :=
  if negb (bool_decide (etcdAddrs = [])) then newEtcdElector client
  else if negb has_db then localElector else mysqlElector.

(** How far a process is with [Acquire]. *)
Inductive role :=
| Following
| Leading (backend : string)
| Failed (e : gerror)
| Resigned.

Definition leads (r : role) : bool := match r with Leading _ => true | _ => false end.

(** One round of the MySQL loop: the connection, and what [GET_LOCK] answered. *)
Definition mysql_round (conn : option gerror) (acquired : result Z) : role :=
  match conn with
  | Some err => Failed (Wrap "open leader election connection" err)
  | None =>
      match acquired with
      | Err err => Failed (Wrap "acquire mysql leader lock" err)
      | Ok n => if n =? 1 then Leading "mysql" else Following
      end
  end.

(** [localElector.Acquire] *)
Definition local_Acquire : role := Leading "local".

(** [etcdElector.Acquire]: the session, and what the campaign came to; [None] while it
    goes on. *)
Definition etcd_Acquire (session : option gerror) (campaign : option (option gerror)) : role :=
  match session with
  | Some _ => local_Acquire
  | None =>
      match campaign with
      | Some (Some _) => local_Acquire
      | Some None => Leading "etcd"
      | None => Following
      end
  end.

(** ** A cluster *)

Section Cluster.
Context {L : Type} `{LockService L}.

Record Cluster := mkCluster { cl_lock : L; cl_roles : gmap nat role }.

Definition role_of (i : nat) (c : Cluster) : role := default Following (cl_roles c !! i).
Definition set_role (i : nat) (r : role) (c : Cluster) : Cluster := mkCluster (cl_lock c) (<[i := r]> (cl_roles c)).

(** What can happen: a round of a process that still waits, the end of a process's
    context, the goroutine that then gives the lock of a leader back, the loss of a session;
    an etcd election. *)
Inductive happening :=
| Round (i : nat) (conn : option gerror)
| Cancel (i : nat) (ctxErr : gerror)
| Released (i : nat)
| SessionLost (i : nat)
| Campaign (i : nat) (session : option gerror).

Definition happens (ev : happening) (c : Cluster) : Cluster :=
  match ev with
  | Round i conn =>
      match role_of i c, conn with
      | Following, Some _ => set_role i (mysql_round conn (Ok 0)) c
      | Following, None =>
          let '(l, acquired) := GET_LOCK i (cl_lock c) in
          set_role i (mysql_round None acquired) (mkCluster l (cl_roles c))
      | _, _ => c
      end
  | Cancel i ctxErr =>
      match role_of i c with
      | Following => set_role i (Failed ctxErr) c
      | Leading _ => set_role i Resigned c
      | _ => c
      end
  | Released i =>
      match role_of i c with
      | Resigned => mkCluster (RELEASE_LOCK i (cl_lock c)) (cl_roles c)
      | _ => c
      end
  | SessionLost i => mkCluster (session_end i (cl_lock c)) (cl_roles c)
  | Campaign i session =>
      match role_of i c, session with
      | Following, Some _ => set_role i (etcd_Acquire session None) c
      | Following, None =>
          let '(l, answer) := GET_LOCK i (cl_lock c) in
          set_role i (etcd_Acquire None (match answer with Err e => Some (Some e) | Ok n => if n =? 1 then Some None else None end))
            (mkCluster l (cl_roles c))
      | _, _ => c
      end
  end.

Definition execution (evs : list happening) (c : Cluster) : Cluster := foldl (fun c ev => happens ev c) c evs.

Definition mysql_only (ev : happening) : bool :=
  match ev with Round _ _ | Cancel _ _ | Released _ => true | SessionLost _ | Campaign _ _ => false end.
End Cluster.

(** ** Properties *)

Section Properties.
Context {L : Type} `{LockLaws L}.

Lemma role_set i j r (c : Cluster (L:=L)) : role_of j (set_role i r c) = if decide (i = j) then r else role_of j c.
Proof.
  unfold role_of, set_role. simpl. destruct (decide (i = j)) as [->|]; [by rewrite lookup_insert_eq|by rewrite lookup_insert_ne].
Qed.

(** A leader holds the lock. *)
Definition guarded (c : Cluster (L:=L)) : Prop := forall i, leads (role_of i c) = true -> holder (cl_lock c) = Some i.

Lemma guarded_step ev c : mysql_only ev = true -> guarded c -> guarded (happens ev c).
Proof.
  intros Hm Hg. destruct ev as [i conn|i e|i|i|i s]; try done; unfold happens.
  - destruct (role_of i c) eqn:Hr; try done. destruct conn as [e|].
    { intros j. rewrite role_set. destruct (decide _); [done|apply Hg]. }
    destruct (GET_LOCK i (cl_lock c)) as [l r] eqn:Hl. apply GET_LOCK_law in Hl. intros j. rewrite role_set. simpl.
    assert (forall k, leads (role_of k c) = true -> k <> i) as Hne by (intros k Hk ->; by rewrite Hr in Hk).
    destruct r as [n|e]; simpl.
    2: { destruct (decide (i = j)); [done|]. intros Hj. pose proof (Hg j Hj) as Hh. destruct Hl as [->|[[Hf|Hf] _]]; congruence. }
    destruct (Z.eqb_spec n 1) as [->|Hn].
    + destruct Hl as [Hfree Hl]. destruct (decide (i = j)) as [->|Hij]; [done|]. intros Hj. exfalso.
      pose proof (Hg j Hj) as Hh. destruct Hfree as [Hf|Hf]; rewrite Hf in Hh; congruence.
    + assert (holder l = holder (cl_lock c)) as -> by (destruct n as [|[]|]; done).
      destruct (decide _); [done|apply Hg].
  - destruct (role_of i c) as [|b|e'|] eqn:Hr; try done.
    { intros j. rewrite role_set. destruct (decide _); [done|apply Hg]. }
    intros j. rewrite role_set. destruct (decide _); [done|apply Hg].
  - destruct (role_of i c) as [|b|e'|] eqn:Hr; try done. intros j Hj. change (leads (role_of j c) = true) in Hj.
    pose proof (Hg j Hj) as Hh. cbn [cl_lock]. destruct (RELEASE_LOCK_law i (cl_lock c)) as [->|[Hi _]]; [done|].
    rewrite Hh in Hi. injection Hi as ->. by rewrite Hr in Hj.
Qed.

Lemma guarded_execution evs c : Forall (fun ev => mysql_only ev = true) evs -> guarded c -> guarded (execution evs c).
Proof.
  unfold execution. intros He. revert c. induction He as [|ev evs Hev _ IH]; intros c Hc; [done|]. simpl. by apply IH, guarded_step.
Qed.

(** C27. One leader: from a start with no leader, in any order of rounds and shutdowns of
    any number of processes, and whatever errors connections and queries give, at most
    one process leads at a time, as long as MySQL keeps the session of the leader. *)
Theorem mysql_one_leader evs c i j :
  (forall k, leads (role_of k c) = false) -> Forall (fun ev => mysql_only ev = true) evs ->
  leads (role_of i (execution evs c)) = true -> leads (role_of j (execution evs c)) = true -> i = j.
Proof.
  intros Hnone He Hi Hj. assert (guarded (execution evs c)) as Hg
    by (apply guarded_execution; [done|]; intros k Hk; by rewrite Hnone in Hk).
  pose proof (Hg i Hi). pose proof (Hg j Hj). congruence.
Qed.

(** The session of a leader is not watched: when MySQL drops it, the process goes on
    leading, the lock is free, and the next process that is granted it leads as well. *)
Theorem lost_session_second_leader c i j b l :
  i <> j -> role_of i c = Leading b -> role_of j c = Following ->
  GET_LOCK j (session_end i (cl_lock c)) = (l, Ok 1) ->
  let c' := execution [SessionLost i; Round j None] c in
  leads (role_of i c') = true /\ leads (role_of j c') = true.
Proof.
  intros Hij Hi Hj Hl. unfold execution. cbn [foldl happens].
  change (role_of j (mkCluster (session_end i (cl_lock c)) (cl_roles c))) with (role_of j c). rewrite Hj.
  cbn [cl_lock]. rewrite Hl, !role_set, decide_False, decide_True by done. split; [|done].
  change (leads (role_of i c) = true). by rewrite Hi.
Qed.

(** An etcd failure makes a leader: a process whose session or campaign fails runs as
    the leader by itself, whoever else leads. *)
Theorem etcd_failure_leads c i e : role_of i c = Following ->
  (forall l, GET_LOCK i (cl_lock c) = (l, Err e) -> leads (role_of i (happens (Campaign i None) c)) = true) /\
  leads (role_of i (happens (Campaign i (Some e)) c)) = true /\
  forall k, k <> i -> role_of k (happens (Campaign i (Some e)) c) = role_of k c.
Proof.
  intros Hi. unfold happens. rewrite Hi. split_and!.
  - intros l ->. rewrite role_set, decide_True by done. done.
  - by rewrite role_set, decide_True.
  - intros k Hk. rewrite role_set, decide_False; [done|congruence].
Qed.
End Properties.

(** ** A lock server *)

#[export] Instance simple_lock : LockService (option nat) := {
  holder l := l;
  GET_LOCK i l := match l with Some j => if decide (i = j) then (l, Ok 1) else (l, Ok 0) | None => (Some i, Ok 1) end;
  RELEASE_LOCK i l := if decide (l = Some i) then None else l;
  session_end i l := if decide (l = Some i) then None else l }.

#[export] Instance simple_lock_laws : LockLaws (option nat).
Proof.
  constructor; [|intros i l; simpl; destruct (decide (l = Some i)); auto|done].
  intros i [j|] l' r; simpl; [destruct (decide (i = j)) as [->|]|]; intros [= <- <-]; auto.
Qed.

Definition no_leader : Cluster (L:=option nat) := mkCluster None ∅.

Lemma mysql_one_leader_witness :
  let c := execution [Round 1 None; Round 2 None; Cancel 1 (Sentinel "context canceled"); Round 2 None; Released 1; Round 2 None; Round 3 None] no_leader in
  role_of 2 c = Leading "mysql" /\ forall j, leads (role_of j c) = true -> j = 2%nat.
Proof.
  cbv zeta. split; [vm_compute; reflexivity|]. intros j Hj.
  apply (mysql_one_leader [Round 1 None; Round 2 None; Cancel 1 (Sentinel "context canceled"); Round 2 None; Released 1; Round 2 None; Round 3 None] no_leader j 2).
  - intros k. reflexivity.
  - repeat constructor.
  - exact Hj.
  - vm_compute. reflexivity.
Defined.

Lemma lost_session_second_leader_witness :
  let c := execution [Round 1 None; Round 2 None] no_leader in
  let c' := execution [SessionLost 1; Round 2 None] c in
  leads (role_of 1 c') = true /\ leads (role_of 2 c') = true.
Proof.
  apply (lost_session_second_leader (execution [Round 1 None; Round 2 None] no_leader) 1 2 "mysql" (Some 2%nat));
    [lia|vm_compute; reflexivity..].
Defined.

Lemma etcd_failure_leads_witness :
  let c := execution [Campaign 1 None] no_leader in
  role_of 1 c = Leading "etcd" /\ leads (role_of 2 (happens (Campaign 2 (Some (Sentinel "timeout"))) c)) = true.
Proof.
  split; [vm_compute; reflexivity|].
  apply (etcd_failure_leads (execution [Campaign 1 None] no_leader) 2 (Sentinel "timeout")). vm_compute. reflexivity.
Defined.
