(* ===== verification/Config.v ===== *)
(** internal/config/config.go, internal/repo/factory.go and the choice of the leader
    elector in cmd/scheduler/main.go: the settings of a process from its environment,
    with the environment as a function that is empty where a variable is not set. *)
From S2P Require Import Prelude GoStd GoFormat Labels Leader.

Record Config := mkConfig {
  ServiceName : string; HTTPAddr : string; GRPCAddr : string; SchedulerURL : string; SchedulerGRPCAddr : string;
  MySQLDSN : string; RedisAddr : string; AlertWebhookURL : string; MaxPending : Z; EtcdAddrs : list string;
  RepoBackend : string; MigrationDir : string; AutoMigrate : bool; InternalProtocol : string
}.

(** The comma-separated parts that are not blank. *)
Definition splitEnv (value : string) : list string :=
  filter (fun s => s <> "") (TrimSpace <$> Split ","%char value).

(** [if value := os.Getenv(name); value != "" { field = value }] *)
Definition or_env (env : string -> string) (name default : string) : string :=
  if bool_decide (env name = "") then default else env name.

Definition Default (env : string -> string) (serviceName : string) : Config :=
  let http := if bool_decide (serviceName = "worker") then ":8081" else if bool_decide (serviceName = "api") then ":8082"
              else if bool_decide (serviceName = "ai-service") then ":8083" else ":8080" in
  let grpc := if bool_decide (serviceName = "worker") then ":9091" else ":9090" in
  {| ServiceName := serviceName; HTTPAddr := or_env env "APP_HTTP_ADDR" http; GRPCAddr := or_env env "APP_GRPC_ADDR" grpc;
     SchedulerURL := or_env env "SCHEDULER_URL" "http://127.0.0.1:8080";
     SchedulerGRPCAddr := or_env env "SCHEDULER_GRPC_ADDR" "127.0.0.1:9090";
     MySQLDSN := or_env env "MYSQL_DSN" "root:root@tcp(127.0.0.1:3306)/go_ai_scheduler?parseTime=true";
     RedisAddr := or_env env "REDIS_ADDR" "127.0.0.1:6379"; AlertWebhookURL := or_env env "ALERT_WEBHOOK_URL" "";
     MaxPending := match Atoi (env "MAX_PENDING") with Some n => if 0 <? n then n else 1000 | None => 1000 end;
     EtcdAddrs := if bool_decide (env "ETCD_ENDPOINTS" = "") then ["127.0.0.1:2379"] else splitEnv (env "ETCD_ENDPOINTS");
     RepoBackend := or_env env "REPO_BACKEND" "mysql"; MigrationDir := or_env env "MIGRATION_DIR" "migrations";
     AutoMigrate := bool_decide (env "AUTO_MIGRATE" ∈ ["1"; "true"; "TRUE"]);
     InternalProtocol := or_env env "INTERNAL_PROTOCOL" "http" |}.

(** [OpenGorm]: the DSN asks for interpolation on the client's side. *)
Definition gorm_dsn (dsn : string) : string :=
  if Contains dsn "interpolateParams=true" then dsn
  else if Contains dsn "?" then dsn +:+ "&interpolateParams=true" else dsn +:+ "?interpolateParams=true".

(** ** Properties *)

Lemma splitEnv_trimmed value s : s ∈ splitEnv value -> s <> "".
Proof. unfold splitEnv. rewrite list_elem_of_filter. by intros [? _]. Qed.

Lemma MaxPending_positive env name : 0 < MaxPending (Default env name).
Proof. simpl. destruct (Atoi _) as [n|]; [|lia]. destruct (Z.ltb_spec 0 n); lia. Qed.

(** The MySQL lock is not what elects the leader: without ETCD_ENDPOINTS the settings
    name a local etcd, so the scheduler only uses the MySQL lock when the variable is
    set to blanks and commas; and when the etcd client or its session fails, every
    process leads by itself. *)
Theorem default_elector env name has_db client :
  (New has_db (EtcdAddrs (Default env name)) client = mysqlElector ->
     env "ETCD_ENDPOINTS" <> "" /\ splitEnv (env "ETCD_ENDPOINTS") = []) /\
  (env "ETCD_ENDPOINTS" = "" -> forall e, client = Some e -> New has_db (EtcdAddrs (Default env name)) client = localElector).
Proof.
  unfold New, newEtcdElector, Default. cbn [EtcdAddrs]. destruct (bool_decide_reflect (env "ETCD_ENDPOINTS" = "")) as [He|He]; split.
  - simpl. by destruct client.
  - by intros _ e ->.
  - case_bool_decide as Hs; cbn [negb]; [done|]. by destruct client.
  - done.
Qed.

Definition bare_env (_ : string) : string := "".

Lemma default_elector_witness : New true (EtcdAddrs (Default bare_env "scheduler")) (Some (Sentinel "no endpoints")) = localElector.
Proof. exact (proj2 (default_elector bare_env "scheduler" true (Some (Sentinel "no endpoints"))) eq_refl _ eq_refl). Defined.
