(* ===== verification/Migrate.v ===== *)
(** internal/pkg/xmysql/migrate.go and cmd/migrate: the SQL files of a directory,
    applied once each and in order. The database is a class of the statements the code
    issues, with what MySQL documents of them: a transaction keeps its rows to itself
    until it commits, a schema change commits at once (also what is open) and is not
    rolled back, a primary key is not inserted twice, and a commit whose answer is lost
    may or may not have taken place. *)
From S2P Require Import Prelude GoStd.
From Stdlib Require Import Sorting.Sorted.

#[local] Open Scope prog_scope.

(** ** path/filepath *)

Module Filepath.
Abbreviation slash := "/"%char.

Definition push (rooted : bool) (stack : list string) (elem : string) : list string :=
  if bool_decide (elem = "" \/ elem = ".") then stack
  else if bool_decide (elem = "..") then
    match stack with
    | top :: rest => if bool_decide (top = "..") then ".." :: stack else rest
    | [] => if rooted then [] else [".."]
    end
  else elem :: stack.

(** The elements of a path, the last one first. *)
Definition elements (path : string) : list string :=
  foldl (push (HasPrefix path "/")) [] (Split slash path).

Definition Clean (path : string) : string :=
  let rooted := HasPrefix path "/" in
  match elements path with
  | [] => if rooted then "/" else "."
  | es => (if rooted then "/" else "") +:+ Join slash (reverse es)
  end.

(** [filepath.Join(dir, name)] *)
Definition Join2 (dir name : string) : string :=
  if bool_decide (dir = "") then if bool_decide (name = "") then "" else Clean name else Clean (dir +:+ "/" +:+ name).

Definition Base (path : string) : string :=
  if bool_decide (path = "") then "." else default "/" (last (filter (fun s => s <> "") (Split slash path))).
End Filepath.

(** [strings.HasSuffix] *)
Definition HasSuffix (s suffix : string) : bool := HasPrefix (String.rev s) (String.rev suffix).

(** ** The database *)

Class SQLDB (D : Type) := {
  sql_CreateTracking : D -> D * result unit;
  sql_Applied : D -> result (list string);
  sql_Begin : D -> D * result unit;
  sql_Exec : string -> D -> D * result unit;
  sql_Record : string -> D -> D * result unit;
  sql_Rollback : D -> D;
  sql_Commit : D -> D * result unit
}.

(** [tracked]: the committed rows of schema_migrations. [pending]: the rows of the
    transaction that is open. [executed]: the statements of migrations in effect.
    [plain]: the statements that neither name the tracking table nor begin or end a
    transaction by name. The rows read may be fewer than there are: the reading stops
    at a connection error. A statement, a record or a commit that fails may have been carried
    out, when only its answer was lost. *)
Class SQLLaws (D : Type) `{!SQLDB D} := {
  tracked : D -> list string;
  pending : D -> option (list string);
  executed : D -> list string;
  plain : string -> Prop;
  sql_CreateTracking_law d d' r : sql_CreateTracking d = (d', r) -> tracked d' = tracked d /\ executed d' = executed d;
  sql_Applied_law d names : sql_Applied d = Ok names -> names ⊆ tracked d;
  sql_Begin_law d d' r : sql_Begin d = (d', r) -> tracked d' = tracked d /\ executed d' = executed d /\ (r = Ok tt -> pending d' = Some []);
  sql_Exec_law s d d' r : plain s -> pending d = Some [] -> sql_Exec s d = (d', r) ->
    tracked d' = tracked d /\
    match r with
    | Ok _ => pending d' = Some [] /\ executed d' = executed d ++ [s]
    | Err _ => executed d' = executed d \/ executed d' = executed d ++ [s]
    end;
  sql_Record_law name d d' r : pending d = Some [] -> sql_Record name d = (d', r) -> executed d' = executed d /\
    match r with
    | Ok _ => (name ∉ tracked d) /\
        (tracked d' = tracked d /\ pending d' = Some [name] \/ tracked d' = tracked d ++ [name] /\ pending d' = Some [])
    | Err _ => tracked d' = tracked d \/ (name ∉ tracked d) /\ tracked d' = tracked d ++ [name]
    end;
  sql_Rollback_law d : tracked (sql_Rollback d) = tracked d /\ executed (sql_Rollback d) `sublist_of` executed d;
  sql_Commit_law d d' r names : pending d = Some names -> sql_Commit d = (d', r) ->
    match r with
    | Ok _ => tracked d' = tracked d ++ names /\ executed d' = executed d
    | Err _ => (tracked d' = tracked d \/ tracked d' = tracked d ++ names) /\ executed d' `sublist_of` executed d
    end
}.

(** ** The migrations *)

Record DirEntry := mkEntry { entry_Name : string; entry_IsDir : bool }.

Definition splitSQLStatements (content : string) : list string :=
  filter (fun s => s <> "") (TrimSpace <$> Split ";"%char content).

(** The files of the directory that are migrations, by path. *)
Definition migration_files (dir : string) (entries : list DirEntry) : list string :=
  merge_sort String.le (Filepath.Join2 dir <$>
    (entry_Name <$> filter (fun e => entry_IsDir e = false /\ HasSuffix (entry_Name e) ".sql" = true) entries)).

Section Migrate.
Context {D : Type} `{!SQLDB D}.
Context (read_dir : string -> result (list DirEntry)) (read_file : string -> result string).

Definition wrapped {A} (prefix : string) (m : prog D gerror A) : prog D gerror A :=
  fun d => match m d with (d', Ok a) => (d', Ok a) | (d', Err e) => (d', Err (Wrap prefix e)) end.

(** [if err := m; err != nil { tx.Rollback(); return ... }] *)
Definition in_tx {A} (prefix : string) (m : prog D gerror A) : prog D gerror A :=
  fun d => match m d with (d', Ok a) => (d', Ok a) | (d', Err e) => (sql_Rollback d', Err (Wrap prefix e)) end.

(** One file that has not been applied. *)
Definition apply_file (file : string) : prog D gerror unit :=
  let name := Filepath.Base file in
  content <- wrapped ("read migration file " +:+ file) (fun d => (d, read_file file)) ;;
  _ <- wrapped ("begin tx for " +:+ name) sql_Begin ;;
  _ <- for_each (fun statement => in_tx ("apply migration " +:+ file) (sql_Exec statement)) (splitSQLStatements content) ;;
  _ <- in_tx ("record migration " +:+ name) (sql_Record name) ;;
  wrapped ("commit migration " +:+ name) sql_Commit.

Definition RunMigrations (dir : string) : prog D gerror unit :=
  _ <- wrapped "create schema_migrations" sql_CreateTracking ;;
  applied <- (fun d => (d, Ok match sql_Applied d with Ok names => names | Err _ => [] end)) ;;
  entries <- wrapped "read migration dir" (fun d => (d, read_dir dir)) ;;
  for_each (fun file => if bool_decide (Filepath.Base file ∈ applied) then ret tt else apply_file file)
    (migration_files dir entries).
End Migrate.

(** ** Paths *)

(** A name a directory may hold. *)
Definition file_name (name : string) : Prop :=
  contains_byte Filepath.slash name = false /\ name <> "" /\ name <> "." /\ name <> "..".

Lemma Split_snoc c a b : contains_byte c b = false -> Split c (a +:+ String c b) = Split c a ++ [b].
Proof.
  intros Hb. induction a as [|d a IH].
  - change (EmptyString +:+ String c b) with (String c b). cbn [Split]. by rewrite Ascii.eqb_refl, Split_none.
  - change (String d a +:+ String c b) with (String d (a +:+ String c b)). cbn [Split]. rewrite IH.
    destruct (Ascii.eqb d c); [done|]. by destruct (Split c a) as [|p ps] eqn:E; [destruct (Split_not_nil c a)|].
Qed.

Lemma Join_snoc c ps p : ps <> [] -> Join c (ps ++ [p]) = Join c ps +:+ String c p.
Proof.
  induction ps as [|q ps IH]; [done|]. intros _. destruct ps as [|q' ps]; [done|].
  change (Join c ((q :: q' :: ps) ++ [p])) with (q +:+ String c (Join c ((q' :: ps) ++ [p]))).
  rewrite IH by done. change (Join c (q :: q' :: ps)) with (q +:+ String c (Join c (q' :: ps))). by rewrite append_assoc.
Qed.

(** The paths of a directory's files differ only in the names at their ends. *)
Lemma Join2_prefix dir : exists prefix,
  (prefix = "" \/ exists d, prefix = d +:+ "/") /\ forall name, file_name name -> Filepath.Join2 dir name = prefix +:+ name.
Proof.
  assert (forall r stack name, file_name name -> Filepath.push r stack name = name :: stack) as Hpush.
  { intros r stack name (_ & H1 & H2 & H3). unfold Filepath.push. rewrite !bool_decide_eq_false_2; naive_solver. }
  assert (forall r es, exists prefix, (prefix = "" \/ exists d, prefix = d +:+ "/") /\ forall name, file_name name ->
    (if r : bool then "/" else "") +:+ Join Filepath.slash (reverse (name :: es)) = prefix +:+ name) as Hjoin.
  { intros r es. destruct (decide (es = [])) as [->|Hes].
    - exists (if r then "/" else ""). split; [destruct r; [right; by exists ""|by left]|]. intros name _. by destruct r.
    - exists (((if r then "/" else "") +:+ Join Filepath.slash (reverse es)) +:+ "/"). split; [right; eauto|]. intros name _.
      rewrite reverse_cons, Join_snoc by (intros E; apply (f_equal reverse) in E; by rewrite reverse_involutive in E).
      rewrite !append_assoc. done. }
  unfold Filepath.Join2. case_bool_decide as Hd.
  - exists "". split; [by left|]. intros name Hn. rewrite bool_decide_eq_false_2 by apply Hn.
    unfold Filepath.Clean, Filepath.elements. rewrite Split_none by apply Hn. cbn [foldl]. rewrite Hpush by done.
    destruct Hn as (Hs & Hn & _). destruct name as [|c name]; [done|]. cbn [contains_byte] in Hs.
    assert (HasPrefix (String c name) "/" = false) as ->; [|done].
    unfold HasPrefix. cbn [strip_prefix]. rewrite Ascii.eqb_sym. by destruct (Ascii.eqb c "/").
  - destruct (Hjoin (HasPrefix (dir +:+ "/") "/") (foldl (Filepath.push (HasPrefix (dir +:+ "/") "/")) [] (Split Filepath.slash dir))) as (prefix & Hp & Hj).
    exists prefix. split; [done|]. intros name Hn. unfold Filepath.Clean, Filepath.elements.
    assert (HasPrefix (dir +:+ "/" +:+ name) "/" = HasPrefix (dir +:+ "/") "/") as ->.
    { destruct dir as [|c dir]; [done|]. change (HasPrefix (String c (dir +:+ "/" +:+ name)) "/" = HasPrefix (String c (dir +:+ "/")) "/").
      unfold HasPrefix. cbn [strip_prefix]. by destruct (Ascii.eqb _ _). }
    change ("/" +:+ name) with (String Filepath.slash name). rewrite Split_snoc by apply Hn.
    rewrite foldl_app. cbn [foldl]. rewrite Hpush by done. by apply Hj.
Qed.

Lemma Base_Join2 dir name : file_name name -> Filepath.Base (Filepath.Join2 dir name) = name.
Proof.
  intros Hn. destruct (Join2_prefix dir) as (prefix & Hp & Hj). rewrite Hj by done. destruct Hn as (Hs & Hn & _).
  unfold Filepath.Base. destruct Hp as [->|[d ->]].
  - change ("" +:+ name) with name. rewrite bool_decide_eq_false_2 by done. rewrite Split_none by done.
    rewrite filter_cons_True by done. done.
  - rewrite bool_decide_eq_false_2 by (destruct d; done). rewrite append_assoc.
    change ("/" +:+ name) with (String Filepath.slash name). rewrite Split_snoc by done.
    rewrite filter_app, filter_cons_True, filter_nil by done. by rewrite last_snoc.
Qed.

Lemma leb_app p a b : String.leb (p +:+ a) (p +:+ b) = String.leb a b.
Proof.
  induction p as [|c p IH]; [done|]. change (String.leb (String c (p +:+ a)) (String c (p +:+ b)) = String.leb a b).
  rewrite <- IH. unfold String.leb. cbn [String.compare].
  assert (Ascii.compare c c = Eq) as -> by (unfold Ascii.compare; apply N.compare_refl). done.
Qed.

(** The migrations of a directory come in the order of their names. *)
Definition sql_names (entries : list DirEntry) : list string :=
  entry_Name <$> filter (fun e => entry_IsDir e = false /\ HasSuffix (entry_Name e) ".sql" = true) entries.

Lemma migration_files_names dir entries : Forall file_name (entry_Name <$> entries) ->
  Filepath.Base <$> migration_files dir entries = merge_sort String.le (sql_names entries).
Proof.
  intros Hn. assert (Forall file_name (sql_names entries)) as Hs.
  { rewrite Forall_forall in *. unfold sql_names. intros n (e & -> & [_ He]%list_elem_of_filter)%list_elem_of_fmap.
    apply Hn. by apply list_elem_of_fmap_2. }
  unfold migration_files. fold (sql_names entries).
  set (names := sql_names entries) in *. clearbody names. clear Hn.
  apply (Sorted_unique String.le).
  - destruct (Join2_prefix dir) as (prefix & _ & Hj).
    assert (Forall (fun p => exists name, file_name name /\ p = prefix +:+ name) (merge_sort String.le (Filepath.Join2 dir <$> names))) as Hall.
    { rewrite merge_sort_Permutation. apply Forall_fmap. eapply Forall_impl; [exact Hs|]. intros name Hname. exists name. split; [done|]. by apply Hj. }
    assert (Sorted String.le (merge_sort String.le (Filepath.Join2 dir <$> names))) as Hsorted by apply (Sorted_merge_sort _).
    assert (forall name, file_name name -> Filepath.Base (prefix +:+ name) = name) as Hb
      by (intros name Hname; rewrite <- Hj by done; by apply Base_Join2).
    induction Hsorted as [|p ps Hps IH Hd]; [constructor|]. apply Forall_cons in Hall as [(a & Ha & ->) Hall].
    rewrite fmap_cons. constructor; [by apply IH|]. destruct Hd as [|p' ps' Hle]; [constructor|].
    apply Forall_cons in Hall as [(b & Hbn & ->) _]. rewrite fmap_cons. constructor. rewrite !Hb by done.
    unfold String.le in *. by rewrite leb_app in Hle.
  - apply (Sorted_merge_sort _).
  - rewrite !merge_sort_Permutation. rewrite <- list_fmap_compose.
    assert ((Filepath.Base ∘ Filepath.Join2 dir) <$> names = names) as ->; [|done].
    induction Hs as [|name names Hname _ IH]; [done|]. rewrite fmap_cons, IH. simpl. by rewrite Base_Join2.
Qed.

(** ** What a run does *)

Section MigrateProperties.
Context {D : Type} `{!SQLDB D} `{!SQLLaws D}.
Context (read_dir : string -> result (list DirEntry)) (read_file : string -> result string).

Definition statements_of (file : string) : list string :=
  match read_file file with Ok content => splitSQLStatements content | Err _ => [] end.

(** The state after the migrations [names] with the statements [sts] were applied, and
    after a run that failed while they were. *)
Definition after (names sts : list string) (d d' : D) : Prop :=
  tracked d' = tracked d ++ names /\ executed d' = executed d ++ sts.
Definition within (names sts : list string) (d d' : D) : Prop :=
  (exists done_, done_ `prefix_of` names /\ tracked d' = tracked d ++ done_) /\ executed d' `sublist_of` executed d ++ sts.

Lemma execute_all prefix sts d d' r : Forall plain sts -> pending d = Some [] ->
  for_each (fun s => in_tx prefix (sql_Exec s)) sts d = (d', r) ->
  match r with
  | Ok _ => after [] sts d d' /\ pending d' = Some []
  | Err _ => within [] sts d d'
  end.
Proof.
  intros Hp. revert d. induction Hp as [|s sts Hs _ IH]; intros d Hd E.
  - injection E as <- <-. split; [|done]. by split; rewrite app_nil_r.
  - cbn [for_each] in E. unfold bind at 1, in_tx at 1 in E. destruct (sql_Exec s d) as [d1 [[]|e]] eqn:E1.
    + destruct (sql_Exec_law _ _ _ _ Hs Hd E1) as (Ht & Hp1 & He). specialize (IH d1 Hp1 E).
      unfold after, within in *. rewrite Ht, He, <- app_assoc in IH. by destruct r.
    + injection E as <- <-. destruct (sql_Exec_law _ _ _ _ Hs Hd E1) as (Ht & He).
      destruct (sql_Rollback_law d1) as [Hr Hs1]. split; [exists []; split; [done|by rewrite Hr, Ht, app_nil_r]|].
      destruct He as [He|He]; rewrite He in Hs1; [by apply sublist_inserts_r|]. etrans; [exact Hs1|].
      apply sublist_app; [done|]. apply sublist_skip, sublist_nil_l.
Qed.

Lemma apply_file_spec file d d' r : Forall plain (statements_of file) ->
  apply_file read_file file d = (d', r) ->
  match r with
  | Ok _ => after [Filepath.Base file] (statements_of file) d d' /\ Filepath.Base file ∉ tracked d
  | Err _ => within [Filepath.Base file] (statements_of file) d d' /\ (Filepath.Base file ∉ tracked d \/ tracked d' = tracked d)
  end.
Proof.
  intros Hp E. assert (forall sts, tracked d' = tracked d -> executed d' `sublist_of` executed d ++ sts -> within [Filepath.Base file] sts d d') as Hsame
    by (intros sts Ht He; split; [exists []; split; [apply prefix_nil|by rewrite Ht, app_nil_r]|done]).
  revert E. unfold apply_file, statements_of in *. unfold bind at 1, wrapped at 1.
  destruct (read_file file) as [content|e] eqn:Ef; [|intros [= <- <-]; split; [apply Hsame; by rewrite ?app_nil_r|by right]].
  unfold bind at 1, wrapped at 1. destruct (sql_Begin d) as [d1 [[]|e]] eqn:E1; destruct (sql_Begin_law _ _ _ E1) as (Ht1 & He1 & Hp1);
    [|intros [= <- <-]; split; [apply Hsame; [done|rewrite He1; by apply sublist_inserts_r]|by right]].
  specialize (Hp1 eq_refl). unfold bind at 1. destruct (for_each _ _ d1) as [d2 r2] eqn:E2.
  pose proof (execute_all _ _ _ _ _ Hp Hp1 E2) as H2. destruct r2 as [[]|e].
  2: { intros [= <- <-]. destruct H2 as [(l & Hl%prefix_nil_inv & Ht2) He2]. subst l. rewrite app_nil_r, Ht1 in Ht2. rewrite He1 in He2. eauto. }
  destruct H2 as [[Ht2 He2] Hp2]. rewrite app_nil_r, Ht1 in Ht2. rewrite He1 in He2.
  unfold bind at 1, in_tx at 1. destruct (sql_Record _ d2) as [d3 r3] eqn:E3. destruct (sql_Record_law _ _ _ _ Hp2 E3) as [He3 H3].
  rewrite He2 in He3. destruct r3 as [[]|e].
  2: { intros [= <- <-]. destruct (sql_Rollback_law d3) as [Hr Hs]. rewrite He3 in Hs. destruct H3 as [Ht3|[Hnew Ht3]].
       - split; [|right; congruence]. apply Hsame; congruence.
       - rewrite Ht2 in *. split; [|by left]. split; [|done]. exists [Filepath.Base file]. split; [done|congruence]. }
  destruct H3 as [Hnew H3]. rewrite Ht2 in Hnew.
  assert (exists ps, pending d3 = Some ps /\ tracked d3 ++ ps = tracked d ++ [Filepath.Base file] /\
    (tracked d3 = tracked d \/ tracked d3 = tracked d ++ [Filepath.Base file])) as (ps & Hp3 & Hps & Ht3).
  { destruct H3 as [[Ha Hb]|[Ha Hb]]; eexists; (split; [exact Hb|]); rewrite Ha, Ht2, ?app_nil_r; auto. }
  unfold wrapped. destruct (sql_Commit d3) as [d4 r4] eqn:E4. pose proof (sql_Commit_law _ _ _ _ Hp3 E4) as H4.
  destruct r4 as [[]|e]; intros [= <- <-].
  - destruct H4 as [Ht4 He4]. split; [|done]. split; congruence.
  - destruct H4 as [Ht4 He4]. split; [|by left]. rewrite He3 in He4. rewrite Hps in Ht4. split; [|done].
    assert (tracked d4 = tracked d \/ tracked d4 = tracked d ++ [Filepath.Base file]) as [->| ->]
      by (destruct Ht4 as [-> | ->]; auto).
    + exists []. split; [apply prefix_nil|by rewrite app_nil_r].
    + by exists [Filepath.Base file].
Qed.

(** What is left to do when the migrations [applied] were read. *)
Definition todo (applied files : list string) : list string := filter (fun f => Filepath.Base f ∉ applied) files.

Abbreviation run_files applied :=
  (for_each (fun file => if bool_decide (Filepath.Base file ∈ applied) then ret tt else apply_file read_file file)).

Lemma within_after n1 s1 n2 s2 d d1 d2 : after n1 s1 d d1 -> within n2 s2 d1 d2 -> within (n1 ++ n2) (s1 ++ s2) d d2.
Proof.
  intros [Ht He] [(l & Hl & Hl2) Hs]. split; [exists (n1 ++ l); split; [by apply prefix_app|by rewrite Hl2, Ht, app_assoc]|].
  by rewrite He, <- app_assoc in Hs.
Qed.

Lemma run_files_spec applied files d d' r : Forall (fun f => Forall plain (statements_of f)) files ->
  run_files applied files d = (d', r) -> NoDup (tracked d) ->
  NoDup (tracked d') /\
  match r with
  | Ok _ => after (Filepath.Base <$> todo applied files) (mjoin (statements_of <$> todo applied files)) d d'
  | Err _ => within (Filepath.Base <$> todo applied files) (mjoin (statements_of <$> todo applied files)) d d'
  end.
Proof.
  intros Hp. revert d. induction Hp as [|f files Hf _ IH]; intros d E Hn.
  - injection E as <- <-. split; [done|]. split; by rewrite app_nil_r.
  - cbn [for_each] in E. unfold bind in E. unfold todo. rewrite filter_cons. fold (todo applied files).
    case_bool_decide as Hin; [rewrite decide_False by tauto; by apply IH|]. rewrite decide_True by done.
    cbn [fmap list_fmap mjoin list_join]. destruct (apply_file read_file f d) as [d1 r1] eqn:E1.
    pose proof (apply_file_spec _ _ _ _ Hf E1) as H1. destruct r1 as [[]|e].
    + destruct H1 as [Ha Hnew]. destruct (IH d1 E) as [Hn' Hr].
      { rewrite (proj1 Ha). apply NoDup_app. split_and!; [done|set_solver|apply NoDup_singleton]. }
      split; [done|]. destruct r; [|by apply (within_after [_] _ _ _ _ d1)].
      destruct Ha as [Ht He], Hr as [Ht' He']. split; [rewrite Ht', Ht|rewrite He', He]; by rewrite <- app_assoc.
    + injection E as <- <-. destruct H1 as [[(l & Hl & Ht) He] Hor]. split.
      * destruct Hor as [Hnew|Heq]; [|by rewrite Heq]. rewrite Ht. apply NoDup_app.
        split_and!; [done| |destruct Hl as [l' Hl]; eapply sublist_NoDup; [apply (NoDup_singleton (Filepath.Base f))|rewrite Hl; by apply sublist_inserts_r]].
        intros x Hx Hxl. apply Hnew. eapply elem_of_prefix in Hl; [|exact Hxl]. apply list_elem_of_singleton in Hl. by subst.
      * split; [exists l; split; [|done]; by etrans; [exact Hl|]; apply (prefix_app_r [_] [_])|]. rewrite app_assoc. by apply sublist_inserts_r.
Qed.

Context (dir : string) (entries : list DirEntry).
Hypothesis Hdir : read_dir dir = Ok entries.
Hypothesis Hnames : Forall file_name (entry_Name <$> entries).
Hypothesis Hplain : Forall (fun f => Forall plain (statements_of f)) (migration_files dir entries).

(** The migrations of the directory that are not recorded, in the order of their names,
    and the statements of these. *)
Definition missing (recorded : list string) : list string :=
  filter (fun n => n ∉ recorded) (merge_sort String.le (sql_names entries)).
Definition missing_statements (recorded : list string) : list string :=
  mjoin (statements_of <$> todo recorded (migration_files dir entries)).

Lemma todo_missing recorded : Filepath.Base <$> todo recorded (migration_files dir entries) = missing recorded.
Proof.
  unfold missing. rewrite <- migration_files_names with (dir := dir) by done. unfold todo.
  clear Hplain. induction (migration_files dir entries) as [|f fs IH]; [done|].
  rewrite fmap_cons, !filter_cons. repeat case_decide; try done. cbn [fmap list_fmap]. by rewrite <- IH.
Qed.

(** What was read of the tracking table, whole or not. *)
Definition history (d : D) : list string := match sql_Applied d with Ok names => names | Err _ => [] end.

Lemma RunMigrations_spec d d' r : RunMigrations read_dir read_file dir d = (d', r) -> NoDup (tracked d) ->
  NoDup (tracked d') /\ exists d1, tracked d1 = tracked d /\ executed d1 = executed d /\
  match r with
  | Ok _ => after (missing (history d1)) (missing_statements (history d1)) d d'
  | Err _ => within (missing (history d1)) (missing_statements (history d1)) d d'
  end.
Proof.
  unfold RunMigrations, wrapped. unfold bind at 1. destruct (sql_CreateTracking d) as [d1 [[]|e]] eqn:E1;
    destruct (sql_CreateTracking_law _ _ _ E1) as [Ht He].
  - unfold bind. rewrite Hdir. fold (history d1). intros E Hn. rewrite <- Ht in Hn.
    destruct (run_files_spec _ _ _ _ _ Hplain E Hn) as [Hn' Hr]. split; [done|]. exists d1. split_and!; [done..|].
    rewrite todo_missing in Hr. unfold missing_statements, after, within in *. by rewrite Ht, He in Hr.
  - intros [= <- <-] Hn. rewrite Ht. split; [done|]. exists d1. split_and!; [done..|]. split.
    + exists []. split; [apply prefix_nil|by rewrite Ht, app_nil_r].
    + rewrite He. by apply sublist_inserts_r.
Qed.

(** Migrations under every failure: whatever the database answers, a run records no
    migration twice, records only migrations of the directory, in the order of their
    names and without gaps among those it takes for missing, and executes no other
    statements than theirs. *)
Theorem migrations_in_order d d' r : RunMigrations read_dir read_file dir d = (d', r) -> NoDup (tracked d) ->
  NoDup (tracked d') /\ exists recorded done_, done_ `prefix_of` missing recorded /\
    tracked d' = tracked d ++ done_ /\ executed d' `sublist_of` executed d ++ missing_statements recorded.
Proof.
  intros E Hn. destruct (RunMigrations_spec _ _ _ E Hn) as (Hn' & d1 & _ & _ & Hr). split; [done|].
  exists (history d1). destruct r as [[]|e].
  - destruct Hr as [-> ->]. by exists (missing (history d1)).
  - destruct Hr as [(l & Hl & Ht) He]. by exists l.
Qed.

(** The tracking table can be read, whole. *)
Definition readable : Prop := forall d, history d ≡ₚ tracked d.

Lemma missing_perm l l' : l ≡ₚ l' -> missing l = missing l' /\ missing_statements l = missing_statements l'.
Proof.
  intros Hl. unfold missing, missing_statements, todo. split; [|do 2 f_equal]; apply list_filter_iff; intros x; by rewrite Hl.
Qed.

(** Where nothing is missing, nothing happens. *)
Lemma nothing_missing d d' r : readable -> (forall n, n ∈ sql_names entries -> n ∈ tracked d) ->
  RunMigrations read_dir read_file dir d = (d', r) -> tracked d' = tracked d /\ executed d' = executed d.
Proof.
  intros Hr Hall. unfold RunMigrations, wrapped, bind. destruct (sql_CreateTracking d) as [d1 [[]|e]] eqn:E1;
    destruct (sql_CreateTracking_law _ _ _ E1) as [Ht He]; [|by intros [= <- <-]].
  rewrite Hdir. fold (history d1).
  assert (Forall (fun f => Filepath.Base f ∈ history d1) (migration_files dir entries)) as Hf.
  { assert (Forall (fun n => n ∈ history d1) (Filepath.Base <$> migration_files dir entries)) as Hn; [|by apply Forall_fmap in Hn].
    rewrite migration_files_names by done. apply Forall_forall. intros n. rewrite (merge_sort_Permutation String.le), (Hr d1), Ht. apply Hall. }
  intros E. assert (d' = d1) as ->; [|done]. revert E.
  clear Hplain. induction Hf as [|f fs Hf _ IH]; [by intros [= <- <-]|]. cbn [for_each]. unfold bind. by rewrite bool_decide_eq_true_2.
Qed.

(** After a successful run everything is recorded. *)
Lemma all_recorded d d' n : readable -> NoDup (tracked d) -> RunMigrations read_dir read_file dir d = (d', Ok tt) ->
  n ∈ sql_names entries -> n ∈ tracked d'.
Proof.
  intros Hr Hn E Hin. destruct (RunMigrations_spec _ _ _ E Hn) as (_ & d1 & Ht1 & _ & [Ht _]).
  rewrite Ht, elem_of_app. destruct (decide (n ∈ tracked d)) as [|Hnot]; [by left|right].
  unfold missing. apply list_elem_of_filter. split; [by rewrite (Hr d1), Ht1|]. by rewrite merge_sort_Permutation.
Qed.

(** C28. Suppose the tracking table can be read whole at every time and holds no name twice,
    and the files of the directory hold plain statements. A successful run executes exactly
    the statements of the migrations that were not recorded, in the order of the names of
    their files, and records these; every migration of the directory is recorded then, and
    running again executes and records nothing, whatever the database answers to the rest.
    A table that cannot be read is taken for empty ([lost_history_fails]). *)
Theorem migrations_once d d' : readable -> NoDup (tracked d) -> RunMigrations read_dir read_file dir d = (d', Ok tt) ->
  tracked d' = tracked d ++ missing (tracked d) /\ executed d' = executed d ++ missing_statements (tracked d) /\
  (forall n, n ∈ sql_names entries -> n ∈ tracked d') /\
  (forall d2 r, RunMigrations read_dir read_file dir d' = (d2, r) -> tracked d2 = tracked d' /\ executed d2 = executed d').
Proof.
  intros Hr Hn E. destruct (RunMigrations_spec _ _ _ E Hn) as (Hn' & d1 & Ht1 & _ & [Ht He]).
  destruct (missing_perm _ _ (Hr d1)) as [Hm Hs]. rewrite Hm, Ht1 in Ht. rewrite Hs, Ht1 in He.
  assert (forall n, n ∈ sql_names entries -> n ∈ tracked d') as Hall by (intros n; by apply (all_recorded d d' n)).
  split_and!; [done..|]. intros d2 r E2. by apply (nothing_missing d' d2 r).
Qed.

(** An error while the tracking table is read is not looked at: all migrations are taken
    for missing then, so when one was applied before, its statements run again, and the
    run fails when it is recorded. *)
Theorem lost_history_fails d d' r n : (forall d0, exists e, sql_Applied d0 = Err e) -> NoDup (tracked d) ->
  n ∈ sql_names entries -> n ∈ tracked d -> RunMigrations read_dir read_file dir d = (d', r) -> r <> Ok tt.
Proof.
  intros Hlost Hn Hin Ht E ->. destruct (RunMigrations_spec _ _ _ E Hn) as (Hn' & d1 & _ & _ & [Ht' _]).
  rewrite Ht' in Hn'. apply NoDup_app in Hn' as (_ & Hd & _). apply (Hd n Ht). unfold missing, history.
  destruct (Hlost d1) as [e ->]. apply list_elem_of_filter. split; [set_solver|]. by rewrite merge_sort_Permutation.
Qed.
End MigrateProperties.

(** A statement ends at every semicolon, also at one inside a quoted text. *)
Example quoted_semicolon : splitSQLStatements "INSERT INTO t VALUES ('a;b');" = ["INSERT INTO t VALUES ('a"; "b')"].
Proof. vm_compute. reflexivity. Qed.

(** ** A database *)

(** A server on which every statement but one text succeeds. *)
Record SmallDB := mkSmall { sd_tracked : list string; sd_pending : option (list string); sd_executed : list string }.

#[export] Instance small_sql : SQLDB SmallDB := {
  sql_CreateTracking d := (d, Ok tt);
  sql_Applied d := Ok (sd_tracked d);
  sql_Begin d := (mkSmall (sd_tracked d) (Some []) (sd_executed d), Ok tt);
  sql_Exec s d := if bool_decide (s = "BAD") then (d, Err (Sentinel "syntax"))
                  else (mkSmall (sd_tracked d) (sd_pending d) (sd_executed d ++ [s]), Ok tt);
  sql_Record name d := if bool_decide (name ∈ sd_tracked d) then (d, Err (Sentinel "duplicate entry"))
                       else (mkSmall (sd_tracked d) (Some (default [] (sd_pending d) ++ [name])) (sd_executed d), Ok tt);
  sql_Rollback d := mkSmall (sd_tracked d) None (sd_executed d);
  sql_Commit d := (mkSmall (sd_tracked d ++ default [] (sd_pending d)) None (sd_executed d), Ok tt)
}.

#[export, refine] Instance small_laws : SQLLaws SmallDB := {
  tracked := sd_tracked; pending := sd_pending; executed := sd_executed; plain _ := True
}.
Proof.
  - by intros d d' r [= <- <-].
  - by intros d names [= <-].
  - by intros d d' r [= <- <-].
  - intros s d d' r _ Hp. simpl. case_bool_decide; intros [= <- <-]; auto.
  - intros name d d' r Hp. simpl. case_bool_decide; intros [= <- <-]; [auto|]. rewrite Hp. auto.
  - done.
  - intros d d' r names Hp [= <- <-]. by rewrite Hp.
Defined.

Definition demo_files : list DirEntry := [mkEntry "2_b.sql" false; mkEntry "1_a.sql" false; mkEntry "README.md" false; mkEntry "old.sql" true].
Definition demo_dir (dir : string) : result (list DirEntry) := Ok demo_files.
Definition demo_file (file : string) : result string :=
  Ok (if bool_decide (file = "migrations/1_a.sql") then "CREATE a; CREATE b;" else "ALTER a;").
Definition fresh_db : SmallDB := mkSmall ["0_old.sql"] None [].
Definition migrated : SmallDB := (RunMigrations demo_dir demo_file "migrations" fresh_db).1.

Example migrated_state : migrated = mkSmall ["0_old.sql"; "1_a.sql"; "2_b.sql"] None ["CREATE a"; "CREATE b"; "ALTER a"].
Proof. vm_compute. reflexivity. Qed.

Lemma demo_names : Forall file_name (entry_Name <$> demo_files).
Proof. repeat constructor; discriminate. Qed.
Lemma demo_plain : Forall (fun f => Forall plain (statements_of demo_file f)) (migration_files "migrations" demo_files).
Proof. apply Forall_forall. intros f _. by apply Forall_forall. Qed.

Lemma migrations_once_witness : tracked migrated = ["0_old.sql"; "1_a.sql"; "2_b.sql"] /\
  forall d2 r, RunMigrations demo_dir demo_file "migrations" migrated = (d2, r) -> tracked d2 = tracked migrated /\ executed d2 = executed migrated.
Proof.
  destruct (migrations_once demo_dir demo_file "migrations" demo_files eq_refl demo_names demo_plain fresh_db migrated) as (Ht & _ & _ & Hagain).
  - intros d. done.
  - apply NoDup_singleton.
  - vm_compute. reflexivity.
  - split; [rewrite Ht; vm_compute; reflexivity|exact Hagain].
Defined.

(** The second statement of the second migration fails: the first migration is recorded. *)
Definition bad_file (file : string) : result string := if bool_decide (file = "migrations/1_a.sql") then Ok "CREATE a" else Ok "ALTER a; BAD".
Definition half_migrated : SmallDB := (RunMigrations demo_dir bad_file "migrations" fresh_db).1.

Lemma migrations_in_order_witness : NoDup (tracked half_migrated) /\ tracked half_migrated = ["0_old.sql"; "1_a.sql"].
Proof.
  split; [|vm_compute; reflexivity].
  refine (proj1 (migrations_in_order demo_dir bad_file "migrations" demo_files eq_refl demo_names _ fresh_db half_migrated (RunMigrations demo_dir bad_file "migrations" fresh_db).2 _ _)).
  - apply Forall_forall. intros f _. by apply Forall_forall.
  - unfold half_migrated. by destruct (RunMigrations _ _ _ _).
  - apply NoDup_singleton.
Defined.
