(* ===== verification/Bootstrap.v ===== *)
(** internal/app/bootstrap.go and internal/repo/factory.go, with OpenGorm of
    internal/pkg/xmysql/mysql.go and Open of internal/pkg/xredis/redis.go: what a process
    opens before it serves, the migrations it may run, and what its cleanup closes. *)
From S2P Require Import Prelude GoStd Config Migrate.

#[local] Open Scope prog_scope.

(** ** The repositories (factory.go) *)

(** Which repositories a bundle has. *)
Record Bundle := mkBundle { b_Task : bool; b_TaskInstance : bool; b_Worker : bool; b_WorkerLoad : bool; b_AIAnalysis : bool }.
Definition NewMySQLBundle : Bundle := mkBundle true true true true true.

Definition IsMySQLBackend (value : string) : bool := equal_fold (TrimSpace value) "mysql".

Definition ValidateBundle (bundle : option Bundle) : option gerror :=
  match bundle with
  | Some (mkBundle true true true true true) => None
  | _ => Some (Errorf "repository bundle is incomplete" [])
  end.

(** ** Resources (bootstrap.go) *)

Inductive pool := MySQLPool | RedisPool.
#[export] Instance pool_eq_dec : EqDecision pool.
Proof. solve_decision. Defined.

Section Bootstrap.
Context {D : Type} `{!SQLDB D}.
Context (read_dir : string -> result (list DirEntry)) (read_file : string -> result string).
(** [gorm.Open], [gdb.DB()], the ping of MySQL and the ping of Redis. *)
Variable gorm_Open : string -> option gerror.
Variable gdb_DB : option gerror.
Variable db_Ping : option gerror.
Variable redis_Ping : string -> option gerror.

(** The database and the connection pools that are open. *)
Record Start := mkStart { st_db : D; st_open : list pool }.
Abbreviation S A := (prog Start gerror A).

Definition on_db {A} (m : prog D gerror A) : S A := fun s => let '(d, r) := m (st_db s) in (mkStart d (st_open s), r).
Definition open_pool (p : pool) : S unit := modify (fun s => mkStart (st_db s) (p :: st_open s)).
Definition close_pool (s : Start) (p : pool) : Start := mkStart (st_db s) (filter (fun q => q <> p) (st_open s)).

Definition or_fail (e : option gerror) (prefix : string) : S unit :=
  match e with Some e => fail (Wrap prefix e) | None => ret tt end.

(** [xmysql.OpenGorm] *)
Definition OpenGorm (dsn : string) : S unit :=
  or_fail (gorm_Open (gorm_dsn dsn)) "open mysql" ;; open_pool MySQLPool ;;
  or_fail gdb_DB "get mysql sql db" ;; or_fail db_Ping "ping mysql".

(** [xredis.Open] *)
Definition Open (addr : string) : S unit := open_pool RedisPool ;; or_fail (redis_Ping addr) "redis ping".

Record Resources := mkResources { res_Repositories : Bundle; res_Redis : bool; res_cleaners : list pool }.

(** An error is [os.Exit(1)], which runs no cleanup. *)
Definition BuildResources (cfg : Config) : S Resources :=
  if negb (IsMySQLBackend (RepoBackend cfg)) then fail (Errorf "repository backend not supported" [RepoBackend cfg]) else
  OpenGorm (MySQLDSN cfg) ;;
  or_fail gdb_DB "get mysql sql db" ;;
  (if AutoMigrate cfg then on_db (RunMigrations read_dir read_file (MigrationDir cfg)) else ret tt) ;;
  or_fail (ValidateBundle (Some NewMySQLBundle)) "invalid mysql repository bundle" ;;
  if bool_decide (RedisAddr cfg = "") then ret (mkResources NewMySQLBundle false [MySQLPool]) else
  r <-? Open (RedisAddr cfg) ;;
  match r with
  | Err _ => ret (mkResources NewMySQLBundle false [MySQLPool])
  | Ok _ => ret (mkResources NewMySQLBundle true [MySQLPool; RedisPool])
  end.

(** [xmysql.Open], and [main] of cmd/migrate: an error is [os.Exit(1)]. *)
Definition xmysql_Open (dsn : string) : S unit := OpenGorm dsn ;; or_fail gdb_DB "get mysql sql db".
Definition migrate_main (cfg : Config) : S unit :=
  if negb (IsMySQLBackend (RepoBackend cfg)) then fail (Errorf "migrate requires REPO_BACKEND=mysql" []) else
  xmysql_Open (MySQLDSN cfg) ;; on_db (RunMigrations read_dir read_file (MigrationDir cfg)).

(** [cleanup]: the cleaners from the last to the first. *)
Definition cleanup (res : Resources) (s : Start) : Start := foldl close_pool s (reverse (res_cleaners res)).
End Bootstrap.

(** ** Properties *)

Section BootstrapProperties.
Context {D : Type} `{!SQLDB D} `{!SQLLaws D}.
Context (read_dir : string -> result (list DirEntry)) (read_file : string -> result string).
Variable gorm_Open : string -> option gerror.
Variable gdb_DB : option gerror.
Variable db_Ping : option gerror.
Variable redis_Ping : string -> option gerror.
Context (cfg : Config) (entries : list DirEntry).
Hypothesis Hdir : read_dir (MigrationDir cfg) = Ok entries.
Hypothesis Hnames : Forall file_name (entry_Name <$> entries).
Hypothesis Hplain : Forall (fun f => Forall plain (statements_of read_file f)) (migration_files (MigrationDir cfg) entries).

Definition redis_up : bool := negb (bool_decide (RedisAddr cfg = "")) && bool_decide (redis_Ping (RedisAddr cfg) = None).

(** What a process has when it starts to serve: the MySQL backend, an open pool to it,
    Redis exactly when it is configured and answers, and, when it migrates by itself,
    every migration of the directory recorded; otherwise the database is as it was. A
    process that cannot have this does not start. The cleanup closes all pools, except
    that of a Redis which did not answer. *)
Theorem resources_ready d s' res : readable -> NoDup (tracked d) ->
  BuildResources read_dir read_file gorm_Open gdb_DB db_Ping redis_Ping cfg (mkStart d []) = (s', Ok res) ->
  IsMySQLBackend (RepoBackend cfg) = true /\ gorm_Open (gorm_dsn (MySQLDSN cfg)) = None /\ db_Ping = None /\
  ValidateBundle (Some (res_Repositories res)) = None /\ MySQLPool ∈ st_open s' /\ res_Redis res = redis_up /\
  (AutoMigrate cfg = true -> forall n, n ∈ sql_names entries -> n ∈ tracked (st_db s')) /\
  (AutoMigrate cfg = false -> st_db s' = d) /\
  cleanup res s' = mkStart (st_db s') (if bool_decide (RedisAddr cfg = "") || redis_up then [] else [RedisPool]).
Proof.
  intros Hr Hn. unfold BuildResources, OpenGorm, Open, or_fail, open_pool, modify, on_db, redis_up. destruct (IsMySQLBackend _); [|done]. cbn [negb].
  destruct (gorm_Open _); [done|]. destruct gdb_DB; [done|]. destruct db_Ping; [done|].
  unfold bind, attempt, ret. cbn [st_db st_open ValidateBundle NewMySQLBundle].
  destruct (AutoMigrate cfg) eqn:Ha; cbn [st_db st_open].
  - destruct (RunMigrations _ _ _ d) as [d' [[]|e]] eqn:E; [|done]. pose proof (all_recorded _ _ _ _ Hdir Hnames Hplain d d').
    case_bool_decide; [|destruct (redis_Ping _)]; intros [= <- <-]; split_and!; try done; try (intros; by eauto); set_solver.
  - case_bool_decide; [|destruct (redis_Ping _)]; intros [= <- <-]; split_and!; try done; set_solver.
Qed.

(** After cmd/migrate, whatever AUTO_MIGRATE says, the database has every migration, and a
    process that starts later finds nothing to do, whatever the database answers then. *)
Theorem migrated_before_start d s1 s2 r : readable -> NoDup (tracked d) ->
  migrate_main read_dir read_file gorm_Open gdb_DB db_Ping cfg (mkStart d []) = (s1, Ok tt) ->
  BuildResources read_dir read_file gorm_Open gdb_DB db_Ping redis_Ping cfg (mkStart (st_db s1) []) = (s2, r) ->
  (forall n, n ∈ sql_names entries -> n ∈ tracked (st_db s1)) /\
  tracked (st_db s2) = tracked (st_db s1) /\ executed (st_db s2) = executed (st_db s1).
Proof.
  intros Hr Hn. unfold migrate_main, BuildResources, xmysql_Open, OpenGorm, Open, or_fail, open_pool, modify, on_db.
  destruct (IsMySQLBackend _); [|done]. cbn [negb]. destruct (gorm_Open _); [done|]. destruct gdb_DB; [done|]. destruct db_Ping; [done|].
  unfold bind, attempt, ret. cbn [st_db st_open ValidateBundle NewMySQLBundle].
  destruct (RunMigrations _ _ _ d) as [d' [[]|e]] eqn:E; [|done]. intros [= <-]. cbn [st_db st_open].
  assert (forall n, n ∈ sql_names entries -> n ∈ tracked d') as Hall by (intros n; by apply (all_recorded _ _ _ _ Hdir Hnames Hplain d d' n)).
  destruct (AutoMigrate cfg); cbn [st_db st_open].
  - destruct (RunMigrations _ _ _ d') as [d2 x] eqn:E2. assert (tracked d2 = tracked d' /\ executed d2 = executed d') as [Ht He] by (by eapply nothing_missing).
    destruct x as [[]|e]; [case_bool_decide; [|destruct (redis_Ping _)]|]; intros [= <- <-]; done.
  - case_bool_decide; [|destruct (redis_Ping _)]; intros [= <- <-]; done.
Qed.
End BootstrapProperties.

(** ** On a concrete start *)

(** The API with AUTO_MIGRATE set. *)
Definition migrating : Config := Default (fun name => if bool_decide (name = "AUTO_MIGRATE") then "1" else "") "api".
Definition start_with (redis_Ping : string -> option gerror) : @Start SmallDB * result Resources :=
  BuildResources demo_dir demo_file (fun _ => None) None None redis_Ping migrating (mkStart fresh_db []).

(** A Redis that does not answer is left with an open pool. *)
Example redis_pool_leaks : match start_with (fun _ => Some (Sentinel "connection refused")) with
  | (s, Ok res) => st_open (cleanup res s) = [RedisPool] | _ => False end.
Proof. vm_compute. reflexivity. Qed.

Lemma resources_ready_witness : exists s' res, start_with (fun _ => None) = (s', Ok res) /\
  "2_b.sql" ∈ tracked (st_db s') /\ st_open (cleanup res s') = [].
Proof.
  destruct (start_with (fun _ => None)) as [s' [res|e]] eqn:E; [|exfalso; vm_compute in E; discriminate E].
  destruct (resources_ready demo_dir demo_file (fun _ => None) None None (fun _ => None) migrating demo_files eq_refl demo_names demo_plain
    fresh_db s' res) as (_ & _ & _ & _ & _ & _ & Hall & _ & Hc).
  - intros d. done.
  - apply NoDup_singleton.
  - exact E.
  - exists s', res. split; [done|]. split; [|rewrite Hc; vm_compute; reflexivity].
    apply Hall; [vm_compute; reflexivity|]. vm_compute. set_solver.
Defined.
