(* ===== verification/Redis.v ===== *)
(** internal/pkg/xredis/redis.go: the Redis client of the scheduler. The server is a class:
    it runs one command at a time, on the keys that have not expired, as the Redis
    documentation describes them ([exec]); a command whose answer is lost may or may not
    have run. Scores are whole seconds, on which float64 is exact. *)
From S2P Require Import Prelude GoStd GoTime GoFormat Json.
From Stdlib Require Import Sorting.Sorted.

#[local] Open Scope prog_scope.

(** ** The server *)

Inductive rvalue :=
| RString (s : string)
| RSet (members : gset string)
| RHash (fields : gmap string string)
| RZset (scores : gmap string Z).

(** A value and when it expires, if it does. *)
Record entry := mkRedisEntry { e_value : rvalue; e_deadline : option Time }.
Abbreviation keyspace := (gmap string entry).

Inductive Cmd :=
| DEL (k : string)
| SADD (k : string) (members : list string)
| ZADD (k : string) (members : list (string * Z))
| HSET (k : string) (fields : list (string * string))
| EXPIRE (k : string) (seconds : Z)
| HINCRBY (k f : string) (delta : Z)
| SETNX (k v : string) (ttl : option Duration)
| RENEW (k v : string) (seconds : Z)
| ZRANGEBYSCORE (k : string) (min max : Z)
| SMEMBERS (k : string)
| HGETALL (k : string)
| HGET (k f : string).

Inductive Reply :=
| RInt (n : Z)
| RText (s : string)
| RNil
| RTexts (ss : list string)
| RFields (m : gmap string string).

Definition alive (now : Time) (e : entry) : bool :=
  match e_deadline e with Some t => now <? t | None => true end.
Definition purge (now : Time) (ks : keyspace) : keyspace := filter (fun ke => alive now ke.2 = true) ks.

(** The elements of a sorted set in its order: by score, then by member. *)
Definition z_le (x y : string * Z) : Prop := x.2 < y.2 \/ (x.2 = y.2 /\ String.le x.1 y.1).
#[export] Instance z_le_dec x y : Decision (z_le x y).
Proof. unfold z_le. apply _. Defined.
Definition z_range (min max : Z) (zs : gmap string Z) : list string :=
  (filter (fun x => min <= x.2 <= max) (merge_sort z_le (map_to_list zs))).*1.

Definition expire (now : Time) (k : string) (seconds : Z) (ks : keyspace) : keyspace * Reply :=
  match ks !! k with
  | None => (ks, RInt 0)
  | Some e => if seconds <=? 0 then (delete k ks, RInt 1)
              else (<[k := mkRedisEntry (e_value e) (Some (now + seconds * Second))]> ks, RInt 1)
  end.

(** One command, on the keys that are alive; [None] is an error reply (a key of another
    type, a field that is not an integer). *)
Definition exec (now : Time) (c : Cmd) (ks : keyspace) : option (keyspace * Reply) :=
  let put k v := <[k := mkRedisEntry v (ks !! k ≫= e_deadline)]> ks in
  match c with
  | DEL k => Some (delete k ks, RInt (if bool_decide (is_Some (ks !! k)) then 1 else 0))
  | SADD k ms =>
      match e_value <$> ks !! k with
      | None => Some (put k (RSet (list_to_set ms)), RInt (Z.of_nat (size (list_to_set (C:=gset string) ms))))
      | Some (RSet s) => Some (put k (RSet (s ∪ list_to_set ms)), RInt (Z.of_nat (size (list_to_set ms ∖ s))))
      | Some _ => None
      end
  | ZADD k ms =>
      match e_value <$> ks !! k with
      | None => Some (put k (RZset (list_to_map ms)), RInt (Z.of_nat (length ms)))
      | Some (RZset s) => Some (put k (RZset (list_to_map ms ∪ s)), RInt (Z.of_nat (length ms)))
      | Some _ => None
      end
  | HSET k fs =>
      match e_value <$> ks !! k with
      | None => Some (put k (RHash (list_to_map fs)), RInt (Z.of_nat (length fs)))
      | Some (RHash m) => Some (put k (RHash (list_to_map fs ∪ m)), RInt (Z.of_nat (length fs)))
      | Some _ => None
      end
  | EXPIRE k s => Some (expire now k s ks)
  | HINCRBY k f delta =>
      match e_value <$> ks !! k with
      | Some (RHash m) =>
          n ← Atoi (default "0" (m !! f));
          if bool_decide (int64 (n + delta)) then Some (put k (RHash (<[f := fmt_d (n + delta)]> m)), RInt (n + delta)) else None
      | None => Some (put k (RHash {[f := fmt_d delta]}), RInt delta)
      | Some _ => None
      end
  | SETNX k v ttl =>
      match ks !! k with
      | Some _ => Some (ks, RInt 0)
      | None => Some (<[k := mkRedisEntry (RString v) ((fun d => now + d) <$> ttl)]> ks, RInt 1)
      end
  | RENEW k v s =>
      match e_value <$> ks !! k with
      | Some (RString v') => Some (if bool_decide (v' = v) then expire now k s ks else (ks, RInt 0))
      | None => Some (ks, RInt 0)
      | Some _ => None
      end
  | ZRANGEBYSCORE k min max =>
      match e_value <$> ks !! k with
      | None => Some (ks, RTexts [])
      | Some (RZset s) => Some (ks, RTexts (z_range min max s))
      | Some _ => None
      end
  | SMEMBERS k =>
      match e_value <$> ks !! k with
      | None => Some (ks, RTexts [])
      | Some (RSet s) => Some (ks, RTexts (base.elements s))
      | Some _ => None
      end
  | HGETALL k =>
      match e_value <$> ks !! k with
      | None => Some (ks, RFields ∅)
      | Some (RHash m) => Some (ks, RFields m)
      | Some _ => None
      end
  | HGET k f =>
      match e_value <$> ks !! k with
      | None => Some (ks, RNil)
      | Some (RHash m) => Some (ks, match m !! f with Some v => RText v | None => RNil end)
      | Some _ => None
      end
  end.

Class Redis (R : Type) := { redis_do : Time -> Cmd -> R -> R * result Reply }.

(** [keys]: the keys the server holds, with expired ones it may drop at any time. *)
Class RedisLaws (R : Type) `{!Redis R} := {
  keys : R -> keyspace;
  redis_do_law now c r r' x : redis_do now c r = (r', x) ->
    match x with
    | Ok a => exists ks, exec now c (purge now (keys r)) = Some (ks, a) /\ purge now (keys r') = purge now ks
    | Err _ => purge now (keys r') = purge now (keys r) \/
               exists ks a, exec now c (purge now (keys r)) = Some (ks, a) /\ purge now (keys r') = purge now ks
    end
}.

(** ** The client *)

Section Client.
Context {R : Type} `{!Redis R}.
Abbreviation C X := (prog R gerror X).

Definition do (now : Time) (c : Cmd) : C Reply := redis_do now c.

(** [pipe.Exec]: all the commands, and the first error. *)
Fixpoint pipeline (now : Time) (cs : list Cmd) : C unit :=
  match cs with
  | [] => ret tt
  | c :: cs' =>
      x <-? do now c ;;
      rest <-? pipeline now cs' ;;
      match x, rest with
      | Err e, _ => fail e
      | Ok _, Err e => fail e
      | Ok _, Ok _ => ret tt
      end
  end.

Definition taskDueSetKey : string := "scheduler:due:tasks".
Definition taskDueZSetKey : string := "scheduler:due:zset".

Definition WarmDueTasks (now : Time) (taskIDs : list Z) (scores : gmap Z Z) : C unit :=
  pipeline now ([DEL taskDueSetKey; DEL taskDueZSetKey]
    ++ (if bool_decide (taskIDs = []) then []
        else SADD taskDueSetKey (fmt_d <$> taskIDs)
             :: if bool_decide (scores = ∅) then [] else [ZADD taskDueZSetKey (prod_map fmt_d id <$> map_to_list scores)])
    ++ [EXPIRE taskDueSetKey 300; EXPIRE taskDueZSetKey 300]).

(** [fmt.Sscanf(s, "%d", &v)]: the integer [s] starts with. *)
Fixpoint digits_of (s : string) : string :=
  match s with String c s' => if is_digit c then String c (digits_of s') else "" | EmptyString => "" end.
Definition Sscanf_d (s : string) : option Z :=
  match trim_left s with
  | String c s' => if bool_decide (c = "-"%char \/ c = "+"%char) then Atoi (String c (digits_of s')) else Atoi (digits_of (String c s'))
  | EmptyString => None
  end.

Definition GetDueTaskIDs (now : Time) (cutoff : Z) : C (list Z) :=
  x <- do now (ZRANGEBYSCORE taskDueZSetKey 0 cutoff) ;;
  ret (match x with RTexts ids => omap Sscanf_d ids | _ => [] end).

Definition workerOnlineSetKey : string := "scheduler:workers:online".
Definition workerInfoPrefix : string := "scheduler:worker:".

Definition WarmWorkerCache (now : Time) (workerIDs : list string) (workerData : gmap string (list (string * string))) : C unit :=
  pipeline now ([DEL workerOnlineSetKey]
    ++ ((fun id => SADD workerOnlineSetKey [id]) <$> workerIDs)
    ++ (if bool_decide (workerIDs = []) then [] else [EXPIRE workerOnlineSetKey 120])
    ++ mjoin ((fun kv => let key := workerInfoPrefix +:+ kv.1 in [HSET key kv.2; EXPIRE key 120]) <$> map_to_list workerData)).

Definition GetCachedOnlineWorkers (now : Time) : C (list string) :=
  x <- do now (SMEMBERS workerOnlineSetKey) ;; ret (match x with RTexts ids => ids | _ => [] end).
Definition GetCachedWorkerInfo (now : Time) (workerID : string) : C (gmap string string) :=
  x <- do now (HGETALL (workerInfoPrefix +:+ workerID)) ;; ret (match x with RFields m => m | _ => ∅ end).
(** A missing field is the error [redis.Nil]. *)
Definition redisNil : gerror := Sentinel "redis: nil".
Definition GetCachedWorkerField (now : Time) (workerID field : string) : C string :=
  x <- do now (HGET (workerInfoPrefix +:+ workerID) field) ;; match x with RText s => ret s | _ => fail redisNil end.

Definition workerLoadKey : string := "scheduler:worker:load".

Definition reply_int (x : Reply) : Z := match x with RInt n => n | _ => 0 end.

Definition redis_IncrWorkerLoad (now : Time) (workerID : string) : C Z :=
  x <- do now (HINCRBY workerLoadKey workerID 1) ;;
  _ignore do now (EXPIRE workerLoadKey 120) ;; ret (reply_int x).

Definition redis_DecrWorkerLoad (now : Time) (workerID : string) : C Z :=
  x <- do now (HINCRBY workerLoadKey workerID (-1)) ;;
  if reply_int x <? 0 then _ignore do now (HSET workerLoadKey [(workerID, "0")]) ;; ret 0 else ret (reply_int x).

Definition GetWorkerLoads (now : Time) : C (gmap string Z) :=
  x <- do now (HGETALL workerLoadKey) ;; ret (match x with RFields m => omap Sscanf_d m | _ => ∅ end).

Definition schedulerLockKey : string := "scheduler:singleton:lock".

(** [SetNX] sends the time to live in milliseconds, at least one; none for 0. *)
Definition setnx_ttl (ttl : Duration) : option Duration :=
  if ttl =? 0 then None else Some (Z.max 1 (go_div ttl Millisecond) * Millisecond).

Definition TryAcquireSchedulerLock (now : Time) (schedulerID : string) (ttl : Duration) : C bool :=
  x <- do now (SETNX schedulerLockKey schedulerID (setnx_ttl ttl)) ;; ret (reply_int x =? 1).

(** The script compares and extends; the caller only sees the error of the call. *)
Definition RenewSchedulerLock (now : Time) (schedulerID : string) (ttl : Duration) : C unit :=
  _ <- do now (RENEW schedulerLockKey schedulerID (go_div ttl Second)) ;; ret tt.
End Client.

(** ** What the server shows *)

Lemma lookup_purge now ks k : purge now ks !! k = ks !! k ≫= fun e => if alive now e then Some e else None.
Proof.
  unfold purge. destruct (ks !! k) as [e|] eqn:E; simpl; [|by apply map_lookup_filter_None_2; left].
  destruct (alive now e) eqn:Ha; [by apply map_lookup_filter_Some_2|].
  apply map_lookup_filter_None_2. right. intros e' He'. rewrite E in He'. simplify_eq/=. by rewrite Ha.
Qed.

Definition cmd_key (c : Cmd) : string :=
  match c with
  | DEL k | SADD k _ | ZADD k _ | HSET k _ | EXPIRE k _ | HINCRBY k _ _ | SETNX k _ _ | RENEW k _ _
  | ZRANGEBYSCORE k _ _ | SMEMBERS k | HGETALL k | HGET k _ => k
  end.

(** A command touches its own key only. *)
Lemma exec_other now c ks ks' a k : exec now c ks = Some (ks', a) -> cmd_key c <> k -> ks' !! k = ks !! k.
Proof.
  intros E Hk. destruct c; simpl in *; unfold expire in *; repeat (case_match || case_bool_decide); simplify_eq/=;
    rewrite ?lookup_insert_ne, ?lookup_delete_ne by done; try done.
  all: destruct (Atoi _); simplify_eq/=; case_bool_decide; simplify_eq/=; by rewrite lookup_insert_ne.
Qed.

Section Server.
Context {R : Type} `{!Redis R} `{!RedisLaws R}.

(** The value of a key at a time. *)
Definition shown (now : Time) (r : R) (k : string) : option entry := purge now (keys r) !! k.

Lemma shown_later now t r k : now <= t -> shown t r k = shown now r k ≫= fun e => if alive t e then Some e else None.
Proof.
  intros Ht. unfold shown. rewrite !lookup_purge. destruct (keys r !! k) as [e|]; simpl; [|done].
  unfold alive. destruct (e_deadline e) as [d|] eqn:Hd; simpl; [|by rewrite Hd].
  destruct (Z.ltb_spec now d), (Z.ltb_spec t d); simpl; rewrite ?Hd; try done; try lia;
    destruct (Z.ltb_spec t d); (done || lia).
Qed.

Lemma do_other now c r r' a k : redis_do now c r = (r', Ok a) -> cmd_key c <> k -> shown now r' k = shown now r k.
Proof.
  intros E Hk. destruct (redis_do_law _ _ _ _ _ E) as (ks & Hx & Hp). unfold shown. rewrite Hp, lookup_purge.
  rewrite (exec_other _ _ _ _ _ _ Hx Hk), lookup_purge. destruct (keys r !! k) as [e|]; simpl; [|done].
  destruct (alive now e) eqn:Ha; simpl; [by rewrite Ha|done].
Qed.

Lemma pipeline_cons now c cs r r' : pipeline now (c :: cs) r = (r', Ok tt) ->
  exists r1 a, redis_do now c r = (r1, Ok a) /\ pipeline now cs r1 = (r', Ok tt).
Proof.
  cbn [pipeline]. unfold attempt, do. destruct (redis_do now c r) as [r1 x]. destruct (pipeline now cs r1) as [r2 y] eqn:E.
  destruct x as [a|e], y as [[]|e']; intros [= <-]; eauto.
Qed.

Lemma pipeline_other now cs r r' k : pipeline now cs r = (r', Ok tt) -> Forall (fun c => cmd_key c <> k) cs ->
  shown now r' k = shown now r k.
Proof.
  intros E Hf. revert r E. induction Hf as [|c cs Hc _ IH]; intros r E; [by injection E as <-|].
  apply pipeline_cons in E as (r1 & a & E1 & E2). by rewrite (IH _ E2), (do_other _ _ _ _ _ _ E1 Hc).
Qed.

(** The effect of one command on its key, for a value that may expire at [d]. *)
Lemma do_shown now c r r' a k : redis_do now c r = (r', Ok a) ->
  exists ks, exec now c (purge now (keys r)) = Some (ks, a) /\ shown now r' k = ks !! k ≫= fun e => if alive now e then Some e else None.
Proof.
  intros E. destruct (redis_do_law _ _ _ _ _ E) as (ks & Hx & Hp). exists ks. split; [done|]. unfold shown. by rewrite Hp, lookup_purge.
Qed.

Lemma do_DEL now k r r' a : redis_do now (DEL k) r = (r', Ok a) -> shown now r' k = None.
Proof. intros E. destruct (do_shown _ _ _ _ _ k E) as (ks & [= <- _] & ->). by rewrite lookup_delete_eq. Qed.

Lemma do_ZADD_fresh now k ms r r' a : shown now r k = None -> redis_do now (ZADD k ms) r = (r', Ok a) ->
  shown now r' k = Some (mkRedisEntry (RZset (list_to_map ms)) None).
Proof.
  intros Hk E. destruct (do_shown _ _ _ _ _ k E) as (ks & Hx & ->). unfold shown in Hk. simpl in Hx. rewrite Hk in Hx.
  injection Hx as <- _. rewrite lookup_insert_eq. done.
Qed.

Lemma do_EXPIRE now k s r r' a : 0 < s -> redis_do now (EXPIRE k s) r = (r', Ok a) ->
  shown now r' k = (fun e => mkRedisEntry (e_value e) (Some (now + s * Second))) <$> shown now r k.
Proof.
  intros Hs E. destruct (do_shown _ _ _ _ _ k E) as (ks & Hx & ->). simpl in Hx. unfold expire in Hx. unfold shown.
  destruct (purge now (keys r) !! k) as [e|] eqn:Hk; [destruct (Z.leb_spec s 0); [lia|]|]; injection Hx as <- _; [rewrite lookup_insert_eq|by rewrite Hk].
  simpl. unfold alive. simpl. by rewrite (proj2 (Z.ltb_lt now (now + s * Second))) by (unfold Second; lia).
Qed.
End Server.

(** ** Due tasks *)

Lemma digits_of_digits s n : parse_digits n s <> None -> digits_of s = s.
Proof.
  revert n. induction s as [|c s IH]; intros n; [done|]. cbn [parse_digits digits_of]. destruct (is_digit c); [|done].
  intros Hs. by rewrite (IH _ Hs).
Qed.

Lemma trim_left_number c t : is_digit c = true \/ c = "-"%char -> trim_left (String c t) = String c t.
Proof.
  intros Hc. unfold trim_left. cbn [String.length trim_left_with].
  assert (strip_any space_runes (String c t) = None) as ->; [|done].
  destruct c as [[] [] [] [] [] [] [] []]; try reflexivity; exfalso; destruct Hc; discriminate.
Qed.

(** The text of an integer is a sign and digits, so scanning it takes all of it. *)
Lemma Sscanf_d_fmt_d z : int64 z -> Sscanf_d (fmt_d z) = Some z.
Proof.
  intros Hz. rewrite <- (Atoi_fmt_d z Hz). unfold fmt_d. destruct z as [|p|p]; [done|..].
  - pose proof (parse_pretty_N (Npos p) EmptyString) as Hp. rewrite pretty_pos.
    destruct (pretty_N_head (Npos p) EmptyString ltac:(lia)) as (c & t & Hc & Hd & _). rewrite Hc in *.
    unfold Sscanf_d. rewrite trim_left_number by auto. rewrite bool_decide_eq_false_2 by (intros [->| ->]; done).
    by rewrite (digits_of_digits _ 0) by (rewrite Hp; done).
  - change (pretty (Zneg p)) with (String "-" (pretty (Zpos p))). pose proof (parse_pretty_N (Npos p) EmptyString) as Hp.
    rewrite pretty_pos. unfold Sscanf_d. rewrite trim_left_number by auto. rewrite bool_decide_eq_true_2 by auto.
    by rewrite (digits_of_digits _ 0) by (rewrite Hp; done).
Qed.

Section DueTasks.
Context {R : Type} `{!Redis R} `{!RedisLaws R}.

(** What the cache holds after it was filled. *)
Lemma WarmDueTasks_shown now ids scores r r' : WarmDueTasks now ids scores r = (r', Ok tt) ->
  (ids = [] -> shown now r' taskDueZSetKey = None) /\
  (ids <> [] -> scores <> ∅ ->
    shown now r' taskDueZSetKey = Some (mkRedisEntry (RZset (kmap fmt_d scores)) (Some (now + 300 * Second)))).
Proof.
  intros E. unfold WarmDueTasks in E. cbn [app] in E.
  apply pipeline_cons in E as (r1 & a1 & _ & E). apply pipeline_cons in E as (r2 & a2 & E2 & E). apply do_DEL in E2. split.
  - intros ->. rewrite bool_decide_eq_true_2 in E by done. cbn [app] in E. apply pipeline_cons in E as (r3 & a3 & E3 & E).
    apply pipeline_cons in E as (r4 & a4 & E4 & [= <-]). rewrite (do_EXPIRE _ _ 300 _ _ _ eq_refl E4), (do_other _ _ _ _ _ _ E3) by done. by rewrite E2.
  - intros Hi Hs. rewrite !bool_decide_eq_false_2 in E by done. cbn [app] in E. apply pipeline_cons in E as (r3 & a3 & E3 & E).
    apply pipeline_cons in E as (r4 & a4 & E4 & E). apply pipeline_cons in E as (r5 & a5 & E5 & E).
    apply pipeline_cons in E as (r6 & a6 & E6 & [= <-]). rewrite (do_EXPIRE _ _ 300 _ _ _ eq_refl E6), (do_other _ _ _ _ _ _ E5) by done.
    rewrite <- (do_other _ _ _ _ _ taskDueZSetKey E3) in E2 by done. by rewrite (do_ZADD_fresh _ _ _ _ _ _ E2 E4).
Qed.

(** The ids of the scores in a range, by score. *)
Definition due_by (cutoff : Z) (scores : gmap Z Z) : list Z := (filter (fun x => 0 <= x.2 <= cutoff) (map_to_list scores)).*1.

Lemma z_range_ids cutoff scores : (forall z, z ∈ dom scores -> int64 z) ->
  omap Sscanf_d (z_range 0 cutoff (kmap fmt_d scores)) ≡ₚ due_by cutoff scores.
Proof.
  intros Hz. unfold z_range, due_by. rewrite merge_sort_Permutation, (map_to_list_kmap fmt_d).
  assert (forall x, x ∈ map_to_list scores -> int64 x.1) as Hall
    by (intros [k v] Hx; apply Hz, elem_of_dom; exists v; by apply elem_of_map_to_list).
  induction (map_to_list scores) as [|[z v] l IH]; [done|]. rewrite fmap_cons, !filter_cons.
  assert (int64 z) as Hiz by (apply (Hall (z, v)); left).
  repeat case_decide; try (simpl in *; lia); simpl; [rewrite Sscanf_d_fmt_d by done; constructor|]; apply IH; intros x Hx; apply Hall; by right.
Qed.

(** The cache of due tasks: for the five minutes after a successful refresh a
    successful read with a cutoff gives exactly the refreshed ids whose trigger second
    lies between 0 and the cutoff, each once; from then on, and when nothing was due, it
    gives none. *)
Theorem due_cache now t ids scores cutoff r r1 r2 out :
  (forall z, z ∈ ids <-> z ∈ dom scores) -> (forall z, z ∈ ids -> int64 z) -> now <= t ->
  WarmDueTasks now ids scores r = (r1, Ok tt) -> GetDueTaskIDs t cutoff r1 = (r2, Ok out) ->
  if t <? now + 5 * Minute then out ≡ₚ due_by cutoff scores else out = [].
Proof.
  intros Hids Hz Ht Hw Hg. apply WarmDueTasks_shown in Hw as [Hnone Hsome].
  apply bind_inv in Hg as (r3 & a & Hd & Hr). injection Hr as _ Hout. unfold do in Hd.
  destruct (do_shown _ _ _ _ _ taskDueZSetKey Hd) as (ks & Hx & _). simpl in Hx.
  change (purge t (keys r1) !! taskDueZSetKey) with (shown t r1 taskDueZSetKey) in Hx. rewrite (shown_later now) in Hx by done.
  assert (forall z, z ∈ dom scores -> int64 z) as Hz' by (intros z Hin; by apply Hz, Hids).
  destruct (decide (ids = [])) as [He|He].
  - rewrite (Hnone He) in Hx. injection Hx as _ <-. subst out. assert (scores = ∅) as ->; [|by destruct (_ <? _)].
    apply dom_empty_inv_L, set_eq. intros z. rewrite <- Hids, He. set_solver.
  - assert (scores <> ∅) as Hne by (intros ->; destruct ids as [|z ids]; [done|]; specialize (Hids z); set_solver).
    rewrite (Hsome He Hne) in Hx. simpl in Hx. unfold alive in Hx. simpl in Hx.
    change (5 * Minute) with (300 * Second). destruct (t <? now + 300 * Second); injection Hx as _ <-; subst out; [by apply z_range_ids|done].
Qed.
End DueTasks.

(** ** The singleton lock *)

Section Lock.
Context {R : Type} `{!Redis R} `{!RedisLaws R}.

(** A call for the lock: at a time, by a process, to take it or to renew it. *)
Inductive lock_call :=
| Acquires (at_ : Time) (id : string) (ttl : Duration)
| Renews (at_ : Time) (id : string) (ttl : Duration).
Definition call_time (c : lock_call) : Time := match c with Acquires t _ _ | Renews t _ _ => t end.

(** The calls one after another; the processes that were given the lock. *)
Fixpoint lock_calls (cs : list lock_call) (r : R) : R * list string :=
  match cs with
  | [] => (r, [])
  | Acquires t id ttl :: cs' =>
      let '(r1, x) := TryAcquireSchedulerLock t id ttl r in
      let '(r2, given) := lock_calls cs' r1 in
      (r2, match x with Ok true => id :: given | _ => given end)
  | Renews t id ttl :: cs' => let '(r1, _) := RenewSchedulerLock t id ttl r in lock_calls cs' r1
  end.

(** The lock is held at [now] by [a], and until [d]. *)
Definition held (now : Time) (a : string) (d : Time) (r : R) : Prop :=
  exists d', shown now r schedulerLockKey = Some (mkRedisEntry (RString a) d') /\ match d' with Some e => d <= e | None => True end.

Lemma held_later now t a d r : now <= t -> t < d -> held now a d r -> held t a d r.
Proof.
  intros Ht Hd (d' & Hs & Hd'). exists d'. split; [|done]. rewrite (shown_later now) by done. rewrite Hs. simpl. unfold alive. simpl.
  destruct d' as [e|]; [|done]. by rewrite (proj2 (Z.ltb_lt t e)) by lia.
Qed.

(** A command that leaves the value and does not shorten its life keeps the lock held. *)
Lemma held_do now c r r' x a d : held now a d r -> redis_do now c r = (r', x) ->
  (forall ks y, exec now c (purge now (keys r)) = Some (ks, y) -> ks !! schedulerLockKey = purge now (keys r) !! schedulerLockKey) -> held now a d r'.
Proof.
  intros (d' & Hs & Hd) E Hx. exists d'. split; [|done]. rewrite <- Hs. unfold shown.
  assert (forall ks y, exec now c (purge now (keys r)) = Some (ks, y) -> purge now (keys r') = purge now ks ->
    purge now (keys r') !! schedulerLockKey = purge now (keys r) !! schedulerLockKey) as Hk.
  { intros ks y Hks ->. rewrite lookup_purge, (Hx _ _ Hks), lookup_purge. destruct (keys r !! schedulerLockKey) as [e|]; simpl; [|done].
    destruct (alive now e) eqn:Ha; simpl; [by rewrite Ha|done]. }
  pose proof (redis_do_law _ _ _ _ _ E) as Hl. destruct x as [y|e].
  - destruct Hl as (ks & Hks & Hp). by eapply Hk.
  - destruct Hl as [->|(ks & y & Hks & Hp)]; [done|by eapply Hk].
Qed.

Lemma held_acquire now r r' x a d id ttl : held now a d r -> TryAcquireSchedulerLock now id ttl r = (r', x) ->
  held now a d r' /\ x <> Ok true.
Proof.
  intros Hh. unfold TryAcquireSchedulerLock, bind, do, ret. destruct (redis_do _ _ r) as [r1 y] eqn:E. intros Hx.
  assert (r' = r1) as -> by (destruct y; congruence). split.
  - eapply held_do; [done|exact E|]. intros ks y'. simpl. destruct Hh as (d' & Hs & _). unfold shown in Hs. rewrite Hs. by intros [= <- _].
  - destruct y as [y|e]; [|by injection Hx as <-]. injection Hx as <-. destruct (redis_do_law _ _ _ _ _ E) as (ks & Hks & _).
    simpl in Hks. destruct Hh as (d' & Hs & _). unfold shown in Hs. rewrite Hs in Hks. injection Hks as _ <-. done.
Qed.

Lemma held_renew now r r' x a d id ttl : id <> a -> held now a d r -> RenewSchedulerLock now id ttl r = (r', x) -> held now a d r'.
Proof.
  intros Hid Hh. unfold RenewSchedulerLock, bind, do, ret. destruct (redis_do _ _ r) as [r1 y] eqn:E. intros Hx.
  assert (r' = r1) as -> by (destruct y; congruence). eapply held_do; [done|exact E|]. intros ks y'. simpl.
  destruct Hh as (d' & Hs & _). unfold shown in Hs. rewrite Hs. simpl. rewrite bool_decide_eq_false_2 by congruence. by intros [= <- _].
Qed.

(** The singleton lock is exclusive: once a process has been given it for a time, no
    process is given it before that time is over, in any sequence of attempts of any
    processes and renewals of others, whatever calls fail. *)
Theorem lock_exclusive now a ttl r r1 cs : 0 < ttl -> TryAcquireSchedulerLock now a ttl r = (r1, Ok true) ->
  Sorted (fun c c' => call_time c <= call_time c') cs ->
  Forall (fun c => now <= call_time c < now + Z.max 1 (ttl / Millisecond) * Millisecond /\ match c with Renews _ id _ => id <> a | _ => True end) cs ->
  (lock_calls cs r1).2 = [].
Proof.
  intros Httl E Hsort Hcs. set (d := now + Z.max 1 (ttl / Millisecond) * Millisecond) in *.
  assert (held now a d r1) as Hh.
  { unfold TryAcquireSchedulerLock in E. apply bind_inv in E as (r2 & y & E & Hy). injection Hy as <- Hy. apply Z.eqb_eq in Hy.
    destruct (do_shown _ _ _ _ _ schedulerLockKey E) as (ks & Hx & Hs). simpl in Hx.
    destruct (purge now (keys r) !! schedulerLockKey); injection Hx as <- <-; [done|]. exists (Some d). split; [|simpl; lia].
    rewrite Hs, lookup_insert_eq. simpl. unfold setnx_ttl, go_div. destruct (Z.eqb_spec ttl 0); [lia|]. rewrite Z.quot_div_nonneg by (unfold Millisecond; lia).
    simpl. unfold alive. simpl. fold d. by rewrite (proj2 (Z.ltb_lt now d)) by (unfold d, Millisecond; lia). }
  clear E. clearbody d. revert now r1 Hh Hcs. induction Hsort as [|c cs Hs IH Hd]; intros now r1 Hh Hcs; [done|].
  apply Forall_cons in Hcs as [[Hc Hid] Hcs]. apply (held_later now (call_time c)) in Hh; [|lia..].
  assert (Forall (fun c' => call_time c <= call_time c' < d /\ match c' with Renews _ id _ => id <> a | _ => True end) cs) as Hcs'.
  { apply Sorted_StronglySorted in Hs; [|intros ???; lia]. assert (StronglySorted (fun c c' => call_time c <= call_time c') (c :: cs)) as Hss
      by (apply Sorted_StronglySorted; [intros ???; lia|constructor; [by apply StronglySorted_Sorted|done]]).
    apply StronglySorted_inv in Hss as [_ Hle]. rewrite Forall_forall in *. intros c' Hin. specialize (Hcs c' Hin). specialize (Hle c' Hin). naive_solver. }
  destruct c as [t id l|t id l]; cbn [lock_calls call_time] in *.
  - destruct (TryAcquireSchedulerLock t id l r1) as [r2 x] eqn:E. destruct (held_acquire _ _ _ _ _ _ _ _ Hh E) as [Hh2 Hx].
    specialize (IH t r2 Hh2 Hcs'). destruct (lock_calls cs r2) as [r3 given]. simpl in *. subst. by destruct x as [[]|].
  - destruct (RenewSchedulerLock t id l r1) as [r2 x] eqn:E. by apply (IH t r2 (held_renew _ _ _ _ _ _ _ _ Hid Hh E)).
Qed.
End Lock.

(** ** A server *)

(** The keys themselves, with every command as documented. *)
#[export] Instance mem_redis : Redis keyspace := {
  redis_do now c ks := match exec now c (purge now ks) with
                       | Some (ks', a) => (ks', Ok a)
                       | None => (ks, Err (Sentinel "WRONGTYPE"))
                       end
}.
#[export, refine] Instance mem_redis_laws : RedisLaws keyspace := { keys ks := ks }.
Proof.
  intros now c r r' x. simpl. destruct (exec now c (purge now r)) as [[ks a]|]; intros [= <- <-]; [by exists ks|by left].
Defined.

Definition demo_scores : gmap Z Z := list_to_map [(7, 100); (8, 200); (9, 300)].
Definition warmed : keyspace := (WarmDueTasks 0 [7; 8; 9] demo_scores ∅).1.

Lemma due_cache_witness : exists out, GetDueTaskIDs Minute 250 warmed = (purge Minute warmed, Ok out) /\ out ≡ₚ [7; 8].
Proof.
  eexists. split; [apply run_eq; vm_compute; reflexivity|].
  refine (due_cache (R:=keyspace) 0 Minute [7; 8; 9] demo_scores 250 ∅ warmed _ _ _ _ ltac:(discriminate) _ _).
  - intros z. unfold demo_scores. rewrite dom_list_to_map. set_solver.
  - intros z Hz. repeat apply elem_of_cons in Hz as [->|Hz]; [unfold int64; lia..|set_solver].
  - apply run_eq. vm_compute. reflexivity.
  - apply run_eq. vm_compute. reflexivity.
Defined.

Definition locked : keyspace := (TryAcquireSchedulerLock 0 "a" (10 * Second) (∅ : keyspace)).1.

Lemma lock_exclusive_witness : (lock_calls [Acquires Second "b" Minute; Renews (2 * Second) "b" Minute; Acquires (9 * Second) "c" Minute] locked).2 = [].
Proof.
  refine (lock_exclusive (R:=keyspace) 0 "a" (10 * Second) ∅ locked _ eq_refl _ _ _).
  - apply run_eq. vm_compute. reflexivity.
  - repeat constructor; cbn; unfold Second; lia.
  - repeat constructor; try discriminate; vm_compute; congruence.
Defined.

(** A renewal for less than a second becomes EXPIRE with 0, which deletes the lock; the
    next process is given it while the first one has just renewed it. *)
Example short_renewal_frees :
  (lock_calls [Renews Second "a" (Second / 2); Acquires (Second + 1) "b" Minute] locked).2 = ["b"].
Proof. vm_compute. reflexivity. Qed.

(** A renewal by a process that does not hold the lock returns no error. *)
Example foreign_renewal_succeeds : (RenewSchedulerLock Second "b" Minute locked).2 = Ok tt.
Proof. vm_compute. reflexivity. Qed.

(** The info of a worker called [load] is stored under the key of the load counters, where
    its fields pass for workers. *)
Example worker_called_load :
  (GetWorkerLoads 0 (WarmWorkerCache 0 ["load"] {["load" := [("max_concurrency", "16")]]} (∅ : keyspace)).1).2 = Ok {["max_concurrency" := 16]}.
Proof. vm_compute. reflexivity. Qed.
