(* ===== verification/Repo.v ===== *)
(** internal/repo/repository.go: the repository interfaces, as classes of
    operations on an abstract store, and what each promises to the services and
    loops that use it, in terms of abstract views of the store: the [...Contract]
    classes hold for every implementation, the [...Spec] classes say more and hold
    for the in-memory one. An operation that stamps rows takes the reading of the
    clock it makes; one that changes a passed struct returns the changed struct. *)
From S2P Require Import Prelude GoStd GoTime GoFormat Model.

(** ** Operations *)

Class TaskRepository (S : Type) := {
  CreateTask : Time -> Task -> S -> S * result Task;
  UpdateTask : Time -> Task -> S -> S * result Task;
  DeleteTask : Z -> S -> S * result unit;
  GetTask : Z -> S -> result Task;
  ListTasks : S -> result (list Task);
  ListTasksByTenant : Z -> S -> result (list Task);
  ListDueTasks : Time -> Z -> S -> result (list Task);
  AddDependency : Z -> Z -> S -> S * result unit;
  RemoveDependency : Z -> Z -> S -> S * result unit;
  ListDownstreamTasks : Z -> S -> result (list Z);
  ListUpstreamDeps : Z -> S -> result (list Z)
}.

Class TaskInstanceRepository (S : Type) := {
  CreateInstance : Time -> TaskInstance -> S -> S * result TaskInstance;
  GetInstance : Z -> S -> result TaskInstance;
  GetInstanceByScheduleID : string -> S -> result TaskInstance;
  ListInstances : S -> result (list TaskInstance);
  ListInstancesByTaskID : Z -> S -> result (list TaskInstance);
  ListInstancesByTimeRange : Time -> Time -> Z -> Z -> S -> result (list TaskInstance);
  ListInstancesByStatus : string -> Z -> S -> result (list TaskInstance);
  ListDueRetryInstances : Time -> Z -> S -> result (list TaskInstance);
  CountInstancesByStatus : string -> S -> result Z;
  UpdateInstanceStatus : Time -> Z -> string -> S -> S * result unit;
  UpdateInstanceDispatch : Time -> Z -> string -> string -> S -> S * result unit;
  UpdateInstanceResult : Time -> string -> string -> string -> string -> S -> S * result unit;
  UpdateInstanceAnalysis : Time -> string -> string -> S -> S * result unit;
  UpdateInstanceTimestamps : Time -> string -> Time -> Time -> S -> S * result unit
}.

Class WorkerRepository (S : Type) := {
  UpsertWorker : Time -> WorkerNode -> S -> S * result unit;
  GetWorker : string -> S -> result WorkerNode;
  ListWorkers : S -> result (list WorkerNode);
  ListAvailableWorkers : S -> result (list WorkerNode);
  ListStaleWorkers : Time -> S -> result (list WorkerNode)
}.

(** ** Row updates *)

(** The row a create stores. *)
Definition new_task (now : Time) (id : Z) (t : Task) : Task :=
  set_task_Version 1 (set_task_UpdatedAt now (set_task_CreatedAt now (set_task_ID id t))).
Definition new_instance (now : Time) (id : Z) (i : TaskInstance) : TaskInstance :=
  set_inst_UpdatedAt now (set_inst_CreatedAt now (set_inst_ID id i)).

(** The row an update stores over [cur]. *)
Definition updated_task (now : Time) (cur t : Task) : Task :=
  set_task_Version (wrap64 (task_Version cur + 1))
    (set_task_UpdatedAt now (set_task_CreatedAt (task_CreatedAt cur) t)).

Definition with_status (now : Time) (st : string) (i : TaskInstance) : TaskInstance :=
  set_inst_UpdatedAt now (set_inst_Status st i).

(** The dispatch time is sent as text; unreadable text leaves the field alone. *)
Definition with_dispatch (now : Time) (worker dispatchTime : string) (i : TaskInstance) : TaskInstance :=
  let i := set_inst_UpdatedAt now (set_inst_Status "dispatched" (set_inst_WorkerID worker i)) in
  if bool_decide (dispatchTime = "") then i
  else match ParseRFC3339Nano dispatchTime with Some t => set_inst_DispatchTime t i | None => i end.

Definition with_result (now : Time) (st code msg : string) (i : TaskInstance) : TaskInstance :=
  set_inst_UpdatedAt now (set_inst_ErrorMessage msg (set_inst_ErrorCode code (set_inst_Status st i))).

Definition with_analysis (now : Time) (json : string) (i : TaskInstance) : TaskInstance :=
  set_inst_UpdatedAt now (set_inst_AnalysisJSON json i).

Definition with_timestamps (now startedAt finishedAt : Time) (i : TaskInstance) : TaskInstance :=
  let i := if IsZero startedAt then i else set_inst_StartedAt startedAt i in
  let i := if IsZero finishedAt then i else set_inst_FinishedAt finishedAt i in
  set_inst_UpdatedAt now i.

Definition stamped (now : Time) (w : WorkerNode) : WorkerNode :=
  if IsZero (worker_LastHeartbeatAt w) then set_worker_LastHeartbeatAt now w else w.

(** ** Row predicates of the listings *)

Definition task_due (now : Time) (t : Task) : Prop :=
  task_Status t = "enabled" /\ IsZero (task_NextTriggerTime t) = false /\
  After (task_NextTriggerTime t) now = false.

Definition retry_due (cutoff : Time) (i : TaskInstance) : Prop :=
  inst_Status i = "retry_waiting" /\
  (IsZero (inst_NextRetryTime i) = true \/ After (inst_NextRetryTime i) cutoff = false).

Definition available (w : WorkerNode) : Prop :=
  worker_Status w = "online" /\ worker_CurrentLoad w < worker_MaxConcurrency w.

Definition stale (cutoff : Time) (w : WorkerNode) : Prop :=
  worker_Status w = "online" /\ Before (worker_LastHeartbeatAt w) cutoff = true.

(** [xs] lists the rows of [m] that satisfy [P], each once. *)
Definition lists {K A} `{Countable K} (P : A -> Prop) (m : gmap K A) (xs : list A) : Prop :=
  NoDup xs /\ forall x, x ∈ xs <-> P x /\ exists k, m !! k = Some x.

(** [xs] lists some of them: at most [limit] when the limit is positive, and all
    of them when there are no more than that. *)
Definition lists_upto {K A} `{Countable K} (P : A -> Prop) (limit : Z) (m : gmap K A) (xs : list A) : Prop :=
  exists all, lists P m all /\ xs = limit_to limit all.

(** The rows of a map whose keys can be read off the rows are distinct. *)
Lemma values_NoDup {K A} `{Countable K} (key : A -> K) (m : gmap K A) :
  map_Forall (fun k x => key x = k) m -> NoDup (map_to_list m).*2.
Proof.
  intros Hk. apply (NoDup_fmap_1 key).
  enough (key <$> (map_to_list m).*2 = (map_to_list m).*1) as -> by apply NoDup_fst_map_to_list.
  rewrite <- list_fmap_compose. apply list_fmap_ext. intros i [k x] Hi. simpl.
  apply Hk, elem_of_map_to_list, (list_elem_of_lookup_2 _ _ _ Hi).
Qed.

Lemma elem_of_values {K A} `{Countable K} (m : gmap K A) x :
  x ∈ (map_to_list m).*2 <-> exists k, m !! k = Some x.
Proof.
  rewrite list_elem_of_fmap. split.
  - intros ([k y] & -> & Hin%elem_of_map_to_list). eauto.
  - intros [k Hk]. exists (k, x). by rewrite elem_of_map_to_list.
Qed.

Lemma filter_values {K A} (P : A -> Prop) `{!forall x, Decision (P x)} (l : list (K * A)) :
  filter P l.*2 = (filter (fun kx => P kx.2) l).*2.
Proof.
  induction l as [|[k x] l IH]; [done|]. rewrite fmap_cons, !filter_cons. cbn [snd].
  destruct (decide (P x)); by rewrite ?fmap_cons, IH.
Qed.

Lemma lists_values {K A} `{Countable K} (key : A -> K) (keep : A -> bool) (P : A -> Prop) (m : gmap K A) xs :
  map_Forall (fun k x => key x = k) m -> (forall x, keep x = true <-> P x) ->
  xs ≡ₚ filter (fun x => keep x = true) (map_to_list m).*2 -> lists P m xs.
Proof.
  intros Hk HP Hp. split.
  - rewrite Hp. apply NoDup_filter. by apply (values_NoDup key).
  - intros x. by rewrite Hp, list_elem_of_filter, HP, elem_of_values.
Qed.

(** ** What the interfaces promise *)

(** Fields fixed at creation. *)
Definition same_identity (i i' : TaskInstance) : Prop :=
  inst_ID i' = inst_ID i /\ inst_TaskID i' = inst_TaskID i /\
  inst_ScheduleInstanceID i' = inst_ScheduleInstanceID i /\ inst_ShardNo i' = inst_ShardNo i /\
  inst_ShardTotal i' = inst_ShardTotal i /\ inst_TriggerTime i' = inst_TriggerTime i /\
  inst_RetryCount i' = inst_RetryCount i /\ inst_NextRetryTime i' = inst_NextRetryTime i.

(** The recorded outcome. *)
Definition same_outcome (i i' : TaskInstance) : Prop :=
  inst_Status i' = inst_Status i /\ inst_ErrorCode i' = inst_ErrorCode i /\
  inst_ErrorMessage i' = inst_ErrorMessage i.

(** What an instance is created with that every implementation keeps. *)
Definition created_as (i i' : TaskInstance) : Prop :=
  inst_TaskID i' = inst_TaskID i /\ inst_ScheduleInstanceID i' = inst_ScheduleInstanceID i /\
  inst_RetryCount i' = inst_RetryCount i /\ inst_Status i' = inst_Status i.

(** The row [id] was rewritten along [R], nothing else. *)
Definition rewritten (R : TaskInstance -> TaskInstance -> Prop) (id : Z) (m m' : gmap Z TaskInstance) : Prop :=
  exists f, (forall i, m !! id = Some i -> R i (f i)) /\ m' = alter f id m.

(** The same for the row a schedule id stands for, if there is one. *)
Definition rewritten_by (R : TaskInstance -> TaskInstance -> Prop) (sched : gmap string Z) (sid : string)
    (m m' : gmap Z TaskInstance) : Prop :=
  match sched !! sid with Some id => rewritten R id m m' | None => m' = m end.

Definition sets_status (st : string) (i i' : TaskInstance) : Prop :=
  same_identity i i' /\ inst_Status i' = st /\ inst_ErrorCode i' = inst_ErrorCode i /\ inst_ErrorMessage i' = inst_ErrorMessage i.
Definition sets_result (st code msg : string) (i i' : TaskInstance) : Prop :=
  same_identity i i' /\ inst_Status i' = st /\ inst_ErrorCode i' = code /\ inst_ErrorMessage i' = msg.
Definition keeps_outcome (i i' : TaskInstance) : Prop := same_identity i i' /\ same_outcome i i'.

Lemma with_dispatch_sets now w d i : sets_status "dispatched" i (with_dispatch now w d i).
Proof. unfold with_dispatch. by repeat case_match. Qed.

Lemma with_timestamps_outcome now a b i : keeps_outcome i (with_timestamps now a b i).
Proof. unfold with_timestamps. by repeat case_match. Qed.

(** Altering a row that is there. *)
Lemma alter_insert_some {A} (f : A -> A) id (i : A) (m : gmap Z A) : m !! id = Some i -> alter f id m = <[id := f i]> m.
Proof.
  intros Hi. apply map_eq. intros k. destruct (decide (id = k)) as [->|].
  - by rewrite lookup_alter_eq, lookup_insert_eq, Hi.
  - by rewrite lookup_alter_ne, lookup_insert_ne.
Qed.

(** Rewriting along a stronger relation. *)
Lemma rewritten_alter (R : TaskInstance -> TaskInstance -> Prop) id f (m : gmap Z TaskInstance) :
  (forall i, R i (f i)) -> rewritten R id m (alter f id m).
Proof. intros Hf. exists f. split; [intros i _; apply Hf|done]. Qed.

(** The contract every implementation keeps (the database included), in terms of an
    abstract view of the store and an invariant. A failed write may leave a new row
    behind: an insert that succeeded but could not be read back. *)
Class TaskRepositoryContract (S : Type) `{TaskRepository S} := {
  tasks_of : S -> gmap Z Task;
  deps_of_store : S -> list TaskDependency;
  tasks_inv : S -> Prop;
  tasks_inv_id s id t : tasks_inv s -> tasks_of s !! id = Some t -> task_ID t = id;
  GetTask_ok s id t : GetTask id s = Ok t -> tasks_of s !! id = Some t;
  CreateTask_keeps now t s : tasks_inv s -> tasks_inv (CreateTask now t s).1 /\
    forall id x, tasks_of s !! id = Some x -> tasks_of (CreateTask now t s).1 !! id = Some x;
  UpdateTask_keeps now t s : tasks_inv s -> tasks_inv (UpdateTask now t s).1 /\
    forall id, id <> task_ID t -> tasks_of (UpdateTask now t s).1 !! id = tasks_of s !! id;
  DeleteTask_keeps id s : tasks_inv s -> tasks_inv (DeleteTask id s).1 /\
    forall id', id' <> id -> tasks_of (DeleteTask id s).1 !! id' = tasks_of s !! id';
  AddDependency_keeps a b s : tasks_inv s ->
    tasks_inv (AddDependency a b s).1 /\ tasks_of (AddDependency a b s).1 = tasks_of s;
  RemoveDependency_keeps a b s : tasks_inv s ->
    tasks_inv (RemoveDependency a b s).1 /\ tasks_of (RemoveDependency a b s).1 = tasks_of s;
  ListTasks_ok s ts : tasks_inv s -> ListTasks s = Ok ts -> lists (fun _ => True) (tasks_of s) ts;
  ListTasksByTenant_ok s tid ts : tasks_inv s -> ListTasksByTenant tid s = Ok ts ->
    lists (fun t => task_TenantID t = tid) (tasks_of s) ts
}.

Class TaskInstanceRepositoryContract (S : Type) `{TaskInstanceRepository S} := {
  insts_of : S -> gmap Z TaskInstance;
  sched_of : S -> gmap string Z;
  insts_inv : S -> Prop;
  insts_inv_id s id i : insts_inv s -> insts_of s !! id = Some i -> inst_ID i = id;
  insts_inv_sched s sid id i : insts_inv s -> sched_of s !! sid = Some id -> insts_of s !! id = Some i ->
    inst_ScheduleInstanceID i = sid;
  GetInstance_ok s id i : GetInstance id s = Ok i -> insts_of s !! id = Some i;
  GetInstanceByScheduleID_ok s sid i : insts_inv s -> GetInstanceByScheduleID sid s = Ok i ->
    exists id, sched_of s !! sid = Some id /\ insts_of s !! id = Some i;
  ListInstances_ok s xs : insts_inv s -> ListInstances s = Ok xs -> lists (fun _ => True) (insts_of s) xs;
  ListInstancesByTaskID_ok s id xs : insts_inv s -> ListInstancesByTaskID id s = Ok xs ->
    lists (fun i => inst_TaskID i = id) (insts_of s) xs;
  ListInstancesByStatus_ok s st limit xs : insts_inv s -> ListInstancesByStatus st limit s = Ok xs ->
    lists_upto (fun i => inst_Status i = st) limit (insts_of s) xs;
  ListDueRetryInstances_waiting s cutoff limit xs : insts_inv s -> ListDueRetryInstances cutoff limit s = Ok xs ->
    NoDup xs /\ forall i, i ∈ xs -> inst_Status i = "retry_waiting" /\ insts_of s !! inst_ID i = Some i;
  CreateInstance_row now i s s' r : insts_inv s -> CreateInstance now i s = (s', r) -> insts_inv s' /\
    ((exists e, r = Err e) /\ insts_of s' = insts_of s /\ sched_of s' = sched_of s \/
     exists i', insts_of s !! inst_ID i' = None /\ created_as i i' /\ insts_of s' = <[inst_ID i' := i']> (insts_of s) /\
       sched_of s' = <[inst_ScheduleInstanceID i := inst_ID i']> (sched_of s) /\ ((exists e, r = Err e) \/ r = Ok i'));
  UpdateInstanceStatus_row now id st s s' u : insts_inv s -> UpdateInstanceStatus now id st s = (s', Ok u) ->
    insts_inv s' /\ rewritten (sets_status st) id (insts_of s) (insts_of s') /\ sched_of s' = sched_of s;
  UpdateInstanceStatus_err now id st s s' e : insts_inv s -> UpdateInstanceStatus now id st s = (s', Err e) ->
    insts_inv s' /\ insts_of s' = insts_of s /\ sched_of s' = sched_of s;
  UpdateInstanceDispatch_row now id w d s s' u : insts_inv s -> UpdateInstanceDispatch now id w d s = (s', Ok u) ->
    insts_inv s' /\ rewritten (sets_status "dispatched") id (insts_of s) (insts_of s') /\ sched_of s' = sched_of s;
  UpdateInstanceDispatch_err now id w d s s' e : insts_inv s -> UpdateInstanceDispatch now id w d s = (s', Err e) ->
    insts_inv s' /\ insts_of s' = insts_of s /\ sched_of s' = sched_of s;
  UpdateInstanceResult_row now sid st c m s s' u : insts_inv s ->
    UpdateInstanceResult now sid st c m s = (s', Ok u) ->
    insts_inv s' /\ rewritten_by (sets_result st c m) (sched_of s) sid (insts_of s) (insts_of s') /\ sched_of s' = sched_of s;
  UpdateInstanceResult_err now sid st c m s s' e : insts_inv s ->
    UpdateInstanceResult now sid st c m s = (s', Err e) ->
    insts_inv s' /\ insts_of s' = insts_of s /\ sched_of s' = sched_of s;
  UpdateInstanceAnalysis_row now sid j s s' u : insts_inv s -> UpdateInstanceAnalysis now sid j s = (s', Ok u) ->
    insts_inv s' /\ rewritten_by keeps_outcome (sched_of s) sid (insts_of s) (insts_of s') /\ sched_of s' = sched_of s;
  UpdateInstanceAnalysis_err now sid j s s' e : insts_inv s -> UpdateInstanceAnalysis now sid j s = (s', Err e) ->
    insts_inv s' /\ insts_of s' = insts_of s /\ sched_of s' = sched_of s;
  UpdateInstanceTimestamps_row now sid a b s s' u : insts_inv s ->
    UpdateInstanceTimestamps now sid a b s = (s', Ok u) ->
    insts_inv s' /\ rewritten_by keeps_outcome (sched_of s) sid (insts_of s) (insts_of s') /\ sched_of s' = sched_of s;
  UpdateInstanceTimestamps_err now sid a b s s' e : insts_inv s ->
    UpdateInstanceTimestamps now sid a b s = (s', Err e) ->
    insts_inv s' /\ insts_of s' = insts_of s /\ sched_of s' = sched_of s
}.

Class WorkerRepositoryContract (S : Type) `{WorkerRepository S} := {
  workers_of : S -> gmap string WorkerNode;
  workers_inv : S -> Prop;
  workers_inv_id s id w : workers_inv s -> workers_of s !! id = Some w -> worker_ID w = id;
  UpsertWorker_row now w s s' u : workers_inv s -> UpsertWorker now w s = (s', Ok u) ->
    workers_inv s' /\ exists beat, workers_of s' = <[worker_ID w := set_worker_LastHeartbeatAt beat w]> (workers_of s);
  UpsertWorker_err now w s s' e : workers_inv s -> UpsertWorker now w s = (s', Err e) ->
    workers_inv s' /\ workers_of s' = workers_of s;
  GetWorker_ok s id w : GetWorker id s = Ok w -> workers_of s !! id = Some w;
  ListWorkers_ok s ws : workers_inv s -> ListWorkers s = Ok ws -> lists (fun _ => True) (workers_of s) ws;
  ListAvailableWorkers_ok s ws : workers_inv s -> ListAvailableWorkers s = Ok ws -> lists available (workers_of s) ws;
  ListStaleWorkers_rows s cutoff ws : workers_inv s -> ListStaleWorkers cutoff s = Ok ws ->
    forall x, x ∈ ws -> exists k, workers_of s !! k = Some x
}.

(** ** What the in-memory implementation promises beyond that *)

Class TaskRepositorySpec (S : Type) `{TaskRepositoryContract S} := {
  CreateTask_ok now t s s' t' : tasks_inv s -> CreateTask now t s = (s', Ok t') ->
    tasks_inv s' /\ tasks_of s !! task_ID t' = None /\ t' = new_task now (task_ID t') t /\
    tasks_of s' = <[task_ID t' := t']> (tasks_of s) /\ deps_of_store s' = deps_of_store s;
  CreateTask_err now t s s' e : tasks_inv s -> CreateTask now t s = (s', Err e) ->
    tasks_inv s' /\ tasks_of s' = tasks_of s /\ deps_of_store s' = deps_of_store s;
  UpdateTask_ok now t s s' t' : tasks_inv s -> UpdateTask now t s = (s', Ok t') ->
    tasks_inv s' /\ (exists cur, tasks_of s !! task_ID t = Some cur /\ t' = updated_task now cur t) /\
    tasks_of s' = <[task_ID t := t']> (tasks_of s) /\ deps_of_store s' = deps_of_store s;
  UpdateTask_err now t s s' e : tasks_inv s -> UpdateTask now t s = (s', Err e) ->
    tasks_inv s' /\ tasks_of s' = tasks_of s /\ deps_of_store s' = deps_of_store s;
  DeleteTask_ok id s s' u : tasks_inv s -> DeleteTask id s = (s', Ok u) ->
    tasks_inv s' /\ tasks_of s' = delete id (tasks_of s) /\ deps_of_store s' = deps_of_store s;
  DeleteTask_err id s s' e : tasks_inv s -> DeleteTask id s = (s', Err e) ->
    tasks_inv s' /\ tasks_of s' = tasks_of s /\ deps_of_store s' = deps_of_store s;
  ListDueTasks_ok s now limit ts : tasks_inv s -> ListDueTasks now limit s = Ok ts ->
    lists_upto (task_due now) limit (tasks_of s) ts;
  AddDependency_ok a b s s' u : tasks_inv s -> AddDependency a b s = (s', Ok u) ->
    tasks_inv s' /\ tasks_of s' = tasks_of s /\
    deps_of_store s' = deps_of_store s ++ [mkTaskDependency a b];
  AddDependency_err a b s s' e : tasks_inv s -> AddDependency a b s = (s', Err e) ->
    tasks_inv s' /\ tasks_of s' = tasks_of s /\ deps_of_store s' = deps_of_store s;
  RemoveDependency_ok a b s s' u : tasks_inv s -> RemoveDependency a b s = (s', Ok u) ->
    tasks_inv s' /\ tasks_of s' = tasks_of s /\
    deps_of_store s' = filter (fun d => ~ (dep_TaskID d = a /\ dep_DependsOnTaskID d = b)) (deps_of_store s);
  RemoveDependency_err a b s s' e : tasks_inv s -> RemoveDependency a b s = (s', Err e) ->
    tasks_inv s' /\ tasks_of s' = tasks_of s /\ deps_of_store s' = deps_of_store s;
  ListDownstreamTasks_ok s id ids : ListDownstreamTasks id s = Ok ids ->
    ids = dep_TaskID <$> filter (fun d => dep_DependsOnTaskID d = id) (deps_of_store s);
  ListUpstreamDeps_ok s id ids : ListUpstreamDeps id s = Ok ids ->
    ids = dep_DependsOnTaskID <$> filter (fun d => dep_TaskID d = id) (deps_of_store s)
}.

Class TaskInstanceRepositorySpec (S : Type) `{TaskInstanceRepositoryContract S} := {
  CreateInstance_ok now i s s' i' : insts_inv s -> CreateInstance now i s = (s', Ok i') ->
    insts_inv s' /\ insts_of s !! inst_ID i' = None /\ i' = new_instance now (inst_ID i') i /\
    insts_of s' = <[inst_ID i' := i']> (insts_of s) /\
    sched_of s' = <[inst_ScheduleInstanceID i := inst_ID i']> (sched_of s);
  CreateInstance_err now i s s' e : insts_inv s -> CreateInstance now i s = (s', Err e) ->
    insts_inv s' /\ insts_of s' = insts_of s /\ sched_of s' = sched_of s;
  ListDueRetryInstances_ok s cutoff limit xs : insts_inv s -> ListDueRetryInstances cutoff limit s = Ok xs ->
    lists_upto (retry_due cutoff) limit (insts_of s) xs;
  CountInstancesByStatus_ok s st n : CountInstancesByStatus st s = Ok n ->
    n = Z.of_nat (size (filter (fun ki : Z * TaskInstance => inst_Status ki.2 = st) (insts_of s)));
  UpdateInstanceStatus_ok now id st s s' u : insts_inv s -> UpdateInstanceStatus now id st s = (s', Ok u) ->
    insts_inv s' /\ insts_of s' = alter (with_status now st) id (insts_of s) /\ sched_of s' = sched_of s;
  UpdateInstanceDispatch_ok now id w d s s' u : insts_inv s -> UpdateInstanceDispatch now id w d s = (s', Ok u) ->
    insts_inv s' /\ insts_of s' = alter (with_dispatch now w d) id (insts_of s) /\ sched_of s' = sched_of s;
  UpdateInstanceResult_ok now sid st c m s s' u : insts_inv s ->
    UpdateInstanceResult now sid st c m s = (s', Ok u) ->
    insts_inv s' /\ (exists id, sched_of s !! sid = Some id /\
      insts_of s' = alter (with_result now st c m) id (insts_of s)) /\ sched_of s' = sched_of s;
  UpdateInstanceAnalysis_ok now sid j s s' u : insts_inv s -> UpdateInstanceAnalysis now sid j s = (s', Ok u) ->
    insts_inv s' /\ (exists id, sched_of s !! sid = Some id /\
      insts_of s' = alter (with_analysis now j) id (insts_of s)) /\ sched_of s' = sched_of s;
  UpdateInstanceTimestamps_ok now sid a b s s' u : insts_inv s ->
    UpdateInstanceTimestamps now sid a b s = (s', Ok u) ->
    insts_inv s' /\ (exists id, sched_of s !! sid = Some id /\
      insts_of s' = alter (with_timestamps now a b) id (insts_of s)) /\ sched_of s' = sched_of s
}.

Class WorkerRepositorySpec (S : Type) `{WorkerRepositoryContract S} := {
  UpsertWorker_ok now w s s' u : workers_inv s -> UpsertWorker now w s = (s', Ok u) ->
    workers_inv s' /\ workers_of s' = <[worker_ID w := stamped now w]> (workers_of s);
  ListStaleWorkers_ok s cutoff ws : workers_inv s -> ListStaleWorkers cutoff s = Ok ws -> lists (stale cutoff) (workers_of s) ws
}.

(** A worker store without failures of its own: the in-memory one. *)
Class WorkerRepositoryReliable (S : Type) `{WorkerRepositorySpec S} := {
  UpsertWorker_total now w s : exists s', UpsertWorker now w s = (s', Ok tt);
  GetWorker_total s id w : workers_of s !! id = Some w -> GetWorker id s = Ok w;
  ListAvailableWorkers_total s : exists ws, ListAvailableWorkers s = Ok ws;
  ListStaleWorkers_total s cutoff : exists ws, ListStaleWorkers cutoff s = Ok ws
}.

Class TaskRepositoryReliable (S : Type) `{TaskRepositorySpec S} := {
  GetTask_total s id t : tasks_of s !! id = Some t -> GetTask id s = Ok t;
  CreateTask_total now t s : exists s' t', CreateTask now t s = (s', Ok t');
  UpdateTask_total now t s cur : tasks_of s !! task_ID t = Some cur ->
    exists s' t', UpdateTask now t s = (s', Ok t');
  DeleteTask_total s id t : tasks_of s !! id = Some t -> exists s', DeleteTask id s = (s', Ok tt);
  AddDependency_total s a b ta tb : tasks_of s !! a = Some ta -> tasks_of s !! b = Some tb ->
    exists s', AddDependency a b s = (s', Ok tt);
  RemoveDependency_total s a b : exists s', RemoveDependency a b s = (s', Ok tt);
  ListDownstreamTasks_total s id : exists ids, ListDownstreamTasks id s = Ok ids;
  ListUpstreamDeps_total s id : exists ids, ListUpstreamDeps id s = Ok ids
}.

Class TaskInstanceRepositoryReliable (S : Type) `{TaskInstanceRepositorySpec S} := {
  GetInstanceByScheduleID_total s sid id i : sched_of s !! sid = Some id -> insts_of s !! id = Some i ->
    GetInstanceByScheduleID sid s = Ok i;
  CreateInstance_total now i s : exists s' i', CreateInstance now i s = (s', Ok i');
  UpdateInstanceStatus_total now id st s i : insts_of s !! id = Some i ->
    exists s', UpdateInstanceStatus now id st s = (s', Ok tt);
  UpdateInstanceDispatch_total now id w d s i : insts_of s !! id = Some i ->
    exists s', UpdateInstanceDispatch now id w d s = (s', Ok tt);
  UpdateInstanceResult_total now sid st c m s id i : sched_of s !! sid = Some id -> insts_of s !! id = Some i ->
    exists s', UpdateInstanceResult now sid st c m s = (s', Ok tt);
  UpdateInstanceTimestamps_total now sid a b s id i : sched_of s !! sid = Some id -> insts_of s !! id = Some i ->
    exists s', UpdateInstanceTimestamps now sid a b s = (s', Ok tt)
}.
