(* ===== verification/TestStore.v ===== *)
(** internal/repo/teststore: the in-memory repositories. A Go map is ranged over
    in an order the language leaves open, so the listings start from an
    arbitrary permutation ([map_range]); [sort.Slice] then sorts it. Every
    operation runs under the repository's mutex, hence is atomic. *)
From S2P Require Import Prelude GoStd GoTime GoFormat Model Repo.

(** The iteration order of Go maps. *)
Class MapRange := {
  map_range : forall {A : Type}, list A -> list A;
  map_range_perm : forall {A : Type} (l : list A), map_range l ≡ₚ l
}.

Definition errTaskNotFound : gerror := Sentinel "task not found".
Definition errTaskInstanceNotFound : gerror := Sentinel "task instance not found".
Definition errWorkerNotFound : gerror := Sentinel "worker not found".

Definition by_key {A} (key : A -> Z) (x y : A) : Prop := key x <= key y.
#[export] Instance by_key_dec {A} (key : A -> Z) x y : Decision (by_key key x y).
Proof. unfold by_key. apply _. Defined.

Section Listing.
Context `{MapRange}.

(** [for _, x := range m { if !keep x { continue }; xs = append(xs, x) }] *)
Definition collect {K A} `{Countable K} (keep : A -> bool) (m : gmap K A) : list A :=
  filter (fun x => keep x = true) (map_range (map_to_list m).*2).

(** [sort.Slice] by a key. *)
Definition sort_by {A} (key : A -> Z) (xs : list A) : list A := merge_sort (by_key key) xs.

Definition worker_le (x y : WorkerNode) : Prop := is_true (String.leb (worker_ID x) (worker_ID y)).
#[local] Instance worker_le_dec x y : Decision (worker_le x y).
Proof. unfold worker_le. apply _. Defined.
Definition sort_workers (ws : list WorkerNode) : list WorkerNode := merge_sort worker_le ws.

(** ** TaskRepository *)

Record TaskStore := mkTaskStore {
  ts_nextID : Z;
  ts_tasks : gmap Z Task;
  ts_dependencies : list TaskDependency
}.

Definition NewTaskRepository : TaskStore := mkTaskStore 1 ∅ [].

Definition ts_CreateTask (now : Time) (task : Task) (r : TaskStore) : TaskStore * result Task :=
  let copyTask := new_task now (ts_nextID r) task in
  ({| ts_nextID := ts_nextID r + 1; ts_tasks := <[task_ID copyTask := copyTask]> (ts_tasks r);
      ts_dependencies := ts_dependencies r |}, Ok copyTask).

Definition ts_UpdateTask (now : Time) (task : Task) (r : TaskStore) : TaskStore * result Task :=
  match ts_tasks r !! task_ID task with
  | None => (r, Err errTaskNotFound)
  | Some current =>
      let copyTask := updated_task now current task in
      ({| ts_nextID := ts_nextID r; ts_tasks := <[task_ID copyTask := copyTask]> (ts_tasks r);
          ts_dependencies := ts_dependencies r |}, Ok copyTask)
  end.

Definition ts_DeleteTask (id : Z) (r : TaskStore) : TaskStore * result unit :=
  match ts_tasks r !! id with
  | None => (r, Err errTaskNotFound)
  | Some _ => ({| ts_nextID := ts_nextID r; ts_tasks := delete id (ts_tasks r);
                  ts_dependencies := ts_dependencies r |}, Ok tt)
  end.

Definition ts_GetTask (id : Z) (r : TaskStore) : result Task :=
  match ts_tasks r !! id with Some t => Ok t | None => Err errTaskNotFound end.

Definition ts_ListTasks (r : TaskStore) : result (list Task) :=
  Ok (sort_by task_ID (collect (fun _ => true) (ts_tasks r))).

Definition ts_ListTasksByTenant (tenantID : Z) (r : TaskStore) : result (list Task) :=
  Ok (sort_by task_ID (collect (fun t => task_TenantID t =? tenantID) (ts_tasks r))).

Definition ts_ListDueTasks (now : Time) (limit : Z) (r : TaskStore) : result (list Task) :=
  let tasks := collect (fun t =>
    bool_decide (task_Status t = "enabled") &&
    negb (IsZero (task_NextTriggerTime t) || After (task_NextTriggerTime t) now)) (ts_tasks r) in
  Ok (limit_to limit (sort_by task_NextTriggerTime tasks)).

Definition ts_AddDependency (taskID dependsOnTaskID : Z) (r : TaskStore) : TaskStore * result unit :=
  match ts_tasks r !! taskID, ts_tasks r !! dependsOnTaskID with
  | Some _, Some _ =>
      ({| ts_nextID := ts_nextID r; ts_tasks := ts_tasks r;
          ts_dependencies := ts_dependencies r ++ [mkTaskDependency taskID dependsOnTaskID] |}, Ok tt)
  | _, _ => (r, Err errTaskNotFound)
  end.

Definition ts_RemoveDependency (taskID dependsOnTaskID : Z) (r : TaskStore) : TaskStore * result unit :=
  ({| ts_nextID := ts_nextID r; ts_tasks := ts_tasks r;
      ts_dependencies := filter (fun d => ~ (dep_TaskID d = taskID /\ dep_DependsOnTaskID d = dependsOnTaskID))
                           (ts_dependencies r) |}, Ok tt).

Definition ts_ListDownstreamTasks (taskID : Z) (r : TaskStore) : result (list Z) :=
  Ok (dep_TaskID <$> filter (fun d => dep_DependsOnTaskID d = taskID) (ts_dependencies r)).

Definition ts_ListUpstreamDeps (taskID : Z) (r : TaskStore) : result (list Z) :=
  Ok (dep_DependsOnTaskID <$> filter (fun d => dep_TaskID d = taskID) (ts_dependencies r)).

#[global] Instance TaskStore_repository : TaskRepository TaskStore := {
  CreateTask := ts_CreateTask; UpdateTask := ts_UpdateTask; DeleteTask := ts_DeleteTask;
  GetTask := ts_GetTask; ListTasks := ts_ListTasks; ListTasksByTenant := ts_ListTasksByTenant;
  ListDueTasks := ts_ListDueTasks; AddDependency := ts_AddDependency;
  RemoveDependency := ts_RemoveDependency; ListDownstreamTasks := ts_ListDownstreamTasks;
  ListUpstreamDeps := ts_ListUpstreamDeps }.

(** ** TaskInstanceRepository *)

Record InstanceStore := mkInstanceStore {
  is_nextID : Z;
  is_instances : gmap Z TaskInstance;
  is_bySchedule : gmap string Z
}.

Definition NewTaskInstanceRepository : InstanceStore := mkInstanceStore 1 ∅ ∅.

Definition is_CreateInstance (now : Time) (instance : TaskInstance) (r : InstanceStore)
    : InstanceStore * result TaskInstance :=
  let copyInstance := new_instance now (is_nextID r) instance in
  ({| is_nextID := is_nextID r + 1;
      is_instances := <[inst_ID copyInstance := copyInstance]> (is_instances r);
      is_bySchedule := <[inst_ScheduleInstanceID copyInstance := inst_ID copyInstance]> (is_bySchedule r) |},
   Ok copyInstance).

Definition is_GetInstance (instanceID : Z) (r : InstanceStore) : result TaskInstance :=
  match is_instances r !! instanceID with Some i => Ok i | None => Err errTaskInstanceNotFound end.

Definition is_GetInstanceByScheduleID (scheduleID : string) (r : InstanceStore) : result TaskInstance :=
  match is_bySchedule r !! scheduleID with
  | None => Err errTaskInstanceNotFound
  | Some id => is_GetInstance id r
  end.

Definition is_ListInstances (r : InstanceStore) : result (list TaskInstance) :=
  Ok (sort_by inst_ID (collect (fun _ => true) (is_instances r))).

Definition is_ListInstancesByTaskID (taskID : Z) (r : InstanceStore) : result (list TaskInstance) :=
  Ok (sort_by inst_CreatedAt (collect (fun i => inst_TaskID i =? taskID) (is_instances r))).

(** [if offset > 0 && offset < len(xs) { xs = xs[offset:] }], the limit after it. *)
Definition page {A} (limit offset : Z) (xs : list A) : list A :=
  limit_to limit (if (0 <? offset) && (offset <? Z.of_nat (length xs))
                  then drop (Z.to_nat offset) xs else xs).

Definition is_ListInstancesByTimeRange (from to : Time) (limit offset : Z) (r : InstanceStore)
    : result (list TaskInstance) :=
  Ok (page limit offset
    (sort_by (fun i => - inst_CreatedAt i)
      (collect (fun i => negb (Before (inst_CreatedAt i) from || After (inst_CreatedAt i) to))
        (is_instances r)))).

Definition is_ListInstancesByStatus (status : string) (limit : Z) (r : InstanceStore)
    : result (list TaskInstance) :=
  Ok (limit_to limit (sort_by inst_CreatedAt
        (collect (fun i => bool_decide (inst_Status i = status)) (is_instances r)))).

Definition is_CountInstancesByStatus (status : string) (r : InstanceStore) : result Z :=
  Ok (Z.of_nat (length (collect (fun i => bool_decide (inst_Status i = status)) (is_instances r)))).

Definition is_ListDueRetryInstances (cutoff : Time) (limit : Z) (r : InstanceStore)
    : result (list TaskInstance) :=
  Ok (limit_to limit (sort_by inst_CreatedAt
        (collect (fun i => bool_decide (inst_Status i = "retry_waiting") &&
           negb (negb (IsZero (inst_NextRetryTime i)) && After (inst_NextRetryTime i) cutoff))
           (is_instances r)))).

(** The pointer [r.instances[id]] is dereferenced and written through. *)
Definition write_instance (id : Z) (f : TaskInstance -> TaskInstance) (r : InstanceStore)
    : InstanceStore * result unit :=
  match is_instances r !! id with
  | None => (r, Err errTaskInstanceNotFound)
  | Some i => ({| is_nextID := is_nextID r; is_instances := <[id := f i]> (is_instances r);
                  is_bySchedule := is_bySchedule r |}, Ok tt)
  end.

Definition write_by_schedule (sid : string) (f : TaskInstance -> TaskInstance) (r : InstanceStore)
    : InstanceStore * result unit :=
  match is_bySchedule r !! sid with
  | None => (r, Err errTaskInstanceNotFound)
  | Some id => write_instance id f r
  end.

Definition is_UpdateInstanceStatus (now : Time) (instanceID : Z) (status : string) :=
  write_instance instanceID (with_status now status).
Definition is_UpdateInstanceDispatch (now : Time) (instanceID : Z) (workerID dispatchTime : string) :=
  write_instance instanceID (with_dispatch now workerID dispatchTime).
Definition is_UpdateInstanceResult (now : Time) (scheduleID status errorCode errorMessage : string) :=
  write_by_schedule scheduleID (with_result now status errorCode errorMessage).
Definition is_UpdateInstanceAnalysis (now : Time) (scheduleID analysisJSON : string) :=
  write_by_schedule scheduleID (with_analysis now analysisJSON).
Definition is_UpdateInstanceTimestamps (now : Time) (scheduleID : string) (startedAt finishedAt : Time) :=
  write_by_schedule scheduleID (with_timestamps now startedAt finishedAt).

#[global] Instance InstanceStore_repository : TaskInstanceRepository InstanceStore := {
  CreateInstance := is_CreateInstance; GetInstance := is_GetInstance;
  GetInstanceByScheduleID := is_GetInstanceByScheduleID; ListInstances := is_ListInstances;
  ListInstancesByTaskID := is_ListInstancesByTaskID;
  ListInstancesByTimeRange := is_ListInstancesByTimeRange;
  ListInstancesByStatus := is_ListInstancesByStatus; ListDueRetryInstances := is_ListDueRetryInstances;
  CountInstancesByStatus := is_CountInstancesByStatus; UpdateInstanceStatus := is_UpdateInstanceStatus;
  UpdateInstanceDispatch := is_UpdateInstanceDispatch; UpdateInstanceResult := is_UpdateInstanceResult;
  UpdateInstanceAnalysis := is_UpdateInstanceAnalysis;
  UpdateInstanceTimestamps := is_UpdateInstanceTimestamps }.

(** ** WorkerRepository *)

Record WorkerStore := mkWorkerStore { ws_workers : gmap string WorkerNode }.

Definition NewWorkerRepository : WorkerStore := mkWorkerStore ∅.

Definition ws_UpsertWorker (now : Time) (worker : WorkerNode) (r : WorkerStore) : WorkerStore * result unit :=
  let copyWorker := stamped now worker in
  (mkWorkerStore (<[worker_ID copyWorker := copyWorker]> (ws_workers r)), Ok tt).

Definition ws_GetWorker (id : string) (r : WorkerStore) : result WorkerNode :=
  match ws_workers r !! id with Some w => Ok w | None => Err errWorkerNotFound end.

Definition ws_ListWorkers (r : WorkerStore) : result (list WorkerNode) :=
  Ok (sort_workers (collect (fun _ => true) (ws_workers r))).

Definition ws_ListStaleWorkers (cutoff : Time) (r : WorkerStore) : result (list WorkerNode) :=
  Ok (sort_workers (collect (fun w =>
        bool_decide (worker_Status w = "online") && Before (worker_LastHeartbeatAt w) cutoff)
      (ws_workers r))).

Definition ws_ListAvailableWorkers (r : WorkerStore) : result (list WorkerNode) :=
  match ws_ListWorkers r with
  | Err e => Err e
  | Ok workers =>
      Ok (filter (fun w => worker_Status w = "online" /\ worker_CurrentLoad w < worker_MaxConcurrency w)
            workers)
  end.

#[global] Instance WorkerStore_repository : WorkerRepository WorkerStore := {
  UpsertWorker := ws_UpsertWorker; GetWorker := ws_GetWorker; ListWorkers := ws_ListWorkers;
  ListAvailableWorkers := ws_ListAvailableWorkers; ListStaleWorkers := ws_ListStaleWorkers }.
End Listing.

(** ** The stores keep the interfaces' promises *)

Section Spec.
Context `{MapRange}.

#[local] Instance by_key_total {A} (key : A -> Z) : Total (by_key key).
Proof. intros x y. unfold by_key. lia. Qed.
#[local] Instance by_key_trans {A} (key : A -> Z) : Transitive (by_key key).
Proof. intros x y z. unfold by_key. lia. Qed.

Lemma sort_by_sorted {A} (key : A -> Z) xs : Sorted (by_key key) (sort_by key xs).
Proof. apply Sorted_merge_sort, _. Qed.

Lemma sort_by_perm {A} (key : A -> Z) xs : sort_by key xs ≡ₚ xs.
Proof. apply merge_sort_Permutation. Qed.

Lemma sort_workers_perm ws : sort_workers ws ≡ₚ ws.
Proof. apply merge_sort_Permutation. Qed.

Lemma collect_lists {K A} `{Countable K} (key : A -> K) (keep : A -> bool) (P : A -> Prop) (m : gmap K A) xs :
  map_Forall (fun k x => key x = k) m -> (forall x, keep x = true <-> P x) ->
  xs ≡ₚ collect keep m -> lists P m xs.
Proof.
  intros Hk HP Hp. apply (lists_values key keep); [done..|]. rewrite Hp. unfold collect. by rewrite map_range_perm.
Qed.

Lemma collect_length {K A} `{Countable K} (keep : A -> bool) (P : A -> Prop) `{!forall x, Decision (P x)} (m : gmap K A) :
  (forall x, keep x = true <-> P x) ->
  length (collect keep m) = size (filter (fun kx : K * A => P kx.2) m).
Proof.
  intros HP. unfold collect. rewrite map_range_perm.
  rewrite (list_filter_iff _ P) by apply HP. rewrite filter_values, length_fmap.
  rewrite <- length_map_to_list, map_filter_alt. rewrite map_to_list_to_map; [done|].
  apply (sublist_NoDup _ (map_to_list m).*1); [apply NoDup_fst_map_to_list|].
  apply fmap_sublist, sublist_filter.
Qed.

Definition ts_inv (r : TaskStore) : Prop :=
  map_Forall (fun id t => task_ID t = id /\ id < ts_nextID r) (ts_tasks r).

Definition is_inv (r : InstanceStore) : Prop :=
  map_Forall (fun id i => inst_ID i = id /\ id < is_nextID r) (is_instances r) /\
  map_Forall (fun sid id => exists i, is_instances r !! id = Some i /\ inst_ScheduleInstanceID i = sid)
    (is_bySchedule r).

Definition ws_inv (r : WorkerStore) : Prop := map_Forall (fun id w => worker_ID w = id) (ws_workers r).

Lemma ts_inv_keys r : ts_inv r -> map_Forall (fun id t => task_ID t = id) (ts_tasks r).
Proof. intros Hi k t Hk. by apply Hi in Hk as [? _]. Qed.

Lemma is_inv_keys r : is_inv r -> map_Forall (fun id i => inst_ID i = id) (is_instances r).
Proof. intros [Hi _] k t Hk. by apply Hi in Hk as [? _]. Qed.

#[local] Obligation Tactic := idtac.

(** Case analysis on the result of a store operation. *)
Ltac store_cases :=
  intros; simplify_eq; repeat case_match; simplify_eq; try done.

Lemma ts_inv_update now r task cur : ts_inv r -> ts_tasks r !! task_ID task = Some cur ->
  ts_inv (ts_UpdateTask now task r).1.
Proof.
  intros Hi Hc. unfold ts_UpdateTask. rewrite Hc. simpl.
  apply map_Forall_insert_2; [|done]. apply Hi in Hc as [_ ?]. done.
Qed.

Lemma ts_create now t s s' t' : ts_inv s -> ts_CreateTask now t s = (s', Ok t') ->
  ts_inv s' /\ ts_tasks s !! task_ID t' = None /\ t' = new_task now (task_ID t') t /\
  ts_tasks s' = <[task_ID t' := t']> (ts_tasks s) /\ ts_dependencies s' = ts_dependencies s.
Proof.
  intros Hi E. unfold ts_CreateTask in E. simplify_eq. simpl.
  assert (ts_tasks s !! ts_nextID s = None) as Hn.
  { destruct (ts_tasks s !! ts_nextID s) eqn:E; [|done]. apply Hi in E as [_ ?]. lia. }
  split_and!; try done. apply map_Forall_insert_2; [simpl; split; [done|lia]|].
  intros id x Hx. apply Hi in Hx as [? ?]. simpl. split; [done|lia].
Qed.

Lemma ts_update now t s s' t' : ts_inv s -> ts_UpdateTask now t s = (s', Ok t') ->
  ts_inv s' /\ (exists cur, ts_tasks s !! task_ID t = Some cur /\ t' = updated_task now cur t) /\
  ts_tasks s' = <[task_ID t := t']> (ts_tasks s) /\ ts_dependencies s' = ts_dependencies s.
Proof.
  intros Hi E. pose proof (ts_inv_update now s t) as Hu.
  unfold ts_UpdateTask in *. destruct (ts_tasks s !! task_ID t) as [cur|] eqn:Hc; simplify_eq.
  split_and!; eauto.
Qed.

Lemma ts_delete id s s' u : ts_inv s -> ts_DeleteTask id s = (s', Ok u) ->
  ts_inv s' /\ ts_tasks s' = delete id (ts_tasks s) /\ ts_dependencies s' = ts_dependencies s.
Proof. intros Hi. unfold ts_DeleteTask. store_cases. split_and!; try done. by apply map_Forall_delete. Qed.

#[global] Program Instance TaskStore_contract : TaskRepositoryContract TaskStore := {
  tasks_of := ts_tasks; deps_of_store := ts_dependencies; tasks_inv := ts_inv }.
Next Obligation. intros s id t Hi Ht. by apply Hi in Ht as [? _]. Qed.
Next Obligation. intros s id t. simpl. unfold ts_GetTask. by store_cases. Qed.
Next Obligation.
  intros now t s Hi. destruct (CreateTask now t s) as [s' [t'|e]] eqn:E; [|done].
  destruct (ts_create _ _ _ _ _ Hi E) as (? & Hn & _ & Hm & _). split; [done|]. intros id x Hx. simpl.
  rewrite Hm, lookup_insert_ne; [done|congruence].
Qed.
Next Obligation.
  intros now t s Hi. destruct (UpdateTask now t s) as [s' [t'|e]] eqn:E.
  - destruct (ts_update _ _ _ _ _ Hi E) as (? & _ & Hm & _). split; [done|]. intros id Hne. simpl.
    by rewrite Hm, lookup_insert_ne.
  - simpl in E. unfold ts_UpdateTask in E. by store_cases.
Qed.
Next Obligation.
  intros id s Hi. destruct (DeleteTask id s) as [s' [u|e]] eqn:E.
  - destruct (ts_delete _ _ _ _ Hi E) as (? & Hm & _). split; [done|]. intros id' Hne. simpl.
    by rewrite Hm, lookup_delete_ne.
  - simpl in E. unfold ts_DeleteTask in E. by store_cases.
Qed.
Next Obligation. intros a b s Hi. simpl. unfold ts_AddDependency. by repeat case_match. Qed.
Next Obligation. intros a b s Hi. simpl. unfold ts_RemoveDependency. by repeat case_match. Qed.
Next Obligation.
  intros s ts Hi E. simpl in E. unfold ts_ListTasks in E. simplify_eq.
  eapply (collect_lists task_ID); [by apply ts_inv_keys| |apply sort_by_perm]. done.
Qed.
Next Obligation.
  intros s tid ts Hi E. simpl in E. unfold ts_ListTasksByTenant in E. simplify_eq.
  eapply (collect_lists task_ID); [by apply ts_inv_keys| |apply sort_by_perm]. intros x. simpl. lia.
Qed.

#[global] Program Instance TaskStore_spec : TaskRepositorySpec TaskStore.
Next Obligation. exact ts_create. Qed.
Next Obligation. done. Qed.
Next Obligation. exact ts_update. Qed.
Next Obligation. intros now t s s' e Hi. simpl. unfold ts_UpdateTask. by store_cases. Qed.
Next Obligation. exact ts_delete. Qed.
Next Obligation. intros id s s' e Hi. simpl. unfold ts_DeleteTask. by store_cases. Qed.
Next Obligation.
  intros s now limit ts Hi E. simpl in E. unfold ts_ListDueTasks in E. simplify_eq.
  eexists. split; [|done].
  eapply (collect_lists task_ID); [by apply ts_inv_keys| |apply sort_by_perm]. intros x. unfold task_due.
  rewrite andb_true_iff, bool_decide_eq_true, negb_true_iff, orb_false_iff. done.
Qed.
Next Obligation. intros a b s s' u Hi. simpl. unfold ts_AddDependency. by store_cases. Qed.
Next Obligation. intros a b s s' e Hi. simpl. unfold ts_AddDependency. by store_cases. Qed.
Next Obligation. intros a b s s' u Hi. simpl. unfold ts_RemoveDependency. by store_cases. Qed.
Next Obligation. done. Qed.
Next Obligation. intros s id ids. simpl. unfold ts_ListDownstreamTasks. by store_cases. Qed.
Next Obligation. intros s id ids. simpl. unfold ts_ListUpstreamDeps. by store_cases. Qed.

(** A row update that keeps the keys keeps the invariant. *)
Definition keeps_keys (f : TaskInstance -> TaskInstance) : Prop :=
  forall i, inst_ID (f i) = inst_ID i /\ inst_ScheduleInstanceID (f i) = inst_ScheduleInstanceID i.

Lemma with_dispatch_keys now w d : keeps_keys (with_dispatch now w d).
Proof. intros i. unfold with_dispatch. by repeat case_match. Qed.

Lemma with_timestamps_keys now a b : keeps_keys (with_timestamps now a b).
Proof. intros i. unfold with_timestamps. by repeat case_match. Qed.

Lemma write_instance_ok id f s s' u : keeps_keys f -> is_inv s -> write_instance id f s = (s', Ok u) ->
  is_inv s' /\ is_instances s' = alter f id (is_instances s) /\ is_bySchedule s' = is_bySchedule s.
Proof.
  intros Hf [Hi Hs]. unfold write_instance. destruct (is_instances s !! id) as [i|] eqn:E; [|done].
  intros [= <- _]. simpl. split; [|split; [|done]].
  - split; simpl.
    + apply map_Forall_insert_2; [|done]. apply Hi in E as [? ?]. by rewrite (proj1 (Hf i)).
    + intros sid id' Hid. apply Hs in Hid as (i' & Hi' & Hsid).
      destruct (decide (id = id')) as [->|]; [|exists i'; by rewrite lookup_insert_ne].
      exists (f i). rewrite lookup_insert_eq. split; [done|]. rewrite (proj2 (Hf i)). by simplify_eq.
  - apply map_eq. intros k. destruct (decide (id = k)) as [->|].
    + by rewrite lookup_insert_eq, lookup_alter_eq, E.
    + by rewrite lookup_insert_ne, lookup_alter_ne.
Qed.

Lemma write_instance_err id f s s' e : is_inv s -> write_instance id f s = (s', Err e) ->
  is_inv s' /\ is_instances s' = is_instances s /\ is_bySchedule s' = is_bySchedule s.
Proof. intros Hi. unfold write_instance. by store_cases. Qed.

Lemma write_by_schedule_ok sid f s s' u : keeps_keys f -> is_inv s -> write_by_schedule sid f s = (s', Ok u) ->
  is_inv s' /\ (exists id, is_bySchedule s !! sid = Some id /\
    is_instances s' = alter f id (is_instances s)) /\ is_bySchedule s' = is_bySchedule s.
Proof.
  intros Hf Hi. unfold write_by_schedule. destruct (is_bySchedule s !! sid) as [id|]; [|done].
  intros E. destruct (write_instance_ok id f s s' u Hf Hi E) as (? & ? & ?). eauto.
Qed.

Lemma write_by_schedule_err sid f s s' e : is_inv s -> write_by_schedule sid f s = (s', Err e) ->
  is_inv s' /\ is_instances s' = is_instances s /\ is_bySchedule s' = is_bySchedule s.
Proof.
  intros Hi. unfold write_by_schedule. destruct (is_bySchedule s !! sid); [apply write_instance_err, Hi|].
  by store_cases.
Qed.

Lemma is_create now i s s' i' : is_inv s -> is_CreateInstance now i s = (s', Ok i') ->
  is_inv s' /\ is_instances s !! inst_ID i' = None /\ i' = new_instance now (inst_ID i') i /\
  is_instances s' = <[inst_ID i' := i']> (is_instances s) /\
  is_bySchedule s' = <[inst_ScheduleInstanceID i := inst_ID i']> (is_bySchedule s).
Proof.
  intros [Hi Hs] E. unfold is_CreateInstance in E. simplify_eq. simpl.
  assert (is_instances s !! is_nextID s = None) as Hn.
  { destruct (is_instances s !! is_nextID s) eqn:E; [|done]. apply Hi in E as [_ ?]. lia. }
  split_and!; try done. split; simpl.
  - apply map_Forall_insert_2; [simpl; split; [done|lia]|].
    intros id x Hx. apply Hi in Hx as [? ?]. split; [done|lia].
  - apply map_Forall_insert_2.
    + exists (new_instance now (is_nextID s) i). by rewrite lookup_insert_eq.
    + intros sid id Hid. apply Hs in Hid as (x & Hx & ?). exists x. rewrite lookup_insert_ne; [done|].
      intros <-. by rewrite Hn in Hx.
Qed.

Lemma is_due_retries s cutoff limit xs : is_inv s -> is_ListDueRetryInstances cutoff limit s = Ok xs ->
  lists_upto (retry_due cutoff) limit (is_instances s) xs.
Proof.
  intros Hi E. unfold is_ListDueRetryInstances in E. simplify_eq. eexists. split; [|done].
  eapply (collect_lists inst_ID); [by apply is_inv_keys| |apply sort_by_perm]. intros x. unfold retry_due.
  rewrite andb_true_iff, bool_decide_eq_true, negb_true_iff, andb_false_iff, negb_false_iff. done.
Qed.

(** What the row writes say in the terms of the contract. *)
Lemma write_instance_row R id f s s' u : keeps_keys f -> (forall i, R i (f i)) -> is_inv s ->
  write_instance id f s = (s', Ok u) ->
  is_inv s' /\ rewritten R id (is_instances s) (is_instances s') /\ is_bySchedule s' = is_bySchedule s.
Proof.
  intros Hk HR Hi E. destruct (write_instance_ok id f s s' u Hk Hi E) as (? & -> & ?). split_and!; try done.
  by apply rewritten_alter.
Qed.

Lemma write_by_schedule_row R sid f s s' u : keeps_keys f -> (forall i, R i (f i)) -> is_inv s ->
  write_by_schedule sid f s = (s', Ok u) ->
  is_inv s' /\ rewritten_by R (is_bySchedule s) sid (is_instances s) (is_instances s') /\ is_bySchedule s' = is_bySchedule s.
Proof.
  intros Hk HR Hi E. destruct (write_by_schedule_ok sid f s s' u Hk Hi E) as (? & (id & Hid & ->) & ?).
  split_and!; try done. unfold rewritten_by. rewrite Hid. by apply rewritten_alter.
Qed.

#[global] Program Instance InstanceStore_contract : TaskInstanceRepositoryContract InstanceStore := {
  insts_of := is_instances; sched_of := is_bySchedule; insts_inv := is_inv }.
Next Obligation. intros s id i [Hi _] Hl. by apply Hi in Hl as [? _]. Qed.
Next Obligation. intros s sid id i [_ Hs] Hsid Hl. apply Hs in Hsid as (i' & ? & ?). by simplify_eq. Qed.
Next Obligation. intros s id i. simpl. unfold is_GetInstance. by store_cases. Qed.
Next Obligation.
  intros s sid i _. simpl. unfold is_GetInstanceByScheduleID, is_GetInstance. store_cases. eauto.
Qed.
Next Obligation.
  intros s xs Hi E. simpl in E. unfold is_ListInstances in E. simplify_eq.
  eapply (collect_lists inst_ID); [by apply is_inv_keys| |apply sort_by_perm]. done.
Qed.
Next Obligation.
  intros s id xs Hi E. simpl in E. unfold is_ListInstancesByTaskID in E. simplify_eq.
  eapply (collect_lists inst_ID); [by apply is_inv_keys| |apply sort_by_perm]. intros x. simpl. lia.
Qed.
Next Obligation.
  intros s st limit xs Hi E. simpl in E. unfold is_ListInstancesByStatus in E. simplify_eq.
  eexists. split; [|done].
  eapply (collect_lists inst_ID); [by apply is_inv_keys| |apply sort_by_perm].
  intros x. simpl. apply bool_decide_eq_true.
Qed.
Next Obligation.
  intros s cutoff limit xs Hi E. destruct (is_due_retries _ _ _ _ Hi E) as (all & (Hnd & Hall) & ->). split.
  - destruct (limit_to_prefix limit all) as [ys Hys]. rewrite Hys in Hnd. by apply NoDup_app in Hnd as [? _].
  - intros i Hin. apply limit_to_elem, Hall in Hin as [[? _] [k Hk]]. split; [done|].
    simpl in *. by rewrite (proj1 (proj1 Hi _ _ Hk)).
Qed.
Next Obligation.
  intros now i s s' [i'|e] Hi E; [|done].
  destruct (is_create _ _ _ _ _ Hi E) as (? & ? & He & ? & ?). split; [done|right]. exists i'.
  split_and!; try done; [by rewrite He|by right].
Qed.
Next Obligation. intros *. simpl. by apply write_instance_row. Qed.
Next Obligation. intros *. simpl. by apply write_instance_err. Qed.
Next Obligation. intros *. simpl. apply write_instance_row; [apply with_dispatch_keys|apply with_dispatch_sets]. Qed.
Next Obligation. intros *. simpl. by apply write_instance_err. Qed.
Next Obligation. intros *. simpl. by apply write_by_schedule_row. Qed.
Next Obligation. intros *. simpl. by apply write_by_schedule_err. Qed.
Next Obligation. intros *. simpl. by apply write_by_schedule_row. Qed.
Next Obligation. intros *. simpl. by apply write_by_schedule_err. Qed.
Next Obligation.
  intros *. simpl. apply write_by_schedule_row; [apply with_timestamps_keys|apply with_timestamps_outcome].
Qed.
Next Obligation. intros *. simpl. by apply write_by_schedule_err. Qed.

#[global] Program Instance InstanceStore_spec : TaskInstanceRepositorySpec InstanceStore.
Next Obligation. exact is_create. Qed.
Next Obligation. done. Qed.
Next Obligation. exact is_due_retries. Qed.
Next Obligation.
  intros s st n. simpl. unfold is_CountInstancesByStatus. intros [= <-]. f_equal.
  rewrite (collect_length _ (fun i => inst_Status i = st)) by (intros x; apply bool_decide_eq_true). f_equal.
Qed.
Next Obligation. intros *. simpl. by apply write_instance_ok. Qed.
Next Obligation. intros *. simpl. apply write_instance_ok, with_dispatch_keys. Qed.
Next Obligation. intros *. simpl. by apply write_by_schedule_ok. Qed.
Next Obligation. intros *. simpl. by apply write_by_schedule_ok. Qed.
Next Obligation. intros *. simpl. apply write_by_schedule_ok, with_timestamps_keys. Qed.

Lemma stamped_ID now w : worker_ID (stamped now w) = worker_ID w.
Proof. unfold stamped. by case_match. Qed.

Lemma ws_upsert now w s s' u : ws_inv s -> ws_UpsertWorker now w s = (s', Ok u) ->
  ws_inv s' /\ ws_workers s' = <[worker_ID w := stamped now w]> (ws_workers s).
Proof.
  intros Hi. unfold ws_UpsertWorker. intros [= <- <-]. rewrite stamped_ID.
  split; [|done]. apply map_Forall_insert_2; [apply stamped_ID|done].
Qed.

#[global] Program Instance WorkerStore_contract : WorkerRepositoryContract WorkerStore := {
  workers_of := ws_workers; workers_inv := ws_inv }.
Next Obligation. intros s id w Hi Hl. by apply Hi in Hl. Qed.
Next Obligation.
  intros now w s s' u Hi E. destruct (ws_upsert _ _ _ _ _ Hi E) as [? Hm]. split; [done|].
  exists (worker_LastHeartbeatAt (stamped now w)). simpl. rewrite Hm. f_equal. unfold stamped. by case_match; destruct w.
Qed.
Next Obligation. done. Qed.
Next Obligation. intros s id w. simpl. unfold ws_GetWorker. by store_cases. Qed.
Next Obligation.
  intros s ws Hi E. simpl in E. unfold ws_ListWorkers in E. simplify_eq.
  eapply (collect_lists worker_ID); [done| |apply sort_workers_perm]. done.
Qed.
Next Obligation.
  intros s ws Hi. simpl. unfold ws_ListAvailableWorkers, ws_ListWorkers. intros [= <-].
  destruct (collect_lists worker_ID (fun _ => true) (fun _ => True) (ws_workers s)
    (sort_workers (collect (fun _ => true) (ws_workers s)))) as [Hnd Hin];
    [done|done|apply sort_workers_perm|].
  split; [by apply NoDup_filter|]. intros x. rewrite list_elem_of_filter, Hin. unfold available. tauto.
Qed.
Next Obligation.
  intros s cutoff ws Hi E x Hx. simpl in E. unfold ws_ListStaleWorkers in E. simplify_eq.
  destruct (collect_lists worker_ID (fun w => bool_decide (worker_Status w = "online") && Before (worker_LastHeartbeatAt w) cutoff)
    (fun w => bool_decide (worker_Status w = "online") && Before (worker_LastHeartbeatAt w) cutoff = true) (ws_workers s) _
    Hi (fun _ => iff_refl _) (sort_workers_perm _)) as [_ Hl]. by apply Hl in Hx as [_ Hk].
Qed.

#[global] Program Instance WorkerStore_spec : WorkerRepositorySpec WorkerStore.
Next Obligation. exact ws_upsert. Qed.
Next Obligation.
  intros s cutoff ws Hi E. simpl in E. unfold ws_ListStaleWorkers in E. simplify_eq.
  eapply (collect_lists worker_ID); [done| |apply sort_workers_perm].
  intros x. unfold stale. by rewrite andb_true_iff, bool_decide_eq_true.
Qed.

#[global] Program Instance WorkerStore_reliable : WorkerRepositoryReliable WorkerStore.
Next Obligation. intros now w s. by eexists. Qed.
Next Obligation. intros s id w Hw. simpl in *. unfold ws_GetWorker. by rewrite Hw. Qed.
Next Obligation. intros s. by eexists. Qed.
Next Obligation. intros s cutoff. by eexists. Qed.

#[global] Program Instance TaskStore_reliable : TaskRepositoryReliable TaskStore.
Next Obligation. intros s id t Ht. simpl in *. unfold ts_GetTask. by rewrite Ht. Qed.
Next Obligation. intros now t s. by do 2 eexists. Qed.
Next Obligation. intros now t s cur Hc. simpl in *. unfold ts_UpdateTask. rewrite Hc. by do 2 eexists. Qed.
Next Obligation. intros s id t Ht. simpl in *. unfold ts_DeleteTask. rewrite Ht. by eexists. Qed.
Next Obligation. intros s a b ta tb Ha Hb. simpl in *. unfold ts_AddDependency. rewrite Ha, Hb. by eexists. Qed.
Next Obligation. intros s a b. by eexists. Qed.
Next Obligation. intros s id. by eexists. Qed.
Next Obligation. intros s id. by eexists. Qed.

Lemma write_instance_total id f s i : is_instances s !! id = Some i ->
  exists s', write_instance id f s = (s', Ok tt).
Proof. intros Hi. unfold write_instance. rewrite Hi. by eexists. Qed.

#[global] Program Instance InstanceStore_reliable : TaskInstanceRepositoryReliable InstanceStore.
Next Obligation.
  intros s sid id i Hs Hi. simpl in *. unfold is_GetInstanceByScheduleID, is_GetInstance. by rewrite Hs, Hi.
Qed.
Next Obligation. intros now i s. by do 2 eexists. Qed.
Next Obligation. intros now id st s i Hi. by eapply write_instance_total. Qed.
Next Obligation. intros now id w d s i Hi. by eapply write_instance_total. Qed.
Next Obligation.
  intros now sid st c m s id i Hs Hi. simpl in *. unfold is_UpdateInstanceResult, write_by_schedule. rewrite Hs.
  by eapply write_instance_total.
Qed.
Next Obligation.
  intros now sid a b s id i Hs Hi. simpl in *. unfold is_UpdateInstanceTimestamps, write_by_schedule. rewrite Hs.
  by eapply write_instance_total.
Qed.
End Spec.
