(* ===== verification/Metrics.v ===== *)
(** internal/pkg/metrics/metrics.go: counters by name and labels, and their text. An
    increment looks the counter up under a read lock and only creates it under the
    write lock, after looking again; the last part runs any number of increments
    interleaved at these steps. *)
From S2P Require Import Prelude GoStd GoFormat TestStore.

(** A counter's name and labels. *)
Abbreviation metricKey := (string * string)%type.
Record Registry := mkRegistry { counters : gmap metricKey Z }.

Definition NewRegistry : Registry := mkRegistry ∅.

Definition sanitizeName (name : string) : string :=
  let name := TrimSpace name in
  if bool_decide (name = "") then "unnamed_metric" else ReplaceAll name "-" "_".

Definition str_le (x y : string * string) : Prop := is_true (String.leb x.1 y.1).
#[export] Instance str_le_dec x y : Decision (str_le x y).
Proof. unfold str_le. apply _. Defined.

(** The labels in the order of their names, as [name="value"]. *)
Definition encodeLabels (labels : gmap string string) : string :=
  Join ","%char ((fun kv => kv.1 +:+ "=" +:+ Quote kv.2) <$> merge_sort str_le (map_to_list labels)).

Definition key_of (name : string) (labels : gmap string string) : metricKey := (sanitizeName name, encodeLabels labels).

Definition add (k : metricKey) (delta : Z) (r : Registry) : Registry :=
  mkRegistry (<[k := wrap64 (default 0 (counters r !! k) + delta)]> (counters r)).

Definition AddCounter (name : string) (labels : gmap string string) (delta : Z) (r : Registry) : Registry := add (key_of name labels) delta r.
Definition IncCounter (name : string) (labels : gmap string string) (r : Registry) : Registry := AddCounter name labels 1 r.

(** By name, then by labels. *)
Definition key_le (x y : metricKey * Z) : Prop :=
  is_true (if bool_decide (x.1.1 = y.1.1) then String.leb x.1.2 y.1.2 else String.leb x.1.1 y.1.1).
#[export] Instance key_le_dec x y : Decision (key_le x y).
Proof. unfold key_le. apply _. Defined.

Definition render_counter (kv : metricKey * Z) : string :=
  kv.1.1 +:+ (if bool_decide (kv.1.2 = "") then "" else "{" +:+ kv.1.2 +:+ "}") +:+ " " +:+ fmt_d kv.2
  +:+ String (Ascii.ascii_of_nat 10) "".
Definition Render (r : Registry) : string := foldr (fun kv rest => render_counter kv +:+ rest) "" (merge_sort key_le (map_to_list (counters r))).

(** [Instrument]: the counter of a request that was answered with [status]. *)
Definition request_labels (service method path : string) (status : Z) : gmap string string :=
  list_to_map [("service", service); ("method", method); ("path", path); ("status", fmt_d status)].
Definition Instrument (service method path : string) (status : Z) (r : Registry) : Registry :=
  IncCounter "http_requests_total" (request_labels service method path status) r.

Example instrumented : Render (Instrument "api" "GET" "/x" 200 NewRegistry) =
  let q := String (Ascii.ascii_of_nat 34) "" in
  "http_requests_total{method=" +:+ q +:+ "GET" +:+ q +:+ ",path=" +:+ q +:+ "/x" +:+ q +:+ ",service=" +:+ q +:+ "api" +:+ q
  +:+ ",status=" +:+ q +:+ "200" +:+ q +:+ "} 1" +:+ String (Ascii.ascii_of_nat 10) "".
Proof. vm_compute. reflexivity. Qed.

(** The label is the path as the client wrote it: every new path makes a counter that stays,
    also one that no route has, of a client without a token. *)
Example paths_accumulate : size (counters (foldr (fun path => Instrument "api" "GET" path 404) NewRegistry ["/a"; "/b"; "/c"; "/d"; "/a"])) = 4%nat.
Proof. vm_compute. reflexivity. Qed.

(** *** [statusRecorder] *)

(** What a handler does with its [ResponseWriter]. *)
Inductive writer_call := CallHeader (code : Z) | CallWrite | CallFlush | CallHijack.

(** The status the client gets, the first one with 200 where there is none (net/http), and
    the recorded one. *)
Record statusRecorder := mkRecorder { sent_status : option Z; recorder_status : Z }.
Definition new_recorder : statusRecorder := mkRecorder None 200.
Definition send (code : Z) (r : statusRecorder) : option Z := Some (default code (sent_status r)).

(** [WriteHeader], [Write], [Flush] and [Hijack], and whether [Hijack] gives the connection;
    [flusher] and [hijacker]: what the underlying writer can do. *)
Definition recorder_call (flusher hijacker : bool) (c : writer_call) (r : statusRecorder) : statusRecorder * bool :=
  match c with
  | CallHeader code => (mkRecorder (send code r) code, false)
  | CallWrite => (mkRecorder (send 200 r) (recorder_status r), false)
  | CallFlush => (if flusher then mkRecorder (send 200 r) (recorder_status r) else r, false)
  | CallHijack => (r, hijacker)
  end.
Definition recorder_calls (flusher hijacker : bool) (cs : list writer_call) (r : statusRecorder) : statusRecorder :=
  foldl (fun r c => (recorder_call flusher hijacker c r).1) r cs.

Definition is_header (c : writer_call) : bool := match c with CallHeader _ => true | _ => false end.

Lemma recorded_body flusher hijacker body r : Forall (fun c => is_header c = false) body ->
  default 200 (sent_status r) = recorder_status r ->
  let r' := recorder_calls flusher hijacker body r in
  recorder_status r' = recorder_status r /\ default 200 (sent_status r') = recorder_status r'.
Proof.
  intros Hb. revert r. induction Hb as [|c body Hc _ IH]; intros r Hr; [done|].
  assert (exists r1, recorder_calls flusher hijacker (c :: body) r = recorder_calls flusher hijacker body r1 /\
    recorder_status r1 = recorder_status r /\ default 200 (sent_status r1) = recorder_status r1) as (r1 & -> & <- & Hr1); [|by apply IH].
  eexists. split; [reflexivity|]. destruct c; try done. by destruct flusher.
Qed.

(** A handler that writes its header at most once, before anything else, is counted under
    the status its client gets; one that writes it after a part of the body is not. *)
Lemma recorded_is_sent flusher hijacker header body : Forall (fun c => is_header c = false) body ->
  let r := recorder_calls flusher hijacker ((CallHeader <$> option_list header) ++ body) new_recorder in
  recorder_status r = default 200 header /\ default 200 (sent_status r) = recorder_status r.
Proof.
  intros Hb. destruct header as [code|]; [exact (recorded_body flusher hijacker body (mkRecorder (Some code) code) Hb eq_refl)|].
  exact (recorded_body flusher hijacker body new_recorder Hb eq_refl).
Qed.

Example header_too_late : recorder_calls true true [CallWrite; CallHeader 500] new_recorder = mkRecorder (Some 200) 500.
Proof. reflexivity. Qed.

(** ** Concurrent increments *)

(** Where an [AddCounter] is: before the lookup, with the counter it found, with none
    found, or done. *)
Inductive thread :=
| Looking (k : metricKey) (delta : Z)
| Holding (k : metricKey) (delta : Z)
| Creating (k : metricKey) (delta : Z)
| Finished (k : metricKey) (delta : Z).

Record Shared := mkShared { sh_registry : Registry; sh_threads : list thread }.

(** One step of one thread: the lookup; the atomic add on the counter that was found;
    or the critical section, which looks again, creates the counter and adds. *)
Inductive inc_step : Shared -> Shared -> Prop :=
| StepFound r ts i k d : ts !! i = Some (Looking k d) -> is_Some (counters r !! k) ->
    inc_step (mkShared r ts) (mkShared r (<[i := Holding k d]> ts))
| StepMissing r ts i k d : ts !! i = Some (Looking k d) -> counters r !! k = None ->
    inc_step (mkShared r ts) (mkShared r (<[i := Creating k d]> ts))
| StepAdd r ts i k d : ts !! i = Some (Holding k d) ->
    inc_step (mkShared r ts) (mkShared (add k d r) (<[i := Finished k d]> ts))
| StepCreate r ts i k d : ts !! i = Some (Creating k d) ->
    inc_step (mkShared r ts) (mkShared (add k d r) (<[i := Finished k d]> ts)).

Definition start (calls : list (metricKey * Z)) (r : Registry) : Shared := mkShared r ((fun c => Looking c.1 c.2) <$> calls).
Definition finished (s : Shared) : Prop := Forall (fun t => exists k d, t = Finished k d) (sh_threads s).

(** ** Properties *)

(** What the finished threads added to a counter. *)
Definition done_part (k : metricKey) (t : thread) : Z :=
  match t with Finished k' d => if decide (k' = k) then d else 0 | _ => 0 end.
Definition sumZ (zs : list Z) : Z := foldr Z.add 0 zs.
Definition call_of (t : thread) : metricKey * Z :=
  match t with Looking k d | Holding k d | Creating k d | Finished k d => (k, d) end.

Lemma sumZ_insert (f : thread -> Z) (ts : list thread) (i : nat) t t' : ts !! i = Some t ->
  sumZ (f <$> <[i := t']> ts) = sumZ (f <$> ts) - f t + f t'.
Proof.
  revert i. induction ts as [|x ts IH]; intros [|i]; try done; [simpl; intros [= ->]; lia|].
  change (ts !! i = Some t -> f x + sumZ (f <$> <[i:=t']> ts) = f x + sumZ (f <$> ts) - f t + f t').
  intros Hi. rewrite (IH i Hi). lia.
Qed.

Lemma wrap64_add a b : wrap64 (wrap64 a + b) = wrap64 (a + b).
Proof.
  unfold wrap64. f_equal. replace ((a + 2 ^ 63) mod 2 ^ 64 - 2 ^ 63 + b + 2 ^ 63) with ((a + 2 ^ 63) mod 2 ^ 64 + b) by lia.
  rewrite Z.add_mod_idemp_l by lia. f_equal. lia.
Qed.

Definition value (r : Registry) (k : metricKey) : Z := default 0 (counters r !! k).

(** Each counter is what it was plus what the finished threads added. *)
Definition counted (calls : list (metricKey * Z)) (r0 : Registry) (s : Shared) : Prop :=
  call_of <$> sh_threads s = calls /\
  forall k, wrap64 (value (sh_registry s) k) = wrap64 (value r0 k + sumZ (done_part k <$> sh_threads s)).

Lemma calls_insert (ts : list thread) (i : nat) t t' : ts !! i = Some t -> call_of t' = call_of t -> call_of <$> <[i := t']> ts = call_of <$> ts.
Proof. intros Hi Hc. rewrite list_fmap_insert, Hc. apply list_insert_id. by rewrite list_lookup_fmap, Hi. Qed.

Lemma counted_add calls r0 r ts i t k d : ts !! i = Some t -> call_of t = (k, d) -> (forall k', done_part k' t = 0) ->
  counted calls r0 (mkShared r ts) -> counted calls r0 (mkShared (add k d r) (<[i := Finished k d]> ts)).
Proof.
  intros Hi Hc Hz [Hcalls Hv]. split; cbn [sh_threads sh_registry] in *; [by rewrite (calls_insert _ _ t)|].
  intros k'. rewrite (sumZ_insert _ _ _ t) by done. rewrite Hz. unfold value, add in *. cbn [counters done_part].
  destruct (decide (k = k')) as [->|Hk].
  - rewrite lookup_insert_eq. simpl default. rewrite (wrap64_id (wrap64 _)) by apply wrap64_range.
    rewrite <- wrap64_add, Hv, wrap64_add. f_equal. lia.
  - rewrite lookup_insert_ne by done. rewrite Hv. f_equal. lia.
Qed.

Lemma counted_step calls r0 s s' : counted calls r0 s -> inc_step s s' -> counted calls r0 s'.
Proof.
  intros Hs Hstep. destruct Hstep as [r ts i k d Hi _|r ts i k d Hi _|r ts i k d Hi|r ts i k d Hi].
  1,2: destruct Hs as [Hcalls Hv]; split; cbn [sh_threads sh_registry] in *; [by erewrite calls_insert|];
    intros k'; erewrite sumZ_insert by exact Hi; rewrite Hv; f_equal; simpl; lia.
  all: by eapply counted_add.
Qed.

(** No increment is lost: in every interleaving of any number of concurrent
    [AddCounter] calls, also of calls that create the same counter at the same time,
    each counter ends as what it was plus the sum of its deltas (as an int64). *)
Theorem increments_add_up calls r s k : rtc inc_step (start calls r) s -> finished s ->
  wrap64 (value (sh_registry s) k) = wrap64 (value r k + sumZ ((fun c => if decide (c.1 = k) then c.2 else 0) <$> calls)).
Proof.
  intros Hr Hf. assert (counted calls r s) as [Hcalls Hv].
  { assert (counted calls r (start calls r)) as H0.
    { split; cbn [start sh_threads sh_registry].
      - clear. induction calls as [|[k' d] calls IH]; [done|]. rewrite !fmap_cons. cbn [call_of fst snd]. by rewrite IH.
      - intros k'. f_equal. enough (sumZ (done_part k' <$> ((fun c => Looking c.1 c.2) <$> calls)) = 0) by lia.
        clear. induction calls as [|c calls IH]; [done|]. simpl in *. by apply IH. }
    revert H0. induction Hr as [s|s1 s2 s3 Hs _ IH]; [done|]. intros H0. apply IH; [done|]. by eapply counted_step. }
  rewrite Hv. do 2 f_equal. rewrite <- Hcalls. unfold finished in Hf. clear -Hf.
  induction Hf as [|t ts (k' & d & ->) _ IH]; [done|]. rewrite !fmap_cons. cbn [sumZ foldr done_part call_of fst snd] in *. by f_equal.
Qed.

Definition hits : metricKey := ("hits", "").
(** Two calls that both find no counter. *)
Definition both_created : Shared := mkShared (add hits 1 (add hits 1 NewRegistry)) [Finished hits 1; Finished hits 1].

Lemma increments_add_up_witness : wrap64 (value (sh_registry both_created) hits) = 2.
Proof.
  rewrite (increments_add_up [(hits, 1); (hits, 1)] NewRegistry both_created hits); [reflexivity| |].
  - eapply rtc_l; [eapply (StepMissing _ _ 0); reflexivity|]. eapply rtc_l; [eapply (StepMissing _ _ 1); reflexivity|].
    eapply rtc_l; [eapply (StepCreate _ _ 0); reflexivity|]. eapply rtc_l; [eapply (StepCreate _ _ 1); reflexivity|]. apply rtc_refl.
  - repeat constructor; eauto.
Defined.
