(* ===== verification/Gorm.v ===== *)
(** The database the MySQL repositories talk to (gorm.io/gorm over the MySQL
    driver), which is not part of the repository: the calls the code makes, as a
    class of operations over an abstract table, and what the documentation of GORM
    and MySQL says of them, as the laws. The SQL conditions are boolean functions on
    rows, an UPDATE a function on rows. A statement may fail at any time; one that
    fails leaves the tables as they were (each runs in a transaction of its own). Text
    is compared bytewise (a binary collation) and values a column cannot hold are
    errors (strict mode). The last part gives a table that satisfies the laws. *)
From S2P Require Import Prelude GoStd GoTime Repo.
From Stdlib Require Import Sorting.Sorted.

(** What the driver and a DATETIME column make of a time: the column rounds it
    ([stored]), a query argument is sent with microseconds ([sent]), and [NOW()] is
    the server's own clock. *)
Class Columns := {
  stored : Time -> Time;
  sent : Time -> Time;
  NOW : Time -> Time
}.

(** What GORM knows of a struct: its primary key; the row [Create] writes (the
    generated key, [CreatedAt] and [UpdatedAt] filled in when zero); the row an
    [Updates] leaves ([UpdatedAt] set); and which rows a unique index keeps apart. *)
Class Entity (R K : Type) := {
  key : R -> K;
  inserted : K -> Time -> R -> R;
  touched : Time -> R -> R;
  collide : R -> R -> bool
}.

(** [Where(...).Order(...).Limit(...).Offset(...)] *)
Record Query (R : Type) := mkQuery {
  q_where : R -> bool;
  q_order : R -> R -> bool;
  q_limit : option Z;
  q_offset : option Z
}.
Arguments mkQuery {R} _ _ _ _.
Arguments q_where {R} _ _.
Arguments q_order {R} _ _ _.
Arguments q_limit {R} _.
Arguments q_offset {R} _.

(** [if limit > 0 { query = query.Limit(limit) }], and the same for an offset. *)
Definition positive (n : Z) : option Z := if 0 <? n then Some n else None.

Definition Where {R} (p : R -> bool) : Query R := mkQuery p (fun _ _ => true) None None.
Definition Order {R} (le : R -> R -> bool) (q : Query R) : Query R := mkQuery (q_where q) le (q_limit q) (q_offset q).
Definition Limit {R} (n : option Z) (q : Query R) : Query R := mkQuery (q_where q) (q_order q) n (q_offset q).
Definition Offset {R} (n : option Z) (q : Query R) : Query R := mkQuery (q_where q) (q_order q) (q_limit q) n.

Definition total_order {R} (le : R -> R -> bool) : Prop := forall x y, le x y = true \/ le y x = true.

(** LIMIT and OFFSET on the sorted rows. *)
Definition slice {R} (q : Query R) (rs : list R) : list R :=
  let rs := match q_offset q with Some n => drop (Z.to_nat n) rs | None => rs end in
  match q_limit q with Some n => take (Z.to_nat n) rs | None => rs end.

Definition ordered {R} (q : Query R) (x y : R) : Prop := q_order q x y = true.
#[export] Instance ordered_dec {R} (q : Query R) x y : Decision (ordered q x y).
Proof. unfold ordered. apply _. Defined.

Class Table (T R K : Type) := {
  db_Create : Time -> R -> T -> T * result K;
  db_First : (R -> bool) -> T -> result R;
  db_Find : Query R -> T -> result (list R);
  db_Count : (R -> bool) -> T -> result Z;
  db_Updates : Time -> (R -> bool) -> (R -> R) -> T -> T * result unit;
  db_Delete : (R -> bool) -> T -> T * result Z
}.

(** [Clauses(clause.OnConflict{...}).Create]. *)
Class UpsertTable (T R : Type) := {
  db_Upsert : Time -> R -> T -> T * result unit
}.

Class TableLaws (T R K : Type) `{Countable K} `{Entity R K} `{!Table T R K} := {
  rows : T -> gmap K R;
  table_inv : T -> Prop;
  rows_key t k r : rows t !! k = Some r -> key r = k;
  rows_unique t k1 k2 r1 r2 : table_inv t -> rows t !! k1 = Some r1 -> rows t !! k2 = Some r2 ->
    collide r1 r2 = true -> k1 = k2;
  db_Create_law now r t t' x : table_inv t -> db_Create now r t = (t', x) -> table_inv t' /\
    match x with
    | Ok k => rows t !! k = None /\ rows t' = <[k := inserted k now r]> (rows t)
    | Err _ => rows t' = rows t
    end;
  db_First_law p t r : db_First p t = Ok r -> p r = true /\ exists k, rows t !! k = Some r;
  db_Find_law q t rs : db_Find q t = Ok rs -> exists all,
    all ≡ₚ filter (fun r => q_where q r = true) (map_to_list (rows t)).*2 /\
    (total_order (q_order q) -> Sorted (ordered q) all) /\ rs = slice q all;
  db_Count_law p t n : db_Count p t = Ok n ->
    n = Z.of_nat (length (filter (fun r => p r = true) (map_to_list (rows t)).*2));
  db_Updates_law now p f t t' x : (forall r, key (touched now (f r)) = key r) ->
    table_inv t -> db_Updates now p f t = (t', x) -> table_inv t' /\
    match x with
    | Ok _ => rows t' = (fun r => if p r then touched now (f r) else r) <$> rows t
    | Err _ => rows t' = rows t
    end;
  db_Delete_law p t t' x : table_inv t -> db_Delete p t = (t', x) -> table_inv t' /\
    match x with
    | Ok _ => rows t' = filter (fun kr => p kr.2 = false) (rows t)
    | Err _ => rows t' = rows t
    end
}.

Class UpsertLaws (T R K : Type) `{TableLaws T R K} `{!UpsertTable T R} := {
  db_Upsert_law now r t t' x : table_inv t -> db_Upsert now r t = (t', x) -> table_inv t' /\
    match x with
    | Ok _ => rows t' = <[key r := inserted (key r) now r]> (rows t)
    | Err _ => rows t' = rows t
    end
}.

(** ** Consequences *)

Lemma slice_limit {R} limit p (le : R -> R -> bool) (rs : list R) :
  slice (Limit (positive limit) (Order le (Where p))) rs = limit_to limit rs.
Proof.
  unfold slice, positive, limit_to. simpl. destruct (Z.ltb_spec 0 limit); simpl; [|done].
  destruct (Z.ltb_spec limit (Z.of_nat (length rs))); [done|]. apply take_ge. lia.
Qed.

Lemma limit_to_NoDup {A} limit (xs : list A) : NoDup xs -> NoDup (limit_to limit xs).
Proof. intros Hn. unfold limit_to. case_match; [|done]. eapply sublist_NoDup; [exact Hn|apply sublist_take]. Qed.

Lemma limit_to_fmap {A B} (f : A -> B) limit (xs : list A) : f <$> limit_to limit xs = limit_to limit (f <$> xs).
Proof. unfold limit_to. rewrite length_fmap. case_match; [|done]. apply fmap_take. Qed.

Section Laws.
Context `{TableLaws T R K}.

(** The rows a listing returns are distinct, also by their keys. *)
Lemma Find_NoDup {A} (view : R -> A) (id : A -> K) p t all : (forall r, id (view r) = key r) ->
  all ≡ₚ filter (fun r => p r = true) (map_to_list (rows t)).*2 -> NoDup (view <$> all).
Proof.
  intros Hid Hperm. apply (NoDup_fmap_1 id). rewrite <- list_fmap_compose.
  rewrite (list_fmap_ext _ key) by (intros; apply Hid). rewrite Hperm.
  eapply sublist_NoDup; [|apply fmap_sublist, sublist_filter]. rewrite <- list_fmap_compose.
  rewrite (list_fmap_ext _ fst); [apply NoDup_fst_map_to_list|].
  intros i [k r] Hi. simpl. apply (rows_key t), elem_of_map_to_list, (list_elem_of_lookup_2 _ _ _ Hi).
Qed.

(** The rows a listing without limit returns. *)
Lemma Find_lists {A} (view : R -> A) (id : A -> K) (P : A -> Prop) q t rs :
  (forall r, id (view r) = key r) -> (forall r, q_where q r = true <-> P (view r)) ->
  db_Find q t = Ok rs -> exists all, lists P (view <$> rows t) (view <$> all) /\ rs = slice q all.
Proof.
  intros Hid HP Hf. destruct (db_Find_law _ _ _ Hf) as (all & Hperm & _ & ->). exists all. split; [|done].
  split; [by eapply Find_NoDup|]. intros x. rewrite list_elem_of_fmap. setoid_rewrite Hperm.
  setoid_rewrite list_elem_of_filter. setoid_rewrite elem_of_values. setoid_rewrite lookup_fmap_Some. naive_solver.
Qed.

Lemma First_by_key p k0 t r : (forall r, p r = true -> key r = k0) -> db_First p t = Ok r -> rows t !! k0 = Some r.
Proof.
  intros Hp Hf. destruct (db_First_law _ _ _ Hf) as [Hr [k Hk]].
  by rewrite <- (Hp _ Hr), (rows_key _ _ _ Hk).
Qed.

(** An update of the row with one key. *)
Lemma Updates_by_key now p k0 f t t' x :
  (forall r, key (touched now (f r)) = key r) -> (forall r, p r = true <-> key r = k0) -> table_inv t ->
  db_Updates now p f t = (t', Ok x) -> table_inv t' /\ rows t' = alter (fun r => touched now (f r)) k0 (rows t).
Proof.
  intros Hf Hp Hi E. destruct (db_Updates_law _ _ _ _ _ _ Hf Hi E) as [Hi' ->]. split; [done|].
  apply map_eq. intros k. rewrite lookup_fmap.
  destruct (decide (k = k0)) as [->|Hne].
  - rewrite lookup_alter_eq. destruct (rows t !! k0) as [r|] eqn:Hr; simpl; [|done].
    by rewrite (proj2 (Hp r) (rows_key _ _ _ Hr)).
  - rewrite lookup_alter_ne by done. destruct (rows t !! k) as [r|] eqn:Hr; simpl; [|done].
    destruct (p r) eqn:Hpr; [|done]. apply Hp in Hpr. by rewrite (rows_key _ _ _ Hr) in Hpr.
Qed.
End Laws.

(** ** A table that satisfies the laws *)

(** Rows under their keys, and the next key to generate. *)
Record Mem (R K : Type) `{Countable K} := mkMem { mem_rows : gmap K R; mem_next : Z }.
Arguments mkMem {R K _ _} _ _.
Arguments mem_rows {R K _ _} _.
Arguments mem_next {R K _ _} _.

(** How the key of a new row comes about: AUTO_INCREMENT, or the row's own. *)
Class KeyGen (R K : Type) := new_key : Z -> R -> K.

Class EntityLaws (R K : Type) `{Entity R K} `{!KeyGen R K} := {
  key_inserted n now r : key (inserted (new_key n r) now r) = new_key n r;
  key_inserted_own now r : new_key 0 r = key r -> key (inserted (key r) now r) = key r
}.

Section Mem.
Context {R K : Type} `{Countable K} `{Entity R K} `{!KeyGen R K}.

Abbreviation keyed := (fun kr : K * R => key kr.2 = kr.1).

Definition mem_view (t : Mem R K) : gmap K R := filter keyed (mem_rows t).
Definition mem_values (t : Mem R K) : list R := (map_to_list (mem_view t)).*2.

Definition collision_free (m : gmap K R) : bool :=
  forallb (fun x => forallb (fun y => bool_decide (x.1 = y.1) || negb (collide x.2 y.2)) (map_to_list m)) (map_to_list m).

(** A statement commits when the table it leaves satisfies the constraints. *)
Definition commit {A} (t : Mem R K) (m : gmap K R) (a : A) : Mem R K * result A :=
  if collision_free (filter keyed m) then (mkMem m (mem_next t + 1), Ok a) else (t, Err (Sentinel "Duplicate entry")).

#[export] Instance Mem_table : Table (Mem R K) R K := {
  db_Create now r t :=
    let k := new_key (mem_next t) r in
    match mem_view t !! k with
    | Some _ => (t, Err (Sentinel "Duplicate entry"))
    | None => commit t (<[k := inserted k now r]> (mem_view t)) k
    end;
  db_First p t :=
    match filter (fun r => p r = true) (mem_values t) with r :: _ => Ok r | [] => Err (Sentinel "record not found") end;
  db_Find q t :=
    Ok (slice q (merge_sort (ordered q) (filter (fun r => q_where q r = true) (mem_values t))));
  db_Count p t := Ok (Z.of_nat (length (filter (fun r => p r = true) (mem_values t))));
  db_Updates now p f t := commit t ((fun r => if p r then touched now (f r) else r) <$> mem_view t) tt;
  db_Delete p t :=
    commit t (filter (fun kr => p kr.2 = false) (mem_view t))
      (Z.of_nat (length (filter (fun r => p r = true) (mem_values t)))) }.

#[export] Instance Mem_upsert : UpsertTable (Mem R K) R := {
  db_Upsert now r t := commit t (<[key r := inserted (key r) now r]> (mem_view t)) tt }.

Definition mem_inv (t : Mem R K) : Prop := collision_free (mem_view t) = true.

Lemma collision_free_spec m : collision_free m = true <->
  forall k1 k2 r1 r2, m !! k1 = Some r1 -> m !! k2 = Some r2 -> collide r1 r2 = true -> k1 = k2.
Proof.
  unfold collision_free. rewrite List.forallb_forall. setoid_rewrite <- list_elem_of_In.
  setoid_rewrite List.forallb_forall. setoid_rewrite <- list_elem_of_In. split.
  - intros Hc k1 k2 r1 r2 H1%elem_of_map_to_list H2%elem_of_map_to_list Hr. specialize (Hc _ H1 _ H2). simpl in Hc.
    rewrite Hr, orb_false_r in Hc. by apply bool_decide_eq_true in Hc.
  - intros Hc [k1 r1] H1%elem_of_map_to_list [k2 r2] H2%elem_of_map_to_list. simpl.
    destruct (collide r1 r2) eqn:Hr; [|by rewrite orb_true_r].
    rewrite orb_false_r. apply bool_decide_eq_true. eauto.
Qed.

Lemma view_keyed (m : gmap K R) : map_Forall (fun k r => key r = k) m -> filter keyed m = m.
Proof. intros Hm. apply map_filter_id. apply Hm. Qed.

Lemma mem_view_key t k r : mem_view t !! k = Some r -> key r = k.
Proof. by intros [_ ?]%map_lookup_filter_Some. Qed.

Lemma commit_law {A} t (m : gmap K R) (a : A) t' x : map_Forall (fun k r => key r = k) m -> mem_inv t ->
  commit t m a = (t', x) ->
  mem_inv t' /\ match x with Ok b => b = a /\ mem_view t' = m | Err _ => mem_view t' = mem_view t end.
Proof.
  intros Hm Hi. unfold commit. destruct (collision_free _) eqn:Hc; intros [= <- <-]; [|done].
  split; [exact Hc|]. split; [done|]. by apply view_keyed.
Qed.
End Mem.

Section MemLaws.
Context {R K : Type} `{Countable K} `{EntityLaws R K}.

Lemma insert_keyed k r (t : Mem R K) : key r = k -> map_Forall (fun k r => key r = k) (<[k := r]> (mem_view t)).
Proof. intros Hk. apply map_Forall_insert_2; [done|]. intros k' r'. apply mem_view_key. Qed.

#[export] Program Instance Mem_laws : TableLaws (Mem R K) R K := { rows := mem_view; table_inv := mem_inv }.
Next Obligation. intros t k r. apply mem_view_key. Qed.
Next Obligation. intros t k1 k2 r1 r2 Hi. by apply collision_free_spec. Qed.
Next Obligation.
  intros now r t t' x Hi. simpl. case_match eqn:Hk; [by intros [= <- <-]|]. intros E.
  apply commit_law in E as [Hi' Hx]; [|by apply insert_keyed, key_inserted|done].
  split; [done|]. destruct x as [b|]; [|done]. destruct Hx as [-> ->]. done.
Qed.
Next Obligation.
  intros p t r. simpl. case_match eqn:Hf; [done|]. intros [= ->].
  assert (r ∈ filter (fun r => p r = true) (mem_values t)) as Hin by (rewrite Hf; set_solver).
  apply list_elem_of_filter in Hin as [? Hin]. unfold mem_values in Hin. by rewrite elem_of_values in Hin.
Qed.
Next Obligation.
  intros q t rs [= <-]. exists (merge_sort (ordered q) (filter (fun r => q_where q r = true) (mem_values t))).
  split_and!; [apply merge_sort_Permutation| |done]. intros Ht. apply Sorted_merge_sort. intros x y. apply Ht.
Qed.
Next Obligation. by intros p t n [= <-]. Qed.
Next Obligation.
  intros now p f t t' x Hf Hi E. simpl in E. apply commit_law in E as [Hi' Hx]; [|clear Hi|done].
  - split; [done|]. by destruct x as [b|]; [destruct Hx|].
  - intros k r. rewrite lookup_fmap_Some. intros (y & <- & Hy%mem_view_key). case_match; [by rewrite Hf|done].
Qed.
Next Obligation.
  intros p t t' x Hi E. simpl in E. apply commit_law in E as [Hi' Hx]; [|clear Hi|done].
  - split; [done|]. by destruct x as [b|]; [destruct Hx|].
  - intros k r. rewrite map_lookup_filter_Some. intros [Hk _]. by apply mem_view_key in Hk.
Qed.

(** Upserts, where a row's key is its own. *)
Lemma Mem_upsert_laws : (forall r : R, new_key 0 r = key r) -> UpsertLaws (Mem R K) R K.
Proof.
  intros Hown. constructor. intros now r t t' x Hi E. simpl in E.
  apply commit_law in E as [Hi' Hx]; [|by apply insert_keyed, key_inserted_own|done].
  split; [done|]. by destruct x as [b|]; [destruct Hx|].
Qed.
End MemLaws.

Lemma empty_inv {R K} `{Countable K} `{Entity R K} n : mem_inv (mkMem (∅ : gmap K R) n).
Proof. done. Qed.
