(* ===== verification/Mysql.v ===== *)
(** internal/repo/mysql: the repositories over the database. The rows and their
    conversions, one definition per method on the table operations of [Gorm], and
    that they keep the contract of the repository interfaces. *)
From S2P Require Import Prelude GoStd GoTime GoFormat Model Repo Gorm.

(** ** Rows (gorm_models.go) *)

(** [nil] pointers are [None]. *)
Record taskRow := mkTaskRow {
  tr_ID : Z;
  tr_Name : string;
  tr_Type : string;
  tr_CronExpr : string;
  tr_Payload : string;
  tr_Image : string;
  tr_Status : string;
  tr_TimeoutSeconds : Z;
  tr_MaxRetry : Z;
  tr_RetryPolicy : string;
  tr_RetryOnErrors : string;
  tr_RouteStrategy : string;
  tr_Labels : string;
  tr_NextTriggerTime : option Time;
  tr_TenantID : Z;
  tr_Version : Z;
  tr_CreatedAt : Time;
  tr_UpdatedAt : Time
}.

Record taskDependencyRow := mkTaskDependencyRow {
  dr_TaskID : Z;
  dr_DependsOnTaskID : Z
}.

Record taskInstanceRow := mkTaskInstanceRow {
  ir_ID : Z;
  ir_TaskID : Z;
  ir_ScheduleInstanceID : string;
  ir_TriggerTime : Time;
  ir_DispatchTime : option Time;
  ir_StartedAt : option Time;
  ir_FinishedAt : option Time;
  ir_WorkerID : string;
  ir_Status : string;
  ir_RetryCount : Z;
  ir_ErrorCode : string;
  ir_ErrorMessage : string;
  ir_AnalysisJSON : string;
  ir_TraceID : string;
  ir_NextRetryTime : option Time;
  ir_CreatedAt : Time;
  ir_UpdatedAt : Time
}.

Record workerNodeRow := mkWorkerNodeRow {
  wr_ID : string;
  wr_Hostname : string;
  wr_IP : string;
  wr_CallbackURL : string;
  wr_GRPCAddr : string;
  wr_Protocol : string;
  wr_Status : string;
  wr_Labels : string;
  wr_MaxConcurrency : Z;
  wr_CurrentLoad : Z;
  wr_LastHeartbeatAt : Time
}.

Definition set_tr_ID (v : Z) (r : taskRow) : taskRow :=
  {| tr_ID := v; tr_Name := tr_Name r; tr_Type := tr_Type r; tr_CronExpr := tr_CronExpr r; tr_Payload :=
     tr_Payload r; tr_Image := tr_Image r; tr_Status := tr_Status r; tr_TimeoutSeconds := tr_TimeoutSeconds r;
     tr_MaxRetry := tr_MaxRetry r; tr_RetryPolicy := tr_RetryPolicy r; tr_RetryOnErrors := tr_RetryOnErrors r;
     tr_RouteStrategy := tr_RouteStrategy r; tr_Labels := tr_Labels r; tr_NextTriggerTime :=
     tr_NextTriggerTime r; tr_TenantID := tr_TenantID r; tr_Version := tr_Version r; tr_CreatedAt :=
     tr_CreatedAt r; tr_UpdatedAt := tr_UpdatedAt r |}.
Definition set_tr_Version (v : Z) (r : taskRow) : taskRow :=
  {| tr_ID := tr_ID r; tr_Name := tr_Name r; tr_Type := tr_Type r; tr_CronExpr := tr_CronExpr r; tr_Payload :=
     tr_Payload r; tr_Image := tr_Image r; tr_Status := tr_Status r; tr_TimeoutSeconds := tr_TimeoutSeconds r;
     tr_MaxRetry := tr_MaxRetry r; tr_RetryPolicy := tr_RetryPolicy r; tr_RetryOnErrors := tr_RetryOnErrors r;
     tr_RouteStrategy := tr_RouteStrategy r; tr_Labels := tr_Labels r; tr_NextTriggerTime :=
     tr_NextTriggerTime r; tr_TenantID := tr_TenantID r; tr_Version := v; tr_CreatedAt := tr_CreatedAt r;
     tr_UpdatedAt := tr_UpdatedAt r |}.
Definition set_tr_UpdatedAt (v : Time) (r : taskRow) : taskRow :=
  {| tr_ID := tr_ID r; tr_Name := tr_Name r; tr_Type := tr_Type r; tr_CronExpr := tr_CronExpr r; tr_Payload :=
     tr_Payload r; tr_Image := tr_Image r; tr_Status := tr_Status r; tr_TimeoutSeconds := tr_TimeoutSeconds r;
     tr_MaxRetry := tr_MaxRetry r; tr_RetryPolicy := tr_RetryPolicy r; tr_RetryOnErrors := tr_RetryOnErrors r;
     tr_RouteStrategy := tr_RouteStrategy r; tr_Labels := tr_Labels r; tr_NextTriggerTime :=
     tr_NextTriggerTime r; tr_TenantID := tr_TenantID r; tr_Version := tr_Version r; tr_CreatedAt :=
     tr_CreatedAt r; tr_UpdatedAt := v |}.
Definition set_ir_ID (v : Z) (r : taskInstanceRow) : taskInstanceRow :=
  {| ir_ID := v; ir_TaskID := ir_TaskID r; ir_ScheduleInstanceID := ir_ScheduleInstanceID r; ir_TriggerTime :=
     ir_TriggerTime r; ir_DispatchTime := ir_DispatchTime r; ir_StartedAt := ir_StartedAt r; ir_FinishedAt :=
     ir_FinishedAt r; ir_WorkerID := ir_WorkerID r; ir_Status := ir_Status r; ir_RetryCount := ir_RetryCount
     r; ir_ErrorCode := ir_ErrorCode r; ir_ErrorMessage := ir_ErrorMessage r; ir_AnalysisJSON :=
     ir_AnalysisJSON r; ir_TraceID := ir_TraceID r; ir_NextRetryTime := ir_NextRetryTime r; ir_CreatedAt :=
     ir_CreatedAt r; ir_UpdatedAt := ir_UpdatedAt r |}.
Definition set_ir_Status (v : string) (r : taskInstanceRow) : taskInstanceRow :=
  {| ir_ID := ir_ID r; ir_TaskID := ir_TaskID r; ir_ScheduleInstanceID := ir_ScheduleInstanceID r;
     ir_TriggerTime := ir_TriggerTime r; ir_DispatchTime := ir_DispatchTime r; ir_StartedAt := ir_StartedAt r;
     ir_FinishedAt := ir_FinishedAt r; ir_WorkerID := ir_WorkerID r; ir_Status := v; ir_RetryCount :=
     ir_RetryCount r; ir_ErrorCode := ir_ErrorCode r; ir_ErrorMessage := ir_ErrorMessage r; ir_AnalysisJSON :=
     ir_AnalysisJSON r; ir_TraceID := ir_TraceID r; ir_NextRetryTime := ir_NextRetryTime r; ir_CreatedAt :=
     ir_CreatedAt r; ir_UpdatedAt := ir_UpdatedAt r |}.
Definition set_ir_WorkerID (v : string) (r : taskInstanceRow) : taskInstanceRow :=
  {| ir_ID := ir_ID r; ir_TaskID := ir_TaskID r; ir_ScheduleInstanceID := ir_ScheduleInstanceID r;
     ir_TriggerTime := ir_TriggerTime r; ir_DispatchTime := ir_DispatchTime r; ir_StartedAt := ir_StartedAt r;
     ir_FinishedAt := ir_FinishedAt r; ir_WorkerID := v; ir_Status := ir_Status r; ir_RetryCount :=
     ir_RetryCount r; ir_ErrorCode := ir_ErrorCode r; ir_ErrorMessage := ir_ErrorMessage r; ir_AnalysisJSON :=
     ir_AnalysisJSON r; ir_TraceID := ir_TraceID r; ir_NextRetryTime := ir_NextRetryTime r; ir_CreatedAt :=
     ir_CreatedAt r; ir_UpdatedAt := ir_UpdatedAt r |}.
Definition set_ir_DispatchTime (v : option Time) (r : taskInstanceRow) : taskInstanceRow :=
  {| ir_ID := ir_ID r; ir_TaskID := ir_TaskID r; ir_ScheduleInstanceID := ir_ScheduleInstanceID r;
     ir_TriggerTime := ir_TriggerTime r; ir_DispatchTime := v; ir_StartedAt := ir_StartedAt r; ir_FinishedAt
     := ir_FinishedAt r; ir_WorkerID := ir_WorkerID r; ir_Status := ir_Status r; ir_RetryCount :=
     ir_RetryCount r; ir_ErrorCode := ir_ErrorCode r; ir_ErrorMessage := ir_ErrorMessage r; ir_AnalysisJSON :=
     ir_AnalysisJSON r; ir_TraceID := ir_TraceID r; ir_NextRetryTime := ir_NextRetryTime r; ir_CreatedAt :=
     ir_CreatedAt r; ir_UpdatedAt := ir_UpdatedAt r |}.
Definition set_ir_StartedAt (v : option Time) (r : taskInstanceRow) : taskInstanceRow :=
  {| ir_ID := ir_ID r; ir_TaskID := ir_TaskID r; ir_ScheduleInstanceID := ir_ScheduleInstanceID r;
     ir_TriggerTime := ir_TriggerTime r; ir_DispatchTime := ir_DispatchTime r; ir_StartedAt := v;
     ir_FinishedAt := ir_FinishedAt r; ir_WorkerID := ir_WorkerID r; ir_Status := ir_Status r; ir_RetryCount
     := ir_RetryCount r; ir_ErrorCode := ir_ErrorCode r; ir_ErrorMessage := ir_ErrorMessage r; ir_AnalysisJSON
     := ir_AnalysisJSON r; ir_TraceID := ir_TraceID r; ir_NextRetryTime := ir_NextRetryTime r; ir_CreatedAt :=
     ir_CreatedAt r; ir_UpdatedAt := ir_UpdatedAt r |}.
Definition set_ir_FinishedAt (v : option Time) (r : taskInstanceRow) : taskInstanceRow :=
  {| ir_ID := ir_ID r; ir_TaskID := ir_TaskID r; ir_ScheduleInstanceID := ir_ScheduleInstanceID r;
     ir_TriggerTime := ir_TriggerTime r; ir_DispatchTime := ir_DispatchTime r; ir_StartedAt := ir_StartedAt r;
     ir_FinishedAt := v; ir_WorkerID := ir_WorkerID r; ir_Status := ir_Status r; ir_RetryCount :=
     ir_RetryCount r; ir_ErrorCode := ir_ErrorCode r; ir_ErrorMessage := ir_ErrorMessage r; ir_AnalysisJSON :=
     ir_AnalysisJSON r; ir_TraceID := ir_TraceID r; ir_NextRetryTime := ir_NextRetryTime r; ir_CreatedAt :=
     ir_CreatedAt r; ir_UpdatedAt := ir_UpdatedAt r |}.
Definition set_ir_ErrorCode (v : string) (r : taskInstanceRow) : taskInstanceRow :=
  {| ir_ID := ir_ID r; ir_TaskID := ir_TaskID r; ir_ScheduleInstanceID := ir_ScheduleInstanceID r;
     ir_TriggerTime := ir_TriggerTime r; ir_DispatchTime := ir_DispatchTime r; ir_StartedAt := ir_StartedAt r;
     ir_FinishedAt := ir_FinishedAt r; ir_WorkerID := ir_WorkerID r; ir_Status := ir_Status r; ir_RetryCount
     := ir_RetryCount r; ir_ErrorCode := v; ir_ErrorMessage := ir_ErrorMessage r; ir_AnalysisJSON :=
     ir_AnalysisJSON r; ir_TraceID := ir_TraceID r; ir_NextRetryTime := ir_NextRetryTime r; ir_CreatedAt :=
     ir_CreatedAt r; ir_UpdatedAt := ir_UpdatedAt r |}.
Definition set_ir_ErrorMessage (v : string) (r : taskInstanceRow) : taskInstanceRow :=
  {| ir_ID := ir_ID r; ir_TaskID := ir_TaskID r; ir_ScheduleInstanceID := ir_ScheduleInstanceID r;
     ir_TriggerTime := ir_TriggerTime r; ir_DispatchTime := ir_DispatchTime r; ir_StartedAt := ir_StartedAt r;
     ir_FinishedAt := ir_FinishedAt r; ir_WorkerID := ir_WorkerID r; ir_Status := ir_Status r; ir_RetryCount
     := ir_RetryCount r; ir_ErrorCode := ir_ErrorCode r; ir_ErrorMessage := v; ir_AnalysisJSON :=
     ir_AnalysisJSON r; ir_TraceID := ir_TraceID r; ir_NextRetryTime := ir_NextRetryTime r; ir_CreatedAt :=
     ir_CreatedAt r; ir_UpdatedAt := ir_UpdatedAt r |}.
Definition set_ir_AnalysisJSON (v : string) (r : taskInstanceRow) : taskInstanceRow :=
  {| ir_ID := ir_ID r; ir_TaskID := ir_TaskID r; ir_ScheduleInstanceID := ir_ScheduleInstanceID r;
     ir_TriggerTime := ir_TriggerTime r; ir_DispatchTime := ir_DispatchTime r; ir_StartedAt := ir_StartedAt r;
     ir_FinishedAt := ir_FinishedAt r; ir_WorkerID := ir_WorkerID r; ir_Status := ir_Status r; ir_RetryCount
     := ir_RetryCount r; ir_ErrorCode := ir_ErrorCode r; ir_ErrorMessage := ir_ErrorMessage r; ir_AnalysisJSON
     := v; ir_TraceID := ir_TraceID r; ir_NextRetryTime := ir_NextRetryTime r; ir_CreatedAt := ir_CreatedAt r;
     ir_UpdatedAt := ir_UpdatedAt r |}.
Definition set_ir_UpdatedAt (v : Time) (r : taskInstanceRow) : taskInstanceRow :=
  {| ir_ID := ir_ID r; ir_TaskID := ir_TaskID r; ir_ScheduleInstanceID := ir_ScheduleInstanceID r;
     ir_TriggerTime := ir_TriggerTime r; ir_DispatchTime := ir_DispatchTime r; ir_StartedAt := ir_StartedAt r;
     ir_FinishedAt := ir_FinishedAt r; ir_WorkerID := ir_WorkerID r; ir_Status := ir_Status r; ir_RetryCount
     := ir_RetryCount r; ir_ErrorCode := ir_ErrorCode r; ir_ErrorMessage := ir_ErrorMessage r; ir_AnalysisJSON
     := ir_AnalysisJSON r; ir_TraceID := ir_TraceID r; ir_NextRetryTime := ir_NextRetryTime r; ir_CreatedAt :=
     ir_CreatedAt r; ir_UpdatedAt := v |}.

(** ** Conversions (helpers.go) *)

Definition timeOrNil (t : Time) : option Time := if IsZero t then None else Some t.

(** The time behind a column pointer; the zero time when it is [nil]. *)
Definition time_or_zero (t : option Time) : Time := default zero_time t.

Definition taskToRow (task : Task) : taskRow :=
  {| tr_ID := task_ID task; tr_Name := task_Name task; tr_Type := task_Type task; tr_CronExpr := task_CronExpr
     task; tr_Payload := task_Payload task; tr_Image := task_Image task; tr_Status := task_Status task;
     tr_TimeoutSeconds := task_TimeoutSeconds task; tr_MaxRetry := task_MaxRetry task; tr_RetryPolicy :=
     task_RetryPolicy task; tr_RetryOnErrors := task_RetryOnErrors task; tr_RouteStrategy :=
     task_RouteStrategy task; tr_Labels := task_Labels task; tr_NextTriggerTime := timeOrNil
     (task_NextTriggerTime task); tr_TenantID := task_TenantID task; tr_Version := task_Version task;
     tr_CreatedAt := task_CreatedAt task; tr_UpdatedAt := task_UpdatedAt task |}.

(** The fields of [Task] without a column stay at their zero values. *)
Definition rowToTask (row : taskRow) : Task :=
  {| task_ID := tr_ID row; task_Name := tr_Name row; task_Type := tr_Type row; task_CronExpr := tr_CronExpr
     row; task_Payload := tr_Payload row; task_Image := tr_Image row; task_Status := tr_Status row;
     task_TimeoutSeconds := tr_TimeoutSeconds row; task_MaxRetry := tr_MaxRetry row; task_RetryPolicy :=
     tr_RetryPolicy row; task_RetryOnErrors := tr_RetryOnErrors row; task_RetryIntervalSeconds := 0;
     task_RetryWindowSeconds := 0; task_RouteStrategy := tr_RouteStrategy row; task_Labels := tr_Labels row;
     task_NextTriggerTime := time_or_zero (tr_NextTriggerTime row); task_TenantID := tr_TenantID row;
     task_Version := tr_Version row; task_TotalShards := 0; task_IdempotencyKey := ""; task_TriggerType := "";
     task_EventName := ""; task_CreatedAt := tr_CreatedAt row; task_UpdatedAt := tr_UpdatedAt row |}.

Definition taskInstanceToRow (instance : TaskInstance) : taskInstanceRow :=
  {| ir_ID := inst_ID instance; ir_TaskID := inst_TaskID instance; ir_ScheduleInstanceID :=
     inst_ScheduleInstanceID instance; ir_TriggerTime := inst_TriggerTime instance; ir_DispatchTime :=
     timeOrNil (inst_DispatchTime instance); ir_StartedAt := timeOrNil (inst_StartedAt instance);
     ir_FinishedAt := timeOrNil (inst_FinishedAt instance); ir_WorkerID := inst_WorkerID instance; ir_Status
     := inst_Status instance; ir_RetryCount := inst_RetryCount instance; ir_ErrorCode := inst_ErrorCode
     instance; ir_ErrorMessage := inst_ErrorMessage instance; ir_AnalysisJSON := inst_AnalysisJSON instance;
     ir_TraceID := inst_TraceID instance; ir_NextRetryTime := timeOrNil (inst_NextRetryTime instance);
     ir_CreatedAt := inst_CreatedAt instance; ir_UpdatedAt := inst_UpdatedAt instance |}.

Definition rowToTaskInstance (row : taskInstanceRow) : TaskInstance :=
  {| inst_ID := ir_ID row; inst_TaskID := ir_TaskID row; inst_ScheduleInstanceID := ir_ScheduleInstanceID row;
     inst_ShardNo := 0; inst_ShardTotal := 0; inst_TriggerTime := ir_TriggerTime row; inst_DispatchTime :=
     time_or_zero (ir_DispatchTime row); inst_StartedAt := time_or_zero (ir_StartedAt row); inst_FinishedAt :=
     time_or_zero (ir_FinishedAt row); inst_WorkerID := ir_WorkerID row; inst_Status := ir_Status row;
     inst_RetryCount := ir_RetryCount row; inst_ErrorCode := ir_ErrorCode row; inst_ErrorMessage :=
     ir_ErrorMessage row; inst_AnalysisJSON := ir_AnalysisJSON row; inst_NextRetryTime := time_or_zero
     (ir_NextRetryTime row); inst_TraceID := ir_TraceID row; inst_CreatedAt := ir_CreatedAt row;
     inst_UpdatedAt := ir_UpdatedAt row |}.

Definition rowToWorker (row : workerNodeRow) : WorkerNode :=
  {| worker_ID := wr_ID row; worker_Hostname := wr_Hostname row; worker_IP := wr_IP row; worker_CallbackURL :=
     wr_CallbackURL row; worker_GRPCAddr := wr_GRPCAddr row; worker_Protocol := wr_Protocol row; worker_Status
     := wr_Status row; worker_Labels := wr_Labels row; worker_MaxConcurrency := wr_MaxConcurrency row;
     worker_CurrentLoad := wr_CurrentLoad row; worker_LastHeartbeatAt := wr_LastHeartbeatAt row |}.

(** ** What GORM writes *)

Section Entities.
Context `{Columns}.

(** [CreatedAt] and [UpdatedAt] are filled in when they are zero. *)
Definition auto_time (now t : Time) : Time := stored (if IsZero t then now else t).

Definition task_inserted (k : Z) (now : Time) (r : taskRow) : taskRow :=
  {| tr_ID := k; tr_Name := tr_Name r; tr_Type := tr_Type r; tr_CronExpr := tr_CronExpr r; tr_Payload :=
     tr_Payload r; tr_Image := tr_Image r; tr_Status := tr_Status r; tr_TimeoutSeconds := tr_TimeoutSeconds r;
     tr_MaxRetry := tr_MaxRetry r; tr_RetryPolicy := tr_RetryPolicy r; tr_RetryOnErrors := tr_RetryOnErrors r;
     tr_RouteStrategy := tr_RouteStrategy r; tr_Labels := tr_Labels r; tr_NextTriggerTime := stored <$>
     tr_NextTriggerTime r; tr_TenantID := tr_TenantID r; tr_Version := tr_Version r; tr_CreatedAt := auto_time
     now (tr_CreatedAt r); tr_UpdatedAt := auto_time now (tr_UpdatedAt r) |}.
Definition instance_inserted (k : Z) (now : Time) (r : taskInstanceRow) : taskInstanceRow :=
  {| ir_ID := k; ir_TaskID := ir_TaskID r; ir_ScheduleInstanceID := ir_ScheduleInstanceID r; ir_TriggerTime :=
     stored (ir_TriggerTime r); ir_DispatchTime := stored <$> ir_DispatchTime r; ir_StartedAt := stored <$>
     ir_StartedAt r; ir_FinishedAt := stored <$> ir_FinishedAt r; ir_WorkerID := ir_WorkerID r; ir_Status :=
     ir_Status r; ir_RetryCount := ir_RetryCount r; ir_ErrorCode := ir_ErrorCode r; ir_ErrorMessage :=
     ir_ErrorMessage r; ir_AnalysisJSON := ir_AnalysisJSON r; ir_TraceID := ir_TraceID r; ir_NextRetryTime :=
     stored <$> ir_NextRetryTime r; ir_CreatedAt := auto_time now (ir_CreatedAt r); ir_UpdatedAt := auto_time
     now (ir_UpdatedAt r) |}.
Definition worker_inserted (k : string) (now : Time) (r : workerNodeRow) : workerNodeRow :=
  {| wr_ID := k; wr_Hostname := wr_Hostname r; wr_IP := wr_IP r; wr_CallbackURL := wr_CallbackURL r;
     wr_GRPCAddr := wr_GRPCAddr r; wr_Protocol := wr_Protocol r; wr_Status := wr_Status r; wr_Labels :=
     wr_Labels r; wr_MaxConcurrency := wr_MaxConcurrency r; wr_CurrentLoad := wr_CurrentLoad r;
     wr_LastHeartbeatAt := stored (wr_LastHeartbeatAt r) |}.

(** The unique keys are those of migrations/*.sql. *)
#[export] Instance taskRow_entity : Entity taskRow Z := {
  key := tr_ID; inserted := task_inserted; touched now := set_tr_UpdatedAt (stored now);
  collide r r' := (tr_TenantID r =? tr_TenantID r') && bool_decide (tr_Name r = tr_Name r') }.
#[export] Instance taskDependencyRow_entity : Entity taskDependencyRow (Z * Z) := {
  key r := (dr_TaskID r, dr_DependsOnTaskID r); inserted _ _ r := r; touched _ r := r;
  collide r r' := (dr_TaskID r =? dr_TaskID r') && (dr_DependsOnTaskID r =? dr_DependsOnTaskID r') }.
#[export] Instance taskInstanceRow_entity : Entity taskInstanceRow Z := {
  key := ir_ID; inserted := instance_inserted; touched now := set_ir_UpdatedAt (stored now);
  collide r r' := bool_decide (ir_ScheduleInstanceID r = ir_ScheduleInstanceID r') }.
#[export] Instance workerNodeRow_entity : Entity workerNodeRow string := {
  key := wr_ID; inserted := worker_inserted; touched _ r := r;
  collide r r' := bool_decide (wr_ID r = wr_ID r') }.
End Entities.

(** ** Repositories *)

Definition wrap_err {A} (prefix : string) (r : result A) : result A :=
  match r with Ok a => Ok a | Err e => Err (Wrap prefix e) end.

Definition map_res {A B} (f : A -> B) (r : result A) : result B :=
  match r with Ok a => Ok (f a) | Err e => Err e end.

(** A time column that may be NULL against a bound. *)
Definition at_most (t : option Time) (bound : Time) : bool :=
  match t with Some t => t <=? bound | None => false end.

Section TaskRepository.
Context `{Columns} {TD : Type} `{!Table TD taskRow Z} `{!Table TD taskDependencyRow (Z * Z)}.

Definition my_GetTask (id : Z) (db : TD) : result Task :=
  map_res rowToTask (wrap_err "get task" (db_First (fun r => tr_ID r =? id) db)).

Definition my_CreateTask (now : Time) (task : Task) (db : TD) : TD * result Task :=
  let row := set_tr_Version 1 (set_tr_ID 0 (taskToRow task)) in
  let '(db, r) := db_Create now row db in
  match r with
  | Err err => (db, Err (Wrap "insert task" err))
  | Ok id => (db, my_GetTask id db)
  end.

(** The [updates] map; [gorm.Expr] makes the version an expression on the row. *)
Definition task_updates (task : Task) (r : taskRow) : taskRow :=
  {| tr_ID := tr_ID r; tr_Name := task_Name task; tr_Type := task_Type task; tr_CronExpr := task_CronExpr
     task; tr_Payload := task_Payload task; tr_Image := task_Image task; tr_Status := task_Status task;
     tr_TimeoutSeconds := task_TimeoutSeconds task; tr_MaxRetry := task_MaxRetry task; tr_RetryPolicy :=
     task_RetryPolicy task; tr_RetryOnErrors := task_RetryOnErrors task; tr_RouteStrategy :=
     task_RouteStrategy task; tr_Labels := task_Labels task; tr_NextTriggerTime := stored <$> timeOrNil
     (task_NextTriggerTime task); tr_TenantID := task_TenantID task; tr_Version := tr_Version r + 1;
     tr_CreatedAt := tr_CreatedAt r; tr_UpdatedAt := tr_UpdatedAt r |}.

Definition my_UpdateTask (now : Time) (task : Task) (db : TD) : TD * result Task :=
  let '(db, r) := db_Updates now (fun r => tr_ID r =? task_ID task) (task_updates task) db in
  match r with
  | Err err => (db, Err (Wrap "update task" err))
  | Ok _ => (db, my_GetTask (task_ID task) db)
  end.

Definition my_DeleteTask (id : Z) (db : TD) : TD * result unit :=
  let '(db, r) := db_Delete (fun r : taskRow => tr_ID r =? id) db in
  match r with Err err => (db, Err (Wrap "delete task" err)) | Ok _ => (db, Ok tt) end.

(** The loop that converts the rows. *)
Definition tasks_of_rows (rs : list taskRow) : list Task := rowToTask <$> rs.

Definition my_ListTasks (db : TD) : result (list Task) :=
  map_res tasks_of_rows (wrap_err "list tasks"
    (db_Find (Order (fun x y => tr_ID x <=? tr_ID y) (Where (fun _ => true))) db)).

Definition my_ListTasksByTenant (tenantID : Z) (db : TD) : result (list Task) :=
  map_res tasks_of_rows (wrap_err "list tasks by tenant"
    (db_Find (Order (fun x y => tr_ID x <=? tr_ID y) (Where (fun r => tr_TenantID r =? tenantID))) db)).

(** [now] is what the server's clock says when the query runs. NULL sorts first. *)
Definition my_ListDueTasks (now : Time) (limit : Z) (db : TD) : result (list Task) :=
  map_res tasks_of_rows (wrap_err "list due tasks"
    (db_Find (Limit (positive limit)
      (Order (fun x y => match tr_NextTriggerTime x, tr_NextTriggerTime y with
                         | Some a, Some b => a <=? b | None, _ => true | Some _, None => false end)
        (Where (fun r => bool_decide (tr_Status r = "enabled") && at_most (tr_NextTriggerTime r) (NOW now))))) db)).

Definition my_AddDependency (taskID dependsOnTaskID : Z) (db : TD) : TD * result unit :=
  let '(db, r) := db_Create zero_time (mkTaskDependencyRow taskID dependsOnTaskID) db in
  match r with Err err => (db, Err (Wrap "add dependency" err)) | Ok _ => (db, Ok tt) end.

Definition my_RemoveDependency (taskID dependsOnTaskID : Z) (db : TD) : TD * result unit :=
  let '(db, r) := db_Delete (fun r => (dr_TaskID r =? taskID) && (dr_DependsOnTaskID r =? dependsOnTaskID)) db in
  match r with Err err => (db, Err (Wrap "remove dependency" err)) | Ok _ => (db, Ok tt) end.

(** [Pluck] *)
Definition my_ListDownstreamTasks (taskID : Z) (db : TD) : result (list Z) :=
  map_res (fmap dr_TaskID) (wrap_err "list downstream tasks"
    (db_Find (Where (fun r => dr_DependsOnTaskID r =? taskID)) db)).
Definition my_ListUpstreamDeps (taskID : Z) (db : TD) : result (list Z) :=
  map_res (fmap dr_DependsOnTaskID) (wrap_err "list upstream deps"
    (db_Find (Where (fun r => dr_TaskID r =? taskID)) db)).

#[export] Instance MySQL_tasks : TaskRepository TD := {
  CreateTask := my_CreateTask; UpdateTask := my_UpdateTask; DeleteTask := my_DeleteTask;
  GetTask := my_GetTask; ListTasks := my_ListTasks; ListTasksByTenant := my_ListTasksByTenant;
  ListDueTasks := my_ListDueTasks; AddDependency := my_AddDependency;
  RemoveDependency := my_RemoveDependency; ListDownstreamTasks := my_ListDownstreamTasks;
  ListUpstreamDeps := my_ListUpstreamDeps }.
End TaskRepository.

(** [time.Parse]'s error, up to the details of its text. *)
Definition time_parse_error (value : string) : gerror := Errorf "parsing time %q" [value].

Definition parseDispatchTime (value : string) : result (option Time) :=
  if bool_decide (value = "") then Ok None
  else match ParseRFC3339Nano value with
       | Some parsed => Ok (Some parsed)
       | None => Err (Wrap "parse dispatch time" (time_parse_error value))
       end.

Definition mapTaskInstances (rs : list taskInstanceRow) : list TaskInstance := rowToTaskInstance <$> rs.
Definition mapWorkers (rs : list workerNodeRow) : list WorkerNode := rowToWorker <$> rs.

Section InstanceRepository.
Context `{Columns} {ID : Type} `{!Table ID taskInstanceRow Z}.

Definition my_GetInstance (instanceID : Z) (db : ID) : result TaskInstance :=
  map_res rowToTaskInstance (wrap_err "get task instance" (db_First (fun r => ir_ID r =? instanceID) db)).

Definition my_CreateInstance (now : Time) (instance : TaskInstance) (db : ID) : ID * result TaskInstance :=
  let row := set_ir_ID 0 (taskInstanceToRow instance) in
  let '(db, r) := db_Create now row db in
  match r with
  | Err err => (db, Err (Wrap "insert task instance" err))
  | Ok id => (db, my_GetInstance id db)
  end.

Definition by_schedule_id (scheduleID : string) (r : taskInstanceRow) : bool :=
  bool_decide (ir_ScheduleInstanceID r = scheduleID).

Definition my_GetInstanceByScheduleID (scheduleID : string) (db : ID) : result TaskInstance :=
  map_res rowToTaskInstance (wrap_err "get task instance by schedule id" (db_First (by_schedule_id scheduleID) db)).

Definition my_ListInstances (db : ID) : result (list TaskInstance) :=
  map_res mapTaskInstances (wrap_err "list task instances"
    (db_Find (Order (fun x y => ir_ID x <=? ir_ID y) (Where (fun _ => true))) db)).

Definition my_ListInstancesByTaskID (taskID : Z) (db : ID) : result (list TaskInstance) :=
  map_res mapTaskInstances (wrap_err "list instances by task id"
    (db_Find (Order (fun x y => ir_CreatedAt x <=? ir_CreatedAt y) (Where (fun r => ir_TaskID r =? taskID))) db)).

Definition my_ListInstancesByTimeRange (from to : Time) (limit offset : Z) (db : ID) : result (list TaskInstance) :=
  map_res mapTaskInstances (wrap_err "list instances by time range"
    (db_Find (Offset (positive offset) (Limit (positive limit)
      (Order (fun x y => ir_CreatedAt y <=? ir_CreatedAt x)
        (Where (fun r => (sent from <=? ir_CreatedAt r) && (ir_CreatedAt r <=? sent to)))))) db)).

Definition my_ListInstancesByStatus (status : string) (limit : Z) (db : ID) : result (list TaskInstance) :=
  map_res mapTaskInstances (wrap_err "list task instances by status"
    (db_Find (Limit (positive limit)
      (Order (fun x y => ir_CreatedAt x <=? ir_CreatedAt y) (Where (fun r => bool_decide (ir_Status r = status))))) db)).

Definition my_ListDueRetryInstances (cutoff : Time) (limit : Z) (db : ID) : result (list TaskInstance) :=
  map_res mapTaskInstances (wrap_err "list due retry instances"
    (db_Find (Limit (positive limit)
      (Order (fun x y => ir_CreatedAt x <=? ir_CreatedAt y)
        (Where (fun r => bool_decide (ir_Status r = "retry_waiting") &&
           (bool_decide (ir_NextRetryTime r = None) || at_most (ir_NextRetryTime r) (sent cutoff)))))) db)).

Definition my_CountInstancesByStatus (status : string) (db : ID) : result Z :=
  wrap_err "count instances by status" (db_Count (fun r => bool_decide (ir_Status r = status)) db).

Definition my_UpdateInstanceStatus (now : Time) (instanceID : Z) (status : string) (db : ID) : ID * result unit :=
  let '(db, r) := db_Updates now (fun r => ir_ID r =? instanceID) (set_ir_Status status) db in
  (db, wrap_err "update task instance status" r).

Definition my_UpdateInstanceDispatch (now : Time) (instanceID : Z) (workerID dispatchTime : string) (db : ID)
    : ID * result unit :=
  match parseDispatchTime dispatchTime with
  | Err err => (db, Err err)
  | Ok parsedDispatchTime =>
      let '(db, r) := db_Updates now (fun r => ir_ID r =? instanceID)
        (fun r => set_ir_Status "dispatched"
          (set_ir_DispatchTime (stored <$> parsedDispatchTime) (set_ir_WorkerID workerID r))) db in
      (db, wrap_err "update task instance dispatch" r)
  end.

Definition my_UpdateInstanceResult (now : Time) (scheduleID status errorCode errorMessage : string) (db : ID)
    : ID * result unit :=
  let '(db, r) := db_Updates now (by_schedule_id scheduleID)
    (fun r => set_ir_ErrorMessage errorMessage (set_ir_ErrorCode errorCode (set_ir_Status status r))) db in
  (db, wrap_err "update task instance result" r).

Definition my_UpdateInstanceAnalysis (now : Time) (scheduleID analysisJSON : string) (db : ID) : ID * result unit :=
  let '(db, r) := db_Updates now (by_schedule_id scheduleID) (set_ir_AnalysisJSON analysisJSON) db in
  (db, wrap_err "update instance analysis" r).

Definition my_UpdateInstanceTimestamps (now : Time) (scheduleID : string) (startedAt finishedAt : Time) (db : ID)
    : ID * result unit :=
  let '(db, r) := db_Updates now (by_schedule_id scheduleID)
    (fun r => set_ir_FinishedAt (stored <$> timeOrNil finishedAt)
                (set_ir_StartedAt (stored <$> timeOrNil startedAt) r)) db in
  (db, wrap_err "update instance timestamps" r).

#[export] Instance MySQL_instances : TaskInstanceRepository ID := {
  CreateInstance := my_CreateInstance; GetInstance := my_GetInstance;
  GetInstanceByScheduleID := my_GetInstanceByScheduleID; ListInstances := my_ListInstances;
  ListInstancesByTaskID := my_ListInstancesByTaskID;
  ListInstancesByTimeRange := my_ListInstancesByTimeRange;
  ListInstancesByStatus := my_ListInstancesByStatus; ListDueRetryInstances := my_ListDueRetryInstances;
  CountInstancesByStatus := my_CountInstancesByStatus; UpdateInstanceStatus := my_UpdateInstanceStatus;
  UpdateInstanceDispatch := my_UpdateInstanceDispatch; UpdateInstanceResult := my_UpdateInstanceResult;
  UpdateInstanceAnalysis := my_UpdateInstanceAnalysis;
  UpdateInstanceTimestamps := my_UpdateInstanceTimestamps }.
End InstanceRepository.

Section WorkerRepository.
Context `{Columns} {WD : Type} `{!Table WD workerNodeRow string} `{!UpsertTable WD workerNodeRow}.

Definition workerToRow (worker : WorkerNode) : workerNodeRow :=
  {| wr_ID := worker_ID worker; wr_Hostname := worker_Hostname worker; wr_IP := worker_IP worker;
     wr_CallbackURL := worker_CallbackURL worker; wr_GRPCAddr := worker_GRPCAddr worker;
     wr_Protocol := worker_Protocol worker; wr_Status := worker_Status worker; wr_Labels := worker_Labels worker;
     wr_MaxConcurrency := worker_MaxConcurrency worker; wr_CurrentLoad := worker_CurrentLoad worker;
     wr_LastHeartbeatAt := worker_LastHeartbeatAt worker |}.

(** On a conflict every column but the key is assigned. *)
Definition my_UpsertWorker (now : Time) (worker : WorkerNode) (db : WD) : WD * result unit :=
  let '(db, r) := db_Upsert now (workerToRow worker) db in (db, wrap_err "upsert worker" r).

Definition my_GetWorker (id : string) (db : WD) : result WorkerNode :=
  map_res rowToWorker (wrap_err "get worker" (db_First (fun r => bool_decide (wr_ID r = id)) db)).

Definition by_id (x y : workerNodeRow) : bool := String.leb (wr_ID x) (wr_ID y).

Definition my_ListWorkers (db : WD) : result (list WorkerNode) :=
  map_res mapWorkers (wrap_err "list workers" (db_Find (Order by_id (Where (fun _ => true))) db)).

Definition my_ListStaleWorkers (cutoff : Time) (db : WD) : result (list WorkerNode) :=
  map_res mapWorkers (wrap_err "list stale workers"
    (db_Find (Order by_id (Where (fun r =>
       bool_decide (wr_Status r = "online") && (wr_LastHeartbeatAt r <? sent cutoff)))) db)).

Definition my_ListAvailableWorkers (db : WD) : result (list WorkerNode) :=
  map_res mapWorkers (wrap_err "list available workers"
    (db_Find (Order (fun x y => (wr_CurrentLoad x <? wr_CurrentLoad y) ||
        (wr_CurrentLoad x =? wr_CurrentLoad y) && (wr_LastHeartbeatAt y <=? wr_LastHeartbeatAt x))
      (Where (fun r => bool_decide (wr_Status r = "online") && (wr_CurrentLoad r <? wr_MaxConcurrency r)))) db)).

#[export] Instance MySQL_workers : WorkerRepository WD := {
  UpsertWorker := my_UpsertWorker; GetWorker := my_GetWorker; ListWorkers := my_ListWorkers;
  ListAvailableWorkers := my_ListAvailableWorkers; ListStaleWorkers := my_ListStaleWorkers }.
End WorkerRepository.

(** ** The contract of the interfaces *)

(** The row with this key is one of those a DELETE removes. *)
Definition deleted (p : taskRow -> bool) (m : gmap Z taskRow) (id : Z) : bool :=
  match m !! id with Some r => p r | None => false end.

(** The two tables of the task repository live in one database: statements on one
    leave the other alone, except that deleting a task cascades to the dependency
    rows that name it (migrations/000004). *)
Class TaskSchemaLaws (TD : Type) `{Columns} `{!Table TD taskRow Z} `{!Table TD taskDependencyRow (Z * Z)} := {
  schema_tasks :: TableLaws TD taskRow Z;
  schema_deps :: TableLaws TD taskDependencyRow (Z * Z);
  create_task_frame now (r : taskRow) (db : TD) : table_inv (R:=taskDependencyRow) db ->
    table_inv (R:=taskDependencyRow) (db_Create now r db).1 /\
    rows (R:=taskDependencyRow) (db_Create now r db).1 = rows db;
  update_task_frame now p (f : taskRow -> taskRow) (db : TD) : table_inv (R:=taskDependencyRow) db ->
    table_inv (R:=taskDependencyRow) (db_Updates now p f db).1 /\
    rows (R:=taskDependencyRow) (db_Updates now p f db).1 = rows db;
  delete_task_cascade (p : taskRow -> bool) (db db' : TD) n : table_inv (R:=taskDependencyRow) db ->
    db_Delete p db = (db', n) -> table_inv (R:=taskDependencyRow) db' /\
    match n with
    | Ok _ => rows (R:=taskDependencyRow) db' = filter (fun kr =>
        deleted p (rows db) kr.1.1 || deleted p (rows db) kr.1.2 = false) (rows db)
    | Err _ => rows (R:=taskDependencyRow) db' = rows db
    end;
  create_dep_frame now (r : taskDependencyRow) (db : TD) : table_inv (R:=taskRow) db ->
    table_inv (R:=taskRow) (db_Create now r db).1 /\ rows (R:=taskRow) (db_Create now r db).1 = rows db;
  delete_dep_frame (p : taskDependencyRow -> bool) (db : TD) : table_inv (R:=taskRow) db ->
    table_inv (R:=taskRow) (db_Delete p db).1 /\ rows (R:=taskRow) (db_Delete p db).1 = rows db
}.

Lemma map_res_inv {A B} (f : A -> B) r b : map_res f r = Ok b -> exists a, r = Ok a /\ b = f a.
Proof. destruct r; [|done]. intros [= <-]. eauto. Qed.

Lemma wrap_err_inv {A} p (r : result A) a : wrap_err p r = Ok a -> r = Ok a.
Proof. by destruct r. Qed.

(** A query that succeeded. *)
Ltac query_inv E :=
  apply map_res_inv in E as (? & E & ->); apply wrap_err_inv in E.

Section TaskContract.
Context {TD : Type} `{TaskSchemaLaws TD}.

Definition my_tasks (db : TD) : gmap Z Task := rowToTask <$> rows db.
Definition my_deps (db : TD) : list TaskDependency :=
  (fun k => mkTaskDependency k.1 k.2) <$> (map_to_list (rows (R:=taskDependencyRow) db)).*1.
Definition my_tasks_inv (db : TD) : Prop := table_inv (R:=taskRow) db /\ table_inv (R:=taskDependencyRow) db.

Lemma my_create_task now t db : my_tasks_inv db -> exists db' x,
  my_CreateTask now t db = (db', x) /\ my_tasks_inv db' /\ my_deps db' = my_deps db /\
  match x with
  | Ok t' => exists id, my_tasks db !! id = None /\ my_tasks db' = <[id := t']> (my_tasks db) /\
      t' = rowToTask (task_inserted id now (set_tr_Version 1 (set_tr_ID 0 (taskToRow t))))
  | Err _ => my_tasks db' = my_tasks db \/ exists id t', my_tasks db !! id = None /\ my_tasks db' = <[id := t']> (my_tasks db)
  end.
Proof.
  intros [Hi Hj]. unfold my_CreateTask. set (row := set_tr_Version _ _).
  destruct (create_task_frame now row db Hj) as [Hj' Hd]. destruct (db_Create now row db) as [db' x] eqn:E.
  destruct (db_Create_law _ _ _ _ _ Hi E) as [Hi' Hx]. simpl in *.
  assert (my_deps db' = my_deps db) as Hdeps by (unfold my_deps; by rewrite Hd).
  assert (my_tasks_inv db') as Hinv by done.
  destruct x as [id|e]; do 2 eexists; (split; [done|]); (split; [done|]); (split; [done|]);
    [|left; unfold my_tasks; by rewrite Hx].
  destruct Hx as [Hn Hr]. assert (my_tasks db !! id = None) as Hn'.
  { unfold my_tasks. by rewrite lookup_fmap, Hn. }
  assert (my_tasks db' = <[id := rowToTask (inserted id now row)]> (my_tasks db)) as Hm.
  { unfold my_tasks. by rewrite Hr, fmap_insert. }
  destruct (my_GetTask id db') as [t'|e] eqn:Hg; [|eauto]. unfold my_GetTask in Hg. query_inv Hg.
  apply (First_by_key _ id) in Hg; [|intros r ?; by apply Z.eqb_eq]. rewrite Hr, lookup_insert_eq in Hg.
  simplify_eq. eauto.
Qed.

Lemma my_update_task now t db : my_tasks_inv db -> exists db' x,
  my_UpdateTask now t db = (db', x) /\ my_tasks_inv db' /\ my_deps db' = my_deps db /\
  (forall id, id <> task_ID t -> my_tasks db' !! id = my_tasks db !! id) /\
  match x with
  | Ok t' => exists cur, rows db !! task_ID t = Some cur /\ my_tasks db' !! task_ID t = Some t' /\
      t' = rowToTask (touched now (task_updates t cur))
  | Err _ => True
  end.
Proof.
  intros [Hi Hj]. unfold my_UpdateTask. set (p := fun r => _ =? _).
  destruct (update_task_frame now p (task_updates t) db Hj) as [Hj' Hd].
  destruct (db_Updates now p (task_updates t) db) as [db' x] eqn:E. simpl in *.
  assert (my_deps db' = my_deps db) as Hdeps by (unfold my_deps; by rewrite Hd).
  destruct x as [u|e].
  - apply (Updates_by_key _ _ (task_ID t)) in E as [Hi' Hr]; [|done|intros r; apply Z.eqb_eq|done].
    do 2 eexists. split; [done|]. split; [done|]. split; [done|]. unfold my_tasks. rewrite Hr. split.
    + intros id Hne. by rewrite !lookup_fmap, lookup_alter_ne.
    + destruct (my_GetTask _ _) as [t'|e] eqn:Hg; [|done]. unfold my_GetTask in Hg. query_inv Hg.
      apply (First_by_key _ (task_ID t)) in Hg; [|intros r ?; by apply Z.eqb_eq]. rewrite Hr, lookup_alter_eq in Hg.
      destruct (rows db !! task_ID t) as [cur|] eqn:Hc; simplify_eq/=. exists cur. split; [done|].
      by rewrite lookup_fmap, lookup_alter_eq, Hc.
  - apply db_Updates_law in E as [Hi' Hr]; [|done..].
    do 2 eexists. split; [done|]. split; [done|]. split; [done|]. unfold my_tasks. by rewrite Hr.
Qed.

Lemma my_delete_task id db : my_tasks_inv db -> exists db' x,
  my_DeleteTask id db = (db', x) /\ my_tasks_inv db' /\
  match x with
  | Ok _ => my_tasks db' = delete id (my_tasks db) /\
      forall d, d ∈ my_deps db' -> d ∈ my_deps db
  | Err _ => my_tasks db' = my_tasks db
  end.
Proof.
  intros [Hi Hj]. unfold my_DeleteTask. set (p := fun r => _ =? _). destruct (db_Delete p db) as [db' n] eqn:E.
  destruct (db_Delete_law _ _ _ _ Hi E) as [Hi' Hr]. destruct (delete_task_cascade _ _ _ _ Hj E) as [Hj' Hd].
  assert (my_tasks_inv db') as Hinv by done. destruct n as [n|e]; do 2 eexists; (split; [done|]); (split; [done|]);
    [|unfold my_tasks; by rewrite Hr]. split.
  - unfold my_tasks. rewrite Hr, <- fmap_delete. f_equal. apply map_eq. intros k.
    destruct (decide (k = id)) as [->|Hne].
    + rewrite lookup_delete_eq, map_lookup_filter_None. right. intros r Hk. pose proof (rows_key _ _ _ Hk). subst p. simpl in *. lia.
    + rewrite lookup_delete_ne by done. apply option_eq. intros r. rewrite map_lookup_filter_Some.
      split; [by intros [? _]|]. intros Hk. split; [done|]. subst p. simpl. pose proof (rows_key _ _ _ Hk). simpl in *. lia.
  - intros d. unfold my_deps. rewrite Hd, !list_elem_of_fmap. intros (k & -> & Hk). exists k. split; [done|].
    apply list_elem_of_fmap in Hk as ([k' r] & -> & Hk). apply list_elem_of_fmap. exists (k', r). split; [done|].
    rewrite elem_of_map_to_list in *. by apply map_lookup_filter_Some in Hk as [? _].
Qed.

Lemma my_dep_write {A} (op : TD -> TD * result A) prefix db :
  my_tasks_inv db -> (table_inv (R:=taskRow) (op db).1 /\ rows (R:=taskRow) (op db).1 = rows db) ->
  table_inv (R:=taskDependencyRow) (op db).1 ->
  let run := let '(db, r) := op db in
             match r with Err err => (db, Err (Wrap prefix err)) | Ok _ => (db, Ok tt) end in
  my_tasks_inv run.1 /\ my_tasks run.1 = my_tasks db.
Proof.
  intros _ [Hi Hr] Hj. simpl. destruct (op db) as [db' r]. simpl in *. unfold my_tasks_inv, my_tasks.
  destruct r; simpl; by rewrite Hr.
Qed.

#[export] Program Instance MySQL_tasks_contract : TaskRepositoryContract TD := {
  tasks_of := my_tasks; deps_of_store := my_deps; tasks_inv := my_tasks_inv }.
Next Obligation.
  intros db id t _. unfold my_tasks. rewrite lookup_fmap_Some. intros (r & <- & Hr). by apply rows_key in Hr.
Qed.
Next Obligation.
  intros db id t E. simpl in E. unfold my_GetTask in E. query_inv E.
  apply (First_by_key _ id) in E; [|intros r ?; by apply Z.eqb_eq]. unfold my_tasks. by rewrite lookup_fmap, E.
Qed.
Next Obligation.
  intros now t db Hi. destruct (my_create_task now t db Hi) as (db' & x & E & Hi' & _ & Hx).
  simpl. rewrite E. simpl. split; [done|]. intros id y Hy.
  assert (my_tasks db' = my_tasks db \/ exists id t', my_tasks db !! id = None /\ my_tasks db' = <[id := t']> (my_tasks db))
    as [->|(k & t' & Hk & ->)] by (destruct x; naive_solver); [done|].
  rewrite lookup_insert_ne; [done|]. congruence.
Qed.
Next Obligation.
  intros now t db Hi. destruct (my_update_task now t db Hi) as (db' & x & E & Hi' & _ & Hx & _). simpl. by rewrite E.
Qed.
Next Obligation.
  intros id db Hi. destruct (my_delete_task id db Hi) as (db' & x & E & Hi' & Hx). simpl. rewrite E. simpl.
  split; [done|]. intros k Hk. destruct x; [|by rewrite Hx]. destruct Hx as [-> _]. by rewrite lookup_delete_ne.
Qed.
Next Obligation.
  intros a b db Hi. apply my_dep_write; [done|apply create_dep_frame, Hi|].
  destruct (db_Create _ _ _) as [db' x] eqn:E. eapply db_Create_law; [apply Hi|exact E].
Qed.
Next Obligation.
  intros a b db Hi. apply my_dep_write; [done|apply delete_dep_frame, Hi|].
  destruct (db_Delete _ _) as [db' x] eqn:E. eapply db_Delete_law; [apply Hi|exact E].
Qed.
Next Obligation.
  intros db ts _ E. simpl in E. unfold my_ListTasks in E. query_inv E.
  apply (Find_lists rowToTask task_ID (fun _ => True)) in E as (all & Hl & ->); done.
Qed.
Next Obligation.
  intros db tid ts _ E. simpl in E. unfold my_ListTasksByTenant in E. query_inv E.
  apply (Find_lists rowToTask task_ID (fun t => task_TenantID t = tid)) in E as (all & Hl & ->);
    [done|done|intros r; apply Z.eqb_eq].
Qed.
End TaskContract.

(** ** Instances *)

Section InstanceContract.
Context {ID : Type} `{Columns} `{!Table ID taskInstanceRow Z} `{!TableLaws ID taskInstanceRow Z}.

Definition my_insts (db : ID) : gmap Z TaskInstance := rowToTaskInstance <$> rows db.

(** The unique index on the schedule id. *)
Definition my_sched (db : ID) : gmap string Z :=
  list_to_map ((fun kr => (ir_ScheduleInstanceID kr.2, kr.1)) <$> map_to_list (rows db)).

Lemma my_sched_some db sid id : my_sched db !! sid = Some id ->
  exists r, rows db !! id = Some r /\ ir_ScheduleInstanceID r = sid.
Proof.
  intros Hs%elem_of_list_to_map_2. apply list_elem_of_fmap in Hs as ([k r] & [= -> ->] & Hk).
  apply elem_of_map_to_list in Hk. eauto.
Qed.

Lemma my_sched_lookup db sid id : table_inv db -> my_sched db !! sid = Some id <->
  exists r, rows db !! id = Some r /\ ir_ScheduleInstanceID r = sid.
Proof.
  intros Hi. split; [apply my_sched_some|]. intros (r & Hr & <-). apply elem_of_list_to_map_1'.
  - intros id' Hid. apply list_elem_of_fmap in Hid as ([k r'] & Heq & Hk%elem_of_map_to_list). simplify_eq/=.
    apply (rows_unique db id k r r' Hi Hr Hk). by apply bool_decide_eq_true.
  - apply list_elem_of_fmap. exists (id, r). by rewrite elem_of_map_to_list.
Qed.

(** Rows that keep their schedule ids keep the index. *)
Lemma my_sched_same (db db' : ID) : table_inv db -> table_inv db' ->
  (forall id sid, (exists r, rows db' !! id = Some r /\ ir_ScheduleInstanceID r = sid) <->
                  (exists r, rows db !! id = Some r /\ ir_ScheduleInstanceID r = sid)) -> my_sched db' = my_sched db.
Proof.
  intros Hi Hi' Hr. apply map_eq. intros sid. apply option_eq. intros id. by rewrite !my_sched_lookup.
Qed.

Lemma fmap_alter_rewritten (R : TaskInstance -> TaskInstance -> Prop) (g : taskInstanceRow -> taskInstanceRow) id
    (m : gmap Z taskInstanceRow) :
  (forall r, R (rowToTaskInstance r) (rowToTaskInstance (g r))) ->
  rewritten R id (rowToTaskInstance <$> m) (rowToTaskInstance <$> alter g id m).
Proof.
  intros HR. destruct (m !! id) as [r|] eqn:Hr.
  - exists (fun _ => rowToTaskInstance (g r)). split.
    + intros i. rewrite lookup_fmap, Hr. intros [= <-]. apply HR.
    + apply map_eq. intros k. rewrite lookup_fmap. destruct (decide (k = id)) as [->|Hne].
      * by rewrite !lookup_alter_eq, lookup_fmap, Hr.
      * by rewrite !lookup_alter_ne, lookup_fmap.
  - exists (fun i => i). split; [intros i; by rewrite lookup_fmap, Hr|].
    rewrite (alter_id g) by (rewrite Hr; done). by rewrite alter_id.
Qed.

(** An assignment to columns other than the keys. *)
Definition off_keys (f : taskInstanceRow -> taskInstanceRow) : Prop :=
  forall r, ir_ID (f r) = ir_ID r /\ ir_ScheduleInstanceID (f r) = ir_ScheduleInstanceID r.

Lemma alter_sched (db db' : ID) g id : off_keys g -> table_inv db -> table_inv db' ->
  rows db' = alter g id (rows db) -> my_sched db' = my_sched db.
Proof.
  intros Hg Hi Hi' Hr. apply my_sched_same; [done..|]. intros k sid. rewrite Hr.
  destruct (decide (k = id)) as [->|Hne]; [|by rewrite lookup_alter_ne].
  rewrite lookup_alter_eq. destruct (rows db !! id) as [r|]; [|done].
  simpl. destruct (Hg r) as [_ Hs]. naive_solver.
Qed.

Lemma my_update_key now id f (R : TaskInstance -> TaskInstance -> Prop) db db' prefix x :
  off_keys f -> (forall r, R (rowToTaskInstance r) (rowToTaskInstance (touched now (f r)))) -> table_inv db ->
  (let '(db, r) := db_Updates now (fun r => ir_ID r =? id) f db in (db, wrap_err prefix r)) = (db', x) ->
  table_inv db' /\ my_sched db' = my_sched db /\
  match x with Ok _ => rewritten R id (my_insts db) (my_insts db') | Err _ => my_insts db' = my_insts db end.
Proof.
  intros Hf HR Hi. destruct (db_Updates _ _ _ _) as [d r] eqn:E. intros [= <- <-]. destruct r as [u|e]; simpl.
  - apply (Updates_by_key _ _ id) in E as [Hi' Hr]; [|intros r; apply Hf|intros r; apply Z.eqb_eq|done].
    split_and!; [done| |].
    + eapply alter_sched; [|done|done|exact Hr]. intros r. apply (Hf r).
    + unfold my_insts. rewrite Hr. by apply fmap_alter_rewritten.
  - apply db_Updates_law in E as [Hi' Hr]; [|intros r; apply Hf|done]. unfold my_insts, my_sched. by rewrite Hr.
Qed.

Lemma Updates_by_schedule now sid f (db db' : ID) x : off_keys f -> table_inv db ->
  db_Updates now (by_schedule_id sid) f db = (db', Ok x) -> table_inv db' /\
  rows db' = match my_sched db !! sid with
             | Some id => alter (fun r => touched now (f r)) id (rows db) | None => rows db end.
Proof.
  intros Hf Hi E. apply db_Updates_law in E as [Hi' ->]; [|intros r; apply Hf|done]. split; [done|].
  apply map_eq. intros k. rewrite lookup_fmap.
  assert (forall r, rows db !! k = Some r -> by_schedule_id sid r = bool_decide (my_sched db !! sid = Some k)) as Hb.
  { intros r Hr. unfold by_schedule_id. apply bool_decide_ext. rewrite my_sched_lookup by done. naive_solver. }
  destruct (my_sched db !! sid) as [id|] eqn:Hs.
  - destruct (decide (k = id)) as [->|Hne].
    + rewrite lookup_alter_eq. destruct (rows db !! id) as [r|] eqn:Hr; simpl; [|done].
      by rewrite (Hb r eq_refl), bool_decide_eq_true_2.
    + rewrite lookup_alter_ne by done. destruct (rows db !! k) as [r|] eqn:Hr; simpl; [|done].
      rewrite (Hb r eq_refl), bool_decide_eq_false_2; [done|congruence].
  - destruct (rows db !! k) as [r|] eqn:Hr; simpl; [|done]. by rewrite (Hb r eq_refl).
Qed.

Lemma my_update_schedule now sid f (R : TaskInstance -> TaskInstance -> Prop) db db' prefix x :
  off_keys f -> (forall r, R (rowToTaskInstance r) (rowToTaskInstance (touched now (f r)))) -> table_inv db ->
  (let '(db, r) := db_Updates now (by_schedule_id sid) f db in (db, wrap_err prefix r)) = (db', x) ->
  table_inv db' /\ my_sched db' = my_sched db /\
  match x with Ok _ => rewritten_by R (my_sched db) sid (my_insts db) (my_insts db') | Err _ => my_insts db' = my_insts db end.
Proof.
  intros Hf HR Hi. destruct (db_Updates _ _ _ _) as [d r] eqn:E. intros [= <- <-]. destruct r as [u|e]; simpl.
  - apply Updates_by_schedule in E as [Hi' Hr]; [|done..]. unfold rewritten_by.
    destruct (my_sched db !! sid) as [id|] eqn:Hs; [|unfold my_insts, my_sched; by rewrite Hr].
    split_and!; [done| |].
    + eapply alter_sched; [|done|done|exact Hr]. intros r. apply (Hf r).
    + unfold my_insts. rewrite Hr. by apply fmap_alter_rewritten.
  - apply db_Updates_law in E as [Hi' Hr]; [|intros r; apply Hf|done]. unfold my_insts, my_sched. by rewrite Hr.
Qed.

Lemma my_create_instance now i db db' x : table_inv db -> my_CreateInstance now i db = (db', x) -> table_inv db' /\
  ((exists e, x = Err e) /\ my_insts db' = my_insts db /\ my_sched db' = my_sched db \/
   exists id, let i' := rowToTaskInstance (instance_inserted id now (set_ir_ID 0 (taskInstanceToRow i))) in
     my_insts db !! id = None /\ my_sched db !! inst_ScheduleInstanceID i = None /\
     my_insts db' = <[id := i']> (my_insts db) /\
     my_sched db' = <[inst_ScheduleInstanceID i := id]> (my_sched db) /\ ((exists e, x = Err e) \/ x = Ok i')).
Proof.
  intros Hi. unfold my_CreateInstance. set (row := set_ir_ID _ _).
  destruct (db_Create now row db) as [d r] eqn:E. destruct (db_Create_law _ _ _ _ _ Hi E) as [Hi' Hx].
  destruct r as [id|e]; intros [= <- <-]; (split; [done|]); [|left; unfold my_insts, my_sched; rewrite Hx; eauto].
  destruct Hx as [Hn Hr]. right. exists id. simpl.
  assert (my_sched db !! inst_ScheduleInstanceID i = None) as Hs.
  { destruct (my_sched db !! _) as [k|] eqn:Hk; [|done]. apply my_sched_some in Hk as (r & Hkr & Hsid).
    assert (k <> id) as Hne by congruence. destruct Hne. apply (rows_unique d k id r (instance_inserted id now row)); [done|..].
    - rewrite Hr, lookup_insert_ne by congruence. done.
    - by rewrite Hr, lookup_insert_eq.
    - by apply bool_decide_eq_true. }
  split_and!; [unfold my_insts; by rewrite lookup_fmap, Hn|done|unfold my_insts; by rewrite Hr, fmap_insert| |].
  - apply map_eq. intros sid. apply option_eq. intros k. rewrite my_sched_lookup, Hr by done.
    rewrite lookup_insert_Some. setoid_rewrite lookup_insert_Some.
    setoid_rewrite my_sched_lookup; [|done]. unfold row. simpl. split.
    + intros (r & [[-> <-]|[Hne Hk]] & Hsid); simpl in *; [by left|]. right. split; [|eauto].
      intros <-. enough (my_sched db !! inst_ScheduleInstanceID i = Some k) by congruence. apply my_sched_lookup; eauto.
    + intros [[<- <-]|[Hne (r & Hk & Hsid)]]; [eexists; split; [left; split; done|done]|].
      exists r. split; [|done]. right. split; [congruence|done].
  - destruct (my_GetInstance id d) as [i'|e] eqn:Hg; [|eauto]. right. unfold my_GetInstance in Hg. query_inv Hg.
    apply (First_by_key _ id) in Hg; [|intros r ?; by apply Z.eqb_eq]. rewrite Hr, lookup_insert_eq in Hg. by simplify_eq.
Qed.

#[export] Program Instance MySQL_instances_contract : TaskInstanceRepositoryContract ID := {
  insts_of := my_insts; sched_of := my_sched; insts_inv := table_inv }.
Next Obligation.
  intros db id i _. unfold my_insts. rewrite lookup_fmap_Some. intros (r & <- & Hr). by apply rows_key in Hr.
Qed.
Next Obligation.
  intros db sid id i Hi Hs. unfold my_insts. rewrite lookup_fmap_Some. intros (r & <- & Hr).
  apply my_sched_lookup in Hs as (r' & Hr' & <-); [|done]. simpl. congruence.
Qed.
Next Obligation.
  intros db id i E. simpl in E. unfold my_GetInstance in E. query_inv E.
  apply (First_by_key _ id) in E; [|intros r ?; by apply Z.eqb_eq]. unfold my_insts. by rewrite lookup_fmap, E.
Qed.
Next Obligation.
  intros db sid i Hi E. simpl in E. unfold my_GetInstanceByScheduleID in E. query_inv E.
  apply db_First_law in E as [Hp%bool_decide_eq_true [k Hk]]. exists k. unfold my_insts.
  rewrite lookup_fmap, Hk, my_sched_lookup by done. eauto.
Qed.
Next Obligation.
  intros db xs _ E. simpl in E. unfold my_ListInstances in E. query_inv E.
  apply (Find_lists rowToTaskInstance inst_ID (fun _ => True)) in E as (all & Hl & ->); done.
Qed.
Next Obligation.
  intros db id xs _ E. simpl in E. unfold my_ListInstancesByTaskID in E. query_inv E.
  apply (Find_lists rowToTaskInstance inst_ID (fun i => inst_TaskID i = id)) in E as (all & Hl & ->);
    [done|done|intros r; apply Z.eqb_eq].
Qed.
Next Obligation.
  intros db st limit xs _ E. simpl in E. unfold my_ListInstancesByStatus in E. query_inv E.
  apply (Find_lists rowToTaskInstance inst_ID (fun i => inst_Status i = st)) in E as (all & Hl & ->);
    [|done|intros r; apply bool_decide_eq_true]. exists (rowToTaskInstance <$> all). split; [done|].
  unfold mapTaskInstances. rewrite slice_limit. apply limit_to_fmap.
Qed.
Next Obligation.
  intros db cutoff limit xs _ E. simpl in E. unfold my_ListDueRetryInstances in E. query_inv E.
  apply db_Find_law in E as (all & Hp & _ & ->). unfold mapTaskInstances. rewrite slice_limit, limit_to_fmap.
  split.
  - apply limit_to_NoDup. by eapply (Find_NoDup rowToTaskInstance inst_ID).
  - intros i Hin%limit_to_elem. apply list_elem_of_fmap in Hin as (r & -> & Hr).
    rewrite Hp, list_elem_of_filter, elem_of_values in Hr. destruct Hr as [Hw [k Hk]]. simpl in Hw.
    apply andb_true_iff in Hw as [Hst%bool_decide_eq_true _]. split; [done|].
    unfold my_insts. rewrite lookup_fmap. simpl. pose proof (rows_key _ _ _ Hk) as Hkey. simpl in Hkey. by rewrite Hkey, Hk.
Qed.
Next Obligation.
  intros now i db db' x Hi E. destruct (my_create_instance now i db db' x Hi E) as [Hi' Hc]. split; [done|].
  destruct Hc as [Hc|(id & Hn & _ & Hm & Hs & Hx)]; [by left|]. right.
  exists (rowToTaskInstance (instance_inserted id now (set_ir_ID 0 (taskInstanceToRow i)))). by split_and!.
Qed.
Next Obligation.
  intros now id st db db' u Hi E. apply (my_update_key _ _ _ (sets_status st)) in E as (? & ? & ?); done.
Qed.
Next Obligation.
  intros now id st db db' e Hi E. apply (my_update_key _ _ _ (sets_status st)) in E as (? & ? & ?); done.
Qed.
Next Obligation.
  intros now id w d db db' u Hi. simpl. unfold my_UpdateInstanceDispatch. case_match; [|done].
  intros E. apply (my_update_key _ _ _ (sets_status "dispatched")) in E as (? & ? & ?); done.
Qed.
Next Obligation.
  intros now id w d db db' e Hi. simpl. unfold my_UpdateInstanceDispatch. case_match; [|by intros [= <- _]].
  intros E. apply (my_update_key _ _ _ (sets_status "dispatched")) in E as (? & ? & ?); done.
Qed.
Next Obligation.
  intros now sid st c m db db' u Hi E. apply (my_update_schedule _ _ _ (sets_result st c m)) in E as (? & ? & ?); done.
Qed.
Next Obligation.
  intros now sid st c m db db' e Hi E. apply (my_update_schedule _ _ _ (sets_result st c m)) in E as (? & ? & ?); done.
Qed.
Next Obligation.
  intros now sid j db db' u Hi E. apply (my_update_schedule _ _ _ keeps_outcome) in E as (? & ? & ?); done.
Qed.
Next Obligation.
  intros now sid j db db' e Hi E. apply (my_update_schedule _ _ _ keeps_outcome) in E as (? & ? & ?); done.
Qed.
Next Obligation.
  intros now sid a b db db' u Hi E. apply (my_update_schedule _ _ _ keeps_outcome) in E as (? & ? & ?); done.
Qed.
Next Obligation.
  intros now sid a b db db' e Hi E. apply (my_update_schedule _ _ _ keeps_outcome) in E as (? & ? & ?); done.
Qed.
End InstanceContract.

(** ** Workers *)

Section WorkerContract.
Context {WD : Type} `{Columns} `{!Table WD workerNodeRow string} `{!TableLaws WD workerNodeRow string}.
Context `{!UpsertTable WD workerNodeRow} `{!UpsertLaws WD workerNodeRow string}.

Definition my_workers (db : WD) : gmap string WorkerNode := rowToWorker <$> rows db.

#[export] Program Instance MySQL_workers_contract : WorkerRepositoryContract WD := {
  workers_of := my_workers; workers_inv := table_inv }.
Next Obligation.
  intros db id w _. unfold my_workers. rewrite lookup_fmap_Some. intros (r & <- & Hr). by apply rows_key in Hr.
Qed.
Next Obligation.
  intros now w db db' u Hi. simpl. unfold my_UpsertWorker. destruct (db_Upsert _ _ _) as [d x] eqn:E.
  apply db_Upsert_law in E as [Hi' Hx]; [|done]. destruct x as [v|]; intros [= <- _]. split; [done|].
  exists (stored (worker_LastHeartbeatAt w)). unfold my_workers. rewrite Hx, fmap_insert. done.
Qed.
Next Obligation.
  intros now w db db' e Hi. simpl. unfold my_UpsertWorker. destruct (db_Upsert _ _ _) as [d x] eqn:E.
  apply db_Upsert_law in E as [Hi' Hx]; [|done]. destruct x as [v|]; intros [= <- _]. split; [done|].
  unfold my_workers. by rewrite Hx.
Qed.
Next Obligation.
  intros db id w E. simpl in E. unfold my_GetWorker in E. query_inv E.
  apply (First_by_key _ id) in E; [|by intros r ?%bool_decide_eq_true]. unfold my_workers. by rewrite lookup_fmap, E.
Qed.
Next Obligation.
  intros db xs _ E. simpl in E. unfold my_ListWorkers in E. query_inv E.
  apply (Find_lists rowToWorker worker_ID (fun _ => True)) in E as (all & Hl & ->); done.
Qed.
Next Obligation.
  intros db xs _ E. simpl in E. unfold my_ListAvailableWorkers in E. query_inv E.
  apply (Find_lists rowToWorker worker_ID available) in E as (all & Hl & ->); [done|done|].
  intros r. unfold available. simpl. by rewrite andb_true_iff, bool_decide_eq_true, Z.ltb_lt.
Qed.
Next Obligation.
  intros db cutoff xs _ E x Hx. simpl in E. unfold my_ListStaleWorkers in E. query_inv E.
  apply (Find_lists rowToWorker worker_ID (fun x => worker_Status x = "online" /\ worker_LastHeartbeatAt x < sent cutoff)) in E as (all & Hl & ->);
    [by apply Hl in Hx as [_ Hk]|done|]. intros r. simpl. by rewrite andb_true_iff, bool_decide_eq_true, Z.ltb_lt.
Qed.
End WorkerContract.

(** ** What comes back *)

(** What no task of the database has. *)
Definition unsaved (t : Task) : Prop :=
  task_RetryIntervalSeconds t = 0 /\ task_RetryWindowSeconds t = 0 /\ task_TotalShards t = 0 /\
  task_IdempotencyKey t = "" /\ task_TriggerType t = "" /\ task_EventName t = "".

(** The columns of [t], as [x] has them. *)
Definition same_columns `{Columns} (t x : Task) : Prop :=
  task_Name x = task_Name t /\ task_Type x = task_Type t /\ task_CronExpr x = task_CronExpr t /\
  task_Payload x = task_Payload t /\ task_Image x = task_Image t /\ task_Status x = task_Status t /\
  task_TimeoutSeconds x = task_TimeoutSeconds t /\ task_MaxRetry x = task_MaxRetry t /\
  task_RetryPolicy x = task_RetryPolicy t /\ task_RetryOnErrors x = task_RetryOnErrors t /\
  task_RouteStrategy x = task_RouteStrategy t /\ task_Labels x = task_Labels t /\ task_TenantID x = task_TenantID t /\
  task_NextTriggerTime x = (if IsZero (task_NextTriggerTime t) then zero_time else stored (task_NextTriggerTime t)).

Section RoundTrips.
Context `{Columns} {TD ID : Type} `{!Table TD taskRow Z} `{!Table TD taskDependencyRow (Z * Z)} `{!TaskSchemaLaws TD}.
Context `{!Table ID taskInstanceRow Z} `{!TableLaws ID taskInstanceRow Z}.

Lemma next_trigger_column t : time_or_zero (stored <$> timeOrNil t) = if IsZero t then zero_time else stored t.
Proof. unfold timeOrNil. by case_match. Qed.

Lemma my_GetTask_row id (db : TD) t : my_GetTask id db = Ok t -> my_tasks db !! id = Some t.
Proof.
  unfold my_GetTask. intros E. query_inv E. apply (First_by_key _ id) in E; [|intros r ?; by apply Z.eqb_eq].
  unfold my_tasks. by rewrite lookup_fmap, E.
Qed.

(** C29. A task written to the database and read back has every column it was given
    (the trigger time rounded as the column rounds it), version 1, and none of its
    retry interval, retry window, shard count, idempotency key, trigger type and
    event name; an update rewrites the same columns and adds one to the version. *)
Theorem mysql_task_roundtrip now t (db db' : TD) t' :
  my_tasks_inv db -> my_CreateTask now t db = (db', Ok t') ->
  (same_columns t t' /\ task_Version t' = 1 /\ unsaved t') /\
  (forall x, my_GetTask (task_ID t') db' = Ok x -> x = t') /\
  (forall now' u db2 u', task_ID u = task_ID t' -> my_UpdateTask now' u db' = (db2, Ok u') ->
     same_columns u u' /\ task_Version u' = 2 /\ task_CreatedAt u' = task_CreatedAt t' /\ unsaved u').
Proof.
  intros Hi E. destruct (my_create_task now t db Hi) as (d & x & E' & Hi' & _ & Hx).
  rewrite E in E'. simplify_eq. destruct Hx as (id & _ & Hm & ->). split_and!.
  - unfold same_columns. simpl. rewrite next_trigger_column. by split_and!.
  - done.
  - done.
  - intros x Hg%my_GetTask_row. rewrite Hm in Hg. simpl in Hg. rewrite lookup_insert_eq in Hg. congruence.
  - intros now' u db2 u' Hu E2. destruct (my_update_task now' u d Hi') as (d2 & y & E3 & _ & _ & _ & Hy).
    rewrite E2 in E3. simplify_eq. destruct Hy as (cur & Hc & _ & ->).
    assert (my_tasks d !! id = Some (rowToTask cur)) as Hcur by (unfold my_tasks; rewrite lookup_fmap; simpl in Hu; by rewrite <- Hu, Hc).
    rewrite Hm, lookup_insert_eq in Hcur. injection Hcur as Hcur.
    assert (tr_Version cur = 1 /\ tr_CreatedAt cur = auto_time now (task_CreatedAt t)) as [Hv Hca] by (subst; done).
    split_and!; [|simpl; by rewrite Hv|by simpl; rewrite Hca|done].
    unfold same_columns. simpl. rewrite next_trigger_column. by split_and!.
Qed.

(** A write to an instance by its schedule id reports success whether or not the
    instance exists; and the execution times are both overwritten, a missing one
    with NULL, where the in-memory repository keeps the time it had. *)
Theorem mysql_blind_writes now sid a b (db db' : ID) u :
  table_inv db -> my_UpdateInstanceTimestamps now sid a b db = (db', Ok u) ->
  match my_sched db !! sid with
  | None => my_insts db' = my_insts db
  | Some id => exists i', my_insts db' !! id = Some i' /\
      inst_StartedAt i' = (if IsZero a then zero_time else stored a) /\
      inst_FinishedAt i' = (if IsZero b then zero_time else stored b)
  end.
Proof.
  intros Hi. unfold my_UpdateInstanceTimestamps. destruct (db_Updates _ _ _ _) as [d x] eqn:E.
  intros [= <- Hx%wrap_err_inv]. subst x. apply Updates_by_schedule in E as [Hi' Hr]; [|done..].
  destruct (my_sched db !! sid) as [id|] eqn:Hs; [|unfold my_insts; by rewrite Hr].
  apply my_sched_some in Hs as (r & Hk & _). unfold my_insts. rewrite Hr, lookup_fmap, lookup_alter_eq, Hk.
  eexists. split; [reflexivity|]. simpl. by rewrite !next_trigger_column.
Qed.
End RoundTrips.
