(* ===== verification/MemDB.v ===== *)
(** A database in memory that satisfies the laws [Gorm] and [Mysql] state, so that
    the repositories over it can be run: DATETIME columns round to seconds, keys are
    generated in order, unique indexes are checked, deletes cascade. *)
From S2P Require Import Prelude GoStd GoTime Model Repo Gorm Mysql.

#[export] Instance mem_columns : Columns := {
  stored t := (t + 500 * Millisecond) / Second * Second;
  sent t := t / 1000 * 1000;
  NOW t := t / Second * Second }.

#[export] Instance taskRow_keys : KeyGen taskRow Z := fun n _ => n.
#[export] Instance taskDependencyRow_keys : KeyGen taskDependencyRow (Z * Z) := fun _ r => key r.
#[export] Instance taskInstanceRow_keys : KeyGen taskInstanceRow Z := fun n _ => n.
#[export] Instance workerNodeRow_keys : KeyGen workerNodeRow string := fun _ r => wr_ID r.

#[export] Instance taskRow_laws : EntityLaws taskRow Z.
Proof. done. Qed.
#[export] Instance taskDependencyRow_laws : EntityLaws taskDependencyRow (Z * Z).
Proof. done. Qed.
#[export] Instance taskInstanceRow_laws : EntityLaws taskInstanceRow Z.
Proof. done. Qed.
#[export] Instance workerNodeRow_laws : EntityLaws workerNodeRow string.
Proof. done. Qed.
#[export] Instance workerNodeRow_upserts : UpsertLaws (Mem workerNodeRow string) workerNodeRow string.
Proof. by apply Mem_upsert_laws. Qed.

(** The two tables of the task repository. *)
Record TaskDB := mkTaskDB {
  tdb_tasks : Mem taskRow Z;
  tdb_deps : Mem taskDependencyRow (Z * Z)
}.

Definition on_tasks {A} (db : TaskDB) (x : Mem taskRow Z * A) : TaskDB * A := (mkTaskDB x.1 (tdb_deps db), x.2).
Definition on_deps {A} (db : TaskDB) (x : Mem taskDependencyRow (Z * Z) * A) : TaskDB * A := (mkTaskDB (tdb_tasks db) x.1, x.2).

(** ON DELETE CASCADE *)
Definition cascade (p : taskRow -> bool) (db : TaskDB) : Mem taskDependencyRow (Z * Z) :=
  let gone := deleted p (mem_view (tdb_tasks db)) in
  mkMem (filter (fun kr => gone kr.1.1 || gone kr.1.2 = false) (mem_view (tdb_deps db))) (mem_next (tdb_deps db)).

#[export] Instance TaskDB_tasks : Table TaskDB taskRow Z := {
  db_Create now r db := on_tasks db (db_Create now r (tdb_tasks db));
  db_First p db := db_First p (tdb_tasks db);
  db_Find q db := db_Find q (tdb_tasks db);
  db_Count p db := db_Count p (tdb_tasks db);
  db_Updates now p f db := on_tasks db (db_Updates now p f (tdb_tasks db));
  db_Delete p db :=
    match db_Delete p (tdb_tasks db) with
    | (t, Ok n) => (mkTaskDB t (cascade p db), Ok n)
    | (t, Err e) => (mkTaskDB t (tdb_deps db), Err e)
    end }.

#[export] Instance TaskDB_deps : Table TaskDB taskDependencyRow (Z * Z) := {
  db_Create now r db := on_deps db (db_Create now r (tdb_deps db));
  db_First p db := db_First p (tdb_deps db);
  db_Find q db := db_Find q (tdb_deps db);
  db_Count p db := db_Count p (tdb_deps db);
  db_Updates now p f db := on_deps db (db_Updates now p f (tdb_deps db));
  db_Delete p db := on_deps db (db_Delete p (tdb_deps db)) }.

#[export] Program Instance TaskDB_tasks_laws : TableLaws TaskDB taskRow Z := {
  rows db := rows (tdb_tasks db); table_inv db := table_inv (tdb_tasks db) }.
Next Obligation. intros db k r. apply rows_key. Qed.
Next Obligation. intros db k1 k2 r1 r2. apply rows_unique. Qed.
Next Obligation. intros now r db db' x Hi [= <- <-]. by eapply (db_Create_law (T:=Mem taskRow Z)), surjective_pairing. Qed.
Next Obligation. intros p db r. apply (db_First_law (T:=Mem taskRow Z)). Qed.
Next Obligation. intros q db rs. apply (db_Find_law (T:=Mem taskRow Z)). Qed.
Next Obligation. intros p db n. apply (db_Count_law (T:=Mem taskRow Z)). Qed.
Next Obligation.
  intros now p f db db' x Hf Hi [= <- <-]. by eapply (db_Updates_law (T:=Mem taskRow Z)), surjective_pairing.
Qed.
Next Obligation.
  intros p db db' x Hi. cbn [db_Delete TaskDB_tasks]. destruct (db_Delete p (tdb_tasks db)) as [t y] eqn:E.
  destruct (db_Delete_law _ _ _ _ Hi E) as [Hi' Hy]. by destruct y; intros [= <- <-].
Qed.

#[export] Program Instance TaskDB_deps_laws : TableLaws TaskDB taskDependencyRow (Z * Z) := {
  rows db := rows (tdb_deps db); table_inv db := table_inv (tdb_deps db) }.
Next Obligation. intros db k r. apply rows_key. Qed.
Next Obligation. intros db k1 k2 r1 r2. apply rows_unique. Qed.
Next Obligation.
  intros now r db db' x Hi [= <- <-]. by eapply (db_Create_law (T:=Mem taskDependencyRow (Z * Z))), surjective_pairing.
Qed.
Next Obligation. intros p db r. apply (db_First_law (T:=Mem taskDependencyRow (Z * Z))). Qed.
Next Obligation. intros q db rs. apply (db_Find_law (T:=Mem taskDependencyRow (Z * Z))). Qed.
Next Obligation. intros p db n. apply (db_Count_law (T:=Mem taskDependencyRow (Z * Z))). Qed.
Next Obligation.
  intros now p f db db' x Hf Hi [= <- <-].
  by eapply (db_Updates_law (T:=Mem taskDependencyRow (Z * Z))), surjective_pairing.
Qed.
Next Obligation.
  intros p db db' x Hi [= <- <-]. by eapply (db_Delete_law (T:=Mem taskDependencyRow (Z * Z))), surjective_pairing.
Qed.

Lemma cascade_view p db : mem_view (cascade p db) =
  filter (fun kr => deleted p (mem_view (tdb_tasks db)) kr.1.1 || deleted p (mem_view (tdb_tasks db)) kr.1.2 = false)
    (mem_view (tdb_deps db)).
Proof. apply view_keyed. intros k r [Hk _]%map_lookup_filter_Some. by apply mem_view_key in Hk. Qed.

#[export] Program Instance TaskDB_schema : TaskSchemaLaws TaskDB.
Next Obligation. done. Qed.
Next Obligation. done. Qed.
Next Obligation.
  intros p db db' n Hi. cbn [db_Delete TaskDB_tasks].
  destruct (db_Delete p (tdb_tasks db)) as [t y] eqn:E. destruct y; intros [= <- <-]; [|done]. split.
  - change (collision_free (mem_view (cascade p db)) = true). rewrite cascade_view. apply collision_free_spec.
    intros k1 k2 r1 r2 [H1 _]%map_lookup_filter_Some [H2 _]%map_lookup_filter_Some.
    by apply (collision_free_spec (mem_view (tdb_deps db))).
  - apply cascade_view.
Qed.
Next Obligation. done. Qed.
Next Obligation. done. Qed.
