(* ===== verification/World.v ===== *)
(** The world the scheduler's handlers run in, and the effects they have on it:
    the three repositories, the clock, the network, the router's counter, the
    rate limiter, the backpressure controller, and the log of what was sent.

    A handler is a [prog] over [World]. Each [time.Now()] takes the next reading
    of [clock]; each network call takes the next answer of the network. Both are
    parameters ([Env]), so a theorem about a handler holds for every behaviour of
    the clock, the workers and the transport. *)
From S2P Require Import Prelude GoStd GoTime GoFormat Model Repo RateLimit.

(** ** Requests and messages *)

(** [service.TaskStatusReportRequest] *)
Record TaskStatusReportRequest := mkReport {
  rep_ScheduleInstanceID : string;
  rep_WorkerID : string;
  rep_Status : string;
  rep_ErrorCode : string;
  rep_ErrorMessage : string;
  rep_StartedAt : string;
  rep_FinishedAt : string
}.

(** The fields of the protobuf [ExecuteTaskRequest] the client fills in. *)
Record PBExecuteTaskRequest := mkPBExecute {
  pb_ScheduleInstanceId : string;
  pb_TaskId : Z;
  pb_TaskType : string;
  pb_Payload : string;
  pb_Image : string;
  pb_TimeoutSeconds : Z;
  pb_RetryCount : Z;
  pb_SchedulerUrl : string
}.

(** What the dispatch client puts on the wire. *)
Inductive Message :=
| HttpExecute (url : string) (body : ExecuteTaskRequest)
| GrpcExecute (target : string) (body : PBExecuteTaskRequest)
| HttpCancel (url : string) (scheduleInstanceID : string)
| GrpcCancel (target : string) (scheduleInstanceID : string).

(** [alert.Payload] *)
Record AlertPayload := mkAlert {
  alert_Type : string;
  alert_TaskID : Z;
  alert_TaskName : string;
  alert_InstanceID : Z;
  alert_ScheduleInstanceID : string;
  alert_RetryCount : Z;
  alert_MaxRetry : Z;
  alert_ErrorCode : string;
  alert_ErrorMessage : string;
  alert_Timestamp : Time
}.

(** ** The environment *)

(** Which repositories the process runs on. *)
Class Backend := {
  TS : Type; IS : Type; WS : Type;
  backend_tasks :: TaskRepository TS;
  backend_instances :: TaskInstanceRepository IS;
  backend_workers :: WorkerRepository WS
}.

(** Repositories that keep the contract of the interfaces; and those that behave like
    the in-memory ones. *)
Class BackendContract `{Backend} := {
  backend_tasks_contract :: TaskRepositoryContract TS;
  backend_instances_contract :: TaskInstanceRepositoryContract IS;
  backend_workers_contract :: WorkerRepositoryContract WS
}.

Class BackendSpec `{BackendContract} := {
  backend_tasks_spec :: TaskRepositorySpec TS;
  backend_instances_spec :: TaskInstanceRepositorySpec IS;
  backend_workers_spec :: WorkerRepositorySpec WS
}.

(** Repositories without failures of their own. *)
Class BackendReliable `{BackendSpec} := {
  backend_tasks_reliable :: TaskRepositoryReliable TS;
  backend_instances_reliable :: TaskInstanceRepositoryReliable IS;
  backend_workers_reliable :: WorkerRepositoryReliable WS
}.

(** The clock, the time zone, the transport and the configuration. The number is
    the index of the reading or call: nothing is assumed about repetition. *)
Class Env := {
  clock : nat -> Time;
  local : Location;
  (** [http.NewRequest] refuses a malformed URL. *)
  http_new_request : string -> option gerror;
  (** [http.Client.Do]: a transport error, or the status code and status line. *)
  http_do : nat -> Message -> res gerror (Z * string);
  grpc_dial : nat -> string -> option gerror;
  (** [ExecuteTask]: accepted and the message. *)
  grpc_execute : nat -> Message -> res gerror (bool * string);
  grpc_cancel : nat -> Message -> res gerror bool;
  (** The Redis cache of due tasks; [None] when it is not configured. *)
  cache_due : option (nat -> Time -> result (list Z));
  (** The AI service's analysis of a failure, as JSON text. *)
  ai_analyze : nat -> string -> string -> string -> Z -> Z -> result string;
  has_ai : bool;
  has_alerter : bool;
  schedulerURL : string
}.

Section World.
Context `{Backend}.

Record World := mkWorld {
  w_tasks : TS;
  w_instances : IS;
  w_workers : WS;
  w_reads : nat;
  w_calls : nat;
  w_rrCounter : Z;
  w_limiter : option TokenBucket;
  w_bp : option BackpressureController;
  w_sent : list (Message * bool);
  w_alerts : list AlertPayload;
  w_jobs : list (TaskInstance * TaskStatusReportRequest)
}.

Definition set_w_tasks (v : TS) (w : World) : World :=
  {| w_tasks := v; w_instances := w_instances w; w_workers := w_workers w; w_reads :=
     w_reads w; w_calls := w_calls w; w_rrCounter := w_rrCounter w; w_limiter := w_limiter
     w; w_bp := w_bp w; w_sent := w_sent w; w_alerts := w_alerts w; w_jobs := w_jobs w |}.
Definition set_w_instances (v : IS) (w : World) : World :=
  {| w_tasks := w_tasks w; w_instances := v; w_workers := w_workers w; w_reads := w_reads w;
     w_calls := w_calls w; w_rrCounter := w_rrCounter w; w_limiter := w_limiter w; w_bp :=
     w_bp w; w_sent := w_sent w; w_alerts := w_alerts w; w_jobs := w_jobs w |}.
Definition set_w_workers (v : WS) (w : World) : World :=
  {| w_tasks := w_tasks w; w_instances := w_instances w; w_workers := v; w_reads := w_reads
     w; w_calls := w_calls w; w_rrCounter := w_rrCounter w; w_limiter := w_limiter w; w_bp
     := w_bp w; w_sent := w_sent w; w_alerts := w_alerts w; w_jobs := w_jobs w |}.
Definition set_w_reads (v : nat) (w : World) : World :=
  {| w_tasks := w_tasks w; w_instances := w_instances w; w_workers := w_workers w; w_reads
     := v; w_calls := w_calls w; w_rrCounter := w_rrCounter w; w_limiter := w_limiter w;
     w_bp := w_bp w; w_sent := w_sent w; w_alerts := w_alerts w; w_jobs := w_jobs w |}.
Definition set_w_calls (v : nat) (w : World) : World :=
  {| w_tasks := w_tasks w; w_instances := w_instances w; w_workers := w_workers w; w_reads
     := w_reads w; w_calls := v; w_rrCounter := w_rrCounter w; w_limiter := w_limiter w;
     w_bp := w_bp w; w_sent := w_sent w; w_alerts := w_alerts w; w_jobs := w_jobs w |}.
Definition set_w_rrCounter (v : Z) (w : World) : World :=
  {| w_tasks := w_tasks w; w_instances := w_instances w; w_workers := w_workers w; w_reads
     := w_reads w; w_calls := w_calls w; w_rrCounter := v; w_limiter := w_limiter w; w_bp :=
     w_bp w; w_sent := w_sent w; w_alerts := w_alerts w; w_jobs := w_jobs w |}.
Definition set_w_limiter (v : option TokenBucket) (w : World) : World :=
  {| w_tasks := w_tasks w; w_instances := w_instances w; w_workers := w_workers w; w_reads
     := w_reads w; w_calls := w_calls w; w_rrCounter := w_rrCounter w; w_limiter := v; w_bp
     := w_bp w; w_sent := w_sent w; w_alerts := w_alerts w; w_jobs := w_jobs w |}.
Definition set_w_bp (v : option BackpressureController) (w : World) : World :=
  {| w_tasks := w_tasks w; w_instances := w_instances w; w_workers := w_workers w; w_reads
     := w_reads w; w_calls := w_calls w; w_rrCounter := w_rrCounter w; w_limiter :=
     w_limiter w; w_bp := v; w_sent := w_sent w; w_alerts := w_alerts w; w_jobs := w_jobs w
     |}.
Definition set_w_sent (v : list (Message * bool)) (w : World) : World :=
  {| w_tasks := w_tasks w; w_instances := w_instances w; w_workers := w_workers w; w_reads
     := w_reads w; w_calls := w_calls w; w_rrCounter := w_rrCounter w; w_limiter :=
     w_limiter w; w_bp := w_bp w; w_sent := v; w_alerts := w_alerts w; w_jobs := w_jobs w |}.
Definition set_w_alerts (v : list AlertPayload) (w : World) : World :=
  {| w_tasks := w_tasks w; w_instances := w_instances w; w_workers := w_workers w; w_reads
     := w_reads w; w_calls := w_calls w; w_rrCounter := w_rrCounter w; w_limiter :=
     w_limiter w; w_bp := w_bp w; w_sent := w_sent w; w_alerts := v; w_jobs := w_jobs w |}.
Definition set_w_jobs (v : list (TaskInstance * TaskStatusReportRequest)) (w : World) : World :=
  {| w_tasks := w_tasks w; w_instances := w_instances w; w_workers := w_workers w; w_reads
     := w_reads w; w_calls := w_calls w; w_rrCounter := w_rrCounter w; w_limiter :=
     w_limiter w; w_bp := w_bp w; w_sent := w_sent w; w_alerts := w_alerts w; w_jobs := v |}.

Context `{Env}.

Abbreviation M A := (prog World gerror A).

(** [time.Now()] *)
Definition Now : M Time := fun w => (set_w_reads (S (w_reads w)) w, Ok (clock (w_reads w))).

(** The answer of the outside to the next call. *)
Definition external {A} (f : nat -> A) : M A :=
  fun w => (set_w_calls (S (w_calls w)) w, Ok (f (w_calls w))).

(** A repository operation that reads the clock itself, one that does not, and a
    pure query. *)
Definition task_op {A} (f : Time -> TS -> TS * result A) : M A :=
  fun w => let '(s, r) := f (clock (w_reads w)) (w_tasks w) in
           (set_w_tasks s (set_w_reads (S (w_reads w)) w), r).
Definition task_op' {A} (f : TS -> TS * result A) : M A :=
  fun w => let '(s, r) := f (w_tasks w) in (set_w_tasks s w, r).
Definition task_query {A} (f : TS -> result A) : M A := reads_res (fun w => f (w_tasks w)).

Definition instance_op {A} (f : Time -> IS -> IS * result A) : M A :=
  fun w => let '(s, r) := f (clock (w_reads w)) (w_instances w) in
           (set_w_instances s (set_w_reads (S (w_reads w)) w), r).
Definition instance_query {A} (f : IS -> result A) : M A := reads_res (fun w => f (w_instances w)).

Definition worker_op {A} (f : Time -> WS -> WS * result A) : M A :=
  fun w => let '(s, r) := f (clock (w_reads w)) (w_workers w) in
           (set_w_workers s (set_w_reads (S (w_reads w)) w), r).
Definition worker_query {A} (f : WS -> result A) : M A := reads_res (fun w => f (w_workers w)).

(** Append to the log of messages; the flag says whether the worker took it. *)
Definition log_sent (m : Message) (ok : bool) : M unit :=
  modify (fun w => set_w_sent ((m, ok) :: w_sent w) w).
End World.

Arguments World {_}.
Abbreviation M A := (prog World gerror A).

(** ** Frames: what an effect leaves alone *)

(** Everything but the clock and call counters is as before. *)
Definition same_stores `{Backend} (w w' : World) : Prop :=
  w_tasks w' = w_tasks w /\ w_instances w' = w_instances w /\ w_workers w' = w_workers w /\
  w_rrCounter w' = w_rrCounter w /\ w_limiter w' = w_limiter w /\ w_bp w' = w_bp w /\
  w_sent w' = w_sent w /\ w_alerts w' = w_alerts w /\ w_jobs w' = w_jobs w.

(** The invariants of the three stores. *)
Definition world_inv `{BackendContract} (w : World) : Prop :=
  tasks_inv (w_tasks w) /\ insts_inv (w_instances w) /\ workers_inv (w_workers w).
