(* ===== verification/Alert.v ===== *)
(** internal/alert/alerter.go: what becomes of an alert that [Runtime] sends. *)
From S2P Require Import Prelude GoStd GoTime GoFormat Json Telemetry Model Repo RateLimit TestStore World.

(** [json.Marshal(p)]; a time outside the years 0 to 9999 has none. *)
Definition payload_json (local : Location) (p : AlertPayload) : jvalue :=
  JObject [("type", JString (alert_Type p)); ("task_id", JNumber (fmt_d (alert_TaskID p))); ("task_name", JString (alert_TaskName p));
    ("instance_id", JNumber (fmt_d (alert_InstanceID p))); ("schedule_instance_id", JString (alert_ScheduleInstanceID p));
    ("retry_count", JNumber (fmt_d (alert_RetryCount p))); ("max_retry", JNumber (fmt_d (alert_MaxRetry p)));
    ("error_code", JString (alert_ErrorCode p)); ("error_message", JString (alert_ErrorMessage p));
    ("timestamp", JString (FormatRFC3339Nano local (alert_Timestamp p)))].
Definition marshal_payload (local : Location) (p : AlertPayload) : option string :=
  let year := t_year local (alert_Timestamp p) in
  if (year <? 0) || (9999 <? year) then None else Some (Marshal (payload_json local p)).

(** What an alert leaves behind: a request to the webhook, lines in the log. *)
Inductive trace_of_alert := Posted (url body : string) | Logged (line : log_line).

Section Alerter.
Variable local : Location.
(** The least level of the logger, the webhook, and how the URL and the call fare. *)
Variable least : Z.
Variable webhookURL : string.
Variable bad_url : option gerror.
Variable do : string -> res gerror Z.

Definition log (level : Z) (msg data : string) : list trace_of_alert := Logged <$> emit least level msg data.

(** [Alerter.Send] on a payload that is stamped. *)
Definition Send (p : AlertPayload) : list trace_of_alert :=
  if bool_decide (webhookURL = "") then log LevelDebug "ALERT" (default "" (marshal_payload local p)) else
  match marshal_payload local p with
  | None => log LevelError "alert marshal error" ""
  | Some body =>
      match bad_url with
      | Some e => log LevelError "alert build request error" (error_text e)
      | None =>
          Posted webhookURL body ::
          match do body with
          | Err e => log LevelError "alert send error" (error_text e)
          | Ok code => if 300 <=? code then log LevelWarn "alert webhook returned non-2xx status" (fmt_d code) else []
          end
      end
  end.

(** With a webhook an alert is posted once, and its body says all of it; a failure is not
    tried again. *)
Theorem alert_posted p : webhookURL <> "" -> bad_url = None -> 0 <= t_year local (alert_Timestamp p) <= 9999 ->
  Forall valid_utf8 [alert_Type p; alert_TaskName p; alert_ScheduleInstanceID p; alert_ErrorCode p; alert_ErrorMessage p;
                     FormatRFC3339Nano local (alert_Timestamp p)] ->
  exists body lines, Send p = Posted webhookURL body :: (Logged <$> lines) /\ Unmarshal body = Some (payload_json local p).
Proof.
  intros Hu Hb Hy Hs. unfold Send, marshal_payload, log. rewrite bool_decide_false by done.
  destruct (Z.ltb_spec (t_year local (alert_Timestamp p)) 0); [lia|]. destruct (Z.ltb_spec 9999 (t_year local (alert_Timestamp p))); [lia|].
  simpl. rewrite Hb. exists (Marshal (payload_json local p)).
  assert (Unmarshal (Marshal (payload_json local p)) = Some (payload_json local p)) as Hr.
  { rewrite !Forall_cons in Hs. destruct Hs as (?&?&?&?&?&?&_).
    apply Unmarshal_Marshal; [simpl; split_and!; try done; apply fmt_d_number|unfold max_nesting; simpl; lia]. }
  destruct (do _) as [code|e]; [|eexists; split; [done|exact Hr]].
  destruct (300 <=? code); [eexists; split; [done|exact Hr]|]. exists []. by split.
Qed.

(** Without one it is a debug line, which a logger for the info level drops. *)
Theorem alert_lost p : webhookURL = "" -> least = LevelInfo -> Send p = [].
Proof. unfold Send, log. intros -> ->. rewrite bool_decide_true by done. done. Qed.
End Alerter.

(** The scheduler's default settings have no webhook, and its logger is for the info
    level: its alerts go nowhere. *)
Example default_alerts p local bad_url do : Send local LevelInfo "" bad_url do p = [].
Proof. by apply alert_lost. Qed.
