(* ===== verification/Sample.v ===== *)
(** A concrete setting for evaluating the handlers: the in-memory repositories, a
    clock that advances one second per reading for an hour, workers that accept (or refuse)
    every task, and small worlds to start from. *)
From S2P Require Import Prelude GoStd GoTime GoFormat Model Repo RateLimit TestStore World.

(** Maps ranged over in their canonical order. *)
#[export] Program Instance canonical_range : MapRange := {| map_range := fun _ l => l |}.
Next Obligation. done. Qed.

Definition test_backend : Backend :=
  {| TS := TaskStore; IS := InstanceStore; WS := WorkerStore |}.

Definition test_backend_contract : @BackendContract test_backend :=
  @Build_BackendContract test_backend TaskStore_contract InstanceStore_contract WorkerStore_contract.

Definition test_backend_spec : @BackendSpec test_backend test_backend_contract :=
  @Build_BackendSpec test_backend test_backend_contract TaskStore_spec InstanceStore_spec WorkerStore_spec.

Definition test_backend_reliable : @BackendReliable test_backend test_backend_contract test_backend_spec :=
  @Build_BackendReliable test_backend test_backend_contract test_backend_spec TaskStore_reliable InstanceStore_reliable
    WorkerStore_reliable.

(** 2024-05-01 10:00:00 UTC. *)
Definition start_time : Time := 1714557600 * Second.

(** Every HTTP call is answered with the given status code. *)
Definition answering (code : Z) : Env :=
  {| clock := fun n => start_time + Z.min (Z.of_nat n) 3600 * Second; local := UTC;
     http_new_request := fun _ => None; http_do := fun _ _ => Ok (code, fmt_d code);
     grpc_dial := fun _ _ => None; grpc_execute := fun _ _ => Ok (true, "");
     grpc_cancel := fun _ _ => Ok true; cache_due := None;
     ai_analyze := fun _ _ _ _ _ _ => Ok "{}"; has_ai := false; has_alerter := true;
     schedulerURL := "http://scheduler" |}.

Definition worker_named (id : string) (load : Z) : WorkerNode :=
  {| worker_ID := id; worker_Hostname := id; worker_IP := ""; worker_CallbackURL := "http://" +:+ id +:+ "/";
     worker_GRPCAddr := id +:+ ":9000"; worker_Protocol := "http"; worker_Status := "online";
     worker_Labels := "{}"; worker_MaxConcurrency := 2; worker_CurrentLoad := load;
     worker_LastHeartbeatAt := start_time |}.

(** A due task with this schedule and these labels, in tenant 7. *)
Definition task_with (expr labels : string) : Task :=
  {| task_ID := 0; task_Name := "report"; task_Type := "shell"; task_CronExpr := expr;
     task_Payload := "run"; task_Image := "img"; task_Status := "enabled"; task_TimeoutSeconds := 60;
     task_MaxRetry := 2; task_RetryPolicy := "immediate"; task_RetryOnErrors := "";
     task_RetryIntervalSeconds := 0; task_RetryWindowSeconds := 0; task_RouteStrategy := "least_loaded";
     task_Labels := labels; task_NextTriggerTime := start_time - Second; task_TenantID := 7;
     task_Version := 0; task_TotalShards := 0; task_IdempotencyKey := ""; task_TriggerType := "";
     task_EventName := ""; task_CreatedAt := zero_time; task_UpdatedAt := zero_time |}.

Definition sample_task : Task := task_with "*/5 * * * *" "{}".

Definition sample_instance (taskID : Z) (sid status worker : string) (retries : Z) : TaskInstance :=
  {| inst_ID := 0; inst_TaskID := taskID; inst_ScheduleInstanceID := sid; inst_ShardNo := 0;
     inst_ShardTotal := 0; inst_TriggerTime := start_time; inst_DispatchTime := zero_time;
     inst_StartedAt := zero_time; inst_FinishedAt := zero_time; inst_WorkerID := worker;
     inst_Status := status; inst_RetryCount := retries; inst_ErrorCode := ""; inst_ErrorMessage := "";
     inst_AnalysisJSON := ""; inst_NextRetryTime := zero_time; inst_TraceID := "";
     inst_CreatedAt := zero_time; inst_UpdatedAt := zero_time |}.

Definition store_tasks (ts : list Task) : TaskStore :=
  foldl (fun s t => (ts_CreateTask start_time t s).1) NewTaskRepository ts.
Definition store_instances (xs : list TaskInstance) : InstanceStore :=
  foldl (fun s i => (is_CreateInstance start_time i s).1) NewTaskInstanceRepository xs.
Definition store_workers (ws : list WorkerNode) : WorkerStore :=
  foldl (fun s w => (ws_UpsertWorker start_time w s).1) NewWorkerRepository ws.

(** A world with these rows, an empty log and the scheduler's rate limit. *)
Definition world_with (ts : list Task) (xs : list TaskInstance) (ws : list WorkerNode) : @World test_backend :=
  @mkWorld test_backend (store_tasks ts) (store_instances xs) (store_workers ws) 0 0 0 (Some (dispatch_bucket start_time)) None [] [] [].

Lemma world_with_inv ts xs ws : @world_inv test_backend test_backend_contract (world_with ts xs ws).
Proof.
  split_and!; simpl.
  - assert (forall s, ts_inv s -> ts_inv (foldl (fun s t => (ts_CreateTask start_time t s).1) s ts)) as Hf.
    { induction ts as [|t ts IH]; intros s Hs; [done|]. simpl. apply IH.
      exact (proj1 (CreateTask_ok (S:=TaskStore) start_time t s _ _ Hs eq_refl)). }
    by apply Hf.
  - assert (forall s, is_inv s -> is_inv (foldl (fun s i => (is_CreateInstance start_time i s).1) s xs)) as Hf.
    { induction xs as [|i xs IH]; intros s Hs; [done|]. simpl. apply IH.
      exact (proj1 (CreateInstance_ok (S:=InstanceStore) start_time i s _ _ Hs eq_refl)). }
    by apply Hf.
  - assert (forall s, ws_inv s -> ws_inv (foldl (fun s w => (ws_UpsertWorker start_time w s).1) s ws)) as Hf.
    { induction ws as [|w ws IH]; intros s Hs; [done|]. simpl. apply IH.
      exact (proj1 (UpsertWorker_ok (S:=WorkerStore) start_time w s _ _ Hs eq_refl)). }
    by apply Hf.
Qed.
