(* ===== verification/Cache.v ===== *)
(** internal/scheduler/cache/manager.go: the manager that copies due tasks and available
    workers from the repositories to Redis. [at_] is the clock of the Redis server. *)
From S2P Require Import Prelude GoStd GoTime GoFormat Model Repo TestStore World Sample Redis.

#[local] Open Scope prog_scope.

Section Manager.
Context `{Backend} `{Env} {R : Type} `{!Redis R}.

(** The repositories, and the Redis client when there is one. *)
Record Manager := mkManager { m_world : World; m_redis : option R }.
Abbreviation K X := (prog Manager gerror X).

Definition on_world {X} (p : M X) : K X := fun m => let '(w, r) := p (m_world m) in (mkManager w (m_redis m), r).

Definition disabled : gerror := Errorf "cache disabled" [].
(** A call of the client; [if !m.Enabled() { return ..., "cache disabled" }] before it. *)
Definition on_redis {X} (p : prog R gerror X) : K X := fun m =>
  match m_redis m with
  | None => (m, Err disabled)
  | Some r => let '(r', x) := p r in (mkManager (m_world m) (Some r'), x)
  end.

Definition cache_Enabled (m : Manager) : bool := bool_decide (is_Some (m_redis m)).

Definition Unix (t : Time) : Z := t / Second.

(** The scores of the tasks: their trigger seconds (the source assigns the same value
    again for the tasks of the next minute). *)
Definition due_scores (tasks : list Task) : gmap Z Z :=
  foldl (fun m t => <[task_ID t := Unix (task_NextTriggerTime t)]> m) ∅ tasks.

Definition warmDueTasks (at_ : Time) : K unit :=
  r <-? on_world (task_op (fun now s => (s, ListDueTasks now 500 s))) ;;
  match r with
  | Err _ => ret tt
  | Ok tasks => _ <- on_world Now ;; _ignore on_redis (WarmDueTasks at_ (task_ID <$> tasks) (due_scores tasks)) ;; ret tt
  end.

Definition worker_fields (w : WorkerNode) : list (string * string) :=
  [("hostname", worker_Hostname w); ("ip", worker_IP w); ("status", worker_Status w);
   ("max_concurrency", fmt_d (worker_MaxConcurrency w)); ("current_load", fmt_d (worker_CurrentLoad w));
   ("labels", worker_Labels w); ("protocol", worker_Protocol w); ("callback_url", worker_CallbackURL w);
   ("grpc_addr", worker_GRPCAddr w); ("heartbeat", fmt_d (Unix (worker_LastHeartbeatAt w)))].

Definition warmWorkerCache (at_ : Time) : K unit :=
  r <-? on_world (worker_query ListAvailableWorkers) ;;
  match r with
  | Err _ => ret tt
  | Ok workers =>
      let data := foldl (fun m w => <[worker_ID w := worker_fields w]> m) ∅ workers in
      _ignore on_redis (WarmWorkerCache at_ (worker_ID <$> workers) data) ;; ret tt
  end.

Definition warm (at_ : Time) : K unit := warmDueTasks at_ ;; warmWorkerCache at_.

(** [StartWarmLoop]: once at the start and at every tick. *)
Definition StartWarmLoop (start : Time) (ticks : list Time) : K unit := fun m =>
  if cache_Enabled m then for_each warm (start :: ticks) m else (m, Ok tt).

Definition GetCachedDueTaskIDs (at_ cutoff : Time) : K (list Z) := on_redis (GetDueTaskIDs at_ (Unix cutoff)).
Definition IncrWorkerLoad (at_ : Time) (workerID : string) : K Z := on_redis (redis_IncrWorkerLoad at_ workerID).
Definition DecrWorkerLoad (at_ : Time) (workerID : string) : K Z := on_redis (redis_DecrWorkerLoad at_ workerID).
Definition GetCachedWorkerLoad (at_ : Time) (workerID : string) : K Z :=
  val <- on_redis (GetCachedWorkerField at_ workerID "current_load") ;;
  match Atoi val with Some n => ret n | None => fail (Errorf "strconv.ParseInt: parsing %q" [val]) end.
End Manager.

(** ** Properties *)

Lemma due_scores_lookup tasks id v : NoDup (task_ID <$> tasks) ->
  due_scores tasks !! id = Some v <-> exists t, t ∈ tasks /\ task_ID t = id /\ Unix (task_NextTriggerTime t) = v.
Proof.
  unfold due_scores. induction tasks as [|t tasks IH] using rev_ind; [set_solver|].
  rewrite fmap_app, foldl_app. simpl. intros (Hn & Hd & _)%NoDup_app. destruct (decide (task_ID t = id)) as [<-|Hne].
  - rewrite lookup_insert_eq. split; [intros [= <-]; exists t; set_solver|].
    intros (t' & [Ht'|Ht']%elem_of_app & Hid & <-); [|by apply list_elem_of_singleton in Ht' as ->].
    destruct (Hd (task_ID t')); [by apply list_elem_of_fmap_2|rewrite Hid; by left].
  - rewrite lookup_insert_ne, IH by done. set_solver.
Qed.

Lemma due_scores_dom tasks z : z ∈ dom (due_scores tasks) <-> z ∈ task_ID <$> tasks.
Proof.
  unfold due_scores. induction tasks as [|t tasks IH] using rev_ind; [set_solver|]. rewrite foldl_app, fmap_app. simpl. set_solver.
Qed.

Section ManagerProperties.
Context `{BackendSpec} `{Env} {R : Type} `{!Redis R} `{!RedisLaws R}.

Lemma listed_ids s now ts : tasks_inv s -> ListDueTasks now 500 s = Ok ts ->
  NoDup (task_ID <$> ts) /\ forall t, t ∈ ts -> task_due now t /\ tasks_of s !! task_ID t = Some t.
Proof.
  intros Hi Hl. destruct (ListDueTasks_ok _ _ _ _ Hi Hl) as (all & [Hn Ha] & ->).
  assert (forall t, t ∈ all -> task_due now t /\ tasks_of s !! task_ID t = Some t) as Hall.
  { intros t Ht. apply Ha in Ht as [Hd [k Hk]]. by rewrite (tasks_inv_id _ _ _ Hi Hk). }
  split; [|intros t Ht; apply Hall; by eapply limit_to_elem].
  apply NoDup_fmap_2_strong; [|destruct (limit_to_prefix 500 all) as [l Hl2]; eapply sublist_NoDup; [exact Hn|rewrite Hl2 at 2; by apply sublist_inserts_r]].
  intros x y Hx%limit_to_elem Hy%limit_to_elem Heq. apply Hall in Hx as [_ Hx], Hy as [_ Hy]. congruence.
Qed.

(** Through the manager: for five minutes after a refresh that Redis took, the due
    ids a scan reads from the cache are, each once, ids of tasks that the repository
    listed as due at the refresh and whose trigger second is not after the cutoff (nor
    before 1970), and all of these. *)
Theorem cached_due m r r1 at_ t cutoff tasks m1 m2 ids :
  let now := clock (w_reads (m_world m)) in
  m_redis m = Some r -> tasks_inv (w_tasks (m_world m)) ->
  ListDueTasks now 500 (w_tasks (m_world m)) = Ok tasks -> (forall x, x ∈ tasks -> int64 (task_ID x)) ->
  WarmDueTasks at_ (task_ID <$> tasks) (due_scores tasks) r = (r1, Ok tt) ->
  warmDueTasks at_ m = (m1, Ok tt) -> at_ <= t < at_ + 5 * Minute -> GetCachedDueTaskIDs t cutoff m1 = (m2, Ok ids) ->
  NoDup ids /\
  (forall id, id ∈ ids -> exists x, tasks_of (w_tasks (m_world m)) !! id = Some x /\ task_due now x) /\
  (forall x, x ∈ tasks -> task_ID x ∈ ids <-> 0 <= Unix (task_NextTriggerTime x) <= Unix cutoff).
Proof.
  intros now Hr Hi Hl Hint Hw Hm Ht Hg. destruct (listed_ids _ _ _ Hi Hl) as [Hn Hdue].
  unfold warmDueTasks, attempt, on_world, task_op in Hm. cbn beta iota in Hm. fold now in Hm. rewrite Hl in Hm.
  unfold bind, on_redis in Hm. cbn -[WarmDueTasks due_scores] in Hm.
  rewrite Hr, Hw in Hm. injection Hm as <-. unfold GetCachedDueTaskIDs, on_redis in Hg. cbn [m_redis m_world] in Hg.
  destruct (GetDueTaskIDs t (Unix cutoff) r1) as [r2 x] eqn:Hread. injection Hg as _ ->.
  assert (ids ≡ₚ due_by (Unix cutoff) (due_scores tasks)) as Hids.
  { pose proof (due_cache at_ t _ _ _ _ _ _ _ (fun z => iff_sym (due_scores_dom tasks z)) ltac:(intros z (x & -> & Hx)%list_elem_of_fmap; by apply Hint) ltac:(lia) Hw Hread) as Hc.
    by rewrite (proj2 (Z.ltb_lt t (at_ + 5 * Minute))) in Hc by lia. }
  assert (forall id, id ∈ ids <-> exists x, x ∈ tasks /\ task_ID x = id /\ 0 <= Unix (task_NextTriggerTime x) <= Unix cutoff) as Hin.
  { intros id. rewrite Hids. unfold due_by. rewrite list_elem_of_fmap. setoid_rewrite list_elem_of_filter. split.
    - intros ([id' v] & -> & Hb & Hx). apply elem_of_map_to_list, due_scores_lookup in Hx as (x & Hx & Hid & Hv); [|done]. simpl in *. subst. eauto.
    - intros (x & Hx & <- & Hb). exists (task_ID x, Unix (task_NextTriggerTime x)). split; [done|]. split; [exact Hb|]. apply elem_of_map_to_list, due_scores_lookup; eauto. }
  split_and!.
  - rewrite Hids. unfold due_by. apply (sublist_NoDup _ _ (NoDup_fst_map_to_list (due_scores tasks))), fmap_sublist, sublist_filter.
  - intros id (x & Hx & <- & _)%Hin. exists x. by destruct (Hdue x Hx).
  - intros x Hx. rewrite Hin. split; [|eauto]. intros (y & Hy & Heq & Hb). assert (y = x) as <-; [|done].
    destruct (Hdue x Hx) as [_ Hsx], (Hdue y Hy) as [_ Hsy]. congruence.
Qed.
End ManagerProperties.

Definition cache_start : @Manager test_backend keyspace :=
  mkManager (world_with [task_with "" "{}"; set_task_Status "disabled" (task_with "" "{}")] [] []) (Some ∅).
#[local] Existing Instance test_backend.
#[local] Existing Instance test_backend_contract.
#[local] Existing Instance test_backend_spec.
Definition cache_env : Env := answering 200.
Definition cached : Manager := (@warmDueTasks _ cache_env _ _ start_time cache_start).1.
Definition listed_tasks : list Task := match ListDueTasks start_time 500 (w_tasks (m_world cache_start)) with Ok ts => ts | Err _ => [] end.

Definition filled : keyspace := (WarmDueTasks start_time (task_ID <$> listed_tasks) (due_scores listed_tasks) ∅).1.

Lemma filled_run : WarmDueTasks start_time (task_ID <$> listed_tasks) (due_scores listed_tasks) ∅ = (filled, Ok tt).
Proof. unfold filled. apply run_eq. vm_compute. reflexivity. Qed.
Lemma cached_run : @warmDueTasks _ cache_env _ _ start_time cache_start = (cached, Ok tt).
Proof. unfold cached. apply run_eq. vm_compute. reflexivity. Qed.

Lemma cached_due_witness : exists ids m2, GetCachedDueTaskIDs (start_time + Minute) (start_time + Minute) cached = (m2, Ok ids) /\ ids = [1] /\ NoDup ids.
Proof.
  eexists _, _. split; [apply run_eq; vm_compute; reflexivity|]. split; [reflexivity|].
  refine (proj1 (@cached_due _ _ _ cache_env keyspace _ _ cache_start ∅ filled start_time (start_time + Minute) (start_time + Minute)
    listed_tasks cached _ [1] eq_refl _ eq_refl _ filled_run cached_run _ (run_eq _ _ _))).
  - apply (world_with_inv _ [] []).
  - intros x Hx. vm_compute in Hx. apply list_elem_of_singleton in Hx as ->. split; vm_compute; congruence.
  - unfold Minute, Second. lia.
  - vm_compute. reflexivity.
Defined.
