(* ===== verification/Http.v ===== *)
(** internal/api/handler/common.go and the error mappings of the handlers: what an
    HTTP handler answers. *)
From S2P Require Import Prelude GoStd World.

(** [writeJSON]: a status with a value, or with an error text. *)
Inductive reply (A : Type) :=
| Answer (status : Z) (body : A)
| Failure (status : Z) (error : string).
Arguments Answer {A}. Arguments Failure {A}.

Definition status_of {A} (r : reply A) : Z := match r with Answer s _ | Failure s _ => s end.

Definition methodNotAllowed {A} : reply A := Failure 405 "method not allowed".

(** The switch of the [write...Error] helpers: [bad] are the sentinels answered with
    400; a text with "not found" is a 404. *)
Definition error_status (bad : list gerror) (e : gerror) : Z :=
  if existsb (errors_is e) bad then 400
  else if Contains (error_text e) "not found" then 404
  else 500.

Definition write_error {A} (bad : list gerror) (e : gerror) : reply A := Failure (error_status bad e) (error_text e).

Section Handlers.
Context `{Backend}.

(** The shape of the POST handlers: the method, the decoded body, the service. *)
Definition post_json {Req A} (method : string) (body : option Req) (ok : Z) (bad : list gerror)
    (service : Req -> M A) : M (reply A) :=
  if negb (bool_decide (method = "POST")) then ret methodNotAllowed else
  match body with
  | None => ret (Failure 400 "invalid json body")
  | Some req => attempt (service req) (fun r => match r with
                                                | Ok a => ret (Answer ok a)
                                                | Err e => ret (write_error bad e)
                                                end)
  end.

Lemma moves_post_json {Req A} (R : World -> World -> Prop) `{!PreOrder R} method (body : option Req) ok bad (service : Req -> M A) :
  (forall req, moves R (service req)) -> moves R (post_json method body ok bad service).
Proof. intros Hs. unfold post_json. solve_moves. Qed.
End Handlers.
