(* ===== verification/Records.v ===== *)
(** The audit records of the AI service and the load samples of the workers
    (internal/repo/mysql/ai_analysis_repository.go, worker_load_repository.go and
    internal/repo/teststore/ai_analysis_repository.go), the goroutine of
    cmd/scheduler/main.go that takes the samples, and the endpoint that lists them. *)
From S2P Require Import Prelude GoStd GoTime Model Json Repo RateLimit Gorm Mysql MemDB World Http.

#[local] Open Scope prog_scope.

(** [model.AIAnalysisRecord] *)
Record AIAnalysisRecord := mkAIAnalysisRecord {
  air_ID : Z;
  air_InstanceID : Z;
  air_AnalysisType : string;
  air_InputJSON : string;
  air_OutputJSON : string;
  air_Confidence : float64;
  air_CreatedAt : Time
}.

Definition set_air_ID (id : Z) (at_ : Time) (r : AIAnalysisRecord) : AIAnalysisRecord :=
  mkAIAnalysisRecord id (air_InstanceID r) (air_AnalysisType r) (air_InputJSON r) (air_OutputJSON r) (air_Confidence r) at_.

(** ** Interfaces *)

Class AIAnalysisRepository (S : Type) := {
  CreateRecord : Time -> AIAnalysisRecord -> S -> S * result unit;
  DeleteOldRecords : Time -> S -> S * result Z
}.

Class WorkerLoadRepository (S : Type) := {
  CreateSnapshot : Time -> WorkerLoadSnapshot -> S -> S * result unit;
  ListSnapshots : string -> Time -> Time -> Z -> S -> result (list WorkerLoadSnapshot);
  DeleteSnapshotsBefore : Time -> S -> S * result Z
}.

(** ** For tests *)

Record AIRecordStore := mkAIRecordStore { ars_nextID : Z; ars_records : gmap Z AIAnalysisRecord }.

Definition NewAIAnalysisRepository : AIRecordStore := mkAIRecordStore 1 ∅.

Definition ts_CreateRecord (now : Time) (record : AIAnalysisRecord) (r : AIRecordStore) : AIRecordStore * result unit :=
  (mkAIRecordStore (wrap64 (ars_nextID r + 1)) (<[ars_nextID r := set_air_ID (ars_nextID r) now record]> (ars_records r)), Ok tt).

Definition ts_DeleteOldRecords (before : Time) (r : AIRecordStore) : AIRecordStore * result Z :=
  let old := filter (fun kr => (air_CreatedAt kr.2 <? before) = true) (ars_records r) in
  (mkAIRecordStore (ars_nextID r) (ars_records r ∖ old), Ok (Z.of_nat (size old))).

#[export] Instance teststore_records : AIAnalysisRepository AIRecordStore := {
  CreateRecord := ts_CreateRecord; DeleteOldRecords := ts_DeleteOldRecords }.

(** ** In MySQL *)

(** [workerLoadSnapshotRow]; the row of a record has the record's fields. *)
Record workerLoadSnapshotRow := mkSnapshotRow {
  sr_ID : Z;
  sr_WorkerID : string;
  sr_CurrentLoad : Z;
  sr_MaxConcurrency : Z;
  sr_Status : string;
  sr_RecordedAt : Time
}.

(** GORM fills in a field called [CreatedAt], and no other: [RecordedAt] is written as
    it is. *)
#[export] Instance aiAnalysisRecordRow_entity `{Columns} : Entity AIAnalysisRecord Z := {
  key := air_ID;
  inserted k now r := set_air_ID k (stored (if IsZero (air_CreatedAt r) then now else air_CreatedAt r)) r;
  touched _ r := r; collide r r' := air_ID r =? air_ID r' }.
#[export] Instance workerLoadSnapshotRow_entity `{Columns} : Entity workerLoadSnapshotRow Z := {
  key := sr_ID;
  inserted k now r := mkSnapshotRow k (sr_WorkerID r) (sr_CurrentLoad r) (sr_MaxConcurrency r) (sr_Status r) (stored (sr_RecordedAt r));
  touched _ r := r; collide r r' := sr_ID r =? sr_ID r' }.

Section Mysql.
Context `{Columns} {AD : Type} `{!Table AD AIAnalysisRecord Z} {LD : Type} `{!Table LD workerLoadSnapshotRow Z}.

Definition wrapped_op {D A B} (prefix : string) (f : A -> B) (x : D * result A) : D * result B :=
  let '(db, r) := x in (db, match r with Ok a => Ok (f a) | Err e => Err (Wrap prefix e) end).

Definition my_CreateRecord (now : Time) (record : AIAnalysisRecord) (db : AD) : AD * result unit :=
  wrapped_op "insert ai analysis record" (fun _ => tt) (db_Create (K:=Z) now (set_air_ID 0 zero_time record) db).

Definition my_DeleteOldRecords (before : Time) (db : AD) : AD * result Z :=
  wrapped_op "delete old ai analysis records" id (db_Delete (K:=Z) (fun r => air_CreatedAt r <? sent before) db).

#[export] Instance mysql_records : AIAnalysisRepository AD := {
  CreateRecord := my_CreateRecord; DeleteOldRecords := my_DeleteOldRecords }.

Definition my_CreateSnapshot (now : Time) (s : WorkerLoadSnapshot) (db : LD) : LD * result unit :=
  wrapped_op "insert worker load snapshot" (fun _ => tt)
    (db_Create (K:=Z) now
       (mkSnapshotRow 0 (snap_WorkerID s) (snap_CurrentLoad s) (snap_MaxConcurrency s) (snap_Status s) zero_time) db).

Definition row_snapshot (r : workerLoadSnapshotRow) : WorkerLoadSnapshot :=
  mkWorkerLoadSnapshot (sr_ID r) (sr_WorkerID r) (sr_CurrentLoad r) (sr_MaxConcurrency r) (sr_Status r) (sr_RecordedAt r).

Definition my_ListSnapshots (workerID : string) (from to : Time) (limit : Z) (db : LD) : result (list WorkerLoadSnapshot) :=
  match db_Find (K:=Z) (Limit (positive limit) (Order (fun x y => sr_RecordedAt y <=? sr_RecordedAt x)
          (Where (fun r => (sent from <=? sr_RecordedAt r) && (sr_RecordedAt r <=? sent to)
                           && (bool_decide (workerID = "") || bool_decide (sr_WorkerID r = workerID)))))) db with
  | Err e => Err (Wrap "list worker load snapshots" e)
  | Ok rows => Ok (row_snapshot <$> rows)
  end.

Definition my_DeleteSnapshotsBefore (before : Time) (db : LD) : LD * result Z :=
  wrapped_op "delete old worker load snapshots" id (db_Delete (K:=Z) (fun r => sr_RecordedAt r <? sent before) db).

#[export] Instance mysql_snapshots : WorkerLoadRepository LD := {
  CreateSnapshot := my_CreateSnapshot; ListSnapshots := my_ListSnapshots; DeleteSnapshotsBefore := my_DeleteSnapshotsBefore }.
End Mysql.

(** ** Sampling and listing *)

Section Sampling.
Context `{Backend} `{Env} {LD : Type} `{!WorkerLoadRepository LD}.

Abbreviation S A := (prog (World * LD) gerror A).

Definition load_now : S Time := fun s => let '(w, r) := Now s.1 in ((w, s.2), r).
Definition load_op {A} (f : Time -> LD -> LD * result A) : S A := fun s =>
  let w := s.1 in let '(db, r) := f (clock (w_reads w)) s.2 in ((set_w_reads (Datatypes.S (w_reads w)) w, db), r).

Definition worker_snapshot (w : WorkerNode) : WorkerLoadSnapshot :=
  mkWorkerLoadSnapshot 0 (worker_ID w) (worker_CurrentLoad w) (worker_MaxConcurrency w) (worker_Status w) zero_time.

(** A tick of the sampling goroutine. *)
Definition sample_loads : S unit :=
  r <-? reads_res (fun s => ListWorkers (w_workers s.1)) ;;
  match r with
  | Err _ => ret tt
  | Ok workers =>
      _ignore for_each (fun w => _ignore load_op (fun now => CreateSnapshot now (worker_snapshot w)) ;; ret tt) workers ;;
      now <- load_now ;;
      _ignore load_op (fun _ => DeleteSnapshotsBefore (now - 7 * 24 * Hour)) ;;
      ret tt
  end.

(** [WorkerLoadHandler.List]; the arguments are query parameters. *)
Definition loads_hours (q : string) : Z :=
  match Atoi q with Some v => if (0 <? v) && (v <=? 168) then v else 24 | None => 24 end.
Definition loads_limit (q : string) : Z :=
  match Atoi q with Some v => if (0 <? v) && (v <=? 2000) then v else 500 | None => 500 end.

Definition handle_Loads (workerID hours limit : string) : S (reply (list WorkerLoadSnapshot)) :=
  now <- load_now ;;
  to <- load_now ;;
  r <-? reads_res (fun s => ListSnapshots workerID (now - loads_hours hours * Hour) to (loads_limit limit) s.2) ;;
  match r with
  | Err e => ret (Failure 500 (error_text e))
  | Ok snapshots => ret (Answer 200 snapshots)
  end.
End Sampling.

(** ** Properties *)

(** What the repository is asked to do. *)
Inductive sample_op :=
| OpCreate (now : Time) (s : WorkerLoadSnapshot)
| OpDelete (before : Time).

Section Properties.
Context `{Columns} {LD : Type} `{!Table LD workerLoadSnapshotRow Z} `{!TableLaws LD workerLoadSnapshotRow Z}.

Definition sample_run (db : LD) (op : sample_op) : LD :=
  match op with OpCreate now s => (my_CreateSnapshot now s db).1 | OpDelete before => (my_DeleteSnapshotsBefore before db).1 end.

(** Every row has the zero time. *)
Definition undated (db : LD) : Prop := table_inv db /\ forall k r, rows db !! k = Some r -> sr_RecordedAt r = stored zero_time.

Lemma undated_step db op : undated db -> undated (sample_run db op).
Proof.
  intros [Hi Hu]. destruct op as [now s|before]; cbn [sample_run].
  - unfold my_CreateSnapshot, wrapped_op. destruct (db_Create _ _ db) as [db' x] eqn:E.
    destruct (db_Create_law _ _ _ _ _ Hi E) as [Hi' Hx]. split; [done|]. cbn [fst]. destruct x as [k|]; [|by rewrite Hx].
    destruct Hx as [_ ->]. intros k' r. rewrite lookup_insert_Some. intros [[_ <-]|[_ Hr]]; [done|eauto].
  - unfold my_DeleteSnapshotsBefore, wrapped_op. destruct (db_Delete _ db) as [db' x] eqn:E.
    destruct (db_Delete_law _ _ _ _ Hi E) as [Hi' Hx]. split; [done|]. cbn [fst]. destruct x as [n|]; [|by rewrite Hx].
    rewrite Hx. intros k r [Hr _]%map_lookup_filter_Some. eauto.
Qed.

Lemma undated_run ops db : undated db -> undated (foldl sample_run db ops).
Proof. revert db. induction ops as [|op ops IH]; intros db Hu; [done|]. cbn [foldl]. by apply IH, undated_step. Qed.

(** The load history is always empty: the rows are inserted without a time, so after
    any samples and clean-ups on a table that was empty no listing of a time range
    finds one, and a clean-up that succeeds removes all of them. *)
Theorem load_history_empty ops db workerID from to limit :
  table_inv db -> rows db = ∅ -> stored zero_time < sent from ->
  let db' := foldl sample_run db ops in
  (forall xs, my_ListSnapshots workerID from to limit db' = Ok xs -> xs = []) /\
  (forall n, (my_DeleteSnapshotsBefore from db').2 = Ok n -> rows (my_DeleteSnapshotsBefore from db').1 = ∅).
Proof.
  intros Hi He Hz db'. assert (undated db') as [Hi' Hu] by (apply undated_run; split; [done|]; intros k r; by rewrite He).
  split.
  - intros xs. unfold my_ListSnapshots. destruct (db_Find _ db') as [rs|e] eqn:E; [|done]. intros [= <-].
    apply db_Find_law in E as (all & Hp & _ & ->). assert (all = []) as ->.
    + apply elem_of_nil_inv. intros r. rewrite Hp, list_elem_of_filter, elem_of_values. intros [Hw [k Hk]].
      simpl in Hw. rewrite (Hu _ _ Hk) in Hw. lia.
    + unfold slice. simpl. by destruct (positive limit); rewrite ?take_nil.
  - intros n. unfold my_DeleteSnapshotsBefore, wrapped_op. destruct (db_Delete _ db') as [db2 x] eqn:E. cbn [fst snd].
    destruct (db_Delete_law _ _ _ _ Hi' E) as [_ Hx]. destruct x as [m|]; [|done]. intros _. rewrite Hx.
    apply map_eq. intros k. rewrite lookup_empty. apply map_lookup_filter_None. right. intros r Hk. simpl. rewrite (Hu _ _ Hk). lia.
Qed.
End Properties.

(** Two samples of a worker, on a table in memory. *)
#[export] Instance workerLoadSnapshotRow_keys : KeyGen workerLoadSnapshotRow Z := fun n _ => n.
#[export] Instance workerLoadSnapshotRow_laws : EntityLaws workerLoadSnapshotRow Z.
Proof. done. Qed.

Definition two_samples : list sample_op :=
  [OpCreate (1714557600 * Second) (mkWorkerLoadSnapshot 0 "a" 1 2 "online" zero_time);
   OpCreate (1714557630 * Second) (mkWorkerLoadSnapshot 0 "a" 2 2 "online" zero_time)].
Definition sampled : Mem workerLoadSnapshotRow Z := foldl sample_run (mkMem ∅ 1) two_samples.

Lemma load_history_empty_witness :
  length (map_to_list (mem_view sampled)) = 2%nat /\
  my_ListSnapshots "" (1714550000 * Second) (1714560000 * Second) 0 sampled = Ok [].
Proof.
  split; [vm_compute; reflexivity|].
  destruct (load_history_empty two_samples (mkMem ∅ 1 : Mem workerLoadSnapshotRow Z) "" (1714550000 * Second) (1714560000 * Second) 0)
    as [Hl _]; [done|done|vm_compute; reflexivity|].
  destruct (my_ListSnapshots "" (1714550000 * Second) (1714560000 * Second) 0 sampled) as [xs|e] eqn:E; [|vm_compute in E; discriminate].
  by rewrite (Hl xs E).
Defined.
