(* ===== verification/Dispatch.v ===== *)
(** internal/scheduler/dispatch/client.go: the client that hands a task to a
    worker over HTTP or gRPC, behind the token bucket. *)
From S2P Require Import Prelude GoStd GoTime GoFormat Model Repo RateLimit World Sample.

#[local] Open Scope prog_scope.

(** [strings.TrimRight(s, "/")] *)
Fixpoint trim_slashes (s : string) : string :=
  match s with
  | EmptyString => EmptyString
  | String c s' =>
      match trim_slashes s' with
      | EmptyString => if Ascii.eqb c "/" then EmptyString else String c EmptyString
      | r => String c r
      end
  end.

(** [int32(z)] *)
Definition wrap32 (z : Z) : Z := (z + 2 ^ 31) mod 2 ^ 32 - 2 ^ 31.

(** The protobuf message built from a request. *)
Definition to_pb (req : ExecuteTaskRequest) : PBExecuteTaskRequest :=
  {| pb_ScheduleInstanceId := req_ScheduleInstanceID req; pb_TaskId := req_TaskID req;
     pb_TaskType := req_TaskType req; pb_Payload := req_Payload req; pb_Image := req_Image req;
     pb_TimeoutSeconds := wrap32 (req_TimeoutSeconds req);
     pb_RetryCount := wrap32 (req_RetryCount req); pb_SchedulerUrl := req_SchedulerURL req |}.

Section Dispatch.
Context `{Backend} `{Env}.

Definition dispatchGRPC (target : string) (req : ExecuteTaskRequest) : M unit :=
  dialed <- external (fun n => grpc_dial n target) ;;
  match dialed with
  | Some e => fail (Wrap ("dial grpc target " +:+ target) e)
  | None =>
      let msg := GrpcExecute target (to_pb req) in
      resp <- external (fun n => grpc_execute n msg) ;;
      match resp with
      | Err e => log_sent msg false ;; fail (Wrap "grpc execute task" e)
      | Ok (accepted, message) =>
          log_sent msg accepted ;;
          (if accepted then ret tt
           else fail (Errorf "grpc worker rejected dispatch: %s" [message]))
      end
  end.

Definition dispatchHTTP (callbackURL : string) (req : ExecuteTaskRequest) : M unit :=
  let url := trim_slashes callbackURL +:+ "/internal/tasks/execute" in
  match http_new_request url with
  | Some e => fail (Wrap "build dispatch request" e)
  | None =>
      let msg := HttpExecute url req in
      resp <- external (fun n => http_do n msg) ;;
      match resp with
      | Err e => log_sent msg false ;; fail (Wrap "dispatch task" e)
      | Ok (code, status) =>
          let ok := code <? 300 in
          log_sent msg ok ;;
          (if ok then ret tt else fail (Errorf "worker returned status %s" [status]))
      end
  end.

(** [c.rateLimiter.Allow()], and [WaitTime(1)] for the error text. *)
Definition rate_limit : M unit :=
  limiter <- reads w_limiter ;;
  match limiter with
  | None => ret tt
  | Some tb =>
      now <- Now ;;
      let '(tb, ok) := Allow now tb in
      modify (set_w_limiter (Some tb)) ;;
      (if ok then ret tt
       else now <- Now ;;
            let '(tb, d) := WaitTime now 1 tb in
            modify (set_w_limiter (Some tb)) ;;
            fail (Errorf "dispatch rate limit exceeded, wait %s" [duration_string d]))
  end.

Definition Dispatch (worker : WorkerNode) (req : ExecuteTaskRequest) : M unit :=
  rate_limit ;;
  (if equal_fold (worker_Protocol worker) "grpc"
   then dispatchGRPC (worker_GRPCAddr worker) req
   else dispatchHTTP (worker_CallbackURL worker) req).

Definition cancelGRPC (target scheduleInstanceID : string) : M unit :=
  dialed <- external (fun n => grpc_dial n target) ;;
  match dialed with
  | Some e => fail (Wrap ("dial grpc target " +:+ target) e)
  | None =>
      let msg := GrpcCancel target scheduleInstanceID in
      resp <- external (fun n => grpc_cancel n msg) ;;
      match resp with
      | Err e => log_sent msg false ;; fail (Wrap "grpc cancel task" e)
      | Ok ok => log_sent msg ok ;; (if ok then ret tt else fail (Errorf "cancel rejected" []))
      end
  end.

Definition CancelDispatch (worker : WorkerNode) (scheduleInstanceID : string) : M unit :=
  if equal_fold (worker_Protocol worker) "grpc"
  then cancelGRPC (worker_GRPCAddr worker) scheduleInstanceID
  else
    let url := trim_slashes (worker_CallbackURL worker) +:+ "/internal/tasks/cancel" in
    match http_new_request url with
    | Some e => fail e
    | None =>
        let msg := HttpCancel url scheduleInstanceID in
        resp <- external (fun n => http_do n msg) ;;
        match resp with
        | Err e => log_sent msg false ;; fail (Wrap "cancel dispatch" e)
        | Ok (code, status) =>
            let ok := code <? 300 in
            log_sent msg ok ;;
            (if ok then ret tt else fail (Errorf "worker returned status %s" [status]))
        end
    end.

(** ** What a dispatch touches *)

(** The stores and everything else a dispatch must not touch are as before; the
    log has grown. *)
Definition only_network (w w' : World) : Prop :=
  w_tasks w' = w_tasks w /\ w_instances w' = w_instances w /\ w_workers w' = w_workers w /\
  w_rrCounter w' = w_rrCounter w /\ w_bp w' = w_bp w /\ w_alerts w' = w_alerts w /\
  w_jobs w' = w_jobs w /\ exists new, w_sent w' = new ++ w_sent w.

#[global] Instance only_network_preorder : PreOrder only_network.
Proof.
  split.
  - intros w. unfold only_network. split_and!; try done. by exists [].
  - intros x y z (?&?&?&?&?&?&?& a & Ha) (?&?&?&?&?&?&?& b & Hb). unfold only_network.
    split_and!; try congruence. exists (b ++ a). rewrite Hb, Ha. by rewrite app_assoc.
Qed.

Lemma network_external {A} (f : nat -> A) : moves only_network (external f).
Proof. intros w. unfold only_network. simpl. split_and!; try done. by exists []. Qed.
Lemma network_Now : moves only_network Now.
Proof. intros w. unfold only_network. simpl. split_and!; try done. by exists []. Qed.
Lemma network_log m b : moves only_network (log_sent m b).
Proof. intros w. unfold only_network. simpl. split_and!; try done. by exists [(m, b)]. Qed.
Lemma network_limiter l : moves only_network (modify (E:=gerror) (set_w_limiter l)).
Proof. intros w. unfold only_network. simpl. split_and!; try done. by exists []. Qed.
End Dispatch.

#[export] Hint Resolve network_external network_Now network_log network_limiter : moves.

Section DispatchProperties.
Context `{Backend} `{Env}.

(** The message a worker gets for a request. *)
Definition task_message (worker : WorkerNode) (req : ExecuteTaskRequest) : Message :=
  if equal_fold (worker_Protocol worker) "grpc"
  then GrpcExecute (worker_GRPCAddr worker) (to_pb req)
  else HttpExecute (trim_slashes (worker_CallbackURL worker) +:+ "/internal/tasks/execute") req.

(** What a dispatch did to the log: accepted, refused by the worker, or not sent. *)
Definition delivered (m : Message) (w w' : World) (r : result unit) : Prop :=
  match r with
  | Ok _ => w_sent w' = (m, true) :: w_sent w
  | Err _ => w_sent w' = w_sent w \/ w_sent w' = (m, false) :: w_sent w
  end.

Lemma Dispatch_network worker req : moves only_network (Dispatch worker req).
Proof.
  unfold Dispatch, rate_limit, dispatchGRPC, dispatchHTTP. solve_moves.
Qed.

Lemma CancelDispatch_network worker sid : moves only_network (CancelDispatch worker sid).
Proof. unfold CancelDispatch, cancelGRPC. solve_moves. Qed.

Lemma rate_limit_sent w : w_sent (rate_limit w).1 = w_sent w.
Proof.
  unfold rate_limit, bind, reads, modify, Now, ret, fail. simpl.
  destruct (w_limiter w) as [tb|]; [|done]. destruct (Allow _ tb) as [tb' []]; [done|]. simpl.
  by destruct (WaitTime _ 1 tb').
Qed.

Lemma dispatchGRPC_delivered target req w :
  delivered (GrpcExecute target (to_pb req)) w (dispatchGRPC target req w).1 (dispatchGRPC target req w).2.
Proof.
  unfold dispatchGRPC, bind, external, log_sent, modify, ret, fail. simpl.
  destruct (grpc_dial _ target) as [e|]; simpl; [by left|].
  destruct (grpc_execute _ _) as [[[] m]|e]; simpl; auto.
Qed.

Lemma dispatchHTTP_delivered url req w :
  delivered (HttpExecute (trim_slashes url +:+ "/internal/tasks/execute") req) w
    (dispatchHTTP url req w).1 (dispatchHTTP url req w).2.
Proof.
  unfold dispatchHTTP, bind, external, log_sent, modify, ret, fail. simpl.
  destruct (http_new_request _) as [e|]; simpl; [by left|].
  destruct (http_do _ _) as [[code st]|e]; simpl; [|auto]. destruct (code <? 300); simpl; auto.
Qed.

Lemma Dispatch_delivered worker req w :
  delivered (task_message worker req) w (Dispatch worker req w).1 (Dispatch worker req w).2.
Proof.
  unfold Dispatch, task_message. unfold bind at 1 2. pose proof (rate_limit_sent w) as Hl.
  destruct (rate_limit w) as [w1 [[]|e]]; simpl in Hl |- *; [|by left].
  destruct (equal_fold _ _).
  - pose proof (dispatchGRPC_delivered (worker_GRPCAddr worker) req w1) as Hd.
    destruct (dispatchGRPC _ _ w1) as [w2 [[]|e]]; simpl in *; by rewrite <- Hl.
  - pose proof (dispatchHTTP_delivered (worker_CallbackURL worker) req w1) as Hd.
    destruct (dispatchHTTP _ _ w1) as [w2 [[]|e]]; simpl in *; by rewrite <- Hl.
Qed.

(** A dispatch reports success exactly when the worker accepted the task: at most
    one message goes out, it is the one built for that worker, and neither the
    repositories nor the router's and backpressure state change. *)
Theorem Dispatch_spec worker req w :
  let '(w', r) := Dispatch worker req w in
  only_network w w' /\ delivered (task_message worker req) w w' r.
Proof.
  pose proof (Dispatch_network worker req w) as Hn. pose proof (Dispatch_delivered worker req w) as Hd.
  by destruct (Dispatch worker req w).
Qed.

(** Over gRPC the shard and the idempotency key are lost: two requests that
    differ only there are the same dispatch. *)
Theorem grpc_drops_shard worker req shardNo shardTotal key w :
  equal_fold (worker_Protocol worker) "grpc" = true ->
  Dispatch worker (mkExecuteTaskRequest (req_ScheduleInstanceID req) (req_TaskID req) (req_TaskType req)
    (req_Payload req) (req_Image req) (req_TimeoutSeconds req) (req_RetryCount req)
    shardNo shardTotal key (req_SchedulerURL req)) w = Dispatch worker req w.
Proof. intros E. unfold Dispatch. by rewrite E. Qed.
End DispatchProperties.

Lemma grpc_drops_shard_witness :
  let worker := mkWorkerNode "g" "" "" "" "g:9000" "GRPC" "online" "{}" 2 0 start_time in
  let req no := mkExecuteTaskRequest "s" 1 "shell" "" "" 60 0 no 4 "key" "" in
  @Dispatch test_backend (answering 200) worker (req 3) (world_with [] [] []) =
  @Dispatch test_backend (answering 200) worker (req 0) (world_with [] [] []).
Proof.
  exact (@grpc_drops_shard test_backend (answering 200)
    (mkWorkerNode "g" "" "" "" "g:9000" "GRPC" "online" "{}" 2 0 start_time)
    (mkExecuteTaskRequest "s" 1 "shell" "" "" 60 0 0 4 "key" "") 3 4 "key" (world_with [] [] []) eq_refl).
Defined.
