(* ===== verification/Router.v ===== *)
(** internal/scheduler/route/router.go: choosing a worker for a task and
    reserving a slot on it. *)
From S2P Require Import Prelude GoStd GoTime Model Labels Repo TestStore World Sample.

#[local] Open Scope prog_scope.

Definition ErrNoAvailableWorker : gerror := Sentinel "no available worker".

(** The runtime error an out-of-range index raises. *)
Definition panic_index : gerror := Sentinel "runtime error: index out of range".

Record SelectOptions := mkOptions { opt_Labels : gmap string string; opt_Strategy : string }.

(** [route.SelectOptions{Labels: model.DecodeLabels(task.Labels), Strategy: task.RouteStrategy}] *)
Definition task_options (t : Task) : SelectOptions :=
  {| opt_Labels := DecodeLabels (task_Labels t); opt_Strategy := task_RouteStrategy t |}.

Definition filterByLabels (workers : list WorkerNode) (selector : gmap string string) : list WorkerNode :=
  if (size selector =? 0)%nat then workers
  else filter (fun w => MatchLabels (DecodeLabels (worker_Labels w)) selector = true) workers.

(** [best := workers[0]; for _, w := range workers[1:] { ... }] *)
Fixpoint least_loaded (best : WorkerNode) (rest : list WorkerNode) : WorkerNode :=
  match rest with
  | [] => best
  | w :: rest' => least_loaded (if worker_CurrentLoad w <? worker_CurrentLoad best then w else best) rest'
  end.

Definition pickLeastLoaded (workers : list WorkerNode) : result WorkerNode :=
  match workers with [] => Err panic_index | w :: rest => Ok (least_loaded w rest) end.

(** The index [int(r.rrCounter.Add(1)-1) % len(workers)]. *)
Definition rr_index (counter : Z) (n : nat) : Z :=
  go_mod (wrap64 (wrap64 (counter + 1) - 1)) (Z.of_nat n).

Definition nth_worker (workers : list WorkerNode) (idx : Z) : result WorkerNode :=
  if idx <? 0 then Err panic_index
  else match workers !! Z.to_nat idx with Some w => Ok w | None => Err panic_index end.

Section Router.
Context `{Backend} `{Env}.

Definition pickRoundRobin (workers : list WorkerNode) : M WorkerNode :=
  c <- reads w_rrCounter ;;
  modify (set_w_rrCounter (wrap64 (c + 1))) ;;
  reads_res (fun _ => nth_worker workers (rr_index c (length workers))).

Definition Pick (opts : SelectOptions) : M WorkerNode :=
  all <- worker_query ListAvailableWorkers ;;
  let filtered := filterByLabels all (opt_Labels opts) in
  if (length filtered =? 0)%nat then fail ErrNoAvailableWorker
  else
    best <- (if bool_decide (opt_Strategy opts = "round_robin") then pickRoundRobin filtered
             else reads_res (fun _ => pickLeastLoaded filtered)) ;;
    let best := set_worker_CurrentLoad (wrap64 (worker_CurrentLoad best + 1)) best in
    worker_op (fun now => UpsertWorker now best) ;;
    ret best.

Definition PickAndReserveWorker : M WorkerNode :=
  Pick {| opt_Labels := ∅; opt_Strategy := "least_loaded" |}.

(** The reservation is given back on the caller's copy of the worker. *)
Definition Release (worker : WorkerNode) : M unit :=
  let worker := if 0 <? worker_CurrentLoad worker
                then set_worker_CurrentLoad (worker_CurrentLoad worker - 1) worker else worker in
  worker_op (fun now => UpsertWorker now worker).
End Router.

(** ** Selection *)

Definition eligible (opts : SelectOptions) (w : WorkerNode) : Prop :=
  available w /\ opt_Labels opts ⊆ DecodeLabels (worker_Labels w).

Lemma filterByLabels_spec ws sel w :
  w ∈ filterByLabels ws sel <-> w ∈ ws /\ sel ⊆ DecodeLabels (worker_Labels w).
Proof.
  unfold filterByLabels. destruct (Nat.eqb_spec (size sel) 0) as [E|E].
  - apply map_size_empty_inv in E as ->. pose proof (map_empty_subseteq (DecodeLabels (worker_Labels w))). tauto.
  - rewrite list_elem_of_filter, MatchLabels_spec. tauto.
Qed.

Lemma least_loaded_spec best rest :
  least_loaded best rest ∈ best :: rest /\
  forall w, w ∈ best :: rest -> worker_CurrentLoad (least_loaded best rest) <= worker_CurrentLoad w.
Proof.
  revert best. induction rest as [|x rest IH]; intros best; simpl.
  - split; [set_solver|]. intros w ->%list_elem_of_singleton. lia.
  - destruct (Z.ltb_spec (worker_CurrentLoad x) (worker_CurrentLoad best)) as [Hl|Hl].
    + destruct (IH x) as [H1 H2]. split; [set_solver|].
      intros w [->|Hw]%elem_of_cons; [|by apply H2].
      pose proof (H2 x ltac:(set_solver)). lia.
    + destruct (IH best) as [H1 H2]. split; [set_solver|].
      intros w [->|[->|Hw]%elem_of_cons]%elem_of_cons; try (apply H2; set_solver).
      pose proof (H2 best ltac:(set_solver)). lia.
Qed.

Lemma nth_worker_elem ws idx w : nth_worker ws idx = Ok w -> w ∈ ws.
Proof.
  unfold nth_worker. destruct (idx <? 0); [done|]. destruct (ws !! Z.to_nat idx) eqn:E; [|done].
  intros [= <-]. by eapply list_elem_of_lookup_2.
Qed.

Lemma rr_index_small counter n : 0 <= counter < 2 ^ 63 - 1 -> (0 < n)%nat ->
  rr_index counter n = counter mod Z.of_nat n.
Proof.
  intros Hc Hn. unfold rr_index, go_mod. rewrite (wrap64_id (counter + 1)) by (unfold int64; lia).
  replace (counter + 1 - 1) with counter by lia. rewrite wrap64_id by (unfold int64; lia).
  apply Z.rem_mod_nonneg; lia.
Qed.

Section RouterProperties.
Context `{BackendSpec} `{Env}.

(** What a successful pick did. *)
Definition picked (opts : SelectOptions) (w w' : World) (best : WorkerNode) : Prop :=
  exists old, workers_of (w_workers w) !! worker_ID best = Some old /\
    eligible opts old /\
    (opt_Strategy opts <> "round_robin" ->
       forall id other, workers_of (w_workers w) !! id = Some other -> eligible opts other ->
         worker_CurrentLoad old <= worker_CurrentLoad other) /\
    best = set_worker_CurrentLoad (wrap64 (worker_CurrentLoad old + 1)) old /\
    exists now, workers_of (w_workers w') = <[worker_ID best := stamped now best]> (workers_of (w_workers w)).

(** A pick moves only the worker store, the counter and the clock. *)
Definition only_routing (w w' : World) : Prop :=
  w_tasks w' = w_tasks w /\ w_instances w' = w_instances w /\ w_limiter w' = w_limiter w /\
  w_bp w' = w_bp w /\ w_sent w' = w_sent w /\ w_alerts w' = w_alerts w /\ w_jobs w' = w_jobs w.

#[global] Instance only_routing_preorder : PreOrder only_routing.
Proof.
  split; [done|]. intros x y z (?&?&?&?&?&?&?) (?&?&?&?&?&?&?).
  unfold only_routing. split_and!; congruence.
Qed.

Lemma routing_worker_op {A} (f : Time -> WS -> WS * result A) : moves only_routing (worker_op f).
Proof. intros w. unfold worker_op. by destruct (f _ _). Qed.
#[local] Hint Resolve routing_worker_op : moves.

Lemma Pick_routing opts : moves only_routing (Pick opts).
Proof. unfold Pick, pickRoundRobin, worker_query. solve_moves. by intros w. Qed.

Lemma Release_routing worker : moves only_routing (Release worker).
Proof. apply routing_worker_op. Qed.

(** The candidate the strategy chooses. *)
Definition choose (opts : SelectOptions) (filtered : list WorkerNode) : M WorkerNode :=
  if bool_decide (opt_Strategy opts = "round_robin") then pickRoundRobin filtered
  else reads_res (fun _ => pickLeastLoaded filtered).

Lemma choose_ok opts filtered w w1 best : choose opts filtered w = (w1, Ok best) ->
  w_workers w1 = w_workers w /\ best ∈ filtered /\
  (opt_Strategy opts <> "round_robin" -> forall x, x ∈ filtered -> worker_CurrentLoad best <= worker_CurrentLoad x).
Proof.
  unfold choose. case_bool_decide as Es.
  - unfold pickRoundRobin, bind, reads, modify, reads_res. simpl.
    destruct (nth_worker _ _) as [b|e] eqn:En; [|done]. intros [= <- <-].
    split; [done|]. split; [by eapply nth_worker_elem|done].
  - unfold reads_res. destruct filtered as [|x rest]; simpl; [done|]. intros [= <- <-].
    destruct (least_loaded_spec x rest) as [Hin Hmin]. done.
Qed.

Lemma Pick_ok opts w w' best : world_inv w -> Pick opts w = (w', Ok best) ->
  picked opts w w' best /\ world_inv w'.
Proof.
  intros (Hti & Hii & Hwi) E.
  assert (only_routing w w') as Hr by (pose proof (Pick_routing opts w) as Hr; by rewrite E in Hr).
  revert E.
  unfold Pick, worker_query, bind at 1, reads_res at 1.
  destruct (ListAvailableWorkers (w_workers w)) as [all|] eqn:Hl; [|done].
  destruct (ListAvailableWorkers_ok _ _ Hwi Hl) as [_ Hall]. cbv zeta.
  destruct (Nat.eqb_spec (length (filterByLabels all (opt_Labels opts))) 0); [done|].
  fold (choose opts (filterByLabels all (opt_Labels opts))). unfold bind at 1.
  destruct (choose opts _ w) as [w1 [old|]] eqn:Hc; [|done].
  destruct (choose_ok _ _ _ _ _ Hc) as (Hw1 & Hin & Hmin).
  apply filterByLabels_spec in Hin as [Hav Hsel]. apply Hall in Hav as [Hav [id Hid]].
  unfold bind, worker_op, ret. rewrite Hw1.
  destruct (UpsertWorker _ _ (w_workers w)) as [s [u|e]] eqn:Hu; simpl; [|done].
  intros [= <- <-]. destruct (UpsertWorker_ok _ _ _ _ _ Hwi Hu) as [Hsi Hs].
  pose proof (workers_inv_id _ _ _ Hwi Hid) as Heq. split.
  - exists old. change (worker_ID (set_worker_CurrentLoad ?v old)) with (worker_ID old).
    rewrite Heq. split_and!; try done.
    + intros Hne id' other Ho [Ha Hs']. apply Hmin; [done|]. apply filterByLabels_spec. split; [|done].
      apply Hall. eauto.
    + exists (clock (w_reads w1)). simpl. rewrite Hs. simpl. by rewrite Heq.
  - destruct Hr as (Ht & Hi & _). simpl in Ht, Hi. unfold world_inv. simpl. by rewrite Ht, Hi.
Qed.

(** Without an eligible worker a pick changes nothing and says so. *)
Lemma Pick_none opts w w' e : world_inv w -> Pick opts w = (w', Err e) ->
  (forall id x, workers_of (w_workers w) !! id = Some x -> ~ eligible opts x) -> w' = w.
Proof.
  intros (Hti & Hii & Hwi). unfold Pick, worker_query, bind at 1, reads_res at 1.
  destruct (ListAvailableWorkers (w_workers w)) as [all|] eqn:Hl; [|by intros [= <-]].
  destruct (ListAvailableWorkers_ok _ _ Hwi Hl) as [_ Hall]. cbv zeta.
  destruct (Nat.eqb_spec (length (filterByLabels all (opt_Labels opts))) 0) as [E|E]; [by intros [= <-]|].
  intros _ Hno. destruct (filterByLabels all (opt_Labels opts)) as [|x xs] eqn:Hf; [done|].
  assert (x ∈ filterByLabels all (opt_Labels opts)) as [Hx Hs]%filterByLabels_spec by (rewrite Hf; set_solver).
  apply Hall in Hx as [Ha [id Hid]]. by destruct (Hno id x Hid).
Qed.

(** With an eligible worker, on a store that answers, a pick succeeds. *)
Lemma Pick_total `{!BackendReliable} opts w id x : world_inv w -> 0 <= w_rrCounter w < 2 ^ 63 - 1 ->
  workers_of (w_workers w) !! id = Some x -> eligible opts x -> exists w' best, Pick opts w = (w', Ok best).
Proof.
  intros (_ & _ & Hwi) Hc Hx [Ha Hs]. unfold Pick, worker_query, bind at 1, reads_res at 1.
  destruct (ListAvailableWorkers_total (w_workers w)) as [all Hl]. rewrite Hl.
  destruct (ListAvailableWorkers_ok _ _ Hwi Hl) as [_ Hall]. cbv zeta.
  assert (x ∈ filterByLabels all (opt_Labels opts)) as Hin
    by (apply filterByLabels_spec; split; [apply Hall; eauto|done]).
  destruct (filterByLabels all (opt_Labels opts)) as [|y ys] eqn:Hf; [by apply elem_of_nil in Hin|].
  cbn [length Nat.eqb]. fold (choose opts (y :: ys)). unfold bind at 1.
  assert (exists w1 old, choose opts (y :: ys) w = (w1, Ok old)) as (w1 & old & ->).
  { unfold choose. case_bool_decide; [|by do 2 eexists].
    unfold pickRoundRobin, bind, reads, modify, reads_res, nth_worker. rewrite rr_index_small by (simpl; lia).
    pose proof (Z.mod_pos_bound (w_rrCounter w) (Z.of_nat (length (y :: ys))) ltac:(simpl; lia)).
    destruct (Z.ltb_spec (w_rrCounter w mod Z.of_nat (length (y :: ys))) 0); [lia|].
    destruct (lookup_lt_is_Some_2 (y :: ys) (Z.to_nat (w_rrCounter w mod Z.of_nat (length (y :: ys))))) as [z ->];
      [lia|]. by do 2 eexists. }
  unfold bind, worker_op, ret.
  destruct (UpsertWorker_total (clock (w_reads w1)) (set_worker_CurrentLoad (wrap64 (worker_CurrentLoad old + 1)) old)
    (w_workers w1)) as [s ->]. by do 2 eexists.
Qed.

Lemma Release_ok worker w w' u : world_inv w -> Release worker w = (w', Ok u) ->
  let back := if 0 <? worker_CurrentLoad worker
              then set_worker_CurrentLoad (worker_CurrentLoad worker - 1) worker else worker in
  world_inv w' /\ exists now,
    workers_of (w_workers w') = <[worker_ID worker := stamped now back]> (workers_of (w_workers w)).
Proof.
  intros (Hti & Hii & Hwi). cbv zeta. unfold Release, worker_op.
  set (back := if 0 <? worker_CurrentLoad worker then _ else _).
  assert (worker_ID back = worker_ID worker) as Hid by (subst back; by case_match).
  destruct (UpsertWorker _ back (w_workers w)) as [s [v|e]] eqn:Hu; [|done]. intros [= <- <-].
  destruct (UpsertWorker_ok _ _ _ _ _ Hwi Hu) as [Hsi Hs]. split; [done|].
  exists (clock (w_reads w)). simpl. by rewrite Hs, Hid.
Qed.

(** C12. A pick reserves one slot on an eligible worker: the returned worker is stored,
    online, below its limit and carries every label of the selector; unless the
    strategy is round-robin nobody eligible was less loaded; the only change to
    the workers is that its load is one higher, still within the limit. *)
Theorem Pick_reserves opts w w' best :
  world_inv w -> Pick opts w = (w', Ok best) ->
  (forall id x, workers_of (w_workers w) !! id = Some x -> int64 (worker_MaxConcurrency x)) ->
  (forall id x, workers_of (w_workers w) !! id = Some x -> - 2 ^ 63 <= worker_CurrentLoad x) ->
  exists old, workers_of (w_workers w) !! worker_ID best = Some old /\
    worker_Status old = "online" /\ opt_Labels opts ⊆ DecodeLabels (worker_Labels old) /\
    worker_CurrentLoad best = worker_CurrentLoad old + 1 /\
    worker_CurrentLoad best <= worker_MaxConcurrency best /\
    (opt_Strategy opts <> "round_robin" ->
       forall id other, workers_of (w_workers w) !! id = Some other -> eligible opts other ->
         worker_CurrentLoad old <= worker_CurrentLoad other) /\
    (forall id, id <> worker_ID best -> workers_of (w_workers w') !! id = workers_of (w_workers w) !! id) /\
    (exists now, workers_of (w_workers w') !! worker_ID best = Some (stamped now best)).
Proof.
  intros Hi Hp Hmax Hmin. destruct (Pick_ok opts w w' best Hi Hp) as [(old & Ho & [[Hon Hlt] Hl] & Hm & -> & now & Hw) _].
  simpl in *. pose proof (Hmax _ _ Ho) as [_ ?]. pose proof (Hmin _ _ Ho).
  rewrite wrap64_id in * by (unfold int64; lia). exists old. split_and!; try done; try lia.
  - intros id Hne. by rewrite Hw, lookup_insert_ne.
  - exists now. by rewrite Hw, lookup_insert_eq.
Qed.

(** Giving a reservation back restores the worker's load: after a pick and the
    release of what it returned, every worker is stored with the load it had. *)
Theorem Pick_Release opts w w1 w2 best u :
  world_inv w -> Pick opts w = (w1, Ok best) -> Release best w1 = (w2, Ok u) ->
  (forall id x, workers_of (w_workers w) !! id = Some x ->
     0 <= worker_CurrentLoad x /\ int64 (worker_MaxConcurrency x)) ->
  forall id, worker_CurrentLoad <$> workers_of (w_workers w2) !! id =
             worker_CurrentLoad <$> workers_of (w_workers w) !! id.
Proof.
  intros Hi Hp Hr Hb id.
  destruct (Pick_ok opts w w1 best Hi Hp) as [(old & Ho & [[Hon Hlt] Hl] & Hm & -> & now & Hw) Hi1].
  destruct (Release_ok _ _ _ _ Hi1 Hr) as (_ & now' & Hw2). simpl in *.
  destruct (Hb _ _ Ho) as [? [_ ?]]. rewrite wrap64_id in * by (unfold int64; lia).
  rewrite Hw2, Hw. destruct (decide (id = worker_ID old)) as [->|Hne].
  - rewrite lookup_insert_eq, Ho. destruct (Z.ltb_spec 0 (worker_CurrentLoad old + 1)); [|lia].
    simpl. f_equal. unfold stamped. case_match; simpl; lia.
  - by rewrite !lookup_insert_ne.
Qed.

(** [n] picks in a row from the same candidates. *)
Fixpoint rr_times (n : nat) (ws : list WorkerNode) : M (list WorkerNode) :=
  match n with
  | O => ret []
  | S n' => (x <- pickRoundRobin ws ;; xs <- rr_times n' ws ;; ret (x :: xs))%prog
  end.

Lemma rr_times_spec n ws w : ws <> [] -> 0 <= w_rrCounter w -> w_rrCounter w + Z.of_nat n < 2 ^ 63 ->
  exists l, (rr_times n ws w).2 = Ok l /\ length l = n /\
    forall i, (i < n)%nat -> l !! i = ws !! Z.to_nat ((w_rrCounter w + Z.of_nat i) mod Z.of_nat (length ws)).
Proof.
  intros Hne. assert (0 < length ws)%nat as Hlen by (destruct ws; simpl; [done|lia]).
  revert w. induction n as [|n IH]; intros w Hc Hb; [exists []; split_and!; [done|done|lia]|].
  cbn [rr_times]. unfold bind at 1, pickRoundRobin, bind at 1, bind at 1, reads, modify, reads_res, nth_worker.
  rewrite rr_index_small by lia.
  pose proof (Z.mod_pos_bound (w_rrCounter w) (Z.of_nat (length ws)) ltac:(lia)).
  destruct (Z.ltb_spec (w_rrCounter w mod Z.of_nat (length ws)) 0); [lia|].
  destruct (lookup_lt_is_Some_2 ws (Z.to_nat (w_rrCounter w mod Z.of_nat (length ws)))) as [x Hx]; [lia|].
  rewrite Hx, wrap64_id by (unfold int64; lia). simpl.
  destruct (IH (set_w_rrCounter (w_rrCounter w + 1) w)) as (l & Hl & Hll & Hn); [simpl; lia..|].
  unfold bind. destruct (rr_times n ws _) as [w' r]. simpl in Hl. subst r. simpl. exists (x :: l). simpl.
  split_and!; [done|by f_equal|]. intros [|i] Hi; simpl; [by rewrite Z.add_0_r|].
  rewrite Hn by lia. simpl. do 3 f_equal. lia.
Qed.

(** Round-robin is fair: as many consecutive picks as there are candidates return
    every candidate exactly once, in cyclic order from the counter's position. *)
Theorem round_robin_cycle ws w :
  ws <> [] -> 0 <= w_rrCounter w -> w_rrCounter w + Z.of_nat (length ws) < 2 ^ 63 ->
  (rr_times (length ws) ws w).2 = Ok (rotate (Z.to_nat (w_rrCounter w)) ws).
Proof.
  intros Hne Hc Hb. destruct (rr_times_spec (length ws) ws w Hne Hc Hb) as (l & -> & Hl & Hn). f_equal.
  assert (0 < length ws)%nat by (destruct ws; simpl; [done|lia]).
  apply list_eq. intros i. destruct (decide (i < length ws)%nat) as [Hi|Hi].
  - rewrite Hn, lookup_rotate_r by done. unfold rotate_nat_add.
    by rewrite Z2Nat.id by lia.
  - rewrite !lookup_ge_None_2; rewrite ?length_rotate; (done || lia).
Qed.
End RouterProperties.

(** ** Evaluation on a small fleet *)

Definition fleet : World := world_with [] [] [worker_named "a" 1; worker_named "b" 0].
Definition least : SelectOptions := {| opt_Labels := ∅; opt_Strategy := "least_loaded" |}.
Definition picked_b : WorkerNode := set_worker_CurrentLoad 1 (worker_named "b" 0).
Definition after_pick : World := (@Pick test_backend (answering 200) least fleet).1.

Lemma fleet_bounds id x : ws_workers (w_workers fleet) !! id = Some x ->
  (0 <= worker_CurrentLoad x /\ int64 (worker_MaxConcurrency x)) /\ - 2 ^ 63 <= worker_CurrentLoad x.
Proof.
  assert (map_Forall (fun _ x => 0 <= worker_CurrentLoad x /\ int64 (worker_MaxConcurrency x))
    (ws_workers (w_workers fleet))) as Hf by (apply (bool_decide_unpack _); vm_compute; exact I).
  intros Hx. apply Hf in Hx as [? ?]. split; [done|lia].
Qed.

Lemma Pick_reserves_witness :
  exists old, ws_workers (w_workers fleet) !! "b" = Some old /\ worker_CurrentLoad old = 0 /\
    exists now, ws_workers (w_workers after_pick) !! "b" = Some (stamped now picked_b).
Proof.
  destruct (@Pick_reserves test_backend test_backend_contract test_backend_spec (answering 200) least fleet after_pick picked_b)
    as (old & Ho & _ & _ & Hl & _ & _ & _ & Hn).
  - apply world_with_inv.
  - apply run_eq. vm_compute. reflexivity.
  - intros id x Hx. by apply fleet_bounds in Hx as [[_ ?] _].
  - intros id x Hx. by apply fleet_bounds in Hx as [_ ?].
  - exists old. split; [exact Ho|]. split; [change (1 = worker_CurrentLoad old + 1) in Hl; lia|exact Hn].
Defined.

Lemma Pick_Release_witness :
  worker_CurrentLoad <$> ws_workers (w_workers after_pick) !! "b" = Some 1 /\
  worker_CurrentLoad <$> ws_workers (w_workers (@Release test_backend (answering 200) picked_b after_pick).1) !! "b" =
  worker_CurrentLoad <$> ws_workers (w_workers fleet) !! "b".
Proof.
  split; [vm_compute; reflexivity|].
  apply (@Pick_Release test_backend test_backend_contract test_backend_spec (answering 200) least fleet after_pick
    (@Release test_backend (answering 200) picked_b after_pick).1 picked_b tt).
  - apply world_with_inv.
  - apply run_eq. vm_compute. reflexivity.
  - apply run_eq. vm_compute. reflexivity.
  - intros id x Hx. by apply fleet_bounds in Hx as [? _].
Defined.

Lemma round_robin_cycle_witness :
  (@rr_times test_backend 2 [worker_named "a" 1; worker_named "b" 0] (set_w_rrCounter 5 fleet)).2 =
  Ok [worker_named "b" 0; worker_named "a" 1].
Proof.
  apply (@round_robin_cycle test_backend [worker_named "a" 1; worker_named "b" 0] (set_w_rrCounter 5 fleet)).
  - done.
  - simpl. lia.
  - simpl. lia.
Defined.
