(* ===== verification/Lifecycle.v ===== *)
(** What no handler may do to a task instance, whatever the clock, the network and
    the stores' failures: an instance is never deleted, its identity (task,
    schedule id, shard, retry count, trigger time) never changes, and once its
    status is terminal the outcome is final ([evolves]).

    [tracked] carries the two facts a handler needs on the way: the instances it
    works on are not terminal, and the schedule id it will report under is
    indexed to one of them. Each repository operation gets its preservation
    lemma here; the handlers' proofs are then a walk along their code. *)
From S2P Require Import Prelude GoStd GoTime GoFormat Model Repo World Dispatch Router.

Definition evolves (m m' : gmap Z TaskInstance) : Prop :=
  forall id i, m !! id = Some i -> exists i', m' !! id = Some i' /\ same_identity i i' /\
    (isTerminalStatus (inst_Status i) = true -> same_outcome i i').

#[export] Instance evolves_preorder : PreOrder evolves.
Proof.
  split.
  - intros m id i Hi. exists i. done.
  - intros a b c Hab Hbc id i Hi.
    destruct (Hab id i Hi) as (j & Hj & Hij & Htij). destruct (Hbc id j Hj) as (k & Hk & Hjk & Htjk).
    exists k. split; [done|]. split.
    + destruct Hij as (?&?&?&?&?&?&?&?), Hjk as (?&?&?&?&?&?&?&?). unfold same_identity. split_and!; congruence.
    + intros Ht. destruct (Htij Ht) as (Hs & ? & ?). destruct Htjk as (? & ? & ?); [by rewrite Hs|].
      unfold same_outcome. split_and!; congruence.
Qed.

(** An instance whose outcome is still open. *)
Definition live (m : gmap Z TaskInstance) (id : Z) : Prop :=
  exists i, m !! id = Some i /\ isTerminalStatus (inst_Status i) = false.

(** Rewriting a row that is live, keeping its identity, is an evolution; so is
    rewriting any row without touching its outcome. *)
Lemma evolves_rewritten R id m m' : rewritten R id m m' -> (forall i i', R i i' -> same_identity i i') ->
  live m id \/ (forall i i', R i i' -> same_outcome i i') -> evolves m m'.
Proof.
  intros (f & Hf & ->) Hid Ho k i Hi. destruct (decide (id = k)) as [->|].
  - rewrite lookup_alter_eq, Hi. exists (f i). split; [done|]. split; [eauto|]. intros Ht.
    destruct Ho as [(x & Hx & Hl)|Ho]; [congruence|eauto].
  - rewrite lookup_alter_ne by done. exists i. done.
Qed.

Lemma evolves_insert m id i : m !! id = None -> evolves m (<[id := i]> m).
Proof.
  intros Hn k x Hx. exists x. rewrite lookup_insert_ne by (intros ->; by rewrite Hn in Hx). done.
Qed.

Lemma live_rewritten R id m m' k : rewritten R id m m' ->
  (forall i i', R i i' -> isTerminalStatus (inst_Status i) = false -> isTerminalStatus (inst_Status i') = false) ->
  live m k -> live m' k.
Proof.
  intros (f & Hf & ->) HR (i & Hi & Ht). destruct (decide (id = k)) as [->|].
  - exists (f i). rewrite lookup_alter_eq, Hi. eauto.
  - exists i. by rewrite lookup_alter_ne.
Qed.

Lemma live_rewritten_ne R id m m' k : rewritten R id m m' -> id <> k -> live m k -> live m' k.
Proof. intros (f & _ & ->) Hne (i & Hi & Ht). exists i. by rewrite lookup_alter_ne. Qed.

Lemma live_insert m id i k : m !! id = None -> live m k -> live (<[id := i]> m) k.
Proof.
  intros Hn (x & Hx & Ht). exists x. split; [|done]. rewrite lookup_insert_ne; [done|].
  intros ->. by rewrite Hn in Hx.
Qed.

Section Lifecycle.
Context `{BackendContract} `{Env}.

Abbreviation insts w := (insts_of (w_instances w)).
Abbreviation sched w := (sched_of (w_instances w)).

(** From [m0] on: the stores are consistent, the instances have evolved, those of
    [L] are live, and [S] says which schedule ids are indexed to live ones. *)
Definition tracked (m0 : gmap Z TaskInstance) (L : list Z) (S : list (string * Z)) (w : World) : Prop :=
  world_inv w /\ evolves m0 (insts w) /\ (forall id, id ∈ L -> live (insts w) id) /\
  (forall sid id, (sid, id) ∈ S -> sched w !! sid = Some id /\ live (insts w) id).

Definition keeps (P : World -> Prop) (w w' : World) : Prop := P w -> P w'.

#[global] Instance keeps_preorder P : PreOrder (keeps P).
Proof. split; [by intros w HP|]. intros x y z Hxy Hyz HP. auto. Qed.

(** ** Operations that leave the instances alone *)

Definition same_instances (w w' : World) : Prop := w_instances w' = w_instances w.

Lemma keeps_frame {A} (m : M A) m0 L S :
  moves same_instances m -> moves (keeps world_inv) m -> moves (keeps (tracked m0 L S)) m.
Proof.
  intros Hs Hi w (Hw & He & HL & HS). specialize (Hs w). specialize (Hi w Hw).
  unfold same_instances in Hs. unfold tracked. rewrite Hs. done.
Qed.

#[local] Instance same_instances_preorder : PreOrder same_instances.
Proof. split; [done|]. intros x y z. unfold same_instances. congruence. Qed.

Lemma inv_network {A} (m : M A) : moves only_network m -> moves (keeps world_inv) m.
Proof.
  intros Hm w Hi. destruct (Hm w) as (Ht & Hins & Hw & _). unfold world_inv. by rewrite Ht, Hins, Hw.
Qed.

Lemma tracked_network {A} (m : M A) m0 L S : moves only_network m -> moves (keeps (tracked m0 L S)) m.
Proof. intros Hm. apply keeps_frame; [|by apply inv_network]. intros w. by destruct (Hm w) as (_ & ? & _). Qed.

Lemma inv_same {A} (m : M A) :
  (forall w, w_tasks (m w).1 = w_tasks w /\ w_instances (m w).1 = w_instances w /\ w_workers (m w).1 = w_workers w) ->
  moves (keeps world_inv) m.
Proof. intros Hm w Hi. destruct (Hm w) as (Ht & Hins & Hw). unfold world_inv. by rewrite Ht, Hins, Hw. Qed.

Lemma tracked_same {A} (m : M A) m0 L S :
  (forall w, w_tasks (m w).1 = w_tasks w /\ w_instances (m w).1 = w_instances w /\ w_workers (m w).1 = w_workers w) ->
  moves (keeps (tracked m0 L S)) m.
Proof. intros Hm. apply keeps_frame; [|by apply inv_same]. intros w. by destruct (Hm w) as (_ & ? & _). Qed.

Lemma tracked_Now m0 L S : moves (keeps (tracked m0 L S)) Now.
Proof. by apply tracked_same. Qed.

Lemma tracked_external {A} (f : nat -> A) m0 L S : moves (keeps (tracked m0 L S)) (external f).
Proof. by apply tracked_same. Qed.

Lemma tracked_Dispatch worker req m0 L S : moves (keeps (tracked m0 L S)) (Dispatch worker req).
Proof. apply tracked_network, Dispatch_network. Qed.

Lemma tracked_CancelDispatch worker sid m0 L S : moves (keeps (tracked m0 L S)) (CancelDispatch worker sid).
Proof. apply tracked_network, CancelDispatch_network. Qed.

Lemma inv_worker_op now_op : (forall now s, workers_inv s -> workers_inv (now_op now s).1) ->
  moves (keeps world_inv) (worker_op (A:=unit) now_op).
Proof.
  intros Hf w (Ht & Hi & Hw). unfold worker_op. specialize (Hf (clock (w_reads w)) _ Hw).
  by destruct (now_op _ _) as [s r].
Qed.

Lemma upsert_inv now w s : workers_inv s -> workers_inv (UpsertWorker now w s).1.
Proof.
  intros Hs. destruct (UpsertWorker now w s) as [s' [u|e]] eqn:E; simpl.
  - by destruct (UpsertWorker_row _ _ _ _ _ Hs E).
  - by destruct (UpsertWorker_err _ _ _ _ _ Hs E).
Qed.

Lemma tracked_upsert worker m0 L S :
  moves (keeps (tracked m0 L S)) (worker_op (fun now => UpsertWorker now worker)).
Proof.
  apply keeps_frame; [|apply inv_worker_op; intros; by apply upsert_inv].
  intros w. unfold same_instances, worker_op. by destruct (UpsertWorker _ _ _).
Qed.

Lemma tracked_Release worker m0 L S : moves (keeps (tracked m0 L S)) (Release worker).
Proof. apply tracked_upsert. Qed.

Lemma tracked_counter c m0 L S : moves (keeps (tracked m0 L S)) (modify (E:=gerror) (set_w_rrCounter c)).
Proof. by apply tracked_same. Qed.
#[local] Hint Resolve tracked_upsert tracked_counter : moves.

Lemma tracked_Pick opts m0 L S : moves (keeps (tracked m0 L S)) (Pick opts).
Proof. unfold Pick, pickRoundRobin, worker_query. solve_moves. Qed.

(** Task rows: any operation that keeps the task store consistent. *)
Lemma tracked_task_op {A} (f : Time -> TS -> TS * result A) m0 L S :
  (forall now s, tasks_inv s -> tasks_inv (f now s).1) -> moves (keeps (tracked m0 L S)) (task_op f).
Proof.
  intros Hf. apply keeps_frame.
  - intros w. unfold same_instances, task_op. by destruct (f _ _).
  - intros w (Ht & Hi & Hw). unfold task_op. specialize (Hf (clock (w_reads w)) _ Ht). by destruct (f _ _).
Qed.

Lemma tracked_task_op' {A} (f : TS -> TS * result A) m0 L S :
  (forall s, tasks_inv s -> tasks_inv (f s).1) -> moves (keeps (tracked m0 L S)) (task_op' f).
Proof.
  intros Hf. apply keeps_frame.
  - intros w. unfold same_instances, task_op'. by destruct (f _).
  - intros w (Ht & Hi & Hw). unfold task_op'. specialize (Hf _ Ht). by destruct (f _).
Qed.

Lemma update_task_inv now t s : tasks_inv s -> tasks_inv (UpdateTask now t s).1.
Proof. apply UpdateTask_keeps. Qed.

Lemma tracked_UpdateTask t m0 L S : moves (keeps (tracked m0 L S)) (task_op (fun now => UpdateTask now t)).
Proof. apply tracked_task_op. intros; by apply update_task_inv. Qed.

(** ** Operations on instances *)

(** Running an instance operation on a tracked world. *)
Lemma tracked_instance_op {A} (f : Time -> IS -> IS * result A) m0 L S :
  (forall now s s' r, insts_inv s -> f now s = (s', r) ->
     (forall id, id ∈ L -> live (insts_of s) id) ->
     (forall sid id, (sid, id) ∈ S -> sched_of s !! sid = Some id /\ live (insts_of s) id) ->
     insts_inv s' /\ evolves (insts_of s) (insts_of s') /\
     (forall id, live (insts_of s) id -> id ∈ L \/ id ∈ S.*2 -> live (insts_of s') id) /\ sched_of s' = sched_of s) ->
  moves (keeps (tracked m0 L S)) (instance_op f).
Proof.
  intros Hf w ((Ht & Hi & Hw) & He & HL & HS). unfold instance_op.
  destruct (f (clock (w_reads w)) (w_instances w)) as [s r] eqn:E.
  destruct (Hf _ _ _ _ Hi E HL HS) as (Hi' & He' & Hl & Hs). unfold tracked. simpl. split; [done|].
  split; [by etrans|]. split.
  - intros id Hid. apply Hl; [auto|by left].
  - intros sid id Hin. rewrite Hs. destruct (HS _ _ Hin). split; [done|]. apply Hl; [done|right].
    apply list_elem_of_fmap. by exists (sid, id).
Qed.

(** A write of an open status to a row the handler works on, and a write that leaves
    the outcome alone. *)
Lemma tracked_status_write (f : Time -> IS -> IS * result unit) st id m0 L S : id ∈ L -> isTerminalStatus st = false ->
  (forall now s s' u, insts_inv s -> f now s = (s', Ok u) ->
     insts_inv s' /\ rewritten (sets_status st) id (insts_of s) (insts_of s') /\ sched_of s' = sched_of s) ->
  (forall now s s' e, insts_inv s -> f now s = (s', Err e) ->
     insts_inv s' /\ insts_of s' = insts_of s /\ sched_of s' = sched_of s) ->
  moves (keeps (tracked m0 L S)) (instance_op f).
Proof.
  intros Hin Hst Hok Herr. apply tracked_instance_op. intros now s s' [u|e] Hi E HL _;
    [|destruct (Herr _ _ _ _ Hi E) as (? & -> & ?); done].
  destruct (Hok _ _ _ _ Hi E) as (? & Hr & ?). split; [done|]. split_and!; [| |done].
  - eapply evolves_rewritten; [exact Hr|by intros i i' [? _]|by left; apply HL].
  - intros k Hk _. eapply live_rewritten; [exact Hr| |done]. intros i i' (_ & -> & _) _. done.
Qed.

Lemma tracked_quiet_write (f : Time -> IS -> IS * result unit) sid m0 L S :
  (forall now s s' u, insts_inv s -> f now s = (s', Ok u) -> insts_inv s' /\
     rewritten_by keeps_outcome (sched_of s) sid (insts_of s) (insts_of s') /\ sched_of s' = sched_of s) ->
  (forall now s s' e, insts_inv s -> f now s = (s', Err e) ->
     insts_inv s' /\ insts_of s' = insts_of s /\ sched_of s' = sched_of s) ->
  moves (keeps (tracked m0 L S)) (instance_op f).
Proof.
  intros Hok Herr. apply tracked_instance_op. intros now s s' [u|e] Hi E HL _;
    [|destruct (Herr _ _ _ _ Hi E) as (? & -> & ?); done].
  destruct (Hok _ _ _ _ Hi E) as (? & Hr & ?). split; [done|]. unfold rewritten_by in Hr.
  destruct (sched_of s !! sid) as [id|]; [|by rewrite Hr]. split_and!; [| |done].
  - eapply evolves_rewritten; [exact Hr|by intros i i' [? _]|right; by intros i i' [_ ?]].
  - intros k Hk _. eapply live_rewritten; [exact Hr| |done]. by intros i i' [_ (-> & _)].
Qed.

Lemma tracked_UpdateInstanceStatus id st m0 L S : id ∈ L -> isTerminalStatus st = false ->
  moves (keeps (tracked m0 L S)) (instance_op (fun now => UpdateInstanceStatus now id st)).
Proof.
  intros Hin Hst. apply (tracked_status_write _ st id); [done|done| |];
    intros *; [apply UpdateInstanceStatus_row|apply UpdateInstanceStatus_err].
Qed.

Lemma tracked_UpdateInstanceDispatch id wid d m0 L S : id ∈ L ->
  moves (keeps (tracked m0 L S)) (instance_op (fun now => UpdateInstanceDispatch now id wid d)).
Proof.
  intros Hin. apply (tracked_status_write _ "dispatched" id); [done|done| |];
    intros *; [apply UpdateInstanceDispatch_row|apply UpdateInstanceDispatch_err].
Qed.

Lemma tracked_UpdateInstanceTimestamps sid a b m0 L S :
  moves (keeps (tracked m0 L S)) (instance_op (fun now => UpdateInstanceTimestamps now sid a b)).
Proof.
  apply (tracked_quiet_write _ sid); intros *; [apply UpdateInstanceTimestamps_row|apply UpdateInstanceTimestamps_err].
Qed.

Lemma tracked_UpdateInstanceAnalysis sid j m0 L S :
  moves (keeps (tracked m0 L S)) (instance_op (fun now => UpdateInstanceAnalysis now sid j)).
Proof.
  apply (tracked_quiet_write _ sid); intros *; [apply UpdateInstanceAnalysis_row|apply UpdateInstanceAnalysis_err].
Qed.

(** Reporting a result under an indexed schedule id closes that instance only. *)
Lemma tracked_UpdateInstanceResult sid id st c msg m0 L S : (sid, id) ∈ S ->
  moves (fun w w' => tracked m0 L S w -> tracked m0 (filter (fun k => k <> id) L) [] w')
    (instance_op (fun now => UpdateInstanceResult now sid st c msg)).
Proof.
  intros Hin w ((Ht & Hi & Hw) & He & HL & HS). unfold instance_op.
  destruct (UpdateInstanceResult _ sid st c msg (w_instances w)) as [s r] eqn:E.
  destruct (HS _ _ Hin) as [Hsid Hlive]. destruct r as [u|e].
  - destruct (UpdateInstanceResult_row _ _ _ _ _ _ _ _ Hi E) as (? & Hm & ?).
    unfold rewritten_by in Hm. rewrite Hsid in Hm. unfold tracked. simpl. split; [done|]. split_and!.
    + etrans; [exact He|]. eapply evolves_rewritten; [exact Hm|by intros i i' [? _]|by left].
    + intros k [Hne HkL]%list_elem_of_filter. eapply live_rewritten_ne; [exact Hm|congruence|auto].
    + intros ? ? Hx. by apply elem_of_nil in Hx.
  - destruct (UpdateInstanceResult_err _ _ _ _ _ _ _ _ Hi E) as (? & Hm & ?). unfold tracked. simpl.
    split; [done|]. rewrite Hm. split_and!; [done| |].
    + intros k [_ HkL]%list_elem_of_filter. auto.
    + intros ? ? Hx. by apply elem_of_nil in Hx.
Qed.

(** From working on the instance [id] to being done with it, whether or not its
    outcome was recorded on the way. *)
Definition closes (m0 : gmap Z TaskInstance) (L : list Z) (sid : string) (id : Z) (w w' : World) : Prop :=
  tracked m0 (id :: L) [(sid, id)] w -> tracked m0 L [] w'.

Lemma tracked_forget m0 L S id w : tracked m0 (id :: L) S w -> tracked m0 L [] w.
Proof.
  intros (? & ? & HL & _). split_and!; try done.
  - intros k Hk. apply HL. set_solver.
  - intros *. by intros ?%elem_of_nil.
Qed.

Lemma closes_keeps {A} (m : M A) m0 L sid id :
  moves (keeps (tracked m0 (id :: L) [(sid, id)])) m -> moves (closes m0 L sid id) m.
Proof. intros Hm w Hw. by eapply tracked_forget, Hm. Qed.

(** Creating an instance with an open status: the continuation may work on it. *)
Lemma tracked_CreateInstance_attempt {A} i (k : result TaskInstance -> M A) m0 L S :
  isTerminalStatus (inst_Status i) = false ->
  (forall i', inst_ScheduleInstanceID i' = inst_ScheduleInstanceID i ->
     moves (closes m0 L (inst_ScheduleInstanceID i') (inst_ID i')) (k (Ok i'))) ->
  (forall e, moves (keeps (tracked m0 L [])) (k (Err e))) ->
  moves (fun w w' => tracked m0 L S w -> tracked m0 L [] w')
    (attempt (instance_op (fun now => CreateInstance now i)) k).
Proof.
  intros Hst Hk Herr w ((Ht & Hi & Hw) & He & HL & HS). unfold attempt, instance_op.
  destruct (CreateInstance _ i (w_instances w)) as [s r] eqn:E.
  destruct (CreateInstance_row _ _ _ _ _ Hi E) as (Hi' & [([e ->] & Hm & ?)|(i' & Hn & Hc & Hm & Hs & Hr)]).
  - apply Herr. unfold tracked. simpl. rewrite Hm.
    split_and!; try done. intros ? ? Hx. by apply elem_of_nil in Hx.
  - destruct Hc as (_ & Hsid & _ & Hst'). set (w1 := set_w_instances s _).
    assert (forall S', (forall sid id, (sid, id) ∈ S' -> sid = inst_ScheduleInstanceID i /\ id = inst_ID i') ->
      tracked m0 (inst_ID i' :: L) S' w1) as Htr.
    { intros S' HS'. assert (live (insts_of s) (inst_ID i')) as Hlive.
      { exists i'. rewrite Hm, lookup_insert_eq. split; [done|]. by rewrite Hst'. }
      unfold tracked. simpl. split; [done|]. split_and!.
      - etrans; [exact He|]. rewrite Hm. by apply evolves_insert.
      - intros id [->|Hid]%elem_of_cons; [done|]. rewrite Hm. apply live_insert; auto.
      - intros sid id [-> ->]%HS'. split; [|done]. by rewrite Hs, lookup_insert_eq. }
    destruct Hr as [[e ->]| ->].
    + apply Herr. apply (tracked_forget m0 L [] (inst_ID i')). apply Htr. intros ? ? Hx. by apply elem_of_nil in Hx.
    + apply (Hk i' Hsid). apply Htr. intros sid id Hx%list_elem_of_singleton. simplify_eq. done.
Qed.

Lemma tracked_CreateInstance {A} i (k : TaskInstance -> M A) m0 L S :
  isTerminalStatus (inst_Status i) = false ->
  (forall i', inst_ScheduleInstanceID i' = inst_ScheduleInstanceID i ->
     moves (closes m0 L (inst_ScheduleInstanceID i') (inst_ID i')) (k i')) ->
  moves (fun w w' => tracked m0 L S w -> tracked m0 L [] w')
    (bind (instance_op (fun now => CreateInstance now i)) k).
Proof.
  intros Hst Hk w Hw.
  pose proof (tracked_CreateInstance_attempt i (fun r => match r with Ok x => k x | Err e => fail e end) m0 L S Hst Hk) as Ha.
  specialize (Ha ltac:(intros e w'; done) w Hw). unfold attempt in Ha. unfold bind.
  by destruct (instance_op _ w) as [w1 [x|e]].
Qed.

(** The conclusion for a whole handler. *)
Definition lifecycle (w w' : World) : Prop :=
  world_inv w -> world_inv w' /\ evolves (insts w) (insts w').

#[global] Instance lifecycle_preorder : PreOrder lifecycle.
Proof.
  split; [by intros w|]. intros x y z Hxy Hyz Hx. destruct (Hxy Hx) as [Hy ?]. destruct (Hyz Hy) as [Hz ?].
  split; [done|]. by etrans.
Qed.

Lemma lifecycle_intro {A} (m : M A) :
  (forall m0, moves (keeps (tracked m0 [] [])) m) -> moves lifecycle m.
Proof.
  intros Hm w Hi. destruct (Hm (insts w) w) as (? & ? & _); [|done]. unfold tracked.
  split_and!; try done; intros *; by intros ?%elem_of_nil.
Qed.

Lemma inv_tracked {A} (m : M A) :
  (forall m0, moves (keeps (tracked m0 [] [])) m) -> moves (keeps world_inv) m.
Proof. intros Hm w Hi. by apply (lifecycle_intro m Hm w). Qed.
End Lifecycle.

#[export] Hint Resolve tracked_Now tracked_external tracked_Dispatch tracked_CancelDispatch tracked_Release
  tracked_Pick tracked_UpdateTask tracked_upsert tracked_UpdateInstanceTimestamps tracked_UpdateInstanceAnalysis
  tracked_UpdateInstanceStatus tracked_UpdateInstanceDispatch : moves.
#[export] Hint Extern 1 (_ ∈ _) => set_solver : moves.
#[export] Hint Extern 1 (isTerminalStatus _ = false) => reflexivity : moves.

(** A walk along a handler: a creation starts tracking the new instance. *)
Ltac track_step :=
  first
    [ lazymatch goal with
      | |- moves (keeps (tracked ?m0 ?L [])) (bind (instance_op (fun now => CreateInstance now _)) _) =>
          apply (tracked_CreateInstance _ _ m0 L []); [reflexivity | intros ? ?]
      | |- moves (keeps (tracked ?m0 ?L [])) (attempt (instance_op (fun now => CreateInstance now _)) _) =>
          apply (tracked_CreateInstance_attempt _ _ m0 L []); [reflexivity | intros ? ? | intros ?]
      end
    | moves_step ].
Ltac solve_tracked := repeat (cbv beta zeta; track_step); eauto with moves.

(** ** Which instances a handler creates *)

(** What an instance is created with and no operation changes. *)
Definition same_core (i i' : TaskInstance) : Prop :=
  inst_TaskID i' = inst_TaskID i /\ inst_ScheduleInstanceID i' = inst_ScheduleInstanceID i /\
  inst_ShardNo i' = inst_ShardNo i /\ inst_ShardTotal i' = inst_ShardTotal i /\
  inst_RetryCount i' = inst_RetryCount i.

Lemma identity_core i i' : same_identity i i' -> same_core i i'.
Proof. intros (?&?&?&?&?&?&?&?). unfold same_core. split_and!; congruence. Qed.

Section Born.
Context `{BackendSpec} `{Env}.

Abbreviation insts w := (insts_of (w_instances w)).

(** Every instance was in [m0] already or was created satisfying [P]. *)
Definition born (P : TaskInstance -> Prop) (m0 : gmap Z TaskInstance) (w : World) : Prop :=
  world_inv w /\ forall id i, insts w !! id = Some i -> is_Some (m0 !! id) \/ P i.

Context (P : TaskInstance -> Prop) (HP : forall i i', same_core i i' -> P i -> P i').

Lemma born_alter (m m0 : gmap Z TaskInstance) f k :
  (forall i, same_identity i (f i)) ->
  (forall id i, m !! id = Some i -> is_Some (m0 !! id) \/ P i) ->
  forall id i, alter f k m !! id = Some i -> is_Some (m0 !! id) \/ P i.
Proof using All.
  intros Hf Hm id i. destruct (decide (k = id)) as [->|].
  - rewrite lookup_alter_eq. intros (x & Hx & ->)%fmap_Some. destruct (Hm _ _ Hx); [by left|right].
    eapply HP; [|done]. apply identity_core, Hf.
  - rewrite lookup_alter_ne by done. apply Hm.
Qed.

Lemma born_frame {A} (m : M A) m0 :
  moves (fun w w' => w_instances w' = w_instances w) m -> moves (keeps world_inv) m -> moves (keeps (born P m0)) m.
Proof.
  intros Hs Hi w [Hw Hb]. specialize (Hs w). specialize (Hi w Hw). unfold born. by rewrite Hs.
Qed.

Lemma born_tracked {A} (m : M A) m0 :
  (forall m1, moves (keeps (tracked m1 [] [])) m) -> moves (fun w w' => w_instances w' = w_instances w) m ->
  moves (keeps (born P m0)) m.
Proof.
  intros Ht Hs. apply born_frame; [done|]. intros w Hw.
  destruct (Ht (insts w) w) as [? _]; [|done]. unfold tracked.
  split_and!; try done; intros *; by intros ?%elem_of_nil.
Qed.

Lemma born_update (f : Time -> IS -> IS * result unit) m0 :
  (forall now s s' r, insts_inv s -> f now s = (s', r) ->
     insts_inv s' /\ (insts_of s' = insts_of s \/
       exists g id, (forall i, same_identity i (g i)) /\ insts_of s' = alter g id (insts_of s))) ->
  moves (keeps (born P m0)) (instance_op f).
Proof using All.
  intros Hf w [(Ht & Hi & Hw) Hb]. unfold instance_op.
  destruct (f (clock (w_reads w)) (w_instances w)) as [s r] eqn:E.
  destruct (Hf _ _ _ _ Hi E) as (Hi' & [Hm|(g & id & Hg & Hm)]); unfold born; simpl; (split; [done|]); rewrite Hm.
  - done.
  - by apply born_alter.
Qed.

Lemma born_UpdateInstanceStatus id st m0 :
  moves (keeps (born P m0)) (instance_op (fun now => UpdateInstanceStatus now id st)).
Proof using All.
  apply born_update. intros now s s' [u|e] Hi E.
  - destruct (UpdateInstanceStatus_ok _ _ _ _ _ _ Hi E) as (? & ? & ?). split; [done|right].
    by exists (with_status now st), id.
  - destruct (UpdateInstanceStatus_err _ _ _ _ _ _ Hi E) as (? & ? & ?). auto.
Qed.

Lemma born_UpdateInstanceDispatch id wid d m0 :
  moves (keeps (born P m0)) (instance_op (fun now => UpdateInstanceDispatch now id wid d)).
Proof using All.
  apply born_update. intros now s s' [u|e] Hi E.
  - destruct (UpdateInstanceDispatch_ok _ _ _ _ _ _ _ Hi E) as (? & ? & ?). split; [done|right].
    exists (with_dispatch now wid d), id. split; [|done]. intros i. apply with_dispatch_sets.
  - destruct (UpdateInstanceDispatch_err _ _ _ _ _ _ _ Hi E) as (? & ? & ?). auto.
Qed.

Lemma born_UpdateInstanceTimestamps sid a b m0 :
  moves (keeps (born P m0)) (instance_op (fun now => UpdateInstanceTimestamps now sid a b)).
Proof using All.
  apply born_update. intros now s s' [u|e] Hi E.
  - destruct (UpdateInstanceTimestamps_ok _ _ _ _ _ _ _ Hi E) as (? & (id & _ & ?) & ?). split; [done|right].
    exists (with_timestamps now a b), id. split; [|done]. intros i. apply with_timestamps_outcome.
  - destruct (UpdateInstanceTimestamps_err _ _ _ _ _ _ _ Hi E) as (? & ? & ?). auto.
Qed.

Lemma born_UpdateInstanceResult sid st c msg m0 :
  moves (keeps (born P m0)) (instance_op (fun now => UpdateInstanceResult now sid st c msg)).
Proof using All.
  apply born_update. intros now s s' [u|e] Hi E.
  - destruct (UpdateInstanceResult_ok _ _ _ _ _ _ _ _ Hi E) as (? & (id & _ & ?) & ?). split; [done|right].
    by exists (with_result now st c msg), id.
  - destruct (UpdateInstanceResult_err _ _ _ _ _ _ _ _ Hi E) as (? & ? & ?). auto.
Qed.

Lemma born_CreateInstance i m0 : P i ->
  moves (keeps (born P m0)) (instance_op (fun now => CreateInstance now i)).
Proof using All.
  intros Hpi w [(Ht & Hi & Hw) Hb]. unfold instance_op.
  destruct (CreateInstance _ i (w_instances w)) as [s [i'|e]] eqn:E.
  - destruct (CreateInstance_ok _ _ _ _ _ Hi E) as (Hi' & Hn & Hi'e & Hm & Hs). unfold born. simpl.
    split; [done|]. rewrite Hm. intros id x. destruct (decide (id = inst_ID i')) as [->|].
    + rewrite lookup_insert_eq. intros [= <-]. right. eapply HP; [|done]. by rewrite Hi'e.
    + rewrite lookup_insert_ne by done. apply Hb.
  - destruct (CreateInstance_err _ _ _ _ _ Hi E) as (? & Hm & ?). unfold born. simpl. by rewrite Hm.
Qed.

Lemma born_network {A} (m : M A) m0 : moves only_network m -> moves (keeps (born P m0)) m.
Proof.
  intros Hm. apply born_frame; [|by apply inv_network]. intros w. by destruct (Hm w) as (_ & ? & _).
Qed.

Lemma born_same {A} (m : M A) m0 :
  (forall w, w_tasks (m w).1 = w_tasks w /\ w_instances (m w).1 = w_instances w /\ w_workers (m w).1 = w_workers w) ->
  moves (keeps (born P m0)) m.
Proof. intros Hm. apply born_frame; [|by apply inv_same]. intros w. by destruct (Hm w) as (_ & ? & _). Qed.

Lemma born_Now m0 : moves (keeps (born P m0)) Now.
Proof. by apply born_same. Qed.

Lemma born_external {A} (f : nat -> A) m0 : moves (keeps (born P m0)) (external f).
Proof. by apply born_same. Qed.

Lemma born_Pick opts m0 : moves (keeps (born P m0)) (Pick opts).
Proof.
  apply born_tracked; [intros; apply tracked_Pick|].
  intros w. by destruct (Pick_routing opts w) as (_ & ? & _).
Qed.

Lemma born_upsert worker m0 : moves (keeps (born P m0)) (worker_op (fun now => UpsertWorker now worker)).
Proof.
  apply born_tracked; [intros; apply tracked_upsert|].
  intros w. unfold worker_op. by destruct (UpsertWorker _ _ _).
Qed.

Lemma born_UpdateTask t m0 : moves (keeps (born P m0)) (task_op (fun now => UpdateTask now t)).
Proof.
  apply born_tracked; [intros; apply tracked_UpdateTask|].
  intros w. unfold task_op. by destruct (UpdateTask _ _ _).
Qed.

Lemma born_Dispatch worker req m0 : moves (keeps (born P m0)) (Dispatch worker req).
Proof. apply born_network, Dispatch_network. Qed.

Lemma born_Release worker m0 : moves (keeps (born P m0)) (Release worker).
Proof. apply born_upsert. Qed.

Lemma born_intro {A} (m : M A) w : moves (keeps (born P (insts w))) m -> world_inv w ->
  forall id i, insts (m w).1 !! id = Some i -> insts w !! id = None -> P i.
Proof.
  intros Hm Hw id i Hi Hn. destruct (Hm w) as [_ Hb].
  - split; [done|]. intros id' i' Hi'. left. by eexists.
  - destruct (Hb id i Hi) as [[x Hx]|]; [by rewrite Hn in Hx|done].
Qed.
End Born.

#[export] Hint Resolve born_Now born_external born_Pick born_upsert born_UpdateTask born_Dispatch born_Release
  born_UpdateInstanceStatus born_UpdateInstanceDispatch born_UpdateInstanceTimestamps
  born_UpdateInstanceResult born_CreateInstance : moves.
