(* ===== verification/Balance.v ===== *)
(** Slot accounting: on repositories that do not fail, the loads of the workers
    and the tasks they accepted move together. [balance] is the total load minus
    the number of accepted dispatches; a handler that reserves a slot for every
    task it places and gives it back when the dispatch fails keeps it constant. *)
From S2P Require Import Prelude GoStd GoTime GoFormat Model Labels Repo RateLimit World Dispatch Router Lifecycle.

Definition total_load (m : gmap string WorkerNode) : Z :=
  map_fold (fun _ x acc => worker_CurrentLoad x + acc) 0 m.

Lemma total_load_insert_new m id x : m !! id = None ->
  total_load (<[id := x]> m) = worker_CurrentLoad x + total_load m.
Proof. intros Hn. unfold total_load. rewrite map_fold_insert_L; [done|intros; lia|done]. Qed.

Lemma total_load_insert m id x y : m !! id = Some y ->
  total_load (<[id := x]> m) = total_load m - worker_CurrentLoad y + worker_CurrentLoad x.
Proof.
  intros Hy. rewrite <- (insert_delete_id m id y Hy) at 2. rewrite <- insert_delete_eq.
  rewrite !total_load_insert_new by apply lookup_delete_eq. lia.
Qed.

Definition is_execute (m : Message) : bool :=
  match m with HttpExecute _ _ | GrpcExecute _ _ => true | _ => false end.

(** The number of dispatches a worker accepted. *)
Fixpoint accepted (l : list (Message * bool)) : Z :=
  match l with
  | [] => 0
  | (m, ok) :: l' => (if is_execute m && ok then 1 else 0) + accepted l'
  end.

Section Balance.
Context `{BackendSpec} `{Env} `{!BackendReliable}.

Abbreviation workers w := (workers_of (w_workers w)).

Definition balance (w : World) : Z := total_load (workers w) - accepted (w_sent w).

(** Loads within their limits. *)
Definition load_ok (x : WorkerNode) : Prop :=
  0 <= worker_CurrentLoad x <= worker_MaxConcurrency x /\ worker_MaxConcurrency x < 2 ^ 63.
Definition loads_ok (w : World) : Prop := map_Forall (fun _ x => load_ok x) (workers w).

Definition bal (b : Z) (w : World) : Prop := world_inv w /\ loads_ok w /\ balance w = b.

(** A slot of [best] is reserved and not yet used. *)
Definition held (b : Z) (best : WorkerNode) (w : World) : Prop :=
  world_inv w /\ loads_ok w /\ balance w = b + 1 /\
  0 < worker_CurrentLoad best /\ load_ok best /\
  exists x, workers w !! worker_ID best = Some x /\ worker_CurrentLoad x = worker_CurrentLoad best.

(** ** Steps that leave workers and log alone *)

Definition quiet (w w' : World) : Prop := w_workers w' = w_workers w /\ w_sent w' = w_sent w.

Lemma bal_quiet {A} (m : M A) b : moves (keeps world_inv) m -> moves quiet m -> moves (keeps (bal b)) m.
Proof.
  intros Hi Hq w (Hw & Hl & Hb). destruct (Hq w) as [Hw' Hs']. specialize (Hi w Hw).
  unfold bal, loads_ok, balance. by rewrite Hw', Hs'.
Qed.

Lemma held_quiet {A} (m : M A) b best :
  moves (keeps world_inv) m -> moves quiet m -> moves (keeps (held b best)) m.
Proof.
  intros Hi Hq w (Hw & Hl & Hb & Hrest). destruct (Hq w) as [Hw' Hs']. specialize (Hi w Hw).
  unfold held, loads_ok, balance. by rewrite Hw', Hs'.
Qed.

Lemma inv_instance_op {A} (f : Time -> IS -> IS * result A) :
  (forall now s, insts_inv s -> insts_inv (f now s).1) -> moves (keeps world_inv) (instance_op f).
Proof.
  intros Hf w (Ht & Hi & Hw). unfold instance_op. specialize (Hf (clock (w_reads w)) _ Hi). by destruct (f _ _).
Qed.

Lemma quiet_instance_op {A} (f : Time -> IS -> IS * result A) : moves quiet (instance_op f).
Proof. intros w. unfold instance_op. by destruct (f _ _). Qed.

Lemma inv_task_op {A} (f : Time -> TS -> TS * result A) :
  (forall now s, tasks_inv s -> tasks_inv (f now s).1) -> moves (keeps world_inv) (task_op f).
Proof.
  intros Hf w (Ht & Hi & Hw). unfold task_op. specialize (Hf (clock (w_reads w)) _ Ht). by destruct (f _ _).
Qed.

Lemma quiet_task_op {A} (f : Time -> TS -> TS * result A) : moves quiet (task_op f).
Proof. intros w. unfold task_op. by destruct (f _ _). Qed.

Ltac store_inv ok err :=
  let now := fresh "now" in let s := fresh "s" in let Hs := fresh "Hs" in
  intros now s Hs;
  match goal with
  | |- _ (fst ?x) =>
      let E := fresh "E" in destruct x as [? [?|?]] eqn:E;
      [eapply ok in E; [|exact Hs]|eapply err in E; [|exact Hs]]; destruct E; assumption
  end.

Lemma inv_UpdateTask t : moves (keeps world_inv) (task_op (fun now => UpdateTask now t)).
Proof. apply inv_task_op. store_inv UpdateTask_ok UpdateTask_err. Qed.
Lemma inv_CreateInstance i : moves (keeps world_inv) (instance_op (fun now => CreateInstance now i)).
Proof. apply inv_instance_op. store_inv CreateInstance_ok CreateInstance_err. Qed.
Lemma inv_UpdateInstanceStatus id st : moves (keeps world_inv) (instance_op (fun now => UpdateInstanceStatus now id st)).
Proof. apply inv_instance_op. store_inv UpdateInstanceStatus_ok UpdateInstanceStatus_err. Qed.
Lemma inv_UpdateInstanceDispatch id wid d :
  moves (keeps world_inv) (instance_op (fun now => UpdateInstanceDispatch now id wid d)).
Proof. apply inv_instance_op. store_inv UpdateInstanceDispatch_ok UpdateInstanceDispatch_err. Qed.
Lemma inv_UpdateInstanceResult sid st c msg :
  moves (keeps world_inv) (instance_op (fun now => UpdateInstanceResult now sid st c msg)).
Proof. apply inv_instance_op. store_inv UpdateInstanceResult_ok UpdateInstanceResult_err. Qed.

(** ** Reserving, using and returning a slot *)

Lemma inv_Now : moves (keeps world_inv) Now.
Proof. apply inv_tracked. auto with moves. Qed.
Lemma inv_Pick opts : moves (keeps world_inv) (Pick opts).
Proof. apply inv_tracked. auto with moves. Qed.
Lemma inv_Release worker : moves (keeps world_inv) (Release worker).
Proof. apply inv_tracked. auto with moves. Qed.
Lemma inv_Dispatch worker req : moves (keeps world_inv) (Dispatch worker req).
Proof. apply inv_tracked. auto with moves. Qed.

Lemma stamped_load now x :
  worker_CurrentLoad (stamped now x) = worker_CurrentLoad x /\
  worker_MaxConcurrency (stamped now x) = worker_MaxConcurrency x.
Proof. unfold stamped. by case_match. Qed.

Lemma held_Pick opts b w w' best : bal b w -> Pick opts w = (w', Ok best) -> held b best w'.
Proof.
  intros (Hi & Hl & Hb) Hp. destruct (Pick_ok opts w w' best Hi Hp)
    as [(old & Ho & [[Hon Hlt] Hsel] & _ & -> & now & Hw') Hi'].
  assert (w_sent w' = w_sent w) as Hs.
  { pose proof (Pick_routing opts w) as Hr. rewrite Hp in Hr. by destruct Hr as (_ & _ & _ & _ & ? & _). }
  pose proof (Hl _ _ Ho) as [Hb1 Hb2]. simpl in *.
  rewrite wrap64_id in * by (unfold int64; lia).
  assert (load_ok (set_worker_CurrentLoad (worker_CurrentLoad old + 1) old)) as Hok by (split; simpl; lia).
  set (best := set_worker_CurrentLoad (worker_CurrentLoad old + 1) old) in *.
  destruct (stamped_load now best) as [Hsl1 Hsl2]. split; [done|]. split_and!; try done.
  - unfold loads_ok. rewrite Hw'. apply map_Forall_insert_2; [|done]. unfold load_ok. by rewrite Hsl1, Hsl2.
  - unfold balance in *. rewrite Hw', Hs, (total_load_insert _ _ _ _ Ho), Hsl1. subst best. simpl. lia.
  - subst best. simpl. lia.
  - exists (stamped now best). rewrite Hw'. simpl. rewrite lookup_insert_eq. by rewrite Hsl1.
Qed.

(** A pick that fails changes no worker. *)
Lemma bal_Pick_err opts b w w' e : bal b w -> Pick opts w = (w', Err e) -> bal b w'.
Proof.
  intros (Hi & Hl & Hb) Hp.
  assert (world_inv w') as Hi'.
  { pose proof (tracked_Pick opts (insts_of (w_instances w)) [] [] w) as Ht. rewrite Hp in Ht.
    destruct Ht as [? _]; [|done]. unfold tracked. split_and!; try done; intros *; by intros ?%elem_of_nil. }
  assert (w_sent w' = w_sent w) as Hs.
  { pose proof (Pick_routing opts w) as Hr. rewrite Hp in Hr. by destruct Hr as (_ & _ & _ & _ & ? & _). }
  enough (w_workers w' = w_workers w) as Hw by (unfold bal, loads_ok, balance; by rewrite Hw, Hs).
  revert Hp. unfold Pick, worker_query, bind at 1, reads_res at 1.
  destruct (ListAvailableWorkers (w_workers w)) as [all|]; [|by intros [= <-]]. cbv zeta.
  destruct (length _ =? 0)%nat; [by intros [= <-]|].
  fold (choose opts (filterByLabels all (opt_Labels opts))). unfold bind at 1.
  destruct (choose opts _ w) as [w1 [old|e']] eqn:Hc.
  - unfold bind, worker_op, ret. destruct (UpsertWorker_total (clock (w_reads w1))
      (set_worker_CurrentLoad (wrap64 (worker_CurrentLoad old + 1)) old) (w_workers w1)) as [s ->]. done.
  - intros [= <- <-]. revert Hc. unfold choose, pickRoundRobin, bind, reads, modify, reads_res.
    destruct (bool_decide _); [destruct (nth_worker _ _)|]; by intros [= <-].
Qed.

Lemma bal_Dispatch_held worker req b w w' r : held b worker w -> Dispatch worker req w = (w', r) ->
  match r with Ok _ => bal b w' | Err _ => held b worker w' end.
Proof.
  intros (Hi & Hl & Hb & Hrest) Hd.
  pose proof (Dispatch_network worker req w) as Hn. pose proof (Dispatch_delivered worker req w) as Hv.
  pose proof (inv_network _ (Dispatch_network worker req) w Hi) as Hi'. rewrite Hd in Hn, Hv, Hi'. simpl in *.
  destruct Hn as (_ & _ & Hw & _).
  assert (is_execute (task_message worker req) = true) as Hx by (unfold task_message; by case_match).
  unfold bal, held, loads_ok, balance in *. rewrite Hw. destruct r as [u|e]; simpl in Hv.
  - rewrite Hv. simpl. rewrite Hx. simpl. split_and!; try done. lia.
  - assert (accepted (w_sent w') = accepted (w_sent w)) as -> by
      (destruct Hv as [-> | ->]; [done|]; simpl; by rewrite andb_false_r).
    done.
Qed.

Lemma bal_Release_held worker b w : held b worker w -> bal b (Release worker w).1.
Proof.
  intros (Hi & Hl & Hb & Hpos & [Hlb Hmax] & x & Hx & Hxl).
  pose proof (tracked_Release worker (insts_of (w_instances w)) [] [] w) as Ht.
  assert (w_sent (Release worker w).1 = w_sent w) as Hs by (by destruct (Release_routing worker w) as (_ & _ & _ & _ & ? & _)).
  destruct (Release worker w) as [w' r] eqn:Hr. simpl in *.
  assert (world_inv w') as Hi'.
  { destruct Ht as [? _]; [|done]. unfold tracked. split_and!; try done; intros *; by intros ?%elem_of_nil. }
  assert (exists u, r = Ok u) as [u ->].
  { revert Hr. unfold Release, worker_op. set (x' := if 0 <? _ then _ else _).
    destruct (UpsertWorker_total (clock (w_reads w)) x' (w_workers w)) as [s ->]. intros [= <- <-]. eauto. }
  destruct (Release_ok _ _ _ _ Hi Hr) as [_ [now Hw]].
  destruct (Z.ltb_spec 0 (worker_CurrentLoad worker)); [|lia].
  match type of Hw with _ = <[_ := stamped _ ?v]> _ => destruct (stamped_load now v) as [Hs1 Hs2] end.
  simpl in Hs1, Hs2. unfold bal, loads_ok, balance in *. rewrite Hw, Hs. split_and!; [done| |].
  - apply map_Forall_insert_2; [|done]. unfold load_ok. rewrite Hs1, Hs2. lia.
  - rewrite (total_load_insert _ _ _ _ Hx), Hs1. lia.
Qed.

(** ** Sequencing *)

(** From a reserved slot to a settled account. *)
Definition settles (b : Z) (best : WorkerNode) (w w' : World) : Prop := held b best w -> bal b w'.

Lemma bal_pick_attempt {B} opts (k : result WorkerNode -> M B) b :
  (forall best, moves (settles b best) (k (Ok best))) -> (forall e, moves (keeps (bal b)) (k (Err e))) ->
  moves (keeps (bal b)) (attempt (Pick opts) k).
Proof.
  intros Hok Herr w Hw. unfold attempt. destruct (Pick opts w) as [w1 [best|e]] eqn:Hp.
  - apply Hok. by eapply held_Pick.
  - apply Herr. by eapply bal_Pick_err.
Qed.

Lemma settles_bind {A B} (m : M A) (k : A -> M B) b best :
  (forall w, exists w' a, m w = (w', Ok a)) -> moves (keeps (held b best)) m ->
  (forall a, moves (settles b best) (k a)) -> moves (settles b best) (bind m k).
Proof.
  intros Ht Hm Hk w Hw. unfold bind. specialize (Hm w Hw). destruct (Ht w) as (w' & a & E). rewrite E in *.
  by apply Hk.
Qed.

Lemma settles_attempt {A B} (m : M A) (k : result A -> M B) b best :
  moves (keeps (held b best)) m -> (forall r, moves (settles b best) (k r)) -> moves (settles b best) (attempt m k).
Proof. intros Hm Hk w Hw. unfold attempt. specialize (Hm w Hw). destruct (m w) as [w' r]. by apply Hk. Qed.

Lemma settles_dispatch {B} worker req (k : result unit -> M B) b :
  (forall u, moves (keeps (bal b)) (k (Ok u))) -> (forall e, moves (settles b worker) (k (Err e))) ->
  moves (settles b worker) (attempt (Dispatch worker req) k).
Proof.
  intros Hok Herr w Hw. unfold attempt. destruct (Dispatch worker req w) as [w' r] eqn:E.
  pose proof (bal_Dispatch_held _ _ _ _ _ _ Hw E). destruct r; [by apply Hok|by apply Herr].
Qed.

Lemma settles_release {B} worker (k : result unit -> M B) b :
  (forall r, moves (keeps (bal b)) (k r)) -> moves (settles b worker) (attempt (Release worker) k).
Proof.
  intros Hk w Hw. unfold attempt. pose proof (bal_Release_held _ _ _ Hw). destruct (Release worker w) as [w' r].
  by apply Hk.
Qed.

Lemma bal_Now b : moves (keeps (bal b)) Now.
Proof. apply bal_quiet; [by apply inv_same|done]. Qed.
Lemma bal_external {A} (f : nat -> A) b : moves (keeps (bal b)) (external f).
Proof. apply bal_quiet; [by apply inv_same|done]. Qed.
Lemma bal_UpdateTask t b : moves (keeps (bal b)) (task_op (fun now => UpdateTask now t)).
Proof. apply bal_quiet; [apply inv_UpdateTask|apply quiet_task_op]. Qed.
Lemma bal_CreateInstance i b : moves (keeps (bal b)) (instance_op (fun now => CreateInstance now i)).
Proof. apply bal_quiet; [apply inv_CreateInstance|apply quiet_instance_op]. Qed.
Lemma bal_UpdateInstanceStatus id st b :
  moves (keeps (bal b)) (instance_op (fun now => UpdateInstanceStatus now id st)).
Proof. apply bal_quiet; [apply inv_UpdateInstanceStatus|apply quiet_instance_op]. Qed.

Lemma held_Now b best : moves (keeps (held b best)) Now.
Proof. apply held_quiet; [by apply inv_same|done]. Qed.
Lemma held_UpdateInstanceStatus id st b best :
  moves (keeps (held b best)) (instance_op (fun now => UpdateInstanceStatus now id st)).
Proof. apply held_quiet; [apply inv_UpdateInstanceStatus|apply quiet_instance_op]. Qed.
Lemma held_UpdateInstanceDispatch id wid d b best :
  moves (keeps (held b best)) (instance_op (fun now => UpdateInstanceDispatch now id wid d)).
Proof. apply held_quiet; [apply inv_UpdateInstanceDispatch|apply quiet_instance_op]. Qed.
Lemma held_UpdateInstanceResult sid st c msg b best :
  moves (keeps (held b best)) (instance_op (fun now => UpdateInstanceResult now sid st c msg)).
Proof. apply held_quiet; [apply inv_UpdateInstanceResult|apply quiet_instance_op]. Qed.

(** The conclusion for a handler. *)
Definition balanced (w w' : World) : Prop :=
  world_inv w -> loads_ok w -> world_inv w' /\ loads_ok w' /\ balance w' = balance w.

Lemma balanced_intro {A} (m : M A) : (forall b, moves (keeps (bal b)) m) -> moves balanced m.
Proof. intros Hm w Hi Hl. destruct (Hm (balance w) w) as (? & ? & ?); done. Qed.
End Balance.

#[export] Hint Resolve inv_Now inv_Pick inv_Release inv_Dispatch inv_UpdateTask inv_CreateInstance
  inv_UpdateInstanceStatus inv_UpdateInstanceDispatch inv_UpdateInstanceResult : moves.
#[export] Hint Resolve bal_Now bal_external bal_UpdateTask bal_CreateInstance bal_UpdateInstanceStatus
  held_Now held_UpdateInstanceStatus held_UpdateInstanceDispatch held_UpdateInstanceResult : moves.

(** A walk along a handler, from pick to settlement. *)
Ltac bal_step :=
  first
    [ lazymatch goal with
      | |- moves (keeps (bal _)) (attempt (Pick _) _) => apply bal_pick_attempt; intros ?
      | |- moves (settles _ _) (attempt (Dispatch _ _) _) => apply settles_dispatch; intros ?
      | |- moves (settles _ _) (attempt (Release _) _) => apply settles_release; intros ?
      | |- moves (settles _ _) (attempt _ _) => apply settles_attempt; [|intros ?]
      | |- moves (settles _ _) (bind Now _) => apply settles_bind; [by do 2 eexists|auto with moves|intros ?]
      | |- moves (settles _ _) (match ?x with _ => _ end) => destruct x
      end
    | moves_step ].
Ltac solve_balance := repeat (cbv beta zeta; bal_step); eauto with moves.
