(* ===== verification/Runtime.v ===== *)
(** internal/api/service/task_runtime_service.go: status reports from workers,
    the retry policy, firing of downstream tasks, cancellation and the storing of
    AI analyses; with the alerter of internal/alert/alerter.go. *)
From S2P Require Import Prelude GoStd GoTime GoFormat Model Labels Repo RateLimit TestStore World Sample.
From S2P Require Import Dispatch Router Lifecycle.

#[local] Open Scope prog_scope.

Definition ErrScheduleInstanceIDRequired : gerror := Sentinel "schedule_instance_id is required".

(** The zero value of [model.TaskInstance]. *)
Definition zero_instance : TaskInstance :=
  {| inst_ID := 0; inst_TaskID := 0; inst_ScheduleInstanceID := ""; inst_ShardNo := 0; inst_ShardTotal := 0;
     inst_TriggerTime := zero_time; inst_DispatchTime := zero_time; inst_StartedAt := zero_time;
     inst_FinishedAt := zero_time; inst_WorkerID := ""; inst_Status := ""; inst_RetryCount := 0;
     inst_ErrorCode := ""; inst_ErrorMessage := ""; inst_AnalysisJSON := ""; inst_NextRetryTime := zero_time;
     inst_TraceID := ""; inst_CreatedAt := zero_time; inst_UpdatedAt := zero_time |}.

(** A fresh instance of a task, as the composite literals build it. *)
Definition new_pending (taskID : Z) (sid : string) (trigger : Time) (retries shardNo shardTotal : Z) : TaskInstance :=
  {| inst_ID := 0; inst_TaskID := taskID; inst_ScheduleInstanceID := sid; inst_ShardNo := shardNo;
     inst_ShardTotal := shardTotal; inst_TriggerTime := trigger; inst_DispatchTime := zero_time;
     inst_StartedAt := zero_time; inst_FinishedAt := zero_time; inst_WorkerID := ""; inst_Status := "pending";
     inst_RetryCount := retries; inst_ErrorCode := ""; inst_ErrorMessage := ""; inst_AnalysisJSON := "";
     inst_NextRetryTime := zero_time; inst_TraceID := ""; inst_CreatedAt := zero_time;
     inst_UpdatedAt := zero_time |}.

(** ** Retry policy *)

(** [1 << n] on an int64; a shift of 64 or more gives 0. *)
Definition shl64 (n : Z) : Z := if 64 <=? n then 0 else wrap64 (2 ^ n).

Definition retryDelay (retryPolicy : string) (retryCount intervalSeconds : Z) : Duration :=
  if bool_decide (retryPolicy = "exponential_backoff") then
    let d := wrap64 (shl64 retryCount * Second) in
    if 10 * Minute <? d then 10 * Minute else d
  else if bool_decide (retryPolicy = "fixed_interval") then
    if 0 <? intervalSeconds then wrap64 (intervalSeconds * Second) else 0
  else 0.

(** [now] is the reading [time.Since] makes. *)
Definition retryWindowExceeded (now : Time) (instance : TaskInstance) (windowSeconds : Z) : bool :=
  if windowSeconds <=? 0 then false
  else wrap64 (windowSeconds * Second) <? Sub now (inst_TriggerTime instance).

Definition shouldRetryOnErrors (retryPolicy retryOnErrors errorCode : string) : bool :=
  if negb (bool_decide (retryPolicy = "error_code")) || bool_decide (retryOnErrors = "") then true
  else existsb (fun code => bool_decide (TrimSpace code = errorCode)) (Split "," retryOnErrors).

Definition retryScheduleInstanceID (now : Time) (taskID retryCount : Z) : string :=
  "task-" +:+ fmt_d taskID +:+ "-retry-" +:+ fmt_d retryCount +:+ "-" +:+ fmt_d (UnixNano now).

Definition parse_or_zero (s : string) : Time :=
  if bool_decide (s = "") then zero_time else default zero_time (ParseRFC3339Nano s).

Section Runtime.
Context `{Backend} `{Env}.

(** [alerter.Send]: the payload is stamped and posted or logged; nothing comes
    back. *)
Definition alert_Send (t : Task) (i : TaskInstance) (req : TaskStatusReportRequest) : M unit :=
  if negb has_alerter then ret tt else
  now <- Now ;;
  modify (fun w => set_w_alerts
    ({| alert_Type := "task_failure"; alert_TaskID := task_ID t; alert_TaskName := task_Name t;
        alert_InstanceID := inst_ID i; alert_ScheduleInstanceID := inst_ScheduleInstanceID i;
        alert_RetryCount := inst_RetryCount i; alert_MaxRetry := task_MaxRetry t;
        alert_ErrorCode := rep_ErrorCode req; alert_ErrorMessage := rep_ErrorMessage req;
        alert_Timestamp := now |} :: w_alerts w) w).

Definition fire_one (dtID : Z) : M unit :=
  r <-? task_query (GetTask dtID) ;;
  match r with
  | Err _ => ret tt
  | Ok dt =>
      if negb (bool_decide (task_Status dt = "enabled")) then ret tt
      else now <- Now ;;
           _ignore task_op (fun t => UpdateTask t (set_task_NextTriggerTime now dt)) ;; ret tt
  end.

Definition fireDownstream (instance : TaskInstance) : M unit :=
  r <-? task_query (ListDownstreamTasks (inst_TaskID instance)) ;;
  match r with Err _ => ret tt | Ok downstream => for_each fire_one downstream end.

(** The request a retry is dispatched with. *)
Definition retry_request (task : Task) (instance : TaskInstance) (sid : string) (retryCount : Z) : ExecuteTaskRequest :=
  {| req_ScheduleInstanceID := sid; req_TaskID := task_ID task; req_TaskType := task_Type task;
     req_Payload := task_Payload task; req_Image := ""; req_TimeoutSeconds := task_TimeoutSeconds task;
     req_RetryCount := retryCount; req_ShardNo := inst_ShardNo instance;
     req_ShardTotal := inst_ShardTotal instance; req_IdempotencyKey := task_IdempotencyKey task;
     req_SchedulerURL := schedulerURL |}.

(** From the created retry instance to its dispatch. *)
Definition dispatch_retry (task : Task) (instance : TaskInstance) (retryCount : Z) (created : TaskInstance) : M unit :=
  p <-? Pick (task_options task) ;;
  match p with
  | Err e =>
      if bool_decide (e = ErrNoAvailableWorker)
      then _ignore instance_op (fun now => UpdateInstanceStatus now (inst_ID created) "retry_waiting") ;; ret tt
      else fail e
  | Ok worker =>
      dispatchTime <- Now ;;
      u <-? instance_op (fun now => UpdateInstanceDispatch now (inst_ID created) (worker_ID worker)
                                      (FormatRFC3339Nano local dispatchTime)) ;;
      match u with
      | Err e => _ignore Release worker ;; fail e
      | Ok _ =>
          d <-? Dispatch worker (retry_request task instance (inst_ScheduleInstanceID created) retryCount) ;;
          match d with
          | Ok _ => ret tt
          | Err _ =>
              _ignore instance_op (fun now => UpdateInstanceStatus now (inst_ID created) "retry_waiting") ;;
              _ignore Release worker ;; ret tt
          end
      end
  end.

Definition retryIfNeeded (instance : TaskInstance) (req : TaskStatusReportRequest) : M unit :=
  if negb (isRetryableStatus (rep_Status req)) then ret tt else
  task <- task_query (GetTask (inst_TaskID instance)) ;;
  if task_MaxRetry task <=? inst_RetryCount instance then alert_Send task instance req else
  if negb (shouldRetryOnErrors (task_RetryPolicy task) (task_RetryOnErrors task) (rep_ErrorCode req)) then ret tt else
  exceeded <- (if task_RetryWindowSeconds task <=? 0 then ret false
               else now <- Now ;; ret (retryWindowExceeded now instance (task_RetryWindowSeconds task))) ;;
  if (exceeded : bool) then ret tt else
  let retryCount := inst_RetryCount instance + 1 in
  idTime <- Now ;;
  trigger <- Now ;;
  let retryInstance := new_pending (task_ID task) (retryScheduleInstanceID idTime (task_ID task) retryCount)
                         trigger retryCount (inst_ShardNo instance) (inst_ShardTotal instance) in
  let delay := retryDelay (task_RetryPolicy task) retryCount (task_RetryIntervalSeconds task) in
  if 0 <? delay then
    now <- Now ;;
    created <- instance_op (fun t => CreateInstance t
      (set_inst_NextRetryTime (now + delay) (set_inst_Status "retry_waiting" retryInstance))) ;;
    ret tt
  else
    created <- instance_op (fun t => CreateInstance t retryInstance) ;;
    dispatch_retry task instance retryCount created.

Definition report_timestamps (req : TaskStatusReportRequest) : M unit :=
  if bool_decide (rep_StartedAt req = "") && bool_decide (rep_FinishedAt req = "") then ret tt
  else _ignore instance_op (fun now => UpdateInstanceTimestamps now (rep_ScheduleInstanceID req)
                              (parse_or_zero (rep_StartedAt req)) (parse_or_zero (rep_FinishedAt req))) ;;
       ret tt.

(** [go s.analyzeFailedInstance(instance, req)]: the goroutine runs later. *)
Definition spawn_analysis (instance : TaskInstance) (req : TaskStatusReportRequest) : M unit :=
  if bool_decide (rep_Status req = "failed") && has_ai
  then modify (fun w => set_w_jobs ((instance, req) :: w_jobs w) w) else ret tt.

(** The reporting worker gives its slot back. *)
Definition release_reporter (req : TaskStatusReportRequest) : M unit :=
  if bool_decide (rep_WorkerID req = "") then ret tt else
  r <-? worker_query (GetWorker (rep_WorkerID req)) ;;
  match r with
  | Err _ => ret tt
  | Ok worker =>
      let worker := if 0 <? worker_CurrentLoad worker
                    then set_worker_CurrentLoad (worker_CurrentLoad worker - 1) worker else worker in
      worker_op (fun now => UpsertWorker now worker)
  end.

Definition ReportStatus (req : TaskStatusReportRequest) : M unit :=
  if bool_decide (rep_ScheduleInstanceID req = "") then fail ErrScheduleInstanceIDRequired else
  instance <- instance_query (GetInstanceByScheduleID (rep_ScheduleInstanceID req)) ;;
  if isTerminalStatus (inst_Status instance) then ret tt else
  instance_op (fun now => UpdateInstanceResult now (rep_ScheduleInstanceID req) (rep_Status req)
                            (rep_ErrorCode req) (rep_ErrorMessage req)) ;;
  report_timestamps req ;;
  if bool_decide (rep_Status req = "running") then ret tt else
  spawn_analysis instance req ;;
  (if bool_decide (rep_Status req = "success") then fireDownstream instance else ret tt) ;;
  release_reporter req ;;
  retryIfNeeded instance req.

Definition CancelInstance (scheduleInstanceID : string) : M unit :=
  instance <- instance_query (GetInstanceByScheduleID scheduleInstanceID) ;;
  if isTerminalStatus (inst_Status instance)
  then fail (Errorf "instance already in terminal state: %s" [inst_Status instance]) else
  (if bool_decide (inst_WorkerID instance = "") then ret tt
   else r <-? worker_query (GetWorker (inst_WorkerID instance)) ;;
        match r with
        | Err _ => ret tt
        | Ok worker => _ignore CancelDispatch worker scheduleInstanceID ;; ret tt
        end) ;;
  instance_op (fun now => UpdateInstanceResult now scheduleInstanceID "cancelled" "cancelled" "cancelled by user").

(** The text that is analysed. *)
Definition failure_log (task : Task) (req : TaskStatusReportRequest) : string :=
  "[Task: " +:+ task_Name task +:+ " | Timeout: " +:+ fmt_d (task_TimeoutSeconds task) +:+ "s | MaxRetry: "
  +:+ fmt_d (task_MaxRetry task) +:+ " | RetryPolicy: " +:+ task_RetryPolicy task +:+ "]"
  +:+ String (ascii_of_nat 10) (rep_ErrorMessage req).

(** The goroutine: it only reads the task and stores the analysis. *)
Definition analyzeFailedInstance (instance : TaskInstance) (req : TaskStatusReportRequest) : M unit :=
  t <-? task_query (GetTask (inst_TaskID instance)) ;;
  match t with
  | Err _ => ret tt
  | Ok task =>
      analysis <- external (fun n => ai_analyze n (failure_log task req) (rep_ErrorCode req) (task_Type task)
                                       (inst_RetryCount instance) (inst_ID instance)) ;;
      match analysis with
      | Err _ => ret tt
      | Ok json =>
          _ignore instance_op (fun now => UpdateInstanceAnalysis now (inst_ScheduleInstanceID instance) json) ;;
          ret tt
      end
  end.
End Runtime.

(** ** Lifecycle *)

Section RuntimeLifecycle.
Context `{BackendContract} `{Env}.

Lemma tracked_modify (f : World -> World) m0 L S :
  (forall w, w_tasks (f w) = w_tasks w /\ w_instances (f w) = w_instances w /\ w_workers (f w) = w_workers w) ->
  moves (keeps (tracked m0 L S)) (modify (E:=gerror) f).
Proof. intros Hf. by apply tracked_same. Qed.

Lemma tracked_alert t i req m0 L S : moves (keeps (tracked m0 L S)) (alert_Send t i req).
Proof. unfold alert_Send. solve_moves. by apply tracked_modify. Qed.

Lemma tracked_fireDownstream i m0 L S : moves (keeps (tracked m0 L S)) (fireDownstream i).
Proof. unfold fireDownstream, task_query, fire_one, task_query. solve_moves. Qed.

Lemma tracked_dispatch_retry task i n created m0 L S : inst_ID created ∈ L ->
  moves (keeps (tracked m0 L S)) (dispatch_retry task i n created).
Proof. intros Hin. unfold dispatch_retry. solve_moves. Qed.

Lemma tracked_retryIfNeeded i req m0 : moves (keeps (tracked m0 [] [])) (retryIfNeeded i req).
Proof.
  unfold retryIfNeeded, task_query. pose proof tracked_alert. solve_tracked; apply closes_keeps.
  - solve_tracked.
  - apply tracked_dispatch_retry. set_solver.
Qed.

Lemma tracked_release_reporter req m0 L S : moves (keeps (tracked m0 L S)) (release_reporter req).
Proof. unfold release_reporter, worker_query. solve_tracked. Qed.

Lemma tracked_report_timestamps req m0 L S : moves (keeps (tracked m0 L S)) (report_timestamps req).
Proof. unfold report_timestamps. solve_tracked. Qed.

Lemma tracked_spawn i req m0 L S : moves (keeps (tracked m0 L S)) (spawn_analysis i req).
Proof. unfold spawn_analysis. solve_tracked. by apply tracked_modify. Qed.

(** After the lookup, an open instance is indexed under the schedule id. *)
Lemma tracked_lookup {A} sid (open k : TaskInstance -> M A) m0 L :
  (forall i, moves (keeps (tracked m0 L [])) (open i)) ->
  (forall i id, moves (fun w w' => tracked m0 L [(sid, id)] w -> tracked m0 L [] w') (k i)) ->
  moves (keeps (tracked m0 L []))
    (bind (instance_query (GetInstanceByScheduleID sid))
       (fun i => if isTerminalStatus (inst_Status i) then open i else k i)).
Proof.
  intros Ho Hk w (Hw & He & HL & HS). unfold bind, instance_query, reads_res.
  destruct (GetInstanceByScheduleID sid (w_instances w)) as [i|e] eqn:E; [|done].
  destruct (GetInstanceByScheduleID_ok _ _ _ (proj1 (proj2 Hw)) E) as (id & Hs & Hi).
  destruct (isTerminalStatus (inst_Status i)) eqn:Ht; [by apply Ho|].
  apply (Hk i id). split_and!; try done.
  intros sid' id' Hx%list_elem_of_singleton. simplify_eq. split; [done|]. by exists i.
Qed.

(** Sequencing after the operation that closes an instance. *)
Lemma tracked_close {A B} (m : M A) (k : A -> M B) m0 L S :
  moves (fun w w' => tracked m0 L S w -> tracked m0 L [] w') m ->
  (forall a, moves (keeps (tracked m0 L [])) (k a)) ->
  moves (fun w w' => tracked m0 L S w -> tracked m0 L [] w') (bind m k).
Proof.
  intros Hm Hk w Hw. unfold bind. specialize (Hm w Hw). destruct (m w) as [w1 [a|e]]; simpl in *; [|done].
  by apply Hk.
Qed.

Lemma close_result sid id st c msg m0 :
  moves (fun w w' => tracked m0 [] [(sid, id)] w -> tracked m0 [] [] w')
    (instance_op (fun now => UpdateInstanceResult now sid st c msg)).
Proof.
  intros w Hw. exact (tracked_UpdateInstanceResult sid id st c msg m0 [] [(sid, id)] ltac:(set_solver) w Hw).
Qed.

Lemma ReportStatus_lifecycle req : moves lifecycle (ReportStatus req).
Proof.
  apply lifecycle_intro. intros m0. unfold ReportStatus.
  destruct (bool_decide _); [auto with moves|]. apply tracked_lookup; [auto with moves|].
  intros i id. apply tracked_close; [apply close_result|]. intros _.
  pose proof tracked_report_timestamps. pose proof tracked_spawn. pose proof tracked_fireDownstream.
  pose proof tracked_release_reporter. pose proof tracked_retryIfNeeded. solve_tracked.
Qed.

Lemma CancelInstance_lifecycle sid : moves lifecycle (CancelInstance sid).
Proof.
  apply lifecycle_intro. intros m0. unfold CancelInstance. apply tracked_lookup; [auto with moves|].
  intros i id w Hw. unfold bind. 
  match goal with |- context [match ?m w with _ => _ end] =>
    assert (moves (keeps (tracked m0 [] [(sid, id)])) m) as Hm by (unfold worker_query; solve_tracked);
    specialize (Hm w Hw); destruct (m w) as [w1 [[]|e]] end; simpl in Hm.
  - by apply (close_result sid id).
  - destruct Hm as (? & ? & ? & ?). split_and!; try done. intros *; by intros ?%elem_of_nil.
Qed.

Lemma analyze_lifecycle i req : moves lifecycle (analyzeFailedInstance i req).
Proof. apply lifecycle_intro. intros m0. unfold analyzeFailedInstance, task_query. solve_tracked. Qed.
End RuntimeLifecycle.

(** ** Retry policy *)

(** Exponential backoff on the retries where it is meant to work: the [n]-th retry
    waits 2^n seconds, capped at ten minutes, for every n up to 33. *)
Theorem retryDelay_backoff n interval : 0 <= n <= 33 ->
  retryDelay "exponential_backoff" n interval = Z.min (2 ^ n * Second) (10 * Minute).
Proof.
  intros Hn. enough (forall k, 0 <= k <= 33 ->
    (retryDelay "exponential_backoff" k 0 =? Z.min (2 ^ k * Second) (10 * Minute)) = true) as Hf.
  { specialize (Hf n Hn). apply Z.eqb_eq in Hf. exact Hf. }
  apply forallb_zrange. by vm_compute.
Qed.

Lemma retryDelay_backoff_witness : retryDelay "exponential_backoff" 12 0 = 10 * Minute.
Proof. apply (retryDelay_backoff 12 0). lia. Defined.

(** From the 34th retry on the int64 product overflows: the delay is negative at 34
    and zero for every n from 55 on, so the retry is immediate instead of capped. *)
Theorem retryDelay_overflow n interval :
  retryDelay "exponential_backoff" 34 interval < 0 /\
  (55 <= n -> retryDelay "exponential_backoff" n interval = 0).
Proof.
  split; [by vm_compute|]. intros Hn. unfold retryDelay. rewrite bool_decide_true by done. cbv zeta.
  assert (wrap64 (shl64 n * Second) = 0) as ->; [|done]. unfold shl64.
  destruct (Z.leb_spec 64 n); [done|].
  enough (forall k, 55 <= k <= 63 -> (wrap64 (wrap64 (2 ^ k) * Second) =? 0) = true) as Hf
    by (specialize (Hf n ltac:(lia)); lia).
  apply forallb_zrange. by vm_compute.
Qed.

Lemma retryDelay_overflow_witness :
  retryDelay "exponential_backoff" 34 0 < 0 /\ (55 <= 60 -> retryDelay "exponential_backoff" 60 0 = 0).
Proof. apply (retryDelay_overflow 60 0). Defined.

(** The error-code policy: a code is retried exactly when the policy is another
    one, no list is configured, or a trimmed entry of the comma-separated list
    equals it. *)
Theorem shouldRetryOnErrors_spec policy codes code :
  shouldRetryOnErrors policy codes code = true <->
  policy <> "error_code" \/ codes = "" \/ exists c, c ∈ Split "," codes /\ TrimSpace c = code.
Proof.
  unfold shouldRetryOnErrors.
  destruct (decide (policy = "error_code")) as [->|Hp]; [|rewrite bool_decide_false by done; simpl; tauto].
  rewrite bool_decide_true by done. case_bool_decide as Hc; simpl; [tauto|].
  rewrite existsb_exists. split.
  - intros (c & Hin & Hb). right; right. exists c. split; [by apply list_elem_of_In|].
    by apply bool_decide_eq_true in Hb.
  - intros [|[|(c & Hin & Hb)]]; [done..|]. exists c. split; [by apply list_elem_of_In|].
    by apply bool_decide_eq_true.
Qed.

Section RuntimeProperties.
Context `{BackendSpec} `{Env}.

Abbreviation insts w := (insts_of (w_instances w)).
Abbreviation sched w := (sched_of (w_instances w)).
Abbreviation tasks w := (tasks_of (w_tasks w)).
Abbreviation workers w := (workers_of (w_workers w)).

(** ** What a report creates *)

(** The retry of [i] under the limit of [t]. *)
Definition retry_of (i : TaskInstance) (t : Task) (x : TaskInstance) : Prop :=
  inst_TaskID x = task_ID t /\ inst_RetryCount x = inst_RetryCount i + 1 /\
  inst_RetryCount x <= task_MaxRetry t /\ inst_ShardNo x = inst_ShardNo i /\ inst_ShardTotal x = inst_ShardTotal i.

Lemma retry_of_core i t x x' : same_core x x' -> retry_of i t x -> retry_of i t x'.
Proof. intros (?&?&?&?&?) (?&?&?&?&?). unfold retry_of. split_and!; congruence || lia. Qed.

(** [P] holds of the retry the current task row allows. *)
Definition allows (P : TaskInstance -> Prop) (i : TaskInstance) (w : World) : Prop :=
  forall t x, GetTask (inst_TaskID i) (w_tasks w) = Ok t -> retry_of i t x -> P x.

Lemma born_alert t i req P m0 : moves (keeps (born P m0)) (alert_Send t i req).
Proof. unfold alert_Send. solve_moves; by apply born_same. Qed.

Lemma born_dispatch_retry P task i n created m0 : (forall i i', same_core i i' -> P i -> P i') ->
  moves (keeps (born P m0)) (dispatch_retry task i n created).
Proof. intros HP. unfold dispatch_retry. solve_moves. Qed.

Lemma born_retryIfNeeded P i req m0 w : (forall i i', same_core i i' -> P i -> P i') ->
  (isRetryableStatus (rep_Status req) = true -> allows P i w) ->
  born P m0 w -> born P m0 (retryIfNeeded i req w).1.
Proof.
  intros HP Ha Hb. unfold retryIfNeeded. destruct (isRetryableStatus _); [|done]. specialize (Ha eq_refl).
  unfold bind at 1, task_query, reads_res. cbn [negb].
  destruct (GetTask (inst_TaskID i) (w_tasks w)) as [t|e] eqn:Ht; [|done].
  match goal with |- born P m0 (?m w).1 => enough (moves (keeps (born P m0)) m) as Hm by exact (Hm w Hb) end.
  destruct (Z.leb_spec (task_MaxRetry t) (inst_RetryCount i)); [apply born_alert|].
  pose proof (born_dispatch_retry P t i (inst_RetryCount i + 1)) as Hd.
  assert (forall sid trig, P (new_pending (task_ID t) sid trig (inst_RetryCount i + 1) (inst_ShardNo i) (inst_ShardTotal i))) as Hnew.
  { intros sid trig. apply (Ha t); [done|]. unfold retry_of. simpl. split_and!; try done; lia. }
  assert (forall sid trig x, P (set_inst_NextRetryTime x (set_inst_Status "retry_waiting"
    (new_pending (task_ID t) sid trig (inst_RetryCount i + 1) (inst_ShardNo i) (inst_ShardTotal i))))) as Hnew'.
  { intros sid trig x. eapply HP; [|apply (Hnew sid trig)]. done. }
  solve_tracked.
Qed.

(** Keeps the book of new instances and the task rows. *)
Definition books (P : TaskInstance -> Prop) (m0 : gmap Z TaskInstance) (w w' : World) : Prop :=
  (born P m0 w -> born P m0 w') /\ w_tasks w' = w_tasks w.

#[local] Instance books_preorder P m0 : PreOrder (books P m0).
Proof. split; [done|]. intros x y z [? Hxy] [? Hyz]. split; [auto|]. by rewrite Hyz. Qed.

Lemma books_intro {A} (m : M A) P m0 : moves (keeps (born P m0)) m ->
  (forall w, w_tasks (m w).1 = w_tasks w) -> moves (books P m0) m.
Proof. intros Hm Ht w. split; [apply Hm|apply Ht]. Qed.

Lemma books_instance_op {A} (f : Time -> IS -> IS * result A) P m0 :
  moves (keeps (born P m0)) (instance_op f) -> moves (books P m0) (instance_op f).
Proof. intros Hm. apply books_intro; [done|]. intros w. unfold instance_op. by destruct (f _ _). Qed.

Lemma books_upsert worker P m0 : moves (books P m0) (worker_op (fun now => UpsertWorker now worker)).
Proof.
  apply books_intro; [apply born_upsert|]. intros w. unfold worker_op. by destruct (UpsertWorker _ _ _).
Qed.

Lemma books_spawn i req P m0 : moves (books P m0) (spawn_analysis i req).
Proof. unfold spawn_analysis. solve_moves. apply books_intro; [by apply born_same|done]. Qed.

Lemma books_timestamps req P m0 : (forall i i', same_core i i' -> P i -> P i') ->
  moves (books P m0) (report_timestamps req).
Proof.
  intros HP. unfold report_timestamps. solve_moves. by apply books_instance_op, born_UpdateInstanceTimestamps.
Qed.

Lemma books_release req P m0 : moves (books P m0) (release_reporter req).
Proof. pose proof books_upsert. unfold release_reporter, worker_query. solve_moves. Qed.

(** A report opens with the lookup: either nothing else happens, or the rest runs
    on an open instance. *)
Lemma ReportStatus_open (Q : World -> Prop) req w :
  Q w ->
  (forall i, rep_ScheduleInstanceID req <> "" ->
     GetInstanceByScheduleID (rep_ScheduleInstanceID req) (w_instances w) = Ok i ->
     isTerminalStatus (inst_Status i) = false ->
     Q (bind (instance_op (fun now => UpdateInstanceResult now (rep_ScheduleInstanceID req) (rep_Status req)
                            (rep_ErrorCode req) (rep_ErrorMessage req))) (fun _ =>
          report_timestamps req ;;
          if bool_decide (rep_Status req = "running") then ret tt else
          spawn_analysis i req ;;
          (if bool_decide (rep_Status req = "success") then fireDownstream i else ret tt) ;;
          release_reporter req ;;
          retryIfNeeded i req)%prog w).1) ->
  Q (ReportStatus req w).1.
Proof.
  intros Hw Hk. unfold ReportStatus.
  destruct (bool_decide (rep_ScheduleInstanceID req = "")) eqn:Hsid; [done|].
  apply bool_decide_eq_false in Hsid.
  unfold bind at 1, instance_query, reads_res.
  destruct (GetInstanceByScheduleID _ _) as [i|e] eqn:E; [|done].
  destruct (isTerminalStatus (inst_Status i)) eqn:Ht; [done|]. by apply Hk.
Qed.

(** C9. Retries are bounded: an instance that appears while a status report is handled
    is a retry of the reported instance, which was still open; the report said
    failed or timeout; it belongs to the same task and shard, counts one more
    attempt, and the count does not exceed the task's maximum. *)
Theorem ReportStatus_retry_bound req w id x :
  world_inv w ->
  insts (ReportStatus req w).1 !! id = Some x -> insts w !! id = None ->
  exists i t, GetInstanceByScheduleID (rep_ScheduleInstanceID req) (w_instances w) = Ok i /\
    isTerminalStatus (inst_Status i) = false /\ isRetryableStatus (rep_Status req) = true /\
    tasks w !! inst_TaskID i = Some t /\ retry_of i t x.
Proof.
  intros Hw. revert id x.
  set (P := fun x => exists i t, GetInstanceByScheduleID (rep_ScheduleInstanceID req) (w_instances w) = Ok i /\
    isTerminalStatus (inst_Status i) = false /\ isRetryableStatus (rep_Status req) = true /\
    tasks w !! inst_TaskID i = Some t /\ retry_of i t x).
  assert (forall i i', same_core i i' -> P i -> P i') as HP.
  { intros a b Hab (i & t & ? & ? & ? & ? & ?). exists i, t. split_and!; try done. by eapply retry_of_core. }
  enough (born P (insts w) (ReportStatus req w).1) as [_ Hb].
  { intros id x Hx Hn. destruct (Hb id x Hx) as [[y Hy]|]; [by rewrite Hn in Hy|done]. }
  assert (born P (insts w) w) as H0w by (split; [done|]; intros k y Hy; left; by eexists).
  apply ReportStatus_open; [done|]. intros i Hsid Hi Ht.
  assert (forall w1, books P (insts w) w w1 -> born P (insts w) w1) as Hdone by (intros w1 [Hb _]; auto).
  apply (run_bind (books P (insts w)));
    [by apply books_instance_op, born_UpdateInstanceResult|done|intros _ w1 H1w].
  apply (run_bind (books P (insts w))); [by apply books_timestamps|intros w2 H2w; apply Hdone; by etrans|].
  intros _ w2 H2w. assert (books P (insts w) w w2) as Hb2 by (by etrans). clear w1 H1w H2w.
  destruct (bool_decide (rep_Status req = "running")); [by apply Hdone|].
  apply (run_bind (books P (insts w))); [apply books_spawn|intros w3 H3w; apply Hdone; by etrans|].
  intros _ w3 H3w. assert (books P (insts w) w w3) as Hb3 by (by etrans). clear w2 Hb2 H3w.
  destruct (decide (rep_Status req = "success")) as [Hsucc|Hsucc].
  - rewrite bool_decide_true by done.
    assert (moves (keeps (born P (insts w))) (bind (fireDownstream i) (fun _ =>
      bind (release_reporter req) (fun _ => retryIfNeeded i req)))) as Hm; [|apply Hm; by apply Hdone].
    assert (retryIfNeeded i req = ret tt) as -> by (unfold retryIfNeeded; by rewrite Hsucc).
    assert (moves (keeps (born P (insts w))) (release_reporter req)) as Hr 
      by (intros w'; exact (proj1 (books_release req P (insts w) w'))).
    unfold fireDownstream, task_query, fire_one, task_query. solve_moves.
  - rewrite bool_decide_false by done.
    apply (run_bind (books P (insts w))); [apply moves_ret, _|intros w4 H4w; apply Hdone; by etrans|].
    intros _ w4 H4w. assert (books P (insts w) w w4) as Hb4 by (by etrans). clear w3 Hb3 H4w.
    apply (run_bind (books P (insts w))); [apply books_release|intros w5 H5w; apply Hdone; by etrans|].
    intros _ w5 H5w. assert (books P (insts w) w w5) as [Hb5 Htasks] by (by etrans).
    apply born_retryIfNeeded; [done| |auto]. intros Hret t x Hgt Hx. rewrite Htasks in Hgt.
    exists i, t. split_and!; try done. by apply GetTask_ok.
Qed.

(** ** Cancellation *)

(** A report under a schedule id whose instance is closed, or unknown, changes nothing. *)
Lemma report_closed req w :
  (forall i, GetInstanceByScheduleID (rep_ScheduleInstanceID req) (w_instances w) = Ok i ->
     isTerminalStatus (inst_Status i) = true) ->
  (ReportStatus req w).1 = w.
Proof.
  intros Hc. apply (ReportStatus_open (fun w' => w' = w)); [done|]. intros i _ Hi Ht.
  by rewrite (Hc i Hi) in Ht.
Qed.

Lemma CancelInstance_run sid w w' : CancelInstance sid w = (w', Ok tt) ->
  w_workers w' = w_workers w /\ exists now s1, s1 = w_instances w /\
    UpdateInstanceResult now sid "cancelled" "cancelled" "cancelled by user" s1 = (w_instances w', Ok tt).
Proof.
  unfold CancelInstance. unfold bind at 1, instance_query, reads_res.
  destruct (GetInstanceByScheduleID sid (w_instances w)) as [i|e]; [|done].
  destruct (isTerminalStatus _); [done|]. unfold bind.
  match goal with |- context [match ?m w with _ => _ end] =>
    assert (moves only_network m) as Hm
      by (pose proof CancelDispatch_network; unfold worker_query; solve_moves);
    specialize (Hm w); destruct (m w) as [w1 [[]|e]] end; [|done].
  destruct Hm as (_ & Hi & Hw & _). simpl in Hi, Hw. unfold instance_op. rewrite Hi.
  destruct (UpdateInstanceResult _ sid _ _ _ _) as [s r] eqn:E. intros [= <- ->]. simpl.
  split; [done|]. by exists (clock (w_reads w1)), (w_instances w).
Qed.

(** A cancelled instance keeps its worker's slot: cancelling leaves every worker's
    load as it was, and every later report for the instance is ignored, so no
    report ever gives the slot back. *)
Theorem cancel_keeps_slot sid w w' req :
  world_inv w -> CancelInstance sid w = (w', Ok tt) -> rep_ScheduleInstanceID req = sid ->
  w_workers w' = w_workers w /\ (ReportStatus req w').1 = w'.
Proof.
  intros (_ & Hi & _) Hc Hs. destruct (CancelInstance_run sid w w' Hc) as (Hw & now & s1 & -> & Hu).
  split; [done|]. destruct (UpdateInstanceResult_ok _ _ _ _ _ _ _ _ Hi Hu) as (Hi1 & (id & Hid & Hm) & Hsched).
  apply report_closed. rewrite Hs. intros i Hg.
  destruct (GetInstanceByScheduleID_ok _ _ _ Hi1 Hg) as (id' & Hid' & Hi'). rewrite Hsched, Hid in Hid'.
  injection Hid' as <-. rewrite Hm, lookup_alter_eq in Hi'. by apply fmap_Some in Hi' as (x & _ & ->).
Qed.

(** ** Downstream tasks *)

(** A row whose trigger time was set to a reading of the clock. *)
Definition advanced (t t' : Task) : Prop :=
  exists n now v, t' = set_task_Version v (set_task_UpdatedAt now (set_task_NextTriggerTime (clock n) t)).

(** What firing the listed tasks does to the task rows. *)
Definition fired (ids : list Z) (m m' : gmap Z Task) : Prop :=
  forall id, match m !! id with
             | None => m' !! id = None
             | Some t => exists t', m' !! id = Some t' /\
                 (if bool_decide (id ∈ ids /\ task_Status t = "enabled") then advanced t t' else t' = t)
             end.

Context `{!BackendReliable}.

Lemma fire_one_run id w : world_inv w ->
  exists w', fire_one id w = (w', Ok tt) /\ world_inv w' /\ fired [id] (tasks w) (tasks w') /\
    deps_of_store (w_tasks w') = deps_of_store (w_tasks w) /\
    w_instances w' = w_instances w /\ w_workers w' = w_workers w /\ w_sent w' = w_sent w.
Proof.
  intros (Ht & Hi & Hw). unfold fire_one, attempt at 1, task_query, reads_res.
  assert (forall k, k <> id -> forall t' : Task, bool_decide (k ∈ [id] /\ task_Status t' = "enabled") = false) as Hother.
  { intros k Hk t'. apply bool_decide_eq_false. set_solver. }
  assert (forall t, tasks w !! id = Some t -> task_Status t <> "enabled" -> fired [id] (tasks w) (tasks w)) as Hsame.
  { intros t Hid Hst k. destruct (tasks w !! k) as [y|] eqn:Hk; [|done]. exists y. split; [done|].
    rewrite bool_decide_false; [done|]. intros [->%list_elem_of_singleton ?]. congruence. }
  destruct (GetTask id (w_tasks w)) as [t|e] eqn:Hg.
  - pose proof (GetTask_ok _ _ _ Hg) as Hid. case_bool_decide as Hst; cbn [negb].
    + unfold bind, Now, attempt, task_op, ret. simpl.
      pose proof (tasks_inv_id _ _ _ Ht Hid) as Heq.
      destruct (UpdateTask_total (clock (S (w_reads w))) (set_task_NextTriggerTime (clock (w_reads w)) t)
        (w_tasks w) t) as (s' & t' & Hu); [simpl; by rewrite Heq|].
      rewrite Hu. destruct (UpdateTask_ok _ _ _ _ _ Ht Hu) as (Ht' & (cur & Hcur & Ht'e) & Hm & Hd).
      simpl in Hcur, Hm. rewrite Heq in Hcur, Hm. rewrite Hid in Hcur. injection Hcur as <-.
      eexists. split; [done|]. simpl. split_and!; try done. intros k. rewrite Hm.
      destruct (decide (k = id)) as [->|Hne].
      * rewrite Hid, lookup_insert_eq. exists t'. split; [done|]. rewrite bool_decide_true by set_solver.
        rewrite Ht'e. exists (w_reads w), (clock (S (w_reads w))), (wrap64 (task_Version t + 1)). by destruct t.
      * rewrite lookup_insert_ne by done. destruct (tasks w !! k) as [y|]; [|done]. exists y.
        by rewrite Hother.
    + exists w. split_and!; try done. by eapply Hsame.
  - exists w. split_and!; try done. intros k. destruct (tasks w !! k) as [y|] eqn:Hk; [|done]. exists y.
    split; [done|]. rewrite Hother; [done|]. intros ->. by rewrite (GetTask_total _ _ _ Hk) in Hg.
Qed.

Lemma advanced_trans t t1 t2 : advanced t t1 -> advanced t1 t2 -> advanced t t2.
Proof. intros (n & a & v & ->) (n' & a' & v' & ->). exists n', a', v'. by destruct t. Qed.

Lemma advanced_status t t' : advanced t t' -> task_Status t' = task_Status t.
Proof. by intros (n & a & v & ->). Qed.

Lemma fired_cons a ids m m1 m2 : fired [a] m m1 -> fired ids m1 m2 -> fired (a :: ids) m m2.
Proof.
  intros H1m H2m id. specialize (H1m id). specialize (H2m id).
  destruct (m !! id) as [t|]; [|by rewrite H1m in H2m].
  destruct H1m as (t1 & Ht1 & Hc1). rewrite Ht1 in H2m. destruct H2m as (t2 & Ht2 & Hc2).
  exists t2. split; [done|].
  destruct (decide (task_Status t = "enabled")) as [He|He].
  - destruct (decide (id = a)) as [->|Hne].
    + rewrite bool_decide_true in Hc1 by set_solver. rewrite bool_decide_true by set_solver.
      case_bool_decide; [by eapply advanced_trans|by subst].
    + rewrite bool_decide_false in Hc1 by set_solver. subst t1.
      case_bool_decide as Hb; [rewrite bool_decide_true by set_solver; done|].
      rewrite bool_decide_false by set_solver. done.
  - rewrite bool_decide_false in Hc1 by tauto. subst t1. rewrite bool_decide_false in Hc2 by tauto.
    by rewrite bool_decide_false by tauto.
Qed.

Lemma fire_all_run ids w : world_inv w ->
  exists w', for_each fire_one ids w = (w', Ok tt) /\ world_inv w' /\ fired ids (tasks w) (tasks w') /\
    w_instances w' = w_instances w /\ w_workers w' = w_workers w /\ w_sent w' = w_sent w.
Proof.
  revert w. induction ids as [|a ids IH]; intros w Hw.
  - exists w. split_and!; try done. intros id. destruct (tasks w !! id) as [t|] eqn:E; [|done]. exists t.
    rewrite bool_decide_false by set_solver. done.
  - destruct (fire_one_run a w Hw) as (w1 & Hr & Hw1 & Hf & _ & ? & ? & ?).
    destruct (IH w1 Hw1) as (w2 & Hr2 & Hw2 & Hf2 & ? & ? & ?).
    exists w2. cbn [for_each]. unfold bind. rewrite Hr, Hr2. split_and!; try congruence || done.
    by eapply fired_cons.
Qed.

(** The load after the reporting worker has given its slot back. *)
Definition released (load : Z) : Z := if 0 <? load then load - 1 else load.

Lemma release_reporter_run req w : world_inv w ->
  exists w', release_reporter req w = (w', Ok tt) /\ world_inv w' /\
    w_tasks w' = w_tasks w /\ w_instances w' = w_instances w /\ w_sent w' = w_sent w /\
    forall id, worker_CurrentLoad <$> workers w' !! id =
      if bool_decide (id = rep_WorkerID req /\ id <> "") then released <$> (worker_CurrentLoad <$> workers w !! id)
      else worker_CurrentLoad <$> workers w !! id.
Proof.
  intros (Hti & Hii & Hw). unfold release_reporter. case_bool_decide as Hid.
  { exists w. split_and!; try done. intros id. rewrite bool_decide_false; [done|]. intros [-> ?]. done. }
  unfold attempt, worker_query, reads_res.
  destruct (GetWorker (rep_WorkerID req) (w_workers w)) as [x|e] eqn:Hg.
  - pose proof (GetWorker_ok _ _ _ Hg) as Hx. pose proof (workers_inv_id _ _ _ Hw Hx) as Hxid.
    unfold worker_op. set (x' := if 0 <? worker_CurrentLoad x then _ else _).
    assert (worker_ID x' = worker_ID x /\ worker_CurrentLoad x' = released (worker_CurrentLoad x)) as [Hx1 Hx2]
      by (subst x'; unfold released; by case_match).
    destruct (UpsertWorker_total (clock (w_reads w)) x' (w_workers w)) as [s Hs]. rewrite Hs.
    destruct (UpsertWorker_ok _ _ _ _ _ Hw Hs) as [Hsi Hm]. eexists. split; [done|]. split; [by repeat split|]. simpl. split_and!; try done.
    intros id. rewrite Hm, Hx1, Hxid. destruct (decide (id = rep_WorkerID req)) as [->|Hne].
    + rewrite lookup_insert_eq, Hx, bool_decide_true by done. simpl. f_equal. rewrite <- Hx2.
      unfold stamped. by case_match.
    + rewrite lookup_insert_ne by done. by rewrite bool_decide_false by tauto.
  - exists w. split_and!; try done. intros id. case_bool_decide as Hb; [|done]. destruct Hb as [-> _].
    destruct (workers w !! rep_WorkerID req) eqn:E; [|done]. by rewrite (GetWorker_total _ _ _ E) in Hg.
Qed.

(** What the time stamps of a report do to the row of its instance: nothing when there are
    none; otherwise those that can be parsed are set. *)
Definition timed_row (req : TaskStatusReportRequest) (now : Time) (i : TaskInstance) : TaskInstance :=
  if bool_decide (rep_StartedAt req = "") && bool_decide (rep_FinishedAt req = "") then i
  else with_timestamps now (parse_or_zero (rep_StartedAt req)) (parse_or_zero (rep_FinishedAt req)) i.

Lemma timed_outcome req now i : keeps_outcome i (timed_row req now i).
Proof. unfold timed_row. case_match; [done|apply with_timestamps_outcome]. Qed.

Lemma timed_worker req now i : inst_WorkerID (timed_row req now i) = inst_WorkerID i.
Proof. unfold timed_row, with_timestamps. by repeat case_match. Qed.

Lemma report_timestamps_run req w id i : world_inv w -> sched w !! rep_ScheduleInstanceID req = Some id -> insts w !! id = Some i ->
  exists w' now, report_timestamps req w = (w', Ok tt) /\ world_inv w' /\
    insts w' = <[id := timed_row req now i]> (insts w) /\ sched w' = sched w /\
    w_tasks w' = w_tasks w /\ w_workers w' = w_workers w /\ w_sent w' = w_sent w.
Proof.
  intros (Ht & Hi & Hw) Hs Hrow. unfold report_timestamps, timed_row.
  destruct (bool_decide (rep_StartedAt req = "") && bool_decide (rep_FinishedAt req = "")) eqn:Hb.
  { exists w, zero_time. split_and!; try done. by rewrite insert_id. }
  unfold attempt, instance_op.
  destruct (UpdateInstanceTimestamps_total (clock (w_reads w)) (rep_ScheduleInstanceID req) (parse_or_zero (rep_StartedAt req))
    (parse_or_zero (rep_FinishedAt req)) (w_instances w) id i Hs Hrow) as [s Hu]. rewrite Hu.
  destruct (UpdateInstanceTimestamps_ok _ _ _ _ _ _ _ Hi Hu) as (Hi' & (id' & Hid & Hm) & Hsc). rewrite Hs in Hid. injection Hid as <-.
  eexists _, (clock (w_reads w)). split; [done|]. split; [by repeat split|]. split; [|done]. simpl. rewrite Hm. by apply alter_insert_some.
Qed.

(** Up to the first test of the status, a report for an open instance only writes its row. *)
Lemma report_row_run req w id i : world_inv w -> rep_ScheduleInstanceID req <> "" ->
  sched w !! rep_ScheduleInstanceID req = Some id -> insts w !! id = Some i -> isTerminalStatus (inst_Status i) = false ->
  exists w' now now', world_inv w' /\
    ReportStatus req w = (if bool_decide (rep_Status req = "running") then ret tt else
      spawn_analysis i req ;; (if bool_decide (rep_Status req = "success") then fireDownstream i else ret tt) ;;
      release_reporter req ;; retryIfNeeded i req)%prog w' /\
    insts w' = <[id := timed_row req now' (with_result now (rep_Status req) (rep_ErrorCode req) (rep_ErrorMessage req) i)]> (insts w) /\
    sched w' = sched w /\ w_tasks w' = w_tasks w /\ w_workers w' = w_workers w /\ w_sent w' = w_sent w.
Proof.
  intros (Hti & Hii & Hwi) Hne Hs Hi Ht. unfold ReportStatus.
  rewrite bool_decide_false by done. unfold bind at 1, instance_query, reads_res.
  rewrite (GetInstanceByScheduleID_total _ _ _ _ Hs Hi), Ht. unfold bind at 1, instance_op at 1.
  destruct (UpdateInstanceResult_total (clock (w_reads w)) (rep_ScheduleInstanceID req) (rep_Status req)
    (rep_ErrorCode req) (rep_ErrorMessage req) (w_instances w) id i Hs Hi) as [s Hu]. rewrite Hu.
  destruct (UpdateInstanceResult_ok _ _ _ _ _ _ _ _ Hii Hu) as (Hsi & (id' & Hid' & Hm) & Hsc).
  rewrite Hs in Hid'. injection Hid' as <-.
  set (w1 := set_w_instances s (set_w_reads (S (w_reads w)) w)).
  rewrite (alter_insert_some _ _ _ _ Hi) in Hm.
  destruct (report_timestamps_run req w1 id (with_result (clock (w_reads w)) (rep_Status req) (rep_ErrorCode req) (rep_ErrorMessage req) i))
    as (w2 & now' & Hr & Hw2 & Hi2 & Hs2 & Ht2 & Hwk2 & Hse2); [by repeat split|simpl; by rewrite Hsc|simpl; rewrite Hm; apply lookup_insert_eq|].
  exists w2, (clock (w_reads w)), now'. split; [done|]. split; [unfold bind at 1; by rewrite Hr|].
  rewrite Hi2, Hs2, Ht2, Hwk2, Hse2. simpl. split_and!; try done. by rewrite Hm, insert_insert_eq.
Qed.

(** A report of "running" writes the row and nothing else. *)
Lemma report_running_run req w id i : world_inv w -> rep_ScheduleInstanceID req <> "" -> rep_Status req = "running" ->
  sched w !! rep_ScheduleInstanceID req = Some id -> insts w !! id = Some i -> isTerminalStatus (inst_Status i) = false ->
  exists w' now now', world_inv w' /\ ReportStatus req w = (w', Ok tt) /\
    insts w' = <[id := timed_row req now' (with_result now "running" (rep_ErrorCode req) (rep_ErrorMessage req) i)]> (insts w) /\
    sched w' = sched w /\ w_tasks w' = w_tasks w /\ w_workers w' = w_workers w /\ w_sent w' = w_sent w.
Proof.
  intros Hw Hne Hst Hs Hi Ht. destruct (report_row_run req w id i) as (w' & now & now' & Hw' & Hr & Hrest); try done.
  rewrite Hst in *. exists w', now, now'. split_and!; naive_solver.
Qed.

Lemma report_success_run req w id i : world_inv w -> rep_ScheduleInstanceID req <> "" -> rep_Status req = "success" ->
  sched w !! rep_ScheduleInstanceID req = Some id -> insts w !! id = Some i -> isTerminalStatus (inst_Status i) = false ->
  exists w' now now', ReportStatus req w = (w', Ok tt) /\
    insts w' = <[id := timed_row req now' (with_result now "success" (rep_ErrorCode req) (rep_ErrorMessage req) i)]> (insts w) /\
    fired (dep_TaskID <$> filter (fun d => dep_DependsOnTaskID d = inst_TaskID i) (deps_of_store (w_tasks w)))
      (tasks w) (tasks w') /\
    (forall wid, worker_CurrentLoad <$> workers w' !! wid =
      if bool_decide (wid = rep_WorkerID req /\ wid <> "") then released <$> (worker_CurrentLoad <$> workers w !! wid)
      else worker_CurrentLoad <$> workers w !! wid) /\
    w_sent w' = w_sent w.
Proof.
  intros Hw Hne Hst Hs Hi Ht. destruct (report_row_run req w id i) as (w1 & now & now' & Hw1 & -> & Hi1 & _ & Ht1 & Hwk1 & Hs1); try done.
  rewrite Hst in *. rewrite bool_decide_false by done. rewrite bool_decide_true by done.
  assert (spawn_analysis i req = ret tt) as -> by (unfold spawn_analysis; by rewrite Hst).
  assert (retryIfNeeded i req = ret tt) as -> by (unfold retryIfNeeded; by rewrite Hst).
  unfold bind at 1, ret at 1. unfold bind at 1, fireDownstream, attempt, task_query, reads_res.
  destruct (ListDownstreamTasks_total (w_tasks w1) (inst_TaskID i)) as [ids Hids]. rewrite Hids.
  destruct (fire_all_run ids w1) as (w2 & -> & Hw2 & Hfi & Hi2 & Hwk2 & Hs2); [done|].
  destruct (release_reporter_run req w2 Hw2) as (w3 & Hr & _ & Ht3 & Hi3 & Hs3 & Hload).
  unfold bind. rewrite Hr. unfold ret. exists w3, now, now'. split; [done|].
  apply ListDownstreamTasks_ok in Hids. rewrite Hi3, Hi2, Ht3, Hs3, Hs2. rewrite Hids, Ht1 in Hfi. rewrite Hwk2, Hwk1 in Hload. by split_and!.
Qed.

(** C26. Over repositories that do not fail, a success report for an open instance does
    exactly this: the instance is marked successful with the report's code and message, and
    gets those of the report's start and finish times that can be parsed ([timed_row]), and
    no other instance changes; every enabled task that depends on its task becomes due now
    and no other task changes; the reporting worker's load drops by one and no other load
    changes; nothing is sent. *)
Theorem ReportStatus_success req w id i :
  world_inv w -> rep_ScheduleInstanceID req <> "" -> rep_Status req = "success" ->
  sched w !! rep_ScheduleInstanceID req = Some id -> insts w !! id = Some i ->
  isTerminalStatus (inst_Status i) = false ->
  exists w' now now', ReportStatus req w = (w', Ok tt) /\
    insts w' = <[id := timed_row req now' (with_result now "success" (rep_ErrorCode req) (rep_ErrorMessage req) i)]> (insts w) /\
    fired (dep_TaskID <$> filter (fun d => dep_DependsOnTaskID d = inst_TaskID i) (deps_of_store (w_tasks w)))
      (tasks w) (tasks w') /\
    (forall wid, worker_CurrentLoad <$> workers w' !! wid =
      if bool_decide (wid = rep_WorkerID req /\ wid <> "") then released <$> (worker_CurrentLoad <$> workers w !! wid)
      else worker_CurrentLoad <$> workers w !! wid) /\
    w_sent w' = w_sent w.
Proof. apply report_success_run. Qed.
End RuntimeProperties.

(** ** Evaluation on a small world *)

(** One task with one instance running on worker "a". *)
Definition running_world : World :=
  world_with [sample_task] [sample_instance 1 "s1" "dispatched" "a" 0] [worker_named "a" 1; worker_named "b" 0].

Definition report (st : string) : TaskStatusReportRequest := mkReport "s1" "a" st "exit" "boom" "" "".

Definition after_report (st : string) : World :=
  (@ReportStatus test_backend (answering 200) (report st) running_world).1.

(** The retry a failure report creates. *)
Definition created_retry : TaskInstance := default zero_instance (is_instances (w_instances (after_report "failed")) !! 2).

Lemma ReportStatus_retry_bound_witness :
  exists i t, is_GetInstanceByScheduleID "s1" (w_instances running_world) = Ok i /\
    isTerminalStatus (inst_Status i) = false /\ isRetryableStatus "failed" = true /\
    ts_tasks (w_tasks running_world) !! inst_TaskID i = Some t /\ retry_of i t created_retry.
Proof.
  apply (@ReportStatus_retry_bound test_backend test_backend_contract test_backend_spec (answering 200)
    (report "failed") running_world 2 created_retry).
  - apply world_with_inv.
  - vm_compute. reflexivity.
  - vm_compute. reflexivity.
Defined.

Definition after_cancel : World := (@CancelInstance test_backend (answering 200) "s1" running_world).1.

Lemma cancel_keeps_slot_witness :
  w_workers after_cancel = w_workers running_world /\
  (@ReportStatus test_backend (answering 200) (report "failed") after_cancel).1 = after_cancel.
Proof.
  apply (@cancel_keeps_slot test_backend test_backend_contract test_backend_spec (answering 200) "s1" running_world after_cancel (report "failed")).
  - apply world_with_inv.
  - apply (run_eq (@CancelInstance test_backend (answering 200) "s1" running_world)). vm_compute. reflexivity.
  - reflexivity.
Defined.

(** The final report of a worker names both times. *)
Definition final_success : TaskStatusReportRequest :=
  mkReport "s1" "a" "success" "" "done" "2024-05-01T10:00:00Z" "2024-05-01T10:00:09Z".

Lemma ReportStatus_success_witness :
  exists w' j, @ReportStatus test_backend (answering 200) final_success running_world = (w', Ok tt) /\
    is_instances (w_instances w') !! 1 = Some j /\ inst_Status j = "success" /\ inst_ErrorMessage j = "done" /\
    inst_StartedAt j = start_time /\ inst_FinishedAt j = start_time + 9 * Second /\
    worker_CurrentLoad <$> ws_workers (w_workers w') !! "a" = Some 0.
Proof.
  destruct (@ReportStatus_success test_backend test_backend_contract test_backend_spec (answering 200) test_backend_reliable
    final_success running_world 1 (new_instance start_time 1 (sample_instance 1 "s1" "dispatched" "a" 0)))
    as (w' & now & now' & Hr & Hi & _ & Hl & _).
  - apply world_with_inv.
  - done.
  - done.
  - vm_compute. reflexivity.
  - vm_compute. reflexivity.
  - vm_compute. reflexivity.
  - exists w'. eexists. split; [exact Hr|]. split; [etrans; [apply (f_equal (fun m => m !! 1) Hi)|apply lookup_insert_eq]|].
    split; [reflexivity|]. split; [reflexivity|]. split; [vm_compute; reflexivity|]. split; [vm_compute; reflexivity|]. exact (Hl "a").
Defined.
