(* ===== verification/Trigger.v ===== *)
(** internal/scheduler/trigger/loop.go: the loop that turns due tasks into
    instances and dispatches them. *)
From S2P Require Import Prelude GoStd GoTime GoFormat Cron Model Labels Repo RateLimit TestStore World Sample.
From S2P Require Import Dispatch Router Lifecycle Balance Runtime.

#[local] Open Scope prog_scope.

Definition scheduleInstanceID (now : Time) (taskID : Z) : string :=
  "task-" +:+ fmt_d taskID +:+ "-" +:+ fmt_d (UnixNano now).

Section Trigger.
Context `{Backend} `{Env}.

Definition nextTriggerTime (task : Task) (now : Time) : result Time :=
  if bool_decide (task_CronExpr task = "") then Ok (now + 24 * Hour * 365)
  else NextAfter local now (task_CronExpr task).

(** The loop over the upstream tasks. *)
Fixpoint deps_satisfied (upstream : list Z) : M bool :=
  match upstream with
  | [] => ret true
  | depID :: rest =>
      r <-? instance_query (ListInstancesByStatus "success" 1) ;;
      match r with
      | Err _ => ret false
      | Ok instances =>
          if existsb (fun inst => inst_TaskID inst =? depID) instances then deps_satisfied rest else ret false
      end
  end.

Definition dispatch_request (task : Task) (sid : string) (retries shardNo shardTotal : Z) : ExecuteTaskRequest :=
  {| req_ScheduleInstanceID := sid; req_TaskID := task_ID task; req_TaskType := task_Type task;
     req_Payload := task_Payload task; req_Image := task_Image task;
     req_TimeoutSeconds := task_TimeoutSeconds task; req_RetryCount := retries; req_ShardNo := shardNo;
     req_ShardTotal := shardTotal; req_IdempotencyKey := task_IdempotencyKey task;
     req_SchedulerURL := schedulerURL |}.

(** The created instance of a shard, up to the end of the loop body: [true] goes on
    with the next shard, [false] makes [handleTask] return. *)
Definition place_shard (task : Task) (shard : Z) (instance : TaskInstance) : M bool :=
  p <-? Pick (task_options task) ;;
  match p with
  | Err e =>
      if bool_decide (e = ErrNoAvailableWorker) then
        now <- Now ;;
        _ignore task_op (fun t => UpdateTask t (set_task_NextTriggerTime (now + 10 * Second) task)) ;;
        ret false
      else fail (Wrap ("pick worker shard=" +:+ fmt_d shard) e)
  | Ok worker =>
      dispatchTime <- Now ;;
      _ignore instance_op (fun t => UpdateInstanceDispatch t (inst_ID instance) (worker_ID worker)
                                      (FormatRFC3339Nano local dispatchTime)) ;;
      d <-? Dispatch worker (dispatch_request task (inst_ScheduleInstanceID instance) (inst_RetryCount instance)
                               shard (task_TotalShards task)) ;;
      match d with
      | Err e =>
          _ignore instance_op (fun t => UpdateInstanceResult t (inst_ScheduleInstanceID instance)
                                          "failed" "dispatch_failed" (error_text e)) ;;
          _ignore Release worker ;;
          ret true
      | Ok _ => ret true
      end
  end.

Definition handle_shard (task : Task) (shard : Z) : M bool :=
  idTime <- Now ;;
  trigger <- Now ;;
  c <-? instance_op (fun t => CreateInstance t
          (new_pending (task_ID task) (scheduleInstanceID idTime (task_ID task)) trigger 0 shard (task_TotalShards task))) ;;
  match c with
  | Err e => fail (Wrap ("create task instance shard=" +:+ fmt_d shard) e)
  | Ok instance => place_shard task shard instance
  end.

(** [for shard := ...; shard < shardTotal; shard++], with [todo] iterations left. *)
Fixpoint shard_loop (task : Task) (todo : nat) (shard : Z) : M bool :=
  match todo with
  | O => ret true
  | S n => go <- handle_shard task shard ;; if (go : bool) then shard_loop task n (shard + 1) else ret false
  end.

Definition shard_total (task : Task) : Z := if task_TotalShards task <=? 0 then 1 else task_TotalShards task.

Definition handleTask (task : Task) : M unit :=
  u <-? task_query (ListUpstreamDeps (task_ID task)) ;;
  match u with
  | Err e => fail (Wrap "list upstream dependencies" e)
  | Ok upstream =>
      allSatisfied <- (if (length upstream =? 0)%nat then ret true else deps_satisfied upstream) ;;
      if negb allSatisfied then
        now <- Now ;;
        _ignore task_op (fun t => UpdateTask t (set_task_NextTriggerTime (now + 5 * Second) task)) ;;
        ret tt
      else
        go <- shard_loop task (Z.to_nat (shard_total task)) 0 ;;
        if negb go then ret tt else
        now <- Now ;;
        match nextTriggerTime task now with
        | Err e => fail (Wrap "compute next trigger time" e)
        | Ok next =>
            r <-? task_op (fun t => UpdateTask t (set_task_NextTriggerTime next task)) ;;
            match r with
            | Err e => fail (Wrap "update next trigger time" e)
            | Ok _ => ret tt
            end
        end
  end.

(** The cached ids that are still enabled and due, in order. *)
Fixpoint cached_tasks (ids : list Z) : M (list Task) :=
  match ids with
  | [] => ret []
  | id :: rest =>
      r <-? task_query (GetTask id) ;;
      match r with
      | Err _ => cached_tasks rest
      | Ok t =>
          if bool_decide (task_Status t = "enabled") then
            now <- Now ;;
            ts <- cached_tasks rest ;;
            ret (if After (task_NextTriggerTime t) now then ts else t :: ts)
          else cached_tasks rest
      end
  end.

(** The tasks a scan takes from the cache; none when the cache gives nothing. *)
Definition from_cache : M (list Task) :=
  match cache_due with
  | None => ret []
  | Some due =>
      now <- Now ;;
      r <- external (fun n => due n now) ;;
      match r with
      | Err _ => ret []
      | Ok ids => ts <- cached_tasks ids ;; ret (limit_to 100 ts)
      end
  end.

Definition allow_dispatch : M bool :=
  reads (fun w => match w_bp w with Some b => AllowDispatch b | None => true end).

Fixpoint handle_all (tasks : list Task) : M unit :=
  match tasks with
  | [] => ret tt
  | task :: rest =>
      ok <- allow_dispatch ;;
      if negb ok then ret tt
      else _ignore handleTask task ;; handle_all rest
  end.

(** The backpressure update at the start of a scan: may the scan go on? *)
Definition scan_gate (pending : Z) : M bool :=
  b <- reads w_bp ;;
  match b with
  | None => ret true
  | Some b =>
      now <- Now ;;
      modify (set_w_bp (Some (UpdatePending now pending b))) ;;
      allow_dispatch
  end.

Definition scan : M unit :=
  c <-? instance_query (CountInstancesByStatus "pending") ;;
  match c with
  | Err _ => ret tt
  | Ok pending =>
      go <- scan_gate pending ;;
      if negb go then ret tt else
      cached <- from_cache ;;
      match cached with
      | [] =>
          r <-? task_op (fun now s => (s, ListDueTasks now 100 s)) ;;
          match r with Err _ => ret tt | Ok tasks => handle_all tasks end
      | tasks => handle_all tasks
      end
  end.
End Trigger.

(** ** Lifecycle *)

Section TriggerLifecycle.
Context `{BackendContract} `{Env}.

(** The tail of a placement whose dispatch failed. *)
Lemma closes_failed sid id c msg m0 : forall worker,
  moves (closes m0 [] sid id)
    (attempt (instance_op (fun t => UpdateInstanceResult t sid "failed" c msg)) (fun _ =>
       attempt (Release worker) (fun _ => ret true))).
Proof.
  intros worker w Hw.
  pose proof (tracked_UpdateInstanceResult sid id "failed" c msg m0 [id] [(sid, id)] ltac:(set_solver) w Hw) as Hc.
  rewrite filter_cons_False in Hc by auto. unfold attempt at 1.
  destruct (instance_op _ w) as [w1 r]. simpl in Hc. revert Hc.
  enough (moves (keeps (tracked m0 [] [])) (attempt (Release worker) (fun _ => ret true))) as Hm by apply Hm.
  solve_moves.
Qed.

(** Sequencing while the instance is being worked on. *)
Lemma closes_attempt {A B} (m : M A) (k : result A -> M B) m0 sid id :
  moves (keeps (tracked m0 [id] [(sid, id)])) m -> (forall r, moves (closes m0 [] sid id) (k r)) ->
  moves (closes m0 [] sid id) (attempt m k).
Proof.
  intros Hm Hk w Hw. unfold attempt. specialize (Hm w Hw). destruct (m w) as [w1 r]. by apply Hk.
Qed.

Lemma closes_bind {A B} (m : M A) (k : A -> M B) m0 sid id :
  moves (keeps (tracked m0 [id] [(sid, id)])) m -> (forall a, moves (closes m0 [] sid id) (k a)) ->
  moves (closes m0 [] sid id) (bind m k).
Proof.
  intros Hm Hk w Hw. unfold bind. specialize (Hm w Hw). destruct (m w) as [w1 [a|e]]; [by apply Hk|].
  by eapply tracked_forget.
Qed.

(** Placing a freshly created instance. *)
Lemma tracked_place task shard i m0 :
  moves (closes m0 [] (inst_ScheduleInstanceID i) (inst_ID i)) (place_shard task shard i).
Proof.
  unfold place_shard. apply closes_attempt; [apply tracked_Pick|]. intros [worker|e].
  - apply closes_bind; [apply tracked_Now|]. intros now.
    apply closes_attempt; [apply tracked_UpdateInstanceDispatch; set_solver|]. intros _.
    apply closes_attempt; [apply tracked_Dispatch|]. intros [u|e]; [|apply closes_failed].
    apply closes_keeps. auto with moves.
  - apply closes_keeps. solve_tracked.
Qed.

Lemma tracked_handle_shard task shard m0 : moves (keeps (tracked m0 [] [])) (handle_shard task shard).
Proof. pose proof tracked_place. unfold handle_shard. solve_tracked. Qed.

Lemma tracked_shard_loop task n shard m0 : moves (keeps (tracked m0 [] [])) (shard_loop task n shard).
Proof.
  pose proof tracked_handle_shard. revert shard. induction n as [|n IH]; intros shard; cbn [shard_loop]; solve_tracked.
Qed.

Lemma tracked_deps ups m0 L S : moves (keeps (tracked m0 L S)) (deps_satisfied ups).
Proof. induction ups as [|d ups IH]; cbn [deps_satisfied]; unfold instance_query; solve_tracked. Qed.

Lemma tracked_handleTask task m0 : moves (keeps (tracked m0 [] [])) (handleTask task).
Proof.
  pose proof tracked_deps. pose proof tracked_shard_loop. unfold handleTask, task_query. solve_tracked.
Qed.

Lemma tracked_handle_all ts m0 : moves (keeps (tracked m0 [] [])) (handle_all ts).
Proof.
  pose proof tracked_handleTask.
  induction ts as [|t ts IH]; cbn [handle_all]; unfold allow_dispatch; solve_tracked.
Qed.

Lemma tracked_from_cache m0 : moves (keeps (tracked m0 [] [])) from_cache.
Proof.
  assert (forall ids, moves (keeps (tracked m0 [] [])) (cached_tasks ids)) as Hc.
  { induction ids as [|id ids IH]; cbn [cached_tasks]; unfold task_query; solve_tracked. }
  unfold from_cache. solve_tracked.
Qed.

Lemma tracked_scan m0 : moves (keeps (tracked m0 [] [])) scan.
Proof.
  pose proof tracked_handle_all. pose proof tracked_from_cache.
  unfold scan, scan_gate, allow_dispatch, instance_query. solve_tracked.
  - by apply tracked_modify.
  - by apply tracked_task_op.
Qed.

Lemma scan_lifecycle : moves lifecycle scan.
Proof. apply lifecycle_intro, tracked_scan. Qed.
End TriggerLifecycle.

(** ** Properties *)

Section TriggerBalance.
Context `{BackendSpec} `{Env} `{!BackendReliable}.

Lemma bal_place task shard i b : moves (keeps (bal b)) (place_shard task shard i).
Proof. unfold place_shard. solve_balance. Qed.

Lemma bal_handle_shard task shard b : moves (keeps (bal b)) (handle_shard task shard).
Proof. pose proof bal_place. unfold handle_shard. solve_balance. Qed.

Lemma bal_shard_loop task n shard b : moves (keeps (bal b)) (shard_loop task n shard).
Proof.
  pose proof bal_handle_shard. revert shard. induction n as [|n IH]; intros shard; cbn [shard_loop]; solve_balance.
Qed.

Lemma bal_deps ups b : moves (keeps (bal b)) (deps_satisfied ups).
Proof. induction ups as [|d ups IH]; cbn [deps_satisfied]; unfold instance_query; solve_balance. Qed.

Lemma bal_handleTask task b : moves (keeps (bal b)) (handleTask task).
Proof. pose proof bal_deps. pose proof bal_shard_loop. unfold handleTask, task_query. solve_balance. Qed.

Lemma bal_scan b : moves (keeps (bal b)) scan.
Proof.
  assert (forall ts, moves (keeps (bal b)) (handle_all ts)) as Ha.
  { pose proof bal_handleTask. induction ts as [|t ts IH]; cbn [handle_all]; unfold allow_dispatch; solve_balance. }
  assert (forall ids, moves (keeps (bal b)) (cached_tasks ids)) as Hc.
  { induction ids as [|id ids IH]; cbn [cached_tasks]; unfold task_query; solve_balance. }
  unfold scan, scan_gate, from_cache, allow_dispatch, instance_query. solve_balance.
  - apply bal_quiet; [by apply inv_same|done].
  - apply bal_quiet; [by apply inv_task_op|apply quiet_task_op].
Qed.

(** Slot accounting of the trigger loop: whatever the clock, the workers and the
    network do, a scan leaves every load within its limit and changes the total
    load by exactly the number of dispatches the workers accepted during it. *)
Theorem scan_balanced w :
  world_inv w -> loads_ok w ->
  loads_ok (scan w).1 /\
  total_load (workers_of (w_workers (scan w).1)) - total_load (workers_of (w_workers w)) =
  accepted (w_sent (scan w).1) - accepted (w_sent w).
Proof.
  intros Hi Hl. destruct (balanced_intro scan bal_scan w Hi Hl) as (_ & ? & Hb). split; [done|].
  unfold balance in Hb. lia.
Qed.
End TriggerBalance.

Section TriggerProperties.
Context `{BackendSpec} `{Env}.

Abbreviation insts w := (insts_of (w_instances w)).
Abbreviation tasks w := (tasks_of (w_tasks w)).
Abbreviation sched w := (sched_of (w_instances w)).

(** ** Upstream dependencies *)

(** The check never changes the world and never fails. *)
Lemma deps_satisfied_pure ups w : exists b, deps_satisfied ups w = (w, Ok b).
Proof.
  induction ups as [|d ups IH]; cbn [deps_satisfied]; [by eexists|].
  unfold attempt, instance_query, reads_res. destruct (ListInstancesByStatus _ _ _); [|by eexists].
  destruct (existsb _ _); [done|by eexists].
Qed.

(** It looks at one successful instance, the first listed, and asks each upstream
    task to be that one. *)
Lemma deps_satisfied_true ups w : world_inv w -> deps_satisfied ups w = (w, Ok true) ->
  forall a b, a ∈ ups -> b ∈ ups -> a = b.
Proof.
  intros (_ & Hi & _) Hd.
  enough (ups <> [] -> exists i, forall a, a ∈ ups -> a = inst_TaskID i) as Hone.
  { intros a b Ha Hb. destruct Hone as [i Hi']; [by intros ->; apply elem_of_nil in Ha|].
    by rewrite (Hi' a Ha), (Hi' b Hb). }
  destruct (ListInstancesByStatus "success" 1 (w_instances w)) as [xs|e] eqn:Hl.
  2: { destruct ups as [|d ups]; [done|]. cbn [deps_satisfied] in Hd.
       unfold attempt, instance_query, reads_res in Hd. by rewrite Hl in Hd. }
  destruct (ListInstancesByStatus_ok _ _ _ _ Hi Hl) as (all & _ & Hxs).
  pose proof (limit_to_length 1 all ltac:(lia)) as Hlen. rewrite <- Hxs in Hlen.
  intros Hne. destruct xs as [|x [|y xs]]; simpl in Hlen; [|exists x|lia].
  - destruct ups as [|d ups]; [done|]. cbn [deps_satisfied] in Hd.
    unfold attempt, instance_query, reads_res in Hd. by rewrite Hl in Hd.
  - clear Hne Hxs Hlen. induction ups as [|d ups IH]; intros a Ha; [by apply elem_of_nil in Ha|].
    cbn [deps_satisfied] in Hd. unfold attempt, instance_query, reads_res in Hd. rewrite Hl in Hd.
    cbn [existsb] in Hd. destruct (Z.eqb_spec (inst_TaskID x) d) as [Hx|Hx]; [|done].
    apply elem_of_cons in Ha as [->|Ha]; [done|]. by apply IH.
Qed.

(** A task with two different upstream tasks is never started by the loop: however
    many successful instances both have, [handleTask] only postpones it, creating
    no instance, touching no worker and sending nothing. *)
Theorem two_upstreams_never_start task w upstream a b :
  world_inv w -> ListUpstreamDeps (task_ID task) (w_tasks w) = Ok upstream ->
  a ∈ upstream -> b ∈ upstream -> a <> b ->
  let '(w', r) := handleTask task w in
  r = Ok tt /\ w_instances w' = w_instances w /\ w_workers w' = w_workers w /\ w_sent w' = w_sent w.
Proof.
  intros Hw Hu Ha Hb Hab. unfold handleTask, attempt at 1, task_query, reads_res. rewrite Hu.
  destruct (Nat.eqb_spec (length upstream) 0) as [E|E].
  { destruct upstream; [by apply elem_of_nil in Ha|done]. }
  unfold bind at 1. destruct (deps_satisfied_pure upstream w) as [sat Hsat]. rewrite Hsat.
  destruct sat; [destruct Hab; by eapply (deps_satisfied_true upstream w)|].
  cbn [negb]. unfold bind, Now, attempt, task_op, ret. simpl. by destruct (UpdateTask _ _ _).
Qed.

(** ** New instances *)

(** A first attempt of the task, for one of its shards. *)
Definition first_attempt (task : Task) (x : TaskInstance) : Prop :=
  inst_TaskID x = task_ID task /\ inst_RetryCount x = 0 /\
  0 <= inst_ShardNo x < shard_total task /\ inst_ShardTotal x = task_TotalShards task.

Lemma first_attempt_core task i i' : same_core i i' -> first_attempt task i -> first_attempt task i'.
Proof. intros (?&?&?&?&?) (?&?&?&?). unfold first_attempt. split_and!; congruence || lia. Qed.

Lemma born_place P task shard i m0 : (forall i i', same_core i i' -> P i -> P i') ->
  moves (keeps (born P m0)) (place_shard task shard i).
Proof. intros HP. unfold place_shard. solve_moves. Qed.

Lemma born_shard_loop task n shard m0 :
  0 <= shard -> shard + Z.of_nat n <= shard_total task ->
  moves (keeps (born (first_attempt task) m0)) (shard_loop task n shard).
Proof.
  intros Hs Hb. pose proof (first_attempt_core task) as HP. pose proof (born_place (first_attempt task)) as Hp.
  revert shard Hs Hb. induction n as [|n IH]; intros shard Hs Hb; cbn [shard_loop]; [auto with moves|].
  assert (forall sid t, first_attempt task (new_pending (task_ID task) sid t 0 shard (task_TotalShards task))) as Hnew.
  { intros. unfold first_attempt. simpl. split_and!; try done; lia. }
  specialize (IH (shard + 1) ltac:(lia) ltac:(lia)). unfold handle_shard. solve_moves.
Qed.

(** What the loop creates for a task: every instance that appears while a due task
    is handled belongs to that task, is a first attempt, and carries a shard
    number below the task's number of shards. *)
Theorem handleTask_creates task w id x :
  world_inv w -> insts (handleTask task w).1 !! id = Some x -> insts w !! id = None ->
  inst_TaskID x = task_ID task /\ inst_RetryCount x = 0 /\
  0 <= inst_ShardNo x < shard_total task /\ inst_ShardTotal x = task_TotalShards task.
Proof.
  intros Hw. revert id x. change (forall id x, insts (handleTask task w).1 !! id = Some x ->
    insts w !! id = None -> first_attempt task x).
  apply born_intro; [|done].
  assert (0 < shard_total task) by (unfold shard_total; destruct (Z.leb_spec (task_TotalShards task) 0); lia).
  pose proof (born_shard_loop task (Z.to_nat (shard_total task)) 0 (insts w) ltac:(lia) ltac:(lia)).
  assert (forall ups, moves (keeps (born (first_attempt task) (insts w))) (deps_satisfied ups)) as Hd.
  { intros ups w1 Hw1. by destruct (deps_satisfied_pure ups w1) as [? ->]. }
  unfold handleTask, task_query. solve_moves.
Qed.

(** Under red pressure a scan is a no-op: when the count of pending instances puts
    the controller in the red, nothing is read from the cache, created, updated
    or sent. *)
Theorem scan_red w b pending t :
  w_bp w = Some b -> CountInstancesByStatus "pending" (w_instances w) = Ok pending ->
  AllowDispatch (UpdatePending t pending b) = false ->
  let '(w', r) := scan w in
  r = Ok tt /\ w_tasks w' = w_tasks w /\ w_instances w' = w_instances w /\ w_workers w' = w_workers w /\
  w_sent w' = w_sent w /\ w_calls w' = w_calls w.
Proof.
  intros Hb Hc Ha. unfold scan, attempt, instance_query, reads_res. rewrite Hc.
  unfold bind at 1, scan_gate, bind at 1, reads. rewrite Hb.
  unfold bind, Now, modify, allow_dispatch, reads. simpl.
  change (AllowDispatch (UpdatePending (clock (w_reads w)) pending b)) with (AllowDispatch (UpdatePending t pending b)).
  by rewrite Ha.
Qed.

(** ** The good case *)

Context `{!BackendReliable}.

(** The rate limiter of the dispatch client, if there is one, has a token left at whatever
    reading of the clock it is asked. *)
Definition lets_through (w : World) : Prop :=
  forall tb n, w_limiter w = Some tb -> (Allow (clock n) tb).2 = true.

(** The network takes every task that the rate limiter lets through. *)
Definition accepting : Prop :=
  forall worker req w1, lets_through w1 -> exists w2, Dispatch worker req w1 = (w2, Ok tt).

(** The clock shows years that RFC 3339 can write, in a zone of whole minutes. *)
Definition printable_clock : Prop :=
  forall n, 0 <= t_year local (clock n) <= 9999 /\ zone_ok (local (clock n / Second)).

(** The row of an instance once it is handed to a worker. *)
Definition launched (worker : WorkerNode) (at_ now : Time) (i : TaskInstance) : TaskInstance :=
  set_inst_DispatchTime at_ (set_inst_UpdatedAt now (set_inst_Status "dispatched" (set_inst_WorkerID (worker_ID worker) i))).

(** One slot was taken on an eligible worker, and no other worker changed. *)
Definition reserved (opts : SelectOptions) (worker : WorkerNode) (w w' : World) : Prop :=
  exists old now, workers_of (w_workers w) !! worker_ID worker = Some old /\ eligible opts old /\
    worker = set_worker_CurrentLoad (wrap64 (worker_CurrentLoad old + 1)) old /\
    workers_of (w_workers w') = <[worker_ID worker := stamped now worker]> (workers_of (w_workers w)).

(** What a launch leaves behind: the slot, the row and one accepted message. *)
Definition launch (opts : SelectOptions) (i : TaskInstance) (req : ExecuteTaskRequest) (worker : WorkerNode) (w w' : World) : Prop :=
  world_inv w' /\ reserved opts worker w w' /\
  (exists n now, insts w' = <[inst_ID i := launched worker (clock n) now i]> (insts w)) /\ sched w' = sched w /\
  w_tasks w' = w_tasks w /\ w_sent w' = (task_message worker req, true) :: w_sent w.

(** From the pick to the accepted dispatch, whatever the request and the
    continuations. *)
Lemma launch_run {A} opts i w id x (req : WorkerNode -> ExecuteTaskRequest)
    (none : gerror -> M A) (refused : WorkerNode -> gerror -> M A) (done_ : WorkerNode -> M A) :
  accepting -> printable_clock -> world_inv w -> lets_through w -> 0 <= w_rrCounter w < 2 ^ 63 - 1 ->
  workers_of (w_workers w) !! id = Some x -> eligible opts x -> insts w !! inst_ID i = Some i ->
  exists w' worker, launch opts i (req worker) worker w w' /\
    (p <-? Pick opts ;;
     match p with
     | Err e => none e
     | Ok worker =>
         dispatchTime <- Now ;;
         _ignore instance_op (fun t => UpdateInstanceDispatch t (inst_ID i) (worker_ID worker)
                                         (FormatRFC3339Nano local dispatchTime)) ;;
         d <-? Dispatch worker (req worker) ;;
         match d with Err e => refused worker e | Ok _ => done_ worker end
     end) w = done_ worker w'.
Proof.
  intros Hacc Hclk Hw Hlim Hrr Hx Hel Hi.
  destruct (Pick_total opts w id x Hw Hrr Hx Hel) as (w1 & worker & Hp).
  destruct (Pick_ok _ _ _ _ Hw Hp) as [(old & Ho & Hoe & _ & Hbest & now0 & Hwork) (Ht1 & Hi1 & Hwk1)].
  pose proof (Pick_routing opts w) as Hr. rewrite Hp in Hr.
  destruct Hr as (Ht & Hin & Hl1 & _ & Hs1 & _). simpl in *.
  unfold attempt at 1. rewrite Hp. unfold bind, Now. cbv zeta.
  set (w2 := set_w_reads (S (w_reads w1)) w1). unfold attempt at 1, instance_op at 1.
  destruct (Hclk (w_reads w1)) as [Hy Hz].
  destruct (UpdateInstanceDispatch_total (clock (w_reads w2)) (inst_ID i) (worker_ID worker)
    (FormatRFC3339Nano local (clock (w_reads w1))) (w_instances w2) i) as [s Hu]; [simpl; by rewrite Hin|].
  rewrite Hu. destruct (UpdateInstanceDispatch_ok _ _ _ _ _ _ _ Hi1 Hu) as (Hsi & Hm & Hsc).
  set (w3 := set_w_instances s (set_w_reads (S (w_reads w2)) w2)).
  destruct (Hacc worker (req worker) w3) as [w4 Hd]; [unfold lets_through; simpl; by rewrite Hl1|].
  pose proof (Dispatch_network worker (req worker) w3) as Hn. pose proof (Dispatch_delivered worker (req worker) w3) as Hv.
  unfold attempt. rewrite Hd in *. simpl in Hn, Hv. destruct Hn as (Ht4 & Hi4 & Hw4 & _).
  exists w4, worker. split; [|done]. split_and!.
  - unfold world_inv. by rewrite Ht4, Hi4, Hw4.
  - exists old, now0. rewrite Hw4. split_and!; done.
  - exists (w_reads w1), (clock (w_reads w2)). rewrite Hi4. simpl. rewrite Hm. simpl. rewrite Hin.
    apply map_eq. intros k. destruct (decide (k = inst_ID i)) as [->|].
    + rewrite lookup_alter_eq, lookup_insert_eq, Hi. simpl. f_equal. unfold with_dispatch.
      rewrite Parse_Format by done. rewrite bool_decide_false; [done|].
      intros E. pose proof (Parse_Format local (clock (w_reads w1)) Hy Hz) as Hpf. by rewrite E in Hpf.
    + by rewrite lookup_alter_ne, lookup_insert_ne.
  - rewrite Hi4. simpl. by rewrite Hsc, <- Hin.
  - by rewrite Ht4.
  - rewrite Hv. simpl. by rewrite Hs1.
Qed.

Lemma place_shard_run task i w id x :
  accepting -> printable_clock -> world_inv w -> lets_through w -> 0 <= w_rrCounter w < 2 ^ 63 - 1 ->
  workers_of (w_workers w) !! id = Some x -> eligible (task_options task) x ->
  insts w !! inst_ID i = Some i ->
  exists w' worker, place_shard task 0 i w = (w', Ok true) /\
    launch (task_options task) i (dispatch_request task (inst_ScheduleInstanceID i) (inst_RetryCount i) 0
                                    (task_TotalShards task)) worker w w'.
Proof.
  intros Hacc Hclk Hw Hlim Hrr Hx Hel Hi.
  destruct (launch_run (task_options task) i w id x
    (fun _ => dispatch_request task (inst_ScheduleInstanceID i) (inst_RetryCount i) 0 (task_TotalShards task))
    (fun e => if bool_decide (e = ErrNoAvailableWorker) then
        now <- Now ;;
        _ignore task_op (fun t => UpdateTask t (set_task_NextTriggerTime (now + 10 * Second) task)) ;;
        ret false
      else fail (Wrap ("pick worker shard=" +:+ fmt_d 0) e))
    (fun worker e =>
        _ignore instance_op (fun t => UpdateInstanceResult t (inst_ScheduleInstanceID i)
                                        "failed" "dispatch_failed" (error_text e)) ;;
        _ignore Release worker ;; ret true)
    (fun _ => ret true)) as (w' & worker & Hl & Hr); try done.
  exists w', worker. split; [exact Hr|exact Hl].
Qed.

(** What the run of a task leaves behind: one new instance [i], dispatched to [worker],
    the task as [t'], and one message. *)
Definition task_ran (task : Task) (w w' : World) (worker : WorkerNode) (i : TaskInstance) (t' : Task) : Prop :=
  world_inv w' /\ reserved (task_options task) worker w w' /\
  insts w !! inst_ID i = None /\ insts w' = <[inst_ID i := i]> (insts w) /\
  sched w' = <[inst_ScheduleInstanceID i := inst_ID i]> (sched w) /\
  (exists t, inst_ScheduleInstanceID i = scheduleInstanceID t (task_ID task)) /\
  inst_TaskID i = task_ID task /\ inst_Status i = "dispatched" /\ inst_WorkerID i = worker_ID worker /\
  (exists k, inst_DispatchTime i = clock k) /\
  w_sent w' = (task_message worker (dispatch_request task (inst_ScheduleInstanceID i) 0 0 (task_TotalShards task)), true)
              :: w_sent w /\
  tasks w' = <[task_ID task := t']> (tasks w) /\ deps_of_store (w_tasks w') = deps_of_store (w_tasks w) /\
  exists n, nextTriggerTime task (clock n) = Ok (task_NextTriggerTime t').

Lemma handleTask_run task w id x cur :
  accepting -> printable_clock -> world_inv w -> lets_through w -> 0 <= w_rrCounter w < 2 ^ 63 - 1 ->
  ListUpstreamDeps (task_ID task) (w_tasks w) = Ok [] -> task_TotalShards task <= 1 ->
  tasks w !! task_ID task = Some cur ->
  workers_of (w_workers w) !! id = Some x -> eligible (task_options task) x ->
  (forall n, exists next, nextTriggerTime task (clock n) = Ok next) ->
  exists w' worker i t', handleTask task w = (w', Ok tt) /\ task_ran task w w' worker i t'.
Proof.
  intros Hacc Hclk Hw Hlim Hrr Hups Hsh Hcur Hx Hel Hnext.
  unfold handleTask, attempt at 1, task_query, reads_res. rewrite Hups.
  cbn [length Nat.eqb]. unfold bind at 1, ret at 1. cbn [negb].
  replace (Z.to_nat (shard_total task)) with 1%nat
    by (unfold shard_total; destruct (Z.leb_spec (task_TotalShards task) 0); lia).
  cbn [shard_loop]. unfold bind at 1 2, handle_shard, bind at 1 2, Now at 1 2.
  set (w2 := set_w_reads _ (set_w_reads _ _)). set (i0 := new_pending _ _ _ _ _ _).
  unfold attempt at 1, instance_op at 1.
  destruct Hw as (Ht & Hi & Hwi).
  destruct (CreateInstance_total (clock (w_reads w2)) i0 (w_instances w2)) as (s & i & Hc). rewrite Hc.
  destruct (CreateInstance_ok _ _ _ _ _ Hi Hc) as (Hsi & Hn & Hie & Hm & Hsc).
  set (w3 := set_w_instances s (set_w_reads (S (w_reads w2)) w2)).
  destruct (place_shard_run task i w3 id x) as (w4 & worker & -> & (Ht4 & Hi4 & Hw4) & Hres & (n4 & now4 & Hm4) & Hsc4 & Htk4 & Hs4);
    try done; [simpl; by rewrite Hm, lookup_insert_eq|].
  unfold ret at 1. cbn [negb]. unfold bind, Now.
  destruct (Hnext (w_reads w4)) as [next Hnx]. rewrite Hnx.
  set (w5 := set_w_reads (S (w_reads w4)) w4). unfold attempt, task_op.
  destruct (UpdateTask_total (clock (w_reads w5)) (set_task_NextTriggerTime next task) (w_tasks w5) cur)
    as (s6 & t' & Hu); [simpl; by rewrite Htk4|].
  rewrite Hu. destruct (UpdateTask_ok _ _ _ _ _ Ht4 Hu) as (Ht6 & (cur' & _ & Ht') & Hm6 & Hd6). unfold ret.
  eexists _, worker, (launched worker (clock n4) now4 i), t'.
  split; [done|]. unfold task_ran, world_inv. simpl. split_and!; try done.
  - rewrite Hm4. simpl. rewrite Hm. by rewrite insert_insert_eq.
  - rewrite Hsc4. simpl. rewrite Hsc. by rewrite Hie.
  - rewrite Hie. by eexists.
  - by rewrite Hie.
  - by exists n4.
  - rewrite Hs4. simpl. by rewrite Hie.
  - rewrite Hm6. simpl. by rewrite Htk4.
  - rewrite Hd6. simpl. by rewrite Htk4.
  - exists (w_reads w4). by rewrite Ht'.
Qed.

(** C10. A due task is run. Given a task without upstream tasks and without shards (at most
    one) whose cron expression has a next time at every reading of the clock, an eligible
    worker, a rate limiter that has a token left, a network that takes what the limiter lets
    through, a clock that shows years RFC 3339 can write, a round-robin counter below its
    maximum and repositories that do not fail, [handleTask] succeeds: it creates exactly
    one instance, marks it dispatched to an eligible worker at a reading of the clock, takes
    one slot of that worker and of no other, sends it exactly one message with the task's
    payload, and sets the next trigger time from the cron expression (a year ahead
    without one). *)
Theorem handleTask_runs task w id x cur :
  accepting -> printable_clock -> world_inv w -> lets_through w -> 0 <= w_rrCounter w < 2 ^ 63 - 1 ->
  ListUpstreamDeps (task_ID task) (w_tasks w) = Ok [] -> task_TotalShards task <= 1 ->
  tasks w !! task_ID task = Some cur ->
  workers_of (w_workers w) !! id = Some x -> eligible (task_options task) x ->
  (forall n, exists next, nextTriggerTime task (clock n) = Ok next) ->
  exists w' worker i t' n,
    handleTask task w = (w', Ok tt) /\
    insts w !! inst_ID i = None /\ insts w' = <[inst_ID i := i]> (insts w) /\
    inst_TaskID i = task_ID task /\ inst_Status i = "dispatched" /\ inst_WorkerID i = worker_ID worker /\
    (exists k, inst_DispatchTime i = clock k) /\
    (exists old now, workers_of (w_workers w) !! worker_ID worker = Some old /\ eligible (task_options task) old /\
       worker = set_worker_CurrentLoad (wrap64 (worker_CurrentLoad old + 1)) old /\
       workers_of (w_workers w') = <[worker_ID worker := stamped now worker]> (workers_of (w_workers w))) /\
    w_sent w' = (task_message worker (dispatch_request task (inst_ScheduleInstanceID i) 0 0 (task_TotalShards task)), true)
                :: w_sent w /\
    tasks w' = <[task_ID task := t']> (tasks w) /\ nextTriggerTime task (clock n) = Ok (task_NextTriggerTime t').
Proof.
  intros. destruct (handleTask_run task w id x cur) as (w' & worker & i & t' & Hr & (_ & Hres & Hn & Hi & _ & _ & Ht & Hst & Hwk & Hd & Hs & Hm & _ & n & Hx)); try done.
  exists w', worker, i, t', n. by split_and!.
Qed.
End TriggerProperties.

(** ** On concrete worlds *)

(** One due task without a schedule, one idle worker and one full worker. *)
Definition one_due : @World test_backend := world_with [task_with "" "{}"] [] [worker_named "a" 0; worker_named "b" 2].

Definition due_task : Task := default sample_task (ts_tasks (w_tasks one_due) !! 1).

Lemma one_due_loads : @loads_ok test_backend test_backend_contract one_due.
Proof.
  unfold loads_ok. change (map_Forall (fun _ x => load_ok x) (ws_workers (w_workers one_due))).
  repeat apply map_Forall_insert_2; [split; simpl; lia..|apply map_Forall_empty].
Qed.

Lemma scan_balanced_witness :
  total_load (ws_workers (w_workers (@scan test_backend (answering 200) one_due).1)) = 3 /\
  total_load (ws_workers (w_workers (@scan test_backend (answering 200) one_due).1)) -
  total_load (ws_workers (w_workers one_due)) = 1.
Proof.
  split; [vm_compute; reflexivity|].
  destruct (@scan_balanced test_backend test_backend_contract test_backend_spec (answering 200) test_backend_reliable one_due) as [_ Hb].
  - apply world_with_inv.
  - apply one_due_loads.
  - change (total_load (ws_workers (w_workers (@scan test_backend (answering 200) one_due).1)) -
            total_load (ws_workers (w_workers one_due)) =
            accepted (w_sent (@scan test_backend (answering 200) one_due).1) - accepted (w_sent one_due)) in Hb.
    rewrite Hb. vm_compute. reflexivity.
Defined.

(** Task 3 waits for tasks 1 and 2, and both have succeeded. *)
Definition joined : @World test_backend :=
  let w := world_with [sample_task; sample_task; sample_task]
             [sample_instance 1 "s1" "success" "a" 0; sample_instance 2 "s2" "success" "a" 0] [worker_named "a" 0] in
  @set_w_tasks test_backend (ts_AddDependency 3 2 (ts_AddDependency 3 1 (w_tasks w)).1).1 w.

Definition joined_task : Task := default sample_task (ts_tasks (w_tasks joined) !! 3).

Lemma joined_inv : @world_inv test_backend test_backend_contract joined.
Proof.
  unfold joined. set (w := world_with _ _ _).
  assert (@world_inv test_backend test_backend_contract w) as (Ht & Hi & Hw) by apply world_with_inv.
  split; [|done].
  assert (ts_inv (ts_AddDependency 3 1 (w_tasks w)).1) as H1.
  { refine (proj1 (AddDependency_ok (S:=TaskStore) 3 1 (w_tasks w) _ tt Ht _)).
    apply (run_eq (ts_AddDependency 3 1 (w_tasks w))). vm_compute. reflexivity. }
  refine (proj1 (AddDependency_ok (S:=TaskStore) 3 2 _ _ tt H1 _)).
  apply (run_eq (ts_AddDependency 3 2 (ts_AddDependency 3 1 (w_tasks w)).1)). vm_compute. reflexivity.
Qed.

Lemma two_upstreams_never_start_witness :
  let '(w', r) := @handleTask test_backend (answering 200) joined_task joined in
  r = Ok tt /\ w_instances w' = w_instances joined /\ w_workers w' = w_workers joined /\ w_sent w' = w_sent joined.
Proof.
  apply (@two_upstreams_never_start test_backend test_backend_contract (answering 200) joined_task joined [1; 2] 1 2).
  - apply joined_inv.
  - vm_compute. reflexivity.
  - apply elem_of_cons. by left.
  - apply elem_of_cons. right. apply elem_of_cons. by left.
  - done.
Defined.

Definition first_instance : TaskInstance :=
  default zero_instance (is_instances (w_instances (@handleTask test_backend (answering 200) due_task one_due).1) !! 1).

Lemma handleTask_creates_witness :
  inst_TaskID first_instance = 1 /\ inst_RetryCount first_instance = 0 /\
  0 <= inst_ShardNo first_instance < 1 /\ inst_ShardTotal first_instance = 0.
Proof.
  apply (@handleTask_creates test_backend test_backend_contract test_backend_spec (answering 200) due_task one_due 1 first_instance).
  - apply world_with_inv.
  - vm_compute. reflexivity.
  - vm_compute. reflexivity.
Defined.

(** A controller that allows a single pending instance. *)
Definition tight : BackpressureController :=
  NewBackpressureController start_time (mkBackpressureConfig 1 (YellowRatio DefaultBackpressureConfig)
    (RedRatio DefaultBackpressureConfig) (MaxWorkerLoad DefaultBackpressureConfig)).

Definition crowded : @World test_backend :=
  set_w_bp (Some tight) (world_with [sample_task] [sample_instance 1 "s1" "pending" "" 0] [worker_named "a" 0]).

Lemma scan_red_witness :
  let '(w', r) := @scan test_backend (answering 200) crowded in
  r = Ok tt /\ w_tasks w' = w_tasks crowded /\ w_instances w' = w_instances crowded /\
  w_workers w' = w_workers crowded /\ w_sent w' = w_sent crowded /\ w_calls w' = w_calls crowded.
Proof.
  apply (@scan_red test_backend (answering 200) crowded tight 1 start_time).
  - reflexivity.
  - vm_compute. reflexivity.
  - vm_compute. reflexivity.
Defined.

Lemma answering_accepts : @accepting test_backend (answering 200).
Proof.
  intros worker req w1 Hl. unfold Dispatch, bind at 1.
  assert (exists w2, @rate_limit test_backend (answering 200) w1 = (w2, Ok tt)) as [w2 ->].
  { unfold rate_limit, bind, reads, Now, modify, lets_through in *. destruct (w_limiter w1) as [tb|]; [|by eexists].
    specialize (Hl tb (w_reads w1) eq_refl). destruct (Allow _ tb) as [tb' ok]. simpl in Hl. subst ok. by eexists. }
  destruct (equal_fold _ _).
  - unfold dispatchGRPC, bind, external, log_sent, modify. simpl. by eexists.
  - unfold dispatchHTTP, bind, external, log_sent, modify. simpl. by eexists.
Qed.

(** The scheduler's limiter, 3000 messages a second, lets a first message through whenever
    it comes. *)
Lemma fresh_bucket_lets_through ts xs ws : @lets_through test_backend (answering 200) (world_with ts xs ws).
Proof.
  intros tb n E. injection E as <-.
  change ((Allow (start_time + Z.min (Z.of_nat n) 3600 * Second) (dispatch_bucket start_time)).2 = true).
  apply (forallb_zrange (fun x => (Allow (start_time + x * Second) (dispatch_bucket start_time)).2) 0 3600);
    [vm_compute; reflexivity|lia].
Qed.

Lemma answering_printable : @printable_clock (answering 200).
Proof.
  intros n. split; [|by vm_compute].
  change (0 <= t_year UTC (start_time + Z.min (Z.of_nat n) 3600 * Second) <= 9999).
  pose proof (forallb_zrange (fun x => t_year UTC (start_time + x * Second) =? 2024) 0 3600
    ltac:(vm_compute; reflexivity) (Z.min (Z.of_nat n) 3600) ltac:(lia)) as Hy.
  cbv beta in Hy. lia.
Qed.

Lemma handleTask_runs_witness :
  exists w' i, @handleTask test_backend (answering 200) due_task one_due = (w', Ok tt) /\
    is_instances (w_instances w') = <[inst_ID i := i]> (is_instances (w_instances one_due)) /\
    inst_Status i = "dispatched".
Proof.
  destruct (@handleTask_runs test_backend test_backend_contract test_backend_spec (answering 200) test_backend_reliable due_task one_due
    "a" (stamped start_time (worker_named "a" 0)) due_task) as (w' & _ & i & _ & _ & Hr & _ & Hi & _ & Hs & _).
  - apply answering_accepts.
  - apply answering_printable.
  - apply world_with_inv.
  - apply fresh_bucket_lets_through.
  - split; [apply Z.le_refl|reflexivity].
  - vm_compute. reflexivity.
  - vm_compute. congruence.
  - vm_compute. reflexivity.
  - vm_compute. reflexivity.
  - vm_compute. repeat split; congruence.
  - intros n. by eexists.
  - exists w', i. by split_and!.
Defined.
