(* ===== verification/Retry.v ===== *)
(** internal/scheduler/retry/loop.go: the loop that dispatches instances waiting
    for a retry. *)
From S2P Require Import Prelude GoStd GoTime GoFormat Model Labels Repo RateLimit TestStore World Sample.
From S2P Require Import Dispatch Router Lifecycle Balance Runtime.

#[local] Open Scope prog_scope.

Section Retry.
Context `{Backend} `{Env}.

(** The body of the loop: [true] continues with the next instance, [false] is the
    [return] taken when no worker is available. *)
Definition retry_one (instance : TaskInstance) : M bool :=
  t <-? task_query (GetTask (inst_TaskID instance)) ;;
  match t with
  | Err _ => ret true
  | Ok task =>
      p <-? Pick (task_options task) ;;
      match p with
      | Err e => ret (negb (bool_decide (e = ErrNoAvailableWorker)))
      | Ok worker =>
          dispatchTime <- Now ;;
          u <-? instance_op (fun now => UpdateInstanceDispatch now (inst_ID instance) (worker_ID worker)
                                          (FormatRFC3339Nano local dispatchTime)) ;;
          match u with
          | Err _ => _ignore Release worker ;; ret true
          | Ok _ =>
              d <-? Dispatch worker (retry_request task instance (inst_ScheduleInstanceID instance)
                                       (inst_RetryCount instance)) ;;
              match d with
              | Ok _ => ret true
              | Err _ =>
                  _ignore instance_op (fun now => UpdateInstanceStatus now (inst_ID instance) "retry_waiting") ;;
                  _ignore Release worker ;;
                  ret true
              end
          end
      end
  end.

Fixpoint retry_all (instances : list TaskInstance) : M unit :=
  match instances with
  | [] => ret tt
  | i :: rest => go <- retry_one i ;; if (go : bool) then retry_all rest else ret tt
  end.

Definition retry_scan : M unit :=
  now <- Now ;;
  r <-? instance_query (ListDueRetryInstances now 100) ;;
  match r with Err _ => ret tt | Ok instances => retry_all instances end.
End Retry.

(** ** Lifecycle *)

Section RetryLifecycle.
Context `{BackendContract} `{Env}.

Lemma tracked_retry_one i m0 L : inst_ID i ∈ L -> moves (keeps (tracked m0 L [])) (retry_one i).
Proof. intros Hin. unfold retry_one, task_query. solve_tracked. Qed.

Lemma tracked_retry_all xs m0 L : (forall i, i ∈ xs -> inst_ID i ∈ L) ->
  moves (keeps (tracked m0 L [])) (retry_all xs).
Proof.
  induction xs as [|i xs IH]; intros Hin; cbn [retry_all]; [auto with moves|].
  pose proof (tracked_retry_one i m0 L ltac:(set_solver)). specialize (IH ltac:(set_solver)). solve_tracked.
Qed.

Lemma retry_scan_lifecycle : moves lifecycle retry_scan.
Proof.
  apply lifecycle_intro. intros m0 w Hw. unfold retry_scan, bind, Now, attempt, instance_query, reads_res. simpl.
  set (w1 := set_w_reads _ _). assert (tracked m0 [] [] w1) as (Hi1 & He1 & _ & _) by exact Hw.
  change (w_instances w1) with (w_instances w); destruct (ListDueRetryInstances (clock (w_reads w)) 100 (w_instances w)) as [xs|e] eqn:Hl; [|exact Hw].
  destruct (ListDueRetryInstances_waiting _ _ _ _ (proj1 (proj2 Hi1)) Hl) as [_ Hdue].
  assert (tracked m0 (map inst_ID xs) [] w1) as Ht.
  { split_and!; try done; [|by intros *; intros ?%elem_of_nil].
    intros id (i & -> & Hin)%list_elem_of_fmap. destruct (Hdue i Hin) as [Hs Hk]. exists i. by rewrite Hs. }
  apply (tracked_retry_all xs m0 (map inst_ID xs)) in Ht as (? & ? & _ & _).
  - split_and!; try done; intros *; by intros ?%elem_of_nil.
  - intros i Hin. by apply list_elem_of_fmap_2.
Qed.
End RetryLifecycle.

(** ** Properties *)

Section RetryBalance.
Context `{BackendSpec} `{Env} `{!BackendReliable}.

Lemma bal_retry_scan b : moves (keeps (bal b)) retry_scan.
Proof.
  assert (forall xs, moves (keeps (bal b)) (retry_all xs)) as Ha.
  { assert (forall i, moves (keeps (bal b)) (retry_one i)) by (intros; unfold retry_one, task_query; solve_balance).
    induction xs as [|i xs IH]; cbn [retry_all]; solve_balance. }
  unfold retry_scan, instance_query. solve_balance.
Qed.

Lemma retry_scan_balanced : moves balanced retry_scan.
Proof. apply balanced_intro, bal_retry_scan. Qed.
End RetryBalance.

Section RetryProperties.
Context `{BackendSpec} `{Env}.

(** What the query lists: stored instances that wait for a retry. *)
Lemma due_retries cutoff limit w xs : world_inv w -> ListDueRetryInstances cutoff limit (w_instances w) = Ok xs ->
  NoDup xs /\ forall i, i ∈ xs -> retry_due cutoff i /\ insts_of (w_instances w) !! inst_ID i = Some i.
Proof.
  intros (_ & Hi & _) Hl. destruct (ListDueRetryInstances_ok _ _ _ _ Hi Hl) as (all & (Hnd & Hall) & ->). split.
  - destruct (limit_to_prefix limit all) as [ys Hys]. rewrite Hys in Hnd. by apply NoDup_app in Hnd as [? _].
  - intros i Hin%limit_to_elem. apply Hall in Hin as (Hd & k & Hk). split; [done|].
    by rewrite (insts_inv_id _ _ _ Hi Hk).
Qed.

Abbreviation insts w := (insts_of (w_instances w)).
Abbreviation tasks w := (tasks_of (w_tasks w)).

(** A message for a waiting instance: its task, the chosen worker, the answer. *)
Record Attempt := mkAttempt {
  att_instance : TaskInstance; att_task : Task; att_worker : WorkerNode; att_accepted : bool
}.

Definition attempt_message (a : Attempt) : Message * bool :=
  (task_message (att_worker a) (retry_request (att_task a) (att_instance a)
     (inst_ScheduleInstanceID (att_instance a)) (inst_RetryCount (att_instance a))), att_accepted a).

(** Everything but the stores of tasks and the log is left open. *)
Definition same_log (w w' : World) : Prop := w_tasks w' = w_tasks w /\ w_sent w' = w_sent w.
#[local] Instance same_log_preorder : PreOrder same_log.
Proof. split; [done|]. intros x y z [??] [??]. split; congruence. Qed.

Lemma same_log_instance_op {A} (f : Time -> IS -> IS * result A) : moves same_log (instance_op f).
Proof. intros w. unfold instance_op. by destruct (f _ _). Qed.
Lemma same_log_Now : moves same_log Now.
Proof. by intros w. Qed.
Lemma same_log_Release worker : moves same_log (Release worker).
Proof. intros w. by destruct (Release_routing worker w) as (?&_&_&_&?&_). Qed.
Lemma same_log_Pick opts : moves same_log (Pick opts).
Proof. intros w. by destruct (Pick_routing opts w) as (?&_&_&_&?&_). Qed.
#[local] Hint Resolve same_log_instance_op same_log_Now same_log_Release same_log_Pick : moves.

(** What one attempt adds to the log: nothing, or one message for the instance. *)
Definition tried (i : TaskInstance) (w w' : World) : Prop :=
  w_tasks w' = w_tasks w /\
  (w_sent w' = w_sent w \/
   exists t worker ok, tasks w !! inst_TaskID i = Some t /\
     w_sent w' = attempt_message (mkAttempt i t worker ok) :: w_sent w).

Lemma tried_after {A B} i (m : M A) (k : result A -> M B) :
  moves same_log m -> (forall r, moves (tried i) (k r)) -> moves (tried i) (attempt m k).
Proof.
  intros Hm Hk w. unfold attempt. destruct (Hm w) as [Ht Hs]. destruct (m w) as [w1 r]. simpl in Ht, Hs.
  destruct (Hk r w1) as [Ht' Hs']. split; [congruence|]. by rewrite Ht, Hs in Hs'.
Qed.

Lemma tried_nothing {A} i (m : M A) : moves same_log m -> moves (tried i) m.
Proof. intros Hm w. destruct (Hm w). split; auto. Qed.

Lemma tried_dispatch {B} i t worker (k : result unit -> M B) w :
  tasks w !! inst_TaskID i = Some t -> (forall r, moves same_log (k r)) ->
  tried i w (attempt (Dispatch worker (retry_request t i (inst_ScheduleInstanceID i) (inst_RetryCount i))) k w).1.
Proof.
  intros Ht Hk. set (req := retry_request _ _ _ _). unfold attempt.
  pose proof (Dispatch_delivered worker req w) as Hd. destruct (Dispatch_network worker req w) as [Htk _].
  destruct (Dispatch worker req w) as [w1 r]. simpl in Hd, Htk. destruct (Hk r w1) as [Htk' Hs].
  split; [congruence|]. rewrite Hs. destruct r as [[]|e]; simpl in Hd.
  - right. by exists t, worker, true.
  - destruct Hd as [Hd|Hd]; [by left|right]. by exists t, worker, false.
Qed.

Lemma retry_one_tried i w : world_inv w -> tried i w (retry_one i w).1.
Proof.
  intros Hw. unfold retry_one, attempt at 1, task_query, reads_res.
  destruct (GetTask (inst_TaskID i) (w_tasks w)) as [t|e] eqn:Hg; [|by split; auto].
  pose proof (GetTask_ok _ _ _ Hg) as Ht. unfold attempt at 1.
  destruct (same_log_Pick (task_options t) w) as [Ht1 Hs1].
  destruct (Pick (task_options t) w) as [w1 [worker|e]]; simpl in Ht1, Hs1; [|by split; auto].
  unfold bind, Now. set (w2 := set_w_reads _ _). unfold attempt at 1.
  match goal with |- context [instance_op ?f w2] => pose proof (same_log_instance_op f w2) as [Ht3 Hs3];
    destruct (instance_op f w2) as [w3 [u|e]] end; simpl in Ht3, Hs3.
  - destruct (tried_dispatch i t worker (fun d => match d with
        | Ok _ => ret true
        | Err _ => attempt (instance_op (fun now => UpdateInstanceStatus now (inst_ID i) "retry_waiting"))
                     (fun _ => attempt (Release worker) (fun _ => ret true))
        end) w3) as [Ht4 Hs4]; [by rewrite Ht3, Ht1 | intros [[]|e]; solve_moves |].
    split; [congruence|]. by rewrite Ht3, Ht1, Hs3, Hs1 in Hs4.
  - assert (moves same_log (attempt (Release worker) (fun _ => ret true))) as Hm by solve_moves.
    destruct (Hm w3) as [Ht4 Hs4]. split; [congruence|left; congruence].
Qed.

Lemma inv_retry_one i : moves (keeps world_inv) (retry_one i).
Proof. unfold retry_one, task_query. solve_moves. Qed.

Lemma retry_all_tried xs w : world_inv w -> NoDup xs ->
  exists atts, w_sent (retry_all xs w).1 = map attempt_message atts ++ w_sent w /\
    NoDup (map att_instance atts) /\
    Forall (fun a => att_instance a ∈ xs /\ tasks w !! inst_TaskID (att_instance a) = Some (att_task a)) atts.
Proof.
  revert w. induction xs as [|i xs IH]; intros w Hw Hnd; cbn [retry_all].
  { exists []. split; [done|]. by split; constructor. }
  apply NoDup_cons in Hnd as [Hni Hnd]. unfold bind.
  destruct (retry_one_tried i w Hw) as [Ht Hs].
  assert (world_inv (retry_one i w).1) as Hw1 by (by apply inv_retry_one).
  destruct (retry_one i w) as [w1 r]. simpl in Ht, Hs, Hw1.
  assert (exists first, w_sent w1 = map attempt_message first ++ w_sent w /\ (length first <= 1)%nat /\
    Forall (fun a => att_instance a = i /\ tasks w !! inst_TaskID i = Some (att_task a)) first) as (first & Hf & Hl & Hfa).
  { destruct Hs as [Hs|(t & worker & ok & Hti & Hs)].
    - exists []. split; [done|]. split; [simpl; lia|constructor].
    - exists [mkAttempt i t worker ok]. split; [done|]. split; [simpl; lia|]. by repeat constructor. }
  assert (exists rest, w_sent (match r with Ok go => (if go then retry_all xs else ret tt) w1 | Err e => (w1, Err e) end).1
      = map attempt_message rest ++ w_sent w1 /\ NoDup (map att_instance rest) /\
      Forall (fun a => att_instance a ∈ xs /\ tasks w1 !! inst_TaskID (att_instance a) = Some (att_task a)) rest)
    as (rest & Hr & Hrn & Hra).
  { destruct r as [[]|e]; [by apply IH| |]; exists []; (split; [done|]); split; constructor. }
  exists (rest ++ first). rewrite Hr, Hf, !map_app, app_assoc. split; [done|]. rewrite Forall_forall in Hra.
  split.
  - apply NoDup_app. split_and!; [done| |].
    + intros j (a & -> & Ha)%list_elem_of_fmap (b & Hb & Hbf)%list_elem_of_fmap.
      rewrite Forall_forall in Hfa. destruct (Hfa b Hbf) as [Hbi _]. destruct (Hra a Ha) as [Hax _]. congruence.
    + destruct first as [|a [|b f]]; simpl in *; [constructor|apply NoDup_singleton|lia].
  - apply Forall_app. split.
    + apply Forall_forall. intros a Ha. destruct (Hra a Ha) as [Hax Hat]. rewrite Ht in Hat. split; [set_solver|done].
    + eapply Forall_impl; [exact Hfa|]. intros a [-> Hat]. split; [set_solver|done].
Qed.

(** C32. What the retry loop sends: every message of a scan is for an instance that was
    waiting for a retry and due at the scan's clock reading, and no instance gets two
    messages. The message to an HTTP worker carries that instance's schedule id, retry number
    and shard, and its task's type, payload and timeout, but no image; the message to a gRPC
    worker carries the same with the numbers cut to 32 bits and without the shard and the
    idempotency key, which its type does not have. *)
Theorem retry_scan_sends w :
  world_inv w ->
  exists atts, w_sent (retry_scan w).1 = map attempt_message atts ++ w_sent w /\
    NoDup (map att_instance atts) /\
    Forall (fun a => let i := att_instance a in let t := att_task a in let worker := att_worker a in
      insts w !! inst_ID i = Some i /\ retry_due (clock (w_reads w)) i /\ tasks w !! inst_TaskID i = Some t /\
      (attempt_message a).1 =
        if equal_fold (worker_Protocol worker) "grpc"
        then GrpcExecute (worker_GRPCAddr worker) {|
          pb_ScheduleInstanceId := inst_ScheduleInstanceID i; pb_TaskId := inst_TaskID i; pb_TaskType := task_Type t;
          pb_Payload := task_Payload t; pb_Image := ""; pb_TimeoutSeconds := wrap32 (task_TimeoutSeconds t);
          pb_RetryCount := wrap32 (inst_RetryCount i); pb_SchedulerUrl := schedulerURL |}
        else HttpExecute (trim_slashes (worker_CallbackURL worker) +:+ "/internal/tasks/execute") {|
          req_ScheduleInstanceID := inst_ScheduleInstanceID i; req_TaskID := inst_TaskID i; req_TaskType := task_Type t;
          req_Payload := task_Payload t; req_Image := ""; req_TimeoutSeconds := task_TimeoutSeconds t;
          req_RetryCount := inst_RetryCount i; req_ShardNo := inst_ShardNo i; req_ShardTotal := inst_ShardTotal i;
          req_IdempotencyKey := task_IdempotencyKey t; req_SchedulerURL := schedulerURL |}) atts.
Proof.
  intros Hw. unfold retry_scan, bind, Now, attempt, instance_query, reads_res. simpl.
  destruct (ListDueRetryInstances (clock (w_reads w)) 100 (w_instances w)) as [xs|e] eqn:Hl.
  2: { exists []. split; [done|]. by split; constructor. }
  destruct (due_retries _ _ _ _ Hw Hl) as [Hnd Hdue].
  destruct (retry_all_tried xs (set_w_reads (S (w_reads w)) w) Hw Hnd) as (atts & Hs & Hn & Ha).
  exists atts. split_and!; [done|done|]. eapply Forall_impl; [exact Ha|].
  intros a [Hin Ht]. destruct (Hdue _ Hin). split_and!; [done..|]. destruct Hw as (Hti & _).
  rewrite <- (tasks_inv_id _ _ _ Hti Ht). unfold attempt_message, task_message. cbn [fst]. by case_match.
Qed.

(** Head-of-line blocking: when no worker is eligible for the task of the first
    due instance, the scan stops there, although workers that fit the later ones
    may be idle: no instance changes and nothing is sent. *)
Theorem retry_head_of_line w first rest task :
  world_inv w -> ListDueRetryInstances (clock (w_reads w)) 100 (w_instances w) = Ok (first :: rest) ->
  GetTask (inst_TaskID first) (w_tasks w) = Ok task ->
  (forall w1, w_workers w1 = w_workers w -> (Pick (task_options task) w1).2 = Err ErrNoAvailableWorker) ->
  w_instances (retry_scan w).1 = w_instances w /\ w_sent (retry_scan w).1 = w_sent w.
Proof.
  intros Hw Hl Hg Hp. set (w1 := set_w_reads (S (w_reads w)) w). specialize (Hp w1 eq_refl).
  destruct (Pick_routing (task_options task) w1) as (_ & Hi & _ & _ & Hs & _).
  enough (retry_scan w = ((Pick (task_options task) w1).1, Ok tt)) as -> by done.
  unfold retry_scan, bind at 1, Now, attempt at 1, instance_query, reads_res.
  change (w_instances (set_w_reads _ w)) with (w_instances w). rewrite Hl. fold w1.
  cbn [retry_all]. unfold bind, retry_one, attempt, task_query, reads_res.
  change (w_tasks w1) with (w_tasks w). rewrite Hg.
  destruct (Pick (task_options task) w1) as [w2 r]. simpl in Hp. by subst r.
Qed.
End RetryProperties.

(** ** On concrete worlds *)

(** Instance 2 waits for a worker with a GPU, instance 1 for any; both have the same
    retry time and 2 is listed first. One worker, idle and without a GPU. *)
Definition gpu_label : string := EncodeLabels {["gpu" := "yes"]}.

Definition waiting_world : @World test_backend :=
  world_with [sample_task; task_with "" gpu_label]
    [sample_instance 1 "s1" "retry_waiting" "" 1; sample_instance 2 "s2" "retry_waiting" "" 1] [worker_named "a" 0].

Definition served_world : @World test_backend :=
  world_with [sample_task] [sample_instance 1 "s1" "retry_waiting" "" 1] [worker_named "a" 0].

Lemma retry_scan_sends_witness : exists a,
  is_instances (w_instances served_world) !! inst_ID (att_instance a) = Some (att_instance a) /\ att_accepted a = true /\
  w_sent (@retry_scan test_backend (answering 200) served_world).1 = [@attempt_message (answering 200) a] /\
  (@attempt_message (answering 200) a).1 = HttpExecute "http://a/internal/tasks/execute"
    (mkExecuteTaskRequest "s1" 1 "shell" "run" "" 60 1 0 0 "" "http://scheduler").
Proof.
  destruct (@retry_scan_sends test_backend test_backend_contract test_backend_spec (answering 200) served_world) as (atts & Hs & _ & Ha);
    [apply world_with_inv|].
  assert (w_sent (@retry_scan test_backend (answering 200) served_world).1 =
    [(HttpExecute "http://a/internal/tasks/execute" (mkExecuteTaskRequest "s1" 1 "shell" "run" "" 60 1 0 0 "" "http://scheduler"), true)])
    as Hlit by (vm_compute; reflexivity).
  rewrite Hlit in Hs. change (w_sent served_world) with (@nil (Message * bool)) in Hs. rewrite app_nil_r in Hs.
  destruct atts as [|a [|b atts]]; simpl in Hs; [discriminate| |discriminate].
  apply Forall_singleton in Ha as (Hi & _). exists a. split; [exact Hi|]. injection Hs as Hm Hok.
  split; [by symmetry|]. split; [|by symmetry].
  rewrite Hlit, Hm, Hok. reflexivity.
Defined.

Lemma retry_head_of_line_witness :
  w_instances (@retry_scan test_backend (answering 200) waiting_world).1 = w_instances waiting_world /\
  w_sent (@retry_scan test_backend (answering 200) waiting_world).1 = w_sent waiting_world.
Proof.
  apply (@retry_head_of_line test_backend test_backend_contract (answering 200) waiting_world
    (new_instance start_time 2 (sample_instance 2 "s2" "retry_waiting" "" 1))
    [new_instance start_time 1 (sample_instance 1 "s1" "retry_waiting" "" 1)]
    (default sample_task (ts_tasks (w_tasks waiting_world) !! 2))).
  - apply world_with_inv.
  - vm_compute. reflexivity.
  - vm_compute. reflexivity.
  - intros w1 Hw1. unfold Pick, bind at 1, worker_query, reads_res. rewrite Hw1. vm_compute. reflexivity.
Defined.
