(* ===== verification/Settle.v ===== *)
(** The handlers that write rows of instances, as goroutines interleaved at every access
    to such a row: reports with the retry they start and cancellations
    (service/task_runtime_service.go), and the dispatches of the trigger and the retry loop
    (trigger/loop.go, retry/loop.go, cmd/scheduler/main.go). They look at a status first
    and write a new one later, without a lock or a condition on what they overwrite. *)
From S2P Require Import Prelude Threads GoStd GoTime GoFormat Model Repo TestStore World Sample Dispatch Router.
From S2P Require Import Lifecycle Runtime Trigger Retry.

#[local] Open Scope prog_scope.

(** ** The goroutines *)

(** Where a goroutine stands: just before the access named. *)
Inductive settler :=
| Asked (req : TaskStatusReportRequest)                                  (** a report: [GetInstanceByScheduleID] *)
| Judged (instance : TaskInstance) (req : TaskStatusReportRequest)       (** [UpdateInstanceResult] *)
| Recorded (instance : TaskInstance) (req : TaskStatusReportRequest)     (** the times, the downstream tasks, the slot *)
| Retrying (instance : TaskInstance) (req : TaskStatusReportRequest)     (** [CreateInstance] of the retry *)
| Assigning (task : Task) (instance created : TaskInstance) (n : Z)      (** [Router.Pick] *)
| Waiting (created : TaskInstance)                                       (** [UpdateInstanceStatus] *)
| Placing (retry : bool) (request : ExecuteTaskRequest) (instance : TaskInstance) (worker : WorkerNode) (** [UpdateInstanceDispatch] *)
| Sending (retry : bool) (request : ExecuteTaskRequest) (instance : TaskInstance) (worker : WorkerNode) (** [Client.Dispatch] *)
| Refused (retry : bool) (instance : TaskInstance) (worker : WorkerNode) (e : gerror) (** the status of a failed dispatch *)
| Returning (worker : WorkerNode)                                        (** [Router.Release] *)
| CancelAsked (sid : string)                                             (** a cancellation: [GetInstanceByScheduleID] *)
| CancelFound (instance : TaskInstance) (sid : string)                   (** [Client.CancelDispatch] *)
| CancelWrites (sid : string)                                            (** [UpdateInstanceResult] *)
| Settled.

Section Settle.
Context `{Backend} `{Env}.

(** [retryIfNeeded] up to the created instance that is dispatched at once, if there is one. *)
Definition plan_retry (instance : TaskInstance) (req : TaskStatusReportRequest) : M (option (Task * TaskInstance * Z)) :=
  if negb (isRetryableStatus (rep_Status req)) then ret None else
  task <- task_query (GetTask (inst_TaskID instance)) ;;
  if task_MaxRetry task <=? inst_RetryCount instance then alert_Send task instance req ;; ret None else
  if negb (shouldRetryOnErrors (task_RetryPolicy task) (task_RetryOnErrors task) (rep_ErrorCode req)) then ret None else
  exceeded <- (if task_RetryWindowSeconds task <=? 0 then ret false
               else now <- Now ;; ret (retryWindowExceeded now instance (task_RetryWindowSeconds task))) ;;
  if (exceeded : bool) then ret None else
  let retryCount := inst_RetryCount instance + 1 in
  idTime <- Now ;;
  trigger <- Now ;;
  let retryInstance := new_pending (task_ID task) (retryScheduleInstanceID idTime (task_ID task) retryCount)
                         trigger retryCount (inst_ShardNo instance) (inst_ShardTotal instance) in
  let delay := retryDelay (task_RetryPolicy task) retryCount (task_RetryIntervalSeconds task) in
  if 0 <? delay then
    now <- Now ;;
    _ignored <- instance_op (fun t => CreateInstance t
      (set_inst_NextRetryTime (now + delay) (set_inst_Status "retry_waiting" retryInstance))) ;;
    ret None
  else
    created <- instance_op (fun t => CreateInstance t retryInstance) ;;
    ret (Some (task, created, retryCount)).

(** One access, and where the goroutine stands then; an error ends it. *)
Definition settle_next (g : settler) : M settler :=
  match g with
  | Asked req =>
      if bool_decide (rep_ScheduleInstanceID req = "") then fail ErrScheduleInstanceIDRequired else
      instance <- instance_query (GetInstanceByScheduleID (rep_ScheduleInstanceID req)) ;;
      ret (if isTerminalStatus (inst_Status instance) then Settled else Judged instance req)
  | Judged instance req =>
      instance_op (fun now => UpdateInstanceResult now (rep_ScheduleInstanceID req) (rep_Status req)
                                (rep_ErrorCode req) (rep_ErrorMessage req)) ;;
      ret (Recorded instance req)
  | Recorded instance req =>
      report_timestamps req ;;
      if bool_decide (rep_Status req = "running") then ret Settled else
      spawn_analysis instance req ;;
      (if bool_decide (rep_Status req = "success") then fireDownstream instance else ret tt) ;;
      release_reporter req ;;
      ret (Retrying instance req)
  | Retrying instance req =>
      o <- plan_retry instance req ;;
      ret (match o with Some (task, created, n) => Assigning task instance created n | None => Settled end)
  | Assigning task instance created n =>
      p <-? Pick (task_options task) ;;
      match p with
      | Err e => if bool_decide (e = ErrNoAvailableWorker) then ret (Waiting created) else fail e
      | Ok worker => ret (Placing true (retry_request task instance (inst_ScheduleInstanceID created) n) created worker)
      end
  | Waiting created =>
      _ignore instance_op (fun now => UpdateInstanceStatus now (inst_ID created) "retry_waiting") ;; ret Settled
  | Placing retry request instance worker =>
      dispatchTime <- Now ;;
      u <-? instance_op (fun now => UpdateInstanceDispatch now (inst_ID instance) (worker_ID worker)
                                      (FormatRFC3339Nano local dispatchTime)) ;;
      ret (match u with
           | Err _ => if retry then Returning worker else Sending retry request instance worker
           | Ok _ => Sending retry request instance worker
           end)
  | Sending retry request instance worker =>
      d <-? Dispatch worker request ;;
      ret (match d with Ok _ => Settled | Err e => Refused retry instance worker e end)
  | Refused retry instance worker e =>
      _ignore (if retry then instance_op (fun now => UpdateInstanceStatus now (inst_ID instance) "retry_waiting")
               else instance_op (fun now => UpdateInstanceResult now (inst_ScheduleInstanceID instance)
                                              "failed" "dispatch_failed" (error_text e))) ;;
      ret (Returning worker)
  | Returning worker => _ignore Release worker ;; ret Settled
  | CancelAsked sid =>
      instance <- instance_query (GetInstanceByScheduleID sid) ;;
      if isTerminalStatus (inst_Status instance)
      then fail (Errorf "instance already in terminal state: %s" [inst_Status instance]) else ret (CancelFound instance sid)
  | CancelFound instance sid =>
      (if bool_decide (inst_WorkerID instance = "") then ret tt
       else r <-? worker_query (GetWorker (inst_WorkerID instance)) ;;
            match r with
            | Err _ => ret tt
            | Ok worker => _ignore CancelDispatch worker sid ;; ret tt
            end) ;;
      ret (CancelWrites sid)
  | CancelWrites sid =>
      instance_op (fun now => UpdateInstanceResult now sid "cancelled" "cancelled" "cancelled by user") ;; ret Settled
  | Settled => ret Settled
  end.

#[export] Program Instance settlers : Goroutines World gerror settler := {| thread_code := settle_next; halted := Settled |}.
Next Obligation. done. Qed.
End Settle.

(** ** The goroutines are the handlers *)

Ltac follow := follow_with ltac:(cbn [thread_code settlers settle_next]).

Section Undisturbed.
Context `{Backend} `{Env}.

(** The trigger loop, once it has picked a worker. *)
Lemma alone_place_shard task shard i worker w w1 : Pick (task_options task) w = (w1, Ok worker) ->
  (alone 4 (Placing false (dispatch_request task (inst_ScheduleInstanceID i) (inst_RetryCount i) shard (task_TotalShards task)) i worker) w1).1 =
  (place_shard task shard i w).1.
Proof.
  intros Hp. unfold place_shard, attempt at 1. rewrite Hp. cbv beta iota. clear Hp. revert w1.
  change (runs 4 (Placing false (dispatch_request task (inst_ScheduleInstanceID i) (inst_RetryCount i) shard (task_TotalShards task)) i worker)
    (dispatchTime <- Now ;;
      _ignore instance_op (fun t => UpdateInstanceDispatch t (inst_ID i) (worker_ID worker) (FormatRFC3339Nano local dispatchTime)) ;;
      d <-? Dispatch worker (dispatch_request task (inst_ScheduleInstanceID i) (inst_RetryCount i) shard (task_TotalShards task)) ;;
      match d with
      | Err e => _ignore instance_op (fun t => UpdateInstanceResult t (inst_ScheduleInstanceID i) "failed" "dispatch_failed" (error_text e)) ;;
                 _ignore Release worker ;; ret true
      | Ok _ => ret true
      end)).
  follow.
Qed.

(** The retry loop, and a retry that a report starts, likewise. *)
Lemma alone_retry_one task i worker w w1 : GetTask (inst_TaskID i) (w_tasks w) = Ok task -> Pick (task_options task) w = (w1, Ok worker) ->
  (alone 4 (Placing true (retry_request task i (inst_ScheduleInstanceID i) (inst_RetryCount i)) i worker) w1).1 = (retry_one i w).1.
Proof.
  intros Ht Hp. unfold retry_one, task_query, reads_res, attempt at 1. rewrite Ht. unfold attempt at 1. rewrite Hp. cbv beta iota.
  revert w1 Hp. intros w1 _. revert w1.
  change (runs 4 (Placing true (retry_request task i (inst_ScheduleInstanceID i) (inst_RetryCount i)) i worker)
    (dispatchTime <- Now ;;
      u <-? instance_op (fun now => UpdateInstanceDispatch now (inst_ID i) (worker_ID worker) (FormatRFC3339Nano local dispatchTime)) ;;
      match u with
      | Err _ => _ignore Release worker ;; ret true
      | Ok _ => d <-? Dispatch worker (retry_request task i (inst_ScheduleInstanceID i) (inst_RetryCount i)) ;;
          match d with
          | Ok _ => ret true
          | Err _ => _ignore instance_op (fun now => UpdateInstanceStatus now (inst_ID i) "retry_waiting") ;; _ignore Release worker ;; ret true
          end
      end)).
  follow.
Qed.

Lemma runs_Assigning task i created n : runs 5 (Assigning task i created n) (dispatch_retry task i n created).
Proof. unfold dispatch_retry. follow. Qed.

Lemma retry_planned i req w : (retryIfNeeded i req w).1 =
  ((o <- plan_retry i req ;; match o with Some (task, created, n) => dispatch_retry task i n created | None => ret tt end) w).1.
Proof.
  unfold retryIfNeeded, plan_retry. destruct (negb _); [done|]. unfold bind, ret, fail. cbv beta.
  destruct (task_query _ w) as [w1 [task|e]]; [|done]. destruct (_ <=? _); [by destruct (alert_Send _ _ _ w1) as [w2 [[]|e]]|].
  destruct (negb _); [done|].
  destruct (task_RetryWindowSeconds task <=? 0); [|unfold Now at 1 5; cbv beta iota; destruct (retryWindowExceeded _ _ _); [done|]];
    unfold Now; cbv beta iota; (destruct (0 <? _); cbv beta iota; by destruct (instance_op _ _) as [w6 [x|e]]).
Qed.

Lemma runs_Retrying i req : runs 6 (Retrying i req) (retryIfNeeded i req).
Proof.
  apply (runs_eq 6 _ (o <- plan_retry i req ;; match o with Some (task, created, n) => dispatch_retry task i n created | None => ret tt end));
    [|intros w; apply retry_planned].
  pose proof runs_Assigning. follow.
Qed.

(** A report. *)
Lemma runs_report req : runs 9 (Asked req) (ReportStatus req).
Proof. unfold ReportStatus. pose proof runs_Retrying. follow. Qed.

(** A cancellation. *)
Lemma runs_cancel sid : runs 3 (CancelAsked sid) (CancelInstance sid).
Proof. unfold CancelInstance. follow. Qed.
End Undisturbed.

(** ** What an access may do to the rows *)

Section Lives.
Context `{BackendContract} `{Env}.
Abbreviation insts w := (insts_of (w_instances w)).

(** The outcomes that may be written: for a schedule id, a status and the error's code and text. *)
Variable T : string -> string -> string -> string -> Prop.

(** A row stays, as the same instance, and a final outcome is the one it had or one that
    may be written. *)
Definition outlives (i i' : TaskInstance) : Prop :=
  same_identity i i' /\ (isTerminalStatus (inst_Status i') = true ->
    same_outcome i i' \/ T (inst_ScheduleInstanceID i') (inst_Status i') (inst_ErrorCode i') (inst_ErrorMessage i')).
Definition lives (w w' : World) : Prop :=
  world_inv w -> world_inv w' /\ forall id i, insts w !! id = Some i -> exists i', insts w' !! id = Some i' /\ outlives i i'.

#[local] Instance outlives_preorder : PreOrder outlives.
Proof.
  split; [by intros i; split; [|by left]|]. intros i j k [Hij Hj] [Hjk Hk].
  assert (same_identity i k) as Hik by (destruct Hij as (?&?&?&?&?&?&?&?), Hjk as (?&?&?&?&?&?&?&?); unfold same_identity; split_and!; congruence).
  split; [done|]. intros Ht. destruct (Hk Ht) as [(Hs & Hc & Hm)|Hw]; [|by right].
  rewrite Hs in Ht. destruct (Hj Ht) as [(? & ? & ?)|Hw]; [left; unfold same_outcome; split_and!; congruence|right].
  destruct Hjk as (_ & _ & -> & _). by rewrite Hs, Hc, Hm.
Qed.

#[local] Instance lives_preorder : PreOrder lives.
Proof.
  split; [intros w Hw; split; [done|]; intros id i Hi; by exists i|]. intros x y z Hxy Hyz Hx.
  destruct (Hxy Hx) as [Hy Hm]. destruct (Hyz Hy) as [Hz Hm']. split; [done|]. intros id i Hi.
  destruct (Hm _ _ Hi) as (j & Hj & Hij). destruct (Hm' _ _ Hj) as (k & Hk & Hjk). exists k. split; [done|]. by etrans.
Qed.

Lemma outlives_same (m : gmap Z TaskInstance) id i : m !! id = Some i -> exists i', m !! id = Some i' /\ outlives i i'.
Proof. intros Hi. exists i. split; [done|reflexivity]. Qed.

(** Operations that leave the instances alone. *)
Lemma lives_tracked {A} (m : M A) :
  (forall m1, moves (keeps (tracked m1 [] [])) m) -> moves same_instances m -> moves lives m.
Proof.
  intros Ht Hs w Hw. split; [by apply (inv_tracked m Ht)|]. specialize (Hs w). unfold same_instances in Hs.
  intros id i Hi. exists i. by rewrite Hs.
Qed.

Lemma lives_network {A} (m : M A) : moves only_network m -> moves lives m.
Proof. intros Hm. apply lives_tracked; [intros; by apply tracked_network|]. intros w. by destruct (Hm w) as (_ & ? & _). Qed.

Lemma lives_Now : moves lives Now.
Proof. apply lives_tracked; [intros; apply tracked_Now|done]. Qed.

Lemma lives_modify (f : World -> World) :
  (forall w, w_tasks (f w) = w_tasks w /\ w_instances (f w) = w_instances w /\ w_workers (f w) = w_workers w) ->
  moves lives (modify (E:=gerror) f).
Proof. intros Hf. apply lives_tracked; [intros; by apply tracked_modify|]. intros w. by destruct (Hf w) as (_ & ? & _). Qed.

Lemma lives_Pick opts : moves lives (Pick opts).
Proof. apply lives_tracked; [intros; apply tracked_Pick|]. intros w. by destruct (Pick_routing opts w) as (_ & ? & _). Qed.

Lemma lives_upsert worker : moves lives (worker_op (fun now => UpsertWorker now worker)).
Proof. apply lives_tracked; [intros; apply tracked_upsert|]. intros w. unfold same_instances, worker_op. by destruct (UpsertWorker _ _ _). Qed.

Lemma lives_UpdateTask t : moves lives (task_op (fun now => UpdateTask now t)).
Proof. apply lives_tracked; [intros; apply tracked_UpdateTask|]. intros w. unfold same_instances, task_op. by destruct (UpdateTask _ _ _). Qed.

(** Writes of rows. *)
Lemma outlives_rewritten R id (m m' : gmap Z TaskInstance) : rewritten R id m m' ->
  (forall i i', m !! id = Some i -> R i i' -> outlives i i') ->
  forall k i, m !! k = Some i -> exists i', m' !! k = Some i' /\ outlives i i'.
Proof.
  intros (f & Hf & ->) HR k i Hi. destruct (decide (id = k)) as [<-|Hne].
  - exists (f i). rewrite lookup_alter_eq, Hi. eauto.
  - exists i. by rewrite lookup_alter_ne.
Qed.

Lemma lives_instance_op {A} (f : Time -> IS -> IS * result A) :
  (forall now s s' r, insts_inv s -> f now s = (s', r) -> insts_inv s' /\
     forall id i, insts_of s !! id = Some i -> exists i', insts_of s' !! id = Some i' /\ outlives i i') ->
  moves lives (instance_op f).
Proof.
  intros Hf w (Ht & Hi & Hw). unfold instance_op. destruct (f _ (w_instances w)) as [s r] eqn:E.
  destruct (Hf _ _ _ _ Hi E). by split.
Qed.

Lemma lives_status (f : Time -> IS -> IS * result unit) id st : isTerminalStatus st = false ->
  (forall now s s' u, insts_inv s -> f now s = (s', Ok u) ->
     insts_inv s' /\ rewritten (sets_status st) id (insts_of s) (insts_of s') /\ sched_of s' = sched_of s) ->
  (forall now s s' e, insts_inv s -> f now s = (s', Err e) -> insts_inv s' /\ insts_of s' = insts_of s /\ sched_of s' = sched_of s) ->
  moves lives (instance_op f).
Proof.
  intros Hst Hok Herr. apply lives_instance_op. intros now s s' [u|e] Hi E.
  - destruct (Hok _ _ _ _ Hi E) as (? & Hr & _). split; [done|]. eapply outlives_rewritten; [exact Hr|].
    intros i i' _ (Hid & Hs & _). split; [done|]. rewrite Hs. congruence.
  - destruct (Herr _ _ _ _ Hi E) as (? & -> & _). split; [done|]. apply outlives_same.
Qed.

Lemma lives_UpdateInstanceStatus id st : isTerminalStatus st = false -> moves lives (instance_op (fun now => UpdateInstanceStatus now id st)).
Proof. intros Hst. apply (lives_status _ id st Hst); intros *; [apply UpdateInstanceStatus_row|apply UpdateInstanceStatus_err]. Qed.

Lemma lives_UpdateInstanceDispatch id wid d : moves lives (instance_op (fun now => UpdateInstanceDispatch now id wid d)).
Proof. apply (lives_status _ id "dispatched" eq_refl); intros *; [apply UpdateInstanceDispatch_row|apply UpdateInstanceDispatch_err]. Qed.

Lemma lives_UpdateInstanceResult sid st c msg : T sid st c msg -> moves lives (instance_op (fun now => UpdateInstanceResult now sid st c msg)).
Proof.
  intros HT. apply lives_instance_op. intros now s s' [u|e] Hi E.
  - destruct (UpdateInstanceResult_row _ _ _ _ _ _ _ _ Hi E) as (? & Hr & _). split; [done|]. unfold rewritten_by in Hr.
    destruct (sched_of s !! sid) as [id|] eqn:Hs; [|rewrite Hr; apply outlives_same]. eapply outlives_rewritten; [exact Hr|].
    intros i i' Hii (Hid & Ho1 & Ho2 & Ho3). split; [done|]. intros _. right. rewrite Ho1, Ho2, Ho3. destruct Hid as (_ & _ & -> & _).
    by rewrite (insts_inv_sched _ _ _ _ Hi Hs Hii).
  - destruct (UpdateInstanceResult_err _ _ _ _ _ _ _ _ Hi E) as (? & -> & _). split; [done|]. apply outlives_same.
Qed.

Lemma lives_UpdateInstanceTimestamps sid a b : moves lives (instance_op (fun now => UpdateInstanceTimestamps now sid a b)).
Proof.
  apply lives_instance_op. intros now s s' [u|e] Hi E.
  - destruct (UpdateInstanceTimestamps_row _ _ _ _ _ _ _ Hi E) as (? & Hr & _). split; [done|]. unfold rewritten_by in Hr.
    destruct (sched_of s !! sid) as [id|]; [|rewrite Hr; apply outlives_same]. eapply outlives_rewritten; [exact Hr|].
    intros i i' _ [Hid Ho]. split; [done|]. by left.
  - destruct (UpdateInstanceTimestamps_err _ _ _ _ _ _ _ Hi E) as (? & -> & _). split; [done|]. apply outlives_same.
Qed.

Lemma lives_CreateInstance i : moves lives (instance_op (fun now => CreateInstance now i)).
Proof.
  apply lives_instance_op. intros now s s' r Hi E.
  destruct (CreateInstance_row _ _ _ _ _ Hi E) as (? & [(_ & -> & _)|(i' & Hn & _ & -> & _)]); (split; [done|]); [apply outlives_same|]. intros id x Hx.
  exists x. rewrite lookup_insert_ne by congruence. split; [done|reflexivity].
Qed.
End Lives.

#[export] Hint Resolve lives_Now lives_Pick lives_upsert lives_UpdateTask lives_UpdateInstanceDispatch lives_UpdateInstanceTimestamps
  lives_UpdateInstanceStatus lives_CreateInstance : moves.
#[export] Existing Instances outlives_preorder lives_preorder.

(** ** Interleavings *)

Section Interleaving.
Context `{BackendContract} `{Env}.
Abbreviation insts w := (insts_of (w_instances w)).

(** The goroutines there may be, each as it starts. *)
Variable P : settler -> Prop.

Definition begins (g : settler) : bool :=
  match g with Asked _ | CancelAsked _ | Placing _ _ _ _ => true | _ => false end.

(** The outcome a goroutine comes to write. *)
Definition brings (g : settler) (sid st code msg : string) : Prop :=
  match g with
  | Asked req => rep_ScheduleInstanceID req = sid /\ rep_Status req = st /\ rep_ErrorCode req = code /\ rep_ErrorMessage req = msg
  | CancelAsked sid' => sid' = sid /\ st = "cancelled" /\ code = "cancelled" /\ msg = "cancelled by user"
  | Placing false _ instance _ => inst_ScheduleInstanceID instance = sid /\ st = "failed" /\ code = "dispatch_failed"
  | _ => False
  end.
Definition brought (sid st code msg : string) : Prop := exists g, P g /\ brings g sid st code msg.

(** What else may happen writes no outcomes: other handlers, workers' rows, tasks, created
    instances. *)
Definition settle_step : conf World settler -> conf World settler -> Prop :=
  interleaved (fun g => begins g = true /\ P g) (lives (fun _ _ _ _ => False)).

(** What a goroutine under way started as. *)
Definition descends (g : settler) : Prop :=
  match g with
  | Asked req | Judged _ req => P (Asked req)
  | CancelAsked sid | CancelFound _ sid | CancelWrites sid => P (CancelAsked sid)
  | Placing false request instance worker | Sending false request instance worker => P (Placing false request instance worker)
  | Refused false instance worker _ => exists request, P (Placing false request instance worker)
  | _ => True
  end.

Abbreviation along := (lives brought).

Lemma along_Release worker : moves along (Release worker).
Proof. apply lives_upsert. Qed.
Lemma along_Dispatch worker req : moves along (Dispatch worker req).
Proof. apply lives_network, Dispatch_network. Qed.
Lemma along_CancelDispatch worker sid : moves along (CancelDispatch worker sid).
Proof. apply lives_network, CancelDispatch_network. Qed.
Lemma along_alert t i req : moves along (alert_Send t i req).
Proof. unfold alert_Send. solve_moves. by apply lives_modify. Qed.
Lemma along_spawn i req : moves along (spawn_analysis i req).
Proof. unfold spawn_analysis. solve_moves. by apply lives_modify. Qed.
Lemma along_fire i : moves along (fireDownstream i).
Proof. unfold fireDownstream, task_query, fire_one, task_query. solve_moves. Qed.
Lemma along_release req : moves along (release_reporter req).
Proof. unfold release_reporter, worker_query. solve_moves. Qed.
Lemma along_timestamps req : moves along (report_timestamps req).
Proof. unfold report_timestamps. solve_moves. Qed.
#[local] Hint Resolve along_Release along_Dispatch along_CancelDispatch along_alert along_spawn along_fire along_release along_timestamps : moves.
Lemma along_plan i req : moves along (plan_retry i req).
Proof. unfold plan_retry, task_query. solve_moves. Qed.
#[local] Hint Resolve along_plan : moves.

(** A goroutine brings an outcome that may be written. *)
Lemma along_brought g sid st c msg : P g -> brings g sid st c msg -> moves along (instance_op (fun now => UpdateInstanceResult now sid st c msg)).
Proof. intros Hp Hb. apply lives_UpdateInstanceResult. by exists g. Qed.

Lemma carries_along {A} w0 (m : prog World gerror A) : moves along m -> gives (along w0) (fun _ => True) m.
Proof. exact (gives_moves _ _ _). Qed.

Lemma settle_carries w0 g : descends g -> gives (along w0) descends (settle_next g).
Proof.
  intros Hg. destruct g as [req|i req|i req|i req|task i created n|created|[] request i worker|[] request i worker|[] i worker e|worker|sid|i sid|sid|];
    cbn [settle_next descends] in *; try solve [carry_with ltac:(apply gives_moves; unfold instance_query, worker_query; solve_moves); eauto].
  - eapply gives_bind; [by apply carries_along, (along_brought _ _ _ _ _ Hg)|]. intros _ _. by apply gives_ret.
  - eapply gives_attempt; [apply carries_along, along_Dispatch|]. intros [u|e] _; apply gives_ret; [done|by exists request].
  - destruct Hg as [request Hg]. eapply gives_attempt; [by apply carries_along, (along_brought _ _ _ _ _ Hg)|]. intros _ _. by apply gives_ret.
  - eapply gives_bind; [by apply carries_along, (along_brought _ _ _ _ _ Hg)|]. intros _ _. by apply gives_ret.
Qed.

Lemma begins_descends g : begins g = true /\ P g -> descends g.
Proof. intros [Hb Hp]. by destruct g as [| | | | | |[]| | | | | | |]. Qed.

Lemma lives_weaken T w w' : lives (fun _ _ _ _ => False) w w' -> lives T w w'.
Proof.
  intros Hq Hw. destruct (Hq Hw) as [? Hr]. split; [done|]. intros id i Hi. destruct (Hr _ _ Hi) as (i' & Hi' & Hid & Ho).
  exists i'. split; [done|]. split; [done|]. intros Hterm. destruct (Ho Hterm) as [|[]]. by left.
Qed.

(** C5. However reports with their retries, cancellations and dispatches are interleaved,
    access by access and under any failures, an instance is never lost and keeps its
    identity, and a final outcome is in one piece: status, error code and error text are
    those it had at the start, or those one report, one cancellation or one failed dispatch
    of it brought. *)
Theorem outcomes_whole c c' id i : world_inv (c_world c) -> map_Forall (fun _ g => begins g = true /\ P g) (c_threads c) ->
  rtc settle_step c c' -> insts (c_world c) !! id = Some i ->
  exists i', insts (c_world c') !! id = Some i' /\ same_identity i i' /\
    (isTerminalStatus (inst_Status i') = true ->
     same_outcome i i' \/ exists g, P g /\ brings g (inst_ScheduleInstanceID i) (inst_Status i') (inst_ErrorCode i') (inst_ErrorMessage i')).
Proof.
  intros Hw Ht Hs Hi. destruct (interleaved_keeps (fun g => begins g = true /\ P g) (lives (fun _ _ _ _ => False)) (along (c_world c)) descends c c') as [Hl _]; [apply begins_descends| | |exact Hs|done| |].
  - intros w w' Hl Hq. etrans; [exact Hl|by apply lives_weaken].
  - intros g w w' g' Hl Hg Hx. exact (gives_step _ descends _ _ _ _ Logic.I (settle_carries _ _ Hg) Hl Hx).
  - intros k g Hg. apply begins_descends. by eapply Ht.
  - destruct (Hl Hw) as [_ Hr]. destruct (Hr _ _ Hi) as (i' & Hi' & Hid & Ho). exists i'. split; [done|]. split; [done|].
    destruct Hid as (_ & _ & Hsid & _). rewrite Hsid in Ho. exact Ho.
Qed.
End Interleaving.

(** ** What the races do *)

(** Every worker gets what is sent to it, and its answers are lost. *)
Definition silent : Env :=
  {| clock := @clock (answering 200); local := UTC; http_new_request := fun _ => None;
     http_do := fun _ _ => Err (Sentinel "context deadline exceeded"); grpc_dial := fun _ _ => None;
     grpc_execute := fun _ _ => Ok (true, ""); grpc_cancel := fun _ _ => Ok true; cache_due := None;
     ai_analyze := fun _ _ _ _ _ _ => Ok "{}"; has_ai := false; has_alerter := true; schedulerURL := "http://scheduler" |}.

Definition anyone (_ : settler) : Prop := True.

(** One task, one instance of it on worker "a", which has this load. *)
Definition one_running (load : Z) : @World test_backend :=
  world_with [sample_task] [sample_instance 1 "s1" "dispatched" "a" 0] [worker_named "a" load].
Definition s1_says (st : string) : settler := Asked (mkReport "s1" "a" st "" "" "" "").

(** The goroutines take their accesses in this order. *)
Definition settle_run (env : Env) : list nat -> conf (@World test_backend) settler -> conf (@World test_backend) settler :=
  @scheduled _ _ (@goroutine_threads _ _ _ (@settlers test_backend env)).

Definition statuses (c : conf (@World test_backend) settler) : list (string * Z) :=
  (fun i => (inst_Status i, inst_RetryCount i)) <$> (map_to_list (is_instances (w_instances (c_world c)))).*2.

Definition result_of_s1 (c : conf (@World test_backend) settler) : option (string * string) :=
  (fun i => (inst_Status i, inst_ErrorCode i)) <$> is_instances (w_instances (c_world c)) !! 1.
Definition load_of_a (c : conf (@World test_backend) settler) : option Z := worker_CurrentLoad <$> ws_workers (w_workers (c_world c)) !! "a".

(** Two reports of one failure that both read the status before either writes it start a
    retry each, and both give the slot back: worker "a", with room for two tasks and two
    running, gets two more when one of them has failed. *)
Theorem reports_both_count : exists c', rtc (@settle_step test_backend test_backend_contract (answering 200) anyone)
    (start_all (one_running 2) [s1_says "failed"; s1_says "failed"]) c' /\
  statuses c' = [("dispatched", 1); ("dispatched", 1); ("failed", 0)] /\ load_of_a c' = Some 2 /\ length (w_sent (c_world c')) = 2%nat.
Proof.
  exists (settle_run (answering 200) [0; 1; 0; 1; 0; 1; 0; 1; 0; 0; 0; 1; 1; 1]%nat (start_all (one_running 2) [s1_says "failed"; s1_says "failed"])).
  split; [apply scheduled_steps|]. vm_compute. by split_and!.
Qed.

(** A dispatch of the retry loop whose answer is lost overwrites the success the worker has
    reported meanwhile, and the finished instance is due to run again. *)
Definition redispatch : settler :=
  let i := set_inst_ID 1 (sample_instance 1 "s1" "dispatched" "a" 1) in
  Placing true (@retry_request silent sample_task i "s1" 1) i (worker_named "a" 1).
Theorem finished_runs_again : exists c1 c2, rtc (@settle_step test_backend test_backend_contract silent anyone)
    (start_all (one_running 1) [redispatch; s1_says "success"]) c1 /\ rtc (@settle_step test_backend test_backend_contract silent anyone) c1 c2 /\
  result_of_s1 c1 = Some ("success", "") /\ result_of_s1 c2 = Some ("retry_waiting", "") /\
  exists xs, is_ListDueRetryInstances (start_time + Hour) 100 (w_instances (c_world c2)) = Ok xs /\ inst_ScheduleInstanceID <$> xs = ["s1"].
Proof.
  set (c := start_all (one_running 1) [redispatch; s1_says "success"]).
  exists (settle_run silent [0; 0; 1; 1; 1; 1]%nat c), (settle_run silent [0; 0]%nat (settle_run silent [0; 0; 1; 1; 1; 1]%nat c)).
  split; [apply scheduled_steps|]. split; [apply scheduled_steps|]. split; [by vm_compute|]. split; [by vm_compute|].
  eexists. split; [vm_compute; reflexivity|reflexivity].
Qed.

(** A cancellation that found the instance running overwrites the success that is
    reported before it writes. *)
Theorem cancel_overwrites : exists c1 c2, rtc (@settle_step test_backend test_backend_contract (answering 200) anyone)
    (start_all (one_running 1) [CancelAsked "s1"; s1_says "success"]) c1 /\
  rtc (@settle_step test_backend test_backend_contract (answering 200) anyone) c1 c2 /\
  result_of_s1 c1 = Some ("success", "") /\ c_threads c1 !! 1%nat = Some Settled /\ result_of_s1 c2 = Some ("cancelled", "cancelled").
Proof.
  set (c := start_all (one_running 1) [CancelAsked "s1"; s1_says "success"]).
  exists (settle_run (answering 200) [0; 1; 1; 1; 1]%nat c), (settle_run (answering 200) [0; 0]%nat (settle_run (answering 200) [0; 1; 1; 1; 1]%nat c)).
  split; [apply scheduled_steps|]. split; [apply scheduled_steps|]. vm_compute. by split_and!.
Qed.

Definition cancel_or_success (g : settler) : Prop := g = CancelAsked "s1" \/ g = s1_says "success".

Lemma outcomes_whole_witness : exists c' i', rtc (@settle_step test_backend test_backend_contract (answering 200) cancel_or_success)
    (start_all (one_running 1) [CancelAsked "s1"; s1_says "success"]) c' /\
  is_instances (w_instances (c_world c')) !! 1 = Some i' /\ isTerminalStatus (inst_Status i') = true /\
  (inst_Status i' = "cancelled" /\ inst_ErrorCode i' = "cancelled" \/ inst_Status i' = "success" /\ inst_ErrorCode i' = "").
Proof.
  set (c := start_all (one_running 1) [CancelAsked "s1"; s1_says "success"]).
  assert (exists c', rtc (@settle_step test_backend test_backend_contract (answering 200) cancel_or_success) c c' /\
    result_of_s1 c' = Some ("cancelled", "cancelled")) as (c' & Hs & Hc).
  { exists (settle_run (answering 200) [0; 1; 1; 1; 1; 0; 0]%nat c). split; [apply scheduled_steps|vm_compute; reflexivity]. }
  destruct (@outcomes_whole test_backend test_backend_contract (answering 200) cancel_or_success c c' 1
    (new_instance start_time 1 (sample_instance 1 "s1" "dispatched" "a" 0)) (world_with_inv _ _ _)) as (i' & Hi' & _ & Ho);
    [|exact Hs|vm_compute; reflexivity|].
  - repeat apply map_Forall_insert_2; [split; [done|by left]|split; [done|by right]|apply map_Forall_empty].
  - exists c', i'. split; [exact Hs|]. split; [exact Hi'|]. unfold result_of_s1 in Hc.
    change (is_instances (w_instances (c_world c')) !! 1 = Some i') in Hi'. rewrite Hi' in Hc.
    assert (isTerminalStatus (inst_Status i') = true) as Ht by (by injection Hc as -> _).
    split; [exact Ht|]. destruct (Ho Ht) as [(Hst & _)|(g & [-> | ->] & Hb)]; [rewrite Hst in Ht; discriminate|left|right]; cbn in Hb; naive_solver.
Defined.
