(* ===== verification/OnTrigger.v ===== *)
(** cmd/scheduler/main.go: the callback the engine runs for a task id that fires,
    and the engine's ticks with that callback installed. *)
From S2P Require Import Prelude GoStd GoTime GoFormat Cron Model Labels Repo RateLimit TestStore World Sample.
From S2P Require Import Dispatch Router Lifecycle Balance Engine Runtime Trigger.

#[local] Open Scope prog_scope.

Definition newScheduleInstanceID (now : Time) (taskID : Z) : string :=
  "task-" +:+ fmt_d taskID +:+ "-" +:+ fmt_d (UnixNano now).

Section OnTrigger.
Context `{Backend} `{Env}.

(** After an accepted dispatch: the next time goes into the row and, as the result
    of the callback, into the wheel. *)
Definition reschedule (task : Task) : M (option Time) :=
  now <- Now ;;
  match NextAfter local now (task_CronExpr task) with
  | Err _ => ret None
  | Ok nextTrigger =>
      if IsZero nextTrigger then ret None else
      _ignore task_op (fun t => UpdateTask t (set_task_NextTriggerTime nextTrigger task)) ;;
      ret (Some nextTrigger)
  end.

(** From the created instance on. *)
Definition launch_instance (task : Task) (instance : TaskInstance) : M (option Time) :=
  p <-? Pick (task_options task) ;;
  match p with
  | Err e =>
      if bool_decide (e = ErrNoAvailableWorker) then
        now <- Now ;;
        _ignore task_op (fun t => UpdateTask t (set_task_NextTriggerTime (now + 10 * Second) task)) ;;
        ret None
      else ret None
  | Ok worker =>
      dispatchTime <- Now ;;
      _ignore instance_op (fun t => UpdateInstanceDispatch t (inst_ID instance) (worker_ID worker)
                                      (FormatRFC3339Nano local dispatchTime)) ;;
      d <-? Dispatch worker (dispatch_request task (inst_ScheduleInstanceID instance) (inst_RetryCount instance) 0 0) ;;
      match d with
      | Err e =>
          _ignore instance_op (fun t => UpdateInstanceResult t (inst_ScheduleInstanceID instance)
                                          "failed" "dispatch_failed" (error_text e)) ;;
          _ignore Release worker ;;
          ret None
      | Ok _ => reschedule task
      end
  end.

(** The callback; its result is the time it passes to [AddToWheel], if any. *)
Definition on_trigger (taskID : Z) : M (option Time) :=
  allowed <- allow_dispatch ;;
  if negb allowed then ret None else
  r <-? task_query (GetTask taskID) ;;
  match r with
  | Err _ => ret None
  | Ok task =>
      if negb (bool_decide (task_Status task = "enabled")) then ret None else
      idTime <- Now ;;
      trigger <- Now ;;
      c <-? instance_op (fun t => CreateInstance t
              (new_pending (task_ID task) (newScheduleInstanceID idTime (task_ID task)) trigger 0 0 0)) ;;
      match c with
      | Err _ => ret None
      | Ok instance => launch_instance task instance
      end
  end.

(** [schedEngine.OnTrigger]; [None] is the panic of a failing [AddToWheel]. *)
Definition OnTrigger (taskID : Z) (e : Hybrid.Engine) : M (option Hybrid.Engine) :=
  next <- on_trigger taskID ;;
  ret (match next with None => Some e | Some t => Hybrid.AddToWheel e taskID t end).

Fixpoint on_triggers (ids : list Z) (e : Hybrid.Engine) : M (option Hybrid.Engine) :=
  match ids with
  | [] => ret (Some e)
  | id :: rest =>
      r <- OnTrigger id e ;;
      match r with None => ret None | Some e' => on_triggers rest e' end
  end.

(** One tick of the engine's loop, with the callback run on every id it fires. *)
Definition engine_tick (t : Hybrid.tick) (e : Hybrid.Engine) : M (option Hybrid.Engine) :=
  let '(e', ids) := Hybrid.step e t in on_triggers ids e'.
End OnTrigger.

(** ** Lifecycle and slots *)

Section OnTriggerLifecycle.
Context `{BackendContract} `{Env}.

Lemma closes_failed_any {A} (a : A) sid id c msg m0 worker :
  moves (closes m0 [] sid id)
    (attempt (instance_op (fun t => UpdateInstanceResult t sid "failed" c msg)) (fun _ =>
       attempt (Release worker) (fun _ => ret a))).
Proof.
  intros w Hw. pose proof (closes_failed sid id c msg m0 worker w Hw) as Hc.
  unfold attempt in *. destruct (instance_op _ w) as [w1 r]. by destruct (Release worker w1).
Qed.

Lemma tracked_launch task i m0 :
  moves (closes m0 [] (inst_ScheduleInstanceID i) (inst_ID i)) (launch_instance task i).
Proof.
  unfold launch_instance. apply closes_attempt; [apply tracked_Pick|]. intros [worker|e].
  - apply closes_bind; [apply tracked_Now|]. intros now.
    apply closes_attempt; [apply tracked_UpdateInstanceDispatch; set_solver|]. intros _.
    apply closes_attempt; [apply tracked_Dispatch|]. intros [u|e]; [|apply closes_failed_any].
    apply closes_keeps. unfold reschedule. solve_tracked.
  - apply closes_keeps. solve_tracked.
Qed.

Lemma tracked_engine_tick t e m0 : moves (keeps (tracked m0 [] [])) (engine_tick t e).
Proof.
  pose proof tracked_launch.
  assert (forall id, moves (keeps (tracked m0 [] [])) (on_trigger id)) as Ho
    by (intros id; unfold on_trigger, allow_dispatch, task_query; solve_tracked).
  unfold engine_tick. destruct (Hybrid.step e t) as [e' ids]. revert e'.
  induction ids as [|id ids IH]; intros e'; cbn [on_triggers]; unfold OnTrigger; solve_tracked.
Qed.

Lemma engine_lifecycle t e : moves lifecycle (engine_tick t e).
Proof. apply lifecycle_intro, tracked_engine_tick. Qed.

Context `{!BackendSpec} `{!BackendReliable}.

Lemma engine_balanced t e : moves balanced (engine_tick t e).
Proof.
  apply balanced_intro. intros b.
  assert (forall id, moves (keeps (bal b)) (on_trigger id)) as Ho
    by (intros id; unfold on_trigger, allow_dispatch, task_query, launch_instance, reschedule; solve_balance).
  unfold engine_tick. destruct (Hybrid.step e t) as [e' ids]. revert e'.
  induction ids as [|id ids IH]; intros e'; cbn [on_triggers]; unfold OnTrigger; solve_balance.
Qed.
End OnTriggerLifecycle.

(** ** Properties *)

Section OnTriggerProperties.
Context `{BackendSpec} `{Env} `{!BackendReliable}.

Abbreviation insts w := (insts_of (w_instances w)).
Abbreviation tasks w := (tasks_of (w_tasks w)).

(** The time the cron expression gives, when it gives one. *)
Definition cron_next (task : Task) (now : Time) : option Time :=
  match NextAfter local now (task_CronExpr task) with
  | Ok t => if IsZero t then None else Some t
  | Err _ => None
  end.

Lemma reschedule_run task w cur : world_inv w -> tasks w !! task_ID task = Some cur ->
  exists w' , reschedule task w = (w', Ok (cron_next task (clock (w_reads w)))) /\
    w_instances w' = w_instances w /\ w_sent w' = w_sent w /\
    match cron_next task (clock (w_reads w)) with
    | None => w_tasks w' = w_tasks w
    | Some t => exists t', tasks w' = <[task_ID task := t']> (tasks w) /\ task_NextTriggerTime t' = t
    end.
Proof.
  intros (Ht & _) Hcur. unfold reschedule, bind, Now, cron_next.
  destruct (NextAfter local (clock (w_reads w)) (task_CronExpr task)) as [t|e]; [|by eexists].
  destruct (IsZero t); [by eexists|]. set (w1 := set_w_reads _ w). unfold attempt, task_op.
  destruct (UpdateTask_total (clock (w_reads w1)) (set_task_NextTriggerTime t task) (w_tasks w1) cur Hcur)
    as (s & t' & Hu). rewrite Hu. destruct (UpdateTask_ok _ _ _ _ _ Ht Hu) as (_ & (c & _ & Ht') & Hm & _).
  eexists. split; [done|]. split_and!; try done. exists t'. rewrite Ht'. split; [|done]. simpl. by rewrite Hm, Ht'.
Qed.

Lemma allow_dispatch_run w : (forall b, w_bp w = Some b -> AllowDispatch b = true) -> allow_dispatch w = (w, Ok true).
Proof.
  intros Hb. unfold allow_dispatch, reads. destruct (w_bp w) as [b|]; [|done]. by rewrite (Hb b).
Qed.

(** The engine's callback runs an enabled task unconditionally: given an eligible
    worker and a network that takes the request, it creates exactly one instance,
    marks it dispatched and sends its worker one message, without looking at
    whether the task is due, at its upstream tasks or at its shards (the request
    says shard 0 of 0). The next time goes to the row and to the wheel only when
    the cron expression has one. *)
Theorem on_trigger_runs taskID task w id x :
  accepting -> printable_clock -> world_inv w -> lets_through w -> 0 <= w_rrCounter w < 2 ^ 63 - 1 ->
  (forall b, w_bp w = Some b -> AllowDispatch b = true) ->
  GetTask taskID (w_tasks w) = Ok task -> task_Status task = "enabled" ->
  workers_of (w_workers w) !! id = Some x -> eligible (task_options task) x ->
  exists w' worker i n,
    on_trigger taskID w = (w', Ok (cron_next task (clock n))) /\
    insts w !! inst_ID i = None /\ insts w' = <[inst_ID i := i]> (insts w) /\
    inst_TaskID i = taskID /\ inst_Status i = "dispatched" /\ inst_WorkerID i = worker_ID worker /\
    w_sent w' = (task_message worker (dispatch_request task (inst_ScheduleInstanceID i) 0 0 0), true) :: w_sent w /\
    match cron_next task (clock n) with
    | None => w_tasks w' = w_tasks w
    | Some t => exists t', tasks w' = <[taskID := t']> (tasks w) /\ task_NextTriggerTime t' = t
    end.
Proof.
  intros Hacc Hclk Hw Hlim Hrr Hb Hg Hen Hx Hel. pose proof Hw as (Ht & Hi & Hwi).
  pose proof (GetTask_ok _ _ _ Hg) as Hcur. assert (task_ID task = taskID) as Hid by (by eapply tasks_inv_id).
  unfold on_trigger, bind at 1. rewrite allow_dispatch_run by done. cbn [negb].
  unfold attempt at 1, task_query, reads_res. rewrite Hg, bool_decide_true by done. cbn [negb].
  unfold bind at 1 2, Now at 1 2. set (w2 := set_w_reads _ (set_w_reads _ _)). set (i0 := new_pending _ _ _ _ _ _).
  unfold attempt at 1, instance_op at 1.
  destruct (CreateInstance_total (clock (w_reads w2)) i0 (w_instances w2)) as (s & i & Hc). rewrite Hc.
  destruct (CreateInstance_ok _ _ _ _ _ Hi Hc) as (Hsi & Hn & Hie & Hm & _).
  set (w3 := set_w_instances s (set_w_reads (S (w_reads w2)) w2)). unfold launch_instance.
  edestruct (launch_run (A:=option Time) (task_options task) i w3 id x) as (w4 & worker & Hl & ->);
    [done.. | simpl; by rewrite Hm, lookup_insert_eq |].
  destruct Hl as (Hw4 & _ & (n4 & now4 & Hm4) & _ & Htk4 & Hs4).
  destruct (reschedule_run task w4 task Hw4) as (w5 & -> & Hi5 & Hs5 & Hn5); [by rewrite Htk4; simpl; rewrite Hid|].
  exists w5, worker, (launched worker (clock n4) now4 i), (w_reads w4). split; [done|]. simpl.
  split_and!; try done.
  - rewrite Hi5, Hm4. simpl. by rewrite Hm, insert_insert_eq.
  - rewrite Hie. exact Hid.
  - rewrite Hs5, Hs4, Hie. done.
  - rewrite Hid, Htk4 in Hn5. exact Hn5.
Qed.

(** The callback's gates: under red pressure, for an unknown task or for one that
    is not enabled, nothing happens at all. *)
Theorem on_trigger_gated taskID w :
  (exists b, w_bp w = Some b /\ AllowDispatch b = false) \/
  (forall task, GetTask taskID (w_tasks w) = Ok task -> task_Status task <> "enabled") ->
  on_trigger taskID w = (w, Ok None).
Proof.
  intros Hgate. unfold on_trigger, bind at 1, allow_dispatch, reads.
  destruct (match w_bp w with Some b => _ | None => _ end) eqn:Ha; [|done]. cbn [negb].
  unfold attempt, task_query, reads_res. destruct (GetTask taskID (w_tasks w)) as [task|e] eqn:Hg; [|done].
  destruct Hgate as [(b & Hb & Hf)|Hen]; [by rewrite Hb, Hf in Ha|].
  by rewrite bool_decide_false by (by apply Hen).
Qed.
End OnTriggerProperties.

(** ** On concrete worlds *)

(** A task that another task precedes and that is not due for a year. *)
Definition early_world : @World test_backend :=
  let w := world_with [sample_task; set_task_NextTriggerTime (start_time + 31536000 * Second) (task_with "" "{}")]
             [] [worker_named "a" 0] in
  @set_w_tasks test_backend (ts_AddDependency 2 1 (w_tasks w)).1 w.

Lemma early_inv : @world_inv test_backend test_backend_contract early_world.
Proof.
  unfold early_world. set (w := world_with _ _ _).
  assert (@world_inv test_backend test_backend_contract w) as (Ht & Hi & Hw) by apply world_with_inv.
  split; [|done]. refine (proj1 (AddDependency_ok (S:=TaskStore) 2 1 (w_tasks w) _ tt Ht _)).
  apply (run_eq (ts_AddDependency 2 1 (w_tasks w))). vm_compute. reflexivity.
Qed.

Lemma on_trigger_runs_witness :
  exists w' i, @on_trigger test_backend (answering 200) 2 early_world = (w', Ok None) /\
    is_instances (w_instances w') = <[inst_ID i := i]> (is_instances (w_instances early_world)) /\
    inst_TaskID i = 2 /\ inst_Status i = "dispatched".
Proof.
  destruct (@on_trigger_runs test_backend test_backend_contract test_backend_spec (answering 200) test_backend_reliable 2
    (default sample_task (ts_tasks (w_tasks early_world) !! 2)) early_world
    "a" (stamped start_time (worker_named "a" 0))) as (w' & _ & i & n & Hr & _ & Hi & Ht & Hs & _).
  - apply answering_accepts.
  - apply answering_printable.
  - apply early_inv.
  - apply fresh_bucket_lets_through.
  - split; [apply Z.le_refl|reflexivity].
  - intros b Hb. discriminate Hb.
  - vm_compute. reflexivity.
  - vm_compute. reflexivity.
  - vm_compute. reflexivity.
  - vm_compute. repeat split; congruence.
  - exists w', i. split; [exact Hr|]. by split_and!.
Defined.

Lemma on_trigger_gated_witness :
  @on_trigger test_backend (answering 200) 9 early_world = (early_world, Ok None).
Proof.
  apply (@on_trigger_gated test_backend (answering 200) 9 early_world). right. intros task Hg.
  vm_compute in Hg. discriminate Hg.
Defined.
