(* ===== verification/Events.v ===== *)
(** internal/api/handler/event_handler.go: the tasks an external event runs. *)
From S2P Require Import Prelude GoStd GoTime GoFormat Model Labels Repo RateLimit TestStore World Sample.
From S2P Require Import Dispatch Router Lifecycle Balance Runtime Trigger.

#[local] Open Scope prog_scope.

(** The decoded body. A payload entry is its key and its value as [%v] prints it,
    in the order the map is ranged over. *)
Record publishEventRequest := mkPublish { EventName : string; Payload : list (string * string) }.

Definition generateScheduleInstanceID (now : Time) (taskID : Z) : string :=
  "task-" +:+ fmt_d taskID +:+ "-" +:+ fmt_d (UnixNano now).

Definition renderEventPayload (template : string) (req : publishEventRequest) : string :=
  foldl (fun result '(k, strVal) => ReplaceAll result ("{{.event.payload." +:+ k +:+ "}}") strVal)
    (ReplaceAll template "{{.event.name}}" (EventName req)) (Payload req).

(** The request an event dispatches: no image, no retry count, no scheduler URL. *)
Definition event_request (task : Task) (sid : string) (shard : Z) (req : publishEventRequest) : ExecuteTaskRequest :=
  {| req_ScheduleInstanceID := sid; req_TaskID := task_ID task; req_TaskType := task_Type task;
     req_Payload := renderEventPayload (task_Payload task) req; req_Image := "";
     req_TimeoutSeconds := task_TimeoutSeconds task; req_RetryCount := 0; req_ShardNo := shard;
     req_ShardTotal := task_TotalShards task; req_IdempotencyKey := task_IdempotencyKey task;
     req_SchedulerURL := "" |}.

(** A run that an event starts cannot be reported over HTTP, for want of an address, and
    has no image. *)
Example event_request_incomplete task sid shard req :
  req_SchedulerURL (event_request task sid shard req) = "" /\ req_Image (event_request task sid shard req) = "".
Proof. done. Qed.

Definition event_matches (name : string) (task : Task) : bool :=
  bool_decide (task_TriggerType task = "event") && bool_decide (task_EventName task = name) &&
  bool_decide (task_Status task = "enabled").

Section Events.
Context `{Backend} `{Env}.

(** One shard; the result is what it adds to [triggered]. *)
Definition event_shard (task : Task) (req : publishEventRequest) (shard : Z) : M Z :=
  idTime <- Now ;;
  trigger <- Now ;;
  c <-? instance_op (fun t => CreateInstance t
          (new_pending (task_ID task) (generateScheduleInstanceID idTime (task_ID task)) trigger 0 shard
             (task_TotalShards task))) ;;
  match c with
  | Err _ => ret 0
  | Ok instance =>
      p <-? Pick (task_options task) ;;
      match p with
      | Err _ => ret 0
      | Ok worker =>
          dispatchTime <- Now ;;
          _ignore instance_op (fun t => UpdateInstanceDispatch t (inst_ID instance) (worker_ID worker)
                                          (FormatRFC3339Nano local dispatchTime)) ;;
          d <-? Dispatch worker (event_request task (inst_ScheduleInstanceID instance) shard req) ;;
          match d with Err _ => ret 0 | Ok _ => ret 1 end
      end
  end.

Fixpoint event_shards (task : Task) (req : publishEventRequest) (todo : nat) (shard : Z) : M Z :=
  match todo with
  | O => ret 0
  | S n => a <- event_shard task req shard ;; b <- event_shards task req n (shard + 1) ;; ret (a + b)
  end.

Fixpoint event_tasks (req : publishEventRequest) (ts : list Task) : M Z :=
  match ts with
  | [] => ret 0
  | t :: rest =>
      a <- (if event_matches (EventName req) t then event_shards t req (Z.to_nat (shard_total t)) 0 else ret 0) ;;
      b <- event_tasks req rest ;;
      ret (a + b)
  end.

(** The handler: the status code, with the number of triggered shards on success.
    [body] is [None] when the JSON does not decode. *)
Definition Publish (method : string) (body : option publishEventRequest) : M (Z * option Z) :=
  if negb (bool_decide (method = "POST")) then ret (405, None) else
  match body with
  | None => ret (400, None)
  | Some req =>
      if bool_decide (EventName req = "") then ret (400, None) else
      r <-? task_query ListTasks ;;
      match r with
      | Err _ => ret (500, None)
      | Ok allTasks => triggered <- event_tasks req allTasks ;; ret (200, Some triggered)
      end
  end.
End Events.

(** ** Lifecycle *)

Section EventsLifecycle.
Context `{BackendContract} `{Env}.

Lemma tracked_event_shard task req shard m0 : moves (keeps (tracked m0 [] [])) (event_shard task req shard).
Proof. unfold event_shard. solve_tracked. apply closes_keeps. solve_tracked. Qed.

Lemma event_lifecycle method body : moves lifecycle (Publish method body).
Proof.
  apply lifecycle_intro. intros m0. pose proof tracked_event_shard.
  assert (forall task req n shard, moves (keeps (tracked m0 [] [])) (event_shards task req n shard)) as Hs.
  { intros task req n. induction n as [|n IH]; intros shard; cbn [event_shards]; solve_tracked. }
  assert (forall req ts, moves (keeps (tracked m0 [] [])) (event_tasks req ts)) as Ht.
  { intros req ts. induction ts as [|t ts IH]; cbn [event_tasks]; solve_tracked. }
  unfold Publish, task_query. solve_tracked.
Qed.
End EventsLifecycle.

(** ** Properties *)

Section EventsProperties.
Context `{BackendSpec} `{Env}.

Abbreviation insts w := (insts_of (w_instances w)).
Abbreviation tasks w := (tasks_of (w_tasks w)).

(** Payload templates without event placeholders are sent unchanged. *)
Theorem renderEventPayload_plain template req :
  Contains template "{{.event." = false -> renderEventPayload template req = template.
Proof.
  intros Hc. unfold renderEventPayload.
  change "{{.event.name}}" with ("{{.event." +:+ "name}}"). rewrite ReplaceAll_absent by done.
  induction (Payload req) as [|[k v] kvs IH]; [done|]. cbn [foldl].
  change ("{{.event.payload." +:+ k +:+ "}}") with ("{{.event." +:+ ("payload." +:+ k +:+ "}}")).
  by rewrite ReplaceAll_absent.
Qed.

(** A step whose result is what it added to the number of accepted dispatches. *)
Definition counts (m : M Z) : Prop :=
  forall w, exists w' n, m w = (w', Ok n) /\ accepted (w_sent w') = accepted (w_sent w) + n.

Definition uncounted {A} (m : M A) : Prop := moves (fun w w' => accepted (w_sent w') = accepted (w_sent w)) m.

Lemma counts_ret : counts (ret 0).
Proof. intros w. exists w, 0. split; [done|lia]. Qed.

Lemma counts_sum (m1 m2 : M Z) : counts m1 -> counts m2 -> counts (a <- m1 ;; b <- m2 ;; ret (a + b)).
Proof.
  intros Hm1 Hm2 w. unfold bind. destruct (Hm1 w) as (w1 & a & -> & Ha). destruct (Hm2 w1) as (w2 & b & -> & Hb).
  exists w2, (a + b). split; [done|lia].
Qed.

Lemma counts_attempt {A} (m : M A) (k : result A -> M Z) :
  uncounted m -> (forall r, counts (k r)) -> counts (attempt m k).
Proof.
  intros Hm Hk w. unfold attempt. specialize (Hm w). destruct (m w) as [w1 r]. simpl in Hm.
  destruct (Hk r w1) as (w2 & n & -> & Hn). exists w2, n. split; [done|lia].
Qed.

Lemma counts_now (k : Time -> M Z) : (forall t, counts (k t)) -> counts (bind Now k).
Proof.
  intros Hk w. unfold bind, Now. destruct (Hk (clock (w_reads w)) (set_w_reads (S (w_reads w)) w)) as (w' & n & -> & Hn).
  by exists w', n.
Qed.

Lemma counts_dispatch worker req :
  counts (attempt (Dispatch worker req) (fun d => match d with Err _ => ret 0 | Ok _ => ret 1 end)).
Proof.
  intros w. unfold attempt. pose proof (Dispatch_delivered worker req w) as Hd.
  assert (is_execute (task_message worker req) = true) as He by (unfold task_message; by destruct (equal_fold _ _)).
  destruct (Dispatch worker req w) as [w' [[]|e]]; simpl in Hd.
  - exists w', 1. rewrite Hd. split; [done|]. simpl. rewrite He. simpl. lia.
  - exists w', 0. split; [done|]. destruct Hd as [->| ->]; simpl; rewrite ?andb_false_r; lia.
Qed.

Lemma uncounted_instance_op {A} (f : Time -> IS -> IS * result A) : uncounted (instance_op f).
Proof. intros w. unfold instance_op. by destruct (f _ _). Qed.

Lemma uncounted_Pick opts : uncounted (Pick opts).
Proof. intros w. destruct (Pick_routing opts w) as (_&_&_&_&Hs&_). by rewrite Hs. Qed.

Lemma counts_event_shard task req shard : counts (event_shard task req shard).
Proof.
  unfold event_shard. apply counts_now. intros t1. apply counts_now. intros t2.
  apply counts_attempt; [apply uncounted_instance_op|]. intros [i|e]; [|apply counts_ret].
  apply counts_attempt; [apply uncounted_Pick|]. intros [worker|e]; [|apply counts_ret].
  apply counts_now. intros t3. apply counts_attempt; [apply uncounted_instance_op|]. intros _. apply counts_dispatch.
Qed.

Lemma counts_event_tasks req ts : counts (event_tasks req ts).
Proof.
  assert (forall t n shard, counts (event_shards t req n shard)) as Hs.
  { intros t n. induction n as [|n IH]; intros shard; cbn [event_shards]; [apply counts_ret|].
    apply counts_sum; [apply counts_event_shard|apply IH]. }
  induction ts as [|t ts IH]; cbn [event_tasks]; [apply counts_ret|].
  apply counts_sum; [|done]. destruct (event_matches _ t); [apply Hs|apply counts_ret].
Qed.

(** The count an event publication answers with is exact: a 200 answer reports as
    many triggered shards as workers accepted dispatches while it ran, and any
    other answer leaves the world untouched. *)
Theorem Publish_counts method body w :
  exists w' code n, Publish method body w = (w', Ok (code, n)) /\
    match n with
    | Some triggered => code = 200 /\ accepted (w_sent w') - accepted (w_sent w) = triggered
    | None => (code = 405 \/ code = 400 \/ code = 500) /\ w' = w
    end.
Proof.
  unfold Publish. destruct (bool_decide (method = "POST")); simpl; [|eexists _, _, None; eauto].
  destruct body as [req|]; [|eexists _, _, None; eauto].
  destruct (bool_decide (EventName req = "")); [eexists _, _, None; eauto|].
  unfold attempt, task_query, reads_res. destruct (ListTasks (w_tasks w)) as [ts|e]; [|eexists _, _, None; eauto].
  unfold bind. destruct (counts_event_tasks req ts w) as (w' & n & -> & Hn).
  exists w', 200, (Some n). split; [done|]. split; [done|lia].
Qed.

(** A first attempt of an enabled task that listens to the event. *)
Definition event_attempt (name : string) (w : World) (x : TaskInstance) : Prop :=
  exists t, tasks w !! inst_TaskID x = Some t /\ task_TriggerType t = "event" /\ task_EventName t = name /\
    task_Status t = "enabled" /\ first_attempt t x.

Lemma event_attempt_core name w i i' : same_core i i' -> event_attempt name w i -> event_attempt name w i'.
Proof.
  intros Hc (t & Ht & Hrest). exists t. destruct Hc as (Htask & Hc). split; [by rewrite Htask|].
  destruct Hrest as (?&?&?&?). split_and!; try done. eapply first_attempt_core; [|done]. by split.
Qed.

Lemma born_event_shards name w0 t req n shard m0 :
  tasks w0 !! task_ID t = Some t -> event_matches name t = true ->
  0 <= shard -> shard + Z.of_nat n <= shard_total t ->
  moves (keeps (born (event_attempt name w0) m0)) (event_shards t req n shard).
Proof.
  intros Ht Hm. pose proof (event_attempt_core name w0) as HP.
  unfold event_matches in Hm. rewrite !andb_true_iff, !bool_decide_eq_true in Hm. destruct Hm as [[Hty He] Hs].
  revert shard. induction n as [|n IH]; intros shard Hge Hb; cbn [event_shards]; [auto with moves|].
  specialize (IH (shard + 1) ltac:(lia) ltac:(lia)).
  assert (forall sid tr, event_attempt name w0 (new_pending (task_ID t) sid tr 0 shard (task_TotalShards t))) as Hnew.
  { intros. exists t. unfold first_attempt. simpl. split_and!; try done; lia. }
  unfold event_shard. solve_moves.
Qed.

(** An event only runs the tasks that listen to it: every instance a publication
    creates is a first attempt of a stored task that is enabled, has trigger type
    "event" and this event's name, for one of its shards. *)
Theorem Publish_creates method req w id x :
  world_inv w -> insts (Publish method (Some req) w).1 !! id = Some x -> insts w !! id = None ->
  event_attempt (EventName req) w x.
Proof.
  intros Hw. revert id x. change (forall id x, insts (Publish method (Some req) w).1 !! id = Some x ->
    insts w !! id = None -> event_attempt (EventName req) w x).
  intros id x. unfold Publish. destruct (negb _); [intros Hx Hn; simpl in Hx; congruence|].
  destruct (bool_decide _); [intros Hx Hn; simpl in Hx; congruence|].
  unfold attempt, task_query, reads_res.
  destruct (ListTasks (w_tasks w)) as [ts|e] eqn:Hl; [|intros Hx Hn; simpl in Hx; congruence].
  destruct Hw as (Htk & Hi & Hwk). destruct (ListTasks_ok _ _ Htk Hl) as [_ Hts].
  revert id x. apply born_intro; [|done].
  assert (forall l, (forall t, t ∈ l -> t ∈ ts) ->
    moves (keeps (born (event_attempt (EventName req) w) (insts w))) (event_tasks req l)) as Hall.
  { induction l as [|t l IH]; intros Hsub; cbn [event_tasks]; [auto with moves|].
    specialize (IH ltac:(set_solver)). destruct (event_matches (EventName req) t) eqn:Hm.
    - assert (0 < shard_total t) by (unfold shard_total; destruct (Z.leb_spec (task_TotalShards t) 0); lia).
      destruct (proj1 (Hts t) ltac:(set_solver)) as (_ & k & Hk).
      pose proof (born_event_shards (EventName req) w t req (Z.to_nat (shard_total t)) 0 (insts w)
        ltac:(by rewrite (tasks_inv_id _ _ _ Htk Hk)) Hm ltac:(lia) ltac:(lia)). solve_moves.
    - solve_moves. }
  specialize (Hall ts ltac:(done)). solve_moves.
Qed.
End EventsProperties.

(** ** On concrete worlds *)

Definition event_task : Task :=
  {| task_ID := 0; task_Name := "hook"; task_Type := "shell"; task_CronExpr := "";
     task_Payload := "run {{.event.name}}"; task_Image := "img"; task_Status := "enabled"; task_TimeoutSeconds := 60;
     task_MaxRetry := 2; task_RetryPolicy := "immediate"; task_RetryOnErrors := "";
     task_RetryIntervalSeconds := 0; task_RetryWindowSeconds := 0; task_RouteStrategy := "";
     task_Labels := "{}"; task_NextTriggerTime := zero_time; task_TenantID := 7;
     task_Version := 0; task_TotalShards := 0; task_IdempotencyKey := ""; task_TriggerType := "event";
     task_EventName := "deploy"; task_CreatedAt := zero_time; task_UpdatedAt := zero_time |}.

Definition hooked_world : @World test_backend := world_with [event_task] [] [worker_named "a" 0].

Lemma renderEventPayload_plain_witness :
  renderEventPayload "run {{.other}}" (mkPublish "deploy" [("k", "v")]) = "run {{.other}}".
Proof. apply renderEventPayload_plain. vm_compute. reflexivity. Defined.

Definition hooked_instance : TaskInstance :=
  default zero_instance (is_instances (w_instances
    (@Publish test_backend (answering 200) "POST" (Some (mkPublish "deploy" [])) hooked_world).1) !! 1).

Lemma Publish_creates_witness :
  inst_TaskID hooked_instance = 1 /\
  @event_attempt test_backend test_backend_contract "deploy" hooked_world hooked_instance.
Proof.
  split; [vm_compute; reflexivity|].
  apply (@Publish_creates test_backend test_backend_contract test_backend_spec (answering 200) "POST" (mkPublish "deploy" [])
    hooked_world 1 hooked_instance).
  - apply world_with_inv.
  - vm_compute. reflexivity.
  - vm_compute. reflexivity.
Defined.

(** An event whose dispatch fails keeps the worker's slot: with a worker that
    refuses the task, a publication reports zero triggered shards, yet the
    instance stays "dispatched" and the worker's load stays raised. *)
Theorem Publish_leaks_slot :
  let '(w', r) := @Publish test_backend (answering 500) "POST" (Some (mkPublish "deploy" [])) hooked_world in
  r = Ok (200, Some 0) /\ accepted (w_sent w') = 0 /\
  (inst_Status <$> is_instances (w_instances w') !! 1) = Some "dispatched" /\
  (worker_CurrentLoad <$> ws_workers (w_workers hooked_world) !! "a") = Some 0 /\
  (worker_CurrentLoad <$> ws_workers (w_workers w') !! "a") = Some 1.
Proof.
  destruct (@Publish test_backend (answering 500) "POST" (Some (mkPublish "deploy" [])) hooked_world) as [w' r] eqn:E.
  assert (r = (@Publish test_backend (answering 500) "POST" (Some (mkPublish "deploy" [])) hooked_world).2) as -> by (by rewrite E).
  assert (w' = (@Publish test_backend (answering 500) "POST" (Some (mkPublish "deploy" [])) hooked_world).1) as -> by (by rewrite E).
  clear E. split_and!; vm_compute; reflexivity.
Qed.
