(* ===== verification/TaskService.v ===== *)
(** internal/api/service/task_service.go with its HTTP front end
    (handler/task_handler.go) and the tenant of a request (internal/tenant). The
    tenant id is an argument of the operations, as the context carries it. The
    auditor and the metrics only write logs and counters. *)
From S2P Require Import Prelude GoStd GoTime GoFormat Cron Model Labels Repo RateLimit TestStore World Sample Http.
From S2P Require Import Dispatch Router Lifecycle.

#[local] Open Scope prog_scope.

Definition ErrTaskNameRequired : gerror := Sentinel "task name is required".
Definition ErrTaskTypeRequired : gerror := Sentinel "task type is required".
Definition ErrTaskIDRequired : gerror := Sentinel "task id is required".
Definition ErrInvalidCronExpr : gerror := Sentinel "invalid cron expression".
Definition ErrTaskNotEnabled : gerror := Sentinel "task is not enabled".
Definition ErrTaskNotOwned : gerror := Sentinel "task does not belong to this tenant".

Record TaskUpsertRequest := mkUpsert {
  up_Name : string; up_Type : string; up_CronExpr : string; up_Payload : string; up_Image : string;
  up_Status : string; up_TimeoutSeconds : Z; up_MaxRetry : Z; up_RetryPolicy : string;
  up_RetryOnErrors : string; up_RouteStrategy : string; up_Labels : gmap string string;
  up_NextTriggerTime : Time; up_TenantID : Z; up_DependsOn : list Z
}.

(** [tenant.Middleware] with [tenant.FromContext]: the id a request runs with. *)
Definition request_tenant (header : string) : Z :=
  if bool_decide (header = "") then 0 else
  match Atoi header with Some tid => if 0 <? tid then tid else 0 | None => 0 end.

Definition checkTenant (tid : Z) (task : Task) : option gerror :=
  if (tid =? 0) || (task_TenantID task =? 0) then None
  else if task_TenantID task =? tid then None else Some ErrTaskNotOwned.

(** The row [buildTask] returns, once the next trigger time is known. *)
Definition built_task (id : Z) (req : TaskUpsertRequest) (next : Time) : Task :=
  {| task_ID := id; task_Name := up_Name req; task_Type := up_Type req; task_CronExpr := up_CronExpr req;
     task_Payload := up_Payload req; task_Image := up_Image req;
     task_Status := if bool_decide (up_Status req = "") then "enabled" else up_Status req;
     task_TimeoutSeconds := if up_TimeoutSeconds req <=? 0 then 300 else up_TimeoutSeconds req;
     task_MaxRetry := if up_MaxRetry req <? 0 then 0 else up_MaxRetry req;
     task_RetryPolicy := if bool_decide (up_RetryPolicy req = "") then "fixed_interval" else up_RetryPolicy req;
     task_RetryOnErrors := up_RetryOnErrors req; task_RetryIntervalSeconds := 0; task_RetryWindowSeconds := 0;
     task_RouteStrategy := if bool_decide (up_RouteStrategy req = "") then "round_robin" else up_RouteStrategy req;
     task_Labels := EncodeLabels (up_Labels req); task_NextTriggerTime := next; task_TenantID := up_TenantID req;
     task_Version := 0; task_TotalShards := 0; task_IdempotencyKey := ""; task_TriggerType := "";
     task_EventName := ""; task_CreatedAt := zero_time; task_UpdatedAt := zero_time |}.

Section TaskService.
Context `{Backend} `{Env} `{MapRange}.

(** [cronexpr.NextAfter(time.Now(), expr)] with the service's error. *)
Definition next_or_invalid (expr : string) : M Time :=
  now <- Now ;;
  match NextAfter local now expr with Ok t => ret t | Err _ => fail ErrInvalidCronExpr end.

Definition buildTask (id : Z) (req : TaskUpsertRequest) : M Task :=
  if bool_decide (TrimSpace (up_Name req) = "") then fail ErrTaskNameRequired else
  if bool_decide (TrimSpace (up_Type req) = "") then fail ErrTaskTypeRequired else
  if bool_decide (up_CronExpr req = "") then ret (built_task id req (up_NextTriggerTime req)) else
  match Validate (up_CronExpr req) with
  | Some _ => fail ErrInvalidCronExpr
  | None =>
      if IsZero (up_NextTriggerTime req)
      then next <- next_or_invalid (up_CronExpr req) ;; ret (built_task id req next)
      else ret (built_task id req (up_NextTriggerTime req))
  end.

(** The two sets are Go maps: ranged over in any order. *)
Definition syncDependencies (taskID : Z) (dependsOn : list Z) : M unit :=
  existing <- task_query (ListUpstreamDeps taskID) ;;
  let existingSet : gset Z := list_to_set existing in
  let wantedSet : gset Z := list_to_set dependsOn in
  for_each (fun id => task_op' (RemoveDependency taskID id)) (map_range (base.elements (existingSet ∖ wantedSet))) ;;
  for_each (fun id => task_op' (AddDependency taskID id)) (map_range (base.elements (wantedSet ∖ existingSet))).

Definition svc_CreateTask (tid : Z) (req : TaskUpsertRequest) : M Task :=
  task <- buildTask 0 req ;;
  let task := if task_TenantID task =? 0 then set_task_TenantID tid task else task in
  task <- task_op (fun t => CreateTask t task) ;;
  syncDependencies (task_ID task) (up_DependsOn req) ;;
  ret task.

(** The prologue the operations on one task share: id, lookup, ownership. *)
Definition owned (tid id : Z) : M Task :=
  if id <=? 0 then fail ErrTaskIDRequired else
  task <- task_query (GetTask id) ;;
  match checkTenant tid task with Some e => fail e | None => ret task end.

Definition svc_UpdateTask (tid id : Z) (req : TaskUpsertRequest) : M Task :=
  current <- owned tid id ;;
  task <- buildTask id req ;;
  let task := set_task_Version (task_Version current) (set_task_CreatedAt (task_CreatedAt current) task) in
  task <- (if IsZero (task_NextTriggerTime task) then
             let task := set_task_NextTriggerTime (task_NextTriggerTime current) task in
             if negb (bool_decide (task_CronExpr task = task_CronExpr current)) &&
                negb (bool_decide (task_CronExpr task = ""))
             then next <- next_or_invalid (task_CronExpr task) ;; ret (set_task_NextTriggerTime next task)
             else ret task
           else ret task) ;;
  task <- task_op (fun t => UpdateTask t task) ;;
  syncDependencies (task_ID task) (up_DependsOn req) ;;
  ret task.

Definition svc_DeleteTask (tid id : Z) : M unit :=
  task <- owned tid id ;;
  task_op' (DeleteTask id).

Definition PauseTask (tid id : Z) : M Task :=
  task <- owned tid id ;;
  task_op (fun t => UpdateTask t (set_task_Status "disabled" task)).

Definition ResumeTask (tid id : Z) : M Task :=
  task <- owned tid id ;;
  let task := set_task_Status "enabled" task in
  task <- (if bool_decide (task_CronExpr task = "") then ret task
           else next <- next_or_invalid (task_CronExpr task) ;; ret (set_task_NextTriggerTime next task)) ;;
  task_op (fun t => UpdateTask t task).

Definition TriggerTask (tid id : Z) : M Task :=
  task <- owned tid id ;;
  if negb (bool_decide (task_Status task = "enabled")) then fail ErrTaskNotEnabled else
  now <- Now ;;
  task_op (fun t => UpdateTask t (set_task_NextTriggerTime (now - Second) task)).

Definition svc_GetTask (tid id : Z) : M Task := owned tid id.

Definition svc_ListTasks (tid : Z) : M (list Task) :=
  if tid =? 0 then task_query ListTasks else task_query (ListTasksByTenant tid).

Record DAGNode := mkDAGNode {
  node_ID : Z; node_Name : string; node_Type : string; node_Status : string; node_DependsOn : list Z
}.

Definition dag_node (t : Task) (w : World) : DAGNode :=
  mkDAGNode (task_ID t) (task_Name t) (task_Type t) (task_Status t)
    (match ListUpstreamDeps (task_ID t) (w_tasks w) with Ok deps => deps | Err _ => [] end).

Definition GetDAG (tid : Z) : M (list DAGNode) :=
  ts <- svc_ListTasks tid ;;
  reads (fun w => map (fun t => dag_node t w) ts).

(** ** HTTP *)

Definition task_error_status (e : gerror) : Z :=
  if existsb (errors_is e) [ErrTaskNameRequired; ErrTaskTypeRequired; ErrTaskIDRequired; ErrInvalidCronExpr] then 400
  else if errors_is e ErrTaskNotEnabled then 409
  else if errors_is e ErrTaskNotOwned then 403
  else if Contains (error_text e) "not found" then 404
  else 500.

Definition task_reply {A} (ok : Z) (m : M A) : M (reply A) :=
  r <-? m ;;
  ret (match r with Ok a => Answer ok a | Err e => Failure (task_error_status e) (error_text e) end).

Definition parseTaskID (path : string) : option Z := Atoi (TrimPrefix path "/api/v1/tasks/").

Definition handle_Create (tid : Z) (method : string) (body : option TaskUpsertRequest) : M (reply Task) :=
  if negb (bool_decide (method = "POST")) then ret methodNotAllowed else
  match body with
  | None => ret (Failure 400 "invalid json body")
  | Some req => task_reply 201 (svc_CreateTask tid req)
  end.

(** Pause, Resume and Trigger differ in the service operation only. *)
Definition handle_action (op : Z -> M Task) (method id : string) : M (reply Task) :=
  if negb (bool_decide (method = "POST")) then ret methodNotAllowed else
  match parseTaskID id with
  | None => ret (Failure 400 "invalid task id")
  | Some id => task_reply 200 (op id)
  end.
Definition handle_Pause (tid : Z) : string -> string -> M (reply Task) := handle_action (PauseTask tid).
Definition handle_Resume (tid : Z) : string -> string -> M (reply Task) := handle_action (ResumeTask tid).
Definition handle_Trigger (tid : Z) : string -> string -> M (reply Task) := handle_action (TriggerTask tid).

(** The body of an answer: one task, several, or none. *)
Inductive task_body := OneTask (t : Task) | ManyTasks (ts : list Task) | NoBody.

Definition handle_List (tid : Z) (method : string) (body : option TaskUpsertRequest) : M (reply task_body) :=
  if bool_decide (method = "POST") then
    r <- handle_Create tid method body ;;
    ret (match r with Answer s t => Answer s (OneTask t) | Failure s e => Failure s e end)
  else if negb (bool_decide (method = "GET")) then ret methodNotAllowed else
  r <-? svc_ListTasks tid ;;
  ret (match r with Ok ts => Answer 200 (ManyTasks ts) | Err e => Failure 500 (error_text e) end).

Definition handle_GetOrUpdate (tid : Z) (method path : string) (body : option TaskUpsertRequest) : M (reply task_body) :=
  match parseTaskID path with
  | None => ret (Failure 400 "invalid task id")
  | Some id =>
      if bool_decide (method = "GET") then task_reply 200 (t <- svc_GetTask tid id ;; ret (OneTask t))
      else if bool_decide (method = "PUT") then
        match body with
        | None => ret (Failure 400 "invalid json body")
        | Some req => task_reply 200 (t <- svc_UpdateTask tid id req ;; ret (OneTask t))
        end
      else if bool_decide (method = "DELETE") then task_reply 204 (svc_DeleteTask tid id ;; ret NoBody)
      else ret methodNotAllowed
  end.

Definition handle_DAG (tid : Z) : M (reply (list DAGNode)) :=
  r <-? GetDAG tid ;;
  ret (match r with Ok d => Answer 200 d | Err e => Failure 500 (error_text e) end).
End TaskService.

(** ** Calls *)

(** An operation of the service, as a client asks for it. *)
Inductive task_call :=
| CallCreate (req : TaskUpsertRequest)
| CallUpdate (id : Z) (req : TaskUpsertRequest)
| CallDelete (id : Z)
| CallPause (id : Z)
| CallResume (id : Z)
| CallTrigger (id : Z)
| CallGet (id : Z)
| CallList.

(** The task a call is about. *)
Definition call_target (c : task_call) : option Z :=
  match c with
  | CallCreate _ | CallList => None
  | CallUpdate id _ | CallDelete id | CallPause id | CallResume id | CallTrigger id | CallGet id => Some id
  end.

Section Calls.
Context `{Backend} `{Env} `{MapRange}.

Definition run_call (tid : Z) (c : task_call) : M unit :=
  match c with
  | CallCreate req => _ <- svc_CreateTask tid req ;; ret tt
  | CallUpdate id req => _ <- svc_UpdateTask tid id req ;; ret tt
  | CallDelete id => svc_DeleteTask tid id
  | CallPause id => _ <- PauseTask tid id ;; ret tt
  | CallResume id => _ <- ResumeTask tid id ;; ret tt
  | CallTrigger id => _ <- TriggerTask tid id ;; ret tt
  | CallGet id => _ <- svc_GetTask tid id ;; ret tt
  | CallList => _ <- svc_ListTasks tid ;; ret tt
  end.

(** A client's session: errors do not end it. *)
Fixpoint run_calls (tid : Z) (cs : list task_call) : M unit :=
  match cs with
  | [] => ret tt
  | c :: rest => _ignore run_call tid c ;; run_calls tid rest
  end.
End Calls.

(** ** Lifecycle *)

Section TaskLifecycle.
Context `{BackendContract} `{Env} `{MapRange}.

Lemma create_task_inv now t s : tasks_inv s -> tasks_inv (CreateTask now t s).1.
Proof. apply CreateTask_keeps. Qed.

Lemma delete_task_inv id s : tasks_inv s -> tasks_inv (DeleteTask id s).1.
Proof. apply DeleteTask_keeps. Qed.

Lemma add_dependency_same a b s : tasks_inv s ->
  tasks_inv (AddDependency a b s).1 /\ tasks_of (AddDependency a b s).1 = tasks_of s.
Proof. apply AddDependency_keeps. Qed.

Lemma remove_dependency_same a b s : tasks_inv s ->
  tasks_inv (RemoveDependency a b s).1 /\ tasks_of (RemoveDependency a b s).1 = tasks_of s.
Proof. apply RemoveDependency_keeps. Qed.

Lemma tracked_run_call tid c m0 : moves (keeps (tracked m0 [] [])) (run_call tid c).
Proof.
  assert (forall t, moves (keeps (tracked m0 [] [])) (task_op (fun now => CreateTask now t))) as Hc
    by (intros t; apply tracked_task_op; intros; by apply create_task_inv).
  assert (forall id, moves (keeps (tracked m0 [] [])) (task_op' (DeleteTask id))) as Hd
    by (intros id; apply tracked_task_op'; intros; by apply delete_task_inv).
  assert (forall a b, moves (keeps (tracked m0 [] [])) (task_op' (AddDependency a b))) as Ha
    by (intros a b; apply tracked_task_op'; intros; by apply add_dependency_same).
  assert (forall a b, moves (keeps (tracked m0 [] [])) (task_op' (RemoveDependency a b))) as Hr
    by (intros a b; apply tracked_task_op'; intros; by apply remove_dependency_same).
  assert (forall e, moves (keeps (tracked m0 [] [])) (next_or_invalid e)) as Hn
    by (intros e; unfold next_or_invalid; solve_tracked).
  assert (forall tid id, moves (keeps (tracked m0 [] [])) (owned tid id)) as Ho
    by (intros; unfold owned, task_query; solve_tracked).
  assert (forall id req, moves (keeps (tracked m0 [] [])) (buildTask id req)) as Hb
    by (intros; unfold buildTask; solve_tracked).
  assert (forall id ds, moves (keeps (tracked m0 [] [])) (syncDependencies id ds)) as Hs
    by (intros; unfold syncDependencies, task_query; solve_tracked).
  destruct c; cbn [run_call]; unfold svc_CreateTask, svc_UpdateTask, svc_DeleteTask, PauseTask, ResumeTask,
    TriggerTask, svc_GetTask, svc_ListTasks, task_query; solve_tracked.
Qed.

Lemma task_lifecycle tid c : moves lifecycle (run_call tid c).
Proof. apply lifecycle_intro. intros. apply tracked_run_call. Qed.
End TaskLifecycle.

(** ** Tenants *)

Section Tenants.
Context `{BackendContract} `{Env} `{MapRange}.

Abbreviation tasks w := (tasks_of (w_tasks w)).

(** A row of another tenant than [tid]. *)
Definition foreign (tid : Z) (t : Task) : Prop := tid <> 0 /\ task_TenantID t <> 0 /\ task_TenantID t <> tid.

Lemma checkTenant_spec tid t : checkTenant tid t = Some ErrTaskNotOwned <-> foreign tid t.
Proof.
  unfold checkTenant, foreign.
  destruct (Z.eqb_spec tid 0), (Z.eqb_spec (task_TenantID t) 0), (Z.eqb_spec (task_TenantID t) tid); simpl;
    split; intros; try done; tauto.
Qed.

Lemma checkTenant_None tid t : checkTenant tid t = None -> ~ foreign tid t.
Proof. intros E Hf%checkTenant_spec. congruence. Qed.

(** The foreign rows of [m0] are still there as they were. *)
Definition guarded (tid : Z) (m0 : gmap Z Task) (w : World) : Prop :=
  world_inv w /\ forall id t, m0 !! id = Some t -> foreign tid t -> tasks w !! id = Some t.

Definition not_foreign (tid : Z) (m0 : gmap Z Task) (id : Z) : Prop := forall t, m0 !! id = Some t -> ~ foreign tid t.

Lemma guarded_task_op {A} tid m0 (f : Time -> TS -> TS * result A) :
  (forall now s, tasks_inv s -> tasks_inv (f now s).1 /\
     forall id t, m0 !! id = Some t -> foreign tid t -> tasks_of s !! id = Some t -> tasks_of (f now s).1 !! id = Some t) ->
  moves (keeps (guarded tid m0)) (task_op f).
Proof.
  intros Hf w [(Ht & Hi & Hw) Hg]. unfold task_op. specialize (Hf (clock (w_reads w)) _ Ht) as [Hs Hk].
  destruct (f _ _) as [s r]. simpl in *. split; [done|]. intros. eapply Hk; eauto.
Qed.

Lemma guarded_task_op' {A} tid m0 (f : TS -> TS * result A) :
  (forall s, tasks_inv s -> tasks_inv (f s).1 /\
     forall id t, m0 !! id = Some t -> foreign tid t -> tasks_of s !! id = Some t -> tasks_of (f s).1 !! id = Some t) ->
  moves (keeps (guarded tid m0)) (task_op' f).
Proof.
  intros Hf w [(Ht & Hi & Hw) Hg]. unfold task_op'. specialize (Hf _ Ht) as [Hs Hk].
  destruct (f _) as [s r]. simpl in *. split; [done|]. intros. eapply Hk; eauto.
Qed.

Lemma guarded_CreateTask tid m0 t : moves (keeps (guarded tid m0)) (task_op (fun now => CreateTask now t)).
Proof.
  apply guarded_task_op. intros now s Hs. destruct (CreateTask_keeps now t s Hs) as [? Hk]. eauto.
Qed.

Lemma guarded_UpdateTask tid m0 t : not_foreign tid m0 (task_ID t) ->
  moves (keeps (guarded tid m0)) (task_op (fun now => UpdateTask now t)).
Proof.
  intros Hn. apply guarded_task_op. intros now s Hs. destruct (UpdateTask_keeps now t s Hs) as [? Hk].
  split; [done|]. intros id t0 Hm0 Hf Hl. rewrite Hk; [done|]. intros ->. by apply (Hn t0).
Qed.

Lemma guarded_DeleteTask tid m0 id : not_foreign tid m0 id -> moves (keeps (guarded tid m0)) (task_op' (DeleteTask id)).
Proof.
  intros Hn. apply guarded_task_op'. intros s Hs. destruct (DeleteTask_keeps id s Hs) as [? Hk].
  split; [done|]. intros id' t0 Hm0 Hf Hl. rewrite Hk; [done|]. intros ->. by apply (Hn t0).
Qed.

Lemma guarded_AddDependency tid m0 a b : moves (keeps (guarded tid m0)) (task_op' (AddDependency a b)).
Proof. apply guarded_task_op'. intros s Hs. destruct (add_dependency_same a b s Hs) as [? ->]. done. Qed.

Lemma guarded_RemoveDependency tid m0 a b : moves (keeps (guarded tid m0)) (task_op' (RemoveDependency a b)).
Proof. apply guarded_task_op'. intros s Hs. destruct (remove_dependency_same a b s Hs) as [? ->]. done. Qed.

Lemma guarded_Now tid m0 : moves (keeps (guarded tid m0)) Now.
Proof. intros w Hg. exact Hg. Qed.
#[local] Hint Resolve guarded_CreateTask guarded_AddDependency guarded_RemoveDependency guarded_Now : moves.

Lemma guarded_next tid m0 e : moves (keeps (guarded tid m0)) (next_or_invalid e).
Proof. unfold next_or_invalid. solve_moves. Qed.

Lemma guarded_sync tid m0 id ds : moves (keeps (guarded tid m0)) (syncDependencies id ds).
Proof. unfold syncDependencies, task_query. solve_moves. Qed.
#[local] Hint Resolve guarded_next guarded_sync : moves.

(** Past the ownership check the task is not a foreign one. *)
Lemma guarded_owned {A} tid id (k : Task -> M A) m0 :
  (forall task, task_ID task = id -> not_foreign tid m0 id -> moves (keeps (guarded tid m0)) (k task)) ->
  moves (keeps (guarded tid m0)) (bind (owned tid id) k).
Proof.
  intros Hk w [Hw Hg]. unfold bind, owned. destruct (id <=? 0); [done|].
  unfold bind, task_query, reads_res. destruct (GetTask id (w_tasks w)) as [task|e] eqn:E; [|done].
  destruct (checkTenant tid task) eqn:Hc; [done|]. unfold ret. pose proof (GetTask_ok _ _ _ E) as Ht.
  apply Hk; [by eapply tasks_inv_id; [apply Hw|]| |by split].
  intros t0 Hm0 Hf. pose proof (Hg id t0 Hm0 Hf) as Ht0. apply checkTenant_None in Hc. congruence.
Qed.

(** What [buildTask] returns keeps the id and the request's tenant. *)
Lemma guarded_build {A} tid id req (k : Task -> M A) m0 :
  (forall next, moves (keeps (guarded tid m0)) (k (built_task id req next))) ->
  moves (keeps (guarded tid m0)) (bind (buildTask id req) k).
Proof.
  intros Hk w Hg. unfold bind, buildTask. destruct (bool_decide _); [done|]. destruct (bool_decide _); [done|].
  destruct (bool_decide _); [by apply Hk|]. destruct (Validate _); [done|].
  destruct (IsZero _); [|by apply Hk]. unfold bind. pose proof (guarded_next tid m0 (up_CronExpr req) w Hg) as Hn.
  destruct (next_or_invalid _ w) as [w1 [t|e]]; [|done]. by apply Hk.
Qed.

Lemma guarded_call tid c m0 : moves (keeps (guarded tid m0)) (run_call tid c).
Proof.
  pose proof (guarded_UpdateTask tid m0) as Hu.
  assert (forall (A : Type) (m : M A), moves (keeps (guarded tid m0)) m ->
    moves (keeps (guarded tid m0)) (_ <- m ;; ret tt)) as Hret by (intros A m Hm; solve_moves).
  destruct c as [req|id req|id|id|id|id|id|]; cbn [run_call]; try apply Hret.
  - unfold svc_CreateTask. apply guarded_build. intros next. solve_moves.
  - unfold svc_UpdateTask. apply guarded_owned. intros cur Hid Hnf. apply guarded_build. intros next. cbv zeta.
    set (t := set_task_Version _ _).
    assert (forall t', task_ID t' = id -> moves (keeps (guarded tid m0))
      (task <- task_op (fun now => UpdateTask now t') ;; syncDependencies (task_ID task) (up_DependsOn req) ;; ret task)) as Hfin.
    { intros t' Ht'. specialize (Hu t'). rewrite Ht' in Hu. specialize (Hu Hnf). solve_moves. }
    intros w Hw. unfold bind at 1. destruct (IsZero _); [|by apply Hfin].
    destruct (_ && _); [|by apply Hfin]. unfold bind at 1.
    pose proof (guarded_next tid m0 (task_CronExpr t) w Hw) as Hn.
    destruct (next_or_invalid _ w) as [w1 [nx|e]]; [|done]. by apply Hfin.
  - unfold svc_DeleteTask. apply guarded_owned. intros task Hid Hnf. by apply guarded_DeleteTask.
  - unfold PauseTask. apply guarded_owned. intros task Hid Hnf. apply Hu. by rewrite <- Hid in Hnf.
  - unfold ResumeTask. apply guarded_owned. intros task Hid Hnf. cbv zeta.
    intros w Hw. unfold bind at 1. destruct (bool_decide _); [apply Hu; [by rewrite <- Hid in Hnf|done]|].
    unfold bind. match goal with |- context [next_or_invalid ?e w] => pose proof (guarded_next tid m0 e w Hw) as Hn;
      destruct (next_or_invalid e w) as [w1 [nx|e']] end; [|done]. apply Hu; [by rewrite <- Hid in Hnf|done].
  - unfold TriggerTask. apply guarded_owned. intros task Hid Hnf. destruct (negb _); [auto with moves|].
    refine (moves_bind _ _ _ _ _); [auto with moves|]. intros now. apply Hu. by rewrite <- Hid in Hnf.
  - unfold svc_GetTask, owned, task_query. solve_moves.
  - unfold svc_ListTasks, task_query. solve_moves.
Qed.

(** C11. Tenant isolation: whatever sequence of service calls a tenant makes, with
    whatever requests, every task of another tenant is stored afterwards exactly
    as before. *)
Theorem tenant_isolation tid cs w id t :
  world_inv w -> tasks w !! id = Some t -> foreign tid t -> tasks (run_calls tid cs w).1 !! id = Some t.
Proof.
  intros Hw Ht Hf. enough (moves (keeps (guarded tid (tasks w))) (run_calls tid cs)) as Hm.
  { destruct (Hm w) as [_ Hg]; [by split|]. by apply Hg. }
  pose proof guarded_call. induction cs as [|c cs IH]; cbn [run_calls]; solve_moves.
Qed.

(** A call on another tenant's task is refused before it does anything: the answer
    is the ownership error, whose HTTP status is 403, and the world is unchanged. *)
Theorem foreign_call_refused tid c w id t :
  call_target c = Some id -> 0 < id -> GetTask id (w_tasks w) = Ok t -> foreign tid t ->
  run_call tid c w = (w, Err ErrTaskNotOwned) /\ task_error_status ErrTaskNotOwned = 403.
Proof.
  intros Hc Hid Hg Hf%checkTenant_spec. split; [|by vm_compute].
  assert (owned tid id w = (w, Err ErrTaskNotOwned)) as Ho.
  { unfold owned. destruct (Z.leb_spec id 0); [lia|]. unfold bind, task_query, reads_res. rewrite Hg. by rewrite Hf. }
  destruct c; simplify_eq/=; unfold svc_UpdateTask, svc_DeleteTask, PauseTask, ResumeTask, TriggerTask, svc_GetTask,
    bind; by rewrite Ho.
Qed.
End Tenants.

(** ** Functional behaviour *)

Section TaskProperties.
Context `{BackendSpec} `{Env} `{MapRange} `{!BackendReliable}.

Abbreviation tasks w := (tasks_of (w_tasks w)).
Abbreviation deps w := (deps_of_store (w_tasks w)).

Lemma remove_all a ids w : world_inv w ->
  exists w', for_each (fun id => task_op' (RemoveDependency a id)) ids w = (w', Ok tt) /\ world_inv w' /\
    tasks w' = tasks w /\ forall d, d ∈ deps w' <-> d ∈ deps w /\ ~ (dep_TaskID d = a /\ dep_DependsOnTaskID d ∈ ids).
Proof.
  revert w. induction ids as [|id ids IH]; intros w Hw; cbn [for_each].
  { exists w. split_and!; try done. intros d. set_solver. }
  unfold bind, task_op' at 1. destruct Hw as (Ht & Hi & Hwk).
  destruct (RemoveDependency_total (w_tasks w) a id) as [s Hs]. rewrite Hs.
  destruct (RemoveDependency_ok _ _ _ _ _ Ht Hs) as (Hti & Htk & Hd).
  destruct (IH (set_w_tasks s w)) as (w' & -> & Hw' & Htk' & Hd'); [done|]. simpl in *.
  exists w'. split_and!; try done; [congruence|]. intros d. rewrite Hd', Hd, list_elem_of_filter. set_solver.
Qed.

Lemma add_all a ids w : world_inv w -> is_Some (tasks w !! a) -> (forall id, id ∈ ids -> is_Some (tasks w !! id)) ->
  exists w', for_each (fun id => task_op' (AddDependency a id)) ids w = (w', Ok tt) /\ world_inv w' /\
    tasks w' = tasks w /\ forall d, d ∈ deps w' <-> d ∈ deps w \/ (dep_TaskID d = a /\ dep_DependsOnTaskID d ∈ ids).
Proof.
  revert w. induction ids as [|id ids IH]; intros w Hw [ta Ha] Hex; cbn [for_each].
  { exists w. split_and!; try done. intros d. set_solver. }
  unfold bind, task_op' at 1. destruct Hw as (Ht & Hi & Hwk). destruct (Hex id ltac:(set_solver)) as [tb Hb].
  destruct (AddDependency_total (w_tasks w) a id ta tb Ha Hb) as [s Hs]. rewrite Hs.
  destruct (AddDependency_ok _ _ _ _ _ Ht Hs) as (Hti & Htk & Hd).
  destruct (IH (set_w_tasks s w)) as (w' & -> & Hw' & Htk' & Hd'); [done|simpl; by rewrite Htk; eexists| |].
  { intros id' Hin. simpl. rewrite Htk. set_solver. }
  simpl in *. exists w'. split_and!; try done; [congruence|]. intros [x y].
  rewrite Hd', Hd, elem_of_app, list_elem_of_singleton, elem_of_cons. simpl. split.
  - intros [[?|[= -> ->]]|[? ?]]; auto.
  - intros [?|[-> [->|?]]]; auto.
Qed.

Lemma sync_run a ds w : world_inv w -> is_Some (tasks w !! a) -> (forall d, d ∈ ds -> is_Some (tasks w !! d)) ->
  exists w', syncDependencies a ds w = (w', Ok tt) /\ world_inv w' /\ tasks w' = tasks w /\
    (forall d, mkTaskDependency a d ∈ deps w' <-> d ∈ ds) /\
    (forall b d, b <> a -> mkTaskDependency b d ∈ deps w' <-> mkTaskDependency b d ∈ deps w).
Proof.
  intros Hw Ha Hds. unfold syncDependencies, bind at 1, task_query, reads_res.
  destruct (ListUpstreamDeps_total (w_tasks w) a) as [ex Hex]. rewrite Hex. cbv zeta.
  pose proof (ListUpstreamDeps_ok _ _ _ Hex) as Hexs.
  assert (forall d, d ∈ ex <-> mkTaskDependency a d ∈ deps w) as Hin.
  { intros d. rewrite Hexs, list_elem_of_fmap. setoid_rewrite list_elem_of_filter. split.
    - by intros ([x y] & -> & <- & Hm).
    - intros Hm. by exists (mkTaskDependency a d). }
  unfold bind. match goal with |- context [for_each (fun id => task_op' (RemoveDependency a id)) ?l w] =>
    destruct (remove_all a l w Hw) as (w1 & -> & Hw1 & Ht1 & Hd1) end.
  match goal with |- context [for_each (fun id => task_op' (AddDependency a id)) ?l w1] =>
    destruct (add_all a l w1 Hw1) as (w2 & -> & Hw2 & Ht2 & Hd2) end; [by rewrite Ht1| |].
  { intros id. rewrite map_range_perm, elem_of_elements, Ht1. set_solver. }
  exists w2. split_and!; [done|done|congruence| |].
  - intros d. rewrite Hd2, Hd1. simpl. rewrite !map_range_perm, !elem_of_elements, <- Hin.
    rewrite !elem_of_difference, !elem_of_list_to_set. destruct (decide (d ∈ ds)), (decide (d ∈ ex)); tauto.
  - intros b d Hb. rewrite Hd2, Hd1. simpl. tauto.
Qed.

(** C34. Dependency reconciliation: over repositories that do not fail, when the task and
    every wanted upstream task exist, [syncDependencies] succeeds in whatever order Go ranges
    over its maps, and afterwards the task depends on exactly the wanted tasks; the rows and
    the edges of all other tasks are as before. An upstream task that does not exist makes it
    fail halfway ([missing_upstream]). *)
Theorem syncDependencies_spec a ds w :
  world_inv w -> is_Some (tasks w !! a) -> (forall d, d ∈ ds -> is_Some (tasks w !! d)) ->
  exists w', syncDependencies a ds w = (w', Ok tt) /\ tasks w' = tasks w /\
    (forall d, mkTaskDependency a d ∈ deps w' <-> d ∈ ds) /\
    (forall b d, b <> a -> mkTaskDependency b d ∈ deps w' <-> mkTaskDependency b d ∈ deps w).
Proof. intros Hw Ha Hd. destruct (sync_run a ds w Hw Ha Hd) as (w' & ? & _ & ? & ? & ?). by exists w'. Qed.

(** A request the service accepts, at the clock readings it may see. *)
Definition acceptable (req : TaskUpsertRequest) : Prop :=
  TrimSpace (up_Name req) <> "" /\ TrimSpace (up_Type req) <> "" /\
  (up_CronExpr req <> "" -> Validate (up_CronExpr req) = None /\
     (IsZero (up_NextTriggerTime req) = true -> forall n, exists t, NextAfter local (clock n) (up_CronExpr req) = Ok t)).

(** The first trigger time of a new task: the one the request names; without one, the next
    time of its cron expression at a reading of the clock, if it has an expression. *)
Definition first_trigger (req : TaskUpsertRequest) (next : Time) : Prop :=
  if bool_decide (up_CronExpr req = "") || negb (IsZero (up_NextTriggerTime req)) then next = up_NextTriggerTime req
  else exists n, NextAfter local (clock n) (up_CronExpr req) = Ok next.

Lemma build_run id req w : acceptable req ->
  exists w' next, buildTask id req w = (w', Ok (built_task id req next)) /\ same_stores w w' /\
    first_trigger req next.
Proof.
  intros (Hn & Ht & Hc). unfold buildTask. rewrite !bool_decide_false by done.
  unfold first_trigger. case_bool_decide as Hce; [exists w, (up_NextTriggerTime req); split; [done|]; by unfold same_stores|].
  destruct (Hc Hce) as [-> Hnx].
  destruct (IsZero (up_NextTriggerTime req)) eqn:Hz; [|exists w, (up_NextTriggerTime req); split; [done|]; by unfold same_stores].
  destruct (Hnx eq_refl (w_reads w)) as [t Hnt]. unfold bind at 1, next_or_invalid, bind, Now. rewrite Hnt.
  unfold ret. eexists _, t. split; [done|]. split; [by unfold same_stores|]. by exists (w_reads w).
Qed.

(** C33. Creating a task and reading it back. Over repositories that do not fail, a request
    with a name, a type and a valid cron expression (or none), whose upstream tasks exist, is
    stored under a fresh id: the row has every field of the request, with the defaults
    "enabled" for the status, 300 seconds for the timeout, 0 retries, "fixed_interval" for the
    retry policy and "round_robin" for the routing where the request leaves them out, the
    labels encoded, the caller's tenant unless the request names one, version 1, the
    creation's time, and the first trigger time of the request or its cron expression; the
    fields a request cannot set are zero. No other task changes, the new one depends on
    exactly the tasks the request names, every other task on what it did, and the owner
    reads back the row that the creation answered with. *)
Theorem CreateTask_roundtrip tid req w :
  world_inv w -> acceptable req -> (forall d, d ∈ up_DependsOn req -> is_Some (tasks w !! d)) ->
  exists w' id now next,
    let task := {|
      task_ID := id; task_Name := up_Name req; task_Type := up_Type req; task_CronExpr := up_CronExpr req;
      task_Payload := up_Payload req; task_Image := up_Image req;
      task_Status := if bool_decide (up_Status req = "") then "enabled" else up_Status req;
      task_TimeoutSeconds := if up_TimeoutSeconds req <=? 0 then 300 else up_TimeoutSeconds req;
      task_MaxRetry := Z.max 0 (up_MaxRetry req);
      task_RetryPolicy := if bool_decide (up_RetryPolicy req = "") then "fixed_interval" else up_RetryPolicy req;
      task_RetryOnErrors := up_RetryOnErrors req; task_RetryIntervalSeconds := 0; task_RetryWindowSeconds := 0;
      task_RouteStrategy := if bool_decide (up_RouteStrategy req = "") then "round_robin" else up_RouteStrategy req;
      task_Labels := EncodeLabels (up_Labels req); task_NextTriggerTime := next;
      task_TenantID := if up_TenantID req =? 0 then tid else up_TenantID req;
      task_Version := 1; task_TotalShards := 0; task_IdempotencyKey := ""; task_TriggerType := ""; task_EventName := "";
      task_CreatedAt := now; task_UpdatedAt := now |} in
    svc_CreateTask tid req w = (w', Ok task) /\ first_trigger req next /\
    tasks w !! id = None /\ tasks w' = <[id := task]> (tasks w) /\
    (forall d, mkTaskDependency id d ∈ deps w' <-> d ∈ up_DependsOn req) /\
    (forall b d, b <> id -> mkTaskDependency b d ∈ deps w' <-> mkTaskDependency b d ∈ deps w) /\
    (0 < id -> svc_GetTask (task_TenantID task) id w' = (w', Ok task)).
Proof.
  intros Hw Hok Hds. unfold svc_CreateTask.
  destruct (build_run 0 req w Hok) as (w1 & next & Hb & (Ht1 & Hi1 & Hw1 & _) & Hnx). unfold bind at 1. rewrite Hb.
  set (t0 := if task_TenantID _ =? 0 then _ else _). unfold bind at 1, task_op at 1.
  destruct (CreateTask_total (clock (w_reads w1)) t0 (w_tasks w1)) as (s & t & Hc). rewrite Hc.
  destruct Hw as (Hti & Hii & Hwi). rewrite <- Ht1 in Hti.
  destruct (CreateTask_ok _ _ _ _ _ Hti Hc) as (Hsi & Hnone & Hte & Htk & Hdk). rewrite Ht1 in Hnone, Htk, Hdk.
  set (w2 := set_w_tasks s _). assert (world_inv w2) as Hw2.
  { unfold world_inv. simpl. by rewrite Hi1, Hw1. }
  destruct (sync_run (task_ID t) (up_DependsOn req) w2 Hw2) as (w3 & Hs & Hw3 & Ht3 & Hd3 & Hd3').
  { simpl. rewrite Htk, lookup_insert_eq. by eexists. }
  { intros d Hd. simpl. rewrite Htk, lookup_insert_is_Some. destruct (decide (task_ID t = d)); [by left|right]. eauto. }
  simpl in Ht3, Hd3'. rewrite Hdk in Hd3'. rewrite Htk in Ht3.
  exists w3, (task_ID t), (clock (w_reads w1)), next. cbv zeta. match goal with |- context [Ok ?lit] => assert (t = lit) as Hlit end.
  { rewrite Hte at 1. subst t0. replace (Z.max 0 (up_MaxRetry req)) with (if up_MaxRetry req <? 0 then 0 else up_MaxRetry req)
      by (destruct (Z.ltb_spec (up_MaxRetry req) 0); lia). simpl. by destruct (up_TenantID req =? 0). }
  rewrite <- Hlit. unfold bind. rewrite Hs. split_and!; try done.
  intros Hpos. unfold svc_GetTask, owned. destruct (Z.leb_spec (task_ID t) 0); [lia|].
  unfold bind, task_query, reads_res. rewrite (GetTask_total _ _ t); [|by rewrite Ht3, lookup_insert_eq].
  unfold checkTenant. rewrite Hlit. cbn [task_TenantID]. by rewrite Z.eqb_refl; destruct (_ || _).
Qed.

(** Reconciliation never touches the rows, whatever fails. *)
Lemma sync_tasks a ds w : world_inv w -> tasks (syncDependencies a ds w).1 = tasks w.
Proof.
  intros Hw. enough (moves (keeps (fun w1 => world_inv w1 /\ tasks w1 = tasks w)) (syncDependencies a ds)) as Hm
    by (by apply (Hm w)).
  assert (forall b, moves (keeps (fun w1 => world_inv w1 /\ tasks w1 = tasks w)) (task_op' (RemoveDependency a b))) as Hr.
  { intros b w1 [(Ht & Hi & Hwk) He]. unfold task_op'. destruct (remove_dependency_same a b _ Ht) as [? Hs].
    destruct (RemoveDependency a b _). simpl in *. split; [done|congruence]. }
  assert (forall b, moves (keeps (fun w1 => world_inv w1 /\ tasks w1 = tasks w)) (task_op' (AddDependency a b))) as Ha.
  { intros b w1 [(Ht & Hi & Hwk) He]. unfold task_op'. destruct (add_dependency_same a b _ Ht) as [? Hs].
    destruct (AddDependency a b _). simpl in *. split; [done|congruence]. }
  unfold syncDependencies, task_query. solve_moves.
Qed.

Lemma owned_inv tid id w w' t : owned tid id w = (w', Ok t) ->
  w' = w /\ 0 < id /\ GetTask id (w_tasks w) = Ok t /\ checkTenant tid t = None.
Proof.
  unfold owned. destruct (Z.leb_spec id 0); [done|]. unfold bind, task_query, reads_res.
  destruct (GetTask id (w_tasks w)) as [t'|e]; [|done]. destruct (checkTenant tid t') eqn:Hc; [done|].
  by intros [= <- <-].
Qed.

Lemma update_inv t w w' t' : world_inv w -> task_op (fun now => UpdateTask now t) w = (w', Ok t') ->
  world_inv w' /\ tasks w' = <[task_ID t := t']> (tasks w) /\ exists now cur, t' = updated_task now cur t.
Proof.
  intros (Ht & Hi & Hw). unfold task_op. destruct (UpdateTask _ t (w_tasks w)) as [s r] eqn:E. intros [= <- ->].
  destruct (UpdateTask_ok _ _ _ _ _ Ht E) as (Hs & (cur & _ & Hc) & Hm & _). split; [done|]. split; [done|]. eauto.
Qed.

(** A paused task is not triggered: once [PauseTask] has succeeded, no listing of
    due tasks, at any time and with any limit, contains the task. *)
Theorem PauseTask_not_due tid id w w' t now limit ts x :
  world_inv w -> PauseTask tid id w = (w', Ok t) ->
  ListDueTasks now limit (w_tasks w') = Ok ts -> x ∈ ts -> task_ID x <> id.
Proof.
  intros Hw Hp Hl Hx Hid. apply bind_inv in Hp as (w1 & t0 & Ho & Hu).
  apply owned_inv in Ho as (-> & _ & Hg & _). pose proof (GetTask_ok _ _ _ Hg) as Ht0.
  destruct (update_inv _ _ _ _ Hw Hu) as ((Hti & _) & Hm & now' & cur & Ht').
  destruct (ListDueTasks_ok _ _ _ _ Hti Hl) as (all & [_ Hall] & ->). apply limit_to_elem, Hall in Hx as [[Hs _] [k Hk]].
  rewrite (tasks_inv_id _ _ _ Hti Hk) in Hid. subst k. simpl in Hm.
  assert (task_ID t0 = id) as Hid0 by (eapply tasks_inv_id; [apply Hw|done]).
  rewrite Hm, Hid0, lookup_insert_eq in Hk. injection Hk as <-. by rewrite Ht' in Hs.
Qed.

(** A manually triggered task is due at once: after [TriggerTask] has succeeded,
    every unlimited listing of due tasks made at or after its clock reading less a
    second contains the task (the zero time apart, which means "no time"). *)
Theorem TriggerTask_due tid id w w' t now limit ts :
  world_inv w -> TriggerTask tid id w = (w', Ok t) -> clock (w_reads w) - Second <= now -> limit <= 0 ->
  IsZero (clock (w_reads w) - Second) = false ->
  ListDueTasks now limit (w_tasks w') = Ok ts -> t ∈ ts /\ task_ID t = id.
Proof.
  intros Hw Hp Hnow Hlim Hz Hl. apply bind_inv in Hp as (w1 & t0 & Ho & Hu).
  apply owned_inv in Ho as (-> & _ & Hg & _). pose proof (GetTask_ok _ _ _ Hg) as Ht0.
  destruct (bool_decide (task_Status t0 = "enabled")) eqn:He; [|done]. apply bool_decide_eq_true in He. cbn [negb] in Hu.
  apply bind_inv in Hu as (w2 & tm & [= <- <-] & Hu).
  destruct (update_inv _ (set_w_reads _ w) _ _ Hw Hu) as ((Hti & _) & Hm & now' & cur & Ht').
  assert (task_ID t0 = id) as Hid0 by (eapply tasks_inv_id; [apply Hw|done]).
  destruct (ListDueTasks_ok _ _ _ _ Hti Hl) as (all & [_ Hall] & ->). split; [|by rewrite Ht'].
  unfold limit_to. destruct (Z.ltb_spec 0 limit); [lia|]. simpl. apply Hall. split.
  - rewrite Ht'. unfold task_due. simpl. split_and!; try done. unfold After. destruct (Z.ltb_spec now (clock (w_reads w) - Second)); lia.
  - exists (task_ID t0). rewrite Hm. simpl. by rewrite lookup_insert_eq.
Qed.

Lemma same_stores_inv w w' : same_stores w w' -> world_inv w -> world_inv w'.
Proof. intros (Ht & Hi & Hw & _). unfold world_inv. by rewrite Ht, Hi, Hw. Qed.

Lemma next_same e w : same_stores w (next_or_invalid e w).1.
Proof. unfold next_or_invalid, bind, Now. destruct (NextAfter _ _ e); by unfold same_stores. Qed.

Lemma build_inv id req w w' t : buildTask id req w = (w', Ok t) ->
  same_stores w w' /\ exists next, t = built_task id req next.
Proof.
  unfold buildTask. destruct (bool_decide (TrimSpace (up_Name req) = "")); [intros; discriminate|].
  destruct (bool_decide (TrimSpace (up_Type req) = "")); [intros; discriminate|].
  destruct (bool_decide (up_CronExpr req = "")); [intros Hr; unfold ret in Hr; simplify_eq; unfold same_stores; eauto 20|].
  destruct (Validate _); [intros; discriminate|].
  destruct (IsZero (up_NextTriggerTime req)); [|intros Hr; unfold ret in Hr; simplify_eq; unfold same_stores; eauto 20].
  intros (w2 & nx & Hx & Hr)%bind_inv. unfold ret in Hr. simplify_eq. split; [|eauto].
  pose proof (next_same (up_CronExpr req) w) as Hk. by rewrite Hx in Hk.
Qed.

(** An update reassigns the task to the tenant the request names: after a
    successful [UpdateTask] the stored row's tenant is the request's, also when
    that is 0 (an omitted field), which every tenant may access. *)
Theorem UpdateTask_sets_tenant tid id req w w' t :
  world_inv w -> svc_UpdateTask tid id req w = (w', Ok t) ->
  tasks w' !! id = Some t /\ task_TenantID t = up_TenantID req.
Proof.
  intros Hw Hp. unfold svc_UpdateTask in Hp. apply bind_inv in Hp as (w1 & cur & Ho & Hp).
  apply owned_inv in Ho as (-> & _ & Hg & _). apply bind_inv in Hp as (w1 & b & Hb & Hp).
  destruct (build_inv _ _ _ _ _ Hb) as [Hs1 [next ->]]. pose proof (same_stores_inv _ _ Hs1 Hw) as Hw1.
  cbv zeta in Hp. set (base := set_task_Version _ _) in Hp. apply bind_inv in Hp as (w2 & t2 & Hn & Hp).
  assert (world_inv w2 /\ task_ID t2 = id /\ task_TenantID t2 = up_TenantID req) as (Hw2 & Hid2 & Hten2).
  { revert Hn. destruct (IsZero _); [|by intros [= <- <-]]. destruct (_ && _); [|by intros [= <- <-]].
    intros (w3 & nx & Hx & Hr)%bind_inv. unfold ret in Hr. simplify_eq. split; [|done].
    refine (same_stores_inv _ _ _ Hw1). pose proof (next_same (task_CronExpr base) w1) as Hk.
    change (task_CronExpr (set_task_NextTriggerTime (task_NextTriggerTime cur) base)) with (task_CronExpr base) in Hx.
    by rewrite Hx in Hk. }
  apply bind_inv in Hp as (w3 & t3 & Hu & Hp). destruct (update_inv _ _ _ _ Hw2 Hu) as (Hw3 & Hm & now & c & Ht3).
  apply bind_inv in Hp as (w4 & [] & Hs & [= <- <-]). split; [|by rewrite Ht3].
  pose proof (sync_tasks (task_ID t3) (up_DependsOn req) w3 Hw3) as Hst. rewrite Hs in Hst. simpl in Hst.
  rewrite Hst, Hm, Hid2. apply lookup_insert_eq.
Qed.
End TaskProperties.

(** ** On concrete worlds *)

(** Two tasks of tenant 7. *)
Definition tenant_world : @World test_backend := world_with [sample_task; sample_task] [] [].

Definition stored (id : Z) : Task := default sample_task (ts_tasks (w_tasks tenant_world) !! id).

Definition plain_request : TaskUpsertRequest :=
  mkUpsert "nightly" "shell" "" "run" "" "" 0 (-1) "" "" "" ∅ zero_time 0 [1; 2].

Definition intruder : list task_call := [CallPause 1; CallCreate plain_request; CallUpdate 1 plain_request; CallDelete 1].

Lemma tenant_isolation_witness :
  ts_tasks (w_tasks (@run_calls test_backend (answering 200) canonical_range 9 intruder tenant_world).1) !! 1 = Some (stored 1).
Proof.
  apply (@tenant_isolation test_backend test_backend_contract (answering 200) canonical_range 9 intruder tenant_world 1 (stored 1)).
  - apply world_with_inv.
  - vm_compute. reflexivity.
  - vm_compute. repeat split; congruence.
Defined.

Lemma foreign_call_refused_witness :
  @run_call test_backend (answering 200) canonical_range 9 (CallDelete 1) tenant_world = (tenant_world, Err ErrTaskNotOwned) /\
  task_error_status ErrTaskNotOwned = 403.
Proof.
  apply (@foreign_call_refused test_backend (answering 200) canonical_range 9 (CallDelete 1) tenant_world 1 (stored 1)).
  - reflexivity.
  - lia.
  - vm_compute. reflexivity.
  - vm_compute. repeat split; congruence.
Defined.

Lemma syncDependencies_spec_witness :
  exists w', @syncDependencies test_backend canonical_range 1 [2; 1] tenant_world = (w', Ok tt) /\
    (forall d, mkTaskDependency 1 d ∈ ts_dependencies (w_tasks w') <-> d ∈ [2; 1]).
Proof.
  destruct (@syncDependencies_spec test_backend test_backend_contract test_backend_spec canonical_range test_backend_reliable
    1 [2; 1] tenant_world) as (w' & Hr & _ & Hd & _).
  - apply world_with_inv.
  - exists (stored 1). vm_compute. reflexivity.
  - intros d [->|[->|Hd]%elem_of_cons]%elem_of_cons; [exists (stored 2)|exists (stored 1)|by apply elem_of_nil in Hd];
      vm_compute; reflexivity.
  - exists w'. split; [exact Hr|exact Hd].
Defined.

Lemma plain_acceptable : @acceptable (answering 200) plain_request.
Proof. split; [vm_compute; congruence|]. split; [vm_compute; congruence|]. intros Hc. by destruct Hc. Qed.

Lemma CreateTask_roundtrip_witness :
  exists w' task, @svc_CreateTask test_backend (answering 200) canonical_range 7 plain_request tenant_world = (w', Ok task) /\
    task_TenantID task = 7 /\ task_Payload task = "run" /\ task_Status task = "enabled" /\ task_TimeoutSeconds task = 300 /\
    task_NextTriggerTime task = zero_time /\ task_Version task = 1.
Proof.
  destruct (@CreateTask_roundtrip test_backend test_backend_contract test_backend_spec (answering 200) canonical_range test_backend_reliable
    7 plain_request tenant_world) as (w' & id & now & next & Hr & Hn & _).
  - apply world_with_inv.
  - apply plain_acceptable.
  - intros d [->|[->|Hd]%elem_of_cons]%elem_of_cons; [exists (stored 1)|exists (stored 2)|by apply elem_of_nil in Hd];
      vm_compute; reflexivity.
  - eexists w', _. split; [exact Hr|]. split_and!; [reflexivity..| |reflexivity]. exact Hn.
Defined.

(** The old edges are removed before the new ones are added, and the row is written before
    both: naming an upstream task that does not exist is an error after which an updated task
    has lost the edges it had, and a created one is there. *)
Definition chained_world : @World test_backend :=
  @set_w_tasks test_backend (ts_AddDependency 1 2 (w_tasks tenant_world)).1 tenant_world.
Definition dangling_request : TaskUpsertRequest :=
  mkUpsert "nightly" "shell" "" "run" "" "" 0 (-1) "" "" "" ∅ zero_time 0 [99].

Example missing_upstream :
  (let '(w', r) := @svc_UpdateTask test_backend (answering 200) canonical_range 7 1 dangling_request chained_world in
   (r, ts_dependencies (w_tasks chained_world), ts_dependencies (w_tasks w')) =
   (Err errTaskNotFound, [mkTaskDependency 1 2], [])) /\
  (let '(w', r) := @svc_CreateTask test_backend (answering 200) canonical_range 7 dangling_request chained_world in
   (r, task_Name <$> ts_tasks (w_tasks w') !! 3) = (Err errTaskNotFound, Some "nightly")).
Proof. split; vm_compute; reflexivity. Qed.

Definition paused_world : @World test_backend := (@PauseTask test_backend (answering 200) 7 1 tenant_world).1.
Definition paused_task : Task := default sample_task (ts_tasks (w_tasks paused_world) !! 1).

Lemma PauseTask_not_due_witness : ts_ListDueTasks start_time 100 (w_tasks tenant_world) = Ok [stored 2; stored 1] /\
  ts_ListDueTasks start_time 100 (w_tasks paused_world) = Ok [stored 2] /\ task_ID (stored 2) <> 1.
Proof.
  split; [vm_compute; reflexivity|]. split; [vm_compute; reflexivity|].
  apply (@PauseTask_not_due test_backend test_backend_contract test_backend_spec (answering 200) 7 1 tenant_world paused_world
    paused_task start_time 100 [stored 2] (stored 2)).
  - apply world_with_inv.
  - apply (run_eq (@PauseTask test_backend (answering 200) 7 1 tenant_world)). vm_compute. reflexivity.
  - vm_compute. reflexivity.
  - by apply list_elem_of_singleton.
Defined.

Definition triggered_world : @World test_backend := (@TriggerTask test_backend (answering 200) 7 1 tenant_world).1.
Definition triggered_task : Task := default sample_task (ts_tasks (w_tasks triggered_world) !! 1).

Lemma TriggerTask_due_witness : triggered_task ∈ [stored 2; triggered_task] /\ task_ID triggered_task = 1.
Proof.
  apply (@TriggerTask_due test_backend test_backend_contract test_backend_spec (answering 200) 7 1 tenant_world triggered_world
    triggered_task start_time 0).
  - apply world_with_inv.
  - apply (run_eq (@TriggerTask test_backend (answering 200) 7 1 tenant_world)). vm_compute. reflexivity.
  - vm_compute. congruence.
  - lia.
  - vm_compute. reflexivity.
  - vm_compute. reflexivity.
Defined.

Definition updated_world : @World test_backend :=
  (@svc_UpdateTask test_backend (answering 200) canonical_range 7 1 plain_request tenant_world).1.
Definition updated_row : Task := default sample_task (ts_tasks (w_tasks updated_world) !! 1).

(** Tenant 7 updates its task without naming a tenant; tenant 9 may then delete it. *)
Lemma UpdateTask_sets_tenant_witness :
  (ts_tasks (w_tasks updated_world) !! 1 = Some updated_row /\ task_TenantID updated_row = 0) /\
  (@svc_DeleteTask test_backend 9 1 updated_world).2 = Ok tt.
Proof.
  split; [|vm_compute; reflexivity].
  apply (@UpdateTask_sets_tenant test_backend test_backend_contract test_backend_spec (answering 200) canonical_range
    7 1 plain_request tenant_world updated_world updated_row).
  - apply world_with_inv.
  - apply (run_eq (@svc_UpdateTask test_backend (answering 200) canonical_range 7 1 plain_request tenant_world)).
    vm_compute. reflexivity.
Defined.
