(* ===== verification/Auth.v ===== *)
(** internal/api/middleware (jwt.go, context.go), handler/auth_handler.go and the
    guards of handler/router.go: signed tokens, roles, the login and the table of
    API routes with the role each requires. The state is the signing key of the
    process, which the first use generates when none was configured. *)
From S2P Require Import Prelude GoStd GoTime Json Crypto World Http TaskService.

#[local] Open Scope prog_scope.

(** ** Tokens *)

Record Claims := mkClaims {
  cl_Sub : string;
  cl_Role : string;
  cl_TenantID : Z;
  cl_Iat : Z;
  cl_Exp : Z
}.

Definition claims_json (c : Claims) : jvalue :=
  JObject [("sub", JString (cl_Sub c)); ("role", JString (cl_Role c)); ("tenant_id", JNumber (fmt_d (cl_TenantID c)));
           ("iat", JNumber (fmt_d (cl_Iat c))); ("exp", JNumber (fmt_d (cl_Exp c)))].

(** One member of the object: the field its name stands for, if any. *)
Definition set_claim (c : Claims) (kv : string * jvalue) : option Claims :=
  let k := foldName kv.1 in let v := kv.2 in
  if bool_decide (k = "sub") then s ← into_string v (cl_Sub c); Some (mkClaims s (cl_Role c) (cl_TenantID c) (cl_Iat c) (cl_Exp c))
  else if bool_decide (k = "role") then s ← into_string v (cl_Role c); Some (mkClaims (cl_Sub c) s (cl_TenantID c) (cl_Iat c) (cl_Exp c))
  else if bool_decide (k = "tenant_id") then z ← into_int v (cl_TenantID c); Some (mkClaims (cl_Sub c) (cl_Role c) z (cl_Iat c) (cl_Exp c))
  else if bool_decide (k = "iat") then z ← into_int v (cl_Iat c); Some (mkClaims (cl_Sub c) (cl_Role c) (cl_TenantID c) z (cl_Exp c))
  else if bool_decide (k = "exp") then z ← into_int v (cl_Exp c); Some (mkClaims (cl_Sub c) (cl_Role c) (cl_TenantID c) (cl_Iat c) z)
  else Some c.

(** [json.Unmarshal(payload, &claims)] *)
Definition unmarshal_claims (s : string) : option Claims :=
  let zero := mkClaims "" "" 0 0 0 in
  v ← Unmarshal s; into_struct set_claim v zero.

Definition JWTError (msg : string) : gerror := Errorf "jwt: %s" [msg].

(** [jwtSecret]: [None] is [nil]. *)
Definition Secret : Type := option (list Z).
Definition SetJWTSecret (secret : list Z) : Secret := Some secret.

Section Tokens.
(** What [rand.Read] fills the key with. *)
Variable random : list Z.

Abbreviation T A := (prog Secret gerror A).

(** [init] *)
Definition jwt_init (env : string) : Secret := if bool_decide (env = "") then None else Some (string_bytes env).

Definition secret : T (list Z) := fun st =>
  match st with Some k => (st, Ok k) | None => (Some random, Ok random) end.

Definition dot : string := ".".

Definition jwt_header : string :=
  Base64.Encode (string_bytes (Marshal (JObject [("alg", JString "HS256"); ("typ", JString "JWT")]))).

Definition signature (key : list Z) (unsigned : string) : string :=
  Base64.Encode (hmac_sha256 key (string_bytes unsigned)).

Definition SignToken (claims : Claims) : T string :=
  let payload := Base64.Encode (string_bytes (Marshal (claims_json claims))) in
  let unsigned := jwt_header +:+ dot +:+ payload in
  key <- secret ;;
  ret (unsigned +:+ dot +:+ signature key unsigned).

(** [now] is [time.Now().Unix()]. *)
Definition ParseToken (now : Z) (token : string) : T Claims :=
  match Split "." token with
  | [part0; part1; part2] =>
      let unsigned := part0 +:+ dot +:+ part1 in
      key <- secret ;;
      if negb (bool_decide (part2 = signature key unsigned)) then fail (JWTError "invalid signature") else
      match Base64.Decode part1 with
      | None => fail (JWTError "invalid payload encoding")
      | Some payload =>
          match unmarshal_claims (bytes_of payload) with
          | None => fail (JWTError "invalid claims")
          | Some claims => if cl_Exp claims <? now then fail (JWTError "token expired") else ret claims
          end
      end
  | _ => fail (JWTError "invalid token format")
  end.

(** ** Middleware *)

(** A request is answered by the middleware itself, or goes on. *)
Inductive verdict (A : Type) :=
| Reject (status : Z) (error : string)
| Pass (a : A).
Arguments Reject {A}. Arguments Pass {A}.

Definition writeAuthError {A} (msg : string) : verdict A := Reject 401 msg.

Definition Authenticate (now : Z) (auth : string) : T (verdict Claims) :=
  if bool_decide (auth = "") || negb (HasPrefix auth "Bearer ")
  then ret (writeAuthError "missing or malformed authorization header")
  else r <-? ParseToken now (TrimPrefix auth "Bearer ") ;;
       match r with Err e => ret (writeAuthError (error_text e)) | Ok c => ret (Pass c) end.

(** The claims the next handler sees, [old] when none are added. *)
Definition AuthenticateOptional (now : Z) (auth : string) (old : option Claims) : T (option Claims) :=
  if negb (bool_decide (auth = "")) && HasPrefix auth "Bearer "
  then r <-? ParseToken now (TrimPrefix auth "Bearer ") ;;
       match r with Err _ => ret old | Ok c => ret (Some c) end
  else ret old.

Definition roleWeight (role : string) : Z :=
  if bool_decide (role = "admin") then 3 else if bool_decide (role = "operator") then 2
  else if bool_decide (role = "viewer") then 1 else 0.

Definition minWeight (roles : list string) : Z :=
  foldl (fun m r => if m <? roleWeight r then roleWeight r else m) 0 roles.

Definition RequireRole (roles : list string) (claims : option Claims) : verdict unit :=
  match claims with
  | None => writeAuthError "authentication required"
  | Some c => if roleWeight (cl_Role c) <? minWeight roles then Reject 403 "insufficient permissions" else Pass tt
  end.

Definition hasBearerPrefix (s : string) : bool := HasPrefix s "Bearer ".

(** A request as the guards see it: the [Authorization] header, the [token] query
    parameter, the claims of the context and the tenant of the context. *)
Record AuthRequest := mkAuthRequest {
  ar_Authorization : string;
  ar_token : string;
  ar_claims : option Claims;
  ar_tenant : Z
}.

Definition request_token (r : AuthRequest) : string :=
  if negb (bool_decide (ar_Authorization r = "")) && hasBearerPrefix (ar_Authorization r)
  then TrimPrefix (ar_Authorization r) "Bearer " else ar_token r.

(** [requireAuth]: passing, the tenant the handler runs with. *)
Definition requireAuth (minimumRole : string) (now : Z) (r : AuthRequest) : T (verdict Z) :=
  let check (claims : Claims) : T (verdict Z) :=
    if roleWeight (cl_Role claims) <? roleWeight minimumRole then ret (Reject 403 "insufficient permissions")
    else ret (Pass (if 0 <? cl_TenantID claims then cl_TenantID claims else ar_tenant r)) in
  match ar_claims r with
  | Some claims => check claims
  | None =>
      let token := request_token r in
      if bool_decide (token = "") then ret (Reject 401 "authentication required") else
      p <-? ParseToken now token ;;
      match p with Err _ => ret (Reject 401 "invalid or expired token") | Ok claims => check claims end
  end.

(** ** Login *)

Definition authenticateUser (username password : string) : string :=
  if bool_decide (username = "admin") then (if bool_decide (password = "admin123") then "admin" else "")
  else if bool_decide (username = "operator") then (if bool_decide (password = "operator123") then "operator" else "")
  else if bool_decide (username = "viewer") then (if bool_decide (password = "viewer123") then "viewer" else "")
  else "".

Record loginResponse := mkLoginResponse { lr_Token : string; lr_Role : string; lr_ExpiresIn : Z }.

(** [body] is the decoded request, [None] when the JSON does not decode. *)
Definition Login (now : Z) (method : string) (body : option (string * string)) : T (reply loginResponse) :=
  if negb (bool_decide (method = "POST")) then ret (Failure 405 "") else
  match body with
  | None => ret (Failure 400 "invalid request body")
  | Some (username, password) =>
      let role := authenticateUser username password in
      if bool_decide (role = "") then ret (Failure 401 "invalid credentials") else
      t <-? SignToken (mkClaims username role 0 now (now + 3600)) ;;
      match t with
      | Err _ => ret (Failure 500 "token generation failed")
      | Ok token => ret (Answer 200 (mkLoginResponse token role 3600))
      end
  end.
End Tokens.
Arguments Reject {A}. Arguments Pass {A}.

(** ** Routes *)

Inductive access := Public | Role (minimum : string).
Record route := mkRoute { rt_method : string; rt_pattern : string; rt_access : access; rt_handler : string }.

(** [NewAPIRouter], in the order of the source. *)
Definition api_routes : list route :=
  [mkRoute "POST" "/api/auth/login" Public "authHandler.Login";
   mkRoute "GET" "/healthz" Public "Health";
   mkRoute "GET" "/metrics" Public "metrics";
   mkRoute "GET" "/api/v1/workers" (Role "viewer") "workerHandler.List";
   mkRoute "GET" "/api/v1/workers/:id" (Role "viewer") "workerHandler.Get";
   mkRoute "GET" "/api/v1/tasks" (Role "viewer") "taskHandler.List";
   mkRoute "GET" "/api/v1/tasks/dag" (Role "viewer") "taskHandler.DAG";
   mkRoute "GET" "/api/v1/tasks/:id" (Role "viewer") "taskHandler.GetOrUpdate";
   mkRoute "POST" "/api/v1/tasks" (Role "operator") "taskHandler.List";
   mkRoute "PUT" "/api/v1/tasks/:id" (Role "operator") "taskHandler.GetOrUpdate";
   mkRoute "DELETE" "/api/v1/tasks/:id" (Role "admin") "taskHandler.GetOrUpdate";
   mkRoute "POST" "/api/v1/tasks/:id/pause" (Role "operator") "taskHandler.Pause";
   mkRoute "POST" "/api/v1/tasks/:id/resume" (Role "operator") "taskHandler.Resume";
   mkRoute "POST" "/api/v1/tasks/:id/trigger" (Role "operator") "taskHandler.Trigger";
   mkRoute "GET" "/api/v1/task-instances" (Role "viewer") "taskInstanceHandler.List";
   mkRoute "GET" "/api/v1/task-instances/:id" (Role "viewer") "taskInstanceHandler.Get";
   mkRoute "GET" "/api/v1/ai/status" (Role "viewer") "ai:status";
   mkRoute "POST" "/api/v1/ai/log-analysis/analyze" (Role "viewer") "ai:log-analysis/analyze";
   mkRoute "POST" "/api/v1/ai/advisor/generate" (Role "viewer") "ai:advisor/generate";
   mkRoute "POST" "/api/v1/ai/advisor/auto" (Role "viewer") "ai:advisor/auto";
   mkRoute "POST" "/api/v1/ai/task/predict-duration" (Role "viewer") "ai:task/predict-duration";
   mkRoute "POST" "/api/v1/ai/trend/analyze" (Role "viewer") "ai:trend/analyze";
   mkRoute "POST" "/api/v1/ai/task/create" (Role "operator") "ai:task/create";
   mkRoute "POST" "/api/v1/ai/chat" (Role "viewer") "ai:chat";
   mkRoute "GET" "/api/v1/ai/chat/ws" (Role "viewer") "ai:chat/ws";
   mkRoute "GET" "/api/v1/ai/conversations" (Role "viewer") "ai:conversations";
   mkRoute "POST" "/api/v1/events/receive" (Role "operator") "scheduler:events/publish";
   mkRoute "GET" "/api/v1/ai/conversations/*rest" (Role "viewer") "ai:conversations/*rest"].

(** [NewSchedulerRouter]: no route has a guard. *)
Definition scheduler_routes : list route :=
  [mkRoute "GET" "/healthz" Public "Health";
   mkRoute "GET" "/metrics" Public "metrics";
   mkRoute "POST" "/api/v1/workers/register" Public "workerHandler.Register";
   mkRoute "POST" "/api/v1/workers/heartbeat" Public "workerHandler.Heartbeat";
   mkRoute "POST" "/api/v1/task-instances/report" Public "taskRuntimeHandler.Report";
   mkRoute "POST" "/api/v1/events/publish" Public "eventHandler.Publish";
   mkRoute "POST" "/api/v1/events/receive" Public "eventHandler.Publish";
   mkRoute "POST" "/api/v1/task-instances/cancel" Public "taskRuntimeHandler.Cancel";
   mkRoute "POST" "/api/v1/task-instances/ack" Public "taskRuntimeHandler.Ack";
   mkRoute "GET" "/api/v1/worker-loads" Public "workerLoadHandler.List"].

(** A request to a route of the API router: [tenant.Middleware] around the guard.
    No middleware puts claims into the context. *)
Definition api_request (random : list Z) (now : Z) (rt : route) (auth qtoken tenantHeader : string)
    : prog Secret gerror (verdict Z) :=
  let tid := request_tenant tenantHeader in
  match rt_access rt with
  | Public => ret (Pass tid)
  | Role r => requireAuth random r now (mkAuthRequest auth qtoken None tid)
  end.

(** ** Properties *)

Lemma Encode_no_dot bs : is_bytes bs -> contains_byte "." (Base64.Encode bs) = false.
Proof.
  intros Hb. pose proof (Base64.Encode_chars bs Hb) as Hc. induction (Base64.Encode bs) as [|c s IH]; [done|].
  apply Forall_cons in Hc as [(_ & _ & Hc) Hs]. cbn [contains_byte].
  apply Ascii.eqb_neq in Hc. rewrite Hc. by apply IH.
Qed.

Lemma header_no_dot : contains_byte "." jwt_header = false.
Proof. vm_compute. reflexivity. Qed.

Lemma header_cons : exists c s, jwt_header = String c s.
Proof. vm_compute. eauto. Qed.

Lemma signature_no_dot key u : contains_byte "." (signature key u) = false.
Proof. apply Encode_no_dot, hmac_range. Qed.

#[local] Opaque signature jwt_header Base64.Encode Base64.Decode Marshal.

Lemma dot_app x : dot +:+ x = String "." x.
Proof. done. Qed.

(** Claims that fit their types and are text. *)
Definition valid_claims (c : Claims) : Prop :=
  valid_utf8 (cl_Sub c) /\ valid_utf8 (cl_Role c) /\ int64 (cl_TenantID c) /\ int64 (cl_Iat c) /\ int64 (cl_Exp c).

Lemma unmarshal_claims_json c : valid_claims c -> unmarshal_claims (Marshal (claims_json c)) = Some c.
Proof.
  intros (Hs & Hr & Ht & Hi & He). unfold unmarshal_claims. rewrite Unmarshal_Marshal.
  - unfold claims_json. cbn [foldl mbind option_bind]. unfold set_claim. cbn. rewrite !Atoi_fmt_d by done. by destruct c.
  - simpl. split_and!; try done; apply fmt_d_number.
  - assert (exists d, max_nesting = S d) as [d ->] by (by eexists). simpl. lia.
Qed.

Section Properties.
Variable random : list Z.

Lemma secret_run st : exists key, secret random st = (Some key, Ok key) /\ forall k, st = Some k -> key = k.
Proof. destruct st as [k|]; eexists; (split; [reflexivity|]); by intros ? [=]. Qed.

(** A signed token is taken apart into what was signed. *)
Lemma parse_signed key claims now other : valid_claims claims ->
  let unsigned := jwt_header +:+ dot +:+ Base64.Encode (string_bytes (Marshal (claims_json claims))) in
  ParseToken other now (unsigned +:+ dot +:+ signature key unsigned) (Some key) =
  (Some key, if cl_Exp claims <? now then Err (JWTError "token expired") else Ok claims).
Proof.
  intros Hv. cbv zeta. set (payload := Base64.Encode (string_bytes (Marshal (claims_json claims)))).
  set (unsigned := jwt_header +:+ dot +:+ payload).
  assert (contains_byte "." payload = false) as Hp by apply Encode_no_dot, string_bytes_range.
  assert (Split "." (unsigned +:+ dot +:+ signature key unsigned) = [jwt_header; payload; signature key unsigned]) as Hs.
  { unfold unsigned at 1. rewrite !append_assoc.
    rewrite !dot_app. rewrite Split_app by apply header_no_dot.
    rewrite Split_app by apply Hp. rewrite Split_none; [reflexivity|]. apply signature_no_dot. }
  unfold ParseToken. rewrite Hs. fold unsigned. unfold bind, secret. rewrite bool_decide_true by reflexivity. cbn [negb].
  unfold payload. rewrite Base64.Decode_Encode by apply string_bytes_range.
  rewrite bytes_of_string_bytes, unmarshal_claims_json by done. by destruct (_ <? _).
Qed.

(** C25. Tokens: whatever the state of the key, the token signed for some claims is,
    in the same process, parsed to exactly these claims until it expires, and
    refused as expired afterwards. *)
Theorem token_roundtrip claims st now : valid_claims claims -> exists st' token,
  SignToken random claims st = (st', Ok token) /\
  ParseToken random now token st' =
    (st', if cl_Exp claims <? now then Err (JWTError "token expired") else Ok claims).
Proof.
  intros Hv. destruct (secret_run st) as (key & E & _). unfold SignToken, bind. rewrite E.
  do 2 eexists. split; [reflexivity|]. by apply parse_signed.
Qed.

(** What an accepted token is made of. *)
Definition signed_by (key : list Z) (now : Z) (token : string) (c : Claims) : Prop :=
  exists unsigned, token = unsigned +:+ dot +:+ signature key unsigned /\ now <= cl_Exp c /\
    exists part0 part1 payload, unsigned = part0 +:+ dot +:+ part1 /\ Base64.Decode part1 = Some payload /\
      unmarshal_claims (bytes_of payload) = Some c.

Lemma ParseToken_signed now token st st' c : ParseToken random now token st = (st', Ok c) ->
  exists key, st' = Some key /\ (forall k, st = Some k -> key = k) /\ signed_by key now token c.
Proof.
  unfold ParseToken. pose proof (Split_Join "." token) as Hj.
  destruct (Split "." token) as [|p0 [|p1 [|p2 [|]]]]; try done. destruct (secret_run st) as (key & E & Hk).
  unfold bind. rewrite E. case_bool_decide as Hsig; [|done]. simpl. destruct (Base64.Decode p1) as [pl|] eqn:Hd; [|done].
  destruct (unmarshal_claims (bytes_of pl)) as [cl|] eqn:Hu; [|done].
  destruct (Z.ltb_spec (cl_Exp cl) now) as [|Hexp]; [done|]. intros [= <- <-]. exists key. split; [done|]. split; [done|].
  exists (p0 +:+ dot +:+ p1). split; [|split; [done|by exists p0, p1, pl]].
  rewrite <- Hj, <- Hsig. cbn [Join]. rewrite !append_assoc, !dot_app. done.
Qed.

(** Behind the guard: the token and the weight of its role. *)
Lemma requireAuth_passed role now r st st' tid : ar_claims r = None -> requireAuth random role now r st = (st', Ok (Pass tid)) ->
  exists key c, st' = Some key /\ (forall k, st = Some k -> key = k) /\ signed_by key now (request_token r) c /\
    roleWeight role <= roleWeight (cl_Role c).
Proof.
  intros Hc. unfold requireAuth. rewrite Hc. case_bool_decide; [done|]. unfold attempt.
  destruct (ParseToken random now (request_token r) st) as [s [c|e]] eqn:E; [|done].
  destruct (ParseToken_signed _ _ _ _ _ E) as (key & -> & Hk & Hs).
  destruct (Z.ltb_spec (roleWeight (cl_Role c)) (roleWeight role)) as [|Hw]; [done|]. intros [= <- _]. by exists key, c.
Qed.

(** Who may do what: reading, asking the model for an opinion and chatting with it are for
    viewers; deleting is for admins; everything else (creating, updating, pausing, resuming
    and triggering tasks, publishing events) is for operators. *)
Definition opinions : list string :=
  ["/api/v1/ai/log-analysis/analyze"; "/api/v1/ai/advisor/generate"; "/api/v1/ai/advisor/auto";
   "/api/v1/ai/task/predict-duration"; "/api/v1/ai/trend/analyze"; "/api/v1/ai/chat"].
Definition weight_asked (rt : route) : Z :=
  if bool_decide (rt_method rt = "DELETE") then 3
  else if bool_decide (rt_method rt = "GET" \/ rt_pattern rt ∈ opinions) then 1 else 2.

Lemma routes_guarded rt : rt ∈ api_routes -> HasPrefix (rt_pattern rt) "/api/v1/" = true ->
  exists r, rt_access rt = Role r /\ roleWeight r = weight_asked rt.
Proof.
  intros Hr Hp. assert (Forall (fun rt => HasPrefix (rt_pattern rt) "/api/v1/" = true ->
    match rt_access rt with Role r => roleWeight r = weight_asked rt | Public => False end) api_routes) as Hall.
  { repeat apply Forall_cons_2; try apply Forall_nil_2; vm_compute; congruence. }
  rewrite Forall_forall in Hall. specialize (Hall rt Hr Hp). destruct (rt_access rt) as [|r]; [done|]. eauto.
Qed.

Lemma authenticateUser_role u p : authenticateUser u p <> "" ->
  authenticateUser u p = u /\ (u = "admin" \/ u = "operator" \/ u = "viewer").
Proof. unfold authenticateUser. repeat case_bool_decide; subst; naive_solver. Qed.

Lemma bearer_token tok tid :
  request_token (mkAuthRequest ("Bearer " +:+ tok) "" None tid) = tok.
Proof. reflexivity. Qed.

Lemma request_with_token key claims rt r t th : valid_claims claims -> t <= cl_Exp claims -> rt_access rt = Role r ->
  let unsigned := jwt_header +:+ dot +:+ Base64.Encode (string_bytes (Marshal (claims_json claims))) in
  api_request random t rt ("Bearer " +:+ (unsigned +:+ dot +:+ signature key unsigned)) "" th (Some key) =
  (Some key, Ok (if roleWeight (cl_Role claims) <? roleWeight r then Reject 403 "insufficient permissions"
                 else Pass (if 0 <? cl_TenantID claims then cl_TenantID claims else request_tenant th))).
Proof.
  intros Hv Ht Ha. cbv zeta. pose proof (parse_signed key claims t random Hv) as Hp. cbv zeta in Hp.
  set (tok := _ +:+ dot +:+ signature key _) in *.
  assert (tok <> "") as Hne. { destruct header_cons as (c & s & Hc). subst tok. by rewrite Hc. }
  unfold api_request. rewrite Ha. unfold requireAuth. cbn [ar_claims ar_tenant]. rewrite bearer_token.
  rewrite bool_decide_false by done. unfold attempt. rewrite Hp.
  destruct (Z.ltb_spec (cl_Exp claims) t); [lia|]. by destruct (_ <? _).
Qed.

(** A session: after a successful login every route with a role answers, for an
    hour, by the role's weight alone: 403 when it asks for more than the user has,
    otherwise the handler runs. The token carries no tenant, so the tenant it runs
    for is whatever the request's own X-Tenant-ID header says. *)
Theorem login_session now user pw st st' resp t rt r th :
  int64 now -> int64 (now + 3600) ->
  Login random now "POST" (Some (user, pw)) st = (st', Ok (Answer 200 resp)) ->
  t <= now + 3600 -> rt_access rt = Role r ->
  lr_Role resp = user /\ 1 <= roleWeight user /\
  api_request random t rt ("Bearer " +:+ lr_Token resp) "" th st' =
    (st', Ok (if roleWeight user <? roleWeight r then Reject 403 "insufficient permissions"
              else Pass (request_tenant th))).
Proof.
  intros Hn Hn' E Ht Ha. unfold Login in E. rewrite bool_decide_true in E by done. cbn [negb] in E.
  case_bool_decide as Hr; [done|]. destruct (authenticateUser_role _ _ Hr) as [Hu Hin]. rewrite Hu in *.
  assert (valid_utf8 user /\ 1 <= roleWeight user) as [Hv Hw] by (destruct Hin as [->|[->| ->]]; by vm_compute).
  unfold SignToken, attempt, bind in E. destruct (secret_run st) as (key & Hk & _). rewrite Hk in E.
  injection E as <- <-. cbn [lr_Token lr_Role]. split; [done|]. split; [done|].
  by rewrite (request_with_token key (mkClaims user user 0 now (now + 3600)) rt r t th).
Qed.

(** [RequireRole] asks for the weightiest of the roles it is given. *)
Lemma minWeight_max roles : minWeight roles = foldr Z.max 0 (roleWeight <$> roles).
Proof.
  unfold minWeight. assert (forall rs m, 0 <= m -> foldl (fun m r => if m <? roleWeight r then roleWeight r else m) m rs =
    Z.max m (foldr Z.max 0 (roleWeight <$> rs))) as Hf.
  { induction rs as [|r rs IH]; intros m Hm; [simpl; lia|]. rewrite fmap_cons. cbn [foldl foldr].
    destruct (Z.ltb_spec m (roleWeight r)); rewrite IH by lia; lia. }
  rewrite Hf by lia. apply Z.max_r. induction roles as [|r rs IH]; [done|]. rewrite fmap_cons. cbn [foldr]. lia.
Qed.

(** [RequireRole(roles...)] passes exactly the users whose role weighs at least as
    much as every one of the roles, and not, as its comment has it, those with at
    least one of them. *)
Theorem RequireRole_all roles c : RequireRole roles (Some c) = Pass tt <->
  Forall (fun r => roleWeight r <= roleWeight (cl_Role c)) roles.
Proof.
  unfold RequireRole. rewrite minWeight_max. assert (0 <= roleWeight (cl_Role c)) as H0
    by (unfold roleWeight; repeat case_bool_decide; lia).
  destruct (Z.ltb_spec (roleWeight (cl_Role c)) (foldr Z.max 0 (roleWeight <$> roles))) as [Hlt|Hle];
    (split; [|]); try done; intros Hf.
  - exfalso. revert Hlt. induction Hf as [|r rs Hr _ IH]; rewrite ?fmap_cons; cbn [foldr]; [simpl; lia|lia].
  - clear Hf. induction roles as [|r rs IH]; constructor; rewrite fmap_cons in Hle; cbn [foldr] in Hle; [lia|]. apply IH. lia.
Qed.
End Properties.

(** ** On concrete tokens *)

Definition test_secret : Secret := SetJWTSecret (string_bytes "test-secret").
Definition noon : Z := 1714557600.

Lemma token_roundtrip_witness : exists st' token,
  SignToken [] (mkClaims "alice" "viewer" 7 noon (noon + 3600)) test_secret = (st', Ok token) /\
  ParseToken [] noon token st' = (st', Ok (mkClaims "alice" "viewer" 7 noon (noon + 3600))).
Proof. apply (token_roundtrip [] (mkClaims "alice" "viewer" 7 noon (noon + 3600)) test_secret noon). by vm_compute. Defined.

Definition login_as (user pw : string) : Secret * res gerror (reply loginResponse) :=
  Login [] noon "POST" (Some (user, pw)) test_secret.
Definition token_of (x : Secret * res gerror (reply loginResponse)) : string :=
  match x.2 with Ok (Answer _ r) => lr_Token r | _ => "" end.
Definition delete_route : route := mkRoute "DELETE" "/api/v1/tasks/:id" (Role "admin") "taskHandler.GetOrUpdate".


Lemma login_session_witness :
  (api_request [] noon delete_route ("Bearer " +:+ token_of (login_as "viewer" "viewer123")) "" "" test_secret).2 =
  Ok (Reject 403 "insufficient permissions").
Proof.
  destruct (Login [] noon "POST" (Some ("viewer", "viewer123")) test_secret) as [st' r] eqn:E.
  assert (exists resp, r = Ok (Answer 200 resp) /\ st' = test_secret /\ lr_Token resp = token_of (login_as "viewer" "viewer123"))
    as (resp & -> & -> & Ht).
  { unfold login_as. rewrite E. vm_compute in E. injection E as <- <-. eexists. split; [reflexivity|]. by split. }
  rewrite <- Ht.
  destruct (login_session [] noon "viewer" "viewer123" test_secret test_secret resp noon delete_route "admin" ""
    ltac:(by vm_compute) ltac:(by vm_compute) E ltac:(by vm_compute) eq_refl) as (_ & _ & H). by rewrite H.
Defined.
