(* ===== verification/WorkerService.v ===== *)
(** internal/api/service/worker_service.go with its HTTP and gRPC front ends
    (handler/worker_handler.go, scheduler/grpcserver/server.go) and the health
    checker (scheduler/health/checker.go). *)
From S2P Require Import Prelude GoStd GoTime GoFormat Model Labels Repo RateLimit TestStore World Sample Http.
From S2P Require Import Dispatch Router Lifecycle Runtime.

#[local] Open Scope prog_scope.

Definition ErrWorkerIDRequired : gerror := Sentinel "worker_id is required".
Definition ErrWorkerHostRequired : gerror := Sentinel "hostname is required".

Record WorkerRegistrationRequest := mkRegistration {
  reg_WorkerID : string; reg_Hostname : string; reg_IP : string; reg_CallbackURL : string;
  reg_GRPCAddr : string; reg_Protocol : string; reg_MaxConcurrency : Z; reg_Labels : gmap string string
}.

Record WorkerHeartbeatRequest := mkHeartbeat {
  hb_WorkerID : string; hb_CurrentLoad : Z; hb_RunningTasks : Z; hb_ReportUnixMilli : Z
}.

Definition defaultProtocol (value : string) : string :=
  if equal_fold (TrimSpace value) "grpc" then "grpc" else "http".

(** [time.UnixMilli] *)
Definition UnixMilli (ms : Z) : Time := ms * Millisecond.

(** The row a registration writes. *)
Definition registered (req : WorkerRegistrationRequest) (now : Time) : WorkerNode :=
  {| worker_ID := reg_WorkerID req; worker_Hostname := reg_Hostname req; worker_IP := reg_IP req;
     worker_CallbackURL := reg_CallbackURL req; worker_GRPCAddr := reg_GRPCAddr req;
     worker_Protocol := defaultProtocol (reg_Protocol req); worker_Status := "online";
     worker_Labels := EncodeLabels (reg_Labels req);
     worker_MaxConcurrency := if reg_MaxConcurrency req <=? 0 then 100 else reg_MaxConcurrency req;
     worker_CurrentLoad := 0; worker_LastHeartbeatAt := now |}.

(** The row a heartbeat writes over the stored one. *)
Definition beaten (req : WorkerHeartbeatRequest) (at_ : Time) (worker : WorkerNode) : WorkerNode :=
  set_worker_LastHeartbeatAt at_
    (set_worker_CurrentLoad
       (if hb_CurrentLoad req <? hb_RunningTasks req then hb_RunningTasks req else hb_CurrentLoad req)
       (set_worker_Status "online" worker)).

Definition evicted (worker : WorkerNode) : WorkerNode := set_worker_CurrentLoad 0 (set_worker_Status "offline" worker).

Section WorkerService.
Context `{Backend} `{Env}.

Definition RegisterWorker (req : WorkerRegistrationRequest) : M WorkerNode :=
  if bool_decide (TrimSpace (reg_WorkerID req) = "") then fail ErrWorkerIDRequired else
  if bool_decide (TrimSpace (reg_Hostname req) = "") then fail ErrWorkerHostRequired else
  now <- Now ;;
  worker_op (fun t => UpsertWorker t (registered req now)) ;;
  worker_query (GetWorker (reg_WorkerID req)).

Definition heartbeatTime (unixMilli : Z) : M Time :=
  if unixMilli <=? 0 then Now else ret (UnixMilli unixMilli).

Definition Heartbeat (req : WorkerHeartbeatRequest) : M WorkerNode :=
  if bool_decide (TrimSpace (hb_WorkerID req) = "") then fail ErrWorkerIDRequired else
  worker <- worker_query (GetWorker (hb_WorkerID req)) ;;
  at_ <- heartbeatTime (hb_ReportUnixMilli req) ;;
  worker_op (fun t => UpsertWorker t (beaten req at_ worker)) ;;
  worker_query (GetWorker (hb_WorkerID req)).

(** The loop over the stale workers, with the count so far; an error ends it. *)
Fixpoint evict_all (stale : list WorkerNode) (count : Z) : M Z :=
  match stale with
  | [] => ret count
  | x :: rest => worker_op (fun t => UpsertWorker t (evicted x)) ;; evict_all rest (count + 1)
  end.

Definition EvictStaleWorkers (timeout : Duration) : M Z :=
  now <- Now ;;
  stale <- worker_query (ListStaleWorkers (now - timeout)) ;;
  evict_all stale 0.

(** One tick of the health checker; errors are only logged. *)
Definition health_tick (timeout : Duration) : M unit := _ignore EvictStaleWorkers timeout ;; ret tt.

(** *** HTTP *)

Definition worker_errors : list gerror := [ErrWorkerIDRequired; ErrWorkerHostRequired].

Definition handle_Register (method : string) (body : option WorkerRegistrationRequest) : M (reply WorkerNode) :=
  post_json method body 201 worker_errors RegisterWorker.

Definition handle_Heartbeat (method : string) (body : option WorkerHeartbeatRequest) : M (reply WorkerNode) :=
  post_json method body 200 worker_errors Heartbeat.

Definition handle_ListWorkers (method : string) : M (reply (list WorkerNode)) :=
  if negb (bool_decide (method = "GET")) then ret methodNotAllowed else
  r <-? worker_query ListWorkers ;;
  ret (match r with Ok ws => Answer 200 ws | Err e => Failure 500 (error_text e) end).

Definition handle_GetWorker (method path : string) : M (reply WorkerNode) :=
  if negb (bool_decide (method = "GET")) then ret methodNotAllowed else
  let workerID := TrimPrefix path "/api/v1/workers/" in
  if bool_decide (TrimSpace workerID = "") then ret (Failure 400 "worker id is required") else
  r <-? worker_query (GetWorker workerID) ;;
  ret (match r with Ok x => Answer 200 x | Err e => write_error worker_errors e end).

(** Report and cancel requests (handler/task_runtime_handler.go). *)
Definition runtime_errors : list gerror := [ErrScheduleInstanceIDRequired].

Definition handle_Report (method : string) (body : option TaskStatusReportRequest) : M (reply unit) :=
  post_json method body 200 runtime_errors ReportStatus.

Definition handle_Cancel (method : string) (body : option string) : M (reply unit) :=
  post_json method body 200 runtime_errors CancelInstance.

(** *** gRPC *)

(** Accepted, and the error text otherwise. *)
Definition grpc_RegisterWorker (req : WorkerRegistrationRequest) : M (bool * string) :=
  r <-? RegisterWorker req ;;
  ret (match r with Ok _ => (true, "") | Err e => (false, error_text e) end).

Definition grpc_Heartbeat (req : WorkerHeartbeatRequest) : M bool :=
  r <-? Heartbeat req ;; ret (match r with Ok _ => true | Err _ => false end).

(** The timestamps of the report are not part of the service's request. *)
Definition grpc_ReportTaskStatus (req : TaskStatusReportRequest) : M bool :=
  r <-? ReportStatus (mkReport (rep_ScheduleInstanceID req) (rep_WorkerID req) (rep_Status req)
                        (rep_ErrorCode req) (rep_ErrorMessage req) "" "") ;;
  ret (match r with Ok _ => true | Err _ => false end).
End WorkerService.

(** ** Lifecycle *)

Section WorkerLifecycle.
Context `{BackendContract} `{Env}.

Lemma tracked_RegisterWorker req m0 : moves (keeps (tracked m0 [] [])) (RegisterWorker req).
Proof. unfold RegisterWorker, worker_query. solve_tracked. Qed.

Lemma tracked_Heartbeat req m0 : moves (keeps (tracked m0 [] [])) (Heartbeat req).
Proof. unfold Heartbeat, heartbeatTime, worker_query. solve_tracked. Qed.

Lemma tracked_health timeout m0 : moves (keeps (tracked m0 [] [])) (health_tick timeout).
Proof.
  assert (forall xs c, moves (keeps (tracked m0 [] [])) (evict_all xs c)) as He.
  { induction xs as [|x xs IH]; intros c; cbn [evict_all]; solve_tracked. }
  unfold health_tick, EvictStaleWorkers, worker_query. solve_tracked.
Qed.

Lemma Register_lifecycle method body : moves lifecycle (handle_Register method body).
Proof.
  apply lifecycle_intro. intros m0. apply moves_post_json; [apply _|]. intros. apply tracked_RegisterWorker.
Qed.

Lemma Heartbeat_lifecycle method body : moves lifecycle (handle_Heartbeat method body).
Proof.
  apply lifecycle_intro. intros m0. apply moves_post_json; [apply _|]. intros. apply tracked_Heartbeat.
Qed.

Lemma health_lifecycle timeout : moves lifecycle (health_tick timeout).
Proof. apply lifecycle_intro, tracked_health. Qed.

Lemma Report_lifecycle method body : moves lifecycle (handle_Report method body).
Proof. apply moves_post_json; [apply _|]. apply ReportStatus_lifecycle. Qed.

Lemma Cancel_lifecycle method body : moves lifecycle (handle_Cancel method body).
Proof. apply moves_post_json; [apply _|]. apply CancelInstance_lifecycle. Qed.
End WorkerLifecycle.

(** ** Properties *)

Section WorkerProperties.
Context `{BackendSpec} `{Env} `{!BackendReliable}.

Abbreviation workers w := (workers_of (w_workers w)).

Lemma stamped_other now x :
  worker_ID (stamped now x) = worker_ID x /\ worker_Status (stamped now x) = worker_Status x /\
  worker_CurrentLoad (stamped now x) = worker_CurrentLoad x /\
  worker_MaxConcurrency (stamped now x) = worker_MaxConcurrency x /\ worker_Labels (stamped now x) = worker_Labels x.
Proof. unfold stamped. by case_match. Qed.

(** An upsert of the in-memory kind, as a step. *)
Lemma upsert_run x w : world_inv w ->
  exists w' now, worker_op (fun t => UpsertWorker t x) w = (w', Ok tt) /\ world_inv w' /\
    workers w' = <[worker_ID x := stamped now x]> (workers w) /\ w_tasks w' = w_tasks w /\ w_instances w' = w_instances w.
Proof.
  intros (Ht & Hi & Hw). unfold worker_op.
  destruct (UpsertWorker_total (clock (w_reads w)) x (w_workers w)) as [s Hu]. rewrite Hu.
  destruct (UpsertWorker_ok _ _ _ _ _ Hw Hu) as [Hs Hm]. by eexists _, _.
Qed.

Lemma evict_all_run xs c w : world_inv w -> NoDup (map worker_ID xs) ->
  exists w', evict_all xs c w = (w', Ok (c + Z.of_nat (length xs))) /\ world_inv w' /\
    w_tasks w' = w_tasks w /\ w_instances w' = w_instances w /\
    (forall x, x ∈ xs -> exists t, workers w' !! worker_ID x = Some (stamped t (evicted x))) /\
    (forall id, id ∉ map worker_ID xs -> workers w' !! id = workers w !! id).
Proof.
  revert c w. induction xs as [|x xs IH]; intros c w Hw Hnd; cbn [evict_all].
  { exists w. rewrite Z.add_0_r. split; [done|]. split_and!; try done. intros x Hx. by apply elem_of_nil in Hx. }
  simpl in Hnd. apply NoDup_cons in Hnd as [Hx Hnd]. unfold bind.
  destruct (upsert_run (evicted x) w Hw) as (w1 & now & -> & Hw1 & Hm1 & Ht1 & Hi1).
  destruct (IH (c + 1) w1 Hw1 Hnd) as (w2 & -> & Hw2 & Ht2 & Hi2 & Hin & Hout). exists w2.
  split; [do 2 f_equal; simpl; lia|]. split_and!; [done|congruence|congruence| |].
  - intros y [->|Hy]%elem_of_cons; [|by apply Hin]. exists now. rewrite Hout, Hm1 by done. by rewrite lookup_insert_eq.
  - intros id Hid. simpl in Hid. rewrite Hout, Hm1 by set_solver. rewrite lookup_insert_ne; [done|].
    intros E. apply Hid. apply elem_of_cons. left. by rewrite <- E.
Qed.

(** Eviction does exactly what it says: with [cutoff] the timeout before the clock
    reading, every online worker whose heartbeat is older is stored offline with
    no load and its other fields kept, every other worker is untouched, the count
    is the number of stale workers, and none is stale afterwards. *)
Theorem EvictStaleWorkers_spec timeout w :
  world_inv w ->
  let cutoff := clock (w_reads w) - timeout in
  exists w' n, EvictStaleWorkers timeout w = (w', Ok n) /\ world_inv w' /\
    n = Z.of_nat (size (filter (fun kx : string * WorkerNode =>
          worker_Status kx.2 = "online" /\ Before (worker_LastHeartbeatAt kx.2) cutoff = true) (workers w))) /\
    (forall id x, workers w !! id = Some x -> stale cutoff x ->
       exists x', workers w' !! id = Some x' /\ worker_Status x' = "offline" /\ worker_CurrentLoad x' = 0 /\
         worker_MaxConcurrency x' = worker_MaxConcurrency x /\ worker_Labels x' = worker_Labels x) /\
    (forall id, (forall x, workers w !! id = Some x -> ~ stale cutoff x) -> workers w' !! id = workers w !! id) /\
    (forall id x, workers w' !! id = Some x -> ~ stale cutoff x).
Proof.
  intros Hw cutoff. pose proof Hw as (_ & _ & Hwi).
  unfold EvictStaleWorkers, bind, Now, worker_query, reads_res. fold cutoff.
  destruct (ListStaleWorkers_total (w_workers w) cutoff) as [xs Hl].
  change (w_workers (set_w_reads _ w)) with (w_workers w). rewrite Hl.
  destruct (ListStaleWorkers_ok _ _ _ Hwi Hl) as [Hnd Hxs].
  assert (forall x, x ∈ xs <-> stale cutoff x /\ workers w !! worker_ID x = Some x) as Hmem.
  { intros x. rewrite Hxs. split; intros [Hs Hk]; (split; [done|]); [|by eexists].
    destruct Hk as [k Hk]. by rewrite (workers_inv_id _ _ _ Hwi Hk). }
  assert (NoDup (map worker_ID xs)) as Hids.
  { apply NoDup_fmap_2_strong; [|done]. intros x y Hx Hy E. apply Hmem in Hx as [_ Hx]. apply Hmem in Hy as [_ Hy].
    rewrite E in Hx. congruence. }
  destruct (evict_all_run xs 0 (set_w_reads (S (w_reads w)) w) Hw Hids) as (w' & -> & Hw' & _ & _ & Hin & Hout).
  exists w', (Z.of_nat (length xs)). split; [done|]. split; [done|].
  assert (forall id x, workers w !! id = Some x -> stale cutoff x -> x ∈ xs /\ worker_ID x = id) as Hst.
  { intros id x Hx Hs. pose proof (workers_inv_id _ _ _ Hwi Hx) as Hid. split; [|done]. apply Hmem. by rewrite Hid. }
  assert (forall id, (forall x, workers w !! id = Some x -> ~ stale cutoff x) -> id ∉ map worker_ID xs) as Hno.
  { intros id Hs (x & -> & Hx)%list_elem_of_fmap. apply Hmem in Hx as [Hst' Hx]. by apply (Hs x Hx). }
  split_and!.
  - f_equal. rewrite <- length_map_to_list, <- (length_fmap fst), <- (length_fmap worker_ID xs). apply Permutation_length, NoDup_Permutation; [done| |].
    + apply NoDup_fst_map_to_list.
    + intros id. rewrite !list_elem_of_fmap. split.
      * intros (x & -> & [Hs Hx]%Hmem). exists (worker_ID x, x). split; [done|]. by apply elem_of_map_to_list, map_lookup_filter_Some.
      * intros ([k x] & -> & [Hx Hs]%elem_of_map_to_list%map_lookup_filter_Some). destruct (Hst k x Hx Hs). by exists x.
  - intros id x Hx Hs. destruct (Hst id x Hx Hs) as [Hxin <-]. destruct (Hin x Hxin) as [t Ht].
    destruct (stamped_other t (evicted x)) as (_ & ? & ? & ? & ?). by exists (stamped t (evicted x)).
  - intros id Hs. by apply Hout, Hno.
  - intros id x Hx Hs. destruct (decide (id ∈ map worker_ID xs)) as [(y & -> & Hy)%list_elem_of_fmap|Hni].
    + destruct (Hin y Hy) as [t Ht]. rewrite Hx in Ht. injection Ht as ->.
      destruct Hs as [Hon _]. destruct (stamped_other t (evicted y)) as (_ & He & _). rewrite He in Hon. done.
    + rewrite Hout in Hx by done. destruct (Hst id x Hx Hs) as [Hxin <-]. apply Hni. by apply list_elem_of_fmap_2.
Qed.

(** A registered worker is ready: with an id and a host name, registration stores
    the row it answers with, online, without load and with room for at least one
    task, so the router may pick it for any task whose labels it carries. *)
Theorem RegisterWorker_ready req w :
  world_inv w -> TrimSpace (reg_WorkerID req) <> "" -> TrimSpace (reg_Hostname req) <> "" ->
  IsZero (clock (w_reads w)) = false ->
  exists w', RegisterWorker req w = (w', Ok (registered req (clock (w_reads w)))) /\ world_inv w' /\
    workers w' = <[reg_WorkerID req := registered req (clock (w_reads w))]> (workers w) /\
    forall opts, opt_Labels opts ⊆ DecodeLabels (EncodeLabels (reg_Labels req)) ->
      eligible opts (registered req (clock (w_reads w))).
Proof.
  intros Hw Hid Hhost Hz. unfold RegisterWorker. rewrite !bool_decide_false by done. unfold bind, Now.
  set (x := registered req (clock (w_reads w))). destruct (upsert_run x (set_w_reads (S (w_reads w)) w) Hw)
    as (w' & now & -> & Hw' & Hm & _). exists w'. unfold worker_query, reads_res.
  assert (stamped now x = x) as Hs by (unfold stamped, x; simpl; by rewrite Hz). rewrite Hs in Hm.
  assert (workers w' !! reg_WorkerID req = Some x) as Hx by (rewrite Hm; apply lookup_insert_eq).
  rewrite (GetWorker_total _ _ _ Hx). split_and!; try done. intros opts Hl. unfold eligible, available. simpl.
  split_and!; try done. destruct (Z.leb_spec (reg_MaxConcurrency req) 0); lia.
Qed.

(** A heartbeat of a known worker sets its load to the larger of the two reported
    numbers, brings it online, dates it with the report (the clock without one)
    and keeps its address, labels and limit. *)
Theorem Heartbeat_spec req w x :
  world_inv w -> TrimSpace (hb_WorkerID req) <> "" -> workers w !! hb_WorkerID req = Some x ->
  0 < hb_ReportUnixMilli req ->
  exists w' x', Heartbeat req w = (w', Ok x') /\ world_inv w' /\ workers w' = <[hb_WorkerID req := x']> (workers w) /\
    worker_CurrentLoad x' = Z.max (hb_CurrentLoad req) (hb_RunningTasks req) /\ worker_Status x' = "online" /\
    worker_LastHeartbeatAt x' = hb_ReportUnixMilli req * Millisecond /\
    worker_MaxConcurrency x' = worker_MaxConcurrency x /\ worker_Labels x' = worker_Labels x /\
    worker_CallbackURL x' = worker_CallbackURL x /\ worker_GRPCAddr x' = worker_GRPCAddr x.
Proof.
  intros Hw Hid Hx Hms. unfold Heartbeat. rewrite bool_decide_false by done.
  unfold bind at 1, worker_query, reads_res. rewrite (GetWorker_total _ _ _ Hx).
  unfold bind, heartbeatTime. destruct (Z.leb_spec (hb_ReportUnixMilli req) 0) as [|_]; [lia|]. unfold ret.
  destruct Hw as (Ht & Hi & Hwi). pose proof (workers_inv_id _ _ _ Hwi Hx) as Hxid.
  set (y := beaten req _ x). destruct (upsert_run y w) as (w' & now & -> & Hw' & Hm & _); [done|]. exists w', y.
  assert (stamped now y = y) as Hs.
  { unfold stamped, y, beaten, IsZero, UnixMilli. simpl. case_match; [|done]. exfalso.
    unfold zero_time, Second, Millisecond in *. lia. }
  rewrite Hs in Hm. change (worker_ID y) with (worker_ID x) in Hm. rewrite Hxid in Hm.
  assert (workers w' !! hb_WorkerID req = Some y) as Hy by (rewrite Hm; apply lookup_insert_eq).
  rewrite (GetWorker_total _ _ _ Hy). split_and!; try done. unfold y, beaten. simpl.
  destruct (Z.ltb_spec (hb_CurrentLoad req) (hb_RunningTasks req)); lia.
Qed.
End WorkerProperties.

(** ** On concrete worlds *)

Definition stale_fleet : @World test_backend :=
  world_with [] [] [set_worker_LastHeartbeatAt (start_time - 60 * Second) (worker_named "a" 2); worker_named "b" 1].

Lemma EvictStaleWorkers_spec_witness :
  exists w', @EvictStaleWorkers test_backend (answering 200) (30 * Second) stale_fleet = (w', Ok 1) /\
    (forall id x, ws_workers (w_workers w') !! id = Some x -> ~ stale (start_time - 30 * Second) x).
Proof.
  destruct (@EvictStaleWorkers_spec test_backend test_backend_contract test_backend_spec (answering 200) test_backend_reliable (30 * Second)
    stale_fleet) as (w' & n & Hr & _ & _ & _ & _ & Hs).
  - apply world_with_inv.
  - exists w'. split; [|exact Hs]. rewrite Hr. f_equal.
    change (Ok n) with ((w', Ok (E:=gerror) n).2). rewrite <- Hr. vm_compute. reflexivity.
Defined.

Definition newcomer : WorkerRegistrationRequest :=
  mkRegistration "c" "host-c" "" "http://c" "c:9000" " GRPC " 0 {["gpu" := "yes"]}.

Lemma RegisterWorker_ready_witness :
  exists w', @RegisterWorker test_backend (answering 200) newcomer stale_fleet = (w', Ok (registered newcomer start_time)) /\
    ws_workers (w_workers w') !! "c" = Some (registered newcomer start_time).
Proof.
  destruct (@RegisterWorker_ready test_backend test_backend_contract test_backend_spec (answering 200) test_backend_reliable newcomer stale_fleet)
    as (w' & Hr & _ & Hm & _).
  - apply world_with_inv.
  - vm_compute. congruence.
  - vm_compute. congruence.
  - vm_compute. reflexivity.
  - exists w'. split; [exact Hr|]. change (workers_of (w_workers w')) with (ws_workers (w_workers w')) in Hm.
    rewrite Hm. apply lookup_insert_eq.
Defined.

Lemma Heartbeat_spec_witness :
  exists w' x', @Heartbeat test_backend (answering 200) (mkHeartbeat "b" 1 2 1714557600000) stale_fleet = (w', Ok x') /\
    worker_CurrentLoad x' = 2.
Proof.
  destruct (@Heartbeat_spec test_backend test_backend_contract test_backend_spec (answering 200) test_backend_reliable
    (mkHeartbeat "b" 1 2 1714557600000) stale_fleet (stamped start_time (worker_named "b" 1))) as (w' & x' & Hr & _ & _ & Hl & _).
  - apply world_with_inv.
  - vm_compute. congruence.
  - vm_compute. reflexivity.
  - vm_compute. reflexivity.
  - exists w', x'. split; [exact Hr|exact Hl].
Defined.
