(* ===== verification/Race.v ===== *)
(** The handlers that write worker rows, as goroutines interleaved at every access to the
    repository: Router.Pick and Release (scheduler/route/router.go) around the dispatch of
    a task, the slot a report gives back (service/task_runtime_service.go), heartbeats,
    registrations and evictions (service/worker_service.go). Each of them reads a row,
    changes its copy and writes the whole row back, without a lock. *)
From S2P Require Import Prelude Threads GoStd GoTime Model Labels Repo RateLimit TestStore World Sample Http Dispatch Router.
From S2P Require Import Lifecycle Balance Runtime WorkerService.

#[local] Open Scope prog_scope.

(** ** The goroutines *)

(** where a goroutine stands: just before the access named. *)
Inductive row_writer :=
| Picking (opts : SelectOptions) (request : ExecuteTaskRequest)                                  (** [ListAvailableWorkers] *)
| Choosing (opts : SelectOptions) (request : ExecuteTaskRequest) (filtered : list WorkerNode)    (** the round robin's counter *)
| Reserving (request : ExecuteTaskRequest) (best : WorkerNode)     (** [UpsertWorker] of the chosen row *)
| Holding (request : ExecuteTaskRequest) (worker : WorkerNode)     (** [Client.Dispatch] *)
| Releasing (worker : WorkerNode)                                  (** [Router.Release] *)
| Reporting (req : TaskStatusReportRequest)                        (** [GetWorker] *)
| Freeing (worker : WorkerNode)                                    (** [UpsertWorker] *)
| Beating (req : WorkerHeartbeatRequest)                           (** [GetWorker] *)
| Stamping (req : WorkerHeartbeatRequest) (worker : WorkerNode)    (** [UpsertWorker] *)
| Registering (req : WorkerRegistrationRequest)                    (** [UpsertWorker] *)
| Evicting (timeout : Duration)                                    (** [ListStaleWorkers] *)
| Clearing (stale : list WorkerNode)                               (** [UpsertWorker] of the first *)
| Ended.

Section Race.
Context `{Backend} `{Env}.

Definition upsert (worker : WorkerNode) : M unit := worker_op (fun now => UpsertWorker now worker).

(** One access, and where the goroutine stands then; an error ends it. *)
Definition next (g : row_writer) : M row_writer :=
  match g with
  | Picking opts request =>
      all <- worker_query ListAvailableWorkers ;;
      let filtered := filterByLabels all (opt_Labels opts) in
      if (length filtered =? 0)%nat then fail ErrNoAvailableWorker else ret (Choosing opts request filtered)
  | Choosing opts request filtered =>
      best <- choose opts filtered ;; ret (Reserving request (set_worker_CurrentLoad (wrap64 (worker_CurrentLoad best + 1)) best))
  | Reserving request best => upsert best ;; ret (Holding request best)
  | Holding request worker =>
      d <-? Dispatch worker request ;; ret (match d with Ok _ => Ended | Err _ => Releasing worker end)
  | Releasing worker => _ignore Release worker ;; ret Ended
  | Reporting req =>
      if bool_decide (rep_WorkerID req = "") then ret Ended else
      r <-? worker_query (GetWorker (rep_WorkerID req)) ;;
      ret (match r with
           | Err _ => Ended
           | Ok worker => Freeing (if 0 <? worker_CurrentLoad worker then set_worker_CurrentLoad (worker_CurrentLoad worker - 1) worker else worker)
           end)
  | Freeing worker => _ignore upsert worker ;; ret Ended
  | Beating req =>
      if bool_decide (TrimSpace (hb_WorkerID req) = "") then fail ErrWorkerIDRequired else
      worker <- worker_query (GetWorker (hb_WorkerID req)) ;; ret (Stamping req worker)
  | Stamping req worker => at_ <- heartbeatTime (hb_ReportUnixMilli req) ;; upsert (beaten req at_ worker) ;; ret Ended
  | Registering req => RegisterWorker req ;; ret Ended
  | Evicting timeout => now <- Now ;; stale <- worker_query (ListStaleWorkers (now - timeout)) ;; ret (Clearing stale)
  | Clearing [] => ret Ended
  | Clearing (x :: rest) => upsert (evicted x) ;; ret (Clearing rest)
  | Ended => ret Ended
  end.

#[export] Program Instance row_writers : Goroutines World gerror row_writer := {| thread_code := next; halted := Ended |}.
Next Obligation. done. Qed.
End Race.

(** ** The goroutines are the handlers *)

Ltac follow := follow_with ltac:(cbn [thread_code row_writers next]).

Section Undisturbed.
Context `{Backend} `{Env}.

(** What the loops do with a task, as far as the worker is concerned. *)
Definition pick_and_send (opts : SelectOptions) (request : ExecuteTaskRequest) : M unit :=
  worker <- Pick opts ;;
  d <-? Dispatch worker request ;;
  match d with Ok _ => ret tt | Err _ => _ignore Release worker ;; ret tt end.

Lemma runs_pick opts request : runs 5 (Picking opts request) (pick_and_send opts request).
Proof. unfold pick_and_send, Pick. follow. Qed.

Lemma runs_freeing req : runs 2 (Reporting req) (release_reporter req).
Proof. unfold release_reporter. follow. Qed.

Lemma runs_heartbeat req : runs 2 (Beating req) (Heartbeat req).
Proof. unfold Heartbeat. follow. Qed.

Lemma runs_register req : runs 1 (Registering req) (RegisterWorker req).
Proof. follow. Qed.

Lemma comes_to_clearing stale n : comes_to (Clearing stale) (evict_all stale n).
Proof.
  revert n. induction stale as [|x stale IH]; intros n; [by intros w; exists 0%nat|]. by eapply (comes_to_bind _ (upsert (evicted x)) (fun _ => Clearing stale)).
Qed.

Lemma comes_to_evict timeout : comes_to (Evicting timeout) (EvictStaleWorkers timeout).
Proof.
  apply (comes_to_eq _ (stale <- (now <- Now ;; worker_query (ListStaleWorkers (now - timeout))) ;; evict_all stale 0)); [|done].
  eapply comes_to_bind; [|intros stale; apply comes_to_clearing]. done.
Qed.
End Undisturbed.

(** ** Interleavings *)

Section Interleaving.
Context `{BackendContract} `{Env}.

(** How a handler starts. *)
Definition starts (g : row_writer) : bool :=
  match g with Picking _ _ | Reporting _ | Beating _ | Registering _ | Evicting _ => true | _ => false end.

(** One access by one goroutine that may take it now; whatever does not touch the workers'
    rows may happen in between. *)
Definition workers_untouched (w w' : World) : Prop := w_workers w' = w_workers w.
Definition race_step (allowed : World -> row_writer -> Prop) : conf World row_writer -> conf World row_writer -> Prop :=
  guarded (fun g => starts g = true) workers_untouched allowed.

(** A worker reports no more than its maximum, and a maximum is an int. *)
Definition modest (_ : World) (g : row_writer) : Prop :=
  match g with
  | Stamping req x => 0 <= Z.max (hb_CurrentLoad req) (hb_RunningTasks req) <= worker_MaxConcurrency x
  | Registering req => int64 (reg_MaxConcurrency req)
  | _ => True
  end.

(** The rows a goroutine holds a copy of satisfy [P]. *)
Definition copies (P : WorkerNode -> Prop) (g : row_writer) : Prop :=
  match g with
  | Choosing _ _ ws | Clearing ws => Forall P ws
  | Reserving _ x | Holding _ x | Releasing x | Freeing x | Stamping _ x => P x
  | _ => True
  end.

(** Of the rows a pick chooses from, each has room. *)
Definition copy_ok (g : row_writer) : Prop :=
  copies load_ok g /\ match g with Choosing _ _ ws => Forall (fun x => worker_CurrentLoad x < worker_MaxConcurrency x) ws | _ => True end.

Definition rows_ok (w : World) : Prop := workers_inv (w_workers w) /\ loads_ok w.

(** What is known of the rows in a world where they satisfy [P], and of what is read. *)
Section Rows.
Variable P : WorkerNode -> Prop.
Definition all_rows (w : World) : Prop := workers_inv (w_workers w) /\ map_Forall (fun _ x => P x) (workers_of (w_workers w)).

Lemma gives_untouched {A} (m : M A) : moves workers_untouched m -> gives all_rows (fun _ => True) m.
Proof. intros Hm. apply gives_any. intros w Hw. unfold all_rows. by rewrite (Hm w). Qed.

Lemma gives_get id : gives all_rows P (worker_query (GetWorker id)).
Proof. intros w Hw. split; [done|]. intros x Hx. apply GetWorker_ok in Hx. by apply Hw in Hx. Qed.

Lemma gives_available : gives all_rows (Forall (fun x => P x /\ worker_CurrentLoad x < worker_MaxConcurrency x)) (worker_query ListAvailableWorkers).
Proof.
  intros w [Hi Hp]. split; [done|]. intros ws Hws. apply Forall_forall. intros x Hx.
  apply (ListAvailableWorkers_ok _ _ Hi Hws) in Hx as [[_ Hlt] [k Hk]]. split; [by eapply Hp|done].
Qed.

Lemma gives_choose opts ws Q : Forall Q ws -> gives all_rows Q (choose opts ws).
Proof.
  intros Hq w Hw. assert (w_workers (choose opts ws w).1 = w_workers w) as Hs.
  { unfold choose, pickRoundRobin, bind, reads, modify, reads_res. by case_bool_decide. }
  split; [unfold all_rows; by rewrite Hs|]. intros best Hb. destruct (choose opts ws w) as [w1 r] eqn:E. simpl in Hb. subst r.
  destruct (choose_ok _ _ _ _ _ E) as (_ & Hin & _). rewrite Forall_forall in Hq. by apply Hq.
Qed.
End Rows.

Lemma untouched_Dispatch worker request : moves workers_untouched (Dispatch worker request).
Proof. intros w. by destruct (Dispatch_network worker request w) as (_ & _ & ? & _). Qed.

Lemma untouched_Now : moves workers_untouched Now.
Proof. by intros w. Qed.

Lemma untouched_heartbeatTime ms : moves workers_untouched (heartbeatTime ms).
Proof. intros w. unfold heartbeatTime. by case_match. Qed.

Lemma gives_upsert x : load_ok x -> gives rows_ok (fun _ => True) (upsert x).
Proof.
  intros Hx. apply gives_any. intros w [Hi Hl]. unfold upsert, worker_op. destruct (UpsertWorker _ _ _) as [s [u|e]] eqn:E; simpl.
  - destruct (UpsertWorker_row _ _ _ _ _ Hi E) as (Hi' & beat & Hm). split; [done|]. unfold loads_ok. simpl. rewrite Hm.
    by apply map_Forall_insert_2.
  - destruct (UpsertWorker_err _ _ _ _ _ Hi E) as (Hi' & Hm). split; [done|]. unfold loads_ok. simpl. by rewrite Hm.
Qed.

Lemma freed_ok x : load_ok x -> load_ok (if 0 <? worker_CurrentLoad x then set_worker_CurrentLoad (worker_CurrentLoad x - 1) x else x).
Proof. unfold load_ok. destruct (Z.ltb_spec 0 (worker_CurrentLoad x)); simpl; lia. Qed.

Lemma gives_register req : int64 (reg_MaxConcurrency req) -> gives rows_ok (fun _ => True) (RegisterWorker req).
Proof.
  intros Hr. unfold RegisterWorker. case_bool_decide; [apply gives_fail|]. case_bool_decide; [apply gives_fail|].
  eapply gives_bind; [apply gives_untouched, untouched_Now|]. intros now _. eapply gives_bind; [|intros _ _; by apply gives_any].
  apply gives_upsert. unfold load_ok, registered, int64 in *. simpl. destruct (Z.leb_spec (reg_MaxConcurrency req) 0); lia.
Qed.

(** Every access keeps the rows and the copies within the limits. *)
Lemma next_ok g w : copy_ok g -> modest w g -> gives rows_ok copy_ok (next g).
Proof.
  change rows_ok with (all_rows load_ok). intros [Hg Hroom] Hm.
  destruct g as [opts q|opts q ws|q x|q x|x|req|x|req|req x|req|timeout|[|x ws]|]; cbn [next copies modest] in *.
  - eapply gives_bind; [apply gives_available|]. intros ws Hws. cbv zeta. case_match; [apply gives_fail|]. apply gives_ret.
    split; apply Forall_forall; intros x [Hx _]%filterByLabels_spec; rewrite Forall_forall in Hws; by apply Hws.
  - eapply gives_bind; [apply (gives_choose _ _ _ (fun x => load_ok x /\ worker_CurrentLoad x < worker_MaxConcurrency x)); by apply Forall_and|].
    intros best [[Hb Hmax] Hlt]. apply gives_ret. split; [|done]. cbn [copies]. rewrite wrap64_id by (unfold int64; lia).
    unfold load_ok. simpl. lia.
  - eapply gives_bind; [by apply gives_upsert|]. intros _ _. by apply gives_ret.
  - eapply gives_attempt; [apply gives_untouched, untouched_Dispatch|]. intros [u|e] _; by apply gives_ret.
  - eapply gives_attempt; [apply gives_upsert; by apply freed_ok|]. intros _ _. by apply gives_ret.
  - case_bool_decide; [by apply gives_ret|]. eapply gives_attempt; [apply gives_get|]. intros [x|e] Hx; apply gives_ret; [|done].
    split; [|done]. by apply freed_ok, Hx.
  - eapply gives_attempt; [by apply gives_upsert|]. intros _ _. by apply gives_ret.
  - case_bool_decide; [apply gives_fail|]. eapply gives_bind; [apply gives_get|]. intros x Hx. by apply gives_ret.
  - eapply gives_bind; [apply gives_untouched, untouched_heartbeatTime|]. intros at_ _.
    eapply gives_bind; [apply gives_upsert|intros _ _; by apply gives_ret]. unfold load_ok, beaten in *. simpl.
    destruct (Z.ltb_spec (hb_CurrentLoad req) (hb_RunningTasks req)); lia.
  - eapply gives_bind; [by apply gives_register|]. intros _ _. by apply gives_ret.
  - eapply gives_bind; [apply gives_untouched, untouched_Now|]. intros now _.
    eapply (gives_bind _ (Forall load_ok)); [|intros ws Hws; by apply gives_ret]. intros w0 [Hi Hl]. split; [done|]. intros ws E.
    apply Forall_forall. intros x Hx. destruct (ListStaleWorkers_rows _ _ _ Hi E x Hx) as [k Hk]. by eapply Hl.
  - by apply gives_ret.
  - apply Forall_cons in Hg as [Hx Hws]. eapply gives_bind; [apply gives_upsert|intros _ _; by apply gives_ret].
    unfold load_ok, evicted in *. simpl. lia.
  - by apply gives_ret.
Qed.

(** C4. The limits of the workers hold under races. However picks, releases, reports,
    registrations, evictions and heartbeats are interleaved, access by access and under
    any failures of the repository, no stored row and no copy a goroutine is about to
    write ever has a load below zero or above the worker's maximum, as long as no
    heartbeat reports more than its worker's maximum. *)
Theorem loads_bounded c c' : rows_ok (c_world c) -> map_Forall (fun _ g => starts g = true) (c_threads c) -> rtc (race_step modest) c c' ->
  map_Forall (fun _ x => 0 <= worker_CurrentLoad x <= worker_MaxConcurrency x) (workers_of (w_workers (c_world c'))) /\
  forall id g, c_threads c' !! id = Some g -> copy_ok g.
Proof.
  intros Hw Ht Hs. destruct (guarded_keeps (fun g => starts g = true) workers_untouched modest rows_ok copy_ok c c') as [[_ Hl] Hc]; try done.
  - by intros [].
  - intros w w' Hw' Hu. unfold rows_ok, loads_ok. by rewrite Hu.
  - intros g w w' g' Hi Hg Hm. apply (gives_step rows_ok copy_ok); [done|by eapply next_ok|done].
  - intros id g Hg. specialize (Ht _ _ Hg). by destruct g.
  - split; [|exact Hc]. intros k x Hx. by apply Hl in Hx as [Hx _].
Qed.
End Interleaving.

(** ** What the races do *)

(** One online worker with room for one more task. *)
Definition one_slot : @World test_backend := world_with [] [] [worker_named "a" 1].
Definition any_worker : SelectOptions := mkOptions ∅ "".
Definition some_request : ExecuteTaskRequest := mkExecuteTaskRequest "s1" 7 "shell" "true" "" 0 0 0 1 "" "".
Definition a_pick : row_writer := Picking any_worker some_request.

(** The goroutines take their accesses in this order. *)
Definition race_run : list nat -> conf (@World test_backend) row_writer -> conf (@World test_backend) row_writer :=
  @scheduled _ _ (@goroutine_threads _ _ _ (@row_writers test_backend (answering 200))).
Definition races (allowed : World -> row_writer -> Prop) : conf (@World test_backend) row_writer -> conf (@World test_backend) row_writer -> Prop :=
  @race_step test_backend (answering 200) allowed.

Definition quick (g : row_writer) : Prop := match g with Beating _ | Stamping _ _ | Registering _ => False | _ => True end.

Lemma race_from gs ids : Forall quick gs ->
  rtc (races modest) (start_all one_slot gs) (race_run ids (start_all one_slot gs)).
Proof.
  intros Hq. apply (scheduled_guarded _ _ modest quick); [|by apply start_all_Forall]. intros g w Hg. split; [by destruct g|].
  destruct g as [opts q|opts q ws|q x|q x|x|req|x|req|req x|req|timeout|[|x ws]|]; try done;
    unfold thread_step, goroutine_threads; cbn [thread_code row_writers next];
    unfold bind, attempt, ret, fail; repeat case_match; simplify_eq; done.
Qed.

(** Two picks that list the workers before either writes both get the last slot: two
    dispatches will go to a worker with room for one, and its row says that it is just full. *)
Theorem picks_overbook : exists c' b, rtc (races modest) (start_all one_slot [a_pick; a_pick]) c' /\
  c_threads c' !! 0%nat = Some (Holding some_request b) /\ c_threads c' !! 1%nat = Some (Holding some_request b) /\ worker_ID b = "a" /\
  (worker_CurrentLoad <$> ws_workers (w_workers one_slot) !! "a") = Some 1 /\
  ((fun x => (worker_CurrentLoad x, worker_MaxConcurrency x)) <$> ws_workers (w_workers (c_world c')) !! "a") = Some (2, 2).
Proof.
  eexists (race_run [0; 1; 0; 1; 0; 1]%nat _), _. split; [by apply race_from; repeat constructor|].
  vm_compute. split_and!; reflexivity.
Qed.

(** A pick that read the workers before an eviction writes the evicted worker back: it is
    online again, with its old heartbeat and a load. *)
Theorem eviction_undone : exists c', rtc (races modest) (start_all one_slot [a_pick; Evicting (- Second)]) c' /\
  c_threads c' !! 1%nat = Some (Clearing []) /\
  ((fun x => (worker_Status x, worker_CurrentLoad x)) <$> ws_workers (w_workers (c_world c')) !! "a") = Some ("online", 2).
Proof.
  exists (race_run [0; 0; 1; 1; 0]%nat (start_all one_slot [a_pick; Evicting (- Second)])). split; [by apply race_from; repeat constructor|].
  vm_compute. split_and!; reflexivity.
Qed.

Lemma loads_bounded_witness : exists c', rtc (races modest) (start_all one_slot [a_pick; Evicting (- Second)]) c' /\
  c_threads c' !! 1%nat = Some (Clearing []) /\
  map_Forall (fun _ x => 0 <= worker_CurrentLoad x <= worker_MaxConcurrency x) (ws_workers (w_workers (c_world c'))).
Proof.
  set (c := start_all one_slot [a_pick; Evicting (- Second)]). exists (race_run [0; 0; 1; 1; 0]%nat c).
  assert (rtc (races modest) c (race_run [0; 0; 1; 1; 0]%nat c)) as Hs by (apply race_from; repeat constructor).
  split; [exact Hs|]. split; [vm_compute; reflexivity|].
  apply (@loads_bounded test_backend test_backend_contract (answering 200) c).
  - split; [apply world_with_inv|]. unfold loads_ok. change (map_Forall (fun _ x => load_ok x) (ws_workers (w_workers one_slot))).
    apply map_Forall_insert_2; [split; simpl; lia|apply map_Forall_empty].
  - apply start_all_Forall. repeat constructor.
  - exact Hs.
Defined.
