(* ===== verification/Alive.v ===== *)
(** Whether a worker that lives stays online: its heartbeats (service/worker_service.go)
    against the health checker (scheduler/health/checker.go) and the other handlers that
    write its row, interleaved as in Race.v. *)
From S2P Require Import Prelude Threads GoStd GoTime Ticker Model Labels Repo RateLimit TestStore World Sample Http Dispatch Router.
From S2P Require Import Lifecycle Balance Runtime WorkerService Race.

#[local] Open Scope prog_scope.

Section Alive.
Context `{BackendSpec} `{Env}.
Variable id : string.

(** The row of the worker is online with a heartbeat of [T] or later; nothing is said of
    the other rows. *)
Definition beats_since (T : Time) (x : WorkerNode) : Prop :=
  worker_ID x = id -> worker_Status x = "online" /\ T <= worker_LastHeartbeatAt x.
Definition fresh (T : Time) (w : World) : Prop := all_rows (beats_since T) w /\ is_Some (workers_of (w_workers w) !! id).

(** The copies of the goroutines are as new, and none is about to take it offline. *)
Definition holds_fresh (T : Time) (g : row_writer) : Prop :=
  match g with Clearing ws => Forall (fun x => worker_ID x <> id) ws | _ => copies (beats_since T) g end.

(** What the theorem asks of time: a heartbeat that is stored carries a time of the worker's
    clock no earlier than [T] (so the worker's clock does not go back, and a slow old
    heartbeat is not stored after a newer one); a registration of the worker is stamped with
    a time of the scheduler's clock no earlier than [T] (so a worker whose clock is ahead of
    the scheduler's does not register again while its last heartbeat is in the scheduler's
    future); and the checker does not look later than its timeout after [T]. *)
Definition timely (T : Time) (w : World) (g : row_writer) : Prop :=
  match g with
  | Stamping req x => worker_ID x = id -> T <= (if hb_ReportUnixMilli req <=? 0 then clock (w_reads w) else UnixMilli (hb_ReportUnixMilli req))
  | Registering req => reg_WorkerID req = id -> T <= clock (w_reads w)
  | Evicting timeout => clock (w_reads w) - timeout <= T
  | _ => True
  end.

Definition current (T : Time) (c : conf World row_writer) : Prop :=
  fresh T (c_world c) /\ map_Forall (fun _ => holds_fresh T) (c_threads c).

(** The goroutines go on; or a newer heartbeat has been stored, and no goroutine holds a copy
    of the row from before it. *)
Definition counts (T : Time) (c : conf World row_writer) : Prop :=
  (exists x, workers_of (w_workers (c_world c)) !! id = Some x /\ T <= worker_LastHeartbeatAt x) /\
  map_Forall (fun _ => holds_fresh T) (c_threads c).
Definition alive_step (p p' : Time * conf World row_writer) : Prop :=
  p'.1 = p.1 /\ race_step (timely p.1) p.2 p'.2 \/ p'.2 = p.2 /\ p.1 <= p'.1 /\ counts p'.1 p.2.

Lemma fresh_untouched {A} T (m : M A) : moves workers_untouched m -> gives (fresh T) (fun _ => True) m.
Proof. intros Hm. apply gives_any. intros w Hw. unfold fresh, all_rows. by rewrite (Hm w). Qed.

Lemma fresh_read {A} T (Q : A -> Prop) (m : M A) : gives (all_rows (beats_since T)) Q m -> moves workers_untouched m -> gives (fresh T) Q m.
Proof.
  intros Hg Hm w [Hw Hid]. destruct (Hg w Hw) as [Hr Hq]. split; [|done]. split; [done|]. by rewrite (Hm w).
Qed.

Lemma fresh_upsert T x : zero_time < T -> beats_since T x -> gives (fresh T) (fun _ => True) (upsert x).
Proof.
  intros HT Hx. apply gives_any. intros w [[Hi Hr] Hid]. unfold upsert, worker_op. destruct (UpsertWorker _ _ _) as [s [u|e]] eqn:E; simpl.
  - destruct (UpsertWorker_ok _ _ _ _ _ Hi E) as [Hi' Hm]. unfold fresh, all_rows. simpl. rewrite Hm. split; [split; [done|]|].
    + apply map_Forall_insert_2; [|done]. unfold beats_since, stamped, IsZero in *. destruct (Z.eqb_spec (worker_LastHeartbeatAt x) zero_time); [|done].
      simpl. intros Hxid. destruct (Hx Hxid). lia.
    + destruct (decide (worker_ID x = id)) as [->|]; [rewrite lookup_insert_eq; by eexists|by rewrite lookup_insert_ne].
  - destruct (UpsertWorker_err _ _ _ _ _ Hi E) as (Hi' & Hm). unfold fresh, all_rows. simpl. by rewrite Hm.
Qed.

(** An error ends a goroutine, so what matters is what a step gives when it succeeds. *)
Definition stays (T : Time) (w : World) (m : M row_writer) : Prop :=
  fresh T (m w).1 /\ forall g, (m w).2 = Ok g -> holds_fresh T g.

Lemma stays_gives T w m : gives (fresh T) (holds_fresh T) m -> fresh T w -> stays T w m.
Proof. intros Hm Hw. by apply Hm. Qed.

(** After something that only reads. *)
Lemma stays_bind {A} T w w' (m : M A) k a : m w = (w', Ok a) -> stays T w' (k a) -> stays T w (bind m k).
Proof. intros Hm. unfold stays, bind. by rewrite Hm. Qed.

Lemma fresh_same T w w' : w_workers w' = w_workers w -> fresh T w -> fresh T w'.
Proof. unfold fresh, all_rows. by intros ->. Qed.

Lemma stays_evicting T w timeout : fresh T w -> clock (w_reads w) - timeout <= T -> stays T w (next (Evicting timeout)).
Proof.
  intros Hw Hc. unfold stays, next, bind, Now, worker_query, reads_res. cbn [fst snd w_workers set_w_reads].
  pose proof Hw as [[Hi Hr] _]. destruct (ListStaleWorkers _ _) as [ws|e] eqn:E; (split; [done|]); [|done].
  intros g [= <-]. cbn [holds_fresh]. apply Forall_forall. intros x Hx Hxid.
  destruct (ListStaleWorkers_ok _ _ _ Hi E) as [_ Hws]. apply Hws in Hx as [[_ Hold] [k Hk]]. destruct (Hr _ _ Hk Hxid) as [_ Hb].
  unfold Before in Hold. lia.
Qed.

Lemma stays_stamping T w req x : zero_time < T -> fresh T w -> beats_since T x ->
  timely T w (Stamping req x) -> stays T w (next (Stamping req x)).
Proof.
  intros HT Hw Hx Ht. cbn [timely] in Ht. cbn [next].
  assert (exists w', heartbeatTime (hb_ReportUnixMilli req) w = (w', Ok (if hb_ReportUnixMilli req <=? 0 then clock (w_reads w) else UnixMilli (hb_ReportUnixMilli req))) /\
    w_workers w' = w_workers w) as (w' & Hr & Hw') by (unfold heartbeatTime; case_match; by eexists).
  eapply stays_bind; [exact Hr|]. apply stays_gives; [|by apply (fresh_same T w)].
  eapply gives_bind; [|intros _ _; by apply gives_ret]. apply fresh_upsert; [done|]. intros Hid. split; [done|]. by apply Ht.
Qed.

Lemma stays_registering T w req : zero_time < T -> fresh T w -> timely T w (Registering req) -> stays T w (next (Registering req)).
Proof.
  intros HT Hw Ht. cbn [timely] in Ht. cbn [next]. unfold RegisterWorker.
  case_bool_decide; [by apply (stays_gives T w (fail _)), Hw; apply gives_fail|]. case_bool_decide; [by apply (stays_gives T w (fail _)), Hw; apply gives_fail|].
  change (stays T w (now <- Now ;; ((upsert (registered req now) ;; worker_query (GetWorker (reg_WorkerID req))) ;; ret Ended))).
  eapply stays_bind; [done|].
  apply stays_gives; [|by apply (fresh_same T w)]. eapply gives_bind; [eapply gives_bind|intros _ _; by apply gives_ret].
  - apply fresh_upsert; [done|]. intros Hid. split; [done|]. by apply Ht.
  - intros _ _. apply gives_any. by intros.
Qed.

(** Every access keeps the worker online. *)
Lemma next_stays T g w : zero_time < T -> fresh T w -> holds_fresh T g -> timely T w g -> stays T w (next g).
Proof.
  intros HT Hw Hg Ht.
  destruct g as [opts q|opts q ws|q x|q x|x|req|x|req|req x|req|timeout|[|x ws]|]; cbn [holds_fresh copies] in Hg;
    [..|by apply stays_stamping|by apply stays_registering|by apply stays_evicting| | |];
    apply stays_gives; try exact Hw; cbn [next].
  - eapply gives_bind; [apply fresh_read; [apply gives_available|done]|]. intros ws Hws. cbv zeta. case_match; [apply gives_fail|].
    apply gives_ret. apply Forall_forall; intros x [Hx _]%filterByLabels_spec. rewrite Forall_forall in Hws. by apply Hws.
  - eapply gives_bind; [apply fresh_read; [by apply gives_choose|]|].
    + intros w0. unfold workers_untouched, choose, pickRoundRobin, bind, reads, modify, reads_res. by case_bool_decide.
    + intros best Hb. by apply gives_ret.
  - eapply gives_bind; [by apply fresh_upsert|]. intros _ _. by apply gives_ret.
  - eapply gives_attempt; [apply fresh_untouched, untouched_Dispatch|]. intros [u|e] _; by apply gives_ret.
  - eapply gives_attempt; [apply fresh_upsert; [done|by case_match]|]. intros _ _. by apply gives_ret.
  - case_bool_decide; [by apply gives_ret|]. eapply gives_attempt; [apply fresh_read; [apply gives_get|done]|].
    intros [x|e] Hx; apply gives_ret; [|done]. specialize (Hx x eq_refl). cbn [holds_fresh copies]. by case_match.
  - eapply gives_attempt; [by apply fresh_upsert|]. intros _ _. by apply gives_ret.
  - case_bool_decide; [apply gives_fail|]. eapply gives_bind; [apply fresh_read; [apply gives_get|done]|]. intros x Hx. by apply gives_ret.
  - by apply gives_ret.
  - apply Forall_cons in Hg as [Hx Hws]. eapply gives_bind; [apply fresh_upsert; [done|by intros ?]|]. intros _ _. by apply gives_ret.
  - by apply gives_ret.
Qed.

Lemma current_step T c c' : zero_time < T -> current T c -> race_step (timely T) c c' -> current T c'.
Proof.
  intros HT [Hw Hc] Hs. apply (guarded_relates_step (fun g => starts g = true) workers_untouched (timely T) (fresh T) (fun _ => holds_fresh T) c c'); try done.
  - by intros w [].
  - intros w w' Hw0 Hu. split; [by apply (fresh_same T w)|done].
  - intros g w w' g' Hw0 Hg Ht. destruct (next_stays T g w HT Hw0 Hg Ht) as [Hf Hn].
    revert Hf Hn. unfold thread_step, goroutine_threads. cbn [thread_code row_writers].
    destruct (next g w) as [w1 [g1|e]]; intros Hf Hn [= <- <-]; split_and!; try done. by apply Hn.
Qed.

Lemma current_renewed T T' c : current T c -> counts T' c -> current T' c.
Proof.
  intros [[[Hi Hr] Hid] _] [(x & Hx & Hb) Hc]. split; [|done]. split; [|done]. split; [done|]. intros k y Hy Hyid.
  assert (k = id) as -> by (rewrite <- Hyid; symmetry; by eapply workers_inv_id). rewrite Hx in Hy. injection Hy as <-.
  by destruct (Hr _ _ Hx Hyid).
Qed.

(** C7. A worker that lives stays online: however the handlers that write rows of workers
    are interleaved over the in-memory repositories or others with their contract, and
    whatever statement fails, its row is there and online with a heartbeat at least as new
    as [T], the last one that counts, provided that, at every step ([timely]), a heartbeat of
    the worker that is stored and a registration of it are dated [T] or later, and the
    health checker does not look later than its timeout after [T]. A heartbeat counts from
    when it is stored, if no handler holds a copy of the row from before it. The proviso on
    dates excludes clocks that disagree: [late_clock] shows what they do. *)
Theorem stays_online p p' : zero_time < p.1 -> current p.1 p.2 -> rtc alive_step p p' ->
  exists x, workers_of (w_workers (c_world p'.2)) !! id = Some x /\ worker_Status x = "online" /\
    p.1 <= p'.1 <= worker_LastHeartbeatAt x.
Proof.
  intros HT Hc Hs. enough (p.1 <= p'.1 /\ current p'.1 p'.2) as [Hle [[[Hi Hr] [x Hx]] _]].
  { exists x. split; [done|]. destruct (Hr _ _ Hx (workers_inv_id _ _ _ Hi Hx)). by split_and!. }
  induction Hs as [p|p p1 p' Hs _ IH]; [done|]. destruct Hs as [[HT1 Hs]|(Hc1 & Hle & Hc')].
  - rewrite <- HT1 in *. apply IH; [done|]. eapply current_step; [done| |exact Hs]. by rewrite HT1 in *.
  - destruct IH as [? ?]; [lia|rewrite Hc1; by eapply current_renewed|]. split; [lia|done].
Qed.
End Alive.

(** ** On concrete workers *)

(** Worker [a] was last heard of [age] ago. *)
Definition heard (age : Duration) : @World test_backend :=
  world_with [] [] [set_worker_LastHeartbeatAt (start_time - age) (worker_named "a" 0)].
Definition beat_of_a (at_ : Time) : WorkerHeartbeatRequest := mkHeartbeat "a" 0 0 (at_ / Millisecond).
Definition row_a (c : conf (@World test_backend) row_writer) : option (string * Time) :=
  (fun x => (worker_Status x, worker_LastHeartbeatAt x)) <$> ws_workers (w_workers (c_world c)) !! "a".

(** A pick that read the row before a heartbeat was stored writes the old heartbeat back,
    and the next look of the health checker takes the living worker offline. *)
Theorem heartbeat_lost : exists c1 c2,
  rtc (races (fun _ _ => True)) (start_all (heard (31 * Second)) [a_pick; Beating (beat_of_a start_time); Evicting (30 * Second)]) c1 /\
  rtc (races (fun _ _ => True)) c1 c2 /\
  row_a c1 = Some ("online", start_time) /\ c_threads c1 !! 1%nat = Some Ended /\
  row_a c2 = Some ("offline", start_time - 31 * Second).
Proof.
  set (c := start_all (heard (31 * Second)) [a_pick; Beating (beat_of_a start_time); Evicting (30 * Second)]).
  exists (race_run [0; 1; 1]%nat c), (race_run [0; 0; 2; 2]%nat (race_run [0; 1; 1]%nat c)).
  split; [apply scheduled_steps|]. split; [apply scheduled_steps|]. vm_compute. by split_and!.
Qed.

(** The heartbeat is dated by the worker and compared with the scheduler's clock: a worker
    whose clock is more than the timeout behind goes offline right after each heartbeat. *)
Example late_clock : row_a (race_run [0; 0; 1; 1]%nat (start_all (heard 0) [Beating (beat_of_a (start_time - 31 * Second)); Evicting (30 * Second)])) =
  Some ("offline", start_time - 31 * Second).
Proof. vm_compute. reflexivity. Qed.

Definition alive_a : Time * conf (@World test_backend) row_writer -> Time * conf (@World test_backend) row_writer -> Prop :=
  @alive_step test_backend test_backend_contract (answering 200) "a".

Lemma alive_runs n g T c p' : c_threads c !! n = Some g -> @timely test_backend (answering 200) "a" T (c_world c) g ->
  rtc alive_a (T, race_run [n] c) p' -> rtc alive_a (T, c) p'.
Proof.
  intros Hg Ht. apply rtc_l. left. split; [done|]. unfold race_run, scheduled. cbn [foldl snd]. rewrite Hg.
  destruct (thread_step g (c_world c)) as [w' g'] eqn:Hx. by eapply TRun.
Qed.

(** The worker was heard of 25 seconds ago; its next heartbeat is stored, and 10 seconds
    later than the old one would have allowed the checker still finds it alive. *)
Lemma stays_online_witness : exists p' x, rtc alive_a (start_time - 25 * Second, start_all (heard (25 * Second)) [Beating (beat_of_a start_time); Evicting (15 * Second)]) p' /\
  c_threads p'.2 !! 1%nat = Some (Clearing []) /\
  ws_workers (w_workers (c_world p'.2)) !! "a" = Some x /\ worker_Status x = "online" /\ start_time <= worker_LastHeartbeatAt x.
Proof.
  set (c := start_all (heard (25 * Second)) [Beating (beat_of_a start_time); Evicting (15 * Second)]).
  set (c2 := race_run [0; 0]%nat c). set (p' := (start_time, race_run [1]%nat c2)).
  assert (rtc alive_a (start_time - 25 * Second, c) p') as Hs.
  { eapply (alive_runs 0); [vm_compute; reflexivity|done|]. eapply (alive_runs 0); [vm_compute; reflexivity|intros _; vm_compute; congruence|].
    eapply (rtc_l _ _ (start_time, c2)).
    { right. split; [done|]. split; [vm_compute; congruence|]. split; [eexists; split; vm_compute; [reflexivity|congruence]|].
      cbn [snd fst]. change (race_run [0%nat] (race_run [0%nat] c)) with c2. replace (c_threads c2) with (<[0%nat := Ended]> (<[1%nat := Evicting (15 * Second)]> (∅ : gmap nat row_writer))) by (vm_compute; reflexivity).
      repeat apply map_Forall_insert_2; [done..|apply map_Forall_empty]. }
    eapply (alive_runs 1); [vm_compute; reflexivity|vm_compute; congruence|]. constructor. }
  destruct (@stays_online test_backend test_backend_contract test_backend_spec (answering 200) "a" (start_time - 25 * Second, c) p')
    as (x & Hx & Hon & Hb); [vm_compute; reflexivity| |exact Hs|].
  - split; [split; [split|]|].
    + apply world_with_inv.
    + apply map_Forall_insert_2; [|apply map_Forall_empty]. split; [done|]. vm_compute. congruence.
    + by eexists.
    + apply start_all_Forall. repeat constructor.
  - exists p', x. split; [exact Hs|]. split; [vm_compute; reflexivity|]. split; [exact Hx|]. split; [exact Hon|exact (proj2 Hb)].
Defined.
