(* ===== verification/Wire.v ===== *)
(** internal/worker/heartbeat_client.go and report_client.go with the two front ends of the
    scheduler they call (handler/worker_handler.go, handler/task_runtime_handler.go,
    scheduler/grpcserver), and what cmd/worker/main.go sends through them: registrations,
    heartbeats and reports as JSON over HTTP or as gRPC messages. *)
From S2P Require Import Prelude GoStd GoTime GoFormat Json Labels Model Repo TestStore World Sample Http Config.
From S2P Require Import Dispatch Router Lifecycle Runtime WorkerService.

#[local] Open Scope prog_scope.

(** ** The bodies *)

Definition registration_json (q : WorkerRegistrationRequest) : jvalue :=
  JObject [("worker_id", JString (reg_WorkerID q)); ("hostname", JString (reg_Hostname q)); ("ip", JString (reg_IP q));
           ("callback_url", JString (reg_CallbackURL q)); ("grpc_addr", JString (reg_GRPCAddr q));
           ("protocol", JString (reg_Protocol q)); ("max_concurrency", JNumber (fmt_d (reg_MaxConcurrency q)));
           ("labels", labels_json (reg_Labels q))].

Definition into_labels (v : jvalue) (old : gmap string string) : option (gmap string string) :=
  match v with JObject ms => fill ms old | JNull => Some ∅ | _ => None end.

Definition set_registration (q : WorkerRegistrationRequest) (kv : string * jvalue) : option WorkerRegistrationRequest :=
  let '(mkRegistration a b c d e f g h) := q in
  let k := foldName kv.1 in let v := kv.2 in
  if bool_decide (k = "worker_id") then x ← into_string v a; Some (mkRegistration x b c d e f g h)
  else if bool_decide (k = "hostname") then x ← into_string v b; Some (mkRegistration a x c d e f g h)
  else if bool_decide (k = "ip") then x ← into_string v c; Some (mkRegistration a b x d e f g h)
  else if bool_decide (k = "callback_url") then x ← into_string v d; Some (mkRegistration a b c x e f g h)
  else if bool_decide (k = "grpc_addr") then x ← into_string v e; Some (mkRegistration a b c d x f g h)
  else if bool_decide (k = "protocol") then x ← into_string v f; Some (mkRegistration a b c d e x g h)
  else if bool_decide (k = "max_concurrency") then x ← into_int v g; Some (mkRegistration a b c d e f x h)
  else if bool_decide (k = "labels") then x ← into_labels v h; Some (mkRegistration a b c d e f g x)
  else Some q.

Definition heartbeat_json (q : WorkerHeartbeatRequest) : jvalue :=
  JObject [("worker_id", JString (hb_WorkerID q)); ("current_load", JNumber (fmt_d (hb_CurrentLoad q)));
           ("running_tasks", JNumber (fmt_d (hb_RunningTasks q))); ("report_unix_milli", JNumber (fmt_d (hb_ReportUnixMilli q)))].

Definition set_heartbeat (q : WorkerHeartbeatRequest) (kv : string * jvalue) : option WorkerHeartbeatRequest :=
  let '(mkHeartbeat a b c d) := q in
  let k := foldName kv.1 in let v := kv.2 in
  if bool_decide (k = "worker_id") then x ← into_string v a; Some (mkHeartbeat x b c d)
  else if bool_decide (k = "current_load") then x ← into_int v b; Some (mkHeartbeat a x c d)
  else if bool_decide (k = "running_tasks") then x ← into_int v c; Some (mkHeartbeat a b x d)
  else if bool_decide (k = "report_unix_milli") then x ← into_int v d; Some (mkHeartbeat a b c x)
  else Some q.

(** [omitempty] *)
Definition omit_empty (name s : string) : list (string * jvalue) := if bool_decide (s = "") then [] else [(name, JString s)].

Definition report_json (q : TaskStatusReportRequest) : jvalue :=
  JObject ([("schedule_instance_id", JString (rep_ScheduleInstanceID q)); ("worker_id", JString (rep_WorkerID q));
            ("status", JString (rep_Status q)); ("error_code", JString (rep_ErrorCode q)); ("error_message", JString (rep_ErrorMessage q))]
           ++ omit_empty "started_at" (rep_StartedAt q) ++ omit_empty "finished_at" (rep_FinishedAt q)).

Definition set_report (q : TaskStatusReportRequest) (kv : string * jvalue) : option TaskStatusReportRequest :=
  let '(mkReport a b c d e f g) := q in
  let k := foldName kv.1 in let v := kv.2 in
  if bool_decide (k = "schedule_instance_id") then x ← into_string v a; Some (mkReport x b c d e f g)
  else if bool_decide (k = "worker_id") then x ← into_string v b; Some (mkReport a x c d e f g)
  else if bool_decide (k = "status") then x ← into_string v c; Some (mkReport a b x d e f g)
  else if bool_decide (k = "error_code") then x ← into_string v d; Some (mkReport a b c x e f g)
  else if bool_decide (k = "error_message") then x ← into_string v e; Some (mkReport a b c d x f g)
  else if bool_decide (k = "started_at") then x ← into_string v f; Some (mkReport a b c d e x g)
  else if bool_decide (k = "finished_at") then x ← into_string v g; Some (mkReport a b c d e f x)
  else Some q.

(** A request that travels as JSON: how it is written, how a member is read, and the zero
    value a handler decodes into. *)
Class Body (A : Type) := {
  body_json : A -> jvalue;
  set_member : A -> string * jvalue -> option A;
  zero_body : A
}.

#[export] Instance registration_body : Body WorkerRegistrationRequest :=
  {| body_json := registration_json; set_member := set_registration; zero_body := mkRegistration "" "" "" "" "" "" 0 ∅ |}.
#[export] Instance heartbeat_body : Body WorkerHeartbeatRequest :=
  {| body_json := heartbeat_json; set_member := set_heartbeat; zero_body := mkHeartbeat "" 0 0 0 |}.
#[export] Instance report_body : Body TaskStatusReportRequest :=
  {| body_json := report_json; set_member := set_report; zero_body := mkReport "" "" "" "" "" "" "" |}.

(** [json.Marshal(req)], and what a handler reads with
    [json.NewDecoder(r.Body).Decode(&req)]. *)
Definition encode_body {A} `{Body A} (q : A) : string := Marshal (body_json q).
Definition decode_body {A} `{Body A} (text : string) : option A := v ← Unmarshal text; into_struct set_member v zero_body.

(** ** The clients, connected to the scheduler *)

(** What the network makes of a call: the request is lost, the answer is lost, or both
    arrive. *)
Inductive delivery :=
| NotSent (e : gerror)
| NoAnswer (e : gerror)
| Delivered.

Record HeartbeatClient := mkHeartbeatClient { hc_baseURL : string; hc_protocol : string; hc_controlClient : bool }.

(** [strings.ToLower], for comparison with a word of ASCII letters. *)
Definition to_lower : string -> string := map_bytes lower_byte.

(** [dialled]: [grpc.Dial] returned a connection. *)
Definition NewHeartbeatClient (baseURL protocol : string) (dialled : bool) : HeartbeatClient :=
  let protocol := to_lower (TrimSpace protocol) in
  mkHeartbeatClient baseURL protocol (bool_decide (protocol = "grpc") && dialled).

(** A call of a server, and what the caller learns. *)
Definition call {St A} (net : delivery) (serve : prog St gerror A) : prog St gerror A :=
  match net with
  | NotSent e => fail e
  | NoAnswer e => _ignore serve ;; fail e
  | Delivered => serve
  end.

Section Clients.
Context `{Backend} `{Env}.

(** [HeartbeatClient.post] and [ReportClient.reportHTTP]: a status from 300 on is an
    error. *)
Definition post {A} (sending status : string) (bad_url : option gerror) (net : delivery) (handle : M (reply A)) : M unit :=
  match bad_url with
  | Some e => fail e
  | None =>
      r <-? call net handle ;;
      match r with
      | Err e => fail (Wrap sending e)
      | Ok a => if 300 <=? status_of a then fail (Errorf status [fmt_d (status_of a)]) else ret tt
      end
  end.

Definition post_scheduler {A} (c : HeartbeatClient) (path : string) : delivery -> M (reply A) -> M unit :=
  post "send request" "unexpected scheduler status: %s" (Wrap "build request" <$> http_new_request (hc_baseURL c +:+ path)).

Definition no_control_client : gerror := Errorf "grpc control client is not initialized" [].

Definition registerGRPC (c : HeartbeatClient) (net : delivery) (q : WorkerRegistrationRequest) : M unit :=
  if negb (hc_controlClient c) then fail no_control_client else
  let pb := mkRegistration (reg_WorkerID q) (reg_Hostname q) (reg_IP q) (reg_CallbackURL q) (reg_GRPCAddr q) (reg_Protocol q)
              (wrap32 (reg_MaxConcurrency q)) (reg_Labels q) in
  r <- call net (grpc_RegisterWorker pb) ;;
  if negb r.1 then fail (Errorf "grpc register worker rejected: %s" [r.2]) else ret tt.

Definition heartbeatGRPC (c : HeartbeatClient) (net : delivery) (q : WorkerHeartbeatRequest) : M unit :=
  if negb (hc_controlClient c) then fail no_control_client else
  let pb := mkHeartbeat (hb_WorkerID q) (wrap32 (hb_CurrentLoad q)) (wrap32 (hb_RunningTasks q)) (hb_ReportUnixMilli q) in
  ok <- call net (grpc_Heartbeat pb) ;;
  if negb ok then fail (Errorf "grpc heartbeat rejected" []) else ret tt.

Definition client_Register (c : HeartbeatClient) (net : delivery) (q : WorkerRegistrationRequest) : M unit :=
  if bool_decide (hc_protocol c = "grpc") then registerGRPC c net q
  else post_scheduler c "/api/v1/workers/register" net
         (handle_Register "POST" (decode_body (encode_body q))).

Definition client_Heartbeat (c : HeartbeatClient) (net : delivery) (q : WorkerHeartbeatRequest) : M unit :=
  if bool_decide (hc_protocol c = "grpc") then heartbeatGRPC c net q
  else post_scheduler c "/api/v1/workers/heartbeat" net
         (handle_Heartbeat "POST" (decode_body (encode_body q))).

(** The report client, with the URL the task came with. *)
Record ReportClient := mkReportClient { rc_protocol : string; rc_controlClient : bool }.
Definition NewReportClient (protocol : string) (dialled : bool) : ReportClient :=
  let protocol := to_lower (TrimSpace protocol) in mkReportClient protocol (bool_decide (protocol = "grpc") && dialled).

Definition client_Report (c : ReportClient) (net : delivery) (schedulerURL : string) (q : TaskStatusReportRequest) : M unit :=
  if bool_decide (rc_protocol c = "grpc") then
    if negb (rc_controlClient c) then fail no_control_client else
    ok <- call net (grpc_ReportTaskStatus q) ;;
    if negb ok then fail (Errorf "grpc status report rejected" []) else ret tt
  else post "send status report" "scheduler returned status %s"
         (Wrap "build status report request" <$> http_new_request (Dispatch.trim_slashes schedulerURL +:+ "/api/v1/task-instances/report")) net
         (handle_Report "POST" (decode_body (encode_body q))).

(** The acknowledgement of a task. The scheduler only logs it, over gRPC with a success,
    over HTTP it answers 200 to whatever was sent, and the client does not look at the
    status. *)
Definition grpc_AckTask (sid workerID : string) : M bool := ret true.
Definition handle_Ack : M (reply unit) := ret (Answer 200 tt).
Definition client_Ack (c : ReportClient) (net : delivery) (schedulerURL sid workerID : string) : M unit :=
  if bool_decide (rc_protocol c = "grpc") && rc_controlClient c then
    ok <- call net (grpc_AckTask sid workerID) ;;
    if negb ok then fail (Errorf "grpc ack rejected" []) else ret tt
  else match http_new_request (Dispatch.trim_slashes schedulerURL +:+ "/api/v1/task-instances/ack") with
       | Some e => fail e
       | None => r <-? call net handle_Ack ;; match r with Err e => fail e | Ok _ => ret tt end
       end.

(** A log line of a task: sent over gRPC only, where the scheduler logs it. *)
Definition grpc_ReportTaskLog (sid workerID level message : string) (seconds : Z) : M bool := ret true.
Definition client_ReportLog (c : ReportClient) (net : delivery) (sid workerID level message : string) (now : Time) : M unit :=
  if bool_decide (rc_protocol c = "grpc") && rc_controlClient c
  then _ <- call net (grpc_ReportTaskLog sid workerID level message (now / Second)) ;; ret tt
  else ret tt.
End Clients.

(** ** cmd/worker *)

(** The id of a worker, its registration, and its heartbeat with [running] tasks. *)
Definition worker_id (env : string -> string) (hostname : string) (cfg : Config) : string :=
  if bool_decide (env "WORKER_ID" = "") then hostname +:+ HTTPAddr cfg else env "WORKER_ID".
Definition worker_registration (env : string -> string) (hostname : string) (cfg : Config) : WorkerRegistrationRequest :=
  mkRegistration (worker_id env hostname cfg) hostname "127.0.0.1" ("http://127.0.0.1" +:+ HTTPAddr cfg) ("127.0.0.1" +:+ GRPCAddr cfg)
    (InternalProtocol cfg) 100 {["env" := "local"; "zone" := "dev"]}.
Definition worker_heartbeat (id : string) (running : Z) (now : Time) : WorkerHeartbeatRequest :=
  mkHeartbeat id running running (now / Millisecond).

(** ** Decoding what was encoded *)

(** What the encoding keeps apart: valid text and integers that fit. *)
Class BodyLaws (A : Type) `{Body A} := {
  valid_body : A -> Prop;
  decode_encode q : valid_body q -> decode_body (encode_body q) = Some q
}.

Definition valid_registration (q : WorkerRegistrationRequest) : Prop :=
  Forall valid_utf8 [reg_WorkerID q; reg_Hostname q; reg_IP q; reg_CallbackURL q; reg_GRPCAddr q; reg_Protocol q] /\
  int64 (reg_MaxConcurrency q) /\ map_Forall (fun k v => valid_item (k, v)) (reg_Labels q).
Definition valid_heartbeat (q : WorkerHeartbeatRequest) : Prop :=
  valid_utf8 (hb_WorkerID q) /\ int64 (hb_CurrentLoad q) /\ int64 (hb_RunningTasks q) /\ int64 (hb_ReportUnixMilli q).
Definition valid_report (q : TaskStatusReportRequest) : Prop :=
  Forall valid_utf8 [rep_ScheduleInstanceID q; rep_WorkerID q; rep_Status q; rep_ErrorCode q; rep_ErrorMessage q; rep_StartedAt q; rep_FinishedAt q].

Lemma decode_struct {A} `{Body A} (q : A) : wf_value (body_json q) -> (nesting (body_json q) <= 4)%nat ->
  decode_body (encode_body q) = into_struct set_member (body_json q) zero_body.
Proof.
  intros Hw Hn. unfold decode_body, encode_body. rewrite Unmarshal_Marshal; [done..|].
  assert (exists d, max_nesting = (4 + d)%nat) as [d ->] by (by exists (max_nesting - 4)%nat). lia.
Qed.

(** Decoding runs by computation up to the integers. *)
Ltac decode_fields := repeat (lazy -[Atoi fmt_d fill]; rewrite ?Atoi_fmt_d by done); lazy -[Atoi fmt_d fill].

#[export, refine] Instance heartbeat_laws : BodyLaws WorkerHeartbeatRequest := {| valid_body := valid_heartbeat |}.
Proof.
  intros [a b c d] (Hs & H1 & H2 & H3). simpl in *. rewrite decode_struct.
  - decode_fields. done.
  - simpl. split_and!; try done; apply fmt_d_number.
  - simpl. lia.
Defined.

#[export, refine] Instance report_laws : BodyLaws TaskStatusReportRequest := {| valid_body := valid_report |}.
Proof.
  intros [a b c d e f g] Hs. unfold valid_report in Hs. rewrite !Forall_cons in Hs. destruct Hs as (?&?&?&?&?&?&?&_). simpl in *.
  rewrite decode_struct; cbn [body_json report_body]; unfold report_json, omit_empty;
    cbn [rep_ScheduleInstanceID rep_WorkerID rep_Status rep_ErrorCode rep_ErrorMessage rep_StartedAt rep_FinishedAt].
  - case_bool_decide; case_bool_decide; subst; decode_fields; done.
  - case_bool_decide; case_bool_decide; simpl; split_and!; done.
  - case_bool_decide; case_bool_decide; simpl; lia.
Defined.

#[export, refine] Instance registration_laws : BodyLaws WorkerRegistrationRequest := {| valid_body := valid_registration |}.
Proof.
  intros [a b c d e f g h] (Hs & Hm & Hl). rewrite !Forall_cons in Hs. destruct Hs as (?&?&?&?&?&?&_). simpl in *. rewrite decode_struct.
  - simpl. unfold registration_json, labels_json. cbn [reg_WorkerID reg_Hostname reg_IP reg_CallbackURL reg_GRPCAddr reg_Protocol reg_MaxConcurrency reg_Labels].
    pose proof (labels_fill h) as Hf. revert Hf. generalize (prod_map id JString <$> sorted_items h). intros items.
    decode_fields. by intros ->.
  - pose proof (labels_wf _ Hl). simpl in *. split_and!; try done; apply fmt_d_number.
  - cbn [body_json registration_body]. unfold registration_json, labels_json. pose proof (flat_depth (sorted_items h)) as Hd.
    cbn [reg_Labels] in *. revert Hd. generalize (JObject (prod_map id JString <$> sorted_items h)). intros l Hd. simpl. lia.
Defined.

(** ** The clients as the service itself *)

(** Acknowledgements and log lines leave the scheduler as it was. *)
Lemma acks_touch_nothing `{Backend} `{Env} c net url sid wid level msg now w :
  (client_Ack c net url sid wid w).1 = w /\ (client_ReportLog c net sid wid level msg now w).1 = w.
Proof. unfold client_Ack, client_ReportLog, grpc_AckTask, handle_Ack. by destruct net; repeat case_match. Qed.

Section WireProperties.
Context `{Backend} `{Env}.

(** A remote call does to the scheduler what the service does when it is called directly,
    and returns no error exactly when the service returns none. *)
Definition acts_as {A} (remote : M unit) (service : M A) : Prop :=
  forall w, (remote w).1 = (service w).1 /\ ((remote w).2 = Ok tt <-> exists a, (service w).2 = Ok a).

Lemma error_status_high bad e : 300 <= error_status bad e.
Proof. unfold error_status. repeat case_match; lia. Qed.

(** Over HTTP: a valid body, a service behind [post_json]. *)
Lemma post_acts_as {Req A} `{BodyLaws Req} sending status (q : Req) ok bad (service : Req -> M A) : ok < 300 -> valid_body q ->
  acts_as (post sending status None Delivered (post_json "POST" (decode_body (encode_body q)) ok bad service)) (service q).
Proof.
  intros Hok Hq w. unfold post, call, post_json. rewrite decode_encode by done. cbn [negb bool_decide decide_rel].
  rewrite bool_decide_eq_true_2 by done. cbn [negb]. unfold attempt, ret. destruct (service q w) as [w' [a|e]]; cbn [fst snd status_of write_error].
  - destruct (Z.leb_spec 300 ok); [lia|]. split; [done|]. split; eauto.
  - pose proof (error_status_high bad e). destruct (Z.leb_spec 300 (error_status bad e)); [|lia]. split; [done|].
    split; [done|]. by intros [a [=]].
Qed.

Lemma wrap32_id z : - 2 ^ 31 <= z < 2 ^ 31 -> wrap32 z = z.
Proof. intros Hz. unfold wrap32. rewrite Z.mod_small; lia. Qed.

(** The client has what its protocol needs: a connection, or a URL that parses. *)
Definition connected (c : HeartbeatClient) (path : string) : Prop :=
  if bool_decide (hc_protocol c = "grpc") then hc_controlClient c = true else http_new_request (hc_baseURL c +:+ path) = None.

(** The request fits its protocol: both need valid text (JSON would change other bytes,
    protobuf refuses them), and gRPC has int32 fields. *)
Definition fits {Req} `{BodyLaws Req} (c : HeartbeatClient) (int32s : list Z) (q : Req) : Prop :=
  valid_body q /\ (hc_protocol c = "grpc" -> Forall (fun z => - 2 ^ 31 <= z < 2 ^ 31) int32s).

Definition report_connected (c : ReportClient) (url : string) : Prop :=
  if bool_decide (rc_protocol c = "grpc") then rc_controlClient c = true
  else http_new_request (Dispatch.trim_slashes url +:+ "/api/v1/task-instances/report") = None.

Lemma Register_acts_as c q : connected c "/api/v1/workers/register" -> fits c [reg_MaxConcurrency q] q ->
  acts_as (client_Register c Delivered q) (RegisterWorker q).
Proof.
  unfold connected, fits, client_Register. case_bool_decide as Hp; intros Hc Hf.
  - destruct Hf as [_ Hf]. specialize (Hf Hp). rewrite Forall_singleton in Hf. unfold registerGRPC. rewrite Hc. rewrite (wrap32_id _ Hf). destruct q as [a b d e f g h l]. cbn [negb reg_WorkerID reg_Hostname reg_IP reg_CallbackURL reg_GRPCAddr reg_Protocol reg_MaxConcurrency reg_Labels].
    intros w. unfold bind, call, grpc_RegisterWorker, attempt, ret, fail. destruct (RegisterWorker _ w) as [w' [x|e']]; simpl; (split; [done|]); naive_solver.
  - unfold post_scheduler, handle_Register. rewrite Hc. by apply post_acts_as; [|apply Hf].
Qed.

Lemma Heartbeat_acts_as c q : connected c "/api/v1/workers/heartbeat" -> fits c [hb_CurrentLoad q; hb_RunningTasks q] q ->
  acts_as (client_Heartbeat c Delivered q) (Heartbeat q).
Proof.
  unfold connected, fits, client_Heartbeat. case_bool_decide as Hp; intros Hc Hf.
  - destruct Hf as [_ Hf]. specialize (Hf Hp). rewrite !Forall_cons in Hf. destruct Hf as (H1 & H2 & _). unfold heartbeatGRPC. rewrite Hc, (wrap32_id _ H1), (wrap32_id _ H2). destruct q as [a b d e]. cbn [negb hb_WorkerID hb_CurrentLoad hb_RunningTasks hb_ReportUnixMilli].
    intros w. unfold bind, call, grpc_Heartbeat, attempt, ret, fail. destruct (Heartbeat _ w) as [w' [x|e']]; simpl; (split; [done|]); naive_solver.
  - unfold post_scheduler, handle_Heartbeat. rewrite Hc. by apply post_acts_as; [|apply Hf].
Qed.

(** The report as the scheduler gets it: gRPC drops the times. *)
Definition report_received (c : ReportClient) (q : TaskStatusReportRequest) : TaskStatusReportRequest :=
  if bool_decide (rc_protocol c = "grpc") then
    mkReport (rep_ScheduleInstanceID q) (rep_WorkerID q) (rep_Status q) (rep_ErrorCode q) (rep_ErrorMessage q) "" ""
  else q.

Lemma Report_acts_as c url q : report_connected c url -> valid_report q ->
  acts_as (client_Report c Delivered url q) (ReportStatus (report_received c q)).
Proof.
  unfold report_connected, client_Report, report_received. case_bool_decide as Hp; intros Hc Hf.
  - rewrite Hc. cbn [negb]. intros w. unfold bind, call, grpc_ReportTaskStatus, attempt, ret, fail.
    destruct (ReportStatus _ w) as [w' [x|e']]; simpl; (split; [done|]); naive_solver.
  - rewrite Hc. cbn [fmap option_fmap option_map]. unfold handle_Report. by apply post_acts_as.
Qed.

(** C16. The wire is transparent for what it delivers: when the clients are connected and a
    call arrives and is answered, a registration, a heartbeat or a report in valid UTF-8,
    over HTTP or over gRPC, does to the scheduler exactly what calling the service with it
    does, and the worker sees an error exactly when the service returned one. Over gRPC the
    counters must fit an int32, and a report reaches the service without its start and
    finish times ([report_received]); over HTTP it reaches it whole. *)
Theorem wire_transparent (c : HeartbeatClient) (rc : ReportClient) url (g : WorkerRegistrationRequest) (h : WorkerHeartbeatRequest) (p : TaskStatusReportRequest) :
  connected c "/api/v1/workers/register" -> connected c "/api/v1/workers/heartbeat" -> report_connected rc url ->
  fits c [reg_MaxConcurrency g] g -> fits c [hb_CurrentLoad h; hb_RunningTasks h] h -> valid_report p ->
  acts_as (client_Register c Delivered g) (RegisterWorker g) /\
  acts_as (client_Heartbeat c Delivered h) (Heartbeat h) /\
  acts_as (client_Report rc Delivered url p) (ReportStatus (report_received rc p)).
Proof. intros. split; [by apply Register_acts_as|]. split; [by apply Heartbeat_acts_as|by apply Report_acts_as]. Qed.

(** A call that is not answered may have been carried out: the worker sees an error, and
    the scheduler is as after the call or as before. *)
Lemma unanswered {A} (net : delivery) (serve : M A) (w : World) : net <> Delivered ->
  (exists e, (call net serve w).2 = Err e) /\ ((call net serve w).1 = w \/ (call net serve w).1 = (serve w).1).
Proof.
  intros Hn. destruct net as [e|e|]; [| |done].
  - split; [by exists e|by left].
  - unfold call, attempt, fail. destruct (serve w) as [w' r]. split; [by exists e|by right].
Qed.
End WireProperties.

(** ** A worker that starts *)

Definition demo_config : Config := Default (fun _ => "") "worker".
Definition demo_registration : WorkerRegistrationRequest := worker_registration (fun _ => "") "host" demo_config.
Definition demo_heartbeat : WorkerHeartbeatRequest := worker_heartbeat "host:8081" 3 start_time.
Definition demo_report : TaskStatusReportRequest := mkReport "s-1" "host:8081" "success" "" "" "2024-05-01T10:00:00Z" "".
Definition demo_client : HeartbeatClient := NewHeartbeatClient (SchedulerURL demo_config) (InternalProtocol demo_config) false.

(** The worker of the default settings, registered and heard of once. *)
Definition joined_world : @World test_backend :=
  (@client_Heartbeat test_backend (answering 200) demo_client Delivered demo_heartbeat
    (@client_Register test_backend (answering 200) demo_client Delivered demo_registration (world_with [] [] [])).1).1.

Example joined_worker : (fun w => (worker_ID w, worker_CallbackURL w, worker_MaxConcurrency w, worker_CurrentLoad w, DecodeLabels (worker_Labels w) !! "zone")) <$>
  ws_workers (w_workers joined_world) !! "host:8081" = Some ("host:8081", "http://127.0.0.1:8081", 100, 3, Some "dev").
Proof. vm_compute. reflexivity. Qed.

(** A worker that starts with its default settings: its registration, its heartbeats and its
    reports are carried out as they are; a report that a gRPC client sends loses its times. *)
Lemma wire_transparent_witness :
  acts_as (@client_Register test_backend (answering 200) demo_client Delivered demo_registration) (@RegisterWorker test_backend (answering 200) demo_registration) /\
  acts_as (@client_Heartbeat test_backend (answering 200) demo_client Delivered demo_heartbeat) (@Heartbeat test_backend (answering 200) demo_heartbeat) /\
  acts_as (@client_Report test_backend (answering 200) (NewReportClient "http" false) Delivered "http://s/" demo_report) (@ReportStatus test_backend (answering 200) demo_report) /\
  acts_as (@client_Report test_backend (answering 200) (NewReportClient "grpc" true) Delivered "" demo_report)
    (@ReportStatus test_backend (answering 200) (mkReport "s-1" "host:8081" "success" "" "" "" "")).
Proof.
  assert (valid_registration demo_registration) as Hg.
  { split_and!; [repeat constructor|split; vm_compute; congruence|].
    intros k v Hk. change (reg_Labels demo_registration) with ({["env" := "local"; "zone" := "dev"]} : gmap string string) in Hk.
    apply lookup_insert_Some in Hk as [[<- <-]|[_ Hk]]; [by split|]. apply lookup_singleton_Some in Hk as [<- <-]. by split. }
  assert (valid_heartbeat demo_heartbeat) as Hh by (split_and!; [reflexivity|split; vm_compute; congruence..]).
  assert (valid_report demo_report) as Hp by repeat constructor.
  assert (fits demo_client [reg_MaxConcurrency demo_registration] demo_registration) as Hfg by (by split).
  assert (fits demo_client [hb_CurrentLoad demo_heartbeat; hb_RunningTasks demo_heartbeat] demo_heartbeat) as Hfh by (by split).
  destruct (@wire_transparent test_backend (answering 200) demo_client (NewReportClient "http" false) "http://s/" demo_registration demo_heartbeat demo_report
    eq_refl eq_refl eq_refl Hfg Hfh Hp) as (H1 & H2 & H3).
  destruct (@wire_transparent test_backend (answering 200) demo_client (NewReportClient "grpc" true) "" demo_registration demo_heartbeat demo_report
    eq_refl eq_refl eq_refl Hfg Hfh Hp) as (_ & _ & H4). by split_and!.
Defined.

(** A limit that does not fit an int32 arrives changed over gRPC. *)
Example grpc_truncates : wrap32 (2 ^ 32 + 5) = 5 /\ wrap32 (2 ^ 31) = - 2 ^ 31.
Proof. by vm_compute. Qed.
