(* ===== verification/InstanceService.v ===== *)
(** internal/api/service/task_instance_service.go with its HTTP front end
    (handler/task_instance_handler.go): reading instances, page by page. *)
From S2P Require Import Prelude GoStd GoTime GoFormat Model Repo RateLimit TestStore World Sample Http.

#[local] Open Scope prog_scope.

Definition ErrTaskInstanceIDRequired : gerror := Sentinel "task instance id is required".

Record ListInstancesParams := mkListParams { lp_Status : string; lp_TaskID : Z; lp_Limit : Z; lp_Offset : Z }.

Record InstanceListResult := mkListResult { ilr_Instances : list TaskInstance; ilr_Total : Z }.

(** Newest first; an offset past the end is ignored. *)
Definition paginateInstances (instances : list TaskInstance) (limit offset : Z) : list TaskInstance :=
  let instances := sort_by (fun i => - inst_ID i) instances in
  let instances := if (0 <? offset) && (offset <? Z.of_nat (length instances))
                   then drop (Z.to_nat offset) instances else instances in
  limit_to limit instances.

Section InstanceService.
Context `{Backend}.

Definition svc_GetInstance (id : Z) : M TaskInstance :=
  if id <=? 0 then fail ErrTaskInstanceIDRequired else instance_query (GetInstance id).

Definition svc_ListInstances : M (list TaskInstance) := instance_query ListInstances.

Definition ListInstancesWithParams (params : ListInstancesParams) : M InstanceListResult :=
  if 0 <? lp_TaskID params then
    instances <- instance_query (ListInstancesByTaskID (lp_TaskID params)) ;;
    let instances := if bool_decide (lp_Status params = "") then instances
                     else filter (fun i => inst_Status i = lp_Status params) instances in
    ret (mkListResult (paginateInstances instances (lp_Limit params) (lp_Offset params)) (Z.of_nat (length instances)))
  else if negb (bool_decide (lp_Status params = "")) then
    instances <- instance_query (ListInstancesByStatus (lp_Status params) (lp_Limit params)) ;;
    ret (mkListResult instances (Z.of_nat (length instances)))
  else
    all <- instance_query ListInstances ;;
    ret (mkListResult (paginateInstances all (lp_Limit params) (lp_Offset params)) (Z.of_nat (length all))).

(** The query parameters as the handler reads them. *)
Definition list_params (status limit offset taskID : string) : ListInstancesParams :=
  {| lp_Status := status;
     lp_Limit := match Atoi limit with Some v => if 0 <? v then v else 50 | None => 50 end;
     lp_Offset := match Atoi offset with Some v => if 0 <=? v then v else 0 | None => 0 end;
     lp_TaskID := match Atoi taskID with Some v => if 0 <? v then v else 0 | None => 0 end |}.

Definition handle_ListInstances (method status limit offset taskID : string) : M (reply InstanceListResult) :=
  if negb (bool_decide (method = "GET")) then ret methodNotAllowed else
  r <-? ListInstancesWithParams (list_params status limit offset taskID) ;;
  ret (match r with Ok x => Answer 200 x | Err e => Failure 500 (error_text e) end).

Definition parseTaskInstanceID (path : string) : option Z := Atoi (TrimPrefix path "/api/v1/task-instances/").

Definition handle_GetInstance (method path : string) : M (reply TaskInstance) :=
  if negb (bool_decide (method = "GET")) then ret methodNotAllowed else
  match parseTaskInstanceID path with
  | None => ret (Failure 400 "invalid task instance id")
  | Some id =>
      r <-? svc_GetInstance id ;;
      ret (match r with Ok i => Answer 200 i | Err e => write_error [ErrTaskInstanceIDRequired] e end)
  end.
End InstanceService.

(** ** Pages *)

(** Newest first. *)
Definition newest_first (xs : list TaskInstance) : list TaskInstance := sort_by (fun i => - inst_ID i) xs.

Lemma newest_first_length xs : length (newest_first xs) = length xs.
Proof. apply Permutation_length, sort_by_perm. Qed.

(** A page inside the list. *)
Lemma page_inside xs limit offset :
  0 < limit -> 0 <= offset < Z.of_nat (length xs) ->
  paginateInstances xs limit offset = take (Z.to_nat limit) (drop (Z.to_nat offset) (newest_first xs)).
Proof.
  intros Hl Ho. unfold paginateInstances. fold (newest_first xs). cbv zeta. rewrite newest_first_length.
  assert ((if (0 <? offset) && (offset <? Z.of_nat (length xs)) then drop (Z.to_nat offset) (newest_first xs)
           else newest_first xs) = drop (Z.to_nat offset) (newest_first xs)) as ->.
  { destruct (Z.ltb_spec offset (Z.of_nat (length xs))); [|lia].
    destruct (Z.ltb_spec 0 offset); [done|]. simpl. by replace (Z.to_nat offset) with O by lia. }
  unfold limit_to. destruct (Z.ltb_spec 0 limit); [|lia]. simpl.
  destruct (Z.ltb_spec limit (Z.of_nat (length (drop (Z.to_nat offset) (newest_first xs))))); [done|].
  rewrite take_ge; [done|]. lia.
Qed.

(** [n] pages from page [k] on. *)
Fixpoint pages (xs : list TaskInstance) (limit : nat) (k n : nat) : list TaskInstance :=
  match n with
  | O => []
  | S n' => paginateInstances xs (Z.of_nat limit) (Z.of_nat (k * limit)) ++ pages xs limit (S k) n'
  end.

Lemma pages_from xs limit n k :
  (0 < limit)%nat -> ((k + n - 1) * limit < length xs)%nat -> (0 < n)%nat ->
  pages xs limit k n = take (n * limit) (drop (k * limit) (newest_first xs)).
Proof.
  intros Hl. revert k. induction n as [|n IH]; intros k Hk Hn; [lia|]. cbn [pages].
  rewrite page_inside by nia. rewrite !Nat2Z.id.
  destruct n as [|n]; [cbn [pages]; rewrite app_nil_r; f_equal; lia|].
  rewrite IH by nia. replace (S k * limit)%nat with (k * limit + limit)%nat by nia. rewrite <- drop_drop.
  replace (S (S n) * limit)%nat with (limit + S n * limit)%nat by nia. by rewrite <- take_take_drop.
Qed.

(** Paging through a listing is complete: with a positive page size, the pages at
    offsets 0, limit, 2*limit, ... up to the last non-empty one, put together, are
    all the instances, newest first, each exactly once. *)
Theorem pages_cover xs limit :
  (0 < limit)%nat -> xs <> [] ->
  let all := pages xs limit 0 (S ((length xs - 1) / limit)) in
  all = newest_first xs /\ all ≡ₚ xs /\ Sorted (fun i j => inst_ID j <= inst_ID i) all.
Proof.
  intros Hl Hne. cbv zeta. assert (0 < length xs)%nat as Hlen by (destruct xs; simpl; [done|lia]).
  pose proof (Nat.div_mod (length xs - 1) limit ltac:(lia)) as Hd.
  pose proof (Nat.mod_upper_bound (length xs - 1) limit ltac:(lia)) as Hm.
  rewrite pages_from by nia. rewrite Nat.mul_0_l, drop_0, take_ge by (rewrite newest_first_length; nia).
  split; [done|]. split; [apply sort_by_perm|].
  pose proof (sort_by_sorted (fun i => - inst_ID i) xs) as Hs. fold (newest_first xs) in Hs.
  revert Hs. induction (newest_first xs) as [|i l IH]; intros Hs; [constructor|]. inversion Hs as [|? ? Hl' Hr]; subst.
  constructor; [by apply IH|]. destruct Hr; constructor. unfold by_key in *. lia.
Qed.

(** A page past the end starts over: with an offset at or beyond the number of
    instances the offset is ignored and the first page comes back instead of an
    empty one. *)
Theorem page_past_the_end xs limit offset :
  Z.of_nat (length xs) <= offset -> paginateInstances xs limit offset = paginateInstances xs limit 0.
Proof.
  intros Ho. unfold paginateInstances. fold (newest_first xs). cbv zeta. rewrite newest_first_length.
  destruct (Z.ltb_spec offset (Z.of_nat (length xs))); [lia|]. by rewrite andb_false_r.
Qed.

Definition three : list TaskInstance :=
  map (fun id => set_inst_ID id (sample_instance 1 "s" "success" "a" 0)) [2; 3; 1].

Lemma pages_cover_witness : let all := pages three 2 0 (S ((length three - 1) / 2)) in
  all = newest_first three /\ all ≡ₚ three /\ Sorted (fun i j => inst_ID j <= inst_ID i) all.
Proof. apply (pages_cover three 2); [lia|done]. Defined.

Lemma page_past_the_end_witness : map inst_ID (paginateInstances three 2 3) = [3; 2].
Proof. rewrite (page_past_the_end three 2 3); [vm_compute; reflexivity|vm_compute; congruence]. Defined.
