(* ===== verification/Adapter.v ===== *)
(** internal/ai/adapter/adapter.go: the client of an OpenAI-compatible model. What
    the model's server answers is a parameter; the reading of its answers (the
    scanner over the event stream, the JSON of every chunk, the reassembly of tool
    calls from their fragments), the fallback and the token counters are modelled. *)
From S2P Require Import Prelude GoStd GoTime Json.

#[local] Open Scope prog_scope.

(** ** Types *)

Record Usage := mkUsage { us_PromptTokens : Z; us_CompletionTokens : Z; us_TotalTokens : Z }.

Record ToolCall := mkToolCall {
  tc_Index : Z;
  tc_ID : string;
  tc_Type : string;
  tc_Name : string;
  tc_Arguments : string
}.

Record Message := mkMessage {
  msg_Role : string;
  msg_Content : string;
  msg_ReasoningContent : string;
  msg_ToolCalls : list ToolCall;
  msg_ToolCallID : string
}.

(** [Tool] with its [FunctionDef]; the parameters are the JSON schema. *)
Record Tool := mkTool { tool_Type : string; tool_Name : string; tool_Description : string; tool_Parameters : jvalue }.

Record ChatRequest := mkChatRequest {
  cr_Model : string;
  cr_Messages : list Message;
  cr_Tools : list Tool;
  cr_Stream : bool
}.

Record Choice := mkChoice { ch_Message : Message; ch_FinishReason : string }.
Record ChatResponse := mkChatResponse { resp_Choices : list Choice; resp_Usage : Usage }.

Record StreamEvent := mkStreamEvent {
  ev_DeltaContent : string;
  ev_ReasoningContent : string;
  ev_ToolCalls : list ToolCall;
  ev_FinishReason : string;
  ev_Error : option gerror
}.

Record chunkDelta := mkChunkDelta { cd_Content : string; cd_ReasoningContent : string; cd_ToolCalls : list ToolCall }.
Record chunkChoice := mkChunkChoice { cc_Index : Z; cc_Delta : chunkDelta; cc_FinishReason : string }.
Record chatChunk := mkChatChunk { ck_Choices : list chunkChoice; ck_Usage : option Usage }.

Definition no_usage : Usage := mkUsage 0 0 0.
Definition no_call : ToolCall := mkToolCall 0 "" "" "" "".
Definition no_message : Message := mkMessage "" "" "" [] "".

(** ** Decoding *)

Definition set_usage (u : Usage) (kv : string * jvalue) : option Usage :=
  let k := foldName kv.1 in let v := kv.2 in
  if bool_decide (k = "prompt_tokens") then z ← into_int v (us_PromptTokens u); Some (mkUsage z (us_CompletionTokens u) (us_TotalTokens u))
  else if bool_decide (k = "completion_tokens") then z ← into_int v (us_CompletionTokens u); Some (mkUsage (us_PromptTokens u) z (us_TotalTokens u))
  else if bool_decide (k = "total_tokens") then z ← into_int v (us_TotalTokens u); Some (mkUsage (us_PromptTokens u) (us_CompletionTokens u) z)
  else Some u.

Definition set_function (c : ToolCall) (kv : string * jvalue) : option ToolCall :=
  let k := foldName kv.1 in let v := kv.2 in
  if bool_decide (k = "name") then s ← into_string v (tc_Name c); Some (mkToolCall (tc_Index c) (tc_ID c) (tc_Type c) s (tc_Arguments c))
  else if bool_decide (k = "arguments") then s ← into_string v (tc_Arguments c); Some (mkToolCall (tc_Index c) (tc_ID c) (tc_Type c) (tc_Name c) s)
  else Some c.

Definition set_tool_call (c : ToolCall) (kv : string * jvalue) : option ToolCall :=
  let k := foldName kv.1 in let v := kv.2 in
  if bool_decide (k = "index") then z ← into_int v (tc_Index c); Some (mkToolCall z (tc_ID c) (tc_Type c) (tc_Name c) (tc_Arguments c))
  else if bool_decide (k = "id") then s ← into_string v (tc_ID c); Some (mkToolCall (tc_Index c) s (tc_Type c) (tc_Name c) (tc_Arguments c))
  else if bool_decide (k = "type") then s ← into_string v (tc_Type c); Some (mkToolCall (tc_Index c) (tc_ID c) s (tc_Name c) (tc_Arguments c))
  else if bool_decide (k = "function") then into_struct set_function v c
  else Some c.

Definition into_tool_calls (v : jvalue) : option (list ToolCall) :=
  into_slice (fun v => into_struct set_tool_call v no_call) v.

Definition set_delta (d : chunkDelta) (kv : string * jvalue) : option chunkDelta :=
  let k := foldName kv.1 in let v := kv.2 in
  if bool_decide (k = "content") then s ← into_string v (cd_Content d); Some (mkChunkDelta s (cd_ReasoningContent d) (cd_ToolCalls d))
  else if bool_decide (k = "reasoning_content") then s ← into_string v (cd_ReasoningContent d); Some (mkChunkDelta (cd_Content d) s (cd_ToolCalls d))
  else if bool_decide (k = "tool_calls") then l ← into_tool_calls v; Some (mkChunkDelta (cd_Content d) (cd_ReasoningContent d) l)
  else Some d.

Definition set_chunk_choice (c : chunkChoice) (kv : string * jvalue) : option chunkChoice :=
  let k := foldName kv.1 in let v := kv.2 in
  if bool_decide (k = "index") then z ← into_int v (cc_Index c); Some (mkChunkChoice z (cc_Delta c) (cc_FinishReason c))
  else if bool_decide (k = "delta") then d ← into_struct set_delta v (cc_Delta c); Some (mkChunkChoice (cc_Index c) d (cc_FinishReason c))
  else if bool_decide (k = "finish_reason") then s ← into_string v (cc_FinishReason c); Some (mkChunkChoice (cc_Index c) (cc_Delta c) s)
  else Some c.

Definition no_choice : chunkChoice := mkChunkChoice 0 (mkChunkDelta "" "" []) "".

(** A pointer field: [null] gives [nil]. *)
Definition set_chunk (c : chatChunk) (kv : string * jvalue) : option chatChunk :=
  let k := foldName kv.1 in let v := kv.2 in
  if bool_decide (k = "choices") then l ← into_slice (fun v => into_struct set_chunk_choice v no_choice) v; Some (mkChatChunk l (ck_Usage c))
  else if bool_decide (k = "usage") then
    match v with
    | JNull => Some (mkChatChunk (ck_Choices c) None)
    | _ => u ← into_struct set_usage v (default no_usage (ck_Usage c)); Some (mkChatChunk (ck_Choices c) (Some u))
    end
  else Some c.

Definition unmarshal_chunk (data : string) : option chatChunk :=
  v ← Unmarshal data; into_struct set_chunk v (mkChatChunk [] None).

Definition set_message (m : Message) (kv : string * jvalue) : option Message :=
  let k := foldName kv.1 in let v := kv.2 in
  if bool_decide (k = "role") then s ← into_string v (msg_Role m); Some (mkMessage s (msg_Content m) (msg_ReasoningContent m) (msg_ToolCalls m) (msg_ToolCallID m))
  else if bool_decide (k = "content") then s ← into_string v (msg_Content m); Some (mkMessage (msg_Role m) s (msg_ReasoningContent m) (msg_ToolCalls m) (msg_ToolCallID m))
  else if bool_decide (k = "reasoning_content") then s ← into_string v (msg_ReasoningContent m); Some (mkMessage (msg_Role m) (msg_Content m) s (msg_ToolCalls m) (msg_ToolCallID m))
  else if bool_decide (k = "tool_calls") then l ← into_tool_calls v; Some (mkMessage (msg_Role m) (msg_Content m) (msg_ReasoningContent m) l (msg_ToolCallID m))
  else if bool_decide (k = "tool_call_id") then s ← into_string v (msg_ToolCallID m); Some (mkMessage (msg_Role m) (msg_Content m) (msg_ReasoningContent m) (msg_ToolCalls m) s)
  else Some m.

Definition set_choice (c : Choice) (kv : string * jvalue) : option Choice :=
  let k := foldName kv.1 in let v := kv.2 in
  if bool_decide (k = "message") then m ← into_struct set_message v (ch_Message c); Some (mkChoice m (ch_FinishReason c))
  else if bool_decide (k = "finish_reason") then s ← into_string v (ch_FinishReason c); Some (mkChoice (ch_Message c) s)
  else Some c.

Definition set_response (r : ChatResponse) (kv : string * jvalue) : option ChatResponse :=
  let k := foldName kv.1 in let v := kv.2 in
  if bool_decide (k = "choices") then l ← into_slice (fun v => into_struct set_choice v (mkChoice no_message "")) v; Some (mkChatResponse l (resp_Usage r))
  else if bool_decide (k = "usage") then u ← into_struct set_usage v (resp_Usage r); Some (mkChatResponse (resp_Choices r) u)
  else Some r.

Definition unmarshal_response (s : string) : option ChatResponse :=
  v ← Unmarshal s; into_struct set_response v (mkChatResponse [] no_usage).

(** ** The stream *)

(** [bufio.Scanner] over lines: the lines before an error or the end, and the error
    ([read_err], or a line that does not fit the buffer of 64 KiB). *)
Definition max_token : Z := 65536.
Definition ErrTooLong : gerror := Sentinel "bufio.Scanner: token too long".

Definition drop_cr (line : string) : string :=
  match String.list_ascii_of_string line with
  | [] => line
  | cs => if bool_decide (last cs = Some (ascii_of_nat 13))
          then String.string_of_list_ascii (take (pred (length cs)) cs) else line
  end.

Fixpoint scan_lines (read_err : option gerror) (ls : list string) : list string * option gerror :=
  match ls with
  | [] => ([], read_err)
  | [last] =>
      if max_token <=? Z.of_nat (String.length last) then ([], Some ErrTooLong)
      else if bool_decide (last = "") then ([], read_err) else ([drop_cr last], read_err)
  | l :: rest =>
      if max_token <=? Z.of_nat (String.length l) then ([], Some ErrTooLong)
      else let '(ls', e) := scan_lines read_err rest in (drop_cr l :: ls', e)
  end.

Definition newline : ascii := ascii_of_nat 10.
Definition Scan (body : string) (read_err : option gerror) : list string * option gerror :=
  scan_lines read_err (Split newline body).

Definition text_event (s : string) : StreamEvent := mkStreamEvent s "" [] "" None.
Definition error_event (e : gerror) : StreamEvent := mkStreamEvent "" "" [] "" (Some e).

(** One fragment of a tool call, into the call with its index. *)
Definition accumulate (accum : gmap Z ToolCall) (tc : ToolCall) : gmap Z ToolCall :=
  match accum !! tc_Index tc with
  | Some existing =>
      <[tc_Index tc := mkToolCall (tc_Index existing)
          (if bool_decide (tc_ID tc = "") then tc_ID existing else tc_ID tc) (tc_Type existing)
          (if bool_decide (tc_Name tc = "") then tc_Name existing else tc_Name tc)
          (tc_Arguments existing +:+ tc_Arguments tc)]> accum
  | None => <[tc_Index tc := mkToolCall 0 (tc_ID tc) (tc_Type tc) (tc_Name tc) (tc_Arguments tc)]> accum
  end.

(** [for i := 0; i < len(accum); i++ { if tc, ok := accum[i]; ok { ... } }] *)
Definition collected (accum : gmap Z ToolCall) : list ToolCall :=
  omap (fun i => accum !! i) (zseq 0 (size accum)).

(** The first choice of the chunk on a line; [None] where the loop continues. *)
Definition line_choice (line : string) : option chunkChoice :=
  if bool_decide (line = "") || bool_decide (line = "data: [DONE]") then None
  else if negb (HasPrefix line "data: ") then None
  else chunk ← unmarshal_chunk (TrimPrefix line "data: "); head (ck_Choices chunk).

(** One line of the stream: the accumulators after it and the events it emits. *)
Definition stream_line (st : gmap Z ToolCall * string) (line : string) : (gmap Z ToolCall * string) * list StreamEvent :=
  let '(accum, reasoning) := st in
  match line_choice line with
  | None => (st, [])
  | Some choice =>
      let delta := cc_Delta choice in
      let accum := foldl accumulate accum (cd_ToolCalls delta) in
      let reasoning := reasoning +:+ cd_ReasoningContent delta in
      ((accum, reasoning),
       (if bool_decide (cd_Content delta = "") then [] else [text_event (cd_Content delta)]) ++
       (if bool_decide (cc_FinishReason choice = "") then []
        else [mkStreamEvent "" reasoning (collected accum) (cc_FinishReason choice) None]))
  end.

(** The loop; [ctx] gives [ctx.Err()] at the check before each line. *)
Fixpoint stream_lines (ctx : nat -> option gerror) (n : nat) (st : gmap Z ToolCall * string) (lines : list string)
    (final : option gerror) : list StreamEvent :=
  match lines with
  | [] => match final with Some e => [error_event e] | None => [] end
  | line :: rest =>
      match ctx n with
      | Some e => [error_event e]
      | None => let '(st, evs) := stream_line st line in evs ++ stream_lines ctx (S n) st rest final
      end
  end.

(** What the server answers: a transport error, or the status, the body and the error
    that cut the body short. *)
Definition Answered : Type := res gerror (Z * string * option gerror).

Record LLMAdapter := mkLLMAdapter { llm_endpoint : string; llm_apiKey : string; llm_model : string }.

(** [New]; the timeout is the HTTP client's. *)
Definition New (endpoint apiKey model : string) : option LLMAdapter :=
  if bool_decide (endpoint = "") then None
  else Some (mkLLMAdapter endpoint apiKey (if bool_decide (model = "") then "gpt-4o" else model)).

(** A nil adapter is [None]. *)
Definition Enabled (a : option LLMAdapter) : bool :=
  match a with Some a => negb (bool_decide (llm_endpoint a = "")) | None => false end.
Definition Endpoint (a : option LLMAdapter) : string := match a with Some a => llm_endpoint a | None => "" end.
Definition Model (a : option LLMAdapter) : string := match a with Some a => llm_model a | None => "" end.
Definition HasAPIKey (a : option LLMAdapter) : bool :=
  match a with Some a => negb (bool_decide (llm_apiKey a = "")) | None => false end.

(** [SetFallback]: the fallback the adapter has afterwards. *)
Definition SetFallback (a fb old : option LLMAdapter) : option LLMAdapter :=
  match a with Some _ => if Enabled fb then fb else old | None => old end.

(** A POST to the model. *)
Record LLMCall := mkLLMCall { lc_url : string; lc_authorization : string; lc_accept : string; lc_body : ChatRequest }.

Definition llm_call (a : LLMAdapter) (messages : list Message) (tools : list Tool) (streaming : bool) : LLMCall :=
  mkLLMCall (llm_endpoint a +:+ "/chat/completions")
    (if bool_decide (llm_apiKey a = "") then "" else "Bearer " +:+ llm_apiKey a)
    (if streaming then "text/event-stream" else "")
    (mkChatRequest (llm_model a) messages tools streaming).

Definition status_error (code : Z) (body : string) : gerror := Errorf "llm returned %d: %s" [fmt_d code; body].

(** [runStreamWithClient] on the answer: the events sent before the channel closes.
    [bad_url] is what [http.NewRequest] says of the URL. *)
Definition stream_events (a : option LLMAdapter) (ctx : nat -> option gerror) (bad_url : option gerror) (answer : Answered)
    : list StreamEvent :=
  if negb (Enabled a) then [error_event (Errorf "llm adapter not configured" [])] else
  match bad_url with
  | Some e => [error_event e]
  | None =>
      match answer with
      | Err e => [error_event (Wrap "llm stream request" e)]
      | Ok (code, body, read_err) =>
          if 300 <=? code then [error_event (status_error code body)]
          else let '(lines, final) := Scan body read_err in stream_lines ctx 0 (∅, "") lines final
      end
  end.

(** ** Without streaming *)

(** The common part of [doComplete] and [doCompleteWithTools] on the answer. *)
Definition read_completion (answer : Answered) : result (Message * Usage) :=
  match answer with
  | Err e => Err (Wrap "llm request" e)
  | Ok (code, body, Some e) => Err e
  | Ok (code, body, None) =>
      if 300 <=? code then Err (status_error code body) else
      match unmarshal_response body with
      | None => Err (Wrap "parse llm response" (Sentinel "json"))
      | Some r =>
          match resp_Choices r with
          | [] => Err (Errorf "llm returned empty choices" [])
          | c :: _ => Ok (ch_Message c, resp_Usage r)
          end
      end
  end.

(** The token counters of the adapter and of its fallback. *)
Record Totals := mkTotals { tot_prompt : Z; tot_completion : Z }.

Definition recordUsage (t : Totals) (u : Usage) : Totals :=
  mkTotals (if 0 <? us_PromptTokens u then wrap64 (tot_prompt t + us_PromptTokens u) else tot_prompt t)
           (if 0 <? us_CompletionTokens u then wrap64 (tot_completion t + us_CompletionTokens u) else tot_completion t).

Record LLMState := mkLLMState { ls_calls : nat; ls_main : Totals; ls_fallback : Totals }.

Section Complete.
(** The servers, by the number of the call, and the URL check. *)
Variable llm_do : nat -> LLMCall -> Answered.
Variable bad_url : string -> option gerror.

Abbreviation L A := (prog LLMState gerror A).

Definition send (call : LLMCall) : L (Message * Usage) := fun s =>
  match bad_url (lc_url call) with
  | Some e => (s, Err e)
  | None => (mkLLMState (S (ls_calls s)) (ls_main s) (ls_fallback s), read_completion (llm_do (ls_calls s) call))
  end.

Definition doComplete (a : LLMAdapter) (messages : list Message) : L string :=
  r <- send (llm_call a messages [] false) ;;
  modify (fun s => mkLLMState (ls_calls s) (recordUsage (ls_main s) r.2) (ls_fallback s)) ;;
  ret (msg_Content r.1).

(** The same for the fallback adapter, whose counters are its own. *)
Definition doComplete_fallback (a : LLMAdapter) (messages : list Message) : L string :=
  r <- send (llm_call a messages [] false) ;;
  modify (fun s => mkLLMState (ls_calls s) (ls_main s) (recordUsage (ls_fallback s) r.2)) ;;
  ret (msg_Content r.1).

Definition completeMessages (a : LLMAdapter) (fb : option LLMAdapter) (messages : list Message) : L string :=
  r <-? doComplete a messages ;;
  match r, fb with
  | Err e, Some f => if Enabled fb then doComplete_fallback f messages else fail e
  | Err e, None => fail e
  | Ok s, _ => ret s
  end.

Definition Complete (a : option LLMAdapter) (fb : option LLMAdapter) (systemPrompt userPrompt : string) : L string :=
  match a with
  | Some ad =>
      if negb (Enabled a) then fail (Errorf "llm adapter not configured" []) else
      completeMessages ad fb [mkMessage "system" systemPrompt "" [] ""; mkMessage "user" userPrompt "" [] ""]
  | None => fail (Errorf "llm adapter not configured" [])
  end.

Definition doCompleteWithTools (main : bool) (a : LLMAdapter) (messages : list Message) (tools : list Tool)
    : L (string * list ToolCall) :=
  if negb (Enabled (Some a)) then fail (Errorf "llm adapter not configured" []) else
  r <- send (llm_call a messages tools false) ;;
  modify (fun s => if main then mkLLMState (ls_calls s) (recordUsage (ls_main s) r.2) (ls_fallback s)
                   else mkLLMState (ls_calls s) (ls_main s) (recordUsage (ls_fallback s) r.2)) ;;
  ret (msg_Content r.1, msg_ToolCalls r.1).

Definition CompleteWithTools (a : LLMAdapter) (fb : option LLMAdapter) (messages : list Message) (tools : list Tool)
    : L (string * list ToolCall) :=
  r <-? doCompleteWithTools true a messages tools ;;
  match r, fb with
  | Err e, Some f => if Enabled fb then doCompleteWithTools false f messages tools else fail e
  | Err e, None => fail e
  | Ok x, _ => ret x
  end.

Definition TokenUsage (a : option LLMAdapter) : L (Z * Z) :=
  reads (fun s => match a with Some _ => (tot_prompt (ls_main s), tot_completion (ls_main s)) | None => (0, 0) end).
End Complete.

(** ** Properties *)

(** The fragments of all tool calls on some lines, and the text on them. *)
Definition line_fragments (line : string) : list ToolCall :=
  match line_choice line with Some c => cd_ToolCalls (cc_Delta c) | None => [] end.
Definition line_text (line : string) : string :=
  match line_choice line with Some c => cd_Content (cc_Delta c) | None => "" end.

Definition concat (ss : list string) : string := foldr String.append "" ss.

(** The last of some strings that is not empty. *)
Definition last_given (ss : list string) : string := foldl (fun acc s => if bool_decide (s = "") then acc else s) "" ss.

(** The call the fragments with index [i] stand for: the arguments put together, the
    last name and id given, the type of the first. *)
Definition reassembled (frags : list ToolCall) (i : Z) : option ToolCall :=
  match filter (fun t => tc_Index t = i) frags with
  | [] => None
  | (f :: _) as fs => Some (mkToolCall 0 (last_given (tc_ID <$> fs)) (tc_Type f) (last_given (tc_Name <$> fs))
                            (concat (tc_Arguments <$> fs)))
  end.

Lemma concat_snoc ss s : concat (ss ++ [s]) = concat ss +:+ s.
Proof.
  induction ss as [|x ss IH]; simpl; [apply append_empty|by rewrite IH, append_assoc].
Qed.

Lemma last_given_snoc ss s : last_given (ss ++ [s]) = if bool_decide (s = "") then last_given ss else s.
Proof. unfold last_given. by rewrite foldl_app. Qed.

Lemma reassembled_snoc frags t i :
  reassembled (frags ++ [t]) i =
  if decide (tc_Index t = i) then
    Some (match reassembled frags i with
          | Some e => mkToolCall 0 (if bool_decide (tc_ID t = "") then tc_ID e else tc_ID t) (tc_Type e)
                        (if bool_decide (tc_Name t = "") then tc_Name e else tc_Name t) (tc_Arguments e +:+ tc_Arguments t)
          | None => mkToolCall 0 (tc_ID t) (tc_Type t) (tc_Name t) (tc_Arguments t)
          end)
  else reassembled frags i.
Proof.
  unfold reassembled. rewrite filter_app, filter_cons, filter_nil. destruct (decide (tc_Index t = i)) as [Hi|Hi].
  2: { by rewrite app_nil_r. }
  destruct (filter _ frags) as [|f fs]; simpl.
  - unfold last_given, concat. simpl. rewrite append_empty. do 2 f_equal; by case_bool_decide.
  - do 2 f_equal; rewrite fmap_app.
    + apply (last_given_snoc (tc_ID f :: (tc_ID <$> fs))).
    + apply (last_given_snoc (tc_Name f :: (tc_Name <$> fs))).
    + apply (concat_snoc (tc_Arguments f :: (tc_Arguments <$> fs))).
Qed.

Lemma reassembled_index frags i e : reassembled frags i = Some e -> tc_Index e = 0.
Proof. unfold reassembled. case_match; [done|]. by intros [= <-]. Qed.

Lemma accumulated frags i : foldl accumulate ∅ frags !! i = reassembled frags i.
Proof.
  induction frags as [|t frags IH] using rev_ind in i |- *; [done|]. rewrite foldl_app, reassembled_snoc. cbn [foldl].
  unfold accumulate at 1. rewrite IH. destruct (decide (tc_Index t = i)) as [<-|Hne].
  - destruct (reassembled frags (tc_Index t)) as [e|] eqn:E; rewrite lookup_insert_eq; [|done].
    by rewrite (reassembled_index _ _ _ E).
  - destruct (reassembled frags (tc_Index t)); by rewrite lookup_insert_ne.
Qed.

Lemma concat_app xs ys : concat (xs ++ ys) = concat xs +:+ concat ys.
Proof. induction xs as [|x xs IH]; [done|]. simpl. by rewrite IH, append_assoc. Qed.

Definition events_text (evs : list StreamEvent) : string := concat (ev_DeltaContent <$> evs).

Lemma stream_line_spec st line st' evs : stream_line st line = (st', evs) ->
  st'.1 = foldl accumulate st.1 (line_fragments line) /\ events_text evs = line_text line /\
  forall ev, ev ∈ evs -> ev_FinishReason ev <> "" -> ev_ToolCalls ev = collected st'.1.
Proof.
  destruct st as [accum reasoning]. unfold stream_line, line_fragments, line_text, events_text.
  destruct (line_choice line) as [c|]; intros [= <- <-]; simpl; [|split_and!; [done..|by intros ? ?%elem_of_nil]].
  split; [done|]. split.
  - rewrite fmap_app, concat_app. case_bool_decide as Hc; case_bool_decide; simpl; rewrite ?append_empty; by rewrite ?Hc.
  - intros ev. case_bool_decide; case_bool_decide; simpl; set_unfold; naive_solver.
Qed.

Lemma stream_lines_spec ctx n st lines final : (forall n, ctx n = None) ->
  events_text (stream_lines ctx n st lines final) = concat (line_text <$> lines) /\
  forall ev, ev ∈ stream_lines ctx n st lines final -> ev_FinishReason ev <> "" ->
    exists seen rest, lines = seen ++ rest /\
      ev_ToolCalls ev = collected (foldl accumulate st.1 (mjoin (line_fragments <$> seen))).
Proof.
  intros Hctx. revert n st. induction lines as [|line lines IH]; intros n st; cbn [stream_lines].
  - destruct final; (split; [done|]); intros ev; [intros ->%list_elem_of_singleton; done|by intros ?%elem_of_nil].
  - rewrite Hctx. destruct (stream_line st line) as [st' evs] eqn:E.
    destruct (stream_line_spec _ _ _ _ E) as (Hst & Ht & Hf). destruct (IH (S n) st') as [IHt IHf]. split.
    + unfold events_text in *. rewrite fmap_app, concat_app, Ht, IHt. done.
    + intros ev [Hin|Hin]%elem_of_app Hfin.
      * exists [line], lines. split; [done|]. rewrite (Hf _ Hin Hfin), Hst. simpl. by rewrite app_nil_r.
      * destruct (IHf _ Hin Hfin) as (seen & rest & -> & ->). exists (line :: seen), rest. split; [done|].
        rewrite Hst, <- foldl_app. done.
Qed.

Lemma accumulated_dom frags : dom (foldl accumulate ∅ frags) = list_to_set (C:=gset Z) (tc_Index <$> frags).
Proof.
  apply set_eq. intros i. rewrite elem_of_dom, accumulated, elem_of_list_to_set, list_elem_of_fmap. unfold reassembled.
  destruct (filter (fun t => tc_Index t = i) frags) as [|f fs] eqn:E; split.
  - by intros [? ?].
  - intros (t & -> & Ht). assert (t ∈ filter (fun x => tc_Index x = tc_Index t) frags) as Hin by (by apply list_elem_of_filter).
    rewrite E in Hin. by apply elem_of_nil in Hin.
  - intros _. assert (f ∈ filter (fun x => tc_Index x = i) frags) as Hin by (rewrite E; set_solver).
    apply list_elem_of_filter in Hin as [? ?]. eauto.
  - intros _. by eexists.
Qed.

Lemma zseq_NoDup lo n : NoDup (zseq lo n).
Proof.
  revert lo. induction n as [|n IH]; intros lo; simpl; [constructor|]. constructor; [|apply IH].
  rewrite elem_of_zseq. lia.
Qed.

Lemma zseq_length lo n : length (zseq lo n) = n.
Proof. revert lo. induction n as [|n IH]; intros lo; simpl; [done|]. by rewrite IH. Qed.

Lemma omap_length_all {A B} (f : A -> option B) l : (forall x, x ∈ l -> is_Some (f x)) -> length (omap f l) = length l.
Proof.
  induction l as [|x l IH]; intros Hl; [done|]. cbn. destruct (Hl x) as [y ->]; [set_solver|]. cbn. f_equal. apply IH.
  intros z Hz. apply Hl. set_solver.
Qed.

(** Indices below their number are 0, 1, 2, ... *)
Lemma indices_complete (S : gset Z) : (forall i, i ∈ S -> 0 <= i < Z.of_nat (size S)) ->
  forall i, 0 <= i < Z.of_nat (size S) -> i ∈ S.
Proof.
  intros HS i Hi. assert (S ≡ list_to_set (zseq 0 (size S))) as ->.
  - apply set_subseteq_size_equiv.
    + intros j Hj. rewrite elem_of_list_to_set, elem_of_zseq. apply HS in Hj. lia.
    + rewrite size_list_to_set by apply zseq_NoDup. by rewrite zseq_length.
  - rewrite elem_of_list_to_set, elem_of_zseq. lia.
Qed.

(** The calls that some fragments stand for: those with the indices 0, 1, 2, ..., as many as
    there are different indices. *)
Definition indices (frags : list ToolCall) : gset Z := list_to_set (tc_Index <$> frags).
Definition calls_of (frags : list ToolCall) : list ToolCall := omap (reassembled frags) (zseq 0 (size (indices frags))).

Lemma collected_calls frags : collected (foldl accumulate ∅ frags) = calls_of frags.
Proof.
  unfold collected, calls_of, indices. rewrite <- size_dom, accumulated_dom. apply list_omap_ext, Forall2_same_length_lookup.
  split; [done|]. intros j x y H1 H2. simplify_eq. apply accumulated.
Qed.

Lemma zseq_lookup lo n i : (i < n)%nat -> zseq lo n !! i = Some (lo + Z.of_nat i).
Proof.
  revert lo i. induction n as [|n IH]; intros lo [|i] Hi; [lia..|simpl; f_equal; lia|]. simpl. rewrite IH by lia. f_equal. lia.
Qed.

Lemma omap_lookup_all {A B} (f : A -> option B) (l : list A) i x : (forall x, x ∈ l -> is_Some (f x)) -> l !! i = Some x -> omap f l !! i = f x.
Proof.
  revert i. induction l as [|y l IH]; intros i Hl Hx; [done|]. cbn. destruct (Hl y) as [z Hz]; [set_solver|]. rewrite Hz.
  destruct i as [|i]; [injection Hx as ->; by rewrite Hz|]. apply IH; [|done]. intros u Hu. apply Hl. set_solver.
Qed.

(** With the indices 0, 1, 2, ... nothing is left out. *)
Lemma calls_of_contiguous frags : (forall t, t ∈ frags -> 0 <= tc_Index t < Z.of_nat (size (indices frags))) ->
  length (calls_of frags) = size (indices frags) /\
  forall i, (i < size (indices frags))%nat -> exists c, reassembled frags (Z.of_nat i) = Some c /\ calls_of frags !! i = Some c.
Proof.
  intros Hall. assert (forall x, x ∈ zseq 0 (size (indices frags)) -> is_Some (reassembled frags x)) as Hsome.
  { intros x Hx%elem_of_zseq. rewrite <- accumulated, <- elem_of_dom, accumulated_dom. apply indices_complete; [|unfold indices in *; lia].
    intros j. rewrite elem_of_list_to_set, list_elem_of_fmap. intros (t & -> & Ht). by apply Hall. }
  split; [unfold calls_of; by rewrite omap_length_all, zseq_length|].
  intros i Hi. pose proof (zseq_lookup 0 _ _ Hi) as Hz. destruct (Hsome (Z.of_nat i)) as [c Hc].
  { apply list_elem_of_lookup. exists i. by rewrite Hz. }
  exists c. split; [done|]. unfold calls_of. by rewrite (omap_lookup_all _ _ _ _ Hsome Hz).
Qed.

(** What a line means after the lines read so far, itself the last of them: its text; and,
    when it ends the choice, all the reasoning and all the calls so far. *)
Definition line_reasoning (line : string) : string :=
  match line_choice line with Some c => cd_ReasoningContent (cc_Delta c) | None => "" end.

Definition line_means (so_far : list string) (line : string) : list StreamEvent :=
  match line_choice line with
  | None => []
  | Some c =>
      (if bool_decide (cd_Content (cc_Delta c) = "") then [] else [text_event (cd_Content (cc_Delta c))]) ++
      (if bool_decide (cc_FinishReason c = "") then []
       else [mkStreamEvent "" (concat (line_reasoning <$> so_far)) (calls_of (mjoin (line_fragments <$> so_far))) (cc_FinishReason c) None])
  end.

Definition stream_means (lines : list string) (final : option gerror) : list StreamEvent :=
  mjoin (imap (fun k line => line_means (take (S k) lines) line) lines) ++ match final with Some e => [error_event e] | None => [] end.

Lemma mjoin_snoc {A} (ls : list (list A)) l : mjoin (ls ++ [l]) = mjoin ls ++ l.
Proof. rewrite join_app. simpl. by rewrite app_nil_r. Qed.

(** The state of the loop after some lines. *)
Definition after_lines (seen : list string) : gmap Z ToolCall * string :=
  (foldl accumulate ∅ (mjoin (line_fragments <$> seen)), concat (line_reasoning <$> seen)).

Lemma stream_line_means seen line : stream_line (after_lines seen) line = (after_lines (seen ++ [line]), line_means (seen ++ [line]) line).
Proof.
  unfold stream_line, line_means. unfold after_lines at 1. rewrite <- collected_calls. unfold after_lines.
  rewrite !fmap_app. cbn [fmap list_fmap]. rewrite mjoin_snoc, foldl_app, concat_snoc.
  assert (line_fragments line = match line_choice line with Some c => cd_ToolCalls (cc_Delta c) | None => [] end) as -> by done.
  assert (line_reasoning line = match line_choice line with Some c => cd_ReasoningContent (cc_Delta c) | None => "" end) as -> by done.
  destruct (line_choice line) as [c|]; [done|]. cbn [foldl]. by rewrite append_empty.
Qed.

Lemma stream_lines_means ctx n seen lines final : (forall n, ctx n = None) ->
  stream_lines ctx n (after_lines seen) lines final =
  mjoin (imap (fun k line => line_means (seen ++ take (S k) lines) line) lines) ++ match final with Some e => [error_event e] | None => [] end.
Proof.
  intros Hctx. revert n seen. induction lines as [|line lines IH]; intros n seen; [done|]. cbn [stream_lines].
  rewrite Hctx, stream_line_means, IH. cbn [imap mjoin list_join take]. rewrite app_assoc. do 3 f_equal. apply imap_ext.
  intros k l Hk. unfold compose. by rewrite <- app_assoc.
Qed.

(** C18. Reading the model's stream, against the definition of what its lines mean: while the
    request is not cancelled, the events are exactly those of the lines, in order
    ([stream_means]), and the error that cut the body short, if any. A line that is not a
    chunk means nothing; a chunk means its text and, when it ends the choice, one event with
    the reasoning and the calls of all chunks up to it, each call put together from the
    fragments with its index: the arguments in order, the last id and name given, the type of
    the first. The text of all events is the text of all chunks. The calls are those with the
    indices below the number of different indices: all of them, each at the place of its
    index, when the indices are 0, 1, 2, ...; a call with a larger index is dropped. *)
Theorem stream_reassembles ctx lines final : (forall n, ctx n = None) ->
  stream_lines ctx 0 (∅, "") lines final = stream_means lines final /\
  events_text (stream_lines ctx 0 (∅, "") lines final) = concat (line_text <$> lines) /\
  forall k, let frags := mjoin (line_fragments <$> take (S k) lines) in
    (forall t, t ∈ frags -> 0 <= tc_Index t < Z.of_nat (size (indices frags))) ->
    length (calls_of frags) = size (indices frags) /\
    forall i, (i < size (indices frags))%nat -> exists c, reassembled frags (Z.of_nat i) = Some c /\ calls_of frags !! i = Some c.
Proof.
  intros Hctx. split; [exact (stream_lines_means ctx 0 [] lines final Hctx)|].
  split; [by destruct (stream_lines_spec ctx 0 (∅, "") lines final Hctx)|]. intros k frags. apply calls_of_contiguous.
Qed.

(** Two fragments of one call, then the end of the choice. *)
Definition demo_lines : list string :=
  ["data: " +:+ Marshal (JObject [("choices", JArray [JObject [("delta", JObject [("content", JString "let me see");
      ("tool_calls", JArray [JObject [("index", JNumber "0"); ("id", JString "c1");
         ("function", JObject [("name", JString "delete_task"); ("arguments", JString "{")])]])])]])]);
   ": keep-alive";
   "data: " +:+ Marshal (JObject [("choices", JArray [JObject [("delta", JObject [
      ("tool_calls", JArray [JObject [("index", JNumber "0"); ("function", JObject [("arguments", JString "}")])]])]);
      ("finish_reason", JString "tool_calls")]])]);
   "data: [DONE]"].

Lemma stream_reassembles_witness :
  stream_lines (fun _ => None) 0 (∅, "") demo_lines None =
    [text_event "let me see"; mkStreamEvent "" "" [mkToolCall 0 "c1" "" "delete_task" "{}"] "tool_calls" None] /\
  events_text (stream_lines (fun _ => None) 0 (∅, "") demo_lines None) = "let me see" /\
  calls_of (mjoin (line_fragments <$> demo_lines)) !! 0%nat = Some (mkToolCall 0 "c1" "" "delete_task" "{}").
Proof.
  destruct (stream_reassembles (fun _ => None) demo_lines None (fun _ => eq_refl)) as (Hm & Ht & Hc).
  split; [rewrite Hm; vm_compute; reflexivity|]. split; [rewrite Ht; vm_compute; reflexivity|].
  destruct (Hc 3%nat) as [_ Hi].
  - intros t Ht'. assert (tc_Index t = 0) as ->; [|vm_compute; split; congruence].
    assert (tc_Index <$> mjoin (line_fragments <$> demo_lines) = [0; 0]) as E by (vm_compute; reflexivity).
    apply (list_elem_of_fmap_2 tc_Index) in Ht'. change (take 4 demo_lines) with demo_lines in Ht'. rewrite E in Ht'.
    rewrite !elem_of_cons, elem_of_nil in Ht'. by destruct Ht' as [?|[?|[]]].
  - destruct (Hi 0%nat) as (c & Hr & Hcc); [vm_compute; lia|]. change (take 4 demo_lines) with demo_lines in *.
    rewrite Hcc, <- Hr. vm_compute. reflexivity.
Defined.
