(* ===== verification/Tools.v ===== *)
(** internal/ai/tools: the functions the chat agent may call, with the schemas they
    announce. Each works on the same repositories as the scheduler; a result is the
    JSON value that is streamed to the user, and its [%v] text is what the model
    reads. A nil slice is an empty array here. *)
From S2P Require Import Prelude GoStd GoTime GoFormat Cron Model Json Labels Repo RateLimit Float TestStore World Lifecycle Runtime TaskService Adapter.
From Stdlib Require Import Floats.SpecFloat.

#[local] Open Scope prog_scope.

(** ** Values *)

Definition member_le (x y : string * jvalue) : Prop := is_true (String.leb x.1 y.1).
#[export] Instance member_le_dec x y : Decision (member_le x y).
Proof. unfold member_le. apply _. Defined.

(** A [map[string]any]: printed with its keys in order. *)
Definition gomap (ms : list (string * jvalue)) : jvalue := JObject (merge_sort member_le ms).
Definition num (z : Z) : jvalue := JNumber (fmt_d z).

Fixpoint spaced (ss : list string) : string :=
  match ss with [] => "" | [s] => s | s :: ss' => s +:+ " " +:+ spaced ss' end.

(** [fmt.Sprintf("%v", result)] *)
Fixpoint render (v : jvalue) : string :=
  match v with
  | JString s => s
  | JNull => "<nil>"
  | JBool b => if b then "true" else "false"
  | JNumber lit => lit
  | JArray vs => "[" +:+ spaced (map render vs) +:+ "]"
  | JObject ms => "map[" +:+ spaced (map (fun kv => kv.1 +:+ ":" +:+ render kv.2) ms) +:+ "]"
  end.

(** [fmt.Sprintf("%.1f", x)] *)
Definition fmt_f1 (x : float64) : string := fmt_fixed 1 x.

(** [t.Format(time.RFC3339)] *)
Definition FormatRFC3339 (loc : Location) (t : Time) : string :=
  let w := wall_seconds loc t in
  pad_year (t_year loc t) +:+ "-" +:+ pad 2 (t_month loc t) +:+ "-" +:+ pad 2 (t_day loc t)
  +:+ "T" +:+ pad 2 (t_hour loc t) +:+ ":" +:+ pad 2 (t_minute loc t) +:+ ":" +:+ pad 2 (w mod 60)
  +:+ format_zone (loc (t / Second)).

Definition truncateStr (s : string) (maxLen : Z) : string :=
  if Z.of_nat (String.length s) <=? maxLen then s else String.substring 0 (Z.to_nat maxLen) s +:+ "...".

(** ** Arguments *)

Inductive kind := KString | KInt.
Record Args := mkArgs { arg_strings : gmap string string; arg_ints : gmap string Z }.

Definition str (a : Args) (k : string) : string := default "" (arg_strings a !! k).
Definition int (a : Args) (k : string) : Z := default 0 (arg_ints a !! k).

(** One member, for a struct with these fields. *)
Definition set_arg (schema : list (string * kind)) (a : Args) (kv : string * jvalue) : option Args :=
  let k := foldName kv.1 in
  match list_to_map (M:=gmap string kind) schema !! k with
  | Some KString => s ← into_string kv.2 (str a k); Some (mkArgs (<[k := s]> (arg_strings a)) (arg_ints a))
  | Some KInt => z ← into_int kv.2 (int a k); Some (mkArgs (arg_strings a) (<[k := z]> (arg_ints a)))
  | None => Some a
  end.

Definition no_args : Args := mkArgs ∅ ∅.

(** [_ = json.Unmarshal(args, &p)] *)
Definition parse_args (schema : list (string * kind)) (args : string) : Args :=
  match Unmarshal args with Some v => into_struct_lenient (set_arg schema) v no_args | None => no_args end.

(** ** Schemas *)

Definition property (ty : string) (enum : list string) (description : string) : jvalue :=
  gomap (("type", JString ty) :: (if bool_decide (enum = []) then [] else [("enum", JArray (JString <$> enum))])
         ++ [("description", JString description)]).
Definition parameters (props : list (string * jvalue)) (required : list string) : jvalue :=
  gomap ([("type", JString "object"); ("properties", gomap props)]
         ++ (if bool_decide (required = []) then [] else [("required", JArray (JString <$> required))])).

Definition queryTasks_Definition : Tool :=
  mkTool "function" "query_tasks" "查询任务列表。可按名称模糊匹配、状态筛选。返回任务名称、类型、cron表达式、状态和下次触发时间。"
    (parameters [("name", property "string" [] "任务名称关键词，支持模糊匹配");
      ("status", property "string" [] "任务状态：enabled 或 disabled");
      ("limit", property "integer" [] "返回数量上限，默认20")] []).

Definition queryInstances_Definition : Tool :=
  mkTool "function" "query_instances" "查询任务实例列表。可按状态、任务ID、时间范围筛选。返回实例ID、状态、错误信息、执行时间等。"
    (parameters [("status", property "string" [] "实例状态：success, failed, running, timeout, etc.");
      ("task_id", property "integer" [] "任务ID");
      ("hours", property "integer" [] "最近多少小时，默认24");
      ("limit", property "integer" [] "返回数量上限，默认20")] []).

Definition queryWorkers_Definition : Tool :=
  mkTool "function" "query_workers" "查询 worker 节点状态。返回每个 worker 的在线状态、当前负载、最大并发、最后心跳时间。"
    (parameters [] []).

Definition getTaskDetail_Definition : Tool :=
  mkTool "function" "get_task_detail" "获取某个任务的详细信息，包括依赖关系、最近执行实例。"
    (parameters [("task_id", property "integer" [] "任务ID")] ["task_id"]).

Definition getSystemHealth_Definition : Tool :=
  mkTool "function" "get_system_health" "获取系统整体健康状态概览：任务总数、启用任务数、worker在线率、最近失败实例数、各状态实例统计。"
    (parameters [] []).

Definition analyzeFailure_Definition : Tool :=
  mkTool "function" "analyze_failure" "分析一个失败任务实例的根因。输入实例ID，返回严重程度、根因分析、修复建议。"
    (parameters [("instance_id", property "integer" [] "失败实例的ID")] ["instance_id"]).

Definition createTask_Definition : Tool :=
  mkTool "function" "create_task" "创建一个新任务。需要提供任务名称、类型、cron表达式、执行内容和可选参数。"
    (parameters [("name", property "string" [] "任务名称，必须唯一");
      ("type", property "string" ["shell"; "http"; "container"] "任务类型");
      ("cron_expr", property "string" [] "cron 表达式，如 */5 * * * *");
      ("payload", property "string" [] "执行内容：shell命令、HTTP URL 或容器参数");
      ("image", property "string" [] "容器镜像（仅 container 类型需要）");
      ("timeout_seconds", property "integer" [] "超时秒数，默认300");
      ("max_retry", property "integer" [] "最大重试次数，默认3");
      ("retry_policy", property "string" ["fixed_interval"; "exponential_backoff"] "重试策略")] ["name"; "type"; "cron_expr"; "payload"]).

Definition triggerTask_Definition : Tool :=
  mkTool "function" "trigger_task" "手动触发一个任务立即执行。将任务的下次触发时间设为当前时间。"
    (parameters [("task_id", property "integer" [] "要触发的任务ID")] ["task_id"]).

Definition pauseTask_Definition : Tool :=
  mkTool "function" "pause_task" "暂停或恢复一个任务。设置 action 为 pause 暂停，resume 恢复。"
    (parameters [("task_id", property "integer" [] "任务ID");
      ("action", property "string" ["pause"; "resume"] "pause 暂停或 resume 恢复")] ["task_id"; "action"]).

Definition retryFailedInstance_Definition : Tool :=
  mkTool "function" "retry_failed_instance" "重试一个失败的实例。会根据原任务的配置重新创建实例并加入重试队列。"
    (parameters [("instance_id", property "integer" [] "失败的实例ID")] ["instance_id"]).

Definition deleteTask_Definition : Tool :=
  mkTool "function" "delete_task" "删除一个任务及其所有关联实例。不可逆操作，需要用户确认。"
    (parameters [("task_id", property "integer" [] "要删除的任务ID")] ["task_id"]).

Definition getWorkerLoadHistory_Definition : Tool :=
  mkTool "function" "get_worker_load_history" "查询 worker 负载历史数据，可用于分析负载趋势。返回最近若干小时的负载采样数据。"
    (parameters [("worker_id", property "string" [] "Worker ID，留空则返回所有 worker");
      ("hours", property "integer" [] "查询最近多少小时的数据，默认24")] []).

(** ** Execution *)

Section Tools.
Context `{Backend} `{Env}.
(** [strings.ToLower], and the load samples ([WorkerLoadRepository.ListSnapshots]). *)
Variable ToLower : string -> string.
Variable ListSnapshots : nat -> string -> Time -> Time -> Z -> result (list WorkerLoadSnapshot).

Definition rfc3339 (t : Time) : jvalue := JString (FormatRFC3339 local t).

(** A repository error, wrapped; and the zero value where the error is dropped. *)
Definition wrapped {A} (prefix : string) (m : M A) : M A :=
  attempt m (fun r => match r with Ok a => ret a | Err e => fail (Wrap prefix e) end).
Definition or_else {A} (d : A) (m : M A) : M A :=
  attempt m (fun r => match r with Ok a => ret a | Err _ => ret d end).

(** [append] until the limit: at least one element is appended before it is checked. *)
Fixpoint take_matching {A B} (keep : A -> bool) (f : A -> B) (limit : Z) (xs : list A) : list B :=
  match xs with
  | [] => []
  | x :: xs' => if keep x then f x :: (if limit <=? 1 then [] else take_matching keep f (limit - 1) xs')
                else take_matching keep f limit xs'
  end.

Definition queryTasks (args : string) : M jvalue :=
  let p := parse_args [("name", KString); ("status", KString); ("limit", KInt)] args in
  let limit := if int p "limit" <=? 0 then 20 else int p "limit" in
  tasks <- wrapped "list tasks" (task_query ListTasks) ;;
  let filtered := take_matching
    (fun task => negb (negb (bool_decide (str p "name" = "")) && negb (Contains (ToLower (task_Name task)) (ToLower (str p "name"))))
              && negb (negb (bool_decide (str p "status" = "")) && negb (bool_decide (task_Status task = str p "status"))))
    (fun task => gomap [("id", num (task_ID task)); ("name", JString (task_Name task)); ("type", JString (task_Type task));
       ("cron_expr", JString (task_CronExpr task)); ("status", JString (task_Status task));
       ("next_trigger_time", rfc3339 (task_NextTriggerTime task)); ("max_retry", num (task_MaxRetry task));
       ("timeout_seconds", num (task_TimeoutSeconds task))]) limit tasks in
  ret (gomap [("count", num (Z.of_nat (length filtered))); ("tasks", JArray filtered)]).

(** The last 24 hours. *)
Definition last_day : M (list TaskInstance) :=
  from <- Now ;; to <- Now ;; instance_query (ListInstancesByTimeRange (from - 24 * Hour) to 0 0).

Definition queryInstances (args : string) : M jvalue :=
  let p := parse_args [("status", KString); ("task_id", KInt); ("hours", KInt); ("limit", KInt)] args in
  let hours := if int p "hours" <=? 0 then 24 else int p "hours" in
  let limit := if int p "limit" <=? 0 then 20 else int p "limit" in
  instances <- wrapped "list instances" last_day ;;
  now <- Now ;;
  let cutoff := now + wrap64 (wrap64 (- hours) * Hour) in
  let filtered := take_matching
    (fun inst => negb (negb (bool_decide (str p "status" = "")) && negb (bool_decide (inst_Status inst = str p "status")))
              && negb ((0 <? int p "task_id") && negb (inst_TaskID inst =? int p "task_id"))
              && negb (Before (inst_TriggerTime inst) cutoff))
    (fun inst => gomap [("id", num (inst_ID inst)); ("task_id", num (inst_TaskID inst));
       ("schedule_instance_id", JString (inst_ScheduleInstanceID inst)); ("status", JString (inst_Status inst));
       ("worker_id", JString (inst_WorkerID inst)); ("trigger_time", rfc3339 (inst_TriggerTime inst));
       ("retry_count", num (inst_RetryCount inst)); ("error_code", JString (inst_ErrorCode inst));
       ("error_message", JString (truncateStr (inst_ErrorMessage inst) 500))]) limit instances in
  ret (gomap [("count", num (Z.of_nat (length filtered))); ("instances", JArray filtered)]).

(** [float64(a) / float64(b) * 100], 0 unless [b > 0]. *)
Definition percent (a b : Z) : float64 :=
  if 0 <? b then fmul (fdiv (of_int a) (of_int b)) (of_int 100) else of_int 0.

Definition count_if {A} (f : A -> bool) (xs : list A) : Z := Z.of_nat (length (filter (fun x => f x = true) xs)).
Definition online (w : WorkerNode) : bool := bool_decide (worker_Status w = "online").

Definition queryWorkers (args : string) : M jvalue :=
  workers <- wrapped "list workers" (worker_query ListWorkers) ;;
  ret (gomap [("total", num (Z.of_nat (length workers))); ("online", num (count_if online workers));
    ("workers", JArray ((fun w => gomap [("id", JString (worker_ID w)); ("hostname", JString (worker_Hostname w));
       ("status", JString (worker_Status w)); ("current_load", num (worker_CurrentLoad w));
       ("max_concurrency", num (worker_MaxConcurrency w));
       ("utilization_pct", JString (fmt_f1 (percent (worker_CurrentLoad w) (worker_MaxConcurrency w))));
       ("last_heartbeat_at", rfc3339 (worker_LastHeartbeatAt w))]) <$> workers))]).

Definition getTaskDetail (args : string) : M jvalue :=
  let id := int (parse_args [("task_id", KInt)] args) "task_id" in
  if id <=? 0 then fail (Errorf "task_id is required" []) else
  task <- wrapped "get task" (task_query (GetTask id)) ;;
  upstream <- or_else [] (task_query (ListUpstreamDeps id)) ;;
  downstream <- or_else [] (task_query (ListDownstreamTasks id)) ;;
  instances <- or_else [] last_day ;;
  let recent := (fun inst => gomap [("id", num (inst_ID inst)); ("status", JString (inst_Status inst));
       ("trigger_time", rfc3339 (inst_TriggerTime inst)); ("retry_count", num (inst_RetryCount inst));
       ("error_code", JString (inst_ErrorCode inst))])
       <$> take 10 (filter (fun i => inst_TaskID i = id) instances) in
  ret (gomap [("id", num (task_ID task)); ("name", JString (task_Name task)); ("type", JString (task_Type task));
    ("cron_expr", JString (task_CronExpr task)); ("payload", JString (truncateStr (task_Payload task) 500));
    ("status", JString (task_Status task)); ("timeout_seconds", num (task_TimeoutSeconds task));
    ("max_retry", num (task_MaxRetry task)); ("retry_policy", JString (task_RetryPolicy task));
    ("route_strategy", JString (task_RouteStrategy task)); ("next_trigger_time", rfc3339 (task_NextTriggerTime task));
    ("upstream_deps", JArray (num <$> upstream)); ("downstream_deps", JArray (num <$> downstream));
    ("recent_instances", JArray recent)]).

Definition sum64 (zs : list Z) : Z := foldl (fun a z => wrap64 (a + z)) 0 zs.

Definition getSystemHealth (args : string) : M jvalue :=
  tasks <- or_else [] (task_query ListTasks) ;;
  workers <- or_else [] (worker_query ListWorkers) ;;
  instances <- or_else [] last_day ;;
  let enabledTasks := count_if (fun t => bool_decide (task_Status t = "enabled")) tasks in
  let with_status (sts : list string) := count_if (fun i => bool_decide (inst_Status i ∈ sts)) instances in
  let total := Z.of_nat (length instances) in
  ret (gomap [
    ("tasks", gomap [("total", num (Z.of_nat (length tasks))); ("enabled", num enabledTasks);
       ("disabled", num (Z.of_nat (length tasks) - enabledTasks))]);
    ("workers", gomap [("total", num (Z.of_nat (length workers))); ("online", num (count_if online workers));
       ("avg_load_pct", JString (fmt_f1 (percent (sum64 (worker_CurrentLoad <$> workers)) (sum64 (worker_MaxConcurrency <$> workers)))))]);
    ("instances_24h", gomap [("total", num total); ("success", num (with_status ["success"]));
       ("failed", num (with_status ["failed"; "timeout"])); ("running", num (with_status ["running"]));
       ("failure_rate", JString (fmt_f1 (percent (with_status ["failed"; "timeout"]) total) +:+ "%"))])]).

Definition analyzeFailure (args : string) : M jvalue :=
  let id := int (parse_args [("instance_id", KInt)] args) "instance_id" in
  if id <=? 0 then fail (Errorf "instance_id is required" []) else
  inst <- wrapped "get instance" (instance_query (GetInstance id)) ;;
  task <- wrapped "get task" (task_query (GetTask (inst_TaskID inst))) ;;
  ret (gomap [("instance_id", num (inst_ID inst)); ("task_id", num (inst_TaskID inst)); ("task_type", JString (task_Type task));
    ("status", JString (inst_Status inst)); ("error_code", JString (inst_ErrorCode inst));
    ("error_message", JString (inst_ErrorMessage inst)); ("retry_count", num (inst_RetryCount inst));
    ("trigger_time", rfc3339 (inst_TriggerTime inst)); ("worker_id", JString (inst_WorkerID inst))]).

Definition create_fields : list (string * kind) :=
  [("name", KString); ("type", KString); ("cron_expr", KString); ("payload", KString); ("image", KString);
   ("timeout_seconds", KInt); ("max_retry", KInt); ("retry_policy", KString)].

(** The row the agent creates: without tenant, labels or image checks. *)
Definition agent_task (p : Args) (next : Time) : Task :=
  {| task_ID := 0; task_Name := str p "name"; task_Type := str p "type"; task_CronExpr := str p "cron_expr";
     task_Payload := str p "payload"; task_Image := str p "image"; task_Status := "enabled";
     task_TimeoutSeconds := (if int p "timeout_seconds" <=? 0 then 300 else int p "timeout_seconds");
     task_MaxRetry := (if int p "max_retry" <=? 0 then 3 else int p "max_retry");
     task_RetryPolicy := (if bool_decide (str p "retry_policy" = "") then "fixed_interval" else str p "retry_policy");
     task_RetryOnErrors := ""; task_RetryIntervalSeconds := 0; task_RetryWindowSeconds := 0;
     task_RouteStrategy := "round_robin"; task_Labels := ""; task_NextTriggerTime := next; task_TenantID := 0;
     task_Version := 0; task_TotalShards := 0; task_IdempotencyKey := ""; task_TriggerType := ""; task_EventName := "";
     task_CreatedAt := zero_time; task_UpdatedAt := zero_time |}.

Definition createTask (args : string) : M jvalue :=
  match v ← Unmarshal args; into_struct (set_arg create_fields) v no_args with
  | None => fail (Wrap "invalid args" (Sentinel "json"))
  | Some p =>
      if bool_decide (str p "name" = "") || bool_decide (str p "type" = "") || bool_decide (str p "cron_expr" = "")
         || bool_decide (str p "payload" = "")
      then fail (Errorf "name, type, cron_expr, and payload are required" []) else
      now <- Now ;;
      match NextAfter local now (str p "cron_expr") with
      | Err _ => fail (Errorf "invalid cron expression: %s" [str p "cron_expr"])
      | Ok _ =>
          now <- Now ;;
          let nextTrigger := match NextAfter local now (str p "cron_expr") with Ok t => t | Err _ => zero_time end in
          task <- wrapped "create task" (task_op (fun t => CreateTask t (agent_task p nextTrigger))) ;;
          ret (gomap [("created", JBool true); ("task_id", num (task_ID task)); ("name", JString (task_Name task));
            ("message", JString (Sprintf "任务 %s (ID: %d) 创建成功，下次触发时间 %s"
               [task_Name task; fmt_d (task_ID task); FormatRFC3339 local nextTrigger]))])
      end
  end.

Definition triggerTask (args : string) : M jvalue :=
  let id := int (parse_args [("task_id", KInt)] args) "task_id" in
  if id <=? 0 then fail (Errorf "task_id is required" []) else
  task <- wrapped "get task" (task_query (GetTask id)) ;;
  now <- Now ;;
  task <- wrapped "update task" (task_op (fun t => UpdateTask t (set_task_NextTriggerTime now task))) ;;
  ret (gomap [("triggered", JBool true); ("task_id", num (task_ID task)); ("name", JString (task_Name task));
    ("message", JString (Sprintf "任务 %s 已触发，将在下一个调度周期执行" [task_Name task]))]).

Definition pauseTask (args : string) : M jvalue :=
  let p := parse_args [("task_id", KInt); ("action", KString)] args in
  let id := int p "task_id" in let action := str p "action" in
  if id <=? 0 then fail (Errorf "task_id is required" []) else
  task <- wrapped "get task" (task_query (GetTask id)) ;;
  let store (st verb : string) : M jvalue :=
    task <- wrapped "update task" (task_op (fun t => UpdateTask t (set_task_Status st task))) ;;
    ret (gomap [("task_id", num (task_ID task)); ("name", JString (task_Name task)); ("status", JString (task_Status task));
      ("message", JString (Sprintf "任务 %s 已%s" [task_Name task; verb]))]) in
  if bool_decide (action = "pause") then
    if bool_decide (task_Status task = "disabled") then ret (gomap [("message", JString "任务已经是暂停状态")])
    else store "disabled" "暂停"
  else if bool_decide (action = "resume") then
    if bool_decide (task_Status task = "enabled") then ret (gomap [("message", JString "任务已经是运行状态")])
    else store "enabled" "恢复"
  else fail (Errorf "action must be pause or resume, got %q" [action]).

(** The instance the agent's retry creates. *)
Definition agent_retry (task : Task) (inst : TaskInstance) (now : Time) : TaskInstance :=
  {| inst_ID := 0; inst_TaskID := task_ID task;
     inst_ScheduleInstanceID := inst_ScheduleInstanceID inst +:+ "-retry-" +:+ fmt_d (wrap64 (inst_RetryCount inst + 1));
     inst_ShardNo := inst_ShardNo inst; inst_ShardTotal := inst_ShardTotal inst; inst_TriggerTime := now;
     inst_DispatchTime := zero_time; inst_StartedAt := zero_time; inst_FinishedAt := zero_time; inst_WorkerID := "";
     inst_Status := "pending"; inst_RetryCount := wrap64 (inst_RetryCount inst + 1); inst_ErrorCode := "";
     inst_ErrorMessage := ""; inst_AnalysisJSON := ""; inst_NextRetryTime := zero_time; inst_TraceID := "";
     inst_CreatedAt := zero_time; inst_UpdatedAt := zero_time |}.

Definition retryFailedInstance (args : string) : M jvalue :=
  let id := int (parse_args [("instance_id", KInt)] args) "instance_id" in
  if id <=? 0 then fail (Errorf "instance_id is required" []) else
  inst <- wrapped "get instance" (instance_query (GetInstance id)) ;;
  if negb (bool_decide (inst_Status inst = "failed")) && negb (bool_decide (inst_Status inst = "timeout"))
  then ret (gomap [("message", JString (Sprintf "实例状态为 %s，无需重试" [inst_Status inst]))]) else
  task <- wrapped "get task" (task_query (GetTask (inst_TaskID inst))) ;;
  now <- Now ;;
  i <- wrapped "create retry instance" (instance_op (fun t => CreateInstance t (agent_retry task inst now))) ;;
  ret (gomap [("instance_id", num (inst_ID i)); ("task_name", JString (task_Name task));
    ("message", JString (Sprintf "已为任务 %s 创建重试实例" [task_Name task]))]).

Definition deleteTask (args : string) : M jvalue :=
  let id := int (parse_args [("task_id", KInt)] args) "task_id" in
  if id <=? 0 then fail (Errorf "task_id is required" []) else
  task <- wrapped "get task" (task_query (GetTask id)) ;;
  wrapped "delete task" (task_op' (DeleteTask id)) ;;
  ret (gomap [("task_name", JString (task_Name task)); ("message", JString (Sprintf "任务 %s 已删除" [task_Name task]))]).

Definition getWorkerLoadHistory (args : string) : M jvalue :=
  let p := parse_args [("worker_id", KString); ("hours", KInt)] args in
  let hours := if int p "hours" <=? 0 then 24 else int p "hours" in
  now <- Now ;;
  to <- Now ;;
  r <- external (fun n => ListSnapshots n (str p "worker_id") (now + wrap64 (wrap64 (- hours) * Hour)) to 200) ;;
  match r with
  | Err e => fail (Wrap "list snapshots" e)
  | Ok snapshots =>
      let result := (fun s => gomap [("worker_id", JString (snap_WorkerID s)); ("current_load", num (snap_CurrentLoad s));
         ("max_concurrency", num (snap_MaxConcurrency s)); ("status", JString (snap_Status s));
         ("recorded_at", rfc3339 (snap_RecordedAt s))]) <$> snapshots in
      ret (gomap [("snapshots", JArray result); ("count", num (Z.of_nat (length result)))])
  end.

(** ** The registry *)

(** [AllTools] in a [Registry]: what each name runs. *)
Definition registry : list (Tool * (string -> M jvalue)) :=
  [(queryTasks_Definition, queryTasks); (queryInstances_Definition, queryInstances);
   (queryWorkers_Definition, queryWorkers); (getTaskDetail_Definition, getTaskDetail);
   (getSystemHealth_Definition, getSystemHealth); (analyzeFailure_Definition, analyzeFailure);
   (createTask_Definition, createTask); (triggerTask_Definition, triggerTask); (pauseTask_Definition, pauseTask);
   (retryFailedInstance_Definition, retryFailedInstance); (deleteTask_Definition, deleteTask);
   (getWorkerLoadHistory_Definition, getWorkerLoadHistory)].

(** In the order a map is ranged over. *)
Definition Definitions `{MapRange} : list Tool := map_range registry.*1.

Definition Execute (name args : string) : M jvalue :=
  match find (fun t => bool_decide (tool_Name t.1 = name)) registry with
  | None => fail (Errorf "unknown tool: %s" [name])
  | Some t => t.2 args
  end.
End Tools.

(** ** Tools and the lifecycle *)

Section ToolsLifecycle.
Context `{BackendContract} `{Env}.
Variable ToLower : string -> string.
Variable ListSnapshots : nat -> string -> Time -> Time -> Z -> result (list WorkerLoadSnapshot).

Lemma tracked_Execute name args m0 : moves (keeps (tracked m0 [] [])) (Execute ToLower ListSnapshots name args).
Proof.
  assert (forall t, moves (keeps (tracked m0 [] [])) (task_op (fun now => CreateTask now t))) as Hc
    by (intros t; apply tracked_task_op; intros; by apply create_task_inv).
  assert (forall id, moves (keeps (tracked m0 [] [])) (task_op' (DeleteTask id))) as Hd
    by (intros id; apply tracked_task_op'; intros; by apply delete_task_inv).
  unfold Execute. destruct (find _ _) as [[t f]|] eqn:E; [|solve_tracked].
  apply find_some in E as [Hin _]. cbn [snd]. unfold registry in Hin. simpl in Hin.
  repeat destruct Hin as [[= <- <-]|Hin]; [..|done].
  all: unfold queryTasks, queryInstances, queryWorkers, getTaskDetail, getSystemHealth, analyzeFailure, createTask,
    triggerTask, pauseTask, retryFailedInstance, deleteTask, getWorkerLoadHistory, wrapped, or_else, last_day,
    task_query, instance_query, worker_query; solve_tracked; try (apply closes_keeps; solve_tracked).
Qed.

Lemma Execute_lifecycle name args : moves lifecycle (Execute ToLower ListSnapshots name args).
Proof. apply lifecycle_intro. intros m0. apply tracked_Execute. Qed.
End ToolsLifecycle.

(** ** What a tool can reach *)

(** Which tools write tasks, and which instances. *)
Definition writes_tasks (name : string) : bool :=
  bool_decide (name ∈ ["create_task"; "trigger_task"; "pause_task"; "delete_task"]).
Definition writes_instances (name : string) : bool := bool_decide (name = "retry_failed_instance").

(** Only the stores a flag names may differ, and the clock and call counters. *)
Definition reach `{Backend} (tasks insts : bool) (w w' : World) : Prop :=
  (tasks = false -> w_tasks w' = w_tasks w) /\ (insts = false -> w_instances w' = w_instances w) /\
  w_workers w' = w_workers w /\ w_rrCounter w' = w_rrCounter w /\ w_limiter w' = w_limiter w /\ w_bp w' = w_bp w /\
  w_sent w' = w_sent w /\ w_alerts w' = w_alerts w /\ w_jobs w' = w_jobs w.

#[export] Instance reach_preorder `{Backend} tasks insts : PreOrder (reach tasks insts).
Proof.
  split; [by intros w|]. intros w1 w2 w3 (H1 & H2 & ?) (H3 & H4 & ?). unfold reach.
  split_and!; intuition congruence.
Qed.

Section Reach.
Context `{Backend} `{Env}.
Variable ToLower : string -> string.
Variable ListSnapshots : nat -> string -> Time -> Time -> Z -> result (list WorkerLoadSnapshot).

Lemma reach_Now tasks insts : moves (reach tasks insts) Now.
Proof. by intros w. Qed.
Lemma reach_external tasks insts {A} (f : nat -> A) : moves (reach tasks insts) (external f).
Proof. by intros w. Qed.
Lemma reach_task_op {A} (f : Time -> TS -> TS * result A) : moves (reach true false) (task_op f).
Proof. intros w. unfold task_op. by destruct (f _ _). Qed.
Lemma reach_task_op' {A} (f : TS -> TS * result A) : moves (reach true false) (task_op' f).
Proof. intros w. unfold task_op'. by destruct (f _). Qed.
Lemma reach_instance_op {A} (f : Time -> IS -> IS * result A) : moves (reach false true) (instance_op f).
Proof. intros w. unfold instance_op. by destruct (f _ _). Qed.
#[local] Hint Resolve reach_Now reach_external reach_task_op reach_task_op' reach_instance_op : moves.

(** What the chat agent can do to the system: no tool touches the workers, sends a
    message or raises an alert; only [create_task], [trigger_task], [pause_task] and
    [delete_task] write tasks, and only [retry_failed_instance] writes instances, so
    deleting a task leaves its instances. *)
Theorem tool_reach name args :
  moves (reach (writes_tasks name) (writes_instances name)) (Execute ToLower ListSnapshots name args).
Proof.
  unfold Execute. destruct (find _ _) as [[t f]|] eqn:E; [|solve_moves].
  apply find_some in E as [Hin Hname]. cbn [fst snd] in *. apply bool_decide_eq_true in Hname as <-.
  unfold registry in Hin. simpl in Hin. repeat destruct Hin as [[= <- <-]|Hin]; [..|done].
  all: cbn -[moves writes_tasks writes_instances].
  all: repeat match goal with |- context [writes_tasks ?n] => let b := eval vm_compute in (writes_tasks n) in change (writes_tasks n) with b end.
  all: repeat match goal with |- context [writes_instances ?n] => let b := eval vm_compute in (writes_instances n) in change (writes_instances n) with b end.
  all: unfold queryTasks, queryInstances, queryWorkers, getTaskDetail, getSystemHealth, analyzeFailure, createTask,
    triggerTask, pauseTask, retryFailedInstance, deleteTask, getWorkerLoadHistory, wrapped, or_else, last_day,
    task_query, instance_query, worker_query; solve_moves.
Qed.
End Reach.
