(* ===== verification/TaskRows.v ===== *)
(** The handlers that write rows of tasks, as goroutines interleaved between every read of a
    row and the write that follows from it: the calls of the task service
    (service/task_service.go), the downstream tasks of a report
    (service/task_runtime_service.go), the scans of the trigger loop (trigger/loop.go), the
    engine's callback (cmd/scheduler/main.go) and the chat agent's tools
    (internal/ai/tools). Each reads a whole row and writes a whole row back later, and
    no write looks at the version of what it overwrites. *)
From S2P Require Import Prelude Threads GoStd GoTime GoFormat Cron Model Json Labels Repo RateLimit TestStore World Sample.
From S2P Require Import Dispatch Router Lifecycle Runtime Trigger OnTrigger TaskService Adapter Tools.

#[local] Open Scope prog_scope.

(** ** The goroutines *)

(** The service calls on one task. *)
Inductive edit := Updates (req : TaskUpsertRequest) | Pauses | Resumes | Triggers | Deletes.

(** Where a goroutine stands: just before the access named. *)
Inductive editor :=
| Ordered (tid : Z) (req : TaskUpsertRequest)      (** the service's [CreateTask] *)
| Called (tid id : Z) (e : edit)                    (** another service call: [GetTask] *)
| Saving (task : Task) (deps : option (list Z))     (** [UpdateTask] *)
| Linking (id : Z) (deps : list Z)                  (** [syncDependencies] *)
| Dropping (id : Z)                                 (** [DeleteTask] *)
| Reported (instance : TaskInstance)                (** a success: [ListDownstreamTasks] *)
| Notified (ids : list Z)                           (** [GetTask] of the next downstream task *)
| Nudging (task : Task) (ids : list Z)              (** [UpdateTask] of that task *)
| Scanning                                          (** a scan, up to its list of tasks *)
| Handling (tasks : list Task)                      (** [handleTask] of the next of them *)
| Waking (id : Z)                                   (** the engine's callback: [GetTask] *)
| Launching (task : Task)                           (** the instance it creates and dispatches *)
| ToolCreates (args : string)                       (** the agent's tools: [create_task], *)
| ToolTriggers (args : string)                      (** [trigger_task], *)
| ToolPauses (args : string)                        (** [pause_task] *)
| ToolDeletes (args : string)                       (** and [delete_task]: [GetTask] *)
| ToolSaves (task : Task)                           (** their [UpdateTask] *)
| ToolDrops (id : Z)                                (** and [DeleteTask] *)
| Edited.

Section Editors.
Context `{Backend} `{Env} `{MapRange}.

(** What a scan goes over. *)
Definition due_tasks : M (list Task) :=
  c <-? instance_query (CountInstancesByStatus "pending") ;;
  match c with
  | Err _ => ret []
  | Ok pending =>
      go <- scan_gate pending ;;
      if negb go then ret [] else
      cached <- from_cache ;;
      match cached with
      | [] => r <-? task_op (fun now s => (s, ListDueTasks now 100 s)) ;; ret (match r with Err _ => [] | Ok tasks => tasks end)
      | tasks => ret tasks
      end
  end.

(** One access, and where the goroutine stands then; an error ends it. [handleTask] reads
    no row, and writes one once, at its end: it is one step. *)
Definition edit_next (g : editor) : M editor :=
  match g with
  | Ordered tid req =>
      task <- buildTask 0 req ;;
      let task := if task_TenantID task =? 0 then set_task_TenantID tid task else task in
      task <- task_op (fun t => CreateTask t task) ;;
      ret (Linking (task_ID task) (up_DependsOn req))
  | Called tid id e =>
      current <- owned tid id ;;
      match e with
      | Updates req =>
          task <- buildTask id req ;;
          let task := set_task_Version (task_Version current) (set_task_CreatedAt (task_CreatedAt current) task) in
          task <- (if IsZero (task_NextTriggerTime task) then
                     let task := set_task_NextTriggerTime (task_NextTriggerTime current) task in
                     if negb (bool_decide (task_CronExpr task = task_CronExpr current)) &&
                        negb (bool_decide (task_CronExpr task = ""))
                     then next <- next_or_invalid (task_CronExpr task) ;; ret (set_task_NextTriggerTime next task)
                     else ret task
                   else ret task) ;;
          ret (Saving task (Some (up_DependsOn req)))
      | Pauses => ret (Saving (set_task_Status "disabled" current) None)
      | Resumes =>
          let task := set_task_Status "enabled" current in
          task <- (if bool_decide (task_CronExpr task = "") then ret task
                   else next <- next_or_invalid (task_CronExpr task) ;; ret (set_task_NextTriggerTime next task)) ;;
          ret (Saving task None)
      | Triggers =>
          if negb (bool_decide (task_Status current = "enabled")) then fail ErrTaskNotEnabled else
          now <- Now ;;
          ret (Saving (set_task_NextTriggerTime (now - Second) current) None)
      | Deletes => ret (Dropping id)
      end
  | Saving task deps =>
      task <- task_op (fun t => UpdateTask t task) ;;
      ret (match deps with Some ds => Linking (task_ID task) ds | None => Edited end)
  | Linking id deps => syncDependencies id deps ;; ret Edited
  | Dropping id => task_op' (DeleteTask id) ;; ret Edited
  | Reported instance =>
      r <-? task_query (ListDownstreamTasks (inst_TaskID instance)) ;;
      ret (match r with Err _ => Edited | Ok downstream => Notified downstream end)
  | Notified [] => ret Edited
  | Notified (id :: ids) =>
      r <-? task_query (GetTask id) ;;
      match r with
      | Err _ => ret (Notified ids)
      | Ok task =>
          if negb (bool_decide (task_Status task = "enabled")) then ret (Notified ids)
          else now <- Now ;; ret (Nudging (set_task_NextTriggerTime now task) ids)
      end
  | Nudging task ids => _ignore task_op (fun t => UpdateTask t task) ;; ret (Notified ids)
  | Scanning => tasks <- due_tasks ;; ret (Handling tasks)
  | Handling [] => ret Edited
  | Handling (task :: tasks) =>
      ok <- allow_dispatch ;;
      if negb ok then ret Edited else _ignore handleTask task ;; ret (Handling tasks)
  | Waking id =>
      allowed <- allow_dispatch ;;
      if negb allowed then ret Edited else
      r <-? task_query (GetTask id) ;;
      match r with
      | Err _ => ret Edited
      | Ok task => if negb (bool_decide (task_Status task = "enabled")) then ret Edited else ret (Launching task)
      end
  | Launching task =>
      idTime <- Now ;;
      trigger <- Now ;;
      c <-? instance_op (fun t => CreateInstance t
              (new_pending (task_ID task) (newScheduleInstanceID idTime (task_ID task)) trigger 0 0 0)) ;;
      match c with Err _ => ret Edited | Ok instance => launch_instance task instance ;; ret Edited end
  | ToolCreates args => createTask args ;; ret Edited
  | ToolTriggers args =>
      let id := int (parse_args [("task_id", KInt)] args) "task_id" in
      if id <=? 0 then fail (Errorf "task_id is required" []) else
      task <- wrapped "get task" (task_query (GetTask id)) ;;
      now <- Now ;;
      ret (ToolSaves (set_task_NextTriggerTime now task))
  | ToolPauses args =>
      let p := parse_args [("task_id", KInt); ("action", KString)] args in
      let id := int p "task_id" in let action := str p "action" in
      if id <=? 0 then fail (Errorf "task_id is required" []) else
      task <- wrapped "get task" (task_query (GetTask id)) ;;
      if bool_decide (action = "pause") then
        if bool_decide (task_Status task = "disabled") then ret Edited else ret (ToolSaves (set_task_Status "disabled" task))
      else if bool_decide (action = "resume") then
        if bool_decide (task_Status task = "enabled") then ret Edited else ret (ToolSaves (set_task_Status "enabled" task))
      else fail (Errorf "action must be pause or resume, got %q" [action])
  | ToolDeletes args =>
      let id := int (parse_args [("task_id", KInt)] args) "task_id" in
      if id <=? 0 then fail (Errorf "task_id is required" []) else
      wrapped "get task" (task_query (GetTask id)) ;;
      ret (ToolDrops id)
  | ToolSaves task => wrapped "update task" (task_op (fun t => UpdateTask t task)) ;; ret Edited
  | ToolDrops id => wrapped "delete task" (task_op' (DeleteTask id)) ;; ret Edited
  | Edited => ret Edited
  end.

#[export] Program Instance editors : Goroutines World gerror editor := {| thread_code := edit_next; halted := Edited |}.
Next Obligation. done. Qed.
End Editors.

(** ** The goroutines are the handlers *)

Ltac follow := follow_with ltac:(cbn [thread_code editors edit_next]; cbv zeta).

Section Undisturbed.
Context `{Backend} `{Env} `{MapRange}.

(** The calls of the service. *)
Definition service_call (id : Z) (e : edit) : task_call :=
  match e with
  | Updates req => CallUpdate id req | Pauses => CallPause id | Resumes => CallResume id
  | Triggers => CallTrigger id | Deletes => CallDelete id
  end.

Lemma runs_ended {A} n g (h : M A) : runs n g h -> runs n g (_ <- h ;; ret tt).
Proof. intros Hr. eapply runs_eq; [exact Hr|]. intros w. unfold bind, ret. by destruct (h w) as [w' [a|e]]. Qed.

Lemma runs_create tid req : runs 2 (Ordered tid req) (run_call tid (CallCreate req)).
Proof. cbn [run_call]. apply runs_ended. unfold svc_CreateTask. follow. Qed.

Lemma runs_call tid id e : runs 3 (Called tid id e) (run_call tid (service_call id e)).
Proof.
  destruct e as [req| | | |]; cbn [service_call run_call]; try apply runs_ended;
    unfold svc_UpdateTask, PauseTask, ResumeTask, TriggerTask, svc_DeleteTask; follow.
Qed.

(** The agent's tools. *)
Lemma runs_create_task args : runs 1 (ToolCreates args) (createTask args).
Proof. follow. Qed.
Lemma runs_trigger_task args : runs 2 (ToolTriggers args) (triggerTask args).
Proof. unfold triggerTask. follow. Qed.
Lemma runs_pause_task args : runs 2 (ToolPauses args) (pauseTask args).
Proof. unfold pauseTask. follow. Qed.
Lemma runs_delete_task args : runs 2 (ToolDeletes args) (deleteTask args).
Proof. unfold deleteTask. follow. Qed.

(** The downstream tasks of a success. *)
Lemma runs_notified ids n : (2 * length ids < n)%nat -> runs n (Notified ids) (for_each fire_one ids).
Proof.
  revert n. induction ids as [|id ids IH]; intros n Hn; (destruct n as [|n]; [lia|]); cbn [for_each length] in *; [follow|].
  destruct n as [|n]; [lia|]. unfold fire_one. follow.
Qed.

Lemma comes_to_fireDownstream i : comes_to (Reported i) (fireDownstream i).
Proof.
  intros w. unfold fireDownstream. destruct (ListDownstreamTasks (inst_TaskID i) (w_tasks w)) as [ids|e] eqn:E.
  - exists (S (S (2 * length ids))). unfold attempt, task_query, reads_res. rewrite E, <- (runs_notified ids (S (2 * length ids))) by lia.
    cbn [alone]. unfold thread_step at 1, goroutine_threads at 1. cbn [thread_code editors edit_next].
    unfold attempt, task_query, reads_res. by rewrite E.
  - exists 1%nat. cbn [alone]. unfold thread_step, goroutine_threads. cbn [thread_code editors edit_next].
    unfold attempt, task_query, reads_res. by rewrite E.
Qed.

(** The trigger loop. *)
Lemma runs_handling ts n : (length ts < n)%nat -> runs n (Handling ts) (handle_all ts).
Proof.
  revert n. induction ts as [|t ts IH]; intros n Hn; (destruct n as [|n]; [lia|]); cbn [handle_all length] in *; follow.
Qed.

Lemma scan_split w : scan w = (tasks <- due_tasks ;; handle_all tasks) w.
Proof.
  unfold scan, due_tasks, attempt, bind, ret. destruct (instance_query _ w) as [w1 [pending|e]]; [|done].
  destruct (scan_gate pending w1) as [w2 [go|e]]; [|done]. destruct (negb go); [done|].
  destruct (from_cache w2) as [w3 [[|t ts]|e]]; [|done..]. by destruct (task_op _ w3) as [w4 [ts|e]].
Qed.

Lemma comes_to_scan : comes_to Scanning scan.
Proof.
  intros w. rewrite scan_split. revert w. apply (comes_to_bind Scanning due_tasks Handling handle_all); [done|].
  intros ts w. exists (S (length ts)). by apply runs_handling; lia.
Qed.

(** The engine's callback. *)
Lemma runs_waking id : runs 2 (Waking id) (on_trigger id).
Proof. unfold on_trigger. follow. Qed.
End Undisturbed.

(** ** Definitions of tasks *)

(** What a task is: all but its status, its next time and its bookkeeping. *)
Definition definition_of (t : Task) : Task :=
  set_task_Status "" (set_task_NextTriggerTime zero_time (set_task_Version 0
    (set_task_CreatedAt zero_time (set_task_UpdatedAt zero_time t)))).

Lemma definition_updated now cur t : definition_of (updated_task now cur t) = definition_of t.
Proof. done. Qed.
Lemma definition_built id req next : definition_of (built_task id req next) = definition_of (built_task id req zero_time).
Proof. done. Qed.

Section Origins.
Context `{BackendSpec} `{Env} `{MapRange}.
Abbreviation tasks w := (tasks_of (w_tasks w)).

(** The goroutines there may be, and the rows at the start. *)
Variable P : editor -> Prop.
Variable m0 : gmap Z Task.

Definition begins (g : editor) : bool :=
  match g with
  | Ordered _ _ | Called _ _ _ | Reported _ | Scanning | Waking _
  | ToolCreates _ | ToolTriggers _ | ToolPauses _ | ToolDeletes _ => true
  | _ => false
  end.

(** Where the definition of a task may come from: a row of the start, one request to
    create it, or one request to update it by a tenant who owned it before. *)
Inductive came_from : Z -> Task -> Prop :=
| from_row id t : m0 !! id = Some t -> came_from id (definition_of t)
| from_create tid req id : P (Ordered tid req) ->
    came_from id (definition_of (set_task_TenantID (if up_TenantID req =? 0 then tid else up_TenantID req) (built_task id req zero_time)))
| from_tool args p id : P (ToolCreates args) -> Unmarshal args ≫= (fun v => into_struct (set_arg create_fields) v no_args) = Some p ->
    came_from id (definition_of (set_task_ID id (agent_task p zero_time)))
| from_update tid id req d : came_from id d -> checkTenant tid d = None -> P (Called tid id (Updates req)) ->
    came_from id (definition_of (built_task id req zero_time)).

Definition sound (t : Task) : Prop := came_from (task_ID t) (definition_of t).
Definition rows_sound (w : World) : Prop := tasks_inv (w_tasks w) /\ map_Forall (fun _ => sound) (tasks w).

(** ** What the effects keep *)

Definition same_rows (w w' : World) : Prop := w_tasks w' = w_tasks w.
#[local] Instance same_rows_preorder : PreOrder same_rows.
Proof. split; [done|]. unfold same_rows. intros x y z; congruence. Qed.

Lemma rows_Now : moves same_rows Now.
Proof. done. Qed.
Lemma rows_external {A} (f : nat -> A) : moves same_rows (external f).
Proof. done. Qed.
Lemma rows_instance_op {A} (f : Time -> IS -> IS * result A) : moves same_rows (instance_op f).
Proof. intros w. unfold same_rows, instance_op. by destruct (f _ _). Qed.
Lemma rows_Pick opts : moves same_rows (Pick opts).
Proof. intros w. apply (Pick_routing opts w). Qed.
Lemma rows_Release worker : moves same_rows (Release worker).
Proof. intros w. apply (Release_routing worker w). Qed.
Lemma rows_Dispatch worker req : moves same_rows (Dispatch worker req).
Proof. intros w. apply (Dispatch_network worker req w). Qed.
Lemma rows_bp b : moves same_rows (modify (E:=gerror) (set_w_bp b)).
Proof. done. Qed.
Lemma rows_ListDue limit : moves same_rows (task_op (fun now s => (s, ListDueTasks now limit s))).
Proof. done. Qed.

Lemma keeps_rows {A} (m : M A) : moves same_rows m -> moves (keeps rows_sound) m.
Proof. intros Hm w [Hi Hs]. unfold rows_sound. specialize (Hm w). unfold same_rows in Hm. by rewrite Hm. Qed.

Lemma keeps_task_op {A} (f : Time -> TS -> TS * result A) :
  (forall now s, tasks_inv s -> map_Forall (fun _ => sound) (tasks_of s) ->
     tasks_inv (f now s).1 /\ map_Forall (fun _ => sound) (tasks_of (f now s).1)) -> moves (keeps rows_sound) (task_op f).
Proof. intros Hf w [Hi Hs]. unfold task_op. specialize (Hf (clock (w_reads w)) _ Hi Hs). by destruct (f _ _). Qed.

Lemma keeps_task_op' {A} (f : TS -> TS * result A) :
  (forall s, tasks_inv s -> map_Forall (fun _ => sound) (tasks_of s) ->
     tasks_inv (f s).1 /\ map_Forall (fun _ => sound) (tasks_of (f s).1)) -> moves (keeps rows_sound) (task_op' f).
Proof. intros Hf w [Hi Hs]. unfold task_op'. specialize (Hf _ Hi Hs). by destruct (f _). Qed.

Lemma keeps_UpdateTask t : sound t -> moves (keeps rows_sound) (task_op (fun now => UpdateTask now t)).
Proof.
  intros Ht. apply keeps_task_op. intros now s Hi Hs. destruct (UpdateTask now t s) as [s' [t'|e]] eqn:E; simpl.
  - destruct (UpdateTask_ok _ _ _ _ _ Hi E) as (? & (cur & _ & ->) & -> & _). split; [done|]. by apply map_Forall_insert_2.
  - by destruct (UpdateTask_err _ _ _ _ _ Hi E) as (? & -> & _).
Qed.

Lemma keeps_CreateTask t : (forall id, sound (set_task_ID id t)) -> moves (keeps rows_sound) (task_op (fun now => CreateTask now t)).
Proof.
  intros Ht. apply keeps_task_op. intros now s Hi Hs. destruct (CreateTask now t s) as [s' [t'|e]] eqn:E; simpl.
  - destruct (CreateTask_ok _ _ _ _ _ Hi E) as (? & _ & He & -> & _). split; [done|]. apply map_Forall_insert_2; [|done].
    rewrite He. apply (Ht (task_ID t')).
  - by destruct (CreateTask_err _ _ _ _ _ Hi E) as (? & -> & _).
Qed.

Lemma keeps_DeleteTask id : moves (keeps rows_sound) (task_op' (DeleteTask id)).
Proof.
  apply keeps_task_op'. intros s Hi Hs. destruct (DeleteTask id s) as [s' [u|e]] eqn:E; simpl.
  - destruct (DeleteTask_ok _ _ _ _ Hi E) as (? & -> & _). split; [done|]. by apply map_Forall_delete.
  - by destruct (DeleteTask_err _ _ _ _ Hi E) as (? & -> & _).
Qed.

Lemma keeps_AddDependency a b : moves (keeps rows_sound) (task_op' (AddDependency a b)).
Proof. apply keeps_task_op'. intros s Hi Hs. by destruct (AddDependency_keeps a b s Hi) as [? ->]. Qed.
Lemma keeps_RemoveDependency a b : moves (keeps rows_sound) (task_op' (RemoveDependency a b)).
Proof. apply keeps_task_op'. intros s Hi Hs. by destruct (RemoveDependency_keeps a b s Hi) as [? ->]. Qed.
#[local] Hint Resolve rows_Now rows_external rows_instance_op rows_Pick rows_Release rows_Dispatch rows_bp rows_ListDue : moves.
#[local] Hint Resolve keeps_rows keeps_UpdateTask keeps_CreateTask keeps_DeleteTask keeps_AddDependency keeps_RemoveDependency : moves.

Lemma keeps_handleTask t : sound t -> moves (keeps rows_sound) (handleTask t).
Proof.
  intros Ht. assert (forall b, moves same_rows (deps_satisfied b)) as Hd
    by (induction b as [|d b IH]; cbn [deps_satisfied]; unfold instance_query; solve_moves).
  assert (forall next, sound (set_task_NextTriggerTime next t)) as Hn by done.
  assert (forall shard, moves (keeps rows_sound) (handle_shard t shard)) as Hh by (intros; unfold handle_shard, place_shard; solve_moves).
  assert (forall n shard, moves (keeps rows_sound) (shard_loop t n shard)) as Hl
    by (induction n as [|n IH]; intros shard; cbn [shard_loop]; solve_moves).
  unfold handleTask, task_query. solve_moves.
Qed.

Lemma keeps_launch t i : sound t -> moves (keeps rows_sound) (launch_instance t i).
Proof.
  intros Ht. assert (forall next, sound (set_task_NextTriggerTime next t)) as Hn by done.
  unfold launch_instance, reschedule. solve_moves.
Qed.

Lemma keeps_sync id ds : moves (keeps rows_sound) (syncDependencies id ds).
Proof. unfold syncDependencies, task_query. solve_moves. Qed.

Lemma keeps_createTask args : P (ToolCreates args) -> moves (keeps rows_sound) (createTask args).
Proof.
  intros HP. unfold createTask. destruct (_ ≫= _) as [p|] eqn:Hp; [|solve_moves].
  assert (forall next id, sound (set_task_ID id (agent_task p next))) as Ha by (intros next id; by apply (from_tool args)).
  unfold wrapped. solve_moves.
Qed.
#[local] Hint Resolve keeps_handleTask keeps_launch keeps_sync keeps_createTask : moves.

(** ** What the reads give *)

Lemma gives_kept {A} (m : M A) : moves (keeps rows_sound) m -> gives rows_sound (fun _ => True) m.
Proof. intros Hm. apply gives_any, Hm. Qed.

Lemma gives_GetTask id : gives rows_sound (fun t => task_ID t = id /\ sound t) (task_query (GetTask id)).
Proof.
  apply gives_read. intros w t [Hi Hs] Hg. apply GetTask_ok in Hg. split; [by eapply tasks_inv_id|]. by eapply Hs.
Qed.

Lemma gives_wrapped {A} (Q : A -> Prop) prefix (m : M A) : gives rows_sound Q m -> gives rows_sound Q (wrapped prefix m).
Proof. intros Hm. unfold wrapped. eapply gives_attempt; [exact Hm|]. intros [a|e] Ha; [by apply gives_ret, Ha|apply gives_fail]. Qed.

Lemma gives_owned tid id : gives rows_sound (fun t => task_ID t = id /\ sound t /\ checkTenant tid t = None) (owned tid id).
Proof.
  unfold owned. destruct (id <=? 0); [apply gives_fail|]. eapply gives_bind; [apply gives_GetTask|].
  intros t [Hid Ht]. destruct (checkTenant tid t) eqn:Hc; [apply gives_fail|by apply gives_ret].
Qed.

Lemma gives_build id req : gives rows_sound (fun t => exists next, t = built_task id req next) (buildTask id req).
Proof.
  unfold buildTask, next_or_invalid. repeat (case_match; try apply gives_fail); try (apply gives_ret; by eexists).
  eapply gives_bind; [apply gives_kept; solve_moves|]. intros next _. apply gives_ret. by eexists.
Qed.

Lemma gives_from_cache : gives rows_sound (Forall sound) from_cache.
Proof.
  assert (forall ids, gives rows_sound (Forall sound) (cached_tasks ids)) as Hc.
  { induction ids as [|id ids IH]; cbn [cached_tasks]; [by apply gives_ret|].
    eapply gives_attempt; [apply gives_GetTask|]. intros [t|e] Ht; [|exact IH]. destruct (bool_decide _); [|exact IH].
    eapply gives_bind; [apply gives_kept; solve_moves|]. intros now _. eapply gives_bind; [exact IH|]. intros ts Hts.
    apply gives_ret. destruct (After _ _); [done|]. constructor; [by apply Ht|done]. }
  unfold from_cache. destruct cache_due as [due|]; [|by apply gives_ret].
  eapply gives_bind; [apply gives_kept; solve_moves|]. intros now _.
  eapply gives_bind; [apply gives_kept; solve_moves|]. intros [ids|e] _; [|by apply gives_ret].
  eapply gives_bind; [apply Hc|]. intros ts Hts. apply gives_ret, Forall_forall. intros t Ht%limit_to_elem.
  by eapply Forall_forall in Hts.
Qed.

Lemma gives_due : gives rows_sound (Forall sound) due_tasks.
Proof.
  unfold due_tasks. eapply gives_attempt; [apply gives_kept; unfold instance_query; solve_moves|]. intros [pending|e] _; [|by apply gives_ret].
  eapply gives_bind; [apply gives_kept; unfold scan_gate, allow_dispatch; solve_moves|]. intros go _.
  destruct (negb go); [by apply gives_ret|]. eapply gives_bind; [apply gives_from_cache|]. intros [|t ts] Hts; [|by apply gives_ret].
  eapply (gives_attempt _ (Forall sound)).
  - intros w [Hi Hs]. split; [done|]. intros ts Hl. apply (ListDueTasks_ok _ _ _ _ Hi) in Hl as (all & [_ Hall] & ->).
    apply Forall_forall. intros t Ht%limit_to_elem. apply Hall in Ht as [_ [k Hk]]. by eapply Hs.
  - intros [ts|e] Ht; apply gives_ret; [by apply Ht|done].
Qed.

(** ** Interleavings *)

Definition descends (g : editor) : Prop :=
  match g with
  | Saving t _ | Nudging t _ | Launching t | ToolSaves t => sound t
  | Handling ts => Forall sound ts
  | Ordered _ _ | Called _ _ _ | ToolCreates _ => P g
  | _ => True
  end.

(** What else may happen leaves the rows of tasks alone. *)
Definition edit_step : conf World editor -> conf World editor -> Prop :=
  interleaved (fun g => begins g = true /\ P g) same_rows.

Ltac carry := carry_with ltac:(first
  [ apply gives_GetTask | apply gives_wrapped, gives_GetTask | apply gives_owned | apply gives_due
  | apply gives_kept; unfold allow_dispatch, task_query, wrapped, next_or_invalid; solve_moves ]).

(** A service call computes a row that may be written. *)
Lemma call_carries tid id e : P (Called tid id e) -> gives rows_sound descends (edit_next (Called tid id e)).
Proof.
  intros HP. cbn [edit_next]. eapply gives_bind; [apply gives_owned|]. intros t (Hid & Ht & Hc). destruct e as [req| | | |]; cbv zeta;
    [|carry| |carry..]; [|eapply (gives_bind _ sound); [carry|intros t' Ht'; by apply gives_ret]].
  eapply gives_bind; [apply gives_build|]. intros t' [next ->].
  assert (forall next', sound (set_task_NextTriggerTime next' (built_task id req next))) as Hb
    by (intros next'; apply (from_update tid id req (definition_of t)); [by rewrite <- Hid|exact Hc|exact HP]).
  eapply (gives_bind _ sound); [|intros t' Ht'; by apply gives_ret]. carry; by apply Hb.
Qed.

Lemma create_carries tid req : P (Ordered tid req) -> gives rows_sound descends (edit_next (Ordered tid req)).
Proof.
  intros HP. cbn [edit_next]. eapply gives_bind; [apply gives_build|]. intros t [next ->]. cbv zeta.
  eapply gives_bind; [|intros t' _; by apply gives_ret]. apply gives_kept, keeps_CreateTask. intros id.
  cbn [task_TenantID built_task]. unfold sound.
  pose proof (from_create tid req id HP) as Hf. by destruct (up_TenantID req =? 0).
Qed.

Lemma edit_carries g : descends g -> gives rows_sound descends (edit_next g).
Proof.
  intros Hg. destruct g as [tid req|tid id e|t ds|id ds|id|i|[|id ids]|t ids| |[|t ts]|id|t|args|args|args|args|t|id|];
    [by apply create_carries|by apply call_carries|..]; cbn [edit_next descends] in *; cbv zeta; try apply Forall_cons_1 in Hg as [Ht Hts]; carry;
    match goal with Hr : _ |- descends _ => first [refine (proj2 (Hr _ eq_refl))|refine (proj2 Hr)] end.
Qed.

Lemma edit_begins_descends g : begins g = true /\ P g -> descends g.
Proof. intros [Hb Hp]. by destruct g. Qed.
End Origins.

Section Interleaving.
Context `{BackendSpec} `{Env} `{MapRange}.
Abbreviation tasks w := (tasks_of (w_tasks w)).

(** C6. However service calls, reports, scans, the engine's callback and the agent's tools
    are interleaved between their reads and their writes, and under any failures, the
    definition of every stored task is in one piece and authorised: it is the one the task
    had at the start, or the one of a single request that created it, or of a single
    request to update it by a tenant who owned an earlier such definition. *)
Theorem definitions_whole (P : editor -> Prop) c c' id t : tasks_inv (w_tasks (c_world c)) ->
  map_Forall (fun _ g => begins g = true /\ P g) (c_threads c) -> rtc (edit_step P) c c' ->
  tasks (c_world c') !! id = Some t -> came_from P (tasks (c_world c)) id (definition_of t).
Proof.
  intros Hi Ht Hs Hid. set (m0 := tasks (c_world c)).
  destruct (interleaved_keeps (fun g => begins g = true /\ P g) same_rows (rows_sound P m0) (descends P m0) c c') as [[Hi' Hm] _];
    [apply edit_begins_descends| | |exact Hs| | |].
  - intros w w' Hw Hsame. unfold rows_sound. unfold same_rows in Hsame. by rewrite Hsame.
  - intros g w w' g' Hw Hg Hx. exact (gives_step _ _ _ _ _ _ Logic.I (edit_carries _ _ _ Hg) Hw Hx).
  - split; [done|]. intros k x Hk. unfold sound. rewrite (tasks_inv_id _ _ _ Hi Hk). by apply from_row.
  - intros k g Hg. apply edit_begins_descends. by eapply Ht.
  - pose proof (Hm _ _ Hid) as Hx. unfold sound in Hx. by rewrite (tasks_inv_id _ _ _ Hi' Hid) in Hx.
Qed.

(** ** Deleted tasks *)

Definition creates (g : editor) : bool := match g with Ordered _ _ | ToolCreates _ => true | _ => false end.

Definition shrinks (w w' : World) : Prop :=
  tasks_inv (w_tasks w) -> tasks_inv (w_tasks w') /\ forall id, tasks w !! id = None -> tasks w' !! id = None.
#[local] Instance shrinks_preorder : PreOrder shrinks.
Proof.
  split; [done|]. intros x y z Hxy Hyz Hx. destruct (Hxy Hx) as [Hy ?]. destruct (Hyz Hy) as [Hz ?]. eauto.
Qed.

Lemma shrinks_rows {A} (m : M A) : moves same_rows m -> moves shrinks m.
Proof. intros Hm w Hi. specialize (Hm w). unfold same_rows in Hm. by rewrite Hm. Qed.

Lemma shrinks_task_op {A} (f : Time -> TS -> TS * result A) :
  (forall now s, tasks_inv s -> tasks_inv (f now s).1 /\ forall id, tasks_of s !! id = None -> tasks_of (f now s).1 !! id = None) ->
  moves shrinks (task_op f).
Proof. intros Hf w Hi. unfold task_op. specialize (Hf (clock (w_reads w)) _ Hi). by destruct (f _ _). Qed.

Lemma shrinks_task_op' {A} (f : TS -> TS * result A) :
  (forall s, tasks_inv s -> tasks_inv (f s).1 /\ forall id, tasks_of s !! id = None -> tasks_of (f s).1 !! id = None) ->
  moves shrinks (task_op' f).
Proof. intros Hf w Hi. unfold task_op'. specialize (Hf _ Hi). by destruct (f _). Qed.

Lemma shrinks_UpdateTask t : moves shrinks (task_op (fun now => UpdateTask now t)).
Proof.
  apply shrinks_task_op. intros now s Hi. destruct (UpdateTask now t s) as [s' [t'|e]] eqn:E; simpl.
  - destruct (UpdateTask_ok _ _ _ _ _ Hi E) as (? & (cur & Hc & _) & -> & _). split; [done|]. intros id Hn.
    rewrite lookup_insert_ne; [done|]. intros <-. congruence.
  - by destruct (UpdateTask_err _ _ _ _ _ Hi E) as (? & -> & _).
Qed.

Lemma shrinks_DeleteTask id : moves shrinks (task_op' (DeleteTask id)).
Proof.
  apply shrinks_task_op'. intros s Hi. destruct (DeleteTask id s) as [s' [u|e]] eqn:E; simpl.
  - destruct (DeleteTask_ok _ _ _ _ Hi E) as (? & -> & _). split; [done|]. intros k Hk. by rewrite lookup_delete_None; right.
  - by destruct (DeleteTask_err _ _ _ _ Hi E) as (? & -> & _).
Qed.

Lemma shrinks_AddDependency a b : moves shrinks (task_op' (AddDependency a b)).
Proof. apply shrinks_task_op'. intros s Hi. by destruct (AddDependency_keeps a b s Hi) as [? ->]. Qed.
Lemma shrinks_RemoveDependency a b : moves shrinks (task_op' (RemoveDependency a b)).
Proof. apply shrinks_task_op'. intros s Hi. by destruct (RemoveDependency_keeps a b s Hi) as [? ->]. Qed.
#[local] Hint Resolve rows_Now rows_external rows_instance_op rows_Pick rows_Release rows_Dispatch rows_bp rows_ListDue : moves.
#[local] Hint Resolve shrinks_rows shrinks_UpdateTask shrinks_DeleteTask shrinks_AddDependency shrinks_RemoveDependency : moves.

Lemma edit_shrinks g : creates g = false -> moves shrinks (edit_next g).
Proof.
  intros Hg. assert (forall b, moves shrinks (deps_satisfied b)) as Hd
    by (induction b as [|d b IH]; cbn [deps_satisfied]; unfold instance_query; solve_moves).
  assert (forall t n shard, moves shrinks (shard_loop t n shard)) as Hl
    by (induction n as [|n IH]; intros shard; cbn [shard_loop]; unfold handle_shard, place_shard; solve_moves).
  assert (forall ids, moves shrinks (cached_tasks ids)) as Hc
    by (induction ids as [|id ids IH]; cbn [cached_tasks]; unfold task_query; solve_moves).
  destruct g; try discriminate Hg; cbn [edit_next]; cbv zeta;
    unfold owned, buildTask, next_or_invalid, syncDependencies, due_tasks, scan_gate, from_cache, handleTask, launch_instance,
      reschedule, allow_dispatch, wrapped, task_query, instance_query; solve_moves.
Qed.

(** Nothing under way comes to create a task. *)
Lemma edit_creates_none g : gives (fun _ => True) (fun g' => creates g' = false) (edit_next g).
Proof.
  destruct g as [tid req|tid id e|t ds|id ds|id|i|[|id ids]|t ids| |[|t ts]|id|t|args|args|args|args|t|id|]; cbn [edit_next]; cbv zeta;
    carry_with ltac:(by apply gives_any); carry_with ltac:(by apply gives_any).
Qed.

(** A deleted task stays deleted, whatever goroutines are under way with whatever copies of
    its row, unless a task is created. *)
Theorem deleted_stay_deleted c c' id : tasks_inv (w_tasks (c_world c)) ->
  map_Forall (fun _ g => creates g = false) (c_threads c) ->
  rtc (interleaved (fun g => creates g = false) same_rows) c c' ->
  tasks (c_world c) !! id = None -> tasks (c_world c') !! id = None.
Proof.
  intros Hi Ht Hs Hn.
  destruct (interleaved_keeps (fun g => creates g = false) same_rows
    (fun w => tasks_inv (w_tasks w) /\ tasks w !! id = None) (fun g => creates g = false) c c') as [[_ ?] _]; try done.
  - intros w w' Hw Hsame. unfold same_rows in Hsame. by rewrite Hsame.
  - intros g w w' g' Hw Hg Hx. refine (gives_step (fun w => tasks_inv (w_tasks w) /\ tasks w !! id = None) (fun g => creates g = false) _ _ _ _ eq_refl _ Hw Hx). intros w1 [Hw1 Hm1].
    destruct (edit_shrinks g Hg w1 Hw1) as [? Hk]. split; [split; [done|by apply Hk]|]. by apply edit_creates_none.
Qed.
End Interleaving.

(** ** What the races do *)

(** Tenant 7's task 1 is due, and a worker is idle. *)
Definition one_due_now : @World test_backend := world_with [sample_task] [] [worker_named "a" 0].

(** The goroutines take their steps in this order. *)
Definition edit_run : list nat -> conf (@World test_backend) editor -> conf (@World test_backend) editor :=
  @scheduled _ _ (@goroutine_threads _ _ _ (@editors test_backend (answering 200) canonical_range)).
Definition edits (P : editor -> Prop) : conf (@World test_backend) editor -> conf (@World test_backend) editor -> Prop :=
  @edit_step test_backend (answering 200) canonical_range P.

Definition row (id : Z) (c : conf (@World test_backend) editor) : option (string * string * Z) :=
  (fun t => (task_Status t, task_Payload t, task_Version t)) <$> ts_tasks (w_tasks (c_world c)) !! id.

(** A pause that succeeds while a scan is under way is undone by the scan, which runs the
    paused task and writes its old copy of the row back, as enabled. *)
Theorem pause_lost : exists c1 c2, rtc (edits (fun _ => True)) (start_all one_due_now [Scanning; Called 7 1 Pauses]) c1 /\
  rtc (edits (fun _ => True)) c1 c2 /\
  row 1 c1 = Some ("disabled", "run", 2) /\ w_sent (c_world c1) = [] /\ c_threads c1 !! 1%nat = Some Edited /\
  row 1 c2 = Some ("enabled", "run", 3) /\ length (w_sent (c_world c2)) = 1%nat.
Proof.
  set (c := start_all one_due_now [Scanning; Called 7 1 Pauses]).
  exists (edit_run [0; 1; 1]%nat c), (edit_run [0]%nat (edit_run [0; 1; 1]%nat c)).
  split; [apply scheduled_steps|]. split; [apply scheduled_steps|]. vm_compute. by split_and!.
Qed.

Definition new_payload : TaskUpsertRequest :=
  mkUpsert "report" "shell" "*/5 * * * *" "fixed" "" "" 60 2 "immediate" "" "" ∅ zero_time 7 [].

(** So is an update: the scan restores the definition it read. *)
Theorem update_lost : exists c1 c2, rtc (edits (fun _ => True)) (start_all one_due_now [Scanning; Called 7 1 (Updates new_payload)]) c1 /\
  rtc (edits (fun _ => True)) c1 c2 /\
  row 1 c1 = Some ("enabled", "fixed", 2) /\ c_threads c1 !! 1%nat = Some Edited /\
  row 1 c2 = Some ("enabled", "run", 3).
Proof.
  set (c := start_all one_due_now [Scanning; Called 7 1 (Updates new_payload)]).
  exists (edit_run [0; 1; 1; 1]%nat c), (edit_run [0]%nat (edit_run [0; 1; 1; 1]%nat c)).
  split; [apply scheduled_steps|]. split; [apply scheduled_steps|]. vm_compute. by split_and!.
Qed.

(** A scan, an update by the owner and one by a stranger. *)
Definition scan_and_updates (g : editor) : Prop :=
  g = Scanning \/ g = Called 7 1 (Updates new_payload) \/ g = Called 9 1 (Updates new_payload).

Lemma definitions_whole_witness : exists c' t, rtc (edits scan_and_updates)
    (start_all one_due_now [Scanning; Called 7 1 (Updates new_payload); Called 9 1 (Updates new_payload)]) c' /\
  ts_tasks (w_tasks (c_world c')) !! 1 = Some t /\ task_Payload t = "fixed" /\
  came_from scan_and_updates (ts_tasks (w_tasks one_due_now)) 1 (definition_of t).
Proof.
  set (c := start_all one_due_now [Scanning; Called 7 1 (Updates new_payload); Called 9 1 (Updates new_payload)]).
  exists (edit_run [2; 1; 0; 0; 2; 1; 1]%nat c). eexists. split; [apply scheduled_steps|].
  split; [vm_compute; reflexivity|]. split; [reflexivity|].
  apply (@definitions_whole test_backend test_backend_contract test_backend_spec (answering 200) canonical_range scan_and_updates c
    (edit_run [2; 1; 0; 0; 2; 1; 1]%nat c) 1).
  - apply (world_with_inv [sample_task] [] [worker_named "a" 0]).
  - repeat apply map_Forall_insert_2; [split; [done|unfold scan_and_updates; by auto]..|apply map_Forall_empty].
  - apply scheduled_steps.
  - vm_compute. reflexivity.
Defined.
