(* ===== verification/Gateway.v ===== *)
(** internal/api/handler/router.go: the handlers of the API that forward requests to the AI
    service and to the scheduler, and the tunnel for WebSockets; with the tables of the
    scheduler's and the worker's servers (cmd/worker/main.go). An event published through
    the API is followed through the guard, the proxy and the scheduler's handler. *)
From S2P Require Import Prelude GoStd GoTime GoFormat Json Crypto Model Repo RateLimit TestStore World Sample Http Config.
From S2P Require Import Dispatch Router Lifecycle Balance Runtime Trigger Events TaskService Auth WorkerService Wire Tools.

#[local] Open Scope prog_scope.

(** ** Requests and answers *)

(** Header fields under their canonical names. *)
Abbreviation header := (gmap string (list string)).

(** [Header.Add] *)
Definition HeaderAdd (k v : string) (h : header) : header := <[k := default [] (h !! k) ++ [v]]> h.

(** An answer; the body is what can be read of it. *)
Record response := mkResponse { rs_status : Z; rs_header : header; rs_body : string }.

(** What a proxy looks at in a request: two of its headers and its body, which is what
    [io.ReadAll] got of it. *)
Record incoming := mkIncoming { in_trace : string; in_ws_key : string; in_body : string }.

Record outgoing := mkOutgoing { out_method : string; out_url : string; out_header : gmap string string; out_body : string }.

Definition json_type : header := {["Content-Type" := ["application/json"]]}.
Definition error_json (msg : string) : string := Marshal (gomap [("error", JString msg)]).
Definition eol : string := String (ascii_of_nat 10) "".

(** ** The proxies *)

Section Proxy.
Context `{MapRange} {St : Type}.
(** [http.NewRequestWithContext] on a method and a URL, and [http.DefaultClient.Do]. *)
Variable new_request : string -> string -> option gerror.
Variable do : outgoing -> prog St gerror response.

(** The answer's header fields are copied in the order of a map iteration. *)
Definition copy_response (r : response) : response :=
  mkResponse (rs_status r)
    (foldl (fun h kv => foldl (fun h v => HeaderAdd kv.1 v h) h kv.2) ∅ (map_range (map_to_list (rs_header r)))) (rs_body r).

Definition ai_target (env : string -> string) (path : string) : string :=
  trim_slashes (or_env env "AI_SERVICE_URL" "http://127.0.0.1:8083") +:+ "/api/v1/" +:+ path.

(** With one argument it is the path of a POST, with two the method and the path. *)
Definition proxyAIHandler (env : string -> string) (methodOrPath : string) (maybePath : list string) (r : incoming) : prog St gerror response :=
  let '(method, path) := match maybePath with [] => ("POST", methodOrPath) | p :: _ => (methodOrPath, p) end in
  let target := ai_target env path in
  match new_request method target with
  | Some _ => ret (mkResponse 502 json_type (error_json "proxy error"))
  | None =>
      let h := (if bool_decide (method = "GET") then ∅ else {["Content-Type" := "application/json"]}) : gmap string string in
      let h := if bool_decide (in_trace r = "") then h else <["X-Trace-Id" := in_trace r]> h in
      a <-? do (mkOutgoing method target h (in_body r)) ;;
      match a with
      | Err _ => ret (mkResponse 502 json_type (error_json "ai service unreachable"))
      | Ok resp => ret (copy_response resp)
      end
  end.

Definition scheduler_target (env : string -> string) (path : string) : string :=
  trim_slashes (or_env env "SCHEDULER_URL" "http://127.0.0.1:8081") +:+ "/api/v1/" +:+ path.

Definition proxySchedulerHandler (env : string -> string) (path : string) (r : incoming) : prog St gerror response :=
  let target := scheduler_target env path in
  match new_request "POST" target with
  | Some _ => ret (mkResponse 502 json_type (error_json "proxy error" +:+ eol))
  | None =>
      a <-? do (mkOutgoing "POST" target {["Content-Type" := "application/json"]} (in_body r)) ;;
      match a with
      | Err _ => ret (mkResponse 502 json_type (error_json "scheduler unreachable" +:+ eol))
      | Ok resp => ret (copy_response resp)
      end
  end.
End Proxy.

(** ** The tunnel *)

Definition crlf : string := String (ascii_of_nat 13) (String (ascii_of_nat 10) "").

(** The upgrade request. *)
Definition ws_request (path backendHost key : string) : string :=
  "GET /api/v1/" +:+ path +:+ " HTTP/1.1" +:+ crlf +:+ "Host: " +:+ backendHost +:+ crlf +:+ "Upgrade: websocket" +:+ crlf
  +:+ "Connection: Upgrade" +:+ crlf +:+ "Sec-WebSocket-Key: " +:+ key +:+ crlf +:+ "Sec-WebSocket-Version: 13" +:+ crlf +:+ crlf.

(** What became of the handshake: an answer of [http.Error], a return without an answer,
    or a tunnel whose client gets these bytes first. *)
Inductive ws_outcome := WSError (status : Z) (msg : string) | WSGone | WSTunnel (first : string).

Section Tunnel.
(** [net.Dial] of a host, the write of the request, the first read of up to 4096 bytes,
    and [Hijack] of the client's connection: [None] when the writer cannot. *)
Variable dial : string -> option gerror.
Variable write : string -> option gerror.
Variable read : res gerror string.
Variable hijack : option (option gerror).

Definition ws_host (env : string -> string) : string :=
  TrimPrefix (TrimPrefix (or_env env "AI_SERVICE_URL" "http://127.0.0.1:8083") "http://") "https://".

Definition proxyWSHandler (env : string -> string) (path : string) (r : incoming) : ws_outcome :=
  let backendHost := ws_host env in
  match dial backendHost with
  | Some _ => WSError 502 "backend unreachable"
  | None =>
      match write (ws_request path backendHost (in_ws_key r)) with
      | Some _ => WSError 502 "backend write failed"
      | None =>
          match read with
          | Err _ => WSError 502 "backend upgrade failed"
          | Ok buf =>
              if negb (Contains buf "101") then WSError 502 "backend upgrade failed" else
              match hijack with
              | None => WSError 500 "hijack not supported"
              | Some (Some _) => WSGone
              | Some None => WSTunnel buf
              end
          end
      end
  end.
End Tunnel.

(** ** Tables of routes *)

(** The handler of the scheduler's server for a request; [None] is gin's 404. *)
Definition scheduler_handler (method path : string) : option string :=
  rt_handler <$> find (fun rt => String.eqb (rt_method rt) method && String.eqb (rt_pattern rt) path) scheduler_routes.

(** The worker's server decides by the path only; [None] is [http.NotFound]. *)
Definition worker_handler (path : string) : option string :=
  if bool_decide (path = "/healthz") then Some "healthz"
  else if bool_decide (path = "/metrics") then Some "metrics"
  else if bool_decide (path = "/internal/tasks/execute") then Some "workerHandler.Execute"
  else if bool_decide (path = "/internal/tasks/cancel") then Some "workerHandler.CancelHTTP"
  else None.

(** With the default settings the API sends events to the address the worker listens on,
    which knows no such path; the scheduler listens elsewhere. *)
Example default_events_go_astray :
  scheduler_target (fun _ => "") "events/publish" = "http://127.0.0.1" +:+ HTTPAddr (Default (fun _ => "") "worker") +:+ "/api/v1/events/publish" /\
  worker_handler "/api/v1/events/publish" = None /\
  HTTPAddr (Default (fun _ => "") "scheduler") = ":8080" /\ scheduler_handler "POST" "/api/v1/events/publish" = Some "eventHandler.Publish".
Proof. vm_compute. done. Qed.

(** A refusal that mentions 101 anywhere is taken for an upgrade. *)
Example refusal_tunnelled :
  proxyWSHandler (fun _ => None) (fun _ => None) (Ok "HTTP/1.1 404 Not Found: request 101") (Some None) (fun _ => "") "chat/ws" (mkIncoming "" "" "") =
  WSTunnel "HTTP/1.1 404 Not Found: request 101".
Proof. vm_compute. done. Qed.

(** A base URL that ends with a slash serves the other proxies and not the tunnel. *)
Example trailing_slash : let env := (fun _ => "http://ai:8083/") in
  ai_target env "chat" = "http://ai:8083/api/v1/chat" /\ ws_host env = "ai:8083/".
Proof. vm_compute. done. Qed.

(** ** The proxies are transparent *)

(** Every field has a value, as in an answer that was read from the wire. *)
Definition nonempty_fields (h : header) : Prop := map_Forall (fun _ vs => vs <> []) h.
Definition well_formed (r : response) : Prop := nonempty_fields (rs_header r).

Lemma HeaderAdd_all k vs h : foldl (fun h v => HeaderAdd k v h) h vs = if bool_decide (vs = []) then h else <[k := default [] (h !! k) ++ vs]> h.
Proof.
  revert h. induction vs as [|v vs IH]; intros h; [done|]. cbn [foldl]. rewrite IH, (bool_decide_false (v :: vs = [])) by done.
  case_bool_decide as Hv; [by rewrite Hv|]. unfold HeaderAdd. rewrite lookup_insert_eq, insert_insert_eq. simpl. by rewrite <- app_assoc.
Qed.

Lemma HeaderAdd_fields (l : list (string * list string)) h : NoDup l.*1 -> Forall (fun kv => kv.2 <> [] /\ h !! kv.1 = None) l ->
  foldl (fun h kv => foldl (fun h v => HeaderAdd kv.1 v h) h kv.2) h l = list_to_map l ∪ h.
Proof.
  revert h. induction l as [|[k vs] l IH]; intros h Hd Hl; [by rewrite list_to_map_nil, (left_id_L ∅ (∪))|]. simpl in *.
  apply NoDup_cons in Hd as [Hk Hd]. apply Forall_cons in Hl as [[Hne Hkh] Hl]. simpl in *.
  rewrite HeaderAdd_all, bool_decide_false, Hkh by done. cbn [default app]. rewrite IH; [|done|].
  - rewrite <- insert_union_l. rewrite insert_union_r; [done|]. by apply not_elem_of_list_to_map_1.
  - apply Forall_forall. intros [k' vs'] Hin. rewrite Forall_forall in Hl. destruct (Hl _ Hin) as [? ?]. split; [done|]. simpl in *.
    rewrite lookup_insert_ne; [done|]. intros ->. apply Hk. apply list_elem_of_fmap. by exists (k', vs').
Qed.

(** In whatever order the fields are copied, the copy has the same fields. *)
Lemma copy_response_same `{MapRange} r : well_formed r -> copy_response r = r.
Proof.
  intros Hw. destruct r as [code h body]. unfold copy_response. simpl. f_equal.
  pose proof (map_range_perm (map_to_list h)) as Hp. rewrite HeaderAdd_fields.
  - rewrite (right_id_L ∅ (∪)). rewrite <- (list_to_map_to_list h) at 2. apply list_to_map_proper; [|done].
    rewrite Hp. apply NoDup_fst_map_to_list.
  - rewrite Hp. apply NoDup_fst_map_to_list.
  - apply Forall_forall. intros [k vs] Hin. rewrite Hp in Hin. apply elem_of_map_to_list in Hin. split; [by eapply Hw|done].
Qed.

(** ** An event, from the API to the dispatches *)

Section Events.
Context `{Backend} `{Env} `{MapRange}.
Variable random : list Z.
Variable new_request : string -> string -> option gerror.
(** How the body of an event is read, and the fields net/http adds to an answer (length,
    date, and a type when the handler sets none). *)
Variable decode : string -> option publishEventRequest.
Variable added : header -> string -> header.

(** [EventHandler.Publish] as an answer: only a 200 has its own type; a 405 and a 500 have
    no body. *)
Definition publish_response (body : option publishEventRequest) (result : Z * option Z) : response :=
  let '(code, n) := result in
  let '(h, text) :=
    match n with
    | Some triggered => (json_type, Marshal (gomap [("event", JString (default "" (EventName <$> body))); ("triggered", num triggered)]) +:+ eol)
    | None => (∅, if code =? 400 then error_json (match body with None => "invalid request body" | Some _ => "event_name is required" end) +:+ eol
                  else "")
    end in
  mkResponse code (added h text) text.

(** The scheduler's server on the forwarded request. *)
Definition scheduler_events (out : outgoing) : M response :=
  let body := decode (out_body out) in
  x <- Publish (out_method out) body ;; ret (publish_response body x).

(** The key and the scheduler's world. *)
Abbreviation G A := (prog (Secret * World) gerror A).
Definition on_key {A} (m : prog Secret gerror A) : G A := fun s => let '(st, r) := m s.1 in ((st, s.2), r).
Definition on_world {A} (m : M A) : G A := fun s => let '(w, r) := m s.2 in ((s.1, w), r).

Definition receive_route : route := mkRoute "POST" "/api/v1/events/receive" (Role "operator") "scheduler:events/publish".

(** POST /api/v1/events/receive at the API, with the scheduler behind the network. *)
Definition events_receive (env : string -> string) (now : Z) (auth qtoken tenantHeader : string) (net : delivery) (r : incoming) : G response :=
  v <- on_key (api_request random now receive_route auth qtoken tenantHeader) ;;
  match v with
  | Reject code msg => ret (mkResponse code json_type (error_json msg))
  | Pass _ => on_world (proxySchedulerHandler new_request (fun out => call net (scheduler_events out)) env "events/publish" r)
  end.

Definition bad_gateway (answer : result response) : Prop := exists a, answer = Ok a /\ rs_status a = 502.

(** A guard that does not pass answers 401 or 403. *)
Lemma requireAuth_answers role now q st st' v : requireAuth random role now q st = (st', v) ->
  exists x, v = Ok x /\ forall code msg, x = Reject code msg -> code = 401 \/ code = 403.
Proof.
  unfold requireAuth, attempt, ret. intros Hv. repeat (case_match; simplify_eq); eexists; (split; [done|]); intros; simplify_eq; auto.
Qed.

(** C15. An event that is published through the API. Without an unexpired token that is
    signed with the process's key and carries at least the operator's role, the answer is
    401 or 403 and the scheduler is not touched. With one, the scheduler's handler runs
    at most once, on exactly this body; when the network carries the call and its
    answer, the caller gets the handler's answer unchanged, and a 200 means that exactly
    the reported number of dispatches was accepted; otherwise the caller gets a 502. *)
Theorem events_through_the_gate env now auth qtoken th net r st w :
  (forall h text, nonempty_fields h -> nonempty_fields (added h text)) ->
  new_request "POST" (scheduler_target env "events/publish") = None ->
  let '((st', w'), answer) := events_receive env now auth qtoken th net r (st, w) in
  (w' = w /\ exists code msg, answer = Ok (mkResponse code json_type (error_json msg)) /\ (code = 401 \/ code = 403)) \/
  (exists key c, st' = Some key /\ (forall k, st = Some k -> key = k) /\
     signed_by key now (request_token (mkAuthRequest auth qtoken None (request_tenant th))) c /\ 2 <= roleWeight (cl_Role c) /\
   exists w1 code n, Publish "POST" (decode (in_body r)) w = (w1, Ok (code, n)) /\
     match net with
     | NotSent _ => w' = w /\ bad_gateway answer
     | NoAnswer _ => w' = w1 /\ bad_gateway answer
     | Delivered => w' = w1 /\ answer = Ok (publish_response (decode (in_body r)) (code, n)) /\
         (code = 200 -> exists triggered, n = Some triggered /\ accepted (w_sent w') - accepted (w_sent w) = triggered)
     end).
Proof.
  intros Hadd Hreq. unfold events_receive, bind at 1, on_key. cbn [fst snd].
  destruct (api_request _ _ _ _ _ _ _) as [st' v] eqn:Hv. unfold api_request in Hv. cbn [rt_access receive_route] in Hv.
  destruct (requireAuth_answers _ _ _ _ _ _ Hv) as (x & -> & Hcodes). destruct x as [code msg|tid].
  - unfold ret. left. split; [done|]. exists code, msg. split; [done|]. by eapply Hcodes.
  - apply requireAuth_passed in Hv as (key & c & -> & Hk & Hs & Hw); [|done].
    unfold on_world, proxySchedulerHandler. rewrite Hreq. cbn [fst snd]. unfold attempt at 1.
    destruct (Publish_counts "POST" (decode (in_body r)) w) as (w1 & code & n & Hp & Hn).
    assert (scheduler_events (mkOutgoing "POST" (scheduler_target env "events/publish") {["Content-Type" := "application/json"]} (in_body r)) w =
            (w1, Ok (publish_response (decode (in_body r)) (code, n)))) as Hs1 by (unfold scheduler_events, bind, ret; cbn [out_method out_body]; by rewrite Hp).
    destruct net as [e|e|]; cbn [call]; [|unfold bind, attempt; rewrite Hs1|rewrite Hs1]; unfold fail, ret; right; exists key, c;
      (split; [done|]; split; [done|]; split; [done|]; split; [done|]; exists w1, code, n; split; [done|]).
    + split; [done|]. by eexists.
    + split; [done|]. by eexists.
    + split; [done|]. rewrite copy_response_same by (unfold publish_response; destruct n; apply Hadd; [by apply map_Forall_singleton|apply map_Forall_empty]).
      split; [done|]. intros ->. destruct n as [k|]; [exists k; naive_solver|naive_solver lia].
Qed.
End Events.

(** ** On a concrete world *)

(** Event bodies whose payload values are strings. *)
Definition set_event (q : publishEventRequest) (kv : string * jvalue) : option publishEventRequest :=
  if bool_decide (foldName kv.1 = "event_name") then x ← into_string kv.2 (EventName q); Some (mkPublish x (Payload q))
  else match kv.2 with
       | JObject ms => Some (mkPublish (EventName q) (omap (fun m => match m.2 with JString s => Some (m.1, s) | _ => None end) ms))
       | _ => Some q
       end.
Definition read_event (text : string) : option publishEventRequest := v ← Unmarshal text; into_struct set_event v (mkPublish "" []).

Definition with_length (h : header) (text : string) : header := <["Content-Length" := [fmt_d (Z.of_nat (String.length text))]]> h.

Definition deploy_event : incoming := mkIncoming "" "" (Marshal (JObject [("event_name", JString "deploy")])).

(** The operator's event reaches the worker; the viewer's is refused. *)
Definition publish_as (user pw : string) : (Secret * World) * result response :=
  @events_receive test_backend (answering 200) canonical_range [] (fun _ _ => None) read_event with_length (fun _ => "http://scheduler:8080") noon
    ("Bearer " +:+ token_of (login_as user pw)) "" "" Delivered deploy_event (test_secret, hooked_world).

Example operator_publishes : (let '(_, w, r) := publish_as "operator" "operator123" in
  (match r with Ok a => rs_status a | _ => 0 end, accepted (w_sent w))) = (200, 1).
Proof. vm_compute. reflexivity. Qed.
Example viewer_refused : (let '(_, w, r) := publish_as "viewer" "viewer123" in
  (match r with Ok a => rs_status a | _ => 0 end, accepted (w_sent w))) = (403, 0).
Proof. vm_compute. reflexivity. Qed.

Lemma events_through_the_gate_witness : exists st' w' answer, publish_as "operator" "operator123" = ((st', w'), answer) /\
  exists c, signed_by (string_bytes "test-secret") noon (token_of (login_as "operator" "operator123")) c /\ 2 <= roleWeight (cl_Role c).
Proof.
  pose proof (@events_through_the_gate test_backend (answering 200) canonical_range [] (fun _ _ => None) read_event with_length
    (fun _ => "http://scheduler:8080") noon ("Bearer " +:+ token_of (login_as "operator" "operator123")) "" "" Delivered deploy_event test_secret hooked_world) as Hgate.
  pose proof operator_publishes as Hans.
  unfold publish_as in *. destruct (events_receive _ _ _ _ _ _ _ _ _ _ _ _) as [[st' w'] answer]. exists st', w', answer. split; [done|].
  destruct Hgate as [(_ & code & msg & Ha & Hc)|(key & c & _ & Hk & Hs & Hw & _)].
  - intros h text Hh. by apply map_Forall_insert_2.
  - reflexivity.
  - rewrite Ha in Hans. cbn [rs_status] in Hans. exfalso. apply (f_equal fst) in Hans. simpl in Hans. destruct Hc; congruence.
  - exists c. split; [|done]. rewrite <- (Hk _ eq_refl). exact Hs.
Defined.
