(* ===== verification/Analysis.v ===== *)
(** internal/ai/{trend,predictduration,taskparser,cron,loganalysis,advisor,prompts}: the
    analyses the AI service offers. Each computes figures from the repositories, asks
    the language model ([Adapter.Complete]) and decodes its answer. *)
From S2P Require Import Prelude GoStd GoTime GoFormat Cron Model Json RateLimit Float Adapter Tools.
From Stdlib Require Import Floats.SpecFloat Sorting.Sorted.

#[local] Open Scope prog_scope.

(** ** Prompts *)

(** Text with backticks for double quotes. *)
Fixpoint unquoted (s : string) : string :=
  match s with
  | EmptyString => EmptyString
  | String c s' => String (if is_byte c 96 then dquote else c) (unquoted s')
  end.

Definition prompt_LogAnalysis : string := (unquoted "你是一名值班 SRE，负责分析任务执行失败的原因。请仅返回合法的 JSON：
{`summary`: `<一句话摘要>`, `severity`: `low|medium|high`, `categories`: [`<分类>`], `root_cause`: `<根因分析>`, `fix`: `<可操作的修复建议>`, `confidence`: <0.0-1.0>}

注意：所有字段值必须使用中文。").

Definition prompt_Advisor : string := (unquoted "你是一名调度系统顾问。根据下方提供的调度系统指标，给出可操作的建议。请仅返回合法的 JSON 数组：
[{`type`: `<throttle|migrate|scale|config>`, `title`: `<建议标题>`, `description`: `<详细描述>`, `confidence`: <0.0-1.0>, `auto_apply`: false}]

注意：所有字段值（title、description）必须使用中文。").

Definition prompt_TaskParser : string := (unquoted "你是一个任务调度助手。将用户的自然语言描述转换为任务配置。请仅返回合法的 JSON，格式如下：
{
  `name`: `<简短的英文任务名，kebab-case>`,
  `type`: `container|shell|http`,
  `image`: `<Docker 镜像，仅容器类型填写>`,
  `cron_expr`: `<5字段cron表达式，非周期任务留空>`,
  `payload`: `<命令或URL>`,
  `max_retry`: <整数，默认3>,
  `retry_policy`: `fixed_interval|exponential_backoff`
}

规则：
- 如果提到容器镜像（含斜杠或常见仓库名），使用 type `container`
- 如果提到 HTTP/URL，使用 type `http`
- 否则默认使用 type `shell`
- cron 转换：`每天早上9点` = `0 9 * * *`，`每小时` = `0 * * * *`，`每分钟` = `* * * * *`，`工作日` 使用周几字段
- 没有提到调度时间则 cron_expr 留空 ``
- 按用户描述设置 max_retry").

Definition prompt_PredictDuration : string := (unquoted "你是一名任务执行时长预测专家。根据历史执行数据和任务配置，预测下一次执行的大致时长。请仅返回合法的 JSON：
{`predicted_duration_seconds`: <浮点数>, `confidence`: <0.0-1.0>, `trend`: `<stable|increasing|decreasing|volatile>`, `explanation`: `<一句话解释，使用中文>`}

注意：explanation 字段必须使用中文。").

Definition prompt_TrendAnalysis : string := (unquoted "你是一名系统可靠性分析师，正在审查调度系统指标。分析当前系统状态并识别趋势。请仅返回合法的 JSON：
{`overall_assessment`: `<一段综合评估，使用中文>`, `trends`: [{`metric`: `<指标名>`, `direction`: `increasing|decreasing|stable`, `detail`: `<详情，使用中文>`}], `recommendations`: [{`type`: `scale|throttle|migrate|config|investigate`, `title`: `<简短标题，使用中文>`, `description`: `<详情，使用中文>`, `urgency`: `low|medium|high`}]}

注意：所有文本字段必须使用中文。").

(** ** Asking the model *)

Definition ErrLLMRequired : gerror := Sentinel "llm adapter not configured or disabled".

(** A number into its JSON. *)
Definition jfloat (x : float64) : jvalue := JNumber (json_float x).
Definition jint (z : Z) : jvalue := JNumber (fmt_d z).
(** A member that is left out when it is empty. *)
Definition omit_string (k v : string) : list (string * jvalue) := if bool_decide (v = "") then [] else [(k, JString v)].
Definition omit_float (k : string) (v : float64) : list (string * jvalue) := if SFeqb v fzero then [] else [(k, jfloat v)].

(** [f]: a member of an object into a field, by its name. *)
Definition into_bool (v : jvalue) (old : bool) : option bool :=
  match v with JBool b => Some b | JNull => Some old | _ => None end.

Section Services.
Variable llm_do : nat -> LLMCall -> Answered.
Variable bad_url : string -> option gerror.
Variable llm fb : option LLMAdapter.

Abbreviation L A := (prog LLMState gerror A).

(** The shape of all of them: the model must be there; its answer must be JSON that
    decodes. *)
Definition ask_json {A} (what : string) (parse : string) (systemPrompt userPrompt : string) (dec : jvalue -> option A) : L A :=
  if negb (Enabled llm) then fail ErrLLMRequired else
  r <-? Complete llm_do bad_url llm fb systemPrompt userPrompt ;;
  match r with
  | Err e => fail (Wrap what e)
  | Ok result =>
      match v ← Unmarshal result; dec v with
      | None => fail (Wrapf parse (Sentinel "json") (" (raw=" +:+ result +:+ ")"))
      | Some a => ret a
      end
  end.

(** ** Log analysis *)

(** A slice that may be nil, which is written as [null]. *)
Definition into_nullable {A} (dec : jvalue -> option A) (v : jvalue) : option (option (list A)) :=
  match v with JNull => Some None | _ => Some <$> into_slice dec v end.

Record AnalysisResponse := mkAnalysisResponse {
  an_Summary : string; an_Severity : string; an_Categories : option (list string); an_RootCause : string; an_Fix : string;
  an_Confidence : float64
}.

Definition set_analysis (a : AnalysisResponse) (kv : string * jvalue) : option AnalysisResponse :=
  let 'mkAnalysisResponse s sev cats root fx conf := a in
  let k := foldName kv.1 in
  if bool_decide (k = "summary") then x ← into_string kv.2 s; Some (mkAnalysisResponse x sev cats root fx conf)
  else if bool_decide (k = "severity") then x ← into_string kv.2 sev; Some (mkAnalysisResponse s x cats root fx conf)
  else if bool_decide (k = "categories") then
    x ← into_nullable (fun v => into_string v "") kv.2; Some (mkAnalysisResponse s sev x root fx conf)
  else if bool_decide (k = "root_cause") then x ← into_string kv.2 root; Some (mkAnalysisResponse s sev cats x fx conf)
  else if bool_decide (k = "fix") then x ← into_string kv.2 fx; Some (mkAnalysisResponse s sev cats root x conf)
  else if bool_decide (k = "confidence") then x ← into_float kv.2 conf; Some (mkAnalysisResponse s sev cats root fx x)
  else Some a.

Definition analysis_json (a : AnalysisResponse) : jvalue :=
  JObject ([("summary", JString (an_Summary a)); ("severity", JString (an_Severity a));
    ("categories", from_option (fun cs => JArray (JString <$> cs)) JNull (an_Categories a))] ++ omit_string "root_cause" (an_RootCause a)
    ++ omit_string "fix" (an_Fix a) ++ omit_float "confidence" (an_Confidence a)).

Definition nl : string := String newline "".

Definition log_prompt (logText errorCode taskType : string) (retryCount : Z) : string :=
  "Task type: " +:+ taskType +:+ nl +:+ "Error code: " +:+ errorCode +:+ nl +:+ "Retry count: " +:+ fmt_d retryCount +:+ nl
  +:+ "Error log:" +:+ nl +:+ logText.

Definition AnalyzeLog (logText errorCode taskType : string) (retryCount : Z) : L AnalysisResponse :=
  ask_json "llm log analysis" "parse llm log analysis output" prompt_LogAnalysis (log_prompt logText errorCode taskType retryCount)
    (fun v => into_struct set_analysis v (mkAnalysisResponse "" "" None "" "" fzero)).

(** ** Advice *)

Record Advice := mkAdvice { ad_Type : string; ad_Title : string; ad_Description : string; ad_Confidence : float64; ad_AutoApply : bool }.

Record AdvisorContext := mkAdvisorContext {
  ac_AvgWorkerLoad : float64; ac_TotalWorkers : Z; ac_OnlineWorkers : Z; ac_PendingInstances : Z; ac_FailedLastHour : Z;
  ac_AvgDispatchLatencyMs : float64; ac_MaxPendingConfig : Z
}.

Definition set_advice (a : Advice) (kv : string * jvalue) : option Advice :=
  let 'mkAdvice ty title descr conf apply := a in
  let k := foldName kv.1 in
  if bool_decide (k = "type") then x ← into_string kv.2 ty; Some (mkAdvice x title descr conf apply)
  else if bool_decide (k = "title") then x ← into_string kv.2 title; Some (mkAdvice ty x descr conf apply)
  else if bool_decide (k = "description") then x ← into_string kv.2 descr; Some (mkAdvice ty title x conf apply)
  else if bool_decide (k = "confidence") then x ← into_float kv.2 conf; Some (mkAdvice ty title descr x apply)
  else if bool_decide (k = "auto_apply") then x ← into_bool kv.2 apply; Some (mkAdvice ty title descr conf x)
  else Some a.

Definition advice_json (a : Advice) : jvalue :=
  JObject [("type", JString (ad_Type a)); ("title", JString (ad_Title a)); ("description", JString (ad_Description a));
    ("confidence", jfloat (ad_Confidence a)); ("auto_apply", JBool (ad_AutoApply a))].

Definition advisor_json (c : AdvisorContext) : jvalue :=
  JObject [("avg_worker_load", jfloat (ac_AvgWorkerLoad c)); ("total_workers", jint (ac_TotalWorkers c));
    ("online_workers", jint (ac_OnlineWorkers c)); ("pending_instances", jint (ac_PendingInstances c));
    ("failed_last_hour", jint (ac_FailedLastHour c)); ("avg_dispatch_latency_ms", jfloat (ac_AvgDispatchLatencyMs c));
    ("max_pending_config", jint (ac_MaxPendingConfig c))].

Definition hundred : float64 := of_int 100.

Definition advisor_prompt (c : AdvisorContext) : string :=
  "Avg worker load: " +:+ fmt_fixed 2 (fmul (ac_AvgWorkerLoad c) hundred) +:+ "%" +:+ nl
  +:+ "Total workers: " +:+ fmt_d (ac_TotalWorkers c) +:+ " (online: " +:+ fmt_d (ac_OnlineWorkers c) +:+ ")" +:+ nl
  +:+ "Pending instances: " +:+ fmt_d (ac_PendingInstances c) +:+ " (max: " +:+ fmt_d (ac_MaxPendingConfig c) +:+ ")" +:+ nl
  +:+ "Failed in last hour: " +:+ fmt_d (ac_FailedLastHour c) +:+ nl
  +:+ "Avg dispatch latency: " +:+ fmt_fixed 2 (ac_AvgDispatchLatencyMs c) +:+ " ms".

Definition Generate (c : AdvisorContext) : L (list Advice) :=
  ask_json "llm advisor" "parse llm advisor output" prompt_Advisor (advisor_prompt c)
    (into_slice (fun v => into_struct set_advice v (mkAdvice "" "" "" fzero false))).

(** ** Tasks from natural language *)

Record TaskParseResponse := mkTaskParse {
  tp_Name : string; tp_Type : string; tp_Image : string; tp_CronExpr : string; tp_Payload : string; tp_MaxRetry : Z;
  tp_RetryPolicy : string; tp_Explanation : string; tp_Confidence : float64
}.

Definition set_parsed (a : TaskParseResponse) (kv : string * jvalue) : option TaskParseResponse :=
  let 'mkTaskParse n ty im cr pa mr rp ex conf := a in
  let k := foldName kv.1 in
  if bool_decide (k = "name") then x ← into_string kv.2 n; Some (mkTaskParse x ty im cr pa mr rp ex conf)
  else if bool_decide (k = "type") then x ← into_string kv.2 ty; Some (mkTaskParse n x im cr pa mr rp ex conf)
  else if bool_decide (k = "image") then x ← into_string kv.2 im; Some (mkTaskParse n ty x cr pa mr rp ex conf)
  else if bool_decide (k = "cron_expr") then x ← into_string kv.2 cr; Some (mkTaskParse n ty im x pa mr rp ex conf)
  else if bool_decide (k = "payload") then x ← into_string kv.2 pa; Some (mkTaskParse n ty im cr x mr rp ex conf)
  else if bool_decide (k = "max_retry") then x ← into_int kv.2 mr; Some (mkTaskParse n ty im cr pa x rp ex conf)
  else if bool_decide (k = "retry_policy") then x ← into_string kv.2 rp; Some (mkTaskParse n ty im cr pa mr x ex conf)
  else if bool_decide (k = "explanation") then x ← into_string kv.2 ex; Some (mkTaskParse n ty im cr pa mr rp x conf)
  else if bool_decide (k = "confidence") then x ← into_float kv.2 conf; Some (mkTaskParse n ty im cr pa mr rp ex x)
  else Some a.

Definition parsed_json (a : TaskParseResponse) : jvalue :=
  JObject ([("name", JString (tp_Name a)); ("type", JString (tp_Type a))] ++ omit_string "image" (tp_Image a)
    ++ omit_string "cron_expr" (tp_CronExpr a) ++ omit_string "payload" (tp_Payload a) ++ [("max_retry", jint (tp_MaxRetry a))]
    ++ omit_string "retry_policy" (tp_RetryPolicy a)
    ++ [("explanation", JString (tp_Explanation a)); ("confidence", jfloat (tp_Confidence a))]).

(** [now] is the clock when the expression is checked. *)
Definition ParseNaturalLanguage (loc : Location) (now : Time) (input : string) : L TaskParseResponse :=
  resp <- ask_json "llm task parse" "parse llm task output" prompt_TaskParser input
            (fun v => into_struct set_parsed v (mkTaskParse "" "" "" "" "" 0 "" "" fzero)) ;;
  if bool_decide (tp_Name resp = "") then fail (Errorf "llm returned empty task name" []) else
  if bool_decide (tp_CronExpr resp = "") then ret resp else
  match NextAfter loc now (tp_CronExpr resp) with
  | Err e => fail (Wrap ("llm returned invalid cron expression " +:+ Quote (tp_CronExpr resp)) e)
  | Ok _ => ret resp
  end.

(** ** Durations *)

Record DurationStats := mkDurationStats {
  ds_Count : Z; ds_AvgDuration : float64; ds_MinDuration : float64; ds_MaxDuration : float64; ds_P50Duration : float64;
  ds_P95Duration : float64
}.

(** How long a finished instance ran, if that is known. *)
Definition duration (inst : TaskInstance) : option float64 :=
  if negb (bool_decide (inst_Status inst = "success")) && negb (bool_decide (inst_Status inst = "failed")) then None else
  let explicit :=
    if negb (IsZero (inst_StartedAt inst)) && negb (IsZero (inst_FinishedAt inst)) then
      let dur := Seconds (Sub (inst_FinishedAt inst) (inst_StartedAt inst)) in
      if fle fzero dur then Some dur else None
    else None in
  match explicit with
  | Some dur => Some dur
  | None =>
      if IsZero (inst_DispatchTime inst) then None else
      let dur := Seconds (Sub (inst_UpdatedAt inst) (inst_DispatchTime inst)) in
      Some (if flt dur fzero then fzero else dur)
  end.

(** The order of [sort.Float64s]: NaN is smallest. *)
Definition is_nan (x : float64) : bool := match x with S754_nan => true | _ => false end.
Definition float_less (x y : float64) : bool := flt x y || (is_nan x && negb (is_nan y)).
Definition not_above (x y : float64) : Prop := float_less y x = false.
#[local] Instance not_above_dec x y : Decision (not_above x y).
Proof. unfold not_above. apply _. Defined.

Definition sort_floats (xs : list float64) : list float64 := merge_sort not_above xs.

(** [math.Ceil] *)
Definition ceil (x : float64) : Z :=
  match x with
  | S754_finite s m e =>
      let v := if 0 <=? e then Zpos m * 2 ^ e else Zpos m / 2 ^ (- e) in
      let exact := (0 <=? e) || (Zpos m mod 2 ^ (- e) =? 0) in
      if s then - v else if exact then v else v + 1
  | _ => 0
  end.

(** The index of the p-th percentile, before it is clamped: the subtraction is in
    float64. *)
Definition rank (p n : Z) : Z := to_int (fsub (of_int (ceil (fmul (fdiv (of_int p) hundred) (of_int n)))) (of_int 1)).

Definition percentile (sorted : list float64) (p : Z) : float64 :=
  match sorted with
  | [] => fzero
  | _ =>
      let n := Z.of_nat (length sorted) in
      let idx := rank p n in
      let idx := if idx <? 0 then 0 else idx in
      let idx := if n <=? idx then n - 1 else idx in
      nth (Z.to_nat idx) sorted fzero
  end.

Definition ComputeStats (instances : list TaskInstance) : DurationStats :=
  let durations := omap duration instances in
  match sort_floats durations with
  | [] => mkDurationStats 0 fzero fzero fzero fzero fzero
  | (first :: _) as sorted =>
      let n := Z.of_nat (length durations) in
      mkDurationStats n (fdiv (foldl fadd fzero sorted) (of_int n)) first (List.last sorted fzero)
        (percentile sorted 50) (percentile sorted 95)
  end.

Definition stats_json (s : DurationStats) : jvalue :=
  JObject [("count", jint (ds_Count s)); ("avg_duration", jfloat (ds_AvgDuration s)); ("min_duration", jfloat (ds_MinDuration s));
    ("max_duration", jfloat (ds_MaxDuration s)); ("p50_duration", jfloat (ds_P50Duration s)); ("p95_duration", jfloat (ds_P95Duration s))].

Record PredictResponse := mkPredict {
  pr_PredictedDurationSeconds : float64; pr_Confidence : float64; pr_Trend : string; pr_Explanation : string;
  pr_HistoricalStats : DurationStats
}.

Definition set_prediction (a : PredictResponse) (kv : string * jvalue) : option PredictResponse :=
  let 'mkPredict secs conf trend expl stats := a in
  let k := foldName kv.1 in
  if bool_decide (k = "predicted_duration_seconds") then x ← into_float kv.2 secs; Some (mkPredict x conf trend expl stats)
  else if bool_decide (k = "confidence") then x ← into_float kv.2 conf; Some (mkPredict secs x trend expl stats)
  else if bool_decide (k = "trend") then x ← into_string kv.2 trend; Some (mkPredict secs conf x expl stats)
  else if bool_decide (k = "explanation") then x ← into_string kv.2 expl; Some (mkPredict secs conf trend x stats)
  else Some a.

Definition predict_json (a : PredictResponse) : jvalue :=
  JObject [("predicted_duration_seconds", jfloat (pr_PredictedDurationSeconds a)); ("confidence", jfloat (pr_Confidence a));
    ("trend", JString (pr_Trend a)); ("explanation", JString (pr_Explanation a)); ("historical_stats", stats_json (pr_HistoricalStats a))].

Definition predict_prompt (task : Task) (s : DurationStats) : string :=
  "Task configuration:" +:+ nl +:+ "- Name: " +:+ task_Name task +:+ nl +:+ "- Type: " +:+ task_Type task +:+ nl
  +:+ "- Timeout: " +:+ fmt_d (task_TimeoutSeconds task) +:+ " seconds" +:+ nl +:+ "- Max retries: " +:+ fmt_d (task_MaxRetry task) +:+ nl
  +:+ "- Retry policy: " +:+ task_RetryPolicy task +:+ nl +:+ nl
  +:+ "Historical execution duration stats (from " +:+ fmt_d (ds_Count s) +:+ " completed instances):" +:+ nl
  +:+ "- Average: " +:+ fmt_fixed 2 (ds_AvgDuration s) +:+ " seconds" +:+ nl +:+ "- Min: " +:+ fmt_fixed 2 (ds_MinDuration s) +:+ " seconds" +:+ nl
  +:+ "- Max: " +:+ fmt_fixed 2 (ds_MaxDuration s) +:+ " seconds" +:+ nl +:+ "- P50: " +:+ fmt_fixed 2 (ds_P50Duration s) +:+ " seconds" +:+ nl
  +:+ "- P95: " +:+ fmt_fixed 2 (ds_P95Duration s) +:+ " seconds".

Definition PredictWithLLM (task : Task) (stats : DurationStats) : L PredictResponse :=
  ask_json "llm predict duration" "parse llm predict output" prompt_PredictDuration (predict_prompt task stats)
    (fun v => into_struct set_prediction v (mkPredict fzero fzero "" "" stats)).

(** ** Trends *)

Record DataSnapshot := mkDataSnapshot {
  sn_WorkerCount : Z; sn_OnlineWorkers : Z; sn_AvgWorkerLoad : float64; sn_TotalInstances : Z; sn_FailedInstances : Z;
  sn_SuccessInstances : Z; sn_PendingInstances : Z; sn_TaskCount : Z; sn_EnabledTasks : Z; sn_TimeWindowHours : Z;
  sn_TotalLoadSamples : Z; sn_AvgLoadOverWindow : float64; sn_LoadDirection : string
}.

(** [current / max] where there is a maximum. *)
Definition ratio (current max : Z) : float64 := if 0 <? max then fdiv (of_int current) (of_int max) else fzero.

(** The sum over the workers that are online, and their number. *)
Definition online_load (workers : list WorkerNode) : float64 * Z :=
  let up := filter (fun w => worker_Status w = "online") workers in
  (foldl (fun a w => if 0 <? worker_MaxConcurrency w then fadd a (ratio (worker_CurrentLoad w) (worker_MaxConcurrency w)) else a) fzero up,
   Z.of_nat (length up)).
Definition average_load (workers : list WorkerNode) : float64 :=
  let '(total, n) := online_load workers in if 0 <? n then fdiv total (of_int n) else fzero.

Definition in_flight (st : string) : bool := bool_decide (st ∈ ["pending"; "dispatched"; "running"; "retry_waiting"]).

Definition ComputeSnapshot (now : Time) (workers : list WorkerNode) (tasks : list Task) (instances : list TaskInstance)
    (timeWindowHours : Z) : DataSnapshot :=
  let windowCutoff := now + wrap64 (wrap64 (- timeWindowHours) * Hour) in
  let inside := filter (fun i => negb ((0 <? timeWindowHours) && (inst_CreatedAt i <? windowCutoff)) = true) instances in
  let count (f : string -> bool) := count_if (fun i => f (inst_Status i)) inside in
  mkDataSnapshot (Z.of_nat (length workers)) (online_load workers).2 (average_load workers) (Z.of_nat (length inside))
    (count (fun st => bool_decide (st = "failed"))) (count (fun st => bool_decide (st = "success"))) (count in_flight)
    (Z.of_nat (length tasks)) (count_if (fun t => bool_decide (task_Status t = "enabled")) tasks) timeWindowHours 0 fzero "".

(** The load samples of the window, newest first, into the snapshot ([analyzeTrend]). *)
Definition enrich (snapshots : list WorkerLoadSnapshot) (s : DataSnapshot) : DataSnapshot :=
  match snapshots with
  | [] => s
  | newest :: _ =>
      let load x := ratio (snap_CurrentLoad x) (snap_MaxConcurrency x) in
      let total := foldl (fun a x => if 0 <? snap_MaxConcurrency x then fadd a (load x) else a) fzero snapshots in
      let diff := fsub (load newest) (load (List.last snapshots newest)) in
      mkDataSnapshot (sn_WorkerCount s) (sn_OnlineWorkers s) (sn_AvgWorkerLoad s) (sn_TotalInstances s) (sn_FailedInstances s)
        (sn_SuccessInstances s) (sn_PendingInstances s) (sn_TaskCount s) (sn_EnabledTasks s) (sn_TimeWindowHours s)
        (Z.of_nat (length snapshots)) (fdiv total (of_int (Z.of_nat (length snapshots))))
        (if flt (lit 5 100) diff then "increasing" else if flt diff (lit (-5) 100) then "decreasing" else "stable")
  end.

Definition snapshot_json (s : DataSnapshot) : jvalue :=
  JObject [("worker_count", jint (sn_WorkerCount s)); ("online_workers", jint (sn_OnlineWorkers s));
    ("avg_worker_load", jfloat (sn_AvgWorkerLoad s)); ("total_instances", jint (sn_TotalInstances s));
    ("failed_instances", jint (sn_FailedInstances s)); ("success_instances", jint (sn_SuccessInstances s));
    ("pending_instances", jint (sn_PendingInstances s)); ("task_count", jint (sn_TaskCount s));
    ("enabled_tasks", jint (sn_EnabledTasks s)); ("time_window_hours", jint (sn_TimeWindowHours s));
    ("total_load_samples", jint (sn_TotalLoadSamples s)); ("avg_load_over_window", jfloat (sn_AvgLoadOverWindow s));
    ("load_direction", JString (sn_LoadDirection s))].

Record TrendItem := mkTrendItem { ti_Metric : string; ti_Direction : string; ti_Detail : string }.
Record Recommendation := mkRecommendation { rc_Type : string; rc_Title : string; rc_Description : string; rc_Urgency : string }.
Record TrendResponse := mkTrendResponse {
  tr_OverallAssessment : string; tr_Trends : list TrendItem; tr_Recommendations : list Recommendation
}.

Definition set_trend_item (a : TrendItem) (kv : string * jvalue) : option TrendItem :=
  let 'mkTrendItem m d t := a in
  let k := foldName kv.1 in
  if bool_decide (k = "metric") then x ← into_string kv.2 m; Some (mkTrendItem x d t)
  else if bool_decide (k = "direction") then x ← into_string kv.2 d; Some (mkTrendItem m x t)
  else if bool_decide (k = "detail") then x ← into_string kv.2 t; Some (mkTrendItem m d x)
  else Some a.

Definition set_recommendation (a : Recommendation) (kv : string * jvalue) : option Recommendation :=
  let 'mkRecommendation ty ti de ur := a in
  let k := foldName kv.1 in
  if bool_decide (k = "type") then x ← into_string kv.2 ty; Some (mkRecommendation x ti de ur)
  else if bool_decide (k = "title") then x ← into_string kv.2 ti; Some (mkRecommendation ty x de ur)
  else if bool_decide (k = "description") then x ← into_string kv.2 de; Some (mkRecommendation ty ti x ur)
  else if bool_decide (k = "urgency") then x ← into_string kv.2 ur; Some (mkRecommendation ty ti de x)
  else Some a.

(** [set_snapshot]: the model may send a snapshot of its own, which is replaced; only
    that it decodes matters. *)
Definition decodes_snapshot (kv : string * jvalue) : bool :=
  let k := foldName kv.1 in
  if bool_decide (k = "load_direction") then bool_decide (is_Some (into_string kv.2 ""))
  else if bool_decide (k ∈ ["avg_worker_load"; "avg_load_over_window"]) then bool_decide (is_Some (into_float kv.2 fzero))
  else if bool_decide (k ∈ ["worker_count"; "online_workers"; "total_instances"; "failed_instances"; "success_instances";
       "pending_instances"; "task_count"; "enabled_tasks"; "time_window_hours"; "total_load_samples"])
  then bool_decide (is_Some (into_int kv.2 0))
  else true.

Definition set_trend (a : TrendResponse) (kv : string * jvalue) : option TrendResponse :=
  let 'mkTrendResponse o ts rs := a in
  let k := foldName kv.1 in
  if bool_decide (k = "overall_assessment") then x ← into_string kv.2 o; Some (mkTrendResponse x ts rs)
  else if bool_decide (k = "trends") then
    x ← into_slice (fun v => into_struct set_trend_item v (mkTrendItem "" "" "")) kv.2; Some (mkTrendResponse o x rs)
  else if bool_decide (k = "recommendations") then
    x ← into_slice (fun v => into_struct set_recommendation v (mkRecommendation "" "" "" "")) kv.2; Some (mkTrendResponse o ts x)
  else if bool_decide (k = "data_snapshot") then
    _ ← into_struct (fun _ kv => if decodes_snapshot kv then Some tt else None) kv.2 tt; Some a
  else Some a.

Definition trend_json (a : TrendResponse) (s : DataSnapshot) : jvalue :=
  JObject [("overall_assessment", JString (tr_OverallAssessment a));
    ("trends", JArray ((fun t => JObject [("metric", JString (ti_Metric t)); ("direction", JString (ti_Direction t));
       ("detail", JString (ti_Detail t))]) <$> tr_Trends a));
    ("recommendations", JArray ((fun r => JObject [("type", JString (rc_Type r)); ("title", JString (rc_Title r));
       ("description", JString (rc_Description r)); ("urgency", JString (rc_Urgency r))]) <$> tr_Recommendations a));
    ("data_snapshot", snapshot_json s)].

Definition trend_prompt (s : DataSnapshot) : string :=
  "Time window: " +:+ fmt_d (sn_TimeWindowHours s) +:+ " hours" +:+ nl +:+ nl +:+ "Worker stats:" +:+ nl
  +:+ "- Total workers: " +:+ fmt_d (sn_WorkerCount s) +:+ " (online: " +:+ fmt_d (sn_OnlineWorkers s) +:+ ")" +:+ nl
  +:+ "- Average worker load: " +:+ fmt_fixed 2 (fmul (sn_AvgWorkerLoad s) hundred) +:+ "%" +:+ nl +:+ nl
  +:+ "Historical load data (" +:+ fmt_d (sn_TotalLoadSamples s) +:+ " samples collected over the window):" +:+ nl
  +:+ "- Average load over window: " +:+ fmt_fixed 2 (fmul (sn_AvgLoadOverWindow s) hundred) +:+ "%" +:+ nl
  +:+ "- Load direction: " +:+ sn_LoadDirection s +:+ nl +:+ nl +:+ "Task stats:" +:+ nl
  +:+ "- Total tasks: " +:+ fmt_d (sn_TaskCount s) +:+ " (enabled: " +:+ fmt_d (sn_EnabledTasks s) +:+ ")" +:+ nl +:+ nl
  +:+ "Instance stats (within window):" +:+ nl +:+ "- Total instances: " +:+ fmt_d (sn_TotalInstances s) +:+ nl
  +:+ "- Failed: " +:+ fmt_d (sn_FailedInstances s) +:+ nl +:+ "- Success: " +:+ fmt_d (sn_SuccessInstances s) +:+ nl
  +:+ "- Pending/in-flight: " +:+ fmt_d (sn_PendingInstances s).

Definition AnalyzeTrend (s : DataSnapshot) : L TrendResponse :=
  ask_json "llm trend analysis" "parse llm trend output" prompt_TrendAnalysis (trend_prompt s)
    (fun v => into_struct set_trend v (mkTrendResponse "" [] [])).
End Services.

(** ** Cron *)

(** [NextRun]; the base time comes with its own location, a zero one is replaced by
    the clock. *)
Definition NextRun (local : Location) (now : Time) (expression : string) (loc : Location) (baseTime : Time) : result (Time * Time) :=
  let '(loc, baseTime) := if IsZero baseTime then (local, now) else (loc, baseTime) in
  match NextAfter loc baseTime expression with
  | Err e => Err e
  | Ok next => Ok (baseTime, next)
  end.

(** ** Properties *)

Lemma flt_asym x y : flt x y = true -> flt y x = false.
Proof.
  unfold flt, SFltb. destruct x as [[]|[]| |[] m1 e1], y as [[]|[]| |[] m2 e2]; simpl; try done.
  all: rewrite (Z.compare_antisym e1 e2); destruct (e1 ?= e2)%Z; simpl; try done.
  all: change (Pos.compare_cont Eq m1 m2) with (Pos.compare m1 m2); change (Pos.compare_cont Eq m2 m1) with (Pos.compare m2 m1).
  all: rewrite (Pos.compare_antisym m1 m2); by destruct (m1 ?= m2)%positive.
Qed.

#[local] Instance not_above_total : Total not_above.
Proof.
  intros x y. unfold not_above, float_less. destruct (flt y x) eqn:E.
  - right. rewrite (flt_asym _ _ E). simpl. destruct x, y; simpl in *; try done.
  - destruct (flt x y) eqn:E2; [|destruct x, y; simpl; auto].
    left. simpl. destruct x, y; simpl in *; try done.
Qed.

Lemma sort_floats_perm xs : sort_floats xs ≡ₚ xs.
Proof. apply merge_sort_Permutation. Qed.

(** The nearest rank, exactly. *)
Definition nearest_rank (p n : Z) : Z := (p * n + 99) / 100 - 1.

Definition max_ranked : Z := 2000.

Lemma rank_exact p n : p = 50 \/ p = 95 -> 1 <= n <= max_ranked -> rank p n = nearest_rank p n.
Proof.
  intros Hp Hn. apply Z.eqb_eq. revert n Hn.
  destruct Hp as [->| ->]; apply (forallb_zrange (fun n => rank _ n =? nearest_rank _ n)); by vm_compute.
Qed.

Lemma last_default {A} (l : list A) d : l <> [] -> last l = Some (List.last l d).
Proof.
  induction l as [|x l IH]; [done|]. intros _. destruct l as [|y l]; [done|]. specialize (IH ltac:(done)).
  change (last (y :: l) = Some (List.last (y :: l) d)). exact IH.
Qed.

Lemma percentile_rank p sorted : p = 50 \/ p = 95 -> 1 <= Z.of_nat (length sorted) <= max_ranked ->
  sorted !! Z.to_nat (nearest_rank p (Z.of_nat (length sorted))) = Some (percentile sorted p).
Proof.
  intros Hp Hn. unfold percentile. destruct sorted as [|x xs] eqn:E; [simpl in *; lia|]. rewrite <- E in *.
  rewrite rank_exact by done. set (n := Z.of_nat (length sorted)) in *. unfold nearest_rank.
  assert (0 <= (p * n + 99) / 100 - 1 < n) as Hr.
  { split; [|apply Z.lt_sub_lt_add_r, Z.div_lt_upper_bound; lia].
    enough (1 <= (p * n + 99) / 100) by lia. apply Z.div_le_lower_bound; lia. }
  destruct (Z.ltb_spec ((p * n + 99) / 100 - 1) 0); [lia|]. destruct (Z.leb_spec n ((p * n + 99) / 100 - 1)); [lia|].
  destruct (lookup_lt_is_Some_2 sorted (Z.to_nat ((p * n + 99) / 100 - 1))) as [y Hy]; [lia|].
  rewrite Hy. f_equal. symmetry. by apply nth_lookup_Some.
Qed.

(** C37. The duration statistics are order statistics: of the durations of up to
    2000 finished instances, sorted, they give the number, the first, the last, and
    the values at the nearest ranks of 50 and 95 percent, although the ranks are
    computed in floating point. *)
Theorem ComputeStats_ranks instances :
  let durations := omap duration instances in
  let n := Z.of_nat (length durations) in
  1 <= n <= max_ranked -> exists sorted, sorted ≡ₚ durations /\ Sorted not_above sorted /\
    let s := ComputeStats instances in
    ds_Count s = n /\ sorted !! 0%nat = Some (ds_MinDuration s) /\ last sorted = Some (ds_MaxDuration s) /\
    sorted !! Z.to_nat (nearest_rank 50 n) = Some (ds_P50Duration s) /\
    sorted !! Z.to_nat (nearest_rank 95 n) = Some (ds_P95Duration s).
Proof.
  intros durations n Hn. exists (sort_floats durations).
  pose proof (sort_floats_perm durations) as Hp. split; [done|]. split; [apply Sorted_merge_sort, _|].
  assert (Z.of_nat (length (sort_floats durations)) = n) as Hl by (subst n; by rewrite Hp).
  unfold ComputeStats. fold durations. destruct (sort_floats durations) as [|x xs] eqn:E; [simpl in Hl; lia|].
  cbn [ds_Count ds_MinDuration ds_MaxDuration ds_P50Duration ds_P95Duration]. rewrite <- Hl in *.
  split_and!; [done|done| |apply percentile_rank; auto..].
  by apply last_default.
Qed.

Definition ran_for (secs : Z) : TaskInstance :=
  {| inst_ID := 1; inst_TaskID := 1; inst_ScheduleInstanceID := "s"; inst_ShardNo := 0; inst_ShardTotal := 0;
     inst_TriggerTime := zero_time; inst_DispatchTime := zero_time; inst_StartedAt := 1714557600 * Second;
     inst_FinishedAt := (1714557600 + secs) * Second; inst_WorkerID := "a"; inst_Status := "success"; inst_RetryCount := 0;
     inst_ErrorCode := ""; inst_ErrorMessage := ""; inst_AnalysisJSON := ""; inst_NextRetryTime := zero_time;
     inst_TraceID := ""; inst_CreatedAt := zero_time; inst_UpdatedAt := zero_time |}.

Lemma ComputeStats_ranks_witness :
  exists sorted, sorted ≡ₚ omap duration [ran_for 9; ran_for 4; ran_for 7] /\
    sorted !! 1%nat = Some (ds_P50Duration (ComputeStats [ran_for 9; ran_for 4; ran_for 7])) /\
    ds_P50Duration (ComputeStats [ran_for 9; ran_for 4; ran_for 7]) = of_int 7.
Proof.
  destruct (ComputeStats_ranks [ran_for 9; ran_for 4; ran_for 7]) as (sorted & Hp & _ & _ & _ & _ & H50 & _).
  - vm_compute. split; discriminate.
  - exists sorted. split; [exact Hp|]. split; [exact H50|]. vm_compute. reflexivity.
Defined.
