(* ===== verification/Memory.v ===== *)
(** internal/ai/memory/store.go: the conversations of the chat agent, in two tables of
    the same database ([Gorm]; here through plain SQL). *)
From S2P Require Import Prelude GoStd GoTime Json Repo Gorm Mysql MemDB.

Record convRow := mkConvRow {
  cv_ID : string; cv_Title : string; cv_UserID : string; cv_MessageCount : Z; cv_CreatedAt : Time; cv_UpdatedAt : Time
}.

Record msgRow := mkMsgRow {
  mr_ID : Z; mr_ConversationID : string; mr_Role : string; mr_Content : string; mr_ToolCallsJSON : string; mr_CreatedAt : Time
}.

Definition set_cv_Title (v : string) (r : convRow) : convRow :=
  mkConvRow (cv_ID r) v (cv_UserID r) (cv_MessageCount r) (cv_CreatedAt r) (cv_UpdatedAt r).
Definition set_cv_UpdatedAt (v : Time) (r : convRow) : convRow :=
  mkConvRow (cv_ID r) (cv_Title r) (cv_UserID r) (cv_MessageCount r) (cv_CreatedAt r) v.
Definition set_cv_MessageCount (v : Z) (r : convRow) : convRow :=
  mkConvRow (cv_ID r) (cv_Title r) (cv_UserID r) v (cv_CreatedAt r) (cv_UpdatedAt r).

(** The columns' defaults: CURRENT_TIMESTAMP, an empty user, no messages. *)
#[export] Instance convRow_entity `{Columns} : Entity convRow string := {
  key := cv_ID; inserted k now r := mkConvRow k (cv_Title r) "" 0 (NOW now) (NOW now); touched _ r := r;
  collide r r' := bool_decide (cv_ID r = cv_ID r') }.
#[export] Instance msgRow_entity `{Columns} : Entity msgRow Z := {
  key := mr_ID;
  inserted k now r := mkMsgRow k (mr_ConversationID r) (mr_Role r) (mr_Content r) (mr_ToolCallsJSON r) (NOW now);
  touched _ r := r; collide r r' := mr_ID r =? mr_ID r' }.

Section Store.
Context `{Columns} {CD : Type} `{!Table CD convRow string} `{!Table CD msgRow Z}.

Definition wrap_err {A} (prefix : string) (r : result A) : result A :=
  match r with Ok a => Ok a | Err e => Err (Wrap prefix e) end.

(** [newID] is [id]: sixteen random bytes in hex. *)
Definition CreateConversation (now : Time) (id title : string) (db : CD) : CD * result convRow :=
  let title := if bool_decide (title = "") then "新对话" else title in
  let '(db, r) := db_Create now (mkConvRow id title "" 0 zero_time zero_time) db in
  match r with
  | Err e => (db, Err (Wrap "create conversation" e))
  | Ok _ => (db, Ok (mkConvRow id title "" 0 now zero_time))
  end.

(** The error of the second statement is dropped. *)
Definition AddMessage (now : Time) (convID role content toolCallsJSON : string) (db : CD) : CD * result unit :=
  let toolCallsJSON := if bool_decide (toolCallsJSON = "") then "null" else toolCallsJSON in
  let '(db, r) := db_Create now (mkMsgRow 0 convID role content toolCallsJSON zero_time) db in
  match r with
  | Err e => (db, Err (Wrap "add message" e))
  | Ok _ =>
      let '(db, _) := db_Updates now (fun r => bool_decide (cv_ID r = convID))
        (fun r => set_cv_UpdatedAt (NOW now) (set_cv_MessageCount (cv_MessageCount r + 1) r)) db in
      (db, Ok tt)
  end.

Definition GetHistory (convID : string) (limit : Z) (db : CD) : result (list msgRow) :=
  let limit := if limit <=? 0 then 50 else limit in
  wrap_err "get history"
    (db_Find (Limit (Some limit) (Order (fun x y => mr_ID x <=? mr_ID y)
       (Where (fun r => bool_decide (mr_ConversationID r = convID))))) db).

Definition ListConversations (limit : Z) (db : CD) : result (list convRow) :=
  let limit := if limit <=? 0 then 20 else limit in
  wrap_err "list conversations"
    (db_Find (Limit (Some limit) (Order (fun x y => cv_UpdatedAt y <=? cv_UpdatedAt x) (Where (fun _ => true)))) db).

Definition DeleteConversation (convID : string) (db : CD) : CD * result unit :=
  let '(db, r) := db_Delete (fun r => bool_decide (mr_ConversationID r = convID)) db in
  match r with
  | Err e => (db, Err e)
  | Ok _ =>
      let '(db, r) := db_Delete (fun r => bool_decide (cv_ID r = convID)) db in
      match r with Err e => (db, Err e) | Ok _ => (db, Ok tt) end
  end.

(** ON UPDATE CURRENT_TIMESTAMP, when the title changes. *)
Definition UpdateTitle (now : Time) (convID title : string) (db : CD) : CD * result unit :=
  db_Updates now (fun r => bool_decide (cv_ID r = convID))
    (fun r => if bool_decide (cv_Title r = title) then r else set_cv_UpdatedAt (NOW now) (set_cv_Title title r)) db.

(** The subquery of the first statement, then the statement. *)
Definition DeleteOldConversations (before : Time) (db : CD) : CD * result Z :=
  let old (r : convRow) := cv_UpdatedAt r <? sent before in
  match db_Find (Where old) db with
  | Err e => (db, Err (Wrap "delete old messages" e))
  | Ok convs =>
      let '(db, r) := db_Delete (fun r => bool_decide (mr_ConversationID r ∈ cv_ID <$> convs)) db in
      match r with
      | Err e => (db, Err (Wrap "delete old messages" e))
      | Ok n =>
          let '(db, r) := db_Delete old db in
          match r with Err e => (db, Err (Wrap "delete old conversations" e)) | Ok _ => (db, Ok n) end
      end
  end.
End Store.

Section Properties.
Context `{Columns} {CD : Type} `{!Table CD convRow string} `{!Table CD msgRow Z} `{!TableLaws CD msgRow Z}.

(** The messages of a conversation, oldest first. *)
Definition conversation (convID : string) (db : CD) (ms : list msgRow) : Prop :=
  ms ≡ₚ filter (fun r => mr_ConversationID r = convID) (map_to_list (rows db)).*2 /\ Sorted (fun x y => mr_ID x <= mr_ID y) ms.

(** A conversation's history is its first messages: the limit cuts at the end, so
    once a conversation has as many messages as the limit, what is said later never
    reaches the model again. *)
Theorem GetHistory_oldest convID limit (db : CD) ms : 0 < limit -> GetHistory convID limit db = Ok ms ->
  exists all, conversation convID db all /\ ms = take (Z.to_nat limit) all.
Proof.
  intros Hl. unfold GetHistory. destruct (Z.leb_spec limit 0); [lia|]. unfold wrap_err.
  destruct (db_Find _ db) as [rs|e] eqn:E; intros [= <-]. apply db_Find_law in E as (all & Hp & Hs & ->).
  exists all. split; [|done]. split.
  - rewrite Hp. simpl. erewrite list_filter_iff; [reflexivity|]. intros r. apply bool_decide_eq_true.
  - simpl in Hs. specialize (Hs ltac:(intros x y; simpl; lia)). revert Hs. clear. induction 1 as [|x l Hl IH Hd]; constructor; [done|].
    destruct Hd as [|y l Hxy]; constructor. unfold ordered in Hxy. simpl in Hxy. lia.
Qed.
End Properties.

(** Three messages, and a history of two. *)
#[export] Instance msgRow_keys : KeyGen msgRow Z := fun n _ => n.
#[export] Instance msgRow_laws : EntityLaws msgRow Z.
Proof. done. Qed.

Definition said (text : string) : msgRow := mkMsgRow 0 "c" "user" text "null" zero_time.
Definition three_messages : Mem msgRow Z :=
  foldl (fun db r => (db_Create (K:=Z) 0 r db).1) (mkMem ∅ 1) [said "one"; said "two"; said "three"].

Lemma GetHistory_oldest_witness :
  exists ms all, GetHistory "c" 2 three_messages = Ok ms /\ mr_Content <$> ms = ["one"; "two"] /\
    conversation "c" three_messages all /\ ms = take 2 all.
Proof.
  destruct (GetHistory "c" 2 three_messages) as [ms|e] eqn:E; [|vm_compute in E; discriminate].
  destruct (GetHistory_oldest "c" 2 three_messages ms ltac:(lia) E) as (all & Hc & Hm). exists ms, all.
  split; [reflexivity|]. split; [|by split]. vm_compute in E. injection E as <-. reflexivity.
Defined.

(** Both tables in memory. *)
#[export] Instance convRow_keys : KeyGen convRow string := fun _ r => cv_ID r.
Record ChatDB := mkChatDB { cdb_convs : Mem convRow string; cdb_msgs : Mem msgRow Z }.

#[export] Instance ChatDB_convs : Table ChatDB convRow string := {
  db_Create now r db := let '(t, x) := db_Create now r (cdb_convs db) in (mkChatDB t (cdb_msgs db), x);
  db_First p db := db_First p (cdb_convs db);
  db_Find q db := db_Find q (cdb_convs db);
  db_Count p db := db_Count p (cdb_convs db);
  db_Updates now p f db := let '(t, x) := db_Updates now p f (cdb_convs db) in (mkChatDB t (cdb_msgs db), x);
  db_Delete p db := let '(t, x) := db_Delete p (cdb_convs db) in (mkChatDB t (cdb_msgs db), x) }.

#[export] Instance ChatDB_msgs : Table ChatDB msgRow Z := {
  db_Create now r db := let '(t, x) := db_Create now r (cdb_msgs db) in (mkChatDB (cdb_convs db) t, x);
  db_First p db := db_First p (cdb_msgs db);
  db_Find q db := db_Find q (cdb_msgs db);
  db_Count p db := db_Count p (cdb_msgs db);
  db_Updates now p f db := let '(t, x) := db_Updates now p f (cdb_msgs db) in (mkChatDB (cdb_convs db) t, x);
  db_Delete p db := let '(t, x) := db_Delete p (cdb_msgs db) in (mkChatDB (cdb_convs db) t, x) }.

Definition empty_chat : ChatDB := mkChatDB (mkMem ∅ 1) (mkMem ∅ 1).
