(* ===== verification/Upkeep.v ===== *)
(** What runs beside the servers and the loops: the daily summary of
    cmd/scheduler/main.go, and of cmd/ai-service/main.go the choice of the models and the
    goroutine that deletes old records and conversations. *)
From S2P Require Import Prelude GoStd GoTime Float Json Telemetry Model Repo RateLimit Gorm Mysql MemDB TestStore World Sample Records.
From S2P Require Import Adapter Analysis Memory.

#[local] Open Scope prog_scope.

(** ** The daily summary *)

(** [time.Date(now.Year(), now.Month(), now.Day()+1, 8, 0, 0, 0, now.Location())]: the
    offset is looked up twice. *)
Definition next_summary (loc : Location) (now : Time) : Time :=
  let unix := (t_days loc now + 1) * 86400 + 8 * 3600 in
  let offset := loc unix in
  (if offset =? 0 then unix else unix - loc (unix - offset)) * Second.

Section Summary.
Context `{Backend} `{Env}.

Definition summary_line (snap : DataSnapshot) : string :=
  Marshal (JObject [("online_workers", jint (sn_OnlineWorkers snap)); ("worker_count", jint (sn_WorkerCount snap));
    ("avg_load_pct", jfloat (fmul (sn_AvgWorkerLoad snap) (of_int 100)));
    ("enabled_tasks", jint (sn_EnabledTasks snap)); ("task_count", jint (sn_TaskCount snap));
    ("total_instances", jint (sn_TotalInstances snap)); ("failed", jint (sn_FailedInstances snap));
    ("success", jint (sn_SuccessInstances snap))]).

(** A listing that fails counts as an empty one. *)
Definition or_nil {A} (r : result (list A)) : list A := match r with Ok xs => xs | Err _ => [] end.

Definition daily_summary (least : Z) : M (list log_line) :=
  workers <-? worker_query ListWorkers ;;
  tasks <-? task_query ListTasks ;;
  from <- Now ;;
  to <- Now ;;
  instances <-? instance_query (ListInstancesByTimeRange (from - 24 * Hour) to 0 0) ;;
  now <- Now ;;
  ret (emit least LevelDebug "daily health summary"
         (summary_line (ComputeSnapshot now (or_nil workers) (or_nil tasks) (or_nil instances) 24))).
End Summary.

(** ** The settings of the AI process *)

Definition defaultStr (val def : string) : string := if bool_decide (val = "") then def else val.

Definition llm_of (env : string -> string) : option LLMAdapter :=
  New (env "LLM_ENDPOINT") (env "LLM_API_KEY") (defaultStr (env "LLM_MODEL") "gpt-4o").

Definition fallback_of (env : string -> string) : option LLMAdapter :=
  if negb (Enabled (llm_of env)) then None else
  match New (env "LLM_FALLBACK_ENDPOINT") (env "LLM_FALLBACK_API_KEY") (defaultStr (env "LLM_FALLBACK_MODEL") "gpt-4o") with
  | Some fb => SetFallback (llm_of env) (Some fb) None
  | None => None
  end.

(** ** The clean-up *)

Section CleanUp.
Context `{Columns} {AD : Type} `{!Table AD AIAnalysisRecord Z} {CD : Type} `{!Table CD convRow string} `{!Table CD msgRow Z}.
Variable least : Z.

Definition cleaned (error done : string) (r : result Z) : list log_line :=
  match r with
  | Err e => emit least LevelWarn error (error_text e)
  | Ok n => if 0 <? n then emit least LevelDebug done (fmt_d n) else []
  end.

Definition clean_records (now : Time) (db : AD) : AD * list log_line :=
  let '(db, r) := DeleteOldRecords (now - 90 * 24 * Hour) db in
  (db, cleaned "ai analysis cleanup error" "ai analysis cleanup: deleted old records" r).

Definition clean_conversations (now : Time) (db : CD) : CD * list log_line :=
  let '(db, r) := DeleteOldConversations (now - 30 * 24 * Hour) db in
  (db, cleaned "conversation cleanup error" "conversation cleanup: deleted messages from old conversations" r).

(** A tick of the hour, with its two readings of the clock. *)
Definition clean_tick (now now' : Time) (db : AD * CD) : (AD * CD) * list log_line :=
  let '(a, l) := clean_records now db.1 in
  let '(c, l') := clean_conversations now' db.2 in
  ((a, c), l ++ l').
End CleanUp.

(** ** Properties of the summary *)

(** The summary is written at eight in the morning after: the sleep is between 8 and 32
    hours, give or take what the offset of the zone changes, and without such a change it
    ends at 8:00 on the next day. *)
Theorem next_summary_time (loc : Location) now d : (forall a b, Z.abs (loc a - loc b) <= d) ->
  (8 * 3600 - d) * Second < next_summary loc now - now <= (32 * 3600 + d) * Second /\
  (d = 0 -> t_hour loc (next_summary loc now) = 8 /\ t_minute loc (next_summary loc now) = 0 /\
            t_days loc (next_summary loc now) = t_days loc now + 1).
Proof.
  intros Hd. unfold next_summary. set (unix := (t_days loc now + 1) * 86400 + 8 * 3600).
  assert (exists o, (if loc unix =? 0 then unix else unix - loc (unix - loc unix)) = unix - o /\
                    forall a, Z.abs (loc a - o) <= d) as (o & -> & Ho).
  { destruct (Z.eqb_spec (loc unix) 0) as [E|E]; eexists; (split; [|intros a; apply Hd]); [|reflexivity].
    instantiate (1 := unix). rewrite E. lia. }
  pose proof (Ho (now / Second)) as Hn. unfold t_hour, t_minute, t_days, wall_seconds in *. unfold Second in *. split; [subst unix; zdiv_lia|].
  intros ->. rewrite Z.div_mul by lia. specialize (Ho (unix - o)).
  replace (unix - o + loc (unix - o)) with unix by lia. subst unix. split; [|split]; zdiv_lia.
Qed.

(** The logger of the process is for the info level: the summary is computed and thrown
    away. *)
Theorem summary_silent `{Backend} `{Env} w : exists w', daily_summary LevelInfo w = (w', Ok []) /\ same_stores w w'.
Proof. eexists. split; [reflexivity|]. done. Qed.

(** Without a first model there is no fallback. *)
Lemma fallback_alone env : env "LLM_ENDPOINT" = "" -> fallback_of env = None.
Proof. intros He. unfold fallback_of, llm_of, New. by rewrite bool_decide_true by done. Qed.

(** ** Properties of the clean-up *)

(** The two tables of the conversations do not share rows, and nothing cascades. *)
Class ChatLaws (CD : Type) `{Columns} `{!Table CD convRow string} `{!Table CD msgRow Z} := {
  chat_convs :: TableLaws CD convRow string;
  chat_msgs :: TableLaws CD msgRow Z;
  delete_msgs_frame p db db' x : db_Delete (R:=msgRow) p db = (db', x) ->
    rows (R:=convRow) db' = rows (R:=convRow) db /\ (table_inv (R:=convRow) db -> table_inv (R:=convRow) db');
  delete_convs_frame p db db' x : db_Delete (R:=convRow) p db = (db', x) -> rows (R:=msgRow) db' = rows (R:=msgRow) db
}.

Section Retention.
Context `{Columns} {AD : Type} `{!Table AD AIAnalysisRecord Z} `{!TableLaws AD AIAnalysisRecord Z}.
Context {CD : Type} `{!Table CD convRow string} `{!Table CD msgRow Z} `{!ChatLaws CD}.

Abbreviation records := (rows (T:=AD) (R:=AIAnalysisRecord) (K:=Z)).
Abbreviation convs := (rows (T:=CD) (R:=convRow) (K:=string)).
Abbreviation msgs := (rows (T:=CD) (R:=msgRow) (K:=Z)).

Definition fresh_record (now : Time) (r : AIAnalysisRecord) : Prop := sent (now - 90 * 24 * Hour) <= air_CreatedAt r.
Definition fresh_conv (now : Time) (c : convRow) : Prop := sent (now - 30 * 24 * Hour) <= cv_UpdatedAt c.

(** Every message belongs to a conversation. *)
Definition no_orphans (db : CD) : Prop := forall k m, msgs db !! k = Some m -> is_Some (convs db !! mr_ConversationID m).

Lemma clean_records_spec now db db' lines : table_inv db -> clean_records LevelInfo now db = (db', lines) ->
  records db' ⊆ records db /\ (forall k r, records db !! k = Some r -> fresh_record now r -> records db' !! k = Some r) /\
  (lines = [] -> map_Forall (fun _ => fresh_record now) (records db')).
Proof.
  intros Hi. unfold clean_records, DeleteOldRecords, mysql_records, my_DeleteOldRecords, wrapped_op, fresh_record.
  destruct (db_Delete _ db) as [t x] eqn:E. destruct (db_Delete_law _ _ _ _ Hi E) as [_ Hx].
  destruct x as [n|e]; intros [= <- <-]; rewrite Hx.
  - split_and!; [apply map_filter_subseteq| |].
    + intros k r Hk Hf. apply map_lookup_filter_Some. split; [done|]. simpl. lia.
    + intros _ k r [_ Hf]%map_lookup_filter_Some. simpl in Hf. lia.
  - by split_and!.
Qed.

(** The conversations a condition finds are those whose keys the messages are deleted by. *)
Lemma found_ids p db found c : db_Find (T:=CD) (Where p) db = Ok found -> convs db !! cv_ID c = Some c ->
  cv_ID c ∈ cv_ID <$> found <-> p c = true.
Proof.
  intros (all & Hp & _ & ->)%db_Find_law Hc. change (slice _ all) with all. rewrite list_elem_of_fmap. setoid_rewrite Hp.
  setoid_rewrite list_elem_of_filter. setoid_rewrite elem_of_values. simpl. split.
  - intros (c' & Hid & Ht & k & Hk). pose proof (rows_key _ _ _ Hk) as Hkey. cbn in Hkey. subst k.
    rewrite <- Hid in Hk. congruence.
  - intros Ht. exists c. eauto.
Qed.

(** What is left of the messages: all of them, or those of the fresh conversations. *)
Definition old_conv (now : Time) (c : convRow) : bool := cv_UpdatedAt c <? sent (now - 30 * 24 * Hour).
Definition left_msgs (now : Time) (db : CD) (m : msgRow) : Prop :=
  forall c, convs db !! mr_ConversationID m = Some c -> fresh_conv now c.

Lemma DeleteOldConversations_run now db db' r : table_inv (R:=convRow) db -> table_inv (R:=msgRow) db ->
  DeleteOldConversations (now - 30 * 24 * Hour) db = (db', r) ->
  (convs db' = convs db \/ convs db' = filter (fun kc => old_conv now kc.2 = false) (convs db)) /\
  (msgs db' = msgs db /\ convs db' = convs db \/
   forall k m, no_orphans db -> msgs db' !! k = Some m <-> msgs db !! k = Some m /\ left_msgs now db m) /\
  (forall n, r = Ok n -> convs db' = filter (fun kc => old_conv now kc.2 = false) (convs db)).
Proof.
  intros Hc Hm. unfold DeleteOldConversations. fold (old_conv now).
  destruct (db_Find _ db) as [found|e] eqn:Ef; [|intros [= <- <-]; split_and!; [by left|by left|done]].
  destruct (db_Delete (R:=msgRow) _ db) as [db1 x1] eqn:E1. destruct (delete_msgs_frame _ _ _ _ E1) as [Hf1 Hi1].
  destruct (db_Delete_law _ _ _ _ Hm E1) as [_ Hx1].
  destruct x1 as [n|e]; [|intros [= <- <-]; split_and!; [by left|by left|done]].
  assert (forall k m, no_orphans db -> msgs db1 !! k = Some m <-> msgs db !! k = Some m /\ left_msgs now db m) as Hleft.
  { intros k m Ho. rewrite Hx1, map_lookup_filter_Some. enough (msgs db !! k = Some m -> bool_decide (mr_ConversationID m ∈ cv_ID <$> found) = false <-> left_msgs now db m) by naive_solver. intros Hk.
    destruct (Ho _ _ Hk) as [c Hcid]. pose proof (rows_key _ _ _ Hcid) as Hkey. cbn in Hkey. unfold left_msgs. rewrite Hcid, <- Hkey.
    rewrite bool_decide_eq_false, (found_ids _ _ _ c Ef) by congruence. unfold old_conv, fresh_conv.
    rewrite Z.ltb_lt. split; [intros Hge c' [= <-]; lia|]. intros Hfr. specialize (Hfr c eq_refl). lia. }
  destruct (db_Delete (R:=convRow) _ db1) as [db2 x2] eqn:E2. pose proof (delete_convs_frame _ _ _ _ E2) as Hf2.
  destruct (db_Delete_law _ _ _ _ (Hi1 Hc) E2) as [_ Hx2]. rewrite Hf1 in Hx2.
  destruct x2 as [n2|e]; intros [= <- <-]; (split_and!; [|right; by rewrite Hf2|]); first [by left|by right|done].
Qed.

Definition clean_inv (db : AD * CD) : Prop :=
  table_inv db.1 /\ table_inv (R:=convRow) db.2 /\ table_inv (R:=msgRow) db.2 /\ no_orphans db.2.

(** Retention: a tick of the clean-up, whatever fails in it, removes no record of the last
    90 days, no conversation that changed in the last 30 days nor a message of one, adds
    nothing, and leaves no message without its conversation; when it writes nothing to the
    log, nothing older is left. *)
Theorem retention now now' db db' lines : clean_inv db -> clean_tick LevelInfo now now' db = (db', lines) ->
  (records db'.1 ⊆ records db.1 /\ convs db'.2 ⊆ convs db.2 /\ msgs db'.2 ⊆ msgs db.2) /\
  (forall k r, records db.1 !! k = Some r -> fresh_record now r -> records db'.1 !! k = Some r) /\
  (forall k c, convs db.2 !! k = Some c -> fresh_conv now' c -> convs db'.2 !! k = Some c) /\
  (forall k m, msgs db.2 !! k = Some m -> left_msgs now' db.2 m -> msgs db'.2 !! k = Some m) /\
  no_orphans db'.2 /\
  (lines = [] -> map_Forall (fun _ => fresh_record now) (records db'.1) /\ map_Forall (fun _ => fresh_conv now') (convs db'.2)).
Proof.
  intros (Hr & Hc & Hm & Ho). unfold clean_tick. destruct (clean_records _ now db.1) as [a l1] eqn:Ea.
  unfold clean_conversations. destruct (DeleteOldConversations _ db.2) as [c r] eqn:Ec. intros [= <- <-]. cbn [fst snd].
  destruct (clean_records_spec _ _ _ _ Hr Ea) as (Ha1 & Ha2 & Ha3).
  destruct (DeleteOldConversations_run _ _ _ _ Hc Hm Ec) as (Hcs & Hms & Hok).
  assert (forall k x, convs db.2 !! k = Some x -> fresh_conv now' x -> convs c !! k = Some x) as Hkeep.
  { intros k x Hk Hf. destruct Hcs as [-> | ->]; [done|]. apply map_lookup_filter_Some. split; [done|]. simpl. unfold old_conv, fresh_conv in *. lia. }
  split_and!; [exact Ha1| | |exact Ha2|exact Hkeep| | |].
  - destruct Hcs as [-> | ->]; [done|apply map_filter_subseteq].
  - destruct Hms as [[-> _]|Hms]; [done|]. apply map_subseteq_spec. intros k m Hk. by apply Hms in Hk as [? _].
  - intros k m Hk Hl. destruct Hms as [[-> _]|Hms]; [done|]. by apply Hms.
  - intros k m. destruct Hms as [[-> ->]|Hms]; [apply Ho|]. intros [Hk Hl]%Hms; [|done]. destruct (Ho _ _ Hk) as [x Hx].
    exists x. apply Hkeep; [done|by apply Hl].
  - intros [Hl1 Hl2]%app_nil. split; [by apply Ha3|]. destruct r as [n|e]; [|done]. rewrite (Hok n eq_refl).
    intros k x [_ Hf]%map_lookup_filter_Some. simpl in Hf. unfold old_conv, fresh_conv in *. lia.
Qed.
End Retention.

(** ** Two tables in memory *)

#[export] Instance aiAnalysisRecord_keys : KeyGen AIAnalysisRecord Z := fun n _ => n.
#[export] Instance aiAnalysisRecord_laws : EntityLaws AIAnalysisRecord Z.
Proof. done. Qed.
#[export] Instance convRow_laws : EntityLaws convRow string.
Proof. done. Qed.

#[export] Program Instance ChatDB_convs_laws : TableLaws ChatDB convRow string := {
  rows db := rows (cdb_convs db); table_inv db := table_inv (cdb_convs db) }.
Next Obligation. intros db k r. apply rows_key. Qed.
Next Obligation. intros db k1 k2 r1 r2. apply rows_unique. Qed.
Next Obligation.
  intros now r db db' x Hi. cbn [db_Create ChatDB_convs]. destruct (db_Create now r (cdb_convs db)) as [t y] eqn:E.
  intros [= <- <-]. by eapply db_Create_law.
Qed.
Next Obligation. intros p db r. apply (db_First_law (T:=Mem convRow string)). Qed.
Next Obligation. intros q db rs. apply (db_Find_law (T:=Mem convRow string)). Qed.
Next Obligation. intros p db n. apply (db_Count_law (T:=Mem convRow string)). Qed.
Next Obligation.
  intros now p f db db' x Hf Hi. cbn [db_Updates ChatDB_convs]. destruct (db_Updates now p f (cdb_convs db)) as [t y] eqn:E.
  intros [= <- <-]. by eapply db_Updates_law.
Qed.
Next Obligation.
  intros p db db' x Hi. cbn [db_Delete ChatDB_convs]. destruct (db_Delete p (cdb_convs db)) as [t y] eqn:E.
  intros [= <- <-]. by eapply db_Delete_law.
Qed.

#[export] Program Instance ChatDB_msgs_laws : TableLaws ChatDB msgRow Z := {
  rows db := rows (cdb_msgs db); table_inv db := table_inv (cdb_msgs db) }.
Next Obligation. intros db k r. apply rows_key. Qed.
Next Obligation. intros db k1 k2 r1 r2. apply rows_unique. Qed.
Next Obligation.
  intros now r db db' x Hi. cbn [db_Create ChatDB_msgs]. destruct (db_Create now r (cdb_msgs db)) as [t y] eqn:E.
  intros [= <- <-]. by eapply db_Create_law.
Qed.
Next Obligation. intros p db r. apply (db_First_law (T:=Mem msgRow Z)). Qed.
Next Obligation. intros q db rs. apply (db_Find_law (T:=Mem msgRow Z)). Qed.
Next Obligation. intros p db n. apply (db_Count_law (T:=Mem msgRow Z)). Qed.
Next Obligation.
  intros now p f db db' x Hf Hi. cbn [db_Updates ChatDB_msgs]. destruct (db_Updates now p f (cdb_msgs db)) as [t y] eqn:E.
  intros [= <- <-]. by eapply db_Updates_law.
Qed.
Next Obligation.
  intros p db db' x Hi. cbn [db_Delete ChatDB_msgs]. destruct (db_Delete p (cdb_msgs db)) as [t y] eqn:E.
  intros [= <- <-]. by eapply db_Delete_law.
Qed.

#[export] Program Instance ChatDB_laws : ChatLaws ChatDB := {}.
Next Obligation. intros p db db' x. cbn [db_Delete ChatDB_msgs]. destruct (db_Delete p (cdb_msgs db)) as [t y]. by intros [= <- <-]. Qed.
Next Obligation. intros p db db' x. cbn [db_Delete ChatDB_convs]. destruct (db_Delete p (cdb_convs db)) as [t y]. by intros [= <- <-]. Qed.

(** An old conversation, one of today, and an old record. *)
Definition today : Time := 1714557600 * Second.
Definition month_ago : Time := today - 31 * 24 * Hour.
Definition two_chats : ChatDB :=
  (AddMessage today "new" "user" "hello" "" (AddMessage month_ago "old" "user" "hi" ""
    (CreateConversation today "new" "" (CreateConversation month_ago "old" "" empty_chat).1).1).1).1.
Definition old_record : Mem AIAnalysisRecord Z :=
  mkMem {[1 := mkAIAnalysisRecord 1 0 "log_analysis" "" "" fzero (today - 100 * 24 * Hour)]} 2.

Lemma retention_witness : exists db' lines, clean_tick LevelInfo today today (old_record, two_chats) = (db', lines) /\ lines = [] /\
  map_Forall (fun _ => fresh_record today) (rows (R:=AIAnalysisRecord) (K:=Z) db'.1) /\ (mr_Content <$> (map_to_list (rows (R:=msgRow) (K:=Z) db'.2)).*2) = ["hello"].
Proof.
  destruct (clean_tick LevelInfo today today (old_record, two_chats)) as [db' lines] eqn:E. exists db', lines.
  destruct (retention today today (old_record, two_chats) db' lines) as (_ & _ & _ & _ & _ & Hs); [|exact E|].
  - split_and!; [vm_compute; reflexivity..|].
    apply (bool_decide_unpack (map_Forall (fun _ m => is_Some (mem_view (cdb_convs two_chats) !! mr_ConversationID m)) (mem_view (cdb_msgs two_chats)))).
    vm_compute. exact I.
  - vm_compute in E. injection E as <- <-. split; [done|]. split; [done|]. split; [by apply Hs|]. by vm_compute.
Defined.
