(* ===== verification/Agent.v ===== *)
(** internal/ai/agent/engine.go and internal/ai/chat_handler.go: the loop that lets the
    model call tools, and the chat endpoints around it. The model's server, the
    cancellation of the request and the conversation ids are parameters; everything
    written to the client is a list of events. *)
From S2P Require Import Prelude GoStd GoTime GoFormat Model Json Repo RateLimit TestStore Gorm World Sample Lifecycle Adapter Tools Memory.

#[local] Open Scope prog_scope.

(** What the stream writer is asked to send. *)
Inductive Event :=
| EText (delta : string)
| EToolCall (name args : string)
| EToolResult (name : string) (result : jvalue)
| EDone
| EError (e : gerror)
| EEvent (name : string) (data : jvalue).

Record RunResult := mkRunResult { rr_Content : string; rr_ToolCalls : list string }.

Definition maxToolIterations : nat := 10.

Definition SystemPrompt : string := "你是一个任务调度系统的 AI 运维助手。你可以：
1. 查询任务、实例、worker 的状态
2. 分析失败原因并给出修复建议
3. 创建、暂停、恢复、触发任务
4. 提供系统健康概览

你的回复风格：
- 使用中文，简洁明了
- 当查询结果很多时，只展示关键数据并总结
- 如果发现问题，给出具体的行动建议
- 不要编造你没有查询到的数据

当用户要创建一个任务但信息不全时，主动询问缺失的信息（名称、类型、cron表达式、执行内容）。
当用户询问系统状态时，先调用 get_system_health 获取概览数据。
当用户询问具体任务时，先调用 query_tasks 查找，再用 get_task_detail 查看详情。".

(** [BuildChatMessages] *)
Definition BuildChatMessages (history : list (string * string)) : list Message :=
  (fun h => mkMessage h.1 h.2 "" [] "") <$> history.

(** The [for ev := range ch] loop: what is sent, the text, the reasoning, the tool
    calls, and the error that ends it. *)
Record Consumed := mkConsumed {
  cs_sent : list Event; cs_content : string; cs_reasoning : string; cs_calls : list ToolCall; cs_error : option gerror
}.

Fixpoint consume (c : Consumed) (evs : list StreamEvent) : Consumed :=
  match evs with
  | [] => c
  | ev :: rest =>
      match ev_Error ev with
      | Some e => mkConsumed (cs_sent c) (cs_content c) (cs_reasoning c) (cs_calls c) (Some e)
      | None =>
          consume (mkConsumed
            (if bool_decide (ev_DeltaContent ev = "") then cs_sent c else cs_sent c ++ [EText (ev_DeltaContent ev)])
            (cs_content c +:+ ev_DeltaContent ev)
            (if bool_decide (ev_ReasoningContent ev = "") then cs_reasoning c else ev_ReasoningContent ev)
            (match ev_ToolCalls ev with [] => cs_calls c | calls => calls end) None) rest
      end
  end.

Section Agent.
Context `{Backend} `{Env}.
Variable llm : option LLMAdapter.
Variable llm_do : nat -> LLMCall -> Answered.
Variable bad_url : string -> option gerror.
(** [ctx.Err()] between the rounds, and during the stream of a round. *)
Variable ctx : nat -> option gerror.
Variable ctx_stream : nat -> nat -> option gerror.
(** The registry: the tools offered, and the running of one. *)
Variable toolDefs : list Tool.
Variable execute : string -> string -> M jvalue.

(** The loop over the calls of one round: what is sent, the tool messages, and the
    names of the calls that succeeded. *)
Fixpoint run_calls (calls : list ToolCall) : M (list Event * list Message * list string) :=
  match calls with
  | [] => ret ([], [], [])
  | tc :: rest =>
      r <-? execute (tc_Name tc) (tc_Arguments tc) ;;
      let '(result, content, made) :=
        match r with
        | Err err => let errMsg := "tool execution failed: " +:+ error_text err in
                     (gomap [("error", JString errMsg)], errMsg, [])
        | Ok v => (v, render v, [tc_Name tc])
        end in
      x <- run_calls rest ;;
      let '(sent, msgs, names) := x in
      ret (EToolCall (tc_Name tc) (tc_Arguments tc) :: EToolResult (tc_Name tc) result :: sent,
           mkMessage "tool" content "" [] (tc_ID tc) :: msgs, made ++ names)
  end.

(** One request to the model. *)
Definition ask (messages : list Message) : M (list StreamEvent) :=
  match llm with
  | None => ret (stream_events None (fun _ => None) None (Ok (200, "", None)))
  | Some a =>
      let call := llm_call a messages toolDefs true in
      external (fun n => stream_events llm (ctx_stream n) (bad_url (lc_url call)) (llm_do n call))
  end.

Definition too_many : gerror := Errorf "max tool iterations exceeded" [].

Fixpoint iterate (left : nat) (messages : list Message) (made : list string) : M (list Event * result RunResult) :=
  match left with
  | O => ret ([EError too_many], Err too_many)
  | S n =>
      cancelled <- external ctx ;;
      match cancelled with
      | Some err => ret ([], Err err)
      | None =>
          evs <- ask messages ;;
          let c := consume (mkConsumed [] "" "" [] None) evs in
          match cs_error c with
          | Some streamErr => ret (cs_sent c ++ [EError streamErr], Err streamErr)
          | None =>
              match cs_calls c with
              | [] => ret (cs_sent c ++ [EDone], Ok (mkRunResult (cs_content c) made))
              | pendingToolCalls =>
                  x <- run_calls pendingToolCalls ;;
                  let '(sent, results, names) := x in
                  y <- iterate n (messages ++ mkMessage "assistant" (cs_content c) (cs_reasoning c) pendingToolCalls "" :: results)
                         (made ++ names) ;;
                  ret (cs_sent c ++ sent ++ y.1, y.2)
              end
          end
      end
  end.

Definition not_configured : gerror := Errorf "LLM not configured" [].

(** [agent.Run]: what is sent to the client, and the result. *)
Definition Run (systemPrompt : string) (history : list Message) (userMessage : string) : M (list Event * result RunResult) :=
  if negb (Enabled llm) then ret ([EError not_configured], Err not_configured)
  else iterate maxToolIterations
         (mkMessage "system" systemPrompt "" [] "" :: history ++ [mkMessage "user" userMessage "" [] ""]) [].
End Agent.

(** ** Chat endpoints *)

Definition firstLine (s : string) (maxLen : Z) : string :=
  let s := ReplaceAll s (String (ascii_of_nat 10) "") " " in
  let s := ReplaceAll s (String (ascii_of_nat 13) "") "" in
  let s := TrimSpace s in
  if maxLen <? Z.of_nat (String.length s) then String.substring 0 (Z.to_nat maxLen) s +:+ "..." else s.

(** [fmt.Sprintf("%q", names)] *)
Definition quote_list (names : list string) : string := "[" +:+ spaced (Quote <$> names) +:+ "]".

(** A JSON answer, or the events of a stream. *)
Inductive ChatReply :=
| JSONReply (status : Z) (body : jvalue)
| Streamed (evs : list Event).

Definition json_error (status : Z) (msg : string) : ChatReply := JSONReply status (gomap [("error", JString msg)]).

Section Chat.
Context `{Backend} `{Env} `{Columns} {CD : Type} `{!Table CD convRow string} `{!Table CD msgRow Z}.
Variable llm : option LLMAdapter.
Variable llm_do : nat -> LLMCall -> Answered.
Variable bad_url : string -> option gerror.
Variable ctx : nat -> option gerror.
Variable ctx_stream : nat -> nat -> option gerror.
Variable toolDefs : list Tool.
Variable execute : string -> string -> M jvalue.
(** [newID], by the number of the call; is there a store? *)
Variable newID : nat -> string.
Variable has_store : bool.

(** The repositories and the conversations. *)
Abbreviation C A := (prog (World * CD) gerror A).

Definition on_world {A} (m : M A) : C A := fun s => let '(w, r) := m s.1 in ((w, s.2), r).

(** A store operation; it reads the database's clock. *)
Definition store_op {A} (f : Time -> CD -> CD * result A) : C A := fun s =>
  let w := s.1 in
  let '(db, r) := f (clock (w_reads w)) s.2 in ((set_w_reads (S (w_reads w)) w, db), r).

Definition stored_message (m : msgRow) : Message := mkMessage (mr_Role m) (mr_Content m) "" [] "".

(** From the conversation to the saved answer: the events so far, the conversation
    and how the run ended. *)
Definition converse (convID message : string) : C (list Event * string * result RunResult) :=
  history <- (if negb (bool_decide (convID = "")) && has_store
              then r <-? reads_res (fun s => GetHistory convID 50 s.2) ;;
                   ret (match r with Ok ms => stored_message <$> ms | Err _ => [] end)
              else ret []) ;;
  convID <- (if bool_decide (convID = "") && has_store
             then id <- on_world (external newID) ;;
                  r <-? store_op (fun t => CreateConversation t id (firstLine message 50)) ;;
                  ret (match r with Ok c => cv_ID c | Err _ => "" end)
             else ret convID) ;;
  _ignore (if negb (bool_decide (convID = "")) && has_store
           then store_op (fun t => AddMessage t convID "user" message "") else ret tt) ;;
  x <- on_world (Run llm llm_do bad_url ctx ctx_stream toolDefs execute SystemPrompt history message) ;;
  match x.2 with
  | Err e => ret (x.1, convID, Err e)
  | Ok result =>
      _ignore (if negb (bool_decide (convID = "")) && has_store && negb (bool_decide (rr_Content result = ""))
               then store_op (fun t => AddMessage t convID "assistant" (rr_Content result)
                                (if bool_decide (rr_ToolCalls result = []) then "null" else quote_list (rr_ToolCalls result)))
               else ret tt) ;;
      ret (x.1, convID, Ok result)
  end.

(** [sw.Event("conversation_id", ...)] *)
Definition conversation_event (convID : string) : list Event :=
  if bool_decide (convID = "") then [] else [EEvent "conversation_id" (gomap [("id", JString convID)])].

(** [writer] is the failure of [NewWSWriter] or [NewSSEWriter], if any. *)
Definition handleChat (method : string) (body : option (string * string)) (writer : option ChatReply) : C ChatReply :=
  if negb (bool_decide (method = "POST")) then ret (json_error 405 "method not allowed") else
  match body with
  | None => ret (json_error 400 "invalid json body")
  | Some (message, convID) =>
      if bool_decide (TrimSpace message = "") then ret (json_error 400 "message is required") else
      match writer with
      | Some r => ret r
      | None =>
          x <- converse convID message ;;
          let '(evs, convID, r) := x in
          match r with
          | Err e => ret (Streamed (evs ++ [EError e]))
          | Ok _ => ret (Streamed (evs ++ conversation_event convID))
          end
      end
  end.

Definition handleChatWS (writer : option ChatReply) (body : result (string * string)) : C ChatReply :=
  match writer with
  | Some r => ret r
  | None =>
      match body with
      | Err e => ret (Streamed [EError (Wrap "invalid message" e)])
      | Ok (message, convID) =>
          if bool_decide (TrimSpace message = "") then ret (Streamed [EError (Errorf "message is required" [])]) else
          x <- converse convID message ;;
          let '(evs, convID, r) := x in
          match r with
          | Err _ => ret (Streamed evs)
          | Ok _ => ret (Streamed (evs ++ conversation_event convID))
          end
      end
  end.

Definition conv_json (c : convRow) : jvalue :=
  JObject [("ID", JString (cv_ID c)); ("Title", JString (cv_Title c)); ("UserID", JString (cv_UserID c));
    ("MessageCount", num (cv_MessageCount c)); ("CreatedAt", JString (FormatRFC3339Nano local (cv_CreatedAt c)));
    ("UpdatedAt", JString (FormatRFC3339Nano local (cv_UpdatedAt c)))].

Definition listConversations : C ChatReply :=
  if negb has_store then ret (JSONReply 200 (gomap [("conversations", JArray [])])) else
  r <-? reads_res (fun s => ListConversations 20 s.2) ;;
  match r with
  | Err e => ret (json_error 500 (error_text e))
  | Ok convs => ret (JSONReply 200 (gomap [("conversations", JArray (conv_json <$> convs))]))
  end.

Definition getConversationMessages (convID : string) : C ChatReply :=
  if negb has_store then ret (JSONReply 200 (gomap [("messages", JArray [])])) else
  if bool_decide (convID = "") then ret (json_error 400 "conversation id is required") else
  r <-? reads_res (fun s => GetHistory convID 200 s.2) ;;
  match r with
  | Err e => ret (json_error 500 (error_text e))
  | Ok msgs => ret (JSONReply 200 (gomap [("messages", JArray ((fun m => gomap [("id", num (mr_ID m)); ("role", JString (mr_Role m));
      ("content", JString (mr_Content m)); ("created_at", JString (FormatRFC3339 local (mr_CreatedAt m)))]) <$> msgs))]))
  end.
End Chat.

(** ** Properties *)

(** The events that close a stream. *)
Definition terminal (ev : Event) : bool := match ev with EDone | EError _ => true | _ => false end.
(** The events before that. *)
Definition progress (ev : Event) : bool :=
  match ev with EText _ | EToolCall _ _ | EToolResult _ _ => true | _ => false end.
Definition quiet (evs : list Event) : Prop := Forall (fun ev => progress ev = true) evs.

Definition is_tool_call (ev : Event) : bool := match ev with EToolCall _ _ => true | _ => false end.
Definition tool_calls (evs : list Event) : nat := length (filter is_tool_call evs).

(** Requests a model server accepts: each message with tool calls is followed by one
    answer per call, in order, and there are no other answers. *)
Definition answers (tc : ToolCall) (m : Message) : Prop := msg_Role m = "tool" /\ msg_ToolCallID m = tc_ID tc.
Definition plain (m : Message) : Prop := msg_Role m <> "tool" /\ msg_ToolCalls m = [].

Inductive paired : list Message -> Prop :=
| paired_nil : paired []
| paired_plain m ms : plain m -> paired ms -> paired (m :: ms)
| paired_calls m results ms :
    msg_Role m = "assistant" -> Forall2 answers (msg_ToolCalls m) results -> paired ms -> paired (m :: results ++ ms).

Lemma paired_app xs ys : paired xs -> paired ys -> paired (xs ++ ys).
Proof.
  intros Hx Hy. induction Hx as [|m ms Hm _ IH|m results ms Hm Hr _ IH]; simpl; [done|by constructor|].
  rewrite <- app_assoc. by constructor.
Qed.

Lemma plain_paired ms : Forall plain ms -> paired ms.
Proof. induction 1; by constructor. Qed.

Lemma quiet_app xs ys : quiet xs -> quiet ys -> quiet (xs ++ ys).
Proof. apply Forall_app_2. Qed.

Lemma tool_calls_app xs ys : tool_calls (xs ++ ys) = (tool_calls xs + tool_calls ys)%nat.
Proof. unfold tool_calls. by rewrite filter_app, length_app. Qed.

(** What the loop over the events sends is text only. *)
Lemma consume_sent c evs : exists texts, cs_sent (consume c evs) = cs_sent c ++ (EText <$> texts).
Proof.
  revert c. induction evs as [|ev evs IH]; intros c; simpl; [exists []; by rewrite app_nil_r|].
  destruct (ev_Error ev) as [e|]; simpl; [exists []; by rewrite app_nil_r|].
  edestruct IH as [texts ->]. cbn [cs_sent]. case_bool_decide; [by exists texts|].
  exists (ev_DeltaContent ev :: texts). by rewrite <- app_assoc.
Qed.

Lemma texts_quiet texts : quiet (EText <$> texts) /\ tool_calls (EText <$> texts) = 0%nat.
Proof. induction texts as [|t texts [IH1 IH2]]; [by split; [constructor|]|]. split; [by constructor|exact IH2]. Qed.

(** A stream without errors and calls is read as the text of its events. *)
Lemma consume_text c evs : (forall ev, ev ∈ evs -> ev_Error ev = None /\ ev_ToolCalls ev = []) -> cs_error c = None ->
  exists texts reasoning, consume c evs =
    mkConsumed (cs_sent c ++ (EText <$> texts)) (cs_content c +:+ events_text evs) reasoning (cs_calls c) None /\
  concat texts = events_text evs.
Proof.
  revert c. induction evs as [|ev evs IH]; intros [sent content reas calls err] Hev Hc; simpl in *.
  { exists [], reas. by rewrite app_nil_r, append_empty, Hc. }
  destruct (Hev ev) as [-> ->]; [set_solver|]. edestruct IH as (texts & reasoning & -> & Ht); [set_solver|done|].
  cbn [cs_content cs_calls cs_sent]. change (events_text (ev :: evs)) with (ev_DeltaContent ev +:+ events_text evs).
  rewrite append_assoc. case_bool_decide as Hd.
  - exists texts, reasoning. by rewrite Hd.
  - exists (ev_DeltaContent ev :: texts), reasoning. rewrite <- app_assoc. split; [done|]. simpl. by rewrite Ht.
Qed.

Section AgentProperties.
Context `{Backend} `{Env}.
Variable llm : option LLMAdapter.
Variable llm_do : nat -> LLMCall -> Answered.
Variable bad_url : string -> option gerror.
Variable ctx : nat -> option gerror.
Variable ctx_stream : nat -> nat -> option gerror.
Variable toolDefs : list Tool.
Variable execute : string -> string -> M jvalue.

(** The calls of a round always return, whatever the tools do, with one answer each. *)
Lemma run_calls_ok calls w : exists w' sent msgs names,
  run_calls execute calls w = (w', Ok (sent, msgs, names)) /\
  quiet sent /\ tool_calls sent = length calls /\ Forall2 answers calls msgs.
Proof.
  induction calls as [|tc calls IH] in w |- *; simpl.
  { exists w, [], [], []. split_and!; constructor. }
  unfold attempt. destruct (execute _ _ w) as [w1 r]. destruct r as [v|e]; unfold bind.
  all: destruct (IH w1) as (w' & sent & msgs & names & -> & Hq & Hn & Hm); eexists _, _, _, _; split; [reflexivity|].
  all: split; [by repeat constructor|]; split; [|by constructor].
  all: unfold tool_calls in *; rewrite !filter_cons; simpl; by rewrite Hn.
Qed.

(** The event that tells the client of a call. *)
Definition call_event (tc : ToolCall) : Event := EToolCall (tc_Name tc) (tc_Arguments tc).

Lemma run_calls_events calls w w' sent msgs names :
  run_calls execute calls w = (w', Ok (sent, msgs, names)) -> filter is_tool_call sent = call_event <$> calls.
Proof.
  induction calls as [|tc calls IH] in w, sent, msgs, names |- *; simpl; [by intros [= _ <-]|].
  unfold attempt. destruct (execute _ _ w) as [w1 r]. destruct r as [v|e]; unfold bind.
  all: destruct (run_calls execute calls w1) as [w2 [[[sent' msgs'] names']|]] eqn:E; [|done]; intros [= <- <- <- <-].
  all: rewrite !filter_cons; simpl; by rewrite (IH _ _ _ _ E).
Qed.

Abbreviation Iterate := (iterate llm llm_do bad_url ctx ctx_stream toolDefs execute).
Abbreviation RunAgent := (Run llm llm_do bad_url ctx ctx_stream toolDefs execute).

(** What one request to the model is read as. *)
Definition reading (n : nat) (call : LLMCall) : Consumed :=
  consume (mkConsumed [] "" "" [] None) (stream_events llm (ctx_stream n) (bad_url (lc_url call)) (llm_do n call)).

Lemma ask_eq a messages w : llm = Some a ->
  let call := llm_call a messages toolDefs true in
  ask llm llm_do bad_url ctx_stream toolDefs messages w =
  (set_w_calls (S (w_calls w)) w,
   Ok (stream_events llm (ctx_stream (w_calls w)) (bad_url (lc_url call)) (llm_do (w_calls w) call))).
Proof. unfold ask. by intros ->. Qed.

(** The stream is closed once, at its end; only a cancelled request leaves it open. *)
Definition closed_by (evs : list Event) (r : result RunResult) : Prop :=
  exists before, quiet before /\
    match r with
    | Ok _ => evs = before ++ [EDone]
    | Err e => evs = before ++ [EError e] \/ evs = before /\ exists n, ctx n = Some e
    end.

Lemma closed_by_app xs ys r : quiet xs -> closed_by ys r -> closed_by (xs ++ ys) r.
Proof.
  intros Hx (before & Hb & Hr). exists (xs ++ before). split; [by apply quiet_app|].
  destruct r; [by rewrite Hr, app_assoc|]. destruct Hr as [->|[-> ?]]; [left; by rewrite app_assoc|by right].
Qed.

Lemma iterate_ok n messages made w : Enabled llm = true ->
  exists w' evs r, Iterate n messages made w = (w', Ok (evs, r)) /\ closed_by evs r /\
    forall k : nat, (forall n call, (length (cs_calls (reading n call)) <= k)%nat) -> (tool_calls evs <= n * k)%nat.
Proof.
  intros He. induction n as [|n IH] in messages, made, w |- *; cbn [iterate].
  { exists w, [EError too_many], (Err too_many). split; [done|]. split; [|intros k _; apply Nat.le_0_l]. exists []. split; [constructor|by left]. }
  unfold bind at 1. unfold external at 1. destruct (ctx (w_calls w)) as [err|] eqn:Ec.
  { eexists _, [], _. split; [reflexivity|]. split; [|intros k _; apply Nat.le_0_l]. exists []. split; [constructor|eauto]. }
  assert (exists a, llm = Some a) as [a Ha] by (destruct llm; [eauto|done]).
  unfold bind at 1. rewrite (ask_eq a) by done. set (m := w_calls (set_w_calls _ _)). set (call := llm_call _ _ _ _).
  fold (reading m call). set (c := reading m call) in *.
  destruct (consume_sent (mkConsumed [] "" "" [] None) (stream_events llm (ctx_stream m) (bad_url (lc_url call)) (llm_do m call)))
    as [texts Hs]. fold (reading m call) in Hs. fold c in Hs. cbn [cs_sent app] in Hs.
  destruct (texts_quiet texts) as [Hq Ht].
  destruct (cs_error c) as [e|].
  { eexists _, _, _. split; [reflexivity|]. rewrite Hs. split; [|intros k _; rewrite tool_calls_app, Ht; apply Nat.le_0_l].
    exists (EText <$> texts). split; [done|by left]. }
  destruct (cs_calls c) as [|tc calls] eqn:Hcalls.
  { eexists _, _, _. split; [reflexivity|]. rewrite Hs. split; [|intros k _; rewrite tool_calls_app, Ht; apply Nat.le_0_l].
    exists (EText <$> texts). by split. }
  unfold bind at 1. edestruct (run_calls_ok (tc :: calls)) as (w1 & sent & msgs & names & -> & Hsq & Hsn & _).
  unfold bind at 1. edestruct IH as (w2 & evs & r & -> & Hc & Hb). eexists _, _, _. split; [reflexivity|].
  rewrite Hs. split.
  - apply closed_by_app; [done|]. by apply closed_by_app.
  - intros k Hk. cbn [fst]. rewrite !tool_calls_app, Ht, Hsn. specialize (Hb k Hk). specialize (Hk m call).
    fold c in Hk. rewrite Hcalls in Hk. lia.
Qed.

Lemma Run_ok systemPrompt history userMessage w :
  exists w' evs r, RunAgent systemPrompt history userMessage w = (w', Ok (evs, r)) /\ closed_by evs r /\
    forall k : nat, (forall n call, (length (cs_calls (reading n call)) <= k)%nat) -> (tool_calls evs <= 10 * k)%nat.
Proof.
  unfold Run. destruct (Enabled llm) eqn:He; cbn [negb]; [by apply iterate_ok|].
  exists w, [EError not_configured], (Err not_configured). split; [done|]. split; [|intros k _; apply Nat.le_0_l].
  exists []. split; [constructor|by left].
Qed.

(** C17. The agent loop always comes to an end, and tells the client so: whatever the
    model answers and the tools do, [Run] returns; unless the request was cancelled, the
    stream it wrote is closed by exactly one done or error event, the last one, which agrees
    with the result; and where no answer asks for more than [k] calls, at most [10 * k]
    tool calls were made. A cancellation found between two rounds is the result, and leaves
    the stream without a closing event ([closed_by]). *)
Theorem Run_terminates (k : nat) systemPrompt history userMessage w :
  (forall n call, (length (cs_calls (reading n call)) <= k)%nat) ->
  exists w' evs r, RunAgent systemPrompt history userMessage w = (w', Ok (evs, r)) /\ closed_by evs r /\
    (tool_calls evs <= 10 * k)%nat.
Proof. intros Hk. destruct (Run_ok systemPrompt history userMessage w) as (w' & evs & r & Hr & Hc & Hb). eauto 10. Qed.
End AgentProperties.

(** ** The chat endpoints run the agent once *)

Lemma bind_total {W E A B} (m : prog W E A) (k : A -> prog W E B) s P :
  (exists a s1, m s = (s1, Ok a)) -> (forall a s1, exists x, k a s1 = x /\ P x) -> exists x, bind m k s = x /\ P x.
Proof. intros (a & s1 & Hm) Hk. unfold bind. rewrite Hm. apply Hk. Qed.

Lemma attempt_any {W E A B} (m : prog W E A) (k : res E A -> prog W E B) s P :
  (forall r s1, exists x, k r s1 = x /\ P x) -> exists x, attempt m k s = x /\ P x.
Proof. intros Hk. unfold attempt. destruct (m s). apply Hk. Qed.

Section ChatProperties.
Context `{Backend} `{Env} `{Columns} {CD : Type} `{!Table CD convRow string} `{!Table CD msgRow Z}.
Variable llm : option LLMAdapter.
Variable llm_do : nat -> LLMCall -> Answered.
Variable bad_url : string -> option gerror.
Variable ctx : nat -> option gerror.
Variable ctx_stream : nat -> nat -> option gerror.
Variable toolDefs : list Tool.
Variable execute : string -> string -> M jvalue.
Variable newID : nat -> string.
Variable has_store : bool.

Lemma converse_closed convID message s :
  exists x, converse llm llm_do bad_url ctx ctx_stream toolDefs execute newID has_store convID message s = x /\
    exists s' evs id r, x = (s', Ok (evs, id, r)) /\ closed_by ctx evs r.
Proof.
  assert (forall history id s, exists s' x, on_world (CD:=CD) (Run llm llm_do bad_url ctx ctx_stream toolDefs execute SystemPrompt history id) s =
    (s', Ok x) /\ closed_by ctx x.1 x.2) as Hrun.
  { intros history id s0. unfold on_world.
    destruct (Run_ok llm llm_do bad_url ctx ctx_stream toolDefs execute SystemPrompt history id s0.1) as (w' & evs & r & -> & Hc & _).
    by eexists _, _. }
  unfold converse.
  eapply bind_total.
  { destruct (_ && _); unfold attempt, ret; [case_match; eauto|eauto]. }
  intros h s1. eapply bind_total.
  { destruct (_ && _); unfold bind, attempt, ret, on_world, external; [|eauto]. destruct (store_op _ _); eauto. }
  intros id s2. apply attempt_any. intros r3 s3. unfold bind.
  destruct (Hrun h message s3) as (s4 & [evs [res|e]] & -> & Hc); cbn [fst snd] in *.
  - apply attempt_any. intros r5 s5. unfold ret. eauto 10.
  - unfold ret. eauto 10.
Qed.
End ChatProperties.

(** ** The requests the agent makes *)

Section Requests.
Context `{Backend} `{Env}.
Variable llm : option LLMAdapter.
Variable do1 do2 : nat -> LLMCall -> Answered.
Variable bad_url : string -> option gerror.
Variable ctx : nat -> option gerror.
Variable ctx_stream : nat -> nat -> option gerror.
Variable toolDefs : list Tool.
Variable execute : string -> string -> M jvalue.
Hypothesis agree : forall n call, paired (cr_Messages (lc_body call)) -> do1 n call = do2 n call.

Lemma ask_paired messages w : paired messages ->
  ask llm do1 bad_url ctx_stream toolDefs messages w = ask llm do2 bad_url ctx_stream toolDefs messages w.
Proof. intros Hp. unfold ask, external. destruct llm; [|done]. by rewrite agree. Qed.

Lemma iterate_paired n messages made w : paired messages ->
  iterate llm do1 bad_url ctx ctx_stream toolDefs execute n messages made w =
  iterate llm do2 bad_url ctx ctx_stream toolDefs execute n messages made w.
Proof.
  induction n as [|n IH] in messages, made, w |- *; intros Hp; cbn [iterate]; [done|].
  apply bind_ext. intros [err|] w0; [done|]. unfold bind. rewrite (ask_paired _ _ Hp).
  destruct (ask _ _ _ _ _ _ _) as [w1 [evs|]]; [|done].
  set (c := consume _ evs). destruct (cs_error c); [done|]. destruct (cs_calls c) as [|tc calls]; [done|].
  destruct (run_calls_ok execute (tc :: calls) w1) as (w2 & sent & msgs & names & -> & _ & _ & Ha).
  rewrite IH; [done|]. apply paired_app; [done|].
  rewrite <- (app_nil_r (_ :: msgs)). cbn [app]. by repeat constructor.
Qed.

(** C22. Every request the agent sends is well formed: a message with tool calls is
    followed by exactly the answers to these calls, in order. So two model servers
    that agree on such requests are the same to the agent, whatever they do on
    others. *)
Theorem Run_paired systemPrompt history userMessage w : Forall plain history ->
  Run llm do1 bad_url ctx ctx_stream toolDefs execute systemPrompt history userMessage w =
  Run llm do2 bad_url ctx ctx_stream toolDefs execute systemPrompt history userMessage w.
Proof.
  intros Hh. unfold Run. case_match; [done|]. apply iterate_paired. constructor; [done|].
  apply paired_app; [by apply plain_paired|]. by repeat constructor.
Qed.
End Requests.

(** ** A run without tools, and one that never ends *)

Section Runs.
Context `{Backend} `{Env}.
Variable llm : option LLMAdapter.
Variable llm_do : nat -> LLMCall -> Answered.
Variable toolDefs : list Tool.
Variable execute : string -> string -> M jvalue.
Hypothesis enabled : Enabled llm = true.

(** Nobody cancels, and the URL is well formed. *)
Abbreviation calmly := (Run llm llm_do (fun _ => None) (fun _ => None) (fun _ _ => None) toolDefs execute).
Abbreviation heard := (reading llm llm_do (fun _ => None) (fun _ _ => None)).

(** The requests of some rounds, by their number and what they ask, and the calls that the
    answers to them ask for. *)
Definition asked_for (rounds : list (nat * LLMCall)) : list ToolCall := mjoin ((fun r => cs_calls (heard r.1 r.2)) <$> rounds).

(** Whatever another server does on other requests. *)
Definition same_on (rounds : list (nat * LLMCall)) (other : nat -> LLMCall -> Answered) : Prop :=
  forall r, r ∈ rounds -> other r.1 r.2 = llm_do r.1 r.2.

Lemma iterate_gives_up n messages made w : (forall m call, cs_error (heard m call) = None /\ cs_calls (heard m call) <> []) ->
  exists w' before rounds, length rounds = n /\ quiet before /\ filter is_tool_call before = call_event <$> asked_for rounds /\
    forall other, same_on rounds other ->
      iterate llm other (fun _ => None) (fun _ => None) (fun _ _ => None) toolDefs execute n messages made w =
      (w', Ok (before ++ [EError too_many], Err too_many)).
Proof.
  intros Hall. induction n as [|n IH] in messages, made, w |- *; [exists w, [], []; split_and!; [done|constructor|done..]|].
  assert (exists a, llm = Some a) as [a Ha] by (revert enabled; destruct llm; [eauto|done]).
  set (m := w_calls (set_w_calls (S (w_calls w)) w)). set (call := llm_call a messages toolDefs true).
  destruct (Hall m call) as [Hn Hc]. destruct (cs_calls (heard m call)) as [|tc calls] eqn:Hcalls; [done|].
  destruct (run_calls_ok execute (tc :: calls) (set_w_calls (S m) (set_w_calls (S (w_calls w)) w))) as (w1 & sent & msgs & names & Hr & Hq & _ & _).
  edestruct (IH (messages ++ mkMessage "assistant" (cs_content (heard m call)) (cs_reasoning (heard m call)) (tc :: calls) "" :: msgs)
    (made ++ names) w1) as (w2 & before & rounds & Hlen & Hb & Hf & Hrest).
  destruct (consume_sent (mkConsumed [] "" "" [] None) (stream_events llm (fun _ => None) None (llm_do m call))) as [texts Hs].
  destruct (texts_quiet texts) as [Htq Htn].
  exists w2, ((EText <$> texts) ++ sent ++ before), ((m, call) :: rounds). split_and!.
  - simpl. by rewrite Hlen.
  - by repeat apply quiet_app.
  - unfold asked_for in *. cbn [fmap list_fmap mjoin list_join fst snd]. rewrite Hcalls, !filter_app, (run_calls_events _ _ _ _ _ _ _ Hr), Hf, fmap_app, (nil_length_inv _ Htn). done.
  - intros other Hsame. assert (other m call = llm_do m call) as Hm by (apply (Hsame (m, call)), elem_of_cons; by left).
    cbn [iterate]. unfold bind at 1, external at 1, bind at 1. rewrite (ask_eq _ _ _ _ _ a) by done.
    fold m. fold call. rewrite Hm. fold (heard m call). rewrite Hn, Hcalls. unfold bind at 1. rewrite Hr. unfold bind at 1.
    rewrite Hrest by (intros r Hr'; apply Hsame, elem_of_cons; by right).
    unfold reading. rewrite Hs. cbn [cs_sent app fst snd]. by rewrite <- !app_assoc.
Qed.

(** C38. A model that asks for tools in every answer is cut off after exactly ten rounds:
    ten requests are made, as another server that answers these ten alike, whatever it
    does on any other, gives the same run; the tool calls the client is told of are those
    that the ten answers ask for, in order; and then the stream is closed by the one
    error "max tool iterations exceeded", which is the result. *)
Theorem Run_gives_up systemPrompt history userMessage w :
  (forall n call, cs_error (heard n call) = None /\ cs_calls (heard n call) <> []) ->
  exists w' before rounds, length rounds = 10%nat /\ quiet before /\
    filter is_tool_call before = call_event <$> asked_for rounds /\
    forall other, same_on rounds other ->
      Run llm other (fun _ => None) (fun _ => None) (fun _ _ => None) toolDefs execute systemPrompt history userMessage w =
      (w', Ok (before ++ [EError too_many], Err too_many)).
Proof.
  intros Hall. unfold Run. rewrite enabled. cbn [negb]. by apply iterate_gives_up.
Qed.

Lemma fold_quiet (lines : list string) : (forall l, l ∈ lines -> line_fragments l = []) ->
  forall n st ev, st.1 = ∅ -> ev ∈ stream_lines (fun _ => None) n st lines None -> ev_Error ev = None /\ ev_ToolCalls ev = [].
Proof.
  induction lines as [|l lines IH]; intros Hf n [accum reasoning] ev Hst; simpl in Hst; subst; cbn [stream_lines]; [by intros ?%elem_of_nil|].
  assert (line_fragments l = []) as Hl by (apply Hf; set_solver). unfold line_fragments in Hl. unfold stream_line.
  destruct (line_choice l) as [c|]; [rewrite Hl|].
  - intros [Hin|Hin]%elem_of_app; [|eapply IH; [| |exact Hin]; [set_solver|done]].
    revert Hin. cbn [foldl]. case_bool_decide; case_bool_decide; simpl; set_unfold; naive_solver.
  - intros Hin. eapply IH; [| |exact Hin]; [set_solver|done].
Qed.

(** An answer without tool calls ends the run at once: what is returned, and what
    the client was sent, is the text of the chunks of the body, in order. *)
Theorem Run_plain_reply systemPrompt history userMessage w body code lines :
  (forall n call, llm_do n call = Ok (code, body, None)) -> code < 300 -> Scan body None = (lines, None) ->
  (forall l, l ∈ lines -> line_fragments l = []) ->
  exists w' texts, calmly systemPrompt history userMessage w =
    (w', Ok ((EText <$> texts) ++ [EDone], Ok (mkRunResult (concat (line_text <$> lines)) []))) /\
    concat texts = concat (line_text <$> lines).
Proof.
  intros Hdo Hcode Hscan Hf. unfold Run. rewrite enabled. cbn [negb]. unfold maxToolIterations.
  generalize 9%nat. intros left. cbn [iterate].
  assert (exists a, llm = Some a) as [a Ha] by (revert enabled; destruct llm; [eauto|done]).
  unfold bind at 1. unfold external at 1. unfold bind at 1. rewrite (ask_eq _ _ _ _ _ a) by done.
  rewrite Hdo. replace (stream_events _ _ _ _) with (stream_lines (fun _ => None) 0 (∅, "") lines None).
  2: { unfold stream_events. rewrite enabled, Hscan. destruct (Z.leb_spec 300 code); [lia|done]. }
  destruct (consume_text (mkConsumed [] "" "" [] None) (stream_lines (fun _ => None) 0 (∅, "") lines None))
    as (texts & reasoning & -> & Ht); [by intros ev; apply fold_quiet|done|].
  destruct (stream_lines_spec (fun _ => None) 0 (∅, "") lines None (fun _ => eq_refl)) as [He _].
  rewrite He in *. eexists _, texts. split; [reflexivity|done].
Qed.
End Runs.

(** ** On a concrete model *)

Definition demo_llm : option LLMAdapter := New "http://model" "key" "".
Definition demo_body (lines : list string) : string :=
  foldr (fun l rest => l +:+ String newline rest) "" lines.
Definition demo_do (lines : list string) (n : nat) (call : LLMCall) : Answered := Ok (200, demo_body lines, None).
Definition demo_tools : string -> string -> prog (@World test_backend) gerror jvalue :=
  @Execute test_backend (answering 200) (fun s => s) (fun _ _ _ _ _ => Ok []).
Definition empty_world : @World test_backend := world_with [] [] [].
Definition demo_reply : list string :=
  ["data: " +:+ Marshal (JObject [("choices", JArray [JObject [("delta", JObject [("content", JString "all ")])]])]); "";
   "data: " +:+ Marshal (JObject [("choices", JArray [JObject [("delta", JObject [("content", JString "good")]);
      ("finish_reason", JString "stop")]])]); "data: [DONE]"].

Lemma Run_terminates_witness : exists w' evs r,
  @Run test_backend demo_llm (demo_do demo_lines) (fun _ => None) (fun _ => None) (fun _ _ => None) [] demo_tools
    SystemPrompt [] "hello" empty_world = (w', Ok (evs, r)) /\ closed_by (fun _ => None) evs r /\ (tool_calls evs <= 10)%nat.
Proof.
  apply (Run_terminates demo_llm (demo_do demo_lines) (fun _ => None) (fun _ => None) (fun _ _ => None) [] demo_tools 1).
  intros n call. vm_compute. lia.
Defined.

Lemma Run_gives_up_witness : exists w' before,
  @Run test_backend demo_llm (demo_do demo_lines) (fun _ => None) (fun _ => None) (fun _ _ => None) [] demo_tools
    SystemPrompt [] "hello" empty_world = (w', Ok (before ++ [EError too_many], Err too_many)) /\
  filter is_tool_call before = replicate 10 (EToolCall "delete_task" "{}").
Proof.
  destruct (Run_gives_up demo_llm (demo_do demo_lines) [] demo_tools eq_refl SystemPrompt [] "hello" empty_world)
    as (w' & before & rounds & Hlen & _ & Hf & Hr).
  - intros n call. split; [vm_compute; reflexivity|]. vm_compute. discriminate.
  - exists w', before. split; [by apply Hr|]. rewrite Hf, <- Hlen.
    assert (forall n call, cs_calls (reading demo_llm (demo_do demo_lines) (fun _ => None) (fun _ _ => None) n call) =
      [mkToolCall 0 "c1" "" "delete_task" "{}"]) as Hc by (intros; vm_compute; reflexivity).
    clear -Hc. unfold asked_for. induction rounds as [|r rounds IH]; [done|].
    cbn -[reading]. rewrite Hc. cbn -[reading]. f_equal. exact IH.
Defined.

Lemma Run_plain_reply_witness : exists w' texts,
  @Run test_backend demo_llm (demo_do demo_reply) (fun _ => None) (fun _ => None) (fun _ _ => None) [] demo_tools
    SystemPrompt [] "hello" empty_world =
  (w', Ok ((EText <$> texts) ++ [EDone], Ok (mkRunResult "all good" []))) /\ concat texts = "all good".
Proof.
  apply (Run_plain_reply demo_llm (demo_do demo_reply) [] demo_tools eq_refl SystemPrompt [] "hello" empty_world
    (demo_body demo_reply) 200 demo_reply).
  - reflexivity.
  - lia.
  - vm_compute. reflexivity.
  - intros l Hl. unfold demo_reply in Hl. repeat (apply elem_of_cons in Hl as [->|Hl]; [vm_compute; reflexivity|]).
    by apply elem_of_nil in Hl.
Defined.

(** A server that refuses requests that start with a tool's answer. *)
Definition strict_do (n : nat) (call : LLMCall) : Answered :=
  match cr_Messages (lc_body call) with
  | m :: _ => if bool_decide (msg_Role m = "tool") then Err (Sentinel "bad request") else demo_do demo_lines n call
  | [] => demo_do demo_lines n call
  end.

Lemma Run_paired_witness :
  @Run test_backend demo_llm (demo_do demo_lines) (fun _ => None) (fun _ => None) (fun _ _ => None) [] demo_tools
    SystemPrompt [mkMessage "user" "hi" "" [] ""] "hello" empty_world =
  @Run test_backend demo_llm strict_do (fun _ => None) (fun _ => None) (fun _ _ => None) [] demo_tools
    SystemPrompt [mkMessage "user" "hi" "" [] ""] "hello" empty_world.
Proof.
  apply (Run_paired demo_llm (demo_do demo_lines) strict_do).
  - intros n call. unfold strict_do. destruct (cr_Messages _) as [|m ms]; [done|]. intros Hp.
    rewrite bool_decide_eq_false_2; [done|]. inversion Hp as [|? ? [Hm _]|? ? ? Hm]; subst; [done|congruence].
  - repeat constructor. discriminate.
Defined.
