(* ===== verification/Stream.v ===== *)
(** internal/ai/stream: how the events of a chat reach the client, over server-sent
    events (writer.go) or over a WebSocket (ws.go): the handshake, the frames and the
    writer that closes after a done or error event. A connection is the bytes that
    came in and went out; which of its operations fail, and after how many bytes, is
    a parameter. *)
From S2P Require Import Prelude GoStd GoFormat Model Json Crypto Repo TestStore Gorm MemDB World Sample Adapter Tools Memory Agent.

#[local] Open Scope prog_scope.

(** ** The accept key *)

Module Sha1.
Definition rotl (n x : Z) : Z := Sha256.w32 (Z.lor (Z.shiftl x n) (Z.shiftr x (32 - n))).

(** The message schedule, newest word first. *)
Fixpoint schedule (n : nat) (rev_w : list Z) : list Z :=
  match n with
  | O => rev_w
  | S n' =>
      let w i := nth i rev_w 0 in
      schedule n' (rotl 1 (Z.lxor (Z.lxor (w 2%nat) (w 7%nat)) (Z.lxor (w 13%nat) (w 15%nat))) :: rev_w)
  end.

Definition round (h : list Z) (iw : nat * Z) : list Z :=
  match h with
  | [a; b; c; d; e] =>
      let '(f, k) :=
        if (iw.1 <? 20)%nat then (Z.lor (Z.land b c) (Z.land (Z.lxor b 4294967295) d), 1518500249)
        else if (iw.1 <? 40)%nat then (Z.lxor (Z.lxor b c) d, 1859775393)
        else if (iw.1 <? 60)%nat then (Z.lor (Z.lor (Z.land b c) (Z.land b d)) (Z.land c d), 2400959708)
        else (Z.lxor (Z.lxor b c) d, 3395469782) in
      [Sha256.w32 (rotl 5 a + f + e + k + iw.2); a; rotl 30 b; c; d]
  | _ => h
  end.

Definition block (h : list Z) (bs : list Z) : list Z :=
  let ws := rev (schedule 64 (rev (Sha256.words bs))) in
  zip_with (fun x y => Sha256.w32 (x + y)) h (foldl round h (zip (seq 0 80) ws)).

Fixpoint blocks (n : nat) (h : list Z) (bs : list Z) : list Z :=
  match n with O => h | S n' => blocks n' (block h (take 64 bs)) (drop 64 bs) end.

Definition init : list Z := [1732584193; 4023233417; 2562383102; 271733878; 3285377520].

Definition Sum (bs : list Z) : list Z :=
  let msg := bs ++ Sha256.padding (Z.of_nat (length bs)) in
  mjoin (Sha256.word_bytes <$> blocks (length msg / 64) init msg).
End Sha1.

(** [base64.StdEncoding.EncodeToString]: the other alphabet, and padding. *)
Definition std_char (c : ascii) : ascii :=
  if bool_decide (c = "-"%char) then "+"%char else if bool_decide (c = "_"%char) then "/"%char else c.
Definition StdEncode (bs : list Z) : string :=
  String.string_of_list_ascii (std_char <$> String.list_ascii_of_string (Base64.Encode bs)) +:+
  match (length bs mod 3)%nat with 1%nat => "==" | 2%nat => "=" | _ => "" end.

Definition wsGUID : string := "258EAFA5-E914-47DA-95CA-C5AB0DC85B11".
Definition accept_key (key : string) : string := StdEncode (Sha1.Sum (string_bytes (key +:+ wsGUID))).

(** The example of RFC 6455. *)
Example accept_key_rfc : accept_key "dGhlIHNhbXBsZSBub25jZQ==" = "s3pPLMBiTxaQ9kYGzzhZRbK+xOo=".
Proof. vm_compute. reflexivity. Qed.

Definition crlf : string := String (ascii_of_nat 13) (String (ascii_of_nat 10) "").
Definition upgrade_response (key : string) : string :=
  "HTTP/1.1 101 Switching Protocols" +:+ crlf +:+ "Upgrade: websocket" +:+ crlf +:+ "Connection: Upgrade" +:+ crlf +:+
  "Sec-WebSocket-Accept: " +:+ accept_key key +:+ crlf +:+ crlf.

(** ** Frames *)

(** [binary.BigEndian.PutUint*] of [k] bytes, and [Uint*]. *)
Fixpoint be_bytes (k : nat) (n : Z) : list Z :=
  match k with O => [] | S k' => n / 256 ^ Z.of_nat k' mod 256 :: be_bytes k' n end.
Definition be_val (bs : list Z) : Z := foldl (fun a b => a * 256 + b) 0 bs.

(** The frame [writeFrame] builds: FIN, opcode text, the length, no mask. *)
Definition text_frame (payload : list Z) : list Z :=
  let n := Z.of_nat (length payload) in
  129 :: (if n <=? 125 then [n] else if n <=? 65535 then 126 :: be_bytes 2 n else 127 :: be_bytes 8 n) ++ payload.

Definition close_frame : list Z := [136; 0].

(** [payload[i] ^= maskKey[i%4]] *)
Definition unmask (key payload : list Z) : list Z := imap (fun i b => Z.lxor b (nth (i mod 4) key 0)) payload.

(** ** The connection *)

Record Conn := mkConn {
  c_in : list Z;
  c_out : list Z;
  c_ops : nat;
  c_open : bool;
  (** the writer's [closed] *)
  c_closed : bool
}.

Definition errClosedConn : gerror := Sentinel "use of closed network connection".
Definition EOF : gerror := Sentinel "EOF".
Definition ErrUnexpectedEOF : gerror := Sentinel "unexpected EOF".
Definition panic_makeslice : gerror := Sentinel "runtime error: makeslice: len out of range".
(** The largest allocation of a 64-bit process. *)
Definition maxAlloc : Z := 2 ^ 48.

Section Conn.
(** The failure of the n-th deadline or write, with the bytes that still went out; and
    what a read says after the last byte. *)
Variable fails : nat -> option (gerror * nat).
Variable read_err : gerror.

Abbreviation W A := (prog Conn gerror A).

Definition conn_write (bs : list Z) : W unit := fun c =>
  if negb (c_open c) then (c, Err errClosedConn) else
  match fails (c_ops c) with
  | Some (e, n) => (mkConn (c_in c) (c_out c ++ take n bs) (S (c_ops c)) (c_open c) (c_closed c), Err e)
  | None => (mkConn (c_in c) (c_out c ++ bs) (S (c_ops c)) (c_open c) (c_closed c), Ok tt)
  end.
Definition SetWriteDeadline : W unit := conn_write [].
Definition conn_close : W unit := modify (fun c => mkConn (c_in c) (c_out c) (c_ops c) false (c_closed c)).
Definition mark_closed : W unit := modify (fun c => mkConn (c_in c) (c_out c) (c_ops c) (c_open c) true).

(** [io.ReadFull] of [n] bytes. *)
Definition ReadFull (n : nat) : W (list Z) := fun c =>
  if (n <=? length (c_in c))%nat
  then (mkConn (drop n (c_in c)) (c_out c) (c_ops c) (c_open c) (c_closed c), Ok (take n (c_in c)))
  else (mkConn [] (c_out c) (c_ops c) (c_open c) (c_closed c),
        Err (if bool_decide (read_err = EOF) && negb (bool_decide (c_in c = [])) then ErrUnexpectedEOF else read_err)).

(** [NewWSWriter]; [hijack] is the failure of taking over the connection. *)
Definition NewWSWriter (key : string) (hijack : option gerror) : W unit :=
  if bool_decide (key = "") then fail (Errorf "missing Sec-WebSocket-Key header" []) else
  match hijack with
  | Some e => fail e
  | None =>
      r <-? conn_write (string_bytes (upgrade_response key)) ;;
      match r with Err e => conn_close ;; fail e | Ok _ => ret tt end
  end.

Definition writeFrame (payload : list Z) : W unit :=
  closed <- reads c_closed ;;
  if closed then ret tt else
  SetWriteDeadline ;;
  conn_write (text_frame payload).

(** ** Events as JSON *)

(** [json.Compact] with HTML characters escaped: blanks between tokens are dropped; a
    control character inside a string is an error, like any other text that is not
    JSON. *)
Definition is_blank (c : ascii) : bool := is_byte c 9 || is_byte c 10 || is_byte c 13 || is_byte c 32.
Definition html (c : ascii) : bool := is_byte c 60 || is_byte c 62 || is_byte c 38.

Fixpoint compact_body (in_string escaped : bool) (s : string) : option string :=
  match s with
  | EmptyString => Some EmptyString
  | String c s' =>
      if negb in_string && is_blank c then compact_body in_string false s'
      else if in_string && (byte_val c <? 32) then None
      else
        let in_string' := if is_byte c 34 && negb escaped then negb in_string else in_string in
        rest ← compact_body in_string' (in_string && is_byte c 92 && negb escaped) s';
        Some (if html c then escape_u (byte_val c) rest
              else match rest with
                   | String c2 (String c3 rest') => encode_3 c c2 c3 rest'
                   | _ => String c rest
                   end)
  end.
Definition compact (s : string) : option string := v ← Unmarshal s; compact_body false false s.

Definition quoted (s : string) : string := encode_string s "".

(** The name of an event and the JSON of its data; [None] when it cannot be encoded,
    which happens to arguments that are not JSON. *)
Definition event_name (ev : Event) : string :=
  match ev with
  | EText _ => "text" | EToolCall _ _ => "tool_call" | EToolResult _ _ => "tool_result" | EDone => "done"
  | EError _ => "error" | EEvent name _ => name
  end.
Definition event_data (ev : Event) : option string :=
  match ev with
  | EText delta => Some (Marshal (gomap [("delta", JString delta)]))
  | EToolCall name args =>
      a ← compact args; Some ("{" +:+ quoted "args" +:+ ":" +:+ a +:+ "," +:+ quoted "name" +:+ ":" +:+ quoted name +:+ "}")
  | EToolResult name result => Some (Marshal (gomap [("name", JString name); ("result", result)]))
  | EDone => Some (Marshal (gomap []))
  | EError e => Some (Marshal (gomap [("message", JString (error_text e))]))
  | EEvent _ data => Some (Marshal data)
  end.

(** [map[string]any{"event": event, "data": data}] *)
Definition ws_message (ev : Event) : option string :=
  d ← event_data ev; Some ("{" +:+ quoted "data" +:+ ":" +:+ d +:+ "," +:+ quoted "event" +:+ ":" +:+ quoted (event_name ev) +:+ "}").

Definition unsupported : gerror := Sentinel "json: error calling MarshalJSON".

Definition ws_send (ev : Event) : W unit :=
  match ws_message ev with
  | None => fail unsupported
  | Some m => writeFrame (string_bytes m)
  end.

(** [Done] and [Error] *)
Definition ws_finish (ev : Event) : W unit :=
  _ignore ws_send ev ;;
  mark_closed ;;
  _ignore conn_write close_frame ;;
  conn_close.

(** The methods of [WSWriter], by event. *)
Definition ws_event (ev : Event) : W unit := if terminal ev then ws_finish ev else ws_send ev.

(** Callers drop the errors. *)
Fixpoint ws_events (evs : list Event) : W unit :=
  match evs with [] => ret tt | ev :: rest => _ignore ws_event ev ;; ws_events rest end.

(** [ReadJSON], up to the decoding into the caller's value. *)
Definition ReadJSON : W jvalue :=
  r <-? ReadFull 2 ;;
  match r with
  | Err e => fail (Wrap "read ws header" e)
  | Ok header =>
      let h0 := nth 0 header 0 in let h1 := nth 1 header 0 in
      if Z.land h0 15 =? 8 then fail (Errorf "client closed connection" []) else
      let masked := negb (Z.land h1 128 =? 0) in
      let length := Z.land h1 127 in
      length <- (if length =? 126 then b <- ReadFull 2 ;; ret (be_val b)
                 else if length =? 127 then b <- ReadFull 8 ;; ret (wrap64 (be_val b))
                 else ret length) ;;
      maskKey <- (if masked then ReadFull 4 else ret []) ;;
      if (length <? 0) || (maxAlloc <? length) then fail panic_makeslice else
      payload <- ReadFull (Z.to_nat length) ;;
      let payload := if masked then unmask maskKey payload else payload in
      match Unmarshal (bytes_of payload) with
      | None => fail (Sentinel "json")
      | Some v => ret v
      end
  end.
End Conn.

(** ** Server-sent events *)

Definition newlines (n : nat) : string := String.string_of_list_ascii (replicate n (ascii_of_nat 10)).

(** What [SSEWriter.send] writes, if the event can be encoded. *)
Definition sse_event (ev : Event) : string :=
  match event_data ev with
  | None => ""
  | Some d => "event: " +:+ event_name ev +:+ newlines 1 +:+ "data: " +:+ d +:+ newlines 2
  end.
Definition sse_events (evs : list Event) : string := concat (sse_event <$> evs).

(** ** Properties *)

Lemma be_val_cons b bs : be_val (b :: bs) = b * 256 ^ Z.of_nat (length bs) + be_val bs.
Proof.
  assert (forall bs a, foldl (fun a b => a * 256 + b) a bs = a * 256 ^ Z.of_nat (length bs) + be_val bs) as Hf.
  { clear. unfold be_val. induction bs as [|x bs IH]; intros a; [simpl; lia|]. cbn [foldl length]. rewrite IH, (IH (0 * 256 + x)).
    rewrite Nat2Z.inj_succ, Z.pow_succ_r by lia. lia. }
  unfold be_val at 1. cbn [foldl]. rewrite Hf. lia.
Qed.

Lemma be_bytes_length k n : length (be_bytes k n) = k.
Proof. induction k as [|k IH]; simpl; [done|]. by rewrite IH. Qed.

Lemma be_val_bytes k n : be_val (be_bytes k n) = n mod 256 ^ Z.of_nat k.
Proof.
  induction k as [|k IH]; cbn [be_bytes]; [by rewrite Z.mod_1_r|].
  rewrite be_val_cons, be_bytes_length, IH, Nat2Z.inj_succ, Z.pow_succ_r, (Z.mul_comm 256), Z.rem_mul_r by lia. lia.
Qed.

(** A text message as a client sends it, masked with a key of four bytes, or as a
    server does. *)
Definition frame_of (mask : option (list Z)) (payload : list Z) : list Z :=
  let n := Z.of_nat (length payload) in
  let bit := match mask with Some _ => 128 | None => 0 end in
  129 :: (if n <=? 125 then [n + bit] else if n <=? 65535 then (126 + bit) :: be_bytes 2 n else (127 + bit) :: be_bytes 8 n) ++
  match mask with Some key => key ++ unmask key payload | None => payload end.

Lemma frame_of_text payload : frame_of None payload = text_frame payload.
Proof. unfold frame_of, text_frame. by rewrite !Z.add_0_r. Qed.

Lemma unmask_twice key payload : unmask key (unmask key payload) = payload.
Proof.
  apply list_eq. intros i. unfold unmask. rewrite !list_lookup_imap. destruct (payload !! i) as [b|]; [|done]. simpl.
  by rewrite Z.lxor_assoc, Z.lxor_nilpotent, Z.lxor_0_r.
Qed.

(** The second byte of a frame. *)
Lemma length_byte n bit : 0 <= n < 128 -> bit = 0 \/ bit = 128 ->
  Z.land (n + bit) 127 = n /\ negb (Z.land (n + bit) 128 =? 0) = bool_decide (bit = 128).
Proof.
  intros Hn Hb.
  assert (forallb (fun n => forallb (fun bit => bool_decide (Z.land (n + bit) 127 = n /\
    negb (Z.land (n + bit) 128 =? 0) = bool_decide (bit = 128))) [0; 128]) (zseq 0 128) = true) as Hall by (vm_compute; reflexivity).
  rewrite List.forallb_forall in Hall. specialize (Hall n). rewrite <- list_elem_of_In, elem_of_zseq in Hall.
  specialize (Hall ltac:(lia)). rewrite List.forallb_forall in Hall. specialize (Hall bit). rewrite <- list_elem_of_In in Hall.
  eapply bool_decide_eq_true_1, Hall. set_solver.
Qed.

Section Reading.
Variable read_err : gerror.

Lemma ReadFull_app n bs rest c : length bs = n -> c_in c = bs ++ rest ->
  ReadFull read_err n c = (mkConn rest (c_out c) (c_ops c) (c_open c) (c_closed c), Ok bs).
Proof.
  intros Hl Hin. unfold ReadFull. rewrite Hin, length_app. destruct (Nat.leb_spec n (length bs + length rest)); [|lia].
  rewrite <- Hl, drop_app_length, take_app_length. done.
Qed.

(** The length field, read back. *)
Definition read_length (h1 : Z) : prog Conn gerror Z :=
  if Z.land h1 127 =? 126 then b <- ReadFull read_err 2 ;; ret (be_val b)
  else if Z.land h1 127 =? 127 then b <- ReadFull read_err 8 ;; ret (wrap64 (be_val b))
  else ret (Z.land h1 127).

Lemma read_length_ok (n bit : Z) : 0 <= n <= maxAlloc -> bit = 0 \/ bit = 128 ->
  exists h1 more, (if n <=? 125 then [n + bit] else if n <=? 65535 then (126 + bit) :: be_bytes 2 n else (127 + bit) :: be_bytes 8 n) = h1 :: more /\
    negb (Z.land h1 128 =? 0) = bool_decide (bit = 128) /\
    (forall c rest, c_in c = more ++ rest -> read_length h1 c = (mkConn rest (c_out c) (c_ops c) (c_open c) (c_closed c), Ok n)).
Proof.
  intros Hn Hb. unfold read_length, maxAlloc in *. destruct (Z.leb_spec n 125); [|destruct (Z.leb_spec n 65535)].
  - exists (n + bit), []. destruct (length_byte n bit) as [-> ->]; [lia|done|]. split_and!; [done..|]. intros c rest Hc.
    destruct (Z.eqb_spec n 126); [lia|]. destruct (Z.eqb_spec n 127); [lia|]. simpl in Hc. unfold ret. rewrite <- Hc. by destruct c.
  - exists (126 + bit), (be_bytes 2 n). destruct (length_byte 126 bit) as [-> ->]; [lia|done|]. split_and!; [done..|]. intros c rest Hc.
    cbn [Z.eqb Pos.eqb]. unfold bind. rewrite (ReadFull_app 2 (be_bytes 2 n) rest) by (done || apply be_bytes_length).
    unfold ret. rewrite be_val_bytes, Z.mod_small by lia. done.
  - exists (127 + bit), (be_bytes 8 n). destruct (length_byte 127 bit) as [-> ->]; [lia|done|]. split_and!; [done..|]. intros c rest Hc.
    cbn [Z.eqb Pos.eqb]. unfold bind. rewrite (ReadFull_app 8 (be_bytes 8 n) rest) by (done || apply be_bytes_length).
    unfold ret. rewrite be_val_bytes, Z.mod_small by lia. by rewrite wrap64_id by (unfold int64; lia).
Qed.

(** C30. Reading a WebSocket message: from the frame of a text message of any length, masked
    with any key or not masked, [ReadJSON] decodes exactly the payload and leaves what
    follows the frame; so it also reads what the writer sends. *)
Theorem ReadJSON_frame mask payload rest c :
  match mask with Some key => length key = 4%nat | None => True end ->
  Z.of_nat (length payload) <= maxAlloc -> c_in c = frame_of mask payload ++ rest ->
  ReadJSON read_err c = (mkConn rest (c_out c) (c_ops c) (c_open c) (c_closed c),
    match Unmarshal (bytes_of payload) with Some v => Ok v | None => Err (Sentinel "json") end).
Proof.
  intros Hm Hn Hc. unfold frame_of in Hc. set (bit := match mask with Some _ => 128 | None => 0 end) in *.
  destruct (read_length_ok (Z.of_nat (length payload)) bit) as (h1 & more & Hh & Hb & Hr); [lia|subst bit; destruct mask; auto|].
  rewrite Hh in Hc. unfold ReadJSON, attempt.
  rewrite (ReadFull_app 2 [129; h1] (more ++ match mask with Some key => key ++ unmask key payload | None => payload end ++ rest))
    by (done || (rewrite Hc; simpl; by rewrite <- app_assoc)). cbn [nth c_out c_ops c_open c_closed].
  change (Z.land 129 15 =? 8) with false. cbv iota. rewrite Hb. unfold bind at 1. unfold read_length in Hr.
  erewrite Hr by reflexivity. cbn [c_out c_ops c_open c_closed]. unfold maxAlloc in *.
  destruct (Z.ltb_spec (Z.of_nat (length payload)) 0); [lia|]. destruct (Z.ltb_spec (2 ^ 48) (Z.of_nat (length payload))); [lia|].
  cbn [orb]. destruct mask as [key|]; subst bit; cbn [bool_decide].
  - rewrite bool_decide_eq_true_2 by done. unfold bind at 1. rewrite (ReadFull_app 4 key (unmask key payload ++ rest)) by (done || simpl; by rewrite <- app_assoc).
    unfold bind at 1. rewrite (ReadFull_app _ (unmask key payload) rest); [|unfold unmask; by rewrite length_imap, Nat2Z.id|done].
    rewrite unmask_twice. by destruct (Unmarshal _).
  - rewrite bool_decide_eq_false_2 by done. unfold bind at 1. unfold ret at 1. unfold bind at 1.
    rewrite (ReadFull_app _ payload rest); [|by rewrite Nat2Z.id|done]. by destruct (Unmarshal _).
Qed.
End Reading.

(** ** Writing *)

(** What some events are written as. *)
Definition frames (evs : list Event) : list Z :=
  mjoin ((fun ev => match ws_message ev with Some m => text_frame (string_bytes m) | None => [] end) <$> evs).

Section Writing.
Variable fails : nat -> option (gerror * nat).

Lemma ws_events_app xs ys c : (ws_events fails (xs ++ ys) c).1 = (ws_events fails ys (ws_events fails xs c).1).1.
Proof.
  induction xs as [|x xs IH] in c |- *; cbn [ws_events app]; [done|]. unfold attempt.
  destruct (ws_event fails x c) as [c1 r]. apply IH.
Qed.

(** A finished writer writes nothing. *)
Lemma ws_events_closed evs c : c_closed c = true -> c_open c = false -> c_out (ws_events fails evs c).1 = c_out c.
Proof.
  induction evs as [|ev evs IH] in c |- *; intros Hc Ho; cbn [ws_events]; [done|]. unfold attempt.
  assert (forall c, c_closed c = true -> c_open c = false -> (ws_send fails ev c).1 = c) as Hsend.
  { intros c0 Hc0 Ho0. unfold ws_send. destruct (ws_message ev); [|done]. unfold writeFrame, bind, reads. by rewrite Hc0. }
  destruct (ws_event fails ev c) as [c1 r] eqn:E. enough (c_out c1 = c_out c /\ c_closed c1 = true /\ c_open c1 = false) as (<- & ? & ?) by auto.
  revert E. unfold ws_event. destruct (terminal ev).
  - unfold ws_finish, attempt. pose proof (Hsend c Hc Ho) as Hs. destruct (ws_send fails ev c) as [c2 r2]. simpl in Hs. subst c2.
    unfold bind, modify, mark_closed, conn_write, conn_close. cbn. rewrite Ho. cbn. unfold modify. by intros [= <- <-].
  - pose proof (Hsend c Hc Ho) as Hs. intros E. rewrite E in Hs. simpl in Hs. by subst.
Qed.

(** An event that ends the stream finishes the writer. *)
Lemma ws_finish_closed ev c : terminal ev = true -> let c' := (ws_event fails ev c).1 in c_closed c' = true /\ c_open c' = false.
Proof.
  intros Ht. unfold ws_event. rewrite Ht. unfold ws_finish, attempt. destruct (ws_send fails ev c) as [c1 r1].
  unfold bind, mark_closed, modify. cbn. unfold conn_write. cbn. destruct (c_open c1); cbn; [|done].
  by destruct (fails (c_ops c1)) as [[e n]|].
Qed.

Lemma ws_stops before last after c : terminal last = true ->
  c_out (ws_events fails (before ++ last :: after) c).1 = c_out (ws_events fails (before ++ [last]) c).1.
Proof.
  intros Ht. rewrite !ws_events_app. cbn [ws_events]. unfold attempt.
  pose proof (ws_finish_closed last (ws_events fails before c).1 Ht) as Hf. destruct (ws_event fails last _) as [c1 r1].
  destruct Hf. by rewrite ws_events_closed.
Qed.

Hypothesis no_failures : forall n, fails n = None.

Lemma ws_send_frame ev c : c_open c = true -> c_closed c = false ->
  let c' := (ws_send fails ev c).1 in
  c_out c' = c_out c ++ frames [ev] /\ c_open c' = true /\ c_closed c' = false.
Proof.
  intros Ho Hc. unfold ws_send, frames. cbn. destruct (ws_message ev); cbn; rewrite ?app_nil_r; [|done].
  unfold writeFrame, bind, reads. rewrite Hc. unfold SetWriteDeadline, conn_write. rewrite Ho. cbn.
  rewrite !no_failures. cbn. rewrite ?Ho, ?no_failures. cbn. by rewrite app_nil_r.
Qed.

Lemma frames_app xs ys : frames (xs ++ ys) = frames xs ++ frames ys.
Proof. unfold frames. by rewrite fmap_app, join_app. Qed.

Lemma ws_quiet evs c : quiet evs -> c_open c = true -> c_closed c = false ->
  let c' := (ws_events fails evs c).1 in c_out c' = c_out c ++ frames evs /\ c_open c' = true /\ c_closed c' = false.
Proof.
  intros Hq. revert c. induction Hq as [|ev evs Hp _ IH]; intros c Ho Hc; cbn [ws_events]; [by rewrite app_nil_r|].
  unfold attempt, ws_event. replace (terminal ev) with false by (by destruct ev).
  destruct (ws_send_frame ev c Ho Hc) as (H1 & H2 & H3). destruct (ws_send fails ev c) as [c1 r]. cbn [fst] in *.
  destruct (IH c1 H2 H3) as (H4 & H5 & H6). split; [|done]. rewrite H4, H1, <- app_assoc. by rewrite <- frames_app.
Qed.

(** What a client receives on a WebSocket that does not fail: a text frame for each
    event of the run that can be encoded, in order, up to and including the one that
    ends it, then a close frame; the connection is closed, and later events are not
    written. *)
Theorem ws_delivers before last after c : quiet before -> terminal last = true -> c_open c = true -> c_closed c = false ->
  let c' := (ws_events fails (before ++ last :: after) c).1 in
  c_out c' = c_out c ++ frames (before ++ [last]) ++ close_frame.
Proof.
  intros Hq Ht Ho Hc. cbv zeta. rewrite ws_stops, ws_events_app by done.
  destruct (ws_quiet before c Hq Ho Hc) as (H1 & H2 & H3). set (c1 := (ws_events fails before c).1) in *.
  cbn [ws_events]. unfold attempt, ws_event. rewrite Ht. unfold ws_finish, attempt.
  destruct (ws_send_frame last c1 H2 H3) as (H4 & H5 & H6). destruct (ws_send fails last c1) as [c2 r]. cbn [fst] in *.
  unfold bind, mark_closed, modify. cbn. unfold conn_write. cbn. rewrite H5. cbn. rewrite no_failures. cbn.
  by rewrite H4, H1, frames_app, <- !app_assoc.
Qed.
End Writing.

(** ** On one line *)

Fixpoint one_line (s : string) : bool :=
  match s with EmptyString => true | String c s' => negb (is_byte c 10) && one_line s' end.

Lemma one_line_app a b : one_line (a +:+ b) = one_line a && one_line b.
Proof.
  induction a as [|c a IH]; [done|]. change (one_line (String c (a +:+ b)) = one_line (String c a) && one_line b).
  cbn [one_line]. by rewrite IH, andb_assoc.
Qed.

Lemma hex_char_line z : 0 <= z < 16 -> is_byte (hex_char z) 10 = false.
Proof.
  intros Hz. assert (forallb (fun z => negb (is_byte (hex_char z) 10)) (zseq 0 16) = true) as Hall by (vm_compute; reflexivity).
  rewrite List.forallb_forall in Hall. specialize (Hall z). rewrite <- list_elem_of_In, elem_of_zseq in Hall.
  apply negb_true_iff, Hall. lia.
Qed.

Lemma escape_u_line z r : one_line (escape_u z r) = one_line r.
Proof. unfold escape_u. cbn [one_line]. rewrite !hex_char_line by (apply Z.mod_pos_bound; lia). done. Qed.

Lemma high_line c lo hi : between lo hi c = true -> 10 < lo -> is_byte c 10 = false.
Proof. unfold between, is_byte. lia. Qed.

Lemma encode_ascii_line c r : one_line (encode_ascii c r) = one_line r.
Proof.
  unfold encode_ascii. destruct (Z.eqb_spec (byte_val c) 10) as [E|E].
  { rewrite E. reflexivity. }
  repeat case_match; try apply escape_u_line; cbn [one_line]; unfold is_byte; try done.
  all: destruct (Z.eqb_spec (byte_val c) 10); [done|reflexivity].
Qed.

Lemma encode_3_line a b c r : is_byte a 10 = false -> is_byte b 10 = false -> is_byte c 10 = false ->
  one_line (encode_3 a b c r) = one_line r.
Proof. intros Ha Hb Hc. unfold encode_3. case_match; [apply escape_u_line|]. cbn [one_line]. by rewrite Ha, Hb, Hc. Qed.

Lemma encode_body_line s r : one_line (encode_body s r) = one_line r.
Proof.
  remember (String.length s) as n eqn:Hn. revert s Hn.
  induction n as [n IH] using lt_wf_ind. intros [|a s1] ->; [done|]. cbn [encode_body]. destruct (_ <? 128).
  { rewrite encode_ascii_line. eapply IH; [|done]. simpl; lia. }
  assert (one_line (escape_u 65533 (encode_body s1 r)) = one_line r) as Hbad.
  { rewrite escape_u_line. eapply IH; [|done]. simpl; lia. }
  destruct s1 as [|b s2]; [done|]. destruct (utf8_2 a b) eqn:E2.
  { unfold utf8_2, cont in E2. apply andb_true_iff in E2 as [Ha Hb]. cbn [one_line].
    rewrite (high_line a _ _ Ha), (high_line b _ _ Hb) by lia. eapply IH; [|done]. simpl; lia. }
  destruct s2 as [|c s3]; [done|]. destruct (utf8_3 a b c) eqn:E3.
  { assert (is_byte a 10 = false /\ is_byte b 10 = false /\ is_byte c 10 = false) as (Ha & Hb & Hc)
      by (unfold utf8_3, cont, between, is_byte in *; lia).
    rewrite encode_3_line by done. eapply IH; [|done]. simpl; lia. }
  destruct s3 as [|d s4]; [done|]. destruct (utf8_4 a b c d) eqn:E4; [|done].
  assert (is_byte a 10 = false /\ is_byte b 10 = false /\ is_byte c 10 = false /\ is_byte d 10 = false) as (Ha & Hb & Hc & Hd)
    by (unfold utf8_4, cont, between, is_byte in *; lia).
  cbn [one_line]. rewrite Ha, Hb, Hc, Hd. eapply IH; [|done]. simpl; lia.
Qed.

Lemma encode_string_line s r : one_line (encode_string s r) = one_line r.
Proof. unfold encode_string. cbn [one_line]. rewrite encode_body_line. reflexivity. Qed.

Lemma separated_line {A} (enc : A -> string -> string) xs last :
  Forall (fun x => forall r, one_line (enc x r) = one_line r) xs -> one_line (separated enc xs last) = one_line last.
Proof.
  induction 1 as [|x xs Hx _ IH]; [done|]. cbn [separated]. destruct xs as [|y xs]; [apply Hx|]. rewrite Hx. exact IH.
Qed.

Lemma digits_line s : one_line (skip_digits s) = one_line s.
Proof.
  induction s as [|c s IH]; [done|]. cbn [skip_digits]. destruct (is_digit c) eqn:Hc; [|done]. cbn [one_line].
  rewrite IH. unfold is_digit in Hc. unfold is_byte. destruct (Z.eqb_spec (byte_val c) 10); [lia|done].
Qed.

Lemma digits1_line s r : digits1 s = Some r -> one_line r = one_line s.
Proof.
  destruct s as [|c s]; [done|]. cbn [digits1]. destruct (is_digit c) eqn:Hc; [|done]. intros [= <-].
  rewrite digits_line. cbn [one_line]. unfold is_digit in Hc. unfold is_byte. destruct (Z.eqb_spec (byte_val c) 10); [lia|done].
Qed.

Lemma eat_line z s r : z <> 10 -> eat z s = Some r -> one_line r = one_line s.
Proof.
  intros Hz. destruct s as [|c s]; [done|]. cbn [eat]. destruct (is_byte c z) eqn:Hc; [|done]. intros [= <-].
  cbn [one_line]. unfold is_byte in *. destruct (Z.eqb_spec (byte_val c) 10); [lia|done].
Qed.

Lemma number_line s r : number s = Some r -> one_line r = one_line s.
Proof.
  unfold number. set (s0 := default s (eat 45 s)).
  assert (one_line s0 = one_line s) as H0 by (subst s0; destruct (eat 45 s) eqn:E; [by apply (eat_line 45)|done]).
  destruct (match eat 48 s0 with Some s' => Some s' | None => digits1 s0 end) as [s1|] eqn:E1; [|done]. cbn.
  assert (one_line s1 = one_line s0) as H1.
  { destruct (eat 48 s0) eqn:E; [simplify_eq; by apply (eat_line 48)|by apply digits1_line]. }
  destruct (match eat 46 s1 with Some s' => digits1 s' | None => Some s1 end) as [s2|] eqn:E2; [|done]. cbn.
  assert (one_line s2 = one_line s1) as H2.
  { destruct (eat 46 s1) eqn:E; [|by simplify_eq]. rewrite (digits1_line _ _ E2). by apply (eat_line 46). }
  destruct (match eat 101 s2 with Some s' => Some s' | None => eat 69 s2 end) as [s3|] eqn:E3; [|intros [= <-]; congruence].
  assert (one_line s3 = one_line s2) as H3.
  { destruct (eat 101 s2) eqn:E; [simplify_eq; by apply (eat_line 101)|by apply (eat_line 69)]. }
  intros E4. rewrite (digits1_line _ _ E4). transitivity (one_line s3); [|congruence].
  destruct (eat 43 s3) eqn:E; [by apply (eat_line 43)|]. destruct (eat 45 s3) eqn:E'; [by apply (eat_line 45)|done].
Qed.

(** Values whose number literals are numbers. *)
Fixpoint valid_numbers (v : jvalue) : Prop :=
  match v with
  | JNumber lit => valid_number lit
  | JArray vs => foldr (fun v P => valid_numbers v /\ P) True vs
  | JObject ms => foldr (fun kv P => valid_numbers kv.2 /\ P) True ms
  | _ => True
  end.

Lemma encode_line v : valid_numbers v -> forall r, one_line (encode v r) = one_line r.
Proof.
  induction v as [s| |b|lit|vs IH|ms IH] using jvalue_nested_ind; intros Hv r; cbn [encode].
  - apply encode_string_line.
  - by rewrite one_line_app.
  - destruct b; by rewrite one_line_app.
  - rewrite one_line_app. simpl in Hv. by rewrite <- (number_line _ _ Hv).
  - cbn [one_line]. rewrite (separated_line encode); [done|]. revert Hv. cbn [valid_numbers].
    induction IH as [|v vs Hp _ IHvs]; constructor; [by apply Hp; destruct Hv|]. apply IHvs. apply Hv.
  - cbn [one_line]. rewrite separated_line; [done|]. revert Hv. cbn [valid_numbers].
    induction IH as [|[k v] ms Hp _ IHms]; constructor; [|apply IHms; apply Hv].
    intros q. cbn [fst snd]. rewrite encode_string_line. cbn [one_line]. rewrite Hp by apply Hv. reflexivity.
Qed.

Lemma Marshal_line v : valid_numbers v -> one_line (Marshal v) = true.
Proof. intros Hv. unfold Marshal. by rewrite encode_line. Qed.

Lemma compact_body_line in_string escaped s t : compact_body in_string escaped s = Some t -> one_line t = true.
Proof.
  induction s as [|c s IH] in in_string, escaped, t |- *; cbn [compact_body]; [by intros [= <-]|].
  destruct (negb in_string && is_blank c) eqn:Hb; [apply IH|].
  destruct (in_string && (byte_val c <? 32)) eqn:Hc; [done|].
  destruct (compact_body _ _ s) as [rest|] eqn:E; [|done]. cbn. apply IH in E. intros [= <-].
  assert (is_byte c 10 = false) as Hn.
  { unfold is_blank, is_byte in *. destruct in_string; simpl in *; lia. }
  destruct (html c); [by rewrite escape_u_line|]. destruct rest as [|c2 [|c3 rest]]; [by cbn [one_line]; rewrite Hn..|].
  cbn [one_line] in E. apply andb_true_iff in E as [H2 E]. apply andb_true_iff in E as [H3 E].
  apply negb_true_iff in H2, H3. by rewrite encode_3_line.
Qed.

(** ** The client's side of server-sent events *)

(** The fields of an event, dispatched at an empty line. *)
Fixpoint sse_lines (name data : string) (ls : list string) : list (string * string) :=
  match ls with
  | [] => []
  | l :: rest =>
      if bool_decide (l = "") then (if bool_decide (data = "") then [] else [(name, data)]) ++ sse_lines "" "" rest
      else if HasPrefix l "event: " then sse_lines (TrimPrefix l "event: ") data rest
      else if HasPrefix l "data: " then sse_lines name (TrimPrefix l "data: ") rest
      else sse_lines name data rest
  end.
Definition sse_parse (s : string) : list (string * string) := sse_lines "" "" (Split newline s).

(** Events whose values can be encoded on a line. *)
Definition wf_event (ev : Event) : Prop :=
  match ev with
  | EToolResult _ result => valid_numbers result
  | EEvent name data => valid_numbers data /\ one_line name = true
  | _ => True
  end.

Lemma Split_line a rest : one_line a = true -> Split newline (a +:+ String newline rest) = a :: Split newline rest.
Proof.
  induction a as [|c a IH]; intros Ha.
  - change (Split newline (String newline rest) = "" :: Split newline rest). reflexivity.
  - change (Split newline (String c (a +:+ String newline rest)) = String c a :: Split newline rest).
    cbn [one_line] in Ha. apply andb_true_iff in Ha as [Hc Ha]. cbn [Split]. rewrite (IH Ha).
    destruct (Ascii.eqb_spec c newline) as [->|]; done.
Qed.

Lemma members_numbers ms : Forall (fun kv => valid_numbers kv.2) ms -> valid_numbers (gomap ms).
Proof.
  intros Hf. unfold gomap. cbn [valid_numbers].
  assert (Forall (fun kv => valid_numbers kv.2) (merge_sort member_le ms)) as Hs by (by rewrite merge_sort_Permutation).
  induction Hs; simpl; auto.
Qed.

Lemma Marshal_nonempty v : valid_numbers v -> Marshal v <> "".
Proof. destruct v as [s| |[]|[]|vs|ms]; cbn; try done. Qed.

Lemma event_data_line ev d : wf_event ev -> event_data ev = Some d -> one_line d = true /\ d <> "".
Proof.
  intros Hw. destruct ev as [delta|name args|name result| |e|name data]; cbn [event_data wf_event] in *.
  2: { destruct (compact args) as [a|] eqn:Ea; [|done]. cbn. intros [= <-]. split; [|done].
       unfold compact in Ea. destruct (Unmarshal args); [|done]. apply compact_body_line in Ea.
       rewrite !one_line_app, Ea. unfold quoted. by rewrite !encode_string_line. }
  all: intros [= <-]; (split; [apply Marshal_line|]).
  all: try (apply members_numbers; repeat constructor; done).
  all: try apply Hw.
  all: apply Marshal_nonempty; try (apply members_numbers; repeat constructor; done); apply Hw.
Qed.

Lemma strip_prefix_same p s : strip_prefix p (p +:+ s) = Some s.
Proof.
  induction p as [|c p IH]; [done|]. change (strip_prefix (String c p) (String c (p +:+ s)) = Some s).
  cbn [strip_prefix]. by rewrite Ascii.eqb_refl.
Qed.

Lemma event_name_line ev : wf_event ev -> one_line (event_name ev) = true.
Proof. destruct ev; simpl; try done. by intros [_ ?]. Qed.

Lemma sse_block name d rest : one_line name = true -> one_line d = true -> d <> "" ->
  sse_lines "" "" (Split newline ("event: " +:+ name +:+ newlines 1 +:+ "data: " +:+ d +:+ newlines 2 +:+ rest)) =
  (name, d) :: sse_lines "" "" (Split newline rest).
Proof.
  intros Hn Hd Hne.
  change (newlines 1 +:+ "data: " +:+ d +:+ newlines 2 +:+ rest) with (String newline ("data: " +:+ d +:+ String newline (String newline rest))).
  rewrite <- append_assoc, Split_line by by rewrite one_line_app. rewrite <- append_assoc, Split_line by by rewrite one_line_app.
  change (Split newline (String newline rest)) with ("" :: Split newline rest).
  cbn [sse_lines]. rewrite !bool_decide_eq_false_2 by done. unfold HasPrefix, TrimPrefix. rewrite !strip_prefix_same.
  change (strip_prefix "event: " ("data: " +:+ d)) with (@None string). cbv iota.
  rewrite bool_decide_eq_true_2 by done. by rewrite bool_decide_eq_false_2.
Qed.

(** Server-sent events arrive as they were sent: the client's parser reads back, in
    order, the name and the JSON data of every event that can be encoded, whatever
    line breaks the text, the tool results or the arguments hold. *)
Theorem sse_roundtrip evs : Forall wf_event evs ->
  sse_parse (sse_events evs) = omap (fun ev => (event_name ev,.) <$> event_data ev) evs.
Proof.
  unfold sse_parse, sse_events. induction 1 as [|ev evs Hw _ IH]; [done|]. cbn [fmap list_fmap concat foldr omap list_omap].
  change (concat (sse_event <$> evs)) with (foldr String.append "" (sse_event <$> evs)) in IH. unfold sse_event at 1.
  destruct (event_data ev) as [d|] eqn:Ed; cbn [fmap option_fmap option_map]; [|exact IH].
  destruct (event_data_line ev d Hw Ed) as [Hd Hne]. pose proof (event_name_line ev Hw) as Hn.
  rewrite !append_assoc, sse_block by done. by rewrite IH.
Qed.

Section Delivery.
Context `{Backend} `{Env} `{Columns} {CD : Type} `{!Table CD convRow string} `{!Table CD msgRow Z}.

(** On a WebSocket the client is never told the id of its conversation: whatever the
    model, the tools, the store and the connection do, the [conversation_id] event of
    [handleChatWS] comes after the done event that closed the connection, and the
    bytes written are those without it. *)
Theorem ws_loses_conversation_id fails llm llm_do bad_url ctx ctx_stream toolDefs execute newID has_store message convID
    (s s' : World * CD) evs c :
  handleChatWS llm llm_do bad_url ctx ctx_stream toolDefs execute newID has_store None (Ok (message, convID)) s = (s', Ok (Streamed evs)) ->
  c_out (ws_events fails evs c).1 =
  c_out (ws_events fails (filter (fun ev => progress ev || terminal ev = true) evs) c).1.
Proof.
  unfold handleChatWS. case_bool_decide.
  { unfold ret. intros [= _ <-]. done. }
  destruct (converse_closed llm llm_do bad_url ctx ctx_stream toolDefs execute newID has_store convID message s)
    as (? & Hconv & s1 & evs1 & id & r & -> & before & Hq & Hr).
  unfold bind. rewrite Hconv. unfold ret. clear Hconv.
  assert (forall xs, quiet xs -> filter (fun ev => progress ev || terminal ev = true) xs = xs) as Hkeep.
  { intros xs Hx. apply filter_all. eapply Forall_impl; [exact Hx|]. intros x Hp. simpl in Hp. by rewrite Hp. }
  destruct r as [res|e]; intros [= _ <-].
  - subst evs1. rewrite <- app_assoc. cbn [app]. rewrite ws_stops by done. rewrite filter_app, Hkeep by done.
    rewrite filter_cons_True by done. symmetry. by apply ws_stops.
  - destruct Hr as [->|[-> _]]; [rewrite filter_app|]; by rewrite Hkeep.
Qed.
End Delivery.

(** ** On concrete streams *)

Definition fresh_conn (bs : list Z) : Conn := mkConn bs [] 0 true false.

(** A masked message, as a browser sends it. *)
Lemma ReadJSON_frame_witness :
  (ReadJSON EOF (fresh_conn (frame_of (Some [1; 2; 3; 4]) (string_bytes "{}") ++ [9]))).2 = Ok (JObject []).
Proof.
  rewrite (ReadJSON_frame EOF (Some [1; 2; 3; 4]) (string_bytes "{}") [9]
    (fresh_conn (frame_of (Some [1; 2; 3; 4]) (string_bytes "{}") ++ [9]))).
  - vm_compute. reflexivity.
  - reflexivity.
  - vm_compute. discriminate.
  - reflexivity.
Defined.

Definition some_events : list Event := [EText (String newline "line"); EToolCall "delete_task" "{ }"; EDone].

Lemma sse_roundtrip_witness : (sse_parse (sse_events some_events)).*1 = ["text"; "tool_call"; "done"].
Proof. rewrite sse_roundtrip; [vm_compute; reflexivity|]. repeat constructor. Defined.

Lemma ws_delivers_witness :
  c_out (ws_events (fun _ => None) [EText "hi"; EDone; EText "late"] (fresh_conn [])).1 = frames [EText "hi"; EDone] ++ close_frame.
Proof. apply (ws_delivers (fun _ => None) (fun _ => eq_refl) [EText "hi"] EDone [EText "late"] (fresh_conn [])); repeat constructor. Defined.

(** A chat over a WebSocket that starts a new conversation. *)
Definition demo_chat : (@World test_backend * ChatDB) * result ChatReply :=
  @handleChatWS test_backend (answering 200) mem_columns ChatDB ChatDB_convs ChatDB_msgs demo_llm (demo_do demo_reply)
    (fun _ => None) (fun _ => None) (fun _ _ => None) [] demo_tools (fun _ => "f00d") true None (Ok ("hello", "")) (empty_world, empty_chat).

Definition demo_events : list Event :=
  [EText "all "; EText "good"; EDone; EEvent "conversation_id" (gomap [("id", JString "f00d")])].

Lemma ws_loses_conversation_id_witness :
  demo_chat.2 = Ok (Streamed demo_events) /\
  c_out (ws_events (fun _ => None) demo_events (fresh_conn [])).1 =
  c_out (ws_events (fun _ => None) [EText "all "; EText "good"; EDone] (fresh_conn [])).1.
Proof.
  assert (demo_chat.2 = Ok (Streamed demo_events)) as E by (vm_compute; reflexivity).
  split; [exact E|]. apply run_eq in E.
  exact (ws_loses_conversation_id (fun _ => None) _ _ _ _ _ _ _ _ _ _ _ _ _ demo_events (fresh_conn []) E).
Defined.
