(* ===== verification/ChatGate.v ===== *)
(** A chat that is posted to the API, from the guard of internal/api/handler/router.go
    through its proxy and the AI service's limiter (internal/ai/handler.go) to
    [handleChat] (internal/ai/chat_handler.go) and the tools the model calls
    (internal/ai/tools): who can do what to the system by talking to the agent. *)
From S2P Require Import Prelude Threads GoStd GoTime GoFormat Json Crypto Model Repo RateLimit TestStore World Sample Http Config.
From S2P Require Import Gorm MemDB Dispatch Router Lifecycle Runtime TaskService Auth Wire Gateway Adapter Tools TaskRows Memory Agent Stream.

#[local] Open Scope prog_scope.

(** ** The agent leaves the world along what its tools do *)

Section Along.
Context `{Backend} `{Env} `{Columns} {CD : Type} `{!Table CD convRow string} `{!Table CD msgRow Z}.
Variable llm : option LLMAdapter.
Variable llm_do : nat -> LLMCall -> Answered.
Variable bad_url : string -> option gerror.
Variable ctx : nat -> option gerror.
Variable ctx_stream : nat -> nat -> option gerror.
Variable toolDefs : list Tool.
Variable execute : string -> string -> M jvalue.
Variable newID : nat -> string.
Variable has_store : bool.

(** What a tool may do, among it what reading a clock or calling the model does. *)
Variable R : World -> World -> Prop.
Context `{!PreOrder R}.
Hypothesis R_reads : forall n w, R w (set_w_reads n w).
Hypothesis R_external : forall A (f : nat -> A), moves R (external f).
Hypothesis R_execute : forall name args, moves R (execute name args).
#[local] Hint Resolve R_external R_execute : moves.

Lemma along_run_calls calls : moves R (run_calls execute calls).
Proof. induction calls as [|tc calls IH]; cbn [run_calls]; solve_moves. Qed.
#[local] Hint Resolve along_run_calls : moves.

Lemma along_ask messages : moves R (ask llm llm_do bad_url ctx_stream toolDefs messages).
Proof. unfold ask. solve_moves. Qed.
#[local] Hint Resolve along_ask : moves.

Lemma along_iterate n messages made : moves R (iterate llm llm_do bad_url ctx ctx_stream toolDefs execute n messages made).
Proof. revert messages made. induction n as [|n IH]; intros messages made; cbn [iterate]; cbv zeta; solve_moves. Qed.

Lemma along_Run prompt history message : moves R (Run llm llm_do bad_url ctx ctx_stream toolDefs execute prompt history message).
Proof. unfold Run. destruct (negb _); [by apply moves_ret|apply along_iterate]. Qed.

(** The conversation store is another one than the repositories. *)
Definition on_worlds (s s' : World * CD) : Prop := R s.1 s'.1.
#[local] Instance on_worlds_preorder : PreOrder on_worlds.
Proof. split; [intros s; unfold on_worlds; reflexivity|]. intros x y z ? ?. unfold on_worlds in *. by etrans. Qed.

Lemma along_on_world {A} (m : M A) : moves R m -> moves on_worlds (on_world (CD:=CD) m).
Proof. intros Hm s. unfold on_worlds, on_world. specialize (Hm s.1). by destruct (m s.1). Qed.
Lemma along_store_op {A} (f : Time -> CD -> CD * result A) : moves on_worlds (store_op f).
Proof. intros s. unfold on_worlds, store_op. destruct (f _ _). apply R_reads. Qed.
#[local] Hint Resolve along_on_world along_store_op along_Run : moves.

Lemma along_handleChat method body writer :
  moves on_worlds (handleChat llm llm_do bad_url ctx ctx_stream toolDefs execute newID has_store method body writer).
Proof. unfold handleChat, converse. cbv zeta. solve_moves. Qed.
End Along.

(** ** What the tools do *)

Section Effects.
Context `{BackendSpec} `{Env} `{MapRange}.
Variable ToLower : string -> string.
Variable ListSnapshots : nat -> string -> Time -> Time -> Z -> result (list WorkerLoadSnapshot).
Abbreviation tasks w := (tasks_of (w_tasks w)).
Abbreviation insts w := (insts_of (w_instances w)).
Abbreviation Execute := (Execute ToLower ListSnapshots).

(** What a chat may do: the messages, workers and alerts stay; no instance is changed or
    lost; a task that is stored is one from before with its definition, or one the agent
    created. *)
Definition chat_effects (w w' : World) : Prop :=
  reach true true w w' /\ insts w ⊆ insts w' /\
  forall id t', tasks w' !! id = Some t' ->
    (exists t, tasks w !! id = Some t /\ definition_of t' = definition_of t) \/
    (exists p, definition_of t' = definition_of (set_task_ID id (agent_task p zero_time))).

(** The goroutines of a chat. *)
Definition of_agent (g : editor) : Prop := match g with ToolCreates _ => True | _ => False end.

Definition kept (w0 w : World) : Prop :=
  world_inv w /\ reach true true w0 w /\ insts w0 ⊆ insts w /\ rows_sound of_agent (tasks w0) w.

Lemma kept_effects w0 w : kept w0 w -> chat_effects w0 w.
Proof.
  intros (_ & Hr & Hi & Hti & Hs). split; [done|]. split; [done|]. intros id t' Ht'. pose proof (Hs _ _ Ht') as Ho.
  unfold sound in Ho. rewrite (tasks_inv_id _ _ _ Hti Ht') in Ho. clear Ht'.
  remember (definition_of t') as d eqn:Hd. destruct Ho as [k t Ht|? ? ? []|args p k _ _|? ? ? ? _ _ []]; eauto.
Qed.

Lemma kept_refl w : world_inv w -> kept w w.
Proof.
  intros Hw. pose proof Hw as (Ht & _). split; [done|]. split; [reflexivity|]. split; [done|]. split; [done|].
  intros id t Hid. unfold sound. rewrite (tasks_inv_id _ _ _ Ht Hid). by apply from_row.
Qed.

(** The tools that write tasks do what their goroutines do. *)
Lemma rows_of_tool {A} n g (m : M A) m0 : runs n g m -> descends of_agent m0 g -> moves (keeps (rows_sound of_agent m0)) m.
Proof.
  intros Hr Hg w Hw. rewrite <- Hr. apply (alone_keeps _ (descends of_agent m0)); [done|apply edit_carries|done|done].
Qed.

Lemma rows_Execute m0 name args : moves (keeps (rows_sound of_agent m0)) (Execute name args).
Proof.
  destruct (writes_tasks name) eqn:Hn.
  - unfold writes_tasks in Hn. apply bool_decide_eq_true in Hn.
    repeat (apply elem_of_cons in Hn as [->|Hn]); [..|by apply elem_of_nil in Hn].
    + exact (rows_of_tool _ _ _ _ (runs_create_task args) Logic.I).
    + exact (rows_of_tool _ _ _ _ (runs_trigger_task args) Logic.I).
    + exact (rows_of_tool _ _ _ _ (runs_pause_task args) Logic.I).
    + exact (rows_of_tool _ _ _ _ (runs_delete_task args) Logic.I).
  - apply keeps_rows. intros w. pose proof (tool_reach ToLower ListSnapshots name args w) as (Ht & _). by apply Ht.
Qed.

(** The one tool that writes instances creates one. *)
Lemma insts_Execute m0 name args : moves (keeps (fun w => insts_inv (w_instances w) /\ m0 ⊆ insts w)) (Execute name args).
Proof.
  assert (forall i, moves (keeps (fun w => insts_inv (w_instances w) /\ m0 ⊆ insts w)) (instance_op (fun now => CreateInstance now i))) as Hc.
  { intros i w [Hi Hm]. unfold instance_op. destruct (CreateInstance _ i (w_instances w)) as [s r] eqn:E. simpl.
    destruct (CreateInstance_row _ _ _ _ _ Hi E) as (? & [(_ & -> & _)|(i' & Hn & _ & -> & _)]); (split; [done|]); [done|].
    etrans; [exact Hm|]. by apply insert_subseteq. }
  destruct (writes_instances name) eqn:Hn.
  - unfold writes_instances in Hn. apply bool_decide_eq_true in Hn as ->.
    change (moves (keeps (fun w => insts_inv (w_instances w) /\ m0 ⊆ insts w)) (retryFailedInstance args)).
    assert (moves (keeps (fun w => insts_inv (w_instances w) /\ m0 ⊆ insts w)) Now) as Hnow by (intros w Hw; exact Hw).
    unfold retryFailedInstance, wrapped, instance_query, task_query. solve_moves.
  - intros w [Hi Hm]. pose proof (tool_reach ToLower ListSnapshots name args w) as (_ & Hr & _). by rewrite (Hr Hn).
Qed.

Lemma kept_Execute w0 name args : moves (keeps (kept w0)) (Execute name args).
Proof.
  intros w (Hw & Hr & Hi & Ht). split; [|split; [|split]].
  - revert Hw. refine (inv_tracked _ _ w). intros m0. apply tracked_Execute.
  - pose proof (tool_reach ToLower ListSnapshots name args w) as (_ & _ & Hk). etrans; [exact Hr|]. split; [done|]. by split.
  - destruct Hw as (_ & Hii & _). by apply (insts_Execute (insts w0) name args w).
  - by apply rows_Execute.
Qed.
End Effects.

(** ** A chat, from the API to the tools *)

Section Chat.
Context `{BackendSpec} `{Env} `{MapRange} `{Columns} {CD : Type} `{!Table CD convRow string} `{!Table CD msgRow Z}.
Variable random : list Z.
Variable new_request : string -> string -> option gerror.
Variable llm : option LLMAdapter.
Variable llm_do : nat -> LLMCall -> Answered.
Variable bad_url : string -> option gerror.
Variable ctx : nat -> option gerror.
Variable ctx_stream : nat -> nat -> option gerror.
Variable ToLower : string -> string.
Variable ListSnapshots : nat -> string -> Time -> Time -> Z -> result (list WorkerLoadSnapshot).
Variable newID : nat -> string.
Variable has_store : bool.
(** How the body of a chat is read (message and conversation), and the fields net/http
    adds to an answer. *)
Variable decode : string -> option (string * string).
Variable added : header -> string -> header.

(** The repositories, the conversations and the limiter of the AI service. *)
Record Chatting := mkChatting { ch_world : World; ch_store : CD; ch_bucket : option TokenBucket }.

(** [llmGuard] around [handleChat]. *)
Definition chat_limited (next : prog (World * CD) gerror ChatReply) : prog Chatting gerror ChatReply := fun s =>
  let run w b := let '((w', db), r) := next (w, ch_store s) in (mkChatting w' db b, r) in
  match ch_bucket s with
  | None => run (ch_world s) None
  | Some tb =>
      let w := set_w_reads (S (w_reads (ch_world s))) (ch_world s) in
      let '(tb', ok) := Allow (clock (w_reads (ch_world s))) tb in
      if ok then run w (Some tb')
      else (mkChatting w (ch_store s) (Some tb'), Ok (json_error 429 "rate limit exceeded, try again later"))
  end.

Definition sse_type : header :=
  {["Content-Type" := ["text/event-stream"]; "Cache-Control" := ["no-cache"]; "Connection" := ["keep-alive"]]}.

(** An answer of [writeJSON], or the events of an [SSEWriter]. *)
Definition chat_response (x : ChatReply) : response :=
  match x with
  | JSONReply status v => let text := Marshal v +:+ eol in mkResponse status (added json_type text) text
  | Streamed evs => let text := sse_events evs in mkResponse 200 (added sse_type text) text
  end.

(** POST /api/v1/chat at the AI service, whose request names no WebSocket. *)
Definition chat_server (out : outgoing) : prog Chatting gerror response :=
  x <- chat_limited (handleChat llm llm_do bad_url ctx ctx_stream (Definitions ToLower ListSnapshots) (Execute ToLower ListSnapshots) newID has_store
         (out_method out) (decode (out_body out)) None) ;;
  ret (chat_response x).

Definition chat_route : route := mkRoute "POST" "/api/v1/ai/chat" (Role "viewer") "ai:chat".

(** POST /api/v1/ai/chat at the API, with the AI service behind the network. *)
Definition chat_receive (env : string -> string) (now : Z) (auth qtoken tenantHeader : string) (net : delivery) (r : incoming)
    : prog (Secret * Chatting) gerror response := fun s =>
  let '(st, v) := api_request random now chat_route auth qtoken tenantHeader s.1 in
  match v with
  | Err e => ((st, s.2), Err e)
  | Ok (Reject code msg) => ((st, s.2), Ok (mkResponse code json_type (error_json msg)))
  | Ok (Pass _) =>
      let '(c, a) := proxyAIHandler new_request (fun out => call net (chat_server out)) env "chat" [] r s.2 in ((st, c), a)
  end.

Lemma chat_kept net out c w0 : kept w0 (ch_world c) -> kept w0 (ch_world (call net (chat_server out) c).1).
Proof.
  intros Hk. assert (forall w db, kept w0 w -> kept w0 (handleChat llm llm_do bad_url ctx ctx_stream (Definitions ToLower ListSnapshots)
    (Execute ToLower ListSnapshots) newID has_store (out_method out) (decode (out_body out)) None (w, db)).1.1) as Hh.
  { intros w db Hw. refine (along_handleChat _ _ _ _ _ _ _ _ _ (keeps (kept w0)) _ _ _ _ _ _ (w, db) Hw).
    - intros n w1 Hw1. exact Hw1.
    - intros A f w1 Hw1. exact Hw1.
    - intros name args. apply kept_Execute. }
  assert (kept w0 (ch_world (chat_server out c).1)) as Hs.
  { unfold chat_server, bind, chat_limited. destruct (ch_bucket c) as [tb|].
    - destruct (Allow _ tb) as [tb' ok]. destruct ok; [|exact Hk].
      specialize (Hh (set_w_reads (S (w_reads (ch_world c))) (ch_world c)) (ch_store c) Hk). by destruct (handleChat _ _ _ _ _ _ _ _ _ _ _ _ _) as [[w' db] [x|e]].
    - specialize (Hh (ch_world c) (ch_store c) Hk). by destruct (handleChat _ _ _ _ _ _ _ _ _ _ _ _ _) as [[w' db] [x|e]]. }
  destruct net as [e|e|]; cbn [call]; [done| |exact Hs]. unfold attempt. by destruct (chat_server out c).
Qed.

Lemma chat_server_answers out c : exists c' a, chat_server out c = (c', Ok (chat_response a)).
Proof.
  assert (forall s, exists s' a, handleChat llm llm_do bad_url ctx ctx_stream (Definitions ToLower ListSnapshots)
    (Execute ToLower ListSnapshots) newID has_store (out_method out) (decode (out_body out)) None s = (s', Ok a)) as Hh.
  { intros s. unfold handleChat. destruct (negb _); [by eexists _, _|]. destruct (decode _) as [[message convID]|]; [|by eexists _, _].
    destruct (bool_decide _); [by eexists _, _|]. unfold bind at 1.
    destruct (converse_closed llm llm_do bad_url ctx ctx_stream (Definitions ToLower ListSnapshots) (Execute ToLower ListSnapshots)
      newID has_store convID message s) as (? & -> & s1 & evs & id & [x|e] & -> & _); by eexists _, _. }
  unfold chat_server, bind, chat_limited. destruct (ch_bucket c) as [tb|].
  - destruct (Allow _ tb) as [tb' [|]]; [|by eexists _, _].
    destruct (Hh (set_w_reads (S (w_reads (ch_world c))) (ch_world c), ch_store c)) as ([w' db] & a & ->). by eexists _, _.
  - destruct (Hh (ch_world c, ch_store c)) as ([w' db] & a & ->). by eexists _, _.
Qed.

(** The request the AI service gets. *)
Definition chat_request (env : string -> string) (r : incoming) : outgoing :=
  let h := {["Content-Type" := "application/json"]} : gmap string string in
  mkOutgoing "POST" (ai_target env "chat") (if bool_decide (in_trace r = "") then h else <["X-Trace-Id" := in_trace r]> h) (in_body r).

(** C39. A chat that is posted to the API. Without an unexpired token that is signed with
    the process's key and carries at least the viewer's role, the answer is 401 or 403 and
    nothing happens. With one, the AI service handles the body at most once, and the
    caller gets its answer when the network carries both, otherwise a 502; and whatever
    the message and whatever the model answers, the agent sends no message to a worker,
    touches no worker and raises no alert, changes and loses no instance, and every task
    stored afterwards is one from before with its definition, or one the agent created. *)
Theorem chat_through_the_gate env now auth qtoken th net r st c :
  (forall h text, nonempty_fields h -> nonempty_fields (added h text)) ->
  new_request "POST" (ai_target env "chat") = None -> world_inv (ch_world c) ->
  let '((st', c'), answer) := chat_receive env now auth qtoken th net r (st, c) in
  (c' = c /\ exists code msg, answer = Ok (mkResponse code json_type (error_json msg)) /\ (code = 401 \/ code = 403)) \/
  (exists key claims, st' = Some key /\ (forall k, st = Some k -> key = k) /\
     signed_by key now (request_token (mkAuthRequest auth qtoken None (request_tenant th))) claims /\ 1 <= roleWeight (cl_Role claims) /\
     chat_effects (ch_world c) (ch_world c') /\
     exists c1 a, chat_server (chat_request env r) c = (c1, Ok (chat_response a)) /\
       match net with
       | NotSent _ => c' = c /\ bad_gateway answer
       | NoAnswer _ => c' = c1 /\ bad_gateway answer
       | Delivered => c' = c1 /\ answer = Ok (chat_response a)
       end).
Proof.
  intros Hadd Hreq Hw. unfold chat_receive. cbn [fst snd].
  destruct (api_request _ _ _ _ _ _ _) as [st' v] eqn:Hv. unfold api_request in Hv. cbn [rt_access chat_route] in Hv.
  destruct (requireAuth_answers _ _ _ _ _ _ _ Hv) as (x & -> & Hcodes). destruct x as [code msg|tid].
  - left. split; [done|]. exists code, msg. split; [done|]. by eapply Hcodes.
  - apply requireAuth_passed in Hv as (key & claims & -> & Hk & Hs & Hrole); [|done].
    pose proof (chat_kept net (chat_request env r) c (ch_world c) (kept_refl _ Hw)) as Hc.
    destruct (chat_server_answers (chat_request env r) c) as (c1 & a & Ha).
    unfold proxyAIHandler. cbv beta iota zeta. rewrite Hreq. change (bool_decide ("POST" = "GET")) with false. cbv beta iota zeta. fold (chat_request env r).
    destruct (attempt _ _ c) as [c' answer] eqn:Hx. right. exists key, claims. do 4 (split; [done|]).
    assert (well_formed (chat_response a)) as Hwf.
    { unfold well_formed, chat_response. destruct a; apply Hadd; repeat apply map_Forall_insert_2; try done; apply map_Forall_empty. }
    unfold attempt in Hx. split; [apply kept_effects|exists c1, a; split; [done|]].
    + destruct (call net _ c) as [c2 [y|e]]; unfold ret in Hx; by injection Hx as <- _.
    + destruct net as [e|e|]; cbn [call] in Hx; unfold fail, attempt in Hx; rewrite ?Ha in Hx; unfold ret in Hx; injection Hx as <- <-; (split; [done|]);
        [by eexists|by eexists|]. by rewrite copy_response_same.
Qed.
End Chat.

(** ** A viewer's chat *)

(** A model that asks for task 1 to be deleted, and then reports. *)
Definition delete_lines : list string :=
  ["data: " +:+ Marshal (JObject [("choices", JArray [JObject [("delta", JObject [
      ("tool_calls", JArray [JObject [("index", JNumber "0"); ("id", JString "c1");
         ("function", JObject [("name", JString "delete_task"); ("arguments", JString (Marshal (JObject [("task_id", JNumber "1")])))])]])]);
      ("finish_reason", JString "tool_calls")]])]); "";
   "data: [DONE]"].
Definition deleting_model (n : nat) (call : LLMCall) : Answered :=
  match last (cr_Messages (lc_body call)) with
  | Some m => if bool_decide (msg_Role m = "tool") then demo_do demo_reply n call else demo_do delete_lines n call
  | None => demo_do demo_reply n call
  end.

Definition please_delete : incoming := mkIncoming "" "" "please delete task 1".

Definition chat_as (user pw : string) : (Secret * @Chatting test_backend ChatDB) * result response :=
  @chat_receive test_backend (answering 200) canonical_range mem_columns ChatDB ChatDB_convs ChatDB_msgs [] (fun _ _ => None) demo_llm deleting_model
    (fun _ => None) (fun _ => None) (fun _ _ => None) (fun s => s) (fun _ _ _ _ _ => Ok []) (fun _ => "f00d") true (fun text => Some (text, ""))
    with_length (fun _ => "") noon ("Bearer " +:+ token_of (login_as user pw)) "" "" Delivered please_delete
    (test_secret, mkChatting tenant_world empty_chat None).

(** The route that deletes a task refuses the viewer; the chat deletes a task of tenant 7
    for it. *)
Example viewer_deletes :
  (@api_request [] noon delete_route ("Bearer " +:+ token_of (login_as "viewer" "viewer123")) "" "" test_secret).2 =
    Ok (Reject 403 "insufficient permissions") /\
  let '(_, c, r) := chat_as "viewer" "viewer123" in
  match r with Ok a => rs_status a | _ => 0 end = 200 /\
  ts_tasks (w_tasks tenant_world) !! 1 = Some (stored 1) /\ task_TenantID (stored 1) = 7 /\
  ts_tasks (w_tasks (ch_world c)) !! 1 = None /\ ts_tasks (w_tasks (ch_world c)) !! 2 = Some (stored 2).
Proof. vm_compute. done. Qed.

Example stranger_refused : let '(_, c, r) := chat_as "viewer" "guess" in
  (match r with Ok a => rs_status a | _ => 0 end, ts_tasks (w_tasks (ch_world c)) !! 1) = (401, Some (stored 1)).
Proof. vm_compute. done. Qed.

Lemma chat_through_the_gate_witness : exists st' c' answer, chat_as "viewer" "viewer123" = ((st', c'), answer) /\
  @chat_effects test_backend test_backend_contract tenant_world (ch_world c') /\ ts_tasks (w_tasks (ch_world c')) !! 1 = None.
Proof.
  pose proof (@chat_through_the_gate test_backend test_backend_contract test_backend_spec (answering 200) canonical_range mem_columns ChatDB
    ChatDB_convs ChatDB_msgs [] (fun _ _ => None) demo_llm deleting_model (fun _ => None) (fun _ => None) (fun _ _ => None) (fun s => s)
    (fun _ _ _ _ _ => Ok []) (fun _ => "f00d") true (fun text => Some (text, "")) with_length (fun _ => "") noon
    ("Bearer " +:+ token_of (login_as "viewer" "viewer123")) "" "" Delivered please_delete test_secret
    (mkChatting tenant_world empty_chat None)) as Hgate.
  pose proof viewer_deletes as [_ Hd]. unfold chat_as in *. destruct (chat_receive _ _ _ _ _ _ _ _ _ _ _ _ _ _ _ _ _ _ _ _) as [[st' c'] answer].
  destruct Hd as (Hst & _ & _ & Hn & _). exists st', c', answer. split; [done|]. split; [|exact Hn].
  destruct Hgate as [(-> & _)|(key & claims & _ & _ & _ & _ & He & _)].
  - intros h text Hh. by apply map_Forall_insert_2.
  - reflexivity.
  - apply world_with_inv.
  - exfalso. vm_compute in Hn. discriminate.
  - exact He.
Defined.
