(* ===== verification/AIService.v ===== *)
(** internal/ai/handler.go: the endpoints of the AI service around [Analysis]: the rate
    limit in front of them, the cached listings, the audit records. The state is that
    of the repositories, the model's adapter, the records, the cache and the limiter;
    which cache reads hit is a parameter. The request counters are left out. *)
From S2P Require Import Prelude GoStd GoTime GoFormat Cron Model Json Repo RateLimit Float TestStore World Sample Http Records.
From S2P Require Import Adapter Tools Agent Analysis.
From Stdlib Require Import Floats.SpecFloat.

#[local] Open Scope prog_scope.

Record logAnalysisRequest := mkLogRequest {
  la_Log : string; la_ErrorCode : string; la_TaskType : string; la_RetryCount : Z; la_InstanceID : Z
}.
Definition log_request_json (r : logAnalysisRequest) : jvalue :=
  JObject ([("log", JString (la_Log r)); ("error_code", JString (la_ErrorCode r)); ("task_type", JString (la_TaskType r));
    ("retry_count", jint (la_RetryCount r))] ++ (if la_InstanceID r =? 0 then [] else [("instance_id", jint (la_InstanceID r))])).

(** The limiter of [NewRouter]; no limit for 0. *)
Definition llm_limiter (now : Time) (rateLimitRPM : Z) : option TokenBucket :=
  if 0 <? rateLimitRPM then Some (NewTokenBucket now (go_div rateLimitRPM 60) rateLimitRPM) else None.

(** The table of [NewRouter]: pattern, behind the limiter or not, handler. *)
Definition ai_routes : list (string * bool * string) :=
  [("/healthz", false, "health"); ("GET /api/v1/status", false, "status"); ("/metrics", false, "metrics");
   ("/api/v1/cron/next", false, "cronNext"); ("/api/v1/log-analysis/analyze", true, "analyzeLog");
   ("POST /api/v1/advisor/generate", true, "generateAdvice"); ("POST /api/v1/advisor/auto", true, "autoAdvice");
   ("POST /api/v1/task/create", true, "parseTaskNatural"); ("POST /api/v1/task/predict-duration", true, "predictDuration");
   ("POST /api/v1/trend/analyze", true, "analyzeTrend"); ("POST /api/v1/chat", true, "handleChat");
   ("GET /api/v1/chat/ws", false, "handleChatWS"); ("GET /api/v1/conversations", false, "listConversations");
   ("GET /api/v1/conversations/{id}/messages", false, "getConversationMessages")].

Section Service.
Context `{Backend} `{Env} {AR : Type} `{!AIAnalysisRepository AR}.
Variable llm_do : nat -> LLMCall -> Answered.
Variable bad_url : string -> option gerror.
Variable llm fb : option LLMAdapter.
(** [repos != nil], [repos.AIAnalysis != nil], and the load samples, when there are. *)
Variable has_repos has_records : bool.
Variable ListLoads : option (nat -> Time -> Time -> result (list WorkerLoadSnapshot)).
(** Is there a Redis, and does the n-th read of it find the key? *)
Variable has_redis : bool.
Variable cache_hit : nat -> bool.

Record AIState := mkAIState {
  ai_world : World;
  ai_llm : LLMState;
  ai_records : AR;
  ai_tasks : option (list Task);
  ai_workers : option (list WorkerNode);
  ai_bucket : option TokenBucket
}.

Abbreviation A X := (prog AIState gerror X).

Definition on_repos {X} (m : M X) : A X := fun s =>
  let '(w, r) := m (ai_world s) in (mkAIState w (ai_llm s) (ai_records s) (ai_tasks s) (ai_workers s) (ai_bucket s), r).
Definition on_llm {X} (m : prog LLMState gerror X) : A X := fun s =>
  let '(l, r) := m (ai_llm s) in (mkAIState (ai_world s) l (ai_records s) (ai_tasks s) (ai_workers s) (ai_bucket s), r).

(** [llmGuard] *)
Definition llmGuard {X} (next : A (reply X)) : A (reply X) := fun s =>
  match ai_bucket s with
  | None => next s
  | Some tb =>
      let '(s1, r) := on_repos Now s in
      let now := match r with Ok t => t | Err _ => zero_time end in
      let '(tb', ok) := Allow now tb in
      let s2 := mkAIState (ai_world s1) (ai_llm s1) (ai_records s1) (ai_tasks s1) (ai_workers s1) (Some tb') in
      if ok then next s2 else (s2, Ok (Failure 429 "rate limit exceeded, try again later"))
  end.

(** [persistAIRecord]; a failure is logged. *)
Definition persist (kind : string) (input output : jvalue) (confidence : float64) : A unit :=
  if negb has_records then ret tt else fun s =>
  let w := ai_world s in
  let '(ar, _) := CreateRecord (clock (w_reads w)) (mkAIAnalysisRecord 0 0 kind (Marshal input) (Marshal output) confidence zero_time)
                    (ai_records s) in
  (mkAIState (set_w_reads (S (w_reads w)) w) (ai_llm s) ar (ai_tasks s) (ai_workers s) (ai_bucket s), Ok tt).

(** What a handler does with the answer of the model. *)
Definition answered {X} (failed : Z) (r : result X) (k : X -> A (reply jvalue)) : A (reply jvalue) :=
  match r with Err e => ret (Failure failed (error_text e)) | Ok x => k x end.

(** ** Cached listings *)

Definition cached {X} (get : AIState -> option (list X)) (put : list X -> AIState -> AIState) (query : M (list X)) : A (list X) :=
  hit <- (if has_redis then on_repos (external cache_hit) else ret false) ;;
  old <- reads get ;;
  match hit, old with
  | true, Some xs => ret xs
  | _, _ =>
      xs <- on_repos query ;;
      (if has_redis then modify (put xs) else ret tt) ;;
      ret xs
  end.
Definition cacheListTasks : A (list Task) :=
  cached ai_tasks (fun xs s => mkAIState (ai_world s) (ai_llm s) (ai_records s) (Some xs) (ai_workers s) (ai_bucket s)) (task_query ListTasks).
Definition cacheListWorkers : A (list WorkerNode) :=
  cached ai_workers (fun xs s => mkAIState (ai_world s) (ai_llm s) (ai_records s) (ai_tasks s) (Some xs) (ai_bucket s))
    (worker_query ListWorkers).

(** A listing whose failure is a 500. *)
Definition or_500 {X} (what : string) (m : A X) (k : X -> A (reply jvalue)) : A (reply jvalue) :=
  r <-? m ;; match r with Err e => ret (Failure 500 (what +:+ ": " +:+ error_text e)) | Ok x => k x end.

(** ** Endpoints *)

Definition health : A (reply jvalue) := ret (Answer 200 (gomap [("status", JString "ok")])).

Definition status : A (reply jvalue) :=
  usage <- on_llm (TokenUsage llm) ;;
  now <- on_repos Now ;;
  ret (Answer 200 (gomap [("status", JString "ok"); ("service", JString "ai-service"); ("llm_enabled", JBool (Enabled llm));
    ("model", JString (if Enabled llm then Model llm else "")); ("endpoint", JString (if Enabled llm then Endpoint llm else ""));
    ("api_key_present", JBool (HasAPIKey llm)); ("prompt_tokens", jint usage.1); ("completion_tokens", jint usage.2);
    ("server_time", JString (FormatRFC3339 UTC now))])).

(** The body: the expression, and the base time with its location. *)
Definition cronNext (method : string) (body : option (string * Location * Time)) : A (reply jvalue) :=
  if negb (bool_decide (method = "POST")) then ret methodNotAllowed else
  match body with
  | None => ret (Failure 400 "invalid json body")
  | Some (expression, loc, baseTime) =>
      now <- (if IsZero baseTime then on_repos Now else ret zero_time) ;;
      let shown := if IsZero baseTime then local else loc in
      answered 400 (NextRun local now expression loc baseTime) (fun x =>
        ret (Answer 200 (JObject [("expression", JString expression); ("base_time", JString (FormatRFC3339Nano shown x.1));
          ("next_run", JString (FormatRFC3339Nano shown x.2))])))
  end.

(** The request with what the repositories know of the instance. *)
Definition log_header (task : Task) (inst : TaskInstance) (log : string) : string :=
  "[Task: " +:+ task_Name task +:+ " | Type: " +:+ task_Type task +:+ " | Timeout: " +:+ fmt_d (task_TimeoutSeconds task)
  +:+ "s | MaxRetry: " +:+ fmt_d (task_MaxRetry task) +:+ " | RetryPolicy: " +:+ task_RetryPolicy task +:+ "]" +:+ nl
  +:+ "[Instance ID: " +:+ fmt_d (inst_ID inst) +:+ " | RetryCount: " +:+ fmt_d (inst_RetryCount inst) +:+ " | ErrorCode: "
  +:+ inst_ErrorCode inst +:+ " | Status: " +:+ inst_Status inst +:+ "]" +:+ nl +:+ log.

Definition fill_request (req : logAnalysisRequest) : A logAnalysisRequest :=
  if negb ((0 <? la_InstanceID req) && has_repos) then ret req else
  r <-? on_repos (instance_query (GetInstance (la_InstanceID req))) ;;
  match r with
  | Err _ => ret req
  | Ok inst =>
      t <-? on_repos (task_query (GetTask (inst_TaskID inst))) ;;
      let errorCode := if bool_decide (la_ErrorCode req = "") then inst_ErrorCode inst else la_ErrorCode req in
      ret (match t with
           | Ok task => mkLogRequest (log_header task inst (la_Log req)) errorCode
                          (if bool_decide (la_TaskType req = "") then task_Type task else la_TaskType req)
                          (inst_RetryCount inst) (la_InstanceID req)
           | Err _ => mkLogRequest (la_Log req) errorCode (la_TaskType req) (inst_RetryCount inst) (la_InstanceID req)
           end)
  end.

Definition analyzeLog (method : string) (body : option logAnalysisRequest) : A (reply jvalue) :=
  if negb (bool_decide (method = "POST")) then ret methodNotAllowed else
  match body with
  | None => ret (Failure 400 "invalid json body")
  | Some req =>
      req <- fill_request req ;;
      r <-? on_llm (AnalyzeLog llm_do bad_url llm fb (la_Log req) (la_ErrorCode req) (la_TaskType req) (la_RetryCount req)) ;;
      answered 400 r (fun result =>
        (if has_repos then persist "log_analysis" (log_request_json req) (analysis_json result) (an_Confidence result) else ret tt) ;;
        ret (Answer 200 (analysis_json result)))
  end.

(** [if a.Confidence > maxConf { maxConf = a.Confidence }] *)
Definition max_confidence (advices : list Advice) : float64 :=
  foldl (fun m a => if flt m (ad_Confidence a) then ad_Confidence a else m) fzero advices.

Definition generateAdvice (body : option AdvisorContext) : A (reply jvalue) :=
  match body with
  | None => ret (Failure 400 "invalid json body")
  | Some req =>
      r <-? on_llm (Generate llm_do bad_url llm fb req) ;;
      answered 500 r (fun advices =>
        (if has_repos then persist "schedule_advice" (advisor_json req) (JArray (advice_json <$> advices)) (max_confidence advices) else ret tt) ;;
        ret (Answer 200 (gomap [("advices", JArray (advice_json <$> advices))])))
  end.

(** The figures of [autoAdvice]. *)
Definition latency (inst : TaskInstance) : option Z :=
  if bool_decide (inst_Status inst = "success") && negb (IsZero (inst_DispatchTime inst)) then
    let lat := go_div (Sub (inst_UpdatedAt inst) (inst_DispatchTime inst)) Millisecond in
    if 0 <? lat then Some lat else None
  else None.

Definition advisor_context (cutoff : Time) (workers : list WorkerNode) (tasks : list Task) (instances : list TaskInstance) : AdvisorContext :=
  let lats := omap latency instances in
  mkAdvisorContext (average_load workers) (Z.of_nat (length workers)) (online_load workers).2
    (count_if (fun i => bool_decide (inst_Status i = "pending") || bool_decide (inst_Status i = "dispatched")) instances)
    (count_if (fun i => (cutoff <? inst_CreatedAt i) && bool_decide (inst_Status i = "failed")) instances)
    (if bool_decide (lats = []) then fzero
     else fdiv (foldl fadd fzero (of_int <$> lats)) (of_int (Z.of_nat (length lats))))
    (foldl (fun m t => if m <? task_TimeoutSeconds t then task_TimeoutSeconds t else m) 0 tasks).

Definition autoAdvice : A (reply jvalue) :=
  if negb has_repos then ret (Failure 500 "repositories not available") else
  or_500 "list workers" cacheListWorkers (fun workers =>
  or_500 "list tasks" cacheListTasks (fun tasks =>
  from <- on_repos Now ;;
  to <- on_repos Now ;;
  or_500 "list instances" (on_repos (instance_query (ListInstancesByTimeRange (from - Hour) to 0 0))) (fun instances =>
  now <- on_repos Now ;;
  let ctx := advisor_context (now - Hour) workers tasks instances in
  r <-? on_llm (Generate llm_do bad_url llm fb ctx) ;;
  answered 500 r (fun advices =>
    persist "auto_advice" (advisor_json ctx) (JArray (advice_json <$> advices)) (max_confidence advices) ;;
    ret (Answer 200 (gomap [("advices", JArray (advice_json <$> advices)); ("context", advisor_json ctx)])))))).

Definition predictDuration (body : option Z) : A (reply jvalue) :=
  match body with
  | None => ret (Failure 400 "invalid json body")
  | Some taskID =>
      if taskID <=? 0 then ret (Failure 400 "task_id is required") else
      if negb has_repos then ret (Failure 500 "repositories not available") else
      t <-? on_repos (task_query (GetTask taskID)) ;;
      match t with
      | Err e => ret (Failure 404 ("task not found: " +:+ error_text e))
      | Ok task =>
          xs <-? on_repos (instance_query (ListInstancesByTaskID taskID)) ;;
          match xs with
          | Err e => ret (Failure 500 (error_text e))
          | Ok instances =>
              let stats := ComputeStats instances in
              if ds_Count stats =? 0 then
                ret (Answer 200 (gomap [("predicted_duration_seconds", JNull); ("confidence", jint 0); ("trend", JString "unknown");
                  ("explanation", JString "no completed instances available for prediction"); ("historical_stats", stats_json stats)]))
              else
              r <-? on_llm (PredictWithLLM llm_do bad_url llm fb task stats) ;;
              answered 400 r (fun result =>
                persist "predict_duration" (JObject [("task_id", jint taskID)]) (predict_json result) (pr_Confidence result) ;;
                ret (Answer 200 (predict_json result)))
          end
      end
  end.

Definition analyzeTrend (body : option Z) : A (reply jvalue) :=
  match body with
  | None => ret (Failure 400 "invalid json body")
  | Some hours =>
      let hours := if hours <=? 0 then 24 else hours in
      if negb has_repos then ret (Failure 500 "repositories not available") else
      or_500 "list workers" cacheListWorkers (fun workers =>
      or_500 "list tasks" cacheListTasks (fun tasks =>
      now <- on_repos Now ;;
      let windowFrom := now + wrap64 (wrap64 (- hours) * Hour) in
      to <- on_repos Now ;;
      or_500 "list instances" (on_repos (instance_query (ListInstancesByTimeRange windowFrom to 0 0))) (fun instances =>
      now <- on_repos Now ;;
      let snapshot := ComputeSnapshot now workers tasks instances hours in
      snapshot <- match ListLoads with
                  | None => ret snapshot
                  | Some f =>
                      to <- on_repos Now ;;
                      r <- on_repos (external (fun n => f n windowFrom to)) ;;
                      ret (match r with Ok snapshots => enrich snapshots snapshot | Err _ => snapshot end)
                  end ;;
      r <-? on_llm (AnalyzeTrend llm_do bad_url llm fb snapshot) ;;
      answered 400 r (fun result =>
        persist "trend_analysis" (JObject [("time_window_hours", jint hours)]) (trend_json result snapshot) fzero ;;
        ret (Answer 200 (trend_json result snapshot))))))
  end.

(** The clock reading the expression is checked against is taken first. *)
Definition parseTaskNatural (method : string) (body : option string) : A (reply jvalue) :=
  if negb (bool_decide (method = "POST")) then ret methodNotAllowed else
  match body with
  | None => ret (Failure 400 "invalid json body")
  | Some input =>
      if bool_decide (input = "") then ret (Failure 400 "input is required") else
      now <- on_repos Now ;;
      r <-? on_llm (ParseNaturalLanguage llm_do bad_url llm fb local now input) ;;
      answered 400 r (fun resp =>
        (if has_repos then persist "task_parse" (JObject [("input", JString input)]) (parsed_json resp) (tp_Confidence resp) else ret tt) ;;
        ret (Answer 200 (parsed_json resp)))
  end.

(** ** Requests *)

Inductive ai_request :=
| ReqHealth
| ReqStatus
| ReqCron (method : string) (body : option (string * Location * Time))
| ReqLog (method : string) (body : option logAnalysisRequest)
| ReqAdvice (body : option AdvisorContext)
| ReqAuto
| ReqParse (method : string) (body : option string)
| ReqPredict (body : option Z)
| ReqTrend (body : option Z).

Definition serve (r : ai_request) : A (reply jvalue) :=
  match r with
  | ReqHealth => health
  | ReqStatus => status
  | ReqCron method body => cronNext method body
  | ReqLog method body => llmGuard (analyzeLog method body)
  | ReqAdvice body => llmGuard (generateAdvice body)
  | ReqAuto => llmGuard autoAdvice
  | ReqParse method body => llmGuard (parseTaskNatural method body)
  | ReqPredict body => llmGuard (predictDuration body)
  | ReqTrend body => llmGuard (analyzeTrend body)
  end.
End Service.

(** ** Properties *)

Section ServiceProperties.
Context `{Backend} `{Env} {AR : Type} `{!AIAnalysisRepository AR}.
Variable llm_do : nat -> LLMCall -> Answered.
Variable bad_url : string -> option gerror.
Variable llm fb : option LLMAdapter.
Variable has_repos has_records : bool.
Variable ListLoads : option (nat -> Time -> Time -> result (list WorkerLoadSnapshot)).
Variable has_redis : bool.
Variable cache_hit : nat -> bool.

Abbreviation A X := (prog (AIState (AR:=AR)) gerror X).
Abbreviation Serve := (serve llm_do bad_url llm fb has_repos has_records ListLoads has_redis cache_hit).

(** The scheduler's data are as before. *)
Definition untouched (s s' : AIState (AR:=AR)) : Prop := reach false false (ai_world s) (ai_world s').

#[local] Instance untouched_preorder : PreOrder untouched.
Proof. split; [intros s; apply reach_preorder|]. intros s1 s2 s3. apply reach_preorder. Qed.

Lemma untouched_repos {X} (m : M X) : moves (reach false false) m -> moves untouched (on_repos (AR:=AR) m).
Proof. intros Hm s. unfold on_repos. specialize (Hm (ai_world s)). by destruct (m (ai_world s)). Qed.
Lemma untouched_llm {X} (m : prog LLMState gerror X) : moves untouched (on_llm (AR:=AR) m).
Proof. intros s. unfold on_llm. by destruct (m (ai_llm s)). Qed.
Lemma untouched_persist kind i o c : moves untouched (persist has_records kind i o c).
Proof. unfold persist. destruct has_records; [|apply moves_ret, _]. intros s. simpl. by destruct (CreateRecord _ _ _). Qed.
#[local] Hint Resolve untouched_llm untouched_persist reach_Now reach_external : moves.
#[local] Hint Extern 2 (moves untouched (on_repos _)) =>
  apply untouched_repos; unfold instance_query, task_query, worker_query : moves.

Lemma untouched_cached {X} get (put : list X -> AIState -> AIState) query :
  (forall xs s, untouched s (put xs s)) -> moves (reach false false) query -> moves untouched (cached has_redis cache_hit get put query).
Proof.
  intros Hput Hq. unfold cached. apply moves_bind; [typeclasses eauto|destruct has_redis; eauto with moves|]. intros hit.
  assert (moves untouched (x <- on_repos query ;; (if has_redis then modify (put x) else ret tt) ;; ret x)) as Hl.
  { apply moves_bind; [typeclasses eauto|by apply untouched_repos|]. intros xs. apply moves_bind; [typeclasses eauto| |eauto with moves].
    destruct has_redis; [intros s; apply Hput|eauto with moves]. }
  apply moves_bind; [typeclasses eauto|eauto with moves|]. intros old. destruct hit; [destruct old|]; eauto with moves.
Qed.

Lemma untouched_guard {X} (next : A (reply X)) : moves untouched next -> moves untouched (llmGuard next).
Proof.
  intros Hn s. unfold llmGuard. destruct (ai_bucket s) as [tb|]; [|apply Hn].
  pose proof (untouched_repos Now (reach_Now false false) s) as H1. destruct (on_repos Now s) as [s1 r]. cbn [fst] in H1.
  destruct (Allow _ tb) as [tb' []]; [|exact H1]. etrans; [|apply Hn]. exact H1.
Qed.

(** C40. The AI service reads and never writes what it analyses: no request to its
    endpoints changes a task, an instance or a worker, sends a message or raises an
    alert, whatever the model and the cache answer. *)
Theorem ai_read_only r : moves untouched (Serve r).
Proof.
  assert (moves untouched (cacheListTasks (AR:=AR) has_redis cache_hit)) as Ht
    by (apply untouched_cached; [done|unfold task_query; solve_moves]).
  assert (moves untouched (cacheListWorkers (AR:=AR) has_redis cache_hit)) as Hw
    by (apply untouched_cached; [done|unfold worker_query; solve_moves]).
  destruct r; cbn [serve]; try apply untouched_guard.
  all: unfold health, status, cronNext, analyzeLog, fill_request, generateAdvice, autoAdvice, predictDuration, analyzeTrend,
    parseTaskNatural, or_500, answered.
  all: solve_moves.
Qed.

(** ** The audit trail *)

Definition same_records (s s' : AIState (AR:=AR)) : Prop := ai_records s' = ai_records s.
#[local] Instance same_records_preorder : PreOrder same_records.
Proof. split; [done|]. intros s1 s2 s3. unfold same_records. congruence. Qed.

(** At most one record, and only with an answer. *)
Definition audited (m : A (reply jvalue)) : Prop := forall s,
  match m s with
  | (s', Ok (Answer _ _)) => same_records s s' \/ exists now rec, ai_records s' = (CreateRecord now rec (ai_records s)).1
  | (s', _) => same_records s s'
  end.

Lemma audited_step {s s' : AIState (AR:=AR)} (r : result (reply jvalue)) (s1 : AIState) :
  same_records s s1 ->
  match r with
  | Ok (Answer _ _) => same_records s1 s' \/ exists now rec, ai_records s' = (CreateRecord now rec (ai_records s1)).1
  | _ => same_records s1 s'
  end ->
  match r with
  | Ok (Answer _ _) => same_records s s' \/ exists now rec, ai_records s' = (CreateRecord now rec (ai_records s)).1
  | _ => same_records s s'
  end.
Proof. unfold same_records. intros H1. destruct r as [[]|]; rewrite H1; auto. Qed.

Lemma audited_bind {X} (m : A X) k : moves same_records m -> (forall x, audited (k x)) -> audited (bind m k).
Proof.
  intros Hm Hk s. unfold bind. specialize (Hm s). destruct (m s) as [s1 [x|e]]; [|exact Hm].
  specialize (Hk x s1). destruct (k x s1) as [s' r]. by apply (audited_step r s1).
Qed.
Lemma audited_attempt {X} (m : A X) k : moves same_records m -> (forall x, audited (k x)) -> audited (attempt m k).
Proof.
  intros Hm Hk s. unfold attempt. specialize (Hm s). destruct (m s) as [s1 x].
  specialize (Hk x s1). destruct (k x s1) as [s' r]. by apply (audited_step r s1).
Qed.
Lemma audited_ret (x : reply jvalue) : audited (ret x).
Proof. intros s. unfold ret. destruct x; [by left|done]. Qed.
Lemma audited_persist kind i o c st b : audited (persist has_records kind i o c ;; ret (Answer st b)).
Proof.
  intros s. unfold persist. destruct has_records; unfold bind; cbn [negb]; [|by left].
  destruct (CreateRecord _ _ _) as [ar x] eqn:E. right. eexists _, _. by rewrite E.
Qed.

Lemma records_repos {X} (m : M X) : moves same_records (on_repos (AR:=AR) m).
Proof. intros s. unfold on_repos. by destruct (m (ai_world s)). Qed.
Lemma records_llm {X} (m : prog LLMState gerror X) : moves same_records (on_llm (AR:=AR) m).
Proof. intros s. unfold on_llm. by destruct (m (ai_llm s)). Qed.
#[local] Hint Resolve records_repos records_llm : moves.

Lemma records_cached {X} get (put : list X -> AIState -> AIState) query :
  (forall xs s, same_records s (put xs s)) -> moves same_records (cached has_redis cache_hit get put query).
Proof.
  intros Hput. unfold cached. solve_moves. all: intros s; apply Hput.
Qed.

Lemma audited_guard next : audited next -> audited (llmGuard next).
Proof.
  intros Hn s. unfold llmGuard. destruct (ai_bucket s) as [tb|]; [|apply Hn].
  pose proof (records_repos Now s) as H1. destruct (on_repos Now s) as [s1 r]. cbn [fst] in H1.
  destruct (Allow _ tb) as [tb' []]; [|exact H1].
  match goal with |- context [next ?s2] => specialize (Hn s2); destruct (next s2) as [s' r'] end. by apply (audited_step r' s1).
Qed.

Ltac audit_step :=
  lazymatch goal with
  | |- audited (bind (persist _ _ _ _ _) (fun _ => ret (Answer _ _))) => apply audited_persist
  | |- audited (bind (if has_repos then _ else _) _) => destruct has_repos
  | |- audited (bind _ _) => apply audited_bind; [|intros ?]
  | |- audited (attempt _ _) => apply audited_attempt; [|intros ?]
  | |- audited (ret _) => apply audited_ret
  | |- audited (match ?x with _ => _ end) => destruct x
  | |- audited (let '(_, _) := ?x in _) => destruct x
  end.

(** The audit trail: a request that is answered leaves at most one record; one that
    is refused, fails or is not understood by the model leaves none. *)
Theorem ai_audit r : audited (Serve r).
Proof.
  assert (moves same_records (cacheListTasks (AR:=AR) has_redis cache_hit)) as Ht by (by apply records_cached).
  assert (moves same_records (cacheListWorkers (AR:=AR) has_redis cache_hit)) as Hw by (by apply records_cached).
  destruct r; cbn [serve]; try apply audited_guard.
  all: unfold health, status, cronNext, analyzeLog, fill_request, generateAdvice, autoAdvice, predictDuration, analyzeTrend,
    parseTaskNatural, or_500, answered.
  all: repeat (cbv beta zeta; audit_step); solve_moves.
Qed.
End ServiceProperties.

(** A limit of less than 60 requests a minute is no limit: its rate per second is
    rounded down to 0, which the bucket takes for 1000, so that a limiter that has
    been used up is full again after 60 milliseconds. *)
Theorem llm_limit_below_60 now rpm : 0 < rpm < 60 -> exists tb, llm_limiter now rpm = Some tb /\ tokens tb = of_int rpm /\
  forall t, tokens (refill (t + 60 * Millisecond) (mkTokenBucket (rate tb) (capacity tb) (of_int 0) t)) = of_int rpm.
Proof.
  intros Hr. unfold llm_limiter. destruct (Z.ltb_spec 0 rpm); [|lia]. eexists. split; [reflexivity|].
  assert (go_div rpm 60 = 0) as -> by (unfold go_div; apply Z.quot_small; lia).
  unfold NewTokenBucket. cbn [Z.leb Z.compare]. destruct (Z.leb_spec rpm 0); [lia|]. cbn [tokens rate capacity]. split; [done|].
  intros t. unfold refill. cbn [tokens rate capacity lastRefill].
  replace (Sub (t + 60 * Millisecond) t) with (60 * Millisecond) by (unfold Sub, Millisecond; lia).
  assert (forall r, 1 <= r <= 59 -> flt (of_int r) (fadd (of_int 0) (fmul (Seconds (60 * Millisecond)) (of_int 1000))) = true) as Hf
    by (apply (forallb_zrange (fun r => flt (of_int r) _)); by vm_compute).
  by rewrite Hf by lia.
Qed.

Lemma llm_limit_below_60_witness : exists tb, llm_limiter 0 30 = Some tb /\
  tokens (refill (5 + 60 * Millisecond) (mkTokenBucket (rate tb) (capacity tb) (of_int 0) 5)) = of_int 30.
Proof. destruct (llm_limit_below_60 0 30 ltac:(lia)) as (tb & Ht & _ & Hf). exists tb. split; [exact Ht|apply Hf]. Defined.

(** ** On a concrete request *)

Definition demo_ai (bucket : option TokenBucket) : @AIState test_backend AIRecordStore :=
  mkAIState (world_with [sample_task] [] []) (mkLLMState 0 (mkTotals 0 0) (mkTotals 0 0)) NewAIAnalysisRepository None None bucket.

Definition advice_body : string :=
  Marshal (JObject [("choices", JArray [JObject [("message", JObject [("content",
    JString (Marshal (JArray [JObject [("type", JString "scale"); ("title", JString "add workers"); ("confidence", JNumber "0.8")]])))])]])]).

(** An answered request leaves one record with the confidence of the advice. *)
Example advice_recorded :
  let '(s, r) := serve (H:=test_backend) (H0:=answering 200) (AR:=AIRecordStore) (fun _ _ => Ok (200, advice_body, None)) (fun _ => None)
    demo_llm None true true None false (fun _ => false) ReqAuto (demo_ai None) in
  (match r with Ok (Answer st _) => st | _ => 0 end, air_Confidence <$> (map_to_list (ars_records (ai_records s))).*2) = (200, [lit 8 10]).
Proof. vm_compute. reflexivity. Qed.
