(* ===== verification/AIClient.v ===== *)
(** internal/api/service/ai_client.go with the endpoint it calls (analyzeLog of
    internal/ai/handler.go) and its caller (analyzeFailedInstance of
    service/task_runtime_service.go): the analysis of a failed instance, from the
    scheduler to the AI service and back into the instance's row. *)
From S2P Require Import Prelude GoStd GoTime GoFormat Json Float Model Repo RateLimit TestStore World Sample Http Records Dispatch Router.
From S2P Require Import Lifecycle Runtime Wire Adapter Tools Agent Analysis AIService.
From Stdlib Require Import Floats.SpecFloat.

#[local] Open Scope prog_scope.

(** ** The client *)

(** [NewAIClient]: the base URL it keeps. *)
Definition NewAIClient (serviceURL : string) : string :=
  trim_slashes (if bool_decide (serviceURL = "") then "http://127.0.0.1:8083" else serviceURL).

(** The body, a map. *)
Definition analysis_request (logText errorCode taskType : string) (retryCount instanceID : Z) : jvalue :=
  gomap ([("log", JString logText); ("error_code", JString errorCode); ("task_type", JString taskType); ("retry_count", jint retryCount)]
         ++ if 0 <? instanceID then [("instance_id", jint instanceID)] else []).

(** What the handler makes of a body: [json.NewDecoder(r.Body).Decode(&req)]. *)
Definition set_log_request (q : logAnalysisRequest) (kv : string * jvalue) : option logAnalysisRequest :=
  let '(mkLogRequest a b c d e) := q in
  let k := foldName kv.1 in let v := kv.2 in
  if bool_decide (k = "log") then x ← into_string v a; Some (mkLogRequest x b c d e)
  else if bool_decide (k = "error_code") then x ← into_string v b; Some (mkLogRequest a x c d e)
  else if bool_decide (k = "task_type") then x ← into_string v c; Some (mkLogRequest a b x d e)
  else if bool_decide (k = "retry_count") then x ← into_int v d; Some (mkLogRequest a b c x e)
  else if bool_decide (k = "instance_id") then x ← into_int v e; Some (mkLogRequest a b c d x)
  else Some q.

Definition log_request_of (text : string) : option logAnalysisRequest :=
  v ← Unmarshal text; into_struct set_log_request v (mkLogRequest "" "" "" 0 0).

(** [LogAnalysisResult] has the members of [AnalysisResponse] under the same names. *)
Definition LogAnalysisResult : Type := AnalysisResponse.
Definition result_of (text : string) : option LogAnalysisResult :=
  v ← Unmarshal text; into_struct set_analysis v (mkAnalysisResponse "" "" None "" "" fzero).

(** [writeJSON] *)
Definition body_text (r : reply jvalue) : string :=
  Marshal (match r with Answer _ body => body | Failure _ msg => gomap [("error", JString msg)] end).

(** [AIClient.AnalyzeLog] against a server that answers the text of a body. *)
Definition client_AnalyzeLog {St} (serviceURL : string) (bad_url : option gerror) (net : delivery)
    (server : string -> prog St gerror (reply jvalue)) (logText errorCode taskType : string) (retryCount instanceID : Z)
    : prog St gerror LogAnalysisResult :=
  match bad_url with
  | Some e => fail (Wrap "build ai request" e)
  | None =>
      r <-? call net (server (Marshal (analysis_request logText errorCode taskType retryCount instanceID))) ;;
      match r with
      | Err e => fail (Wrap "ai service request" e)
      | Ok a =>
          if 300 <=? status_of a then fail (Errorf "ai service returned %d" [fmt_d (status_of a)]) else
          match result_of (body_text a) with
          | None => fail (Wrap "parse ai response" (Sentinel "json"))
          | Some result => ret result
          end
      end
  end.

(** ** The bodies on the wire *)

(** The request that the handler reads is the one the client was asked to send. *)
Definition sent_request (logText errorCode taskType : string) (retryCount instanceID : Z) : logAnalysisRequest :=
  mkLogRequest logText errorCode taskType retryCount (if 0 <? instanceID then instanceID else 0).

Lemma analysis_request_wf l c t n i : Forall valid_utf8 [l; c; t] -> wf_value (analysis_request l c t n i) /\ nesting (analysis_request l c t n i) = 1%nat.
Proof.
  rewrite !Forall_cons. intros (Hl & Hc & Ht & _).
  assert (analysis_request l c t n i = JObject ([("error_code", JString c)] ++ (if 0 <? i then [("instance_id", jint i)] else [])
    ++ [("log", JString l); ("retry_count", jint n); ("task_type", JString t)])) as ->
    by (unfold analysis_request; destruct (0 <? i); reflexivity).
  pose proof fmt_d_number. destruct (0 <? i); simpl; split; try done; split_and!; done.
Qed.

Lemma request_roundtrip l c t n i : Forall valid_utf8 [l; c; t] -> int64 n -> int64 i ->
  log_request_of (Marshal (analysis_request l c t n i)) = Some (sent_request l c t n i).
Proof.
  intros Hs Hn Hi. destruct (analysis_request_wf l c t n i Hs) as [Hw Hd]. unfold log_request_of, sent_request.
  rewrite Unmarshal_Marshal; [|done|rewrite Hd; unfold max_nesting; lia].
  unfold analysis_request. destruct (0 <? i); decode_fields; done.
Qed.

(** An analysis whose JSON says all of it: its texts are UTF-8 and its confidence is
    read back from its decimal form. *)
Definition readable (a : AnalysisResponse) : Prop :=
  Forall valid_utf8 ([an_Summary a; an_Severity a; an_RootCause a; an_Fix a] ++ default [] (an_Categories a)) /\
  (an_Confidence a = fzero \/
   SFeqb (an_Confidence a) fzero = false /\ valid_number (json_float (an_Confidence a)) /\
   ParseFloat (json_float (an_Confidence a)) = Some (an_Confidence a)).

Lemma strings_back cs : mapM (fun v => into_string v "") (JString <$> cs) = Some cs.
Proof. induction cs as [|c cs IH]; [done|]. cbn. by rewrite IH. Qed.

Lemma strings_wf cs : Forall valid_utf8 cs -> wf_value (JArray (JString <$> cs)) /\ nesting (JArray (JString <$> cs)) = 1%nat.
Proof. simpl. induction 1 as [|c cs Hc _ [IH1 IH2]]; [done|]. by simpl. Qed.

Lemma analysis_json_wf a : readable a -> wf_value (analysis_json a) /\ (nesting (analysis_json a) <= 2)%nat.
Proof.
  intros [Hs Hc]. apply Forall_app in Hs as [Hs Hcs]. rewrite !Forall_cons in Hs. destruct Hs as (H1 & H2 & H3 & H4 & _).
  unfold analysis_json, omit_string, omit_float.
  assert (wf_value (from_option (fun cs => JArray (JString <$> cs)) JNull (an_Categories a)) /\
          (nesting (from_option (fun cs => JArray (JString <$> cs)) JNull (an_Categories a)) <= 1)%nat) as [Hw Hn]
    by (destruct (an_Categories a) as [cs|]; [destruct (strings_wf cs Hcs) as [Hw Hn]; split; [exact Hw|cbn [from_option]; rewrite Hn; done]|split; [done|cbn; lia]]).
  revert Hw Hn. generalize (from_option (fun cs => JArray (JString <$> cs)) JNull (an_Categories a)). intros v Hw Hn.
  destruct Hc as [Hc|(Hc & Hv & _)]; [rewrite Hc|rewrite Hc];
    repeat case_bool_decide; cbn; (split; [split_and!; done|lia]).
Qed.

Lemma result_roundtrip a : readable a -> result_of (Marshal (analysis_json a)) = Some a.
Proof.
  intros Ha. destruct (analysis_json_wf a Ha) as [Hw Hn]. unfold result_of.
  rewrite Unmarshal_Marshal; [|done|unfold max_nesting; lia]. destruct Ha as [_ Hc].
  assert (into_nullable (fun v => into_string v "") (from_option (fun cs => JArray (JString <$> cs)) JNull (an_Categories a)) = Some (an_Categories a)) as Hcs
    by (destruct (an_Categories a); [cbn [from_option into_nullable into_slice]; by rewrite strings_back|done]).
  destruct a as [s sev cats root fx conf]. unfold analysis_json, omit_string, omit_float. cbn [an_Summary an_Severity an_Categories an_RootCause an_Fix an_Confidence] in *.
  revert Hcs. generalize (from_option (fun cs => JArray (JString <$> cs)) JNull cats). intros v Hcs. lazy -[into_nullable] in Hcs.
  destruct Hc as [->|(Hz & _ & Hp)]; [|rewrite Hz; unfold jfloat; revert Hp; generalize (json_float conf); intros lit Hp];
    repeat case_bool_decide; subst; lazy -[into_nullable ParseFloat]; rewrite Hcs; lazy -[into_nullable ParseFloat]; rewrite ?Hp; done.
Qed.

(** ** The analysis of a failed instance, composed *)

Section Served.
Context `{BackendSpec} `{Base : Env} {AR : Type} `{!AIAnalysisRepository AR}.
Variable llm_do : nat -> LLMCall -> Answered.
Variable bad_url : string -> option gerror.
Variable llm fb : option LLMAdapter.
Variable has_repos has_records : bool.
Variable ListLoads : option (nat -> Time -> Time -> result (list WorkerLoadSnapshot)).
Variable has_redis : bool.
Variable cache_hit : nat -> bool.
(** The AI service's address, its state when the n-th call reaches it, and how the
    network treats that call. *)
Variable serviceURL : string.
Variable service : nat -> AIState (AR:=AR).
Variable net : nat -> delivery.

Abbreviation Serve := (serve llm_do bad_url llm fb has_repos has_records ListLoads has_redis cache_hit).
Abbreviation insts w := (insts_of (w_instances w)).
Abbreviation sched w := (sched_of (w_instances w)).

(** [aiClient.AnalyzeLog] followed by [json.Marshal(result)]. *)
Definition ai_text (n : nat) (logText errorCode taskType : string) (retryCount instanceID : Z) : result string :=
  let base := NewAIClient serviceURL in
  match (client_AnalyzeLog base (http_new_request (base +:+ "/api/v1/log-analysis/analyze")) (net n)
           (fun text => Serve (ReqLog "POST" (log_request_of text))) logText errorCode taskType retryCount instanceID (service n)).2 with
  | Ok a => Ok (Marshal (analysis_json a))
  | Err e => Err e
  end.

(** The scheduler's surroundings with this service behind its client. *)
Definition served : Env := {|
  clock := clock; local := local; http_new_request := http_new_request; http_do := http_do; grpc_dial := grpc_dial;
  grpc_execute := grpc_execute; grpc_cancel := grpc_cancel; cache_due := cache_due; ai_analyze := ai_text;
  has_ai := true; has_alerter := has_alerter; schedulerURL := schedulerURL |}.

(** What the endpoint answers: an analysis, or an error status. *)
Definition an_analysis (r : reply jvalue) : Prop :=
  match r with Answer code body => code = 200 /\ exists a, body = analysis_json a | Failure code _ => 300 <= code end.

Lemma serve_analysis req s s' r : Serve (ReqLog "POST" (Some req)) s = (s', Ok r) -> an_analysis r.
Proof.
  assert (forall s1 s2, analyzeLog llm_do bad_url llm fb has_repos has_records "POST" (Some req) s1 = (s2, Ok r) -> an_analysis r) as Hin.
  { intros s1 s2. unfold analyzeLog. rewrite bool_decide_true by done. cbn [negb]. unfold bind at 1.
    destruct (fill_request _ _ _) as [s3 [q|e]]; [|done]. unfold attempt. destruct (on_llm _ s3) as [s4 [a|e]]; [|by intros [= _ <-]].
    unfold answered, bind, ret. match goal with |- context [match ?p with (_, _) => _ end] => destruct p as [s5 [u|e]] end; [|done].
    intros [= _ <-]. simpl. eauto. }
  cbn [serve]. unfold llmGuard. destruct (ai_bucket s); [|apply Hin]. destruct (on_repos Now s) as [s1 now].
  destruct (Allow _ _) as [bucket []]; [apply Hin|by intros [= _ <-]].
Qed.

(** A failure whose texts are UTF-8 and whose numbers fit. *)
Definition valid_failure (task : Task) (i : TaskInstance) (req : TaskStatusReportRequest) : Prop :=
  Forall valid_utf8 [failure_log task req; rep_ErrorCode req; task_Type task] /\ int64 (inst_RetryCount i) /\ int64 (inst_ID i).

(** What the client returns is what the service answered to the request it was given. *)
Lemma ai_text_answer n l c t r i json : Forall valid_utf8 [l; c; t] -> int64 r -> int64 i -> ai_text n l c t r i = Ok json ->
  net n = Delivered /\ exists s' a0 a, Serve (ReqLog "POST" (Some (sent_request l c t r i))) (service n) = (s', Ok (Answer 200 (analysis_json a0))) /\
    json = Marshal (analysis_json a) /\ (readable a0 -> a = a0).
Proof.
  intros Hs Hr Hi. unfold ai_text, client_AnalyzeLog. rewrite request_roundtrip by done.
  destruct (http_new_request _); [done|]. unfold attempt, call.
  destruct (net n); [done|unfold bind, attempt; by repeat case_match|].
  destruct (Serve _ _) as [s' [a|e]] eqn:E; [|done]. pose proof (serve_analysis _ _ _ _ E) as Ha.
  destruct a as [code body|code msg]; cbn [status_of an_analysis] in *; [|destruct (Z.leb_spec 300 code); [done|lia]].
  destruct Ha as [-> [a0 ->]]. cbn [Z.leb Z.compare Pos.compare Pos.compare_cont]. unfold body_text. destruct (result_of _) as [a|] eqn:Ha; [|done].
  intros [= <-]. split; [done|]. exists s', a0, a. split; [done|]. split; [done|].
  intros Hread. rewrite result_roundtrip in Ha by done. by injection Ha.
Qed.

(** C14. The analysis of a failed instance is the one the AI service made of this failure.
    The scheduler's goroutine changes nothing but the instance's analysis; when it does,
    the AI service was reached, it answered the request with the task's, the instance's
    and the report's data, and the row holds the JSON of its answer. A network that loses
    the request or the answer, an error status and a body that does not decode leave the
    row as it was. *)
Theorem analysis_stored task i req w : world_inv w ->
  tasks_of (w_tasks w) !! inst_TaskID i = Some task -> valid_failure task i req ->
  let '(w', r) := @analyzeFailedInstance _ served i req w in
  r = Ok tt /\ w_tasks w' = w_tasks w /\ w_workers w' = w_workers w /\ w_sent w' = w_sent w /\
  (insts w' = insts w \/
   net (w_calls w) = Delivered /\ exists s' a0 a now id,
     Serve (ReqLog "POST" (Some (sent_request (failure_log task req) (rep_ErrorCode req) (task_Type task) (inst_RetryCount i) (inst_ID i))))
       (service (w_calls w)) = (s', Ok (Answer 200 (analysis_json a0))) /\ (readable a0 -> a = a0) /\
     sched w !! inst_ScheduleInstanceID i = Some id /\ insts w' = alter (with_analysis now (Marshal (analysis_json a))) id (insts w)).
Proof.
  intros (_ & Hi & _) Htask (Htexts & Hretry & Hid). unfold analyzeFailedInstance, task_query, reads_res, attempt at 1.
  destruct (GetTask _ _) as [t|e] eqn:Hg; [|unfold ret; split_and!; try done; by left].
  apply GetTask_ok in Hg. rewrite Htask in Hg. injection Hg as <-. unfold bind at 1, external. cbn [ai_analyze served].
  destruct (ai_text _ _ _ _ _ _) as [json|e] eqn:Ha; [|unfold ret; split_and!; try done; by left].
  apply ai_text_answer in Ha as (Hnet & s' & a0 & a & Hserve & -> & Hread); [|done..].
  unfold attempt, instance_op, bind, ret. cbn [w_instances].
  destruct (UpdateInstanceAnalysis _ _ _ _) as [is' [u|e]] eqn:Hu; cbn [fst snd]; (split; [done|]; split; [done|]; split; [done|]; split; [done|]).
  - right. split; [done|]. apply UpdateInstanceAnalysis_ok in Hu as (_ & (id & Hsched & Hm) & _); [|done].
    exists s', a0, a, (clock (w_reads w)), id. split_and!; done.
  - left. by apply UpdateInstanceAnalysis_err in Hu as (_ & Hm & _).
Qed.
End Served.

(** ** On a concrete failure *)

Definition model_answer : string :=
  Marshal (JObject [("choices", JArray [JObject [("message", JObject [("content",
    JString (Marshal (JObject [("summary", JString "disk full"); ("severity", JString "high"); ("categories", JArray [JString "disk"]);
                               ("confidence", JNumber "0.85")])))])]])]).

Definition failed_world : @World test_backend := world_with [sample_task] [sample_instance 1 "s-1" "failed" "a" 0] [].
Definition failed_instance : TaskInstance := default zero_instance (is_instances (w_instances failed_world) !! 1).
Definition failed_report : TaskStatusReportRequest := mkReport "s-1" "a" "failed" "exit_1" "no space left on device" "" "".
Definition stored_task : Task := default sample_task (ts_tasks (w_tasks failed_world) !! 1).

(** The whole way, by computation: what the model said is in the row. *)
Example failure_analysed :
  inst_AnalysisJSON <$> is_instances (w_instances
    (@analyzeFailedInstance _ (@served test_backend (answering 200) AIRecordStore _ (fun _ _ => Ok (200, model_answer, None)) (fun _ => None)
       demo_llm None true true None false (fun _ => false) "" (fun _ => demo_ai None) (fun _ => Delivered)) failed_instance failed_report failed_world).1) !! 1
  = Some (Marshal (JObject [("summary", JString "disk full"); ("severity", JString "high"); ("categories", JArray [JString "disk"]);
                            ("confidence", JNumber "0.85")])).
Proof. vm_compute. reflexivity. Qed.

Lemma analysis_stored_witness : exists w', exists r,
  @analyzeFailedInstance _ (@served test_backend (answering 200) AIRecordStore _ (fun _ _ => Ok (200, model_answer, None)) (fun _ => None)
    demo_llm None true true None false (fun _ => false) "" (fun _ => demo_ai None) (fun _ => Delivered)) failed_instance failed_report failed_world = (w', r) /\
  r = Ok tt /\ w_tasks w' = w_tasks failed_world.
Proof.
  pose proof (@analysis_stored test_backend test_backend_contract test_backend_spec (answering 200) AIRecordStore _ (fun _ _ => Ok (200, model_answer, None)) (fun _ => None)
    demo_llm None true true None false (fun _ => false) "" (fun _ => demo_ai None) (fun _ => Delivered) stored_task failed_instance failed_report failed_world
    (world_with_inv _ _ _)) as Hrun.
  destruct (@analyzeFailedInstance _ _ failed_instance failed_report failed_world) as [w' r]. exists w', r. split; [done|].
  destruct Hrun as (Hr & Ht & _); [vm_compute; reflexivity| |by split].
  split; [repeat constructor; vm_compute; reflexivity|vm_compute; repeat split; congruence].
Defined.
