(* ===== verification/Worker.v ===== *)
(** internal/worker: the worker process. Each accepted task is a goroutine running
    [Handler.run]; the goroutines share the duplicate filter, the table of cancel
    functions, the running counter and the local store of undelivered reports, and
    interleave at every access to them ([worker_step]).

    Commands, HTTP calls, the file system and the transport are parameters. *)
From S2P Require Import Prelude GoStd GoTime GoFormat Model Repo RateLimit TestStore World Sample Http Dispatch.

(** ** Executing a task (executor_run.go, sandbox.go) *)

(** The context of a run: its timeout, and whether it was cancelled before it ended. *)
Record run_context := mkContext { ctx_timeout : Duration; ctx_cancelled : bool }.

(** What became of a file that was written: complete, as it was, or cut short. *)
Inductive write_outcome := Written | Untouched | Damaged.

(** The machine the worker runs on. The number is the index of the call. *)
Class Machine := {
  now_at : nat -> Time;
  (** [cmd.CombinedOutput] of [bash -lc payload] in this directory (the worker's own
      when empty) with this environment: the output and the error, if any. *)
  run_bash : nat -> run_context -> string -> list string -> string -> string * option gerror;
  run_docker : nat -> run_context -> list string -> string * option gerror;
  new_get : string -> option gerror;
  (** [http.DefaultClient.Do] of a GET with this idempotency key: status code,
      status line and body. *)
  do_get : nat -> run_context -> string -> string -> res gerror (Z * string * string);
  (** [os.MkdirTemp] for the sandbox: its directory. *)
  mkdir_temp : nat -> res gerror string;
  path_env : string;
  (** [http.Client.Do] and the gRPC stub, for a status report. *)
  post_url : string -> option gerror;
  do_post : nat -> string -> TaskStatusReportRequest -> res gerror (Z * string);
  grpc_ready : bool;
  grpc_report : nat -> TaskStatusReportRequest -> res gerror bool;
  (** [os.WriteFile], and whether [os.ReadDir] and [os.ReadFile] succeed. *)
  write_file : nat -> write_outcome;
  read_dir : nat -> bool;
  read_file : nat -> bool;
  sandboxDir : string;
  has_store : bool;
  report_protocol : string;
  this_worker : string
}.

(** [context.DeadlineExceeded] *)
Definition DeadlineExceeded : gerror := Sentinel "context deadline exceeded".

(** [strings.ToLower] on ASCII. *)
Definition ToLower (s : string) : string := map_bytes lower_byte s.

Definition trimExecutionMessage (value : string) : string :=
  let value := TrimSpace value in
  if 1024 <? Z.of_nat (String.length value) then String.substring 0 1024 value else value.

(** The variables every task gets. *)
Definition task_env (req : ExecuteTaskRequest) : gmap string string :=
  {["IDEMPOTENCY_KEY" := req_IdempotencyKey req; "SHARD_NO" := fmt_d (req_ShardNo req);
    "SHARD_TOTAL" := fmt_d (req_ShardTotal req); "SCHEDULE_INSTANCE_ID" := req_ScheduleInstanceID req]}.

Definition getEnv (m : gmap string string) (key : string) : string := default "" (m !! key).

Definition env_line (kv : string * string) : string := kv.1 +:+ "=" +:+ kv.2.

Section Execute.
Context `{Machine} `{MapRange}.

(** [fmt.Errorf("... %w output=%s", err, output)] *)
Definition failed_with (what : string) (e : gerror) (output : string) : gerror :=
  Wrapf what e (" output=" +:+ output).

Definition Execute (n : nat) (ctx : run_context) (taskType payload image : string) (extraEnv : gmap string string) : string * option gerror :=
  let kind := ToLower (TrimSpace taskType) in
  if bool_decide (kind = "shell") then
    let env := map (fun key => env_line (key, getEnv extraEnv key))
                 ["IDEMPOTENCY_KEY"; "SHARD_NO"; "SHARD_TOTAL"; "SCHEDULE_INSTANCE_ID"] in
    let '(output, err) := run_bash n ctx "" env payload in
    (output, (fun e => failed_with "shell execute failed" e output) <$> err)
  else if bool_decide (kind = "http") then
    match new_get payload with
    | Some e => ("", Some (Wrap "build http request" e))
    | None =>
        match do_get n ctx payload (getEnv extraEnv "IDEMPOTENCY_KEY") with
        | Err e => ("", Some (Wrap "http execute failed" e))
        | Ok (code, status, body) =>
            if 300 <=? code then (body, Some (Errorf "http execute status=%s" [status])) else (body, None)
        end
    end
  else if bool_decide (kind = "container") then
    if bool_decide (image = "") then ("", Some (Errorf "container task requires a non-empty image" []))
    else
      let args := ["run"; "--rm"] ++ (if bool_decide (payload = "") then [] else Fields payload) ++ [image] in
      let '(output, err) := run_docker n ctx args in
      (output, (fun e => failed_with "container execute failed" e output) <$> err)
  else ("", Some (Errorf "unsupported task type: %s" [taskType])).

(** [Sandbox.ShellExec]: an environment of its own; the extra variables come in the
    order of a map iteration. *)
Definition ShellExec (n : nat) (ctx : run_context) (workDir command : string) (extraEnv : gmap string string) : string * option gerror :=
  run_bash n ctx workDir
    (["PATH=" +:+ path_env; "HOME=" +:+ workDir; "USER=nobody"; "TMPDIR=" +:+ workDir; "SANDBOX=true"]
       ++ map env_line (map_range (map_to_list extraEnv))) command.

Definition executeInSandbox (n : nat) (ctx : run_context) (req : ExecuteTaskRequest) : string * option gerror :=
  match mkdir_temp n with
  | Err e => ("", Some (Wrap "create sandbox workdir" e))
  | Ok workDir => ShellExec n ctx workDir (req_Payload req) (task_env req)
  end.

(** The timeout of a run: five minutes unless the request asks for one. *)
Definition run_timeout (req : ExecuteTaskRequest) : Duration :=
  let timeout := wrap64 (req_TimeoutSeconds req * Second) in
  if timeout <=? 0 then 300 * Second else timeout.

Definition execute_task (n : nat) (ctx : run_context) (req : ExecuteTaskRequest) : string * option gerror :=
  if bool_decide (req_TaskType req = "shell") && negb (bool_decide (sandboxDir = ""))
  then executeInSandbox n ctx req
  else Execute n ctx (req_TaskType req) (req_Payload req) (req_Image req) (task_env req).

(** The report of a finished run, without its time stamps. *)
Definition outcome_report (req : ExecuteTaskRequest) (result : string * option gerror) : TaskStatusReportRequest :=
  match result.2 with
  | None => mkReport (req_ScheduleInstanceID req) this_worker "success" "" (trimExecutionMessage result.1) "" ""
  | Some e =>
      if errors_is e DeadlineExceeded
      then mkReport (req_ScheduleInstanceID req) this_worker "timeout" "timeout" (error_text e) "" ""
      else mkReport (req_ScheduleInstanceID req) this_worker "failed" "execute_failed" (error_text e) "" ""
  end.

Definition with_times (startedAt finishedAt : Time) (r : TaskStatusReportRequest) : TaskStatusReportRequest :=
  mkReport (rep_ScheduleInstanceID r) (rep_WorkerID r) (rep_Status r) (rep_ErrorCode r) (rep_ErrorMessage r)
    (FormatRFC3339Nano UTC startedAt) (FormatRFC3339Nano UTC finishedAt).
End Execute.

(** ** Reporting (report_client.go, local_store.go) *)

Record StoredReport := mkStored { sr_SchedulerURL : string; sr_Report : TaskStatusReportRequest; sr_StoredAt : Z }.

(** The state the goroutines share. A stored file that does not decode is [None]; the
    delivered reports and the cancelled contexts are history. *)
Record WorkerState := mkWorkerState {
  wk_running : Z;
  wk_dedup : gmap string Time;
  wk_cancels : gmap string nat;
  wk_cancelled : gset nat;
  wk_files : gmap string (option StoredReport);
  wk_delivered : list TaskStatusReportRequest;
  wk_reads : nat;
  wk_calls : nat
}.

Definition set_wk_running (v : Z) (s : WorkerState) : WorkerState :=
  {| wk_running := v; wk_dedup := wk_dedup s; wk_cancels := wk_cancels s; wk_cancelled :=
     wk_cancelled s; wk_files := wk_files s; wk_delivered := wk_delivered s; wk_reads := wk_reads s;
     wk_calls := wk_calls s |}.
Definition set_wk_dedup (v : gmap string Time) (s : WorkerState) : WorkerState :=
  {| wk_running := wk_running s; wk_dedup := v; wk_cancels := wk_cancels s; wk_cancelled :=
     wk_cancelled s; wk_files := wk_files s; wk_delivered := wk_delivered s; wk_reads := wk_reads s;
     wk_calls := wk_calls s |}.
Definition set_wk_cancels (v : gmap string nat) (s : WorkerState) : WorkerState :=
  {| wk_running := wk_running s; wk_dedup := wk_dedup s; wk_cancels := v; wk_cancelled :=
     wk_cancelled s; wk_files := wk_files s; wk_delivered := wk_delivered s; wk_reads := wk_reads s;
     wk_calls := wk_calls s |}.
Definition set_wk_cancelled (v : gset nat) (s : WorkerState) : WorkerState :=
  {| wk_running := wk_running s; wk_dedup := wk_dedup s; wk_cancels := wk_cancels s; wk_cancelled :=
     v; wk_files := wk_files s; wk_delivered := wk_delivered s; wk_reads := wk_reads s; wk_calls :=
     wk_calls s |}.
Definition set_wk_files (v : gmap string (option StoredReport)) (s : WorkerState) : WorkerState :=
  {| wk_running := wk_running s; wk_dedup := wk_dedup s; wk_cancels := wk_cancels s; wk_cancelled :=
     wk_cancelled s; wk_files := v; wk_delivered := wk_delivered s; wk_reads := wk_reads s; wk_calls
     := wk_calls s |}.
Definition set_wk_delivered (v : list TaskStatusReportRequest) (s : WorkerState) : WorkerState :=
  {| wk_running := wk_running s; wk_dedup := wk_dedup s; wk_cancels := wk_cancels s; wk_cancelled :=
     wk_cancelled s; wk_files := wk_files s; wk_delivered := v; wk_reads := wk_reads s; wk_calls :=
     wk_calls s |}.
Definition set_wk_reads (v : nat) (s : WorkerState) : WorkerState :=
  {| wk_running := wk_running s; wk_dedup := wk_dedup s; wk_cancels := wk_cancels s; wk_cancelled :=
     wk_cancelled s; wk_files := wk_files s; wk_delivered := wk_delivered s; wk_reads := v; wk_calls
     := wk_calls s |}.
Definition set_wk_calls (v : nat) (s : WorkerState) : WorkerState :=
  {| wk_running := wk_running s; wk_dedup := wk_dedup s; wk_cancels := wk_cancels s; wk_cancelled :=
     wk_cancelled s; wk_files := wk_files s; wk_delivered := wk_delivered s; wk_reads := wk_reads s;
     wk_calls := v |}.

Section Report.
Context `{Machine}.

Definition client_protocol : string := ToLower (TrimSpace report_protocol).

Definition reportGRPC (n : nat) (req : TaskStatusReportRequest) : option gerror :=
  if negb grpc_ready then Some (Errorf "grpc control client is not initialized" []) else
  match grpc_report n req with
  | Err e => Some e
  | Ok ok => if ok then None else Some (Errorf "grpc status report rejected" [])
  end.

Definition reportHTTP (n : nat) (schedulerURL : string) (req : TaskStatusReportRequest) : option gerror :=
  let url := trim_slashes schedulerURL +:+ "/api/v1/task-instances/report" in
  match post_url url with
  | Some e => Some (Wrap "build status report request" e)
  | None =>
      match do_post n url req with
      | Err e => Some (Wrap "send status report" e)
      | Ok (code, status) => if 300 <=? code then Some (Errorf "scheduler returned status %s" [status]) else None
      end
  end.

(** [ReportClient.Report]; [None] is success. *)
Definition Report (n : nat) (schedulerURL : string) (req : TaskStatusReportRequest) : option gerror :=
  if bool_decide (client_protocol = "grpc") then reportGRPC n req else reportHTTP n schedulerURL req.

(** The scheduler took the report. *)
Definition note_delivered (r : TaskStatusReportRequest) (s : WorkerState) : WorkerState :=
  set_wk_delivered (r :: wk_delivered s) s.

(** A report attempt, with the call counted. *)
Definition try_report (url : string) (r : TaskStatusReportRequest) (s : WorkerState) : WorkerState * bool :=
  let s' := set_wk_calls (S (wk_calls s)) s in
  match Report (wk_calls s) url r with None => (note_delivered r s', true) | Some _ => (s', false) end.

(** [Store.Buffer]: one file per schedule id. A failed write may leave the file cut
    short. One step: [os.WriteFile] runs under the store's mutex, and so does the listing
    that tells [Flush] which files there are, so the flush loop never opens a file that is
    being written for the first time; it reads without the mutex, and could see a file half
    rewritten only when an id is buffered a second time, which takes two runs of one id. *)
Definition Buffer (url : string) (r : TaskStatusReportRequest) (s : WorkerState) : WorkerState :=
  let s' := set_wk_reads (S (wk_reads s)) (set_wk_calls (S (wk_calls s)) s) in
  let sid := rep_ScheduleInstanceID r in
  match write_file (wk_calls s) with
  | Written => set_wk_files (<[sid := Some (mkStored url r (now_at (wk_reads s) / Second))]> (wk_files s)) s'
  | Untouched => s'
  | Damaged => set_wk_files (<[sid := None]> (wk_files s)) s'
  end.

(** [Store.Remove] *)
Definition Remove (sid : string) (s : WorkerState) : WorkerState := set_wk_files (delete sid (wk_files s)) s.

(** Where [Store.Flush] stands within its loop: between two files (and whether it left
    the last one for later), about to report, or about to remove a file. It takes the
    store's mutex for none of these. *)
Inductive flusher := FNext (kept : bool) | FSend (sid : string) (sr : StoredReport) | FDrop (sid : string).

(** The file of [sid] is read and decoded. *)
Definition flush_open (sid : string) (s : WorkerState) : flusher * WorkerState :=
  let s' := set_wk_calls (S (wk_calls s)) s in
  if read_file (wk_calls s) then
    match wk_files s !! sid with
    | None => (FNext true, s')
    | Some None => (FDrop sid, s')
    | Some (Some sr) => (FSend sid sr, s')
    end
  else (FNext true, s').

Definition flush_step (f : flusher) (s : WorkerState) : flusher * WorkerState :=
  match f with
  | FNext kept => (f, s)
  | FSend sid sr =>
      let '(s', ok) := try_report (sr_SchedulerURL sr) (sr_Report sr) s in
      (if (ok : bool) then FDrop sid else FNext true, s')
  | FDrop sid => (FNext false, Remove sid s)
  end.

(** The loop body of [Store.Flush] without interruption: [true] when the file is left
    for later. *)
Definition flush_one (sid : string) (s : WorkerState) : WorkerState * bool :=
  let '(f1, s1) := flush_open sid s in
  let '(f2, s2) := flush_step f1 s1 in
  let '(f3, s3) := flush_step f2 s2 in
  (s3, match f3 with FNext kept => kept | _ => true end).

Fixpoint flush_all (sids : list string) (s : WorkerState) : WorkerState * Z :=
  match sids with
  | [] => (s, 0)
  | sid :: rest =>
      let '(s1, kept) := flush_one sid s in
      let '(s2, n) := flush_all rest s1 in
      (s2, if (kept : bool) then n + 1 else n)
  end.

(** [os.ReadDir]: the file names in order. *)
Definition file_le (a b : string) : Prop := is_true (String.leb (a +:+ ".json") (b +:+ ".json")).
#[export] Instance file_le_dec a b : Decision (file_le a b).
Proof. unfold file_le. apply _. Defined.
Definition dir_entries (s : WorkerState) : list string := merge_sort file_le (map fst (map_to_list (wk_files s))).

Definition Flush (s : WorkerState) : WorkerState * Z :=
  let s' := set_wk_calls (S (wk_calls s)) s in
  if read_dir (wk_calls s) then flush_all (dir_entries s) s' else (s', -1).

(** [PendingCount], when the directory can be read. *)
Definition PendingCount (s : WorkerState) : Z := Z.of_nat (length (dir_entries s)).
End Report.

(** ** The handler (handler.go) *)

(** Where a goroutine of [run] stands: just before the access named. *)
Inductive phase :=
| Spawned                                    (** [isDuplicate] *)
| Rejected                                   (** returned: a duplicate *)
| Accepted                                   (** [running.Add(1)] *)
| Counted                                    (** [reporter.Ack] *)
| Acked                                      (** the report of "running" *)
| Announced                                  (** [cancels.Store] *)
| Armed                                      (** the execution *)
| Ran (r : TaskStatusReportRequest)          (** the final report *)
| Delivered (r : TaskStatusReportRequest)    (** [localStore.Remove] *)
| Undelivered (r : TaskStatusReportRequest)  (** [localStore.Buffer] *)
| Settled (r : TaskStatusReportRequest)      (** deferred [cancels.Delete] *)
| Disarmed (r : TaskStatusReportRequest)     (** deferred [cancel()], [running.Add(-1)] *)
| Finished (r : TaskStatusReportRequest).    (** returned *)

Record goroutine := mkGoroutine { g_req : ExecuteTaskRequest; g_phase : phase }.

Definition g_sid (g : goroutine) : string := req_ScheduleInstanceID (g_req g).

Section Handler.
Context `{Machine} `{MapRange}.

(** [isDuplicate]: [LoadOrStore] on the map. *)
Definition isDuplicate (sid : string) (s : WorkerState) : WorkerState * bool :=
  let s' := set_wk_reads (S (wk_reads s)) s in
  match wk_dedup s !! sid with
  | Some _ => (s', true)
  | None => (set_wk_dedup (<[sid := now_at (wk_reads s)]> (wk_dedup s)) s', false)
  end.

Definition running_report (req : ExecuteTaskRequest) : TaskStatusReportRequest :=
  mkReport (req_ScheduleInstanceID req) this_worker "running" "" "" "" "".

(** The next access of goroutine [id]. The result of the acknowledgement is ignored, as
    is that of the report of "running". *)
Definition run_step (id : nat) (req : ExecuteTaskRequest) (p : phase) (s : WorkerState) : phase * WorkerState :=
  let sid := req_ScheduleInstanceID req in
  match p with
  | Spawned => let '(s', dup) := isDuplicate sid s in (if (dup : bool) then Rejected else Accepted, s')
  | Accepted => (Counted, set_wk_running (wk_running s + 1) s)
  | Counted => (Acked, set_wk_calls (S (wk_calls s)) s)
  | Acked => (Announced, (try_report (req_SchedulerURL req) (running_report req) s).1)
  | Announced => (Armed, set_wk_cancels (<[sid := id]> (wk_cancels s)) s)
  | Armed =>
      (Ran (with_times (now_at (wk_reads s)) (now_at (S (wk_reads s)))
              (outcome_report req (execute_task (wk_calls s)
                 (mkContext (run_timeout req) (bool_decide (id ∈ wk_cancelled s))) req))),
       set_wk_reads (S (S (wk_reads s))) (set_wk_calls (S (wk_calls s)) s))
  | Ran r => let '(s', ok) := try_report (req_SchedulerURL req) r s in
             (if (ok : bool) then Delivered r else Undelivered r, s')
  | Delivered r => (Settled r, if has_store then Remove sid s else s)
  | Undelivered r => (Settled r, if has_store then Buffer (req_SchedulerURL req) r s else s)
  | Settled r => (Disarmed r, set_wk_cancels (delete sid (wk_cancels s)) s)
  | Disarmed r => (Finished r, set_wk_cancelled ({[id]} ∪ wk_cancelled s) (set_wk_running (wk_running s - 1) s))
  | Rejected | Finished _ => (p, s)
  end.

(** [Handler.Cancel]: the context of the registered run is cancelled. *)
Definition Cancel (sid : string) (s : WorkerState) : WorkerState * result unit :=
  match wk_cancels s !! sid with
  | Some id => (set_wk_cancelled ({[id]} ∪ wk_cancelled s) s, Ok tt)
  | None => (s, Err (Errorf "task not found or already completed: %s" [sid]))
  end.

(** One round of [StartDedupEviction]. *)
Definition evict (ttl : Duration) (s : WorkerState) : WorkerState :=
  let ttl := if ttl <=? 0 then 5 * Minute else ttl in
  let cutoff := now_at (wk_reads s) - ttl in
  set_wk_reads (S (wk_reads s))
    (set_wk_dedup (filter (fun kv : string * Time => Before kv.2 cutoff = false) (wk_dedup s)) s).

Definition RunningTasks (s : WorkerState) : Z := wk_running s.

(** [Handler.Execute] on a decoded body: the status, and the request whose
    goroutine is started. *)
Definition handle_Execute (method : string) (body : option ExecuteTaskRequest) : Z * option ExecuteTaskRequest :=
  if negb (bool_decide (method = "POST")) then (405, None) else
  match body with None => (400, None) | Some req => (202, Some req) end.

Definition handle_CancelHTTP (method : string) (body : option string) (s : WorkerState) : WorkerState * reply string :=
  if negb (bool_decide (method = "POST")) then (s, Failure 405 "") else
  match body with
  | None => (s, Failure 400 "invalid body")
  | Some sid =>
      match Cancel sid s with
      | (s', Ok _) => (s', Answer 200 "cancelled")
      | (s', Err e) => (s', Failure 200 (error_text e))
      end
  end.
End Handler.

(** The gRPC front end (grpcserver/server.go): the request it starts, without shard
    and idempotency key. *)
Definition grpc_ExecuteTask (req : PBExecuteTaskRequest) : ExecuteTaskRequest :=
  {| req_ScheduleInstanceID := pb_ScheduleInstanceId req; req_TaskID := pb_TaskId req;
     req_TaskType := pb_TaskType req; req_Payload := pb_Payload req; req_Image := pb_Image req;
     req_TimeoutSeconds := pb_TimeoutSeconds req; req_RetryCount := pb_RetryCount req; req_ShardNo := 0;
     req_ShardTotal := 0; req_IdempotencyKey := ""; req_SchedulerURL := pb_SchedulerUrl req |}.

(** [CancelTask]: [None] is the InvalidArgument status, otherwise the Ok flag. *)
Definition grpc_CancelTask (sid : string) (s : WorkerState) : WorkerState * option bool :=
  if bool_decide (sid = "") then (s, None)
  else match Cancel sid s with (s', Ok _) => (s', Some true) | (s', Err _) => (s', Some false) end.

(** ** The process as a transition system *)

Record process := mkProcess { threads : gmap nat goroutine; flushing : flusher; shared : WorkerState }.

Section Process.
Context `{Machine} `{MapRange}.

Definition advance (id : nat) (g : goroutine) (c : process) : process :=
  let '(p, s) := run_step id (g_req g) (g_phase g) (shared c) in
  mkProcess (<[id := mkGoroutine (g_req g) p]> (threads c)) (flushing c) s.

(** A request arrives, a goroutine makes its next access, a cancellation arrives, or
    the flush loop opens a file or goes on with it. *)
Inductive worker_step : process -> process -> Prop :=
| WSpawn id req c : threads c !! id = None ->
    worker_step c (mkProcess (<[id := mkGoroutine req Spawned]> (threads c)) (flushing c) (shared c))
| WRun id g c : threads c !! id = Some g -> worker_step c (advance id g c)
| WCancel sid c : worker_step c (mkProcess (threads c) (flushing c) (Cancel sid (shared c)).1)
| WOpen sid kept c : flushing c = FNext kept ->
    worker_step c (mkProcess (threads c) (flush_open sid (shared c)).1 (flush_open sid (shared c)).2)
| WFlush c :
    worker_step c (mkProcess (threads c) (flush_step (flushing c) (shared c)).1 (flush_step (flushing c) (shared c)).2).

(** The eviction loop forgets old schedule ids. *)
Inductive evict_step : process -> process -> Prop :=
| WEvict ttl c : evict_step c (mkProcess (threads c) (flushing c) (evict ttl (shared c))).

Definition any_step (c c' : process) : Prop := worker_step c c' \/ evict_step c c'.

(** A process that has just started, with the files its predecessor left. *)
Definition idle_process (reads calls : nat) (files : gmap string (option StoredReport)) : process :=
  mkProcess ∅ (FNext false) (mkWorkerState 0 ∅ ∅ ∅ files [] reads calls).
End Process.

(** *** The running counter *)

(** Between [running.Add(1)] and [running.Add(-1)]. *)
Definition is_counted (g : goroutine) : bool :=
  match g_phase g with
  | Counted | Acked | Announced | Armed | Ran _ | Delivered _ | Undelivered _ | Settled _ | Disarmed _ => true
  | Spawned | Rejected | Accepted | Finished _ => false
  end.

Definition one_if (b : bool) : Z := if b then 1 else 0.

Definition counted_of (ts : gmap nat goroutine) : Z := map_fold (fun _ g acc => one_if (is_counted g) + acc) 0 ts.

Lemma counted_insert_new ts id g : ts !! id = None -> counted_of (<[id := g]> ts) = one_if (is_counted g) + counted_of ts.
Proof. intros Hn. unfold counted_of. rewrite map_fold_insert_L; [done|intros; lia|done]. Qed.

Lemma counted_insert ts id g g0 : ts !! id = Some g0 ->
  counted_of (<[id := g]> ts) = counted_of ts - one_if (is_counted g0) + one_if (is_counted g).
Proof.
  intros Hg. rewrite <- (insert_delete_id ts id g0 Hg) at 2. rewrite <- insert_delete_eq.
  rewrite !counted_insert_new by apply lookup_delete_eq. lia.
Qed.

Section ProcessProperties.
Context `{Machine} `{MapRange}.

Lemma try_report_frame url r s :
  wk_running (try_report url r s).1 = wk_running s /\ wk_dedup (try_report url r s).1 = wk_dedup s /\
  wk_cancels (try_report url r s).1 = wk_cancels s /\ wk_files (try_report url r s).1 = wk_files s /\
  wk_delivered (try_report url r s).1 = (if (try_report url r s).2 then [r] else []) ++ wk_delivered s.
Proof. unfold try_report. by destruct (Report _ _ _). Qed.

Lemma flush_open_running sid s : wk_running (flush_open sid s).2 = wk_running s.
Proof. unfold flush_open. by destruct (read_file _), (wk_files s !! sid) as [[]|]. Qed.

Lemma flush_step_running f s : wk_running (flush_step f s).2 = wk_running s.
Proof.
  destruct f as [|sid sr|]; [done| |done]. simpl.
  pose proof (try_report_frame (sr_SchedulerURL sr) (sr_Report sr) s) as (Hr & _).
  by destruct (try_report _ _ s) as [s' []].
Qed.

Lemma run_step_running id req p s : let '(p', s') := run_step id req p s in
  wk_running s' = wk_running s - one_if (is_counted (mkGoroutine req p)) + one_if (is_counted (mkGoroutine req p')).
Proof.
  destruct p as [| | | | | | |r|r|r|r|r|r]; cbn [run_step]; try (simpl; lia).
  - unfold isDuplicate. destruct (wk_dedup s !! _); simpl; lia.
  - pose proof (try_report_frame (req_SchedulerURL req) (running_report req) s) as (-> & _). simpl. lia.
  - pose proof (try_report_frame (req_SchedulerURL req) r s) as (Hr & _).
    destruct (try_report _ _ s) as [s' []]; simpl in *; lia.
  - destruct has_store; simpl; lia.
  - destruct has_store; [|simpl; lia]. unfold Buffer. cbv zeta. destruct (write_file _); simpl; lia.
Qed.

(** C31. The worker's load figure is right: in every interleaving of requests, running
    goroutines, cancellations, flushes and evictions, the counter the heartbeats
    report equals the number of goroutines between their increment and decrement. *)
Theorem running_count reads calls files c :
  rtc any_step (idle_process reads calls files) c -> RunningTasks (shared c) = counted_of (threads c).
Proof.
  intros Hr. pattern c. refine (rtc_ind_r _ _ _ _ c Hr); clear c Hr; [done|].
  intros c1 c2 _ Hs IH. unfold RunningTasks in *.
  destruct Hs as [Hs|Hs]; [destruct Hs as [id req c Hn|id g c Hg|sid c|sid kept c Hf|c]|destruct Hs as [ttl c]]; simpl.
  - rewrite counted_insert_new by done. simpl. lia.
  - unfold advance. pose proof (run_step_running id (g_req g) (g_phase g) (shared c)) as Hstep.
    destruct (run_step id (g_req g) (g_phase g) (shared c)) as [p s]. simpl.
    rewrite (counted_insert _ _ _ _ Hg). destruct g as [req p0]. simpl in *. lia.
  - unfold Cancel. by destruct (wk_cancels (shared c) !! sid).
  - by rewrite flush_open_running.
  - by rewrite flush_step_running.
  - done.
Qed.

(** *** At most one run per schedule id *)

(** Past the duplicate check. *)
Definition admitted (p : phase) : bool :=
  match p with Spawned | Rejected => false | _ => true end.

Record single_runs (c : process) : Prop := {
  sr_seen : forall id g, threads c !! id = Some g -> admitted (g_phase g) = true -> is_Some (wk_dedup (shared c) !! g_sid g);
  sr_once : forall i j g h, threads c !! i = Some g -> threads c !! j = Some h ->
    admitted (g_phase g) = true -> admitted (g_phase h) = true -> g_sid g = g_sid h -> i = j
}.

(** What a step of a goroutine does to the duplicate filter. *)
Lemma run_step_dedup id req p s : let '(p', s') := run_step id req p s in
  (admitted p' = admitted p /\ wk_dedup s' = wk_dedup s) \/
  (admitted p = false /\ wk_dedup s !! req_ScheduleInstanceID req = None /\
   exists t, wk_dedup s' = <[req_ScheduleInstanceID req := t]> (wk_dedup s)).
Proof.
  destruct p as [| | | | | | |r|r|r|r|r|r]; cbn [run_step]; try (left; done).
  - unfold isDuplicate. destruct (wk_dedup s !! _) eqn:Hd; [by left|]. right. eauto.
  - pose proof (try_report_frame (req_SchedulerURL req) (running_report req) s) as (_ & Hd & _). by left.
  - pose proof (try_report_frame (req_SchedulerURL req) r s) as (_ & Hd & _).
    destruct (try_report _ _ s) as [s' []]; by left.
  - destruct has_store; by left.
  - destruct has_store; [|by left]. unfold Buffer. cbv zeta. destruct (write_file _); by left.
Qed.

Lemma advance_single id g c : threads c !! id = Some g -> single_runs c -> single_runs (advance id g c).
Proof.
  intros Hg [Hseen Honce]. unfold advance. pose proof (run_step_dedup id (g_req g) (g_phase g) (shared c)) as Hd.
  destruct (run_step id (g_req g) (g_phase g) (shared c)) as [p s].
  destruct Hd as [[Ha Hd]|(Hna & Hnone & t & Hd)].
  - split; simpl.
    + intros i h. rewrite lookup_insert_Some, Hd. intros [[<- <-]|[_ Hh]] Hp; [|eauto].
      apply (Hseen id g Hg). simpl in Hp. congruence.
    + intros i j h k. rewrite !lookup_insert_Some. simpl.
      intros [[<- <-]|[Hi Hh]] [[<- <-]|[Hj Hk]] Hp Hq Hsid; [done| | |eauto];
        (eapply Honce; [eassumption|eassumption|unfold g_sid in *; simpl in *; congruence..]).
  - assert (forall i h, threads c !! i = Some h -> admitted (g_phase h) = true -> g_sid h <> g_sid g) as Hfresh.
    { intros i h Hh Hp Heq. destruct (Hseen i h Hh Hp) as [t' Ht]. rewrite Heq in Ht. unfold g_sid in Ht. congruence. }
    split; simpl.
    + intros i h. rewrite lookup_insert_Some, Hd. intros [[<- <-]|[_ Hh]] Hp.
      * unfold g_sid. simpl. rewrite lookup_insert_eq. eauto.
      * rewrite lookup_insert_ne by (intros Heq; apply (Hfresh i h Hh Hp); by symmetry). eauto.
    + intros i j h k. rewrite !lookup_insert_Some.
      intros [[<- <-]|[Hi Hh]] [[<- <-]|[Hj Hk]] Hp Hq Hsid; [done| | |eauto]; exfalso.
      * by eapply (Hfresh j k).
      * by eapply (Hfresh i h).
Qed.

(** Steps that leave the goroutines and the duplicate filter alone. *)
Lemma single_frame c f s : wk_dedup s = wk_dedup (shared c) -> single_runs c -> single_runs (mkProcess (threads c) f s).
Proof. intros Hd [Hseen Honce]. split; simpl; [rewrite Hd|]; eauto. Qed.

Lemma flush_open_frame sid s : wk_dedup (flush_open sid s).2 = wk_dedup s /\
  wk_files (flush_open sid s).2 = wk_files s /\ wk_delivered (flush_open sid s).2 = wk_delivered s.
Proof. unfold flush_open. by destruct (read_file _), (wk_files s !! sid) as [[]|]. Qed.

Lemma flush_step_dedup f s : wk_dedup (flush_step f s).2 = wk_dedup s.
Proof.
  destruct f as [|sid sr|]; [done| |done]. simpl.
  pose proof (try_report_frame (sr_SchedulerURL sr) (sr_Report sr) s) as (_ & Hd & _).
  by destruct (try_report _ _ s) as [s' []].
Qed.

Lemma Cancel_frame sid s : wk_dedup (Cancel sid s).1 = wk_dedup s /\
  wk_files (Cancel sid s).1 = wk_files s /\ wk_delivered (Cancel sid s).1 = wk_delivered s.
Proof. unfold Cancel. by destruct (wk_cancels s !! sid). Qed.

Lemma step_single c c' : worker_step c c' -> single_runs c -> single_runs c'.
Proof.
  intros Hs Hi. destruct Hs as [id req c Hn|id g c Hg|sid c|sid kept c Hf|c].
  - destruct Hi as [Hseen Honce]. split; simpl.
    + intros i h. rewrite lookup_insert_Some. intros [[_ <-]|[_ Hh]] Hp; [done|eauto].
    + intros i j h k. rewrite !lookup_insert_Some. intros [[_ <-]|[_ Hh]] [[_ <-]|[_ Hk]] Hp Hq; [done..|eauto].
  - by apply advance_single.
  - apply single_frame; [|done]. apply Cancel_frame.
  - apply single_frame; [|done]. apply flush_open_frame.
  - apply single_frame; [|done]. apply flush_step_dedup.
Qed.

Lemma single_reachable reads calls files c :
  rtc worker_step (idle_process reads calls files) c -> single_runs c.
Proof.
  intros Hr. refine (rtc_ind_r single_runs _ _ _ c Hr); clear c Hr.
  - split; simpl; intros *; rewrite lookup_empty; done.
  - intros c1 c2 _ Hs IH. by eapply step_single.
Qed.

(** C19. A schedule id is run at most once: whatever requests arrive (repeated ones
    included) and however their goroutines interleave with each other, with
    cancellations and with the flush loop, no two goroutines past the duplicate check
    carry the same schedule id, as long as the filter has evicted nothing. *)
Theorem worker_at_most_once reads calls files c i j g h :
  rtc worker_step (idle_process reads calls files) c ->
  threads c !! i = Some g -> threads c !! j = Some h ->
  admitted (g_phase g) = true -> admitted (g_phase h) = true -> g_sid g = g_sid h -> i = j.
Proof. intros Hr. apply (sr_once c (single_reachable _ _ _ _ Hr)). Qed.

(** *** No final report is lost *)

(** The final report of a goroutine, once it has one, and once it has dealt with it. *)
Definition final_report (p : phase) : option TaskStatusReportRequest :=
  match p with
  | Ran r | Delivered r | Undelivered r | Settled r | Disarmed r | Finished r => Some r
  | _ => None
  end.

Definition settled_report (p : phase) : option TaskStatusReportRequest :=
  match p with Settled r | Disarmed r | Finished r => Some r | _ => None end.

Definition stored_as (s : WorkerState) (sid : string) (r : TaskStatusReportRequest) : Prop :=
  exists url at_, wk_files s !! sid = Some (Some (mkStored url r at_)).

(** Some goroutine of this schedule id has settled this report. *)
Definition settled_by (c : process) (sid : string) (r : TaskStatusReportRequest) : Prop :=
  exists id g, threads c !! id = Some g /\ g_sid g = sid /\ settled_report (g_phase g) = Some r.

(** No two goroutines past the duplicate check carry the same id, and none carries the id of
    a file that the process found when it started. *)
Record distinct_runs (old : gmap string (option StoredReport)) (c : process) : Prop := {
  dr_once : forall i j g h, threads c !! i = Some g -> threads c !! j = Some h ->
    admitted (g_phase g) = true -> admitted (g_phase h) = true -> g_sid g = g_sid h -> i = j;
  dr_new : forall i g, threads c !! i = Some g -> admitted (g_phase g) = true -> old !! g_sid g = None
}.

Lemma single_distinct c : single_runs c -> distinct_runs ∅ c.
Proof. intros [_ Honce]. by split. Qed.

(** Goroutines stay, keep their requests, and once past the check remain so. *)
Lemma step_threads c c' i g : any_step c c' -> threads c !! i = Some g ->
  exists h, threads c' !! i = Some h /\ g_sid h = g_sid g /\ (admitted (g_phase g) = true -> admitted (g_phase h) = true).
Proof.
  intros [[id req c1 Hn|id h c1 Hh|sid c1|sid kept c1 Hf|c1]|[ttl c1]] Hg; try (by exists g).
  - exists g. simpl. by rewrite lookup_insert_ne by congruence.
  - unfold advance. pose proof (run_step_dedup id (g_req h) (g_phase h) (shared c1)) as Hd.
    destruct (run_step _ _ _ _) as [p s]. simpl. destruct (decide (id = i)) as [->|]; [|exists g; by rewrite lookup_insert_ne].
    assert (h = g) as -> by congruence. eexists. split; [apply lookup_insert_eq|]. split; [done|]. simpl. intros Ha.
    destruct Hd as [[-> _]|[Hna _]]; congruence.
Qed.

Lemma distinct_before old c c' : any_step c c' -> distinct_runs old c' -> distinct_runs old c.
Proof.
  intros Hs [Honce Hnew]. split.
  - intros i j g h Hg Hh Ha Hb Heq. destruct (step_threads _ _ _ _ Hs Hg) as (g' & Hg' & Hsg & Hag).
    destruct (step_threads _ _ _ _ Hs Hh) as (h' & Hh' & Hsh & Hah). eapply Honce; [exact Hg'|exact Hh'|by auto..|congruence].
  - intros i g Hg Ha. destruct (step_threads _ _ _ _ Hs Hg) as (g' & Hg' & <- & Hag). eauto.
Qed.

(** Between two accesses of the flush loop: the file it is about is an old one or belongs
    to a settled run. *)
Definition flusher_ok (old : gmap string (option StoredReport)) (c : process) : Prop :=
  match flushing c with
  | FNext _ => True
  | FSend sid sr => is_Some (old !! sid) \/ settled_by c sid (sr_Report sr)
  | FDrop sid => is_Some (old !! sid) \/ exists r, settled_by c sid r /\ r ∈ wk_delivered (shared c)
  end.

Record reports_kept (old : gmap string (option StoredReport)) (c : process) : Prop := {
  rk_delivered : forall id g r, threads c !! id = Some g -> g_phase g = Delivered r -> r ∈ wk_delivered (shared c);
  rk_settled : forall id g r, threads c !! id = Some g -> settled_report (g_phase g) = Some r ->
    r ∈ wk_delivered (shared c) \/ stored_as (shared c) (g_sid g) r;
  rk_files : forall sid f, wk_files (shared c) !! sid = Some f ->
    is_Some (old !! sid) \/ exists sr, f = Some sr /\ settled_by c sid (sr_Report sr);
  rk_flusher : flusher_ok old c
}.

Lemma settled_admitted p r : settled_report p = Some r -> admitted p = true.
Proof. by destruct p. Qed.

Lemma settled_by_advance c id g p f s sid r : threads c !! id = Some g ->
  (forall r', settled_report (g_phase g) = Some r' -> settled_report p = Some r') ->
  settled_by c sid r -> settled_by (mkProcess (<[id := mkGoroutine (g_req g) p]> (threads c)) f s) sid r.
Proof.
  intros Hg Hmono (i & h & Hh & Hsid & Hr). destruct (decide (i = id)) as [->|Hne].
  - assert (h = g) as -> by congruence. exists id, (mkGoroutine (g_req g) p). simpl. rewrite lookup_insert_eq. eauto.
  - exists i, h. simpl. rewrite lookup_insert_ne by done. eauto.
Qed.

(** A goroutine's step keeps the reports when it settles its own and touches at most
    its own file. *)
Lemma kept_advance old c id g p s : threads c !! id = Some g -> distinct_runs old c -> reports_kept old c ->
  (forall r, settled_report (g_phase g) = Some r -> settled_report p = Some r) ->
  (forall r, r ∈ wk_delivered (shared c) -> r ∈ wk_delivered s) ->
  (forall sid f, wk_files s !! sid = Some f -> wk_files (shared c) !! sid = Some f \/
     (sid = g_sid g /\ exists sr, f = Some sr /\ settled_report p = Some (sr_Report sr))) ->
  (forall sid f, wk_files (shared c) !! sid = Some f -> wk_files s !! sid = Some f \/
     (sid = g_sid g /\ admitted (g_phase g) = true)) ->
  (forall r, p = Delivered r -> r ∈ wk_delivered s) ->
  (forall r, settled_report p = Some r -> r ∈ wk_delivered s \/ stored_as s (g_sid g) r) ->
  reports_kept old (mkProcess (<[id := mkGoroutine (g_req g) p]> (threads c)) (flushing c) s).
Proof.
  intros Hg Hone [Hdel Hset Hfiles Hflush] Hmono Hmore Hnew Hold Hown Hdone. split; simpl.
  - intros i h r. rewrite lookup_insert_Some. intros [[_ <-]|[_ Hh]]; simpl; eauto.
  - intros i h r. rewrite lookup_insert_Some. intros [[_ <-]|[Hi Hh]] Hr; [by apply Hdone|].
    destruct (Hset i h r Hh Hr) as [Hd|(url & at_ & Hf)]; [eauto|]. right. exists url, at_.
    destruct (Hold _ _ Hf) as [?|[Hsid Ha]]; [done|]. destruct Hi. symmetry.
    apply (dr_once old c Hone i id h g Hh Hg (settled_admitted _ _ Hr) Ha Hsid).
  - intros sid f Hf. destruct (Hnew _ _ Hf) as [Hf'|(-> & sr & -> & Hr)].
    + destruct (Hfiles _ _ Hf') as [?|(sr & -> & Hby)]; [by left|]. right. exists sr. split; [done|]. by apply settled_by_advance.
    + right. exists sr. split; [done|]. exists id, (mkGoroutine (g_req g) p). simpl. rewrite lookup_insert_eq. eauto.
  - unfold flusher_ok in *. simpl in *. destruct (flushing c) as [|sid sr|sid]; [done|destruct Hflush; [by left|right; by apply settled_by_advance]|].
    destruct Hflush as [?|(r & Hby & Hd)]; [by left|]. right. exists r. split; [by apply settled_by_advance|eauto].
Qed.

(** The final report says who ran what, and how it ended. *)
Definition report_of (g : goroutine) (r : TaskStatusReportRequest) : Prop :=
  rep_ScheduleInstanceID r = g_sid g /\ rep_WorkerID r = this_worker /\
  rep_Status r ∈ ["success"; "timeout"; "failed"].

Definition reports_right (c : process) : Prop :=
  forall id g r, threads c !! id = Some g -> final_report (g_phase g) = Some r -> report_of g r.

Lemma run_step_report id req p s : let '(p', _) := run_step id req p s in
  forall r, final_report p' = Some r -> final_report p = Some r \/ report_of (mkGoroutine req p') r.
Proof.
  destruct p as [| | | | | | |r|r|r|r|r|r]; cbn [run_step]; try (intros r'; simpl; by auto).
  - destruct (isDuplicate _ s) as [s' []]; by intros r'.
  - intros r' [= <-]. right. unfold report_of, outcome_report. destruct (execute_task _ _ _).2 as [e|].
    + destruct (errors_is e DeadlineExceeded); split_and!; [done|done|set_solver|done|done|set_solver].
    + split_and!; [done|done|set_solver].
  - destruct (try_report _ r s) as [s' []]; by auto.
Qed.

Lemma step_reports_right c c' : worker_step c c' -> reports_right c -> reports_right c'.
Proof.
  intros Hs Hi. destruct Hs as [id req c Hn|id g c Hg|sid c|sid kept c Hf|c]; [| |exact Hi..].
  - intros i h r. simpl. rewrite lookup_insert_Some. intros [[_ <-]|[_ Hh]]; [done|]. by apply (Hi i).
  - unfold advance. pose proof (run_step_report id (g_req g) (g_phase g) (shared c)) as Hstep.
    destruct (run_step id (g_req g) (g_phase g) (shared c)) as [p s].
    intros i h r. simpl. rewrite lookup_insert_Some. intros [[_ <-]|[_ Hh]] Hr; [|by apply (Hi i)].
    destruct (Hstep r Hr) as [Hold|?]; [|done]. apply (Hi id g r Hg Hold).
Qed.

(** With a local store on a disk that takes every write. *)
Section WorkingStore.
Hypothesis stored : has_store = true.
Hypothesis disk : forall n, write_file n = Written.

Lemma Buffer_written url r s : exists at_,
  wk_files (Buffer url r s) = <[rep_ScheduleInstanceID r := Some (mkStored url r at_)]> (wk_files s) /\
  wk_delivered (Buffer url r s) = wk_delivered s.
Proof. unfold Buffer. rewrite disk. eexists. done. Qed.

(** Steps that leave the files alone and settle nothing new. *)
Lemma kept_quiet old c id g p s : threads c !! id = Some g -> distinct_runs old c -> reports_kept old c ->
  settled_report p = settled_report (g_phase g) -> (forall r, p = Delivered r -> r ∈ wk_delivered s) ->
  wk_files s = wk_files (shared c) -> (forall r, r ∈ wk_delivered (shared c) -> r ∈ wk_delivered s) ->
  reports_kept old (mkProcess (<[id := mkGoroutine (g_req g) p]> (threads c)) (flushing c) s).
Proof.
  intros Hg Hone Hk Hp Hown Hfiles Hmore. apply kept_advance; try done.
  - congruence.
  - intros sid f. rewrite Hfiles. auto.
  - intros sid f. rewrite Hfiles. auto.
  - intros r Hr. rewrite Hp in Hr. destruct (rk_settled old c Hk id g r Hg Hr) as [?|(url & at_ & Hf)]; [eauto|].
    right. exists url, at_. by rewrite Hfiles.
Qed.

Lemma advance_kept old id g c : threads c !! id = Some g -> distinct_runs old c -> reports_right c -> reports_kept old c ->
  reports_kept old (advance id g c).
Proof.
  intros Hg Hone Hright Hk. unfold advance. destruct g as [req p]. simpl.
  destruct p as [| | | | | | |r|r|r|r|r|r]; cbn [run_step];
    try (apply (kept_quiet old c id _ _ _ Hg); [done..|by auto]).
  - unfold isDuplicate. destruct (wk_dedup (shared c) !! _); apply (kept_quiet old c id _ _ _ Hg); by auto.
  - pose proof (try_report_frame (req_SchedulerURL req) (running_report req) (shared c)) as (_ & _ & _ & Hf & Hd).
    apply (kept_quiet old c id _ _ _ Hg); [done..|]. rewrite Hd. set_solver.
  - pose proof (try_report_frame (req_SchedulerURL req) r (shared c)) as (_ & _ & _ & Hf & Hd).
    destruct (try_report (req_SchedulerURL req) r (shared c)) as [s' []]; simpl in *;
      apply (kept_quiet old c id _ _ _ Hg); try done; rewrite Hd; set_solver.
  - rewrite stored. pose proof (rk_delivered old c Hk id _ r Hg eq_refl) as Hd.
    apply (kept_advance old c id _ _ _ Hg); try done.
    + intros sid f. simpl. rewrite lookup_delete_Some. intros [_ ?]. by left.
    + intros sid f Hf. simpl. rewrite lookup_delete_Some. destruct (decide (req_ScheduleInstanceID req = sid)); auto.
    + intros r' [= <-]. by left.
  - rewrite stored. destruct (Buffer_written (req_SchedulerURL req) r (shared c)) as (at_ & Hf & Hd).
    destruct (Hright id _ r Hg eq_refl) as [Hsid _]. rewrite Hsid in Hf.
    apply (kept_advance old c id _ _ _ Hg); try done.
    + by rewrite Hd.
    + intros sid f. rewrite Hf, lookup_insert_Some. intros [[<- <-]|[_ ?]]; [right; eauto|by left].
    + intros sid f Hold. rewrite Hf, lookup_insert_Some. destruct (decide (g_sid (mkGoroutine req (Undelivered r)) = sid)); auto.
    + intros r' [= <-]. right. exists (req_SchedulerURL req), at_. rewrite Hf. apply lookup_insert_eq.
Qed.

(** Steps of the flush loop, and those that leave files and deliveries alone. *)
Lemma kept_flush old c f s : reports_kept old c -> distinct_runs old c -> flusher_ok old (mkProcess (threads c) f s) ->
  (forall r, r ∈ wk_delivered (shared c) -> r ∈ wk_delivered s) ->
  (forall sid v, wk_files s !! sid = Some v -> wk_files (shared c) !! sid = Some v) ->
  (forall sid r, stored_as (shared c) sid r -> settled_by c sid r -> stored_as s sid r \/ r ∈ wk_delivered s) ->
  reports_kept old (mkProcess (threads c) f s).
Proof.
  intros [Hdel Hset Hfiles _] Hone Hok Hmore Hnew Hold. split; simpl; [eauto| |eauto|done].
  intros i h r Hh Hr. destruct (Hset i h r Hh Hr) as [?|Hst]; [eauto|].
  destruct (Hold _ _ Hst) as [?|?]; [by exists i, h|by right|by left].
Qed.

Lemma settled_unique old c sid r r' : distinct_runs old c -> settled_by c sid r -> settled_by c sid r' -> r = r'.
Proof.
  intros Hone (i & g & Hg & Hs & Hr) (j & h & Hh & Hs' & Hr').
  assert (i = j) as -> by (eapply (dr_once old c Hone); try eassumption; [by eapply settled_admitted..|congruence]).
  congruence.
Qed.

Lemma open_kept old sid c : distinct_runs old c -> reports_kept old c ->
  reports_kept old (mkProcess (threads c) (flush_open sid (shared c)).1 (flush_open sid (shared c)).2).
Proof.
  intros Hone Hk. pose proof (flush_open_frame sid (shared c)) as (_ & Hf & Hd).
  apply kept_flush; try done; [|by rewrite Hd|by rewrite Hf|].
  - unfold flusher_ok, flush_open. destruct (read_file _); [|done].
    destruct (wk_files (shared c) !! sid) as [f|] eqn:E; [|done].
    destruct (rk_files old c Hk _ _ E) as [?|(sr & -> & Hby)]; [by destruct f; left|by right].
  - intros sid' r (url & at_ & Hs) _. left. exists url, at_. by rewrite Hf.
Qed.

Lemma flush_kept old c : distinct_runs old c -> reports_kept old c ->
  reports_kept old (mkProcess (threads c) (flush_step (flushing c) (shared c)).1 (flush_step (flushing c) (shared c)).2).
Proof.
  intros Hone Hk. pose proof (rk_flusher old c Hk) as Hfl. unfold flusher_ok in Hfl.
  destruct (flushing c) as [kept|sid sr|sid]; simpl.
  - apply kept_flush; try done. intros sid r ? _. by left.
  - pose proof (try_report_frame (sr_SchedulerURL sr) (sr_Report sr) (shared c)) as (_ & _ & _ & Hf & Hd).
    destruct (try_report (sr_SchedulerURL sr) (sr_Report sr) (shared c)) as [s' ok]. simpl in *.
    apply kept_flush; try done.
    + unfold flusher_ok. destruct ok; [|done]. simpl. destruct Hfl as [?|?]; [by left|]. right. exists (sr_Report sr). split; [done|]. rewrite Hd. set_solver.
    + rewrite Hd. set_solver.
    + by rewrite Hf.
    + intros sid' r (url & at_ & Hs) _. left. exists url, at_. by rewrite Hf.
  - apply kept_flush; try done.
    + intros sid' v. simpl. rewrite lookup_delete_Some. by intros [_ ?].
    + intros sid' r' (url & at_ & Hs) Hby'. destruct (decide (sid = sid')) as [->|Hne].
      * destruct Hfl as [Hold|(r & Hby & Hd)].
        { destruct Hby' as (i & g & Hg & <- & Hr'). rewrite (dr_new old c Hone i g Hg (settled_admitted _ _ Hr')) in Hold. by destruct Hold. }
        right. by rewrite (settled_unique old c sid' r' r Hone Hby' Hby).
      * left. exists url, at_. simpl. by rewrite lookup_delete_ne.
Qed.

Lemma step_kept old c c' : any_step c c' -> distinct_runs old c -> reports_right c -> reports_kept old c -> reports_kept old c'.
Proof.
  intros Hs Hone Hright Hk. destruct Hs as [Hs|Hs]; [destruct Hs as [id req c Hn|id g c Hg|sid c|sid kept c Hf|c]|destruct Hs as [ttl c]].
  - destruct Hk as [Hdel Hset Hfiles Hflush].
    assert (forall sid r, settled_by c sid r ->
      settled_by (mkProcess (<[id := mkGoroutine req Spawned]> (threads c)) (flushing c) (shared c)) sid r) as Hmono.
    { intros sid r (i & h & Hh & Hr). exists i, h. simpl. rewrite lookup_insert_ne by congruence. done. }
    split; simpl.
    + intros i h r. rewrite lookup_insert_Some. intros [[_ <-]|[_ Hh]]; [done|eauto].
    + intros i h r. rewrite lookup_insert_Some. intros [[_ <-]|[_ Hh]]; [done|eauto].
    + intros sid f Hf. destruct (Hfiles sid f Hf) as [?|(sr & -> & ?)]; [by left|right; eauto].
    + unfold flusher_ok in *. simpl. destruct (flushing c); naive_solver.
  - by apply advance_kept.
  - pose proof (Cancel_frame sid (shared c)) as (_ & Hf & Hd).
    apply kept_flush; try done; [|by rewrite Hd|by rewrite Hf|].
    + pose proof (rk_flusher old c Hk) as Hfl. unfold flusher_ok in *. simpl. rewrite Hd. exact Hfl.
    + intros sid' r (url & at_ & Hst) _. left. exists url, at_. by rewrite Hf.
  - by apply open_kept.
  - by apply flush_kept.
  - apply kept_flush; try done; [exact (rk_flusher old c Hk)|]. intros sid r ? _. by left.
Qed.

(** C13. No result is lost. The process has a local store on a disk that takes its writes; it
    starts with the files its predecessor left, and requests, goroutines, cancellations,
    the flush loop and the eviction of the duplicate filter are interleaved in any way, over
    any network. Provided that no id passed the duplicate check twice and none of them is
    the id of one of those old files, the final report of a run that is over names its
    schedule id and this worker, has one of the statuses success, timeout and failed, and
    either the scheduler has taken it or the store holds it. That no id passes twice is C19
    while the filter evicts nothing, and otherwise up to the senders: the filter remembers
    an id for its TTL only ([eviction_readmits]). *)
Theorem worker_keeps_reports reads calls old c id g r :
  rtc any_step (idle_process reads calls old) c -> distinct_runs old c ->
  threads c !! id = Some g -> settled_report (g_phase g) = Some r ->
  report_of g r /\ (r ∈ wk_delivered (shared c) \/ stored_as (shared c) (g_sid g) r).
Proof.
  intros Hr Hone Hg Hset. assert (distinct_runs old c -> reports_right c /\ reports_kept old c) as Hinv.
  { clear Hone Hg Hset. refine (rtc_ind_r (fun c => distinct_runs old c -> reports_right c /\ reports_kept old c) _ _ _ c Hr).
    - intros _. split; [|split]; try done; intros *; simpl; [rewrite lookup_empty; done..|]. intros Hf. by left.
    - intros c1 c2 _ Hs IH Hone. pose proof (distinct_before _ _ _ Hs Hone) as Hone1. destruct (IH Hone1) as [H2' H3'].
      split; [|by eapply step_kept]. destruct Hs as [Hs|Hs]; [by eapply step_reports_right|destruct Hs; exact H2']. }
  destruct (Hinv Hone) as [Hright Hk].
  split; [|by apply (rk_settled old c Hk id)]. apply (Hright id); [done|]. by destruct (g_phase g).
Qed.
End WorkingStore.

(** *** One flush *)

Lemma flush_one_spec sid s : let '(s', kept) := flush_one sid s in
  wk_files s' = (if kept then wk_files s else delete sid (wk_files s)) /\
  (forall r, r ∈ wk_delivered s -> r ∈ wk_delivered s') /\
  (kept = false -> forall sr, wk_files s !! sid = Some (Some sr) -> sr_Report sr ∈ wk_delivered s').
Proof.
  unfold flush_one, flush_open. destruct (read_file _); [|by split_and!].
  destruct (wk_files s !! sid) as [[sr|]|] eqn:Hf; simpl; [|by split_and!..].
  pose proof (try_report_frame (sr_SchedulerURL sr) (sr_Report sr) (set_wk_calls (S (wk_calls s)) s)) as (_ & _ & _ & Hf' & Hd).
  destruct (try_report _ _ _) as [s' []]; simpl in *; rewrite Hf', Hd.
  - split_and!; [done|set_solver|]. intros _ sr' [= <-]. set_solver.
  - by split_and!.
Qed.

Lemma flush_all_spec sids s : NoDup sids -> (forall sid, sid ∈ sids -> is_Some (wk_files s !! sid)) ->
  let '(s', n) := flush_all sids s in
  n = Z.of_nat (length (filter (fun sid => is_Some (wk_files s' !! sid)) sids)) /\
  (forall sid, sid ∉ sids -> wk_files s' !! sid = wk_files s !! sid) /\
  (forall r, r ∈ wk_delivered s -> r ∈ wk_delivered s') /\
  (forall sid, sid ∈ sids -> wk_files s' !! sid = wk_files s !! sid \/
     (wk_files s' !! sid = None /\ forall sr, wk_files s !! sid = Some (Some sr) -> sr_Report sr ∈ wk_delivered s')).
Proof.
  revert s. induction sids as [|sid rest IH]; intros s Hnd Hall; simpl; [split_and!; [done..|set_solver]|].
  apply NoDup_cons in Hnd as [Hin Hnd]. pose proof (flush_one_spec sid s) as Hone.
  destruct (flush_one sid s) as [s1 kept]. destruct Hone as (Hf & Hm & Hg).
  assert (forall x, x <> sid -> wk_files s1 !! x = wk_files s !! x) as Hother.
  { intros x Hx. rewrite Hf. destruct kept; [done|]. by rewrite lookup_delete_ne. }
  specialize (IH s1 Hnd). destruct (flush_all rest s1) as [s2 n].
  destruct IH as (Hn & Hout & Hm2 & Hrest).
  { intros x Hx. rewrite Hother by set_solver. apply Hall. set_solver. }
  pose proof (Hout sid Hin) as Hsid. split_and!.
  - rewrite filter_cons, Hsid, Hf. destruct kept.
    + rewrite decide_True by (apply Hall; set_solver). simpl. lia.
    + rewrite lookup_delete_eq. rewrite decide_False by (by intros [? ?]). done.
  - intros x Hx. rewrite Hout by set_solver. apply Hother. set_solver.
  - eauto.
  - intros x Hx. destruct (decide (x = sid)) as [->|Hne].
    + rewrite Hsid, Hf. destruct kept; [by left|]. right. rewrite lookup_delete_eq. split; [done|]. eauto.
    + rewrite <- Hother by done. apply Hrest. set_solver.
Qed.

Lemma elem_of_dir_entries s sid : sid ∈ dir_entries s <-> is_Some (wk_files s !! sid).
Proof.
  unfold dir_entries. rewrite merge_sort_Permutation, list_elem_of_fmap. split.
  - intros ([x f] & -> & Hin). apply elem_of_map_to_list in Hin. eauto.
  - intros [f Hf]. exists (sid, f). split; [done|]. by apply elem_of_map_to_list.
Qed.

Lemma NoDup_dir_entries s : NoDup (dir_entries s).
Proof. unfold dir_entries. rewrite merge_sort_Permutation. apply NoDup_fst_map_to_list. Qed.

(** A flush loses nothing and counts what is left: when the directory can be read,
    [Flush] returns the number of files still stored, every file still stored is as
    it was, and every stored report that is gone was taken by the scheduler. *)
Theorem Flush_accounts s : read_dir (wk_calls s) = true ->
  let '(s', n) := Flush s in
  n = PendingCount s' /\
  (forall sid f, wk_files s' !! sid = Some f -> wk_files s !! sid = Some f) /\
  (forall sid sr, wk_files s !! sid = Some (Some sr) ->
     wk_files s' !! sid = Some (Some sr) \/ sr_Report sr ∈ wk_delivered s').
Proof.
  intros Hdir. unfold Flush. rewrite Hdir.
  pose proof (flush_all_spec (dir_entries s) (set_wk_calls (S (wk_calls s)) s) (NoDup_dir_entries s)
    (fun sid => proj1 (elem_of_dir_entries s sid))) as Hall.
  destruct (flush_all _ _) as [s' n]. simpl in Hall. destruct Hall as (-> & Hout & _ & Hin).
  assert (forall sid f, wk_files s' !! sid = Some f -> wk_files s !! sid = Some f) as Hsub.
  { intros sid f Hf. destruct (decide (sid ∈ dir_entries s)) as [Hd|Hd].
    - destruct (Hin sid Hd) as [<-|[Hn _]]; [done|congruence].
    - by rewrite <- Hout. }
  split_and!; [|done|].
  - unfold PendingCount. f_equal. apply Permutation_length, NoDup_Permutation.
    + apply NoDup_filter, NoDup_dir_entries.
    + apply NoDup_dir_entries.
    + intros sid. rewrite list_elem_of_filter, !elem_of_dir_entries. split; [by intros [? _]|].
      intros [f Hf]. split; eauto.
  - intros sid sr Hf. destruct (Hin sid) as [Heq|[_ Hd]]; [apply elem_of_dir_entries; eauto| |eauto].
    left. congruence.
Qed.
End ProcessProperties.

(** ** Concrete runs *)

(** A machine whose clock advances a minute per reading, whose commands succeed and
    whose network refuses the first [refused] calls. *)
Definition machine (refused : nat) : Machine := {|
  now_at := fun n => Z.of_nat n * Minute;
  run_bash := fun _ _ _ _ payload => ("ran " +:+ payload, None);
  run_docker := fun _ _ _ => ("", None);
  new_get := fun _ => None;
  do_get := fun _ _ _ _ => Ok (200, "200 OK", "");
  mkdir_temp := fun _ => Ok "/tmp/task-sandbox-1";
  path_env := "/usr/bin";
  post_url := fun _ => None;
  do_post := fun n _ _ => if (n <? refused)%nat then Err (Sentinel "connection refused") else Ok (200, "200 OK");
  grpc_ready := false;
  grpc_report := fun _ _ => Ok true;
  write_file := fun _ => Written;
  read_dir := fun _ => true;
  read_file := fun _ => true;
  sandboxDir := "";
  has_store := true;
  report_protocol := "http";
  this_worker := "w1" |}.

Definition shell_request (sid : string) : ExecuteTaskRequest :=
  {| req_ScheduleInstanceID := sid; req_TaskID := 1; req_TaskType := "shell"; req_Payload := "date"; req_Image := "";
     req_TimeoutSeconds := 600; req_RetryCount := 0; req_ShardNo := 0; req_ShardTotal := 1; req_IdempotencyKey := "";
     req_SchedulerURL := "http://scheduler" |}.

Section Runs.
Context `{Machine} `{MapRange}.

(** What one scheduled action does, when it is possible. *)
Inductive action := ASpawn (id : nat) (req : ExecuteTaskRequest) | ARun (id : nat) | AEvict (ttl : Duration).

Definition act (a : action) (c : process) : process :=
  match a with
  | ASpawn id req =>
      match threads c !! id with
      | None => mkProcess (<[id := mkGoroutine req Spawned]> (threads c)) (flushing c) (shared c)
      | Some _ => c
      end
  | ARun id => match threads c !! id with Some g => advance id g c | None => c end
  | AEvict ttl => mkProcess (threads c) (flushing c) (evict ttl (shared c))
  end.

Definition acts (l : list action) (c : process) : process := fold_left (fun c a => act a c) l c.

Definition is_evict (a : action) : bool := match a with AEvict _ => true | _ => false end.

Lemma acts_steps l c : forallb (fun a => negb (is_evict a)) l = true -> rtc worker_step c (acts l c).
Proof.
  revert c. induction l as [|a l IH]; intros c; [by constructor|]. simpl. intros [Ha Hl]%andb_true_iff.
  transitivity (act a c); [|by apply IH]. destruct a as [id req|id|]; [| |done]; simpl.
  - destruct (threads c !! id) eqn:E; [done|]. by apply rtc_once, WSpawn.
  - destruct (threads c !! id) as [g|] eqn:E; [|done]. by apply rtc_once, WRun.
Qed.

Lemma acts_any l c : rtc any_step c (acts l c).
Proof.
  revert c. induction l as [|a l IH]; intros c; [by constructor|]. simpl.
  transitivity (act a c); [|by apply IH]. destruct a as [id req|id|ttl]; simpl.
  - destruct (threads c !! id) eqn:E; [done|]. apply rtc_once. left. by apply WSpawn.
  - destruct (threads c !! id) as [g|] eqn:E; [|done]. apply rtc_once. left. by apply WRun.
  - apply rtc_once. right. constructor.
Qed.

(** The duplicate filter forgets ids that are still running: whenever an id was
    seen longer ago than the eviction's TTL, one eviction round and a repeated
    request lead to a second goroutine past the duplicate check with the schedule id
    of one that has not ended. *)
Theorem eviction_readmits c id g id' ttl seen :
  threads c !! id = Some g -> threads c !! id' = None -> 0 < ttl ->
  wk_dedup (shared c) !! g_sid g = Some seen ->
  Before seen (now_at (wk_reads (shared c)) - ttl) = true ->
  exists c' h, rtc any_step c c' /\ threads c' !! id = Some g /\ threads c' !! id' = Some h /\
    g_sid h = g_sid g /\ g_phase h = Accepted.
Proof.
  intros Hg Hn Httl Hd Hold. exists (acts [AEvict ttl; ASpawn id' (g_req g); ARun id'] c), (mkGoroutine (g_req g) Accepted).
  split; [apply acts_any|]. assert (id <> id') as Hne by congruence.
  assert (wk_dedup (evict ttl (shared c)) !! g_sid g = None) as Hgone.
  { unfold evict. destruct (Z.leb_spec ttl 0); [lia|]. simpl. apply map_lookup_filter_None_2. right. intros t Ht. simpl. congruence. }
  simpl. rewrite Hn. simpl. rewrite lookup_insert_eq. unfold advance. cbn [g_req g_phase run_step shared].
  unfold isDuplicate. unfold g_sid in Hgone. rewrite Hgone. simpl.
  rewrite lookup_insert_eq, !lookup_insert_ne by done. done.
Qed.
End Runs.

Definition until_armed (id : nat) : list action := replicate 5 (ARun id).

Definition until_finished (id : nat) : list action := replicate 10 (ARun id).

(** Two goroutines for one id, interleaved: the second is turned away. *)
Definition two_requests : process :=
  @acts (machine 0) canonical_range [ASpawn 0 (shell_request "s1"); ARun 0; ASpawn 1 (shell_request "s1"); ARun 1; ARun 0]
    (idle_process 0 0 ∅).

Lemma running_count_witness : RunningTasks (shared two_requests) = 1.
Proof.
  etransitivity; [apply (@running_count (machine 0) canonical_range 0 0 ∅ two_requests)|vm_compute; reflexivity].
  apply acts_any.
Defined.

Lemma worker_at_most_once_witness :
  threads two_requests !! 0%nat = Some (mkGoroutine (shell_request "s1") Counted) /\
  (forall j h, threads two_requests !! j = Some h -> admitted (g_phase h) = true -> g_sid h = "s1" -> j = 0%nat).
Proof.
  split; [vm_compute; reflexivity|]. intros j h Hh Ha Hs.
  apply (@worker_at_most_once (machine 0) canonical_range 0 0 ∅ two_requests j 0 h
    (mkGoroutine (shell_request "s1") Counted)); [|done|vm_compute; reflexivity|done|reflexivity|done].
  apply acts_steps. reflexivity.
Defined.

(** A scheduler that cannot be reached during the whole run. *)
Definition offline_run : process :=
  @acts (machine 100) canonical_range (ASpawn 0 (shell_request "s1") :: until_finished 0) (idle_process 0 0 ∅).

Definition offline_report : TaskStatusReportRequest :=
  mkReport "s1" "w1" "success" "" "ran date" "1970-01-01T00:01:00Z" "1970-01-01T00:02:00Z".

(** The same on a worker that finds a file of another run, and whose filter forgets the id
    while it runs. *)
Definition old_file : gmap string (option StoredReport) := {["s0" := None]}.

Definition evicted_run : process :=
  @acts (machine 100) canonical_range
    (ASpawn 0 (shell_request "s1") :: until_armed 0 ++ replicate 7 (AEvict (5 * Minute)) ++ until_finished 0) (idle_process 0 0 old_file).

Definition evicted_report : TaskStatusReportRequest :=
  mkReport "s1" "w1" "success" "" "ran date" "1970-01-01T00:08:00Z" "1970-01-01T00:09:00Z".

Lemma evicted_distinct : @distinct_runs old_file evicted_run.
Proof.
  assert (threads evicted_run = {[0%nat := mkGoroutine (shell_request "s1") (Finished evicted_report)]}) as E by (vm_compute; reflexivity).
  split; rewrite E.
  - intros i j g h [<- _]%lookup_singleton_Some [<- _]%lookup_singleton_Some. done.
  - intros i g [_ <-]%lookup_singleton_Some _. vm_compute. reflexivity.
Qed.

Lemma worker_keeps_reports_witness : let _ := machine 100 in
  wk_dedup (shared evicted_run) = ∅ /\
  report_of (mkGoroutine (shell_request "s1") (Finished evicted_report)) evicted_report /\
  (evicted_report ∈ wk_delivered (shared evicted_run) \/ stored_as (shared evicted_run) "s1" evicted_report).
Proof.
  split; [vm_compute; reflexivity|].
  apply (@worker_keeps_reports (machine 100) canonical_range eq_refl (fun _ => eq_refl) 0 0 old_file evicted_run 0
    (mkGoroutine (shell_request "s1") (Finished evicted_report))); [|exact evicted_distinct|vm_compute; reflexivity..].
  apply acts_any.
Defined.

Lemma Flush_accounts_witness : let s := shared offline_run in
  (@Flush (machine 0) s).2 = PendingCount (@Flush (machine 0) s).1 /\ PendingCount s = 1.
Proof.
  split; [|vm_compute; reflexivity].
  pose proof (@Flush_accounts (machine 0) (shared offline_run) eq_refl) as Hf.
  destruct (@Flush (machine 0) (shared offline_run)) as [s' n]. exact (proj1 Hf).
Defined.

(** A long task, with five rounds of the eviction loop at its TTL of five minutes. *)
Definition long_run : process :=
  @acts (machine 0) canonical_range (ASpawn 0 (shell_request "s1") :: until_armed 0 ++ replicate 5 (AEvict (5 * Minute)))
    (idle_process 0 0 ∅).

Lemma eviction_readmits_witness : exists c' h, rtc (@any_step (machine 0) canonical_range) long_run c' /\
  threads c' !! 0%nat = Some (mkGoroutine (shell_request "s1") Armed) /\ threads c' !! 1%nat = Some h /\
  g_sid h = "s1" /\ g_phase h = Accepted.
Proof.
  apply (@eviction_readmits (machine 0) canonical_range long_run 0 (mkGoroutine (shell_request "s1") Armed) 1 (5 * Minute) 0);
    vm_compute; reflexivity.
Defined.
