(* ===== verification/WorkerProcess.v ===== *)
(** The worker process (cmd/worker/main.go): what it starts and in which order, the loops
    of the local store and of the duplicate filter (worker/local_store.go,
    worker/handler.go), and the heartbeats it sends against the timeout of the scheduler's
    health checker. *)
From S2P Require Import Prelude Threads GoStd GoTime Ticker GoFormat Model Config Repo RateLimit TestStore World Sample Http Dispatch.
From S2P Require Import WorkerService Wire Worker.

(** ** The loops *)

Section Loops.
Context `{Machine} `{MapRange}.

(** The goroutines' shared state, and the heartbeats handed to the client so far. *)
Record WorkerProcess := mkWorkerProcess { wp_state : WorkerState; wp_sent : list WorkerHeartbeatRequest }.

Definition on_state (f : WorkerState -> WorkerState) (_ : Time) (s : WorkerProcess) : option WorkerProcess :=
  Some (mkWorkerProcess (f (wp_state s)) (wp_sent s)).

Definition StartFlushLoop (interval : Duration) : loop WorkerProcess :=
  mkLoop (or_interval interval (30 * Second)) false (on_state (fun s => (Flush s).1)).
Definition StartDedupEviction (ttl interval : Duration) : loop WorkerProcess :=
  mkLoop (or_interval interval (30 * Second)) false (on_state (evict ttl)).

(** The loop at the end of [main]: once at first, then at every tick. What becomes of a
    heartbeat is only logged. *)
Definition beat (id : string) (now : Time) (s : WorkerProcess) : option WorkerProcess :=
  Some (mkWorkerProcess (wp_state s) (wp_sent s ++ [worker_heartbeat id (RunningTasks (wp_state s)) now])).
Definition heartbeats (id : string) : loop WorkerProcess := mkLoop (10 * Second) true (beat id).

(** ** [main] *)

Inductive worker_action :=
| ServesHTTP (addr : string) | ServesGRPC (addr : string) | StartsLoop (l : loop WorkerProcess)
| Registers (req : WorkerRegistrationRequest) | Exits (code : Z).

(** As far as it gets with the host's name, the error of [net.Listen] and that of the
    registration, which is tried once. It takes tasks before it is registered. *)
Definition worker_main (env : string -> string) (hostname : res gerror string) (listen register : option gerror) : list worker_action :=
  let cfg := Default env "worker" in
  match hostname with
  | Err _ => [Exits 1]
  | Ok hostname =>
      ServesHTTP (HTTPAddr cfg) ::
      match listen with
      | Some _ => [Exits 1]
      | None =>
          [ServesGRPC (GRPCAddr cfg)] ++
          (if has_store then [StartsLoop (StartFlushLoop (30 * Second))] else []) ++
          [StartsLoop (StartDedupEviction (5 * Minute) (30 * Second)); Registers (worker_registration env hostname cfg)] ++
          match register with
          | Some _ => [Exits 1]
          | None => [StartsLoop (heartbeats (worker_id env hostname cfg))]
          end
      end
  end.

(** A worker that started sends heartbeats under the id it registered, and takes tasks at
    the addresses it registered, as long as the scheduler runs on the same host. *)
Theorem registers_what_it_serves env hostname listen register req : Registers req ∈ worker_main env hostname listen register ->
  exists cfg host, cfg = Default env "worker" /\ hostname = Ok host /\ reg_WorkerID req = worker_id env host cfg /\
    ServesHTTP (HTTPAddr cfg) ∈ worker_main env hostname listen register /\ ServesGRPC (GRPCAddr cfg) ∈ worker_main env hostname listen register /\
    reg_CallbackURL req = "http://127.0.0.1" +:+ HTTPAddr cfg /\ reg_GRPCAddr req = "127.0.0.1" +:+ GRPCAddr cfg /\
    (register = None -> StartsLoop (heartbeats (reg_WorkerID req)) ∈ worker_main env hostname listen register) /\
    (is_Some register -> Exits 1 ∈ worker_main env hostname listen register).
Proof.
  unfold worker_main. set (cfg := Default env "worker"). destruct hostname as [host|e]; [|set_solver].
  destruct listen as [e|]; [set_solver|].
  intros Hr. assert (req = worker_registration env host cfg) as ->.
  { destruct has_store, register; repeat (apply elem_of_cons in Hr as [Hr|Hr]; [by simplify_eq|]); by apply elem_of_nil in Hr. }
  exists cfg, host. destruct has_store, register as [e|]; split_and!; try done; try (by intros [? [=]]); try (intros ?); set_solver.
Qed.

(** ** The heartbeats *)

(** One of those sent by now is within the timeout. *)
Lemma heartbeats_recent id (s0 : WorkerProcess) began (visits : list (WorkerProcess * Time)) skew t reading :
  one_each began (10 * Second) 1 visits.*2 -> began <= t < began + (1 + Z.of_nat (length visits)) * (10 * Second) ->
  reading <= t + skew -> skew <= 10 * Second - Millisecond ->
  exists s, s ∈ (s0, began) :: visits /\ s.2 <= t /\
    reading - 30 * Second <= UnixMilli (hb_ReportUnixMilli (worker_heartbeat id (RunningTasks (wp_state s.1)) s.2)).
Proof.
  intros Ho Ht Hr Hskew.
  destruct (one_each_recent began (10 * Second) 1 visits.*2 began t) as (t' & Hin & Hrec); [done|done|done|unfold Second; lia|by rewrite length_fmap|].
  assert (exists s, s ∈ (s0, began) :: visits /\ s.2 = t') as (s & Hs & <-).
  { apply elem_of_cons in Hin as [->|Hin]; [exists (s0, began); split; [by left|done]|].
    apply list_elem_of_fmap in Hin as (s & -> & Hs). exists s. split; [by right|done]. }
  exists s. split; [done|]. split; [lia|]. cbn [worker_heartbeat hb_ReportUnixMilli]. unfold UnixMilli.
  pose proof (Z.mul_succ_div_gt s.2 Millisecond ltac:(done)). unfold Second, Millisecond in *. lia.
Qed.

(** A worker that gets back to its ticker in every interval is never taken for dead: it
    sends a heartbeat each time, and whenever the health checker looks, with a clock at
    most [skew] ahead of the worker's, one of those sent by then is within the timeout of
    the scheduler, 30 seconds, if [skew] is less than 10 seconds. *)
Theorem heartbeats_in_time id s0 began visits skew t reading :
  one_each began (10 * Second) 1 visits.*2 -> began <= t < began + (1 + Z.of_nat (length visits)) * (10 * Second) ->
  reading <= t + skew -> skew <= 10 * Second - Millisecond ->
  lp_body (heartbeats id) began s0 = Some (loop_step (heartbeats id, Begins) (s0, began)).1.1 /\
  runs_each (loop_step (heartbeats id, Begins) (s0, began)).2 visits /\
  exists s, s ∈ (s0, began) :: visits /\ s.2 <= t /\
    reading - 30 * Second <= UnixMilli (hb_ReportUnixMilli (worker_heartbeat id (RunningTasks (wp_state s.1)) s.2)).
Proof.
  intros Ho Ht Hr Hskew. split; [done|]. split; [|by apply (heartbeats_recent id s0 began visits skew t)].
  apply loop_keeps_up; [done|by eexists|done].
Qed.

(** Workers on different hosts that have the same settings register one address, the
    scheduler's own host: their tasks go there. *)
Lemma hosts_share_address env host host' :
  reg_CallbackURL (worker_registration env host (Default env "worker")) = reg_CallbackURL (worker_registration env host' (Default env "worker")) /\
  reg_GRPCAddr (worker_registration env host (Default env "worker")) = reg_GRPCAddr (worker_registration env host' (Default env "worker")).
Proof. done. Qed.
End Loops.

(** A worker whose first heartbeat is sent at 0 and the next two late in their intervals:
    it has sent three, dated by its clock. *)
Example three_heartbeats : forall (s : WorkerProcess),
  let g := (loop_step (heartbeats "a", Begins) (s, 0)).2 in
  runs_each g [(s, 19 * Second); (s, 29 * Second)] /\
  wp_sent (loop_step (looks g [(s, 19 * Second)]) (s, 29 * Second)).1.1 = wp_sent s ++ [worker_heartbeat "a" (RunningTasks (wp_state s)) (29 * Second)].
Proof. intros s. repeat split. Qed.
