(* ===== verification/EndToEnd.v ===== *)
(** One run from end to end: the trigger loop of the scheduler, the worker process on the
    other side of the dispatch, and the scheduler's handling of the reports, composed. *)
From S2P Require Import Prelude GoStd GoTime GoFormat Model Repo RateLimit TestStore World Sample Http Dispatch Router.
From S2P Require Import Lifecycle Balance Runtime Trigger Worker.

(** ** A goroutine of the worker that is left alone *)

(** A worker on which this request succeeds and whose reports arrive. *)
Class Works `{Machine} `{MapRange} (req : ExecuteTaskRequest) : Prop := {
  task_succeeds n ctx : (execute_task n ctx req).2 = None;
  reports_arrive n url r : Report n url r = None
}.

(** What a worker makes of a message: the request whose goroutine it starts. *)
Definition request_of (m : Message) : option ExecuteTaskRequest :=
  match m with
  | HttpExecute _ body => (handle_Execute "POST" (Some body)).2
  | GrpcExecute _ body => Some (grpc_ExecuteTask body)
  | HttpCancel _ _ | GrpcCancel _ _ => None
  end.

Lemma request_of_task worker req : exists req', request_of (task_message worker req) = Some req' /\
  req_ScheduleInstanceID req' = req_ScheduleInstanceID req /\
  (req_TaskID req', req_TaskType req', req_Payload req', req_Image req') = (req_TaskID req, req_TaskType req, req_Payload req, req_Image req).
Proof. unfold task_message. case_match; by eexists. Qed.

Section Alone.
Context `{Machine} `{MapRange} (req : ExecuteTaskRequest) `{!Works req}.

Lemma try_report_ok url r s : try_report url r s = (note_delivered r (set_wk_calls (S (wk_calls s)) s), true).
Proof. unfold try_report. by rewrite (reports_arrive (req := req)). Qed.

(** One step of the goroutine [gid], and nothing else. *)
Lemma step_alone gid p s p' s' ts f :
  run_step gid req p s = (p', s') ->
  worker_step (mkProcess (<[gid := mkGoroutine req p]> ts) f s) (mkProcess (<[gid := mkGoroutine req p']> ts) f s').
Proof.
  intros E. eassert (mkProcess (<[gid := mkGoroutine req p']> ts) f s' = advance gid (mkGoroutine req p) _) as ->;
    [|apply WRun; simpl; apply lookup_insert_eq].
  unfold advance. simpl. rewrite E. by rewrite insert_insert_eq.
Qed.

(** A request whose id is new runs to its end: it is reported as running and then as a
    success with its times, and the counters are as before. *)
Lemma runs_alone gid c : threads c !! gid = None -> wk_dedup (shared c) !! req_ScheduleInstanceID req = None ->
  exists c' r, rtc worker_step c c' /\ threads c' !! gid = Some (mkGoroutine req (Finished r)) /\
    wk_delivered (shared c') = r :: running_report req :: wk_delivered (shared c) /\
    wk_running (shared c') = wk_running (shared c) /\
    rep_Status r = "success" /\ rep_ScheduleInstanceID r = req_ScheduleInstanceID req /\ rep_WorkerID r = this_worker.
Proof.
  intros Hc Hd. destruct c as [ts f s]. cbn [threads shared] in *.
  eexists (mkProcess (<[gid := mkGoroutine req (Finished _)]> ts) f _), _. split.
  - eapply rtc_l; [apply (WSpawn gid req (mkProcess ts f s) Hc)|]. cbn [threads flushing shared].
    eapply rtc_l; [eapply step_alone; cbn [run_step]; unfold isDuplicate; rewrite Hd; reflexivity|].
    eapply rtc_l; [eapply step_alone; reflexivity|].
    eapply rtc_l; [eapply step_alone; reflexivity|].
    eapply rtc_l; [eapply step_alone; cbn [run_step]; rewrite try_report_ok; reflexivity|].
    eapply rtc_l; [eapply step_alone; reflexivity|].
    eapply rtc_l; [eapply step_alone; reflexivity|].
    eapply rtc_l; [eapply step_alone; cbn [run_step]; rewrite try_report_ok; reflexivity|].
    eapply rtc_l; [eapply step_alone; reflexivity|].
    eapply rtc_l; [eapply step_alone; reflexivity|].
    eapply rtc_l; [eapply step_alone; reflexivity|]. apply rtc_refl.
  - cbn [threads shared]. rewrite lookup_insert_eq. split; [done|].
    match goal with |- context [outcome_report req (execute_task ?n ?ctx req)] =>
      assert (exists m, outcome_report req (execute_task n ctx req) = mkReport (req_ScheduleInstanceID req) this_worker "success" "" m "" "") as [m Hm]
        by (unfold outcome_report; rewrite task_succeeds; by eexists) end.
    rewrite Hm. destruct has_store; cbn; split_and!; (done || lia).
Qed.
End Alone.

(** ** From the due task to the freed slot *)

Section Run.
Context `{BackendSpec} `{Env} `{!BackendReliable}.

Abbreviation insts w := (insts_of (w_instances w)).
Abbreviation tasks w := (tasks_of (w_tasks w)).
Abbreviation load wid w := (worker_CurrentLoad <$> workers_of (w_workers w) !! wid).

(** The slot that was reserved is the one that is released. *)
Lemma slot_returns opts worker w w1 w2 : loads_ok w -> reserved opts worker w w1 ->
  (forall wid, load wid w2 = if bool_decide (wid = worker_ID worker /\ wid <> "") then released <$> load wid w1 else load wid w1) ->
  forall wid, wid <> "" -> load wid w2 = load wid w.
Proof.
  intros Hl (old & now & Ho & [[_ Hroom] _] & Hw & Hm) Hback wid Hwid. rewrite Hback, Hm. destruct (decide (wid = worker_ID worker)) as [->|Hne].
  - rewrite bool_decide_true by done. rewrite lookup_insert_eq, Ho. simpl.
    assert (worker_CurrentLoad (stamped now worker) = worker_CurrentLoad worker) as -> by (unfold stamped; by case_match).
    destruct (Hl _ _ Ho) as [Hpos Hmax]. rewrite Hw. simpl. rewrite wrap64_id by (unfold int64 in *; lia).
    unfold released. destruct (Z.ltb_spec 0 (worker_CurrentLoad old + 1)); [f_equal; lia|lia].
  - rewrite bool_decide_false by tauto. by rewrite lookup_insert_ne.
Qed.

(** C1. One run from end to end. The task is due, has no upstream tasks, no shards (at most
    one) and a next trigger time at every reading of the clock; the repositories do not
    fail; a worker is eligible; the rate limiter has a token left and the network takes
    what it lets through; on the worker the task succeeds and its reports arrive
    ([Works]), and its duplicate filter does not know the id. Then the trigger loop
    dispatches one instance with one message that carries the task's type, payload and
    image; on the worker's side there is a run of the goroutine that this message starts
    which reports "running" and then "success"; and when the scheduler has handled these
    two reports, the instance is recorded as successful with its worker, its task has its
    next trigger time, the tasks that wait for it are due, every worker has the load it
    had at the start, and nothing else was sent. *)
Theorem run_end_to_end task w id x cur :
  accepting -> printable_clock -> world_inv w -> loads_ok w -> lets_through w -> 0 <= w_rrCounter w < 2 ^ 63 - 1 ->
  ListUpstreamDeps (task_ID task) (w_tasks w) = Ok [] -> task_TotalShards task <= 1 ->
  tasks w !! task_ID task = Some cur -> workers_of (w_workers w) !! id = Some x -> eligible (task_options task) x ->
  (forall n, exists next, nextTriggerTime task (clock n) = Ok next) ->
  exists w1 worker i message req,
    handleTask task w = (w1, Ok tt) /\ w_sent w1 = (message, true) :: w_sent w /\ request_of message = Some req /\
    (req_TaskID req, req_TaskType req, req_Payload req, req_Image req) = (task_ID task, task_Type task, task_Payload task, task_Image task) /\
    forall (m : Machine) (order : MapRange) (c : process) (gid : nat),
      Works req -> this_worker = worker_ID worker -> threads c !! gid = None -> wk_dedup (shared c) !! req_ScheduleInstanceID req = None ->
    exists c' final w2 w3 j t',
      rtc worker_step c c' /\ threads c' !! gid = Some (mkGoroutine req (Finished final)) /\
      wk_delivered (shared c') = final :: running_report req :: wk_delivered (shared c) /\ wk_running (shared c') = wk_running (shared c) /\
      ReportStatus (running_report req) w1 = (w2, Ok tt) /\ ReportStatus final w2 = (w3, Ok tt) /\
      insts w3 = <[inst_ID i := j]> (insts w) /\ insts w !! inst_ID i = None /\
      inst_TaskID j = task_ID task /\ inst_Status j = "success" /\ inst_WorkerID j = worker_ID worker /\
      (exists n, nextTriggerTime task (clock n) = Ok (task_NextTriggerTime t')) /\
      fired (dep_TaskID <$> filter (fun d => dep_DependsOnTaskID d = task_ID task) (deps_of_store (w_tasks w)))
        (<[task_ID task := t']> (tasks w)) (tasks w3) /\
      (forall wid, wid <> "" -> load wid w3 = load wid w) /\ w_sent w3 = w_sent w1.
Proof.
  intros Hacc Hclk Hw Hload Hlim Hrr Hups Hsh Hcur Hx Hel Hnext.
  destruct (handleTask_run task w id x cur) as (w1 & worker & i & t' & Hrun & Hw1 & Hres & Hnew & Hi1 & Hsc1 & (tm & Hsid) & Htid & Hst & Hwk & _ & Hsent & Ht1 & Hd1 & Hnx); try done.
  destruct (request_of_task worker (dispatch_request task (inst_ScheduleInstanceID i) 0 0 (task_TotalShards task))) as (req & Hreq & Hrs & Hwork).
  simpl in Hrs. eexists w1, worker, i, _, req. split; [done|]. split; [exact Hsent|]. split; [done|]. split; [done|].
  intros m order c gid Hworks Hthis Hthr Hded.
  destruct (runs_alone req gid c Hthr Hded) as (c' & final & Hsteps & Hdone & Hdel & Hrunning & Hfs & Hfsid & Hfw).
  assert (req_ScheduleInstanceID req <> "") as Hne by (rewrite Hrs, Hsid; unfold scheduleInstanceID; done).
  destruct (report_running_run (running_report req) w1 (inst_ID i) i) as (w2 & now2 & now2' & Hw2 & Hr2 & Hi2 & Hsc2 & Ht2 & Hwk2 & Hs2);
    [done|exact Hne|done|simpl; rewrite Hsc1, Hrs; apply lookup_insert_eq|rewrite Hi1; apply lookup_insert_eq|by rewrite Hst|].
  set (i1 := with_result now2 "running" _ _ i) in Hi2. destruct (timed_outcome (running_report req) now2' i1) as [(_ & Hti2 & _) [Hst2 _]].
  destruct (report_success_run final w2 (inst_ID i) (timed_row (running_report req) now2' i1)) as (w3 & now3 & now3' & Hr3 & Hi3 & Hfired & Hloads & Hs3);
    [done|congruence|done|rewrite Hsc2, Hsc1, Hfsid, Hrs; apply lookup_insert_eq|rewrite Hi2; apply lookup_insert_eq|by rewrite Hst2|].
  set (i3 := with_result now3 "success" _ _ (timed_row (running_report req) now2' i1)) in Hi3. destruct (timed_outcome final now3' i3) as [(_ & Hti3 & _) [Hst3 _]].
  exists c', final, w2, w3, (timed_row final now3' i3), t'. split_and!; try done.
  - by rewrite Hi3, Hi2, Hi1, !insert_insert_eq.
  - etrans; [exact Hti3|]. etrans; [exact Hti2|exact Htid].
  - etrans; [apply timed_worker|]. etrans; [apply (timed_worker _ _ i1)|exact Hwk].
  - rewrite Hti2 in Hfired. simpl in Hfired. by rewrite Htid, Ht2, Ht1, Hd1 in Hfired.
  - eapply slot_returns; [done..|]. by rewrite <- Hthis, <- Hfw, <- Hwk2.
  - congruence.
Qed.
End Run.

(** ** A worker for the example *)

(** A worker of this name whose shell and network work. *)
Definition steady (name : string) : Machine := {|
  now_at := fun n => start_time + Z.of_nat n * Second;
  run_bash := fun _ _ _ _ payload => ("ran " +:+ payload, None);
  run_docker := fun _ _ _ => ("", None);
  new_get := fun _ => None;
  do_get := fun _ _ _ _ => Ok (200, "200 OK", "");
  mkdir_temp := fun _ => Ok "/tmp/task-sandbox-1";
  path_env := "/usr/bin";
  post_url := fun _ => None;
  do_post := fun _ _ _ => Ok (200, "200 OK");
  grpc_ready := false;
  grpc_report := fun _ _ => Ok true;
  write_file := fun _ => Written;
  read_dir := fun _ => true;
  read_file := fun _ => true;
  sandboxDir := "";
  has_store := true;
  report_protocol := "http";
  this_worker := name |}.

Lemma steady_works (order : MapRange) name req : req_TaskType req = "shell" -> @Works (steady name) order req.
Proof.
  intros Ht. split.
  - intros n ctx. unfold execute_task, Execute. rewrite Ht. done.
  - intros n url r. done.
Qed.

Lemma run_end_to_end_witness : exists w1 worker final c' w2 w3 id j,
  @handleTask test_backend (answering 200) due_task one_due = (w1, Ok tt) /\
  rtc (@worker_step (steady worker) canonical_range) (mkProcess empty (FNext false) (mkWorkerState 0 empty empty empty empty [] 0 0)) c' /\
  @ReportStatus test_backend (answering 200) final w2 = (w3, Ok tt) /\
  is_instances (w_instances w3) !! id = Some j /\ inst_Status j = "success".
Proof.
  destruct (@run_end_to_end test_backend test_backend_contract test_backend_spec (answering 200) test_backend_reliable due_task one_due
    "a" (stamped start_time (worker_named "a" 0)) due_task) as (w1 & worker & i & message & req & Hhandled & _ & _ & Hwork & Hrun).
  - apply answering_accepts.
  - apply answering_printable.
  - apply world_with_inv.
  - apply one_due_loads.
  - apply fresh_bucket_lets_through.
  - split; [apply Z.le_refl|reflexivity].
  - vm_compute. reflexivity.
  - vm_compute. congruence.
  - vm_compute. reflexivity.
  - vm_compute. reflexivity.
  - vm_compute. repeat split; congruence.
  - intros n. by eexists.
  - injection Hwork as _ Htype _ _.
    destruct (Hrun (steady (worker_ID worker)) canonical_range (mkProcess empty (FNext false) (mkWorkerState 0 empty empty empty empty [] 0 0)) 0%nat) as
      (c' & final & w2 & w3 & j & t' & Hsteps & _ & _ & _ & _ & Hrep & Hi & _ & _ & Hst & _); [by apply steady_works|done..|].
    exists w1, (worker_ID worker), final, c', w2, w3, (inst_ID i), j. split; [done|]. split; [done|]. split; [done|]. split; [|done].
    apply (f_equal (fun m => m !! inst_ID i)) in Hi. rewrite lookup_insert_eq in Hi. exact Hi.
Defined.
