(* ===== verification/System.v ===== *)
(** The serial executions of the scheduler process: one step per handler run, loop
    iteration, engine tick or background job (cmd/scheduler/main.go starts them), each
    run to its end before the next one starts. The program runs them in goroutines that
    can overlap between two accesses to the store, so what this file shows is about
    executions in which none does; overlapping executions are the subject of Race,
    Settle, TaskRows and Alive, which prove what is left of it (C4 to C7) and by
    counterexamples what is not: [picks_overbook], [finished_runs_again],
    [cancel_overwrites]. *)
From S2P Require Import Prelude GoStd GoTime GoFormat Cron Model Labels Repo RateLimit TestStore World Sample Http.
From S2P Require Import Dispatch Router Lifecycle Balance Engine Runtime Trigger Retry OnTrigger Events TaskService WorkerService Tools.

Section System.
Context `{Backend} `{Env} `{MapRange}.

Record System := mkSystem { sys_world : World; sys_engine : Hybrid.Engine }.

(** The steps of the scheduling loops, an iteration at a time: no two iterations, and so
    no two picks, overlap. *)
Inductive serial_schedule_step : System -> System -> Prop :=
| StepTrigger w e : serial_schedule_step (mkSystem w e) (mkSystem (scan w).1 e)
| StepRetry w e : serial_schedule_step (mkSystem w e) (mkSystem (retry_scan w).1 e)
| StepTick t w e w' e' :
    engine_tick t e w = (w', Ok (Some e')) -> serial_schedule_step (mkSystem w e) (mkSystem w' e')
| StepWarm w e e' err :
    Hybrid.Warm e (clock (w_reads w)) (ListDueTasks (clock (S (w_reads w))) 500 (w_tasks w))
      (fun cutoff => ListDueRetryInstances cutoff 500 (w_instances w)) = Some (e', err) ->
    serial_schedule_step (mkSystem w e) (mkSystem (set_w_reads (S (S (w_reads w))) w) e').

(** The steps the outside asks for: workers, events, users, tenants, the tools the
    chat agent runs on the same repositories; the health checker; and the analysis
    goroutines, which run when they like. *)
Inductive request_step : System -> System -> Prop :=
| StepPublish method body w e : request_step (mkSystem w e) (mkSystem (Publish method body w).1 e)
| StepReport method body w e : request_step (mkSystem w e) (mkSystem (handle_Report method body w).1 e)
| StepCancel method body w e : request_step (mkSystem w e) (mkSystem (handle_Cancel method body w).1 e)
| StepRegister method body w e : request_step (mkSystem w e) (mkSystem (handle_Register method body w).1 e)
| StepHeartbeat method body w e : request_step (mkSystem w e) (mkSystem (handle_Heartbeat method body w).1 e)
| StepGrpcReport req w e : request_step (mkSystem w e) (mkSystem (grpc_ReportTaskStatus req w).1 e)
| StepGrpcRegister req w e : request_step (mkSystem w e) (mkSystem (grpc_RegisterWorker req w).1 e)
| StepGrpcHeartbeat req w e : request_step (mkSystem w e) (mkSystem (grpc_Heartbeat req w).1 e)
| StepHealth timeout w e : request_step (mkSystem w e) (mkSystem (health_tick timeout w).1 e)
| StepTaskCall tid c w e : request_step (mkSystem w e) (mkSystem (run_call tid c w).1 e)
| StepTool ToLower ListSnapshots name args w e :
    request_step (mkSystem w e) (mkSystem (Execute ToLower ListSnapshots name args w).1 e)
| StepAnalyze before i req after w e :
    w_jobs w = before ++ (i, req) :: after ->
    request_step (mkSystem w e) (mkSystem (analyzeFailedInstance i req (set_w_jobs (before ++ after) w)).1 e).

Definition serial_step (s s' : System) : Prop := serial_schedule_step s s' \/ request_step s s'.
End System.

Section SystemProperties.
Context `{BackendContract} `{Env} `{MapRange}.

Abbreviation insts s := (insts_of (w_instances (sys_world s))).
Abbreviation workers s := (workers_of (w_workers (sys_world s))).

(** Every step is a lifecycle step. *)
Lemma schedule_lifecycle s s' : serial_schedule_step s s' -> lifecycle (sys_world s) (sys_world s').
Proof.
  destruct 1 as [w e|w e|t w e w' e' Ht|w e e' err Hw].
  - apply scan_lifecycle.
  - apply retry_scan_lifecycle.
  - pose proof (engine_lifecycle t e w) as Hl. by rewrite Ht in Hl.
  - intros Hi. split; [done|]. reflexivity.
Qed.

Lemma request_lifecycle s s' : request_step s s' -> lifecycle (sys_world s) (sys_world s').
Proof.
  pose proof ReportStatus_lifecycle as Hr.
  assert (forall req, moves lifecycle (RegisterWorker req)) as Hg
    by (intros; apply lifecycle_intro; intros; apply tracked_RegisterWorker).
  assert (forall req, moves lifecycle (Heartbeat req)) as Hh
    by (intros; apply lifecycle_intro; intros; apply tracked_Heartbeat).
  destruct 1 as [| | | | |req w e|req w e|req w e| | | |b i req a w e Hj]; cbn [sys_world].
  - apply event_lifecycle.
  - apply Report_lifecycle.
  - apply Cancel_lifecycle.
  - apply Register_lifecycle.
  - apply Heartbeat_lifecycle.
  - enough (moves lifecycle (grpc_ReportTaskStatus req)) as Hm by apply Hm. unfold grpc_ReportTaskStatus. solve_moves.
  - enough (moves lifecycle (grpc_RegisterWorker req)) as Hm by apply Hm. unfold grpc_RegisterWorker. solve_moves.
  - enough (moves lifecycle (grpc_Heartbeat req)) as Hm by apply Hm. unfold grpc_Heartbeat. solve_moves.
  - apply health_lifecycle.
  - apply task_lifecycle.
  - apply Execute_lifecycle.
  - exact (analyze_lifecycle i req (set_w_jobs (b ++ a) w)).
Qed.

Lemma execution_lifecycle s s' : rtc serial_step s s' -> lifecycle (sys_world s) (sys_world s').
Proof.
  intros Hr Hi. revert Hi. change (lifecycle (sys_world s) (sys_world s')).
  induction Hr as [s|s s1 s2 Hs Hr IH]; [reflexivity|]. etrans; [|exact IH].
  destruct Hs; [by apply schedule_lifecycle|by apply request_lifecycle].
Qed.

(** C2. The life of an instance, over every serial execution of the scheduler: whatever
    handlers, loop iterations and jobs run one after another, none overlapping with the
    next, in any order and against any clock, network and store failures, a stored
    instance is never removed, keeps its task, schedule id, shard, retry number and
    trigger time, and once its status is terminal (success, failed, timeout, cancelled)
    its status and error are final. When handlers overlap, finality fails
    ([Settle.finished_runs_again], [Settle.cancel_overwrites]) and C5 is what holds. *)
Theorem instance_lifecycle s s' id i :
  world_inv (sys_world s) -> rtc serial_step s s' -> insts s !! id = Some i ->
  exists i', insts s' !! id = Some i' /\ same_identity i i' /\
    (isTerminalStatus (inst_Status i) = true -> same_outcome i i').
Proof. intros Hi Hr. destruct (execution_lifecycle _ _ Hr Hi) as [_ He]. apply He. Qed.

Context `{!BackendSpec} `{!BackendReliable}.

Lemma schedule_balanced s s' : serial_schedule_step s s' -> balanced (sys_world s) (sys_world s').
Proof.
  destruct 1 as [w e|w e|t w e w' e' Ht|w e e' err Hw].
  - apply balanced_intro, bal_scan.
  - apply retry_scan_balanced.
  - pose proof (engine_balanced t e w) as Hl. by rewrite Ht in Hl.
  - by intros Hi Hl.
Qed.

(** C3. Slot accounting of all scheduling loops together: along any serial execution of
    trigger scans, retry scans, engine ticks and warm-ups, one iteration after another,
    against any clock and network and over repositories that do not fail, no worker's
    load ever leaves 0..max, and the total load grows by exactly the number of
    dispatches the workers accepted. Iterations that overlap can count two picks as one
    ([Race.picks_overbook]); C4 is what holds then. *)
Theorem slots_conserved s s' :
  world_inv (sys_world s) -> loads_ok (sys_world s) -> rtc serial_schedule_step s s' ->
  loads_ok (sys_world s') /\
  total_load (workers s') - total_load (workers s) =
  accepted (w_sent (sys_world s')) - accepted (w_sent (sys_world s)).
Proof.
  intros Hi Hl Hr. enough (world_inv (sys_world s') /\ loads_ok (sys_world s') /\
    balance (sys_world s') = balance (sys_world s)) as (_ & ? & Hb) by (split; [done|]; unfold balance in Hb; lia).
  induction Hr as [s|s s1 s2 Hs Hr IH]; [done|].
  destruct (schedule_balanced _ _ Hs Hi Hl) as (Hi1 & Hl1 & Hb1).
  destruct (IH Hi1 Hl1) as (? & ? & ?). split_and!; try done. congruence.
Qed.
End SystemProperties.

(** ** On concrete executions *)

Definition busy : @System test_backend :=
  mkSystem (world_with [sample_task] [sample_instance 1 "s1" "success" "a" 0] [worker_named "a" 0]) Hybrid.New.

(** A report for the finished instance, then a scan. *)
Definition late_report : TaskStatusReportRequest := mkReport "s1" "a" "failed" "late" "" "" "".
Definition busy1 : @System test_backend :=
  mkSystem (@handle_Report test_backend (answering 200) "POST" (Some late_report) (sys_world busy)).1 Hybrid.New.
Definition busy2 : @System test_backend :=
  mkSystem (@scan test_backend (answering 200) (sys_world busy1)).1 Hybrid.New.

Lemma instance_lifecycle_witness :
  exists i', is_instances (w_instances (sys_world busy2)) !! 1 = Some i' /\ inst_Status i' = "success".
Proof.
  destruct (@instance_lifecycle test_backend test_backend_contract (answering 200) canonical_range busy busy2 1
    (new_instance start_time 1 (sample_instance 1 "s1" "success" "a" 0))) as (i' & Hi & _ & Ho).
  - apply world_with_inv.
  - apply rtc_l with (y := busy1); [right; apply StepReport|]. apply rtc_once. left. apply StepTrigger.
  - vm_compute. reflexivity.
  - exists i'. split; [exact Hi|]. exact (proj1 (Ho eq_refl)).
Defined.

Definition idle : @System test_backend := mkSystem one_due Hybrid.New.
Definition idle1 : @System test_backend := mkSystem (@scan test_backend (answering 200) one_due).1 Hybrid.New.

Lemma slots_conserved_witness :
  total_load (ws_workers (w_workers (sys_world idle1))) - total_load (ws_workers (w_workers (sys_world idle))) = 1.
Proof.
  destruct (@slots_conserved test_backend test_backend_contract (answering 200) test_backend_spec test_backend_reliable idle idle1) as [_ Hb].
  - apply world_with_inv.
  - apply one_due_loads.
  - apply rtc_once. apply StepTrigger.
  - change (total_load (ws_workers (w_workers (sys_world idle1))) - total_load (ws_workers (w_workers (sys_world idle))) =
            accepted (w_sent (sys_world idle1)) - accepted (w_sent (sys_world idle))) in Hb.
    rewrite Hb. vm_compute. reflexivity.
Defined.
