(* ===== verification/Process.v ===== *)
(** The processes: what cmd/scheduler/main.go and cmd/worker/main.go start, in which order
    and at which intervals, the [Start] methods that put the scans on tickers, and the
    scheduler as these loops and its handlers work on one state. *)
From S2P Require Import Prelude Threads GoStd GoTime Ticker GoFormat Model Leader Config Redis Repo RateLimit TestStore World Sample.
From S2P Require Import Cache Http Records Dispatch Router Lifecycle Balance Runtime Trigger Retry OnTrigger WorkerService System.
From S2P Require Engine.
Import Engine (Hybrid.WheelTick, Hybrid.HeapTick).

#[local] Open Scope prog_scope.

(** ** The loops of the scheduler *)

Section Scheduler.
Context `{Backend} `{Env} `{MapRange} {R : Type} `{!Redis R} {LD : Type} `{!WorkerLoadRepository LD}.
(** The clock of the Redis server. *)
Variable redis_now : nat -> Time.

(** What the scheduler works on: the repositories and the engine, Redis if there is one,
    and the load samples. *)
Record Scheduler := mkScheduler { sc_system : System; sc_redis : option R; sc_loads : LD }.
Definition sc_world (s : Scheduler) : World := sys_world (sc_system s).
Definition set_sc_world (w : World) (s : Scheduler) : Scheduler :=
  mkScheduler (mkSystem w (sys_engine (sc_system s))) (sc_redis s) (sc_loads s).

Definition body_of {A} (m : M A) (s : Scheduler) : option Scheduler := Some (set_sc_world (m (sc_world s)).1 s).

(** [Engine.Start] has two tickers in one goroutine; a panic of the callback is fatal. *)
Definition engine_body (tick : M Engine.Hybrid.tick) (s : Scheduler) : option Scheduler :=
  match (t <- tick ;; engine_tick t (sys_engine (sc_system s))) (sc_world s) with
  | (w, Ok (Some e)) => Some (mkScheduler (mkSystem w e) (sc_redis s) (sc_loads s))
  | _ => None
  end.
Definition wheel_body : Scheduler -> option Scheduler := engine_body (ret Engine.Hybrid.WheelTick).
Definition heap_body : Scheduler -> option Scheduler := engine_body (now <- Now ;; ret (Engine.Hybrid.HeapTick now)).

Definition warm_body (s : Scheduler) : option Scheduler :=
  let w := sc_world s in
  '(e, _) ← Engine.Hybrid.Warm (sys_engine (sc_system s)) (clock (w_reads w)) (ListDueTasks (clock (S (w_reads w))) 500 (w_tasks w))
              (fun cutoff => ListDueRetryInstances cutoff 500 (w_instances w));
  Some (mkScheduler (mkSystem (set_w_reads (S (S (w_reads w))) w) e) (sc_redis s) (sc_loads s)).

Definition cache_body (s : Scheduler) : option Scheduler :=
  let m := (warm (redis_now (w_reads (sc_world s))) (mkManager (sc_world s) (sc_redis s))).1 in
  Some (mkScheduler (mkSystem (m_world m) (sys_engine (sc_system s))) (m_redis m) (sc_loads s)).

Definition sample_body (s : Scheduler) : option Scheduler :=
  let '(w, loads) := (sample_loads (sc_world s, sc_loads s)).1 in
  Some (mkScheduler (mkSystem w (sys_engine (sc_system s))) (sc_redis s) loads).

(** [Start] of the engine, of the trigger and the retry loop (with the constructor's
    default for the interval) and of the health checker; [WarmPeriodically] and
    [StartWarmLoop]. The trigger, retry and cache loops run once before the first tick. *)
Definition engine_Start (tickDuration : Duration) : list (loop Scheduler) :=
  [mkLoop tickDuration false (fun _ => wheel_body); mkLoop (50 * Millisecond) false (fun _ => heap_body)].
Definition WarmPeriodically (interval : Duration) : loop Scheduler := mkLoop (or_interval interval (10 * Second)) false (fun _ => warm_body).
Definition trigger_Start (interval : Duration) : loop Scheduler := mkLoop (or_interval interval Second) true (fun _ => body_of scan).
Definition retry_Start (interval : Duration) : loop Scheduler := mkLoop (or_interval interval (3 * Second)) true (fun _ => body_of retry_scan).
Definition cache_StartWarmLoop (interval : Duration) : loop Scheduler := mkLoop (or_interval interval (10 * Second)) true (fun _ => cache_body).
Definition health_Start (timeout tick : Duration) : loop Scheduler := mkLoop tick false (fun _ => body_of (health_tick timeout)).
Definition sample_Start : loop Scheduler := mkLoop (30 * Second) false (fun _ => sample_body).

(** The loops [main] starts; the one of the cache returns at once without Redis. *)
Definition scheduler_loops (redis : bool) : list (loop Scheduler) :=
  engine_Start (Engine.Wheel.tickDuration (Engine.Hybrid.wheel Engine.Hybrid.New)) ++
  [WarmPeriodically (10 * Second); trigger_Start (5 * Second); retry_Start (3 * Second)] ++
  (if redis then [cache_StartWarmLoop (10 * Second)] else []) ++
  [health_Start (30 * Second) (10 * Second); sample_Start].

(** What [main] does, in order, as far as it gets with what it finds: whether Redis
    answered, what became of the election, and the error of [net.Listen]. It is over with an
    exit; a follower is still within [Acquire]. The loops run before the process listens. *)
Inductive scheduler_action :=
| BuildsResources | AcquiresLeadership | WarmsEngine | StartsLoop (l : loop Scheduler) | StartsSummary
| ServesGRPC (addr : string) | ServesHTTP (addr : string) | Exits (code : Z).

Definition scheduler_starts (cfg : Config) (redis : bool) (listen : option gerror) : list scheduler_action :=
  WarmsEngine ::
  map StartsLoop (engine_Start (Engine.Wheel.tickDuration (Engine.Hybrid.wheel Engine.Hybrid.New)) ++
    [WarmPeriodically (10 * Second); trigger_Start (5 * Second); retry_Start (3 * Second)] ++
    (if redis then [cache_StartWarmLoop (10 * Second)] else [])) ++
  StartsSummary :: map StartsLoop [health_Start (30 * Second) (10 * Second); sample_Start] ++
  match listen with
  | Some _ => [Exits 1]
  | None => [ServesGRPC (GRPCAddr cfg); ServesHTTP (HTTPAddr cfg)]
  end.

Definition scheduler_main (cfg : Config) (built : res gerror bool) (elected : role) (listen : option gerror) : list scheduler_action :=
  BuildsResources ::
  match built with
  | Err _ => [Exits 1]
  | Ok redis =>
      AcquiresLeadership ::
      match elected with
      | Following => []
      | Failed _ => [Exits 1]
      | Leading _ | Resigned => scheduler_starts cfg redis listen
      end
  end.

Definition works (a : scheduler_action) : bool :=
  match a with StartsLoop _ | WarmsEngine | ServesGRPC _ | ServesHTTP _ => true | _ => false end.

(** The loops it starts are the ones the process has. *)
Lemma scheduler_main_loops cfg redis by_ listen :
  omap (fun a => match a with StartsLoop l => Some l | _ => None end) (scheduler_main cfg (Ok redis) (Leading by_) listen) = scheduler_loops redis.
Proof. destruct redis, listen; reflexivity. Qed.

(** Until [Acquire] returns a process neither schedules nor serves: a standby answers no
    heartbeat, no report and no health check. *)
Definition passed (r : role) : bool := match r with Leading _ | Resigned => true | Following | Failed _ => false end.
Lemma standby_idle cfg built elected listen : passed elected = false -> forallb (fun a => negb (works a)) (scheduler_main cfg built elected listen) = true.
Proof. by destruct built, elected. Qed.

(** No [NewTicker] of the scheduler panics. *)
Lemma scheduler_intervals redis : Forall (fun l => 0 < lp_interval l) (scheduler_loops redis).
Proof. destruct redis; repeat constructor. Qed.

(** A request to the process: another goroutine runs its handler. *)
Definition requested (s s' : Scheduler) : Prop :=
  request_step (sc_system s) (sc_system s') /\ sc_redis s' = sc_redis s /\ sc_loads s' = sc_loads s.

(** The process at work. *)
Definition scheduler_step (redis : bool) : conf (Scheduler * Time) (loop Scheduler * loop_phase) -> conf (Scheduler * Time) (loop Scheduler * loop_phase) -> Prop :=
  loops_step (fun l => l ∈ scheduler_loops redis) requested.
End Scheduler.

Section SchedulerProperties.
Context `{BackendContract} `{Env} `{MapRange} {R : Type} `{!Redis R} {LD : Type} `{!WorkerLoadRepository LD}.
Variable redis_now : nat -> Time.
Abbreviation insts s := (insts_of (w_instances (sc_world (R:=R) (LD:=LD) s))).

#[local] Instance same_stores_preorder : PreOrder same_stores.
Proof. split; [by intros w|]. unfold same_stores. intros x y z (?&?&?&?&?&?&?&?&?) (?&?&?&?&?&?&?&?&?). split_and!; congruence. Qed.

Lemma same_stores_lifecycle w w' : same_stores w w' -> lifecycle w w'.
Proof. intros (Ht & Hi & Hw & _) Hinv. unfold world_inv. rewrite Ht, Hi, Hw. split; [exact Hinv|reflexivity]. Qed.

(** The cache and the samples are other stores. *)
Definition cache_reads (m m' : Manager (R:=R)) : Prop := same_stores (m_world m) (m_world m').
#[local] Instance cache_reads_preorder : PreOrder cache_reads.
Proof. split; [intros m; unfold cache_reads; reflexivity|]. intros x y z ? ?. unfold cache_reads in *. by etrans. Qed.
Lemma cache_reads_world {A} (m : M A) : moves same_stores m -> moves cache_reads (Cache.on_world (R:=R) m).
Proof. intros Hm s. unfold cache_reads, Cache.on_world. specialize (Hm (m_world s)). by destruct (m (m_world s)). Qed.
Lemma cache_reads_redis {A} (p : prog R gerror A) : moves cache_reads (on_redis p).
Proof. intros s. unfold cache_reads, on_redis. destruct (m_redis s) as [r|]; [by destruct (p r)|reflexivity]. Qed.
Lemma stores_Now : moves same_stores Now.
Proof. by intros w. Qed.
Lemma stores_ListDue limit : moves same_stores (task_op (fun now s => (s, ListDueTasks now limit s))).
Proof. by intros w. Qed.
#[local] Hint Resolve cache_reads_world cache_reads_redis stores_Now stores_ListDue : moves.
Lemma warm_reads at_ : moves cache_reads (warm at_).
Proof. unfold warm, warmDueTasks, warmWorkerCache, worker_query. cbv zeta. solve_moves. Qed.

Definition sample_reads (s s' : World * LD) : Prop := same_stores s.1 s'.1.
#[local] Instance sample_reads_preorder : PreOrder sample_reads.
Proof. split; [intros m; unfold sample_reads; reflexivity|]. intros x y z ? ?. unfold sample_reads in *. by etrans. Qed.
Lemma sample_reads_op {A} (f : Time -> LD -> LD * result A) : moves sample_reads (load_op f).
Proof. intros s. unfold sample_reads, load_op. by destruct (f _ _). Qed.
Lemma sample_reads_now : moves sample_reads (load_now (LD:=LD)).
Proof. by intros s. Qed.
#[local] Hint Resolve sample_reads_op sample_reads_now : moves.
Lemma sample_stores : moves sample_reads sample_loads.
Proof. unfold sample_loads. solve_moves. Qed.

(** What a loop does to the instances is what a step of the system does. *)
Lemma engine_body_lifecycle tick (s s' : Scheduler (R:=R) (LD:=LD)) : moves lifecycle tick -> engine_body tick s = Some s' -> lifecycle (sc_world s) (sc_world s').
Proof.
  intros Ht. unfold engine_body. assert (moves lifecycle (t <- tick ;; engine_tick t (sys_engine (sc_system s)))) as Hm.
  { pose proof engine_lifecycle. solve_moves. }
  specialize (Hm (sc_world s)). destruct (bind _ _ (sc_world s)) as [w [[e|]|e]]; intros [= <-]. exact Hm.
Qed.

Lemma loop_lifecycle redis l now (s s' : Scheduler (R:=R) (LD:=LD)) : l ∈ scheduler_loops redis_now redis -> lp_body l now s = Some s' -> lifecycle (sc_world s) (sc_world s').
Proof.
  assert (moves lifecycle Now) as Hnow by (intros w; by apply same_stores_lifecycle).
  assert (forall l, l ∈ [cache_StartWarmLoop redis_now (10 * Second)] -> lp_body l now s = Some s' -> lifecycle (sc_world s) (sc_world s')) as Hcache.
  { intros l0 ->%list_elem_of_singleton [= <-]. apply same_stores_lifecycle. exact (warm_reads _ (mkManager (sc_world s) (sc_redis s))). }
  unfold scheduler_loops, engine_Start. rewrite !elem_of_app, !elem_of_cons. intros [[->|[->|?%elem_of_nil]]|[[->|[->|[->|?%elem_of_nil]]]|[Hl|[->|[->|?%elem_of_nil]]]]] Hb; try done.
  - eapply engine_body_lifecycle; [|exact Hb]. solve_moves.
  - eapply engine_body_lifecycle; [|exact Hb]. solve_moves.
  - simpl in Hb. unfold warm_body in Hb. destruct (Engine.Hybrid.Warm _ _ _ _) as [[e x]|]; simplify_eq/=. by apply same_stores_lifecycle.
  - injection Hb as <-. apply scan_lifecycle.
  - injection Hb as <-. apply retry_scan_lifecycle.
  - destruct redis; [|by apply elem_of_nil in Hl]. by eapply Hcache.
  - injection Hb as <-. apply health_lifecycle.
  - simpl in Hb. unfold sample_body in Hb. pose proof (sample_stores (sc_world s, sc_loads s)) as Hs.
    destruct (sample_loads _) as [[w loads] r]. injection Hb as <-. by apply same_stores_lifecycle.
Qed.

(** The scheduler process keeps what its steps keep: whenever its tickers fire and however
    long its loops take, and whatever is requested meanwhile, a stored instance stays the
    same instance, and a final outcome stays. *)
Theorem process_lifecycle redis c c' id i : world_inv (sc_world (c_world c).1) ->
  map_Forall (fun _ g => g.1 ∈ scheduler_loops redis_now redis) (c_threads c) -> rtc (scheduler_step redis_now redis) c c' ->
  insts (c_world c).1 !! id = Some i ->
  exists i', insts (c_world c').1 !! id = Some i' /\ same_identity i i' /\
    (isTerminalStatus (inst_Status i) = true -> same_outcome i i').
Proof.
  intros Hw Ht Hs. enough (lifecycle (sc_world (c_world c).1) (sc_world (c_world c').1)) as Hl.
  { destruct (Hl Hw) as [_ He]. apply He. }
  destruct (interleaved_keeps (fun g : loop Scheduler * loop_phase => g.2 = Begins /\ g.1 ∈ scheduler_loops redis_now redis) (meanwhile requested)
    (fun s : Scheduler * Time => lifecycle (sc_world (c_world c).1) (sc_world s.1)) (fun g => g.1 ∈ scheduler_loops redis_now redis) c c') as [Hl _];
    [by intros g []| | |exact Hs|reflexivity|exact Ht|exact Hl].
  - intros s s' Hl [[<- _]|[(Hr & _) _]]; [done|]. etrans; [exact Hl|]. by apply request_lifecycle.
  - intros [l p] [s now] s' g' Hl Hg Hx. change (loop_step (l, p) (s, now) = (s', g')) in Hx. cbn [fst] in Hl, Hg.
    assert (forall t, lp_body l now s = Some t -> lifecycle (sc_world (c_world c).1) (sc_world t)) as Hb.
    { intros t Hlt. etrans; [exact Hl|]. by eapply loop_lifecycle. }
    simpl in Hx. repeat case_match; simplify_eq/=; auto.
Qed.
End SchedulerProperties.

(** ** The processes of a cluster *)

(** The context of [main] is never cancelled, so a leader does not resign. *)
Definition is_round (ev : happening) : bool := match ev with Round _ _ => true | _ => false end.

Lemma rounds_passed {L} `{LockLaws L} evs (c : Cluster (L:=L)) i : Forall (fun ev => is_round ev = true) evs ->
  (forall k, role_of k c <> Resigned) -> passed (role_of i (execution evs c)) = leads (role_of i (execution evs c)).
Proof.
  unfold execution. intros He. revert c. induction He as [|ev evs Hev _ IH]; intros c Hc; cbn [foldl].
  { specialize (Hc i). by destruct (role_of i c). }
  apply IH. destruct ev as [j conn| | | |]; [|done..]. intros k. simpl. destruct (role_of j c) eqn:Hj; try apply Hc.
  assert (forall (c' : Cluster (L:=L)) r, role_of k c' = role_of k c -> role_of k (set_role j (mysql_round conn r) c') <> Resigned) as Hs.
  { intros c' r Hk. rewrite role_set, Hk. destruct (decide (j = k)); [|apply Hc]. unfold mysql_round. by repeat case_match. }
  destruct conn as [e|]; [by apply (Hs c (Ok 0))|]. destruct (GET_LOCK j (cl_lock c)). by apply Hs.
Qed.

(** Of the processes that elect by the MySQL lock at most one schedules or serves. *)
Theorem one_scheduler_works `{Backend} `{Env} `{MapRange} {R} `{!Redis R} {LD} `{!WorkerLoadRepository LD} {L} `{LockLaws L}
    redis_now evs (c : Cluster (L:=L)) cfg built listen i j :
  (forall k, role_of k c = Following) -> Forall (fun ev => is_round ev = true) evs ->
  let main k := scheduler_main (R:=R) (LD:=LD) redis_now cfg (built k) (role_of k (execution evs c)) (listen k) in
  existsb works (main i) = true -> existsb works (main j) = true -> i = j.
Proof.
  intros Hnone He main. assert (forall k, existsb works (main k) = true -> holder (cl_lock (execution evs c)) = Some k) as Hheld.
  { intros k Hk. apply guarded_execution.
    - eapply Forall_impl; [exact He|]. by intros [].
    - intros n Hn. by rewrite Hnone in Hn.
    - rewrite <- rounds_passed by (done || (intros n; by rewrite Hnone)). destruct (passed _) eqn:Hp; [done|].
      apply existsb_exists in Hk as (a & Ha & Hw). pose proof (standby_idle redis_now cfg (built k) _ (listen k) Hp) as Hs.
      rewrite forallb_forall in Hs. specialize (Hs a Ha). by rewrite Hw in Hs. }
  intros Hi Hj. pose proof (Hheld i Hi). pose proof (Hheld j Hj). congruence.
Qed.

(** ** On a concrete process *)

(** A store for samples that keeps none. *)
#[local] Instance no_samples : WorkerLoadRepository unit := {|
  CreateSnapshot _ _ s := (s, Ok tt); ListSnapshots _ _ _ _ _ := Ok []; DeleteSnapshotsBefore _ s := (s, Ok 0) |}.

(** All loops of a scheduler without Redis, about to begin on a task that is due. *)
Definition just_started : conf (@Scheduler test_backend keyspace unit * Time) (loop (@Scheduler test_backend keyspace unit) * loop_phase) :=
  start_all (mkScheduler idle None tt, start_time)
    (map (fun l => (l, Begins)) (@scheduler_loops test_backend (answering 200) keyspace mem_redis unit no_samples (fun _ => start_time) false)).

(** The trigger loop dispatches it as soon as it runs, before any tick; each loop that has
    begun waits, and in another second nothing more is due. *)
Example dispatches_at_once :
  let c := scheduled [0; 1; 2; 3; 4; 5; 6]%nat just_started in
  accepted (w_sent (sc_world (c_world just_started).1)) = 0 /\ accepted (w_sent (sc_world (c_world c).1)) = 1 /\
  accepted (w_sent (sc_world (c_world (scheduled [0; 1; 2; 3; 4; 5; 6]%nat (mkConf ((c_world c).1, start_time + Second) (c_threads c)))).1)) = 1.
Proof. vm_compute. split_and!; reflexivity. Qed.
