(* ===== verification/Deployment.v ===== *)
(** The four servers of a deployment together (cmd/api, cmd/ai-service, cmd/scheduler,
    cmd/worker): the addresses they listen at, and what each is there for without the
    others. *)
From S2P Require Import Prelude Threads GoStd GoTime Ticker GoFormat Model Json Http Leader Config Redis Repo RateLimit TestStore World Sample.
From S2P Require Import Records WorkerService Wire Worker WorkerProcess Race Alive Process.

(** [main] of cmd/api and of cmd/ai-service, as far as it gets: it opens the resources and
    listens, without a leader; the second also starts its clean-up. *)
Inductive server_action := Opens | CleansUp | Listens (addr : string) | Quits (code : Z).

Definition api_main (cfg : Config) (built : res gerror bool) : list server_action :=
  Opens :: match built with Err _ => [Quits 1] | Ok _ => [Listens (HTTPAddr cfg)] end.
Definition ai_main (cfg : Config) (built : res gerror bool) : list server_action :=
  Opens :: match built with Err _ => [Quits 1] | Ok _ => [CleansUp; Listens (HTTPAddr cfg)] end.

(** What the scheduler and the API answer at /healthz, whatever state they are in
    (handler/health_handler.go). *)
Definition Health : reply jvalue := Answer 200 (JObject [("status", JString "ok")]).

Section Deployment.
Context `{Backend} `{Env} `{MapRange} {R : Type} `{!Redis R} {LD : Type} `{!WorkerLoadRepository LD} `{Machine}.
Variable redis_now : nat -> Time.

Definition server_addresses (l : list server_action) : list string := omap (fun a => match a with Listens addr => Some addr | _ => None end) l.
Definition scheduler_addresses (l : list (scheduler_action (R:=R) (LD:=LD))) : list string :=
  omap (fun a => match a with Process.ServesGRPC addr | Process.ServesHTTP addr => Some addr | _ => None end) l.
Definition worker_addresses (l : list worker_action) : list string :=
  omap (fun a => match a with WorkerProcess.ServesGRPC addr | WorkerProcess.ServesHTTP addr => Some addr | _ => None end) l.

(** One of each, started from one environment on one host. *)
Definition deployment (env : string -> string) (host : string) (redis : bool) (elected : role) : list string :=
  scheduler_addresses (scheduler_main redis_now (Default env "scheduler") (Ok redis) elected None) ++
  worker_addresses (worker_main env (Ok host) None None) ++
  server_addresses (api_main (Default env "api") (Ok redis)) ++ server_addresses (ai_main (Default env "ai-service") (Ok redis)).

(** With the default addresses no two of them want the same port. *)
Theorem default_addresses_apart env host redis elected : env "APP_HTTP_ADDR" = "" -> env "APP_GRPC_ADDR" = "" ->
  NoDup (deployment env host redis elected) /\
  (leads elected = true -> deployment env host redis elected = [":9090"; ":8080"; ":8081"; ":9091"; ":8082"; ":8083"]).
Proof.
  intros Hh Hg. assert (deployment env host redis elected =
    (if passed elected then [":9090"; ":8080"] else []) ++ [":8081"; ":9091"; ":8082"; ":8083"]) as ->.
  { unfold deployment, scheduler_main, scheduler_starts, worker_main, api_main, ai_main, Default, or_env.
    rewrite Hh, Hg. destruct elected, redis, has_store; reflexivity. }
  split; [destruct (passed elected); by apply (bool_decide_unpack _)|]. by destruct elected.
Qed.

(** An address set in a shared environment is everybody's: on one host only the first of the
    servers starts. *)
Lemma shared_address env host redis elected addr : env "APP_HTTP_ADDR" = addr -> addr <> "" -> leads elected = true ->
  exists g g', deployment env host redis elected = [g; addr; addr; g'; addr; addr].
Proof.
  intros <- Ha He. unfold deployment, scheduler_main, scheduler_starts, worker_main, api_main, ai_main, Default, or_env.
  rewrite (bool_decide_false (env "APP_HTTP_ADDR" = "")) by done. eexists _, _. destruct elected, redis, has_store; done.
Qed.

(** The worker's ticker, the health checker's timeout and the rows together: as long as the
    heartbeats a worker has sent by now are stored and count, the checks of the scheduler
    are such that the worker stays online ([Alive.stays_online]), with clocks less than 10
    seconds apart. *)
Theorem checks_are_timely id s0 began visits skew t T w :
  one_each began (10 * Second) 1 visits.*2 -> began <= t < began + (1 + Z.of_nat (length visits)) * (10 * Second) ->
  clock (w_reads w) <= t + skew -> skew <= 10 * Second - Millisecond ->
  (forall s, s ∈ (s0, began) :: visits -> s.2 <= t -> UnixMilli (hb_ReportUnixMilli (worker_heartbeat id (RunningTasks (wp_state s.1)) s.2)) <= T) ->
  timely id T w (Evicting (30 * Second)).
Proof.
  intros Ho Ht Hc Hs HT. destruct (heartbeats_recent id s0 began visits skew t (clock (w_reads w)) Ho Ht Hc Hs) as (s & Hin & Hle & Hr).
  cbn [timely]. specialize (HT s Hin Hle). lia.
Qed.
End Deployment.
