(* ===== verification/Production.v ===== *)
(** The scheduler on the database (bootstrap.NewRepositories with a MySQL DSN):
    an abstract ledger of instances, the refinement of the ledger by the whole
    process over the MySQL repositories, and what those repositories lose. *)
From S2P Require Import Prelude GoStd GoTime GoFormat Cron Model Labels Repo RateLimit TestStore Gorm Mysql MemDB World Sample Http.
From S2P Require Import Dispatch Router Lifecycle Balance Engine Runtime Trigger Retry OnTrigger Events TaskService WorkerService System.

(** ** The ledger *)

(** What a user is promised about an instance: the job it stands for and its
    outcome. *)
Record entry := mkEntry {
  e_job : Z * string * Z * Z * Time * Z * Time;
  e_status : string;
  e_error : string * string
}.

#[export] Instance entry_eq_dec : EqDecision entry.
Proof. solve_decision. Defined.

Definition entry_of (i : TaskInstance) : entry :=
  mkEntry (inst_TaskID i, inst_ScheduleInstanceID i, inst_ShardNo i, inst_ShardTotal i, inst_TriggerTime i,
           inst_RetryCount i, inst_NextRetryTime i) (inst_Status i) (inst_ErrorCode i, inst_ErrorMessage i).

Definition ledger (m : gmap Z TaskInstance) : gmap Z entry := entry_of <$> m.

(** The ledger grows by new entries; an entry changes only while it is open, and
    only its outcome does. Entries are never removed. *)
Inductive ledger_step (a : gmap Z entry) : gmap Z entry -> Prop :=
| LOpen id e : a !! id = None -> ledger_step a (<[id := e]> a)
| LRecord id e st err : a !! id = Some e -> isTerminalStatus (e_status e) = false ->
    ledger_step a (<[id := mkEntry (e_job e) st err]> a).

Definition settles (a b : gmap Z entry) : Prop :=
  forall id e, a !! id = Some e -> exists e', b !! id = Some e' /\ e_job e' = e_job e /\
    (isTerminalStatus (e_status e) = true -> e' = e).

Lemma settles_one a b id e' : settles a b -> b !! id = Some e' ->
  rtc ledger_step a (<[id := e']> a) /\ settles (<[id := e']> a) b.
Proof.
  intros Hs Hb. split.
  - destruct (a !! id) as [e|] eqn:Ha; [|by apply rtc_once, LOpen].
    destruct (Hs _ _ Ha) as (x & Hx & Hj & Ht). rewrite Hb in Hx. injection Hx as <-.
    destruct (isTerminalStatus (e_status e)) eqn:Hterm; [rewrite Ht, insert_id by done; reflexivity|].
    apply rtc_once. destruct e' as [j st err]. simpl in Hj. subst j. by apply LRecord.
  - intros k e. rewrite lookup_insert_Some. intros [[<- <-]|[_ Hk]]; [|by apply Hs]. exists e'. naive_solver.
Qed.

(** A ledger whose entries only settled is reached by ledger steps. *)
Lemma settles_steps (a b : gmap Z entry) : settles a b -> rtc ledger_step a b.
Proof.
  remember (filter (fun k => a !! k <> b !! k) (dom b)) as D eqn:HD. revert a HD.
  induction (set_wf D) as [D _ IH]. intros a -> Hs.
  destruct (set_choose_or_empty (filter (fun k => a !! k <> b !! k) (dom b))) as [[k Hk]|He].
  - apply elem_of_filter in Hk as [Hne Hk]. apply elem_of_dom in Hk as [e' Hb].
    destruct (settles_one _ _ _ _ Hs Hb) as [Hr Hs']. etrans; [exact Hr|]. eapply IH; [|done|done].
    split.
    + intros k'. rewrite !elem_of_filter. intros [Hd Hk']. split; [|done].
      intros Heq. apply Hd. rewrite lookup_insert_ne; [done|]. congruence.
    + intros Hsub. specialize (Hsub k). rewrite !elem_of_filter, lookup_insert_eq, Hb in Hsub.
      destruct Hsub as [Hc _]; [|done]. split; [congruence|]. apply elem_of_dom. eauto.
  - enough (a = b) as -> by reflexivity. apply map_eq. intros k. destruct (decide (a !! k = b !! k)) as [|Hne]; [done|].
    destruct (b !! k) as [e'|] eqn:Hb; [exfalso; apply (not_elem_of_empty (C:=gset Z) k), He|].
    + apply elem_of_filter. split; [by rewrite Hb|]. apply elem_of_dom. eauto.
    + destruct (a !! k) as [e|] eqn:Ha; [|done]. destruct (Hs _ _ Ha) as (x & Hx & _). congruence.
Qed.

Lemma evolves_ledger m m' : evolves m m' -> rtc ledger_step (ledger m) (ledger m').
Proof.
  intros He. apply settles_steps. intros id e. unfold ledger. rewrite !lookup_fmap_Some.
  intros (i & <- & Hi). destruct (He _ _ Hi) as (i' & Hi' & Hid & Ho). exists (entry_of i').
  rewrite lookup_fmap, Hi'. split; [done|]. unfold same_identity, same_outcome, entry_of in *. simpl.
  destruct Hid as (? & ? & ? & ? & ? & ? & ? & ?). split; [congruence|].
  intros Ht. destruct (Ho Ht) as (? & ? & ?). congruence.
Qed.

(** ** The process over MySQL *)

Section Production.
Context `{Columns} {TD ID WD : Type}.
Context `{!Table TD taskRow Z} `{!Table TD taskDependencyRow (Z * Z)} `{!TaskSchemaLaws TD}.
Context `{!Table ID taskInstanceRow Z} `{!TableLaws ID taskInstanceRow Z}.
Context `{!Table WD workerNodeRow string} `{!TableLaws WD workerNodeRow string}.
Context `{!UpsertTable WD workerNodeRow} `{!UpsertLaws WD workerNodeRow string}.

(** [bootstrap.NewMySQLRepositories] *)
Definition mysql_backend : Backend := {| TS := TD; IS := ID; WS := WD |}.
Definition mysql_contract : @BackendContract mysql_backend :=
  @Build_BackendContract mysql_backend MySQL_tasks_contract MySQL_instances_contract MySQL_workers_contract.

#[local] Existing Instance mysql_backend.
#[local] Existing Instance mysql_contract.
Context `{Env} `{MapRange}.

(** C8. Refinement: the serial executions of the scheduler over the MySQL repositories
    implement the ledger. Whatever handlers, loop iterations and jobs run one after
    another, none overlapping with the next, in any order, against any clock and
    network, any database that obeys the laws of its documentation and any
    statement of it that fails, the instances recorded in the database change by
    ledger steps only: new entries, and outcomes of entries that are still open.
    Handlers that overlap can reopen a closed entry ([Settle.finished_runs_again]). *)
Theorem production_refines_ledger (s s' : System) :
  world_inv (sys_world s) -> rtc serial_step s s' ->
  rtc ledger_step (ledger (my_insts (w_instances (sys_world s)))) (ledger (my_insts (w_instances (sys_world s')))).
Proof. intros Hi Hr. apply evolves_ledger. exact (proj2 (execution_lifecycle s s' Hr Hi)). Qed.

Lemma my_tasks_unsaved (db : TD) id t : my_tasks db !! id = Some t -> unsaved t.
Proof. unfold my_tasks. rewrite lookup_fmap_Some. by intros (r & <- & _). Qed.

Lemma event_tasks_none req ts w : Forall unsaved ts -> event_tasks req ts w = (w, Ok 0).
Proof.
  induction 1 as [|t ts Ht _ IH]; [done|]. cbn [event_tasks]. unfold bind.
  assert (event_matches (EventName req) t = false) as -> by (unfold event_matches; by rewrite (proj1 (proj2 (proj2 (proj2 (proj2 Ht)))))).
  simpl. by rewrite IH.
Qed.

Ltac by_answer := do 2 eexists; split; [reflexivity|by auto].

(** On the database an event starts nothing: the columns for the trigger type and
    the event name do not exist, so whatever was created and whatever is published,
    the handler leaves the world as it is and never reports a triggered task. *)
Theorem mysql_events_ignored method body w :
  world_inv w -> exists code n, Publish method body w = (w, Ok (code, n)) /\ (n = None \/ n = Some 0).
Proof.
  intros [Hi _]. unfold Publish. case_match; [by_answer|]. destruct body as [req|]; [|by_answer].
  case_match; [by_answer|]. unfold attempt, task_query, reads_res.
  destruct (ListTasks (w_tasks w)) as [ts|e] eqn:E; [|by_answer].
  apply (ListTasks_ok _ _ Hi) in E as [_ Hin]. unfold bind. rewrite event_tasks_none; [by_answer|].
  apply Forall_forall. intros t Ht. apply Hin in Ht as [_ [k Hk]]. exact (my_tasks_unsaved _ _ _ Hk).
Qed.
End Production.

(** ** On concrete executions *)

Definition mem_backend : Backend := mysql_backend (TD:=TaskDB) (ID:=Mem taskInstanceRow Z) (WD:=Mem workerNodeRow string).
Definition mem_contract : @BackendContract mem_backend := mysql_contract.

(** An empty database, one task and one dispatched instance. *)
Definition mem_world (ts : list Task) (xs : list TaskInstance) : @World mem_backend :=
  @mkWorld mem_backend
    (foldl (fun db t => (my_CreateTask start_time t db).1) (mkTaskDB (mkMem ∅ 1) (mkMem ∅ 1)) ts)
    (foldl (fun db i => (my_CreateInstance start_time i db).1) (mkMem ∅ 1) xs)
    (mkMem ∅ 1) 0 0 0 None None [] [] [].

Lemma mem_world_inv ts xs : @world_inv mem_backend mem_contract (mem_world ts xs).
Proof.
  split_and!; simpl; [| |done].
  - generalize (conj (empty_inv 1) (empty_inv 1) : my_tasks_inv (mkTaskDB (mkMem ∅ 1) (mkMem ∅ 1))).
    generalize (mkTaskDB (mkMem ∅ 1) (mkMem ∅ 1)). induction ts as [|t ts IH]; intros db Hi; [done|]. simpl. apply IH.
    by destruct (my_create_task start_time t db Hi) as (db' & x & -> & ? & _).
  - generalize (empty_inv 1 : table_inv (mkMem (∅ : gmap Z taskInstanceRow) 1)).
    generalize (mkMem (∅ : gmap Z taskInstanceRow) 1). induction xs as [|i xs IH]; intros db Hi; [done|]. simpl. apply IH.
    exact (proj1 (my_create_instance start_time i db _ _ Hi (surjective_pairing _))).
Qed.

Definition prod0 : @System mem_backend :=
  mkSystem (mem_world [sample_task] [sample_instance 1 "s1" "dispatched" "a" 0]) Hybrid.New.
(** The worker reports success, then a late failure. *)
Definition prod1 : @System mem_backend :=
  mkSystem (@handle_Report mem_backend (answering 200) "POST" (Some (mkReport "s1" "a" "success" "" "" "" ""))
              (sys_world prod0)).1 Hybrid.New.
Definition prod2 : @System mem_backend :=
  mkSystem (@handle_Report mem_backend (answering 200) "POST" (Some (mkReport "s1" "a" "failed" "late" "" "" ""))
              (sys_world prod1)).1 Hybrid.New.

Definition recorded (s : @System mem_backend) : gmap Z entry := ledger (my_insts (w_instances (sys_world s))).

Lemma production_refines_ledger_witness :
  rtc ledger_step (recorded prod0) (recorded prod2) /\
  (e_status <$> recorded prod0 !! 1) = Some "dispatched" /\ (e_status <$> recorded prod2 !! 1) = Some "success".
Proof.
  split; [|vm_compute; done].
  apply (production_refines_ledger (TD:=TaskDB) (ID:=Mem taskInstanceRow Z) (WD:=Mem workerNodeRow string)
    (H0:=answering 200) prod0 prod2); [apply mem_world_inv|].
  apply rtc_l with (y := prod1); [right; apply StepReport|]. apply rtc_once. right. apply StepReport.
Defined.

Definition hooked : Task :=
  {| task_ID := 0; task_Name := "hook"; task_Type := "shell"; task_CronExpr := ""; task_Payload := "run"; task_Image := "";
     task_Status := "enabled"; task_TimeoutSeconds := 60; task_MaxRetry := 0; task_RetryPolicy := ""; task_RetryOnErrors := "";
     task_RetryIntervalSeconds := 5; task_RetryWindowSeconds := 60; task_RouteStrategy := ""; task_Labels := "{}";
     task_NextTriggerTime := zero_time; task_TenantID := 7; task_Version := 0; task_TotalShards := 3;
     task_IdempotencyKey := "k"; task_TriggerType := "event"; task_EventName := "deploy";
     task_CreatedAt := zero_time; task_UpdatedAt := zero_time |}.

Lemma mysql_events_ignored_witness :
  exists n, (@Publish mem_backend (answering 200) "POST" (Some (mkPublish "deploy" [])) (mem_world [hooked] [])).2 = Ok (200, n) /\
    (n = None \/ n = Some 0).
Proof.
  destruct (mysql_events_ignored (TD:=TaskDB) (ID:=Mem taskInstanceRow Z) (WD:=Mem workerNodeRow string)
    (H0:=answering 200) "POST" (Some (mkPublish "deploy" [])) (mem_world [hooked] []) (mem_world_inv _ _))
    as (code & n & E & Hn). exists n. split; [|exact Hn].
  assert (code = 200) as -> by (apply (f_equal snd) in E; vm_compute in E; congruence). exact (f_equal snd E).
Defined.

Definition empty_tasks : TaskDB := mkTaskDB (mkMem ∅ 1) (mkMem ∅ 1).

Lemma empty_tasks_inv : my_tasks_inv empty_tasks.
Proof. split; apply empty_inv. Qed.

Lemma mysql_task_roundtrip_witness :
  exists t', (my_CreateTask start_time hooked empty_tasks).2 = Ok t' /\ task_TotalShards t' = 0 /\ task_Name t' = "hook" /\
    my_GetTask (task_ID t') (my_CreateTask start_time hooked empty_tasks).1 = Ok t'.
Proof.
  destruct (my_CreateTask start_time hooked empty_tasks).2 as [t'|e] eqn:E; [|by vm_compute in E].
  destruct (mysql_task_roundtrip start_time hooked empty_tasks _ t' empty_tasks_inv (run_eq _ _ E))
    as ((Hc & _ & Hu) & Hg & _).
  exists t'. split; [done|]. split; [apply Hu|]. split; [apply Hc|].
  destruct (my_GetTask (task_ID t') (my_CreateTask start_time hooked empty_tasks).1) as [x|e] eqn:G; [by rewrite (Hg x eq_refl)|].
  vm_compute in E. injection E as <-. by vm_compute in G.
Defined.

Definition one_instance : Mem taskInstanceRow Z := w_instances (mem_world [] [sample_instance 1 "s1" "running" "a" 0]).

Lemma mysql_blind_writes_witness :
  my_insts (my_UpdateInstanceTimestamps start_time "nobody" start_time zero_time one_instance).1 = my_insts one_instance.
Proof.
  exact (mysql_blind_writes start_time "nobody" start_time zero_time one_instance _ tt
    (proj1 (proj2 (mem_world_inv [] [sample_instance 1 "s1" "running" "a" 0]))) (run_eq _ _ eq_refl)).
Defined.
